(* ===== verification/_CoqProject ===== *)
-Q . S2P
Prelude.v
Packet.v
Fsm.v
Hash.v
Auth.v
Netip.v
NetipParse.v
Strconv.v
Sdnotify.v
VulnAudit.v
Flag.v
Jitter.v
Session.v
SessionInv.v
SessionSteps.v
SessionProps.v
SessionFindings.v
SessionFrame.v
SessionReplay.v
SessionDrain.v
Intervals.v
Discriminator.v
Micro.v
Unsolicited.v
Echo.v
Manager.v
ManagerSteps.v
ManagerInv.v
ManagerOps.v
ManagerProps.v
ManagerReconcile.v
ManagerCalls.v
Shutdown.v
Metrics.v
SessionMetrics.v
ManagerFindings.v
Bgp.v
Overlay.v
Transport.v
Receive.v
Peers.v
Config.v
Endpoint.v
Lag.v
Load.v
LagProps.v
LagBackends.v
NetworkManager.v
Daemon.v
Listeners.v
Ifmon.v
LagEnforce.v
LagModels.v
DaemonProps.v
DaemonFindings.v
Server.v
ServerProps.v
ServerFindings.v
Http.v
Rpc.v
Start.v
DaemonMain.v
Agents.v
AgentsProps.v
AgentMain.v
Ctl.v
CtlProps.v
Shell.v
