(* ===== verification/Prelude.v ===== *)
(** * GoBFD verification library

    GoBFD is a Bidirectional Forwarding Detection daemon (RFC 5880 and its
    companions) written in Go.  This library models its protocol engine
    ([internal/bfd]) and what surrounds it (BGP integration, network input and
    output, enforcement on link aggregates, configuration, reload, API) as executable
    Rocq definitions and proves the properties that make it a correct BFD
    implementation.

    ** The program

    A packet arrives at a listener ([internal/netio]), is decoded ([packet.go]) and
    handed to the session manager ([manager*.go]), which finds the session it is
    addressed to, by discriminator or by peer, and puts it into that session's
    receive channel; an unknown peer may get a passive session by policy
    ([unsolicited.go], RFC 9468).  Every session ([session*.go]) is a goroutine
    that selects among its receive channel, a control channel and two timers; it
    verifies and signs packets ([auth.go]), runs the state machine ([fsm.go]),
    negotiates its timers and sends packets.  Its state changes go to the manager's
    dispatch goroutine, which updates the Micro-BFD groups ([micro.go], RFC 7130),
    informs subscribers and schedules the clean-up of unsolicited sessions.  Echo
    sessions ([echo.go], RFC 9747) are a second, simpler kind of session.  The
    manager also reconciles the running sessions with a desired configuration, which
    the daemon ([cmd/gobfd]) derives from its configuration file ([internal/config])
    at start and on every reload.  Clients add and delete sessions through the API
    ([internal/server]), for which there is a command line client ([gobfdctl]).  State
    changes drive a BGP daemon ([internal/gobgp]) and the members of bonds
    ([lag_*.go]); the netlink monitor ([ifmon_linux.go]) takes the sessions of a lost
    link down.  Two further programs watch the sessions through the API, an agent for
    the HAProxy load balancer and a bridge to ExaBGP.

    ** The files

    - Prelude: machine-width integers, the outcomes of Go code, byte slices and
      writes into them, big-endian words, tactics and hint databases.
    - Packet: [packet.go], the codec; [ControlPacket] and [AuthSection] are the
      structs, [MarshalControlPacket] and [UnmarshalControlPacket] the two
      directions, [wire] the RFC format as a specification.
    - Fsm: [fsm.go]; the table, the array [init] builds from it, [ApplyEvent], and
      the pseudocode of RFC 5880 as the specification.
    - Hash: MD5 and SHA-1 of the Go standard library, executable, checked on their
      RFC test vectors.  Auth: [auth.go]; key stores, the five authentication
      types, signing and verification on the packet buffer, sequence numbers.
    - Netip: what the code uses of the standard library's net/netip.  Strconv: numbers
      and durations as text.  Flag: command lines and [internal/version].
      Sdnotify: [sdnotify.go] and the watchdog of [main.go].
    - Jitter: the xorshift generator and the transmission jitter of
      [session_packet.go].
    - Session: [session.go], [session_loop.go], [session_packet.go]; the record
      [Session] is the struct, [Sys] adds the timers, the packets sent, the
      notifications and the calls of the metrics reporter, [runLoop_turn] is one
      iteration of the select loop.
      SessionInv has the invariant and the handlers' lemmas, SessionSteps the
      specifications of whole handlers, SessionProps reachability and the
      properties, SessionFrame what no handler changes, SessionDrain what a session
      does with a command to go down, SessionMetrics what the reported metrics say,
      SessionReplay which sequence numbers it accepts, SessionFindings the places where
      code and documentation differ.
    - Intervals: [intervals.go].  Discriminator: [discriminator.go].
      Unsolicited: [unsolicited.go].  Micro: [micro.go], with an abstract link
      aggregate as its specification.  Echo: [echo.go].
    - Manager: [manager.go], [manager_session.go], [manager_echo.go],
      [manager_micro.go].  ManagerSteps has the interleaving of API calls and
      goroutines as a step relation, ManagerInv its invariant, ManagerOps the
      operations as sequences of steps, ManagerProps and ManagerReconcile the
      properties, ManagerFindings the differences from the documentation.
      ManagerCalls has what single calls change, Shutdown the drain of
      [cmd/gobfd/shutdown.go], Metrics the collector of [internal/metrics] with the
      manager's calls of it.
    - Bgp: [internal/gobgp]; the RFC 9384 communication, flap dampening with IEEE 754
      penalties, the client's guard, and the handler that turns state changes into
      calls of the BGP daemon.
    - NetipParse: parsing of addresses and prefixes, and that it inverts printing.
    - Overlay: [vxlan.go], [geneve.go], [overlay_inner.go], [overlay.go] and the
      connections; the headers and the inner packet with its checksums.
      Transport: sockets, control messages, TTL checks, senders and source ports
      ([rawsock*.go], [sender.go]).  Receive: the listeners and the three receive
      loops from a datagram to the manager.  Peers: two managers facing each other.
    - Lag: [lag_*.go]; the actuator and its back ends, with the file system, the
      OVSDB library and the message bus as a record of operations on a world.
      LagProps states what a back end promises and what follows for the bond,
      LagBackends that the three back ends keep the promise, LagEnforce the property
      of the actuator the daemon builds, LagModels concrete worlds.  NetworkManager:
      the operations of [dbusNetworkManager] as calls of bus objects.
    - Config: [config.go]; the configuration tree, defaults, keys and validation.
      Load: its loader, the layers of defaults, file and environment.  Endpoint: the
      check for an unprotected BGP endpoint.
    - Daemon: [cmd/gobfd]; the sender factory, the conversions, the four
      reconciliations of start and reload, the set-up of the manager.  DaemonProps
      has its properties, DaemonFindings the differences from the documentation.
      Listeners: [listeners.go] and its Micro-BFD part; which sockets are opened, who
      reads them and who closes them.  Ifmon: [ifmon.go], [ifmon_linux.go] and the
      goroutine that hands link events to the manager.
    - Server: [internal/server]; the handlers of the three services and their
      conversions.  ServerProps has the property, ServerFindings the differences.
      Rpc: [interceptors.go]; the procedures behind logging and recovery.
    - Start: [main.go] and [handlers.go]; the daemon from its start over the calls,
      reloads and steps of the manager to its end, as a step relation.  Http: the
      metrics server of [shutdown.go].  DaemonMain: [run], the command line, the logger
      and the reload on SIGHUP around it.
    - Agents: [gobfd-haproxy-agent] and [gobfd-exabgp-bridge], with their properties in
      AgentsProps and the whole programs in AgentMain.  Ctl: the commands of
      [gobfdctl], from options to requests and from answers to text, with their
      property in CtlProps.  Shell: the two command trees and the interactive shell.
    - VulnAudit: [scripts/vuln-audit.go], the build tool that compares the reports of two
      scanners with a list of allowed vulnerabilities.

    ** How Go is modelled

    Integers are [Z] with the cast of their width where an operation can wrap;
    durations are nanoseconds in 64 bits.  A call returns [Ok], [Err] or [Panic];
    out-of-range indices, nil pointers, sends on closed channels and second closes
    panic.  Buffers the caller owns are threaded through, so that aliasing of the
    packet buffer, the digest slot and the cached packet is visible.  A bounded
    channel is a queue with its capacity; a non-blocking send into a full one is
    dropped as in the code.  A timer is its deadline.  The clock, the random
    source, the success of the network sender, room in a channel owned by others
    and the iteration order of Go maps are inputs that every theorem quantifies
    over.  Session entries live in a heap, because the manager's maps share
    pointers.  An operation that holds one lock throughout is one step; an
    operation that releases the lock in between is several, and other goroutines
    may run between them.

    ** What is proved

    - Codec: decoding inverts encoding, encoding writes the RFC format, the decoder
      never panics and accepts only what the RFC admits.
    - State machine: the array is the table for every initialization order, the
      machine is the RFC's, two peers converge to Up.
    - Authentication: what is signed verifies at a peer with the key, acceptance is
      characterized exactly; a session with a meticulous type accepts no sequence number
      twice until it has heard nothing for two detection times.
    - Sessions: no handler panics; reception, polls, transmission rate and failure
      detection follow the RFC, except that a packet which ends the session also clears
      the remote discriminator; every packet sent is legal; two active sessions without
      authentication that exchange real packets come up, and so do two daemons, from the
      timer of the one through the receive path of the other, while both managers only
      make steps of their relation; the reported metrics agree with what the session did.
    - Echo sessions, Micro-BFD groups, unsolicited policy, discriminators and
      common intervals: their contracts, the groups as a refinement.
    - Manager: under every interleaving sessions are unique and found by their
      discriminator and peer, the unsolicited limit holds and nothing panics;
      creation, destruction, demultiplexing and reconciliation do exactly what
      they promise.
    - BGP integration: what can suppress an event and for how long; without
      dampening exactly one call per transition, in order, and where it leads.
    - Network: tunnels carry packets and accept exactly the well-formed ones, the
      checksums verify, packets from beyond one hop are dropped, and whatever arrives
      on a socket, nothing panics and the manager only makes its steps.
    - Configuration and reload: what validation admits the engine accepts, exactly
      up to stated bounds; a reload never panics and keeps ports and senders
      consistent, and with working sockets and free ports it reaches the configured
      sessions.  A loaded configuration is valid and has in a field the environment's
      value, else the file's, else the default, for keys without values above them; the
      fields for which the code departs from its documentation are named.
    - Enforcement: the members of a bond follow the Micro-BFD sessions once they were
      Up, for each back end, from the configuration to the calls.
    - API: a session can be added, read, listed and deleted without residue, also
      from the command line and with any output format; where it is read by its
      discriminator its authentication is lost.
    - Daemon: the sockets serve the configuration, on the interface of one of the sessions
      of an address and kind, and none is left behind; a lost link puts a command into
      the channel of its sessions, from the bytes of the kernel's message on, and a
      session that takes it goes Down; a start panics only on a metrics path the HTTP
      library refuses or a watchdog interval that is not positive, and from then on, over
      any calls and reloads, nothing does to the end and all invariants hold; shutdown
      tells the peers; the gauge of sessions is exact.  The end is that of a daemon whose
      goroutines have returned; [exit_needs_datagrams] shows that for the receivers this
      takes one more datagram on every socket.  The process with its reloads on SIGHUP
      refines that daemon, and its log level is that of the last configuration that
      loaded.
    - Watching clients: the agent and the bridge report the state of the session; the
      agent does so as a program, for every backend and every order of its goroutines.
    - Command line and tools: a shell session does what its commands do one by one,
      except for the two groups of commands it lacks; the audit passes exactly if both
      scanners gave a readable report and every finding has a complete, current entry.

    ** Bounds

    Loops of the code are structural recursions over their data, the allocator's
    loop has the code's own bound of 100 attempts, and a non-terminating select loop
    is a step relation whose turns are total functions.  Where a loop has fuel it is
    enough: the carry of a checksum is folded at most twice ([fold_carry_done]), a
    receive loop has at most one turn per event ([recv_loop_safe]), the parser of
    IPv6 addresses has the code's own bound of eight groups, and the netlink parsers
    take at least one byte per turn of a fuel that is the length of the datagram.  The
    parser of command lines takes an argument per turn ([parse_flags_enough]).
    Configurations are assumed to have the field widths of their Go types.

    ** What is not modelled

    The text of log lines, except that of API calls, and the trace of the flight
    recorder, which do not feed back.  Sockets, netlink, the message bus and remote
    calls are inputs and outputs of the modelled code.  The bytes of HTTP, and the
    libraries for configuration files, metrics, JSON, YAML, command trees, line editing
    and aligned columns are not part of the repository; where the code depends on them
    they are an interface with the laws it relies on, or an input.  The generated
    protocol code is left out: its messages are the records the handlers use. *)
From Stdlib Require Export ZArith Lia.
From stdpp Require Export base tactics option numbers strings gmap.
From stdpp Require Export list.

Local Open Scope Z_scope.

(** ** Machine-width integers

    Go's fixed-width integers are kept as [Z]; every operation of the source
    that can wrap is followed by the cast of its width. *)

Definition u8 (z : Z) : Z := z mod 2 ^ 8.
Definition u16 (z : Z) : Z := z mod 2 ^ 16.
Definition u32 (z : Z) : Z := z mod 2 ^ 32.
Definition u64 (z : Z) : Z := z mod 2 ^ 64.
Definition i32 (z : Z) : Z := (z + 2 ^ 31) mod 2 ^ 32 - 2 ^ 31.
Definition i64 (z : Z) : Z := (z + 2 ^ 63) mod 2 ^ 64 - 2 ^ 63.

Definition is_u8 (z : Z) : Prop := 0 <= z < 256.
Definition is_u16 (z : Z) : Prop := 0 <= z < 65536.
Definition is_u32 (z : Z) : Prop := 0 <= z < 4294967296.
Definition is_u64 (z : Z) : Prop := 0 <= z < 18446744073709551616.
Definition is_i64 (z : Z) : Prop := - 9223372036854775808 <= z < 9223372036854775808.

Definition zlen {A} (l : list A) : Z := Z.of_nat (length l).

(** ** Outcomes of Go code

    A call returns a value, returns a (wrapped) sentinel error, or panics. *)

Inductive go (E A : Type) : Type :=
| Ok (a : A)
| Err (e : E)
| Panic.
Arguments Ok {E A} a.
Arguments Err {E A} e.
Arguments Panic {E A}.

#[export] Instance go_ret E : MRet (go E) := fun A a => Ok a.
#[export] Instance go_bind E : MBind (go E) := fun A B f m =>
  match m with
  | Ok a => f a
  | Err e => Err e
  | Panic => Panic
  end.

(** [%w] wrapping and conversion between the error types of two packages. *)
Definition go_wrap {E F A} (f : E -> F) (m : go E A) : go F A :=
  match m with
  | Ok a => Ok a
  | Err e => Err (f e)
  | Panic => Panic
  end.

(** ** Byte slices

    A [\[\]byte] is the list of its bytes.  Every slice of the modelled code is
    made with capacity equal to its length, so a slice expression is in range
    exactly when its upper bound is at most the length. *)

Definition idx {E} (buf : list Z) (i : nat) : go E Z :=
  match buf !! i with
  | Some b => Ok b
  | None => Panic
  end.

Definition slice {E} (buf : list Z) (lo hi : nat) : go E (list Z) :=
  if bool_decide ((lo <= hi)%nat /\ (hi <= length buf)%nat)
  then Ok (take (hi - lo) (drop lo buf))
  else Panic.

Definition is_byte (z : Z) : Prop := 0 <= z < 256.
Definition bytes_ok (l : list Z) : Prop := Forall is_byte l.

#[export] Instance is_byte_dec z : Decision (is_byte z).
Proof. unfold is_byte. apply _. Defined.
#[export] Instance bytes_ok_dec l : Decision (bytes_ok l).
Proof. unfold bytes_ok. apply _. Defined.

(** [binary.BigEndian.PutUint32] and [binary.BigEndian.Uint32]. *)
Definition be32_bytes (v : Z) : list Z :=
  [u8 (Z.shiftr v 24); u8 (Z.shiftr v 16); u8 (Z.shiftr v 8); u8 v].

Definition be32_val (b0 b1 b2 b3 : Z) : Z :=
  Z.lor b3 (Z.lor (Z.shiftl b2 8) (Z.lor (Z.shiftl b1 16) (Z.shiftl b0 24))).

Definition get_uint32 {E} (buf : list Z) (i : nat) : go E Z :=
  match drop i buf with
  | b0 :: b1 :: b2 :: b3 :: _ => Ok (be32_val b0 b1 b2 b3)
  | _ => Panic
  end.

(** [binary.BigEndian.PutUint16] and [binary.BigEndian.Uint16]. *)
Definition be16_bytes (v : Z) : list Z := [u8 (Z.shiftr v 8); u8 v].

Definition be16_val (b0 b1 : Z) : Z := Z.lor b1 (Z.shiftl b0 8).

Definition get_uint16 {E} (buf : list Z) (i : nat) : go E Z :=
  match drop i buf with
  | b0 :: b1 :: _ => Ok (be16_val b0 b1)
  | _ => Panic
  end.

(** ** Code that writes into a caller's buffer

    The buffer is threaded through; a failing call returns it as it was at the
    point of failure, as in Go. *)

Definition bufM (E A : Type) : Type := list Z -> go E A * list Z.

#[export] Instance bufM_ret E : MRet (bufM E) := fun A a buf => (Ok a, buf).
#[export] Instance bufM_bind E : MBind (bufM E) := fun A B f m buf =>
  match m buf with
  | (Ok a, buf') => f a buf'
  | (Err e, buf') => (Err e, buf')
  | (Panic, buf') => (Panic, buf')
  end.

Definition b_fail {E A} (e : E) : bufM E A := fun buf => (Err e, buf).
Definition b_len {E} : bufM E Z := fun buf => (Ok (zlen buf), buf).

(** [buf\[i\] = v] *)
Definition b_put {E} (i : nat) (v : Z) : bufM E unit := fun buf =>
  if bool_decide (i < length buf)%nat then (Ok tt, <[i := v]> buf) else (Panic, buf).

(** [copy(buf\[i:\], src)] *)
Definition b_copy {E} (i : nat) (src : list Z) : bufM E unit := fun buf =>
  if bool_decide (i <= length buf)%nat
  then let n := Nat.min (length src) (length buf - i) in
       (Ok tt, take i buf ++ take n src ++ drop (i + n) buf)
  else (Panic, buf).

(** [binary.BigEndian.PutUint32(buf\[i:i+4\], v)] *)
Definition b_put32 {E} (i : nat) (v : Z) : bufM E unit := fun buf =>
  if bool_decide (i + 4 <= length buf)%nat
  then (Ok tt, take i buf ++ be32_bytes v ++ drop (i + 4) buf)
  else (Panic, buf).

(** [binary.BigEndian.PutUint16(buf\[i:i+2\], v)] *)
Definition b_put16 {E} (i : nat) (v : Z) : bufM E unit := fun buf =>
  if bool_decide (i + 2 <= length buf)%nat
  then (Ok tt, take i buf ++ be16_bytes v ++ drop (i + 2) buf)
  else (Panic, buf).

(** Run [m] on the sub-slice [buf\[:i\]]. *)
Definition b_upto {E A} (i : nat) (m : bufM E A) : bufM E A := fun buf =>
  if bool_decide (i <= length buf)%nat
  then let '(r, hd) := m (take i buf) in (r, hd ++ drop i buf)
  else (Panic, buf).

(** Run [m] on the sub-slice [buf\[i:\]]. *)
Definition b_from {E A} (i : nat) (m : bufM E A) : bufM E A := fun buf =>
  if bool_decide (i <= length buf)%nat
  then let '(r, tl) := m (drop i buf) in (r, take i buf ++ tl)
  else (Panic, buf).

(** ** Automation *)

Create HintDb bfd.
Create Rewrite HintDb bfd_rw.

(** Case on the scrutinee of a [match] or [if] of the goal or a hypothesis. *)
Ltac case_step :=
  match goal with
  | H : context [match ?x with _ => _ end] |- _ =>
      lazymatch x with context [match _ with _ => _ end] => fail | _ => destruct x eqn:?; try discriminate H end
  | |- context [match ?x with _ => _ end] =>
      lazymatch x with context [match _ with _ => _ end] => fail | _ => destruct x eqn:? end
  end.

(** Turn boolean comparisons of the code into propositions. *)
Ltac bools :=
  repeat match goal with
  | H : _ && _ = true |- _ => apply andb_true_iff in H as [? ?]
  | H : _ || _ = false |- _ => apply orb_false_iff in H as [? ?]
  | H : negb _ = true |- _ => apply negb_true_iff in H
  | H : negb _ = false |- _ => apply negb_false_iff in H
  | H : (_ =? _) = true |- _ => apply Z.eqb_eq in H
  | H : (_ =? _) = false |- _ => apply Z.eqb_neq in H
  | H : (_ <? _) = true |- _ => apply Z.ltb_lt in H
  | H : (_ <? _) = false |- _ => apply Z.ltb_ge in H
  | H : (_ <=? _) = true |- _ => apply Z.leb_le in H
  | H : (_ <=? _) = false |- _ => apply Z.leb_gt in H
  | H : bool_decide _ = true |- _ => apply bool_decide_eq_true in H
  | H : bool_decide _ = false |- _ => apply bool_decide_eq_false in H
  end.

(** Unfold the width casts and let [lia] work with [mod] and [/]. *)
Ltac width_lia :=
  unfold u8, u16, u32, u64, i32, i64, is_u8, is_u16, is_u32, is_u64, is_i64, is_byte in *;
  change (2 ^ 8) with 256 in *; change (2 ^ 16) with 65536 in *;
  change (2 ^ 31) with 2147483648 in *;
  change (2 ^ 32) with 4294967296 in *; change (2 ^ 63) with 9223372036854775808 in *;
  change (2 ^ 64) with 18446744073709551616 in *;
  Z.div_mod_to_equations; lia.

(** Invert a successful monadic computation. *)
Lemma go_bind_Ok {E A B} (m : go E A) (f : A -> go E B) b :
  m ≫= f = Ok b <-> exists a, m = Ok a /\ f a = Ok b.
Proof.
  destruct m; cbn; split; try discriminate; [eauto|intros (? & [= ->] & ?); done| |];
    intros (? & ? & _); discriminate.
Qed.

Lemma go_bind_Panic {E A B} (m : go E A) (f : A -> go E B) :
  m <> Panic -> (forall a, m = Ok a -> f a <> Panic) -> m ≫= f <> Panic.
Proof. destruct m; cbn; intros; [auto|discriminate|done]. Qed.

Ltac go_inv H :=
  repeat lazymatch type of H with
  | (_ ≫= _) = Ok _ => apply go_bind_Ok in H as (? & ? & H)
  | (if ?b then _ else _) = Ok _ =>
      let E := fresh "E" in destruct b eqn:E; [try discriminate H|try discriminate H]
  | Ok _ = Ok _ => injection H as H
  end.

(** ** Generic lemmas: integers *)

Lemma u8_byte z : is_byte (u8 z).
Proof. width_lia. Qed.

Lemma u8_small z : 0 <= z < 256 -> u8 z = z.
Proof. intros; width_lia. Qed.

Lemma u32_range z : is_u32 (u32 z).
Proof. width_lia. Qed.

Lemma u32_small z : is_u32 z -> u32 z = z.
Proof. intros; width_lia. Qed.

Lemma u64_range z : is_u64 (u64 z).
Proof. width_lia. Qed.

Lemma i64_small z : is_i64 z -> i64 z = z.
Proof. intros; width_lia. Qed.

Lemma i64_range z : is_i64 (i64 z).
Proof. width_lia. Qed.

#[export] Hint Resolve u8_byte u32_range u64_range i64_range : bfd.
#[export] Hint Rewrite u8_small u32_small i64_small using (unfold is_u32, is_i64 in *; lia) : bfd_rw.

(** Or-ing a value below [2^n] with a left shift by [n] adds them. *)
Lemma lor_shiftl_add a b n :
  0 <= n -> 0 <= a < 2 ^ n -> Z.lor a (Z.shiftl b n) = a + b * 2 ^ n.
Proof.
  intros Hn Ha. rewrite Z.shiftl_mul_pow2 by lia.
  assert (Z.land a (b * 2 ^ n) = 0) as Hland.
  { apply Z.bits_inj'. intros i Hi.
    rewrite Z.land_spec, Z.bits_0. destruct (Z.ltb_spec i n).
    - rewrite (Z.mul_pow2_bits_low b n i) by lia. apply andb_false_r.
    - rewrite <- (Z.mod_small a (2 ^ n)) by lia.
      by rewrite Z.mod_pow2_bits_high by lia. }
  pose proof (Z.add_lor_land a (b * 2 ^ n)). lia.
Qed.

(** Equivalence of decidable propositions by evaluation. *)
Lemma iff_of_bool_decide (P Q : Prop) `{Decision P, Decision Q} :
  bool_decide P = bool_decide Q -> (P <-> Q).
Proof. repeat case_bool_decide; done. Qed.

(** A boolean check over all 256 bytes. *)
Definition all_bytes : list Z := seqZ 0 256.

Lemma all_bytes_spec (P : Z -> bool) b :
  forallb P all_bytes = true -> is_byte b -> P b = true.
Proof.
  intros H Hb. rewrite forallb_forall in H. apply H, list_elem_of_In, elem_of_seqZ.
  unfold is_byte in Hb. lia.
Qed.

(** ** Generic lemmas: big-endian words *)

Lemma be32_val_add b0 b1 b2 b3 :
  is_byte b0 -> is_byte b1 -> is_byte b2 -> is_byte b3 ->
  be32_val b0 b1 b2 b3 = b3 + b2 * 256 + b1 * 65536 + b0 * 16777216.
Proof.
  unfold is_byte, be32_val; intros.
  assert (E1 : Z.lor (Z.shiftl b1 16) (Z.shiftl b0 24) = Z.shiftl (b1 + b0 * 256) 16).
  { replace (Z.shiftl b0 24) with (Z.shiftl (Z.shiftl b0 8) 16)
      by (rewrite Z.shiftl_shiftl by lia; f_equal; lia).
    rewrite <- Z.shiftl_lor, lor_shiftl_add; [f_equal|..]; lia. }
  assert (E2 : Z.lor (Z.shiftl b2 8) (Z.shiftl (b1 + b0 * 256) 16)
               = Z.shiftl (b2 + (b1 + b0 * 256) * 256) 8).
  { replace (Z.shiftl (b1 + b0 * 256) 16) with (Z.shiftl (Z.shiftl (b1 + b0 * 256) 8) 8)
      by (rewrite Z.shiftl_shiftl by lia; f_equal; lia).
    rewrite <- Z.shiftl_lor, lor_shiftl_add; [f_equal|..]; lia. }
  rewrite E1, E2, lor_shiftl_add; lia.
Qed.

Lemma be32_bytes_div v :
  be32_bytes v = [(v / 16777216) mod 256; (v / 65536) mod 256; (v / 256) mod 256; v mod 256].
Proof. unfold be32_bytes, u8. by rewrite !Z.shiftr_div_pow2 by lia. Qed.

Lemma be32_bytes_ok v : bytes_ok (be32_bytes v).
Proof. unfold be32_bytes. repeat constructor; apply u8_byte. Qed.

Lemma be32_val_range b0 b1 b2 b3 :
  is_byte b0 -> is_byte b1 -> is_byte b2 -> is_byte b3 -> is_u32 (be32_val b0 b1 b2 b3).
Proof. intros. rewrite be32_val_add by done. width_lia. Qed.

(** Reading back what [PutUint32] wrote. *)
Lemma be32_round v :
  is_u32 v ->
  be32_val (u8 (Z.shiftr v 24)) (u8 (Z.shiftr v 16)) (u8 (Z.shiftr v 8)) (u8 v) = v.
Proof.
  intros. rewrite be32_val_add by apply u8_byte.
  rewrite !Z.shiftr_div_pow2 by lia.
  change (2 ^ 24) with 16777216; change (2 ^ 16) with 65536; change (2 ^ 8) with 256.
  width_lia.
Qed.

Lemma be16_val_add b0 b1 : is_byte b0 -> is_byte b1 -> be16_val b0 b1 = b1 + b0 * 256.
Proof. unfold is_byte, be16_val. intros. rewrite lor_shiftl_add; lia. Qed.

Lemma be16_val_range b0 b1 : is_byte b0 -> is_byte b1 -> is_u16 (be16_val b0 b1).
Proof. intros. rewrite be16_val_add by done. width_lia. Qed.

Lemma be16_bytes_ok v : bytes_ok (be16_bytes v).
Proof. unfold be16_bytes. repeat constructor; apply u8_byte. Qed.

Lemma be16_round v : is_u16 v -> be16_val (u8 (Z.shiftr v 8)) (u8 v) = v.
Proof.
  intros. rewrite be16_val_add by apply u8_byte. rewrite Z.shiftr_div_pow2 by lia.
  change (2 ^ 8) with 256. width_lia.
Qed.

(** Writing what [Uint32] read gives the same bytes. *)
Lemma be32_inv b0 b1 b2 b3 :
  is_byte b0 -> is_byte b1 -> is_byte b2 -> is_byte b3 ->
  be32_bytes (be32_val b0 b1 b2 b3) = [b0; b1; b2; b3].
Proof.
  intros. rewrite be32_val_add, be32_bytes_div by done.
  repeat (f_equal; [width_lia|]). f_equal; width_lia.
Qed.

#[export] Hint Resolve be32_bytes_ok be32_val_range be16_bytes_ok be16_val_range : bfd.
#[export] Hint Rewrite be32_round be16_round using assumption : bfd_rw.

(** ** Generic lemmas: slices *)

Lemma bytes_ok_lookup l i b : bytes_ok l -> l !! i = Some b -> is_byte b.
Proof. intros H Hi. by eapply Forall_lookup_1. Qed.

Lemma bytes_ok_app l k : bytes_ok l -> bytes_ok k -> bytes_ok (l ++ k).
Proof. apply Forall_app_2. Qed.

Lemma bytes_ok_take n l : bytes_ok l -> bytes_ok (take n l).
Proof. apply Forall_take. Qed.

Lemma bytes_ok_drop n l : bytes_ok l -> bytes_ok (drop n l).
Proof. apply Forall_drop. Qed.

#[export] Hint Resolve bytes_ok_app bytes_ok_take bytes_ok_drop : bfd.

Lemma idx_ok {E} buf i : (i < length buf)%nat -> exists b, @idx E buf i = Ok b /\ buf !! i = Some b.
Proof. unfold idx. intros [b Hb]%lookup_lt_is_Some. exists b. by rewrite Hb. Qed.

Lemma slice_ok {E} buf lo hi :
  (lo <= hi)%nat -> (hi <= length buf)%nat ->
  @slice E buf lo hi = Ok (take (hi - lo) (drop lo buf)).
Proof. intros. unfold slice. by rewrite bool_decide_true by done. Qed.

Lemma idx_Ok_inv {E} buf i b : @idx E buf i = Ok b -> buf !! i = Some b.
Proof. unfold idx. destruct (buf !! i); congruence. Qed.

Lemma idx_byte {E} buf i b : bytes_ok buf -> @idx E buf i = Ok b -> is_byte b.
Proof. intros Hb Hi%idx_Ok_inv. by eapply bytes_ok_lookup. Qed.

Lemma get_uint32_inv {E} buf i v :
  @get_uint32 E buf i = Ok v ->
  exists b0 b1 b2 b3, take 4 (drop i buf) = [b0; b1; b2; b3] /\ v = be32_val b0 b1 b2 b3.
Proof.
  unfold get_uint32. destruct (drop i buf) as [|? [|? [|? [|]]]]; try discriminate.
  intros [= <-]. repeat eexists.
Qed.

Lemma get_uint32_bytes {E} buf i v :
  bytes_ok buf -> @get_uint32 E buf i = Ok v ->
  is_u32 v /\ be32_bytes v = take 4 (drop i buf).
Proof.
  intros Hb (b0 & b1 & b2 & b3 & Ht & ->)%get_uint32_inv.
  assert (bytes_ok [b0; b1; b2; b3]) as Hall by (rewrite <- Ht; auto with bfd).
  inversion_clear Hall as [|? ? ? H1]. inversion_clear H1 as [|? ? ? H2].
  inversion_clear H2 as [|? ? ? H3]. inversion_clear H3.
  rewrite Ht. split; [by apply be32_val_range|by apply be32_inv].
Qed.

Lemma slice_Ok_inv {E} buf lo hi l :
  @slice E buf lo hi = Ok l ->
  (lo <= hi)%nat /\ (hi <= length buf)%nat /\ l = take (hi - lo) (drop lo buf) /\
  length l = (hi - lo)%nat.
Proof.
  unfold slice. case_bool_decide as Hd; [|discriminate]. intros [= <-].
  rewrite length_take, length_drop. split_and!; [lia|lia|done|lia].
Qed.

(** A list of at least [n] elements is [n] elements followed by a rest. *)
Lemma list_split_length {A} (n : nat) (l : list A) :
  (n <= length l)%nat -> exists k r, l = k ++ r /\ length k = n.
Proof.
  intros. exists (take n l), (drop n l).
  rewrite take_drop, length_take. split; [done|lia].
Qed.

(** ** Generic lemmas: buffer-writing code *)

Lemma b_bind_ok {E A B} (m : bufM E A) (f : A -> bufM E B) buf a buf' :
  m buf = (Ok a, buf') -> (m ≫= f) buf = f a buf'.
Proof. intros H. unfold mbind, bufM_bind. by rewrite H. Qed.

Lemma b_put_ok {E} i v buf :
  (i < length buf)%nat -> @b_put E i v buf = (Ok tt, <[i := v]> buf).
Proof. intros. unfold b_put. by rewrite bool_decide_true. Qed.

Lemma b_put32_ok {E} i v buf :
  (i + 4 <= length buf)%nat ->
  @b_put32 E i v buf = (Ok tt, take i buf ++ be32_bytes v ++ drop (i + 4) buf).
Proof. intros. unfold b_put32. by rewrite bool_decide_true. Qed.

Lemma b_put16_ok {E} i v buf :
  (i + 2 <= length buf)%nat ->
  @b_put16 E i v buf = (Ok tt, take i buf ++ be16_bytes v ++ drop (i + 2) buf).
Proof. intros. unfold b_put16. by rewrite bool_decide_true. Qed.

Lemma b_copy_ok {E} i src buf :
  (i + length src <= length buf)%nat ->
  @b_copy E i src buf = (Ok tt, take i buf ++ src ++ drop (i + length src) buf).
Proof.
  intros. unfold b_copy. rewrite bool_decide_true by lia.
  rewrite Nat.min_l by lia. by rewrite firstn_all.
Qed.

Lemma b_upto_ok {E A} i (m : bufM E A) buf r hd :
  (i <= length buf)%nat -> m (take i buf) = (r, hd) ->
  b_upto i m buf = (r, hd ++ drop i buf).
Proof. intros ? H. unfold b_upto. rewrite bool_decide_true by done. by rewrite H. Qed.

Lemma b_from_ok {E A} i (m : bufM E A) buf r tl :
  (i <= length buf)%nat -> m (drop i buf) = (r, tl) ->
  b_from i m buf = (r, take i buf ++ tl).
Proof. intros ? H. unfold b_from. rewrite bool_decide_true by done. by rewrite H. Qed.

(** Run the next write of a buffer program whose index is in range. *)
Ltac b_step :=
  erewrite b_bind_ok by
    first [ done
          | apply b_put_ok; simpl; lia
          | apply b_put32_ok; simpl; lia
          | apply b_put16_ok; simpl; lia
          | apply b_copy_ok; simpl; lia ].
