(* ===== verification/Packet.v ===== *)
(** * BFD Control packet codec ([src/internal/bfd/packet.go])

    The record types [ControlPacket] and [AuthSection], the serializer
    [MarshalControlPacket] as code writing into a caller's buffer, and the
    validating decoder [UnmarshalControlPacket] as a total function on byte
    lists.  Decoding fills the caller's packet in place; every caller drops the
    packet when an error comes back, so the decoder here returns it only on
    success. *)

From S2P Require Import Prelude.
From stdpp Require Import pretty.

Local Open Scope Z_scope.

(** ** Protocol constants *)

Definition Version : Z := 1.
Definition HeaderSize : Z := 24.
Definition MaxPacketSize : Z := 64.
Definition MinPacketSizeNoAuth : Z := 24.
Definition MinPacketSizeWithAuth : Z := 26.

Definition authLenMD5 : Z := 24.
Definition authLenSHA1 : Z := 28.
Definition md5DigestSize : Z := 16.
Definition sha1DigestSize : Z := 20.
Definition simplePasswordMinLen : Z := 1.
Definition simplePasswordMaxLen : Z := 16.
Definition authSimpleHeaderSize : Z := 3.

(** ** Diagnostic codes, session states, authentication types

    Go's [Diag], [State] and [AuthType] are named [uint8]s: any byte is a value
    of the type, the constants name the ones the RFC defines. *)

Definition DiagNone : Z := 0.
Definition DiagControlTimeExpired : Z := 1.
Definition DiagEchoFailed : Z := 2.
Definition DiagNeighborDown : Z := 3.
Definition DiagForwardingPlaneReset : Z := 4.
Definition DiagPathDown : Z := 5.
Definition DiagConcatPathDown : Z := 6.
Definition DiagAdminDown : Z := 7.
Definition DiagReverseConcatPathDown : Z := 8.

Definition unknownFmt (v : Z) : string := ("Unknown(" +:+ pretty v +:+ ")")%string.

Definition diagNames : list string :=
  ["None"; "Control Detection Time Expired"; "Echo Function Failed";
   "Neighbor Signaled Session Down"; "Forwarding Plane Reset"; "Path Down";
   "Concatenated Path Down"; "Administratively Down";
   "Reverse Concatenated Path Down"]%string.

Definition Diag_String (d : Z) : string :=
  match diagNames !! Z.to_nat d with
  | Some s => s
  | None => unknownFmt d
  end.

Definition StateAdminDown : Z := 0.
Definition StateDown : Z := 1.
Definition StateInit : Z := 2.
Definition StateUp : Z := 3.

Definition stateNames : list string := ["AdminDown"; "Down"; "Init"; "Up"]%string.

Definition State_String (s : Z) : string :=
  match stateNames !! Z.to_nat s with
  | Some n => n
  | None => unknownFmt s
  end.

Definition AuthTypeNone : Z := 0.
Definition AuthTypeSimplePassword : Z := 1.
Definition AuthTypeKeyedMD5 : Z := 2.
Definition AuthTypeMeticulousKeyedMD5 : Z := 3.
Definition AuthTypeKeyedSHA1 : Z := 4.
Definition AuthTypeMeticulousKeyedSHA1 : Z := 5.

Definition authTypeNames : list string :=
  ["None"; "Simple Password"; "Keyed MD5"; "Meticulous Keyed MD5"; "Keyed SHA1";
   "Meticulous Keyed SHA1"]%string.

Definition AuthType_String (a : Z) : string :=
  match authTypeNames !! Z.to_nat a with
  | Some n => n
  | None => unknownFmt a
  end.

(** ** Packet types *)

Record AuthSection := mkAuthSection {
  auth_Type : Z;
  auth_Len : Z;
  auth_KeyID : Z;
  auth_AuthData : list Z;
  auth_SequenceNumber : Z;
  auth_Digest : list Z;
}.

Record ControlPacket := mkControlPacket {
  pkt_Version : Z;
  pkt_Diag : Z;
  pkt_State : Z;
  pkt_Poll : bool;
  pkt_Final : bool;
  pkt_ControlPlaneIndependent : bool;
  pkt_AuthPresent : bool;
  pkt_Demand : bool;
  pkt_Multipoint : bool;
  pkt_DetectMult : Z;
  pkt_Length : Z;
  pkt_MyDiscriminator : Z;
  pkt_YourDiscriminator : Z;
  pkt_DesiredMinTxInterval : Z;
  pkt_RequiredMinRxInterval : Z;
  pkt_RequiredMinEchoRxInterval : Z;
  pkt_Auth : option AuthSection;
}.

#[export] Instance AuthSection_eq_dec : EqDecision AuthSection.
Proof. solve_decision. Defined.
#[export] Instance ControlPacket_eq_dec : EqDecision ControlPacket.
Proof. solve_decision. Defined.

(** Sentinel errors of the codec. *)
Inductive packet_error :=
| ErrInvalidVersion
| ErrPacketTooShort
| ErrInvalidLength
| ErrLengthExceedsPayload
| ErrZeroDetectMult
| ErrMultipointSet
| ErrZeroMyDiscriminator
| ErrZeroYourDiscriminator
| ErrAuthMismatch
| ErrBufTooSmall
| ErrInvalidAuthType
| ErrAuthSectionTruncated.

#[export] Instance packet_error_eq_dec : EqDecision packet_error.
Proof. solve_decision. Defined.

(** ** Serialization *)

Definition marshalAuthSection (auth : AuthSection) : bufM packet_error unit :=
  n ← b_len;
  if n <? auth_Len auth then b_fail ErrBufTooSmall else
  _ ← b_put 0 (auth_Type auth);
  _ ← b_put 1 (auth_Len auth);
  if auth_Type auth =? AuthTypeSimplePassword then
    _ ← b_put 2 (auth_KeyID auth);
    b_copy 3 (auth_AuthData auth)
  else if (auth_Type auth =? AuthTypeKeyedMD5)
       || (auth_Type auth =? AuthTypeMeticulousKeyedMD5)
       || (auth_Type auth =? AuthTypeKeyedSHA1)
       || (auth_Type auth =? AuthTypeMeticulousKeyedSHA1) then
    _ ← b_put 2 (auth_KeyID auth);
    _ ← b_put 3 0;
    _ ← b_put32 4 (auth_SequenceNumber auth);
    b_copy 8 (auth_Digest auth)
  else b_fail ErrInvalidAuthType.

(** The flags byte: State in the two high bits, then P F C A D M. *)
Definition flags_byte (pkt : ControlPacket) : Z :=
  let flags := u8 (Z.shiftl (pkt_State pkt) 6) in
  let flags := if pkt_Poll pkt then Z.lor flags (Z.shiftl 1 5) else flags in
  let flags := if pkt_Final pkt then Z.lor flags (Z.shiftl 1 4) else flags in
  let flags := if pkt_ControlPlaneIndependent pkt then Z.lor flags (Z.shiftl 1 3) else flags in
  let flags := if pkt_AuthPresent pkt then Z.lor flags (Z.shiftl 1 2) else flags in
  let flags := if pkt_Demand pkt then Z.lor flags (Z.shiftl 1 1) else flags in
  if pkt_Multipoint pkt then Z.lor flags (Z.shiftl 1 0) else flags.

Definition version_byte (pkt : ControlPacket) : Z :=
  Z.lor (u8 (Z.shiftl (pkt_Version pkt) 5)) (Z.land (pkt_Diag pkt) 0x1F).

(** The section that is written: [pkt.AuthPresent && pkt.Auth != nil]. *)
Definition auth_to_write (pkt : ControlPacket) : option AuthSection :=
  if pkt_AuthPresent pkt then pkt_Auth pkt else None.

Definition total_len (pkt : ControlPacket) : Z :=
  HeaderSize + match auth_to_write pkt with Some a => auth_Len a | None => 0 end.

Definition MarshalControlPacket (pkt : ControlPacket) : bufM packet_error Z :=
  let totalLen := total_len pkt in
  n ← b_len;
  if n <? totalLen then b_fail ErrBufTooSmall else
  _ ← b_put 0 (version_byte pkt);
  _ ← b_put 1 (flags_byte pkt);
  _ ← b_put 2 (pkt_DetectMult pkt);
  _ ← b_put 3 (u8 totalLen);
  _ ← b_put32 4 (pkt_MyDiscriminator pkt);
  _ ← b_put32 8 (pkt_YourDiscriminator pkt);
  _ ← b_put32 12 (pkt_DesiredMinTxInterval pkt);
  _ ← b_put32 16 (pkt_RequiredMinRxInterval pkt);
  _ ← b_put32 20 (pkt_RequiredMinEchoRxInterval pkt);
  match auth_to_write pkt with
  | Some auth => _ ← b_from 24 (marshalAuthSection auth); mret totalLen
  | None => mret totalLen
  end.

(** ** Decoding *)

Definition unmarshalSimplePassword (buf : list Z) (auth : AuthSection)
    : go packet_error AuthSection :=
  if auth_Len auth <? authSimpleHeaderSize + simplePasswordMinLen
  then Err ErrAuthSectionTruncated else
  if zlen buf <? auth_Len auth then Err ErrAuthSectionTruncated else
  keyID ← idx buf 2;
  let pwLen := auth_Len auth - authSimpleHeaderSize in
  if (pwLen <? simplePasswordMinLen) || (simplePasswordMaxLen <? pwLen)
  then Err ErrAuthSectionTruncated else
  data ← slice buf 3 (3 + Z.to_nat pwLen);
  Ok {| auth with auth_KeyID := keyID; auth_AuthData := data |}.

Definition unmarshalHashAuth (buf : list Z) (auth : AuthSection)
    (expectedLen digestSize : Z) : go packet_error AuthSection :=
  if negb (auth_Len auth =? expectedLen) then Err ErrInvalidLength else
  if zlen buf <? expectedLen then Err ErrAuthSectionTruncated else
  keyID ← idx buf 2;
  seq ← get_uint32 buf 4;
  digest ← slice buf 8 (8 + Z.to_nat digestSize);
  Ok {| auth with auth_KeyID := keyID; auth_SequenceNumber := seq; auth_Digest := digest |}.

Definition unmarshalAuthSection (buf : list Z) : go packet_error AuthSection :=
  if zlen buf <? 2 then Err ErrAuthSectionTruncated else
  type ← idx buf 0;
  len ← idx buf 1;
  let auth := {| auth_Type := type; auth_Len := len; auth_KeyID := 0;
                 auth_AuthData := []; auth_SequenceNumber := 0; auth_Digest := [] |} in
  if zlen buf + HeaderSize <? len then Err ErrAuthSectionTruncated else
  if type =? AuthTypeSimplePassword then unmarshalSimplePassword buf auth
  else if (type =? AuthTypeKeyedMD5) || (type =? AuthTypeMeticulousKeyedMD5)
  then unmarshalHashAuth buf auth authLenMD5 md5DigestSize
  else if (type =? AuthTypeKeyedSHA1) || (type =? AuthTypeMeticulousKeyedSHA1)
  then unmarshalHashAuth buf auth authLenSHA1 sha1DigestSize
  else Err ErrInvalidAuthType.

Definition UnmarshalControlPacket (buf : list Z) : go packet_error ControlPacket :=
  if zlen buf <? MinPacketSizeNoAuth then Err ErrPacketTooShort else
  b0 ← idx buf 0;
  flags ← idx buf 1;
  detectMult ← idx buf 2;
  len ← idx buf 3;
  let version := Z.shiftr b0 5 in
  let diag := Z.land b0 0x1F in
  let state := Z.shiftr flags 6 in
  let poll := negb (Z.land flags (Z.shiftl 1 5) =? 0) in
  let final := negb (Z.land flags (Z.shiftl 1 4) =? 0) in
  let cpi := negb (Z.land flags (Z.shiftl 1 3) =? 0) in
  let authPresent := negb (Z.land flags (Z.shiftl 1 2) =? 0) in
  let demand := negb (Z.land flags (Z.shiftl 1 1) =? 0) in
  let multipoint := negb (Z.land flags (Z.shiftl 1 0) =? 0) in
  if negb (version =? Version) then Err ErrInvalidVersion else
  let minLen := if authPresent then MinPacketSizeWithAuth else MinPacketSizeNoAuth in
  if len <? minLen then Err ErrInvalidLength else
  if zlen buf <? len then Err ErrLengthExceedsPayload else
  if detectMult =? 0 then Err ErrZeroDetectMult else
  if multipoint then Err ErrMultipointSet else
  myDiscr ← get_uint32 buf 4;
  yourDiscr ← get_uint32 buf 8;
  desiredTx ← get_uint32 buf 12;
  requiredRx ← get_uint32 buf 16;
  requiredEchoRx ← get_uint32 buf 20;
  if myDiscr =? 0 then Err ErrZeroMyDiscriminator else
  if (yourDiscr =? 0) && negb (state =? StateDown) && negb (state =? StateAdminDown)
  then Err ErrZeroYourDiscriminator else
  auth ← (if authPresent
          then section ← slice buf 24 (Z.to_nat len);
               auth ← unmarshalAuthSection section;
               Ok (Some auth)
          else Ok None);
  Ok {| pkt_Version := version; pkt_Diag := diag; pkt_State := state;
        pkt_Poll := poll; pkt_Final := final; pkt_ControlPlaneIndependent := cpi;
        pkt_AuthPresent := authPresent; pkt_Demand := demand; pkt_Multipoint := multipoint;
        pkt_DetectMult := detectMult; pkt_Length := len;
        pkt_MyDiscriminator := myDiscr; pkt_YourDiscriminator := yourDiscr;
        pkt_DesiredMinTxInterval := desiredTx; pkt_RequiredMinRxInterval := requiredRx;
        pkt_RequiredMinEchoRxInterval := requiredEchoRx; pkt_Auth := auth |}.

(** ** Well-formed packets and the reference wire format *)

(** An authentication section as RFC 5880 Sections 4.2 to 4.4 lay it out; the
    fields its type does not use have their zero value. *)
Definition wf_auth (a : AuthSection) : Prop :=
  is_u8 (auth_KeyID a) /\
  ((auth_Type a = AuthTypeSimplePassword /\
    auth_Len a = authSimpleHeaderSize + zlen (auth_AuthData a) /\
    simplePasswordMinLen <= zlen (auth_AuthData a) <= simplePasswordMaxLen /\
    auth_SequenceNumber a = 0 /\ auth_Digest a = [])
   \/ ((auth_Type a = AuthTypeKeyedMD5 \/ auth_Type a = AuthTypeMeticulousKeyedMD5) /\
       auth_Len a = authLenMD5 /\ zlen (auth_Digest a) = md5DigestSize /\
       is_u32 (auth_SequenceNumber a) /\ auth_AuthData a = [])
   \/ ((auth_Type a = AuthTypeKeyedSHA1 \/ auth_Type a = AuthTypeMeticulousKeyedSHA1) /\
       auth_Len a = authLenSHA1 /\ zlen (auth_Digest a) = sha1DigestSize /\
       is_u32 (auth_SequenceNumber a) /\ auth_AuthData a = [])).

(** The field values a BFD speaker may put on the wire (RFC 5880 Section 4.1
    and the acceptance rules of Section 6.8.6, steps 1 to 7). *)
Record wf_packet (pkt : ControlPacket) : Prop := {
  wf_version : pkt_Version pkt = Version;
  wf_diag : 0 <= pkt_Diag pkt < 32;
  wf_state : 0 <= pkt_State pkt < 4;
  wf_multipoint : pkt_Multipoint pkt = false;
  wf_detect_mult : 1 <= pkt_DetectMult pkt < 256;
  wf_my_discr : is_u32 (pkt_MyDiscriminator pkt) /\ pkt_MyDiscriminator pkt <> 0;
  wf_your_discr : is_u32 (pkt_YourDiscriminator pkt) /\
    (pkt_YourDiscriminator pkt = 0 ->
     pkt_State pkt = StateDown \/ pkt_State pkt = StateAdminDown);
  wf_desired_tx : is_u32 (pkt_DesiredMinTxInterval pkt);
  wf_required_rx : is_u32 (pkt_RequiredMinRxInterval pkt);
  wf_required_echo_rx : is_u32 (pkt_RequiredMinEchoRxInterval pkt);
  wf_auth_section :
    match pkt_Auth pkt with
    | Some a => pkt_AuthPresent pkt = true /\ wf_auth a
    | None => pkt_AuthPresent pkt = false
    end;
}.

(** The bytes of RFC 5880 Sections 4.1 to 4.4, as one list. *)
Definition wire_auth (a : AuthSection) : list Z :=
  if auth_Type a =? AuthTypeSimplePassword
  then [auth_Type a; auth_Len a; auth_KeyID a] ++ auth_AuthData a
  else [auth_Type a; auth_Len a; auth_KeyID a; 0]
       ++ be32_bytes (auth_SequenceNumber a) ++ auth_Digest a.

Definition wire_header (pkt : ControlPacket) : list Z :=
  [version_byte pkt; flags_byte pkt; pkt_DetectMult pkt; u8 (total_len pkt)]
  ++ be32_bytes (pkt_MyDiscriminator pkt)
  ++ be32_bytes (pkt_YourDiscriminator pkt)
  ++ be32_bytes (pkt_DesiredMinTxInterval pkt)
  ++ be32_bytes (pkt_RequiredMinRxInterval pkt)
  ++ be32_bytes (pkt_RequiredMinEchoRxInterval pkt).

Definition wire (pkt : ControlPacket) : list Z :=
  wire_header pkt ++ match auth_to_write pkt with Some a => wire_auth a | None => [] end.

(** *** Lengths *)

Lemma length_wire_header pkt : length (wire_header pkt) = 24%nat.
Proof. reflexivity. Qed.

Ltac pkt_consts :=
  unfold zlen, Version, HeaderSize, MinPacketSizeNoAuth, MinPacketSizeWithAuth,
    authSimpleHeaderSize, simplePasswordMinLen, simplePasswordMaxLen,
    authLenMD5, authLenSHA1, md5DigestSize, sha1DigestSize, AuthTypeSimplePassword,
    AuthTypeKeyedMD5, AuthTypeMeticulousKeyedMD5, AuthTypeKeyedSHA1,
    AuthTypeMeticulousKeyedSHA1, StateAdminDown, StateDown, StateInit, StateUp in *.

(** The three layouts of a well-formed section. *)
Ltac wf_auth_cases H :=
  destruct H as (?Hkey & [(?Ht & ?Hl & ?Hd & ?Hs & ?Hg)
    |[([?Ht|?Ht] & ?Hl & ?Hg & ?Hs & ?Hd)|([?Ht|?Ht] & ?Hl & ?Hg & ?Hs & ?Hd)]]).

Lemma length_wire_auth a : wf_auth a -> zlen (wire_auth a) = auth_Len a.
Proof.
  unfold wire_auth. intros W; wf_auth_cases W; rewrite Ht, Hl; pkt_consts;
    simpl; lia.
Qed.

Lemma wf_auth_len a : wf_auth a -> 4 <= auth_Len a <= 28.
Proof. intros W; wf_auth_cases W; pkt_consts; lia. Qed.

Lemma wf_auth_to_write pkt : wf_packet pkt -> auth_to_write pkt = pkt_Auth pkt.
Proof.
  intros W. pose proof (wf_auth_section _ W) as Ha. unfold auth_to_write.
  destruct (pkt_Auth pkt); [destruct Ha as [-> _]|rewrite Ha]; done.
Qed.

Lemma total_len_range pkt : wf_packet pkt -> 24 <= total_len pkt <= 52.
Proof.
  intros W. pose proof (wf_auth_section _ W) as Ha. unfold total_len.
  rewrite wf_auth_to_write by done. destruct (pkt_Auth pkt).
  - destruct Ha as [_ ?%wf_auth_len]. pkt_consts; lia.
  - pkt_consts; lia.
Qed.

Lemma length_wire pkt : wf_packet pkt -> zlen (wire pkt) = total_len pkt.
Proof.
  intros W. pose proof (wf_auth_section _ W) as Ha. unfold wire, total_len.
  rewrite wf_auth_to_write by done. destruct (pkt_Auth pkt).
  - destruct Ha as [_ Hw%length_wire_auth]. pkt_consts. rewrite length_app. simpl length at 1. lia.
  - done.
Qed.

(** *** Single bytes *)

Lemma flags_decode pkt :
  0 <= pkt_State pkt < 4 ->
  let f := flags_byte pkt in
  is_byte f /\ Z.shiftr f 6 = pkt_State pkt /\
  negb (Z.land f (Z.shiftl 1 5) =? 0) = pkt_Poll pkt /\
  negb (Z.land f (Z.shiftl 1 4) =? 0) = pkt_Final pkt /\
  negb (Z.land f (Z.shiftl 1 3) =? 0) = pkt_ControlPlaneIndependent pkt /\
  negb (Z.land f (Z.shiftl 1 2) =? 0) = pkt_AuthPresent pkt /\
  negb (Z.land f (Z.shiftl 1 1) =? 0) = pkt_Demand pkt /\
  negb (Z.land f (Z.shiftl 1 0) =? 0) = pkt_Multipoint pkt.
Proof.
  unfold flags_byte, is_byte. intros Hs.
  assert (pkt_State pkt = 0 \/ pkt_State pkt = 1 \/ pkt_State pkt = 2 \/ pkt_State pkt = 3)
    as [-> |[-> |[-> | ->]]] by lia;
  destruct (pkt_Poll pkt), (pkt_Final pkt), (pkt_ControlPlaneIndependent pkt),
    (pkt_AuthPresent pkt), (pkt_Demand pkt), (pkt_Multipoint pkt);
    vm_compute; repeat split; congruence.
Qed.

Lemma version_decode pkt :
  pkt_Version pkt = Version -> 0 <= pkt_Diag pkt < 32 ->
  is_byte (version_byte pkt) /\
  Z.shiftr (version_byte pkt) 5 = Version /\ Z.land (version_byte pkt) 0x1F = pkt_Diag pkt.
Proof.
  unfold version_byte. intros -> Hd.
  pose proof (all_bytes_spec (fun d => (32 <=? d) ||
    let b := Z.lor (u8 (Z.shiftl Version 5)) (Z.land d 0x1F) in
    (0 <=? b) && (b <? 256) && (Z.shiftr b 5 =? Version) && (Z.land b 0x1F =? d)) (pkt_Diag pkt)
    ltac:(vm_compute; reflexivity) ltac:(unfold is_byte; lia)) as H.
  cbv zeta in H. apply orb_true_iff in H as [H|H]; bools; [lia|].
  unfold is_byte. split_and!; lia.
Qed.

(** ** Serialization writes the reference format *)

(** The writes shared by the four digest types. *)
Lemma marshal_digest_writes {E} (t l k q : Z) (digest buf : list Z) :
  (8 + length digest <= length buf)%nat ->
  (_ ← b_put 0 t; _ ← b_put 1 l; _ ← b_put 2 k; _ ← b_put 3 0; _ ← b_put32 4 q;
   @b_copy E 8 digest) buf
  = (Ok tt, [t; l; k; 0] ++ be32_bytes q ++ digest ++ drop (8 + length digest) buf).
Proof.
  intros Hlen. destruct (list_split_length 8 buf) as (pre & r & -> & Hk); [lia|].
  rewrite length_app in Hlen.
  do 8 (destruct pre as [|? pre]; [discriminate Hk|]). destruct pre; [|discriminate Hk].
  simpl in Hlen. do 5 b_step. simpl. rewrite drop_0, b_copy_ok by (simpl; lia). done.
Qed.

Lemma marshalAuthSection_wire a buf :
  wf_auth a -> auth_Len a <= zlen buf ->
  marshalAuthSection a buf = (Ok tt, wire_auth a ++ drop (Z.to_nat (auth_Len a)) buf).
Proof.
  intros W Hlen. pose proof (wf_auth_len _ W).
  unfold marshalAuthSection, wire_auth. b_step. rewrite (proj2 (Z.ltb_ge _ _)) by lia.
  wf_auth_cases W; pkt_consts; rewrite Ht; simpl (_ =? _); cbv iota beta; simpl orb; cbv iota.
  - destruct (list_split_length 3 buf) as (k & r & -> & Hk); [lia|].
    destruct k as [|b0 [|b1 [|b2 [|]]]]; try discriminate Hk.
    rewrite length_app in Hlen; simpl in Hlen.
    do 3 b_step. simpl. rewrite b_copy_ok by (simpl; lia). simpl.
    replace (Z.to_nat (auth_Len a)) with (3 + length (auth_AuthData a))%nat by lia. done.
  - rewrite marshal_digest_writes by lia. simpl.
    by replace (Z.to_nat (auth_Len a)) with (8 + length (auth_Digest a))%nat by lia.
  - rewrite marshal_digest_writes by lia. simpl.
    by replace (Z.to_nat (auth_Len a)) with (8 + length (auth_Digest a))%nat by lia.
  - rewrite marshal_digest_writes by lia. simpl.
    by replace (Z.to_nat (auth_Len a)) with (8 + length (auth_Digest a))%nat by lia.
  - rewrite marshal_digest_writes by lia. simpl.
    by replace (Z.to_nat (auth_Len a)) with (8 + length (auth_Digest a))%nat by lia.
Qed.

(** The nine header writes. *)
Lemma marshal_header_writes {E A} pkt (k : bufM E A) buf :
  (24 <= length buf)%nat ->
  (_ ← b_put 0 (version_byte pkt); _ ← b_put 1 (flags_byte pkt);
   _ ← b_put 2 (pkt_DetectMult pkt); _ ← b_put 3 (u8 (total_len pkt));
   _ ← b_put32 4 (pkt_MyDiscriminator pkt); _ ← b_put32 8 (pkt_YourDiscriminator pkt);
   _ ← b_put32 12 (pkt_DesiredMinTxInterval pkt);
   _ ← b_put32 16 (pkt_RequiredMinRxInterval pkt);
   _ ← b_put32 20 (pkt_RequiredMinEchoRxInterval pkt); k) buf
  = k (wire_header pkt ++ drop 24 buf).
Proof.
  intros Hlen. destruct (list_split_length 24 buf) as (pre & r & -> & Hk); [lia|].
  do 24 (destruct pre as [|? pre]; [discriminate Hk|]). destruct pre; [|discriminate Hk].
  do 9 b_step. done.
Qed.

Lemma MarshalControlPacket_wire pkt buf :
  wf_packet pkt -> total_len pkt <= zlen buf ->
  MarshalControlPacket pkt buf
  = (Ok (total_len pkt), wire pkt ++ drop (Z.to_nat (total_len pkt)) buf).
Proof.
  intros W Hlen. pose proof (total_len_range _ W). pose proof (wf_auth_section _ W) as Ha.
  unfold MarshalControlPacket, wire. b_step. rewrite (proj2 (Z.ltb_ge _ _)) by lia.
  rewrite marshal_header_writes by (unfold zlen in *; lia).
  unfold total_len in *. rewrite wf_auth_to_write in * by done.
  destruct (pkt_Auth pkt) as [a|]; cbv beta iota in *.
  - destruct Ha as [_ Ha]. pose proof (wf_auth_len _ Ha).
    erewrite b_bind_ok.
    2:{ apply b_from_ok; [rewrite length_app, length_drop, length_wire_header; lia|].
        rewrite drop_app_length' by done.
        apply marshalAuthSection_wire; [done|]. pkt_consts. rewrite length_drop. lia. }
    rewrite take_app_length', drop_drop by done. pkt_consts.
    replace (Z.to_nat (24 + auth_Len a)) with (24 + Z.to_nat (auth_Len a))%nat by lia.
    rewrite <- !app_assoc. done.
  - rewrite app_nil_r. done.
Qed.

(** ** Decoding the reference format *)

Lemma unmarshalHashAuth_digest t l k q digest n :
  is_u32 q -> zlen digest = n -> l = 8 + n ->
  unmarshalHashAuth ([t; l; k; 0] ++ be32_bytes q ++ digest)
    {| auth_Type := t; auth_Len := l; auth_KeyID := 0; auth_AuthData := [];
       auth_SequenceNumber := 0; auth_Digest := [] |} l n
  = Ok {| auth_Type := t; auth_Len := l; auth_KeyID := k; auth_AuthData := [];
          auth_SequenceNumber := q; auth_Digest := digest |}.
Proof.
  intros Hq Hn Hl. unfold unmarshalHashAuth. cbn [auth_Len]. rewrite Z.eqb_refl.
  rewrite (proj2 (Z.ltb_ge _ _)) by (unfold zlen in *; simpl; lia).
  cbn -[be32_val slice Z.to_nat]. rewrite be32_round by done.
  unfold zlen in Hn. rewrite slice_ok by (simpl; lia). cbn -[Z.to_nat].
  rewrite drop_0, take_ge by lia. done.
Qed.

Lemma unmarshalAuthSection_wire a :
  wf_auth a -> unmarshalAuthSection (wire_auth a) = Ok a.
Proof.
  intros W. pose proof (length_wire_auth _ W) as Hw. pose proof (wf_auth_len _ W).
  unfold unmarshalAuthSection. rewrite (proj2 (Z.ltb_ge _ _)) by lia.
  destruct a as [t l k d q g]. unfold wire_auth in *. cbn [auth_Type auth_Len auth_KeyID
    auth_AuthData auth_SequenceNumber auth_Digest] in *.
  wf_auth_cases W; cbn [auth_Type auth_Len auth_KeyID auth_AuthData auth_SequenceNumber
    auth_Digest] in *; subst; cbn -[zlen be32_bytes unmarshalHashAuth slice Z.add Z.ltb];
    rewrite (proj2 (Z.ltb_ge _ _)) by (pkt_consts; simpl in *; lia).
  - unfold unmarshalSimplePassword. cbn -[zlen slice Z.add Z.ltb Z.sub].
    pkt_consts. rewrite !(proj2 (Z.ltb_ge _ _)) by (simpl; lia).
    cbn -[slice Z.to_nat Z.add Z.sub]. rewrite slice_ok by (simpl; lia).
    cbn -[Z.to_nat Z.add Z.sub]. rewrite drop_0, take_ge by lia. done.
  - by apply unmarshalHashAuth_digest.
  - by apply unmarshalHashAuth_digest.
  - by apply unmarshalHashAuth_digest.
  - by apply unmarshalHashAuth_digest.
Qed.

(** The header bytes and words at their offsets. *)
Lemma idx_wire {E} pkt rest i b :
  wire_header pkt !! i = Some b -> @idx E (wire pkt ++ rest) i = Ok b.
Proof.
  intros Hb. unfold idx, wire. rewrite <- app_assoc, lookup_app_l; [by rewrite Hb|].
  by eapply lookup_lt_Some.
Qed.

Lemma get_uint32_wire {E} pkt rest :
  wf_packet pkt ->
  @get_uint32 E (wire pkt ++ rest) 4 = Ok (pkt_MyDiscriminator pkt) /\
  @get_uint32 E (wire pkt ++ rest) 8 = Ok (pkt_YourDiscriminator pkt) /\
  @get_uint32 E (wire pkt ++ rest) 12 = Ok (pkt_DesiredMinTxInterval pkt) /\
  @get_uint32 E (wire pkt ++ rest) 16 = Ok (pkt_RequiredMinRxInterval pkt) /\
  @get_uint32 E (wire pkt ++ rest) 20 = Ok (pkt_RequiredMinEchoRxInterval pkt).
Proof.
  intros [? ? ? ? ? [? _] [? _] ? ? ? _]. unfold get_uint32, wire. cbn -[be32_val].
  by rewrite !be32_round.
Qed.

Lemma slice_auth_wire {E} pkt rest a :
  wf_packet pkt -> pkt_Auth pkt = Some a ->
  @slice E (wire pkt ++ rest) 24 (Z.to_nat (total_len pkt)) = Ok (wire_auth a).
Proof.
  intros W Ha. pose proof (wf_auth_section _ W) as Hwa. rewrite Ha in Hwa. destruct Hwa as [_ Hwa].
  pose proof (length_wire _ W) as Hl. pose proof (length_wire_auth _ Hwa) as Hla.
  pose proof (total_len_range _ W).
  rewrite slice_ok by (rewrite ?length_app; unfold zlen in *; lia). f_equal.
  unfold wire, total_len in *. rewrite wf_auth_to_write, Ha in * by done.
  rewrite <- app_assoc, drop_app_length' by done. apply take_app_length'.
  unfold zlen, HeaderSize in *. lia.
Qed.

Lemma wf_min_len pkt :
  wf_packet pkt ->
  (total_len pkt <? (if pkt_AuthPresent pkt then MinPacketSizeWithAuth
                     else MinPacketSizeNoAuth)) = false.
Proof.
  intros W. pose proof (wf_auth_section _ W) as Ha. apply Z.ltb_ge. unfold total_len.
  rewrite wf_auth_to_write by done.
  destruct (pkt_Auth pkt); [destruct Ha as [-> ?%wf_auth_len]|rewrite Ha]; pkt_consts; lia.
Qed.

Lemma wf_your_discr_check pkt :
  wf_packet pkt ->
  (pkt_YourDiscriminator pkt =? 0) && negb (pkt_State pkt =? StateDown)
    && negb (pkt_State pkt =? StateAdminDown) = false.
Proof.
  intros W. destruct (wf_your_discr _ W) as [_ Hy]. destruct (Z.eqb_spec (pkt_YourDiscriminator pkt) 0); [|done].
  destruct Hy as [-> | ->]; done.
Qed.

Lemma UnmarshalControlPacket_wire pkt rest :
  wf_packet pkt ->
  UnmarshalControlPacket (wire pkt ++ rest) = Ok {| pkt with pkt_Length := total_len pkt |}.
Proof.
  intros W. pose proof (length_wire _ W) as Hw. pose proof (total_len_range _ W) as Hr.
  destruct (flags_decode pkt (wf_state _ W)) as (_ & Hst & Hp & Hf & Hc & HA & Hd & Hm).
  destruct (version_decode pkt (wf_version _ W) (wf_diag _ W)) as (_ & Hv & Hdg).
  destruct (@get_uint32_wire packet_error pkt rest W) as (G1 & G2 & G3 & G4 & G5).
  assert (Hlen : zlen (wire pkt ++ rest) = total_len pkt + zlen rest)
    by (unfold zlen in *; rewrite length_app; lia).
  unfold UnmarshalControlPacket.
  rewrite (proj2 (Z.ltb_ge _ _)) by (rewrite Hlen; pkt_consts; lia).
  rewrite (idx_wire pkt rest 0 _ eq_refl), (idx_wire pkt rest 1 _ eq_refl),
    (idx_wire pkt rest 2 _ eq_refl), (idx_wire pkt rest 3 _ eq_refl).
  cbn -[Z.shiftr Z.land Z.shiftl get_uint32 slice wire Z.to_nat u8 total_len zlen Z.ltb Z.eqb].
  rewrite Hst, Hp, Hf, Hc, HA, Hd, Hm, Hv, Hdg, Z.eqb_refl, (wf_multipoint _ W). cbn [negb].
  rewrite u8_small, (wf_min_len _ W) by lia.
  rewrite (proj2 (Z.ltb_ge _ (total_len pkt))) by (unfold zlen in *; lia).
  pose proof (wf_detect_mult _ W). rewrite (proj2 (Z.eqb_neq (pkt_DetectMult pkt) 0)) by lia.
  rewrite G1, G2, G3, G4, G5. cbn -[slice Z.to_nat wire total_len Z.eqb].
  rewrite (proj2 (Z.eqb_neq (pkt_MyDiscriminator pkt) 0)) by apply (wf_my_discr _ W).
  rewrite (wf_your_discr_check _ W).
  pose proof (wf_auth_section _ W) as Ha. pose proof (wf_version _ W) as Hv1.
  pose proof (wf_multipoint _ W) as Hm1.
  destruct (pkt_Auth pkt) as [a|] eqn:Ea; [destruct Ha as [HAP Ha]|]; rewrite ?HAP, ?Ha.
  - rewrite (slice_auth_wire _ _ _ W Ea). cbn -[wire_auth total_len].
    rewrite unmarshalAuthSection_wire by done. destruct pkt; cbn in *. by subst.
  - destruct pkt; cbn in *. by subst.
Qed.

(** ** Decoding arbitrary bytes *)

Lemma unmarshalHashAuth_no_panic buf auth n :
  unmarshalHashAuth buf auth (8 + Z.of_nat n) (Z.of_nat n) <> Panic.
Proof.
  unfold unmarshalHashAuth. repeat case_step; try done. bools. unfold zlen in *.
  destruct (list_split_length 8 buf) as (pre & r & -> & Hk); [lia|].
  do 8 (destruct pre as [|? pre]; [discriminate Hk|]). destruct pre; [|discriminate Hk].
  rewrite length_app in *. cbn -[be32_val slice Z.to_nat]. rewrite slice_ok by (simpl in *; lia). done.
Qed.

Lemma unmarshalSimplePassword_no_panic buf auth : unmarshalSimplePassword buf auth <> Panic.
Proof.
  unfold unmarshalSimplePassword.
  destruct (auth_Len auth <? _) eqn:?; [done|]. destruct (zlen buf <? _) eqn:?; [done|].
  bools. pkt_consts. destruct (@idx_ok packet_error buf 2) as (? & -> & _); [lia|].
  cbn -[slice Z.to_nat Z.sub]. case_step; [done|]. bools. rewrite slice_ok by lia. done.
Qed.

Lemma unmarshalAuthSection_no_panic buf : unmarshalAuthSection buf <> Panic.
Proof.
  unfold unmarshalAuthSection. case_step; [done|]. bools. unfold zlen in *.
  destruct (@idx_ok packet_error buf 0) as (? & -> & _); [lia|].
  destruct (@idx_ok packet_error buf 1) as (? & -> & _); [lia|]. cbn -[unmarshalHashAuth].
  repeat case_step; try done.
  - apply unmarshalSimplePassword_no_panic.
  - apply (unmarshalHashAuth_no_panic _ _ 16).
  - apply (unmarshalHashAuth_no_panic _ _ 20).
Qed.

Lemma get_uint32_ok {E} buf i :
  (i + 4 <= length buf)%nat -> exists v, @get_uint32 E buf i = Ok v.
Proof.
  intros. unfold get_uint32. destruct (drop i buf) as [|? [|? [|? [|]]]] eqn:Ed; try (by eexists);
    apply (f_equal length) in Ed; rewrite length_drop in Ed; simpl in Ed; lia.
Qed.

Lemma unmarshal_no_panic buf : UnmarshalControlPacket buf <> Panic.
Proof.
  unfold UnmarshalControlPacket. destruct (zlen buf <? _) eqn:Hlen; [done|]. bools. pkt_consts.
  destruct (@idx_ok packet_error buf 0) as (? & -> & _); [lia|].
  destruct (@idx_ok packet_error buf 1) as (flags & -> & _); [lia|].
  destruct (@idx_ok packet_error buf 2) as (? & -> & _); [lia|].
  destruct (@idx_ok packet_error buf 3) as (len & -> & _); [lia|].
  destruct (@get_uint32_ok packet_error buf 4) as (? & G1); [lia|].
  destruct (@get_uint32_ok packet_error buf 8) as (? & G2); [lia|].
  destruct (@get_uint32_ok packet_error buf 12) as (? & G3); [lia|].
  destruct (@get_uint32_ok packet_error buf 16) as (? & G4); [lia|].
  destruct (@get_uint32_ok packet_error buf 20) as (? & G5); [lia|].
  cbn -[Z.shiftr Z.land Z.shiftl get_uint32 slice Z.to_nat Z.ltb Z.eqb].
  rewrite G1, G2, G3, G4, G5. cbn -[Z.shiftr Z.land Z.shiftl slice Z.to_nat Z.ltb Z.eqb].
  destruct (negb (Z.land flags (1 ≪ 2) =? 0)); repeat (case_step; [done|]); [|done].
  bools. rewrite slice_ok by lia. cbn [mbind go_bind].
  pose proof (unmarshalAuthSection_no_panic (take (Z.to_nat len - 24) (drop 24 buf))).
  by destruct (unmarshalAuthSection _).
Qed.

(** *** What a decoded packet looks like *)

Lemma unmarshalHashAuth_sound buf t l n auth :
  unmarshalHashAuth buf {| auth_Type := t; auth_Len := l; auth_KeyID := 0;
    auth_AuthData := []; auth_SequenceNumber := 0; auth_Digest := [] |}
    (8 + Z.of_nat n) (Z.of_nat n) = Ok auth ->
  bytes_ok buf ->
  auth_Type auth = t /\ auth_Len auth = 8 + Z.of_nat n /\ auth_Len auth <= zlen buf /\
  is_u8 (auth_KeyID auth) /\ is_u32 (auth_SequenceNumber auth) /\
  auth_AuthData auth = [] /\ zlen (auth_Digest auth) = Z.of_nat n.
Proof.
  unfold unmarshalHashAuth. intros H Hb. go_inv H. bools. subst auth.
  cbn [auth_Len auth_Type auth_KeyID auth_SequenceNumber auth_AuthData auth_Digest] in *.
  repeat match goal with
  | Hi : idx _ _ = Ok _ |- _ => apply idx_byte in Hi; [|done]
  | Hi : get_uint32 _ _ = Ok _ |- _ => apply get_uint32_bytes in Hi as [? _]; [|done]
  | Hi : slice _ _ _ = Ok _ |- _ => apply slice_Ok_inv in Hi as (_ & _ & _ & Hi)
  end.
  unfold zlen in *. split_and!; try done; lia.
Qed.

Lemma unmarshalSimplePassword_sound buf t l auth :
  unmarshalSimplePassword buf {| auth_Type := t; auth_Len := l; auth_KeyID := 0;
    auth_AuthData := []; auth_SequenceNumber := 0; auth_Digest := [] |} = Ok auth ->
  bytes_ok buf ->
  auth_Type auth = t /\ auth_Len auth = authSimpleHeaderSize + zlen (auth_AuthData auth) /\
  auth_Len auth <= zlen buf /\ is_u8 (auth_KeyID auth) /\
  simplePasswordMinLen <= zlen (auth_AuthData auth) <= simplePasswordMaxLen /\
  auth_SequenceNumber auth = 0 /\ auth_Digest auth = [].
Proof.
  unfold unmarshalSimplePassword. intros H Hb. go_inv H. bools. subst auth.
  cbn [auth_Len auth_Type auth_KeyID auth_SequenceNumber auth_AuthData auth_Digest] in *.
  repeat match goal with
  | Hi : idx _ _ = Ok _ |- _ => apply idx_byte in Hi; [|done]
  | Hi : slice _ _ _ = Ok _ |- _ => apply slice_Ok_inv in Hi as (_ & _ & _ & Hi)
  end.
  pkt_consts. split_and!; try done; lia.
Qed.

Lemma unmarshalAuthSection_sound buf auth :
  unmarshalAuthSection buf = Ok auth -> bytes_ok buf ->
  wf_auth auth /\ auth_Len auth <= zlen buf.
Proof.
  unfold unmarshalAuthSection, wf_auth. intros H Hb. go_inv H; bools.
  - apply unmarshalSimplePassword_sound in H as (-> & -> & ? & ? & ? & -> & ->); [|done]. auto 10.
  - apply (unmarshalHashAuth_sound _ _ _ 16) in H as (-> & -> & ? & ? & ? & -> & ?); [|done].
    apply orb_true_iff in E2 as [E2|E2]; bools; subst; auto 15.
  - apply (unmarshalHashAuth_sound _ _ _ 20) in H as (-> & -> & ? & ? & ? & -> & ?); [|done].
    apply orb_true_iff in E3 as [E3|E3]; bools; subst; auto 15.
Qed.

Lemma flags_encode pkt f :
  is_byte f ->
  pkt_State pkt = Z.shiftr f 6 ->
  pkt_Poll pkt = negb (Z.land f (Z.shiftl 1 5) =? 0) ->
  pkt_Final pkt = negb (Z.land f (Z.shiftl 1 4) =? 0) ->
  pkt_ControlPlaneIndependent pkt = negb (Z.land f (Z.shiftl 1 3) =? 0) ->
  pkt_AuthPresent pkt = negb (Z.land f (Z.shiftl 1 2) =? 0) ->
  pkt_Demand pkt = negb (Z.land f (Z.shiftl 1 1) =? 0) ->
  pkt_Multipoint pkt = negb (Z.land f (Z.shiftl 1 0) =? 0) ->
  flags_byte pkt = f /\ 0 <= pkt_State pkt < 4.
Proof.
  intros Hb Hs Hp Hf Hc Ha Hd Hm. unfold flags_byte. rewrite Hs, Hp, Hf, Hc, Ha, Hd, Hm.
  match goal with |- ?l = f /\ 0 <= ?st < 4 =>
    let P := eval pattern f in ((l =? f) && (0 <=? st) && (st <? 4)) in
    lazymatch P with ?P' _ =>
      pose proof (all_bytes_spec P' f ltac:(vm_compute; reflexivity) Hb) as H end end.
  cbv beta in H. bools. lia.
Qed.

Lemma version_encode pkt b :
  is_byte b -> pkt_Version pkt = Z.shiftr b 5 -> pkt_Diag pkt = Z.land b 0x1F ->
  version_byte pkt = b /\ 0 <= pkt_Diag pkt < 32.
Proof.
  intros Hb Hv Hd. unfold version_byte. rewrite Hv, Hd.
  match goal with |- ?l = b /\ 0 <= ?st < 32 =>
    let P := eval pattern b in ((l =? b) && (0 <=? st) && (st <? 32)) in
    lazymatch P with ?P' _ =>
      pose proof (all_bytes_spec P' b ltac:(vm_compute; reflexivity) Hb) as H end end.
  cbv beta in H. bools. lia.
Qed.

(** The optional section of a decoded packet. *)
Lemma unmarshal_auth_part_sound buf (present : bool) len x :
  bytes_ok buf ->
  (if present
   then section ← slice buf 24 (Z.to_nat len); auth ← unmarshalAuthSection section; Ok (Some auth)
   else Ok None) = Ok x ->
  match x with
  | Some a => present = true /\ wf_auth a /\ 24 + auth_Len a <= len
  | None => present = false
  end.
Proof.
  intros Hb H. destruct present; go_inv H; subst; [|done].
  apply slice_Ok_inv in H0 as (? & ? & -> & Hl).
  apply unmarshalAuthSection_sound in H1 as [? Hz]; [|auto with bfd].
  unfold zlen in Hz. split_and!; try done. lia.
Qed.

(** The header words, read back as the bytes they came from. *)
Lemma wire_header_of_buf pkt buf :
  bytes_ok buf -> (24 <= length buf)%nat ->
  buf !! 0%nat = Some (version_byte pkt) -> buf !! 1%nat = Some (flags_byte pkt) ->
  buf !! 2%nat = Some (pkt_DetectMult pkt) ->
  be32_bytes (pkt_MyDiscriminator pkt) = take 4 (drop 4 buf) ->
  be32_bytes (pkt_YourDiscriminator pkt) = take 4 (drop 8 buf) ->
  be32_bytes (pkt_DesiredMinTxInterval pkt) = take 4 (drop 12 buf) ->
  be32_bytes (pkt_RequiredMinRxInterval pkt) = take 4 (drop 16 buf) ->
  be32_bytes (pkt_RequiredMinEchoRxInterval pkt) = take 4 (drop 20 buf) ->
  wire_header pkt = <[3%nat := u8 (total_len pkt)]> (take 24 buf).
Proof.
  intros Hb Hl H0 H1 H2 Hmy Hyr Htx Hrx He. unfold wire_header.
  rewrite Hmy, Hyr, Htx, Hrx, He.
  destruct (list_split_length 24 buf) as (pre & r & -> & Hk); [done|].
  do 24 (destruct pre as [|? pre]; [discriminate Hk|]). destruct pre; [|discriminate Hk].
  simpl in H0, H1, H2. injection H0 as ->. injection H1 as ->. injection H2 as ->.
  done.
Qed.

(** Everything the checks of the decoder establish about its result. *)
Lemma unmarshal_sound buf pkt :
  bytes_ok buf -> UnmarshalControlPacket buf = Ok pkt ->
  wf_packet pkt /\ total_len pkt <= pkt_Length pkt <= zlen buf /\
  wire_header pkt = <[3%nat := u8 (total_len pkt)]> (take 24 buf).
Proof.
  unfold UnmarshalControlPacket. intros Hb H. go_inv H. bools.
  pose proof (idx_byte _ _ _ Hb H0). pose proof (idx_byte _ _ _ Hb H1).
  pose proof (idx_byte _ _ _ Hb H2). apply idx_Ok_inv in H0, H1, H2, H3.
  apply (get_uint32_bytes _ _ _ Hb) in H4 as [? H4], H5 as [? H5], H6 as [? H6],
    H7 as [? H7], H8 as [? H8].
  apply unmarshal_auth_part_sound in H9 as Ha; [|done].
  assert (flags_byte pkt = x0 /\ 0 <= pkt_State pkt < 4) as [Hfl Hst]
    by (apply flags_encode; subst pkt; cbn; try done; by rewrite E4).
  assert (version_byte pkt = x /\ 0 <= pkt_Diag pkt < 32) as [Hvb Hdg]
    by (apply version_encode; by subst pkt).
  assert (Htl : total_len pkt <= pkt_Length pkt).
  { unfold total_len, auth_to_write. subst pkt; cbn -[Z.add Z.land Z.shiftl].
    destruct x8; [destruct Ha as (-> & _ & ?)|rewrite Ha]; repeat case_step; pkt_consts; lia. }
  split_and!.
  - constructor; subst pkt; cbn in *; try done; try (unfold is_byte in *; lia).
    + split; [done|]. intros ->. cbn [Z.eqb andb] in E6. apply andb_false_iff in E6 as [?|?]; bools; auto.
    + destruct x8 as [a|]; [destruct Ha as (Hp & Hw & _)|]; done.
  - done.
  - by subst pkt.
  - apply wire_header_of_buf; rewrite ?Hvb, ?Hfl; try (by subst pkt).
    unfold zlen in *; pkt_consts; lia.
Qed.

(** ** Properties *)

(** A Poll packet in state Up with a keyed SHA1 section, as the witnesses use. *)
Definition sample_packet : ControlPacket :=
  {| pkt_Version := 1; pkt_Diag := DiagNeighborDown; pkt_State := StateUp;
     pkt_Poll := true; pkt_Final := false; pkt_ControlPlaneIndependent := false;
     pkt_AuthPresent := true; pkt_Demand := false; pkt_Multipoint := false;
     pkt_DetectMult := 3; pkt_Length := 52; pkt_MyDiscriminator := 17;
     pkt_YourDiscriminator := 4000000000; pkt_DesiredMinTxInterval := 1000000;
     pkt_RequiredMinRxInterval := 300000; pkt_RequiredMinEchoRxInterval := 0;
     pkt_Auth := Some {| auth_Type := AuthTypeKeyedSHA1; auth_Len := authLenSHA1;
       auth_KeyID := 7; auth_AuthData := []; auth_SequenceNumber := 99;
       auth_Digest := seqZ 1 20 |} |}.

Lemma sample_packet_wf : wf_packet sample_packet.
Proof.
  constructor; cbn; unfold is_u32, DiagNeighborDown, StateUp; try done; try (pkt_consts; lia).
  split; [done|]. split; [cbn; unfold is_u8; lia|]. right; right. split_and!; [by left|done..].
Qed.

(** Serializing a well-formed packet writes exactly the RFC 5880 wire format
    at the front of the buffer, returns its length and leaves the rest of the
    buffer alone; a buffer that is too short is rejected with [ErrBufTooSmall]
    and stays untouched. *)
Theorem marshal_writes_wire_format pkt buf (W : wf_packet pkt) :
  MarshalControlPacket pkt buf =
  if zlen buf <? total_len pkt then (Err ErrBufTooSmall, buf)
  else (Ok (zlen (wire pkt)), wire pkt ++ drop (length (wire pkt)) buf).
Proof.
  destruct (Z.ltb_spec (zlen buf) (total_len pkt)) as [Hlt|Hge].
  - unfold MarshalControlPacket. b_step. by rewrite (proj2 (Z.ltb_lt _ _)).
  - rewrite MarshalControlPacket_wire by done. rewrite length_wire by done.
    by rewrite <- (length_wire _ W); unfold zlen; rewrite Nat2Z.id.
Qed.

Lemma marshal_writes_wire_format_witness :
  MarshalControlPacket sample_packet (repeat 0 64) =
  (Ok 52, wire sample_packet ++ repeat 0 12).
Proof.
  rewrite (marshal_writes_wire_format sample_packet (repeat 0 64) sample_packet_wf).
  vm_compute. reflexivity.
Defined.

(** C1: decoding what was serialized gives the packet back, whatever was in the
    buffer before and however much of it follows the packet; only the [Length]
    field is recomputed. *)
Theorem marshal_unmarshal_roundtrip pkt buf n buf'
    (W : wf_packet pkt) (H : MarshalControlPacket pkt buf = (Ok n, buf')) :
  UnmarshalControlPacket buf' = Ok {| pkt with pkt_Length := n |}.
Proof.
  destruct (Z.ltb_spec (zlen buf) (total_len pkt)) as [Hlt|Hge].
  - revert H. unfold MarshalControlPacket. b_step. by rewrite (proj2 (Z.ltb_lt _ _)).
  - rewrite MarshalControlPacket_wire in H by done. injection H as <- <-.
    by apply UnmarshalControlPacket_wire.
Qed.

Lemma marshal_unmarshal_roundtrip_witness :
  UnmarshalControlPacket (wire sample_packet ++ repeat 255 12) = Ok sample_packet.
Proof.
  apply (marshal_unmarshal_roundtrip sample_packet (repeat 255 64) 52).
  - apply sample_packet_wf.
  - vm_compute. reflexivity.
Defined.

(** The decoder never panics: on any byte sequence at all every index and
    slice expression it evaluates is in range. *)
Theorem unmarshal_never_panics buf : UnmarshalControlPacket buf <> Panic.
Proof. apply unmarshal_no_panic. Qed.

(** C23: whatever the decoder accepts satisfies every acceptance rule of RFC 5880
    Section 6.8.6 steps 1 to 7; its Length covers the header and authentication
    section and lies within the datagram; and serializing it reproduces the 24
    header bytes of the datagram, the Length byte apart when the datagram was
    padded. *)
Theorem unmarshal_accepts_only_wf buf pkt
    (Hb : bytes_ok buf) (H : UnmarshalControlPacket buf = Ok pkt) :
  wf_packet pkt /\ total_len pkt <= pkt_Length pkt <= zlen buf /\
  wire_header pkt = <[3%nat := u8 (total_len pkt)]> (take 24 buf).
Proof. by apply unmarshal_sound. Qed.

Lemma unmarshal_accepts_only_wf_witness :
  wf_packet sample_packet /\
  total_len sample_packet <= 52 <= zlen (wire sample_packet) /\
  wire_header sample_packet = <[3%nat := u8 52]> (take 24 (wire sample_packet)).
Proof.
  apply (unmarshal_accepts_only_wf (wire sample_packet)).
  - apply (bool_decide_unpack _). vm_compute. done.
  - vm_compute. reflexivity.
Defined.
