(* ===== verification/Fsm.v ===== *)
(** * The BFD finite state machine ([src/internal/bfd/fsm.go])

    The transition table is a finite map, the lookup array is what [init] builds
    from it by visiting the entries in some order, and [ApplyEvent] reads the
    array behind its range guard.  The RFC 5880 pseudocode is written down
    separately, over an enumeration of the four states, and the array is shown
    to implement it. *)

From S2P Require Import Prelude Packet.

Local Open Scope Z_scope.

(** ** Events and actions *)

Definition EventRecvAdminDown : Z := 0.
Definition EventRecvDown : Z := 1.
Definition EventRecvInit : Z := 2.
Definition EventRecvUp : Z := 3.
Definition EventTimerExpired : Z := 4.
Definition EventAdminDown : Z := 5.
Definition EventAdminUp : Z := 6.

Definition unknownStr : string := "Unknown"%string.

Definition Event_String (e : Z) : string :=
  if e =? EventRecvAdminDown then "RecvAdminDown"%string
  else if e =? EventRecvDown then "RecvDown"%string
  else if e =? EventRecvInit then "RecvInit"%string
  else if e =? EventRecvUp then "RecvUp"%string
  else if e =? EventTimerExpired then "TimerExpired"%string
  else if e =? EventAdminDown then "AdminDown"%string
  else if e =? EventAdminUp then "AdminUp"%string
  else unknownStr.

Definition ActionSendControl : Z := 1.
Definition ActionNotifyUp : Z := 2.
Definition ActionNotifyDown : Z := 3.
Definition ActionSetDiagTimeExpired : Z := 4.
Definition ActionSetDiagNeighborDown : Z := 5.
Definition ActionSetDiagAdminDown : Z := 6.

Definition Action_String (a : Z) : string :=
  if a =? ActionSendControl then "SendControl"%string
  else if a =? ActionNotifyUp then "NotifyUp"%string
  else if a =? ActionNotifyDown then "NotifyDown"%string
  else if a =? ActionSetDiagTimeExpired then "SetDiagTimeExpired"%string
  else if a =? ActionSetDiagNeighborDown then "SetDiagNeighborDown"%string
  else if a =? ActionSetDiagAdminDown then "SetDiagAdminDown"%string
  else unknownStr.

(** ** The transition table *)

Record stateEvent := mkSE { se_state : Z; se_event : Z }.

#[export] Instance stateEvent_eq_dec : EqDecision stateEvent.
Proof. solve_decision. Defined.
#[export] Instance stateEvent_countable : Countable stateEvent.
Proof.
  apply (inj_countable' (fun k => (se_state k, se_event k)) (fun p => mkSE p.1 p.2)).
  by intros [].
Defined.

Record transition := mkTransition { tr_newState : Z; tr_actions : list Z }.

Record FSMResult := mkFSMResult {
  OldState : Z;
  NewState : Z;
  Actions : list Z;
  Changed : bool;
}.

Record fsmEntry := mkFsmEntry {
  entry_newState : Z;
  entry_actions : list Z;
  entry_valid : bool;
}.

#[export] Instance FSMResult_eq_dec : EqDecision FSMResult.
Proof. solve_decision. Defined.

Definition numStates : Z := 4.
Definition numEvents : Z := 7.

Definition fsmTable : gmap stateEvent transition := list_to_map [
  (mkSE StateAdminDown EventAdminUp, mkTransition StateDown []);
  (mkSE StateDown EventRecvDown, mkTransition StateInit [ActionSendControl]);
  (mkSE StateDown EventRecvInit, mkTransition StateUp [ActionSendControl; ActionNotifyUp]);
  (mkSE StateDown EventAdminDown, mkTransition StateAdminDown [ActionSetDiagAdminDown]);
  (mkSE StateInit EventRecvAdminDown,
     mkTransition StateDown [ActionSetDiagNeighborDown; ActionNotifyDown]);
  (mkSE StateInit EventRecvDown, mkTransition StateInit []);
  (mkSE StateInit EventRecvInit, mkTransition StateUp [ActionSendControl; ActionNotifyUp]);
  (mkSE StateInit EventRecvUp, mkTransition StateUp [ActionSendControl; ActionNotifyUp]);
  (mkSE StateInit EventTimerExpired,
     mkTransition StateDown [ActionSetDiagTimeExpired; ActionNotifyDown]);
  (mkSE StateInit EventAdminDown, mkTransition StateAdminDown [ActionSetDiagAdminDown]);
  (mkSE StateUp EventRecvAdminDown,
     mkTransition StateDown [ActionSetDiagNeighborDown; ActionNotifyDown]);
  (mkSE StateUp EventRecvDown,
     mkTransition StateDown [ActionSetDiagNeighborDown; ActionNotifyDown]);
  (mkSE StateUp EventRecvInit, mkTransition StateUp []);
  (mkSE StateUp EventRecvUp, mkTransition StateUp []);
  (mkSE StateUp EventTimerExpired,
     mkTransition StateDown [ActionSetDiagTimeExpired; ActionNotifyDown]);
  (mkSE StateUp EventAdminDown, mkTransition StateAdminDown [ActionSetDiagAdminDown])
].

(** ** The lookup array *)

Abbreviation fsmArrayT := (list (list fsmEntry)).

(** The zero value of [\[numStates\]\[numEvents\]fsmEntry]. *)
Definition fsmArray_zero : fsmArrayT :=
  replicate (Z.to_nat numStates) (replicate (Z.to_nat numEvents) (mkFsmEntry 0 [] false)).

Definition fsmArray_get (arr : fsmArrayT) (s e : Z) : go unit fsmEntry :=
  match arr !! Z.to_nat s with
  | Some row => match row !! Z.to_nat e with Some x => Ok x | None => Panic end
  | None => Panic
  end.

(** [fsmArray\[s\]\[e\] = x], with Go's range checks. *)
Definition fsmArray_set (arr : fsmArrayT) (s e : Z) (x : fsmEntry) : go unit fsmArrayT :=
  match arr !! Z.to_nat s with
  | Some row =>
      if bool_decide (Z.to_nat e < length row)%nat
      then Ok (<[Z.to_nat s := <[Z.to_nat e := x]> row]> arr)
      else Panic
  | None => Panic
  end.

(** The loop of [init], over the entries in the order [range] yields them. *)
Fixpoint fsm_init (entries : list (stateEvent * transition)) (arr : fsmArrayT)
    : go unit fsmArrayT :=
  match entries with
  | [] => Ok arr
  | (key, tr) :: rest =>
      arr ← fsmArray_set arr (se_state key) (se_event key)
              (mkFsmEntry (tr_newState tr) (tr_actions tr) true);
      fsm_init rest arr
  end.

Definition ApplyEvent (fsmArray : fsmArrayT) (currentState event : Z) : go unit FSMResult :=
  if (numStates <=? currentState) || (numEvents <=? event)
  then Ok (mkFSMResult currentState currentState [] false)
  else
    entry ← fsmArray_get fsmArray currentState event;
    if negb (entry_valid entry)
    then Ok (mkFSMResult currentState currentState [] false)
    else Ok (mkFSMResult currentState (entry_newState entry) (entry_actions entry)
                         (negb (currentState =? entry_newState entry))).

(** The result the transition table prescribes.  [apply_event_any_init_order]
    shows that [ApplyEvent] returns it on the array [init] builds, whatever the
    order of the entries, so the components that call the FSM use this form. *)
Definition apply_event (currentState event : Z) : FSMResult :=
  match fsmTable !! mkSE currentState event with
  | Some tr => mkFSMResult currentState (tr_newState tr) (tr_actions tr)
                           (negb (currentState =? tr_newState tr))
  | None => mkFSMResult currentState currentState [] false
  end.

Definition RecvStateToEvent (remoteState : Z) : Z :=
  if remoteState =? StateAdminDown then EventRecvAdminDown
  else if remoteState =? StateDown then EventRecvDown
  else if remoteState =? StateInit then EventRecvInit
  else if remoteState =? StateUp then EventRecvUp
  else EventRecvDown.

(** ** The array implements the table *)

Definition in_range (k : stateEvent) : Prop :=
  0 <= se_state k < numStates /\ 0 <= se_event k < numEvents.

(** An array of the declared shape. *)
Definition arr_shape (arr : fsmArrayT) : Prop :=
  length arr = Z.to_nat numStates /\ Forall (fun row => length row = Z.to_nat numEvents) arr.

Lemma arr_shape_get arr k :
  arr_shape arr -> in_range k -> exists x, fsmArray_get arr (se_state k) (se_event k) = Ok x.
Proof.
  intros [Hl Hr] [Hs He]. unfold fsmArray_get.
  destruct (lookup_lt_is_Some_2 arr (Z.to_nat (se_state k))) as [row Hrow]; [lia|].
  rewrite Hrow. pose proof (Forall_lookup_1 _ _ _ _ Hr Hrow) as Hlen. cbn in Hlen.
  destruct (lookup_lt_is_Some_2 row (Z.to_nat (se_event k))) as [x ->]; [lia|eauto].
Qed.

Lemma arr_shape_set arr k x :
  arr_shape arr -> in_range k ->
  exists arr', fsmArray_set arr (se_state k) (se_event k) x = Ok arr' /\ arr_shape arr' /\
    forall k', in_range k' ->
      fsmArray_get arr' (se_state k') (se_event k') =
      if bool_decide (k = k') then Ok x else fsmArray_get arr (se_state k') (se_event k').
Proof.
  intros [Hl Hr] [Hs He]. unfold fsmArray_set, fsmArray_get.
  destruct (lookup_lt_is_Some_2 arr (Z.to_nat (se_state k))) as [row Hrow]; [lia|].
  rewrite Hrow. pose proof (Forall_lookup_1 _ _ _ _ Hr Hrow) as Hlen. cbn in Hlen.
  rewrite bool_decide_true by lia. eexists. split; [done|]. split.
  - split; [by rewrite length_insert|]. apply Forall_insert; [done|by rewrite length_insert].
  - intros k' [Hs' He']. case_bool_decide as Hk.
    + subst k'. rewrite list_lookup_insert_eq by lia. by rewrite list_lookup_insert_eq by lia.
    + destruct (decide (se_state k = se_state k')) as [Es|Es].
      * rewrite <- Es, list_lookup_insert_eq by lia. rewrite Hrow.
        rewrite list_lookup_insert_ne; [done|]. intros En. apply Hk.
        destruct k, k'; cbn in *. f_equal; lia.
      * rewrite list_lookup_insert_ne by lia. done.
Qed.

Definition entry_of (tr : transition) : fsmEntry :=
  mkFsmEntry (tr_newState tr) (tr_actions tr) true.

(** After [init] a cell holds its entry if there is one, and its old value if not. *)
Lemma fsm_init_lookup entries arr :
  arr_shape arr -> Forall in_range entries.*1 -> NoDup entries.*1 ->
  exists arr', fsm_init entries arr = Ok arr' /\ arr_shape arr' /\
    forall k, in_range k ->
      fsmArray_get arr' (se_state k) (se_event k) =
      match (list_to_map entries : gmap stateEvent transition) !! k with
      | Some tr => Ok (entry_of tr)
      | None => fsmArray_get arr (se_state k) (se_event k)
      end.
Proof.
  revert arr. induction entries as [|[k tr] rest IH]; intros arr Hsh Hr Hnd; cbn.
  - exists arr. split_and!; [done..|]. intros k' _. by rewrite lookup_empty.
  - apply Forall_cons_1 in Hr as [Hk Hr]. apply NoDup_cons in Hnd as [Hin Hnd].
    destruct (arr_shape_set arr k (entry_of tr) Hsh Hk) as (arr1 & Hset & Hsh1 & Hget).
    unfold entry_of in Hset. rewrite Hset. cbn.
    destruct (IH arr1 Hsh1 Hr Hnd) as (arr2 & H2 & Hsh2 & Hg2).
    exists arr2. split_and!; [done..|]. intros k' Hk'. rewrite Hg2, Hget by done.
    destruct (decide (k = k')) as [<-|Hne].
    + rewrite lookup_insert_eq, not_elem_of_list_to_map_1 by done. by rewrite bool_decide_true.
    + rewrite lookup_insert_ne by done. by rewrite bool_decide_false.
Qed.

Lemma fsmArray_zero_shape : arr_shape fsmArray_zero.
Proof. split; [done|]. by repeat constructor. Qed.

Lemma fsmTable_in_range k tr : fsmTable !! k = Some tr -> in_range k.
Proof.
  intros H. cut (k ∈ dom fsmTable); [|by apply elem_of_dom].
  unfold fsmTable. rewrite dom_list_to_map_L. cbn.
  rewrite !elem_of_union, !elem_of_singleton, elem_of_empty.
  intros Hk. repeat destruct Hk as [->|Hk]; try done; unfold in_range; cbn; lia.
Qed.

(** The zero cells are invalid. *)
Lemma fsmArray_zero_get k :
  in_range k -> fsmArray_get fsmArray_zero (se_state k) (se_event k) = Ok (mkFsmEntry 0 [] false).
Proof.
  intros [Hs He]. unfold fsmArray_get, fsmArray_zero.
  rewrite lookup_replicate_2 by lia. by rewrite lookup_replicate_2 by lia.
Qed.

Lemma apply_event_of_init entries arr s e :
  entries ≡ₚ map_to_list fsmTable -> fsm_init entries fsmArray_zero = Ok arr ->
  is_u8 s -> is_u8 e -> ApplyEvent arr s e = Ok (apply_event s e).
Proof.
  intros Hp Hi Hs He.
  assert (Hnd : NoDup entries.*1) by (rewrite Hp; apply NoDup_fst_map_to_list).
  assert (Hrg : Forall in_range entries.*1).
  { apply Forall_forall. intros k ([? tr] & -> & Hk)%list_elem_of_fmap. rewrite Hp in Hk.
    apply elem_of_map_to_list in Hk. by eapply fsmTable_in_range. }
  destruct (fsm_init_lookup entries _ fsmArray_zero_shape Hrg Hnd) as (arr' & Hi' & _ & Hget).
  rewrite Hi in Hi'. injection Hi' as <-.
  assert (list_to_map entries = fsmTable) as Hmap.
  { rewrite <- (list_to_map_to_list fsmTable). by apply list_to_map_proper. }
  unfold ApplyEvent, apply_event.
  destruct ((numStates <=? s) || (numEvents <=? e)) eqn:Hg.
  - destruct (fsmTable !! mkSE s e) eqn:Ht; [|done]. apply fsmTable_in_range in Ht as [? ?]; cbn in *.
    apply orb_true_iff in Hg as [?|?]; bools; lia.
  - bools. assert (Hk : in_range (mkSE s e)) by (unfold in_range, is_u8 in *; cbn; lia).
    pose proof (Hget _ Hk) as Hge. cbn in Hge. rewrite Hge, Hmap.
    destruct (fsmTable !! mkSE s e); [done|].
    pose proof (fsmArray_zero_get _ Hk) as Hz. cbn [se_state se_event] in Hz. by rewrite Hz.
Qed.

Lemma fsm_init_total entries :
  entries ≡ₚ map_to_list fsmTable -> exists arr, fsm_init entries fsmArray_zero = Ok arr.
Proof.
  intros Hp.
  assert (Hnd : NoDup entries.*1) by (rewrite Hp; apply NoDup_fst_map_to_list).
  assert (Hrg : Forall in_range entries.*1).
  { apply Forall_forall. intros k ([? tr] & -> & Hk)%list_elem_of_fmap. rewrite Hp in Hk.
    apply elem_of_map_to_list in Hk. by eapply fsmTable_in_range. }
  destruct (fsm_init_lookup entries _ fsmArray_zero_shape Hrg Hnd) as (arr & ? & _). eauto.
Qed.

(** ** RFC 5880: the pseudocode of Sections 6.8.4, 6.8.6 and 6.8.16 *)

Module RFC.

Inductive state := AdminDown | Down | Init | Up.

#[global] Instance state_eq_dec : EqDecision state.
Proof. solve_decision. Defined.

Definition code (s : state) : Z :=
  match s with
  | AdminDown => StateAdminDown | Down => StateDown | Init => StateInit | Up => StateUp
  end.

(** Section 6.8.6, from "If bfd.SessionState is AdminDown": the new state and the
    value assigned to bfd.LocalDiag, if one is. *)
Definition receive (local recv : state) : state * option Z :=
  match local with
  | AdminDown => (AdminDown, None)
  | _ =>
      match recv with
      | AdminDown =>
          match local with
          | Down => (Down, None)
          | _ => (Down, Some DiagNeighborDown)
          end
      | _ =>
          match local with
          | Down =>
              match recv with Down => (Init, None) | Init => (Up, None) | _ => (Down, None) end
          | Init =>
              match recv with Init | Up => (Up, None) | _ => (Init, None) end
          | _ =>
              match recv with Down => (Down, Some DiagNeighborDown) | _ => (local, None) end
          end
      end
  end.

(** Section 6.8.4: the Detection Time passed without a packet. *)
Definition timeout (local : state) : state * option Z :=
  match local with
  | Init | Up => (Down, Some DiagControlTimeExpired)
  | _ => (local, None)
  end.

(** Section 6.8.16: administrative control.  A session that is already down
    administratively stays as it is. *)
Definition admin_down (local : state) : state * option Z :=
  match local with
  | AdminDown => (AdminDown, None)
  | _ => (AdminDown, Some DiagAdminDown)
  end.

Definition admin_up (local : state) : state * option Z :=
  match local with
  | AdminDown => (Down, None)
  | _ => (local, None)
  end.

Inductive input := Receive (s : state) | Timeout | SetAdminDown | SetAdminUp.

Definition step (local : state) (i : input) : state * option Z :=
  match i with
  | Receive r => receive local r
  | Timeout => timeout local
  | SetAdminDown => admin_down local
  | SetAdminUp => admin_up local
  end.

End RFC.

(** The event an input raises, and what a list of actions assigns to LocalDiag. *)
Definition event_of (i : RFC.input) : Z :=
  match i with
  | RFC.Receive r => RecvStateToEvent (RFC.code r)
  | RFC.Timeout => EventTimerExpired
  | RFC.SetAdminDown => EventAdminDown
  | RFC.SetAdminUp => EventAdminUp
  end.

Definition diag_of_action (a : Z) : option Z :=
  if a =? ActionSetDiagTimeExpired then Some DiagControlTimeExpired
  else if a =? ActionSetDiagNeighborDown then Some DiagNeighborDown
  else if a =? ActionSetDiagAdminDown then Some DiagAdminDown
  else None.

Definition diag_of_actions (acts : list Z) : option Z := last (omap diag_of_action acts).

(** ** Two peers *)

(** One exchange: the second peer processes the state the first sends, then the
    first processes the state the second answers with. *)
Definition exchange (p : Z * Z) : Z * Z :=
  let '(a, b) := p in
  let b := NewState (apply_event b (RecvStateToEvent a)) in
  let a := NewState (apply_event a (RecvStateToEvent b)) in
  (a, b).

Lemma converge_up a b n :
  a ∈ [StateDown; StateInit; StateUp] -> b ∈ [StateDown; StateInit; StateUp] ->
  (3 <= n)%nat -> Nat.iter n exchange (a, b) = (StateUp, StateUp).
Proof.
  intros Ha Hb Hn. replace n with ((n - 3) + 3)%nat by lia. rewrite Nat.iter_add.
  assert (Nat.iter 3 exchange (a, b) = (StateUp, StateUp)) as ->.
  { repeat (apply elem_of_cons in Ha as [->|Ha]; [|]); try by apply elem_of_nil in Ha.
    all: repeat (apply elem_of_cons in Hb as [->|Hb]; [vm_compute; reflexivity|]);
      by apply elem_of_nil in Hb. }
  induction (n - 3)%nat as [|k IH]; [done|]. rewrite Nat.iter_succ, IH. vm_compute. reflexivity.
Qed.

(** ** Properties *)

(** C25: the array that [init] fills from the transition table answers every
    lookup as the table does, for each of the 65536 pairs of state and event
    bytes and for every order in which Go's map iteration may yield the entries;
    neither [init] nor [ApplyEvent] ever indexes out of range. *)
Theorem apply_event_any_init_order entries s e
    (Hp : entries ≡ₚ map_to_list fsmTable) (Hs : is_u8 s) (He : is_u8 e) :
  exists arr, fsm_init entries fsmArray_zero = Ok arr /\
              ApplyEvent arr s e = Ok (apply_event s e).
Proof.
  destruct (fsm_init_total entries Hp) as [arr Ha]. exists arr. split; [done|].
  by eapply apply_event_of_init.
Qed.

Lemma apply_event_any_init_order_witness :
  exists arr, fsm_init (reverse (map_to_list fsmTable)) fsmArray_zero = Ok arr /\
              ApplyEvent arr StateDown EventRecvInit =
              Ok (mkFSMResult StateDown StateUp [ActionSendControl; ActionNotifyUp] true).
Proof.
  apply (apply_event_any_init_order (reverse (map_to_list fsmTable)) StateDown EventRecvInit).
  - apply reverse_Permutation.
  - unfold is_u8, StateDown; lia.
  - unfold is_u8, EventRecvInit; lia.
Defined.

(** C24: the state machine refines the RFC 5880 pseudocode: for every state and
    every received state, timeout or administrative input, the table yields the
    state and the LocalDiag assignment of the RFC, reports [Changed] exactly when
    the state changes, signals Up exactly on entry to Up and Down exactly on the
    loss of an Init or Up session that was not requested locally. *)
Theorem fsm_refines_rfc5880 s i :
  let r := apply_event (RFC.code s) (event_of i) in
  let '(s', d) := RFC.step s i in
  OldState r = RFC.code s /\ NewState r = RFC.code s' /\ diag_of_actions (Actions r) = d /\
  Changed r = bool_decide (s <> s') /\
  (ActionNotifyUp ∈ Actions r <-> s' = RFC.Up /\ s <> RFC.Up) /\
  (ActionNotifyDown ∈ Actions r <-> s' = RFC.Down /\ (s = RFC.Init \/ s = RFC.Up)).
Proof.
  destruct s, i as [[]| | |]; (do 4 (split; [vm_compute; done|])); split;
    refine (iff_of_bool_decide _ _ _); vm_compute; done.
Qed.

(** Two peers that exchange states without loss come up: from any pair of
    states neither of which is AdminDown, three exchanges reach Up at both ends,
    and there they stay. *)
Theorem peers_converge_to_up a b n :
  a ∈ [StateDown; StateInit; StateUp] -> b ∈ [StateDown; StateInit; StateUp] ->
  (3 <= n)%nat -> Nat.iter n exchange (a, b) = (StateUp, StateUp).
Proof. apply converge_up. Qed.

Lemma peers_converge_to_up_witness :
  Nat.iter 5 exchange (StateDown, StateUp) = (StateUp, StateUp).
Proof. apply (peers_converge_to_up StateDown StateUp 5); [set_solver|set_solver|lia]. Defined.
