(* ===== verification/Hash.v ===== *)
(** * MD5 and SHA-1 (Go's [crypto/md5] and [crypto/sha1])

    Executable definitions of the two digests the authentication code calls,
    following RFC 1321 and RFC 3174 on 32-bit words kept in [Z].  The RFC test
    vectors at the end are evaluated; what the rest of the development uses is
    that a digest has its fixed length and consists of bytes. *)

From S2P Require Import Prelude.

Local Open Scope Z_scope.

Definition rotl32 (x n : Z) : Z := u32 (Z.lor (Z.shiftl x n) (Z.shiftr x (32 - n))).
Definition not32 (x : Z) : Z := 2 ^ 32 - 1 - x.
Definition nthZ (l : list Z) (i : nat) : Z := default 0 (l !! i).

(** A message of at most [n] blocks of 64 bytes, cut into blocks. *)
Fixpoint blocks (n : nat) (l : list Z) : list (list Z) :=
  match n with
  | O => []
  | S n => take 64 l :: blocks n (drop 64 l)
  end.

(** The padding both digests use: a one bit, zeros up to 56 modulo 64, and the
    length of the message in bits as eight bytes. *)
Definition pad_message (len_bytes : Z -> list Z) (msg : list Z) : list Z :=
  let zeros := (55 - zlen msg) mod 64 in
  msg ++ [0x80] ++ replicate (Z.to_nat zeros) 0 ++ len_bytes (8 * zlen msg).

Definition le32_bytes (v : Z) : list Z :=
  [u8 v; u8 (Z.shiftr v 8); u8 (Z.shiftr v 16); u8 (Z.shiftr v 24)].
Definition le64_bytes (v : Z) : list Z := le32_bytes (u32 v) ++ le32_bytes (u32 (Z.shiftr v 32)).
Definition be64_bytes (v : Z) : list Z := be32_bytes (u32 (Z.shiftr v 32)) ++ be32_bytes (u32 v).

(** The sixteen words of a block. *)
Fixpoint words (word : Z -> Z -> Z -> Z -> Z) (block : list Z) : list Z :=
  match block with
  | b0 :: b1 :: b2 :: b3 :: rest => word b0 b1 b2 b3 :: words word rest
  | _ => []
  end.

Definition le32_val (b0 b1 b2 b3 : Z) : Z := be32_val b3 b2 b1 b0.

(** ** MD5 *)

Module MD5.

Definition sines : list Z :=
  [0xd76aa478; 0xe8c7b756; 0x242070db; 0xc1bdceee;
   0xf57c0faf; 0x4787c62a; 0xa8304613; 0xfd469501;
   0x698098d8; 0x8b44f7af; 0xffff5bb1; 0x895cd7be;
   0x6b901122; 0xfd987193; 0xa679438e; 0x49b40821;
   0xf61e2562; 0xc040b340; 0x265e5a51; 0xe9b6c7aa;
   0xd62f105d; 0x02441453; 0xd8a1e681; 0xe7d3fbc8;
   0x21e1cde6; 0xc33707d6; 0xf4d50d87; 0x455a14ed;
   0xa9e3e905; 0xfcefa3f8; 0x676f02d9; 0x8d2a4c8a;
   0xfffa3942; 0x8771f681; 0x6d9d6122; 0xfde5380c;
   0xa4beea44; 0x4bdecfa9; 0xf6bb4b60; 0xbebfbc70;
   0x289b7ec6; 0xeaa127fa; 0xd4ef3085; 0x04881d05;
   0xd9d4d039; 0xe6db99e5; 0x1fa27cf8; 0xc4ac5665;
   0xf4292244; 0x432aff97; 0xab9423a7; 0xfc93a039;
   0x655b59c3; 0x8f0ccc92; 0xffeff47d; 0x85845dd1;
   0x6fa87e4f; 0xfe2ce6e0; 0xa3014314; 0x4e0811a1;
   0xf7537e82; 0xbd3af235; 0x2ad7d2bb; 0xeb86d391].

Definition shifts : list Z :=
  concat (replicate 4 [7; 12; 17; 22]) ++ concat (replicate 4 [5; 9; 14; 20]) ++
  concat (replicate 4 [4; 11; 16; 23]) ++ concat (replicate 4 [6; 10; 15; 21]).

Definition round (x : list Z) (st : Z * Z * Z * Z) (i : nat) : Z * Z * Z * Z :=
  let '(a, b, c, d) := st in
  let '(f, g) :=
    match (i / 16)%nat with
    | 0%nat => (Z.lor (Z.land b c) (Z.land (not32 b) d), i)
    | 1%nat => (Z.lor (Z.land d b) (Z.land (not32 d) c), (5 * i + 1) mod 16)%nat
    | 2%nat => (Z.lxor b (Z.lxor c d), (3 * i + 5) mod 16)%nat
    | _ => (Z.lxor c (Z.lor b (not32 d)), (7 * i) mod 16)%nat
    end in
  (d, u32 (b + rotl32 (u32 (a + f + nthZ sines i + nthZ x g)) (nthZ shifts i)), b, c).

Definition block_step (st : Z * Z * Z * Z) (block : list Z) : Z * Z * Z * Z :=
  let '(a, b, c, d) := st in
  let '(a', b', c', d') := fold_left (round (words le32_val block)) (seq 0 64) st in
  (u32 (a + a'), u32 (b + b'), u32 (c + c'), u32 (d + d')).

Definition Sum (msg : list Z) : list Z :=
  let m := pad_message le64_bytes msg in
  let '(a, b, c, d) :=
    fold_left block_step (blocks (length m / 64) m)
      (0x67452301, 0xefcdab89, 0x98badcfe, 0x10325476) in
  le32_bytes a ++ le32_bytes b ++ le32_bytes c ++ le32_bytes d.

End MD5.

(** ** SHA-1 *)

Module SHA1.

(** The message schedule, latest word first, extended by [n] words. *)
Fixpoint schedule (n : nat) (w : list Z) : list Z :=
  match n with
  | O => w
  | S n =>
      schedule n
        (rotl32 (Z.lxor (Z.lxor (nthZ w 2) (nthZ w 7)) (Z.lxor (nthZ w 13) (nthZ w 15))) 1 :: w)
  end.

Definition round (st : Z * Z * Z * Z * Z) (iw : nat * Z) : Z * Z * Z * Z * Z :=
  let '(a, b, c, d, e) := st in
  let '(i, w) := iw in
  let '(f, k) :=
    match (i / 20)%nat with
    | 0%nat => (Z.lor (Z.land b c) (Z.land (not32 b) d), 0x5a827999)
    | 1%nat => (Z.lxor b (Z.lxor c d), 0x6ed9eba1)
    | 2%nat => (Z.lor (Z.land b c) (Z.lor (Z.land b d) (Z.land c d)), 0x8f1bbcdc)
    | _ => (Z.lxor b (Z.lxor c d), 0xca62c1d6)
    end in
  (u32 (rotl32 a 5 + f + e + k + w), a, rotl32 b 30, c, d).

Definition block_step (st : Z * Z * Z * Z * Z) (block : list Z) : Z * Z * Z * Z * Z :=
  let '(a, b, c, d, e) := st in
  let w := reverse (schedule 64 (reverse (words be32_val block))) in
  let '(a', b', c', d', e') := fold_left round (imap pair w) st in
  (u32 (a + a'), u32 (b + b'), u32 (c + c'), u32 (d + d'), u32 (e + e')).

Definition Sum (msg : list Z) : list Z :=
  let m := pad_message be64_bytes msg in
  let '(a, b, c, d, e) :=
    fold_left block_step (blocks (length m / 64) m)
      (0x67452301, 0xefcdab89, 0x98badcfe, 0x10325476, 0xc3d2e1f0) in
  be32_bytes a ++ be32_bytes b ++ be32_bytes c ++ be32_bytes d ++ be32_bytes e.

End SHA1.

(** ** Digest shape *)

Lemma le32_bytes_ok v : bytes_ok (le32_bytes v).
Proof. unfold le32_bytes. repeat constructor; apply u8_byte. Qed.

#[export] Hint Resolve le32_bytes_ok : bfd.

Lemma md5_shape msg : length (MD5.Sum msg) = 16%nat /\ bytes_ok (MD5.Sum msg).
Proof.
  unfold MD5.Sum. destruct (fold_left _ _ _) as [[[a b] c] d].
  split; [done|]. auto 10 with bfd.
Qed.

Lemma sha1_shape msg : length (SHA1.Sum msg) = 20%nat /\ bytes_ok (SHA1.Sum msg).
Proof.
  unfold SHA1.Sum. destruct (fold_left _ _ _) as [[[[a b] c] d] e].
  split; [done|]. auto 10 with bfd.
Qed.

(** ** Test vectors of RFC 1321 and RFC 3174 *)

Definition ascii_bytes (s : string) : list Z :=
  map (fun c => Z.of_nat (Ascii.nat_of_ascii c)) (String.list_ascii_of_string s).

Definition hex_val (l : list Z) : Z := fold_left (fun acc b => acc * 256 + b) l 0.

Example md5_vectors :
  map (fun s => hex_val (MD5.Sum (ascii_bytes s)))
    [""; "abc"; "message digest";
     "12345678901234567890123456789012345678901234567890123456789012345678901234567890"]%string =
  [0xd41d8cd98f00b204e9800998ecf8427e; 0x900150983cd24fb0d6963f7d28e17f72;
   0xf96b697d7cb7938d525a2f31aaf161d0; 0x57edf4a22be3c955ac49da2e2107b67a].
Proof. vm_compute. reflexivity. Qed.

Example sha1_vectors :
  map (fun s => hex_val (SHA1.Sum (ascii_bytes s)))
    ["abc"; "abcdbcdecdefdefgefghfghighijhijkijkljklmklmnlmnomnopnopq"]%string =
  [0xa9993e364706816aba3e25717850c26c9cd0d89d; 0x84983e441c3bd26ebaae4aa1f95129e5e54670f1].
Proof. vm_compute. reflexivity. Qed.
