(* ===== verification/Auth.v ===== *)
(** * Authentication ([src/internal/bfd/auth.go])

    Key stores, the five authenticators of RFC 5880 Sections 6.7.2 to 6.7.4 and
    their shared signing and verification procedures.  Both procedures work on
    the packet buffer in place (the key is put in the digest slot, hashed, and
    replaced by the digest), so the buffer is part of what they return, on their
    error paths too.  The [AuthKeyStore] interface is a record of its methods;
    the values of the [Authenticator] interface are the five types of the
    package. *)

From S2P Require Import Prelude Packet Hash.

Local Open Scope Z_scope.

Inductive auth_error :=
| ErrAuthKeyNotFound
| ErrAuthTypeMismatch
| ErrAuthDigestMismatch
| ErrAuthPasswordMismatch
| ErrAuthSeqOutOfWindow
| ErrAuthMissingSection
| ErrAuthLenMismatch
| ErrAuthKeyTypeMismatch
| ErrAuthSecretInvalid
| ErrAuthWireMissing
| ErrSignMarshal (e : packet_error)
| ErrRand.

#[export] Instance auth_error_eq_dec : EqDecision auth_error.
Proof. solve_decision. Defined.

(** ** Keys *)

Record AuthKey := mkAuthKey { key_ID : Z; key_Type : Z; key_Secret : list Z }.

#[export] Instance AuthKey_eq_dec : EqDecision AuthKey.
Proof. solve_decision. Defined.

Record AuthKeyStore := mkAuthKeyStore {
  LookupKey : Z -> go auth_error AuthKey;
  CurrentKey : AuthKey;
}.

Record StaticAuthKeyStore := mkStaticAuthKeyStore {
  sks_keys : gmap Z AuthKey;
  sks_currentKey : AuthKey;
}.

Definition validateAuthKey (key : AuthKey) : go auth_error unit :=
  if (key_Type key =? AuthTypeSimplePassword) || (key_Type key =? AuthTypeKeyedMD5)
     || (key_Type key =? AuthTypeMeticulousKeyedMD5) then
    if (zlen (key_Secret key) <? 1) || (16 <? zlen (key_Secret key))
    then Err ErrAuthSecretInvalid else Ok tt
  else if (key_Type key =? AuthTypeKeyedSHA1) || (key_Type key =? AuthTypeMeticulousKeyedSHA1) then
    if (zlen (key_Secret key) <? 1) || (20 <? zlen (key_Secret key))
    then Err ErrAuthSecretInvalid else Ok tt
  else Err ErrAuthTypeMismatch.

Fixpoint add_keys (additional : list AuthKey) (keys : gmap Z AuthKey)
    : go auth_error (gmap Z AuthKey) :=
  match additional with
  | [] => Ok keys
  | key :: rest =>
      _ ← validateAuthKey key;
      add_keys rest (<[key_ID key := key]> keys)
  end.

Definition NewStaticAuthKeyStore (current : AuthKey) (additional : list AuthKey)
    : go auth_error StaticAuthKeyStore :=
  _ ← validateAuthKey current;
  keys ← add_keys additional {[ key_ID current := current ]};
  Ok (mkStaticAuthKeyStore keys current).

Definition StaticAuthKeyStore_LookupKey (s : StaticAuthKeyStore) (id : Z) : go auth_error AuthKey :=
  match sks_keys s !! id with
  | Some key => Ok key
  | None => Err ErrAuthKeyNotFound
  end.

Definition StaticAuthKeyStore_CurrentKey (s : StaticAuthKeyStore) : AuthKey := sks_currentKey s.

(** The store as a value of the interface. *)
Definition static_key_store (s : StaticAuthKeyStore) : AuthKeyStore :=
  mkAuthKeyStore (StaticAuthKeyStore_LookupKey s) (StaticAuthKeyStore_CurrentKey s).

(** ** Authenticators and their state *)

Inductive Authenticator :=
| SimplePasswordAuth
| KeyedMD5Auth
| MeticulousKeyedMD5Auth
| KeyedSHA1Auth
| MeticulousKeyedSHA1Auth.

#[export] Instance Authenticator_eq_dec : EqDecision Authenticator.
Proof. solve_decision. Defined.

Definition NewAuthenticator (authType : Z) : go auth_error Authenticator :=
  if authType =? AuthTypeSimplePassword then Ok SimplePasswordAuth
  else if authType =? AuthTypeKeyedMD5 then Ok KeyedMD5Auth
  else if authType =? AuthTypeMeticulousKeyedMD5 then Ok MeticulousKeyedMD5Auth
  else if authType =? AuthTypeKeyedSHA1 then Ok KeyedSHA1Auth
  else if authType =? AuthTypeMeticulousKeyedSHA1 then Ok MeticulousKeyedSHA1Auth
  else Err ErrAuthTypeMismatch.

Definition authenticatorType (auth : Authenticator) : Z :=
  match auth with
  | SimplePasswordAuth => AuthTypeSimplePassword
  | KeyedMD5Auth => AuthTypeKeyedMD5
  | MeticulousKeyedMD5Auth => AuthTypeMeticulousKeyedMD5
  | KeyedSHA1Auth => AuthTypeKeyedSHA1
  | MeticulousKeyedSHA1Auth => AuthTypeMeticulousKeyedSHA1
  end.

Record AuthState := mkAuthState {
  as_Type : Z;
  as_RcvAuthSeq : Z;
  as_XmitAuthSeq : Z;
  as_AuthSeqKnown : bool;
}.

#[export] Instance AuthState_eq_dec : EqDecision AuthState.
Proof. solve_decision. Defined.

(** [rand.Read] fills four bytes or fails. *)
Definition NewAuthState (authType : Z) (random : option (Z * Z * Z * Z))
    : go auth_error AuthState :=
  match random with
  | None => Err ErrRand
  | Some (b0, b1, b2, b3) =>
      Ok {| as_Type := authType; as_RcvAuthSeq := 0;
            as_XmitAuthSeq := be32_val b0 b1 b2 b3; as_AuthSeqKnown := false |}
  end.

Definition SeqInWindow (seq lo hi : Z) : bool := u32 (seq - lo) <=? u32 (hi - lo).

Definition requireAuthSection (pkt : ControlPacket) : go auth_error AuthSection :=
  match pkt_Auth pkt with
  | None => Err ErrAuthMissingSection
  | Some auth => Ok auth
  end.

(** ** Simple Password *)

Definition SimplePassword_Sign (keys : AuthKeyStore) (pkt : ControlPacket) : ControlPacket :=
  let key := CurrentKey keys in
  {| pkt with
     pkt_Auth := Some {| auth_Type := AuthTypeSimplePassword;
       auth_Len := u8 (authSimpleHeaderSize + zlen (key_Secret key));
       auth_KeyID := key_ID key; auth_AuthData := key_Secret key;
       auth_SequenceNumber := 0; auth_Digest := [] |};
     pkt_AuthPresent := true |}.

Definition verifyPassword (key : AuthKey) (auth : AuthSection) : go auth_error unit :=
  let expectedLen := u8 (authSimpleHeaderSize + zlen (key_Secret key)) in
  if negb (auth_Len auth =? expectedLen) then Err ErrAuthLenMismatch else
  if negb (bool_decide (auth_AuthData auth = key_Secret key)) then Err ErrAuthPasswordMismatch else
  Ok tt.

Definition SimplePassword_Verify (keys : AuthKeyStore) (pkt : ControlPacket) : go auth_error unit :=
  auth ← requireAuthSection pkt;
  if negb (auth_Type auth =? AuthTypeSimplePassword) then Err ErrAuthTypeMismatch else
  match LookupKey keys (auth_KeyID auth) with
  | Ok key => verifyPassword key auth
  | Err _ => Err ErrAuthKeyNotFound
  | Panic => Panic
  end.

(** ** Keyed MD5 and SHA1 *)

Record hashParams := mkHashParams {
  hp_authType : Z;
  hp_authLen : Z;
  hp_digestSize : Z;
  hp_meticulous : bool;
}.

Definition hashParamsMD5 : hashParams :=
  {| hp_authType := AuthTypeKeyedMD5; hp_authLen := authLenMD5;
     hp_digestSize := md5DigestSize; hp_meticulous := false |}.

Definition hashParamsSHA1 : hashParams :=
  {| hp_authType := AuthTypeKeyedSHA1; hp_authLen := authLenSHA1;
     hp_digestSize := sha1DigestSize; hp_meticulous := false |}.

Definition computeDigest (data : list Z) (p : hashParams) : list Z :=
  if hp_digestSize p =? md5DigestSize then MD5.Sum data else SHA1.Sum data.

(** [make(\[\]byte, size)] followed by [copy(_, src)]. *)
Definition copy_fresh (size : Z) (src : list Z) : list Z :=
  resize (Z.to_nat size) 0 src.

Definition buildAuthSection (key : AuthKey) (state : AuthState) (p : hashParams) : AuthSection :=
  {| auth_Type := hp_authType p; auth_Len := hp_authLen p; auth_KeyID := key_ID key;
     auth_AuthData := []; auth_SequenceNumber := as_XmitAuthSeq state;
     auth_Digest := copy_fresh (hp_digestSize p) (key_Secret key) |}.

Definition digestOffset : Z := HeaderSize + 8.

Definition computeAndPlaceDigest (n : Z) (p : hashParams) : bufM auth_error unit := fun buf =>
  match @slice auth_error buf 0 (Z.to_nat n) with
  | Ok data => b_copy (Z.to_nat digestOffset) (computeDigest data p) buf
  | _ => (Panic, buf)
  end.

Definition copyDigest (buf : list Z) (p : hashParams) : go auth_error (list Z) :=
  d ← slice buf (Z.to_nat digestOffset) (Z.to_nat (digestOffset + hp_digestSize p));
  Ok (copy_fresh (hp_digestSize p) d).

(** What a signing call leaves behind: its outcome, the authentication state,
    the packet and the buffer. *)
Definition sign_result : Type := go auth_error unit * AuthState * ControlPacket * list Z.

Definition signHash (state : AuthState) (keys : AuthKeyStore) (pkt : ControlPacket)
    (buf : list Z) (p : hashParams) : sign_result :=
  let key := CurrentKey keys in
  let state := {| state with as_XmitAuthSeq := u32 (as_XmitAuthSeq state + 1) |} in
  let auth := buildAuthSection key state p in
  let pkt := {| pkt with pkt_Auth := Some auth; pkt_AuthPresent := true |} in
  match MarshalControlPacket pkt buf with
  | (Err e, buf) => (Err (ErrSignMarshal e), state, pkt, buf)
  | (Panic, buf) => (Panic, state, pkt, buf)
  | (Ok n, buf) =>
      match computeAndPlaceDigest n p buf with
      | (Ok _, buf) =>
          match copyDigest buf p with
          | Ok d => (Ok tt, state, {| pkt with pkt_Auth := Some {| auth with auth_Digest := d |} |}, buf)
          | Err e => (Err e, state, pkt, buf)
          | Panic => (Panic, state, pkt, buf)
          end
      | (Err e, buf) => (Err e, state, pkt, buf)
      | (Panic, buf) => (Panic, state, pkt, buf)
      end
  end.

Definition validateHashAuth (pkt : ControlPacket) (p : hashParams) : go auth_error AuthSection :=
  auth ← requireAuthSection pkt;
  if negb (auth_Type auth =? hp_authType p) then Err ErrAuthTypeMismatch else
  if negb (auth_Len auth =? hp_authLen p) then Err ErrAuthLenMismatch else
  Ok auth.

Definition checkSeqWindow (state : AuthState) (pkt : ControlPacket) (auth : AuthSection)
    (p : hashParams) : go auth_error unit :=
  if negb (as_AuthSeqKnown state) then Ok tt else
  let detectMult := pkt_DetectMult pkt in
  let hi := u32 (as_RcvAuthSeq state + u32 (3 * detectMult)) in
  let lo := if hp_meticulous p then u32 (as_RcvAuthSeq state + 1) else as_RcvAuthSeq state in
  if negb (SeqInWindow (auth_SequenceNumber auth) lo hi) then Err ErrAuthSeqOutOfWindow else
  Ok tt.

Definition validateAuthWire (buf : list Z) (n : Z) (p : hashParams) : go auth_error unit :=
  let digestEnd := HeaderSize + 8 + hp_digestSize p in
  if (n <? digestEnd) || (zlen buf <? n) then Err ErrAuthWireMissing else Ok tt.

Fixpoint clearDigestSlot (offset size : nat) : bufM auth_error unit :=
  match size with
  | O => mret tt
  | S size => _ ← b_put offset 0; clearDigestSlot (S offset) size
  end.

(** What a verification leaves behind: its outcome, the state and the buffer. *)
Definition verify_result : Type := go auth_error unit * AuthState * list Z.

Definition verifyAndUpdateSeq (state : AuthState) (auth : AuthSection) (key : AuthKey)
    (buf : list Z) (n : Z) (p : hashParams) : verify_result :=
  let savedDigest := copy_fresh (hp_digestSize p) (auth_Digest auth) in
  let place :=
    _ ← clearDigestSlot (Z.to_nat digestOffset) (Z.to_nat (hp_digestSize p));
    b_copy (Z.to_nat digestOffset) (key_Secret key) in
  match place buf with
  | (Ok _, buf) =>
      match @slice auth_error buf 0 (Z.to_nat n) with
      | Ok data =>
          if negb (bool_decide (savedDigest = computeDigest data p))
          then (Err ErrAuthDigestMismatch, state, buf)
          else (Ok tt, {| state with as_RcvAuthSeq := auth_SequenceNumber auth;
                                     as_AuthSeqKnown := true |}, buf)
      | _ => (Panic, state, buf)
      end
  | (_, buf) => (Panic, state, buf)
  end.

Definition verifyHash (state : AuthState) (keys : AuthKeyStore) (pkt : ControlPacket)
    (buf : list Z) (n : Z) (p : hashParams) : verify_result :=
  match validateHashAuth pkt p with
  | Err e => (Err e, state, buf)
  | Panic => (Panic, state, buf)
  | Ok auth =>
      match LookupKey keys (auth_KeyID auth) with
      | Err _ => (Err ErrAuthKeyNotFound, state, buf)
      | Panic => (Panic, state, buf)
      | Ok key =>
          match checkSeqWindow state pkt auth p with
          | Err e => (Err e, state, buf)
          | Panic => (Panic, state, buf)
          | Ok _ =>
              match validateAuthWire buf n p with
              | Err e => (Err e, state, buf)
              | Panic => (Panic, state, buf)
              | Ok _ => verifyAndUpdateSeq state auth key buf n p
              end
          end
      end
  end.

(** ** The [Authenticator] interface *)

Definition hash_params (auth : Authenticator) : option hashParams :=
  match auth with
  | SimplePasswordAuth => None
  | KeyedMD5Auth => Some hashParamsMD5
  | MeticulousKeyedMD5Auth =>
      Some {| hashParamsMD5 with hp_meticulous := true; hp_authType := AuthTypeMeticulousKeyedMD5 |}
  | KeyedSHA1Auth => Some hashParamsSHA1
  | MeticulousKeyedSHA1Auth =>
      Some {| hashParamsSHA1 with hp_meticulous := true; hp_authType := AuthTypeMeticulousKeyedSHA1 |}
  end.

Definition Sign (auth : Authenticator) (state : AuthState) (keys : AuthKeyStore)
    (pkt : ControlPacket) (buf : list Z) : sign_result :=
  match hash_params auth with
  | None => (Ok tt, state, SimplePassword_Sign keys pkt, buf)
  | Some p => signHash state keys pkt buf p
  end.

Definition Verify (auth : Authenticator) (state : AuthState) (keys : AuthKeyStore)
    (pkt : ControlPacket) (buf : list Z) (n : Z) : verify_result :=
  match hash_params auth with
  | None => (SimplePassword_Verify keys pkt, state, buf)
  | Some p => verifyHash state keys pkt buf n p
  end.

(** ** Circular windows *)

Lemma seq_in_window_iff seq lo hi :
  is_u32 seq -> is_u32 lo -> is_u32 hi ->
  SeqInWindow seq lo hi = true <-> exists k, 0 <= k <= u32 (hi - lo) /\ seq = u32 (lo + k).
Proof.
  intros Hs Hl Hh. unfold SeqInWindow. rewrite Z.leb_le. split.
  - intros. exists (u32 (seq - lo)). width_lia.
  - intros (k & Hk & ->). width_lia.
Qed.

(** The window of [checkSeqWindow] in terms of the distance from the last
    accepted sequence number. *)
Lemma checkSeqWindow_distance state pkt auth p :
  is_u32 (as_RcvAuthSeq state) -> is_u32 (auth_SequenceNumber auth) ->
  1 <= pkt_DetectMult pkt < 256 ->
  checkSeqWindow state pkt auth p =
  if as_AuthSeqKnown state &&
     negb ((if hp_meticulous p then 1 else 0)
             <=? u32 (auth_SequenceNumber auth - as_RcvAuthSeq state))
  || as_AuthSeqKnown state &&
     negb (u32 (auth_SequenceNumber auth - as_RcvAuthSeq state) <=? 3 * pkt_DetectMult pkt)
  then Err ErrAuthSeqOutOfWindow else Ok tt.
Proof.
  intros Hr Hs Hm. unfold checkSeqWindow, SeqInWindow.
  destruct (as_AuthSeqKnown state); cbn [negb andb orb]; [|done].
  set (m := pkt_DetectMult pkt) in *. set (r := as_RcvAuthSeq state) in *.
  set (q := auth_SequenceNumber auth) in *.
  rewrite <- negb_andb. match goal with
  | |- (if negb ?x then _ else _) = (if negb ?y then _ else _) => assert (x = y) as ->; [|done]
  end.
  apply eq_true_iff_eq. rewrite andb_true_iff, !Z.leb_le.
  destruct (hp_meticulous p); width_lia.
Qed.

(** ** Parameters of the four keyed-hash authenticators *)

Definition hp_ok (p : hashParams) : Prop :=
  hp_authLen p = 8 + hp_digestSize p /\
  ((hp_digestSize p = 16 /\
    (hp_authType p = AuthTypeKeyedMD5 \/ hp_authType p = AuthTypeMeticulousKeyedMD5)) \/
   (hp_digestSize p = 20 /\
    (hp_authType p = AuthTypeKeyedSHA1 \/ hp_authType p = AuthTypeMeticulousKeyedSHA1))).

Lemma hash_params_ok a p :
  hash_params a = Some p -> hp_ok p /\ hp_authType p = authenticatorType a.
Proof. destruct a; intros [= <-]; split; try done; split; cbn; auto 10. Qed.

Lemma hp_digest_nat p : hp_ok p -> (16 <= Z.to_nat (hp_digestSize p) <= 20)%nat.
Proof. intros (_ & [[-> _]|[-> _]]); lia. Qed.

Lemma computeDigest_length data p :
  hp_ok p -> length (computeDigest data p) = Z.to_nat (hp_digestSize p).
Proof.
  unfold computeDigest. intros (_ & [[-> _]|[-> _]]); cbn;
    [apply (md5_shape data)|apply (sha1_shape data)].
Qed.

Lemma computeDigest_bytes data p : bytes_ok (computeDigest data p).
Proof. unfold computeDigest. case_match; [apply md5_shape|apply sha1_shape]. Qed.

Lemma copy_fresh_length size src : length (copy_fresh size src) = Z.to_nat size.
Proof. unfold copy_fresh. by rewrite length_resize. Qed.

Lemma copy_fresh_id size src : zlen src = size -> copy_fresh size src = src.
Proof. unfold copy_fresh, zlen. intros <-. by rewrite Nat2Z.id, resize_all. Qed.

(** ** The digest slot *)

(** [l] with the bytes from index [i] on replaced by [src], as [copy] does it. *)
Definition overlay (i : nat) (src l : list Z) : list Z :=
  take i l ++ take (length l - i) src ++ drop (i + length src) l.

Lemma overlay_app pre mid rest src :
  (length src <= length mid)%nat ->
  overlay (length pre) src (pre ++ mid ++ rest) = pre ++ src ++ drop (length src) mid ++ rest.
Proof.
  intros. unfold overlay. rewrite take_app_length. f_equal. rewrite !length_app.
  rewrite take_ge by lia. f_equal.
  rewrite drop_app_ge by lia. replace (_ + _ - _)%nat with (length src) by lia.
  by rewrite drop_app_le by lia.
Qed.

Lemma length_overlay i src l : (i <= length l)%nat -> length (overlay i src l) = length l.
Proof. intros. unfold overlay. rewrite !length_app, !length_take, length_drop. lia. Qed.

Lemma b_copy_overlay {E} i src buf :
  (i <= length buf)%nat -> @b_copy E i src buf = (Ok tt, overlay i src buf).
Proof.
  intros. unfold b_copy, overlay. rewrite bool_decide_true by done. do 2 f_equal. f_equal.
  - destruct (Nat.min_spec (length src) (length buf - i)) as [[? ->]|[? ->]]; [|done].
    by rewrite !take_ge by lia.
  - destruct (Nat.min_spec (length src) (length buf - i)) as [[? ->]|[? ->]]; [done|].
    by rewrite !drop_ge by lia.
Qed.

Lemma clearDigestSlot_app pre mid rest :
  clearDigestSlot (length pre) (length mid) (pre ++ mid ++ rest) =
  (Ok tt, pre ++ replicate (length mid) 0 ++ rest).
Proof.
  revert pre. induction mid as [|x mid IH]; intros pre; [done|]. cbn [clearDigestSlot length].
  erewrite b_bind_ok by (apply b_put_ok; rewrite length_app; simpl; lia).
  rewrite insert_app_r_alt, Nat.sub_diag by lia. cbn.
  specialize (IH (pre ++ [0])). rewrite length_app, Nat.add_1_r in IH.
  rewrite <- !app_assoc in IH. exact IH.
Qed.

Lemma clearDigestSlot_overlay i n buf :
  (i + n <= length buf)%nat ->
  clearDigestSlot i n buf = (Ok tt, overlay i (replicate n 0) buf).
Proof.
  intros Hl. destruct (list_split_length i buf) as (pre & r & -> & <-); [lia|].
  rewrite length_app in Hl. destruct (list_split_length n r) as (mid & rest & -> & <-); [lia|].
  rewrite clearDigestSlot_app, overlay_app by (rewrite length_replicate; lia).
  by rewrite length_replicate, drop_ge by lia.
Qed.

(** The image of a buffer that is hashed: the digest slot cleared and the key's
    secret copied over it. *)
Definition key_image (secret : list Z) (p : hashParams) (buf : list Z) : list Z :=
  overlay 32 secret (overlay 32 (replicate (Z.to_nat (hp_digestSize p)) 0) buf).

Lemma place_key secret p buf :
  32 + hp_digestSize p <= zlen buf -> 0 <= hp_digestSize p ->
  (_ ← clearDigestSlot (Z.to_nat digestOffset) (Z.to_nat (hp_digestSize p));
   b_copy (Z.to_nat digestOffset) secret) buf = (Ok tt, key_image secret p buf).
Proof.
  unfold zlen. intros Hl Hs. change (Z.to_nat digestOffset) with 32%nat.
  erewrite b_bind_ok by (apply clearDigestSlot_overlay; lia).
  apply b_copy_overlay. rewrite length_overlay; lia.
Qed.

(** A secret that fits the slot is zero-padded to its size, on both sides. *)
Lemma key_image_app pre slot rest secret p :
  length pre = 32%nat -> length slot = Z.to_nat (hp_digestSize p) ->
  (length secret <= length slot)%nat ->
  key_image secret p (pre ++ slot ++ rest) =
  pre ++ copy_fresh (hp_digestSize p) secret ++ rest.
Proof.
  intros Hp Hs Hl. unfold key_image, copy_fresh. rewrite <- Hp, <- Hs.
  rewrite overlay_app by (rewrite length_replicate; lia).
  rewrite length_replicate, (drop_ge slot) by lia. cbn [app].
  rewrite overlay_app by (rewrite length_replicate; lia).
  rewrite drop_replicate, resize_ge by lia. by rewrite <- app_assoc.
Qed.

(** ** Verification, in closed form *)

Definition digest_matches (auth : AuthSection) (key : AuthKey) (buf : list Z) (n : Z)
    (p : hashParams) : Prop :=
  copy_fresh (hp_digestSize p) (auth_Digest auth) =
  computeDigest (take (Z.to_nat n) (key_image (key_Secret key) p buf)) p.

#[export] Instance digest_matches_dec auth key buf n p :
  Decision (digest_matches auth key buf n p).
Proof. unfold digest_matches. apply _. Defined.

Definition accept_seq (state : AuthState) (auth : AuthSection) : AuthState :=
  {| state with as_RcvAuthSeq := auth_SequenceNumber auth; as_AuthSeqKnown := true |}.

Lemma verifyAndUpdateSeq_eq state auth key buf n p :
  hp_ok p -> 32 + hp_digestSize p <= n <= zlen buf ->
  verifyAndUpdateSeq state auth key buf n p =
  if bool_decide (digest_matches auth key buf n p)
  then (Ok tt, accept_seq state auth, key_image (key_Secret key) p buf)
  else (Err ErrAuthDigestMismatch, state, key_image (key_Secret key) p buf).
Proof.
  intros Hp Hn. pose proof (hp_digest_nat _ Hp) as Hd.
  unfold verifyAndUpdateSeq, digest_matches. rewrite place_key by lia.
  assert (length (key_image (key_Secret key) p buf) = length buf) as Hl.
  { unfold zlen in Hn. unfold key_image. rewrite !length_overlay; [done|lia|].
    rewrite length_overlay; lia. }
  rewrite slice_ok by (unfold zlen in Hn; lia). rewrite Nat.sub_0_r, drop_0.
  repeat case_bool_decide; done.
Qed.

(** Every way [verifyHash] can come out. *)
Lemma verifyHash_cases state keys pkt buf n p :
  hp_ok p ->
  (forall id, LookupKey keys id <> Panic) ->
  (exists e buf', verifyHash state keys pkt buf n p = (Err e, state, buf')) \/
  (exists auth key,
     pkt_Auth pkt = Some auth /\ auth_Type auth = hp_authType p /\
     auth_Len auth = hp_authLen p /\ LookupKey keys (auth_KeyID auth) = Ok key /\
     checkSeqWindow state pkt auth p = Ok tt /\
     32 + hp_digestSize p <= n <= zlen buf /\ digest_matches auth key buf n p /\
     verifyHash state keys pkt buf n p =
       (Ok tt, accept_seq state auth, key_image (key_Secret key) p buf)).
Proof.
  intros Hp Hk. unfold verifyHash, validateHashAuth, requireAuthSection.
  destruct (pkt_Auth pkt) as [auth|]; cbn; [|eauto].
  destruct (auth_Type auth =? hp_authType p) eqn:Ht; cbn; [|eauto].
  destruct (auth_Len auth =? hp_authLen p) eqn:Hl; cbn; [|eauto].
  destruct (LookupKey keys (auth_KeyID auth)) as [key| |] eqn:Hlk; [|eauto|by apply Hk in Hlk].
  destruct (checkSeqWindow state pkt auth p) as [[]|e|] eqn:Hw; [|eauto|].
  2: { unfold checkSeqWindow in Hw. repeat case_match; discriminate. }
  unfold validateAuthWire. destruct (_ || _) eqn:Hv; [eauto|]. bools. pkt_consts.
  rewrite verifyAndUpdateSeq_eq by (unfold zlen; lia || done).
  case_bool_decide; [|eauto]. right. exists auth, key. unfold zlen. split_and!; try done; lia.
Qed.

Lemma verifyHash_accept state keys pkt buf n p auth key :
  hp_ok p ->
  pkt_Auth pkt = Some auth -> auth_Type auth = hp_authType p -> auth_Len auth = hp_authLen p ->
  LookupKey keys (auth_KeyID auth) = Ok key -> checkSeqWindow state pkt auth p = Ok tt ->
  32 + hp_digestSize p <= n <= zlen buf -> digest_matches auth key buf n p ->
  verifyHash state keys pkt buf n p =
    (Ok tt, accept_seq state auth, key_image (key_Secret key) p buf).
Proof.
  intros Hp Ha Ht Hl Hlk Hw Hn Hd. unfold verifyHash, validateHashAuth, requireAuthSection.
  rewrite Ha. cbn. rewrite Ht, Hl, !Z.eqb_refl. cbn. rewrite Hlk, Hw. unfold validateAuthWire.
  rewrite !(proj2 (Z.ltb_ge _ _)) by (unfold HeaderSize; lia). cbn.
  rewrite verifyAndUpdateSeq_eq by done. by rewrite bool_decide_true.
Qed.

(** ** Signing, in closed form *)

(** The packet's fields apart from its authentication are well-formed. *)
Definition wf_unsigned (pkt : ControlPacket) : Prop :=
  wf_packet {| pkt with pkt_Auth := None; pkt_AuthPresent := false |}.

Lemma wf_signed pkt a :
  wf_unsigned pkt -> wf_auth a ->
  wf_packet {| pkt with pkt_Auth := Some a; pkt_AuthPresent := true |}.
Proof. intros [] Ha. constructor; cbn in *; auto. Qed.

(** What a keyed-hash authenticator puts in front of the digest. *)
Definition signed_section (key : AuthKey) (seq : Z) (p : hashParams) (digest : list Z) : AuthSection :=
  {| auth_Type := hp_authType p; auth_Len := hp_authLen p; auth_KeyID := key_ID key;
     auth_AuthData := []; auth_SequenceNumber := seq; auth_Digest := digest |}.

Definition signed_packet (pkt : ControlPacket) (key : AuthKey) (seq : Z) (p : hashParams)
    (digest : list Z) : ControlPacket :=
  {| pkt with pkt_Auth := Some (signed_section key seq p digest); pkt_AuthPresent := true |}.

Definition signed_prefix (pkt : ControlPacket) (key : AuthKey) (seq : Z) (p : hashParams) : list Z :=
  wire_header (signed_packet pkt key seq p []) ++
  [hp_authType p; hp_authLen p; key_ID key; 0] ++ be32_bytes seq.

Lemma signed_prefix_length pkt key seq p : length (signed_prefix pkt key seq p) = 32%nat.
Proof. unfold signed_prefix. by rewrite length_app, length_wire_header. Qed.

Lemma wire_signed pkt key seq p digest :
  hp_ok p -> wire (signed_packet pkt key seq p digest) = signed_prefix pkt key seq p ++ digest.
Proof.
  intros (_ & Hp). unfold wire, signed_prefix. rewrite <- app_assoc. f_equal.
  unfold wire_auth, auth_to_write. cbn.
  destruct Hp as [(_ & [-> | ->])|(_ & [-> | ->])]; done.
Qed.

Lemma wf_signed_packet pkt key seq p digest :
  hp_ok p -> wf_unsigned pkt -> is_u8 (key_ID key) -> is_u32 seq ->
  zlen digest = hp_digestSize p -> wf_packet (signed_packet pkt key seq p digest).
Proof.
  intros (Hl & Hp) W Hk Hs Hd. apply wf_signed; [done|]. split; [done|]. cbn. right.
  rewrite Hl, Hd. pkt_consts.
  destruct Hp as [(-> & Ht)|(-> & Ht)]; [left|right]; split_and!; done.
Qed.

(** The digest [signHash] computes for sequence number [seq]. *)
Definition signature (pkt : ControlPacket) (key : AuthKey) (seq : Z) (p : hashParams) : list Z :=
  computeDigest (signed_prefix pkt key seq p ++ copy_fresh (hp_digestSize p) (key_Secret key)) p.

Lemma computeAndPlaceDigest_app pre slot rest n p :
  hp_ok p -> length pre = 32%nat -> length slot = Z.to_nat (hp_digestSize p) ->
  n = 32 + hp_digestSize p ->
  computeAndPlaceDigest n p (pre ++ slot ++ rest) =
  (Ok tt, pre ++ computeDigest (pre ++ slot) p ++ rest).
Proof.
  intros Hp Hl Hs ->. pose proof (hp_digest_nat _ Hp). unfold computeAndPlaceDigest.
  rewrite slice_ok by (rewrite ?length_app; lia). rewrite drop_0, Nat.sub_0_r, app_assoc.
  rewrite take_app_length' by (rewrite length_app; lia). change (Z.to_nat digestOffset) with 32%nat.
  rewrite <- app_assoc. rewrite b_copy_overlay by (rewrite !length_app; lia). f_equal. rewrite <- Hl.
  rewrite overlay_app by (rewrite computeDigest_length by done; lia).
  by rewrite computeDigest_length, drop_ge by (done || lia).
Qed.

Lemma copyDigest_app pre d rest p :
  hp_ok p -> length pre = 32%nat -> length d = Z.to_nat (hp_digestSize p) ->
  copyDigest (pre ++ d ++ rest) p = Ok d.
Proof.
  intros Hp Hl Hd. pose proof (hp_digest_nat _ Hp). unfold copyDigest.
  rewrite slice_ok by (rewrite ?length_app; unfold digestOffset, HeaderSize; lia). cbn [mbind go_bind].
  change (Z.to_nat digestOffset) with 32%nat. rewrite drop_app_length' by done.
  rewrite take_app_length' by (unfold digestOffset, HeaderSize; lia).
  by rewrite copy_fresh_id by (unfold zlen; lia).
Qed.

Lemma signHash_ok state keys pkt buf p :
  hp_ok p -> wf_unsigned pkt -> is_u8 (key_ID (CurrentKey keys)) ->
  32 + hp_digestSize p <= zlen buf ->
  let key := CurrentKey keys in
  let seq := u32 (as_XmitAuthSeq state + 1) in
  let pkt' := signed_packet pkt key seq p (signature pkt key seq p) in
  signHash state keys pkt buf p =
  (Ok tt, {| state with as_XmitAuthSeq := seq |}, pkt', wire pkt' ++ drop (length (wire pkt')) buf)
  /\ wf_packet pkt'.
Proof.
  intros Hp W Hk Hl key seq pkt'. pose proof (hp_digest_nat _ Hp) as Hn.
  assert (Hsec : length (copy_fresh (hp_digestSize p) (key_Secret key)) = Z.to_nat (hp_digestSize p))
    by apply copy_fresh_length.
  assert (Hsig : length (signature pkt key seq p) = Z.to_nat (hp_digestSize p))
    by by apply computeDigest_length.
  assert (W0 : wf_packet (signed_packet pkt key seq p (copy_fresh (hp_digestSize p) (key_Secret key)))).
  { apply wf_signed_packet; [done..|apply u32_range|unfold zlen; lia]. }
  assert (W' : wf_packet pkt') by (apply wf_signed_packet; [done..|apply u32_range|unfold zlen; lia]).
  split; [|done]. unfold signHash. fold key. fold seq.
  change {| pkt with pkt_Auth := Some (buildAuthSection key {| state with as_XmitAuthSeq := seq |} p);
            pkt_AuthPresent := true |}
    with (signed_packet pkt key seq p (copy_fresh (hp_digestSize p) (key_Secret key))).
  assert (Htl : total_len (signed_packet pkt key seq p (copy_fresh (hp_digestSize p) (key_Secret key)))
                = 32 + hp_digestSize p).
  { unfold total_len, auth_to_write. cbn. destruct Hp as [-> _]. unfold HeaderSize. lia. }
  rewrite MarshalControlPacket_wire by (done || lia). rewrite wire_signed by done.
  rewrite <- app_assoc. rewrite Htl.
  rewrite computeAndPlaceDigest_app by (done || apply signed_prefix_length).
  fold (signature pkt key seq p). rewrite copyDigest_app by (done || apply signed_prefix_length).
  unfold pkt'. rewrite wire_signed by done. rewrite <- app_assoc.
  rewrite length_app, signed_prefix_length, Hsig.
  replace (Z.to_nat (32 + hp_digestSize p)) with (32 + Z.to_nat (hp_digestSize p))%nat by lia. done.
Qed.

(** ** Verifying what was signed *)

(** The receiver's store knows the sender's key: some key under its ID has the
    same secret, and the secret fits the digest slot. *)
Definition shares_key (keys : AuthKeyStore) (key : AuthKey) (size : Z) : Prop :=
  exists key', LookupKey keys (key_ID key) = Ok key' /\ key_Secret key' = key_Secret key /\
               zlen (key_Secret key) <= size.

Lemma signed_digest_matches pkt key key' seq p :
  hp_ok p -> key_Secret key' = key_Secret key -> zlen (key_Secret key) <= hp_digestSize p ->
  let pkt' := signed_packet pkt key seq p (signature pkt key seq p) in
  digest_matches (signed_section key seq p (signature pkt key seq p)) key'
    (wire pkt') (zlen (wire pkt')) p.
Proof.
  intros Hp He Hs pkt'. unfold digest_matches, zlen in *. cbn [signed_section auth_Digest].
  assert (Hsig : length (signature pkt key seq p) = Z.to_nat (hp_digestSize p))
    by by apply computeDigest_length.
  pose proof (hp_digest_nat _ Hp).
  rewrite copy_fresh_id by (unfold zlen; lia). unfold pkt'. rewrite wire_signed by done.
  rewrite He, Nat2Z.id. pose proof (signed_prefix_length pkt key seq p) as Hpre.
  pose proof (key_image_app _ _ [] (key_Secret key) p Hpre Hsig ltac:(lia)) as Himg.
  rewrite !app_nil_r in Himg. rewrite Himg.
  rewrite take_ge; [done|]. rewrite !length_app, copy_fresh_length. lia.
Qed.

Lemma verify_signed state keys pkt key seq p :
  hp_ok p -> shares_key keys key (hp_digestSize p) -> is_u32 seq ->
  1 <= pkt_DetectMult pkt < 256 -> is_u32 (as_RcvAuthSeq state) ->
  (as_AuthSeqKnown state = true ->
   (if hp_meticulous p then 1 else 0) <= u32 (seq - as_RcvAuthSeq state) <= 3 * pkt_DetectMult pkt) ->
  let pkt' := signed_packet pkt key seq p (signature pkt key seq p) in
  exists buf', verifyHash state keys pkt' (wire pkt') (zlen (wire pkt')) p =
    (Ok tt, {| state with as_RcvAuthSeq := seq; as_AuthSeqKnown := true |}, buf').
Proof.
  intros Hp (key' & Hlk & He & Hs) Hseq Hm Hr Hw pkt'.
  exists (key_image (key_Secret key') p (wire pkt')).
  apply (verifyHash_accept state keys pkt' (wire pkt') (zlen (wire pkt')) p
           (signed_section key seq p (signature pkt key seq p)) key'); try done.
  - rewrite checkSeqWindow_distance by done. cbn [signed_section auth_SequenceNumber].
    change (pkt_DetectMult pkt') with (pkt_DetectMult pkt).
    destruct (as_AuthSeqKnown state); [|done]. specialize (Hw eq_refl).
    by rewrite !(proj2 (Z.leb_le _ _)) by apply Hw.
  - unfold zlen, pkt'. rewrite wire_signed, length_app, signed_prefix_length by done.
    unfold signature. rewrite computeDigest_length by done. pose proof (hp_digest_nat _ Hp). lia.
  - by apply signed_digest_matches.
Qed.

(** Verification does not look at the decoded Length field. *)
Lemma verifyHash_length state keys pkt l buf n p :
  verifyHash state keys {| pkt with pkt_Length := l |} buf n p = verifyHash state keys pkt buf n p.
Proof. reflexivity. Qed.

(** ** Simple Password, signed and verified *)

Lemma validateAuthKey_len key :
  validateAuthKey key = Ok tt ->
  1 <= zlen (key_Secret key) <= (if (key_Type key =? AuthTypeKeyedSHA1)
                                   || (key_Type key =? AuthTypeMeticulousKeyedSHA1) then 20 else 16).
Proof.
  unfold validateAuthKey. intros H. repeat case_match; try discriminate; bools; try lia;
    repeat match goal with H : _ || _ = true |- _ => apply orb_true_iff in H as [?|?] end; bools;
    pkt_consts; lia.
Qed.

Lemma simple_password_round keys keys' pkt :
  wf_unsigned pkt -> is_u8 (key_ID (CurrentKey keys)) ->
  1 <= zlen (key_Secret (CurrentKey keys)) <= 16 ->
  shares_key keys' (CurrentKey keys) 16 ->
  let pkt' := SimplePassword_Sign keys pkt in
  wf_packet pkt' /\ SimplePassword_Verify keys' pkt' = Ok tt.
Proof.
  intros W Hk Hl (key' & Hlk & He & _) pkt'.
  assert (Hlen : u8 (authSimpleHeaderSize + zlen (key_Secret (CurrentKey keys)))
                 = 3 + zlen (key_Secret (CurrentKey keys))).
  { unfold authSimpleHeaderSize. width_lia. }
  split.
  - apply wf_signed; [done|]. split; [done|]. left. cbn. rewrite Hlen.
    unfold authSimpleHeaderSize, simplePasswordMinLen, simplePasswordMaxLen. split_and!; (done || lia).
  - unfold SimplePassword_Verify. cbn. rewrite Hlk. unfold verifyPassword. cbn.
    rewrite He, Z.eqb_refl. cbn. by rewrite bool_decide_true.
Qed.

(** ** Sequences of accepted numbers *)

Definition meticulous (a : Authenticator) : bool :=
  match a with MeticulousKeyedMD5Auth | MeticulousKeyedSHA1Auth => true | _ => false end.

(** A chain of accepted numbers from [s]: each is 1 to 765 steps ahead of the
    one before. *)
Inductive advancing : Z -> list Z -> Prop :=
| adv_nil s : advancing s []
| adv_cons s q l : 1 <= u32 (q - s) <= 765 -> is_u32 q -> advancing q l -> advancing s (q :: l).

(** A chain shorter than one turn of the sequence space has no repetition. *)
Lemma advancing_distance s l q :
  advancing s l -> 765 * zlen l < 2 ^ 32 -> q ∈ l -> 1 <= u32 (q - s) <= 765 * zlen l.
Proof.
  unfold zlen. induction 1 as [|s x l Hx Hux _ IH]; intros Hl Hq; [by apply elem_of_nil in Hq|].
  cbn [length] in *. apply elem_of_cons in Hq as [->|Hq]; [lia|].
  specialize (IH ltac:(lia) Hq). width_lia.
Qed.

Lemma advancing_nodup s l : advancing s l -> 765 * zlen l < 2 ^ 32 -> NoDup l.
Proof.
  unfold zlen. induction 1 as [|s q l Hx Hux Hadv IH]; intros Hl; [constructor|]. cbn [length] in Hl.
  apply NoDup_cons. split; [|apply IH; lia]. intros Hin.
  pose proof (advancing_distance _ _ _ Hadv ltac:(unfold zlen; lia) Hin) as Hd.
  rewrite Z.sub_diag in Hd. change (u32 0) with 0 in Hd. lia.
Qed.

(** ** Properties *)

(** A key store with one key, and an unsigned packet, for the witnesses. *)
Definition sample_key : AuthKey :=
  mkAuthKey 7 AuthTypeMeticulousKeyedSHA1 [115; 101; 99; 114; 101; 116].
Definition sample_store : AuthKeyStore :=
  static_key_store (mkStaticAuthKeyStore {[ 7 := sample_key ]} sample_key).
Definition sample_auth_state (x : Z) : AuthState :=
  {| as_Type := AuthTypeMeticulousKeyedSHA1; as_RcvAuthSeq := x; as_XmitAuthSeq := x;
     as_AuthSeqKnown := true |}.

Lemma sample_unsigned : wf_unsigned sample_packet.
Proof. destruct sample_packet_wf. constructor; cbn in *; done. Qed.

Lemma sample_store_no_panic id : LookupKey sample_store id <> Panic.
Proof. cbn. unfold StaticAuthKeyStore_LookupKey. case_match; done. Qed.

(** C5: what one end signs the other end accepts, for each of the five
    authentication types: signing succeeds, the signed packet survives its trip
    over the wire, and a receiver that shares the key and whose window covers
    the next sequence number verifies it; a keyed-hash receiver then expects the
    sequence number the sender used. *)
Theorem sign_then_verify a st keys pkt buf st2 keys2
    (W : wf_unsigned pkt) (Hkey : validateAuthKey (CurrentKey keys) = Ok tt)
    (Hty : key_Type (CurrentKey keys) = authenticatorType a)
    (Hid : is_u8 (key_ID (CurrentKey keys)))
    (Hsh : exists key', LookupKey keys2 (key_ID (CurrentKey keys)) = Ok key' /\
                        key_Secret key' = key_Secret (CurrentKey keys))
    (Hbuf : 52 <= zlen buf) (Hrcv : is_u32 (as_RcvAuthSeq st2))
    (Hwin : as_AuthSeqKnown st2 = true ->
            1 <= u32 (u32 (as_XmitAuthSeq st + 1) - as_RcvAuthSeq st2) <= 3 * pkt_DetectMult pkt) :
  exists st' pkt' buf' dec st2' buf2,
    Sign a st keys pkt buf = (Ok tt, st', pkt', buf') /\
    UnmarshalControlPacket (wire pkt') = Ok dec /\
    Verify a st2 keys2 dec (wire pkt') (zlen (wire pkt')) = (Ok tt, st2', buf2) /\
    (a <> SimplePasswordAuth ->
     as_AuthSeqKnown st2' = true /\ as_RcvAuthSeq st2' = as_XmitAuthSeq st').
Proof.
  apply validateAuthKey_len in Hkey. destruct Hsh as (key' & Hlk & He).
  unfold Sign, Verify. destruct (hash_params a) as [p|] eqn:Hp.
  - destruct (hash_params_ok _ _ Hp) as [Hok Hat].
    assert (Hds : zlen (key_Secret (CurrentKey keys)) <= hp_digestSize p).
    { rewrite Hty in Hkey. destruct a; try discriminate Hp; injection Hp as <-; cbn in *; pkt_consts; lia. }
    assert (Hdm : 1 <= pkt_DetectMult pkt < 256) by apply (wf_detect_mult _ W).
    destruct (signHash_ok st keys pkt buf p Hok W Hid) as [Hs W'].
    { pose proof (hp_digest_nat _ Hok). lia. }
    destruct (verify_signed st2 keys2 pkt (CurrentKey keys) (u32 (as_XmitAuthSeq st + 1)) p Hok)
      as [buf2 Hv]; [by exists key'|apply u32_range|done|done| |].
    { intros Hkn. specialize (Hwin Hkn). destruct (hp_meticulous p); lia. }
    pose proof (UnmarshalControlPacket_wire _ [] W') as Hu. rewrite app_nil_r in Hu.
    rewrite Hs. do 6 eexists. split; [reflexivity|]. split; [exact Hu|].
    rewrite verifyHash_length. split; [exact Hv|].
    intros _. split; reflexivity.
  - destruct a; try discriminate Hp.
    destruct (simple_password_round keys keys2 pkt W Hid) as [W' Hv].
    { rewrite Hty in Hkey. cbn in Hkey. lia. }
    { exists key'. rewrite Hty in Hkey. cbn in Hkey. split_and!; [done..|lia]. }
    pose proof (UnmarshalControlPacket_wire _ [] W') as Hu. rewrite app_nil_r in Hu.
    do 6 eexists. split_and!; [done|exact Hu| |done]. f_equal. f_equal. exact Hv.
Qed.

Lemma sign_then_verify_witness :
  exists st' pkt' buf' dec st2' buf2,
    Sign MeticulousKeyedSHA1Auth (sample_auth_state 4294967295) sample_store sample_packet
      (repeat 0 64) = (Ok tt, st', pkt', buf') /\
    UnmarshalControlPacket (wire pkt') = Ok dec /\
    Verify MeticulousKeyedSHA1Auth (sample_auth_state 4294967295) sample_store dec
      (wire pkt') (zlen (wire pkt')) = (Ok tt, st2', buf2) /\
    (MeticulousKeyedSHA1Auth <> SimplePasswordAuth ->
     as_AuthSeqKnown st2' = true /\ as_RcvAuthSeq st2' = as_XmitAuthSeq st').
Proof.
  apply (sign_then_verify MeticulousKeyedSHA1Auth (sample_auth_state 4294967295) sample_store
           sample_packet (repeat 0 64) (sample_auth_state 4294967295) sample_store);
    [apply sample_unsigned|reflexivity|reflexivity|unfold is_u8; cbn; lia|by exists sample_key
    |vm_compute; discriminate|unfold is_u32; cbn; lia|intros _; vm_compute; split; discriminate].
Defined.

(** The signed sample packet. *)
Definition sample_offer : ControlPacket * list Z :=
  let '(_, _, pkt, _) := Sign MeticulousKeyedSHA1Auth (sample_auth_state 10) sample_store
                           sample_packet (repeat 0 64) in
  (pkt, wire pkt).


