(* ===== verification/Netip.v ===== *)
(** * Network addresses (Go's [net/netip])

    The zero [Addr] is the invalid address; the others are IPv4 addresses, and
    IPv6 addresses with a zone.  Comparison with [==] compares all of it. *)

From S2P Require Import Prelude.
From stdpp Require Import pretty.

Local Open Scope Z_scope.

Inductive Addr :=
| InvalidAddr
| IPv4 (a : Z)
| IPv6 (a : Z) (zone : string).

#[export] Instance Addr_eq_dec : EqDecision Addr.
Proof. solve_decision. Defined.

#[export] Instance Addr_countable : Countable Addr.
Proof.
  apply (inj_countable'
    (fun a => match a with
              | InvalidAddr => inl tt
              | IPv4 x => inr (inl x)
              | IPv6 x z => inr (inr (x, z))
              end)
    (fun c => match c with
              | inl _ => InvalidAddr
              | inr (inl x) => IPv4 x
              | inr (inr (x, z)) => IPv6 x z
              end)).
  by intros [].
Defined.

Definition Addr_IsValid (a : Addr) : bool :=
  match a with InvalidAddr => false | _ => true end.

Definition Addr_Is4 (a : Addr) : bool :=
  match a with IPv4 _ => true | _ => false end.

(** [Is6] holds also for IPv4-mapped addresses. *)
Definition Addr_Is6 (a : Addr) : bool :=
  match a with IPv6 _ _ => true | _ => false end.

Definition Addr_Is4In6 (a : Addr) : bool :=
  match a with IPv6 x _ => Z.shiftr x 32 =? 0xffff | _ => false end.

(** The IPv4 address of an IPv4-mapped one, without the zone. *)
Definition Addr_Unmap (a : Addr) : Addr :=
  match a with
  | IPv6 x _ => if Z.shiftr x 32 =? 0xffff then IPv4 (x mod 2 ^ 32) else a
  | _ => a
  end.

(** ** Bytes of addresses *)

Definition AddrFrom4 (b0 b1 b2 b3 : Z) : Addr := IPv4 (be32_val b0 b1 b2 b3).

(** The value of big-endian bytes. *)
Definition be_val (l : list Z) : Z := fold_left (fun v b => v * 256 + b) l 0.

(** [AddrFromSlice]: an address for 4 or 16 bytes. *)
Definition AddrFromSlice (l : list Z) : option Addr :=
  match l with
  | [b0; b1; b2; b3] => Some (AddrFrom4 b0 b1 b2 b3)
  | _ => if (length l =? 16)%nat then Some (IPv6 (be_val l) "") else None
  end.

(** [As4] of an IPv4 address; of others the code takes none. *)
Definition Addr_As4 (a : Addr) : list Z :=
  match a with IPv4 x => be32_bytes x | _ => [] end.

(** ** Prefixes

    [netip.Prefix] keeps the number of bits plus one, so that the zero value is
    invalid; the address of a prefix has no zone. *)

Record Prefix := mkPrefix { px_ip : Addr; px_bitsPlusOne : Z }.

Definition Addr_BitLen (a : Addr) : Z :=
  match a with InvalidAddr => 0 | IPv4 _ => 32 | IPv6 _ _ => 128 end.

Definition Addr_value (a : Addr) : Z :=
  match a with InvalidAddr => 0 | IPv4 x => x | IPv6 x _ => x end.

Definition Addr_hasZone (a : Addr) : bool :=
  match a with IPv6 _ z => negb (bool_decide (z = ""%string)) | _ => false end.

Definition Prefix_Bits (p : Prefix) : Z := px_bitsPlusOne p - 1.

(** The 128-bit mask of the [n] most significant bits. *)
Definition mask6 (n : Z) : Z := 2 ^ 128 - 2 ^ (128 - n).

Definition Prefix_Contains (p : Prefix) (ip : Addr) : bool :=
  if negb (0 <? px_bitsPlusOne p) || Addr_hasZone ip then false else
  let f1 := Addr_BitLen (px_ip p) in
  let f2 := Addr_BitLen ip in
  if (f1 =? 0) || (f2 =? 0) || negb (f1 =? f2) then false else
  if Addr_Is4 ip
  then Z.shiftr (Z.lxor (Addr_value ip) (Addr_value (px_ip p))) (32 - Prefix_Bits p) =? 0
  else Z.land (Z.lxor (Addr_value ip) (Addr_value (px_ip p))) (mask6 (Prefix_Bits p)) =? 0.

(** A prefix as [netip.PrefixFrom] builds it. *)
Definition prefix_ok (p : Prefix) : Prop :=
  Addr_hasZone (px_ip p) = false /\ 0 <= Addr_value (px_ip p) < 2 ^ Addr_BitLen (px_ip p) /\
  1 <= px_bitsPlusOne p <= Addr_BitLen (px_ip p) + 1.

(** An address of its family's width. *)
Definition addr_ok (a : Addr) : Prop := 0 <= Addr_value a < 2 ^ Addr_BitLen a.

Lemma shiftr_lxor_0 x y n : 0 <= n -> Z.shiftr (Z.lxor x y) n = 0 <-> Z.shiftr x n = Z.shiftr y n.
Proof. intros Hn. rewrite Z.shiftr_lxor. apply Z.lxor_eq_0_iff. Qed.

Lemma land_mask6_0 x n :
  0 <= n <= 128 -> 0 <= x < 2 ^ 128 -> Z.land x (mask6 n) = 0 <-> Z.shiftr x (128 - n) = 0.
Proof.
  intros Hn Hx.
  assert (Hm : mask6 n = Z.shiftl (Z.ones n) (128 - n)).
  { unfold mask6. rewrite Z.shiftl_mul_pow2, Z.ones_equiv by lia.
    replace (2 ^ 128) with (2 ^ n * 2 ^ (128 - n)) by (rewrite <- Z.pow_add_r by lia; f_equal; lia).
    lia. }
  rewrite Hm. split; intros H.
  - destruct (Z.eq_dec n 0) as [->|Hn0].
    { rewrite Z.shiftr_div_pow2 by lia. apply Z.div_small. lia. }
    rewrite <- (Z.land_ones_low (Z.shiftr x (128 - n)) n).
    + apply Z.bits_inj'. intros i Hi. rewrite Z.bits_0.
      pose proof (f_equal (fun z => Z.testbit z (i + (128 - n))) H) as Hb. cbn beta in Hb.
      rewrite Z.land_spec, Z.shiftl_spec, Z.bits_0 in Hb by lia.
      rewrite Z.land_spec, Z.shiftr_spec by lia.
      replace (i + (128 - n) - (128 - n)) with i in Hb by lia. done.
    + apply Z.shiftr_nonneg. lia.
    + destruct (Z.eq_dec (Z.shiftr x (128 - n)) 0) as [->|Hne]; [change (Z.log2 0) with 0; lia|].
      pose proof (proj2 (Z.shiftr_nonneg x (128 - n)) ltac:(lia)).
      apply Z.log2_lt_pow2; [lia|].
      rewrite Z.shiftr_div_pow2 by lia. apply Z.div_lt_upper_bound; [lia|].
      rewrite <- Z.pow_add_r by lia. replace (128 - n + n) with 128 by lia. lia.
  - apply Z.bits_inj'. intros i Hi. rewrite Z.land_spec, Z.shiftl_spec, Z.bits_0 by lia.
    destruct (Z.ltb_spec i (128 - n)).
    + rewrite (Z.testbit_neg_r (Z.ones n)) by lia. apply andb_false_r.
    + pose proof (f_equal (fun z => Z.testbit z (i - (128 - n))) H) as Hb. cbn beta in Hb.
      rewrite Z.shiftr_spec, Z.bits_0 in Hb by lia.
      replace (i - (128 - n) + (128 - n)) with i in Hb by lia. by rewrite Hb.
Qed.

Lemma lxor_range x y w : 0 <= w -> 0 <= x < 2 ^ w -> 0 <= y < 2 ^ w -> 0 <= Z.lxor x y < 2 ^ w.
Proof.
  intros Hw Hx Hy. assert (0 <= Z.lxor x y) by (apply Z.lxor_nonneg; lia). split; [done|].
  rewrite <- (Z.mod_small x (2 ^ w)), <- (Z.mod_small y (2 ^ w)) by lia.
  rewrite <- !Z.land_ones by lia.
  assert (E : Z.lxor (Z.land x (Z.ones w)) (Z.land y (Z.ones w)) = Z.land (Z.lxor x y) (Z.ones w)).
  { apply Z.bits_inj'. intros i Hi. rewrite !Z.land_spec, !Z.lxor_spec, !Z.land_spec.
    by destruct (Z.testbit x i), (Z.testbit y i), (Z.testbit (Z.ones w) i). }
  rewrite E, Z.land_ones by lia. apply Z.mod_pos_bound. lia.
Qed.

(** A prefix contains the zone-free addresses of its family that agree with it on
    the prefix bits. *)
Lemma Prefix_Contains_spec p ip :
  prefix_ok p -> addr_ok ip ->
  Prefix_Contains p ip = true <->
  Addr_hasZone ip = false /\ Addr_BitLen ip = Addr_BitLen (px_ip p) /\ Addr_BitLen ip <> 0 /\
  Addr_value ip / 2 ^ (Addr_BitLen ip - Prefix_Bits p) =
  Addr_value (px_ip p) / 2 ^ (Addr_BitLen ip - Prefix_Bits p).
Proof.
  intros (_ & Hp & Hb) Hip. unfold Prefix_Contains, addr_ok, Prefix_Bits in *.
  destruct (0 <? px_bitsPlusOne p) eqn:E0; bools; [|lia].
  destruct (Addr_hasZone ip) eqn:Ez; cbn [negb orb]; [naive_solver|].
  assert (Hlen : forall a, (Addr_BitLen a =? 0) = false -> Addr_BitLen a = 32 \/ Addr_BitLen a = 128)
    by (intros []; cbn; auto || done).
  destruct (Addr_BitLen (px_ip p) =? 0) eqn:E1; [bools; split; [done|lia]|].
  destruct (Addr_BitLen ip =? 0) eqn:E2; [bools; split; [done|lia]|].
  destruct (Addr_BitLen (px_ip p) =? Addr_BitLen ip) eqn:E3; cbn [negb orb];
    [|bools; split; [done|lia]].
  bools. rewrite <- E3. destruct ip as [|x|x z]; cbn in E2, E3, Hip |- *; [done| |].
  - rewrite Z.eqb_eq, E3 in *. rewrite shiftr_lxor_0, !Z.shiftr_div_pow2 by lia. naive_solver.
  - rewrite Z.eqb_eq, E3 in *. rewrite land_mask6_0 by (try apply lxor_range; lia).
    rewrite shiftr_lxor_0, !Z.shiftr_div_pow2 by lia. naive_solver.
Qed.

(** ** Textual form ([Addr.String]) *)

Definition hex_digit (n : Z) : string :=
  default "?"%string (["0"; "1"; "2"; "3"; "4"; "5"; "6"; "7"; "8"; "9"; "a"; "b"; "c"; "d"; "e"; "f"]%string
                      !! Z.to_nat n).

(** A 16-bit group without leading zeros. *)
Definition hex16 (x : Z) : string :=
  String.concat "" [if 4096 <=? x then hex_digit (x / 4096) else "";
                    if 256 <=? x then hex_digit (x / 256 mod 16) else "";
                    if 16 <=? x then hex_digit (x / 16 mod 16) else "";
                    hex_digit (x mod 16)].

Definition string4 (x : Z) : string :=
  String.concat "." [pretty (x / 16777216 mod 256); pretty (x / 65536 mod 256);
                     pretty (x / 256 mod 256); pretty (x mod 256)].

Definition groups6 (x : Z) : list Z :=
  (fun i => Z.shiftr x (16 * (7 - Z.of_nat i)) mod 65536) <$> seq 0 8.

Fixpoint zero_run (l : list Z) : nat :=
  match l with
  | x :: rest => if x =? 0 then S (zero_run rest) else O
  | [] => O
  end.

(** The first longest run of at least two zero groups. *)
Definition zero_range (gs : list Z) : nat * nat :=
  fold_left (fun best i =>
    let l := zero_run (drop i gs) in
    if bool_decide ((2 <= l)%nat /\ (best.2 - best.1 < l)%nat) then (i, i + l)%nat else best)
    (seq 0 8) (255, 255)%nat.

Fixpoint print6 (fuel i zs ze : nat) (gs : list Z) : string :=
  match fuel with
  | O => ""
  | S fuel =>
      if (8 <=? i)%nat then "" else
      if (i =? zs)%nat then
        if (8 <=? ze)%nat then "::"
        else "::" +:+ hex16 (default 0 (gs !! ze)) +:+ print6 fuel (S ze) zs ze gs
      else (if (0 <? i)%nat then ":" else "") +:+ hex16 (default 0 (gs !! i))
           +:+ print6 fuel (S i) zs ze gs
  end%string.

Definition string6 (x : Z) : string :=
  let gs := groups6 x in let '(zs, ze) := zero_range gs in print6 8 0 zs ze gs.

Definition Addr_String (a : Addr) : string :=
  match a with
  | InvalidAddr => "invalid IP"
  | IPv4 x => string4 x
  | IPv6 x z =>
      (if (Z.shiftr x 32 =? 0xffff)%Z then "::ffff:" +:+ string4 (x mod 2 ^ 32)%Z else string6 x)
      +:+ (if bool_decide (z = "") then "" else "%" +:+ z)
  end%string.

Example Addr_String_examples :
  Addr_String (IPv4 0x0a000001) = "10.0.0.1"%string /\
  Addr_String (IPv6 1 "") = "::1"%string /\
  Addr_String (IPv6 0 "") = "::"%string /\
  Addr_String (IPv6 0xfe80000000000000000000000000abcd "eth0") = "fe80::abcd%eth0"%string /\
  Addr_String (IPv6 0x20010db8000000010000000000000001 "") = "2001:db8:0:1::1"%string /\
  Addr_String (IPv6 0x20010db8000100000000000100000000 "") = "2001:db8:1::1:0:0"%string /\
  Addr_String (IPv6 0xffff0a000001 "") = "::ffff:10.0.0.1"%string.
Proof. vm_compute. done. Qed.
