(* ===== verification/NetipParse.v ===== *)
(** * Parsing of addresses (Go's [netip.ParseAddr])

    The parser of the standard library, on lists of characters, and its agreement
    with [Addr_String]: printing and parsing are inverse.  The 16 bytes of an IPv6
    address are kept as its eight 16-bit groups. *)

From S2P Require Import Prelude Netip.
From stdpp Require Import strings pretty.
From Stdlib Require Import Ascii.

Local Open Scope Z_scope.

Abbreviation chars := (list ascii).

Definition chars_of (s : string) : chars := String.list_ascii_of_string s.

(** ** IPv4 *)

Definition digit_val (c : ascii) : option Z :=
  let n := Z.of_N (Ascii.N_of_ascii c) in
  if (48 <=? n) && (n <=? 57) then Some (n - 48) else None.

Definition is_char (c d : ascii) : bool := Ascii.eqb c d.

(** The loop of [parseIPv4Fields]: [val] and [digLen] of the current field, the
    fields before it, and whether a dot is allowed here, that is after a digit. *)
Fixpoint fields_loop (val : Z) (digLen : nat) (fields : list Z) (s : chars) : option (list Z) :=
  match s with
  | [] => if (length fields <? 3)%nat then None else Some (fields ++ [val])
  | c :: s =>
      match digit_val c with
      | Some d =>
          if (digLen =? 1)%nat && (val =? 0) then None else
          let val := val * 10 + d in
          if 255 <? val then None else fields_loop val (S digLen) fields s
      | None =>
          if is_char c "." then
            if (digLen =? 0)%nat || bool_decide (s = []) then None else
            if (length fields =? 3)%nat then None else fields_loop 0 0 (fields ++ [val]) s
          else None
      end
  end.

Definition parseIPv4Fields (s : chars) : option (list Z) := fields_loop 0 0 [] s.

Definition parseIPv4 (s : chars) : option Addr :=
  match parseIPv4Fields s with
  | Some [a; b; c; d] => Some (AddrFrom4 a b c d)
  | _ => None
  end.

(** ** IPv6 *)

Definition hex_val (c : ascii) : option Z :=
  let n := Z.of_N (Ascii.N_of_ascii c) in
  if (48 <=? n) && (n <=? 57) then Some (n - 48) else
  if (97 <=? n) && (n <=? 102) then Some (n - 97 + 10) else
  if (65 <=? n) && (n <=? 70) then Some (n - 65 + 10) else None.

(** The digits of one group: their number, the value and the rest. *)
Fixpoint hex_field (off : nat) (acc : Z) (s : chars) : option (nat * Z * chars) :=
  match s with
  | c :: s' =>
      match hex_val c with
      | Some d =>
          let acc := acc * 16 + d in
          if (3 <? off)%nat then None else
          if 65535 <? acc then None else hex_field (S off) acc s'
      | None => Some (off, acc, s)
      end
  | [] => Some (off, acc, s)
  end.

(** The groups parsed, the place of the ellipsis, and the rest of the string. *)
Fixpoint groups_loop (fuel : nat) (gs : list Z) (ell : option nat) (s : chars)
    : option (list Z * option nat * chars) :=
  match fuel with
  | O => Some (gs, ell, s)
  | S fuel =>
      if (8 <=? length gs)%nat then Some (gs, ell, s) else
      match hex_field 0 0 s with
      | None => None
      | Some (off, acc, rest) =>
          if (off =? 0)%nat then None else
          match rest with
          | [] => Some (gs ++ [acc], ell, [])
          | c :: s1 =>
              if is_char c "." then
                if bool_decide (ell = None) && negb (length gs =? 6)%nat then None else
                if (6 <? length gs)%nat then None else
                match parseIPv4Fields s with
                | Some [a; b; c; d] => Some (gs ++ [a * 256 + b; c * 256 + d], ell, [])
                | _ => None
                end
              else
                let gs := gs ++ [acc] in
                if negb (is_char c ":") then None else
                match s1 with
                | [] => None
                | c1 :: s2 =>
                    if is_char c1 ":" then
                      match ell with
                      | Some _ => None
                      | None =>
                          match s2 with
                          | [] => Some (gs, Some (length gs), [])
                          | _ => groups_loop fuel gs (Some (length gs)) s2
                          end
                      end
                    else groups_loop fuel gs ell s1
                end
          end
      end
  end.

(** The groups with the ellipsis expanded. *)
Definition expand (gs : list Z) (ell : option nat) : option (list Z) :=
  if (length gs <? 8)%nat then
    match ell with
    | None => None
    | Some e => Some (take e gs ++ replicate (8 - length gs) 0 ++ drop e gs)
    end
  else match ell with Some _ => None | None => Some gs end.

Definition groups_val (gs : list Z) : Z := fold_left (fun v g => v * 65536 + g) gs 0.

(** [s] before and after its first [%]. *)
Fixpoint split_zone (s : chars) : chars * option chars :=
  match s with
  | [] => ([], None)
  | c :: s => if is_char c "%" then ([], Some s)
              else let '(a, z) := split_zone s in (c :: a, z)
  end.

(** The loop, that it used the whole string, and the ellipsis. *)
Definition finish6 (s : chars) (ell : option nat) : option Z :=
  r ← groups_loop 8 [] ell s;
  let '(gs, ell, rest) := r in
  if negb (bool_decide (rest = [])) then None else groups_val <$> expand gs ell.

(** The string without zone, with a possible leading ellipsis. *)
Definition body6 (s : chars) : option Z :=
  match s with
  | c0 :: c1 :: s' =>
      if is_char c0 ":" && is_char c1 ":"
      then match s' with [] => Some 0 | _ => finish6 s' (Some O) end
      else finish6 s None
  | _ => finish6 s None
  end.

Definition parseIPv6 (s : chars) : option Addr :=
  let '(s, z) := split_zone s in
  if bool_decide (z = Some []) then None else
  v ← body6 s;
  Some (IPv6 v (String.string_of_list_ascii (default [] z))).

(** [None]: an error. *)
Fixpoint parse_scan (s whole : chars) : option Addr :=
  match s with
  | [] => None
  | c :: s =>
      if is_char c "." then parseIPv4 whole else
      if is_char c ":" then parseIPv6 whole else
      if is_char c "%" then None else parse_scan s whole
  end.

Definition ParseAddr (s : string) : option Addr := parse_scan (chars_of s) (chars_of s).

(** ** Prefixes ([netip.ParsePrefix]) *)

(** [s] before and after its last slash. *)
Fixpoint split_slash (s : chars) : option (chars * chars) :=
  match s with
  | [] => None
  | c :: s =>
      match split_slash s with
      | Some (a, b) => Some (c :: a, b)
      | None => if is_char c "/" then Some ([], s) else None
      end
  end.

(** [strconv.Atoi] of digits; a larger number than [2 ^ 63 - 1] is an error, as is
    every number above 128 for the caller. *)
Fixpoint atoi (acc : Z) (s : chars) : option Z :=
  match s with
  | [] => Some acc
  | c :: s => d ← digit_val c; atoi (acc * 10 + d) s
  end.

Definition ParsePrefix (s : string) : option Prefix :=
  '(a, bitsStr) ← split_slash (chars_of s);
  ip ← ParseAddr (String.string_of_list_ascii a);
  if Addr_hasZone ip then None else
  match bitsStr with
  | [] => None
  | c :: rest =>
      if negb (bool_decide (rest = [])) && is_char c "0" then None else
      bits ← atoi 0 bitsStr;
      if Addr_BitLen ip <? bits then None else Some (mkPrefix ip (bits + 1))
  end.

Example ParsePrefix_examples :
  ParsePrefix "10.0.0.0/8" = Some (mkPrefix (IPv4 0x0a000000) 9) /\ ParsePrefix "10.0.0.0/08" = None /\
  ParsePrefix "10.0.0.0/33" = None /\ ParsePrefix "10.0.0.0" = None /\ ParsePrefix "::/0" = Some (mkPrefix (IPv6 0 "") 1) /\
  ParsePrefix "fe80::1%eth0/64" = None /\ ParsePrefix "10.0.0.0/" = None /\ ParsePrefix "10.0.0.0/-1" = None.
Proof. vm_compute. repeat split; reflexivity. Qed.

Example ParseAddr_examples :
  ParseAddr "10.0.0.1" = Some (IPv4 0x0a000001) /\ ParseAddr "10.0.0.01" = None /\
  ParseAddr "10.0.0" = None /\ ParseAddr "1.2.3.4.5" = None /\ ParseAddr "256.1.1.1" = None /\
  ParseAddr "" = None /\ ParseAddr "eth0" = None /\ ParseAddr "1..2.3" = None /\ ParseAddr "1.2.3." = None /\
  ParseAddr "::" = Some (IPv6 0 "") /\ ParseAddr "::1" = Some (IPv6 1 "") /\
  ParseAddr "2001:DB8::1" = Some (IPv6 0x20010db8000000000000000000000001 "") /\
  ParseAddr "fe80::1%eth0" = Some (IPv6 0xfe800000000000000000000000000001 "eth0") /\
  ParseAddr "fe80::1%" = None /\ ParseAddr "1:2:3:4:5:6:7:8" = Some (IPv6 0x00010002000300040005000600070008 "") /\
  ParseAddr "1:2:3:4:5:6:7::" = Some (IPv6 0x00010002000300040005000600070000 "") /\
  ParseAddr "1:2:3:4:5:6:7:8:9" = None /\ ParseAddr "::1::2" = None /\ ParseAddr "1:2" = None /\
  ParseAddr "::ffff:10.0.0.1" = Some (IPv6 0xffff0a000001 "") /\ ParseAddr ":1" = None /\
  ParseAddr "1:2:3:4:5:6:7:8::" = None /\ ParseAddr "12345::" = None /\
  ParseAddr "1:2:3:4:5:6:1.2.3.4" = Some (IPv6 0x00010002000300040005000601020304 "").
Proof. vm_compute. repeat split; reflexivity. Qed.

(** ** Printing and parsing are inverse *)

Lemma chars_app a b : chars_of (a +:+ b) = chars_of a ++ chars_of b.
Proof. induction a as [|c a IH]; [done|]. exact (f_equal (cons c) IH). Qed.

Lemma string_chars s : String.string_of_list_ascii (chars_of s) = s.
Proof. apply String.string_of_list_ascii_of_string. Qed.

Lemma chars_inj s t : chars_of s = chars_of t -> s = t.
Proof. intros E. by rewrite <- (string_chars s), <- (string_chars t), E. Qed.

(** The characters of an address without its zone. *)
Definition addr_char (c : ascii) : bool :=
  bool_decide (is_Some (hex_val c)) || is_char c "." || is_char c ":".

Lemma addr_char_not c d : addr_char d = false -> addr_char c = true -> is_char c d = false.
Proof.
  intros Hd Hc. unfold is_char. destruct (Ascii.eqb_spec c d); [congruence|done].
Qed.

Lemma hex_not_char c d v : hex_val d = None -> hex_val c = Some v -> is_char c d = false.
Proof.
  intros Hd Hc. unfold is_char. destruct (Ascii.eqb_spec c d); [congruence|done].
Qed.

Definition hexs (g : Z) : chars := chars_of (hex16 g).

Definition decs (x : Z) : chars := chars_of (pretty x).

Ltac div_lia := Z.div_mod_to_equations; lia.

(** *** One group *)

Lemma hex_digit_char d : 0 <= d < 16 -> exists c, hex_digit d = String c "" /\ hex_val c = Some d.
Proof.
  intros Hd.
  assert (Hin : In d [0; 1; 2; 3; 4; 5; 6; 7; 8; 9; 10; 11; 12; 13; 14; 15]) by (cbn; lia).
  repeat (destruct Hin as [<-|Hin]; [eexists; split; reflexivity|]). destruct Hin.
Qed.

Definition no_hex_head (s : chars) : Prop :=
  match s with [] => True | c :: _ => hex_val c = None end.

Lemma hex_field_end off acc s : no_hex_head s -> hex_field off acc s = Some (off, acc, s).
Proof. destruct s as [|c s]; cbn; [done|]. by intros ->. Qed.

Lemma hex_field_hexs g rest :
  0 <= g < 65536 -> no_hex_head rest ->
  exists off, hex_field 0 0 (hexs g ++ rest) = Some (S off, g, rest).
Proof.
  intros Hg Hr. unfold hexs, hex16.
  destruct (hex_digit_char (g mod 16)) as (c0 & -> & H0); [div_lia|].
  destruct (hex_digit_char (g / 16 mod 16)) as (c1 & E1 & H1); [div_lia|].
  destruct (hex_digit_char (g / 256 mod 16)) as (c2 & E2 & H2); [div_lia|].
  destruct (Z.leb_spec 4096 g), (Z.leb_spec 256 g), (Z.leb_spec 16 g); try lia;
    [destruct (hex_digit_char (g / 4096)) as (c3 & -> & Hd3); [div_lia|]|..];
    rewrite ?E1, ?E2; cbn [String.concat]; rewrite !chars_app;
    cbn [chars_of String.list_ascii_of_string app hex_field];
    rewrite ?H0, ?H1, ?H2, ?Hd3; cbn [Nat.ltb Nat.leb];
    repeat (rewrite (proj2 (Z.ltb_ge _ _)) by div_lia; rewrite ?H0, ?H1, ?H2, ?Hd3; cbn [Nat.ltb Nat.leb]);
    rewrite hex_field_end by done; eexists; do 3 f_equal; div_lia.
Qed.

Lemma hexs_head g : 0 <= g < 65536 -> exists c s v, hexs g = c :: s /\ hex_val c = Some v.
Proof.
  intros Hg. destruct (hex_field_hexs g [] Hg I) as [off E]. rewrite app_nil_r in E.
  destruct (hexs g) as [|c s]; [done|]. cbn in E.
  destruct (hex_val c) as [v|] eqn:Hv; [by exists c, s, v|done].
Qed.

(** *** One decimal field *)

Fixpoint feed (val : Z) (digLen : nat) (ds : chars) : option (Z * nat) :=
  match ds with
  | [] => Some (val, digLen)
  | c :: ds =>
      d ← digit_val c;
      if (digLen =? 1)%nat && (val =? 0) then None else
      if 255 <? val * 10 + d then None else feed (val * 10 + d) (S digLen) ds
  end.

Lemma feed_loop ds val n fs rest val' n' :
  feed val n ds = Some (val', n') -> fields_loop val n fs (ds ++ rest) = fields_loop val' n' fs rest.
Proof.
  revert val n. induction ds as [|c ds IH]; intros val n; cbn; [by intros [= -> ->]|].
  destruct (digit_val c); cbn; [|done].
  repeat case_match; try done. apply IH.
Qed.

(** The text of an octet: parsed as a field, and made of digits. *)
Definition octet_ok (x : Z) : bool :=
  match feed 0 0 (decs x), hex_field 0 0 (decs x) with
  | Some (v, S _), Some (S _, _, []) => (v =? x) && forallb addr_char (decs x)
  | _, _ => false
  end.

Lemma octets_ok x : 0 <= x < 256 -> octet_ok x = true.
Proof.
  intros Hx. apply all_bytes_spec; [|done]. vm_compute. reflexivity.
Qed.

Lemma octet_field x :
  0 <= x < 256 -> exists n, feed 0 0 (decs x) = Some (x, S n).
Proof.
  intros Hx. pose proof (octets_ok x Hx) as H. unfold octet_ok in H.
  repeat case_match; try done. bools. naive_solver.
Qed.

Lemma hex_field_app s rest off acc off' acc' :
  hex_field off acc s = Some (off', acc', []) -> no_hex_head rest ->
  hex_field off acc (s ++ rest) = Some (off', acc', rest).
Proof.
  revert off acc. induction s as [|c s IH]; cbn; intros off acc.
  - intros [= -> ->]. apply hex_field_end.
  - destruct (hex_val c); [|done]. repeat case_match; try done; apply IH.
Qed.

(** An octet looks like a group to the loop over the groups. *)
Lemma octet_hex x rest :
  0 <= x < 256 -> no_hex_head rest ->
  exists off v, hex_field 0 0 (decs x ++ rest) = Some (S off, v, rest).
Proof.
  intros Hx Hr. pose proof (octets_ok x Hx) as H. unfold octet_ok in H.
  repeat case_match; try done. simplify_eq. eauto using hex_field_app.
Qed.

Lemma octet_chars x : 0 <= x < 256 -> Forall (fun c => addr_char c = true) (decs x).
Proof.
  intros Hx. pose proof (octets_ok x Hx) as H. unfold octet_ok in H.
  repeat case_match; try done. bools. apply Forall_forall. intros c Hc.
  eapply forallb_forall; [eassumption|]. by apply list_elem_of_In.
Qed.

Definition dotted (a b c d : Z) : chars :=
  decs a ++ "."%char :: decs b ++ "."%char :: decs c ++ "."%char :: decs d.

Lemma decs_nonempty x s : 0 <= x < 256 -> decs x ++ s <> [].
Proof.
  intros Hx E. apply app_eq_nil in E as [E _].
  destruct (octet_field x Hx) as [n Hn]. by rewrite E in Hn.
Qed.

Lemma parse_dotted a b c d :
  0 <= a < 256 -> 0 <= b < 256 -> 0 <= c < 256 -> 0 <= d < 256 ->
  parseIPv4Fields (dotted a b c d) = Some [a; b; c; d].
Proof.
  intros Ha Hb Hc Hd. unfold parseIPv4Fields, dotted. rewrite <- (app_nil_r (decs d)).
  destruct (octet_field a Ha) as [na Ea], (octet_field b Hb) as [nb Eb],
    (octet_field c Hc) as [nc Ec], (octet_field d Hd) as [nd Ed].
  assert (Hdot : forall v n fs s, s <> [] -> (length fs =? 3)%nat = false ->
    fields_loop v (S n) fs ("."%char :: s) = fields_loop 0 0 (fs ++ [v]) s).
  { intros v n fs s Hs Hf. cbn -[Nat.eqb]. rewrite bool_decide_false by done.
    cbn [Nat.eqb orb]. by rewrite Hf. }
  rewrite (feed_loop _ _ _ _ _ _ _ Ea), Hdot, (feed_loop _ _ _ _ _ _ _ Eb), Hdot,
    (feed_loop _ _ _ _ _ _ _ Ec), Hdot by (by try apply decs_nonempty).
  by rewrite (feed_loop _ _ _ _ _ _ _ Ed).
Qed.

Lemma string4_dotted x :
  chars_of (string4 x) = dotted (x / 16777216 mod 256) (x / 65536 mod 256) (x / 256 mod 256) (x mod 256).
Proof. unfold string4, dotted, decs. cbn [String.concat]. by rewrite !chars_app. Qed.

Lemma parse_scan_chars s rest w :
  Forall (fun c => is_Some (hex_val c)) s -> parse_scan (s ++ rest) w = parse_scan rest w.
Proof.
  induction 1 as [|c s [v Hv] _ IH]; [done|]. cbn.
  by rewrite !(hex_not_char c _ v) by done.
Qed.

Lemma hex_field_chars s off acc off' acc' rest :
  hex_field off acc s = Some (off', acc', rest) ->
  exists ds, s = ds ++ rest /\ Forall (fun c => is_Some (hex_val c)) ds.
Proof.
  revert off acc. induction s as [|c s IH]; cbn; intros off acc; [intros [= <- <- <-]; by exists []|].
  destruct (hex_val c) eqn:Hc; [|intros [= <- <- <-]; by exists []].
  repeat case_match; try done; intros E; apply IH in E as (ds & -> & Hds);
    exists (c :: ds); (split; [done|by constructor]).
Qed.

Lemma decs_hex x : 0 <= x < 256 -> Forall (fun c => is_Some (hex_val c)) (decs x).
Proof.
  intros Hx. destruct (octet_hex x [] Hx I) as (o & v & E). rewrite app_nil_r in E.
  apply hex_field_chars in E as (ds & -> & H). by rewrite app_nil_r.
Qed.

Lemma hexs_hex g : 0 <= g < 65536 -> Forall (fun c => is_Some (hex_val c)) (hexs g).
Proof.
  intros Hx. destruct (hex_field_hexs g [] Hx I) as (o & E). rewrite app_nil_r in E.
  apply hex_field_chars in E as (ds & -> & H). by rewrite app_nil_r.
Qed.

Lemma be32_octets x :
  0 <= x < 2 ^ 32 -> be32_val (x / 16777216 mod 256) (x / 65536 mod 256) (x / 256 mod 256) (x mod 256) = x.
Proof.
  intros Hx. change (2 ^ 32) with 4294967296 in *.
  rewrite be32_val_add by (unfold is_byte; div_lia). div_lia.
Qed.

Lemma parse_string4 x : 0 <= x < 2 ^ 32 -> ParseAddr (string4 x) = Some (IPv4 x).
Proof.
  intros Hx. unfold ParseAddr. rewrite string4_dotted.
  set (a := x / 16777216 mod 256). unfold dotted at 1.
  rewrite parse_scan_chars by (apply decs_hex; subst a; div_lia). cbn.
  unfold parseIPv4. rewrite parse_dotted by (subst a; div_lia).
  unfold AddrFrom4. subst a. by rewrite be32_octets.
Qed.

(** *** The text of IPv6 groups *)

Definition tail_groups (gs : list Z) : chars := mjoin ((fun g => ":"%char :: hexs g) <$> gs).

Definition joined (gs : list Z) : chars :=
  match gs with [] => [] | g :: gs => hexs g ++ tail_groups gs end.

Definition group_ok (g : Z) : Prop := 0 <= g < 65536.

Lemma tail_groups_cons g gs : tail_groups (g :: gs) = ":"%char :: joined (g :: gs).
Proof. done. Qed.

Lemma tail_no_hex gs s : no_hex_head s -> no_hex_head (tail_groups gs ++ s).
Proof. by destruct gs. Qed.

(** A group followed by a colon and more. *)
Lemma loop_next fuel acc ell g c v s :
  (length acc < 8)%nat -> group_ok g -> hex_val c = Some v ->
  groups_loop (S fuel) acc ell (hexs g ++ ":"%char :: c :: s) = groups_loop fuel (acc ++ [g]) ell (c :: s).
Proof.
  intros Ha Hg Hc. cbn [groups_loop]. rewrite (proj2 (Nat.leb_gt 8 _)) by lia.
  destruct (hex_field_hexs g (":"%char :: c :: s) Hg) as [off ->]; [done|].
  cbn -[groups_loop]. by rewrite (hex_not_char c ":" v).
Qed.

Lemma loop_step fuel acc ell g gs s :
  (length acc < 8)%nat -> group_ok g -> Forall group_ok gs -> gs <> [] ->
  groups_loop (S fuel) acc ell (joined (g :: gs) ++ s) = groups_loop fuel (acc ++ [g]) ell (joined gs ++ s).
Proof.
  intros Ha Hg Hgs Hne. destruct gs as [|g' gs]; [done|]. inversion Hgs as [|? ? Hg' Hgs']; subst.
  destruct (hexs_head g' Hg') as (c & s' & v & E & Hc).
  assert (Ej : joined (g' :: gs) ++ s = c :: s' ++ tail_groups gs ++ s)
    by (cbn [joined]; rewrite E; by rewrite <- app_assoc).
  change (joined (g :: g' :: gs)) with (hexs g ++ ":"%char :: joined (g' :: gs)).
  rewrite <- app_assoc. cbn [app]. rewrite Ej.
  by apply loop_next with v.
Qed.

Lemma loop_joined fuel acc ell gs :
  gs <> [] -> (length acc + length gs <= 8)%nat -> (length gs <= fuel)%nat -> Forall group_ok gs ->
  groups_loop fuel acc ell (joined gs) = Some (acc ++ gs, ell, []).
Proof.
  revert fuel acc. induction gs as [|g gs IH]; intros fuel acc Hne Hl Hf Hgs; [done|].
  inversion Hgs as [|? ? Hg Hgs']; subst. cbn [length] in *.
  destruct fuel as [|fuel]; [lia|]. destruct gs as [|g' gs].
  - cbn [groups_loop joined tail_groups fmap list_fmap mjoin list_join].
    rewrite (proj2 (Nat.leb_gt 8 _)) by lia.
    by destruct (hex_field_hexs g [] Hg I) as [off ->].
  - rewrite <- (app_nil_r (joined _)), loop_step, app_nil_r by (done || lia).
    rewrite IH, <- app_assoc by (done || (rewrite ?length_app; cbn in *; lia)). done.
Qed.

Lemma loop_ellipsis fuel acc pre post :
  pre <> [] -> (length acc + length pre + length post < 8)%nat -> (length pre + length post <= fuel)%nat ->
  Forall group_ok pre -> Forall group_ok post ->
  groups_loop fuel acc None (joined pre ++ ":"%char :: ":"%char :: joined post) =
  Some (acc ++ pre ++ post, Some (length acc + length pre)%nat, []).
Proof.
  revert fuel acc. induction pre as [|g pre IH]; intros fuel acc Hne Hl Hf Hpre Hpost; [done|].
  inversion Hpre as [|? ? Hg Hpre']; subst. cbn [length] in *.
  destruct fuel as [|fuel]; [lia|]. destruct pre as [|g' pre].
  - cbn [groups_loop joined tail_groups fmap list_fmap mjoin list_join]. rewrite app_nil_r.
    rewrite (proj2 (Nat.leb_gt 8 _)) by lia.
    destruct (hex_field_hexs g (":"%char :: ":"%char :: joined post) Hg) as [off ->]; [done|].
    cbn -[groups_loop]. rewrite length_app. cbn [length].
    destruct post as [|p post]; [done|].
    destruct (joined (p :: post)) eqn:E.
    { inversion Hpost as [|? ? Hp _]; subst. destruct (hexs_head p Hp) as (? & ? & ? & E' & _).
      cbn [joined] in E. by rewrite E' in E. }
    rewrite <- E, loop_joined by (done || (rewrite ?length_app; cbn in *; lia)).
    by rewrite <- app_assoc.
  - rewrite loop_step by (done || lia).
    rewrite IH by (done || (rewrite ?length_app; cbn in *; lia)).
    rewrite length_app, <- app_assoc. cbn. do 3 f_equal. f_equal. lia.
Qed.

(** *** The printed form *)

Lemma print6_tail fuel i zs ze gs :
  length gs = 8%nat -> (0 < i)%nat -> (8 <= fuel + i)%nat -> (zs < i \/ 8 <= zs)%nat ->
  chars_of (print6 fuel i zs ze gs) = tail_groups (drop i gs).
Proof.
  intros Hl. revert i. induction fuel as [|fuel IH]; intros i Hi Hf Hz.
  { by rewrite drop_ge by lia. }
  cbn [print6]. destruct (Nat.leb_spec 8 i); [by rewrite drop_ge by lia|].
  rewrite (proj2 (Nat.eqb_neq i zs)), (proj2 (Nat.ltb_lt 0 i)) by lia.
  destruct (lookup_lt_is_Some_2 gs i ltac:(lia)) as [g Hg].
  rewrite !chars_app, IH, Hg, (drop_S gs g i Hg) by lia. done.
Qed.

Lemma print6_pre fuel i zs ze gs :
  length gs = 8%nat -> (0 < i <= zs)%nat -> (zs < ze <= 8)%nat -> (8 <= fuel + i)%nat ->
  chars_of (print6 fuel i zs ze gs) =
  tail_groups (take (zs - i) (drop i gs)) ++ ":"%char :: ":"%char :: joined (drop ze gs).
Proof.
  intros Hl. revert i. induction fuel as [|fuel IH]; intros i Hi Hz Hf; [lia|].
  cbn [print6]. rewrite (proj2 (Nat.leb_gt 8 i)) by lia.
  destruct (Nat.eqb_spec i zs) as [->|Hne].
  - rewrite Nat.sub_diag, take_0. cbn [tail_groups fmap list_fmap mjoin list_join app].
    destruct (Nat.leb_spec 8 ze); [by rewrite drop_ge by lia|].
    destruct (lookup_lt_is_Some_2 gs ze ltac:(lia)) as [g Hg].
    rewrite !chars_app, print6_tail, Hg, (drop_S gs g ze Hg) by lia. done.
  - rewrite (proj2 (Nat.ltb_lt 0 i)) by lia.
    destruct (lookup_lt_is_Some_2 gs i ltac:(lia)) as [g Hg].
    rewrite !chars_app, IH, Hg, (drop_S gs g i Hg) by lia.
    replace (zs - i)%nat with (S (zs - S i)) by lia. cbn [take].
    rewrite tail_groups_cons. cbn. by rewrite <- app_assoc.
Qed.

(** The first group. *)
Lemma print6_first zs ze g gs :
  zs <> O -> print6 8 0 zs ze (g :: gs) = hex16 g +:+ print6 7 1 zs ze (g :: gs).
Proof. by destruct zs. Qed.

Lemma print6_none gs ze : length gs = 8%nat -> chars_of (print6 8 0 255 ze gs) = joined gs.
Proof.
  intros Hl. destruct gs as [|g gs]; [done|].
  rewrite print6_first, chars_app, print6_tail by (done || lia). done.
Qed.

Lemma print6_range gs zs ze :
  length gs = 8%nat -> (zs < ze <= 8)%nat ->
  chars_of (print6 8 0 zs ze gs) =
  joined (take zs gs) ++ ":"%char :: ":"%char :: joined (drop ze gs).
Proof.
  intros Hl Hz. destruct zs as [|zs].
  - rewrite take_0. change (print6 8 0 0 ze gs) with
      (if (8 <=? ze)%nat then "::"%string
       else "::" +:+ hex16 (default 0 (gs !! ze)) +:+ print6 7 (S ze) 0 ze gs)%string.
    destruct (Nat.leb_spec 8 ze); [by rewrite drop_ge by lia|].
    destruct (lookup_lt_is_Some_2 gs ze ltac:(lia)) as [g Hg].
    rewrite !chars_app, print6_tail, Hg, (drop_S gs g ze Hg) by lia. done.
  - destruct gs as [|g gs]; [done|].
    rewrite print6_first, chars_app, print6_pre by (done || lia).
    cbn. by rewrite <- app_assoc, drop_0, Nat.sub_0_r.
Qed.

(** *** The run of zeros that is printed as an ellipsis *)

Lemma zero_run_take l : take (zero_run l) l = replicate (zero_run l) 0.
Proof.
  induction l as [|x l IH]; [done|]. cbn. destruct (Z.eqb_spec x 0) as [->|]; [|done].
  cbn. by f_equal.
Qed.

Lemma zero_run_length l : (zero_run l <= length l)%nat.
Proof. induction l as [|x l IH]; cbn; [done|]. case_match; lia. Qed.

Definition zero_segment (gs : list Z) (r : nat * nat) : Prop :=
  (r.1 + 2 <= r.2 <= length gs)%nat /\ gs = take r.1 gs ++ replicate (r.2 - r.1) 0 ++ drop r.2 gs.

Lemma zero_range_spec gs :
  zero_range gs = (255, 255)%nat \/ zero_segment gs (zero_range gs).
Proof.
  unfold zero_range. generalize (seq 0 8). intros idx.
  assert (H : forall b, b = (255, 255)%nat \/ zero_segment gs b ->
    let f := fun best i => let l := zero_run (drop i gs) in
      if bool_decide ((2 <= l)%nat /\ (best.2 - best.1 < l)%nat) then (i, i + l)%nat else best in
    fold_left f idx b = (255, 255)%nat \/ zero_segment gs (fold_left f idx b)); [|by apply H; left].
  induction idx as [|i idx IH]; intros b Hb f; [done|]. apply IH. unfold f.
  case_bool_decide as Hl; [|done]. right. destruct Hl as [Hl _].
  pose proof (zero_run_length (drop i gs)) as Hn. rewrite length_drop in Hn.
  split; cbn; [lia|]. replace (i + zero_run (drop i gs) - i)%nat with (zero_run (drop i gs)) by lia.
  rewrite <- zero_run_take, <- drop_drop, take_drop. by rewrite take_drop.
Qed.

Lemma groups6_length x : length (groups6 x) = 8%nat.
Proof. done. Qed.

Lemma groups6_ok x : Forall group_ok (groups6 x).
Proof.
  unfold groups6. apply Forall_fmap, Forall_true. intros i. unfold group_ok, compose. apply Z.mod_pos_bound. lia.
Qed.

Lemma groups_val_groups6 x : 0 <= x < 2 ^ 128 -> groups_val (groups6 x) = x.
Proof.
  intros Hx. unfold groups_val, groups6.
  cbn [seq fmap list_fmap fold_left Z.of_nat]. rewrite !Z.shiftr_div_pow2 by lia.
  assert (Hs : forall n m, 0 <= m -> n = m + 16 -> x / 2 ^ m = x / 2 ^ n * 65536 + x / 2 ^ m mod 65536).
  { intros n m Hm ->. rewrite Z.pow_add_r, <- Z.div_div by lia. change (2 ^ 16) with 65536.
    pose proof (Z.div_mod (x / 2 ^ m) 65536). lia. }
  repeat match goal with |- context [x / 2 ^ (16 * ?k)] =>
    let v := eval vm_compute in (16 * k) in change (16 * k) with v end.
  pose proof (Hs 16 0 ltac:(lia) eq_refl). pose proof (Hs 32 16 ltac:(lia) eq_refl).
  pose proof (Hs 48 32 ltac:(lia) eq_refl). pose proof (Hs 64 48 ltac:(lia) eq_refl).
  pose proof (Hs 80 64 ltac:(lia) eq_refl). pose proof (Hs 96 80 ltac:(lia) eq_refl).
  pose proof (Hs 112 96 ltac:(lia) eq_refl). pose proof (Hs 128 112 ltac:(lia) eq_refl) as Hlast.
  rewrite (Z.div_small x (2 ^ 128)) in Hlast by lia. rewrite Z.pow_0_r, Z.div_1_r in *. lia.
Qed.

(** *** Whole addresses *)

Lemma split_zone_app s z :
  Forall (fun c => addr_char c = true) s ->
  split_zone (s ++ chars_of (if bool_decide (z = "") then "" else "%" +:+ z)) =
  (s, if bool_decide (z = "") then None else Some (chars_of z)).
Proof.
  induction 1 as [|c s Hc _ IH].
  - case_bool_decide; [done|]. by rewrite chars_app.
  - cbn. rewrite (addr_char_not c "%") by done. by rewrite IH.
Qed.

Lemma parseIPv6_zone s z :
  Forall (fun c => addr_char c = true) s ->
  parseIPv6 (s ++ chars_of (if bool_decide (z = "") then "" else "%" +:+ z)) =
  (fun v => IPv6 v z) <$> body6 s.
Proof.
  intros Hs. unfold parseIPv6. rewrite split_zone_app by done.
  destruct (decide (z = "")) as [->|Hz]; [by destruct (body6 s)|].
  rewrite (bool_decide_false (z = "")) by done.
  rewrite bool_decide_false by (intros [= E]; by destruct z).
  change (default [] (Some (chars_of z))) with (chars_of z). rewrite string_chars. by destruct (body6 s).
Qed.

Lemma joined_chars gs : Forall group_ok gs -> Forall (fun c => addr_char c = true) (joined gs).
Proof.
  assert (Hg : forall g, group_ok g -> Forall (fun c => addr_char c = true) (hexs g)).
  { intros g Hg. eapply Forall_impl; [by apply hexs_hex|]. intros c Hc. unfold addr_char.
    by rewrite bool_decide_true. }
  assert (Ht : forall gs, Forall group_ok gs -> Forall (fun c => addr_char c = true) (tail_groups gs)).
  { induction 1 as [|g l H _ IH]; [constructor|]. rewrite tail_groups_cons.
    constructor; [done|]. cbn [joined]. apply Forall_app; auto. }
  destruct 1; [constructor|]. cbn [joined]. apply Forall_app; auto.
Qed.

Lemma string6_range x zs ze :
  zero_range (groups6 x) = (zs, ze) -> zs <> 255%nat ->
  chars_of (string6 x) =
    joined (take zs (groups6 x)) ++ ":"%char :: ":"%char :: joined (drop ze (groups6 x)) /\
  (zs + 2 <= ze <= 8)%nat /\
  groups6 x = take zs (groups6 x) ++ replicate (ze - zs) 0 ++ drop ze (groups6 x).
Proof.
  intros E Hz. destruct (zero_range_spec (groups6 x)) as [H|[H1 H2]]; [congruence|].
  rewrite E in *. cbn [fst snd] in *. rewrite groups6_length in H1.
  unfold string6. rewrite E, print6_range by (done || lia). done.
Qed.

Lemma string6_chars x : Forall (fun c => addr_char c = true) (chars_of (string6 x)).
Proof.
  pose proof (groups6_ok x) as Hok. destruct (zero_range (groups6 x)) as [zs ze] eqn:E.
  destruct (decide (zs = 255%nat)) as [->|Hz].
  - unfold string6. rewrite E, print6_none by done. by apply joined_chars.
  - destruct (string6_range x zs ze E Hz) as (-> & _).
    apply Forall_app. split; [|repeat constructor]; apply joined_chars; auto using Forall_take, Forall_drop.
Qed.

Lemma finish6_joined ell gs gs' :
  gs <> [] -> (length gs <= 8)%nat -> Forall group_ok gs -> expand gs ell = Some gs' ->
  finish6 (joined gs) ell = Some (groups_val gs').
Proof. intros. unfold finish6. rewrite loop_joined by done. cbn. by simplify_option_eq. Qed.

Lemma expand_ellipsis pre post :
  (length pre + length post < 8)%nat ->
  expand (pre ++ post) (Some (length pre)) =
  Some (pre ++ replicate (8 - (length pre + length post)) 0 ++ post).
Proof.
  intros Hl. unfold expand. rewrite length_app, (proj2 (Nat.ltb_lt _ 8)) by lia.
  by rewrite take_app_length, drop_app_length.
Qed.

Lemma body6_group gs s :
  gs <> [] -> Forall group_ok gs -> body6 (joined gs ++ s) = finish6 (joined gs ++ s) None.
Proof.
  intros Hne Hgs. destruct Hgs as [|g gs Hg _]; [done|]. cbn [joined].
  destruct (hexs_head g Hg) as (c & s' & v & -> & Hc). cbn [app].
  generalize ((s' ++ tail_groups gs) ++ s). intros [|c1 s1]; [done|]. cbn [body6].
  by rewrite (hex_not_char c ":" v).
Qed.

Lemma body6_leading c s : body6 (":"%char :: ":"%char :: c :: s) = finish6 (c :: s) (Some O).
Proof. done. Qed.

Lemma joined_nonempty gs : Forall group_ok gs -> gs <> [] -> exists c s, joined gs = c :: s.
Proof.
  destruct 1 as [|g gs Hg _]; [done|]. intros _. cbn [joined].
  destruct (hexs_head g Hg) as (c & s & v & -> & _). cbn [app]. eauto.
Qed.

Lemma body6_string6 x : 0 <= x < 2 ^ 128 -> body6 (chars_of (string6 x)) = Some x.
Proof.
  intros Hx. pose proof (groups6_ok x) as Hok. pose proof (groups_val_groups6 x Hx) as Hv.
  destruct (zero_range (groups6 x)) as [zs ze] eqn:E.
  destruct (decide (zs = 255%nat)) as [->|Hz].
  { unfold string6. rewrite E, print6_none, <- (app_nil_r (joined _)), body6_group, app_nil_r by done.
    rewrite <- Hv at 2. by apply finish6_joined. }
  destruct (string6_range x zs ze E Hz) as (-> & Hr & Hgs).
  pose proof (groups6_length x) as Hl. rewrite Hgs in Hok, Hv. clear E Hgs Hz.
  apply Forall_app in Hok as [Hpre [_ Hpost]%Forall_app].
  assert (Hlp : length (take zs (groups6 x)) = zs) by (rewrite length_take; lia).
  assert (Hld : length (drop ze (groups6 x)) = (8 - ze)%nat) by (rewrite length_drop; lia).
  revert Hpre Hpost Hlp Hld Hv. clear Hl.
  generalize (take zs (groups6 x)) as pre, (drop ze (groups6 x)) as post. intros pre post Hpre Hpost Hlp Hld Hv.
  pose proof (expand_ellipsis pre post ltac:(lia)) as Hexp.
  replace (8 - (length pre + length post))%nat with (ze - zs)%nat in Hexp by lia.
  destruct (decide (pre = [])) as [->|Hne].
  - cbn [joined app length] in *. destruct (decide (post = [])) as [->|Hne'].
    + cbn in Hld. replace ze with 8%nat in Hv by lia. subst zs. cbn in Hv. by subst.
    + destruct (joined_nonempty post) as (c & s & Ec); [done..|].
      rewrite Ec, body6_leading, <- Ec. erewrite finish6_joined; [by f_equal|done|lia|done|done].
  - rewrite body6_group by done. unfold finish6.
    rewrite loop_ellipsis by (done || cbn; lia). cbn [mbind option_bind app length Nat.add].
    rewrite Hexp. cbn. by f_equal.
Qed.

Lemma mapped_octets x :
  0 <= x < 2 ^ 128 -> Z.shiftr x 32 = 0xffff ->
  groups_val [0; 0; 0; 0; 0; 0xffff; x mod 2 ^ 32 / 16777216 mod 256 * 256 + x mod 2 ^ 32 / 65536 mod 256;
              x mod 2 ^ 32 / 256 mod 256 * 256 + x mod 2 ^ 32 mod 256] = x.
Proof.
  intros Hx. rewrite Z.shiftr_div_pow2 by lia. cbn [groups_val fold_left].
  change (2 ^ 32) with 4294967296. intros H. pose proof (Z.div_mod x 4294967296 ltac:(lia)).
  pose proof (Z.mod_pos_bound x 4294967296 ltac:(lia)). rewrite H in *.
  generalize dependent (x mod 4294967296). intros y **. div_lia.
Qed.

Lemma body6_mapped x :
  0 <= x < 2 ^ 128 -> Z.shiftr x 32 = 0xffff -> body6 (chars_of ("::ffff:" +:+ string4 (x mod 2 ^ 32))) = Some x.
Proof.
  intros Hx Hm. rewrite chars_app, string4_dotted. set (y := x mod 2 ^ 32).
  pose proof (mapped_octets x Hx Hm) as Hv. fold y in Hv.
  set (a := y / 16777216 mod 256) in *. set (b := y / 65536 mod 256) in *.
  set (c := y / 256 mod 256) in *. set (d := y mod 256) in *.
  assert (Ha : 0 <= a < 256) by (subst a; div_lia). assert (Hb : 0 <= b < 256) by (subst b; div_lia).
  assert (Hc : 0 <= c < 256) by (subst c; div_lia). assert (Hd : 0 <= d < 256) by (subst d; div_lia).
  clearbody a b c d. pose proof (parse_dotted a b c d Ha Hb Hc Hd) as Hp.
  assert (Hstep : groups_loop 7 [0xffff] (Some O) (dotted a b c d) =
    Some ([0xffff; a * 256 + b; c * 256 + d], Some O, [])).
  { cbn [groups_loop length Nat.leb].
    destruct (octet_hex a ("."%char :: decs b ++ "."%char :: decs c ++ "."%char :: decs d) Ha)
      as (off & v & E); [done|]. unfold dotted at 1. rewrite E.
    cbn [Nat.eqb is_char Ascii.eqb Bool.eqb]. by rewrite Hp. }
  assert (Hne : exists k s v, dotted a b c d = k :: s /\ hex_val k = Some v).
  { unfold dotted. pose proof (decs_hex a Ha) as Hh. pose proof (decs_nonempty a [] Ha) as Hn.
    rewrite app_nil_r in Hn. destruct Hh as [|k s [v Hk] _]; [done|]. cbn [app]. eauto. }
  destruct Hne as (k & s & v & Ek & Hk).
  change (chars_of "::ffff:" ++ dotted a b c d) with
    (":"%char :: ":"%char :: "f"%char :: chars_of "fff:" ++ dotted a b c d).
  rewrite body6_leading. unfold finish6.
  change ("f"%char :: chars_of "fff:" ++ dotted a b c d) with (hexs 0xffff ++ ":"%char :: dotted a b c d).
  rewrite Ek, (loop_next _ _ _ _ _ v) by (done || (unfold group_ok; cbn; lia)). cbn [app].
  rewrite <- Ek, Hstep. cbn -[groups_val]. by rewrite Hv.
Qed.

(** *** The round trip *)

(** The text of an address before its zone. *)
Definition addr_body (a : Addr) : string :=
  match a with
  | InvalidAddr => "invalid IP"
  | IPv4 x => string4 x
  | IPv6 x _ => if (Z.shiftr x 32 =? 0xffff)%Z then "::ffff:" +:+ string4 (x mod 2 ^ 32)%Z else string6 x
  end%string.

Lemma dotted_chars x : Forall (fun c => addr_char c = true) (chars_of (string4 x)).
Proof.
  rewrite string4_dotted. unfold dotted.
  repeat (apply Forall_app; split; [apply octet_chars; div_lia|apply Forall_cons; split; [done|]]).
  apply octet_chars. div_lia.
Qed.

Lemma addr_body_chars a :
  a <> InvalidAddr -> Forall (fun c => addr_char c = true) (chars_of (addr_body a)).
Proof.
  destruct a as [|x|x z]; intros Ha; [done|apply dotted_chars|].
  unfold addr_body. case_match; [|apply string6_chars].
  rewrite chars_app. apply Forall_app. split; [repeat constructor|apply dotted_chars].
Qed.

(** Scanning for the first special character finds the colon of an IPv6 address. *)
Lemma scan_string6 x s w :
  parse_scan (chars_of (addr_body (IPv6 x "")) ++ s) w = parseIPv6 w.
Proof.
  unfold addr_body. case_match; [by rewrite chars_app|]. pose proof (groups6_ok x) as Hok.
  assert (Hj : forall gs s, Forall group_ok gs -> (1 < length gs)%nat \/ (exists s', s = ":"%char :: s') ->
    parse_scan (joined gs ++ s) w = parseIPv6 w).
  { intros gs s0 Hgs Hs. destruct Hgs as [|g gs Hg Hgs].
    - destruct Hs as [Hs|[s' ->]]; [cbn in Hs; lia|done].
    - cbn [joined]. rewrite <- app_assoc, parse_scan_chars by by apply hexs_hex.
      destruct gs; [|done]. destruct Hs as [Hs|[s' ->]]; [cbn in Hs; lia|done]. }
  destruct (zero_range (groups6 x)) as [zs ze] eqn:E.
  destruct (decide (zs = 255%nat)) as [->|Hz].
  - unfold string6. rewrite E, print6_none by done. apply Hj; [done|]. left. rewrite groups6_length. lia.
  - destruct (string6_range x zs ze E Hz) as (-> & _). rewrite <- app_assoc. cbn [app].
    apply Hj; [by apply Forall_take|]. right. eauto.
Qed.

(** Every valid address, IPv4, IPv6, IPv4-mapped or with a zone, is read back as
    printed. *)
Lemma ParseAddr_String a : a <> InvalidAddr -> addr_ok a -> ParseAddr (Addr_String a) = Some a.
Proof.
  intros Ha Hok. destruct a as [|x|x z]; [done|by apply parse_string4|].
  assert (Ebody : Addr_String (IPv6 x z) =
    (addr_body (IPv6 x "") +:+ (if bool_decide (z = "") then "" else "%" +:+ z))%string) by done.
  unfold ParseAddr. rewrite Ebody, chars_app, scan_string6, parseIPv6_zone by by apply addr_body_chars.
  clear Ebody. unfold addr_body.
  destruct (Z.eqb_spec (Z.shiftr x 32) 0xffff); [by rewrite body6_mapped|by rewrite body6_string6].
Qed.

Lemma Addr_String_inj a b : addr_ok a -> addr_ok b -> Addr_String a = Addr_String b -> a = b.
Proof.
  intros Ha Hb E.
  assert (Hinv : forall c, addr_ok c -> Addr_String InvalidAddr = Addr_String c -> c = InvalidAddr).
  { intros c Hc Ec. destruct (decide (c = InvalidAddr)) as [|Hne]; [done|].
    pose proof (ParseAddr_String c Hne Hc) as Hp. rewrite <- Ec in Hp. by vm_compute in Hp. }
  destruct (decide (a = InvalidAddr)) as [->|Hna]; [symmetry; by apply Hinv|].
  destruct (decide (b = InvalidAddr)) as [->|Hnb]; [by apply Hinv|].
  pose proof (ParseAddr_String a Hna Ha) as Hp. rewrite E, ParseAddr_String in Hp by done. congruence.
Qed.

(** *** Addresses as parts of a key *)

(** An address of its width whose zone does not contain the separator of keys. *)
Definition plain_addr (a : Addr) : Prop :=
  addr_ok a /\ match a with IPv6 _ z => "|"%char ∉ chars_of z | _ => True end.

Lemma plain_no_bar a : plain_addr a -> "|"%char ∉ chars_of (Addr_String a).
Proof.
  intros [_ Hz]. assert (Hb : forall a, a <> InvalidAddr -> "|"%char ∉ chars_of (addr_body a)).
  { intros b Hb Hin. pose proof (addr_body_chars b Hb) as Hf. rewrite Forall_forall in Hf.
    by specialize (Hf _ Hin). }
  destruct a as [|x|x z]; [vm_compute; set_solver|by apply (Hb (IPv4 x))|].
  change (Addr_String (IPv6 x z)) with
    (addr_body (IPv6 x z) +:+ (if bool_decide (z = "") then "" else "%" +:+ z))%string.
  rewrite chars_app, elem_of_app. intros [H|H]; [by apply Hb in H|].
  case_bool_decide; [cbn in H; set_solver|]. rewrite chars_app in H.
  apply elem_of_app in H as [H|H]; [cbn in H; set_solver|done].
Qed.

Lemma app_sep_inj {A} (c : A) l1 l2 l1' l2' :
  c ∉ l1 -> c ∉ l1' -> l1 ++ c :: l2 = l1' ++ c :: l2' -> l1 = l1' /\ l2 = l2'.
Proof.
  revert l1'. induction l1 as [|x l1 IH]; intros [|x' l1'] H1 H2 E; simplify_eq/=; [done|set_solver..|].
  destruct (IH l1') as [-> ->]; set_solver.
Qed.

(** Addresses joined with a suffix by a bar can be told apart. *)
Lemma bar_key_inj a b s t :
  plain_addr a -> plain_addr b -> (Addr_String a +:+ "|" +:+ s = Addr_String b +:+ "|" +:+ t)%string ->
  a = b /\ s = t.
Proof.
  intros Ha Hb E. apply (f_equal chars_of) in E. rewrite !chars_app in E.
  apply app_sep_inj in E as [E1 E2]; [|by apply plain_no_bar..].
  split; [apply Addr_String_inj; [apply Ha|apply Hb|]|]; by apply chars_inj.
Qed.
