(* ===== verification/Strconv.v ===== *)
(** * Numbers and durations as text

    What the program uses of the Go packages [strconv] and [time]: parsing of decimal
    integers, and durations from and to text. *)

From stdpp Require Import strings pretty.
From Stdlib Require Import Ascii SpecFloat.
From S2P Require Import Prelude Netip NetipParse.

Local Open Scope Z_scope.

(** ** Decimal integers *)

(** [strconv.ParseUint] with base 10 for [bits] bits. *)
Definition ParseUint (bits : Z) (s : string) : option Z :=
  if bool_decide (s = "") then None else
  n ← atoi 0 (chars_of s);
  if n <? 2 ^ bits then Some n else None.

(** [strconv.ParseInt] with base 10 for [bits] bits. *)
Definition ParseInt (bits : Z) (s : string) : option Z :=
  match chars_of s with
  | [] => None
  | c :: rest =>
      let neg := is_char c "-" in
      let digits := if neg || is_char c "+" then rest else c :: rest in
      if bool_decide (digits = []) then None else
      n ← atoi 0 digits;
      if neg then (if n <=? 2 ^ (bits - 1) then Some (- n) else None)
      else (if n <? 2 ^ (bits - 1) then Some n else None)
  end.

(** [strconv.Atoi], with integers of 64 bits. *)
Definition Atoi (s : string) : option Z := ParseInt 64 s.

Example ParseInt_examples :
  Atoi "12" = Some 12 /\ Atoi "-12" = Some (-12) /\ Atoi "+7" = Some 7 /\ Atoi "-" = None /\ Atoi "" = None /\
  Atoi "1 " = None /\ Atoi "9223372036854775807" = Some 9223372036854775807 /\
  Atoi "9223372036854775808" = None /\ Atoi "-9223372036854775808" = Some (-9223372036854775808) /\
  ParseUint 32 "4294967295" = Some 4294967295 /\ ParseUint 32 "4294967296" = None /\ ParseUint 32 "+1" = None /\
  ParseUint 32 "007" = Some 7.
Proof. vm_compute. repeat split; reflexivity. Qed.

(** ** Numbers read back *)

Lemma atoi_app acc a b : atoi acc (a ++ b) = (n ← atoi acc a; atoi n b).
Proof. revert acc. induction a as [|c a IH]; intros acc; cbn; [done|]. destruct (digit_val c); cbn; [apply IH|done]. Qed.

Lemma digit_val_pretty x : (x < 10)%N -> digit_val (pretty_N_char x) = Some (Z.of_N x).
Proof.
  intros H. destruct x as [|p]; [reflexivity|].
  do 4 (destruct p as [p|p|]; try reflexivity; try lia).
Qed.

Lemma atoi_pretty_go (x : N) : forall s,
  (0 < x)%N -> forall acc, acc = 0 ->
  atoi acc (chars_of (pretty_N_go x s)) = atoi (Z.of_N x) (chars_of s).
Proof.
  induction (N.lt_wf_0 x) as [x _ IH]. intros s Hx acc ->. rewrite pretty_N_go_step by done.
  assert (Hd : (x `mod` 10 < 10)%N) by (apply N.mod_lt; lia).
  destruct (decide (x < 10)%N) as [Hlt|Hge].
  - rewrite (N.div_small x 10), (N.mod_small x 10), pretty_N_go_0 by done. cbn [chars_of String.list_ascii_of_string atoi].
    rewrite digit_val_pretty by done. cbn. by rewrite Z.add_0_l.
  - assert (0 < x `div` 10)%N by (apply N.div_str_pos; lia).
    rewrite IH; [|apply N.div_lt; lia|done|done]. cbn [chars_of String.list_ascii_of_string atoi].
    rewrite digit_val_pretty by done. cbn. f_equal. pose proof (N.div_mod x 10 ltac:(lia)). lia.
Qed.

Lemma atoi_pretty n : 0 <= n -> atoi 0 (chars_of (pretty n)) = Some n.
Proof.
  intros Hn. destruct n as [|p|p]; [reflexivity| |lia].
  change (pretty (Z.pos p)) with (pretty (N.pos p)). unfold pretty, pretty_N. rewrite decide_False by done.
  by rewrite atoi_pretty_go.
Qed.

Lemma pretty_nonempty n : 0 <= n -> pretty n <> ""%string.
Proof. intros Hn H. pose proof (atoi_pretty n Hn) as E. rewrite H in E. cbn in E. injection E as <-. discriminate H. Qed.

Lemma ParseUint_pretty bits n : 0 <= n < 2 ^ bits -> ParseUint bits (pretty n) = Some n.
Proof.
  intros Hn. unfold ParseUint. rewrite bool_decide_false by (apply pretty_nonempty; lia).
  rewrite atoi_pretty by lia. cbn. by rewrite (proj2 (Z.ltb_lt _ _)) by lia.
Qed.

Lemma ParseInt_pretty bits n : 0 <= n < 2 ^ (bits - 1) -> ParseInt bits (pretty n) = Some n.
Proof.
  intros Hn. pose proof (atoi_pretty n ltac:(lia)) as E. pose proof (pretty_nonempty n ltac:(lia)) as Hne.
  unfold ParseInt. destruct (chars_of (pretty n)) as [|c rest] eqn:Hc.
  { destruct Hne. by apply chars_inj. }
  cbn [atoi] in E. apply bind_Some in E as (d & Hd & E).
  assert (Hs : forall x, digit_val x = None -> is_char c x = false).
  { intros x Hx. unfold is_char. destruct (Ascii.eqb_spec c x); congruence. }
  rewrite !Hs by done. cbn [orb]. rewrite bool_decide_false by done. cbn [atoi]. rewrite Hd. cbn [mbind option_bind].
  rewrite E. cbn. by rewrite (proj2 (Z.ltb_lt _ _)) by lia.
Qed.

(** ** Durations ([time.Duration.String])

    The buffer is filled from its end: [acc] is the text to the right. *)

Fixpoint fmtFrac (prec : nat) (v : Z) (print : bool) (acc : string) : string * Z :=
  match prec with
  | O => ((if print then "." +:+ acc else acc), v)
  | S prec =>
      let digit := v mod 10 in
      let print := print || negb (digit =? 0) in
      fmtFrac prec (v / 10) print (if print then pretty digit +:+ acc else acc)
  end.

Definition Duration_String (d : Z) : string :=
  let u := Z.abs d in
  let sign := if d <? 0 then "-"%string else ""%string in
  if u =? 0 then "0s" else
  if u <? 1000000000 then
    let '(prec, unit) :=
      if u <? 1000 then (0%nat, "ns"%string) else if u <? 1000000 then (3%nat, "µs"%string) else (6%nat, "ms"%string) in
    let '(text, u) := fmtFrac prec u false unit in
    sign +:+ pretty u +:+ text
  else
    let '(text, u) := fmtFrac 9 u false "s" in
    let text := pretty (u mod 60) +:+ text in
    let u := u / 60 in
    if u =? 0 then sign +:+ text else
    let text := pretty (u mod 60) +:+ "m" +:+ text in
    let u := u / 60 in
    if u =? 0 then sign +:+ text else sign +:+ pretty u +:+ "h" +:+ text.

Example Duration_String_examples :
  Duration_String 0 = "0s"%string /\ Duration_String 300000000 = "300ms"%string /\
  Duration_String 1000000000 = "1s"%string /\ Duration_String 1500000000 = "1.5s"%string /\
  Duration_String 3330 = "3.33µs"%string /\ Duration_String 5 = "5ns"%string /\
  Duration_String 3600000000000 = "1h0m0s"%string /\ Duration_String (-90000000001) = "-1m30.000000001s"%string.
Proof. vm_compute. repeat split; reflexivity. Qed.

(** ** Parsing of durations ([time.ParseDuration]) *)

(** The value of the leading digits and the rest; [None] is an overflow. *)
Fixpoint leadingInt (x : Z) (s : chars) : option (Z * chars) :=
  match s with
  | c :: s' =>
      match digit_val c with
      | Some d =>
          if 2 ^ 63 / 10 <? x then None else
          let x := x * 10 + d in
          if 2 ^ 63 <? x then None else leadingInt x s'
      | None => Some (x, s)
      end
  | [] => Some (x, s)
  end.

Definition float_of (z : Z) : spec_float := binary_normalize 53 1024 z 0 false.

(** The digits after a point: the value, the power of ten it is divided by, the rest.
    Digits that would overflow are dropped. *)
Fixpoint leadingFraction (x : Z) (scale : spec_float) (overflow : bool) (s : chars) : Z * spec_float * chars :=
  match s with
  | c :: s' =>
      match digit_val c with
      | Some d =>
          let y := x * 10 + d in
          if overflow || ((2 ^ 63 - 1) / 10 <? x) || (2 ^ 63 <? y) then leadingFraction x scale true s'
          else leadingFraction y (SFmul 53 1024 scale (float_of 10)) false s'
      | None => (x, scale, s)
      end
  | [] => (x, scale, s)
  end.

(** The unit reaches up to the next digit or point. *)
Fixpoint leadingUnit (s : chars) : chars * chars :=
  match s with
  | c :: s' =>
      if is_char c "." || bool_decide (is_Some (digit_val c)) then ([], s)
      else let '(u, rest) := leadingUnit s' in (c :: u, rest)
  | [] => ([], [])
  end.

Definition unitMap (u : string) : option Z :=
  if bool_decide (u = "ns"%string) then Some 1 else
  if bool_decide (u = "us"%string \/ u = "µs"%string \/ u = "μs"%string) then Some 1000 else
  if bool_decide (u = "ms"%string) then Some 1000000 else
  if bool_decide (u = "s"%string) then Some 1000000000 else
  if bool_decide (u = "m"%string) then Some (60 * 1000000000) else
  if bool_decide (u = "h"%string) then Some (3600 * 1000000000) else None.

(** The integer part of a non-negative float. *)
Definition truncate (f : spec_float) : Z :=
  match f with
  | S754_finite false m e => Z.shiftl (Z.pos m) e
  | _ => 0
  end.

(** One number with its unit: its value and the rest. *)
Definition duration_term (s : chars) : option (Z * chars) :=
  match s with
  | [] => None
  | c :: _ =>
      if negb (is_char c "." || bool_decide (is_Some (digit_val c))) then None else
      '(v, s1) ← leadingInt 0 s;
      let pre := negb (length s1 =? length s)%nat in
      let '(f, scale, s2, post) :=
        match s1 with
        | p :: s1' =>
            if is_char p "." then
              let '(f, scale, s2) := leadingFraction 0 (float_of 1) false s1' in
              (f, scale, s2, negb (length s2 =? length s1')%nat)
            else (0, float_of 1, s1, false)
        | [] => (0, float_of 1, s1, false)
        end in
      if negb pre && negb post then None else
      let '(u, rest) := leadingUnit s2 in
      if bool_decide (u = []) then None else
      unit ← unitMap (String.string_of_list_ascii u);
      if 2 ^ 63 / unit <? v then None else
      let v := v * unit in
      let v := if 0 <? f then v + truncate (SFmul 53 1024 (float_of f) (SFdiv 53 1024 (float_of unit) scale)) else v in
      if 2 ^ 63 <? v then None else Some (v, rest)
  end.

(** Every term takes at least one character. *)
Fixpoint duration_terms (fuel : nat) (d : Z) (s : chars) : option Z :=
  match s, fuel with
  | [], _ => Some d
  | _, O => None
  | _, S fuel =>
      '(v, rest) ← duration_term s;
      let d := d + v in
      if 2 ^ 63 <? d then None else duration_terms fuel d rest
  end.

Definition ParseDuration (s : string) : option Z :=
  let s := chars_of s in
  let neg := match s with c :: _ => is_char c "-" | [] => false end in
  let s := match s with c :: s' => if is_char c "-" || is_char c "+" then s' else s | [] => s end in
  if bool_decide (s = ["0"%char]) then Some 0 else
  if bool_decide (s = []) then None else
  d ← duration_terms (length s) 0 s;
  if neg then Some (- d) else if 2 ^ 63 - 1 <? d then None else Some d.

Example ParseDuration_examples :
  ParseDuration "300ms" = Some 300000000 /\ ParseDuration "1h0m0s" = Some 3600000000000 /\
  ParseDuration "-1m30.000000001s" = Some (-90000000001) /\ ParseDuration "3.33µs" = Some 3330 /\
  ParseDuration "1.5h" = Some 5400000000000 /\ ParseDuration ".5s" = Some 500000000 /\ ParseDuration "0" = Some 0 /\
  ParseDuration "" = None /\ ParseDuration "3" = None /\ ParseDuration "1d" = None /\ ParseDuration "." = None /\
  ParseDuration "9223372036854775807ns" = Some (2 ^ 63 - 1) /\ ParseDuration "9223372036854775808ns" = None /\
  ParseDuration "-9223372036854775808ns" = Some (- 2 ^ 63).
Proof. vm_compute. repeat split; reflexivity. Qed.
