(* ===== verification/Sdnotify.v ===== *)
(** * Service notification ([internal/sdnotify], [runWatchdog])

    The messages to the service manager and the keepalive loop.  The process
    environment, the process id and the outcomes of the socket calls are inputs; the
    messages that were sent are recorded with the time. *)

From stdpp Require Import strings pretty.
From Stdlib Require Import Ascii.
From S2P Require Import Prelude Netip NetipParse Strconv.

Local Open Scope Z_scope.

Definition Ready : string := "READY=1".
Definition Stopping : string := "STOPPING=1".
Definition Watchdog : string := "WATCHDOG=1".

Inductive notify_error := ErrDialNotify | ErrWriteNotify | ErrWatchdogPID | ErrWatchdogUsec.

(** [os.Getenv] and [os.Getpid]; a variable that is not set is empty. *)
Record ProcessEnv := mkProcessEnv { pe_getenv : string -> string; pe_pid : Z }.

(** The socket calls of one notification. *)
Record NotifySys := mkNotifySys { ns_dial : string -> bool; ns_write : bool }.

(** The address the kernel is given: a leading [@] stands for a NUL byte. *)
Definition notify_address (socketAddr : string) : string :=
  match socketAddr with
  | String "@" rest => String Ascii.zero rest
  | _ => socketAddr
  end.

(** Whether a message was sent; the second result is the datagram. *)
Definition Notify (env : ProcessEnv) (sys : NotifySys) (state : string)
    : go notify_error bool * option (string * string) :=
  let socketAddr := pe_getenv env "NOTIFY_SOCKET" in
  if bool_decide (socketAddr = "") then (Ok false, None) else
  let socketAddr := notify_address socketAddr in
  if negb (ns_dial sys socketAddr) then (Err ErrDialNotify, None) else
  if negb (ns_write sys) then (Err ErrWriteNotify, None) else
  (Ok true, Some (socketAddr, state)).

Definition microsecond : Z := 1000.

Definition WatchdogEnabled (env : ProcessEnv) : go notify_error Z :=
  let usecStr := pe_getenv env "WATCHDOG_USEC" in
  if bool_decide (usecStr = "") then Ok 0 else
  let pidStr := pe_getenv env "WATCHDOG_PID" in
  let watched :=
    if bool_decide (pidStr = "") then Ok true else
    match Atoi pidStr with
    | None => Err ErrWatchdogPID
    | Some pid => Ok (pid =? pe_pid env)
    end in
  match watched with
  | Err e => Err e
  | Panic => Panic
  | Ok false => Ok 0
  | Ok true =>
      match ParseInt 64 usecStr with
      | None => Err ErrWatchdogUsec
      | Some usec => Ok (i64 (usec * microsecond))
      end
  end.

(** ** The keepalive loop

    [time.NewTicker] panics when the interval is not positive; afterwards a tick is
    ready every interval, and the loop takes it [delay] later, before the next one.
    [ticks] gives the delay and the socket calls of each tick before the context is
    done.  The result is the list of keepalives with their times. *)

Fixpoint watchdog_loop (env : ProcessEnv) (tickInterval tick : Z) (ticks : list (Z * NotifySys)) : list Z :=
  match ticks with
  | [] => []
  | (delay, sys) :: ticks =>
      let rest := watchdog_loop env tickInterval (tick + tickInterval) ticks in
      match Notify env sys Watchdog with
      | (_, Some _) => tick + delay :: rest
      | (_, None) => rest
      end
  end.

Definition runWatchdog (env : ProcessEnv) (start : Z) (ticks : list (Z * NotifySys)) : go notify_error (list Z) :=
  match WatchdogEnabled env with
  | Panic => Panic
  | Err _ => Ok []
  | Ok interval =>
      if interval =? 0 then Ok [] else
      let tickInterval := Z.quot interval 2 in
      if tickInterval <=? 0 then Panic else
      Ok (watchdog_loop env tickInterval (start + tickInterval) ticks)
  end.

(** ** The service manager is kept informed

    Times that follow each other, from [t] on, at most [d] apart. *)
Fixpoint within (d t : Z) (l : list Z) : Prop :=
  match l with
  | [] => True
  | x :: l => t <= x <= t + d /\ within d x l
  end.

Lemma within_weaken d t t' l : within d t l -> (forall x, x ∈ l -> t' <= x) -> t <= t' -> within d t' l.
Proof. destruct l as [|x l]; cbn; [done|]. intros [Hx Hl] Ht ?. split; [|done]. specialize (Ht x ltac:(left)). lia. Qed.

(** The environment of a watched service. *)
Record watched_by (usec : Z) (env : ProcessEnv) : Prop := {
  wb_usec : pe_getenv env "WATCHDOG_USEC" = pretty usec;
  wb_pid : pe_getenv env "WATCHDOG_PID" = ""%string \/ pe_getenv env "WATCHDOG_PID" = pretty (pe_pid env);
  wb_pid_range : 0 <= pe_pid env < 2 ^ 63;
  wb_socket : pe_getenv env "NOTIFY_SOCKET" <> ""%string;
  wb_range : 1 <= usec < 2 ^ 63 / microsecond;
}.

Lemma WatchdogEnabled_watched usec env : watched_by usec env -> WatchdogEnabled env = Ok (usec * microsecond).
Proof.
  intros [Hu Hp Hr _ [Hlo Hhi]]. unfold WatchdogEnabled. rewrite Hu.
  assert (Hus : usec * microsecond < 2 ^ 63) by (unfold microsecond in *; div_lia).
  rewrite bool_decide_false by (apply pretty_nonempty; lia).
  rewrite (ParseInt_pretty 64) by (unfold microsecond in *; cbn in *; lia).
  assert (Hi : i64 (usec * microsecond) = usec * microsecond) by (apply i64_small; unfold is_i64, microsecond in *; lia).
  destruct Hp as [-> | ->].
  - cbn. by rewrite Hi.
  - rewrite bool_decide_false by (apply pretty_nonempty; lia). unfold Atoi. rewrite (ParseInt_pretty 64) by (cbn in *; lia).
    by rewrite Z.eqb_refl, Hi.
Qed.

Lemma watchdog_loop_within env ti tick ticks :
  0 < ti -> pe_getenv env "NOTIFY_SOCKET" <> ""%string ->
  Forall (fun ds : Z * NotifySys => 0 <= ds.1 <= ti /\ (forall a, ns_dial ds.2 a = true) /\ ns_write ds.2 = true) ticks ->
  within (2 * ti) (tick - ti) (watchdog_loop env ti tick ticks) /\
  (forall x, x ∈ watchdog_loop env ti tick ticks -> tick <= x) /\
  length (watchdog_loop env ti tick ticks) = length ticks.
Proof.
  intros Hti Hs. revert tick. induction ticks as [|[delay sys] ticks IH]; intros tick Hf.
  { split_and!; [done|by intros x ?%not_elem_of_nil|done]. }
  apply Forall_cons in Hf as [(Hd & Hdial & Hw) Hf]. cbn in Hd, Hdial, Hw.
  destruct (IH (tick + ti) Hf) as (H1 & H2 & H3). cbn [watchdog_loop]. unfold Notify.
  rewrite bool_decide_false by done. rewrite Hdial, Hw. cbn [negb within length]. split_and!; [lia|lia| |..].
  - apply (within_weaken _ (tick + ti - ti)); [done| |lia]. intros x Hx%H2. lia.
  - intros x [->|Hx%H2]%elem_of_cons; lia.
  - by rewrite H3.
Qed.

(** Under a service manager that expects a sign of life every [usec] microseconds,
    with a working socket and no tick served later than its successor is due, the
    loop sends one keepalive per tick, never more than [usec] after the last. *)
Theorem keepalives_in_time (usec : Z) (env : ProcessEnv) (start : Z) (ticks : list (Z * NotifySys))
    (H : watched_by usec env)
    (Ht : Forall (fun ds : Z * NotifySys =>
            0 <= ds.1 <= usec * 500 /\ (forall a, ns_dial ds.2 a = true) /\ ns_write ds.2 = true) ticks) :
  exists sent, runWatchdog env start ticks = Ok sent /\ length sent = length ticks /\
    within (usec * microsecond) start sent.
Proof.
  unfold runWatchdog. rewrite (WatchdogEnabled_watched usec env H). pose proof (wb_range _ _ H).
  rewrite (proj2 (Z.eqb_neq _ _)) by (unfold microsecond; lia).
  assert (Hq : Z.quot (usec * microsecond) 2 = usec * 500).
  { replace (usec * microsecond) with (usec * 500 * 2) by (unfold microsecond; lia). by rewrite Z.quot_mul. }
  rewrite Hq, (proj2 (Z.leb_gt _ _)) by lia.
  destruct (watchdog_loop_within env (usec * 500) (start + usec * 500) ticks ltac:(lia) (wb_socket _ _ H) Ht) as (H1 & _ & H3).
  eexists. split; [reflexivity|]. split; [done|].
  replace (usec * microsecond) with (2 * (usec * 500)) by (unfold microsecond; lia).
  by replace (start + usec * 500 - usec * 500) with start in H1 by lia.
Qed.

(** Ten milliseconds of patience, three ticks. *)
Definition watched_env (usec : string) : ProcessEnv :=
  mkProcessEnv (fun v => if bool_decide (v = "WATCHDOG_USEC"%string) then usec
                         else if bool_decide (v = "NOTIFY_SOCKET"%string) then "@notify"%string else ""%string) 17.

Lemma keepalives_in_time_witness :
  runWatchdog (watched_env "10000") 0 [(0, mkNotifySys (fun _ => true) true); (300, mkNotifySys (fun _ => true) true)] =
    Ok [5000000; 10000300] /\ within 10000000 0 [5000000; 10000300].
Proof.
  destruct (keepalives_in_time 10000 (watched_env "10000") 0
    [(0, mkNotifySys (fun _ => true) true); (300, mkNotifySys (fun _ => true) true)]) as (sent & E & _ & Hw).
  - constructor; [vm_compute; reflexivity|left; reflexivity|cbn; lia|vm_compute; discriminate|vm_compute; split; [discriminate|reflexivity]].
  - rewrite !Forall_cons, Forall_nil. cbn. split_and!; done || lia.
  - assert (Hs : sent = [5000000; 10000300]) by (vm_compute in E; by injection E as <-). subst sent. split; [exact E|exact Hw].
Defined.

(** A negative interval, or one that overflows, stops the daemon. *)
Example watchdog_panics :
  runWatchdog (watched_env "-1") 0 [] = Panic /\ runWatchdog (watched_env "9223372036854776") 0 [] = Panic /\
  runWatchdog (watched_env "no") 0 [] = Ok [].
Proof. vm_compute. repeat split; reflexivity. Qed.
