(* ===== verification/VulnAudit.v ===== *)
(** * The vulnerability audit ([scripts/vuln-audit.go])

    The build tool that runs two scanners and fails when they report a vulnerability
    that is not on the list of allowed ones, or whose entry there has expired.  The
    scanners and the decoding of their JSON output are inputs; the model starts at the
    decoded values. *)

From stdpp Require Import strings gmap sorting pretty.
From Stdlib Require Import Ascii OrdersEx.
From S2P Require Import Prelude Netip NetipParse Strconv.

Local Open Scope Z_scope.

(** ** Data *)

Record allowEntry := mkAllowEntry {
  al_Package : string;
  al_Owner : string;
  al_Expires : string;
  al_Reason : string;
  al_Mitigation : string;
}.

Definition allowlist : gmap string allowEntry :=
  {["GO-2026-4736"%string :=
    {| al_Package := "github.com/osrg/gobgp/v3"; al_Owner := "maintainers"; al_Expires := "2026-07-31";
       al_Reason := "GoBGP NEXT_HOP DoS advisory has no fixed version.";
       al_Mitigation := "Keep GoBGP integration on localhost or a trusted management network until upstream ships a fix." |}]}.

Record finding := mkFinding {
  fi_Scanner : string;
  fi_ID : string;
  fi_Package : string;
  fi_Version : string;
  fi_Source : string;
}.

(** A message of govulncheck with a finding. *)
Record trace_frame := mkTraceFrame { tf_Module : string; tf_Package : string; tf_Function : string }.
Record govuln_finding := mkGovulnFinding { gv_OSV : string; gv_Trace : list trace_frame }.

(** A package in the report of osv-scanner. *)
Record osv_package := mkOsvPackage {
  op_Name : string;
  op_Version : string;
  op_Groups : list (list string);
  op_Vulnerabilities : list string;
}.
Record osv_result := mkOsvResult { or_Path : string; or_Packages : list osv_package }.

(** What the decoder yields: the messages up to the end of the output or up to text
    that is no JSON. *)
Record govuln_output := mkGovulnOutput { go_Messages : list (option govuln_finding); go_Malformed : bool }.
Inductive osv_output := OsvEmpty | OsvMalformed | OsvReport (results : list osv_result).

(** The result of a scanner's process: whether it ended with an error, its exit code,
    whether it was stopped for taking too long. *)
Record commandResult := mkCommandResult { cr_Err : bool; cr_Code : Z; cr_TimedOut : bool }.

(** ** Keys and order *)

Definition nul : string := String zero EmptyString.

Definition govuln_key (item : finding) : string :=
  fi_Scanner item +:+ nul +:+ fi_ID item +:+ nul +:+ fi_Package item +:+ nul +:+ fi_Source item.

Definition osv_key (item : finding) : string :=
  fi_Scanner item +:+ nul +:+ fi_ID item +:+ nul +:+ fi_Package item +:+ nul +:+ fi_Version item +:+ nul +:+ fi_Source item.

(** The order of [sort.Strings]: by bytes. *)
Definition str_le (a b : string) : Prop := String.leb a b = true.

#[export] Instance str_le_dec a b : Decision (str_le a b).
Proof. unfold str_le. apply _. Defined.

Definition sort_strings (l : list string) : list string := merge_sort str_le l.

(** [ord]: the iteration of the map. *)
Definition sortedFindings (ord : list string -> list string) (items : gmap string finding) : list finding :=
  omap (items !!.) (sort_strings (ord (map_to_list items).*1)).

(** ** The scanners' output *)

Definition govuln_item (f : govuln_finding) : finding :=
  let '(pkg, src) :=
    match gv_Trace f with
    | [] => (""%string, ""%string)
    | t :: _ => (if bool_decide (tf_Package t = "") then tf_Module t else tf_Package t, tf_Function t)
    end in
  {| fi_Scanner := "govulncheck"; fi_ID := gv_OSV f; fi_Package := pkg; fi_Version := ""; fi_Source := src |}.

Definition add_govuln (seen : gmap string finding) (message : option govuln_finding) : gmap string finding :=
  match message with
  | Some f => if bool_decide (gv_OSV f = "") then seen else <[govuln_key (govuln_item f) := govuln_item f]> seen
  | None => seen
  end.

(** [None]: the output is malformed. *)
Definition parseGovulncheck (ord : list string -> list string) (out : govuln_output) : option (list finding) :=
  if go_Malformed out then None
  else Some (sortedFindings ord (fold_left add_govuln (go_Messages out) ∅)).

Definition addOSVFinding (pkg : osv_package) (source : string) (seen : gmap string finding) (id : string) : gmap string finding :=
  if bool_decide (id = "") then seen else
  let item := {| fi_Scanner := "osv-scanner"; fi_ID := id; fi_Package := op_Name pkg; fi_Version := op_Version pkg;
                 fi_Source := source |} in
  <[osv_key item := item]> seen.

Definition add_package (source : string) (seen : gmap string finding) (pkg : osv_package) : gmap string finding :=
  let seen := fold_left (fun seen ids => fold_left (addOSVFinding pkg source) ids seen) (op_Groups pkg) seen in
  fold_left (addOSVFinding pkg source) (op_Vulnerabilities pkg) seen.

Definition parseOSVScanner (ord : list string -> list string) (out : osv_output) : option (list finding) :=
  match out with
  | OsvEmpty => Some []
  | OsvMalformed => None
  | OsvReport results =>
      Some (sortedFindings ord (fold_left (fun seen r => fold_left (add_package (or_Path r)) (or_Packages r) seen) results ∅))
  end.

(** ** Dates ([time.Parse] and [Format] with [time.DateOnly]) *)

Record date := mkDate { da_year : Z; da_month : Z; da_day : Z }.

Definition leap (y : Z) : bool := (y mod 4 =? 0) && (negb (y mod 100 =? 0) || (y mod 400 =? 0)).

Definition daysIn (m y : Z) : Z :=
  if m =? 2 then if leap y then 29 else 28
  else if bool_decide (m ∈ [4; 6; 9; 11]) then 30 else 31.

Definition digits_of (l : chars) : option Z := atoi 0 l.

Definition ParseDateOnly (s : string) : option date :=
  match chars_of s with
  | [y1; y2; y3; y4; m1; a; b; m2; c; d] =>
      if negb (is_char m1 "-" && is_char m2 "-") then None else
      year ← digits_of [y1; y2; y3; y4];
      month ← digits_of [a; b];
      if (month <=? 0) || (12 <? month) then None else
      day ← digits_of [c; d];
      if (day <? 1) || (daysIn month year <? day) then None else Some (mkDate year month day)
  | _ => None
  end.

(** The year has at least four digits, month and day have two. *)
Definition pad (n : nat) (z : Z) : string :=
  let s := pretty z in String.string_of_list_ascii (replicate (n - String.length s) "0"%char) +:+ s.

Definition FormatDateOnly (d : date) : string := pad 4 (da_year d) +:+ "-" +:+ pad 2 (da_month d) +:+ "-" +:+ pad 2 (da_day d).

(** The order of days. *)
Definition date_num (d : date) : Z := (da_year d * 12 + da_month d) * 31 + da_day d.

Definition date_after (a b : date) : bool := date_num b <? date_num a.

(** ** The list of allowed vulnerabilities *)

Inductive audit_error :=
| ErrAllowEntryIncomplete (id : string)
| ErrInvalidExpiry (id expires : string)
| ErrCurrentDate
| ErrAllowEntryExpired (id expires : string).

Definition validateAllowEntry (id : string) (entry : allowEntry) (now : date) : go audit_error unit :=
  if bool_decide (al_Package entry = "") || bool_decide (al_Owner entry = "") || bool_decide (al_Reason entry = "")
     || bool_decide (al_Mitigation entry = "")
  then Err (ErrAllowEntryIncomplete id) else
  match ParseDateOnly (al_Expires entry) with
  | None => Err (ErrInvalidExpiry id (al_Expires entry))
  | Some expiry =>
      match ParseDateOnly (FormatDateOnly now) with
      | None => Err ErrCurrentDate
      | Some today => if date_after today expiry then Err (ErrAllowEntryExpired id (al_Expires entry)) else Ok tt
      end
  end.

(** Findings by their id; [append] to the list of the id. *)
Local Notation groups := (gmap string (list finding)).

Definition append (item : finding) (m : groups) : groups := <[fi_ID item := default [] (m !! fi_ID item) ++ [item]]> m.

Fixpoint classify (entries : gmap string allowEntry) (now : date) (findings : list finding)
    (allowed unallowed : groups) (failures : list audit_error) : groups * groups * list audit_error :=
  match findings with
  | [] => (allowed, unallowed, failures)
  | item :: rest =>
      match entries !! fi_ID item with
      | None => classify entries now rest allowed (append item unallowed) failures
      | Some entry =>
          match validateAllowEntry (fi_ID item) entry now with
          | Err e => classify entries now rest allowed unallowed (failures ++ [e])
          | _ => classify entries now rest (append item allowed) unallowed failures
          end
      end
  end.

Definition classifyFindings (findings : list finding) (entries : gmap string allowEntry) (now : date) :=
  classify entries now findings ∅ ∅ [].

Definition sortedIDs (ord : list string -> list string) (m : groups) : list string := sort_strings (ord (map_to_list m).*1).

(** ** The verdict *)

(** What is printed. *)
Inductive line :=
| LineAllowed (id : string) (entry : allowEntry) (items : list finding)
| LineUnallowed (id : string) (items : list finding)
| LineEntryError (e : audit_error)
| LineParseFailed (scanner : string)
| LineTimedOut (scanner : string)
| LineScannerFailed (scanner : string) (code : Z)
| LineNone
| LineNoUnallowed.

(** Exit code and output. *)
Definition report (ord : list string -> list string) (findings : list finding) (now : date) : Z * list line :=
  let '(allowed, unallowed, failures) := classifyFindings findings allowlist now in
  let shown := (fun id => LineAllowed id (default (mkAllowEntry "" "" "" "" "") (allowlist !! id)) (default [] (allowed !! id)))
               <$> sortedIDs ord allowed in
  if negb (bool_decide (failures = [])) then (2, shown ++ (LineEntryError <$> failures)) else
  if negb (bool_decide (size unallowed = 0%nat)) then
    (1, shown ++ ((fun id => LineUnallowed id (default [] (unallowed !! id))) <$> sortedIDs ord unallowed)) else
  (0, shown ++ [if bool_decide (size allowed = 0%nat) then LineNone else LineNoUnallowed]).

Definition scanner_failures (name : string) (findings : option (list finding)) (cmd : commandResult) : list line :=
  (match findings with None => [LineParseFailed name] | Some _ => [] end) ++
  (if cr_TimedOut cmd then [LineTimedOut name] else []) ++
  (if cr_Err cmd && bool_decide (default [] findings = []) then [LineScannerFailed name (cr_Code cmd)] else []).

Definition audit_main (ord : list string -> list string) (govuln osv : commandResult) (govuln_out : govuln_output)
    (osv_out : osv_output) (now : date) : Z * list line :=
  let govulnFindings := parseGovulncheck ord govuln_out in
  let osvFindings := parseOSVScanner ord osv_out in
  let failures := scanner_failures "govulncheck" govulnFindings govuln ++ scanner_failures "osv-scanner" osvFindings osv in
  if negb (bool_decide (failures = [])) then (2, failures)
  else report ord (default [] govulnFindings ++ default [] osvFindings) now.

Definition audit_today : date := mkDate 2026 7 31.

Example audit_examples :
  let ok := mkCommandResult false 0 false in
  let gobgp := mkGovulnFinding "GO-2026-4736" [mkTraceFrame "github.com/osrg/gobgp/v3" "" "Serve"] in
  (audit_main id ok ok (mkGovulnOutput [] false) OsvEmpty audit_today).1 = 0 /\
  (audit_main id ok ok (mkGovulnOutput [None; Some gobgp] false) OsvEmpty audit_today).1 = 0 /\
  (audit_main id ok ok (mkGovulnOutput [Some gobgp] false) OsvEmpty (mkDate 2026 8 1)).1 = 2 /\
  (audit_main id ok ok (mkGovulnOutput [Some (mkGovulnFinding "GO-1" [])] false) OsvEmpty audit_today).1 = 1 /\
  (audit_main id ok ok (mkGovulnOutput [] true) OsvEmpty audit_today).1 = 2 /\
  (audit_main id (mkCommandResult true 1 false) ok (mkGovulnOutput [] false) OsvEmpty audit_today).1 = 2.
Proof. vm_compute. repeat split; reflexivity. Qed.

(** ** Order *)

#[local] Instance str_le_total : Total str_le.
Proof. intros a b. apply String.leb_total. Qed.

#[local] Instance str_le_antisymm : AntiSymm (=) str_le.
Proof. intros a b. apply String.leb_antisym. Qed.

#[local] Instance str_le_trans : Transitive str_le.
Proof.
  intros a b c. unfold str_le, String.leb.
  destruct (String.compare a b) eqn:E1; [apply String.compare_eq_iff in E1 as ->; done| |done].
  destruct (String.compare b c) eqn:E2; [apply String.compare_eq_iff in E2 as ->; by rewrite E1| |done].
  assert (H : String_as_OT.lt a c) by (by transitivity b). change (String.compare a c = Lt) in H. by rewrite H.
Qed.

Lemma sort_strings_perm l l' : l ≡ₚ l' -> sort_strings l = sort_strings l'.
Proof.
  intros P. unfold sort_strings. apply (Sorted_unique str_le); [apply (Sorted_merge_sort str_le)..|].
  by rewrite !merge_sort_Permutation.
Qed.

Lemma elem_of_sorted (ord : list string -> list string) {A} (m : gmap string A) k : (forall l, ord l ≡ₚ l) ->
  k ∈ sort_strings (ord (map_to_list m).*1) <-> is_Some (m !! k).
Proof.
  intros Ho. unfold sort_strings. rewrite merge_sort_Permutation, Ho, list_elem_of_fmap. split.
  - intros ([k' x] & -> & H%elem_of_map_to_list). by exists x.
  - intros [x H]. exists (k, x). by rewrite elem_of_map_to_list.
Qed.

Lemma elem_of_sortedFindings ord m it : (forall l, ord l ≡ₚ l) -> it ∈ sortedFindings ord m <-> exists k, m !! k = Some it.
Proof.
  intros Ho. unfold sortedFindings. rewrite list_elem_of_omap. split.
  - intros (k & _ & H). by exists k.
  - intros [k H]. exists k. by rewrite (elem_of_sorted ord m k Ho), H.
Qed.

Lemma sortedFindings_ord ord m : (forall l, ord l ≡ₚ l) -> sortedFindings ord m = sortedFindings id m.
Proof. intros Ho. unfold sortedFindings. by rewrite (sort_strings_perm (ord _) _ (Ho _)). Qed.

Lemma sortedIDs_ord ord m : (forall l, ord l ≡ₚ l) -> sortedIDs ord m = sortedIDs id m.
Proof. intros Ho. apply sort_strings_perm, Ho. Qed.

(** ** What the scanners report *)

Definition govuln_items (out : govuln_output) : list finding :=
  govuln_item <$> filter (fun f => gv_OSV f <> ""%string) (omap id (go_Messages out)).

Definition osv_item (pkg : osv_package) (source id : string) : finding :=
  {| fi_Scanner := "osv-scanner"; fi_ID := id; fi_Package := op_Name pkg; fi_Version := op_Version pkg; fi_Source := source |}.

Definition package_items (source : string) (pkg : osv_package) : list finding :=
  osv_item pkg source <$> filter (.≠ ""%string) (mjoin (op_Groups pkg) ++ op_Vulnerabilities pkg).

Definition osv_items (out : osv_output) : list finding :=
  match out with
  | OsvReport results => results ≫= fun r => or_Packages r ≫= package_items (or_Path r)
  | _ => []
  end.

Definition insert_all (key : finding -> string) (items : list finding) (m : gmap string finding) : gmap string finding :=
  fold_left (fun m it => <[key it := it]> m) items m.

Lemma insert_all_app key l1 l2 m : insert_all key (l1 ++ l2) m = insert_all key l2 (insert_all key l1 m).
Proof. apply fold_left_app. Qed.

Lemma fold_insert_all {A} key (step : gmap string finding -> A -> gmap string finding) (items : A -> list finding) l m :
  (forall m x, step m x = insert_all key (items x) m) -> fold_left step l m = insert_all key (l ≫= items) m.
Proof. intros H. revert m. induction l as [|x l IH]; intros m; [done|]. cbn [fold_left]. by rewrite IH, H, bind_cons, insert_all_app. Qed.

Lemma govuln_fold l m :
  fold_left add_govuln l m = insert_all govuln_key (govuln_item <$> filter (fun f => gv_OSV f <> ""%string) (omap id l)) m.
Proof.
  revert m. induction l as [|[f|] l IH]; intros m; [done| |apply IH]. cbn [fold_left]. rewrite IH.
  change (omap id (Some f :: l)) with (f :: omap id l). unfold add_govuln.
  destruct (decide (gv_OSV f = "")) as [E|E].
  - rewrite bool_decide_true by done. by rewrite filter_cons_False by (by intros []).
  - rewrite bool_decide_false by done. by rewrite filter_cons_True by done.
Qed.

Lemma ids_fold pkg source l m :
  fold_left (addOSVFinding pkg source) l m = insert_all osv_key (osv_item pkg source <$> filter (.≠ ""%string) l) m.
Proof.
  revert m. induction l as [|x l IH]; intros m; [done|]. cbn [fold_left]. rewrite IH. unfold addOSVFinding.
  destruct (decide (x = "")) as [E|E].
  - rewrite bool_decide_true by done. by rewrite filter_cons_False by (by intros []).
  - rewrite bool_decide_false by done. by rewrite filter_cons_True by done.
Qed.

Lemma package_fold source m pkg : add_package source m pkg = insert_all osv_key (package_items source pkg) m.
Proof.
  unfold add_package, package_items. rewrite filter_app, fmap_app, insert_all_app, ids_fold. f_equal.
  rewrite (fold_insert_all osv_key _ (fun ids => osv_item pkg source <$> filter (.≠ ""%string) ids)) by (intros; apply ids_fold).
  f_equal. induction (op_Groups pkg) as [|g gs IH]; [done|]. cbn. by rewrite filter_app, fmap_app, IH.
Qed.

Lemma insert_all_from key items k it : insert_all key items ∅ !! k = Some it -> it ∈ items /\ key it = k.
Proof.
  induction items as [|x items IH] using rev_ind; [intros H; cbn in H; by rewrite lookup_empty in H|]. rewrite insert_all_app. cbn.
  intros [[<- <-]|[Hne H]]%lookup_insert_Some; [set_solver|]. apply IH in H. set_solver.
Qed.

Lemma insert_all_covers key items it : it ∈ items -> is_Some (insert_all key items ∅ !! key it).
Proof.
  induction items as [|x items IH] using rev_ind; [by intros ?%not_elem_of_nil|]. rewrite insert_all_app. cbn.
  intros H. apply lookup_insert_is_Some'. apply elem_of_app in H as [H| ->%list_elem_of_singleton]; [right; by apply IH|by left].
Qed.

(** The separator of the keys does not occur in the ids. *)
Definition nul_free (s : string) : Prop := zero ∉ chars_of s.

Definition ids_ok (items : list finding) : Prop := forall it, it ∈ items -> nul_free (fi_ID it).

Lemma key_id scanner a b s t : nul_free scanner -> nul_free a -> nul_free b ->
  (scanner +:+ nul +:+ a +:+ nul +:+ s = scanner +:+ nul +:+ b +:+ nul +:+ t)%string -> a = b.
Proof.
  intros Hs Ha Hb E. apply (f_equal chars_of) in E. rewrite !chars_app in E.
  apply (app_sep_inj zero) in E as [_ E]; [|done..]. apply (app_sep_inj zero) in E as [E _]; [by apply chars_inj|done..].
Qed.

(** The ids of the findings are those of the reported items. *)
Definition same_ids (l1 l2 : list finding) : Prop :=
  forall i, (exists it, it ∈ l1 /\ fi_ID it = i) <-> (exists it, it ∈ l2 /\ fi_ID it = i).

Lemma same_ids_nil l1 l2 : same_ids l1 l2 -> l1 = [] <-> l2 = [].
Proof.
  intros H. split; intros ->.
  - destruct l2 as [|x l]; [done|]. destruct (proj2 (H (fi_ID x))) as (? & ?%not_elem_of_nil & _); [|done]. exists x. split; [left|done].
  - destruct l1 as [|x l]; [done|]. destruct (proj1 (H (fi_ID x))) as (? & ?%not_elem_of_nil & _); [|done]. exists x. split; [left|done].
Qed.

Lemma sorted_ids ord key items : (forall l, ord l ≡ₚ l) ->
  (forall a b, a ∈ items -> b ∈ items -> key a = key b -> fi_ID a = fi_ID b) ->
  same_ids (sortedFindings ord (insert_all key items ∅)) items.
Proof.
  intros Ho Hk i. split.
  - intros (it & (k & H)%(elem_of_sortedFindings ord _ _ Ho) & <-). apply insert_all_from in H as [H _]. by exists it.
  - intros (it & H & <-). destruct (insert_all_covers key items it H) as [it' H']. pose proof (insert_all_from _ _ _ _ H') as [Hin E].
    exists it'. split; [apply elem_of_sortedFindings; eauto|]. by apply Hk.
Qed.

Lemma govuln_scanner it out : it ∈ govuln_items out -> fi_Scanner it = "govulncheck"%string.
Proof. intros (f & -> & _)%list_elem_of_fmap. unfold govuln_item. by destruct (gv_Trace f). Qed.

Lemma osv_scanner it out : it ∈ osv_items out -> fi_Scanner it = "osv-scanner"%string.
Proof.
  destruct out as [| |rs]; [by intros ?%not_elem_of_nil..|]. intros (r & H & _)%list_elem_of_bind.
  apply list_elem_of_bind in H as (p & H & _). by apply list_elem_of_fmap in H as (x & -> & _).
Qed.

Lemma parseGovulncheck_ids ord out : (forall l, ord l ≡ₚ l) -> ids_ok (govuln_items out) ->
  match parseGovulncheck ord out with
  | None => go_Malformed out = true
  | Some l => go_Malformed out = false /\ same_ids l (govuln_items out)
  end.
Proof.
  intros Ho Hid. unfold parseGovulncheck. destruct (go_Malformed out); [done|]. split; [done|]. rewrite govuln_fold.
  apply sorted_ids; [done|]. intros a b Ha Hb. unfold govuln_key. rewrite (govuln_scanner a out Ha), (govuln_scanner b out Hb).
  apply key_id; [vm_compute; set_solver|by apply Hid..].
Qed.

Lemma parseOSVScanner_ids ord out : (forall l, ord l ≡ₚ l) -> ids_ok (osv_items out) ->
  match parseOSVScanner ord out with
  | None => out = OsvMalformed
  | Some l => out <> OsvMalformed /\ same_ids l (osv_items out)
  end.
Proof.
  intros Ho Hid. destruct out as [| |rs]; cbn [parseOSVScanner]; [by split|done|]. split; [done|].
  rewrite (fold_insert_all osv_key _ (fun r => or_Packages r ≫= package_items (or_Path r)))
    by (intros; by apply fold_insert_all, package_fold).
  apply sorted_ids; [done|]. intros a b Ha Hb. unfold osv_key.
  rewrite (osv_scanner a (OsvReport rs) Ha), (osv_scanner b (OsvReport rs) Hb).
  apply key_id; [vm_compute; set_solver|by apply Hid..].
Qed.

(** ** Days *)

Definition date_ok (d : date) : Prop :=
  0 <= da_year d <= 9999 /\ 1 <= da_month d <= 12 /\ 1 <= da_day d <= daysIn (da_month d) (da_year d).

Lemma pretty_go_length k : forall x s, (x < 10 ^ N.of_nat k)%N -> (String.length (pretty_N_go x s) <= k + String.length s)%nat.
Proof.
  induction k as [|k IH]; intros x s Hx.
  - assert (x = 0)%N as -> by (cbn in Hx; lia). by rewrite pretty_N_go_0.
  - destruct (decide (x = 0)%N) as [->|Hne]; [rewrite pretty_N_go_0; lia|]. rewrite pretty_N_go_step by lia.
    etransitivity; [apply IH|cbn; lia]. apply N.Div0.div_lt_upper_bound. by rewrite Nat2N.inj_succ, N.pow_succ_r' in Hx.
Qed.

Lemma pretty_length n z : 0 <= z < 10 ^ Z.of_nat n -> (0 < n)%nat -> (String.length (pretty z) <= n)%nat.
Proof.
  intros Hz Hn. destruct z as [|p|p]; [cbn; lia| |lia]. change (pretty (Z.pos p)) with (pretty (N.pos p)).
  unfold pretty, pretty_N. rewrite decide_False by done. etransitivity; [apply (pretty_go_length n)|cbn; lia].
  apply N2Z.inj_lt. rewrite N2Z.inj_pow, nat_N_Z. apply Hz.
Qed.

Lemma chars_length s : length (chars_of s) = String.length s.
Proof. induction s as [|c s IH]; [done|]. cbn. by rewrite <- IH. Qed.

Lemma atoi_zeros k l : atoi 0 (replicate k "0"%char ++ l) = atoi 0 l.
Proof. induction k as [|k IH]; [done|]. exact IH. Qed.

Lemma padded n z : 0 <= z < 10 ^ Z.of_nat n -> (0 < n)%nat ->
  length (chars_of (pad n z)) = n /\ digits_of (chars_of (pad n z)) = Some z.
Proof.
  intros Hz Hn. pose proof (pretty_length n z Hz Hn). unfold pad, digits_of. rewrite chars_app.
  unfold chars_of at 1 3. rewrite String.list_ascii_of_string_of_list_ascii. split.
  - rewrite length_app, length_replicate, chars_length. lia.
  - rewrite atoi_zeros. apply atoi_pretty. lia.
Qed.

Lemma daysIn_range m y : 28 <= daysIn m y <= 31.
Proof. unfold daysIn. repeat case_match; lia. Qed.

Lemma ParseDateOnly_Format d : date_ok d -> ParseDateOnly (FormatDateOnly d) = Some d.
Proof.
  intros (Hy & Hm & Hd). pose proof (daysIn_range (da_month d) (da_year d)).
  destruct (padded 4 (da_year d) ltac:(cbn; lia) ltac:(lia)) as [Ly Ey], (padded 2 (da_month d) ltac:(cbn; lia) ltac:(lia)) as [Lm Em],
    (padded 2 (da_day d) ltac:(cbn; lia) ltac:(lia)) as [Ld Ed]. unfold ParseDateOnly, FormatDateOnly. rewrite !chars_app.
  destruct (chars_of (pad 4 (da_year d))) as [|y1 [|y2 [|y3 [|y4 [|]]]]]; try done.
  destruct (chars_of (pad 2 (da_month d))) as [|m1 [|m2 [|]]]; try done.
  destruct (chars_of (pad 2 (da_day d))) as [|d1 [|d2 [|]]]; try done.
  cbn -[digits_of]. rewrite Ey, Em, Ed. cbn [mbind option_bind].
  rewrite (proj2 (orb_false_iff _ _)) by lia. rewrite (proj2 (orb_false_iff _ _)) by lia. by destruct d.
Qed.

(** An entry covers a day: it is complete and the day is not after its date. *)
Definition covers (entry : allowEntry) (now : date) : Prop :=
  al_Package entry <> ""%string /\ al_Owner entry <> ""%string /\ al_Reason entry <> ""%string /\ al_Mitigation entry <> ""%string /\
  exists expiry, ParseDateOnly (al_Expires entry) = Some expiry /\ date_num now <= date_num expiry.

Lemma validateAllowEntry_covers i entry now : date_ok now ->
  match validateAllowEntry i entry now with
  | Ok _ => covers entry now
  | Err _ => ~ covers entry now
  | Panic => False
  end.
Proof.
  intros Hn. unfold validateAllowEntry, covers. rewrite ParseDateOnly_Format by done.
  repeat case_bool_decide; cbn [orb]; try (intros (? & ? & ? & ? & _); done).
  destruct (ParseDateOnly (al_Expires entry)) as [e|]; [|by intros (_ & _ & _ & _ & ? & ? & _)].
  unfold date_after. destruct (Z.ltb_spec (date_num e) (date_num now)); [|by eauto 10].
  intros (_ & _ & _ & _ & e' & [= <-] & ?). lia.
Qed.

(** ** The classification *)

Lemma append_not_empty item (m : gmap string (list finding)) : append item m <> ∅.
Proof. apply insert_non_empty. Qed.

Lemma classify_spec entries now l : date_ok now -> forall a u f,
  let '(a', u', f') := classify entries now l a u f in
  (f' = [] <-> f = [] /\ forall it e, it ∈ l -> entries !! fi_ID it = Some e -> covers e now) /\
  (u' = ∅ <-> u = ∅ /\ forall it, it ∈ l -> is_Some (entries !! fi_ID it)).
Proof.
  intros Hn. induction l as [|it l IH]; intros a u f; cbn [classify].
  { split; (split; [intros ->; split; [done|by intros ? ?%not_elem_of_nil || by intros ? ? ?%not_elem_of_nil]|by intros []]). }
  assert (Hf : forall P : finding -> Prop, (forall x, x ∈ it :: l -> P x) <-> P it /\ forall x, x ∈ l -> P x).
  { intros P. split; [intros H; split; [apply H; left|intros; apply H; by right]|]. intros [H1 H2] x [->|?]%elem_of_cons; auto. }
  destruct (entries !! fi_ID it) as [e|] eqn:Ee.
  - pose proof (validateAllowEntry_covers (fi_ID it) e now Hn) as Hv. destruct (validateAllowEntry _ _ _) as [[]|er|]; [| |done].
    + specialize (IH (append it a) u f). destruct (classify _ _ _ _ _ _) as [[a' u'] f']. destruct IH as [IH1 IH2]. split.
      * rewrite IH1. split; intros [-> H]; (split; [done|]).
        -- intros x e' [->|Hx]%elem_of_cons; [by rewrite Ee; intros [= <-]|by apply H].
        -- intros x e' Hx. apply H. by right.
      * rewrite IH2, (Hf (fun x => is_Some (entries !! fi_ID x))), Ee. naive_solver.
    + specialize (IH a u (f ++ [er])). destruct (classify _ _ _ _ _ _) as [[a' u'] f']. destruct IH as [IH1 IH2]. split.
      * rewrite IH1. split; [intros [H _]; by apply app_eq_nil in H as []|]. intros [_ H]. destruct Hv. apply (H it e); [left|done].
      * rewrite IH2, (Hf (fun x => is_Some (entries !! fi_ID x))), Ee. naive_solver.
  - specialize (IH a (append it u) f). destruct (classify _ _ _ _ _ _) as [[a' u'] f']. destruct IH as [IH1 IH2]. split.
    + rewrite IH1. split; intros [-> H]; (split; [done|]).
      * intros x e' [->|Hx]%elem_of_cons; [by rewrite Ee|by apply H].
      * intros x e' Hx. apply H. by right.
    + rewrite IH2. split; [intros [H _]; by apply append_not_empty in H|]. intros [_ H]. destruct (H it) as [? ?]; [left|congruence].
Qed.

(** ** The verdict *)

(** A scanner that ran to its end: one that reports an error has found something. *)
Definition ran (cmd : commandResult) (items : list finding) : Prop :=
  cr_TimedOut cmd = false /\ (cr_Err cmd = true -> items <> []).

Lemma scanner_failures_none name findings cmd items :
  match findings with Some l => same_ids l items | None => True end ->
  scanner_failures name findings cmd = [] <-> is_Some findings /\ ran cmd items.
Proof.
  intros Hs. unfold scanner_failures, ran. destruct findings as [l|]; cbn [default]; [|split; [done|by intros [[? ?] _]]].
  cbn [app]. pose proof (same_ids_nil _ _ Hs) as Hn. destruct (cr_TimedOut cmd); [split; [done|by intros (_ & ? & _)]|].
  cbn [app]. destruct (cr_Err cmd); cbn [andb]; [|naive_solver]. case_bool_decide; naive_solver.
Qed.

(** The entries of the list that the findings need are current; every finding is listed. *)
Definition all_current (now : date) (l : list finding) : Prop :=
  forall it e, it ∈ l -> allowlist !! fi_ID it = Some e -> covers e now.
Definition all_listed (l : list finding) : Prop := forall it, it ∈ l -> is_Some (allowlist !! fi_ID it).

Lemma report_spec ord l now : (forall l, ord l ≡ₚ l) -> date_ok now ->
  report ord l now = report id l now /\
  ((report ord l now).1 = 0 <-> all_current now l /\ all_listed l) /\
  ((report ord l now).1 = 1 <-> all_current now l /\ ~ all_listed l) /\
  0 <= (report ord l now).1 <= 2.
Proof.
  intros Ho Hn. unfold report, classifyFindings. pose proof (classify_spec allowlist now l Hn ∅ ∅ []) as H.
  destruct (classify _ _ _ _ _ _) as [[a u] f]. rewrite !(sortedIDs_ord ord) by done. split; [done|].
  destruct H as [Hf Hu]. fold (all_current now l) in Hf. fold (all_listed l) in Hu.
  assert (Hs : size u = 0%nat <-> u = ∅) by apply map_size_empty_iff.
  destruct (decide (f = [])) as [Ef|Ef]; [rewrite (bool_decide_true (f = [])) by done|rewrite (bool_decide_false (f = [])) by done; cbn; naive_solver lia].
  destruct (decide (size u = 0%nat)) as [Eu|Eu]; [rewrite (bool_decide_true (size u = _)) by done|rewrite (bool_decide_false (size u = _)) by done];
    cbn; naive_solver lia.
Qed.

Lemma same_ids_app a a' b b' : same_ids a a' -> same_ids b b' -> same_ids (a ++ b) (a' ++ b').
Proof. intros Ha Hb i. specialize (Ha i). specialize (Hb i). setoid_rewrite elem_of_app. naive_solver. Qed.

Lemma all_current_ids now a b : same_ids a b -> all_current now a <-> all_current now b.
Proof.
  intros H. split; intros Hc it e Hin; destruct (H (fi_ID it)) as [H1 H2].
  - destruct (H2 ltac:(eauto)) as (it' & ? & <-). by apply Hc.
  - destruct (H1 ltac:(eauto)) as (it' & ? & <-). by apply Hc.
Qed.

Lemma all_listed_ids a b : same_ids a b -> all_listed a <-> all_listed b.
Proof.
  intros H. split; intros Hc it Hin; destruct (H (fi_ID it)) as [H1 H2].
  - destruct (H2 ltac:(eauto)) as (it' & ? & <-). by apply Hc.
  - destruct (H1 ltac:(eauto)) as (it' & ? & <-). by apply Hc.
Qed.

Lemma audit_main_ord ord govuln osv gout oout now : (forall l, ord l ≡ₚ l) -> date_ok now ->
  audit_main ord govuln osv gout oout now = audit_main id govuln osv gout oout now.
Proof.
  intros Ho Hn. unfold audit_main.
  assert (parseGovulncheck ord gout = parseGovulncheck id gout) as ->.
  { unfold parseGovulncheck. by rewrite sortedFindings_ord. }
  assert (parseOSVScanner ord oout = parseOSVScanner id oout) as ->.
  { destruct oout; cbn; [done..|]. by rewrite sortedFindings_ord. }
  destruct (negb _); [done|]. by apply report_spec.
Qed.

(** C39: the verdict of the audit.  It passes exactly if both scanners gave a readable
    report in time, one that ended with an error having found something, and every
    vulnerability they report, under whatever package and path, has a complete entry
    in the list whose date is not past.  It fails with code 1 exactly if the entries
    needed are current but a vulnerability has none, otherwise with code 2.  What is
    printed does not depend on the iteration of maps.  Entries of the list that no
    finding needs are not looked at, expired ones included, against the documentation
    ([unneeded_expired_entry_passes]). *)
Theorem audit_verdict (ord : list string -> list string) (govuln osv : commandResult) (gout : govuln_output)
    (oout : osv_output) (now : date) (Hord : forall l, ord l ≡ₚ l) (Hnow : date_ok now)
    (Hg : ids_ok (govuln_items gout)) (Ho : ids_ok (osv_items oout)) :
  let items := govuln_items gout ++ osv_items oout in
  let scanned := go_Malformed gout = false /\ oout <> OsvMalformed /\ ran govuln (govuln_items gout) /\ ran osv (osv_items oout) in
  let code := (audit_main ord govuln osv gout oout now).1 in
  audit_main ord govuln osv gout oout now = audit_main id govuln osv gout oout now /\
  (code = 0 <-> scanned /\ forall it, it ∈ items -> exists e, allowlist !! fi_ID it = Some e /\ covers e now) /\
  (code = 1 <-> scanned /\ all_current now items /\ ~ all_listed items) /\
  0 <= code <= 2.
Proof.
  intros items scanned code. split; [by apply audit_main_ord|].
  assert (Hall : (forall it, it ∈ items -> exists e, allowlist !! fi_ID it = Some e /\ covers e now) <->
                 all_current now items /\ all_listed items).
  { split; [intros H; split|intros [H1 H2] it Hin].
    - intros it e Hin He. destruct (H it Hin) as (e' & E & ?). congruence.
    - intros it Hin. destruct (H it Hin) as (e & -> & _). eauto.
    - destruct (H2 it Hin) as [e He]. exists e. split; [done|]. by apply (H1 it e). }
  rewrite Hall. clear Hall. unfold code, audit_main.
  pose proof (parseGovulncheck_ids ord gout Hord Hg) as Pg. pose proof (parseOSVScanner_ids ord oout Hord Ho) as Po.
  set (gf := parseGovulncheck ord gout) in *. set (osf := parseOSVScanner ord oout) in *.
  assert (Fg := scanner_failures_none "govulncheck" gf govuln (govuln_items gout) ltac:(by destruct gf; [apply Pg|])).
  assert (Fo := scanner_failures_none "osv-scanner" osf osv (osv_items oout) ltac:(by destruct osf; [apply Po|])).
  assert (Hsc : scanner_failures "govulncheck" gf govuln ++ scanner_failures "osv-scanner" osf osv = [] <-> scanned).
  { rewrite app_nil, Fg, Fo. unfold scanned. generalize (ran govuln (govuln_items gout)) (ran osv (osv_items oout)). intros R1 R2. clear -Pg Po.
    destruct gf, osf; split; intros H; destruct_and?; split_and!; eauto; try (by destruct (is_Some_None (A := list finding))); congruence. }
  clear Fg Fo. case_bool_decide as Hf; cbn [negb].
  - destruct gf as [lg|]; [|by apply Hsc in Hf as (? & _); congruence]. destruct osf as [lo|]; [|by apply Hsc in Hf as (_ & ? & _)].
    cbn [default]. destruct (report_spec ord (lg ++ lo) now Hord Hnow) as (_ & H0 & H1 & H2).
    pose proof (same_ids_app _ _ _ _ (proj2 Pg) (proj2 Po)) as Hs. fold items in Hs.
    rewrite (all_current_ids now _ _ Hs), (all_listed_ids _ _ Hs) in H0, H1. naive_solver.
  - cbn. naive_solver lia.
Qed.

Lemma audit_verdict_witness :
  let gobgp := mkGovulnFinding "GO-2026-4736" [mkTraceFrame "github.com/osrg/gobgp/v3" "" "Serve"] in
  let out := mkGovulnOutput [None; Some gobgp; Some gobgp] false in
  let ok := mkCommandResult false 0 false in
  (audit_main id ok ok out OsvEmpty audit_today).1 = 0 /\
  ~ (audit_main id ok ok out OsvEmpty (mkDate 2026 8 1)).1 = 0.
Proof.
  intros gobgp out ok.
  assert (Hg : ids_ok (govuln_items out)).
  { intros it Hin. cbn in Hin. apply list_elem_of_In in Hin as [<-|[<-|[]]]; vm_compute; set_solver. }
  assert (Ho : ids_ok (osv_items OsvEmpty)) by (intros it Hin; by apply not_elem_of_nil in Hin).
  split.
  - destruct (audit_verdict id ok ok out OsvEmpty audit_today (fun l => reflexivity l) ltac:(vm_compute; repeat split; discriminate) Hg Ho)
      as (_ & [_ H] & _). apply H. split.
    + split; [reflexivity|]. split; [discriminate|]. split; (split; [reflexivity|discriminate]).
    + intros it Hin. cbn in Hin. apply list_elem_of_In in Hin as [<-|[<-|[]]]; eexists; (split; [vm_compute; reflexivity|]);
        (repeat (split; [discriminate|])); eexists; (split; [vm_compute; reflexivity|vm_compute; discriminate]).
  - destruct (audit_verdict id ok ok out OsvEmpty (mkDate 2026 8 1) (fun l => reflexivity l) ltac:(vm_compute; repeat split; discriminate) Hg Ho)
      as (_ & [H _] & _). intros E. destruct (H E) as [_ Hall].
    destruct (Hall (govuln_item gobgp)) as (e & He & Hc); [vm_compute; left|]. vm_compute in He. injection He as <-.
    destruct Hc as (_ & _ & _ & _ & x & Hx & Hle). vm_compute in Hx. injection Hx as <-. vm_compute in Hle. by apply Hle.
Defined.

(** A scanner that stopped with an error in the middle of its report, after a finding
    that is allowed: the audit passes. *)
Example partial_scan_passes :
  let gobgp := mkGovulnFinding "GO-2026-4736" [mkTraceFrame "github.com/osrg/gobgp/v3" "" "Serve"] in
  audit_main id (mkCommandResult true 2 false) (mkCommandResult false 0 false) (mkGovulnOutput [Some gobgp] false) OsvEmpty audit_today
  = (0, [LineAllowed "GO-2026-4736" (default (mkAllowEntry "" "" "" "" "") (allowlist !! "GO-2026-4736"%string))
           [govuln_item gobgp]; LineNoUnallowed]).
Proof. vm_compute. reflexivity. Qed.

(** An expired entry fails the audit when a finding needs it and not otherwise, although
    the documentation says that any expired entry does. *)
Example unneeded_expired_entry_passes :
  let entry := default (mkAllowEntry "" "" "" "" "") (allowlist !! "GO-2026-4736"%string) in
  let ok := mkCommandResult false 0 false in
  let late := mkDate 2030 1 1 in
  ~ covers entry late /\ (audit_main id ok ok (mkGovulnOutput [] false) OsvEmpty late).1 = 0.
Proof.
  split; [|vm_compute; reflexivity]. intros (_ & _ & _ & _ & x & Hx & Hle). vm_compute in Hx. injection Hx as <-.
  vm_compute in Hle. by apply Hle.
Qed.
