(* ===== verification/Flag.v ===== *)
(** * Command lines ([flag] of the standard library, [internal/version])

    Parsing of the arguments of the daemon and of the HAProxy agent, and the text they
    print for [-version]. *)

From stdpp Require Import strings gmap.
From Stdlib Require Import Ascii.
From S2P Require Import Prelude Netip NetipParse.

Local Open Scope Z_scope.

(** ** Version *)

(** The variables that the build may set. *)
Record BuildInfo := mkBuildInfo { bi_Version : string; bi_GitCommit : string; bi_BuildDate : string }.

Definition dev_build : BuildInfo := mkBuildInfo "dev" "unknown" "unknown".

Definition Full (info : BuildInfo) (binary : string) : string :=
  (binary +:+ " " +:+ bi_Version info +:+ String (ascii_of_nat 10)
     ("  commit:  " +:+ bi_GitCommit info +:+ String (ascii_of_nat 10)
        ("  built:   " +:+ bi_BuildDate info)))%string.

(** ** Flags *)

(** [strconv.ParseBool] *)
Definition ParseBool (s : string) : option bool :=
  if bool_decide (s ∈ ["1"; "t"; "T"; "TRUE"; "true"; "True"]%string) then Some true else
  if bool_decide (s ∈ ["0"; "f"; "F"; "FALSE"; "false"; "False"]%string) then Some false else None.

Inductive flag_value := FString (s : string) | FBool (b : bool).

Inductive flag_error := ErrBadSyntax | ErrHelp | ErrNotDefined | ErrNeedsArgument | ErrInvalidBool.

(** The defined flags with their values. *)
Local Notation flags := (gmap string flag_value).

(** The text before the first equals sign, which is not the first character, and the
    one behind it. *)
Fixpoint cut_equals (name : chars) : chars * option chars :=
  match name with
  | [] => ([], None)
  | c :: rest => if is_char c "=" then ([], Some rest) else let '(n, v) := cut_equals rest in (c :: n, v)
  end.

Definition text (s : chars) : string := String.string_of_list_ascii s.

(** One flag: the flags, the remaining arguments and whether there may be more. *)
Definition parseOne (f : flags) (args : list string) : go flag_error (flags * list string * bool) :=
  match args with
  | [] => Ok (f, args, false)
  | arg :: rest =>
      match chars_of arg with
      | m :: c :: s =>
          if negb (is_char m "-") then Ok (f, args, false) else
          if is_char c "-" && bool_decide (s = []) then Ok (f, rest, false) else
          let name := if is_char c "-" then s else c :: s in
          match name with
          | [] => Err ErrBadSyntax
          | n :: _ =>
              if is_char n "-" || is_char n "=" then Err ErrBadSyntax else
              let '(nm, value) := cut_equals name in
              match f !! text nm with
              | None => Err (if bool_decide (text nm = "help"%string \/ text nm = "h"%string) then ErrHelp else ErrNotDefined)
              | Some (FBool _) =>
                  match value with
                  | None => Ok (<[text nm := FBool true]> f, rest, true)
                  | Some v =>
                      match ParseBool (text v) with
                      | Some b => Ok (<[text nm := FBool b]> f, rest, true)
                      | None => Err ErrInvalidBool
                      end
                  end
              | Some (FString _) =>
                  match value, rest with
                  | Some v, _ => Ok (<[text nm := FString (text v)]> f, rest, true)
                  | None, v :: rest => Ok (<[text nm := FString v]> f, rest, true)
                  | None, [] => Err ErrNeedsArgument
                  end
              end
          end
      | _ => Ok (f, args, false)
      end
  end.

(** Every turn that is not the last takes an argument. *)
Fixpoint parse_flags (fuel : nat) (f : flags) (args : list string) : go flag_error (flags * list string) :=
  match fuel with
  | O => Ok (f, args)
  | S fuel =>
      '(f, args, more) ← parseOne f args;
      if more : bool then parse_flags fuel f args else Ok (f, args)
  end.

Definition flag_Parse (f : flags) (args : list string) : go flag_error (flags * list string) := parse_flags (S (length args)) f args.

(** With [ExitOnError]: the exit code of a failed parse. *)
Definition parse_exit (e : flag_error) : Z := match e with ErrHelp => 0 | _ => 2 end.

Definition flag_string (f : flags) (name : string) : string := match f !! name with Some (FString s) => s | _ => "" end.
Definition flag_bool (f : flags) (name : string) : bool := match f !! name with Some (FBool b) => b | _ => false end.

Example flag_examples :
  let f : flags := {["config"%string := FString ""; "version"%string := FBool false]} in
  let run args := match flag_Parse f args with
                  | Ok (f, rest) => Ok (flag_string f "config", flag_bool f "version", rest)
                  | Err e => Err e
                  | Panic => Panic
                  end in
  run ["-config"; "a.yml"]%string = Ok ("a.yml", false, [])%string /\
  run ["--config=a=b"; "x"; "-version"]%string = Ok ("a=b", false, ["x"; "-version"])%string /\
  run ["-version"; "--"; "-config"]%string = Ok ("", true, ["-config"])%string /\
  run ["-version=F"]%string = Ok ("", false, [])%string /\ run ["-config"]%string = Err ErrNeedsArgument /\
  run ["-help"]%string = Err ErrHelp /\ run ["-x"]%string = Err ErrNotDefined /\ run ["---"]%string = Err ErrBadSyntax /\
  run ["-version=2"]%string = Err ErrInvalidBool.
Proof. vm_compute. repeat split; reflexivity. Qed.

(** ** The loop ends *)

Lemma parseOne_shorter f args f' args' : parseOne f args = Ok (f', args', true) -> (length args' < length args)%nat.
Proof.
  unfold parseOne. destruct args as [|arg rest]; [done|].
  repeat (case_match; simplify_eq; try done); intros [= _ <-]; cbn; lia.
Qed.

(** No call returns because the fuel is used up: what is returned, [parseOne] would
    return again. *)
Lemma parse_flags_enough fuel f args : (length args < fuel)%nat -> parse_flags fuel f args = parse_flags (S fuel) f args.
Proof.
  revert f args. induction fuel as [|fuel IH]; intros f args Hl; [lia|]. cbn [parse_flags].
  destruct (parseOne f args) as [[[f' args'] []]|e|] eqn:E; cbn [mbind go_bind]; try done.
  apply parseOne_shorter in E. rewrite IH by lia. done.
Qed.
