(* ===== verification/Jitter.v ===== *)
(** * Transmission jitter ([src/internal/bfd/session_packet.go])

    The session-local pseudo-random generator (an xorshift64-star step on 64-bit
    words) and the reduction of the transmission interval by a random
    percentage.  The random seed is an input: what [crypto/rand] delivered, or
    nothing, and the clock readings of the fallback. *)

From S2P Require Import Prelude.

Local Open Scope Z_scope.

(** ** The generator *)

Definition jitter_default_seed : Z := 0x9e3779b97f4a7c15.
Definition jitter_multiplier : Z := 2685821657736338717.

Definition jitterRNG : Type := Z.

(** [seed]: the little-endian value of the eight bytes read, if the read
    succeeded. *)
Definition newJitterRNG (seed : option Z) (unixNano unixMicro : Z) : jitterRNG :=
  match seed with
  | Some v => if negb (v =? 0) then v else
      let fallback := Z.lxor (u64 unixNano) (u64 (Z.shiftl (u64 unixMicro) 17)) in
      if fallback =? 0 then jitter_default_seed else fallback
  | None =>
      let fallback := Z.lxor (u64 unixNano) (u64 (Z.shiftl (u64 unixMicro) 17)) in
      if fallback =? 0 then jitter_default_seed else fallback
  end.

Definition jitter_next (r : jitterRNG) : Z * jitterRNG :=
  let x := r in
  let x := if x =? 0 then jitter_default_seed else x in
  let x := Z.lxor x (Z.shiftr x 12) in
  let x := Z.lxor x (u64 (Z.shiftl x 25)) in
  let x := Z.lxor x (Z.shiftr x 27) in
  (u64 (x * jitter_multiplier), x).

Definition jitter_IntN (r : jitterRNG) (n : Z) : Z * jitterRNG :=
  if n <=? 1 then (0, r) else
  let '(w, r) := jitter_next r in
  let v := w mod u64 n in
  if (2 ^ 63 - 1) <? v then (n - 1, r) else (v, r).

(** ** Applying the jitter *)

(** The generator is passed as a closure; here it is a function on its state. *)
Definition applyJitterWithRand {R} (interval detectMult : Z) (intN : R -> Z -> Z * R) (r : R)
    : Z * R :=
  let '(jitterPercent, r) :=
    if detectMult =? 1
    then let '(v, r) := intN r 16 in (10 + v, r)
    else intN r 26 in
  let reduction := Z.quot (i64 (interval * jitterPercent)) 100 in
  (i64 (interval - reduction), r).

(** [ApplyJitter], with the seed of its fresh generator. *)
Definition ApplyJitter (interval detectMult : Z) (seed : option Z) (unixNano unixMicro : Z) : Z :=
  if interval <=? 0 then interval else
  (applyJitterWithRand interval detectMult jitter_IntN (newJitterRNG seed unixNano unixMicro)).1.

(** ** Lemmas *)

Lemma jitter_next_u64 r : is_u64 (jitter_next r).1.
Proof. unfold jitter_next. cbn [fst]. apply u64_range. Qed.

Lemma jitter_IntN_range r n : 1 <= n < 2 ^ 32 -> 0 <= (jitter_IntN r n).1 < n.
Proof.
  intros Hn. unfold jitter_IntN. case_match eqn:E; bools; [cbn; lia|].
  pose proof (jitter_next_u64 r). destruct (jitter_next r) as [w r']. cbn [fst] in *.
  assert (u64 n = n) as -> by width_lia.
  pose proof (Z.mod_pos_bound w n ltac:(lia)).
  case_match; bools; cbn [fst]; lia.
Qed.

(** Range of a jittered interval: 75 to 100 per cent, 75 to 90 when the detection
    multiplier is one, up to the truncation of one nanosecond. *)
Lemma jitter_range {R} (intN : R -> Z -> Z * R) interval mult r :
  (forall r n, 1 <= n < 2 ^ 32 -> 0 <= (intN r n).1 < n) ->
  0 <= interval <= 2 ^ 50 ->
  let d := (applyJitterWithRand interval mult intN r).1 in
  75 * interval <= 100 * d /\ 100 * d < (if mult =? 1 then 90 else 100) * interval + 100.
Proof.
  intros HN Hi. unfold applyJitterWithRand.
  destruct (mult =? 1).
  - pose proof (HN r 16 ltac:(lia)). destruct (intN r 16) as [v r']. cbn in *.
    rewrite (i64_small (interval * (10 + v))) by (unfold is_i64; nia).
    rewrite Z.quot_div_nonneg by nia. rewrite i64_small; [|unfold is_i64];
      pose proof (Z.div_mod (interval * (10 + v)) 100 ltac:(lia));
      pose proof (Z.mod_pos_bound (interval * (10 + v)) 100 ltac:(lia)); nia.
  - pose proof (HN r 26 ltac:(lia)). destruct (intN r 26) as [v r']. cbn in *.
    rewrite (i64_small (interval * v)) by (unfold is_i64; nia).
    rewrite Z.quot_div_nonneg by nia. rewrite i64_small; [|unfold is_i64];
      pose proof (Z.div_mod (interval * v) 100 ltac:(lia));
      pose proof (Z.mod_pos_bound (interval * v) 100 ltac:(lia)); nia.
Qed.
