(* ===== verification/Session.v ===== *)
(** * The BFD session ([src/internal/bfd/session.go], [session_loop.go],
    [session_packet.go])

    A session is the record of its fields.  Its goroutine runs one handler at a
    time, so a handler is a function on the session together with what it acts
    on: the two timers, the packets handed to the sender and the notifications
    put on the channel.  [None] stands for a panic.

    - Time is in nanoseconds; a handler sees one clock reading.
    - A timer is its deadline: [Some d] is armed (it may fire once the clock has
      reached [d]), [None] has fired and was drained.
    - Whether the [k]-th call of the sender succeeds and whether the [k]-th
      notification finds room in its channel are inputs.
    - Loggers and metrics have no influence on the session and are left out; the
      mutex guards fields that only the session goroutine writes. *)

From S2P Require Import Prelude Packet Fsm Auth Netip Jitter.

Local Open Scope Z_scope.

(** ** Types and constants *)

Definition SessionTypeSingleHop : Z := 1.
Definition SessionTypeMultiHop : Z := 2.
Definition SessionTypeEcho : Z := 3.
Definition SessionTypeMicroBFD : Z := 4.
Definition SessionTypeVXLAN : Z := 5.
Definition SessionTypeGeneve : Z := 6.

Definition SessionType_String (st : Z) : string :=
  if st =? SessionTypeSingleHop then "SingleHop"%string
  else if st =? SessionTypeMultiHop then "MultiHop"%string
  else if st =? SessionTypeEcho then "Echo"%string
  else if st =? SessionTypeMicroBFD then "MicroBFD"%string
  else if st =? SessionTypeVXLAN then "VXLAN"%string
  else if st =? SessionTypeGeneve then "Geneve"%string
  else unknownStr.

Definition RoleActive : Z := 1.
Definition RolePassive : Z := 2.

Definition SessionRole_String (sr : Z) : string :=
  if sr =? RoleActive then "Active"%string
  else if sr =? RolePassive then "Passive"%string
  else unknownStr.

Definition Microsecond : Z := 1000.
Definition Second : Z := 1000000000.

Definition MaxPaddedPduSize : Z := 9000.
Definition MaxWireInterval : Z := (2 ^ 32 - 1) * Microsecond.
Definition slowTxInterval : Z := 1 * Second.
Definition recvChSize : nat := 16.
Definition ctrlChSize : nat := 4.
Definition initialRemoteMinRx : Z := 1 * Microsecond.

Record SessionConfig := mkSessionConfig {
  cfg_PeerAddr : Addr;
  cfg_LocalAddr : Addr;
  cfg_Interface : string;
  cfg_Type : Z;
  cfg_Role : Z;
  cfg_DesiredMinTxInterval : Z;
  cfg_RequiredMinRxInterval : Z;
  cfg_DetectMultiplier : Z;
  cfg_Auth : option Authenticator;
  cfg_AuthKeys : option AuthKeyStore;
  cfg_PaddedPduSize : Z;
}.

Record StateChange := mkStateChange {
  sc_LocalDiscr : Z;
  sc_PeerAddr : Addr;
  sc_OldState : Z;
  sc_NewState : Z;
  sc_Diag : Z;
  sc_Timestamp : Z;
  sc_Type : Z;
  sc_Interface : string;
}.

#[export] Instance StateChange_eq_dec : EqDecision StateChange.
Proof. solve_decision. Defined.

Inductive session_error :=
| ErrInvalidDetectMult
| ErrInvalidTxInterval
| ErrInvalidRxInterval
| ErrInvalidWireInterval
| ErrInvalidSessionType
| ErrInvalidSessionRole
| ErrInvalidDiscriminator
| ErrInvalidPaddedPduSize
| ErrMissingAuthKeyStore
| ErrSessionAuth (e : auth_error).

#[export] Instance session_error_eq_dec : EqDecision session_error.
Proof. solve_decision. Defined.

Record recvItem := mkRecvItem { item_pkt : ControlPacket; item_wire : list Z }.

Definition controlPathDown : Z := 1.
Definition controlAdminDown : Z := 2.

Record sessionControl := mkSessionControl { sc_kind : Z }.

Record Session := mkSession {
  s_state : Z;
  s_remoteState : Z;
  s_localDiag : Z;
  s_localDiscr : Z;
  s_remoteDiscr : Z;
  s_desiredMinTxInterval : Z;
  s_requiredMinRxInterval : Z;
  s_remoteMinRxInterval : Z;
  s_remoteDesiredMinTxInterval : Z;
  s_remoteDetectMult : Z;
  s_detectMult : Z;
  s_remoteDemandMode : bool;
  s_pollActive : bool;
  s_pendingFinal : bool;
  s_pendingDesiredMinTx : Z;
  s_pendingRequiredMinRx : Z;
  s_sessionType : Z;
  s_role : Z;
  s_peerAddr : Addr;
  s_localAddr : Addr;
  s_ifName : string;
  s_cachedPacket : list Z;
  s_paddedPduSize : Z;
  s_auth : option Authenticator;
  s_authKeys : option AuthKeyStore;
  s_authState : option AuthState;
  s_packetsSent : Z;
  s_packetsReceived : Z;
  s_stateTransitions : Z;
  s_lastStateChange : Z;
  s_lastPacketRecv : Z;
  s_jitterRng : jitterRNG;
  s_cachedState : Z;
  s_hasNotifyCh : bool;
  s_recvCh : list recvItem;
  s_ctrlCh : list sessionControl;
  s_running : bool;
}.

(** The session with its timers and its outputs so far: the buffers given to the
    sender with the outcome of the call, and the notifications delivered. *)
(** Calls of the metrics reporter, with the session's peer and local address. *)
Inductive metric_call := MetricSent | MetricReceived | MetricTransition (from to : Z).

Record Sys := mkSys {
  ses : Session;
  txTimer : option Z;
  detectTimer : option Z;
  sent : list (list Z * bool);
  notified : list StateChange;
  notify_attempts : nat;
  metered : list metric_call;
}.

Record Env := mkEnv {
  now : Z;
  send_ok : nat -> bool;
  notify_room : nat -> bool;
}.

(** ** Timer negotiation *)

Definition durationFromMicroseconds (us : Z) : Z := i64 (us * Microsecond).
Definition microsecondsFromDuration (d : Z) : Z := u32 (Z.quot d Microsecond).

Definition calcTxInterval (s : Session) : Z :=
  let desired := s_desiredMinTxInterval s in
  let desired :=
    if negb (s_state s =? StateUp) && (desired <? slowTxInterval) then slowTxInterval else desired in
  Z.max desired (s_remoteMinRxInterval s).

Definition calcDetectionTime (s : Session) : Z :=
  if s_remoteDetectMult s =? 0 then i64 (calcTxInterval s * s_detectMult s)
  else i64 (Z.max (s_requiredMinRxInterval s) (s_remoteDesiredMinTxInterval s)
            * s_remoteDetectMult s).

Definition calcTxIntervalHot (s : Session) : Z :=
  let desired := s_desiredMinTxInterval s in
  let desired :=
    if negb (s_cachedState s =? StateUp) && (desired <? slowTxInterval)
    then slowTxInterval else desired in
  Z.max desired (s_remoteMinRxInterval s).

Definition calcDetectionTimeHot (s : Session) : Z :=
  if s_remoteDetectMult s =? 0 then i64 (calcTxIntervalHot s * s_detectMult s)
  else i64 (Z.max (s_requiredMinRxInterval s) (s_remoteDesiredMinTxInterval s)
            * s_remoteDetectMult s).

(** [applyJitter]: the session-local variant, advancing the session's generator. *)
Definition applyJitter (s : Session) (interval : Z) : Z * Session :=
  if interval <=? 0 then (interval, s) else
  let '(d, r) := applyJitterWithRand interval (s_detectMult s) jitter_IntN (s_jitterRng s) in
  (d, {| s with s_jitterRng := r |}).

Definition resetTxTimer (e : Env) (y : Sys) : Sys :=
  let '(d, s) := applyJitter (ses y) (calcTxIntervalHot (ses y)) in
  {| y with ses := s; txTimer := Some (now e + d) |}.

Definition resetDetectTimer (e : Env) (y : Sys) : Sys :=
  {| y with detectTimer := Some (now e + calcDetectionTimeHot (ses y)) |}.

(** ** The cached packet *)

Definition buildControlPacket (s : Session) : ControlPacket * Session :=
  let wireTxInterval := s_desiredMinTxInterval s in
  let wireTxInterval :=
    if negb (s_cachedState s =? StateUp) && (wireTxInterval <? slowTxInterval)
    then slowTxInterval else wireTxInterval in
  let pkt :=
    {| pkt_Version := Version; pkt_Diag := s_localDiag s; pkt_State := s_cachedState s;
       pkt_Poll := s_pollActive s; pkt_Final := s_pendingFinal s;
       pkt_ControlPlaneIndependent := false; pkt_AuthPresent := false;
       pkt_Demand := false; pkt_Multipoint := false; pkt_DetectMult := s_detectMult s;
       pkt_Length := 0; pkt_MyDiscriminator := s_localDiscr s;
       pkt_YourDiscriminator := s_remoteDiscr s;
       pkt_DesiredMinTxInterval := microsecondsFromDuration wireTxInterval;
       pkt_RequiredMinRxInterval := microsecondsFromDuration (s_requiredMinRxInterval s);
       pkt_RequiredMinEchoRxInterval := 0; pkt_Auth := None |} in
  (pkt, {| s with s_pendingFinal := false |}).

(** Serialize into the cached buffer; an error is logged and leaves the buffer
    as it was at the point of failure. *)
Definition marshal_cached (pkt : ControlPacket) (s : Session) : option Session :=
  match MarshalControlPacket pkt (s_cachedPacket s) with
  | (Panic, _) => None
  | (_, buf) => Some {| s with s_cachedPacket := buf |}
  end.

(** A [nil] authentication state or key store is a nil dereference. *)
Definition signCachedPacket (a : Authenticator) (pkt : ControlPacket) (s : Session)
    : option Session :=
  match s_authState s, s_authKeys s with
  | Some st, Some keys =>
      match Sign a st keys pkt (s_cachedPacket s) with
      | (Panic, _, _, _) => None
      | (Err _, st, _, buf) => Some {| s with s_authState := Some st; s_cachedPacket := buf |}
      | (Ok _, st, pkt, buf) =>
          marshal_cached pkt {| s with s_authState := Some st; s_cachedPacket := buf |}
      end
  | _, _ => None
  end.

Definition rebuildCachedPacket (s : Session) : option Session :=
  let '(pkt, s) := buildControlPacket s in
  match s_auth s with
  | Some a => signCachedPacket a pkt s
  | None => marshal_cached pkt s
  end.

(** ** Transmission *)

(** [clear(buf\[lo:hi\])] *)
Definition clear_range (buf : list Z) (lo hi : nat) : option (list Z) :=
  if bool_decide ((lo <= hi)%nat /\ (hi <= length buf)%nat)
  then Some (take lo buf ++ replicate (hi - lo) 0 ++ drop hi buf)
  else None.

Definition sendControl (e : Env) (y : Sys) : option Sys :=
  s ← rebuildCachedPacket (ses y);
  pktLen ← s_cachedPacket s !! 3%nat;
  '(sendLen, s) ←
    (if (0 <? s_paddedPduSize s) && (pktLen <? s_paddedPduSize s)
     then buf ← clear_range (s_cachedPacket s) (Z.to_nat pktLen) (Z.to_nat (s_paddedPduSize s));
          Some (s_paddedPduSize s, {| s with s_cachedPacket := buf |})
     else Some (pktLen, s));
  if zlen (s_cachedPacket s) <? sendLen then None else
  let out := take (Z.to_nat sendLen) (s_cachedPacket s) in
  let ok := send_ok e (length (sent y)) in
  let s := if ok then {| s with s_packetsSent := u64 (s_packetsSent s + 1) |} else s in
  Some {| y with ses := s; sent := sent y ++ [(out, ok)];
                 metered := if ok then metered y ++ [MetricSent] else metered y |}.

Definition maybeSendControl (e : Env) (y : Sys) : option Sys :=
  if (s_role (ses y) =? RolePassive) && (s_remoteDiscr (ses y) =? 0) then Some y else
  if s_remoteMinRxInterval (ses y) =? 0 then Some y else
  sendControl e y.

Definition handleTxTimer (e : Env) (y : Sys) : option Sys :=
  y ← maybeSendControl e y;
  Some (resetTxTimer e y).

(** ** FSM event application *)

Definition emitNotification (e : Env) (result : FSMResult) (y : Sys) : Sys :=
  if negb (s_hasNotifyCh (ses y)) then y else
  let sc := {| sc_LocalDiscr := s_localDiscr (ses y); sc_PeerAddr := s_peerAddr (ses y);
               sc_OldState := OldState result; sc_NewState := NewState result;
               sc_Diag := s_localDiag (ses y); sc_Timestamp := now e;
               sc_Type := s_sessionType (ses y); sc_Interface := s_ifName (ses y) |} in
  let k := notify_attempts y in
  {| y with notify_attempts := S k;
            notified := if notify_room e k then notified y ++ [sc] else notified y |}.

Definition logStateChange (e : Env) (result : FSMResult) (y : Sys) : Sys :=
  let s := ses y in
  let s := {| s with s_stateTransitions := u64 (s_stateTransitions s + 1);
                     s_lastStateChange := now e |} in
  emitNotification e result
    {| y with ses := s; metered := metered y ++ [MetricTransition (OldState result) (NewState result)] |}.

(** Update the session inside a system. *)
Definition upd (f : Session -> Session) (y : Sys) : Sys := {| y with ses := f (ses y) |}.

Definition executeAction (e : Env) (action : Z) (y : Sys) : option Sys :=
  if action =? ActionSendControl then
    y ← sendControl e y;
    Some (resetTxTimer e y)
  else if action =? ActionNotifyUp then
    Some (resetDetectTimer e (resetTxTimer e y))
  else if action =? ActionNotifyDown then
    let y := upd (fun s => {| s with s_remoteDiscr := 0 |}) y in
    Some (resetDetectTimer e (resetTxTimer e y))
  else if action =? ActionSetDiagTimeExpired then
    Some (upd (fun s => {| s with s_localDiag := DiagControlTimeExpired |}) y)
  else if action =? ActionSetDiagNeighborDown then
    Some (upd (fun s => {| s with s_localDiag := DiagNeighborDown |}) y)
  else if action =? ActionSetDiagAdminDown then
    Some (upd (fun s => {| s with s_localDiag := DiagAdminDown |}) y)
  else Some y.

Fixpoint executeActions (e : Env) (actions : list Z) (y : Sys) : option Sys :=
  match actions with
  | [] => Some y
  | a :: rest => y ← executeAction e a y; executeActions e rest y
  end.

Definition executeFSMActions (e : Env) (result : FSMResult) (y : Sys) : option Sys :=
  let y :=
    if Changed result then
      let y := upd (fun s => {| s with s_state := NewState result;
                                       s_cachedState := NewState result |}) y in
      logStateChange e result y
    else y in
  executeActions e (Actions result) y.

Definition applyFSMEvent (e : Env) (event : Z) (y : Sys) : option Sys :=
  executeFSMActions e (apply_event (s_cachedState (ses y)) event) y.

(** ** Reception *)

Definition checkAuthConsistency (s : Session) (pkt : ControlPacket) : bool :=
  match pkt_AuthPresent pkt, s_auth s with
  | true, None => false
  | false, Some _ => false
  | _, _ => true
  end.

(** The verification step of [handleRecvPacket]: [None] is a panic, the boolean
    says whether the packet goes on. *)
Definition verify_received (s : Session) (item : recvItem) : option (bool * Session) :=
  match s_auth s with
  | None => Some (true, s)
  | Some a =>
      match s_authState s, s_authKeys s with
      | Some st, Some keys =>
          match Verify a st keys (item_pkt item) (item_wire item) (zlen (item_wire item)) with
          | (Ok _, st, _) => Some (true, {| s with s_authState := Some st |})
          | (Err _, st, _) => Some (false, {| s with s_authState := Some st |})
          | (Panic, _, _) => None
          end
      | _, _ => None
      end
  end.

Definition recordValidReceivedPacket (e : Env) (y : Sys) : Sys :=
  let s := ses y in
  {| y with ses := {| s with s_packetsReceived := u64 (s_packetsReceived s + 1); s_lastPacketRecv := now e |};
            metered := metered y ++ [MetricReceived] |}.

Definition applyPendingParams (s : Session) : Session :=
  let s := if 0 <? s_pendingDesiredMinTx s
           then {| s with s_desiredMinTxInterval := s_pendingDesiredMinTx s;
                          s_pendingDesiredMinTx := 0 |} else s in
  if 0 <? s_pendingRequiredMinRx s
  then {| s with s_requiredMinRxInterval := s_pendingRequiredMinRx s;
                 s_pendingRequiredMinRx := 0 |} else s.

Definition terminatePollSequence (s : Session) : option Session :=
  let s := {| s with s_pollActive := false |} in
  let s := applyPendingParams s in
  rebuildCachedPacket s.

(** Steps 13 to 17 of RFC 5880 Section 6.8.6. *)
Definition update_remote (pkt : ControlPacket) (s : Session) : Session :=
  {| s with
     s_remoteDiscr := pkt_MyDiscriminator pkt;
     s_remoteDemandMode := pkt_Demand pkt;
     s_remoteMinRxInterval := durationFromMicroseconds (pkt_RequiredMinRxInterval pkt);
     s_remoteDesiredMinTxInterval := durationFromMicroseconds (pkt_DesiredMinTxInterval pkt);
     s_remoteDetectMult := pkt_DetectMult pkt;
     s_remoteState := pkt_State pkt |}.

Definition handleRecvPacket (e : Env) (item : recvItem) (y : Sys) : option Sys :=
  let pkt := item_pkt item in
  if negb (checkAuthConsistency (ses y) pkt) then Some y else
  '(go_on, s) ← verify_received (ses y) item;
  if negb go_on then Some {| y with ses := s |} else
  let y := recordValidReceivedPacket e {| y with ses := s |} in
  let s := update_remote pkt (ses y) in
  s ← (if pkt_Final pkt && s_pollActive s then terminatePollSequence s else Some s);
  let s := if pkt_Poll pkt then {| s with s_pendingFinal := true |} else s in
  let y := resetDetectTimer e {| y with ses := s |} in
  y ← applyFSMEvent e (RecvStateToEvent (pkt_State pkt)) y;
  if s_pendingFinal (ses y) then
    y ← sendControl e y;
    Some (resetTxTimer e y)
  else Some y.

(** ** Control commands *)

Definition handleAdminDown (e : Env) (y : Sys) : option Sys :=
  let result := apply_event (s_cachedState (ses y)) EventAdminDown in
  if negb (Changed result)
  then Some (upd (fun s => {| s with s_localDiag := DiagAdminDown |}) y)
  else
    let result := {| result with Actions := Actions result ++ [ActionSendControl] |} in
    executeFSMActions e result y.

Definition handlePathDown (e : Env) (y : Sys) : option Sys :=
  let oldState := s_cachedState (ses y) in
  let y := upd (fun s => {| s with s_localDiag := DiagPathDown |}) y in
  if (oldState =? StateDown) || (oldState =? StateAdminDown) then Some y else
  executeFSMActions e
    {| OldState := oldState; NewState := StateDown; Changed := true;
       Actions := [ActionNotifyDown; ActionSendControl] |} y.

Definition handleControlCommand (e : Env) (cmd : sessionControl) (y : Sys) : option Sys :=
  if sc_kind cmd =? controlPathDown then handlePathDown e y
  else if sc_kind cmd =? controlAdminDown then handleAdminDown e y
  else Some y.

(** ** Detection timer *)

Definition maybeResetAuthSeqKnown (e : Env) (s : Session) : Session :=
  match s_authState s with
  | None => s
  | Some st =>
      if negb (as_AuthSeqKnown st) then s else
      let lastNS := s_lastPacketRecv s in
      if lastNS =? 0 then s else
      let detectTime := calcDetectionTimeHot s in
      if now e - lastNS <? i64 (2 * detectTime) then s else
      {| s with s_authState := Some {| st with as_AuthSeqKnown := false |} |}
  end.

Definition handleDetectTimer (e : Env) (y : Sys) : option Sys :=
  let y := upd (maybeResetAuthSeqKnown e) y in
  if negb (s_cachedState (ses y) =? StateInit) && negb (s_cachedState (ses y) =? StateUp)
  then Some (resetDetectTimer e y)
  else applyFSMEvent e EventTimerExpired y.

(** ** Construction *)

Definition isValidSessionType (t : Z) : bool :=
  (t =? SessionTypeSingleHop) || (t =? SessionTypeMultiHop) || (t =? SessionTypeMicroBFD)
  || (t =? SessionTypeVXLAN) || (t =? SessionTypeGeneve).

Definition validateSessionAuthConfig (cfg : SessionConfig) : go session_error unit :=
  match cfg_Auth cfg with
  | None => Ok tt
  | Some a =>
      match cfg_AuthKeys cfg with
      | None => Err ErrMissingAuthKeyStore
      | Some keys =>
          let key := CurrentKey keys in
          if negb (key_Type key =? authenticatorType a)
          then Err (ErrSessionAuth ErrAuthKeyTypeMismatch) else Ok tt
      end
  end.

Definition validateSessionConfig (cfg : SessionConfig) (localDiscr : Z) : go session_error unit :=
  if cfg_DetectMultiplier cfg <? 1 then Err ErrInvalidDetectMult else
  if cfg_DesiredMinTxInterval cfg <=? 0 then Err ErrInvalidTxInterval else
  if cfg_RequiredMinRxInterval cfg <=? 0 then Err ErrInvalidRxInterval else
  if MaxWireInterval <? cfg_DesiredMinTxInterval cfg then Err ErrInvalidWireInterval else
  if MaxWireInterval <? cfg_RequiredMinRxInterval cfg then Err ErrInvalidWireInterval else
  if negb (isValidSessionType (cfg_Type cfg)) then Err ErrInvalidSessionType else
  if negb (cfg_Role cfg =? RoleActive) && negb (cfg_Role cfg =? RolePassive)
  then Err ErrInvalidSessionRole else
  if localDiscr =? 0 then Err ErrInvalidDiscriminator else
  if negb (cfg_PaddedPduSize cfg =? 0) &&
     ((cfg_PaddedPduSize cfg <? HeaderSize) || (MaxPaddedPduSize <? cfg_PaddedPduSize cfg))
  then Err ErrInvalidPaddedPduSize else
  validateSessionAuthConfig cfg.

(** The random inputs of a construction: the jitter seed with the clock readings
    of its fallback, and the four bytes of the initial sequence number. *)
Record Randomness := mkRandomness {
  rnd_jitter : option Z;
  rnd_unixNano : Z;
  rnd_unixMicro : Z;
  rnd_seq : option (Z * Z * Z * Z);
}.

Definition initAuth (cfg : SessionConfig) (rnd : Randomness) (s : Session)
    : go session_error Session :=
  match cfg_Auth cfg with
  | None => Ok s
  | Some a =>
      st ← go_wrap ErrSessionAuth (NewAuthState (authenticatorType a) (rnd_seq rnd));
      Ok {| s with s_authState := Some st |}
  end.

Definition NewSession (cfg : SessionConfig) (localDiscr : Z) (hasNotifyCh : bool)
    (rnd : Randomness) : go session_error Session :=
  _ ← validateSessionConfig cfg localDiscr;
  let pktBufSize :=
    if MaxPacketSize <? cfg_PaddedPduSize cfg then cfg_PaddedPduSize cfg else MaxPacketSize in
  let s :=
    {| s_state := StateDown; s_remoteState := StateDown; s_localDiag := DiagNone;
       s_localDiscr := localDiscr; s_remoteDiscr := 0;
       s_desiredMinTxInterval := cfg_DesiredMinTxInterval cfg;
       s_requiredMinRxInterval := cfg_RequiredMinRxInterval cfg;
       s_remoteMinRxInterval := initialRemoteMinRx; s_remoteDesiredMinTxInterval := 0;
       s_remoteDetectMult := 0; s_detectMult := cfg_DetectMultiplier cfg;
       s_remoteDemandMode := false; s_pollActive := false; s_pendingFinal := false;
       s_pendingDesiredMinTx := 0; s_pendingRequiredMinRx := 0;
       s_sessionType := cfg_Type cfg; s_role := cfg_Role cfg;
       s_peerAddr := cfg_PeerAddr cfg; s_localAddr := cfg_LocalAddr cfg;
       s_ifName := cfg_Interface cfg;
       s_cachedPacket := replicate (Z.to_nat pktBufSize) 0;
       s_paddedPduSize := cfg_PaddedPduSize cfg;
       s_auth := cfg_Auth cfg; s_authKeys := cfg_AuthKeys cfg; s_authState := None;
       s_packetsSent := 0; s_packetsReceived := 0; s_stateTransitions := 0;
       s_lastStateChange := 0; s_lastPacketRecv := 0;
       s_jitterRng := newJitterRNG (rnd_jitter rnd) (rnd_unixNano rnd) (rnd_unixMicro rnd);
       s_cachedState := StateDown; s_hasNotifyCh := hasNotifyCh;
       s_recvCh := []; s_ctrlCh := []; s_running := false |} in
  s ← initAuth cfg rnd s;
  match rebuildCachedPacket s with
  | Some s => Ok s
  | None => Panic
  end.

(** ** Entry points of other goroutines *)

Definition RecvPacket (pkt : ControlPacket) (wire : list Z) (s : Session) : Session :=
  if bool_decide (length (s_recvCh s) < recvChSize)%nat
  then {| s with s_recvCh := s_recvCh s ++ [mkRecvItem pkt wire] |}
  else s.

Definition SetPathDown (s : Session) : bool * Session :=
  if bool_decide (length (s_ctrlCh s) < ctrlChSize)%nat
  then (true, {| s with s_ctrlCh := s_ctrlCh s ++ [mkSessionControl controlPathDown] |})
  else (false, s).

Definition SetAdminDown (s : Session) : Session :=
  if s_running s && bool_decide (length (s_ctrlCh s) < ctrlChSize)%nat
  then {| s with s_ctrlCh := s_ctrlCh s ++ [mkSessionControl controlAdminDown] |}
  else {| s with s_localDiag := DiagAdminDown; s_state := StateAdminDown |}.

(** Accessors that do more than read a field. *)
Definition Session_AuthType (s : Session) : Z :=
  match s_authState s with None => AuthTypeNone | Some st => as_Type st end.

Definition NegotiatedTxInterval (s : Session) : Z := calcTxInterval s.
Definition DetectionTime (s : Session) : Z := calcDetectionTime s.

(** A zero timestamp is the zero [time.Time]. *)
Definition LastStateChange (s : Session) : option Z :=
  if s_lastStateChange s =? 0 then None else Some (s_lastStateChange s).
Definition LastPacketReceived (s : Session) : option Z :=
  if s_lastPacketRecv s =? 0 then None else Some (s_lastPacketRecv s).

(** ** The event loop *)

(** [Run] up to the loop: both timers are armed. *)
Definition Run_start (e : Env) (s : Session) : Sys :=
  let s := {| s with s_running := true; s_cachedState := s_state s |} in
  let '(d, s) := applyJitter s (calcTxIntervalHot s) in
  {| ses := s; txTimer := Some (now e + d);
     detectTimer := Some (now e + calcDetectionTimeHot s);
     sent := []; notified := []; notify_attempts := 0; metered := [] |}.

(** One turn of the [select] in [runLoop], by the case that is taken; a timer
    case is ready when the clock has reached the deadline, and receiving from the
    channel disarms the timer. *)
Inductive loop_case := CaseRecv | CaseCtrl | CaseTx | CaseDetect.

Definition fired (t : option Z) (e : Env) : bool :=
  match t with Some d => d <=? now e | None => false end.

(** [None]: the case is not ready; [Some None]: the handler panics. *)
Definition runLoop_turn (c : loop_case) (e : Env) (y : Sys) : option (option Sys) :=
  match c with
  | CaseRecv =>
      match s_recvCh (ses y) with
      | item :: rest => Some (handleRecvPacket e item (upd (fun s => {| s with s_recvCh := rest |}) y))
      | [] => None
      end
  | CaseCtrl =>
      match s_ctrlCh (ses y) with
      | cmd :: rest => Some (handleControlCommand e cmd (upd (fun s => {| s with s_ctrlCh := rest |}) y))
      | [] => None
      end
  | CaseTx =>
      if fired (txTimer y) e then Some (handleTxTimer e {| y with txTimer := None |}) else None
  | CaseDetect =>
      if fired (detectTimer y) e then Some (handleDetectTimer e {| y with detectTimer := None |})
      else None
  end.

(** A call of one of the entry points from another goroutine.  Packets come from
    the decoder, so they are well-formed. *)
Inductive session_entry : Session -> Session -> Prop :=
| entry_recv_packet pkt wire s : wf_packet pkt -> session_entry s (RecvPacket pkt wire s)
| entry_path_down s : session_entry s (SetPathDown s).2
| entry_admin_down s : session_entry s (SetAdminDown s).

(** Everything that can happen to a running session. *)
Inductive session_step : Sys -> Sys -> Prop :=
| step_turn c e y y' : runLoop_turn c e y = Some (Some y') -> session_step y y'
| step_entry y s : session_entry (ses y) s -> session_step y {| y with ses := s |}.
