(* ===== verification/SessionInv.v ===== *)
(** * Session invariant ([src/internal/bfd/session*.go])

    The well-formedness invariant of a session, the packets a session in that
    state puts on the wire, and the preservation of the invariant by every
    handler, none of which panics. *)

From S2P Require Import Prelude Packet Fsm Auth Netip Jitter Session.

Local Open Scope Z_scope.

(** ** The invariant *)

(** An authenticator with the key store and state it works on. *)
Record auth_ok (a : Authenticator) (st : AuthState) (keys : AuthKeyStore) : Prop := {
  ao_rcv : is_u32 (as_RcvAuthSeq st);
  ao_key : validateAuthKey (CurrentKey keys) = Ok tt;
  ao_type : key_Type (CurrentKey keys) = authenticatorType a;
  ao_id : is_u8 (key_ID (CurrentKey keys));
  ao_lookup : forall id, LookupKey keys id <> Panic;
}.

Definition session_auth_ok (s : Session) : Prop :=
  match s_auth s with
  | None => True
  | Some a => exists st keys, s_authState s = Some st /\ s_authKeys s = Some keys /\ auth_ok a st keys
  end.

Definition wire_interval (d : Z) : Prop := 0 <= d <= MaxWireInterval.

Record session_inv (s : Session) : Prop := {
  inv_state : 0 <= s_cachedState s < 4;
  inv_diag : 0 <= s_localDiag s < 9;
  inv_discr : is_u32 (s_localDiscr s) /\ s_localDiscr s <> 0;
  inv_remote_discr : is_u32 (s_remoteDiscr s);
  inv_tx : wire_interval (s_desiredMinTxInterval s) /\ 0 < s_desiredMinTxInterval s;
  inv_rx : wire_interval (s_requiredMinRxInterval s) /\ 0 < s_requiredMinRxInterval s;
  inv_pending : wire_interval (s_pendingDesiredMinTx s) /\ wire_interval (s_pendingRequiredMinRx s);
  inv_remote : wire_interval (s_remoteMinRxInterval s) /\
               wire_interval (s_remoteDesiredMinTxInterval s);
  inv_remote_mult : 0 <= s_remoteDetectMult s < 256;
  inv_mult : 1 <= s_detectMult s < 256;
  inv_live : s_cachedState s = StateInit \/ s_cachedState s = StateUp ->
             s_remoteDiscr s <> 0 /\ s_remoteDetectMult s <> 0;
  inv_buf : 64 <= zlen (s_cachedPacket s) /\
            0 <= s_paddedPduSize s <= zlen (s_cachedPacket s);
  inv_auth : session_auth_ok s;
  inv_queue : Forall (fun it => wf_packet (item_pkt it)) (s_recvCh s);
}.

(** What a packet on the wire says about the session that sent it. *)
Definition carries (s : Session) (pkt : ControlPacket) : Prop :=
  pkt_State pkt = s_cachedState s /\ pkt_Diag pkt = s_localDiag s /\
  pkt_Poll pkt = s_pollActive s /\ pkt_Final pkt = s_pendingFinal s /\
  pkt_Demand pkt = false /\ pkt_DetectMult pkt = s_detectMult s /\
  pkt_MyDiscriminator pkt = s_localDiscr s /\ pkt_YourDiscriminator pkt = s_remoteDiscr s /\
  pkt_DesiredMinTxInterval pkt =
    Z.quot (if s_cachedState s =? StateUp then s_desiredMinTxInterval s
            else Z.max (s_desiredMinTxInterval s) slowTxInterval) Microsecond /\
  pkt_RequiredMinRxInterval pkt = Z.quot (s_requiredMinRxInterval s) Microsecond /\
  pkt_RequiredMinEchoRxInterval pkt = 0 /\
  pkt_AuthPresent pkt = bool_decide (is_Some (s_auth s)).

(** ** The cached packet *)

Ltac ses_consts :=
  unfold wire_interval, MaxWireInterval, slowTxInterval, initialRemoteMinRx, Microsecond, Second in *;
  change ((2 ^ 32 - 1) * 1000) with 4294967295000 in *.

Lemma microseconds_exact d :
  wire_interval d -> microsecondsFromDuration d = Z.quot d Microsecond.
Proof.
  unfold microsecondsFromDuration. intros H. ses_consts.
  rewrite Z.quot_div_nonneg by lia. width_lia.
Qed.

Lemma build_wf s : session_inv s -> wf_packet (buildControlPacket s).1.
Proof.
  intros I. destruct I as [Hst Hdg [Hd Hd0] Hr _ _ _ _ _ Hm Hlive _ _ _]. constructor; cbn; try done.
  - lia.
  - split; [done|]. intros H0. unfold StateDown, StateAdminDown, StateInit, StateUp in *.
    destruct (decide (s_cachedState s = 2 \/ s_cachedState s = 3)) as [Hc|Hc];
      [by destruct (Hlive Hc)|lia].
  - apply u32_range.
  - apply u32_range.
Qed.

Lemma build_carries s oa b :
  session_inv s ->
  carries s {| (buildControlPacket s).1 with pkt_Auth := oa; pkt_AuthPresent := b |} <->
  b = bool_decide (is_Some (s_auth s)).
Proof.
  intros I. unfold carries. cbn.
  destruct (inv_tx _ I) as [Htx _]. destruct (inv_rx _ I) as [Hrx _].
  assert (microsecondsFromDuration
    (if negb (s_cachedState s =? StateUp) && (s_desiredMinTxInterval s <? slowTxInterval)
     then slowTxInterval else s_desiredMinTxInterval s) =
    Z.quot (if s_cachedState s =? StateUp then s_desiredMinTxInterval s
            else Z.max (s_desiredMinTxInterval s) slowTxInterval) Microsecond) as Heq.
  { destruct (s_cachedState s =? StateUp); cbn [negb andb]; [by apply microseconds_exact|].
    destruct (Z.ltb_spec (s_desiredMinTxInterval s) slowTxInterval).
    - rewrite Z.max_r by lia. apply microseconds_exact. ses_consts; lia.
    - rewrite Z.max_l by lia. by apply microseconds_exact. }
  split; [by intros (_ & _ & _ & _ & _ & _ & _ & _ & _ & _ & _ & ?)|intros ->].
  split_and!; try done. by apply microseconds_exact.
Qed.

(** The buffer after a rebuild: a well-formed packet that carries the session,
    followed by what was there before. *)
Definition rebuilt (s : Session) (buf : list Z) : Prop :=
  exists pkt rest, wf_packet pkt /\ carries s pkt /\ buf = wire pkt ++ rest.

Lemma marshal_wf_cached pkt s :
  wf_packet pkt -> 64 <= zlen (s_cachedPacket s) ->
  exists rest, marshal_cached pkt s = Some {| s with s_cachedPacket := wire pkt ++ rest |} /\
    length (wire pkt ++ rest) = length (s_cachedPacket s).
Proof.
  intros W Hl. pose proof (total_len_range _ W). pose proof (length_wire _ W) as Hw.
  unfold marshal_cached. rewrite MarshalControlPacket_wire by (done || lia). eexists. split; [done|].
  unfold zlen in *. rewrite length_app, length_drop. lia.
Qed.

(** Signing a packet of the session and serializing it again. *)
Lemma sign_wf a st keys pkt buf :
  auth_ok a st keys -> wf_unsigned pkt -> 64 <= zlen buf ->
  exists st' oa buf', Sign a st keys pkt buf =
    (Ok tt, st', {| pkt with pkt_Auth := oa; pkt_AuthPresent := true |}, buf') /\
    wf_packet {| pkt with pkt_Auth := oa; pkt_AuthPresent := true |} /\
    auth_ok a st' keys /\ length buf' = length buf.
Proof.
  intros [Hrcv Hkey Hty Hid Hlk] W Hl. unfold Sign.
  pose proof (validateAuthKey_len _ Hkey) as Hlen. rewrite Hty in Hlen.
  destruct (hash_params a) as [p|] eqn:Hp.
  - destruct (hash_params_ok _ _ Hp) as [Hok _].
    destruct (signHash_ok st keys pkt buf p Hok W Hid) as [Hs W'].
    { pose proof (hp_digest_nat _ Hok). lia. }
    rewrite Hs. do 3 eexists. split; [reflexivity|]. split; [exact W'|]. split; [by constructor|].
    rewrite length_app, length_drop. pose proof (total_len_range _ W').
    pose proof (length_wire _ W'). unfold zlen in *. lia.
  - destruct a; try discriminate Hp. do 3 eexists. split; [reflexivity|]. split; [|done].
    apply wf_signed; [done|]. split; [done|]. left. cbn. cbn in Hlen.
    assert (u8 (authSimpleHeaderSize + zlen (key_Secret (CurrentKey keys)))
            = 3 + zlen (key_Secret (CurrentKey keys))) as ->.
    { unfold authSimpleHeaderSize. width_lia. }
    unfold authSimpleHeaderSize, simplePasswordMinLen, simplePasswordMaxLen. split_and!; (done || lia).
Qed.

Lemma signCachedPacket_ok a pkt s st keys st' pkt' buf' :
  s_authState s = Some st -> s_authKeys s = Some keys ->
  Sign a st keys pkt (s_cachedPacket s) = (Ok tt, st', pkt', buf') ->
  signCachedPacket a pkt s =
  marshal_cached pkt' {| s with s_authState := Some st'; s_cachedPacket := buf' |}.
Proof. intros H1 H2 H3. unfold signCachedPacket. destruct s; cbn in *; subst. by rewrite H3. Qed.

(** The session after a rebuild: the pending Final is consumed, and beyond the
    buffer and the authentication state nothing changes. *)
Definition after_rebuild (s : Session) (buf : list Z) (ost : option AuthState) : Session :=
  {| s with s_pendingFinal := false; s_cachedPacket := buf; s_authState := ost |}.

Lemma rebuild_ok s :
  session_inv s ->
  exists buf ost,
    rebuildCachedPacket s = Some (after_rebuild s buf ost) /\
    length buf = length (s_cachedPacket s) /\ rebuilt s buf /\
    session_auth_ok (after_rebuild s buf ost).
Proof.
  intros I. pose proof (build_wf _ I) as W. pose proof (inv_auth _ I) as Ha.
  destruct (inv_buf _ I) as [Hb _]. pose proof (build_carries s) as Hc.
  change (rebuildCachedPacket s) with
    (match s_auth s with
     | Some a => signCachedPacket a (buildControlPacket s).1 (buildControlPacket s).2
     | None => marshal_cached (buildControlPacket s).1 (buildControlPacket s).2
     end).
  set (pkt := (buildControlPacket s).1) in *.
  unfold session_auth_ok in *.
  destruct (s_auth s) as [a|] eqn:Ea.
  - destruct Ha as (st & keys & Hst & Hks & Hok).
    destruct (sign_wf a st keys pkt (s_cachedPacket s) Hok) as (st' & oa & buf' & Hs & W' & Hok' & Hl');
      [exact W|done|].
    rewrite (signCachedPacket_ok a pkt (buildControlPacket s).2 st keys _ _ _ Hst Hks Hs).
    destruct (marshal_wf_cached _ (after_rebuild s buf' (Some st')) W') as (rest & Hm & Hl);
      [cbn; unfold zlen in *; lia|].
    do 2 eexists. split; [exact Hm|]. split; [etrans; [exact Hl|exact Hl']|]. split.
    + do 2 eexists. split; [exact W'|]. split; [|done]. by apply Hc.
    + cbn [after_rebuild s_auth]. rewrite Ea. exists st', keys. done.
  - destruct (marshal_wf_cached pkt (buildControlPacket s).2 W) as (rest & Hm & Hl); [done|].
    exists (wire pkt ++ rest), (s_authState s). split; [exact Hm|]. split; [done|]. split.
    + exists pkt, rest. split; [done|]. split; [|done]. by apply (proj2 (Hc None false I)).
    + cbn [after_rebuild s_auth]. by rewrite Ea.
Qed.

(** ** Sending *)

(** A buffer handed to the sender, read the way the peer reads it. *)
Definition speaks (s : Session) (w : list Z) : Prop :=
  exists pkt, UnmarshalControlPacket w = Ok pkt /\ wf_packet pkt /\ carries s pkt.

Definition after_send (s : Session) (buf : list Z) (ost : option AuthState) (n : Z) : Session :=
  {| s with s_pendingFinal := false; s_cachedPacket := buf; s_authState := ost;
            s_packetsSent := n |}.

Definition put_sent (y : Sys) (s : Session) (w : list Z) (ok : bool) : Sys :=
  {| y with ses := s; sent := sent y ++ [(w, ok)]; metered := if ok then metered y ++ [MetricSent] else metered y |}.

Lemma inv_after_send s buf ost n :
  session_inv s -> length buf = length (s_cachedPacket s) ->
  session_auth_ok (after_send s buf ost n) -> session_inv (after_send s buf ost n).
Proof.
  intros I Hl Ha. destruct I. constructor; try done. cbn. unfold zlen in *. by rewrite Hl.
Qed.

Lemma carries_length s pkt l : carries s pkt -> carries s {| pkt with pkt_Length := l |}.
Proof. done. Qed.

Lemma rebuilt_len s buf :
  rebuilt s buf -> exists n, buf !! 3%nat = Some n /\ 24 <= n <= 52 /\ speaks s (take (Z.to_nat n) buf) /\
    forall hi, n <= hi -> speaks s (take (Z.to_nat hi)
      (take (Z.to_nat n) buf ++ replicate (Z.to_nat hi - Z.to_nat n) 0 ++ drop (Z.to_nat hi) buf)).
Proof.
  intros (pkt & rest & W & Hc & ->). pose proof (length_wire _ W) as Hw. unfold zlen in Hw.
  pose proof (total_len_range _ W). exists (total_len pkt).
  assert (Hd : forall r, speaks s (wire pkt ++ r)).
  { intros r. exists {| pkt with pkt_Length := total_len pkt |}.
    split; [by apply UnmarshalControlPacket_wire|]. split; [|by apply carries_length].
    destruct W. by constructor. }
  split; [unfold wire, wire_header; cbn; by rewrite u8_small by lia|]. split; [done|].
  rewrite take_app_length' by lia. split; [rewrite <- (app_nil_r (wire pkt)); apply Hd|].
  intros hi Hhi. rewrite take_app_ge by lia. apply Hd.
Qed.

Lemma sendControl_ok e y :
  session_inv (ses y) ->
  exists buf ost n w,
    sendControl e y =
      Some (put_sent y (after_send (ses y) buf ost n) w (send_ok e (length (sent y)))) /\
    session_inv (after_send (ses y) buf ost n) /\ speaks (ses y) w.
Proof.
  intros I. destruct (rebuild_ok _ I) as (buf & ost & Hr & Hl & Hb & Ha).
  destruct (rebuilt_len _ _ Hb) as (n & H3 & Hn & Hsp & Hpad). destruct (inv_buf _ I) as [Hb64 Hp].
  unfold sendControl. rewrite Hr. cbn [mbind option_bind].
  change (s_cachedPacket (after_rebuild (ses y) buf ost)) with buf. rewrite H3. cbn [mbind option_bind].
  change (s_paddedPduSize (after_rebuild (ses y) buf ost)) with (s_paddedPduSize (ses y)).
  set (ps := s_paddedPduSize (ses y)) in *. unfold zlen in *.
  set (cnt := if send_ok e (length (sent y)) then u64 (s_packetsSent (ses y) + 1)
              else s_packetsSent (ses y)).
  destruct ((0 <? ps) && (n <? ps)) eqn:Hc.
  - bools. unfold clear_range. rewrite bool_decide_true by lia. cbn [mbind option_bind s_cachedPacket].
    set (buf' := take (Z.to_nat n) buf ++ replicate (Z.to_nat ps - Z.to_nat n) 0 ++ drop (Z.to_nat ps) buf).
    assert (Hl' : length buf' = length (s_cachedPacket (ses y))).
    { unfold buf'. rewrite !length_app, length_take, length_replicate, length_drop. lia. }
    rewrite (proj2 (Z.ltb_ge _ _)) by (unfold zlen; lia).
    exists buf', ost, cnt. eexists. split; [|split].
    + unfold cnt. destruct (send_ok e (length (sent y))); reflexivity.
    + apply inv_after_send; [done..|exact Ha].
    + apply Hpad. lia.
  - cbn [mbind option_bind]. change (s_cachedPacket (after_rebuild (ses y) buf ost)) with buf.
    rewrite (proj2 (Z.ltb_ge _ _)) by (unfold zlen; lia).
    exists buf, ost, cnt. eexists. split; [|split].
    + unfold cnt. destruct (send_ok e (length (sent y))); reflexivity.
    + apply inv_after_send; [done..|exact Ha].
    + exact Hsp.
Qed.

(** ** What every packet of a session says *)

(** The facts that hold of all packets of a session, whenever they were sent. *)
Definition legal (s : Session) (w : list Z) : Prop :=
  exists pkt, UnmarshalControlPacket w = Ok pkt /\
    pkt_MyDiscriminator pkt = s_localDiscr s /\ pkt_DetectMult pkt = s_detectMult s /\
    pkt_AuthPresent pkt = bool_decide (is_Some (s_auth s)) /\
    pkt_Demand pkt = false /\ pkt_RequiredMinEchoRxInterval pkt = 0 /\
    (pkt_State pkt <> StateUp -> 1000000 <= pkt_DesiredMinTxInterval pkt).

Lemma speaks_legal s w : session_inv s -> speaks s w -> legal s w.
Proof.
  intros I (pkt & Hu & _ & Hst & _ & _ & _ & Hdm & Hmult & Hmy & _ & Htx & _ & He & Ha).
  exists pkt. split_and!; try done. intros Hne. rewrite Htx. rewrite Hst in Hne.
  rewrite (proj2 (Z.eqb_neq _ _) Hne). destruct (inv_tx _ I) as [? ?]. ses_consts.
  rewrite Z.quot_div_nonneg by lia. Z.div_mod_to_equations. lia.
Qed.

(** Whether the peer reads a Final bit in a buffer. *)
Definition is_final (w : list Z) : bool :=
  match UnmarshalControlPacket w with Ok pkt => pkt_Final pkt | _ => false end.

(** Finals sent, plus one if a Final is still owed. *)
Definition finals (y : Sys) : nat := length (List.filter (fun p => is_final p.1) (sent y)).
Definition credit (y : Sys) : nat := (finals y + if s_pendingFinal (ses y) then 1 else 0)%nat.

(** The session without the fields that sending, re-arming a timer and the FSM's
    actions touch. *)
Definition core (s : Session) : Session :=
  {| s with s_remoteDiscr := 0; s_localDiag := 0; s_jitterRng := 0; s_pendingFinal := false;
            s_cachedPacket := []; s_authState := None; s_packetsSent := 0 |}.

Lemma core_detection s s' : core s = core s' -> calcDetectionTimeHot s = calcDetectionTimeHot s'.
Proof. intros H. exact (f_equal calcDetectionTimeHot H). Qed.

Lemma core_legal s s' w : core s = core s' -> legal s w -> legal s' w.
Proof.
  intros H. unfold legal.
  pose proof (f_equal s_localDiscr H) as H1. pose proof (f_equal s_detectMult H) as H2.
  pose proof (f_equal s_auth H) as H3. cbn in H1, H2, H3. by rewrite H1, H2, H3.
Qed.

Record good (y : Sys) : Prop := {
  good_inv : session_inv (ses y);
  good_sent : Forall (fun p => legal (ses y) p.1) (sent y);
}.

(** What a sub-step of a handler leaves as it was. *)
Record quiet (e : Env) (y y' : Sys) : Prop := {
  q_core : core (ses y') = core (ses y);
  q_tx : is_Some (txTimer y) -> is_Some (txTimer y');
  q_det : detectTimer y' = detectTimer y \/
          detectTimer y' = Some (now e + calcDetectionTimeHot (ses y'));
  q_credit : credit y' = credit y;
  q_final : s_pendingFinal (ses y) = false -> s_pendingFinal (ses y') = false;
  q_sent : exists out, sent y' = sent y ++ out;
  q_notified : notified y' = notified y;
}.

Lemma quiet_refl e y : quiet e y y.
Proof. constructor; auto. exists []. by rewrite app_nil_r. Qed.

Lemma quiet_trans e y1 y2 y3 : quiet e y1 y2 -> quiet e y2 y3 -> quiet e y1 y3.
Proof.
  intros [C1 T1 D1 K1 F1 [o1 S1] N1] [C2 T2 D2 K2 F2 [o2 S2] N2]. constructor; auto; try congruence.
  - destruct D2 as [D2|D2]; [|by right]. rewrite D2. destruct D1 as [D1|D1]; [by left|right].
    rewrite D1. f_equal. f_equal. by apply core_detection.
  - exists (o1 ++ o2). by rewrite S2, S1, app_assoc.
Qed.

Lemma sendControl_good e y :
  good y -> exists y', sendControl e y = Some y' /\ good y' /\ quiet e y y' /\
    s_pendingFinal (ses y') = false /\ s_remoteDiscr (ses y') = s_remoteDiscr (ses y) /\
    s_localDiag (ses y') = s_localDiag (ses y).
Proof.
  intros [I Hs]. destruct (sendControl_ok e y I) as (buf & ost & n & w & -> & I' & Hsp).
  eexists. split; [done|]. split; [|split; [constructor|done]]; try done.
  - constructor; [done|]. cbn. apply Forall_app. split; [exact Hs|]. constructor; [|done].
    by apply (speaks_legal (ses y)).
  - by left.
  - unfold credit, finals. cbn. rewrite List.filter_app, length_app. cbn.
    destruct Hsp as (pkt & Hu & _ & _ & _ & _ & Hf & _). unfold is_final at 2. rewrite Hu, Hf.
    destruct (s_pendingFinal (ses y)); cbn; lia.
  - cbn. eauto.
Qed.

Definition with_rng (s : Session) (r : jitterRNG) : Session := {| s with s_jitterRng := r |}.

Lemma applyJitter_frame s i : exists d r, applyJitter s i = (d, with_rng s r).
Proof.
  unfold applyJitter. destruct (i <=? 0); [exists i, (s_jitterRng s); by destruct s|].
  destruct (applyJitterWithRand _ _ _ _) as [d r]. by exists d, r.
Qed.

Lemma resetTxTimer_good e y :
  good y -> good (resetTxTimer e y) /\ quiet e y (resetTxTimer e y) /\
    is_Some (txTimer (resetTxTimer e y)) /\ detectTimer (resetTxTimer e y) = detectTimer y /\
    s_remoteDiscr (ses (resetTxTimer e y)) = s_remoteDiscr (ses y) /\
    s_localDiag (ses (resetTxTimer e y)) = s_localDiag (ses y).
Proof.
  intros [I Hs]. unfold resetTxTimer.
  destruct (applyJitter_frame (ses y) (calcTxIntervalHot (ses y))) as (d & r & ->).
  split; [constructor; [destruct I; by constructor|exact Hs]|]. split; [|by cbn; eauto].
  constructor; cbn; eauto. exists []. by rewrite app_nil_r.
Qed.

Lemma resetDetectTimer_good e y :
  good y -> good (resetDetectTimer e y) /\ quiet e y (resetDetectTimer e y) /\
    detectTimer (resetDetectTimer e y) = Some (now e + calcDetectionTimeHot (ses y)).
Proof.
  intros [I Hs]. split; [by constructor|]. split; [|done]. constructor; cbn; eauto.
  exists []. by rewrite app_nil_r.
Qed.

(** ** Actions *)

Ltac quiet_upd := constructor; cbn; eauto; exists []; by rewrite app_nil_r.

Lemma set_diag_good e y d :
  good y -> 0 <= d < 9 ->
  let y' := upd (fun s => {| s with s_localDiag := d |}) y in good y' /\ quiet e y y'.
Proof.
  intros [I Hs] Hd. split; [constructor; [destruct I; by constructor|exact Hs]|quiet_upd].
Qed.

Lemma clear_remote_good e y :
  good y -> s_cachedState (ses y) = StateDown ->
  let y' := upd (fun s => {| s with s_remoteDiscr := 0 |}) y in good y' /\ quiet e y y'.
Proof.
  intros [I Hs] Hd. split; [constructor; [|exact Hs]|quiet_upd].
  destruct I. constructor; try done. cbn. rewrite Hd. unfold StateDown, StateInit, StateUp. lia.
Qed.

(** The effect of one action on the two fields actions assign. *)
Definition acts_on (acts : list Z) (s s' : Session) : Prop :=
  s_localDiag s' = default (s_localDiag s) (diag_of_actions acts) /\
  s_remoteDiscr s' = (if bool_decide (ActionNotifyDown ∈ acts) then 0 else s_remoteDiscr s).

(** What running one action establishes. *)
Record action_post (e : Env) (a : Z) (y y' : Sys) : Prop := {
  ap_good : good y';
  ap_quiet : quiet e y y';
  ap_acts : acts_on [a] (ses y) (ses y');
  ap_timers : a = ActionNotifyUp \/ a = ActionNotifyDown ->
    is_Some (txTimer y') /\ detectTimer y' = Some (now e + calcDetectionTimeHot (ses y'));
  ap_final : a = ActionSendControl -> s_pendingFinal (ses y') = false;
}.

Lemma not_in_single a : a <> ActionNotifyDown -> bool_decide (ActionNotifyDown ∈ [a]) = false.
Proof. intros. apply bool_decide_false. by intros ?%list_elem_of_singleton. Qed.

Lemma action_send e y :
  good y -> exists y', executeAction e ActionSendControl y = Some y' /\
                       action_post e ActionSendControl y y'.
Proof.
  intros G. destruct (sendControl_good e y G) as (y1 & Hs & G1 & Q1 & F1 & R1 & L1).
  destruct (resetTxTimer_good e y1 G1) as (G2 & Q2 & _ & _ & R2 & L2).
  exists (resetTxTimer e y1). split; [unfold executeAction; rewrite Z.eqb_refl, Hs; done|]. constructor; try done.
  - by eapply quiet_trans.
  - split; [by rewrite L2, L1|by rewrite not_in_single, R2, R1].
  - by intros [?|?].
  - intros _. by apply Q2.
Qed.

Lemma action_notify_up e y :
  good y -> exists y', executeAction e ActionNotifyUp y = Some y' /\
                       action_post e ActionNotifyUp y y'.
Proof.
  intros G. destruct (resetTxTimer_good e y G) as (G1 & Q1 & T1 & _ & R1 & L1).
  destruct (resetDetectTimer_good e _ G1) as (G2 & Q2 & D2).
  eexists. split; [reflexivity|]. constructor; try done.
  by eapply quiet_trans.
Qed.

Lemma action_notify_down e y :
  good y -> s_cachedState (ses y) = StateDown ->
  exists y', executeAction e ActionNotifyDown y = Some y' /\ action_post e ActionNotifyDown y y'.
Proof.
  intros G Hd. destruct (clear_remote_good e y G Hd) as [G0 Q0].
  destruct (resetTxTimer_good e _ G0) as (G1 & Q1 & T1 & _ & R1 & L1).
  destruct (resetDetectTimer_good e _ G1) as (G2 & Q2 & D2).
  eexists. split; [reflexivity|]. constructor; try done.
  eapply quiet_trans; [exact Q0|]. by eapply quiet_trans.
Qed.

Lemma action_set_diag e y a d :
  good y -> 0 <= d < 9 -> diag_of_action a = Some d ->
  a <> ActionNotifyUp -> a <> ActionNotifyDown -> a <> ActionSendControl ->
  action_post e a y (upd (fun s => {| s with s_localDiag := d |}) y).
Proof.
  intros G Hr Ha N1 N2 N3. destruct (set_diag_good e y d G Hr) as [G' Q'].
  constructor; try done; [|by intros [?|?]].
  split; [|by rewrite not_in_single]. unfold diag_of_actions. cbn. by rewrite Ha.
Qed.

Lemma executeAction_good e a y :
  good y -> (a = ActionNotifyDown -> s_cachedState (ses y) = StateDown) ->
  exists y', executeAction e a y = Some y' /\ action_post e a y y'.
Proof.
  intros G Hd. destruct (decide (a = ActionSendControl)) as [->|N1]; [by apply action_send|].
  destruct (decide (a = ActionNotifyUp)) as [->|N2]; [by apply action_notify_up|].
  destruct (decide (a = ActionNotifyDown)) as [->|N3]; [apply action_notify_down; auto|].
  destruct (decide (a = ActionSetDiagTimeExpired)) as [->|N4];
    [eexists; split; [done|by apply action_set_diag]|].
  destruct (decide (a = ActionSetDiagNeighborDown)) as [->|N5];
    [eexists; split; [done|by apply action_set_diag]|].
  destruct (decide (a = ActionSetDiagAdminDown)) as [->|N6];
    [eexists; split; [done|by apply action_set_diag]|].
  exists y. unfold executeAction. apply Z.eqb_neq in N1, N2, N3, N4, N5, N6.
  split; [by rewrite N1, N2, N3, N4, N5, N6|]. apply Z.eqb_neq in N1, N2, N3.
  constructor; try done; [apply quiet_refl| |by intros [?|?]].
  split; [|by rewrite not_in_single]. unfold diag_of_actions, diag_of_action. cbn.
  by rewrite N4, N5, N6.
Qed.

(** Several actions in a row. *)
Lemma acts_on_cons a rest s1 s2 s3 :
  acts_on [a] s1 s2 -> acts_on rest s2 s3 -> acts_on (a :: rest) s1 s3.
Proof.
  intros [D1 R1] [D2 R2]. split.
  - rewrite D2, D1. unfold diag_of_actions. cbn. destruct (diag_of_action a) as [d|]; [|done].
    rewrite !last_cons. by destruct (last (omap diag_of_action rest)).
  - rewrite R2, R1. destruct (decide (a = ActionNotifyDown)) as [->|Hne].
    + rewrite (bool_decide_true (_ ∈ [_])) by set_solver.
      rewrite (bool_decide_true (_ ∈ _ :: _)) by set_solver. by case_bool_decide.
    + rewrite not_in_single by done.
      apply (f_equal (fun b : bool => if b then 0 else s_remoteDiscr s1)).
      apply bool_decide_ext. rewrite elem_of_cons.
      split; [by right|intros [?|?]; [by subst|done]].
Qed.

(** What running a list of actions establishes. *)
Record actions_post (e : Env) (acts : list Z) (y y' : Sys) : Prop := {
  asp_good : good y';
  asp_quiet : quiet e y y';
  asp_acts : acts_on acts (ses y) (ses y');
  asp_timers : ActionNotifyUp ∈ acts \/ ActionNotifyDown ∈ acts ->
    is_Some (txTimer y') /\ detectTimer y' = Some (now e + calcDetectionTimeHot (ses y'));
  asp_final : ActionSendControl ∈ acts -> s_pendingFinal (ses y') = false;
}.

Lemma executeActions_good e acts y :
  good y -> (ActionNotifyDown ∈ acts -> s_cachedState (ses y) = StateDown) ->
  exists y', executeActions e acts y = Some y' /\ actions_post e acts y y'.
Proof.
  revert y. induction acts as [|a rest IH]; intros y G Hd.
  { exists y. split; [done|]. constructor; try done; [apply quiet_refl| |]; [by intros [?%elem_of_nil|?%elem_of_nil]|by intros ?%elem_of_nil]. }
  destruct (executeAction_good e a y G) as (y1 & H1 & [G1 Q1 A1 T1 F1]).
  { intros ->. apply Hd. set_solver. }
  destruct (IH y1 G1) as (y2 & H2 & [G2 Q2 A2 T2 F2]).
  { intros Hin. pose proof (f_equal s_cachedState (q_core _ _ _ Q1)) as Hc. cbn in Hc. rewrite Hc.
    apply Hd. set_solver. }
  exists y2. split; [cbn; by rewrite H1|]. constructor; try done.
  - by eapply quiet_trans.
  - by eapply acts_on_cons.
  - intros Hin.
    destruct (decide (ActionNotifyUp ∈ rest \/ ActionNotifyDown ∈ rest)) as [Hr|Hr]; [by apply T2|].
    assert (Ha : a = ActionNotifyUp \/ a = ActionNotifyDown) by set_solver.
    destruct (T1 Ha) as [Tx Dt]. split; [by apply Q2|].
    destruct (q_det _ _ _ Q2) as [->|?]; [|done]. rewrite Dt. do 2 f_equal.
    symmetry. apply core_detection, Q2.
  - intros [<-|Hin]%elem_of_cons; [apply Q2; by apply F1|by apply F2].
Qed.

(** ** State changes *)

Definition set_state (e : Env) (r : FSMResult) (s : Session) : Session :=
  {| s with s_state := NewState r; s_cachedState := NewState r;
            s_stateTransitions := u64 (s_stateTransitions s + 1); s_lastStateChange := now e |}.

(** The session between the state assignment and the actions. *)
Definition entered (e : Env) (r : FSMResult) (s : Session) : Session :=
  if Changed r then set_state e r s else s.

(** The notification a change puts on the channel. *)
Definition change_of (e : Env) (r : FSMResult) (s : Session) : StateChange :=
  {| sc_LocalDiscr := s_localDiscr s; sc_PeerAddr := s_peerAddr s; sc_OldState := OldState r;
     sc_NewState := NewState r; sc_Diag := s_localDiag s; sc_Timestamp := now e;
     sc_Type := s_sessionType s; sc_Interface := s_ifName s |}.

Definition emitted (e : Env) (r : FSMResult) (y : Sys) : list StateChange :=
  if Changed r && s_hasNotifyCh (ses y) && notify_room e (notify_attempts y)
  then [change_of e r (ses y)] else [].

Record fsm_post (e : Env) (r : FSMResult) (y y' : Sys) : Prop := {
  fp_good : good y';
  fp_core : core (ses y') = core (entered e r (ses y));
  fp_acts : acts_on (Actions r) (ses y) (ses y');
  fp_credit : credit y' = credit y;
  fp_tx : is_Some (txTimer y) -> is_Some (txTimer y');
  fp_det : detectTimer y' = detectTimer y \/
           detectTimer y' = Some (now e + calcDetectionTimeHot (ses y'));
  fp_timers : ActionNotifyUp ∈ Actions r \/ ActionNotifyDown ∈ Actions r ->
    is_Some (txTimer y') /\ detectTimer y' = Some (now e + calcDetectionTimeHot (ses y'));
  fp_final : s_pendingFinal (ses y) = false \/ ActionSendControl ∈ Actions r ->
    s_pendingFinal (ses y') = false;
  fp_notified : notified y' = notified y ++ emitted e r y;
  fp_sent : exists out, sent y' = sent y ++ out;
}.

(** The system between the state assignment and the actions. *)
Definition entered_sys (e : Env) (r : FSMResult) (y : Sys) : Sys :=
  if Changed r then
    logStateChange e r (upd (fun s => {| s with s_state := NewState r; s_cachedState := NewState r |}) y)
  else y.

Lemma entered_sys_spec e r y :
  ses (entered_sys e r y) = entered e r (ses y) /\
  sent (entered_sys e r y) = sent y /\ txTimer (entered_sys e r y) = txTimer y /\
  detectTimer (entered_sys e r y) = detectTimer y /\
  notified (entered_sys e r y) = notified y ++ emitted e r y.
Proof.
  unfold entered_sys, entered, emitted. destruct (Changed r); cbn [andb]; [|by rewrite app_nil_r].
  destruct y as [s ? ? ? nf k mt]. destruct s. unfold logStateChange, emitNotification. cbn.
  match goal with |- context [if negb ?b then _ else _] => destruct b end;
    cbn; [|by rewrite app_nil_r].
  destruct (notify_room e k); by rewrite ?app_nil_r.
Qed.

Lemma set_state_inv e r s :
  session_inv s -> 0 <= NewState r < 4 ->
  (NewState r = StateInit \/ NewState r = StateUp -> s_remoteDiscr s <> 0 /\ s_remoteDetectMult s <> 0) ->
  session_inv (set_state e r s).
Proof. intros [] H1 H2. by constructor. Qed.

Lemma executeFSMActions_good e r y :
  good y -> 0 <= NewState r < 4 ->
  (Changed r = true -> NewState r = StateInit \/ NewState r = StateUp ->
   s_remoteDiscr (ses y) <> 0 /\ s_remoteDetectMult (ses y) <> 0) ->
  (ActionNotifyDown ∈ Actions r -> Changed r = true /\ NewState r = StateDown) ->
  exists y', executeFSMActions e r y = Some y' /\ fsm_post e r y y'.
Proof.
  intros [I Hs] Hn Hl Hd. change (executeFSMActions e r y) with (executeActions e (Actions r) (entered_sys e r y)).
  destruct (entered_sys_spec e r y) as (Es & Esent & Etx & Edet & Enot).
  assert (Hsame : forall w, legal (ses y) w -> legal (entered e r (ses y)) w)
    by (intros w; unfold entered; by destruct (Changed r)).
  assert (G : good (entered_sys e r y)).
  { constructor; rewrite ?Es, ?Esent.
    - unfold entered. destruct (Changed r); [|done]. by apply set_state_inv; auto.
    - eapply Forall_impl; [exact Hs|]. intros p. apply Hsame. }
  destruct (executeActions_good e (Actions r) _ G) as (y' & Hy & [G' Q A T F]).
  { intros Hin. destruct (Hd Hin) as [Hc Hst]. rewrite Es. unfold entered. by rewrite Hc. }
  exists y'. split; [done|]. rewrite Es in *.
  assert (Hpf : s_pendingFinal (entered e r (ses y)) = s_pendingFinal (ses y))
    by (unfold entered; by destruct (Changed r)).
  destruct Q as [Qc Qt Qd Qk Qf Qs Qn]. rewrite Es, Esent, Etx, Edet, Enot in *. constructor; try done.
  - destruct A as [A1 A2]. split; [rewrite A1|rewrite A2]; unfold entered; by destruct (Changed r).
  - rewrite Qk. unfold credit, finals. by rewrite Es, Esent, Hpf.
  - intros [Hp|Hin]; [apply Qf; by rewrite Hpf|by apply F].
Qed.

(** ** The FSM table, as the handlers use it *)

Definition fsm_facts (s e : Z) : Prop :=
  let r := apply_event s e in
  OldState r = s /\ 0 <= NewState r < 4 /\
  (Changed r = false -> NewState r = s) /\
  (ActionNotifyDown ∈ Actions r -> Changed r = true /\ NewState r = StateDown) /\
  (4 <= e -> Changed r = true -> NewState r <> StateInit /\ NewState r <> StateUp).

#[local] Instance fsm_facts_dec s e : Decision (fsm_facts s e).
Proof. unfold fsm_facts. apply _. Defined.

Lemma apply_event_facts s e : 0 <= s < 4 -> 0 <= e < 7 -> fsm_facts s e.
Proof.
  intros Hs He.
  assert (H : Forall (fun s => Forall (fsm_facts s) (seqZ 0 7)) (seqZ 0 4))
    by (apply (bool_decide_unpack _); vm_compute; done).
  rewrite Forall_forall in H. specialize (H s ltac:(apply elem_of_seqZ; lia)).
  rewrite Forall_forall in H. apply H, elem_of_seqZ. lia.
Qed.

Lemma RecvStateToEvent_range s : 0 <= RecvStateToEvent s < 4.
Proof.
  unfold RecvStateToEvent, EventRecvAdminDown, EventRecvDown, EventRecvInit, EventRecvUp.
  repeat case_match; lia.
Qed.

(** ** Verification inside the session *)

Definition with_auth (s : Session) (ost : option AuthState) : Session :=
  {| s with s_authState := ost |}.

Lemma SimplePassword_no_panic keys pkt :
  (forall id, LookupKey keys id <> Panic) -> SimplePassword_Verify keys pkt <> Panic.
Proof.
  intros Hk. unfold SimplePassword_Verify, requireAuthSection. destruct (pkt_Auth pkt) as [auth|]; [|done].
  cbn. destruct (negb _); [done|]. destruct (LookupKey _ _) eqn:E; [|done|by apply Hk in E].
  unfold verifyPassword. by repeat case_match.
Qed.

Lemma Verify_auth_ok a st keys pkt buf n :
  auth_ok a st keys ->
  (forall auth, pkt_Auth pkt = Some auth -> is_u32 (auth_SequenceNumber auth)) ->
  exists r st' buf', Verify a st keys pkt buf n = (r, st', buf') /\ r <> Panic /\ auth_ok a st' keys.
Proof.
  intros A Hs. destruct A as [Hr Hkey Hty Hid Hlk]. unfold Verify.
  destruct (hash_params a) as [p|] eqn:Hp.
  - destruct (hash_params_ok _ _ Hp) as [Hok _].
    destruct (verifyHash_cases st keys pkt buf n p Hok Hlk)
      as [(err & buf' & ->)|(auth & key & Ha & _ & _ & _ & _ & _ & _ & ->)].
    + do 3 eexists. split; [done|]. split; [done|by constructor].
    + do 3 eexists. split; [done|]. split; [done|]. constructor; try done. by apply Hs.
  - do 3 eexists. split; [done|]. split; [by apply SimplePassword_no_panic|by constructor].
Qed.

Lemma wf_packet_seq pkt auth :
  wf_packet pkt -> pkt_Auth pkt = Some auth -> is_u32 (auth_SequenceNumber auth).
Proof.
  intros W Ha. pose proof (wf_auth_section _ W) as Hw. rewrite Ha in Hw. destruct Hw as [_ Hw].
  wf_auth_cases Hw; [rewrite Hs; unfold is_u32; lia|done..].
Qed.

Lemma verify_received_eq s item a st keys r st' buf' :
  s_auth s = Some a -> s_authState s = Some st -> s_authKeys s = Some keys ->
  Verify a st keys (item_pkt item) (item_wire item) (zlen (item_wire item)) = (r, st', buf') ->
  r <> Panic ->
  verify_received s item =
  Some (match r with Ok _ => true | _ => false end, with_auth s (Some st')).
Proof.
  intros H1 H2 H3 H4 Hr. unfold verify_received. destruct s; cbn in *; subst. rewrite H4.
  by destruct r.
Qed.

Lemma verify_received_ok s item :
  session_inv s -> wf_packet (item_pkt item) ->
  exists b ost, verify_received s item = Some (b, with_auth s ost) /\ session_inv (with_auth s ost).
Proof.
  intros I W. pose proof (inv_auth _ I) as Ha. unfold session_auth_ok in Ha.
  destruct (s_auth s) as [a|] eqn:Ea.
  - destruct Ha as (st & keys & Hst & Hks & Hok).
    destruct (Verify_auth_ok a st keys (item_pkt item) (item_wire item) (zlen (item_wire item)) Hok)
      as (r & st' & buf' & Hv & Hr & Hok'); [intros auth; by apply wf_packet_seq|].
    do 2 eexists. split; [by eapply verify_received_eq|].
    destruct I. constructor; try done. unfold session_auth_ok. cbn. rewrite Ea. eauto.
  - exists true, (s_authState s). split; [unfold verify_received; rewrite Ea; by destruct s|].
    destruct I. constructor; try done.
Qed.

(** ** Steps of packet reception *)

Lemma duration_wire us :
  is_u32 us -> wire_interval (durationFromMicroseconds us) /\
               durationFromMicroseconds us = us * Microsecond.
Proof.
  intros H. unfold durationFromMicroseconds. rewrite i64_small; ses_consts; unfold is_i64, is_u32 in *; lia.
Qed.

Definition received (e : Env) (pkt : ControlPacket) (s : Session) : Session :=
  update_remote pkt {| s with s_packetsReceived := u64 (s_packetsReceived s + 1); s_lastPacketRecv := now e |}.

Lemma received_inv e pkt s : session_inv s -> wf_packet pkt -> session_inv (received e pkt s).
Proof.
  intros [] W. destruct (wf_my_discr _ W) as [Hd Hd0]. pose proof (wf_detect_mult _ W) as Hm.
  destruct (duration_wire _ (wf_required_rx _ W)) as [H1 _].
  destruct (duration_wire _ (wf_desired_tx _ W)) as [H2 _].
  constructor; cbn; try done; try lia.
Qed.

Lemma applyPendingParams_inv s : session_inv s -> session_inv (applyPendingParams s).
Proof.
  intros I. unfold applyPendingParams.
  assert (H1 : session_inv (if 0 <? s_pendingDesiredMinTx s
           then {| s with s_desiredMinTxInterval := s_pendingDesiredMinTx s;
                          s_pendingDesiredMinTx := 0 |} else s)).
  { destruct (Z.ltb_spec 0 (s_pendingDesiredMinTx s)); [|done].
    destruct I as [????? ? [? ?]]. constructor; cbn; try done. }
  revert H1. set (s1 := if 0 <? s_pendingDesiredMinTx s then _ else s). intros I1.
  destruct (Z.ltb_spec 0 (s_pendingRequiredMinRx s1)); [|done].
  destruct I1 as [????? ? [? ?]]. constructor; cbn; try done.
Qed.

Definition with_params (s : Session) (tx rx ptx prx : Z) : Session :=
  {| s with s_desiredMinTxInterval := tx; s_requiredMinRxInterval := rx;
            s_pendingDesiredMinTx := ptx; s_pendingRequiredMinRx := prx |}.

Lemma applyPendingParams_frame s :
  exists tx rx ptx prx, applyPendingParams s = with_params s tx rx ptx prx.
Proof.
  unfold applyPendingParams. destruct (0 <? s_pendingDesiredMinTx s).
  - cbn [s_pendingRequiredMinRx]. destruct (0 <? s_pendingRequiredMinRx s); do 4 eexists; reflexivity.
  - destruct (0 <? s_pendingRequiredMinRx s); do 4 eexists; [reflexivity|].
    instantiate (1 := s_pendingRequiredMinRx s). instantiate (1 := s_pendingDesiredMinTx s).
    instantiate (1 := s_requiredMinRxInterval s). instantiate (1 := s_desiredMinTxInterval s).
    by destruct s.
Qed.

(** Terminating a Poll Sequence changes parameters, never the session's state. *)
Lemma terminatePoll_ok s :
  session_inv s ->
  exists s', terminatePollSequence s = Some s' /\ session_inv s' /\ s_pendingFinal s' = false /\
    s_cachedState s' = s_cachedState s /\ s_lastPacketRecv s' = s_lastPacketRecv s /\
    s_remoteDiscr s' = s_remoteDiscr s /\ s_remoteDetectMult s' = s_remoteDetectMult s /\
    s_auth s' = s_auth s /\ s_localDiscr s' = s_localDiscr s /\ s_detectMult s' = s_detectMult s /\
    s_role s' = s_role s /\ s_localDiag s' = s_localDiag s /\
    s_remoteMinRxInterval s' = s_remoteMinRxInterval s /\ s_recvCh s' = s_recvCh s.
Proof.
  intros I. unfold terminatePollSequence.
  assert (I1 : session_inv {| s with s_pollActive := false |}) by (destruct I; by constructor).
  pose proof (applyPendingParams_inv _ I1) as I2.
  destruct (applyPendingParams_frame {| s with s_pollActive := false |}) as (tx & rx & ptx & prx & Hf).
  rewrite Hf in *. destruct (rebuild_ok _ I2) as (buf & ost & -> & Hl & _ & Ha).
  eexists. split; [done|]. split; [exact (inv_after_send _ buf ost (s_packetsSent s) I2 Hl Ha)|].
  by split_and!.
Qed.
