(* ===== verification/SessionSteps.v ===== *)
(** * Session handlers and the event loop

    The system invariant (session invariant, legal packets, armed timers, the
    detection deadline) and its preservation by the handlers and by every step of
    a running session; then what the handlers do, stated for every reachable
    session. *)

From S2P Require Import Prelude Packet Fsm Auth Netip Jitter Session SessionInv.

Local Open Scope Z_scope.

(** ** The system invariant *)

Definition live (s : Session) : Prop := s_cachedState s = StateInit \/ s_cachedState s = StateUp.

(** The moment a silent peer is declared gone: Section 6.8.4. *)
Definition detection_deadline (s : Session) : Z :=
  s_lastPacketRecv s +
  Z.max (s_requiredMinRxInterval s) (s_remoteDesiredMinTxInterval s) * s_remoteDetectMult s.

Record sys_inv (y : Sys) : Prop := {
  sy_good : good y;
  sy_final : s_pendingFinal (ses y) = false;
  sy_tx : is_Some (txTimer y);
  sy_det : is_Some (detectTimer y);
  sy_deadline : live (ses y) -> detectTimer y = Some (detection_deadline (ses y));
}.

(** Detection times never overflow. *)
Lemma detection_exact s :
  session_inv s -> s_remoteDetectMult s <> 0 ->
  calcDetectionTimeHot s =
  Z.max (s_requiredMinRxInterval s) (s_remoteDesiredMinTxInterval s) * s_remoteDetectMult s.
Proof.
  intros I Hm. unfold calcDetectionTimeHot. rewrite (proj2 (Z.eqb_neq _ _) Hm).
  destruct (inv_rx _ I) as [Hrx _]. destruct (inv_remote _ I) as [_ Hrtx].
  pose proof (inv_remote_mult _ I) as Hmult. apply i64_small. unfold is_i64. ses_consts. nia.
Qed.

(** ** Applying an FSM event *)

Lemma applyFSMEvent_good e ev y :
  good y -> 0 <= ev < 7 ->
  (ev < 4 -> s_remoteDiscr (ses y) <> 0 /\ s_remoteDetectMult (ses y) <> 0) ->
  exists y', applyFSMEvent e ev y = Some y' /\
             fsm_post e (apply_event (s_cachedState (ses y)) ev) y y'.
Proof.
  intros G He Hl. unfold applyFSMEvent. pose proof (inv_state _ (good_inv _ G)) as Hs.
  destruct (apply_event_facts _ _ Hs He) as (_ & Hn & _ & Hnd & Hlate).
  apply executeFSMActions_good; try done.
  intros Hc Hst. destruct (decide (ev < 4)) as [Hlt|Hge]; [by apply Hl|].
  destruct (Hlate ltac:(lia) Hc). by destruct Hst.
Qed.

Lemma entered_state e r s :
  (Changed r = false -> NewState r = s_cachedState s) ->
  s_cachedState (entered e r s) = NewState r.
Proof. unfold entered. destruct (Changed r); [done|]. intros H. by rewrite H. Qed.

Lemma fsm_post_state e ev y y' :
  session_inv (ses y) -> 0 <= ev < 7 ->
  fsm_post e (apply_event (s_cachedState (ses y)) ev) y y' ->
  s_cachedState (ses y') = NewState (apply_event (s_cachedState (ses y)) ev).
Proof.
  intros I He P. pose proof (f_equal s_cachedState (fp_core _ _ _ _ P)) as Hc. cbn in Hc. rewrite Hc.
  apply entered_state. apply (apply_event_facts _ _ (inv_state _ I) He).
Qed.

(** Once the peer's multiplier is known the deadline does not depend on the state. *)
Lemma entered_deadline e r s : detection_deadline (entered e r s) = detection_deadline s.
Proof. unfold entered. by destruct (Changed r). Qed.

Lemma core_deadline s s' : core s = core s' -> detection_deadline s = detection_deadline s'.
Proof. intros H. exact (f_equal detection_deadline H). Qed.

(** ** Reception *)

(** Whether a packet passes the authentication checks. *)
Definition accepts (s : Session) (item : recvItem) : bool :=
  checkAuthConsistency s (item_pkt item) &&
  match verify_received s item with Some (true, _) => true | _ => false end.

(** The session between the checks and the FSM: the remote values are recorded,
    an active Poll Sequence is terminated, a Final is owed if the peer polled. *)
Definition prepared (e : Env) (pkt : ControlPacket) (s : Session) : option Session :=
  let s := received e pkt s in
  s ← (if pkt_Final pkt && s_pollActive s then terminatePollSequence s else Some s);
  Some (if pkt_Poll pkt then {| s with s_pendingFinal := true |} else s).

Record prepared_post (e : Env) (pkt : ControlPacket) (s s' : Session) : Prop := {
  pp_inv : session_inv s';
  pp_final : s_pendingFinal s' = pkt_Poll pkt;
  pp_state : s_cachedState s' = s_cachedState s;
  pp_recv : s_lastPacketRecv s' = now e;
  pp_discr : s_remoteDiscr s' = pkt_MyDiscriminator pkt;
  pp_mult : s_remoteDetectMult s' = pkt_DetectMult pkt;
  pp_legal : forall w, legal s w -> legal s' w;
  pp_role : s_role s' = s_role s;
  pp_auth : s_auth s' = s_auth s;
  pp_minrx : s_remoteMinRxInterval s' = durationFromMicroseconds (pkt_RequiredMinRxInterval pkt);
  pp_diag : s_localDiag s' = s_localDiag s;
  pp_idle : s_pollActive s = false ->
    s_pollActive s' = false /\ s_requiredMinRxInterval s' = s_requiredMinRxInterval s;
  pp_queue : s_recvCh s' = s_recvCh s;
}.

Lemma prepared_ok e pkt s :
  session_inv s -> s_pendingFinal s = false -> wf_packet pkt ->
  exists s', prepared e pkt s = Some s' /\ prepared_post e pkt s s'.
Proof.
  intros I Hf W. pose proof (received_inv e pkt s I W) as I1. unfold prepared.
  assert (H : exists s1,
    (if pkt_Final pkt && s_pollActive (received e pkt s) then terminatePollSequence (received e pkt s)
     else Some (received e pkt s)) = Some s1 /\ session_inv s1 /\ s_pendingFinal s1 = false /\
    s_cachedState s1 = s_cachedState s /\ s_lastPacketRecv s1 = now e /\
    s_remoteDiscr s1 = pkt_MyDiscriminator pkt /\ s_remoteDetectMult s1 = pkt_DetectMult pkt /\
    s_auth s1 = s_auth s /\ s_localDiscr s1 = s_localDiscr s /\ s_detectMult s1 = s_detectMult s /\
    s_role s1 = s_role s /\ s_localDiag s1 = s_localDiag s /\
    s_remoteMinRxInterval s1 = durationFromMicroseconds (pkt_RequiredMinRxInterval pkt) /\
    (s_pollActive s = false ->
     s_pollActive s1 = false /\ s_requiredMinRxInterval s1 = s_requiredMinRxInterval s) /\ s_recvCh s1 = s_recvCh s).
  { destruct (pkt_Final pkt && s_pollActive (received e pkt s)) eqn:Hpoll.
    - destruct (terminatePoll_ok _ I1) as (s1 & Hs1 & ? & ? & ? & ? & ? & ? & ? & ? & ? & ? & ? & ? & ?).
      exists s1. split_and!; try done. intros Hna. apply andb_true_iff in Hpoll as [_ Hpa].
      change (s_pollActive (received e pkt s)) with (s_pollActive s) in Hpa. congruence.
    - eexists. by split_and!. }
  destruct H as (s1 & -> & I2 & F2 & C2 & L2 & R2 & M2 & A2 & D2 & T2 & O2 & G2 & X2 & P2 & Q2).
  cbn [mbind option_bind].
  eexists. split; [done|].
  assert (Hleg : forall w s', s_auth s' = s_auth s -> s_localDiscr s' = s_localDiscr s ->
    s_detectMult s' = s_detectMult s -> legal s w -> legal s' w)
    by (intros w s' E1 E2 E3; unfold legal; by rewrite E1, E2, E3).
  destruct (pkt_Poll pkt) eqn:Hp.
  - constructor; try done; [destruct I2; by constructor|intros w; by apply Hleg].
  - constructor; try done; [congruence|intros w; by apply Hleg].
Qed.

Lemma handleRecvPacket_eq e item y :
  handleRecvPacket e item y =
  if negb (checkAuthConsistency (ses y) (item_pkt item)) then Some y else
  '(go_on, s) ← verify_received (ses y) item;
  if negb go_on then Some {| y with ses := s |} else
  s ← prepared e (item_pkt item) s;
  y ← applyFSMEvent e (RecvStateToEvent (pkt_State (item_pkt item)))
        (resetDetectTimer e {| y with ses := s; metered := metered y ++ [MetricReceived] |});
  if s_pendingFinal (ses y) then y ← sendControl e y; Some (resetTxTimer e y) else Some y.
Proof.
  unfold handleRecvPacket, prepared. destruct (negb _); [done|].
  destruct (verify_received (ses y) item) as [[b s]|]; [|done]. cbn. destruct (negb b); [done|].
  fold (received e (item_pkt item) s).
  by destruct (if pkt_Final (item_pkt item) && _ then _ else _).
Qed.

(** A packet that fails verification leaves the session as it was. *)
Lemma verify_received_reject s item s' :
  session_inv s -> verify_received s item = Some (false, s') -> s' = s.
Proof.
  intros I H. pose proof (inv_auth _ I) as Ha. unfold session_auth_ok in Ha.
  unfold verify_received in H. destruct (s_auth s) as [a|] eqn:Ea; [|discriminate].
  destruct Ha as (st & keys & Hst & Hks & Hok). rewrite Hst, Hks in H.
  assert (Hsame : forall err st1 buf,
    Verify a st keys (item_pkt item) (item_wire item) (zlen (item_wire item)) = (Err err, st1, buf) ->
    st1 = st).
  { intros err st1 buf. unfold Verify. destruct (hash_params a) as [p|] eqn:Hp; [|congruence].
    destruct (hash_params_ok _ _ Hp) as [Hhp _].
    destruct (verifyHash_cases st keys (item_pkt item) (item_wire item) (zlen (item_wire item)) p
                Hhp (ao_lookup _ _ _ Hok)) as [(? & ? & ->)|(? & ? & _ & _ & _ & _ & _ & _ & _ & ->)];
      congruence. }
  destruct (Verify _ _ _ _ _ _) as [[r st1] buf] eqn:Hv. destruct r as [|err|]; try discriminate.
  injection H as <-. rewrite (Hsame err st1 buf eq_refl). destruct s; cbn in *. by subst.
Qed.

Lemma handleRecvPacket_rejected e item y :
  session_inv (ses y) -> wf_packet (item_pkt item) -> accepts (ses y) item = false ->
  handleRecvPacket e item y = Some y.
Proof.
  intros I W Hacc. rewrite handleRecvPacket_eq. unfold accepts in Hacc.
  destruct (checkAuthConsistency _ _); cbn [negb andb] in *; [|done].
  destruct (verify_received_ok _ item I W) as (b & ost & Hv & _). rewrite Hv in Hacc |- *.
  destruct b; [discriminate|]. apply verify_received_reject in Hv; [|done]. cbn. rewrite Hv.
  by destruct y.
Qed.

(** What an accepted packet does. *)
Record recv_post (e : Env) (pkt : ControlPacket) (y y' : Sys) : Prop := {
  rp_inv : sys_inv y';
  rp_finals : finals y' = (finals y + if pkt_Poll pkt then 1 else 0)%nat;
  rp_state : s_cachedState (ses y') =
    NewState (apply_event (s_cachedState (ses y)) (RecvStateToEvent (pkt_State pkt)));
  rp_recv : s_lastPacketRecv (ses y') = now e;
  rp_mult : s_remoteDetectMult (ses y') = pkt_DetectMult pkt;
  rp_deadline : detectTimer y' = Some (detection_deadline (ses y'));
  rp_role : s_role (ses y') = s_role (ses y);
  rp_auth : s_auth (ses y') = s_auth (ses y);
  rp_minrx : s_remoteMinRxInterval (ses y') =
             durationFromMicroseconds (pkt_RequiredMinRxInterval pkt);
  rp_idle : s_pollActive (ses y) = false ->
    s_pollActive (ses y') = false /\
    s_requiredMinRxInterval (ses y') = s_requiredMinRxInterval (ses y);
  rp_discr : s_remoteDiscr (ses y') =
    (if bool_decide (ActionNotifyDown ∈
       Actions (apply_event (s_cachedState (ses y)) (RecvStateToEvent (pkt_State pkt))))
     then 0 else pkt_MyDiscriminator pkt);
  rp_diag : s_localDiag (ses y') = default (s_localDiag (ses y))
    (diag_of_actions (Actions (apply_event (s_cachedState (ses y))
                                 (RecvStateToEvent (pkt_State pkt)))));
  rp_queue : s_recvCh (ses y') = s_recvCh (ses y);
}.

Lemma reply_final e y :
  good y -> is_Some (txTimer y) ->
  exists y', (if s_pendingFinal (ses y)
              then y ← sendControl e y; Some (resetTxTimer e y) else Some y) = Some y' /\
    good y' /\ core (ses y') = core (ses y) /\ credit y' = credit y /\
    s_pendingFinal (ses y') = false /\ is_Some (txTimer y') /\
    acts_on [] (ses y) (ses y') /\
    (detectTimer y' = detectTimer y \/
     detectTimer y' = Some (now e + calcDetectionTimeHot (ses y'))).
Proof.
  intros G Ht. destruct (s_pendingFinal (ses y)) eqn:Hf.
  - destruct (sendControl_good e y G) as (y1 & -> & G1 & Q1 & F1 & R1 & L1). cbn [mbind option_bind].
    destruct (resetTxTimer_good e y1 G1) as (G2 & Q2 & T2 & _ & R2 & L2).
    destruct (quiet_trans _ _ _ _ Q1 Q2) as [Qc Qt Qd Qk Qf Qs Qn].
    assert (Hac : acts_on [] (ses y) (ses (resetTxTimer e y1)))
      by (split; [by rewrite L2, L1|by rewrite R2, R1]).
    eexists. split; [done|]. split_and!; try done. by apply Q2.
  - exists y. split_and!; auto. by split.
Qed.

Lemma core_fields s s' :
  core s = core s' ->
  s_cachedState s = s_cachedState s' /\ s_lastPacketRecv s = s_lastPacketRecv s' /\
  s_remoteDetectMult s = s_remoteDetectMult s'.
Proof.
  intros H. split_and!; [exact (f_equal s_cachedState H)|exact (f_equal s_lastPacketRecv H)
                        |exact (f_equal s_remoteDetectMult H)].
Qed.

Lemma entered_fields e r s :
  s_lastPacketRecv (entered e r s) = s_lastPacketRecv s /\
  s_remoteDetectMult (entered e r s) = s_remoteDetectMult s.
Proof. unfold entered. by destruct (Changed r). Qed.

(** A timer armed on reception is set to the deadline. *)
Lemma deadline_at e s :
  session_inv s -> s_lastPacketRecv s = now e -> s_remoteDetectMult s <> 0 ->
  now e + calcDetectionTimeHot s = detection_deadline s.
Proof. intros I Hr Hm. unfold detection_deadline. by rewrite Hr, detection_exact. Qed.

Lemma deadline_step e y y' :
  session_inv (ses y') -> s_lastPacketRecv (ses y') = now e -> s_remoteDetectMult (ses y') <> 0 ->
  detection_deadline (ses y') = detection_deadline (ses y) ->
  detectTimer y = Some (detection_deadline (ses y)) ->
  detectTimer y' = detectTimer y \/ detectTimer y' = Some (now e + calcDetectionTimeHot (ses y')) ->
  detectTimer y' = Some (detection_deadline (ses y')).
Proof.
  intros I Hr Hm He Hd [->| ->]; [by rewrite Hd, He|by rewrite deadline_at].
Qed.

(** The FSM and the reply to a Poll, from a freshly prepared session. *)
Lemma recv_fsm e ev y :
  good y -> 0 <= ev < 4 -> s_remoteDiscr (ses y) <> 0 -> s_remoteDetectMult (ses y) <> 0 ->
  s_lastPacketRecv (ses y) = now e -> is_Some (txTimer y) ->
  detectTimer y = Some (detection_deadline (ses y)) ->
  exists y', (y ← applyFSMEvent e ev y;
              if s_pendingFinal (ses y) then y ← sendControl e y; Some (resetTxTimer e y)
              else Some y) = Some y' /\
    sys_inv y' /\ credit y' = credit y /\
    s_cachedState (ses y') = NewState (apply_event (s_cachedState (ses y)) ev) /\
    s_lastPacketRecv (ses y') = now e /\ s_remoteDetectMult (ses y') = s_remoteDetectMult (ses y) /\
    detectTimer y' = Some (detection_deadline (ses y')) /\
    core (ses y') = core (entered e (apply_event (s_cachedState (ses y)) ev) (ses y)) /\
    acts_on (Actions (apply_event (s_cachedState (ses y)) ev)) (ses y) (ses y').
Proof.
  intros G Hev Hd0 Hm Hr Ht Hdt.
  destruct (applyFSMEvent_good e ev y G) as (y2 & -> & P); [lia|done|]. cbn [mbind option_bind].
  pose proof (fsm_post_state e ev y y2 (good_inv _ G) ltac:(lia) P) as Hst.
  destruct P as [G2 Pc Pa Pk Pt Pd _ _ _ _]. specialize (Pt Ht).
  destruct (core_fields _ _ Pc) as (_ & Lr2 & Lm2).
  destruct (entered_fields e (apply_event (s_cachedState (ses y)) ev) (ses y)) as [Er Em].
  destruct (reply_final e y2 G2 Pt) as (y3 & -> & G3 & C3 & K3 & F3 & T3 & A3 & D3).
  destruct (core_fields _ _ C3) as (Lc3 & Lr3 & Lm3).
  assert (D2 : detectTimer y2 = Some (detection_deadline (ses y2))).
  { apply (deadline_step e y y2); [apply G2|congruence|congruence| |done|done].
    by rewrite (core_deadline _ _ Pc), entered_deadline. }
  assert (D3' : detectTimer y3 = Some (detection_deadline (ses y3))).
  { apply (deadline_step e y2 y3); [apply G3|congruence|congruence| |done|done].
    by apply core_deadline. }
  exists y3. split; [done|]. split; [constructor; try done; by rewrite D3'|].
  do 6 (split; [congruence|]). destruct Pa as [P1 P2], A3 as [E1 E2]. unfold acts_on.
  rewrite E1, E2. by split.
Qed.

Lemma handleRecvPacket_accepted e item y :
  sys_inv y -> wf_packet (item_pkt item) -> accepts (ses y) item = true ->
  exists y', handleRecvPacket e item y = Some y' /\ recv_post e (item_pkt item) y y'.
Proof.
  intros [G Hf Ht Hd Hdl] W Hacc. rewrite handleRecvPacket_eq. unfold accepts in Hacc.
  apply andb_true_iff in Hacc as [-> Hacc]. cbn [negb].
  destruct (verify_received_ok _ item (good_inv _ G) W) as (b & ost & Hv & I1).
  rewrite Hv in Hacc |- *. destruct b; [|discriminate]. cbn [mbind option_bind negb].
  destruct (prepared_ok e (item_pkt item) _ I1 Hf W) as (s2 & -> & [I2 F2 C2 L2 R2 M2 Leg O2 U2 X2 Dg P2 Q2]).
  cbn [mbind option_bind].
  set (y1 := resetDetectTimer e {| y with ses := s2; metered := metered y ++ [MetricReceived] |}).
  assert (G1 : good y1).
  { constructor; [exact I2|]. eapply Forall_impl; [apply (good_sent _ G)|].
    intros p Hp. apply Leg. exact Hp. }
  destruct (wf_my_discr _ W) as [_ Hd0]. pose proof (wf_detect_mult _ W) as Hm.
  pose proof (RecvStateToEvent_range (pkt_State (item_pkt item))) as Hev.
  destruct (recv_fsm e _ y1 G1 Hev) as (y3 & H3 & Y3 & K3 & S3 & L3 & M3 & D3 & Cr & Ac);
    [change (s_remoteDiscr s2 <> 0); by rewrite R2|change (s_remoteDetectMult s2 <> 0); rewrite M2; lia|done|done| |].
  { change (detectTimer y1) with (Some (now e + calcDetectionTimeHot s2)). f_equal.
    apply (deadline_at e s2); [done..|rewrite M2; lia]. }
  change (s_cachedState (ses y1)) with (s_cachedState s2) in *. rewrite C2 in *.
  change (s_cachedState (with_auth (ses y) ost)) with (s_cachedState (ses y)) in *.
  set (r := apply_event (s_cachedState (ses y)) _) in *.
  assert (Hcore : forall A (f : Session -> A), f (core (ses y3)) = f (core (entered e r s2)))
    by (intros A f; exact (f_equal f Cr)).
  assert (Hent : forall A (f : Session -> A), (forall s, f (core (set_state e r s)) = f (core s)) ->
    f (core (ses y3)) = f (core s2)).
  { intros A f Hff. rewrite Hcore. unfold entered. destruct (Changed r); [apply Hff|done]. }
  destruct Ac as [Ad Ar].
  exists y3. split; [exact H3|]. constructor; try done.
  - unfold credit in K3. rewrite (sy_final _ Y3) in K3.
    change (s_pendingFinal (ses y1)) with (s_pendingFinal s2) in K3.
    rewrite F2 in K3. change (finals y1) with (finals y) in K3. lia.
  - rewrite M3. exact M2.
  - etrans; [exact (Hent _ s_role (fun _ => eq_refl))|exact O2].
  - etrans; [exact (Hent _ s_auth (fun _ => eq_refl))|exact U2].
  - etrans; [exact (Hent _ s_remoteMinRxInterval (fun _ => eq_refl))|exact X2].
  - intros Hp. destruct (P2 Hp) as [E1 E2].
    split; [etrans; [exact (Hent _ s_pollActive (fun _ => eq_refl))|exact E1]
           |etrans; [exact (Hent _ s_requiredMinRxInterval (fun _ => eq_refl))|exact E2]].
  - rewrite Ar. change (s_remoteDiscr (ses y1)) with (s_remoteDiscr s2). by rewrite R2.
  - rewrite Ad. change (s_localDiag (ses y1)) with (s_localDiag s2). by rewrite Dg.
  - etrans; [exact (Hent _ s_recvCh (fun _ => eq_refl))|exact Q2].
Qed.

Lemma handleRecvPacket_inv e item y :
  sys_inv y -> wf_packet (item_pkt item) ->
  exists y', handleRecvPacket e item y = Some y' /\ sys_inv y'.
Proof.
  intros Y W. destruct (accepts (ses y) item) eqn:Ha.
  - destruct (handleRecvPacket_accepted e item y Y W Ha) as (y' & H & []). eauto.
  - exists y. split; [|done]. apply handleRecvPacket_rejected; [apply Y|done..].
Qed.

(** ** Transmission timer *)

Lemma handleTxTimer_inv e y :
  sys_inv y ->
  exists y', handleTxTimer e {| y with txTimer := None |} = Some y' /\ sys_inv y' /\
    finals y' = finals y /\ core (ses y') = core (ses y) /\ detectTimer y' = detectTimer y.
Proof.
  intros [G Hf Ht Hd Hdl]. unfold handleTxTimer.
  set (y0 := {| y with txTimer := None |}).
  assert (G0 : good y0) by (destruct G; by constructor).
  assert (H : exists y1, maybeSendControl e y0 = Some y1 /\ good y1 /\ core (ses y1) = core (ses y) /\
    credit y1 = credit y /\ s_pendingFinal (ses y1) = false /\ detectTimer y1 = detectTimer y).
  { unfold maybeSendControl. case_match; [by exists y0|]. case_match; [by exists y0|].
    destruct (sendControl_ok e y0 (good_inv _ G0)) as (buf & ost & n & w & Hs & _ & _).
    destruct (sendControl_good e y0 G0) as (y1 & Hs1 & G1 & Q1 & F1 & _ & _).
    exists y1. split; [done|]. split; [done|]. split; [apply Q1|]. split; [apply Q1|]. split; [done|].
    rewrite Hs in Hs1. by injection Hs1 as <-. }
  destruct H as (y1 & -> & G1 & C1 & K1 & F1 & D1). cbn [mbind option_bind].
  destruct (resetTxTimer_good e y1 G1) as (G2 & Q2 & T2 & D2 & _ & _).
  destruct Q2 as [Qc _ _ Qk Qf _ _]. specialize (Qf F1).
  assert (C2 : core (ses (resetTxTimer e y1)) = core (ses y)) by congruence.
  eexists. split; [done|]. split_and!; try done; [|unfold credit in *; rewrite Qf, F1, Hf in *; lia|congruence].
  constructor; try done; rewrite D2, D1; [done|].
  rewrite (core_deadline _ _ C2). intros Hl. apply Hdl. unfold live in *.
  destruct (core_fields _ _ C2) as [<- _]. done.
Qed.

(** ** Leaving the live states *)

Lemma fsm_post_down e r y y' :
  fsm_post e r y y' -> s_pendingFinal (ses y) = false -> is_Some (txTimer y) ->
  is_Some (detectTimer y) \/ ActionNotifyDown ∈ Actions r -> ~ live (ses y') -> sys_inv y'.
Proof.
  intros P Hf Ht Hd Hl. constructor; [apply P|apply P; by left|by apply P| |done].
  destruct Hd as [Hd|Hd].
  - destruct (fp_det _ _ _ _ P) as [->| ->]; eauto.
  - destruct (fp_timers _ _ _ _ P) as [_ ->]; eauto.
Qed.

Lemma fsm_post_finals e r y y' :
  fsm_post e r y y' -> s_pendingFinal (ses y) = false -> finals y' = finals y.
Proof.
  intros P Hf. pose proof (fp_credit _ _ _ _ P) as Hk. unfold credit in Hk.
  rewrite (fp_final _ _ _ _ P (or_introl Hf)), Hf in Hk. lia.
Qed.

(** ** Detection timer *)

Lemma maybeResetAuthSeqKnown_frame e s :
  session_inv s -> exists ost, maybeResetAuthSeqKnown e s = with_auth s ost /\
                               session_inv (with_auth s ost).
Proof.
  intros I. unfold maybeResetAuthSeqKnown.
  assert (Hid : s = with_auth s (s_authState s)) by (by destruct s).
  destruct (s_authState s) as [st|] eqn:Est; [|exists None; by rewrite <- Hid].
  repeat (case_match; [exists (Some st); by rewrite <- Hid|]).
  eexists. split; [reflexivity|]. pose proof (inv_auth _ I) as Ha. destruct I. constructor; try done.
  unfold session_auth_ok in *. cbn. destruct (s_auth s) as [a|]; [|done].
  destruct Ha as (st' & keys & Hst & Hks & [Hr Hk Hty Hid' Hlk]). rewrite Est in Hst. injection Hst as <-.
  eexists _, keys. split; [done|]. split; [done|]. by constructor.
Qed.

Record detect_post (e : Env) (y y' : Sys) : Prop := {
  dp_inv : sys_inv y';
  dp_finals : finals y' = finals y;
  dp_live : live (ses y) ->
    s_cachedState (ses y') = StateDown /\ s_localDiag (ses y') = DiagControlTimeExpired /\
    s_remoteDiscr (ses y') = 0;
  dp_idle : ~ live (ses y) -> s_cachedState (ses y') = s_cachedState (ses y) /\
    sent y' = sent y /\ notified y' = notified y;
  dp_notified : live (ses y) -> notified y' = notified y ++
    emitted e (mkFSMResult (s_cachedState (ses y)) StateDown
                 [ActionSetDiagTimeExpired; ActionNotifyDown] true) y;
}.

Lemma handleDetectTimer_ok e y :
  sys_inv y -> exists y', handleDetectTimer e {| y with detectTimer := None |} = Some y' /\
                          detect_post e y y'.
Proof.
  intros [G Hf Ht _ _]. unfold handleDetectTimer.
  destruct (maybeResetAuthSeqKnown_frame e (ses y) (good_inv _ G)) as (ost & Hm & Im).
  unfold upd. cbn [ses]. rewrite Hm.
  set (y1 := {| y with detectTimer := None; ses := with_auth (ses y) ost |}).
  assert (G1 : good y1) by (destruct G; by constructor). cbn [ses].
  change (s_cachedState (with_auth (ses y) ost)) with (s_cachedState (ses y)).
  destruct (negb (s_cachedState (ses y) =? StateInit) && negb (s_cachedState (ses y) =? StateUp)) eqn:Hc.
  - bools. assert (Hnl : ~ live (ses y)) by (by intros [?|?]).
    destruct (resetDetectTimer_good e y1 G1) as (G2 & Q2 & D2). eexists. split; [done|].
    by constructor.
  - assert (Hl : live (ses y)).
    { apply andb_false_iff in Hc. unfold live. destruct Hc; bools; auto. }
    destruct (applyFSMEvent_good e EventTimerExpired y1 G1) as (y2 & H2 & P); [done|done|].
    exists y2. split; [exact H2|].
    pose proof (fsm_post_state e EventTimerExpired y1 y2 (good_inv _ G1) ltac:(done) P) as Hst.
    change (s_cachedState (ses y1)) with (s_cachedState (ses y)) in P, Hst.
    assert (Hr : apply_event (s_cachedState (ses y)) EventTimerExpired =
      mkFSMResult (s_cachedState (ses y)) StateDown [ActionSetDiagTimeExpired; ActionNotifyDown] true)
      by (destruct Hl as [-> | ->]; vm_compute; reflexivity).
    rewrite Hr in P, Hst. destruct (fp_acts _ _ _ _ P) as [Hdg Hrd].
    constructor; try done.
    + eapply fsm_post_down; [exact P|done|done|right; set_solver|].
      unfold live. rewrite Hst. by intros [?|?].
    + by apply (fsm_post_finals _ _ _ _ P).
    + intros _. exact (fp_notified _ _ _ _ P).
Qed.

(** ** Control commands *)

Lemma handleAdminDown_ok e y :
  sys_inv y -> exists y', handleAdminDown e y = Some y' /\ sys_inv y' /\ finals y' = finals y /\
    s_cachedState (ses y') = StateAdminDown /\ s_localDiag (ses y') = DiagAdminDown.
Proof.
  intros Y. pose proof Y as [G Hf Ht Hd Hdl]. unfold handleAdminDown.
  pose proof (inv_state _ (good_inv _ G)) as Hs.
  destruct (decide (s_cachedState (ses y) = StateAdminDown)) as [Ha|Ha].
  - rewrite Ha. eexists. split; [done|]. split; [|done].
    destruct (set_diag_good e y DiagAdminDown G ltac:(done)) as [G' Q']. by constructor.
  - assert (Hr : apply_event (s_cachedState (ses y)) EventAdminDown =
      mkFSMResult (s_cachedState (ses y)) StateAdminDown [ActionSetDiagAdminDown] true).
    { unfold StateAdminDown in Ha. assert (Hc : s_cachedState (ses y) = 1 \/ s_cachedState (ses y) = 2 \/
        s_cachedState (ses y) = 3) by lia. destruct Hc as [->|[->| ->]]; vm_compute; reflexivity. }
    rewrite Hr. cbn [Changed negb Actions app].
    destruct (executeFSMActions_good e (mkFSMResult (s_cachedState (ses y)) StateAdminDown
      [ActionSetDiagAdminDown; ActionSendControl] true) y G) as (y' & H & P);
      [done|by intros _ [?|?]|cbn; set_solver|].
    exists y'. split; [exact H|].
    pose proof (f_equal s_cachedState (fp_core _ _ _ _ P) : s_cachedState (ses y') = StateAdminDown) as Hst.
    destruct (fp_acts _ _ _ _ P) as [Hdg _]. split_and!; try done; [|by apply (fsm_post_finals _ _ _ _ P)].
    eapply fsm_post_down; [exact P|done|done|by left|]. unfold live. rewrite Hst. by intros [?|?].
Qed.

Lemma handlePathDown_ok e y :
  sys_inv y -> exists y', handlePathDown e y = Some y' /\ sys_inv y' /\ finals y' = finals y /\
    ~ live (ses y') /\ s_localDiag (ses y') = DiagPathDown /\
    s_cachedState (ses y') = (if s_cachedState (ses y) =? StateAdminDown then StateAdminDown else StateDown).
Proof.
  intros Y. pose proof Y as [G Hf Ht Hd Hdl]. unfold handlePathDown.
  destruct (set_diag_good e y DiagPathDown G ltac:(done)) as [G1 Q1].
  set (y1 := upd (fun s => {| s with s_localDiag := DiagPathDown |}) y) in *.
  destruct ((s_cachedState (ses y) =? StateDown) || (s_cachedState (ses y) =? StateAdminDown)) eqn:Hc.
  - eexists. split; [done|].
    assert (Hnl : ~ live (ses y1)).
    { apply orb_true_iff in Hc. unfold live. change (s_cachedState (ses y1)) with (s_cachedState (ses y)).
      destruct Hc; bools; unfold StateDown, StateAdminDown, StateInit, StateUp in *; lia. }
    split_and!; try done. change (s_cachedState (ses y1)) with (s_cachedState (ses y)).
    destruct (Z.eqb_spec (s_cachedState (ses y)) StateAdminDown) as [->|]; [done|]. rewrite orb_false_r in Hc. by bools.
  - destruct (executeFSMActions_good e (mkFSMResult (s_cachedState (ses y)) StateDown
      [ActionNotifyDown; ActionSendControl] true) y1 G1) as (y' & H & P);
      [done|by intros _ [?|?]|done|].
    exists y'. split; [exact H|].
    pose proof (f_equal s_cachedState (fp_core _ _ _ _ P) : s_cachedState (ses y') = StateDown) as Hst.
    destruct (fp_acts _ _ _ _ P) as [Hdg _].
    assert (Hnl : ~ live (ses y')) by (unfold live; rewrite Hst; by intros [?|?]).
    apply orb_false_iff in Hc as [_ Ha]. rewrite Ha.
    split_and!; try done; [|by apply (fsm_post_finals _ _ _ _ P)].
    eapply fsm_post_down; [exact P|done|done|by left|done].
Qed.

(** ** Construction and start *)

(** What the types of a configuration's fields and the key store's constructor
    guarantee. *)
Definition cfg_ok (cfg : SessionConfig) : Prop :=
  is_u8 (cfg_DetectMultiplier cfg) /\ is_u16 (cfg_PaddedPduSize cfg) /\
  match cfg_AuthKeys cfg with
  | None => True
  | Some keys =>
      validateAuthKey (CurrentKey keys) = Ok tt /\ is_u8 (key_ID (CurrentKey keys)) /\
      forall id, LookupKey keys id <> Panic
  end.

Definition rnd_ok (rnd : Randomness) : Prop :=
  match rnd_seq rnd with
  | Some (b0, b1, b2, b3) => is_byte b0 /\ is_byte b1 /\ is_byte b2 /\ is_byte b3
  | None => True
  end.

Lemma validate_facts cfg d :
  validateSessionConfig cfg d = Ok tt ->
  1 <= cfg_DetectMultiplier cfg /\
  0 < cfg_DesiredMinTxInterval cfg <= MaxWireInterval /\
  0 < cfg_RequiredMinRxInterval cfg <= MaxWireInterval /\ d <> 0 /\
  validateSessionAuthConfig cfg = Ok tt.
Proof.
  unfold validateSessionConfig. intros H. go_inv H. bools. split_and!; try done; lia.
Qed.

(** A session as [NewSession] returns it. *)
Record fresh_session (cfg : SessionConfig) (d : Z) (s : Session) : Prop := {
  fs_inv : session_inv s;
  fs_final : s_pendingFinal s = false;
  fs_states : s_state s = StateDown /\ s_cachedState s = StateDown /\ s_remoteState s = StateDown;
  fs_diag : s_localDiag s = DiagNone;
  fs_discr : s_localDiscr s = d /\ s_remoteDiscr s = 0;
  fs_params : s_desiredMinTxInterval s = cfg_DesiredMinTxInterval cfg /\
    s_requiredMinRxInterval s = cfg_RequiredMinRxInterval cfg /\
    s_detectMult s = cfg_DetectMultiplier cfg /\ s_remoteMinRxInterval s = 1000 /\
    s_pollActive s = false /\ s_role s = cfg_Role cfg /\ s_auth s = cfg_Auth cfg;
}.

Lemma initAuth_ok cfg rnd s s' :
  rnd_ok rnd -> cfg_ok cfg -> validateSessionAuthConfig cfg = Ok tt ->
  s_auth s = cfg_Auth cfg -> s_authKeys s = cfg_AuthKeys cfg -> s_authState s = None ->
  initAuth cfg rnd s = Ok s' ->
  exists ost, s' = with_auth s ost /\ session_auth_ok s'.
Proof.
  intros Hr (_ & _ & Hk) Hv E1 E2 E3 H. unfold initAuth in H. unfold validateSessionAuthConfig in Hv.
  destruct (cfg_Auth cfg) as [a|] eqn:Ea.
  - destruct (cfg_AuthKeys cfg) as [keys|]; [|discriminate].
    destruct Hk as (Hk1 & Hk2 & Hk3). case_match eqn:Ht; [discriminate|]. bools.
    unfold NewAuthState, rnd_ok in *. destruct (rnd_seq rnd) as [[[[b0 b1] b2] b3]|]; [|discriminate].
    injection H as <-. eexists. split; [reflexivity|].
    unfold session_auth_ok. cbn. rewrite E1. eexists _, keys. split; [done|]. split; [done|].
    constructor; try done.
  - injection H as <-. exists (s_authState s). split; [by destruct s|].
    unfold session_auth_ok. by rewrite E1.
Qed.

(** The session [NewSession] assembles before [initAuth]. *)
Definition blank_of (cfg : SessionConfig) (d : Z) (h : bool) (rnd : Randomness) : Session :=
  let pktBufSize :=
    if MaxPacketSize <? cfg_PaddedPduSize cfg then cfg_PaddedPduSize cfg else MaxPacketSize in
  {| s_state := StateDown; s_remoteState := StateDown; s_localDiag := DiagNone;
     s_localDiscr := d; s_remoteDiscr := 0;
     s_desiredMinTxInterval := cfg_DesiredMinTxInterval cfg;
     s_requiredMinRxInterval := cfg_RequiredMinRxInterval cfg;
     s_remoteMinRxInterval := initialRemoteMinRx; s_remoteDesiredMinTxInterval := 0;
     s_remoteDetectMult := 0; s_detectMult := cfg_DetectMultiplier cfg;
     s_remoteDemandMode := false; s_pollActive := false; s_pendingFinal := false;
     s_pendingDesiredMinTx := 0; s_pendingRequiredMinRx := 0;
     s_sessionType := cfg_Type cfg; s_role := cfg_Role cfg;
     s_peerAddr := cfg_PeerAddr cfg; s_localAddr := cfg_LocalAddr cfg;
     s_ifName := cfg_Interface cfg;
     s_cachedPacket := replicate (Z.to_nat pktBufSize) 0;
     s_paddedPduSize := cfg_PaddedPduSize cfg;
     s_auth := cfg_Auth cfg; s_authKeys := cfg_AuthKeys cfg; s_authState := None;
     s_packetsSent := 0; s_packetsReceived := 0; s_stateTransitions := 0;
     s_lastStateChange := 0; s_lastPacketRecv := 0;
     s_jitterRng := newJitterRNG (rnd_jitter rnd) (rnd_unixNano rnd) (rnd_unixMicro rnd);
     s_cachedState := StateDown; s_hasNotifyCh := h;
     s_recvCh := []; s_ctrlCh := []; s_running := false |}.

Lemma blank_of_inv cfg d h rnd ost :
  cfg_ok cfg -> is_u32 d -> validateSessionConfig cfg d = Ok tt ->
  session_auth_ok (with_auth (blank_of cfg d h rnd) ost) ->
  session_inv (with_auth (blank_of cfg d h rnd) ost).
Proof.
  intros (Hm' & Hp & _) Hd Hv Ha. destruct (validate_facts _ _ Hv) as (Hm & Htx & Hrx & Hd0 & _).
  constructor; cbn; try done; unfold is_u8, is_u16, StateDown, DiagNone, StateInit, StateUp in *;
    try (ses_consts; lia).
  all: unfold zlen, MaxPacketSize; rewrite length_replicate;
    destruct (Z.ltb_spec 64 (cfg_PaddedPduSize cfg)); lia.
Qed.

(** Every outcome of [NewSession]. *)
Lemma NewSession_cases cfg d h rnd :
  cfg_ok cfg -> rnd_ok rnd -> is_u32 d ->
  match NewSession cfg d h rnd with
  | Ok s => validateSessionConfig cfg d = Ok tt /\
      exists buf ost, s = after_rebuild (blank_of cfg d h rnd) buf ost /\ session_inv s
  | Err e => validateSessionConfig cfg d = Err e \/
             (e = ErrSessionAuth ErrRand /\ is_Some (cfg_Auth cfg) /\ rnd_seq rnd = None)
  | Panic => False
  end.
Proof.
  intros Hcfg Hrnd Hd. unfold NewSession. fold (blank_of cfg d h rnd).
  destruct (validateSessionConfig cfg d) as [[]|err|] eqn:Hv; cbn [mbind go_bind]; [|by left|].
  2: { unfold validateSessionConfig, validateSessionAuthConfig in Hv. by repeat case_match. }
  destruct (validate_facts _ _ Hv) as (_ & _ & _ & _ & Hva).
  destruct (initAuth cfg rnd (blank_of cfg d h rnd)) as [s1|err|] eqn:Hi; cbn [mbind go_bind].
  - destruct (initAuth_ok cfg rnd (blank_of cfg d h rnd) s1 Hrnd Hcfg Hva eq_refl eq_refl eq_refl Hi) as (ost & -> & Ha).
    pose proof (blank_of_inv cfg d h rnd ost Hcfg Hd Hv Ha) as I.
    destruct (rebuild_ok _ I) as (buf & ost' & -> & Hl & _ & Ha'). split; [done|].
    exists buf, ost'. split; [done|]. exact (inv_after_send _ buf ost' 0 I Hl Ha').
  - right. unfold initAuth in Hi. destruct (cfg_Auth cfg) as [a|]; [|discriminate].
    unfold NewAuthState in Hi. destruct (rnd_seq rnd) as [[[[? ?] ?] ?]|]; [discriminate|].
    injection Hi as <-. eauto.
  - unfold initAuth, NewAuthState in Hi. repeat case_match; discriminate.
Qed.

Lemma NewSession_ok cfg d h rnd s :
  cfg_ok cfg -> rnd_ok rnd -> is_u32 d -> NewSession cfg d h rnd = Ok s -> fresh_session cfg d s.
Proof.
  intros Hc Hr Hd Hn. pose proof (NewSession_cases cfg d h rnd Hc Hr Hd) as H. rewrite Hn in H.
  destruct H as (_ & buf & ost & -> & I). by constructor.
Qed.
