(* ===== verification/SessionProps.v ===== *)
(** * Properties of BFD sessions

    A session is reachable when it was built by [NewSession], possibly received
    calls before its goroutine started, was started by [Run], and took any
    sequence of loop turns and calls from other goroutines.  The theorems below
    hold of every reachable session. *)

From S2P Require Import Prelude Packet Fsm Auth Netip Jitter Session SessionInv SessionSteps.
From stdpp Require Import relations.

Local Open Scope Z_scope.

(** ** Reachable sessions *)

Inductive reachable : Sys -> Prop :=
| reach_start cfg d h rnd s0 s e :
    cfg_ok cfg -> rnd_ok rnd -> is_u32 d -> NewSession cfg d h rnd = Ok s0 ->
    rtc session_entry s0 s -> reachable (Run_start e s)
| reach_step y y' : reachable y -> session_step y y' -> reachable y'.

(** Calls of the entry points touch the queues, or put the session down. *)
Lemma entry_inv s s' :
  session_entry s s' -> session_inv s ->
  session_inv s' /\ s_pendingFinal s' = s_pendingFinal s /\ s_cachedState s' = s_cachedState s /\
  detection_deadline s' = detection_deadline s /\ (forall w, legal s w -> legal s' w) /\
  (s_state s' = s_state s \/ s_state s' = StateAdminDown).
Proof.
  intros Hs I. destruct Hs as [pkt wire s W|s|s].
  - unfold RecvPacket. case_bool_decide; [|auto 10].
    split; [|auto 10]. destruct I. constructor; try done. cbn. apply Forall_app. split; [done|].
    by constructor.
  - unfold SetPathDown. case_bool_decide; cbn [snd]; [|auto 10].
    split; [|auto 10]. destruct I. by constructor.
  - unfold SetAdminDown. destruct (_ && _).
    + split; [|auto 10]. destruct I. by constructor.
    + split; [|auto 10]. destruct I. by constructor.
Qed.

Lemma entries_inv s s' :
  rtc session_entry s s' -> session_inv s -> s_pendingFinal s = false -> s_state s = StateDown ->
  session_inv s' /\ s_pendingFinal s' = false /\
  (s_state s' = StateDown \/ s_state s' = StateAdminDown).
Proof.
  intros Hr I Hf Hst. assert (H : session_inv s /\ s_pendingFinal s = false /\
    (s_state s = StateDown \/ s_state s = StateAdminDown)) by auto. clear I Hf Hst.
  induction Hr as [|s1 s2 s3 H12 _ IH]; [done|]. apply IH. destruct H as (I & Hf & Hst).
  destruct (entry_inv _ _ H12 I) as (I' & Hf' & _ & _ & _ & Hst'). split; [done|].
  split; [congruence|]. destruct Hst' as [->| ->]; auto.
Qed.

Lemma Run_start_inv e s :
  session_inv s -> s_pendingFinal s = false -> s_state s = StateDown \/ s_state s = StateAdminDown ->
  sys_inv (Run_start e s).
Proof.
  intros I Hf Hst. unfold Run_start.
  set (s1 := {| s with s_running := true; s_cachedState := s_state s |}).
  assert (Hnl : ~ live s1).
  { unfold live. change (s_cachedState s1) with (s_state s).
    unfold StateDown, StateAdminDown, StateInit, StateUp in *. lia. }
  assert (I1 : session_inv s1).
  { destruct I. constructor; try done. cbn. unfold StateDown, StateAdminDown in Hst. lia. }
  destruct (applyJitter_frame s1 (calcTxIntervalHot s1)) as (dl & r & ->).
  assert (I2 : session_inv (with_rng s1 r)) by (destruct I1; by constructor).
  constructor; [by constructor|done|by eexists|by eexists|].
  intros Hl. by destruct Hnl.
Qed.

(** ** Every turn keeps the invariant *)

Lemma with_recvCh_inv y rest :
  sys_inv y -> Forall (fun it => wf_packet (item_pkt it)) rest ->
  sys_inv (upd (fun s => {| s with s_recvCh := rest |}) y).
Proof.
  intros [[I Hs] Hf Ht Hd Hdl] Hq. constructor; try done. constructor; [|done].
  destruct I. by constructor.
Qed.

Lemma with_ctrlCh_inv y rest :
  sys_inv y -> sys_inv (upd (fun s => {| s with s_ctrlCh := rest |}) y).
Proof.
  intros [[I Hs] Hf Ht Hd Hdl]. constructor; try done. constructor; [|done].
  destruct I. by constructor.
Qed.

Lemma turn_inv c e y r :
  sys_inv y -> runLoop_turn c e y = Some r -> exists y', r = Some y' /\ sys_inv y'.
Proof.
  intros Y H. destruct c; cbn in H.
  - destruct (s_recvCh (ses y)) as [|item rest] eqn:Hq; [done|]. injection H as <-.
    pose proof (inv_queue _ (good_inv _ (sy_good _ Y))) as Hwf. rewrite Hq in Hwf.
    apply Forall_cons_1 in Hwf as [W Hwf].
    destruct (handleRecvPacket_inv e item _ (with_recvCh_inv y rest Y Hwf) W) as (y' & -> & Y'). eauto.
  - destruct (s_ctrlCh (ses y)) as [|cmd rest] eqn:Hq; [done|]. injection H as <-.
    pose proof (with_ctrlCh_inv y rest Y) as Y1. unfold handleControlCommand.
    case_match; [destruct (handlePathDown_ok e _ Y1) as (y' & -> & Y' & _); eauto|].
    case_match; [destruct (handleAdminDown_ok e _ Y1) as (y' & -> & Y' & _); eauto|]. eauto.
  - case_match; [|done]. injection H as <-.
    destruct (handleTxTimer_inv e y Y) as (y' & -> & Y' & _). eauto.
  - case_match; [|done]. injection H as <-.
    destruct (handleDetectTimer_ok e y Y) as (y' & -> & []). eauto.
Qed.

Lemma entry_sys_inv y s : sys_inv y -> session_entry (ses y) s -> sys_inv {| y with ses := s |}.
Proof.
  intros [[I Hs] Hf Ht Hd Hdl] He. destruct (entry_inv _ _ He I) as (I' & Hf' & Hc & Hdd & Hleg & _).
  constructor; cbn [ses]; [|congruence|done|done|].
  - constructor; [done|]. eapply Forall_impl; [exact Hs|]. intros p. apply Hleg.
  - unfold live. cbn [ses detectTimer]. rewrite Hc, Hdd. exact Hdl.
Qed.

Lemma reachable_inv y : reachable y -> sys_inv y.
Proof.
  induction 1 as [cfg d h rnd s0 s e Hc Hr Hd Hn He|y y' _ IH Hs].
  - destruct (NewSession_ok _ _ _ _ _ Hc Hr Hd Hn) as [I Hf [Hst _] _ _ _].
    destruct (entries_inv _ _ He I Hf Hst) as (I' & Hf' & Hst'). by apply Run_start_inv.
  - destruct Hs as [c e y y' H|y s H]; [|by apply entry_sys_inv].
    destruct (turn_inv _ _ _ _ IH H) as (y1 & [= <-] & Y1). done.
Qed.

(** ** Transmission *)

(** The agreed transmission interval: Sections 6.8.2 and 6.8.3. *)
Definition tx_interval (s : Session) : Z :=
  Z.max (if s_cachedState s =? StateUp then s_desiredMinTxInterval s
         else Z.max slowTxInterval (s_desiredMinTxInterval s)) (s_remoteMinRxInterval s).

Lemma calcTxIntervalHot_eq s : calcTxIntervalHot s = tx_interval s.
Proof.
  unfold calcTxIntervalHot, tx_interval. destruct (s_cachedState s =? StateUp); cbn [negb andb]; [done|].
  destruct (Z.ltb_spec (s_desiredMinTxInterval s) slowTxInterval); f_equal; lia.
Qed.

Lemma tx_interval_range s : session_inv s -> 0 < tx_interval s <= 2 ^ 50.
Proof.
  intros I. destruct (inv_tx _ I) as [H1 H2]. destruct (inv_remote _ I) as [H3 _].
  unfold tx_interval. ses_consts. destruct (_ =? _); lia.
Qed.

(** [d] is [iv] reduced by the jitter RFC 5880 Section 6.8.7 prescribes, rounded
    to a nanosecond. *)
Definition jittered (mult iv d : Z) : Prop :=
  75 * iv <= 100 * d /\ 100 * d < (if mult =? 1 then 90 else 100) * iv + 100.

Lemma resetTxTimer_jitter e y :
  session_inv (ses y) ->
  exists d, txTimer (resetTxTimer e y) = Some (now e + d) /\
            jittered (s_detectMult (ses y)) (tx_interval (ses y)) d.
Proof.
  intros I. pose proof (tx_interval_range _ I) as Hiv. unfold resetTxTimer, applyJitter.
  rewrite calcTxIntervalHot_eq. rewrite (proj2 (Z.leb_gt _ _)) by lia.
  pose proof (jitter_range jitter_IntN (tx_interval (ses y)) (s_detectMult (ses y))
                (s_jitterRng (ses y)) jitter_IntN_range ltac:(lia)) as Hj.
  destruct (applyJitterWithRand _ _ _ _) as [d r]. eauto.
Qed.

(** Whether the periodic transmission of Section 6.8.7 is allowed. *)
Definition may_transmit (s : Session) : bool :=
  negb ((s_role s =? RolePassive) && (s_remoteDiscr s =? 0)) && negb (s_remoteMinRxInterval s =? 0).

Lemma handleTxTimer_effect e y :
  sys_inv y ->
  exists y', handleTxTimer e {| y with txTimer := None |} = Some y' /\ sys_inv y' /\
    core (ses y') = core (ses y) /\ s_remoteDiscr (ses y') = s_remoteDiscr (ses y) /\
    (if may_transmit (ses y)
     then exists w, sent y' = sent y ++ [(w, send_ok e (length (sent y)))] /\ speaks (ses y) w
     else sent y' = sent y) /\
    exists d, txTimer y' = Some (now e + d) /\
              jittered (s_detectMult (ses y)) (tx_interval (ses y)) d.
Proof.
  intros Y. destruct (handleTxTimer_inv e y Y) as (y' & H & Y' & _ & C & _).
  exists y'. split; [done|]. split; [done|]. split; [done|].
  assert (I : session_inv (ses y)) by apply Y.
  assert (Hj : forall z, core (ses z) = core (ses y) -> session_inv (ses z) ->
    exists d, txTimer (resetTxTimer e z) = Some (now e + d) /\
              jittered (s_detectMult (ses y)) (tx_interval (ses y)) d).
  { intros z Hc Iz. destruct (resetTxTimer_jitter e z Iz) as (d & Ht & Hd). exists d. split; [done|].
    rewrite (f_equal s_detectMult Hc : s_detectMult (ses z) = s_detectMult (ses y)) in Hd.
    rewrite (f_equal tx_interval Hc : tx_interval (ses z) = tx_interval (ses y)) in Hd. done. }
  assert (Hfr : forall z, s_remoteDiscr (ses (resetTxTimer e z)) = s_remoteDiscr (ses z) /\
                          sent (resetTxTimer e z) = sent z).
  { intros z. unfold resetTxTimer. by destruct (applyJitter_frame (ses z) (calcTxIntervalHot (ses z)))
      as (? & ? & ->). }
  set (y0 := {| y with txTimer := None |}) in *.
  unfold handleTxTimer, maybeSendControl in H. unfold may_transmit.
  change (ses y0) with (ses y) in H.
  destruct ((s_role (ses y) =? RolePassive) && (s_remoteDiscr (ses y) =? 0)); cbn [negb andb].
  { injection H as <-. destruct (Hfr y0) as [-> ->]. split_and!; try done. by apply Hj. }
  destruct (s_remoteMinRxInterval (ses y) =? 0); cbn [negb].
  { injection H as <-. destruct (Hfr y0) as [-> ->]. split_and!; try done. by apply Hj. }
  destruct (sendControl_ok e y0 I) as (buf & ost & n & w & Hs & I2 & Hsp). rewrite Hs in H.
  injection H as <-. match goal with |- context [resetTxTimer e ?z] => destruct (Hfr z) as [-> ->] end.
  split; [done|]. split; [by exists w|]. by apply Hj.
Qed.

(** ** Two sessions facing each other *)

(** Deliver a buffer the way the receive path does: decode it and hand it to the
    session. *)
Definition deliver (e : Env) (w : list Z) (y : Sys) : option Sys :=
  match UnmarshalControlPacket w with
  | Ok pkt => handleRecvPacket e (mkRecvItem pkt w) y
  | _ => None
  end.

(** The transmission timer of one session fires and the other session gets the
    last buffer handed to the sender. *)
Definition transmit (e : Env) (from to : Sys) : option (Sys * Sys) :=
  from' ← handleTxTimer e {| from with txTimer := None |};
  '(w, _) ← last (sent from');
  to' ← deliver e w to;
  Some (from', to').

Definition exchange_packets (e : Env) (p : Sys * Sys) : option (Sys * Sys) :=
  let '(a, b) := p in
  '(a, b) ← transmit e a b;
  '(b, a) ← transmit e b a;
  Some (a, b).

(** A session that keeps talking: no authentication, active role, no Poll
    Sequence, intervals of at least a microsecond. *)
Definition talker (s : Session) : Prop :=
  s_auth s = None /\ s_role s = RoleActive /\ s_pollActive s = false /\
  Microsecond <= s_requiredMinRxInterval s /\ s_remoteMinRxInterval s <> 0.

(** A packet of a talking session is accepted by another. *)
Lemma hear_spoken e pkt wire from to :
  session_inv from -> talker from -> sys_inv to -> talker (ses to) -> wf_packet pkt -> carries from pkt ->
  exists to', handleRecvPacket e (mkRecvItem pkt wire) to = Some to' /\ recv_post e pkt to to' /\ talker (ses to').
Proof.
  intros I (Ta & _ & _ & Tx & _) Y (Ra & Rr & Rp & Rx & _) W Hc.
  destruct Hc as (Hst & _ & _ & _ & _ & _ & _ & _ & _ & Hrx & _ & Hau).
  assert (Hacc : accepts (ses to) (mkRecvItem pkt wire) = true).
  { unfold accepts, checkAuthConsistency, verify_received. cbn. rewrite Hau, Ta, Ra. done. }
  destruct (handleRecvPacket_accepted e (mkRecvItem pkt wire) to Y W Hacc) as (y' & -> & P).
  exists y'. split; [done|]. split; [exact P|]. destruct P. cbn in *.
  destruct (rp_idle Rp) as [E1 E2]. unfold talker. rewrite rp_auth, rp_role, rp_minrx, E1, E2.
  split_and!; try done.
  rewrite Hrx. destruct (inv_rx _ I) as [Hw _].
  destruct (duration_wire (Z.quot (s_requiredMinRxInterval from) Microsecond)) as [_ ->].
  - rewrite <- microseconds_exact by done. apply u32_range.
  - ses_consts. rewrite Z.quot_div_nonneg by lia. Z.div_mod_to_equations. lia.
Qed.

Lemma deliver_spoken e w from to :
  session_inv from -> talker from -> sys_inv to -> talker (ses to) -> speaks from w ->
  exists to', deliver e w to = Some to' /\ sys_inv to' /\ talker (ses to') /\
    s_cachedState (ses to') =
      NewState (apply_event (s_cachedState (ses to)) (RecvStateToEvent (s_cachedState from))).
Proof.
  intros I T Y T2 (pkt & Hu & W & Hc). unfold deliver. rewrite Hu.
  destruct (hear_spoken e pkt w from to I T Y T2 W Hc) as (to' & H & P & T'). destruct Hc as (Hst & _).
  exists to'. destruct P. rewrite <- Hst. done.
Qed.

(** What a talking session sends when its timer fires. *)
Lemma speak e from : sys_inv from -> talker (ses from) ->
  exists from' w, handleTxTimer e {| from with txTimer := None |} = Some from' /\ sys_inv from' /\ talker (ses from') /\
    sent from' = sent from ++ [(w, send_ok e (length (sent from)))] /\ speaks (ses from) w /\
    core (ses from') = core (ses from) /\ s_remoteDiscr (ses from') = s_remoteDiscr (ses from) /\ is_Some (txTimer from').
Proof.
  intros Y T. destruct (handleTxTimer_effect e from Y) as (y' & Ht & Y' & C & R & Hs & d & Hd & _).
  assert (Hmay : may_transmit (ses from) = true).
  { destruct T as (_ & Tr & _ & _ & Tm). unfold may_transmit. rewrite Tr. cbn.
    by rewrite (proj2 (Z.eqb_neq _ _) Tm). }
  rewrite Hmay in Hs. destruct Hs as (w & Hs & Hsp). exists y', w.
  assert (talker (ses y')); [|by split_and!; [..|eexists]].
  destruct T as (E1 & E2 & E3 & E4 & E5). split_and!.
  - etrans; [exact (f_equal s_auth C)|exact E1].
  - etrans; [exact (f_equal s_role C)|exact E2].
  - etrans; [exact (f_equal s_pollActive C)|exact E3].
  - rewrite (f_equal s_requiredMinRxInterval C :
      s_requiredMinRxInterval (ses y') = s_requiredMinRxInterval (ses from)). done.
  - rewrite (f_equal s_remoteMinRxInterval C :
      s_remoteMinRxInterval (ses y') = s_remoteMinRxInterval (ses from)). done.
Qed.

Lemma transmit_spoken e from to :
  sys_inv from -> talker (ses from) -> sys_inv to -> talker (ses to) ->
  exists from' to', transmit e from to = Some (from', to') /\
    sys_inv from' /\ talker (ses from') /\ sys_inv to' /\ talker (ses to') /\
    s_cachedState (ses from') = s_cachedState (ses from) /\
    s_cachedState (ses to') =
      NewState (apply_event (s_cachedState (ses to)) (RecvStateToEvent (s_cachedState (ses from)))).
Proof.
  intros Y T Y2 T2. destruct (speak e from Y T) as (y' & w & Ht & Y' & T' & Hs & Hsp & C & _).
  unfold transmit. rewrite Ht. cbn [mbind option_bind]. rewrite Hs, last_snoc. cbn [mbind option_bind].
  destruct (deliver_spoken e w (ses from) to) as (to' & -> & Y3 & T3 & Hst); [apply Y|done..|].
  exists y', to'. split_and!; try done. exact (f_equal s_cachedState C).
Qed.

(** Two talking sessions follow the FSM exchange of [Fsm]. *)
Lemma exchange_packets_fsm e a b :
  sys_inv a -> talker (ses a) -> sys_inv b -> talker (ses b) ->
  exists a' b', exchange_packets e (a, b) = Some (a', b') /\
    sys_inv a' /\ talker (ses a') /\ sys_inv b' /\ talker (ses b') /\
    (s_cachedState (ses a'), s_cachedState (ses b')) =
      exchange (s_cachedState (ses a), s_cachedState (ses b)).
Proof.
  intros Ya Ta Yb Tb. unfold exchange_packets.
  destruct (transmit_spoken e a b Ya Ta Yb Tb) as (a1 & b1 & -> & Ya1 & Ta1 & Yb1 & Tb1 & Sa1 & Sb1).
  cbn [mbind option_bind].
  destruct (transmit_spoken e b1 a1 Yb1 Tb1 Ya1 Ta1) as (b2 & a2 & -> & Yb2 & Tb2 & Ya2 & Ta2 & Sb2 & Sa2).
  cbn [mbind option_bind]. exists a2, b2. split_and!; try done.
  unfold exchange. by rewrite Sa2, Sb2, Sb1, Sa1.
Qed.

Fixpoint exchanges (n : nat) (e : Env) (p : Sys * Sys) : option (Sys * Sys) :=
  match n with
  | O => Some p
  | S n => p ← exchange_packets e p; exchanges n e p
  end.

Lemma exchanges_fsm n e a b :
  sys_inv a -> talker (ses a) -> sys_inv b -> talker (ses b) ->
  exists a' b', exchanges n e (a, b) = Some (a', b') /\
    (s_cachedState (ses a'), s_cachedState (ses b')) =
      Nat.iter n exchange (s_cachedState (ses a), s_cachedState (ses b)).
Proof.
  revert a b. induction n as [|n IH]; intros a b Ya Ta Yb Tb; [by exists a, b|].
  destruct (exchange_packets_fsm e a b Ya Ta Yb Tb) as (a1 & b1 & H1 & Ya1 & Ta1 & Yb1 & Tb1 & S1).
  destruct (IH a1 b1 Ya1 Ta1 Yb1 Tb1) as (a2 & b2 & H2 & S2).
  exists a2, b2. cbn [exchanges]. rewrite H1. cbn [mbind option_bind]. split; [done|].
  rewrite S2, S1. by rewrite Nat.iter_succ_r.
Qed.

(** ** Sample sessions for the witnesses *)

Definition sample_cfg (mult : Z) : SessionConfig :=
  {| cfg_PeerAddr := IPv4 167772162; cfg_LocalAddr := IPv4 167772161;
     cfg_Interface := "eth0"%string; cfg_Type := SessionTypeSingleHop; cfg_Role := RoleActive;
     cfg_DesiredMinTxInterval := 100000000; cfg_RequiredMinRxInterval := 300000000;
     cfg_DetectMultiplier := mult; cfg_Auth := None; cfg_AuthKeys := None;
     cfg_PaddedPduSize := 128 |}.

Definition sample_rnd : Randomness :=
  {| rnd_jitter := Some 88172645463325252; rnd_unixNano := 0; rnd_unixMicro := 0;
     rnd_seq := Some (1, 2, 3, 4) |}.

Definition at_time (t : Z) : Env :=
  {| now := t; send_ok := fun _ => true; notify_room := fun _ => true |}.

(** Take the value of a construction known to succeed. *)
Definition of_go {E} (m : go E Session) (dflt : Session) : Session :=
  match m with Ok s => s | _ => dflt end.

Definition blank_session : Session :=
  {| s_state := 0; s_remoteState := 0; s_localDiag := 0; s_localDiscr := 0; s_remoteDiscr := 0;
     s_desiredMinTxInterval := 0; s_requiredMinRxInterval := 0; s_remoteMinRxInterval := 0;
     s_remoteDesiredMinTxInterval := 0; s_remoteDetectMult := 0; s_detectMult := 0;
     s_remoteDemandMode := false; s_pollActive := false; s_pendingFinal := false;
     s_pendingDesiredMinTx := 0; s_pendingRequiredMinRx := 0; s_sessionType := 0; s_role := 0;
     s_peerAddr := InvalidAddr; s_localAddr := InvalidAddr; s_ifName := ""%string;
     s_cachedPacket := []; s_paddedPduSize := 0; s_auth := None; s_authKeys := None;
     s_authState := None; s_packetsSent := 0; s_packetsReceived := 0; s_stateTransitions := 0;
     s_lastStateChange := 0; s_lastPacketRecv := 0; s_jitterRng := 0; s_cachedState := 0;
     s_hasNotifyCh := false; s_recvCh := []; s_ctrlCh := []; s_running := false |}.

Definition sample_session (d mult : Z) : Session :=
  of_go (NewSession (sample_cfg mult) d true sample_rnd) blank_session.

Definition sample_sys (d mult : Z) : Sys := Run_start (at_time 1000) (sample_session d mult).

Lemma sample_cfg_ok mult : is_u8 mult -> cfg_ok (sample_cfg mult).
Proof. intros H. split; [exact H|]. split; [unfold is_u16; cbn; lia|exact I]. Qed.

Lemma sample_rnd_ok : rnd_ok sample_rnd.
Proof. cbn. unfold is_byte. lia. Qed.

Lemma sample_reachable d mult :
  is_u8 mult -> is_u32 d ->
  NewSession (sample_cfg mult) d true sample_rnd = Ok (sample_session d mult) ->
  reachable (sample_sys d mult).
Proof.
  intros Hm Hd Hn.
  exact (reach_start _ _ _ _ _ _ (at_time 1000) (sample_cfg_ok mult Hm) sample_rnd_ok Hd Hn (rtc_refl _ _)).
Qed.

Lemma sample_sys_5_3 : reachable (sample_sys 5 3) /\ talker (ses (sample_sys 5 3)).
Proof.
  split; [|vm_compute; split_and!; congruence].
  apply sample_reachable; [unfold is_u8; lia|unfold is_u32; lia|vm_compute; reflexivity].
Qed.

Lemma sample_sys_9_1 : reachable (sample_sys 9 1) /\ talker (ses (sample_sys 9 1)).
Proof.
  split; [|vm_compute; split_and!; congruence].
  apply sample_reachable; [unfold is_u8; lia|unfold is_u32; lia|vm_compute; reflexivity].
Qed.

(** The first session after the peer's Init packet with the Poll bit set. *)
Definition sample_init : ControlPacket :=
  {| pkt_Version := 1; pkt_Diag := 0; pkt_State := StateInit; pkt_Poll := true; pkt_Final := false;
     pkt_ControlPlaneIndependent := false; pkt_AuthPresent := false; pkt_Demand := false;
     pkt_Multipoint := false; pkt_DetectMult := 2; pkt_Length := 24; pkt_MyDiscriminator := 9;
     pkt_YourDiscriminator := 5; pkt_DesiredMinTxInterval := 1000000;
     pkt_RequiredMinRxInterval := 50000; pkt_RequiredMinEchoRxInterval := 0; pkt_Auth := None |}.

Definition sample_up : Sys :=
  default (sample_sys 5 3)
    (handleRecvPacket (at_time 2000) (mkRecvItem sample_init []) (sample_sys 5 3)).

Lemma sample_init_wf : wf_packet sample_init.
Proof.
  constructor; cbn; unfold is_u32, StateInit; try done; try lia.
Qed.

Lemma sample_up_reachable : reachable sample_up /\ live (ses sample_up).
Proof.
  split; [|right; vm_compute; reflexivity].
  eapply reach_step; [eapply reach_step; [apply sample_sys_5_3|]|].
  - apply step_entry, (entry_recv_packet sample_init []), sample_init_wf.
  - apply (step_turn CaseRecv (at_time 2000)). vm_compute. reflexivity.
Qed.

(** ** Properties *)

(** A running session never panics: whichever case of the event loop is
    taken, at whatever time and whatever the sender and the notification channel
    do, the handler returns, in every session that can be reached. *)
Theorem session_never_panics c e y (R : reachable y) : runLoop_turn c e y <> Some None.
Proof.
  intros H. destruct (turn_inv _ _ _ _ (reachable_inv _ R) H) as (y' & [=] & _).
Qed.

Lemma session_never_panics_witness : runLoop_turn CaseDetect (at_time 9000000000) sample_up <> Some None.
Proof. apply (session_never_panics CaseDetect (at_time 9000000000) sample_up), sample_up_reachable. Defined.

(** C7: every buffer a session ever hands to its sender decodes, under the
    validating decoder of the peer, as a packet of this session: its own nonzero
    discriminator, its detection multiplier, authenticated exactly when
    authentication is configured, Demand and Echo unused, and advertising a
    transmit interval of at least one second unless it is Up. *)
Theorem sent_packets_are_legal y w ok (R : reachable y) (Hs : (w, ok) ∈ sent y) :
  exists pkt, UnmarshalControlPacket w = Ok pkt /\
    pkt_MyDiscriminator pkt = s_localDiscr (ses y) /\ s_localDiscr (ses y) <> 0 /\
    pkt_DetectMult pkt = s_detectMult (ses y) /\
    pkt_AuthPresent pkt = bool_decide (is_Some (s_auth (ses y))) /\
    pkt_Demand pkt = false /\ pkt_RequiredMinEchoRxInterval pkt = 0 /\
    (pkt_State pkt <> StateUp -> 1000000 <= pkt_DesiredMinTxInterval pkt).
Proof.
  pose proof (reachable_inv _ R) as Y. destruct (sy_good _ Y) as [I Hl].
  rewrite Forall_forall in Hl. destruct (Hl _ Hs) as (pkt & Hu & H1 & H2 & H3 & H4 & H5 & H6).
  exists pkt. split_and!; try done. apply I.
Qed.

Lemma sent_packets_are_legal_witness :
  exists w ok pkt, (w, ok) ∈ sent sample_up /\ UnmarshalControlPacket w = Ok pkt /\
    pkt_MyDiscriminator pkt = s_localDiscr (ses sample_up).
Proof.
  destruct (sent sample_up) as [|[w ok] l] eqn:Hs; [vm_compute in Hs; discriminate|].
  destruct (sent_packets_are_legal sample_up w ok (proj1 sample_up_reachable)) as (pkt & Hu & Hm & _).
  - rewrite Hs. apply list_elem_of_here.
  - exists w, ok, pkt. split; [apply list_elem_of_here|]. split; [exact Hu|exact Hm].
Defined.



(** C2: failure detection is exact: while a session is Init or Up, its detection
    timer cannot fire before the peer's multiplier times the agreed interval has
    passed since the last accepted packet, and from that moment on it fires and
    puts the session Down with diagnostic 1 and the peer's discriminator
    forgotten. *)
Theorem silence_is_detected_exactly e y (R : reachable y) (L : live (ses y)) :
  let deadline := s_lastPacketRecv (ses y) +
    Z.max (s_requiredMinRxInterval (ses y)) (s_remoteDesiredMinTxInterval (ses y))
    * s_remoteDetectMult (ses y) in
  (now e < deadline -> runLoop_turn CaseDetect e y = None) /\
  (deadline <= now e ->
   exists y', runLoop_turn CaseDetect e y = Some (Some y') /\
     s_cachedState (ses y') = StateDown /\ s_localDiag (ses y') = DiagControlTimeExpired /\
     s_remoteDiscr (ses y') = 0).
Proof.
  pose proof (reachable_inv _ R) as Y. cbn. rewrite (sy_deadline _ Y L). cbn [fired].
  fold (detection_deadline (ses y)). split; intros Ht.
  - by rewrite (proj2 (Z.leb_gt _ _)) by lia.
  - rewrite (proj2 (Z.leb_le _ _)) by lia.
    destruct (handleDetectTimer_ok e y Y) as (y' & -> & P). destruct P as [_ _ Hl _ _].
    exists y'. split; [done|]. by apply Hl.
Qed.

Lemma silence_is_detected_exactly_witness :
  runLoop_turn CaseDetect (at_time 2000001999) sample_up = None /\
  exists y', runLoop_turn CaseDetect (at_time 2000002000) sample_up = Some (Some y') /\
    s_cachedState (ses y') = StateDown /\ s_localDiag (ses y') = DiagControlTimeExpired /\
    s_remoteDiscr (ses y') = 0.
Proof.
  destruct sample_up_reachable as [R L]. split.
  - apply (silence_is_detected_exactly (at_time 2000001999) sample_up R L). vm_compute. reflexivity.
  - apply (silence_is_detected_exactly (at_time 2000002000) sample_up R L). vm_compute. discriminate.
Defined.

(** C4: on reception a session is the state machine of the RFC: processing an
    accepted packet moves the session to the state RFC 5880 Section 6.8.6 gives
    for its own and the received state and assigns LocalDiag exactly as it says.  The
    sender's discriminator is remembered, as it says too, except when the packet ends
    the session: then it is forgotten, where the RFC keeps it and forgets it only after
    a detection time without packets (Section 6.8.1). *)
Theorem reception_refines_rfc5880 e item y local recv
    (R : reachable y) (W : wf_packet (item_pkt item)) (A : accepts (ses y) item = true)
    (Hl : s_cachedState (ses y) = RFC.code local) (Hr : pkt_State (item_pkt item) = RFC.code recv) :
  exists y', handleRecvPacket e item y = Some y' /\
    s_cachedState (ses y') = RFC.code (RFC.receive local recv).1 /\
    s_localDiag (ses y') = default (s_localDiag (ses y)) (RFC.receive local recv).2 /\
    s_remoteDiscr (ses y') =
      match (RFC.receive local recv).2 with
      | Some _ => 0
      | None => pkt_MyDiscriminator (item_pkt item)
      end.
Proof.
  pose proof (reachable_inv _ R) as Y.
  destruct (handleRecvPacket_accepted e item y Y W A) as (y' & H & P). destruct P.
  exists y'. split; [done|]. rewrite rp_state, rp_diag, rp_discr, Hl, Hr.
  destruct local, recv; vm_compute; split_and!; reflexivity.
Qed.

Lemma reception_refines_rfc5880_witness :
  exists y', handleRecvPacket (at_time 2000) (mkRecvItem sample_init []) (sample_sys 5 3) = Some y' /\
    s_cachedState (ses y') = StateUp /\ s_localDiag (ses y') = DiagNone /\ s_remoteDiscr (ses y') = 9.
Proof.
  apply (reception_refines_rfc5880 (at_time 2000) (mkRecvItem sample_init []) (sample_sys 5 3)
           RFC.Down RFC.Init (proj1 sample_sys_5_3) sample_init_wf);
    vm_compute; reflexivity.
Defined.

(** A packet that fails the authentication checks changes nothing at all:
    neither the session, its timers and authentication state, nor what was sent
    or notified. *)
Theorem rejected_packet_has_no_effect e item y
    (R : reachable y) (W : wf_packet (item_pkt item)) (A : accepts (ses y) item = false) :
  handleRecvPacket e item y = Some y.
Proof. apply handleRecvPacket_rejected; [apply (reachable_inv _ R)|done..]. Qed.

Lemma rejected_packet_has_no_effect_witness :
  handleRecvPacket (at_time 2000) (mkRecvItem sample_packet []) sample_up = Some sample_up.
Proof.
  apply (rejected_packet_has_no_effect (at_time 2000) (mkRecvItem sample_packet []) sample_up
           (proj1 sample_up_reachable) sample_packet_wf).
  vm_compute. reflexivity.
Defined.

(** Two sessions that can talk come Up: from any reachable sessions with an
    active role, no authentication and no Poll in progress, neither of them
    administratively down, three exchanges of the packets they really build,
    serialize and decode bring both to Up. *)
Theorem sessions_come_up e a b
    (Ra : reachable a) (Rb : reachable b) (Ta : talker (ses a)) (Tb : talker (ses b))
    (Ha : s_cachedState (ses a) <> StateAdminDown) (Hb : s_cachedState (ses b) <> StateAdminDown) :
  exists a' b', exchanges 3 e (a, b) = Some (a', b') /\
    s_cachedState (ses a') = StateUp /\ s_cachedState (ses b') = StateUp.
Proof.
  pose proof (reachable_inv _ Ra) as Ya. pose proof (reachable_inv _ Rb) as Yb.
  destruct (exchanges_fsm 3 e a b Ya Ta Yb Tb) as (a' & b' & H & Hs).
  assert (Hin : forall y, sys_inv y -> s_cachedState (ses y) <> StateAdminDown ->
    s_cachedState (ses y) ∈ [StateDown; StateInit; StateUp]).
  { intros y Y Hne. pose proof (inv_state _ (good_inv _ (sy_good _ Y))).
    unfold StateAdminDown, StateDown, StateInit, StateUp in *. rewrite !elem_of_cons. lia. }
  rewrite (converge_up _ _ 3 (Hin a Ya Ha) (Hin b Yb Hb)) in Hs by lia.
  injection Hs as E1 E2. exists a', b'. done.
Qed.

Lemma sessions_come_up_witness :
  exists a' b', exchanges 3 (at_time 5000) (sample_sys 5 3, sample_sys 9 1) = Some (a', b') /\
    s_cachedState (ses a') = StateUp /\ s_cachedState (ses b') = StateUp.
Proof.
  apply (sessions_come_up (at_time 5000) (sample_sys 5 3) (sample_sys 9 1)
           (proj1 sample_sys_5_3) (proj1 sample_sys_9_1) (proj2 sample_sys_5_3) (proj2 sample_sys_9_1));
    vm_compute; discriminate.
Defined.

(** The transmission timer keeps the rate the RFC allows: when it fires the
    session sends exactly one packet carrying its current state if Section 6.8.7
    lets it transmit and nothing otherwise (in particular a passive session that
    has not heard its peer stays silent), and the timer is re-armed for the
    agreed interval, never below one second unless Up, reduced by the prescribed
    jitter. *)
Theorem transmission_rate e y (R : reachable y) :
  exists y', handleTxTimer e {| y with txTimer := None |} = Some y' /\
    (if may_transmit (ses y)
     then exists w, sent y' = sent y ++ [(w, send_ok e (length (sent y)))] /\ speaks (ses y) w
     else sent y' = sent y) /\
    exists d, txTimer y' = Some (now e + d) /\
      jittered (s_detectMult (ses y)) (tx_interval (ses y)) d /\
      (s_cachedState (ses y) <> StateUp -> 750000000 <= d).
Proof.
  pose proof (reachable_inv _ R) as Y.
  destruct (handleTxTimer_effect e y Y) as (y' & H & _ & _ & _ & Hs & d & Ht & Hj).
  exists y'. split; [done|]. split; [done|]. exists d. split; [done|]. split; [done|].
  intros Hne. destruct Hj as [Hj _]. unfold tx_interval in Hj.
  rewrite (proj2 (Z.eqb_neq _ _) Hne) in Hj. ses_consts. lia.
Qed.

Lemma transmission_rate_witness :
  exists y', handleTxTimer (at_time 7000) {| sample_up with txTimer := None |} = Some y' /\
    (if may_transmit (ses sample_up)
     then exists w, sent y' = sent sample_up ++ [(w, true)] /\ speaks (ses sample_up) w
     else sent y' = sent sample_up) /\
    exists d, txTimer y' = Some (7000 + d) /\
      jittered (s_detectMult (ses sample_up)) (tx_interval (ses sample_up)) d /\
      (s_cachedState (ses sample_up) <> StateUp -> 750000000 <= d).
Proof. apply (transmission_rate (at_time 7000) sample_up), sample_up_reachable. Defined.

(** Construction succeeds exactly on a valid configuration (given randomness
    for the initial sequence number when authentication is on), never panics, and
    yields the state RFC 5880 Section 6.8.1 prescribes: Down on both ends, no
    diagnostic, an unknown peer, a remote receive interval of one microsecond, no
    Poll in progress, together with the session invariant. *)
Theorem new_session_initial_state cfg d h rnd
    (Hc : cfg_ok cfg) (Hr : rnd_ok rnd) (Hd : is_u32 d) :
  match NewSession cfg d h rnd with
  | Ok s => validateSessionConfig cfg d = Ok tt /\ session_inv s /\
      s_state s = StateDown /\ s_cachedState s = StateDown /\ s_remoteState s = StateDown /\
      s_localDiag s = DiagNone /\ s_localDiscr s = d /\ s_remoteDiscr s = 0 /\
      s_remoteMinRxInterval s = Microsecond /\ s_pollActive s = false /\ s_pendingFinal s = false
  | Err e => validateSessionConfig cfg d = Err e \/
             (e = ErrSessionAuth ErrRand /\ is_Some (cfg_Auth cfg) /\ rnd_seq rnd = None)
  | Panic => False
  end.
Proof.
  pose proof (NewSession_cases cfg d h rnd Hc Hr Hd) as H.
  destruct (NewSession cfg d h rnd) as [s|err|]; [|done|done].
  destruct H as (Hv & buf & ost & -> & I). by split_and!.
Qed.

Lemma new_session_initial_state_witness :
  match NewSession (sample_cfg 3) 5 true sample_rnd with
  | Ok s => validateSessionConfig (sample_cfg 3) 5 = Ok tt /\ session_inv s /\
      s_state s = StateDown /\ s_cachedState s = StateDown /\ s_remoteState s = StateDown /\
      s_localDiag s = DiagNone /\ s_localDiscr s = 5 /\ s_remoteDiscr s = 0 /\
      s_remoteMinRxInterval s = Microsecond /\ s_pollActive s = false /\ s_pendingFinal s = false
  | Err e => validateSessionConfig (sample_cfg 3) 5 = Err e \/
      (e = ErrSessionAuth ErrRand /\ is_Some (cfg_Auth (sample_cfg 3)) /\ rnd_seq sample_rnd = None)
  | Panic => False
  end.
Proof.
  apply (new_session_initial_state (sample_cfg 3) 5 true sample_rnd);
    [apply sample_cfg_ok; unfold is_u8; lia|apply sample_rnd_ok|unfold is_u32; lia].
Defined.
