(* ===== verification/SessionFindings.v ===== *)
(** * Where the session code departs from its documentation

    Theorems and evaluated examples behind the findings about sessions: the
    diagnostic in state change notifications, passive sessions that transmit,
    authentication of padded packets, sub-microsecond intervals and the direct
    store of [SetAdminDown]. *)

From S2P Require Import Prelude Packet Fsm Auth Netip Jitter Session SessionInv SessionSteps.
From S2P Require Import SessionProps.
From stdpp Require Import relations.

Local Open Scope Z_scope.

(** The notification is put on the channel before the actions of the transition
    run, so it carries the diagnostic from before the transition. *)
Theorem timeout_notification_carries_old_diag e y :
  reachable y -> live (ses y) -> s_hasNotifyCh (ses y) = true ->
  notify_room e (notify_attempts y) = true -> detection_deadline (ses y) <= now e ->
  exists y' sc, runLoop_turn CaseDetect e y = Some (Some y') /\
    notified y' = notified y ++ [sc] /\
    sc_OldState sc = s_cachedState (ses y) /\ sc_NewState sc = StateDown /\
    sc_Diag sc = s_localDiag (ses y) /\ s_localDiag (ses y') = DiagControlTimeExpired.
Proof.
  intros R L Hn Hr Ht. pose proof (reachable_inv _ R) as Y. cbn. rewrite (sy_deadline _ Y L).
  cbn [fired]. rewrite (proj2 (Z.leb_le _ _)) by lia.
  destruct (handleDetectTimer_ok e y Y) as (y' & -> & [_ _ Hl _ Hno]).
  specialize (Hno L). unfold emitted in Hno. cbn [Changed andb] in Hno. rewrite Hn, Hr in Hno.
  eexists y', _. split; [done|]. split; [exact Hno|]. destruct (Hl L) as (_ & Hd & _).
  split_and!; done.
Qed.

(** In the sample session: a timeout in state Up is notified with diagnostic 0
    ("None"), while the session's own diagnostic is 1. *)
Example timeout_notified_as_none :
  exists y', runLoop_turn CaseDetect (at_time 2000002000) sample_up = Some (Some y') /\
    option_map sc_Diag (last (notified y')) = Some DiagNone /\
    s_localDiag (ses y') = DiagControlTimeExpired.
Proof. eexists. split; [vm_compute; reflexivity|]. vm_compute. done. Qed.

(** A passive session that has never heard its peer transmits when it is shut
    down administratively: the immediate send does not pass the role check of
    the periodic one. *)
Definition passive_cfg : SessionConfig :=
  {| (sample_cfg 3) with cfg_Role := RolePassive |}.

Definition passive_sys : Sys :=
  Run_start (at_time 1000) (of_go (NewSession passive_cfg 5 true sample_rnd) blank_session).

Example passive_session_transmits_on_admin_down :
  s_role (ses passive_sys) = RolePassive /\ s_remoteDiscr (ses passive_sys) = 0 /\
  option_map (fun y => length (sent y)) (handleAdminDown (at_time 2000) passive_sys) = Some 1%nat.
Proof. vm_compute. split_and!; reflexivity. Qed.

(** Authentication and RFC 9764 padding exclude each other: the digest is computed
    over the packet, but verified over the whole padded datagram. *)
Definition signed_cfg (padding : Z) : SessionConfig :=
  {| (sample_cfg 3) with cfg_Auth := Some MeticulousKeyedSHA1Auth;
     cfg_AuthKeys := Some sample_store; cfg_PaddedPduSize := padding |}.

Definition signed_sys (padding : Z) : Sys :=
  Run_start (at_time 1000) (of_go (NewSession (signed_cfg padding) 5 true sample_rnd) blank_session).

(** The datagram a signing session sends first, and whether a peer with the same
    key accepts it. *)
Definition first_datagram (padding : Z) : list Z :=
  match handleTxTimer (at_time 2000) (signed_sys padding) with
  | Some y => match last (sent y) with Some (w, _) => w | None => [] end
  | None => []
  end.

Definition peer_accepts (padding : Z) : bool :=
  match UnmarshalControlPacket (first_datagram padding) with
  | Ok pkt => accepts (ses (signed_sys padding)) (mkRecvItem pkt (first_datagram padding))
  | _ => false
  end.

Example signed_packets_fail_when_padded : peer_accepts 0 = true /\ peer_accepts 128 = false.
Proof. vm_compute. split; reflexivity. Qed.

(** An interval below one microsecond is accepted and advertised as zero, which
    tells the peer to stop its periodic transmission. *)
Definition tiny_cfg : SessionConfig := {| (sample_cfg 3) with cfg_RequiredMinRxInterval := 999 |}.

Example sub_microsecond_interval_silences_peer :
  validateSessionConfig tiny_cfg 5 = Ok tt /\
  pkt_RequiredMinRxInterval
    (buildControlPacket (of_go (NewSession tiny_cfg 5 true sample_rnd) blank_session)).1 = 0.
Proof. vm_compute. split; reflexivity. Qed.

(** With a full control channel [SetAdminDown] stores the state directly: the
    published state is AdminDown while the session keeps sending state Up. *)
Definition crowded_up : Sys :=
  upd (fun s => {| s with s_ctrlCh := replicate 4 (mkSessionControl 0) |}) sample_up.

Example admin_down_fallback_is_not_transmitted :
  let y := upd SetAdminDown crowded_up in
  s_state (ses y) = StateAdminDown /\
  match handleTxTimer (at_time 3000) y with
  | Some y' =>
      match last (sent y') with
      | Some (w, _) => match UnmarshalControlPacket w with
                       | Ok pkt => pkt_State pkt = StateUp
                       | _ => False
                       end
      | None => False
      end
  | None => False
  end.
Proof. vm_compute. split; reflexivity. Qed.
