(* ===== verification/SessionFrame.v ===== *)
(** * What no session handler changes

    A session keeps its identity (discriminator, addresses, interface, type), and
    its notifications carry that identity.  The statements hold of every handler
    on every session, without an invariant; the manager relies on them. *)

From S2P Require Import Prelude Packet Fsm Auth Netip Jitter Session.

Local Open Scope Z_scope.

Definition ident (s : Session) : Z * Addr * Addr * string * Z * bool :=
  (s_localDiscr s, s_peerAddr s, s_localAddr s, s_ifName s, s_sessionType s, s_hasNotifyCh s).

(** A notification of a session with this identity. *)
Definition notice_of (i : Z * Addr * Addr * string * Z * bool) (sc : StateChange) : Prop :=
  let '(d, p, _, ifn, t, _) := i in
  sc_LocalDiscr sc = d /\ sc_PeerAddr sc = p /\ sc_Interface sc = ifn /\ sc_Type sc = t.

Record frame (y y' : Sys) : Prop := {
  fr_ident : ident (ses y') = ident (ses y);
  fr_notified : exists out, notified y' = notified y ++ out /\ Forall (notice_of (ident (ses y))) out;
}.

Lemma frame_refl y : frame y y.
Proof. constructor; [done|]. exists []. by rewrite app_nil_r. Qed.

Lemma frame_trans y1 y2 y3 : frame y1 y2 -> frame y2 y3 -> frame y1 y3.
Proof.
  intros [I1 (o1 & E1 & F1)] [I2 (o2 & E2 & F2)]. constructor; [congruence|].
  exists (o1 ++ o2). rewrite E2, E1, app_assoc. split; [done|]. apply Forall_app. split; [done|].
  by rewrite <- I1.
Qed.

(** A step that notifies nothing. *)
Lemma frame_quiet y y' : ident (ses y') = ident (ses y) -> notified y' = notified y -> frame y y'.
Proof. intros H1 H2. constructor; [done|]. exists []. by rewrite app_nil_r. Qed.

(** ** The cached packet *)

Lemma marshal_cached_ident pkt s s' : marshal_cached pkt s = Some s' -> ident s' = ident s.
Proof. unfold marshal_cached. destruct (MarshalControlPacket _ _) as [[] ?]; by intros [= <-]. Qed.

Lemma signCachedPacket_ident a pkt s s' : signCachedPacket a pkt s = Some s' -> ident s' = ident s.
Proof.
  unfold signCachedPacket. destruct (s_authState s), (s_authKeys s); try done.
  destruct (Sign _ _ _ _ _) as [[[[] ?] ?] ?]; [|by intros [= <-]|done].
  intros H%marshal_cached_ident. exact H.
Qed.

Lemma rebuild_ident s s' : rebuildCachedPacket s = Some s' -> ident s' = ident s.
Proof.
  unfold rebuildCachedPacket, buildControlPacket. destruct (s_auth _).
  - intros H%signCachedPacket_ident. exact H.
  - intros H%marshal_cached_ident. exact H.
Qed.

(** ** Transmission and timers *)

Lemma applyJitter_ident s i : ident (applyJitter s i).2 = ident s.
Proof. unfold applyJitter. case_match; [done|]. by destruct (applyJitterWithRand _ _ _ _). Qed.

Lemma resetTxTimer_frame e y : frame y (resetTxTimer e y).
Proof.
  unfold resetTxTimer. pose proof (applyJitter_ident (ses y) (calcTxIntervalHot (ses y))) as H.
  destruct (applyJitter _ _). by apply frame_quiet.
Qed.

Lemma resets_frame e y : frame y (resetDetectTimer e (resetTxTimer e y)).
Proof. eapply frame_trans; [apply resetTxTimer_frame|by apply frame_quiet]. Qed.

Lemma sendControl_frame e y y' : sendControl e y = Some y' -> frame y y'.
Proof.
  unfold sendControl. destruct (rebuildCachedPacket (ses y)) as [s|] eqn:Hr; [|done].
  apply rebuild_ident in Hr. cbn. destruct (s_cachedPacket s !! 3%nat) as [n|]; [|done]. cbn.
  intros H. apply bind_Some in H as ([sl s2] & H2 & H).
  assert (Hi : ident s2 = ident (ses y)).
  { destruct (_ && _); [|by injection H2 as <- <-].
    apply bind_Some in H2 as (b & _ & [= <- <-]). done. }
  destruct (zlen (s_cachedPacket s2) <? sl); [done|]. injection H as <-.
  apply frame_quiet; [|done]. cbn [ses]. destruct (send_ok e _); exact Hi.
Qed.

Lemma maybeSendControl_frame e y y' : maybeSendControl e y = Some y' -> frame y y'.
Proof.
  unfold maybeSendControl. destruct (_ && _); [intros [= <-]; apply frame_refl|].
  destruct (_ =? _); [intros [= <-]; apply frame_refl|apply sendControl_frame].
Qed.

Lemma send_reset_frame e y y' :
  (y ← sendControl e y; Some (resetTxTimer e y)) = Some y' -> frame y y'.
Proof.
  intros (y1 & H & [= <-])%bind_Some. eapply frame_trans; [by eapply sendControl_frame|].
  apply resetTxTimer_frame.
Qed.

Lemma handleTxTimer_frame e y y' : handleTxTimer e y = Some y' -> frame y y'.
Proof.
  intros (y1 & H & [= <-])%bind_Some. eapply frame_trans; [by eapply maybeSendControl_frame|].
  apply resetTxTimer_frame.
Qed.

(** ** FSM actions *)

Lemma executeAction_frame e a y y' : executeAction e a y = Some y' -> frame y y'.
Proof.
  unfold executeAction.
  destruct (a =? ActionSendControl); [apply send_reset_frame|].
  destruct (a =? ActionNotifyUp).
  { intros [= <-]. apply resets_frame. }
  destruct (a =? ActionNotifyDown).
  { intros [= <-]. eapply frame_trans; [|apply resets_frame]. by apply frame_quiet. }
  do 3 (destruct (a =? _); [intros [= <-]; by apply frame_quiet|]).
  intros [= <-]. apply frame_refl.
Qed.

Lemma executeActions_frame e acts y y' : executeActions e acts y = Some y' -> frame y y'.
Proof.
  revert y. induction acts as [|a acts IH]; intros y; cbn [executeActions].
  - intros [= <-]. apply frame_refl.
  - intros (y1 & H1 & H2)%bind_Some. eapply frame_trans; [by eapply executeAction_frame|by apply IH].
Qed.

Lemma logStateChange_frame e r y : frame y (logStateChange e r y).
Proof.
  unfold logStateChange, emitNotification. cbn [ses]. destruct (negb _) eqn:E.
  - by apply frame_quiet.
  - constructor; [done|]. cbn. case_match.
    + eexists. split; [done|]. constructor; [|done]. done.
    + exists []. by rewrite app_nil_r.
Qed.

Lemma executeFSMActions_frame e r y y' : executeFSMActions e r y = Some y' -> frame y y'.
Proof.
  unfold executeFSMActions. intros H%executeActions_frame. eapply frame_trans; [|exact H].
  destruct (Changed r); [|apply frame_refl].
  eapply frame_trans; [|apply logStateChange_frame]. by apply frame_quiet.
Qed.

(** ** Handlers *)

Lemma terminatePoll_ident s s' : terminatePollSequence s = Some s' -> ident s' = ident s.
Proof.
  unfold terminatePollSequence, applyPendingParams. intros H%rebuild_ident. rewrite H.
  by repeat case_match.
Qed.

Lemma verify_received_ident s item go_on s' :
  verify_received s item = Some (go_on, s') -> ident s' = ident s.
Proof.
  unfold verify_received. destruct (s_auth s) as [a|]; [|by intros [= <- <-]].
  destruct (s_authState s) as [st|], (s_authKeys s) as [ks|]; try done.
  destruct (Verify _ _ _ _ _ _) as [[[] ?] ?]; try done; by intros [= <- <-].
Qed.

Lemma handleRecvPacket_frame e item y y' : handleRecvPacket e item y = Some y' -> frame y y'.
Proof.
  unfold handleRecvPacket. destruct (negb _); [intros [= <-]; apply frame_refl|].
  intros ([go_on s] & Hv & H)%bind_Some.
  apply verify_received_ident in Hv as Hi.
  destruct (negb go_on); [injection H as <-; by apply frame_quiet|].
  apply bind_Some in H as (s2 & Hp & H).
  assert (Hi2 : ident s2 = ident (ses y)).
  { rewrite <- Hi. destruct (_ && _); [by apply terminatePoll_ident in Hp as ->|by injection Hp as <-]. }
  apply bind_Some in H as (y2 & H2%executeFSMActions_frame & H).
  eapply frame_trans; [|eapply frame_trans; [exact H2|]].
  - apply frame_quiet; [|done]. cbn. rewrite <- Hi2. by destruct (pkt_Poll _).
  - destruct (s_pendingFinal _); [by apply (send_reset_frame e)|]. injection H as <-. apply frame_refl.
Qed.

Lemma handleAdminDown_frame e y y' : handleAdminDown e y = Some y' -> frame y y'.
Proof.
  unfold handleAdminDown. destruct (negb _); [intros [= <-]; by apply frame_quiet|].
  apply executeFSMActions_frame.
Qed.

Lemma handlePathDown_frame e y y' : handlePathDown e y = Some y' -> frame y y'.
Proof.
  unfold handlePathDown. destruct (_ || _); [intros [= <-]; by apply frame_quiet|].
  intros H%executeFSMActions_frame. eapply frame_trans; [|exact H]. by apply frame_quiet.
Qed.

Lemma handleControlCommand_frame e cmd y y' : handleControlCommand e cmd y = Some y' -> frame y y'.
Proof.
  unfold handleControlCommand. destruct (_ =? controlPathDown); [apply handlePathDown_frame|].
  destruct (_ =? controlAdminDown); [apply handleAdminDown_frame|].
  intros [= <-]. apply frame_refl.
Qed.

Lemma handleDetectTimer_frame e y y' : handleDetectTimer e y = Some y' -> frame y y'.
Proof.
  unfold handleDetectTimer. set (y1 := upd _ y).
  assert (H1 : frame y y1).
  { apply frame_quiet; [|done]. unfold y1, upd, maybeResetAuthSeqKnown. cbn [ses].
    by repeat case_match. }
  destruct (_ && _).
  - intros [= <-]. eapply frame_trans; [exact H1|by apply frame_quiet].
  - intros H%executeFSMActions_frame. by eapply frame_trans.
Qed.

Lemma turn_frame c e y y' : runLoop_turn c e y = Some (Some y') -> frame y y'.
Proof.
  destruct c; cbn.
  - destruct (s_recvCh (ses y)); [done|]. intros [= H%handleRecvPacket_frame].
    eapply frame_trans; [|exact H]. by apply frame_quiet.
  - destruct (s_ctrlCh (ses y)) as [|cmd rest]; [done|]. intros [= H%handleControlCommand_frame].
    eapply frame_trans; [|exact H]. by apply frame_quiet.
  - destruct (fired _ _); [|done]. intros [= H%handleTxTimer_frame].
    eapply frame_trans; [|exact H]. by apply frame_quiet.
  - destruct (fired _ _); [|done]. intros [= H%handleDetectTimer_frame].
    eapply frame_trans; [|exact H]. by apply frame_quiet.
Qed.

Lemma entry_ident s s' : session_entry s s' -> ident s' = ident s.
Proof.
  intros []; unfold RecvPacket, SetPathDown, SetAdminDown; by repeat case_match.
Qed.

Lemma Run_start_ident e s : ident (ses (Run_start e s)) = ident s.
Proof.
  unfold Run_start. set (s1 := mkSession _ _ _ _ _ _ _ _ _ _ _ _ _ _ _ _ _ _ _ _ _ _ _ _ _ _ _ _ _ _ _ _ _ _ _ _ _).
  pose proof (applyJitter_ident s1 (calcTxIntervalHot s1)) as H. destruct (applyJitter _ _). exact H.
Qed.

Lemma NewSession_ident cfg d h rnd s :
  NewSession cfg d h rnd = Ok s ->
  ident s = (d, cfg_PeerAddr cfg, cfg_LocalAddr cfg, cfg_Interface cfg, cfg_Type cfg, h).
Proof.
  unfold NewSession. destruct (validateSessionConfig cfg d); [|done..]. cbn [mbind go_bind].
  set (s0 := mkSession _ _ _ _ _ _ _ _ _ _ _ _ _ _ _ _ _ _ _ _ _ _ _ _ _ _ _ _ _ _ _ _ _ _ _ _ _).
  intros H. apply go_bind_Ok in H as (s1 & Hi & H).
  assert (ident s1 = ident s0) as E.
  { unfold initAuth in Hi. destruct (cfg_Auth cfg); [|by injection Hi as <-].
    apply go_bind_Ok in Hi as (st & _ & [= <-]). done. }
  destruct (rebuildCachedPacket s1) as [s2|] eqn:Hr; [|done]. injection H as <-.
  apply rebuild_ident in Hr. by rewrite Hr, E.
Qed.
