(* ===== verification/SessionReplay.v ===== *)
(** * Replayed packets at a session ([session_loop.go], [auth.go])

    The sequence numbers a session under a meticulous authentication type accepts, over
    all the turns of its loop and all calls from other goroutines.  The session forgets
    the last number after two detection times of silence ([maybeResetAuthSeqKnown]); from
    one such reset to the next it accepts no number twice. *)

From stdpp Require Import relations.
From S2P Require Import Prelude Packet Fsm Auth Netip Jitter Session SessionInv SessionSteps SessionProps.

Local Open Scope Z_scope.

(** What reception is checked against. *)
Definition hears (s : Session) : option Authenticator * option AuthKeyStore * option (Z * bool) :=
  (s_auth s, s_authKeys s, (fun st => (as_RcvAuthSeq st, as_AuthSeqKnown st)) <$> s_authState s).

(** The number the next one has to be ahead of, if one is known. *)
Definition heard (s : Session) : list Z :=
  match s_authState s with
  | Some st => if as_AuthSeqKnown st then [as_RcvAuthSeq st] else []
  | None => []
  end.

Lemma heard_hears s s' : hears s' = hears s -> heard s' = heard s.
Proof.
  unfold hears, heard. intros [= _ _ H]. destruct (s_authState s'), (s_authState s); [|done..]. by injection H as -> ->.
Qed.

(** ** No handler changes it but by verification and by the reset *)

Lemma Sign_hears a st keys pkt buf : let st' := (Sign a st keys pkt buf).1.1.2 in
  as_RcvAuthSeq st' = as_RcvAuthSeq st /\ as_AuthSeqKnown st' = as_AuthSeqKnown st.
Proof. unfold Sign, signHash. by repeat case_match. Qed.

Lemma marshal_cached_hears pkt s s' : marshal_cached pkt s = Some s' -> hears s' = hears s.
Proof. unfold marshal_cached. destruct (MarshalControlPacket _ _) as [[] ?]; by intros [= <-]. Qed.

Lemma rebuild_hears s s' : rebuildCachedPacket s = Some s' -> hears s' = hears s.
Proof.
  unfold rebuildCachedPacket, buildControlPacket, signCachedPacket. cbn [s_auth s_authState s_authKeys s_cachedPacket].
  destruct (s_auth s) as [a|] eqn:Ea; [|intros H%marshal_cached_hears; rewrite H; unfold hears; cbn; by rewrite Ea].
  destruct (s_authState s) as [st|] eqn:Es; [|done]. destruct (s_authKeys s) as [keys|] eqn:Ek; [|done].
  match goal with |- context [Sign a st keys ?pkt ?buf] => pose proof (Sign_hears a st keys pkt buf) as [Hr Hk];
    destruct (Sign a st keys pkt buf) as [[[r st'] pkt'] buf'] end. cbn in Hr, Hk.
  destruct r; [intros H%marshal_cached_hears; rewrite H|intros [= <-]|done]; unfold hears; cbn; by rewrite Ea, Es, Ek, Hr, Hk.
Qed.

Lemma applyJitter_hears s i : hears (applyJitter s i).2 = hears s.
Proof. unfold applyJitter. case_match; [done|]. by destruct (applyJitterWithRand _ _ _ _). Qed.

Lemma resetTxTimer_hears e y : hears (ses (resetTxTimer e y)) = hears (ses y).
Proof.
  unfold resetTxTimer. pose proof (applyJitter_hears (ses y) (calcTxIntervalHot (ses y))) as H. by destruct (applyJitter _ _).
Qed.

Lemma sendControl_hears e y y' : sendControl e y = Some y' -> hears (ses y') = hears (ses y).
Proof.
  unfold sendControl. intros (s & Hr%rebuild_hears & H)%bind_Some. apply bind_Some in H as (n & _ & H).
  apply bind_Some in H as ([sl s2] & H2 & H).
  assert (Hi : hears s2 = hears (ses y)).
  { rewrite <- Hr. destruct (_ && _); [|by injection H2 as <- <-]. apply bind_Some in H2 as (b & _ & [= <- <-]). done. }
  destruct (zlen (s_cachedPacket s2) <? sl); [done|]. injection H as <-. cbn [ses]. by destruct (send_ok e _).
Qed.

Lemma send_reset_hears e y y' : (y ← sendControl e y; Some (resetTxTimer e y)) = Some y' -> hears (ses y') = hears (ses y).
Proof. intros (y1 & H%sendControl_hears & [= <-])%bind_Some. by rewrite resetTxTimer_hears. Qed.

Lemma handleTxTimer_hears e y y' : handleTxTimer e y = Some y' -> hears (ses y') = hears (ses y).
Proof.
  intros (y1 & H & [= <-])%bind_Some. rewrite resetTxTimer_hears. unfold maybeSendControl in H.
  destruct (_ && _); [by injection H as <-|]. destruct (_ =? _); [by injection H as <-|by eapply sendControl_hears].
Qed.

Lemma executeAction_hears e a y y' : executeAction e a y = Some y' -> hears (ses y') = hears (ses y).
Proof.
  unfold executeAction. destruct (a =? ActionSendControl); [apply send_reset_hears|].
  destruct (a =? ActionNotifyUp); [intros [= <-]; exact (resetTxTimer_hears e y)|].
  destruct (a =? ActionNotifyDown); [intros [= <-]; etrans; [apply resetTxTimer_hears|done]|].
  do 3 (destruct (a =? _); [by intros [= <-]|]). by intros [= <-].
Qed.

Lemma executeActions_hears e acts y y' : executeActions e acts y = Some y' -> hears (ses y') = hears (ses y).
Proof.
  revert y. induction acts as [|a acts IH]; intros y; cbn [executeActions]; [by intros [= <-]|].
  intros (y1 & H1%executeAction_hears & H2%IH)%bind_Some. congruence.
Qed.

Lemma executeFSMActions_hears e r y y' : executeFSMActions e r y = Some y' -> hears (ses y') = hears (ses y).
Proof.
  unfold executeFSMActions. intros H%executeActions_hears. rewrite H. destruct (Changed r); [|done].
  unfold logStateChange, emitNotification. cbn [ses]. by destruct (negb _).
Qed.

Lemma handleControlCommand_hears e cmd y y' : handleControlCommand e cmd y = Some y' -> hears (ses y') = hears (ses y).
Proof.
  unfold handleControlCommand, handlePathDown, handleAdminDown. destruct (_ =? controlPathDown).
  { destruct (_ || _); [by intros [= <-]|]. by intros H%executeFSMActions_hears. }
  destruct (_ =? controlAdminDown); [|by intros [= <-]]. destruct (negb _); [by intros [= <-]|apply executeFSMActions_hears].
Qed.

Lemma handleDetectTimer_hears e y y' :
  handleDetectTimer e y = Some y' -> hears (ses y') = hears (maybeResetAuthSeqKnown e (ses y)).
Proof.
  unfold handleDetectTimer. destruct (_ && _); [by intros [= <-]|]. by intros H%executeFSMActions_hears.
Qed.

Lemma entry_hears s s' : session_entry s s' -> hears s' = hears s.
Proof. intros []; unfold RecvPacket, SetPathDown, SetAdminDown; by repeat case_match. Qed.

(** ** Reception *)

Lemma terminatePoll_hears s s' : terminatePollSequence s = Some s' -> hears s' = hears s.
Proof. unfold terminatePollSequence, applyPendingParams. intros H%rebuild_hears. rewrite H. by repeat case_match. Qed.

(** What is heard after a packet is what verification leaves. *)
Lemma handleRecvPacket_hears e item y y' :
  handleRecvPacket e item y = Some y' ->
  hears (ses y') = match verify_received (ses y) item with
                   | Some (_, s) => if checkAuthConsistency (ses y) (item_pkt item) then hears s else hears (ses y)
                   | None => hears (ses y)
                   end.
Proof.
  unfold handleRecvPacket. destruct (checkAuthConsistency _ _); cbn [negb]; [|intros [= <-]; by repeat case_match].
  intros ([go_on s] & -> & H)%bind_Some. destruct (negb go_on); [by injection H as <-|].
  apply bind_Some in H as (s2 & Hp & H). apply bind_Some in H as (y2 & H2%executeFSMActions_hears & H).
  assert (Hs : hears s2 = hears s).
  { destruct (_ && _); [by apply terminatePoll_hears in Hp|by injection Hp as <-]. }
  rewrite <- Hs. etrans; [|etrans; [exact H2|]]; [|by destruct (pkt_Poll _)].
  destruct (s_pendingFinal _); [by eapply send_reset_hears|by injection H as <-].
Qed.

(** The sequence number of a packet the session accepts. *)
Definition accepted_seq (s : Session) (item : recvItem) : list Z :=
  if accepts s item then option_list (auth_SequenceNumber <$> pkt_Auth (item_pkt item)) else [].

(** A session under a meticulous type, with what its constructor guarantees. *)
Definition guarded (s : Session) : Prop := exists a, s_auth s = Some a /\ meticulous a = true.

(** A packet that is not accepted leaves what is heard alone; an accepted one is ahead
    of the number known and becomes the one known. *)
Lemma receive_hears e item y y' :
  session_inv (ses y) -> guarded (ses y) -> wf_packet (item_pkt item) -> handleRecvPacket e item y = Some y' ->
  (accepted_seq (ses y) item = [] /\ heard (ses y') = heard (ses y)) \/
  exists q, accepted_seq (ses y) item = [q] /\ heard (ses y') = [q] /\ is_u32 q /\
    forall s, s ∈ heard (ses y) -> 1 <= u32 (q - s) <= 765.
Proof.
  intros I (a & Ea & Ha) W H%handleRecvPacket_hears. pose proof (inv_auth _ I) as Hauth.
  unfold session_auth_ok in Hauth. rewrite Ea in Hauth. destruct Hauth as (st & keys & Es & Ek & [Hr _ _ _ Hk]).
  assert (exists p, hash_params a = Some p /\ hp_meticulous p = true) as (p & Hp & Hmet)
    by (destruct a; try discriminate Ha; cbn; eauto).
  destruct (hash_params_ok _ _ Hp) as [Hok _].
  unfold accepted_seq, accepts, verify_received, Verify in *. rewrite Ea, Es, Ek, Hp in *.
  destruct (checkAuthConsistency _ _); cbn [andb].
  2:{ left. split; [done|]. apply heard_hears. rewrite H. by repeat case_match. }
  destruct (verifyHash_cases st keys (item_pkt item) (item_wire item) (zlen (item_wire item)) p Hok Hk)
    as [(err & buf & E)|(auth & key & Hau & _ & _ & _ & Hw & _ & _ & E)]; rewrite E in *.
  - left. split; [done|]. apply heard_hears. rewrite H. unfold hears. cbn. by rewrite ?Ea, ?Es, ?Ek.
  - right. exists (auth_SequenceNumber auth). rewrite Hau. split; [done|]. split.
    { etrans; [apply heard_hears, H|]. done. }
    assert (Hq : is_u32 (auth_SequenceNumber auth)) by (by eapply wf_packet_seq).
    split; [done|]. intros s. unfold heard. rewrite Es. destruct (as_AuthSeqKnown st) eqn:Hkn; [|by intros ?%not_elem_of_nil].
    intros ->%list_elem_of_singleton. rewrite checkSeqWindow_distance, Hkn, Hmet in Hw; [|done..|apply (wf_detect_mult _ W)].
    cbn [andb] in Hw. destruct (_ || _) eqn:Hwin; [discriminate|]. bools. pose proof (wf_detect_mult _ W). lia.
Qed.

(** ** Runs *)

(** The steps of a session, with the numbers accepted since a number is known. *)
Inductive listen : Sys * list Z -> Sys * list Z -> Prop :=
| listen_recv e item rest y y' acc :
    s_recvCh (ses y) = item :: rest -> runLoop_turn CaseRecv e y = Some (Some y') ->
    listen (y, acc) (y', acc ++ accepted_seq (ses y) item)
| listen_turn c e y y' acc :
    c <> CaseRecv -> runLoop_turn c e y = Some (Some y') ->
    listen (y, acc) (y', if decide (heard (ses y') = []) then [] else acc)
| listen_entry y s acc : session_entry (ses y) s -> listen (y, acc) ({| y with ses := s |}, acc).

Lemma listen_step ya yb : listen ya yb -> session_step ya.1 yb.1.
Proof. intros []; cbn; [by eapply step_turn..|by apply step_entry]. Qed.

(** The log of a session: from its first number on each is ahead of the one before, and
    the last one is the one known. *)
Definition logged (s : Session) (acc : list Z) : Prop :=
  heard s = option_list (last acc) /\ match acc with [] => True | q :: l => is_u32 q /\ advancing q l end.

Lemma advancing_snoc q l s x : advancing q l -> last (q :: l) = Some s -> 1 <= u32 (x - s) <= 765 -> is_u32 x ->
  advancing q (l ++ [x]).
Proof.
  induction 1 as [q|q q' l Hq Hu _ IH]; [intros [= ->] ? ?; by apply adv_cons, adv_nil|]. rewrite last_cons_cons.
  intros Hl Hx Hux. cbn. constructor; auto.
Qed.

Lemma logged_snoc s s' acc q : logged s acc -> heard s' = [q] -> is_u32 q ->
  (forall x, x ∈ heard s -> 1 <= u32 (q - x) <= 765) -> logged s' (acc ++ [q]).
Proof.
  intros [Hh Ha] Hs Hq Hx. split; [by rewrite last_snoc|]. destruct acc as [|q0 l]; [by split; [|constructor]|]. cbn.
  destruct Ha as [Hu Ha]. split; [done|]. destruct (last (q0 :: l)) as [x|] eqn:El; [|by apply last_None in El].
  eapply advancing_snoc; [done|exact El| |done]. apply Hx. rewrite Hh. by left.
Qed.

Lemma logged_nodup s acc : logged s acc -> 765 * zlen acc < 2 ^ 32 -> NoDup acc.
Proof.
  intros [_ Ha] Hn. destruct acc as [|q l]; [constructor|]. destruct Ha as [_ Ha]. unfold zlen in Hn; cbn [length] in Hn.
  apply NoDup_cons. split; [|eapply advancing_nodup; [done|unfold zlen; lia]]. intros Hin.
  pose proof (advancing_distance _ _ _ Ha ltac:(unfold zlen; lia) Hin) as Hd. rewrite Z.sub_diag in Hd. change (u32 0) with 0 in Hd. lia.
Qed.

(** Only the expiry of the detection timer, after two detection times without an
    accepted packet, makes the session forget. *)
Lemma interval_product a b : 0 <= a <= MaxWireInterval -> 0 <= b < 256 -> 0 <= i64 (a * b) < 2 ^ 62.
Proof.
  intros Ha Hb. assert (H : 0 <= a * b <= MaxWireInterval * 255) by (split; [|apply Z.mul_le_mono_nonneg]; lia).
  assert (MaxWireInterval * 255 < 2 ^ 62) by (by vm_compute). rewrite i64_small; unfold is_i64; lia.
Qed.

Lemma detection_range s : session_inv s -> 0 <= calcDetectionTimeHot s < 2 ^ 62.
Proof.
  intros I. pose proof (inv_rx _ I) as [[? ?] _]. pose proof (inv_tx _ I) as [[? ?] _].
  pose proof (inv_remote _ I) as [[? ?] [? ?]]. pose proof (inv_remote_mult _ I). pose proof (inv_mult _ I).
  unfold calcDetectionTimeHot, calcTxIntervalHot.
  assert (slowTxInterval <= MaxWireInterval) by (by vm_compute). assert (0 <= slowTxInterval) by (by vm_compute).
  destruct (_ =? 0); apply interval_product; try lia. destruct (_ && _); lia.
Qed.

Lemma turn_heard c e y y' : session_inv (ses y) -> c <> CaseRecv -> runLoop_turn c e y = Some (Some y') ->
  s_auth (ses y') = s_auth (ses y) /\
  (heard (ses y') = heard (ses y) \/
   heard (ses y') = [] /\ c = CaseDetect /\ 2 * calcDetectionTimeHot (ses y) <= now e - s_lastPacketRecv (ses y)).
Proof.
  intros I Hc H.
  assert (Hsame : forall s, hears (ses y') = hears s -> s_auth s = s_auth (ses y) -> heard s = heard (ses y) ->
    s_auth (ses y') = s_auth (ses y) /\ heard (ses y') = heard (ses y)).
  { intros s E E1 E2. split; [injection E; congruence|]. rewrite <- E2. by apply heard_hears. }
  destruct c; [done|..]; cbn in H.
  - destruct (s_ctrlCh (ses y)); [done|]. injection H as H%handleControlCommand_hears. destruct (Hsame _ H); auto.
  - destruct (fired _ _); [|done]. injection H as H%handleTxTimer_hears. destruct (Hsame _ H); auto.
  - destruct (fired _ _); [|done]. injection H as H%handleDetectTimer_hears. cbn [ses] in H.
    unfold maybeResetAuthSeqKnown in H. destruct (s_authState (ses y)) as [st|] eqn:Es; [|destruct (Hsame _ H); auto].
    do 3 (case_match; [destruct (Hsame _ H); auto|]). pose proof (detection_range _ I) as Hd. split; [by injection H|]. right.
    split; [etrans; [apply heard_hears, H|done]|]. split; [done|]. bools. rewrite i64_small in *; unfold is_i64; lia.
Qed.

Lemma receive_auth e item y y' : handleRecvPacket e item y = Some y' -> s_auth (ses y') = s_auth (ses y).
Proof.
  intros H%handleRecvPacket_hears%(f_equal (fun h => h.1.1)). cbn in H. rewrite H. clear H.
  destruct (verify_received _ _) as [[b s]|] eqn:E; [|done]. destruct (checkAuthConsistency _ _); [|done]. cbn.
  unfold verify_received in E. destruct (s_auth (ses y)) eqn:Ea; [|by injection E as _ <-].
  repeat case_match; try discriminate; injection E as _ <-; cbn; congruence.
Qed.

Lemma accepted_seq_queue s rest item : accepted_seq {| s with s_recvCh := rest |} item = accepted_seq s item.
Proof.
  unfold accepted_seq, accepts, verify_received, checkAuthConsistency. cbn.
  destruct (s_auth s); [|done]. destruct (s_authState s), (s_authKeys s); try done. by destruct (Verify _ _ _ _ _ _) as [[[] ?] ?].
Qed.

Lemma listen_logged y acc y' acc' : listen (y, acc) (y', acc') -> sys_inv y -> guarded (ses y) -> logged (ses y) acc ->
  guarded (ses y') /\ logged (ses y') acc'.
Proof.
  intros H Y G L. pose proof (good_inv _ (sy_good _ Y)) as I. inversion H as [e item rest y0 y1 acc0 Hq Ht|c e y0 y1 acc0 Hc Ht|y0 s acc0 He]; subst; clear H.
  - cbn in Ht. rewrite Hq in Ht. injection Ht as Ht.
    pose proof (inv_queue _ I) as Hwf. rewrite Hq in Hwf. apply Forall_cons_1 in Hwf as [W Hwf].
    pose proof (with_recvCh_inv y rest Y Hwf) as Y1. split; [by unfold guarded; rewrite (receive_auth _ _ _ _ Ht)|].
    destruct (receive_hears e item _ _ (good_inv _ (sy_good _ Y1)) G W Ht) as [(E & Hh)|(q & E & Hh & Hq' & Hx)].
    + cbn [upd ses] in E. rewrite accepted_seq_queue in E. rewrite E, app_nil_r. split; [|apply L]. by rewrite Hh; apply L.
    + cbn [upd ses] in E. rewrite accepted_seq_queue in E. rewrite E. by eapply logged_snoc.
  - destruct (turn_heard _ _ _ _ I Hc Ht) as (Ea & Hh).
    split; [by unfold guarded; rewrite Ea|]. destruct (decide (heard (ses y') = [])) as [E|E]; [by split|].
    destruct Hh as [Hh|[Hh _]]; [|done]. split; [|apply L]. rewrite Hh. apply L.
  - apply entry_hears in He. cbn [ses].
    split; [unfold guarded; injection He; intros _ _ ->; exact G|]. split; [|apply L]. rewrite (heard_hears _ _ He). apply L.
Qed.

(** C6: no replay under the meticulous types.  Whatever a reachable session with such a
    type is offered and whatever else its loop and other goroutines do, the sequence
    numbers it accepts from the time a number is known, that one included, are pairwise
    different for up to 5.6 million packets, within which they cannot go round the 32-bit
    space.  The session stops knowing a number in one way only: its detection timer fires
    at least two detection times after the last accepted packet, as RFC 5880 Section
    6.8.1 demands; the packet that is accepted next is then not compared with older
    ones. *)
Theorem no_replay_until_silence (y y' : Sys) (acc : list Z) (R : reachable y) (G : guarded (ses y))
    (H : rtc listen (y, heard (ses y)) (y', acc)) (Hn : 765 * zlen acc < 2 ^ 32) :
  NoDup acc /\ heard (ses y') = option_list (last acc) /\
  forall c e y'', runLoop_turn c e y' = Some (Some y'') -> heard (ses y') <> [] -> heard (ses y'') = [] ->
    c = CaseDetect /\ 2 * calcDetectionTimeHot (ses y') <= now e - s_lastPacketRecv (ses y').
Proof.
  assert (Hl : logged (ses y) (heard (ses y))).
  { pose proof (inv_auth _ (good_inv _ (sy_good _ (reachable_inv _ R)))) as Ha. destruct G as (a & Ea & _).
    unfold session_auth_ok in Ha. rewrite Ea in Ha. destruct Ha as (st & keys & Es & _ & [Hr _ _ _ _]).
    unfold logged, heard. rewrite Es. destruct (as_AuthSeqKnown st); cbn; split; try done. by split; [|constructor]. }
  assert (Hinv : reachable y' /\ guarded (ses y') /\ logged (ses y') acc).
  { remember (y, heard (ses y)) as a eqn:Ea. remember (y', acc) as b eqn:Eb.
    assert (P : reachable a.1 /\ guarded (ses a.1) /\ logged (ses a.1) a.2) by (by subst a).
    clear R G Hl Ea Hn. change (reachable y' /\ guarded (ses y') /\ logged (ses y') acc)
      with (reachable (y', acc).1 /\ guarded (ses (y', acc).1) /\ logged (ses (y', acc).1) (y', acc).2).
    rewrite <- Eb. clear Eb. induction H as [|[y1 l1] [y2 l2] [y3 l3] H12 _ IH]; [done|]. apply IH.
    destruct P as (R & G & L). cbn in *. destruct (listen_logged _ _ _ _ H12 (reachable_inv _ R) G L) as [G' L'].
    split_and!; [|done|done]. eapply reach_step; [exact R|exact (listen_step _ _ H12)]. }
  destruct Hinv as (R' & G' & L'). split_and!; [by eapply logged_nodup|apply L'|].
  intros c e y'' Ht Hne He. pose proof (reachable_inv _ R') as Y. assert (c = CaseRecv \/ c <> CaseRecv) as [->|Hc] by (destruct c; auto).
  - cbn in Ht. destruct (s_recvCh (ses y')) as [|item rest] eqn:Hq; [done|]. injection Ht as Ht.
    pose proof (inv_queue _ (good_inv _ (sy_good _ Y))) as Hwf. rewrite Hq in Hwf. apply Forall_cons_1 in Hwf as [W Hwf].
    destruct (receive_hears e item _ _ (good_inv _ (sy_good _ (with_recvCh_inv y' rest Y Hwf))) G' W Ht) as [(_ & Hh)|(q & _ & Hh & _)];
      rewrite He in Hh; [by destruct Hne|done].
  - destruct (turn_heard _ _ _ _ (good_inv _ (sy_good _ Y)) Hc Ht) as (_ & [Hh|(_ & ?)]); [congruence|done].
Qed.

(** ** An example: the same packet three times *)

Definition replay_cfg : SessionConfig :=
  {| (sample_cfg 3) with cfg_Auth := Some MeticulousKeyedSHA1Auth; cfg_AuthKeys := Some sample_store; cfg_PaddedPduSize := 0 |}.

Definition replay_sys : Sys := Run_start (at_time 1000) (of_go (NewSession replay_cfg 5 true sample_rnd) blank_session).

(** The packet arrives, and the loop takes it at time [t]. *)
Definition offer_at (t : Z) (y : Sys) : Sys :=
  let y := upd (RecvPacket sample_offer.1 sample_offer.2) y in
  match runLoop_turn CaseRecv (at_time t) y with Some (Some y') => y' | _ => y end.

Definition offer_taken (t : Z) (y : Sys) : bool :=
  match s_recvCh (ses y), runLoop_turn CaseRecv (at_time t) (upd (RecvPacket sample_offer.1 sample_offer.2) y) with
  | [], Some (Some _) => true
  | _, _ => false
  end.

Lemma sample_offer_wf : wf_packet sample_offer.1.
Proof.
  unfold sample_offer, Sign. destruct (hash_params MeticulousKeyedSHA1Auth) as [p|] eqn:Hp; [|done].
  destruct (hash_params_ok _ _ Hp) as [Hok _].
  destruct (signHash_ok (sample_auth_state 10) sample_store sample_packet (repeat 0 64) p Hok sample_unsigned) as [-> W]; [by vm_compute| |exact W].
  injection Hp as <-. by vm_compute.
Qed.

Lemma offer_listen t y acc : offer_taken t y = true ->
  rtc listen (y, acc) (offer_at t y, acc ++ accepted_seq (ses y) (mkRecvItem sample_offer.1 sample_offer.2)).
Proof.
  unfold offer_taken, offer_at. set (y1 := upd _ y). intros H. destruct (s_recvCh (ses y)) as [|it l] eqn:Hq; [|done].
  destruct (runLoop_turn CaseRecv (at_time t) y1) as [[y2|]|] eqn:Ht; [|done..].
  assert (Hs : ses y1 = {| (ses y) with s_recvCh := [mkRecvItem sample_offer.1 sample_offer.2] |}).
  { unfold y1, upd, RecvPacket. cbn [ses]. rewrite Hq. done. }
  eapply rtc_l; [apply (listen_entry y (RecvPacket sample_offer.1 sample_offer.2 (ses y))), entry_recv_packet, sample_offer_wf|].
  change {| y with ses := RecvPacket sample_offer.1 sample_offer.2 (ses y) |} with y1.
  rewrite <- (accepted_seq_queue (ses y) [mkRecvItem sample_offer.1 sample_offer.2]), <- Hs.
  eapply rtc_once, listen_recv; [by rewrite Hs|exact Ht].
Qed.

Lemma replay_sys_reachable : reachable replay_sys.
Proof.
  eapply (reach_start replay_cfg 5 true sample_rnd _ _ (at_time 1000)); [|apply sample_rnd_ok|unfold is_u32; lia| |apply rtc_refl].
  - split; [unfold is_u8; cbn; lia|]. split; [unfold is_u16; cbn; lia|]. split; [reflexivity|]. split; [unfold is_u8; cbn; lia|].
    apply sample_store_no_panic.
  - vm_compute. reflexivity.
Qed.

Lemma no_replay_until_silence_witness :
  rtc listen (replay_sys, []) (offer_at 3000 (offer_at 2000 replay_sys), [11]) /\
  heard (ses (offer_at 3000 (offer_at 2000 replay_sys))) = [11].
Proof.
  assert (H : rtc listen (replay_sys, heard (ses replay_sys)) (offer_at 3000 (offer_at 2000 replay_sys), [11])).
  { assert (heard (ses replay_sys) = []) as -> by (vm_compute; reflexivity).
    etrans; [apply (offer_listen 2000); vm_compute; reflexivity|].
    assert (accepted_seq (ses replay_sys) (mkRecvItem sample_offer.1 sample_offer.2) = [11]) as -> by (vm_compute; reflexivity).
    etrans; [apply (offer_listen 3000); vm_compute; reflexivity|].
    assert (accepted_seq (ses (offer_at 2000 replay_sys)) (mkRecvItem sample_offer.1 sample_offer.2) = []) as -> by (vm_compute; reflexivity).
    apply rtc_refl. }
  destruct (no_replay_until_silence replay_sys _ [11] replay_sys_reachable ltac:(exists MeticulousKeyedSHA1Auth; done) H ltac:(done))
    as (_ & Hh & _).
  split; [exact H|exact Hh].
Defined.

(** After two detection times of silence the number is forgotten, and the same packet
    is accepted again. *)
Example accepted_again_after_silence :
  let y := offer_at 2000 replay_sys in
  match runLoop_turn CaseDetect (at_time 60000000000) y with
  | Some (Some y2) => heard (ses y) = [11] /\ heard (ses y2) = [] /\
      accepted_seq (ses y2) (mkRecvItem sample_offer.1 sample_offer.2) = [11]
  | _ => False
  end.
Proof. vm_compute. split_and!; reflexivity. Qed.
