(* ===== verification/SessionDrain.v ===== *)
(** * Administrative down, from the call to the wire

    What becomes of an administrative-down command in a session's control channel:
    it stays there until the loop takes it, and from then on the session is in
    AdminDown and has sent a packet that says so. *)

From stdpp Require Import relations.
From S2P Require Import Prelude Packet Fsm Auth Netip Jitter Session SessionInv SessionSteps SessionProps SessionFrame.

Local Open Scope Z_scope.

(** ** Handlers leave the control channel alone and only add to what was sent *)

Record steady (y y' : Sys) : Prop := {
  st_ctrl : s_ctrlCh (ses y') = s_ctrlCh (ses y);
  st_running : s_running (ses y') = s_running (ses y);
  st_sent : sent y `prefix_of` sent y';
}.

Lemma steady_refl y : steady y y.
Proof. by constructor. Qed.

Lemma steady_trans y1 y2 y3 : steady y1 y2 -> steady y2 y3 -> steady y1 y3.
Proof. intros [C1 R1 S1] [C2 R2 S2]. constructor; [congruence|congruence|by etrans]. Qed.

(** A step on the session only. *)
Lemma steady_quiet y y' :
  s_ctrlCh (ses y') = s_ctrlCh (ses y) -> s_running (ses y') = s_running (ses y) -> sent y' = sent y -> steady y y'.
Proof. intros H1 H2 H3. constructor; [done|done|by rewrite H3]. Qed.

Definition chans (s : Session) : list sessionControl * bool := (s_ctrlCh s, s_running s).

Lemma marshal_cached_chans pkt s s' : marshal_cached pkt s = Some s' -> chans s' = chans s.
Proof. unfold marshal_cached. destruct (MarshalControlPacket _ _) as [[] ?]; by intros [= <-]. Qed.

Lemma signCachedPacket_chans a pkt s s' : signCachedPacket a pkt s = Some s' -> chans s' = chans s.
Proof.
  unfold signCachedPacket. destruct (s_authState s), (s_authKeys s); try done.
  destruct (Sign _ _ _ _ _) as [[[[] ?] ?] ?]; [|by intros [= <-]|done]. intros H%marshal_cached_chans. exact H.
Qed.

Lemma rebuild_chans s s' : rebuildCachedPacket s = Some s' -> chans s' = chans s.
Proof.
  unfold rebuildCachedPacket, buildControlPacket. destruct (s_auth _).
  - intros H%signCachedPacket_chans. exact H.
  - intros H%marshal_cached_chans. exact H.
Qed.

Lemma steady_chans y y' : chans (ses y') = chans (ses y) -> sent y `prefix_of` sent y' -> steady y y'.
Proof. intros [= H1 H2] H3. by constructor. Qed.

Lemma resetTxTimer_steady e y : steady y (resetTxTimer e y).
Proof.
  unfold resetTxTimer. destruct (applyJitter_frame (ses y) (calcTxIntervalHot (ses y))) as (d & r & ->). by apply steady_quiet.
Qed.

Lemma resets_steady e y : steady y (resetDetectTimer e (resetTxTimer e y)).
Proof. eapply steady_trans; [apply resetTxTimer_steady|by apply steady_quiet]. Qed.

Lemma sendControl_steady e y y' : sendControl e y = Some y' -> steady y y'.
Proof.
  unfold sendControl. destruct (rebuildCachedPacket (ses y)) as [s|] eqn:Hr; [|done].
  apply rebuild_chans in Hr. cbn. destruct (s_cachedPacket s !! 3%nat) as [n|]; [|done]. cbn.
  intros H. apply bind_Some in H as ([sl s2] & H2 & H).
  assert (Hi : chans s2 = chans (ses y)).
  { destruct (_ && _); [|by injection H2 as <- <-]. apply bind_Some in H2 as (b & _ & [= <- <-]). done. }
  destruct (zlen (s_cachedPacket s2) <? sl); [done|]. injection H as <-.
  apply steady_chans; cbn [ses sent]; [by destruct (send_ok e _)|by eexists].
Qed.

Lemma send_reset_steady e y y' : (y ← sendControl e y; Some (resetTxTimer e y)) = Some y' -> steady y y'.
Proof. intros (y1 & H & [= <-])%bind_Some. eapply steady_trans; [by eapply sendControl_steady|apply resetTxTimer_steady]. Qed.

Lemma executeActions_steady e acts y y' : executeActions e acts y = Some y' -> steady y y'.
Proof.
  revert y. induction acts as [|a acts IH]; intros y; cbn [executeActions]; [intros [= <-]; apply steady_refl|].
  intros (y1 & H1 & H2)%bind_Some. eapply steady_trans; [|by apply IH]. revert H1. unfold executeAction.
  destruct (a =? ActionSendControl); [apply send_reset_steady|].
  destruct (a =? ActionNotifyUp); [intros [= <-]; apply resets_steady|].
  destruct (a =? ActionNotifyDown).
  { intros [= <-]. eapply steady_trans; [|apply resets_steady]. by apply steady_quiet. }
  do 3 (destruct (a =? _); [intros [= <-]; by apply steady_quiet|]). intros [= <-]. apply steady_refl.
Qed.

Lemma executeFSMActions_steady e r y y' : executeFSMActions e r y = Some y' -> steady y y'.
Proof.
  unfold executeFSMActions. intros H%executeActions_steady. eapply steady_trans; [|exact H].
  destruct (Changed r); [|apply steady_refl]. unfold logStateChange, emitNotification. cbn [ses].
  destruct (negb _); by apply steady_quiet.
Qed.

Lemma terminatePoll_chans s s' : terminatePollSequence s = Some s' -> chans s' = chans s.
Proof.
  unfold terminatePollSequence, applyPendingParams. intros H%rebuild_chans. rewrite H. by repeat case_match.
Qed.

Lemma verify_received_chans s item go_on s' : verify_received s item = Some (go_on, s') -> chans s' = chans s.
Proof.
  unfold verify_received. destruct (s_auth s) as [a|]; [|by intros [= <- <-]].
  destruct (s_authState s) as [st|], (s_authKeys s) as [ks|]; try done.
  destruct (Verify _ _ _ _ _ _) as [[[] ?] ?]; try done; by intros [= <- <-].
Qed.

Lemma handleRecvPacket_steady e item y y' : handleRecvPacket e item y = Some y' -> steady y y'.
Proof.
  unfold handleRecvPacket. destruct (negb _); [intros [= <-]; apply steady_refl|].
  intros ([go_on s] & Hv & H)%bind_Some. apply verify_received_chans in Hv as Hs.
  destruct (negb go_on); [injection H as <-; by apply steady_chans|]. apply bind_Some in H as (s2 & Hp & H).
  assert (Hs2 : chans s2 = chans (ses y)).
  { rewrite <- Hs. destruct (_ && _); [by apply terminatePoll_chans in Hp as ->|by injection Hp as <-]. }
  apply bind_Some in H as (y2 & H2%executeFSMActions_steady & H).
  eapply steady_trans; [|eapply steady_trans; [exact H2|]].
  - apply steady_chans; [|done]. cbn. rewrite <- Hs2. by destruct (pkt_Poll _).
  - destruct (s_pendingFinal _); [by apply (send_reset_steady e)|]. injection H as <-. apply steady_refl.
Qed.

Lemma handleTxTimer_steady e y y' : handleTxTimer e y = Some y' -> steady y y'.
Proof.
  intros (y1 & H & [= <-])%bind_Some. eapply steady_trans; [|apply resetTxTimer_steady]. revert H. unfold maybeSendControl.
  destruct (_ && _); [intros [= <-]; apply steady_refl|]. destruct (_ =? _); [by intros [= <-]|apply sendControl_steady].
Qed.

Lemma handleDetectTimer_steady e y y' : handleDetectTimer e y = Some y' -> steady y y'.
Proof.
  unfold handleDetectTimer. set (y1 := upd _ y).
  assert (H1 : steady y y1).
  { apply steady_chans; [|done]. unfold y1, upd, maybeResetAuthSeqKnown. cbn [ses]. by repeat case_match. }
  destruct (_ && _).
  - intros [= <-]. eapply steady_trans; [exact H1|by apply steady_quiet].
  - intros H%executeFSMActions_steady. by eapply steady_trans.
Qed.

Lemma handleControlCommand_steady e cmd y y' : handleControlCommand e cmd y = Some y' -> steady y y'.
Proof.
  unfold handleControlCommand. destruct (_ =? controlPathDown).
  - unfold handlePathDown. destruct (_ || _); [intros [= <-]; by apply steady_quiet|].
    intros H%executeFSMActions_steady. eapply steady_trans; [|exact H]. by apply steady_quiet.
  - destruct (_ =? controlAdminDown); [|intros [= <-]; apply steady_refl]. unfold handleAdminDown.
    destruct (negb _); [intros [= <-]; by apply steady_quiet|]. apply executeFSMActions_steady.
Qed.

(** ** Entering AdminDown *)

(** The peer reads an administrative down in a buffer. *)
Definition says_admin_down (w : list Z) : Prop :=
  exists pkt, UnmarshalControlPacket w = Ok pkt /\ pkt_State pkt = StateAdminDown /\ pkt_Diag pkt = DiagAdminDown.

(** Such a packet was handed to the sender since [y]. *)
Definition told_since (y y' : Sys) : Prop :=
  exists w ok, (w, ok) ∈ drop (length (sent y)) (sent y') /\ says_admin_down w.

Lemma told_mono y0 y y' : told_since y0 y -> sent y `prefix_of` sent y' -> told_since y0 y'.
Proof.
  intros (w & ok & Hin & Hs) [k Hk]. exists w, ok. split; [|done]. rewrite Hk, drop_app. set_solver.
Qed.

Lemma told_earlier y0 y y' : sent y0 `prefix_of` sent y -> told_since y y' -> told_since y0 y'.
Proof.
  intros [k Hk] (w & ok & Hin & Hs). exists w, ok. split; [|done]. revert Hin. rewrite Hk, length_app.
  rewrite <- drop_drop. intros Hin. rewrite <- (take_drop (length k) (drop (length (sent y0)) (sent y'))).
  apply elem_of_app. by right.
Qed.

Lemma send_tells e y y' :
  good y -> (y ← sendControl e y; Some (resetTxTimer e y)) = Some y' ->
  s_cachedState (ses y) = StateAdminDown -> s_localDiag (ses y) = DiagAdminDown -> told_since y y'.
Proof.
  intros G H Hc Hl. destruct (sendControl_ok e y (good_inv _ G)) as (buf & ost & n & w & Hs & _ & pkt & Hu & _ & Hst & Hdg & _).
  rewrite Hs in H. cbn [mbind option_bind] in H. injection H as <-.
  apply (told_mono y (put_sent y (after_send (ses y) buf ost n) w (send_ok e (length (sent y))))).
  - eexists w, _. cbn [put_sent sent]. rewrite drop_app_length. split; [left|]. exists pkt. split_and!; [done|congruence|congruence].
  - apply resetTxTimer_steady.
Qed.

Lemma executeFSMActions_eq e r y : executeFSMActions e r y = executeActions e (Actions r) (entered_sys e r y).
Proof. reflexivity. Qed.

Lemma executeActions_cons e a acts y :
  executeActions e (a :: acts) y = (y ← executeAction e a y; executeActions e acts y).
Proof. reflexivity. Qed.

Lemma executeAction_admin_diag e y :
  executeAction e ActionSetDiagAdminDown y = Some (upd (fun s => {| s with s_localDiag := DiagAdminDown |}) y).
Proof. reflexivity. Qed.

Lemma executeAction_send e y : executeAction e ActionSendControl y = (y ← sendControl e y; Some (resetTxTimer e y)).
Proof. reflexivity. Qed.

Lemma admin_actions_tell e y y' :
  good y -> s_cachedState (ses y) = StateAdminDown ->
  executeActions e [ActionSetDiagAdminDown; ActionSendControl] y = Some y' -> told_since y y'.
Proof.
  intros G Hc. destruct (set_diag_good e y DiagAdminDown G ltac:(done)) as [G1 _].
  rewrite executeActions_cons, executeAction_admin_diag. cbn [mbind option_bind].
  rewrite executeActions_cons, executeAction_send. intros (y2 & H & Hy)%bind_Some. injection Hy as ->.
  exact (send_tells e _ _ G1 H Hc eq_refl).
Qed.

Lemma admin_fsm_tells e r y y' :
  session_inv (ses y) -> good y -> NewState r = StateAdminDown -> Changed r = true ->
  Actions r = [ActionSetDiagAdminDown; ActionSendControl] -> executeFSMActions e r y = Some y' -> told_since y y'.
Proof.
  intros I [_ Hs] Hn Hch Ha H. rewrite executeFSMActions_eq, Ha in H.
  destruct (entered_sys_spec e r y) as (Es & Esent & _ & _ & _).
  apply admin_actions_tell in H.
  - eapply told_earlier; [|exact H]. by rewrite Esent.
  - constructor; rewrite ?Es, ?Esent; unfold entered; rewrite Hch; [|done].
    apply set_state_inv; [done|rewrite Hn; done|rewrite Hn; by intros [?|?]].
  - rewrite Es. unfold entered. by rewrite Hch.
Qed.

Lemma admin_event s :
  0 <= s < 4 -> s <> StateAdminDown ->
  apply_event s EventAdminDown = mkFSMResult s StateAdminDown [ActionSetDiagAdminDown] true.
Proof.
  unfold StateAdminDown. intros Hs Hn. assert (Hc : s = 1 \/ s = 2 \/ s = 3) by lia.
  destruct Hc as [->|[->| ->]]; vm_compute; reflexivity.
Qed.

Lemma handleAdminDown_changed e y r :
  apply_event (s_cachedState (ses y)) EventAdminDown = r -> Changed r = true ->
  handleAdminDown e y = executeFSMActions e {| r with Actions := Actions r ++ [ActionSendControl] |} y.
Proof. intros Hr Hc. unfold handleAdminDown. rewrite Hr. destruct (Changed r); [reflexivity|discriminate]. Qed.

Lemma handleAdminDown_enters e y y' :
  sys_inv y -> handleAdminDown e y = Some y' -> s_cachedState (ses y') = StateAdminDown.
Proof. intros Y H. destruct (handleAdminDown_ok e y Y) as (y1 & H1 & _ & _ & Hst & _). congruence. Qed.

Lemma handleAdminDown_tells e y y' :
  sys_inv y -> handleAdminDown e y = Some y' -> s_cachedState (ses y) <> StateAdminDown -> told_since y y'.
Proof.
  intros Y H Hne. pose proof (admin_event _ (inv_state _ (good_inv _ (sy_good _ Y))) Hne) as Hr.
  rewrite (handleAdminDown_changed e y _ Hr eq_refl) in H.
  by apply admin_fsm_tells in H; [|apply Y|apply Y|..].
Qed.

Lemma handlePathDown_state e y y' :
  sys_inv y -> handlePathDown e y = Some y' ->
  s_cachedState (ses y') = StateAdminDown <-> s_cachedState (ses y) = StateAdminDown.
Proof.
  intros Y H. unfold handlePathDown in H. destruct (_ || _) eqn:Hc; [by injection H as <-|].
  apply orb_false_iff in Hc as [_ Hna%Z.eqb_neq].
  destruct (set_diag_good e y DiagPathDown (sy_good _ Y) ltac:(done)) as [G1 _].
  destruct (executeFSMActions_good e (mkFSMResult (s_cachedState (ses y)) StateDown
    [ActionNotifyDown; ActionSendControl] true) _ G1) as (y1 & H1 & P); [done|by intros _ [?|?]|done|].
  rewrite H1 in H. injection H as <-. pose proof (f_equal s_cachedState (fp_core _ _ _ _ P)) as Hst. cbn in Hst.
  rewrite Hst. done.
Qed.

Lemma recv_admin s ev : 0 <= s < 4 -> 0 <= ev < 4 -> NewState (apply_event s ev) = StateAdminDown <-> s = StateAdminDown.
Proof.
  intros Hs He.
  assert (H : Forall (fun s => Forall (fun ev => bool_decide (NewState (apply_event s ev) = StateAdminDown)
    = bool_decide (s = StateAdminDown)) (seqZ 0 4)) (seqZ 0 4)) by (apply (bool_decide_unpack _); vm_compute; done).
  rewrite Forall_forall in H. specialize (H s ltac:(apply elem_of_seqZ; lia)).
  rewrite Forall_forall in H. specialize (H ev ltac:(apply elem_of_seqZ; lia)). 
  by rewrite <- (bool_decide_eq_true (NewState (apply_event s ev) = StateAdminDown)), H, bool_decide_eq_true.
Qed.

(** ** Every step of a session *)

Definition admin_pending (y : Sys) : Prop := mkSessionControl controlAdminDown ∈ s_ctrlCh (ses y).

Record drain_step (y y' : Sys) : Prop := {
  dr_sent : sent y `prefix_of` sent y';
  dr_running : s_running (ses y') = s_running (ses y);
  dr_stays : s_cachedState (ses y) = StateAdminDown -> s_cachedState (ses y') = StateAdminDown;
  dr_tells : s_cachedState (ses y') = StateAdminDown -> s_cachedState (ses y) = StateAdminDown \/ told_since y y';
  dr_pending : admin_pending y -> admin_pending y' \/ s_cachedState (ses y') = StateAdminDown;
}.

Lemma drain_step_same y y1 y' :
  ses y1 = ses y \/ (exists q, y1 = upd (fun s => {| s with s_recvCh := q |}) y) -> sent y1 = sent y ->
  steady y1 y' -> (s_cachedState (ses y') = StateAdminDown <-> s_cachedState (ses y) = StateAdminDown) -> drain_step y y'.
Proof.
  intros He Hs [C R S] Hst.
  assert (Hq : s_ctrlCh (ses y1) = s_ctrlCh (ses y) /\ s_running (ses y1) = s_running (ses y)).
  { destruct He as [->|[q ->]]; done. }
  destruct Hq as [Hq Hr]. constructor; [by rewrite <- Hs|congruence|by apply Hst|intros H; left; by apply Hst|].
  intros Hp. left. unfold admin_pending in *. by rewrite C, Hq.
Qed.

Lemma turn_drain c e y y' : sys_inv y -> runLoop_turn c e y = Some (Some y') -> drain_step y y'.
Proof.
  intros Y H. pose proof (inv_state _ (good_inv _ (sy_good _ Y))) as Hrange. destruct c; cbn in H.
  - destruct (s_recvCh (ses y)) as [|item rest] eqn:Hq; [done|]. injection H as H.
    pose proof (inv_queue _ (good_inv _ (sy_good _ Y))) as Hwf. rewrite Hq in Hwf. apply Forall_cons_1 in Hwf as [W Hwf].
    pose proof (with_recvCh_inv y rest Y Hwf) as Y1. set (y1 := upd _ y) in *.
    eapply (drain_step_same y y1); [right; by eexists|done|by eapply handleRecvPacket_steady|].
    destruct (accepts (ses y1) item) eqn:Ha.
    + destruct (handleRecvPacket_accepted e item y1 Y1 W Ha) as (y2 & H2 & P). rewrite H in H2. injection H2 as <-.
      rewrite (rp_state _ _ _ _ P). apply recv_admin; [exact Hrange|apply RecvStateToEvent_range].
    + rewrite (handleRecvPacket_rejected e item y1 (good_inv _ (sy_good _ Y1))) in H by done. by injection H as <-.
  - destruct (s_ctrlCh (ses y)) as [|cmd rest] eqn:Hq; [done|]. injection H as H.
    pose proof (with_ctrlCh_inv y rest Y) as Y1. set (y1 := upd _ y) in *.
    destruct (handleControlCommand_steady e cmd y1 y' H) as [C R S]. unfold handleControlCommand in H.
    assert (Hp : admin_pending y -> cmd = mkSessionControl controlAdminDown \/ admin_pending y').
    { unfold admin_pending. rewrite Hq, C. intros [<-|Hin]%elem_of_cons; [by left|by right]. }
    destruct (sc_kind cmd =? controlPathDown) eqn:Hk; [|destruct (sc_kind cmd =? controlAdminDown) eqn:Hk2].
    + pose proof (handlePathDown_state e y1 y' Y1 H) as Hst.
      constructor; [exact S|exact R|by apply Hst|intros Hs; left; by apply Hst|].
      intros [->|Hin]%Hp; [discriminate Hk|by left].
    + pose proof (handleAdminDown_enters e y1 y' Y1 H) as Hst.
      constructor; [exact S|exact R|done| |by right]. intros _.
      destruct (decide (s_cachedState (ses y) = StateAdminDown)) as [|Hn]; [by left|right].
      exact (handleAdminDown_tells e y1 y' Y1 H Hn).
    + injection H as <-. constructor; [done|done|done|by left|].
      intros [->|Hin]%Hp; [discriminate Hk2|by left].
  - destruct (fired _ _); [|done]. injection H as H. destruct (handleTxTimer_inv e y Y) as (y2 & H2 & _ & _ & Hc & _).
    rewrite H in H2. injection H2 as <-. apply (drain_step_same y {| y with txTimer := None |}); [by left|done| |].
    + by eapply handleTxTimer_steady.
    + pose proof (f_equal s_cachedState Hc) as Hc'. cbn in Hc'. by rewrite Hc'.
  - destruct (fired _ _); [|done]. injection H as H. destruct (handleDetectTimer_ok e y Y) as (y2 & H2 & P).
    rewrite H in H2. injection H2 as <-. apply (drain_step_same y {| y with detectTimer := None |}); [by left|done| |].
    + by eapply handleDetectTimer_steady.
    + destruct (decide (s_cachedState (ses y) = StateInit)) as [Hi|Hi]; [|destruct (decide (s_cachedState (ses y) = StateUp)) as [Hu|Hu]].
      * destruct (dp_live _ _ _ P) as [-> _]; [by left|]. by rewrite Hi.
      * destruct (dp_live _ _ _ P) as [-> _]; [by right|]. by rewrite Hu.
      * destruct (dp_idle _ _ _ P) as [-> _]; [by intros [?|?]|]. done.
Qed.

Lemma entry_drain y s : session_entry (ses y) s -> drain_step y {| y with ses := s |}.
Proof.
  intros He. assert (Hs : s_cachedState s = s_cachedState (ses y) /\ s_running s = s_running (ses y) /\
    exists q, s_ctrlCh s = s_ctrlCh (ses y) ++ q).
  { assert (Hnil : exists q, s_ctrlCh (ses y) = s_ctrlCh (ses y) ++ q) by (exists []; by rewrite app_nil_r).
    inversion He; subst.
    - unfold RecvPacket. by case_bool_decide.
    - unfold SetPathDown. case_bool_decide; [|done]. split_and!; [done|done|]. by eexists.
    - unfold SetAdminDown. destruct (_ && _); [|done]. split_and!; [done|done|]. by eexists. }
  destruct Hs as (Hc & Hr & q & Hq). constructor; cbn [ses sent]; [done|done|congruence|left; congruence|].
  intros Hp. left. unfold admin_pending in *. cbn [ses]. rewrite Hq. set_solver.
Qed.

Lemma step_drain y y' : reachable y -> session_step y y' -> drain_step y y'.
Proof.
  intros R Hs. destruct Hs as [c e y1 y2 H|y1 s H]; [|by apply entry_drain]. eapply turn_drain; [by apply reachable_inv|done].
Qed.

(** After the command was put into the channel: it is still there, or the session is
    in AdminDown, and if it was not before, it has told its peer. *)
Lemma drained y y' :
  reachable y -> admin_pending y -> rtc session_step y y' ->
  sent y `prefix_of` sent y' /\
  (admin_pending y' \/
   s_cachedState (ses y') = StateAdminDown /\ (s_cachedState (ses y) = StateAdminDown \/ told_since y y')).
Proof.
  intros R Hp Hr.
  assert (H : sent y `prefix_of` sent y' /\ (admin_pending y' \/ s_cachedState (ses y') = StateAdminDown) /\
              (s_cachedState (ses y') = StateAdminDown -> s_cachedState (ses y) = StateAdminDown \/ told_since y y') /\ reachable y').
  { revert y' Hr. apply rtc_ind_r; [split_and!; [done|by left|by left|done]|].
    intros z z' _ Hs (S & P & T & Rz).
    destruct (step_drain z z' Rz Hs) as [D1 _ D3 D4 D5]. split_and!.
    - by etrans.
    - destruct P as [P|P]; [by apply D5|right; by apply D3].
    - intros [Hz|Ht]%D4; [|right; by eapply told_earlier].
      destruct (T Hz) as [|Ht]; [by left|right; by eapply told_mono].
    - by eapply reach_step. }
  destruct H as (S & [P|P] & T & _); (split; [done|]); [by left|right]. split; [done|by apply T].
Qed.
