(* ===== verification/Intervals.v ===== *)
(** * Common timer intervals ([src/internal/bfd/intervals.go])

    The RFC 7419 interval set with its exact match, its rounding up and its
    nearest member.  Durations are [int64] nanoseconds. *)

From S2P Require Import Prelude.

Local Open Scope Z_scope.

Definition CommonIntervals : list Z :=
  [3300 * 1000; 10 * 1000000; 20 * 1000000; 50 * 1000000; 100 * 1000000; 1 * 1000000000].

Definition GracefulRestartInterval : Z := 10 * 1000000000.

Definition IsCommonInterval (d : Z) : bool :=
  existsb (fun ci => d =? ci) CommonIntervals.

(** The loop of [AlignToCommonInterval] over the remaining intervals. *)
Fixpoint align_loop (d : Z) (cis : list Z) : Z :=
  match cis with
  | [] => d
  | ci :: rest => if d <=? ci then ci else align_loop d rest
  end.

Definition AlignToCommonInterval (d : Z) : Z :=
  if d <=? 0 then d else align_loop d CommonIntervals.

Definition absDuration (d : Z) : Z := if d <? 0 then i64 (- d) else d.

(** The loop of [NearestCommonInterval] over the remaining intervals. *)
Fixpoint nearest_loop (d best bestDelta : Z) (cis : list Z) : Z :=
  match cis with
  | [] => best
  | ci :: rest =>
      let delta := absDuration (i64 (d - ci)) in
      if delta <? bestDelta then nearest_loop d ci delta rest
      else nearest_loop d best bestDelta rest
  end.

Definition NearestCommonInterval (d : Z) : Z :=
  match CommonIntervals with
  | [] => 0
  | best :: rest =>
      if d <=? 0 then best
      else nearest_loop d best (absDuration (i64 (d - best))) rest
  end.

(** ** Lemmas on the loops, for any increasing list *)

Fixpoint increasing (lo : Z) (l : list Z) : Prop :=
  match l with
  | [] => True
  | x :: rest => lo <= x /\ increasing x rest
  end.

Lemma increasing_lower lo l x : increasing lo l -> x ∈ l -> lo <= x.
Proof.
  revert lo. induction l as [|y l IH]; intros lo; [by intros _ ?%elem_of_nil|].
  intros [Hy Hl] [->|Hx]%elem_of_cons; [done|]. specialize (IH y Hl Hx). lia.
Qed.

Lemma align_loop_spec d lo l :
  increasing lo l ->
  (exists x, x ∈ l /\ d <= x) ->
  align_loop d l ∈ l /\ d <= align_loop d l /\
  (forall x, x ∈ l -> d <= x -> align_loop d l <= x).
Proof.
  revert lo. induction l as [|y l IH]; intros lo Hl (x & Hx & Hd); [by apply elem_of_nil in Hx|].
  destruct Hl as [Hy Hl]. cbn. destruct (d <=? y) eqn:E; bools.
  - split_and!; [left|done|]. intros z [->|Hz]%elem_of_cons _; [done|].
    by apply (increasing_lower y l).
  - apply elem_of_cons in Hx as [->|Hx]; [lia|].
    destruct (IH y Hl) as (H1 & H2 & H3); [by exists x|].
    split_and!; [by right|done|]. intros z [->|Hz]%elem_of_cons ?; [lia|by apply H3].
Qed.

Lemma align_loop_above d l : Forall (fun x => x < d) l -> align_loop d l = d.
Proof.
  induction 1 as [|y l Hy _ IH]; [done|]. cbn. destruct (d <=? y) eqn:E; bools; [lia|done].
Qed.

Lemma absDuration_sub d x :
  0 <= d < 2 ^ 63 -> 0 <= x < 2 ^ 63 -> absDuration (i64 (d - x)) = Z.abs (d - x).
Proof.
  intros. rewrite i64_small by (unfold is_i64; lia). unfold absDuration.
  destruct (d - x <? 0) eqn:E; bools; [rewrite i64_small by (unfold is_i64; lia)|]; lia.
Qed.

(** The loop keeps the first interval of least distance. *)
Lemma nearest_loop_spec d best l :
  0 <= d < 2 ^ 63 -> 0 <= best ->
  increasing best l -> Forall (fun x => x < 2 ^ 63) l ->
  let r := nearest_loop d best (Z.abs (d - best)) l in
  r ∈ best :: l /\
  forall x, x ∈ best :: l ->
    Z.abs (d - r) <= Z.abs (d - x) /\ (Z.abs (d - r) = Z.abs (d - x) -> r <= x).
Proof.
  intros Hd. revert best. induction l as [|y l IH]; intros best Hb Hl Hall; cbn -[Z.pow].
  - split; [left|]. intros x ->%list_elem_of_singleton. lia.
  - destruct Hl as [Hy Hl]. apply Forall_cons_1 in Hall as [Hy' Hall].
    rewrite absDuration_sub by lia.
    destruct (Z.abs (d - y) <? Z.abs (d - best)) eqn:E; bools.
    + destruct (IH y ltac:(lia) Hl Hall) as [H1 H2]. cbn zeta in H1, H2.
      split; [by right|]. intros x [->|Hx]%elem_of_cons; [|by apply H2].
      destruct (H2 y ltac:(left)). lia.
    + destruct (IH best Hb) as [H1 H2]; [by destruct l; [|destruct Hl; split; [lia|]]|done|].
      cbn zeta in H1, H2. split; [apply elem_of_cons in H1 as [->|?]; [left|by do 2 right]|].
      intros x [->|[->|Hx]%elem_of_cons]%elem_of_cons.
      * apply H2. left.
      * destruct (H2 best ltac:(left)) as [Ha Hc]. split; [lia|].
        intros Heq. assert (Z.abs (d - best) = Z.abs (d - y)) by lia.
        assert (Z.abs (d - nearest_loop d best (Z.abs (d - best)) l) = Z.abs (d - best)) by lia.
        specialize (Hc ltac:(done)). lia.
      * apply H2. by right.
Qed.

Lemma CommonIntervals_increasing : increasing 0 CommonIntervals.
Proof. cbn. lia. Qed.

(** ** Properties *)

(** A positive duration of at most one second is rounded up to the least
    common interval that is not shorter, any other duration is kept; so the
    result of rounding up is a common interval exactly up to one second, and
    rounding up twice changes nothing more. *)
Theorem align_is_least_common_interval (d : Z) :
  (0 < d <= 1000000000 ->
     IsCommonInterval (AlignToCommonInterval d) = true /\ d <= AlignToCommonInterval d /\
     forall ci, IsCommonInterval ci = true -> d <= ci -> AlignToCommonInterval d <= ci) /\
  (~ 0 < d <= 1000000000 -> AlignToCommonInterval d = d) /\
  AlignToCommonInterval (AlignToCommonInterval d) = AlignToCommonInterval d.
Proof.
  assert (Hin : forall x, IsCommonInterval x = true <-> x ∈ CommonIntervals).
  { intros x. unfold IsCommonInterval. rewrite existsb_exists.
    setoid_rewrite <- list_elem_of_In. split; [intros (y & ? & ->%Z.eqb_eq)|exists x]; auto using Z.eqb_refl. }
  assert (Hup : 0 < d <= 1000000000 ->
    align_loop d CommonIntervals ∈ CommonIntervals /\ d <= align_loop d CommonIntervals /\
    forall x, x ∈ CommonIntervals -> d <= x -> align_loop d CommonIntervals <= x).
  { intros Hd. apply (align_loop_spec d 0); [apply CommonIntervals_increasing|].
    exists 1000000000. split; [by apply Hin|lia]. }
  assert (Hout : ~ 0 < d <= 1000000000 -> AlignToCommonInterval d = d).
  { intros Hd. unfold AlignToCommonInterval. destruct (d <=? 0) eqn:E; bools; [done|].
    apply align_loop_above. repeat constructor; lia. }
  split_and!; [|done|].
  - intros Hd. unfold AlignToCommonInterval. destruct (d <=? 0) eqn:E; bools; [lia|].
    destruct (Hup Hd) as (H1 & H2 & H3). split_and!; [by apply Hin|done|].
    intros ci Hci. by apply H3, Hin.
  - destruct (decide (0 < d <= 1000000000)) as [Hd|Hd]; [|by rewrite !Hout by (rewrite ?Hout by done; done)].
    assert (AlignToCommonInterval d ∈ CommonIntervals) as Hm.
    { unfold AlignToCommonInterval. destruct (d <=? 0) eqn:E; bools; [lia|by apply Hup]. }
    revert Hm. generalize (AlignToCommonInterval d). intros x Hx.
    unfold CommonIntervals in Hx.
    repeat (apply elem_of_cons in Hx as [->|Hx]; [reflexivity|]). by apply elem_of_nil in Hx.
Qed.

(** For every positive duration the nearest common interval is a common
    interval of least distance, the smaller one of two equally near. *)
Theorem nearest_is_closest (d : Z) (Hd : 0 < d < 2 ^ 63) :
  NearestCommonInterval d ∈ CommonIntervals /\
  forall ci, ci ∈ CommonIntervals ->
    Z.abs (d - NearestCommonInterval d) <= Z.abs (d - ci) /\
    (Z.abs (d - NearestCommonInterval d) = Z.abs (d - ci) -> NearestCommonInterval d <= ci).
Proof.
  unfold NearestCommonInterval, CommonIntervals. destruct (d <=? 0) eqn:E; bools; [lia|].
  rewrite absDuration_sub by lia. apply nearest_loop_spec; [lia|lia|cbn; lia|].
  repeat constructor; lia.
Qed.

Lemma nearest_is_closest_witness :
  NearestCommonInterval 15000000 = 10000000 /\
  (NearestCommonInterval 15000000 ∈ CommonIntervals /\
   forall ci, ci ∈ CommonIntervals ->
    Z.abs (15000000 - NearestCommonInterval 15000000) <= Z.abs (15000000 - ci) /\
    (Z.abs (15000000 - NearestCommonInterval 15000000) = Z.abs (15000000 - ci) ->
     NearestCommonInterval 15000000 <= ci)).
Proof. split; [reflexivity|apply (nearest_is_closest 15000000); lia]. Defined.
