(* ===== verification/Discriminator.v ===== *)
(** * Discriminator allocation ([src/internal/bfd/discriminator.go])

    The allocator is the set of allocated discriminators; its mutex makes every
    method atomic.  The four bytes each [rand.Read] delivers, or its failure, are
    an input indexed by the attempt. *)

From S2P Require Import Prelude.

Local Open Scope Z_scope.

Definition maxAllocAttempts : nat := 100.

Inductive alloc_error := ErrDiscriminatorExhausted | ErrAllocRandRead.

#[export] Instance alloc_error_eq_dec : EqDecision alloc_error.
Proof. solve_decision. Defined.

Definition DiscriminatorAllocator : Type := gset Z.

Definition NewDiscriminatorAllocator : DiscriminatorAllocator := ∅.

(** What the [k]-th read of an [Allocate] call delivers. *)
Definition reads : Type := nat -> option (Z * Z * Z * Z).

Definition draw (rd : reads) (k : nat) : option Z :=
  match rd k with
  | Some (b0, b1, b2, b3) => Some (be32_val b0 b1 b2 b3)
  | None => None
  end.

(** [n] attempts are left, the next is number [k]. *)
Fixpoint alloc_loop (n k : nat) (rd : reads) (d : DiscriminatorAllocator)
    : go alloc_error Z * DiscriminatorAllocator :=
  match n with
  | O => (Err ErrDiscriminatorExhausted, d)
  | S n =>
      match draw rd k with
      | None => (Err ErrAllocRandRead, d)
      | Some discr =>
          if discr =? 0 then alloc_loop n (S k) rd d
          else if bool_decide (discr ∈ d) then alloc_loop n (S k) rd d
          else (Ok discr, {[discr]} ∪ d)
      end
  end.

Definition Allocate (rd : reads) (d : DiscriminatorAllocator)
    : go alloc_error Z * DiscriminatorAllocator :=
  alloc_loop maxAllocAttempts 0 rd d.
#[global] Arguments Allocate : simpl never.

Definition Release (discr : Z) (d : DiscriminatorAllocator) : DiscriminatorAllocator :=
  d ∖ {[discr]}.

Definition IsAllocated (discr : Z) (d : DiscriminatorAllocator) : bool :=
  bool_decide (discr ∈ d).

(** ** Lemmas *)

Definition reads_ok (rd : reads) : Prop :=
  forall k b0 b1 b2 b3, rd k = Some (b0, b1, b2, b3) ->
    is_byte b0 /\ is_byte b1 /\ is_byte b2 /\ is_byte b3.

(** A drawn value the allocator may hand out. *)
Definition usable (d : DiscriminatorAllocator) (v : Z) : Prop := v <> 0 /\ v ∉ d.

Lemma draw_u32 rd k v : reads_ok rd -> draw rd k = Some v -> is_u32 v.
Proof.
  intros Hr. unfold draw. destruct (rd k) as [[[[b0 b1] b2] b3]|] eqn:E; [|done].
  intros [= <-]. apply Hr in E as (? & ? & ? & ?). by apply be32_val_range.
Qed.

(** Every draw from number [k] to before [i] was made and could not be used. *)
Definition skipped (rd : reads) (d : DiscriminatorAllocator) (k i : nat) : Prop :=
  forall j, (k <= j < i)%nat -> exists w, draw rd j = Some w /\ ~ usable d w.

(** The outcome of the attempts from number [k] to before [hi]. *)
Definition alloc_outcome (rd : reads) (d : DiscriminatorAllocator) (k hi : nat)
    (r : go alloc_error Z * DiscriminatorAllocator) : Prop :=
  match r with
  | (Ok v, d') => d' = {[v]} ∪ d /\ usable d v /\
      exists i, (k <= i < hi)%nat /\ draw rd i = Some v /\ skipped rd d k i
  | (Err ErrDiscriminatorExhausted, d') => d' = d /\ skipped rd d k hi
  | (Err ErrAllocRandRead, d') => d' = d /\
      exists i, (k <= i < hi)%nat /\ draw rd i = None /\ skipped rd d k i
  | (Panic, _) => False
  end.

Lemma skipped_cons rd d k i v :
  draw rd k = Some v -> ~ usable d v -> skipped rd d (S k) i -> skipped rd d k i.
Proof.
  intros Hv Hu H j Hj. destruct (decide (j = k)) as [->|]; [by exists v|apply H; lia].
Qed.

Lemma alloc_outcome_skip rd d k hi v r :
  draw rd k = Some v -> ~ usable d v -> alloc_outcome rd d (S k) hi r -> alloc_outcome rd d k hi r.
Proof.
  intros Hv Hu. pose proof (fun i => skipped_cons rd d k i v Hv Hu) as Hs.
  destruct r as [[w|[]|] d']; cbn.
  - intros (-> & ? & i & ? & ? & H). split_and!; try done. exists i. auto with lia.
  - intros (-> & H). auto.
  - intros (-> & i & ? & ? & H). split; [done|]. exists i. auto with lia.
  - done.
Qed.

Lemma alloc_loop_spec n k rd d : alloc_outcome rd d k (k + n) (alloc_loop n k rd d).
Proof.
  revert k. induction n as [|n IH]; intros k; cbn.
  - split; [done|]. intros j ?. lia.
  - destruct (draw rd k) as [v|] eqn:Ev.
    + specialize (IH (S k)). rewrite Nat.add_succ_comm in IH.
      destruct (v =? 0) eqn:E0; [|case_bool_decide]; bools.
      * apply (alloc_outcome_skip _ _ _ _ v); [done|by intros []|done].
      * apply (alloc_outcome_skip _ _ _ _ v); [done|by intros []|done].
      * split_and!; try done. exists k. split_and!; [lia|lia|done|]. intros j ?. lia.
    + split; [done|]. exists k. split_and!; [lia|lia|done|]. intros j ?. lia.
Qed.

Lemma Allocate_outcome rd d : alloc_outcome rd d 0 100 (Allocate rd d).
Proof. apply alloc_loop_spec. Qed.

Lemma Allocate_Ok rd d v d' :
  Allocate rd d = (Ok v, d') -> d' = {[v]} ∪ d /\ v <> 0 /\ v ∉ d /\ (reads_ok rd -> is_u32 v).
Proof.
  intros H. pose proof (Allocate_outcome rd d) as S. rewrite H in S. destruct S as (-> & [? ?] & i & _ & Hi & _).
  split_and!; try done. intros. by eapply draw_u32.
Qed.

Lemma Allocate_Err rd d e d' : Allocate rd d = (Err e, d') -> d' = d.
Proof.
  intros H. pose proof (Allocate_outcome rd d) as S. rewrite H in S. by destruct e, S.
Qed.

(** More allocated discriminators do not help. *)
Lemma Allocate_Err_mono rd d D e d' : d ⊆ D -> Allocate rd d = (Err e, d') -> Allocate rd D = (Err e, D).
Proof.
  intros Hsub. unfold Allocate. generalize maxAllocAttempts 0%nat. intros n.
  induction n as [|n IH]; intros k; cbn; [by intros [= <- <-]|].
  destruct (draw rd k) as [v|]; [|by intros [= <- <-]]. destruct (v =? 0); [apply IH|].
  case_bool_decide; [|done]. rewrite bool_decide_true by set_solver. apply IH.
Qed.

Lemma Allocate_no_panic rd d d' : Allocate rd d <> (Panic, d').
Proof.
  intros H. pose proof (Allocate_outcome rd d) as S. by rewrite H in S.
Qed.

(** Undoing an allocation. *)
Lemma Release_fresh v (d : DiscriminatorAllocator) : v ∉ d -> Release v ({[v]} ∪ d) = d.
Proof. unfold Release. set_solver. Qed.

(** Distinct draws that are all unusable are zero or allocated. *)
Lemma unusable_draws (f : nat -> Z) (n : nat) (d : DiscriminatorAllocator) :
  (forall i j, (i < n)%nat -> (j < n)%nat -> f i = f j -> i = j) ->
  (forall i, (i < n)%nat -> ~ usable d (f i)) -> (n <= size d + 1)%nat.
Proof.
  intros Hinj Hun.
  assert (Hnd : NoDup (f <$> seq 0 n)).
  { apply NoDup_fmap_2_strong; [|apply NoDup_seq].
    intros x y Hx%elem_of_seq Hy%elem_of_seq. apply Hinj; lia. }
  pose proof (size_list_to_set (C := gset Z) _ Hnd) as Hsz.
  rewrite length_fmap, length_seq in Hsz. rewrite <- Hsz.
  etrans; [apply (subseteq_size _ ({[0]} ∪ d))|].
  - intros x [i [-> Hi%elem_of_seq]]%elem_of_list_to_set%list_elem_of_fmap.
    specialize (Hun i ltac:(lia)). unfold usable in Hun.
    destruct (decide (f i = 0)); [set_solver|]. destruct (decide (f i ∈ d)); set_solver.
  - rewrite size_union_alt, size_singleton.
    pose proof (subseteq_size (d ∖ {[0]}) d ltac:(set_solver)). lia.
Qed.

(** ** Properties *)

(** [Allocate] hands out the first drawn value that is neither zero nor
    allocated, marks exactly that value as allocated, and changes nothing when it
    fails; a failed read is reported as such.  With working reads of 100 distinct
    values it succeeds as long as fewer than 99 discriminators are allocated. *)
Theorem allocate_first_usable (rd : reads) (d : DiscriminatorAllocator) (Hrd : reads_ok rd) :
  match Allocate rd d with
  | (Ok v, d') => d' = {[v]} ∪ d /\ v ∉ d /\ 0 < v < 2 ^ 32 /\
      exists i, (i < 100)%nat /\ draw rd i = Some v /\
        forall j, (j < i)%nat -> exists w, draw rd j = Some w /\ (w = 0 \/ w ∈ d)
  | (Err e, d') => d' = d /\
      (e = ErrDiscriminatorExhausted ->
         forall j, (j < 100)%nat -> exists w, draw rd j = Some w /\ (w = 0 \/ w ∈ d)) /\
      (e = ErrAllocRandRead -> exists i, (i < 100)%nat /\ draw rd i = None) /\
      ((forall i j v, (i < 100)%nat -> (j < 100)%nat ->
          draw rd i = Some v -> draw rd j = Some v -> i = j) ->
       (forall i, (i < 100)%nat -> is_Some (draw rd i)) -> (99 <= size d)%nat)
  | (Panic, _) => False
  end.
Proof.
  pose proof (Allocate_outcome rd d) as H.
  assert (Hu : forall w, ~ usable d w -> w = 0 \/ w ∈ d).
  { intros w Hw. unfold usable in Hw. destruct (decide (w = 0)); [by left|].
    destruct (decide (w ∈ d)); [by right|]. by destruct Hw. }
  destruct (Allocate rd d) as [[v|e|] d']; cbn in H; [| |done].
  - destruct H as (-> & [Hz Hn] & i & Hi & Hv & Hb). split; [done|]. split; [done|].
    pose proof (draw_u32 _ _ _ Hrd Hv). split; [width_lia|]. exists i. split; [lia|].
    split; [done|]. intros j Hj. destruct (Hb j ltac:(lia)) as (w & ? & ?). exists w. auto.
  - destruct e.
    + destruct H as (-> & Hb). split; [done|]. split; [|split; [done|]].
      * intros _ j Hj. destruct (Hb j ltac:(lia)) as (w & ? & ?). exists w. auto.
      * intros Hinj _. set (f := fun i => default 0 (draw rd i)).
        assert (Hf : forall i, (i < 100)%nat -> draw rd i = Some (f i) /\ ~ usable d (f i)).
        { intros i Hi. destruct (Hb i ltac:(lia)) as (w & Hw & ?). unfold f. by rewrite Hw. }
        pose proof (unusable_draws f 100 d) as Hs. cut (100 <= size d + 1)%nat; [lia|]. apply Hs.
        -- intros i j Hi Hj Heq. destruct (Hf i Hi) as [Ei _]. destruct (Hf j Hj) as [Ej _].
           apply (Hinj i j (f i)); try done. by rewrite Heq.
        -- intros i Hi. by apply Hf.
    + destruct H as (-> & i & Hi & Hd & _). split; [done|]. split; [done|]. split.
      * intros _. exists i. split; [lia|done].
      * intros _ Hs. destruct (Hs i ltac:(lia)). congruence.
Qed.

Lemma allocate_first_usable_witness :
  let rd : reads := fun k => if Nat.eqb k 0 then Some (0, 0, 0, 7) else Some (0, 0, 1, 2) in
  Allocate rd {[7]} = (Ok 258, {[258]} ∪ {[7]}) /\
  (258 : Z) ∉ ({[7]} : gset Z).
Proof.
  intros rd. assert (reads_ok rd) as Hrd.
  { intros k b0 b1 b2 b3. unfold rd. destruct (Nat.eqb k 0); intros [= <- <- <- <-]; unfold is_byte; lia. }
  pose proof (allocate_first_usable rd {[7]} Hrd) as H.
  assert (E : Allocate rd {[7]} = (Ok 258, {[258]} ∪ {[7]})) by reflexivity.
  rewrite E in H. split; [exact E|apply H].
Defined.
