(* ===== verification/Micro.v ===== *)
(** * Micro-BFD groups ([src/internal/bfd/micro.go])

    A group holds the BFD state of every member link of a LAG interface, counts
    the members that are Up and derives the aggregate state from the count.  The
    group's mutex makes every method atomic; loggers are left out. *)

From S2P Require Import Prelude Packet Netip.

Local Open Scope Z_scope.

Inductive micro_error :=
| ErrMicroBFDNoMembers
| ErrMicroBFDDuplicateMember
| ErrMicroBFDInvalidMinActive
| ErrMicroBFDMemberNotFound
| ErrMicroBFDMemberExists.

#[export] Instance micro_error_eq_dec : EqDecision micro_error.
Proof. solve_decision. Defined.

Record MicroBFDConfig := mkMicroBFDConfig {
  mc_LAGInterface : string;
  mc_MemberLinks : list string;
  mc_PeerAddr : Addr;
  mc_LocalAddr : Addr;
  mc_DesiredMinTxInterval : Z;
  mc_RequiredMinRxInterval : Z;
  mc_DetectMultiplier : Z;
  mc_MinActiveLinks : Z;
}.

Record MemberLinkState := mkMemberLinkState {
  ml_Interface : string;
  ml_State : Z;
  ml_LocalDiscr : Z;
}.

Record MicroBFDMemberEvent := mkMicroBFDMemberEvent {
  ev_LAGInterface : string;
  ev_MemberInterface : string;
  ev_OldState : Z;
  ev_NewState : Z;
  ev_LocalDiscr : Z;
  ev_AggregateUp : bool;
  ev_AggregateChanged : bool;
}.

Record memberEntry := mkMemberEntry {
  me_ifName : string;
  me_state : Z;
  me_localDiscr : Z;
}.

Record MicroBFDGroup := mkMicroBFDGroup {
  g_lagInterface : string;
  g_members : gmap string memberEntry;
  g_minActive : Z;
  g_aggregateUp : bool;
  g_upCount : Z;
  g_peerAddr : Addr;
  g_localAddr : Addr;
}.

(** ** Construction *)

(** The duplicate check, with the links already seen. *)
Fixpoint check_links (links : list string) (seen : gset string) : go micro_error unit :=
  match links with
  | [] => Ok tt
  | link :: rest =>
      if bool_decide (link ∈ seen) then Err ErrMicroBFDDuplicateMember
      else check_links rest ({[link]} ∪ seen)
  end.

Definition validateMicroBFDConfig (cfg : MicroBFDConfig) : go micro_error unit :=
  if zlen (mc_MemberLinks cfg) =? 0 then Err ErrMicroBFDNoMembers else
  _ ← check_links (mc_MemberLinks cfg) ∅;
  if (mc_MinActiveLinks cfg <? 1) || (zlen (mc_MemberLinks cfg) <? mc_MinActiveLinks cfg)
  then Err ErrMicroBFDInvalidMinActive else Ok tt.

Definition new_member (link : string) : memberEntry :=
  {| me_ifName := link; me_state := StateDown; me_localDiscr := 0 |}.

Definition NewMicroBFDGroup (cfg : MicroBFDConfig) : go micro_error MicroBFDGroup :=
  _ ← validateMicroBFDConfig cfg;
  let members :=
    fold_left (fun ms link => <[link := new_member link]> ms) (mc_MemberLinks cfg) ∅ in
  Ok {| g_lagInterface := mc_LAGInterface cfg; g_members := members;
        g_minActive := mc_MinActiveLinks cfg; g_aggregateUp := false; g_upCount := 0;
        g_peerAddr := mc_PeerAddr cfg; g_localAddr := mc_LocalAddr cfg |}.

(** ** Operations *)

Definition AddMember (ifName : string) (g : MicroBFDGroup) : go micro_error unit * MicroBFDGroup :=
  match g_members g !! ifName with
  | Some _ => (Err ErrMicroBFDMemberExists, g)
  | None => (Ok tt, {| g with g_members := <[ifName := new_member ifName]> (g_members g) |})
  end.

(** Re-evaluate the aggregate state: did it change? *)
Definition reevaluate (g : MicroBFDGroup) : bool * MicroBFDGroup :=
  let oldAggUp := g_aggregateUp g in
  let newAggUp := g_minActive g <=? g_upCount g in
  (negb (Bool.eqb oldAggUp newAggUp), {| g with g_aggregateUp := newAggUp |}).

Definition RemoveMember (ifName : string) (g : MicroBFDGroup) : go micro_error bool * MicroBFDGroup :=
  match g_members g !! ifName with
  | None => (Err ErrMicroBFDMemberNotFound, g)
  | Some entry =>
      let g := if me_state entry =? StateUp
               then {| g with g_upCount := g_upCount g - 1 |} else g in
      let g := {| g with g_members := delete ifName (g_members g) |} in
      let '(changed, g) := reevaluate g in
      (Ok changed, g)
  end.

Definition UpdateMemberState (ifName : string) (newState localDiscr : Z) (g : MicroBFDGroup)
    : go micro_error bool * MicroBFDGroup :=
  match g_members g !! ifName with
  | None => (Err ErrMicroBFDMemberNotFound, g)
  | Some entry =>
      let oldState := me_state entry in
      if oldState =? newState then (Ok false, g) else
      let entry := {| entry with me_state := newState; me_localDiscr := localDiscr |} in
      let g := {| g with g_members := <[ifName := entry]> (g_members g) |} in
      let g :=
        if (oldState =? StateUp) && negb (newState =? StateUp)
        then {| g with g_upCount := g_upCount g - 1 |}
        else if negb (oldState =? StateUp) && (newState =? StateUp)
        then {| g with g_upCount := g_upCount g + 1 |} else g in
      let '(changed, g) := reevaluate g in
      (Ok changed, g)
  end.

(** ** Accessors and snapshot *)

Definition IsUp (g : MicroBFDGroup) : bool := g_aggregateUp g.
Definition UpCount (g : MicroBFDGroup) : Z := g_upCount g.
Definition MemberCount (g : MicroBFDGroup) : Z := Z.of_nat (size (g_members g)).

(** The members in the order the map iteration delivers them; [ord] rearranges. *)
Definition MemberNames (ord : list (string * memberEntry) -> list (string * memberEntry))
    (g : MicroBFDGroup) : list string :=
  fst <$> ord (map_to_list (g_members g)).

Definition MemberStates (ord : list (string * memberEntry) -> list (string * memberEntry))
    (g : MicroBFDGroup) : list MemberLinkState :=
  (fun kv => {| ml_Interface := me_ifName kv.2; ml_State := me_state kv.2;
                ml_LocalDiscr := me_localDiscr kv.2 |}) <$> ord (map_to_list (g_members g)).

Record MicroBFDGroupSnapshot := mkMicroBFDGroupSnapshot {
  ms_LAGInterface : string;
  ms_PeerAddr : Addr;
  ms_LocalAddr : Addr;
  ms_AggregateUp : bool;
  ms_UpCount : Z;
  ms_MemberCount : Z;
  ms_MinActiveLinks : Z;
  ms_Members : list MemberLinkState;
}.

Definition MicroBFDGroup_Snapshot
    (ord : list (string * memberEntry) -> list (string * memberEntry))
    (g : MicroBFDGroup) : MicroBFDGroupSnapshot :=
  {| ms_LAGInterface := g_lagInterface g; ms_PeerAddr := g_peerAddr g;
     ms_LocalAddr := g_localAddr g; ms_AggregateUp := g_aggregateUp g;
     ms_UpCount := g_upCount g; ms_MemberCount := Z.of_nat (size (g_members g));
     ms_MinActiveLinks := g_minActive g; ms_Members := MemberStates ord g |}.

(** ** Specification: a LAG is the map of its members' states

    The LAG is up when at least [min] of its members are Up; an operation reports
    whether that changed. *)

Abbreviation lag := (gmap string Z).

Definition ups (l : lag) : nat := size (filter (fun kv => kv.2 = StateUp) l).

Definition lag_up (min : Z) (l : lag) : bool := min <=? Z.of_nat (ups l).

Inductive micro_op :=
| OpAdd (ifName : string)
| OpRemove (ifName : string)
| OpUpdate (ifName : string) (newState localDiscr : Z).

Definition lag_next (op : micro_op) (l : lag) : go micro_error lag :=
  match op with
  | OpAdd k => match l !! k with Some _ => Err ErrMicroBFDMemberExists | None => Ok (<[k := StateDown]> l) end
  | OpRemove k => match l !! k with Some _ => Ok (delete k l) | None => Err ErrMicroBFDMemberNotFound end
  | OpUpdate k st _ => match l !! k with Some _ => Ok (<[k := st]> l) | None => Err ErrMicroBFDMemberNotFound end
  end.

Definition lag_apply (min : Z) (op : micro_op) (l : lag) : go micro_error bool * lag :=
  match lag_next op l with
  | Ok l' => (Ok (negb (Bool.eqb (lag_up min l) (lag_up min l'))), l')
  | Err e => (Err e, l)
  | Panic => (Panic, l)
  end.

Definition micro_apply (op : micro_op) (g : MicroBFDGroup) : go micro_error bool * MicroBFDGroup :=
  match op with
  | OpAdd k => let '(r, g) := AddMember k g in (_ ← r; Ok false, g)
  | OpRemove k => RemoveMember k g
  | OpUpdate k st d => UpdateMemberState k st d g
  end.

(** Run a list of operations, with the list of their results. *)
Fixpoint run_ops {S O R} (f : O -> S -> R * S) (ops : list O) (s : S) : list R * S :=
  match ops with
  | [] => ([], s)
  | op :: rest => let '(r, s) := f op s in let '(rs, s) := run_ops f rest s in (r :: rs, s)
  end.

(** The LAG a group stands for, and the group's derived fields. *)
Definition lag_of (g : MicroBFDGroup) : lag := me_state <$> g_members g.

Record group_ok (min : Z) (g : MicroBFDGroup) : Prop := {
  gok_min : g_minActive g = min;
  gok_count : g_upCount g = Z.of_nat (ups (lag_of g));
  gok_agg : g_aggregateUp g = lag_up min (lag_of g);
}.

(** ** Lemmas *)

Lemma ups_insert_new l k st :
  l !! k = None -> ups (<[k := st]> l) = (ups l + (if (st =? StateUp)%Z then 1 else 0))%nat.
Proof.
  intros Hk. unfold ups. destruct (st =? StateUp) eqn:E; bools.
  - rewrite map_filter_insert_True by done. rewrite map_size_insert_None; [lia|].
    apply map_lookup_filter_None. by left.
  - rewrite map_filter_insert_False by done. rewrite delete_id by done. lia.
Qed.

Lemma ups_delete l k st :
  l !! k = Some st -> ups l = (ups (delete k l) + (if (st =? StateUp)%Z then 1 else 0))%nat.
Proof.
  intros Hk. rewrite <- (insert_delete_id l k st Hk) at 1. apply ups_insert_new, lookup_delete_eq.
Qed.

Lemma ups_insert l k st st' :
  l !! k = Some st ->
  Z.of_nat (ups (<[k := st']> l)) =
  Z.of_nat (ups l) - (if st =? StateUp then 1 else 0) + (if st' =? StateUp then 1 else 0).
Proof.
  intros Hk. rewrite (ups_delete l k st Hk), <- insert_delete_eq.
  rewrite ups_insert_new by apply lookup_delete_eq.
  destruct (st =? StateUp), (st' =? StateUp); lia.
Qed.

Lemma lag_lookup g k : lag_of g !! k = me_state <$> (g_members g !! k).
Proof. apply lookup_fmap. Qed.

Lemma reevaluate_ok min g :
  g_minActive g = min -> g_upCount g = Z.of_nat (ups (lag_of g)) ->
  (reevaluate g).1 = negb (Bool.eqb (g_aggregateUp g) (lag_up min (lag_of g))) /\
  lag_of (reevaluate g).2 = lag_of g /\ group_ok min (reevaluate g).2.
Proof.
  intros <- Hc. unfold reevaluate, lag_up. cbn. rewrite Hc. split_and!; [done|done|by constructor].
Qed.

(** One operation on a consistent group is the operation of the specification. *)
Lemma micro_apply_refines min op g :
  group_ok min g ->
  exists g', micro_apply op g = ((lag_apply min op (lag_of g)).1, g') /\
             lag_of g' = (lag_apply min op (lag_of g)).2 /\ group_ok min g'.
Proof.
  intros G. pose proof G as [Hm Hc Ha]. unfold lag_apply, lag_next, micro_apply.
  destruct op as [k|k|k st d]; rewrite lag_lookup.
  - unfold AddMember. destruct (g_members g !! k) as [en|] eqn:Hk; cbn -[lag_up]; [by exists g|].
    assert (Hl : lag_of g !! k = None) by (rewrite lag_lookup, Hk; done).
    set (g' := {| g with g_members := _ |}). exists g'.
    assert (El : lag_of g' = <[k := StateDown]> (lag_of g)) by apply fmap_insert.
    assert (Eu : ups (<[k := StateDown]> (lag_of g)) = ups (lag_of g)).
    { rewrite ups_insert_new by done. apply Nat.add_0_r. }
    unfold lag_up. rewrite El, Eu, Bool.eqb_reflx. split_and!; [done|done|].
    constructor; [done|..]; unfold lag_up; rewrite El, Eu; [exact Hc|exact Ha].
  - unfold RemoveMember. destruct (g_members g !! k) as [en|] eqn:Hk; cbn -[lag_up reevaluate]; [|by exists g].
    assert (Hl : lag_of g !! k = Some (me_state en)) by (rewrite lag_lookup, Hk; done).
    set (g1 := if _ : bool then _ else g). set (g2 := {| g1 with g_members := _ |}).
    assert (Hg : g_minActive g2 = min /\ g_aggregateUp g2 = g_aggregateUp g /\
                 lag_of g2 = delete k (lag_of g) /\ g_upCount g2 = Z.of_nat (ups (lag_of g2))).
    { assert (El : lag_of g2 = delete k (lag_of g)).
      { unfold lag_of, g2, g1. cbn. rewrite fmap_delete. by case_match. }
      rewrite El. pose proof (ups_delete _ _ _ Hl). unfold g2, g1.
      split_and!; [by case_match|by case_match|done|]. case_match; cbn; lia. }
    destruct Hg as (H1 & H2 & H3 & H4). destruct (reevaluate_ok min g2 H1 H4) as (R1 & R2 & R3).
    destruct (reevaluate g2) as [ch g3]. cbn [fst snd] in R1, R2, R3. exists g3.
    rewrite R1, H2, Ha, R2, H3. done.
  - unfold UpdateMemberState.
    destruct (g_members g !! k) as [en|] eqn:Hk; cbn -[lag_up reevaluate]; [|by exists g].
    assert (Hl : lag_of g !! k = Some (me_state en)) by (rewrite lag_lookup, Hk; done).
    destruct (me_state en =? st) eqn:Es; bools.
    { exists g. subst st. rewrite insert_id by done. rewrite Bool.eqb_reflx. done. }
    set (g1 := {| g with g_members := _ |}). set (g2 := if _ : bool then _ else _).
    assert (Hg : g_minActive g2 = min /\ g_aggregateUp g2 = g_aggregateUp g /\
                 lag_of g2 = <[k := st]> (lag_of g) /\ g_upCount g2 = Z.of_nat (ups (lag_of g2))).
    { assert (El : lag_of g2 = <[k := st]> (lag_of g)).
      { transitivity (lag_of g1); [unfold g2; by repeat case_match|].
        unfold lag_of, g1. cbn. by rewrite fmap_insert. }
      rewrite El, (ups_insert _ _ _ st Hl). unfold g2.
      split_and!; [by repeat case_match|by repeat case_match|done|].
      destruct (me_state en =? StateUp), (st =? StateUp); cbn; lia. }
    destruct Hg as (H1 & H2 & H3 & H4). destruct (reevaluate_ok min g2 H1 H4) as (R1 & R2 & R3).
    destruct (reevaluate g2) as [ch g3]. cbn [fst snd] in R1, R2, R3. exists g3.
    rewrite R1, H2, Ha, R2, H3. done.
Qed.

Lemma micro_ops_refine min ops g :
  group_ok min g ->
  (run_ops micro_apply ops g).1 = (run_ops (lag_apply min) ops (lag_of g)).1 /\
  lag_of (run_ops micro_apply ops g).2 = (run_ops (lag_apply min) ops (lag_of g)).2 /\
  group_ok min (run_ops micro_apply ops g).2.
Proof.
  revert g. induction ops as [|op ops IH]; intros g G; cbn; [done|].
  destruct (micro_apply_refines min op g G) as (g' & -> & Hl & G').
  destruct (IH g' G') as (H1 & H2 & H3). rewrite Hl in H1, H2.
  destruct (lag_apply min op (lag_of g)) as [r l']. cbn [fst snd] in *.
  destruct (run_ops micro_apply ops g') as [rs g2], (run_ops (lag_apply min) ops l') as [rs' l2].
  cbn [fst snd] in *. by subst.
Qed.

Lemma check_links_spec links seen :
  match check_links links seen with
  | Ok _ => NoDup links /\ Forall (fun x => x ∉ seen) links
  | Err e => e = ErrMicroBFDDuplicateMember /\ ~ (NoDup links /\ Forall (fun x => x ∉ seen) links)
  | Panic => False
  end.
Proof.
  revert seen. induction links as [|x links IH]; intros seen; cbn; [by split; constructor|].
  case_bool_decide as Hx.
  - split; [done|]. intros [_ [? _]%Forall_cons_1]. done.
  - specialize (IH ({[x]} ∪ seen)). destruct (check_links links ({[x]} ∪ seen)) as [u|e|]; [| |done].
    + destruct IH as [Hnd Hall]. rewrite Forall_forall in Hall. split.
      * constructor; [|done]. intros Hin. specialize (Hall x Hin). set_solver.
      * constructor; [done|]. apply Forall_forall. intros y Hy. specialize (Hall y Hy). set_solver.
    + destruct IH as [-> Hn]. split; [done|]. intros [[Hx' Hnd]%NoDup_cons [_ Hall]%Forall_cons_1].
      apply Hn. split; [done|]. rewrite Forall_forall in *. intros y Hy.
      specialize (Hall y Hy). set_solver.
Qed.

Definition valid_links (cfg : MicroBFDConfig) : Prop :=
  NoDup (mc_MemberLinks cfg) /\ 1 <= mc_MinActiveLinks cfg <= zlen (mc_MemberLinks cfg).

Lemma validateMicroBFDConfig_spec cfg :
  match validateMicroBFDConfig cfg with
  | Ok _ => valid_links cfg
  | Err _ => ~ valid_links cfg
  | Panic => False
  end.
Proof.
  unfold validateMicroBFDConfig, valid_links. destruct (zlen _ =? 0) eqn:E0; bools; [lia|].
  pose proof (check_links_spec (mc_MemberLinks cfg) ∅) as H.
  destruct (check_links _ _) as [u|e|]; cbn; [|intros [? _]; apply H|done].
  - destruct (_ || _) eqn:E; [|bools; split; [apply H|lia]].
    apply orb_true_iff in E as [E|E]; bools; lia.
  - split; [done|]. apply Forall_forall. set_solver.
Qed.

(** A group starts with every member Down. *)
Definition all_down (links : list string) : lag :=
  list_to_map ((fun link => (link, StateDown)) <$> links).

Lemma lookup_all_down links k :
  all_down links !! k = if bool_decide (k ∈ links) then Some StateDown else None.
Proof.
  unfold all_down. induction links as [|x links IH]; cbn.
  - by rewrite lookup_empty.
  - destruct (decide (k = x)) as [->|Hne].
    + rewrite lookup_insert_eq. rewrite bool_decide_true; [done|left].
    + rewrite lookup_insert_ne by done. rewrite IH. repeat case_bool_decide; set_solver.
Qed.

Lemma new_members_lag links ms :
  me_state <$> fold_left (fun ms link => <[link := new_member link]> ms) links ms =
  all_down links ∪ (me_state <$> ms).
Proof.
  revert ms. induction links as [|x links IH]; intros ms; cbn [fold_left].
  - unfold all_down. cbn. by rewrite (left_id_L ∅ (∪)).
  - rewrite IH, fmap_insert. apply map_eq. intros k. rewrite !lookup_union, !lookup_all_down.
    destruct (decide (k = x)) as [->|Hne].
    + rewrite lookup_insert_eq, (bool_decide_true (x ∈ x :: links)) by left.
      case_bool_decide; destruct ((me_state <$> ms) !! x); done.
    + rewrite lookup_insert_ne by done. repeat case_bool_decide; try done; set_solver.
Qed.

Lemma ups_all_down links : ups (all_down links) = 0%nat.
Proof.
  unfold ups. apply map_size_empty_iff, map_empty_filter_2. intros k st Hk Hup. cbn in Hup.
  rewrite lookup_all_down in Hk. case_bool_decide; [|done]. injection Hk as <-. discriminate Hup.
Qed.

Lemma NewMicroBFDGroup_ok cfg g :
  NewMicroBFDGroup cfg = Ok g ->
  valid_links cfg /\ lag_of g = all_down (mc_MemberLinks cfg) /\ group_ok (mc_MinActiveLinks cfg) g.
Proof.
  unfold NewMicroBFDGroup. pose proof (validateMicroBFDConfig_spec cfg) as H.
  destruct (validateMicroBFDConfig cfg); cbn -[fold_left]; try discriminate. intros [= <-].
  assert (Hl : forall lagif pa la, lag_of (mkMicroBFDGroup lagif (fold_left
    (fun ms link => <[link := new_member link]> ms) (mc_MemberLinks cfg) ∅)
    (mc_MinActiveLinks cfg) false 0 pa la) = all_down (mc_MemberLinks cfg)).
  { intros. unfold lag_of. cbn [g_members]. rewrite new_members_lag, fmap_empty. apply (right_id_L ∅ (∪)). }
  destruct H as [Hnd Hmin]. split_and!; [done|apply Hl|]. constructor; [done|..].
  - rewrite Hl, ups_all_down. done.
  - rewrite Hl. unfold lag_up. rewrite ups_all_down. cbn -[Z.leb]. symmetry. apply Z.leb_gt. lia.
Qed.

(** ** Property *)

(** C29: a group is created exactly for a nonempty list of distinct links and a
    threshold between one and their number.  From then on every sequence of
    [AddMember], [RemoveMember] and [UpdateMemberState] gives the results and the
    member states of the specification, the Up counter is the number of members
    that are Up, and the aggregate is Up exactly when that number reaches the
    threshold; the reported change is the change of the aggregate. *)
Theorem micro_group_refines_lag (cfg : MicroBFDConfig) (ops : list micro_op) :
  match NewMicroBFDGroup cfg with
  | Ok g0 =>
      valid_links cfg /\
      let '(rs, g) := run_ops micro_apply ops g0 in
      let '(rs', l) :=
        run_ops (lag_apply (mc_MinActiveLinks cfg)) ops (all_down (mc_MemberLinks cfg)) in
      rs = rs' /\ me_state <$> g_members g = l /\
      UpCount g = Z.of_nat (ups l) /\ IsUp g = lag_up (mc_MinActiveLinks cfg) l
  | Err _ => ~ valid_links cfg
  | Panic => False
  end.
Proof.
  destruct (NewMicroBFDGroup cfg) as [g0|e|] eqn:E.
  - destruct (NewMicroBFDGroup_ok cfg g0 E) as (Hv & Hl & G). split; [done|].
    destruct (micro_ops_refine _ ops g0 G) as (H1 & H2 & G'). rewrite Hl in H1, H2.
    destruct (run_ops micro_apply ops g0) as [rs g], (run_ops _ ops _) as [rs' l].
    cbn [fst snd] in *. subst. unfold UpCount, IsUp.
    split_and!; [done|done|apply gok_count in G'|apply gok_agg in G']; done.
  - unfold NewMicroBFDGroup in E. pose proof (validateMicroBFDConfig_spec cfg) as H.
    by destruct (validateMicroBFDConfig cfg).
  - unfold NewMicroBFDGroup in E. pose proof (validateMicroBFDConfig_spec cfg) as H.
    by destruct (validateMicroBFDConfig cfg).
Qed.
