(* ===== verification/Unsolicited.v ===== *)
(** * Unsolicited BFD policy ([src/internal/bfd/unsolicited.go])

    The policy that decides whether a packet of an unknown peer may create a
    passive session, and the counter of the sessions so created.  The counter is
    an atomic [int32]; [reserve] and [release] are modelled at their successful
    [CompareAndSwap], the retries before it have no effect. *)

From S2P Require Import Prelude Netip.

Local Open Scope Z_scope.

Inductive unsolicited_error :=
| ErrUnsolicitedDisabled
| ErrUnsolicitedInterfaceNotEnabled
| ErrUnsolicitedPrefixDenied
| ErrUnsolicitedMaxSessions
| ErrUnsolicitedMultihopDenied.

#[export] Instance unsolicited_error_eq_dec : EqDecision unsolicited_error.
Proof. solve_decision. Defined.

Record UnsolicitedInterfaceConfig := mkUnsolicitedInterfaceConfig {
  ui_Enabled : bool;
  ui_AllowedPrefixes : list Prefix;
}.

Record UnsolicitedSessionDefaults := mkUnsolicitedSessionDefaults {
  ud_DesiredMinTxInterval : Z;
  ud_RequiredMinRxInterval : Z;
  ud_DetectMultiplier : Z;
}.

Record UnsolicitedPolicy := mkUnsolicitedPolicy {
  up_Enabled : bool;
  up_Interfaces : gmap string UnsolicitedInterfaceConfig;
  up_MaxSessions : Z;
  up_SessionDefaults : UnsolicitedSessionDefaults;
  up_CleanupTimeout : Z;
}.

Record unsolicitedState := mkUnsolicitedState {
  us_policy : option UnsolicitedPolicy;
  us_sessionCount : Z;
}.

Definition newUnsolicitedState (policy : option UnsolicitedPolicy) : unsolicitedState :=
  {| us_policy := policy; us_sessionCount := 0 |}.

Definition matchesAnyPrefix (addr : Addr) (prefixes : list Prefix) : bool :=
  existsb (fun p => Prefix_Contains p addr) prefixes.

Definition checkInterfacePolicy (us : unsolicitedState) (srcAddr : Addr) (ifName : string)
    : go unsolicited_error unit :=
  match us_policy us with
  | None => Err ErrUnsolicitedDisabled
  | Some policy =>
      if negb (up_Enabled policy) then Err ErrUnsolicitedDisabled else
      match up_Interfaces policy !! ifName with
      | None => Err ErrUnsolicitedInterfaceNotEnabled
      | Some ifCfg =>
          if negb (ui_Enabled ifCfg) then Err ErrUnsolicitedInterfaceNotEnabled else
          if (0 <? zlen (ui_AllowedPrefixes ifCfg)) &&
             negb (matchesAnyPrefix srcAddr (ui_AllowedPrefixes ifCfg))
          then Err ErrUnsolicitedPrefixDenied
          else Ok tt
      end
  end.

(** After the check passed the policy is not [nil]. *)
Definition reserve (srcAddr : Addr) (ifName : string) (us : unsolicitedState)
    : go unsolicited_error unit * unsolicitedState :=
  match checkInterfacePolicy us srcAddr ifName, us_policy us with
  | Ok _, Some policy =>
      let grant := {| us with us_sessionCount := i32 (us_sessionCount us + 1) |} in
      if up_MaxSessions policy <=? 0 then (Ok tt, grant) else
      if up_MaxSessions policy <=? us_sessionCount us then (Err ErrUnsolicitedMaxSessions, us)
      else (Ok tt, grant)
  | Err e, _ => (Err e, us)
  | _, _ => (Panic, us)
  end.

Definition release (us : unsolicitedState) : unsolicitedState :=
  if us_sessionCount us =? 0 then us
  else {| us with us_sessionCount := i32 (us_sessionCount us - 1) |}.

(** ** Lemmas *)

(** RFC 9468: the interface is enabled, and its access list is empty or has a
    prefix of the source. *)
Definition admitted (policy : UnsolicitedPolicy) (src : Addr) (ifName : string) : Prop :=
  up_Enabled policy = true /\
  exists ifCfg, up_Interfaces policy !! ifName = Some ifCfg /\ ui_Enabled ifCfg = true /\
    (ui_AllowedPrefixes ifCfg = [] \/
     exists p, p ∈ ui_AllowedPrefixes ifCfg /\ Prefix_Contains p src = true).

Lemma matchesAnyPrefix_spec addr ps :
  matchesAnyPrefix addr ps = true <-> exists p, p ∈ ps /\ Prefix_Contains p addr = true.
Proof.
  unfold matchesAnyPrefix. rewrite existsb_exists. by setoid_rewrite <- list_elem_of_In.
Qed.

Lemma checkInterfacePolicy_spec us policy src ifName :
  us_policy us = Some policy ->
  match checkInterfacePolicy us src ifName with
  | Ok _ => admitted policy src ifName
  | Err e => ~ admitted policy src ifName /\ e <> ErrUnsolicitedMaxSessions
  | Panic => False
  end.
Proof.
  intros Hp. unfold checkInterfacePolicy, admitted. rewrite Hp.
  destruct (up_Enabled policy); cbn [negb]; [|split; [by intros [? _]|done]].
  destruct (up_Interfaces policy !! ifName) as [c|] eqn:Hi; [|split; [by intros (_ & ? & ? & _)|done]].
  destruct (ui_Enabled c) eqn:Hc; cbn [negb].
  2: { split; [|done]. intros (_ & c' & [= <-] & ? & _). congruence. }
  destruct (0 <? zlen (ui_AllowedPrefixes c)) eqn:Hl; cbn [andb]; bools.
  - destruct (matchesAnyPrefix src (ui_AllowedPrefixes c)) eqn:Hm; cbn [negb].
    + apply matchesAnyPrefix_spec in Hm. split; [done|]. exists c. auto.
    + split; [|done]. intros (_ & c' & [= <-] & _ & [He|He%matchesAnyPrefix_spec]); [|congruence].
      unfold zlen in Hl. rewrite He in Hl. cbn in Hl. lia.
  - split; [done|]. exists c. split; [done|]. split; [done|]. left.
    apply nil_length_inv. unfold zlen in Hl. lia.
Qed.

Lemma reserve_cases src ifName us policy :
  us_policy us = Some policy ->
  match reserve src ifName us with
  | (Ok _, us') => admitted policy src ifName /\
      (0 < up_MaxSessions policy -> us_sessionCount us < up_MaxSessions policy) /\
      us' = {| us with us_sessionCount := i32 (us_sessionCount us + 1) |}
  | (Err e, us') => us' = us /\
      (e = ErrUnsolicitedMaxSessions <->
         admitted policy src ifName /\ 0 < up_MaxSessions policy <= us_sessionCount us) /\
      (e <> ErrUnsolicitedMaxSessions <-> ~ admitted policy src ifName)
  | (Panic, _) => False
  end.
Proof.
  intros Hp. pose proof (checkInterfacePolicy_spec us policy src ifName Hp) as H.
  unfold reserve. rewrite Hp. destruct (checkInterfacePolicy us src ifName) as [u|e|]; [| |done].
  - destruct (up_MaxSessions policy <=? 0) eqn:E1; [|destruct (up_MaxSessions policy <=? us_sessionCount us) eqn:E2];
      bools; (split_and!; try done); try lia; naive_solver lia.
  - destruct H as [H1 H2]. naive_solver.
Qed.

(** ** Properties *)

(** [reserve] grants a slot exactly when unsolicited BFD and the interface are
    enabled, the access list is empty or a prefix of it contains the source, and
    the limit, if there is one, is not reached; it then counts the slot.  A refusal
    changes nothing and names the limit exactly when only the limit refused. *)
Theorem reserve_admits_exactly (us : unsolicitedState) (policy : UnsolicitedPolicy)
    (src : Addr) (ifName : string) (Hp : us_policy us = Some policy)
    (Hc : 0 <= us_sessionCount us < 2 ^ 31 - 1) :
  let free := up_MaxSessions policy <= 0 \/ us_sessionCount us < up_MaxSessions policy in
  match reserve src ifName us with
  | (Ok _, us') => admitted policy src ifName /\ free /\
      us_policy us' = us_policy us /\ us_sessionCount us' = us_sessionCount us + 1
  | (Err e, us') => us' = us /\ ~ (admitted policy src ifName /\ free) /\
      (e = ErrUnsolicitedMaxSessions <-> admitted policy src ifName)
  | (Panic, _) => False
  end.
Proof.
  intros free. pose proof (reserve_cases src ifName us policy Hp) as H. subst free.
  destruct (reserve src ifName us) as [[u|e|] us']; [| |done].
  - destruct H as (Ha & Hm & ->). split_and!; [done|lia|done|]. cbn. width_lia.
  - destruct H as (-> & H1 & H2). split; [done|].
    destruct (decide (e = ErrUnsolicitedMaxSessions)) as [->|Hne].
    + apply proj1 in H1. destruct (H1 eq_refl) as [Ha Hl]. split; [|done]. intros [_ Hf]. lia.
    + apply H2 in Hne as Hna. naive_solver.
Qed.

(** The sample policy admits 10.0.0.0/24 on eth0, two sessions at most. *)
Definition sample_policy : UnsolicitedPolicy :=
  {| up_Enabled := true;
     up_Interfaces := {["eth0"%string := {| ui_Enabled := true;
       ui_AllowedPrefixes := [mkPrefix (IPv4 0x0a000000) 25] |}]};
     up_MaxSessions := 2;
     up_SessionDefaults := {| ud_DesiredMinTxInterval := 300000000;
       ud_RequiredMinRxInterval := 300000000; ud_DetectMultiplier := 3 |};
     up_CleanupTimeout := 0 |}.

Lemma reserve_admits_exactly_witness :
  let us := newUnsolicitedState (Some sample_policy) in
  reserve (IPv4 0x0a000005) "eth0" us = (Ok tt, {| us with us_sessionCount := 1 |}) /\
  admitted sample_policy (IPv4 0x0a000005) "eth0" /\
  ~ (admitted sample_policy (IPv4 0x0a000105) "eth0" /\ (2 <= 0 \/ 0 < 2)).
Proof.
  intros us.
  pose proof (reserve_admits_exactly us sample_policy (IPv4 0x0a000005) "eth0" eq_refl ltac:(cbn; lia)) as H1.
  pose proof (reserve_admits_exactly us sample_policy (IPv4 0x0a000105) "eth0" eq_refl ltac:(cbn; lia)) as H2.
  change (reserve (IPv4 0x0a000005) "eth0" us) with
    (@Ok unsolicited_error unit tt, {| us with us_sessionCount := 1 |}) in *.
  change (reserve (IPv4 0x0a000105) "eth0" us) with
    (@Err unsolicited_error unit ErrUnsolicitedPrefixDenied, us) in H2.
  split; [reflexivity|]. split; [apply H1|apply H2].
Defined.
