(* ===== verification/Echo.v ===== *)
(** * Echo sessions ([src/internal/bfd/echo.go])

    The unaffiliated echo function of RFC 9747: a two-state machine driven by
    returned packets and a detection timer.  The conventions are those of
    [Session]: a handler acts on the session with its two timers and outputs,
    [None] stands for a panic, and the clock, the sender and the notification
    channel are inputs.  Every transmission draws a fresh jitter seed. *)

From S2P Require Import Prelude Packet Netip Jitter Session.

Local Open Scope Z_scope.

Record EchoSessionConfig := mkEchoSessionConfig {
  ec_PeerAddr : Addr;
  ec_LocalAddr : Addr;
  ec_Interface : string;
  ec_TxInterval : Z;
  ec_DetectMultiplier : Z;
}.

Inductive echo_error :=
| ErrInvalidEchoPeerAddr
| ErrInvalidEchoTxInterval
| ErrEchoInvalidDiscriminator
| ErrEchoInvalidDetectMult.

#[export] Instance echo_error_eq_dec : EqDecision echo_error.
Proof. solve_decision. Defined.

Definition echoRecvChSize : nat := 16.

Record EchoSession := mkEchoSession {
  es_state : Z;
  es_localDiag : Z;
  es_localDiscr : Z;
  es_peerAddr : Addr;
  es_localAddr : Addr;
  es_ifName : string;
  es_txInterval : Z;
  es_detectMult : Z;
  es_recvCh : nat;
  es_hasNotifyCh : bool;
  es_cachedPacket : list Z;
  es_echosSent : Z;
  es_echosReceived : Z;
  es_stateTransitions : Z;
  es_lastStateChange : Z;
  es_lastEchoRecv : Z;
}.

(** The echo session with its timers and outputs. *)
Record EchoSys := mkEchoSys {
  e_ses : EchoSession;
  e_txTimer : option Z;
  e_detectTimer : option Z;
  e_sent : list (list Z * bool);
  e_notified : list StateChange;
  e_notify_attempts : nat;
  e_metered : list metric_call;
}.

(** The inputs of a handler: those of a session's handler, and the seed of the
    jitter generator with the clock readings of its fallback. *)
Record EchoEnv := mkEchoEnv {
  ee_env : Env;
  ee_seed : option Z;
  ee_unixNano : Z;
  ee_unixMicro : Z;
}.

(** ** Construction *)

Definition validateEchoConfig (cfg : EchoSessionConfig) (localDiscr : Z) : go echo_error unit :=
  if localDiscr =? 0 then Err ErrEchoInvalidDiscriminator else
  if ec_DetectMultiplier cfg <? 1 then Err ErrEchoInvalidDetectMult else
  if ec_TxInterval cfg <=? 0 then Err ErrInvalidEchoTxInterval else
  if negb (Addr_IsValid (ec_PeerAddr cfg)) then Err ErrInvalidEchoPeerAddr else
  Ok tt.

Definition echo_packet (es : EchoSession) : ControlPacket :=
  let yourDiscr := if es_state es =? StateUp then es_localDiscr es else 0 in
  {| pkt_Version := Version; pkt_Diag := es_localDiag es; pkt_State := es_state es;
     pkt_Poll := false; pkt_Final := false; pkt_ControlPlaneIndependent := false;
     pkt_AuthPresent := false; pkt_Demand := false; pkt_Multipoint := false;
     pkt_DetectMult := es_detectMult es; pkt_Length := 0;
     pkt_MyDiscriminator := es_localDiscr es; pkt_YourDiscriminator := yourDiscr;
     pkt_DesiredMinTxInterval := microsecondsFromDuration (es_txInterval es);
     pkt_RequiredMinRxInterval := 0; pkt_RequiredMinEchoRxInterval := 0; pkt_Auth := None |}.

Definition echo_rebuildCachedPacket (es : EchoSession) : option EchoSession :=
  match MarshalControlPacket (echo_packet es) (es_cachedPacket es) with
  | (Panic, _) => None
  | (_, buf) => Some {| es with es_cachedPacket := buf |}
  end.

Definition NewEchoSession (cfg : EchoSessionConfig) (localDiscr : Z) (hasNotifyCh : bool)
    : go echo_error EchoSession :=
  _ ← validateEchoConfig cfg localDiscr;
  let es :=
    {| es_state := StateDown; es_localDiag := DiagNone; es_localDiscr := localDiscr;
       es_peerAddr := ec_PeerAddr cfg; es_localAddr := ec_LocalAddr cfg;
       es_ifName := ec_Interface cfg; es_txInterval := ec_TxInterval cfg;
       es_detectMult := ec_DetectMultiplier cfg; es_recvCh := 0; es_hasNotifyCh := hasNotifyCh;
       es_cachedPacket := replicate (Z.to_nat MaxPacketSize) 0; es_echosSent := 0;
       es_echosReceived := 0; es_stateTransitions := 0; es_lastStateChange := 0;
       es_lastEchoRecv := 0 |} in
  match echo_rebuildCachedPacket es with
  | Some es => Ok es
  | None => Panic
  end.

(** ** Accessors *)

Definition echo_DetectionTime (es : EchoSession) : Z :=
  i64 (es_txInterval es * es_detectMult es).

Definition echo_LastStateChange (es : EchoSession) : option Z :=
  if es_lastStateChange es =? 0 then None else Some (es_lastStateChange es).
Definition echo_LastEchoReceived (es : EchoSession) : option Z :=
  if es_lastEchoRecv es =? 0 then None else Some (es_lastEchoRecv es).

(** ** Reception *)

(** The channel carries no data: it is the number of pending signals. *)
Definition RecvEcho (es : EchoSession) : EchoSession :=
  if bool_decide (es_recvCh es < echoRecvChSize)%nat
  then {| es with es_recvCh := S (es_recvCh es) |} else es.

(** ** State transitions *)

Definition echo_emitNotification (e : Env) (oldState newState diag : Z) (y : EchoSys) : EchoSys :=
  if negb (es_hasNotifyCh (e_ses y)) then y else
  let sc := {| sc_LocalDiscr := es_localDiscr (e_ses y); sc_PeerAddr := es_peerAddr (e_ses y);
               sc_OldState := oldState; sc_NewState := newState; sc_Diag := diag;
               sc_Timestamp := now e; sc_Type := 0; sc_Interface := "" |} in
  let k := e_notify_attempts y in
  {| y with e_notify_attempts := S k;
            e_notified := if notify_room e k then e_notified y ++ [sc] else e_notified y |}.

Definition transitionTo (e : Env) (newState diag : Z) (y : EchoSys) : EchoSys :=
  let oldState := es_state (e_ses y) in
  if oldState =? newState then y else
  let es := e_ses y in
  let es := {| es with es_state := newState; es_localDiag := diag;
                       es_stateTransitions := u64 (es_stateTransitions es + 1);
                       es_lastStateChange := now e |} in
  echo_emitNotification e oldState newState diag
    {| y with e_ses := es; e_metered := e_metered y ++ [MetricTransition oldState newState] |}.

Definition handleEchoRecv (e : Env) (y : EchoSys) : EchoSys :=
  let es := e_ses y in
  let es := {| es with es_echosReceived := u64 (es_echosReceived es + 1);
                       es_lastEchoRecv := now e |} in
  let y := {| y with e_ses := es; e_detectTimer := Some (now e + echo_DetectionTime es);
                     e_metered := e_metered y ++ [MetricReceived] |} in
  if es_state es =? StateDown then transitionTo e StateUp DiagNone y else y.

Definition handleDetectTimeout (e : Env) (y : EchoSys) : EchoSys :=
  let y := if es_state (e_ses y) =? StateUp
           then transitionTo e StateDown DiagEchoFailed y else y in
  {| y with e_detectTimer := Some (now e + echo_DetectionTime (e_ses y)) |}.

(** ** Transmission *)

Definition sendEcho (e : Env) (y : EchoSys) : option EchoSys :=
  es ← echo_rebuildCachedPacket (e_ses y);
  pktLen ← es_cachedPacket es !! 3%nat;
  if zlen (es_cachedPacket es) <? pktLen then None else
  let out := take (Z.to_nat pktLen) (es_cachedPacket es) in
  let ok := send_ok e (length (e_sent y)) in
  let es := if ok then {| es with es_echosSent := u64 (es_echosSent es + 1) |} else es in
  Some {| y with e_ses := es; e_sent := e_sent y ++ [(out, ok)];
                 e_metered := if ok then e_metered y ++ [MetricSent] else e_metered y |}.

(** [txTimer.Reset(ApplyJitter(...))] *)
Definition echo_resetTxTimer (ee : EchoEnv) (y : EchoSys) : EchoSys :=
  {| y with e_txTimer := Some (now (ee_env ee) +
      ApplyJitter (es_txInterval (e_ses y)) (es_detectMult (e_ses y))
        (ee_seed ee) (ee_unixNano ee) (ee_unixMicro ee)) |}.

(** ** The event loop *)

Definition echo_Run_start (ee : EchoEnv) (es : EchoSession) : EchoSys :=
  echo_resetTxTimer ee
    {| e_ses := es; e_txTimer := None;
       e_detectTimer := Some (now (ee_env ee) + echo_DetectionTime es);
       e_sent := []; e_notified := []; e_notify_attempts := 0; e_metered := [] |}.

Inductive echo_case := EchoRecv | EchoTx | EchoDetect.

(** One turn of the [select] in [echoRunLoop]: [None] when the case is not ready,
    [Some None] when its handler panics. *)
Definition echoRunLoop_turn (c : echo_case) (ee : EchoEnv) (y : EchoSys)
    : option (option EchoSys) :=
  let e := ee_env ee in
  match c with
  | EchoRecv =>
      match es_recvCh (e_ses y) with
      | O => None
      | S n => let es := e_ses y in
               Some (Some (handleEchoRecv e {| y with e_ses := {| es with es_recvCh := n |} |}))
      end
  | EchoTx =>
      if fired (e_txTimer y) e
      then Some (y ← sendEcho e {| y with e_txTimer := None |}; Some (echo_resetTxTimer ee y))
      else None
  | EchoDetect =>
      if fired (e_detectTimer y) e
      then Some (Some (handleDetectTimeout e {| y with e_detectTimer := None |}))
      else None
  end.

(** ** Snapshot *)

Record EchoSessionSnapshot := mkEchoSessionSnapshot {
  ess_LocalDiscr : Z;
  ess_PeerAddr : Addr;
  ess_LocalAddr : Addr;
  ess_Interface : string;
  ess_State : Z;
  ess_LocalDiag : Z;
  ess_TxInterval : Z;
  ess_DetectMultiplier : Z;
  ess_DetectionTime : Z;
  ess_LastStateChange : option Z;
  ess_LastEchoReceived : option Z;
  ess_EchosSent : Z;
  ess_EchosReceived : Z;
  ess_StateTransitions : Z;
}.

Definition EchoSession_Snapshot (es : EchoSession) : EchoSessionSnapshot :=
  {| ess_LocalDiscr := es_localDiscr es; ess_PeerAddr := es_peerAddr es;
     ess_LocalAddr := es_localAddr es; ess_Interface := es_ifName es;
     ess_State := es_state es; ess_LocalDiag := es_localDiag es;
     ess_TxInterval := es_txInterval es; ess_DetectMultiplier := es_detectMult es;
     ess_DetectionTime := echo_DetectionTime es;
     ess_LastStateChange := echo_LastStateChange es;
     ess_LastEchoReceived := echo_LastEchoReceived es;
     ess_EchosSent := es_echosSent es; ess_EchosReceived := es_echosReceived es;
     ess_StateTransitions := es_stateTransitions es |}.

(** ** Reachable echo sessions *)

Inductive echo_step : EchoSys -> EchoSys -> Prop :=
| echo_step_turn c ee y y' : echoRunLoop_turn c ee y = Some (Some y') -> echo_step y y'
| echo_step_recv y : echo_step y {| y with e_ses := RecvEcho (e_ses y) |}.

(** Configurations whose detection time fits 64 bits, as the callers' interval
    types give it (the multiplier is a byte). *)
Definition echo_cfg_ok (cfg : EchoSessionConfig) : Prop :=
  ec_DetectMultiplier cfg < 256 /\ ec_TxInterval cfg * ec_DetectMultiplier cfg < 2 ^ 63.

(** [n] signals may arrive before the goroutine starts. *)
Inductive echo_reachable : EchoSys -> Prop :=
| echo_reach_start cfg d h es n ee :
    echo_cfg_ok cfg -> is_u32 d -> NewEchoSession cfg d h = Ok es ->
    echo_reachable (echo_Run_start ee (Nat.iter n RecvEcho es))
| echo_reach_step y y' : echo_reachable y -> echo_step y y' -> echo_reachable y'.

(** The fixed parameters and the two states of RFC 9747. *)
Record echo_inv (es : EchoSession) : Prop := {
  ei_discr : is_u32 (es_localDiscr es) /\ es_localDiscr es <> 0;
  ei_mult : 1 <= es_detectMult es < 256;
  ei_tx : 0 < es_txInterval es /\ es_txInterval es * es_detectMult es < 2 ^ 63;
  ei_buf : zlen (es_cachedPacket es) = 64;
  ei_state : (es_state es = StateDown /\ (es_localDiag es = DiagNone \/ es_localDiag es = DiagEchoFailed))
             \/ (es_state es = StateUp /\ es_localDiag es = DiagNone);
}.

(** An echo packet: the decoder accepts it and it names its session. *)
Definition echo_legal (es : EchoSession) (w : list Z) : Prop :=
  exists pkt, UnmarshalControlPacket w = Ok pkt /\ pkt_MyDiscriminator pkt = es_localDiscr es /\
              pkt_DetectMult pkt = es_detectMult es.

Record echo_sys_inv (y : EchoSys) : Prop := {
  ey_ses : echo_inv (e_ses y);
  ey_tx : is_Some (e_txTimer y);
  ey_detect : is_Some (e_detectTimer y);
  ey_deadline : es_state (e_ses y) = StateUp ->
    e_detectTimer y =
    Some (es_lastEchoRecv (e_ses y) + es_txInterval (e_ses y) * es_detectMult (e_ses y));
  ey_sent : Forall (fun wo => echo_legal (e_ses y) wo.1) (e_sent y);
}.

(** ** Lemmas *)

Lemma echo_DetectionTime_exact es :
  echo_inv es -> echo_DetectionTime es = es_txInterval es * es_detectMult es.
Proof.
  intros I. unfold echo_DetectionTime. apply i64_small. destruct (ei_tx _ I), (ei_mult _ I).
  unfold is_i64. nia.
Qed.

Lemma echo_packet_wf es : echo_inv es -> wf_packet (echo_packet es).
Proof.
  intros [Hd Hm Ht Hb Hs]. constructor; try done; cbn -[microsecondsFromDuration StateUp StateDown].
  - unfold StateDown, StateUp, DiagNone, DiagEchoFailed in Hs. lia.
  - unfold StateDown, StateUp in Hs. lia.
  - split; [|destruct (es_state es =? StateUp) eqn:E; bools; [naive_solver|]].
    + destruct (es_state es =? StateUp); [naive_solver|]. unfold is_u32. lia.
    + intros _. destruct Hs as [[-> _]|[Hs _]]; [by left|done].
  - apply u32_range.
Qed.

Lemma echo_rebuild_ok es :
  echo_inv es ->
  exists rest, let buf := wire (echo_packet es) ++ rest in
    echo_rebuildCachedPacket es = Some {| es with es_cachedPacket := buf |} /\ zlen buf = 64.
Proof.
  intros I. pose proof (echo_packet_wf es I) as W. pose proof (total_len_range _ W) as Hl.
  unfold echo_rebuildCachedPacket. rewrite MarshalControlPacket_wire by (done || rewrite (ei_buf _ I); lia).
  eexists. split; [done|]. unfold zlen in *. rewrite length_app, length_drop.
  pose proof (length_wire _ W). unfold zlen in *. pose proof (ei_buf _ I). unfold zlen in *. lia.
Qed.

Lemma wire_length_byte pkt rest : (wire pkt ++ rest) !! 3%nat = Some (u8 (total_len pkt)).
Proof. done. Qed.

Lemma echo_total_len es : total_len (echo_packet es) = 24.
Proof. done. Qed.

(** The whole of [sendEcho]: it sends the packet of the current state. *)
Lemma sendEcho_ok e y :
  echo_inv (e_ses y) ->
  exists rest n,
    let w := wire (echo_packet (e_ses y)) in
    let es := e_ses y in
    sendEcho e y = Some {| y with
      e_ses := {| es with es_cachedPacket := w ++ rest; es_echosSent := n |};
      e_sent := e_sent y ++ [(w, send_ok e (length (e_sent y)))];
      e_metered := if send_ok e (length (e_sent y)) then e_metered y ++ [MetricSent] else e_metered y |} /\
    zlen (w ++ rest) = 64.
Proof.
  intros I. destruct (echo_rebuild_ok _ I) as (rest & Hr & Hl). cbn zeta in Hr, Hl.
  unfold sendEcho. rewrite Hr. cbn [mbind option_bind es_cachedPacket].
  rewrite wire_length_byte. cbn [mbind option_bind]. rewrite echo_total_len.
  change (u8 24) with 24. rewrite Hl. cbn [Z.ltb Z.compare Pos.compare Pos.compare_cont].
  pose proof (length_wire _ (echo_packet_wf _ I)) as Hw. rewrite echo_total_len in Hw.
  rewrite take_app_length' by (unfold zlen in Hw; lia).
  destruct (send_ok e (length (e_sent y))); eexists rest, _; (split; [reflexivity|done]).
Qed.

Lemma echo_packet_legal es : echo_inv es -> echo_legal es (wire (echo_packet es)).
Proof.
  intros I. pose proof (UnmarshalControlPacket_wire (echo_packet es) [] (echo_packet_wf _ I)) as H.
  rewrite app_nil_r in H. eexists. split; [exact H|done].
Qed.

(** What a transition does, for the two transitions of RFC 9747. *)
Lemma transitionTo_spec e st diag y :
  es_state (e_ses y) <> st ->
  let y' := transitionTo e st diag y in
  exists n,
    let es := e_ses y in
    e_ses y' = {| es with es_state := st; es_localDiag := diag; es_stateTransitions := n;
                          es_lastStateChange := now e |} /\
    e_txTimer y' = e_txTimer y /\ e_detectTimer y' = e_detectTimer y /\ e_sent y' = e_sent y /\
    e_notified y' = e_notified y ++
      (if es_hasNotifyCh (e_ses y) && notify_room e (e_notify_attempts y)
       then [mkStateChange (es_localDiscr (e_ses y)) (es_peerAddr (e_ses y))
               (es_state (e_ses y)) st diag (now e) 0 ""] else []).
Proof.
  intros Hne. cbn zeta. unfold transitionTo. rewrite (proj2 (Z.eqb_neq _ _) Hne).
  exists (u64 (es_stateTransitions (e_ses y) + 1)). unfold echo_emitNotification. cbn.
  destruct (es_hasNotifyCh (e_ses y)); cbn; [|by rewrite app_nil_r].
  destruct (notify_room e (e_notify_attempts y)); cbn; [done|by rewrite app_nil_r].
Qed.

Definition same_identity (es es' : EchoSession) : Prop :=
  es_localDiscr es' = es_localDiscr es /\ es_detectMult es' = es_detectMult es /\
  es_txInterval es' = es_txInterval es.

Lemma echo_inv_frame es es' :
  echo_inv es -> same_identity es es' -> zlen (es_cachedPacket es') = 64 ->
  (es_state es' = es_state es /\ es_localDiag es' = es_localDiag es) \/
  (es_state es' = StateUp /\ es_localDiag es' = DiagNone) \/
  (es_state es' = StateDown /\ es_localDiag es' = DiagEchoFailed) ->
  echo_inv es'.
Proof.
  intros [Hd Hm Ht Hb Hs] (E1 & E2 & E3) Hb' Hst.
  constructor; rewrite ?E1, ?E2, ?E3; try done.
  destruct Hst as [[-> ->]|[[-> ->]|[-> ->]]]; auto.
Qed.

Lemma echo_legal_frame es es' l :
  same_identity es es' -> Forall (fun wo : list Z * bool => echo_legal es wo.1) l ->
  Forall (fun wo => echo_legal es' wo.1) l.
Proof.
  intros (E1 & E2 & _) H. eapply Forall_impl; [exact H|].
  intros [w b] (pkt & ? & ? & ?). exists pkt. by rewrite E1, E2.
Qed.

(** An echo that came back: the session is Up, the detection timer restarts. *)
Lemma handleEchoRecv_ok e y :
  echo_inv (e_ses y) ->
  let y' := handleEchoRecv e y in
  echo_inv (e_ses y') /\ same_identity (e_ses y) (e_ses y') /\
  es_state (e_ses y') = StateUp /\ es_localDiag (e_ses y') = DiagNone /\
  es_lastEchoRecv (e_ses y') = now e /\
  e_detectTimer y' = Some (now e + es_txInterval (e_ses y) * es_detectMult (e_ses y)) /\
  e_txTimer y' = e_txTimer y /\ e_sent y' = e_sent y.
Proof.
  intros I. cbn zeta. unfold handleEchoRecv.
  set (es1 := mkEchoSession _ _ _ _ _ _ _ _ _ _ _ _ _ _ _ _).
  set (y1 := mkEchoSys _ _ _ _ _ _ _).
  assert (I1 : echo_inv es1) by (apply (echo_inv_frame (e_ses y)); [done|done|apply (ei_buf _ I)|by left]).
  assert (Hd : e_detectTimer y1 = Some (now e + es_txInterval (e_ses y) * es_detectMult (e_ses y))).
  { unfold y1. cbn [e_detectTimer]. by rewrite (echo_DetectionTime_exact _ I1). }
  destruct (es_state es1 =? StateDown) eqn:Es; bools.
  - destruct (transitionTo_spec e StateUp DiagNone y1) as (n & Hs & Htx & Hdt & Hsent & _).
    { change (es_state (e_ses y1)) with (es_state es1). by rewrite Es. }
    rewrite Hs, Htx, Hdt, Hsent. split_and!; try done.
    apply (echo_inv_frame _ _ I); [done|apply (ei_buf _ I)|auto].
  - destruct (ei_state _ I1) as [[? _]|[Hu Hg]]; [done|]. split_and!; try done.
Qed.

Lemma handleDetectTimeout_ok e y :
  echo_inv (e_ses y) ->
  let y' := handleDetectTimeout e y in
  echo_inv (e_ses y') /\ same_identity (e_ses y) (e_ses y') /\ es_state (e_ses y') = StateDown /\
  is_Some (e_detectTimer y') /\ e_txTimer y' = e_txTimer y /\ e_sent y' = e_sent y /\
  (es_state (e_ses y) = StateUp ->
     es_localDiag (e_ses y') = DiagEchoFailed /\
     e_notified y' = e_notified y ++
       (if es_hasNotifyCh (e_ses y) && notify_room e (e_notify_attempts y)
        then [mkStateChange (es_localDiscr (e_ses y)) (es_peerAddr (e_ses y))
                StateUp StateDown DiagEchoFailed (now e) 0 ""] else [])).
Proof.
  intros I. cbn zeta. unfold handleDetectTimeout. destruct (es_state (e_ses y) =? StateUp) eqn:Es; bools.
  - destruct (transitionTo_spec e StateDown DiagEchoFailed y) as (n & Hs & Htx & Hdt & Hsent & Hn).
    { by rewrite Es. }
    cbn [e_ses e_txTimer e_sent e_notified e_detectTimer]. rewrite Hs, Htx, Hsent, Hn, Es.
    split_and!; try done. apply (echo_inv_frame _ _ I); [done|apply (ei_buf _ I)|auto].
  - destruct (ei_state _ I) as [[Hd _]|[? _]]; [|done]. cbn. split_and!; try done.
Qed.

Lemma echo_turn_inv c ee y r :
  echo_sys_inv y -> echoRunLoop_turn c ee y = Some r -> exists y', r = Some y' /\ echo_sys_inv y'.
Proof.
  intros [I Htx Hdt Hdl Hs]. destruct c; cbn.
  - destruct (es_recvCh (e_ses y)) as [|n]; [done|]. intros [= <-]. eexists. split; [done|].
    set (y1 := mkEchoSys _ _ _ _ _ _ _).
    assert (I1 : echo_inv (e_ses y1)) by (apply (echo_inv_frame _ _ I); [done|apply (ei_buf _ I)|by left]).
    destruct (handleEchoRecv_ok (ee_env ee) y1 I1) as (I' & Hid & Hup & Hdg & Hl & Ht & Ht' & Hs').
    constructor; [done|by rewrite Ht'|by rewrite Ht|intros _|].
    + rewrite Ht, Hl. destruct Hid as (_ & -> & ->). done.
    + rewrite Hs'. by apply (echo_legal_frame (e_ses y1)).
  - destruct (fired (e_txTimer y) (ee_env ee)); [|done]. intros [= <-].
    set (y1 := mkEchoSys _ _ _ _ _ _ _). destruct (sendEcho_ok (ee_env ee) y1 I) as (rest & n & -> & Hl).
    eexists. split; [reflexivity|]. constructor; cbn; [|done|done|done|].
    + apply (echo_inv_frame _ _ I); [done|exact Hl|by left].
    + apply Forall_app. split; [by apply (echo_legal_frame (e_ses y))|]. constructor; [|done].
      apply (echo_packet_legal (e_ses y) I).
  - destruct (fired (e_detectTimer y) (ee_env ee)); [|done]. intros [= <-]. eexists. split; [done|].
    set (y1 := mkEchoSys _ _ _ _ _ _ _).
    destruct (handleDetectTimeout_ok (ee_env ee) y1 I) as (I' & Hid & Hdn & Ht & Ht' & Hs' & _).
    constructor; [done|by rewrite Ht'|done|rewrite Hdn; done|].
    rewrite Hs'. by apply (echo_legal_frame (e_ses y1)).
Qed.

Lemma RecvEcho_inv es : echo_inv es -> echo_inv (RecvEcho es).
Proof.
  intros I. unfold RecvEcho. case_bool_decide; [|done].
  apply (echo_inv_frame _ _ I); [done|apply (ei_buf _ I)|by left].
Qed.

Lemma RecvEcho_state es : es_state (RecvEcho es) = es_state es.
Proof. unfold RecvEcho. by case_bool_decide. Qed.

Lemma NewEchoSession_cases cfg d h :
  echo_cfg_ok cfg -> is_u32 d ->
  match NewEchoSession cfg d h with
  | Ok es => echo_inv es /\ es_state es = StateDown
  | Err _ => True
  | Panic => False
  end.
Proof.
  intros [Hm Ht] Hd. unfold NewEchoSession, validateEchoConfig.
  destruct (d =? 0) eqn:E1; [done|]. destruct (ec_DetectMultiplier cfg <? 1) eqn:E2; [done|].
  destruct (ec_TxInterval cfg <=? 0) eqn:E3; [done|].
  destruct (negb (Addr_IsValid (ec_PeerAddr cfg))) eqn:E4; [done|]. bools.
  cbn [mbind go_bind]. set (es0 := mkEchoSession _ _ _ _ _ _ _ _ _ _ _ _ _ _ _ _).
  assert (I : echo_inv es0) by (constructor; cbn -[Z.pow]; auto || lia).
  destruct (echo_rebuild_ok es0 I) as (rest & -> & Hl). split; [|done].
  apply (echo_inv_frame _ _ I); [done|exact Hl|by left].
Qed.

Lemma NewEchoSession_ok cfg d h es :
  echo_cfg_ok cfg -> is_u32 d -> NewEchoSession cfg d h = Ok es ->
  echo_inv es /\ es_state es = StateDown.
Proof. intros Hc Hd H. pose proof (NewEchoSession_cases cfg d h Hc Hd) as Hs. by rewrite H in Hs. Qed.

Lemma echo_reachable_inv y : echo_reachable y -> echo_sys_inv y.
Proof.
  induction 1 as [cfg d h es n ee Hc Hd He|y y' _ IH Hs].
  - destruct (NewEchoSession_ok cfg d h es Hc Hd He) as [I Hst].
    assert (H : echo_inv (Nat.iter n RecvEcho es) /\ es_state (Nat.iter n RecvEcho es) = StateDown).
    { clear He. induction n as [|n [IH1 IH2]]; [done|]. cbn. rewrite RecvEcho_state.
      split; [by apply RecvEcho_inv|done]. }
    destruct H as [I' Hst']. constructor; cbn; [done|done|done|rewrite Hst'; done|constructor].
  - destruct Hs as [c ee y y' Ht|y].
    + destruct (echo_turn_inv c ee y _ IH Ht) as (y2 & [= <-] & ?). done.
    + destruct IH as [I Htx Hdt Hdl Hs].
      assert (Hid : same_identity (e_ses y) (RecvEcho (e_ses y)) /\
        es_state (RecvEcho (e_ses y)) = es_state (e_ses y) /\
        es_lastEchoRecv (RecvEcho (e_ses y)) = es_lastEchoRecv (e_ses y)).
      { unfold RecvEcho, same_identity. by case_bool_decide. }
      destruct Hid as (Hid & Hst & Hl). constructor; cbn [e_ses e_txTimer e_detectTimer e_sent].
      * by apply RecvEcho_inv.
      * done.
      * done.
      * rewrite Hst, Hl. destruct Hid as (_ & -> & ->). done.
      * by apply (echo_legal_frame (e_ses y)).
Qed.

(** ** Properties *)

(** C31: while an echo session is Up its detection timer is due exactly the
    multiplier times the interval after the last returned echo: the timeout cannot
    run before, and when it runs the session is Down with the echo diagnostic, the
    notification carries that diagnostic, and the timer is armed again. *)
Theorem echo_silence_is_detected (y : EchoSys) (ee : EchoEnv) (R : echo_reachable y)
    (U : es_state (e_ses y) = StateUp) :
  let es := e_ses y in
  let deadline := es_lastEchoRecv es + es_txInterval es * es_detectMult es in
  (now (ee_env ee) < deadline -> echoRunLoop_turn EchoDetect ee y = None) /\
  (deadline <= now (ee_env ee) ->
   exists y', echoRunLoop_turn EchoDetect ee y = Some (Some y') /\
     es_state (e_ses y') = StateDown /\ es_localDiag (e_ses y') = DiagEchoFailed /\
     is_Some (e_detectTimer y') /\
     e_notified y' = e_notified y ++
       (if es_hasNotifyCh es && notify_room (ee_env ee) (e_notify_attempts y)
        then [mkStateChange (es_localDiscr es) (es_peerAddr es) StateUp StateDown
                DiagEchoFailed (now (ee_env ee)) 0 ""] else [])).
Proof.
  pose proof (echo_reachable_inv y R) as [I _ _ Hdl _]. cbn zeta. unfold echoRunLoop_turn.
  rewrite (Hdl U). cbn [fired]. split; intros Ht.
  - by rewrite (proj2 (Z.leb_gt _ _)) by done.
  - rewrite (proj2 (Z.leb_le _ _)) by done. eexists. split; [reflexivity|].
    set (y1 := mkEchoSys _ _ _ _ _ _ _).
    destruct (handleDetectTimeout_ok (ee_env ee) y1 I) as (_ & _ & Hd & Hs & _ & _ & Hu).
    destruct (Hu U) as [Hg Hn]. split_and!; done.
Qed.

(** No handler of a reachable echo session panics, and every packet it sent is
    accepted by the decoder and carries the session's own discriminator.  When the
    transmission timer is due a packet is sent, and its return (in whatever state,
    also with a full signal channel) makes the session Up with a detection timer of
    the multiplier times the interval. *)
Theorem echo_loop_brings_up (y : EchoSys) (ee ee' : EchoEnv) (R : echo_reachable y)
    (F : fired (e_txTimer y) (ee_env ee) = true) :
  (forall c ee, echoRunLoop_turn c ee y <> Some None) /\
  (forall w ok, (w, ok) ∈ e_sent y -> echo_legal (e_ses y) w) /\
  exists y1 w pkt y2,
    echoRunLoop_turn EchoTx ee y = Some (Some y1) /\
    e_sent y1 = e_sent y ++ [(w, send_ok (ee_env ee) (length (e_sent y)))] /\
    UnmarshalControlPacket w = Ok pkt /\ pkt_MyDiscriminator pkt = es_localDiscr (e_ses y1) /\
    echoRunLoop_turn EchoRecv ee' {| y1 with e_ses := RecvEcho (e_ses y1) |} = Some (Some y2) /\
    es_state (e_ses y2) = StateUp /\
    e_detectTimer y2 =
      Some (now (ee_env ee') + es_txInterval (e_ses y) * es_detectMult (e_ses y)).
Proof.
  pose proof (echo_reachable_inv y R) as Y. split; [|split].
  - intros c ee0 H. by destruct (echo_turn_inv c ee0 y _ Y H) as (? & ? & _).
  - intros w ok Hw. pose proof (ey_sent _ Y) as Hs. rewrite Forall_forall in Hs. apply (Hs _ Hw).
  - destruct (sendEcho_ok (ee_env ee) {| y with e_txTimer := None |} (ey_ses _ Y))
      as (rest & n & Hs & Hl). cbn zeta in Hs.
    destruct (echo_packet_legal _ (ey_ses _ Y)) as (pkt & Hp & Hm & _).
    cbn [echoRunLoop_turn]. rewrite F, Hs. cbn [mbind option_bind].
    set (y1 := echo_resetTxTimer ee _).
    assert (I1 : echo_inv (e_ses y1)).
    { apply (echo_inv_frame _ _ (ey_ses _ Y)); [done|exact Hl|by left]. }
    assert (Hch : exists k, es_recvCh (RecvEcho (e_ses y1)) = S k).
    { unfold RecvEcho. case_bool_decide; [by eexists|].
      destruct (es_recvCh (e_ses y1)) as [|k]; [|by eexists]. unfold echoRecvChSize in *. lia. }
    destruct Hch as [k Hk].
    eexists y1, _, pkt, _. split; [reflexivity|]. split; [reflexivity|].
    split; [exact Hp|]. split; [exact Hm|]. cbn [e_ses]. rewrite Hk. split; [reflexivity|].
    set (y2 := mkEchoSys _ _ _ _ _ _ _).
    assert (I2 : echo_inv (e_ses y2) /\ same_identity (e_ses y) (e_ses y2)).
    { pose proof (RecvEcho_inv _ I1) as I2. split.
      - apply (echo_inv_frame _ _ I2); [done|apply (ei_buf _ I2)|by left].
      - unfold y2, RecvEcho. by case_bool_decide. }
    destruct I2 as [I2 (_ & E1 & E2)].
    destruct (handleEchoRecv_ok (ee_env ee') y2 I2) as (_ & _ & Hu & _ & _ & Hd & _).
    split; [exact Hu|]. by rewrite Hd, E1, E2.
Qed.

(** A sample echo session, started at time 0, and the same session after its first
    returned echo. *)
Definition sample_echo_env (t : Z) : EchoEnv :=
  mkEchoEnv (mkEnv t (fun _ => true) (fun _ => true)) (Some 1) 0 0.

Definition sample_echo_cfg : EchoSessionConfig :=
  mkEchoSessionConfig (IPv4 0x0a000001) (IPv4 0x0a000002) "eth0" 100000000 3.

Definition sample_echo : EchoSys :=
  match NewEchoSession sample_echo_cfg 42 true with
  | Ok es => echo_Run_start (sample_echo_env 0) es
  | _ => mkEchoSys (mkEchoSession 0 0 0 InvalidAddr InvalidAddr "" 0 0 0 false [] 0 0 0 0 0)
           None None [] [] 0 []
  end.

Definition sample_echo_up : EchoSys :=
  let y := {| sample_echo with e_ses := RecvEcho (e_ses sample_echo) |} in
  match echoRunLoop_turn EchoRecv (sample_echo_env 1000) y with
  | Some (Some y) => y
  | _ => y
  end.

Lemma sample_echo_reachable : echo_reachable sample_echo.
Proof.
  apply (echo_reach_start sample_echo_cfg 42 true _ 0 (sample_echo_env 0));
    [split; cbn; lia|unfold is_u32; lia|vm_compute; reflexivity].
Qed.

Lemma sample_echo_up_reachable : echo_reachable sample_echo_up.
Proof.
  eapply echo_reach_step; [eapply echo_reach_step; [exact sample_echo_reachable|apply echo_step_recv]|].
  apply (echo_step_turn EchoRecv (sample_echo_env 1000)). vm_compute. reflexivity.
Qed.

Lemma echo_silence_is_detected_witness :
  echoRunLoop_turn EchoDetect (sample_echo_env 300000999) sample_echo_up = None /\
  exists y', echoRunLoop_turn EchoDetect (sample_echo_env 300001000) sample_echo_up = Some (Some y') /\
    es_localDiag (e_ses y') = DiagEchoFailed.
Proof.
  split.
  - apply (echo_silence_is_detected sample_echo_up _ sample_echo_up_reachable eq_refl).
    vm_compute. reflexivity.
  - destruct (proj2 (echo_silence_is_detected sample_echo_up (sample_echo_env 300001000)
      sample_echo_up_reachable eq_refl)) as (y' & H1 & _ & H2 & _); [vm_compute; discriminate|].
    exists y'. split; assumption.
Defined.

Lemma echo_loop_brings_up_witness :
  exists y1 w pkt y2,
    echoRunLoop_turn EchoTx (sample_echo_env 100000000) sample_echo = Some (Some y1) /\
    e_sent y1 = [(w, true)] /\ UnmarshalControlPacket w = Ok pkt /\ pkt_MyDiscriminator pkt = 42 /\
    echoRunLoop_turn EchoRecv (sample_echo_env 100000500)
      {| y1 with e_ses := RecvEcho (e_ses y1) |} = Some (Some y2) /\
    es_state (e_ses y2) = StateUp.
Proof.
  destruct (echo_loop_brings_up sample_echo (sample_echo_env 100000000) (sample_echo_env 100000500)
    sample_echo_reachable eq_refl) as (_ & _ & y1 & w & pkt & y2 & H1 & H2 & H3 & H4 & H5 & H6 & _).
  exists y1, w, pkt, y2. split; [exact H1|]. split; [exact H2|]. split; [exact H3|].
  split; [|split; [exact H5|exact H6]]. rewrite H4. vm_compute in H1. injection H1 as <-. reflexivity.
Defined.
