(* ===== verification/Manager.v ===== *)
(** * The session manager ([src/internal/bfd/manager.go], [manager_session.go],
    [manager_echo.go], [manager_micro.go])

    The manager owns the sessions.  A [*sessionEntry] is an index into the list of
    all entries ever made, so that both lookup maps, and a caller that kept the
    pointer, see one shared entry; the same for echo entries and for subscriber
    channels.

    - An entry holds its session with the state of the session's goroutine: not
      yet started, running, or stopped.
    - [Panic] stands for a run-time panic: a dangling pointer, a send on a closed
      channel, a second close.
    - The order of a map iteration is an input: a function that rearranges the
      list of the map's bindings.
    - What the random source delivers to a creation is an input.
    - Loggers and metrics are left out. *)

From S2P Require Import Prelude Packet Fsm Auth Netip Jitter Session Discriminator Micro.
From S2P Require Import Unsolicited Echo.

Local Open Scope Z_scope.

Inductive mgr_error :=
| ErrSessionNotFound
| ErrDuplicateSession
| ErrDemuxNoMatch
| ErrInvalidPeerAddr
| ErrEchoSessionNotFound
| ErrEchoDemuxNoMatch
| ErrMicroBFDGroupNotFound
| ErrMicroBFDGroupExists
| ErrMgrAlloc (e : alloc_error)
| ErrMgrSession (e : session_error)
| ErrMgrEcho (e : echo_error)
| ErrMgrMicro (e : micro_error)
| ErrMgrUnsolicited (e : unsolicited_error).

#[export] Instance mgr_error_eq_dec : EqDecision mgr_error.
Proof. solve_decision. Defined.

Record PacketMeta := mkPacketMeta {
  pm_SrcAddr : Addr;
  pm_DstAddr : Addr;
  pm_TTL : Z;
  pm_IfName : string;
}.

Record sessionKey := mkSessionKey {
  sk_peerAddr : Addr;
  sk_localAddr : Addr;
  sk_ifName : string;
}.

#[export] Instance sessionKey_eq_dec : EqDecision sessionKey.
Proof. solve_decision. Defined.

#[export] Instance sessionKey_countable : Countable sessionKey.
Proof.
  apply (inj_countable'
    (fun k => (sk_peerAddr k, sk_localAddr k, sk_ifName k))
    (fun t => mkSessionKey t.1.1 t.1.2 t.2)).
  by intros [].
Defined.

Definition notifyChSize : nat := 64.

(** A session object and its goroutine. *)
Inductive thread (S Y : Type) :=
| Pending (s : S)
| Running (y : Y)
| Stopped (y : Y).
Arguments Pending {S Y} s.
Arguments Running {S Y} y.
Arguments Stopped {S Y} y.

Definition thread_get {S Y} (get : Y -> S) (t : thread S Y) : S :=
  match t with Pending s => s | Running y | Stopped y => get y end.

Definition thread_map {S Y} (fs : S -> S) (fy : Y -> Y) (t : thread S Y) : thread S Y :=
  match t with
  | Pending s => Pending (fs s)
  | Running y => Running (fy y)
  | Stopped y => Stopped (fy y)
  end.

Record sessionEntry := mkSessionEntry {
  se_thread : thread Session Sys;
  se_cancelled : bool;
  se_key : sessionKey;
  se_unsolicited : bool;
}.

Definition se_session (en : sessionEntry) : Session := thread_get ses (se_thread en).

Record echoSessionEntry := mkEchoSessionEntry {
  ee_thread : thread EchoSession EchoSys;
  ee_cancelled : bool;
}.

Definition ee_session (en : echoSessionEntry) : EchoSession := thread_get e_ses (ee_thread en).

(** A subscriber's channel. *)
Record subscription := mkSubscription { sub_queue : list StateChange; sub_closed : bool }.

(** A scheduled clean-up: its timer's deadline ([None] without a timer) and the
    discriminator. *)
Record cleanup := mkCleanup { cl_deadline : option Z; cl_discr : Z }.

Record Manager := mkManager {
  m_entries : list sessionEntry;
  m_sessions : gmap Z nat;
  m_sessionsByPeer : gmap sessionKey nat;
  m_echoEntries : list echoSessionEntry;
  m_echoSessions : gmap Z nat;
  m_microGroups : gmap string MicroBFDGroup;
  m_discriminators : DiscriminatorAllocator;
  m_unsolicited : option unsolicitedState;
  m_hasUnsolicitedSender : bool;
  m_hasMicroActuator : bool;
  m_actuated : list MicroBFDMemberEvent;
  m_rawNotifyCh : list StateChange;
  m_publicNotifyCh : list StateChange;
  m_channels : list subscription;
  m_subscribers : gset nat;
  m_cleanups : list cleanup;
}.

(** [NewManager] with its options. *)
Definition NewManager (policy : option UnsolicitedPolicy) (hasSender hasActuator : bool) : Manager :=
  {| m_entries := []; m_sessions := ∅; m_sessionsByPeer := ∅; m_echoEntries := [];
     m_echoSessions := ∅; m_microGroups := ∅; m_discriminators := NewDiscriminatorAllocator;
     m_unsolicited :=
       match policy with
       | Some p => if up_Enabled p then Some (newUnsolicitedState (Some p)) else None
       | None => None
       end;
     m_hasUnsolicitedSender := hasSender; m_hasMicroActuator := hasActuator; m_actuated := [];
     m_rawNotifyCh := []; m_publicNotifyCh := []; m_channels := []; m_subscribers := ∅;
     m_cleanups := [] |}.

(** ** State access *)

Definition set_discriminators (a : DiscriminatorAllocator) (m : Manager) : Manager :=
  {| m with m_discriminators := a |}.

Definition set_unsolicited (u : option unsolicitedState) (m : Manager) : Manager :=
  {| m with m_unsolicited := u |}.

Definition upd_entry (l : nat) (f : sessionEntry -> sessionEntry) (m : Manager) : Manager :=
  {| m with m_entries := alter f l (m_entries m) |}.

Definition upd_echo_entry (l : nat) (f : echoSessionEntry -> echoSessionEntry) (m : Manager) : Manager :=
  {| m with m_echoEntries := alter f l (m_echoEntries m) |}.

(** A call of a session's entry point. *)
Definition entry_call (f : Session -> Session) (en : sessionEntry) : sessionEntry :=
  {| en with se_thread := thread_map f (upd f) (se_thread en) |}.

Definition entry_cancel (en : sessionEntry) : sessionEntry := {| en with se_cancelled := true |}.
Definition entry_mark (en : sessionEntry) : sessionEntry := {| en with se_unsolicited := true |}.

Definition on_session (l : nat) (f : Session -> Session) (m : Manager) : Manager :=
  upd_entry l (entry_call f) m.

Definition echo_upd (f : EchoSession -> EchoSession) (y : EchoSys) : EchoSys :=
  {| y with e_ses := f (e_ses y) |}.

Definition echo_call (f : EchoSession -> EchoSession) (en : echoSessionEntry) : echoSessionEntry :=
  {| en with ee_thread := thread_map f (echo_upd f) (ee_thread en) |}.

Definition on_echo (l : nat) (f : EchoSession -> EchoSession) (m : Manager) : Manager :=
  upd_echo_entry l (echo_call f) m.

(** ** Session creation ([manager_session.go]) *)

(** The random inputs of one creation. *)
Record CreateInput := mkCreateInput { ci_reads : reads; ci_rnd : Randomness }.

Definition key_of (cfg : SessionConfig) : sessionKey :=
  {| sk_peerAddr := cfg_PeerAddr cfg; sk_localAddr := cfg_LocalAddr cfg;
     sk_ifName := cfg_Interface cfg |}.

Definition checkDuplicate (key : sessionKey) (m : Manager) : go mgr_error unit :=
  match m_sessionsByPeer m !! key with
  | Some _ => Err ErrDuplicateSession
  | None => Ok tt
  end.

Definition allocateAndBuild (cfg : SessionConfig) (ci : CreateInput) (m : Manager)
    : go mgr_error (Z * Session) * Manager :=
  match Allocate (ci_reads ci) (m_discriminators m) with
  | (Err e, a) => (Err (ErrMgrAlloc e), set_discriminators a m)
  | (Panic, a) => (Panic, set_discriminators a m)
  | (Ok discr, a) =>
      let m := set_discriminators a m in
      match NewSession cfg discr true (ci_rnd ci) with
      | Ok sess => (Ok (discr, sess), m)
      | Err e => (Err (ErrMgrSession e), set_discriminators (Release discr (m_discriminators m)) m)
      | Panic => (Panic, m)
      end
  end.

(** Returns the pointer of the new entry. *)
Definition registerAndStart (key : sessionKey) (discr : Z) (sess : Session) (m : Manager)
    : go mgr_error nat * Manager :=
  match m_sessionsByPeer m !! key with
  | Some _ => (Err ErrDuplicateSession, m)
  | None =>
      let l := length (m_entries m) in
      let entry := {| se_thread := Pending sess; se_cancelled := false; se_key := key;
                      se_unsolicited := false |} in
      (Ok l, {| m with m_entries := m_entries m ++ [entry];
                       m_sessions := <[discr := l]> (m_sessions m);
                       m_sessionsByPeer := <[key := l]> (m_sessionsByPeer m) |})
  end.

Definition CreateSession (cfg : SessionConfig) (ci : CreateInput) (m : Manager)
    : go mgr_error nat * Manager :=
  if negb (Addr_IsValid (cfg_PeerAddr cfg)) then (Err ErrInvalidPeerAddr, m) else
  match checkDuplicate (key_of cfg) m with
  | Err e => (Err e, m)
  | Panic => (Panic, m)
  | Ok _ =>
      match allocateAndBuild cfg ci m with
      | (Err e, m) => (Err e, m)
      | (Panic, m) => (Panic, m)
      | (Ok (discr, sess), m) =>
          match registerAndStart (key_of cfg) discr sess m with
          | (Ok l, m) => (Ok l, m)
          | (Err e, m) => (Err e, set_discriminators (Release discr (m_discriminators m)) m)
          | (Panic, m) => (Panic, m)
          end
      end
  end.

(** ** Session destruction *)

(** The locked part of [DestroySession]. *)
Definition unregister (localDiscr : Z) (m : Manager) : go mgr_error (nat * sessionEntry) * Manager :=
  match m_sessions m !! localDiscr with
  | None => (Err ErrSessionNotFound, m)
  | Some l =>
      match m_entries m !! l with
      | None => (Panic, m)
      | Some entry =>
          (Ok (l, entry), {| m with m_sessions := delete localDiscr (m_sessions m);
                                    m_sessionsByPeer := delete (se_key entry) (m_sessionsByPeer m) |})
      end
  end.

Definition release_slot (m : Manager) : Manager :=
  set_unsolicited (release <$> m_unsolicited m) m.

Definition DestroySession (localDiscr : Z) (m : Manager) : go mgr_error unit * Manager :=
  match unregister localDiscr m with
  | (Err e, m) => (Err e, m)
  | (Panic, m) => (Panic, m)
  | (Ok (l, entry), m) =>
      let m := if se_unsolicited entry && bool_decide (is_Some (m_unsolicited m))
               then release_slot m else m in
      let m := upd_entry l entry_cancel m in
      (Ok tt, set_discriminators (Release localDiscr (m_discriminators m)) m)
  end.

(** ** Interface events *)

(** A rearrangement of the bindings of a map. *)
Definition order (K A : Type) : Type := list (K * A) -> list (K * A).

(** The pointers of the sessions bound to an interface, in iteration order. *)
Definition bound_to (ifName : string) (ord : order Z nat) (m : Manager) : list nat :=
  (fun dl => dl.2) <$>
  List.filter (fun dl => match m_entries m !! dl.2 with
                         | Some en => bool_decide (sk_ifName (se_key en) = ifName)
                         | None => false
                         end) (ord (map_to_list (m_sessions m))).

Fixpoint path_down_all (ls : list nat) (m : Manager) : Z * Manager :=
  match ls with
  | [] => (0, m)
  | l :: rest =>
      match m_entries m !! l with
      | None => path_down_all rest m
      | Some en =>
          let sent := (SetPathDown (se_session en)).1 in
          let m := on_session l (fun s => (SetPathDown s).2) m in
          let '(n, m) := path_down_all rest m in
          ((if sent then 1 else 0) + n, m)
      end
  end.

Definition HandleInterfaceEvent (ifName : string) (up : bool) (ord : order Z nat) (m : Manager)
    : Z * Manager :=
  if bool_decide (ifName = "") || up then (0, m)
  else path_down_all (bound_to ifName ord m) m.

(** ** Demultiplexing *)

Definition LookupByDiscriminator (discr : Z) (m : Manager) : option nat := m_sessions m !! discr.
Definition LookupByPeer (key : sessionKey) (m : Manager) : option nat := m_sessionsByPeer m !! key.

Definition meta_key (meta : PacketMeta) : sessionKey :=
  {| sk_peerAddr := pm_SrcAddr meta; sk_localAddr := pm_DstAddr meta; sk_ifName := pm_IfName meta |}.

Definition Demux (pkt : ControlPacket) (meta : PacketMeta) (m : Manager)
    : go mgr_error unit * Manager :=
  match (if negb (pkt_YourDiscriminator pkt =? 0)
         then LookupByDiscriminator (pkt_YourDiscriminator pkt) m
         else LookupByPeer (meta_key meta) m) with
  | None => (Err ErrDemuxNoMatch, m)
  | Some l => (Ok tt, on_session l (RecvPacket pkt []) m)
  end.

Definition demuxByDiscr (pkt : ControlPacket) (wire : list Z) (m : Manager)
    : go mgr_error unit * Manager :=
  match LookupByDiscriminator (pkt_YourDiscriminator pkt) m with
  | None => (Err ErrDemuxNoMatch, m)
  | Some l => (Ok tt, on_session l (RecvPacket pkt wire) m)
  end.

Definition markSessionUnsolicited (localDiscr : Z) (m : Manager) : Manager :=
  match m_sessions m !! localDiscr with
  | Some l => upd_entry l entry_mark m
  | None => m
  end.

Definition unsolicited_cfg (defaults : UnsolicitedSessionDefaults) (meta : PacketMeta)
    : SessionConfig :=
  {| cfg_PeerAddr := pm_SrcAddr meta; cfg_LocalAddr := pm_DstAddr meta;
     cfg_Interface := pm_IfName meta; cfg_Type := SessionTypeSingleHop; cfg_Role := RolePassive;
     cfg_DesiredMinTxInterval := ud_DesiredMinTxInterval defaults;
     cfg_RequiredMinRxInterval := ud_RequiredMinRxInterval defaults;
     cfg_DetectMultiplier := ud_DetectMultiplier defaults;
     cfg_Auth := None; cfg_AuthKeys := None; cfg_PaddedPduSize := 0 |}.

Definition tryCreateUnsolicited (us : unsolicitedState) (pkt : ControlPacket) (meta : PacketMeta)
    (wire : list Z) (ci : CreateInput) (m : Manager) : go mgr_error unit * Manager :=
  match reserve (pm_SrcAddr meta) (pm_IfName meta) us with
  | (Err e, us) => (Err (ErrMgrUnsolicited e), set_unsolicited (Some us) m)
  | (Panic, us) => (Panic, set_unsolicited (Some us) m)
  | (Ok _, us) =>
      let m := set_unsolicited (Some us) m in
      match us_policy us with
      | None => (Panic, m)
      | Some policy =>
          let cfg := unsolicited_cfg (up_SessionDefaults policy) meta in
          if negb (m_hasUnsolicitedSender m)
          then (Err (ErrMgrUnsolicited ErrUnsolicitedDisabled), m) else
          match CreateSession cfg ci m with
          | (Err e, m) => (Err e, release_slot m)
          | (Panic, m) => (Panic, m)
          | (Ok l, m) =>
              match m_entries m !! l with
              | None => (Panic, m)
              | Some en =>
                  let m := markSessionUnsolicited (s_localDiscr (se_session en)) m in
                  (Ok tt, on_session l (RecvPacket pkt wire) m)
              end
          end
      end
  end.

Definition demuxByPeer (pkt : ControlPacket) (meta : PacketMeta) (wire : list Z)
    (ci : CreateInput) (m : Manager) : go mgr_error unit * Manager :=
  match LookupByPeer (meta_key meta) m with
  | Some l => (Ok tt, on_session l (RecvPacket pkt wire) m)
  | None =>
      match m_unsolicited m with
      | Some us => tryCreateUnsolicited us pkt meta wire ci m
      | None => (Err ErrDemuxNoMatch, m)
      end
  end.

Definition DemuxWithWire (pkt : ControlPacket) (meta : PacketMeta) (wire : list Z)
    (ci : CreateInput) (m : Manager) : go mgr_error unit * Manager :=
  if negb (pkt_YourDiscriminator pkt =? 0) then demuxByDiscr pkt wire m
  else demuxByPeer pkt meta wire ci m.

(** ** Snapshots *)

Record SessionCounters := mkSessionCounters {
  ct_PacketsSent : Z;
  ct_PacketsReceived : Z;
  ct_StateTransitions : Z;
}.

Record SessionSnapshot := mkSessionSnapshot {
  ss_LocalDiscr : Z;
  ss_RemoteDiscr : Z;
  ss_PeerAddr : Addr;
  ss_LocalAddr : Addr;
  ss_Interface : string;
  ss_Type : Z;
  ss_State : Z;
  ss_RemoteState : Z;
  ss_LocalDiag : Z;
  ss_DesiredMinTx : Z;
  ss_RequiredMinRx : Z;
  ss_DetectMultiplier : Z;
  ss_NegotiatedTxInterval : Z;
  ss_DetectionTime : Z;
  ss_LastStateChange : option Z;
  ss_LastPacketReceived : option Z;
  ss_PaddedPduSize : Z;
  ss_AuthType : Z;
  ss_Unsolicited : bool;
  ss_Counters : SessionCounters;
}.

(** The field [Unsolicited] is not set by the code and keeps its zero value. *)
Definition session_snapshot (s : Session) : SessionSnapshot :=
  {| ss_LocalDiscr := s_localDiscr s; ss_RemoteDiscr := s_remoteDiscr s;
     ss_PeerAddr := s_peerAddr s; ss_LocalAddr := s_localAddr s; ss_Interface := s_ifName s;
     ss_Type := s_sessionType s; ss_State := s_state s; ss_RemoteState := s_remoteState s;
     ss_LocalDiag := s_localDiag s; ss_DesiredMinTx := s_desiredMinTxInterval s;
     ss_RequiredMinRx := s_requiredMinRxInterval s; ss_DetectMultiplier := s_detectMult s;
     ss_NegotiatedTxInterval := NegotiatedTxInterval s; ss_DetectionTime := DetectionTime s;
     ss_LastStateChange := LastStateChange s; ss_LastPacketReceived := LastPacketReceived s;
     ss_PaddedPduSize := s_paddedPduSize s; ss_AuthType := Session_AuthType s;
     ss_Unsolicited := false;
     ss_Counters := {| ct_PacketsSent := s_packetsSent s; ct_PacketsReceived := s_packetsReceived s;
                       ct_StateTransitions := s_stateTransitions s |} |}.

Definition Sessions (ord : order Z nat) (m : Manager) : list SessionSnapshot :=
  omap (fun dl => (fun en => session_snapshot (se_session en)) <$> m_entries m !! dl.2)
       (ord (map_to_list (m_sessions m))).

(** ** Subscriptions *)

Definition SubscribeStateChanges (m : Manager) : nat * Manager :=
  let ch := length (m_channels m) in
  (ch, {| m with m_channels := m_channels m ++ [mkSubscription [] false];
                 m_subscribers := {[ch]} ∪ m_subscribers m |}).

(** Closing a channel twice panics. *)
Definition close_channel (ch : nat) (m : Manager) : option Manager :=
  match m_channels m !! ch with
  | Some sub => if sub_closed sub then None
                else Some {| m with m_channels := <[ch := mkSubscription (sub_queue sub) true]> (m_channels m) |}
  | None => None
  end.

(** The goroutine of a subscription, once its context is done. *)
Definition unsubscribe (ch : nat) (m : Manager) : option Manager :=
  if bool_decide (ch ∈ m_subscribers m)
  then close_channel ch {| m with m_subscribers := m_subscribers m ∖ {[ch]} |}
  else Some m.

(** The send to one subscriber; sending on a closed channel panics. *)
Definition offer (sc : StateChange) (ch : nat) (m : Manager) : option Manager :=
  match m_channels m !! ch with
  | Some sub =>
      if sub_closed sub then None else
      if bool_decide (length (sub_queue sub) < notifyChSize)%nat
      then Some {| m with m_channels := <[ch := mkSubscription (sub_queue sub ++ [sc]) false]> (m_channels m) |}
      else Some m
  | None => None
  end.

Fixpoint offer_all (sc : StateChange) (chs : list nat) (m : Manager) : option Manager :=
  match chs with
  | [] => Some m
  | ch :: rest => m ← offer sc ch m; offer_all sc rest m
  end.

Definition broadcastStateChange (sc : StateChange) (ord : list nat -> list nat) (m : Manager)
    : option Manager :=
  offer_all sc (ord (elements (m_subscribers m))) m.

(** ** Micro-BFD dispatch ([manager_micro.go]) *)

Definition handleMicroBFDActuator (group : MicroBFDGroup) (sc : StateChange)
    (aggregateChanged : bool) (m : Manager) : Manager :=
  if negb (m_hasMicroActuator m) then m else
  let ev := {| ev_LAGInterface := g_lagInterface group; ev_MemberInterface := sc_Interface sc;
               ev_OldState := sc_OldState sc; ev_NewState := sc_NewState sc;
               ev_LocalDiscr := sc_LocalDiscr sc; ev_AggregateUp := IsUp group;
               ev_AggregateChanged := aggregateChanged |} in
  {| m with m_actuated := m_actuated m ++ [ev] |}.

(** The groups are tried in iteration order until one has the member; a group
    that does not have it is unchanged. *)
Fixpoint dispatch_groups (sc : StateChange) (groups : list (string * MicroBFDGroup)) (m : Manager)
    : Manager :=
  match groups with
  | [] => m
  | (name, group) :: rest =>
      match UpdateMemberState (sc_Interface sc) (sc_NewState sc) (sc_LocalDiscr sc) group with
      | (Ok changed, group) =>
          handleMicroBFDActuator group sc changed
            {| m with m_microGroups := <[name := group]> (m_microGroups m) |}
      | _ => dispatch_groups sc rest m
      end
  end.

Definition dispatchMicroBFD (sc : StateChange) (ord : order string MicroBFDGroup) (m : Manager)
    : Manager :=
  dispatch_groups sc (ord (map_to_list (m_microGroups m))) m.

(** ** Dispatch of state changes ([manager.go]) *)

Definition entry_unsolicited (discr : Z) (m : Manager) : bool :=
  match m_sessions m !! discr with
  | Some l => match m_entries m !! l with Some en => se_unsolicited en | None => false end
  | None => false
  end.

Definition scheduleUnsolicitedCleanup (now : Z) (sc : StateChange) (m : Manager) : option Manager :=
  match m_unsolicited m with
  | None => Some m
  | Some us =>
      if negb (entry_unsolicited (sc_LocalDiscr sc) m) then Some m else
      policy ← us_policy us;
      let timeout := up_CleanupTimeout policy in
      let c := {| cl_deadline := if 0 <? timeout then Some (now + timeout) else None;
                  cl_discr := sc_LocalDiscr sc |} in
      Some {| m with m_cleanups := m_cleanups m ++ [c] |}
  end.

(** The check of [cleanupUnsolicitedSession], made under the read lock. *)
Definition cleanup_due (localDiscr : Z) (m : Manager) : bool :=
  match m_sessions m !! localDiscr with
  | Some l =>
      match m_entries m !! l with
      | Some en => se_unsolicited en && (s_state (se_session en) =? StateDown)
      | None => false
      end
  | None => false
  end.

(** An error of [DestroySession] is only logged. *)
Definition cleanupUnsolicitedSession (localDiscr : Z) (m : Manager) : go mgr_error unit * Manager :=
  if cleanup_due localDiscr m then
    match DestroySession localDiscr m with
    | (Panic, m) => (Panic, m)
    | (_, m) => (Ok tt, m)
    end
  else (Ok tt, m).

(** One turn of the loop of [RunDispatch]; [None] is a panic. *)
Definition RunDispatch_turn (now : Z) (ordg : order string MicroBFDGroup)
    (ords : list nat -> list nat) (m : Manager) : option Manager :=
  match m_rawNotifyCh m with
  | [] => Some m
  | sc :: rest =>
      let m := {| m with m_rawNotifyCh := rest |} in
      let m := if (sc_Type sc =? SessionTypeMicroBFD) && negb (bool_decide (sc_Interface sc = ""))
               then dispatchMicroBFD sc ordg m else m in
      m ← (if sc_NewState sc =? StateDown then scheduleUnsolicitedCleanup now sc m else Some m);
      m ← broadcastStateChange sc ords m;
      Some (if bool_decide (length (m_publicNotifyCh m) < notifyChSize)%nat
            then {| m with m_publicNotifyCh := m_publicNotifyCh m ++ [sc] |} else m)
  end.

(** ** Drain and close *)

Definition DrainAllSessions (ord : order Z nat) (m : Manager) : Manager :=
  fold_left (fun m dl => on_session dl.2 SetAdminDown m) (ord (map_to_list (m_sessions m))) m.

Definition close_all (chs : list nat) (m : Manager) : option Manager :=
  foldr (fun ch om => m ← om; close_channel ch m) (Some m) chs.

Definition Close (ords : order Z nat) (orde : order Z nat) (m : Manager) : option Manager :=
  let m := fold_left (fun m dl =>
             let m := upd_entry dl.2 entry_cancel m in
             set_discriminators (Release dl.1 (m_discriminators m)) m)
             (ords (map_to_list (m_sessions m))) m in
  let m := fold_left (fun m dl =>
             let m := upd_echo_entry dl.2 (fun en => {| en with ee_cancelled := true |}) m in
             set_discriminators (Release dl.1 (m_discriminators m)) m)
             (orde (map_to_list (m_echoSessions m))) m in
  let m := {| m with m_sessions := ∅; m_sessionsByPeer := ∅; m_echoSessions := ∅;
                     m_microGroups := ∅ |} in
  m' ← close_all (elements (m_subscribers m)) m;
  Some {| m' with m_subscribers := ∅ |}.

(** ** Reconciliation

    The three [Reconcile] methods have the same two loops: act on every binding
    whose key is not to be skipped, count the successes and collect the errors. *)

Fixpoint reconcile_loop {A} (skip : string -> bool)
    (act : string -> A -> Manager -> go mgr_error unit * Manager)
    (l : list (string * A)) (m : Manager) : option (Z * list mgr_error * Manager) :=
  match l with
  | [] => Some (0, [], m)
  | (key, a) :: rest =>
      if skip key then reconcile_loop skip act rest m else
      match act key a m with
      | (Panic, _) => None
      | (Err e, m) =>
          '(n, errs, m) ← reconcile_loop skip act rest m; Some (n, e :: errs, m)
      | (Ok _, m) =>
          '(n, errs, m) ← reconcile_loop skip act rest m; Some (n + 1, errs, m)
      end
  end.

(** A later configuration with the same key replaces an earlier one. *)
Definition desired_map {A} (key : A -> string) (desired : list A) : gmap string A :=
  fold_left (fun ks rc => <[key rc := rc]> ks) desired ∅.

Definition has_key {A} (ks : gmap string A) (key : string) : bool :=
  bool_decide (is_Some (ks !! key)).

(** Destroy what is not desired, create what is not there. *)
Definition reconcile {A B} (currentKeys : gmap string A) (desiredKeys : gmap string B)
    (ordc : order string A) (ordd : order string B)
    (destroy : string -> A -> Manager -> go mgr_error unit * Manager)
    (create : string -> B -> Manager -> go mgr_error unit * Manager) (m : Manager)
    : option (Z * Z * list mgr_error * Manager) :=
  '(destroyed, errs1, m) ←
    reconcile_loop (has_key desiredKeys) destroy (ordc (map_to_list currentKeys)) m;
  '(created, errs2, m) ←
    reconcile_loop (has_key currentKeys) create (ordd (map_to_list desiredKeys)) m;
  Some (created, destroyed, errs1 ++ errs2, m).

(** Forget the value of a result. *)
Definition go_void {E A} (r : go E A) : go E unit := _ ← r; Ok tt.

Record ReconcileConfig := mkReconcileConfig {
  rc_Key : string;
  rc_SessionConfig : SessionConfig;
}.

Definition key_string (sk : sessionKey) : string :=
  (Addr_String (sk_peerAddr sk) +:+ "|" +:+ Addr_String (sk_localAddr sk) +:+ "|"
   +:+ sk_ifName sk)%string.

Definition sessionKeySet (ord : order sessionKey nat) (m : Manager) : gmap string Z :=
  fold_left (fun ks kl =>
    match m_entries m !! kl.2 with
    | Some en => <[key_string kl.1 := s_localDiscr (se_session en)]> ks
    | None => ks
    end) (ord (map_to_list (m_sessionsByPeer m))) ∅.

(** [inp] gives the random inputs of the creation for a key. *)
Definition ReconcileSessions (desired : list ReconcileConfig) (inp : string -> CreateInput)
    (ordk : order sessionKey nat) (ordc : order string Z) (ordd : order string ReconcileConfig)
    (m : Manager) : option (Z * Z * list mgr_error * Manager) :=
  reconcile (sessionKeySet ordk m) (desired_map rc_Key desired) ordc ordd
    (fun _ discr m => DestroySession discr m)
    (fun key rc m => let '(r, m) := CreateSession (rc_SessionConfig rc) (inp key) m in (go_void r, m))
    m.

(** ** Echo sessions ([manager_echo.go]) *)

Definition CreateEchoSession (cfg : EchoSessionConfig) (rd : reads) (m : Manager)
    : go mgr_error Z * Manager :=
  if negb (Addr_IsValid (ec_PeerAddr cfg)) then (Err ErrInvalidPeerAddr, m) else
  match Allocate rd (m_discriminators m) with
  | (Err e, a) => (Err (ErrMgrAlloc e), set_discriminators a m)
  | (Panic, a) => (Panic, set_discriminators a m)
  | (Ok discr, a) =>
      let m := set_discriminators a m in
      match NewEchoSession cfg discr true with
      | Err e => (Err (ErrMgrEcho e), set_discriminators (Release discr (m_discriminators m)) m)
      | Panic => (Panic, m)
      | Ok es =>
          let l := length (m_echoEntries m) in
          (Ok discr, {| m with m_echoEntries := m_echoEntries m ++ [mkEchoSessionEntry (Pending es) false];
                               m_echoSessions := <[discr := l]> (m_echoSessions m) |})
      end
  end.

Definition DestroyEchoSession (discr : Z) (m : Manager) : go mgr_error unit * Manager :=
  match m_echoSessions m !! discr with
  | None => (Err ErrEchoSessionNotFound, m)
  | Some l =>
      let m := {| m with m_echoSessions := delete discr (m_echoSessions m) |} in
      let m := upd_echo_entry l (fun en => {| en with ee_cancelled := true |}) m in
      (Ok tt, set_discriminators (Release discr (m_discriminators m)) m)
  end.

Definition DemuxEcho (myDiscr : Z) (m : Manager) : go mgr_error unit * Manager :=
  match m_echoSessions m !! myDiscr with
  | None => (Err ErrEchoDemuxNoMatch, m)
  | Some l => (Ok tt, on_echo l RecvEcho m)
  end.

Definition EchoSessions (ord : order Z nat) (m : Manager) : list EchoSessionSnapshot :=
  omap (fun dl => (fun en => EchoSession_Snapshot (ee_session en)) <$> m_echoEntries m !! dl.2)
       (ord (map_to_list (m_echoSessions m))).

Record EchoReconcileConfig := mkEchoReconcileConfig {
  erc_Key : string;
  erc_EchoSessionConfig : EchoSessionConfig;
}.

Definition echo_key_string (es : EchoSession) : string :=
  ("echo|" +:+ Addr_String (es_peerAddr es) +:+ "|" +:+ Addr_String (es_localAddr es) +:+ "|"
   +:+ es_ifName es)%string.

Definition echoSessionKeySet (ord : order Z nat) (m : Manager) : gmap string Z :=
  fold_left (fun ks dl =>
    match m_echoEntries m !! dl.2 with
    | Some en => <[echo_key_string (ee_session en) := es_localDiscr (ee_session en)]> ks
    | None => ks
    end) (ord (map_to_list (m_echoSessions m))) ∅.

Definition ReconcileEchoSessions (desired : list EchoReconcileConfig) (inp : string -> reads)
    (ordk : order Z nat) (ordc : order string Z) (ordd : order string EchoReconcileConfig)
    (m : Manager) : option (Z * Z * list mgr_error * Manager) :=
  reconcile (echoSessionKeySet ordk m) (desired_map erc_Key desired) ordc ordd
    (fun _ discr m => DestroyEchoSession discr m)
    (fun key rc m => let '(r, m) := CreateEchoSession (erc_EchoSessionConfig rc) (inp key) m in
                     (go_void r, m))
    m.

(** ** Micro-BFD groups ([manager_micro.go]) *)

Definition CreateMicroBFDGroup (cfg : MicroBFDConfig) (m : Manager)
    : go mgr_error unit * Manager :=
  match m_microGroups m !! mc_LAGInterface cfg with
  | Some _ => (Err ErrMicroBFDGroupExists, m)
  | None =>
      match NewMicroBFDGroup cfg with
      | Err e => (Err (ErrMgrMicro e), m)
      | Panic => (Panic, m)
      | Ok group =>
          (Ok tt, {| m with m_microGroups := <[mc_LAGInterface cfg := group]> (m_microGroups m) |})
      end
  end.

Definition DestroyMicroBFDGroup (lagInterface : string) (m : Manager)
    : go mgr_error unit * Manager :=
  match m_microGroups m !! lagInterface with
  | None => (Err ErrMicroBFDGroupNotFound, m)
  | Some _ => (Ok tt, {| m with m_microGroups := delete lagInterface (m_microGroups m) |})
  end.

Definition MicroBFDGroups (ord : order string MicroBFDGroup) (ordm : order string memberEntry)
    (m : Manager) : list MicroBFDGroupSnapshot :=
  (fun kg => MicroBFDGroup_Snapshot ordm kg.2) <$> ord (map_to_list (m_microGroups m)).

Definition LookupMicroBFDGroup (lagInterface : string) (m : Manager) : option MicroBFDGroup :=
  m_microGroups m !! lagInterface.

Record MicroBFDReconcileConfig := mkMicroBFDReconcileConfig {
  mrc_Key : string;
  mrc_Config : MicroBFDConfig;
}.

Definition microBFDGroupKeySet (m : Manager) : gmap string unit :=
  (fun _ => tt) <$> m_microGroups m.

Definition ReconcileMicroBFDGroups (desired : list MicroBFDReconcileConfig)
    (ordc : order string unit) (ordd : order string MicroBFDReconcileConfig) (m : Manager)
    : option (Z * Z * list mgr_error * Manager) :=
  reconcile (microBFDGroupKeySet m) (desired_map mrc_Key desired) ordc ordd
    (fun key _ m => DestroyMicroBFDGroup key m)
    (fun _ rc m => CreateMicroBFDGroup (mrc_Config rc) m)
    m.

(** ** Goroutines

    The steps of the session goroutines inside the manager.  A turn of a session
    puts its notifications on [rawNotifyCh], which has room for [notifyChSize];
    the room is an input of the session's handler.  [None]: the step is not
    possible; [Some None]: the handler panics. *)

Definition raw_env (e : Env) (attempts : nat) (m : Manager) : Env :=
  {| e with notify_room := fun k =>
       bool_decide (length (m_rawNotifyCh m) + (k - attempts) < notifyChSize)%nat |}.

Definition set_thread (t : thread Session Sys) (en : sessionEntry) : sessionEntry :=
  {| en with se_thread := t |}.

Definition session_start (l : nat) (e : Env) (m : Manager) : option Manager :=
  en ← m_entries m !! l;
  match se_thread en with
  | Pending s => Some (upd_entry l (set_thread (Running (Run_start e s))) m)
  | _ => None
  end.

Definition session_turn (l : nat) (c : loop_case) (e : Env) (m : Manager)
    : option (option Manager) :=
  en ← m_entries m !! l;
  match se_thread en with
  | Running y =>
      r ← runLoop_turn c (raw_env e (notify_attempts y) m) y;
      match r with
      | None => Some None
      | Some y' =>
          let m := upd_entry l (set_thread (Running y')) m in
          Some (Some {| m with m_rawNotifyCh :=
                          m_rawNotifyCh m ++ drop (length (notified y)) (notified y') |})
      end
  | _ => None
  end.

(** The cancelled context is seen by the [select]. *)
Definition session_stop (l : nat) (m : Manager) : option Manager :=
  en ← m_entries m !! l;
  match se_thread en with
  | Running y => if se_cancelled en then Some (upd_entry l (set_thread (Stopped y)) m) else None
  | _ => None
  end.

Definition set_echo_thread (t : thread EchoSession EchoSys) (en : echoSessionEntry)
    : echoSessionEntry :=
  {| en with ee_thread := t |}.

Definition echo_start (l : nat) (ee : EchoEnv) (m : Manager) : option Manager :=
  en ← m_echoEntries m !! l;
  match ee_thread en with
  | Pending es => Some (upd_echo_entry l (set_echo_thread (Running (echo_Run_start ee es))) m)
  | _ => None
  end.

Definition echo_turn (l : nat) (c : echo_case) (ee : EchoEnv) (m : Manager)
    : option (option Manager) :=
  en ← m_echoEntries m !! l;
  match ee_thread en with
  | Running y =>
      r ← echoRunLoop_turn c {| ee with ee_env := raw_env (ee_env ee) (e_notify_attempts y) m |} y;
      match r with
      | None => Some None
      | Some y' =>
          let m := upd_echo_entry l (set_echo_thread (Running y')) m in
          Some (Some {| m with m_rawNotifyCh :=
                          m_rawNotifyCh m ++ drop (length (e_notified y)) (e_notified y') |})
      end
  | _ => None
  end.

Definition echo_stop (l : nat) (m : Manager) : option Manager :=
  en ← m_echoEntries m !! l;
  match ee_thread en with
  | Running y => if ee_cancelled en then Some (upd_echo_entry l (set_echo_thread (Stopped y)) m)
                 else None
  | _ => None
  end.

(** A consumer reads from its channel. *)
Definition read_public (m : Manager) : Manager :=
  {| m with m_publicNotifyCh := tail (m_publicNotifyCh m) |}.

Definition read_subscription (ch : nat) (m : Manager) : Manager :=
  {| m with m_channels :=
       alter (fun sub => mkSubscription (tail (sub_queue sub)) (sub_closed sub)) ch (m_channels m) |}.

(** A clean-up goroutine whose timer fired leaves the list. *)
Definition drop_cleanup (i : nat) (m : Manager) : Manager :=
  {| m with m_cleanups := delete i (m_cleanups m) |}.
