(* ===== verification/ManagerSteps.v ===== *)
(** * The manager under concurrent calls

    The manager's methods run on many goroutines.  Between two critical sections
    a call holds at most a discriminator it has allocated (or has still to
    release) and a slot of the unsolicited counter; the world is the manager with
    those holdings.  A step is one critical section, one atomic operation or one
    turn of a goroutine.  A step that consumes a holding may be taken by any call
    that has one: the relation has every interleaving of the code, and more. *)

From S2P Require Import Prelude Packet Fsm Auth Netip Jitter Session SessionInv SessionSteps.
From S2P Require Import SessionProps SessionFrame Discriminator Micro Unsolicited Echo Manager.
From stdpp Require Import relations.

Local Open Scope Z_scope.

Record World := mkWorld {
  w_m : Manager;
  w_discrs : list Z;
  w_slots : nat;
}.

(** The calls other goroutines make on a session. *)
Inductive session_call : (Session -> Session) -> Prop :=
| call_recv pkt wire : wf_packet pkt -> session_call (RecvPacket pkt wire)
| call_path_down : session_call (fun s => (SetPathDown s).2)
| call_admin_down : session_call SetAdminDown.

Lemma session_call_entry f s : session_call f -> session_entry s (f s).
Proof. intros []; by constructor. Qed.

Definition takes_slot (en : sessionEntry) (m : Manager) : bool :=
  se_unsolicited en && bool_decide (is_Some (m_unsolicited m)).

Definition cancel_echo (en : echoSessionEntry) : echoSessionEntry := {| en with ee_cancelled := true |}.

Inductive mgr_step : World -> World -> Prop :=
| ms_allocate rd d a m ds n :
    reads_ok rd -> Allocate rd (m_discriminators m) = (Ok d, a) ->
    mgr_step (mkWorld m ds n) (mkWorld (set_discriminators a m) (d :: ds) n)
| ms_release d m ds ds' n :
    ds ≡ₚ d :: ds' ->
    mgr_step (mkWorld m ds n)
      (mkWorld (set_discriminators (Release d (m_discriminators m)) m) ds' n)
| ms_register cfg rnd d s m m' l ds ds' n :
    ds ≡ₚ d :: ds' -> cfg_ok cfg -> rnd_ok rnd -> NewSession cfg d true rnd = Ok s ->
    registerAndStart (key_of cfg) d s m = (Ok l, m') ->
    mgr_step (mkWorld m ds n) (mkWorld m' ds' n)
| ms_unregister d l en m m' ds n :
    unregister d m = (Ok (l, en), m') ->
    mgr_step (mkWorld m ds n) (mkWorld m' (d :: ds) (if takes_slot en m then S n else n))
| ms_cancel l m ds n :
    mgr_step (mkWorld m ds n) (mkWorld (upd_entry l entry_cancel m) ds n)
| ms_reserve src ifn us us' m ds n :
    m_unsolicited m = Some us -> reserve src ifn us = (Ok tt, us') ->
    mgr_step (mkWorld m ds n) (mkWorld (set_unsolicited (Some us') m) ds (S n))
| ms_unreserve m ds n : mgr_step (mkWorld m ds (S n)) (mkWorld (release_slot m) ds n)
| ms_mark d m ds n : mgr_step (mkWorld m ds (S n)) (mkWorld (markSessionUnsolicited d m) ds n)
| ms_call l f m ds n :
    session_call f -> mgr_step (mkWorld m ds n) (mkWorld (on_session l f m) ds n)
| ms_start l e m m' ds n :
    session_start l e m = Some m' -> mgr_step (mkWorld m ds n) (mkWorld m' ds n)
| ms_turn l c e m m' ds n :
    session_turn l c e m = Some (Some m') -> mgr_step (mkWorld m ds n) (mkWorld m' ds n)
| ms_stop l m m' ds n :
    session_stop l m = Some m' -> mgr_step (mkWorld m ds n) (mkWorld m' ds n)
| ms_echo_register cfg d es m ds ds' n :
    ds ≡ₚ d :: ds' -> echo_cfg_ok cfg -> NewEchoSession cfg d true = Ok es ->
    mgr_step (mkWorld m ds n)
      (mkWorld {| m with m_echoEntries := m_echoEntries m ++ [mkEchoSessionEntry (Pending es) false];
                         m_echoSessions := <[d := length (m_echoEntries m)]> (m_echoSessions m) |} ds' n)
| ms_echo_unregister d l m ds n :
    m_echoSessions m !! d = Some l ->
    mgr_step (mkWorld m ds n)
      (mkWorld {| m with m_echoSessions := delete d (m_echoSessions m) |} (d :: ds) n)
| ms_echo_cancel l m ds n :
    mgr_step (mkWorld m ds n) (mkWorld (upd_echo_entry l cancel_echo m) ds n)
| ms_echo_call l m ds n : mgr_step (mkWorld m ds n) (mkWorld (on_echo l RecvEcho m) ds n)
| ms_echo_start l ee m m' ds n :
    echo_start l ee m = Some m' -> mgr_step (mkWorld m ds n) (mkWorld m' ds n)
| ms_echo_turn l c ee m m' ds n :
    echo_turn l c ee m = Some (Some m') -> mgr_step (mkWorld m ds n) (mkWorld m' ds n)
| ms_echo_stop l m m' ds n :
    echo_stop l m = Some m' -> mgr_step (mkWorld m ds n) (mkWorld m' ds n)
| ms_micro_create cfg m ds n :
    mgr_step (mkWorld m ds n) (mkWorld (CreateMicroBFDGroup cfg m).2 ds n)
| ms_micro_destroy lag m ds n :
    mgr_step (mkWorld m ds n) (mkWorld (DestroyMicroBFDGroup lag m).2 ds n)
| ms_dispatch t ordg ords m m' ds n :
    (forall l, ordg l ≡ₚ l) -> (forall l, ords l ≡ₚ l) ->
    RunDispatch_turn t ordg ords m = Some m' -> mgr_step (mkWorld m ds n) (mkWorld m' ds n)
| ms_cleanup_taken i m ds n : mgr_step (mkWorld m ds n) (mkWorld (drop_cleanup i m) ds n)
| ms_subscribe m ds n : mgr_step (mkWorld m ds n) (mkWorld (SubscribeStateChanges m).2 ds n)
| ms_unsubscribe ch m m' ds n :
    unsubscribe ch m = Some m' -> mgr_step (mkWorld m ds n) (mkWorld m' ds n)
| ms_read_public m ds n : mgr_step (mkWorld m ds n) (mkWorld (read_public m) ds n)
| ms_read_subscription ch m ds n :
    mgr_step (mkWorld m ds n) (mkWorld (read_subscription ch m) ds n)
| ms_close ords orde m m' ds n :
    (forall l, ords l ≡ₚ l) -> (forall l, orde l ≡ₚ l) ->
    Close ords orde m = Some m' -> mgr_step (mkWorld m ds n) (mkWorld m' ds n).

(** The width of the multiplier in the policy's defaults. *)
Definition policy_ok (policy : UnsolicitedPolicy) : Prop :=
  is_u8 (ud_DetectMultiplier (up_SessionDefaults policy)).

(** The worlds a new manager can get to. *)
Definition mgr_reachable (w : World) : Prop :=
  exists policy hasSender hasActuator,
    (forall p, policy = Some p -> policy_ok p) /\
    rtc mgr_step (mkWorld (NewManager policy hasSender hasActuator) [] 0) w.

Lemma reachable_steps w w' : mgr_reachable w -> rtc mgr_step w w' -> mgr_reachable w'.
Proof.
  intros (policy & hs & ha & Hp & Hr) H. exists policy, hs, ha. split; [done|]. by etransitivity.
Qed.

(** ** The invariant *)

(** Both maps show the same sessions, each under its own discriminator and key. *)
Record maps_ok (m : Manager) : Prop := {
  mo_sessions : forall d l, m_sessions m !! d = Some l ->
    exists en, m_entries m !! l = Some en /\ s_localDiscr (se_session en) = d /\
               m_sessionsByPeer m !! se_key en = Some l;
  mo_peers : forall k l, m_sessionsByPeer m !! k = Some l ->
    exists en, m_entries m !! l = Some en /\ se_key en = k /\
               m_sessions m !! s_localDiscr (se_session en) = Some l;
  mo_echo : forall d l, m_echoSessions m !! d = Some l ->
    exists en, m_echoEntries m !! l = Some en /\ es_localDiscr (ee_session en) = d;
}.

(** Every allocated discriminator has exactly one owner: a session, an echo session
    or a call in progress. *)
Record discrs_ok (w : World) : Prop := {
  do_owned : (map_to_list (m_sessions (w_m w))).*1 ++ (map_to_list (m_echoSessions (w_m w))).*1
             ++ w_discrs w ≡ₚ elements (m_discriminators (w_m w));
  do_range : forall d, d ∈ m_discriminators (w_m w) -> 0 < d < 2 ^ 32;
}.

(** A session object of the manager is what the session code makes of it. *)
Definition session_thread_ok (t : thread Session Sys) : Prop :=
  match t with
  | Pending s => exists cfg d rnd s0, cfg_ok cfg /\ rnd_ok rnd /\ is_u32 d /\
      NewSession cfg d true rnd = Ok s0 /\ rtc session_entry s0 s
  | Running y | Stopped y => reachable y
  end.

Definition key_matches (en : sessionEntry) : Prop :=
  se_key en = {| sk_peerAddr := s_peerAddr (se_session en);
                 sk_localAddr := s_localAddr (se_session en);
                 sk_ifName := s_ifName (se_session en) |}.

Definition entry_ok (en : sessionEntry) : Prop :=
  session_thread_ok (se_thread en) /\ key_matches en.

Definition echo_thread_ok (t : thread EchoSession EchoSys) : Prop :=
  match t with
  | Pending es => exists cfg d es0 n, echo_cfg_ok cfg /\ is_u32 d /\
      NewEchoSession cfg d true = Ok es0 /\ es = Nat.iter n RecvEcho es0
  | Running y | Stopped y => echo_reachable y
  end.

Record threads_ok (m : Manager) : Prop := {
  to_entry : forall l en, m_entries m !! l = Some en -> entry_ok en;
  to_echo : forall l en, m_echoEntries m !! l = Some en -> echo_thread_ok (ee_thread en);
}.

(** The registered sessions that were created for unsolicited packets. *)
Definition entry_marked (m : Manager) (l : nat) : bool :=
  match m_entries m !! l with Some en => se_unsolicited en | None => false end.

Definition marked (m : Manager) : nat :=
  length (filter (fun dl => entry_marked m dl.2 = true) (map_to_list (m_sessions m))).

(** The counter covers the marked sessions and the slots held by calls, and stays
    within the limit. *)
Definition slots_ok (w : World) : Prop :=
  forall us, m_unsolicited (w_m w) = Some us ->
    exists policy, (us_policy us = Some policy /\ policy_ok policy) /\
      (0 < up_MaxSessions policy < 2 ^ 31 ->
       0 <= us_sessionCount us <= up_MaxSessions policy /\
       Z.of_nat (marked (w_m w)) + Z.of_nat (w_slots w) <= us_sessionCount us).

(** Subscribed channels exist and are open; groups are consistent. *)
Record channels_ok (m : Manager) : Prop := {
  co_open : forall ch, ch ∈ m_subscribers m ->
    exists q, m_channels m !! ch = Some (mkSubscription q false);
  co_groups : forall name g, m_microGroups m !! name = Some g ->
    exists min, group_ok min g;
}.

Record mgr_inv (w : World) : Prop := {
  mi_maps : maps_ok (w_m w);
  mi_discrs : discrs_ok w;
  mi_threads : threads_ok (w_m w);
  mi_slots : slots_ok w;
  mi_channels : channels_ok (w_m w);
}.
