(* ===== verification/ManagerInv.v ===== *)
(** * The manager's invariant holds in every world

    One lemma per part of the invariant and kind of step; [mgr_reachable_inv] at
    the end puts them together. *)

From S2P Require Import Prelude Packet Fsm Auth Netip Jitter Session SessionInv SessionSteps.
From S2P Require Import SessionProps SessionFrame Discriminator Micro Unsolicited Echo Manager.
From S2P Require Import ManagerSteps.
From stdpp Require Import relations.

Local Open Scope Z_scope.

(** ** Entries *)

Lemma alter_lookup_inv {A} (f : A -> A) (l : nat) (L : list A) i y :
  alter f l L !! i = Some y ->
  exists x, L !! i = Some x /\ y = (if decide (i = l) then f x else x).
Proof.
  destruct (decide (i = l)) as [->|Hne].
  - rewrite list_lookup_alter_eq. intros (x & -> & ->)%fmap_Some. by exists x.
  - rewrite list_lookup_alter_ne by done. intros ->. by exists y.
Qed.

Lemma alter_lookup {A} (f : A -> A) (l : nat) (L : list A) i x :
  L !! i = Some x -> alter f l L !! i = Some (if decide (i = l) then f x else x).
Proof.
  intros H. destruct (decide (i = l)) as [->|Hne].
  - by rewrite list_lookup_alter_eq, H.
  - by rewrite list_lookup_alter_ne.
Qed.

(** Updates that keep what the maps and the counter see of an entry. *)
Definition keeps (f : sessionEntry -> sessionEntry) (en : sessionEntry) : Prop :=
  se_key (f en) = se_key en /\ s_localDiscr (se_session (f en)) = s_localDiscr (se_session en).

Lemma maps_ok_upd_entry l f m :
  (forall en, m_entries m !! l = Some en -> keeps f en) ->
  maps_ok m -> maps_ok (upd_entry l f m).
Proof.
  intros Hf [H1 H2 H3]. constructor; cbn.
  - intros d i Hi. destruct (H1 d i Hi) as (en & He & Hd & Hk).
    exists (if decide (i = l) then f en else en). split; [by apply alter_lookup|].
    destruct (decide (i = l)) as [->|]; [|done]. destruct (Hf en He) as [-> ->]. done.
  - intros k i Hi. destruct (H2 k i Hi) as (en & He & Hk & Hd).
    exists (if decide (i = l) then f en else en). split; [by apply alter_lookup|].
    destruct (decide (i = l)) as [->|]; [|done]. destruct (Hf en He) as [-> ->]. done.
  - done.
Qed.

Lemma maps_ok_upd_echo l f m :
  (forall en, m_echoEntries m !! l = Some en ->
     es_localDiscr (ee_session (f en)) = es_localDiscr (ee_session en)) ->
  maps_ok m -> maps_ok (upd_echo_entry l f m).
Proof.
  intros Hf [H1 H2 H3]. constructor; [done|done|]. cbn. intros d i Hi.
  destruct (H3 d i Hi) as (en & He & Hd). eexists. split; [by apply alter_lookup|].
  case_decide as Hil; [subst i; rewrite Hf by done|]; done.
Qed.

(** Only the maps and entries count. *)
Lemma maps_ok_ext m m' :
  m_entries m' = m_entries m -> m_sessions m' = m_sessions m ->
  m_sessionsByPeer m' = m_sessionsByPeer m -> m_echoEntries m' = m_echoEntries m ->
  m_echoSessions m' = m_echoSessions m -> maps_ok m -> maps_ok m'.
Proof. intros E1 E2 E3 E4 E5 [H1 H2 H3]. constructor; rewrite ?E1, ?E2, ?E3, ?E4, ?E5; done. Qed.

Lemma threads_ok_upd_entry l f m :
  (forall en, m_entries m !! l = Some en -> entry_ok en -> entry_ok (f en)) ->
  threads_ok m -> threads_ok (upd_entry l f m).
Proof.
  intros Hf [H1 H2]. constructor; [|done]. cbn. intros i en (x & Hx & ->)%alter_lookup_inv.
  case_decide; subst; eauto.
Qed.

Lemma threads_ok_upd_echo l f m :
  (forall en, m_echoEntries m !! l = Some en -> echo_thread_ok (ee_thread en) ->
     echo_thread_ok (ee_thread (f en))) ->
  threads_ok m -> threads_ok (upd_echo_entry l f m).
Proof.
  intros Hf [H1 H2]. constructor; [done|]. cbn. intros i en (x & Hx & ->)%alter_lookup_inv.
  case_decide; subst; eauto.
Qed.

Lemma threads_ok_ext m m' :
  m_entries m' = m_entries m -> m_echoEntries m' = m_echoEntries m ->
  threads_ok m -> threads_ok m'.
Proof. intros E1 E2 [H1 H2]. constructor; rewrite ?E1, ?E2; done. Qed.

(** ** Sessions inside their entries *)

Lemma entry_call_session f en : se_session (entry_call f en) = f (se_session en).
Proof. unfold se_session, entry_call. by destruct (se_thread en). Qed.

Lemma ident_fields s s' :
  ident s' = ident s ->
  s_localDiscr s' = s_localDiscr s /\ s_peerAddr s' = s_peerAddr s /\
  s_localAddr s' = s_localAddr s /\ s_ifName s' = s_ifName s.
Proof. unfold ident. intros [= -> -> -> -> _ _]. done. Qed.

(** An entry whose session keeps its identity keeps its key. *)
Lemma key_matches_ident en en' :
  se_key en' = se_key en -> ident (se_session en') = ident (se_session en) ->
  key_matches en -> key_matches en'.
Proof. intros E H%ident_fields. unfold key_matches. destruct H as (_ & -> & -> & ->). by rewrite E. Qed.

Lemma entry_call_keeps f en : session_call f -> keeps (entry_call f) en.
Proof.
  intros Hf. split; [done|]. rewrite entry_call_session.
  by apply ident_fields, entry_ident, session_call_entry.
Qed.

Lemma entry_call_ok f en : session_call f -> entry_ok en -> entry_ok (entry_call f en).
Proof.
  intros Hf [Ht Hk]. split.
  - unfold entry_call. cbn [se_thread]. destruct (se_thread en) as [s|y|y]; cbn in *.
    + destruct Ht as (cfg & d & rnd & s0 & ? & ? & ? & ? & Hr). exists cfg, d, rnd, s0.
      split_and!; try done. eapply rtc_r; [exact Hr|]. by apply session_call_entry.
    + eapply reach_step; [exact Ht|]. apply step_entry. by apply session_call_entry.
    + eapply reach_step; [exact Ht|]. apply step_entry. by apply session_call_entry.
  - apply (key_matches_ident en); [done| |done]. rewrite entry_call_session.
    by apply entry_ident, session_call_entry.
Qed.

Lemma set_thread_session t en : se_session (set_thread t en) = thread_get ses t.
Proof. done. Qed.

(** The goroutine's own steps. *)
Lemma set_thread_step t en :
  session_thread_ok t -> ident (thread_get ses t) = ident (se_session en) ->
  keeps (set_thread t) en /\ (key_matches en -> entry_ok (set_thread t en)).
Proof.
  intros Ht Hi. split.
  - split; [done|]. by apply ident_fields.
  - intros Hk. split; [done|]. by apply (key_matches_ident en).
Qed.

(** A step of a session goroutine replaces the thread of one entry. *)
Definition session_goroutine_step (l : nat) (m m' : Manager) : Prop :=
  exists en t raw, m_entries m !! l = Some en /\
    m' = (let m1 := upd_entry l (set_thread t) m in {| m1 with m_rawNotifyCh := raw |}) /\
    (session_thread_ok (se_thread en) -> session_thread_ok t) /\
    ident (thread_get ses t) = ident (se_session en).

Lemma session_start_inv l e m m' : session_start l e m = Some m' -> session_goroutine_step l m m'.
Proof.
  unfold session_start. intros (en & He & H)%bind_Some.
  destruct (se_thread en) as [s|y|y] eqn:Et; try done. injection H as <-.
  eexists en, _, (m_rawNotifyCh m). split; [done|]. split; [done|]. split.
  - rewrite Et. cbn. intros (cfg & d & rnd & s0 & ? & ? & ? & ? & Hr). by eapply reach_start.
  - cbn [thread_get]. rewrite Run_start_ident. unfold se_session. by rewrite Et.
Qed.

Lemma session_turn_inv l c e m m' :
  session_turn l c e m = Some (Some m') -> session_goroutine_step l m m'.
Proof.
  unfold session_turn. intros (en & He & H)%bind_Some.
  destruct (se_thread en) as [s|y|y] eqn:Et; try done.
  apply bind_Some in H as (r & Hr & H). destruct r as [y'|]; [|done]. injection H as <-.
  eexists en, (Running y'), _. split; [done|]. split; [done|]. split.
  - rewrite Et. cbn. intros R. eapply reach_step; [exact R|]. by eapply step_turn.
  - cbn [thread_get]. rewrite (fr_ident _ _ (turn_frame _ _ _ _ Hr)). unfold se_session. by rewrite Et.
Qed.

Lemma session_stop_inv l m m' : session_stop l m = Some m' -> session_goroutine_step l m m'.
Proof.
  unfold session_stop. intros (en & He & H)%bind_Some.
  destruct (se_thread en) as [s|y|y] eqn:Et; try done. destruct (se_cancelled en); [|done].
  injection H as <-. eexists en, _, (m_rawNotifyCh m). split; [done|]. split; [done|].
  split; [by rewrite Et|]. unfold se_session. by rewrite Et.
Qed.

(** ** Echo sessions inside their entries *)

Lemma transitionTo_discr e st diag y :
  es_localDiscr (e_ses (transitionTo e st diag y)) = es_localDiscr (e_ses y).
Proof. unfold transitionTo, echo_emitNotification. by repeat case_match. Qed.

Lemma echo_rebuild_discr es es' :
  echo_rebuildCachedPacket es = Some es' -> es_localDiscr es' = es_localDiscr es.
Proof.
  unfold echo_rebuildCachedPacket. destruct (MarshalControlPacket _ _) as [[] ?]; by intros [= <-].
Qed.

Lemma echo_turn_discr c ee y y' :
  echoRunLoop_turn c ee y = Some (Some y') -> es_localDiscr (e_ses y') = es_localDiscr (e_ses y).
Proof.
  destruct c; cbn.
  - destruct (es_recvCh (e_ses y)); [done|]. intros [= <-]. unfold handleEchoRecv.
    case_match; [by rewrite transitionTo_discr|done].
  - destruct (fired _ _); [|done]. intros [= H]. apply bind_Some in H as (y1 & H & [= <-]).
    unfold sendEcho in H. apply bind_Some in H as (es & He%echo_rebuild_discr & H).
    apply bind_Some in H as (n & _ & H). destruct (_ <? _); [done|]. injection H as <-. cbn in He |- *.
    rewrite <- He. by case_match.
  - destruct (fired _ _); [|done]. intros [= <-]. unfold handleDetectTimeout. cbn.
    case_match; [by rewrite transitionTo_discr|done].
Qed.

Lemma RecvEcho_discr es : es_localDiscr (RecvEcho es) = es_localDiscr es.
Proof. unfold RecvEcho. by case_match. Qed.

Lemma NewEchoSession_discr cfg d h es : NewEchoSession cfg d h = Ok es -> es_localDiscr es = d.
Proof.
  unfold NewEchoSession. destruct (validateEchoConfig cfg d); [|done..]. cbn [mbind go_bind].
  set (es0 := mkEchoSession _ _ _ _ _ _ _ _ _ _ _ _ _ _ _ _).
  destruct (echo_rebuildCachedPacket es0) as [es1|] eqn:E; [|done]. intros [= <-].
  by apply echo_rebuild_discr in E.
Qed.

Lemma echo_call_session f en : ee_session (echo_call f en) = f (ee_session en).
Proof. unfold ee_session, echo_call. by destruct (ee_thread en). Qed.

Lemma echo_call_ok en :
  echo_thread_ok (ee_thread en) -> echo_thread_ok (ee_thread (echo_call RecvEcho en)).
Proof.
  unfold echo_call. cbn [ee_thread]. destruct (ee_thread en) as [s|y|y]; cbn.
  - intros (cfg & d & es0 & n & ? & ? & ? & ->). exists cfg, d, es0, (S n). by rewrite Nat.iter_succ.
  - intros R. eapply echo_reach_step; [exact R|apply echo_step_recv].
  - intros R. eapply echo_reach_step; [exact R|apply echo_step_recv].
Qed.

(** A step of an echo goroutine replaces the thread of one entry. *)
Definition echo_goroutine_step (l : nat) (m m' : Manager) : Prop :=
  exists en t raw, m_echoEntries m !! l = Some en /\
    m' = (let m1 := upd_echo_entry l (set_echo_thread t) m in {| m1 with m_rawNotifyCh := raw |}) /\
    (echo_thread_ok (ee_thread en) -> echo_thread_ok t) /\
    es_localDiscr (thread_get e_ses t) = es_localDiscr (ee_session en).

Lemma echo_start_inv l ee m m' : echo_start l ee m = Some m' -> echo_goroutine_step l m m'.
Proof.
  unfold echo_start. intros (en & He & H)%bind_Some.
  destruct (ee_thread en) as [s|y|y] eqn:Et; try done. injection H as <-.
  eexists en, _, (m_rawNotifyCh m). split; [done|]. split; [done|]. split.
  - rewrite Et. cbn. intros (cfg & d & es0 & n & ? & ? & ? & ->). by eapply echo_reach_start.
  - unfold ee_session. by rewrite Et.
Qed.

Lemma echo_mgr_turn_inv l c ee m m' : echo_turn l c ee m = Some (Some m') -> echo_goroutine_step l m m'.
Proof.
  unfold echo_turn. intros (en & He & H)%bind_Some.
  destruct (ee_thread en) as [s|y|y] eqn:Et; try done.
  apply bind_Some in H as (r & Hr & H). destruct r as [y'|]; [|done]. injection H as <-.
  eexists en, (Running y'), _. split; [done|]. split; [done|]. split.
  - rewrite Et. cbn. intros R. eapply echo_reach_step; [exact R|]. by eapply echo_step_turn.
  - cbn [thread_get]. rewrite (echo_turn_discr _ _ _ _ Hr). unfold ee_session. by rewrite Et.
Qed.

Lemma echo_stop_inv l m m' : echo_stop l m = Some m' -> echo_goroutine_step l m m'.
Proof.
  unfold echo_stop. intros (en & He & H)%bind_Some.
  destruct (ee_thread en) as [s|y|y] eqn:Et; try done. destruct (ee_cancelled en); [|done].
  injection H as <-. eexists en, _, (m_rawNotifyCh m). split; [done|]. split; [done|].
  split; [by rewrite Et|]. unfold ee_session. by rewrite Et.
Qed.

Lemma set_echo_thread_session t en : ee_session (set_echo_thread t en) = thread_get e_ses t.
Proof. done. Qed.

(** ** Discriminators *)

Definition owned (w : World) : list Z :=
  (map_to_list (m_sessions (w_m w))).*1 ++ (map_to_list (m_echoSessions (w_m w))).*1 ++ w_discrs w.

Lemma owned_NoDup w : discrs_ok w -> NoDup (owned w).
Proof. intros [H _]. unfold owned. rewrite H. apply NoDup_elements. Qed.

Lemma owned_elem w d : discrs_ok w -> d ∈ owned w <-> d ∈ m_discriminators (w_m w).
Proof. intros [H _]. unfold owned. rewrite H. apply elem_of_elements. Qed.

(** A held discriminator belongs to no session. *)
Lemma held_fresh m ds n d :
  discrs_ok (mkWorld m ds n) -> d ∈ ds ->
  m_sessions m !! d = None /\ m_echoSessions m !! d = None /\ 0 < d < 2 ^ 32.
Proof.
  intros D Hd. pose proof (owned_NoDup _ D) as Hnd. unfold owned in Hnd. cbn in Hnd.
  apply NoDup_app in Hnd as (_ & Hs & Hnd). apply NoDup_app in Hnd as (_ & He & _).
  split_and!.
  - destruct (m_sessions m !! d) as [l|] eqn:E; [|done]. exfalso. apply (Hs d).
    + apply list_elem_of_fmap. exists (d, l). split; [done|]. by apply elem_of_map_to_list.
    + apply elem_of_app. by right.
  - destruct (m_echoSessions m !! d) as [l|] eqn:E; [|done]. exfalso. apply (He d); [|done].
    apply list_elem_of_fmap. exists (d, l). split; [done|]. by apply elem_of_map_to_list.
  - apply (do_range _ D). apply (owned_elem _ d D). unfold owned. cbn. set_solver.
  - apply (do_range _ D). apply (owned_elem _ d D). unfold owned. cbn. set_solver.
Qed.

Lemma held_fresh_perm m ds ds' n d :
  discrs_ok (mkWorld m ds n) -> ds ≡ₚ d :: ds' ->
  m_sessions m !! d = None /\ m_echoSessions m !! d = None /\ 0 < d < 2 ^ 32.
Proof. intros D Hp. apply (held_fresh m ds n d D). rewrite Hp. left. Qed.

Lemma discrs_allocate rd d a m ds n :
  reads_ok rd -> Allocate rd (m_discriminators m) = (Ok d, a) ->
  discrs_ok (mkWorld m ds n) -> discrs_ok (mkWorld (set_discriminators a m) (d :: ds) n).
Proof.
  intros Hr (-> & Hz & Hn & Hu)%Allocate_Ok [Ho Hrg]. specialize (Hu Hr). constructor; cbn in *.
  - rewrite elements_union_singleton by done. rewrite <- Ho.
    by rewrite !app_assoc, <- Permutation_middle.
  - intros x [->%elem_of_singleton|Hx]%elem_of_union; [width_lia|auto].
Qed.

Lemma discrs_release d m ds ds' n :
  ds ≡ₚ d :: ds' -> discrs_ok (mkWorld m ds n) ->
  discrs_ok (mkWorld (set_discriminators (Release d (m_discriminators m)) m) ds' n).
Proof.
  intros Hp D. pose proof D as [Ho Hrg]. constructor; cbn in *.
  - apply (Permutation_cons_inv (a := d)). unfold Release.
    rewrite <- (elements_union_singleton (m_discriminators m ∖ {[d]}) d) by set_solver.
    replace ({[d]} ∪ m_discriminators m ∖ {[d]}) with (m_discriminators m).
    + rewrite <- Ho, Hp. by rewrite !app_assoc, <- Permutation_middle.
    + apply union_difference_singleton_L. apply (owned_elem _ d D). unfold owned. cbn.
      rewrite Hp. set_solver.
  - intros x Hx. apply Hrg. unfold Release in Hx. set_solver.
Qed.

(** A held discriminator becomes a session's. *)
Lemma discrs_register d l m ds ds' n sessions' :
  ds ≡ₚ d :: ds' -> sessions' = <[d := l]> (m_sessions m) -> discrs_ok (mkWorld m ds n) ->
  forall m', m_sessions m' = sessions' -> m_echoSessions m' = m_echoSessions m ->
    m_discriminators m' = m_discriminators m -> discrs_ok (mkWorld m' ds' n).
Proof.
  intros Hp -> D m' E1 E2 E3. destruct (held_fresh_perm _ _ _ _ _ D Hp) as (Hs & _ & _).
  destruct D as [Ho Hrg]. constructor; cbn in *; rewrite ?E1, ?E2, ?E3; [|done].
  rewrite map_to_list_insert by done. rewrite <- Ho, Hp. cbn.
  by rewrite !app_assoc, <- Permutation_middle.
Qed.

Lemma discrs_echo_register d l m ds ds' n :
  ds ≡ₚ d :: ds' -> discrs_ok (mkWorld m ds n) ->
  forall m', m_sessions m' = m_sessions m -> m_echoSessions m' = <[d := l]> (m_echoSessions m) ->
    m_discriminators m' = m_discriminators m -> discrs_ok (mkWorld m' ds' n).
Proof.
  intros Hp D m' E1 E2 E3. destruct (held_fresh_perm _ _ _ _ _ D Hp) as (_ & Hs & _).
  destruct D as [Ho Hrg]. constructor; cbn in *; rewrite ?E1, ?E2, ?E3; [|done].
  rewrite map_to_list_insert by done. rewrite <- Ho, Hp. cbn. by rewrite <- !Permutation_middle.
Qed.

(** A session's discriminator becomes held. *)
Lemma discrs_unregister d l m ds n :
  m_sessions m !! d = Some l -> discrs_ok (mkWorld m ds n) ->
  forall m' n', m_sessions m' = delete d (m_sessions m) -> m_echoSessions m' = m_echoSessions m ->
    m_discriminators m' = m_discriminators m -> discrs_ok (mkWorld m' (d :: ds) n').
Proof.
  intros Hl [Ho Hrg] m' n' E1 E2 E3. constructor; cbn in *; rewrite ?E1, ?E2, ?E3; [|done].
  rewrite <- Ho, <- (map_to_list_delete (m_sessions m) d l Hl). cbn.
  by rewrite !app_assoc, <- Permutation_middle.
Qed.

Lemma discrs_echo_unregister d l m ds n :
  m_echoSessions m !! d = Some l -> discrs_ok (mkWorld m ds n) ->
  forall m', m_sessions m' = m_sessions m -> m_echoSessions m' = delete d (m_echoSessions m) ->
    m_discriminators m' = m_discriminators m -> discrs_ok (mkWorld m' (d :: ds) n).
Proof.
  intros Hl [Ho Hrg] m' E1 E2 E3. constructor; cbn in *; rewrite ?E1, ?E2, ?E3; [|done].
  rewrite <- Ho, <- (map_to_list_delete (m_echoSessions m) d l Hl). cbn.
  by rewrite <- !Permutation_middle.
Qed.

Lemma discrs_ok_ext m m' ds n n' :
  m_sessions m' = m_sessions m -> m_echoSessions m' = m_echoSessions m ->
  m_discriminators m' = m_discriminators m ->
  discrs_ok (mkWorld m ds n) -> discrs_ok (mkWorld m' ds n').
Proof. intros E1 E2 E3 [H1 H2]. constructor; cbn in *; rewrite ?E1, ?E2, ?E3; done. Qed.

(** ** Registration and the maps *)

Lemma registerAndStart_inv key d s m l m' :
  registerAndStart key d s m = (Ok l, m') ->
  m_sessionsByPeer m !! key = None /\ l = length (m_entries m) /\
  m' = {| m with m_entries := m_entries m ++ [mkSessionEntry (Pending s) false key false];
                 m_sessions := <[d := l]> (m_sessions m);
                 m_sessionsByPeer := <[key := l]> (m_sessionsByPeer m) |}.
Proof.
  unfold registerAndStart. destruct (m_sessionsByPeer m !! key) eqn:E; [done|].
  intros [= <- <-]. done.
Qed.

Lemma unregister_inv d m l en m' :
  unregister d m = (Ok (l, en), m') ->
  m_sessions m !! d = Some l /\ m_entries m !! l = Some en /\
  m' = {| m with m_sessions := delete d (m_sessions m);
                 m_sessionsByPeer := delete (se_key en) (m_sessionsByPeer m) |}.
Proof.
  unfold unregister. destruct (m_sessions m !! d) as [l0|] eqn:E1; [|done].
  destruct (m_entries m !! l0) as [en0|] eqn:E2; [|done]. intros [= <- <- <-]. done.
Qed.

Lemma entries_lookup_app {A} (L : list A) x i y :
  L !! i = Some y -> (L ++ [x]) !! i = Some y.
Proof. intros H. by apply lookup_app_l_Some. Qed.

Lemma entries_lookup_new {A} (L : list A) x : (L ++ [x]) !! length L = Some x.
Proof. by apply list_lookup_middle. Qed.

Lemma maps_register key d s m l m' :
  m_sessions m !! d = None -> s_localDiscr s = d ->
  registerAndStart key d s m = (Ok l, m') -> maps_ok m -> maps_ok m'.
Proof.
  intros Hd Hs (Hk & -> & ->)%registerAndStart_inv [H1 H2 H3]. constructor; cbn.
  - intros d' i Hi. destruct (decide (d' = d)) as [->|Hne].
    + rewrite lookup_insert_eq in Hi. injection Hi as <-. eexists. split; [apply entries_lookup_new|].
      split; [exact Hs|]. cbn. apply lookup_insert_eq.
    + rewrite lookup_insert_ne in Hi by done. destruct (H1 d' i Hi) as (en & He & Hd' & Hp).
      exists en. split; [by apply entries_lookup_app|]. split; [done|].
      rewrite lookup_insert_ne; [done|]. intros ->. congruence.
  - intros k i Hi. destruct (decide (k = key)) as [->|Hne].
    + rewrite lookup_insert_eq in Hi. injection Hi as <-. eexists. split; [apply entries_lookup_new|].
      split; [done|]. unfold se_session. cbn. rewrite Hs. apply lookup_insert_eq.
    + rewrite lookup_insert_ne in Hi by done. destruct (H2 k i Hi) as (en & He & Hk' & Hp).
      exists en. split; [by apply entries_lookup_app|]. split; [done|].
      rewrite lookup_insert_ne; [done|]. intros E. rewrite <- E in Hp. congruence.
  - done.
Qed.

Lemma maps_unregister d m l en m' :
  unregister d m = (Ok (l, en), m') -> maps_ok m -> maps_ok m'.
Proof.
  intros (Hd & He & ->)%unregister_inv [H1 H2 H3].
  destruct (H1 d l Hd) as (en0 & He0 & Hd0 & Hp0).
  assert (en0 = en) as -> by congruence. clear He0. constructor; cbn.
  - intros d' i Hi. apply lookup_delete_Some in Hi as [Hne Hi].
    destruct (H1 d' i Hi) as (en' & He' & Hd' & Hp'). exists en'. split; [done|]. split; [done|].
    rewrite lookup_delete_ne; [done|]. intros E. rewrite <- E in Hp'.
    assert (i = l) as -> by congruence. assert (en' = en) as -> by congruence. congruence.
  - intros k i Hi. apply lookup_delete_Some in Hi as [Hne Hi].
    destruct (H2 k i Hi) as (en' & He' & Hk' & Hs'). exists en'. split; [done|]. split; [done|].
    rewrite lookup_delete_ne; [done|]. intros E. rewrite <- E in Hs'.
    assert (i = l) as -> by congruence. assert (en' = en) as -> by congruence. congruence.
  - done.
Qed.

Lemma maps_echo_register d es m m' :
  es_localDiscr es = d ->
  m' = {| m with m_echoEntries := m_echoEntries m ++ [mkEchoSessionEntry (Pending es) false];
                 m_echoSessions := <[d := length (m_echoEntries m)]> (m_echoSessions m) |} ->
  maps_ok m -> maps_ok m'.
Proof.
  intros Hd -> [H1 H2 H3]. constructor; [done|done|]. cbn. intros d' i Hi.
  destruct (decide (d' = d)) as [->|Hne].
  - rewrite lookup_insert_eq in Hi. injection Hi as <-. eexists. split; [apply entries_lookup_new|done].
  - rewrite lookup_insert_ne in Hi by done. destruct (H3 d' i Hi) as (en & He & ?).
    exists en. split; [by apply entries_lookup_app|done].
Qed.

Lemma maps_echo_delete d m :
  maps_ok m -> maps_ok {| m with m_echoSessions := delete d (m_echoSessions m) |}.
Proof.
  intros [H1 H2 H3]. constructor; [done|done|]. cbn. intros d' i [_ Hi]%lookup_delete_Some. auto.
Qed.

(** Distinct discriminators have distinct entries. *)
Lemma sessions_inj m d d' l :
  maps_ok m -> m_sessions m !! d = Some l -> m_sessions m !! d' = Some l -> d = d'.
Proof.
  intros M (en & He & Hd & _)%(mo_sessions _ M) (en' & He' & Hd' & _)%(mo_sessions _ M). congruence.
Qed.

(** ** New entries *)

Lemma threads_register cfg rnd d s m l m' :
  cfg_ok cfg -> rnd_ok rnd -> is_u32 d -> NewSession cfg d true rnd = Ok s ->
  registerAndStart (key_of cfg) d s m = (Ok l, m') -> threads_ok m -> threads_ok m'.
Proof.
  intros Hc Hr Hd Hn (_ & -> & ->)%registerAndStart_inv [H1 H2]. constructor; [|done]. cbn.
  intros i en [Hi|[_ Hi]]%lookup_app_Some; [eauto|].
  apply list_lookup_singleton_Some in Hi as [_ <-]. split.
  - exists cfg, d, rnd, s. split_and!; try done.
  - unfold key_matches, se_session. cbn. pose proof (NewSession_ident _ _ _ _ _ Hn) as Hi.
    injection Hi as _ -> -> -> _ _. done.
Qed.

Lemma threads_echo_register cfg d es m m' :
  echo_cfg_ok cfg -> is_u32 d -> NewEchoSession cfg d true = Ok es ->
  m_entries m' = m_entries m ->
  m_echoEntries m' = m_echoEntries m ++ [mkEchoSessionEntry (Pending es) false] ->
  threads_ok m -> threads_ok m'.
Proof.
  intros Hc Hd Hn E1 E2 [H1 H2]. constructor; rewrite ?E1, ?E2; [done|].
  intros i en [Hi|[_ Hi]]%lookup_app_Some; [eauto|].
  apply list_lookup_singleton_Some in Hi as [_ <-]. exists cfg, d, es, 0%nat. done.
Qed.

(** ** Slots of the unsolicited counter *)

Lemma marked_ext m m' :
  m_sessions m' = m_sessions m ->
  (forall d l, m_sessions m !! d = Some l -> entry_marked m' l = entry_marked m l) ->
  marked m' = marked m.
Proof.
  intros E H. unfold marked. rewrite E. f_equal.
  assert (Hall : forall dl, dl ∈ map_to_list (m_sessions m) -> entry_marked m' dl.2 = entry_marked m dl.2).
  { intros [d l] Hl%elem_of_map_to_list. by apply (H d). }
  revert Hall. generalize (map_to_list (m_sessions m)) as L. induction L as [|x L IH]; intros Hall; [done|].
  rewrite !filter_cons, (Hall x) by left. rewrite IH; [done|]. intros; apply Hall. by right.
Qed.

Lemma entry_marked_upd l f m i :
  (forall en, se_unsolicited (f en) = se_unsolicited en) ->
  entry_marked (upd_entry l f m) i = entry_marked m i.
Proof.
  intros Hf. unfold entry_marked. cbn. destruct (m_entries m !! i) as [en|] eqn:E.
  - rewrite (alter_lookup f l _ i en E). by case_decide.
  - destruct (alter f l (m_entries m) !! i) eqn:E2; [|done].
    apply alter_lookup_inv in E2 as (? & ? & _). congruence.
Qed.

Lemma slots_ext m m' ds ds' n n' :
  m_unsolicited m' = m_unsolicited m -> (marked m' + n' <= marked m + n)%nat ->
  slots_ok (mkWorld m ds n) -> slots_ok (mkWorld m' ds' n').
Proof.
  intros E Hle H us Hus. cbn in *. rewrite E in Hus. destruct (H us Hus) as (p & Hp & Hc).
  exists p. split; [done|]. intros Hm. destruct (Hc Hm). cbn in *. lia.
Qed.

Lemma slots_upd_entry l f m ds n :
  (forall en, se_unsolicited (f en) = se_unsolicited en) ->
  slots_ok (mkWorld m ds n) -> slots_ok (mkWorld (upd_entry l f m) ds n).
Proof.
  intros Hf. apply slots_ext; [done|].
  rewrite (marked_ext m (upd_entry l f m)); [done|done|]. intros. by apply entry_marked_upd.
Qed.

Lemma slots_register key d s m l m' ds ds' n :
  maps_ok m -> m_sessions m !! d = None ->
  registerAndStart key d s m = (Ok l, m') ->
  slots_ok (mkWorld m ds n) -> slots_ok (mkWorld m' ds' n).
Proof.
  intros M Hd (_ & -> & ->)%registerAndStart_inv. apply slots_ext; [done|].
  set (m' := mkManager _ _ _ _ _ _ _ _ _ _ _ _ _ _ _ _).
  assert (Hn : entry_marked m' (length (m_entries m)) = false).
  { unfold entry_marked, m'. cbn [m_entries]. by rewrite entries_lookup_new. }
  assert (He : marked {| m' with m_sessions := m_sessions m |} = marked m).
  { apply marked_ext; [done|]. intros d' l' (en & Hl & _)%(mo_sessions _ M).
    unfold entry_marked, m'. cbn [m_entries]. by rewrite Hl, (entries_lookup_app _ _ _ _ Hl). }
  enough (marked m' = marked {| m' with m_sessions := m_sessions m |}) by lia.
  unfold marked. cbn [m_sessions m']. rewrite (map_to_list_insert _ _ _ Hd), filter_cons.
  rewrite decide_False; [done|]. cbn [snd]. by rewrite Hn.
Qed.

Lemma slots_unregister d m l en m' ds n :
  unregister d m = (Ok (l, en), m') ->
  slots_ok (mkWorld m ds n) ->
  slots_ok (mkWorld m' (d :: ds) (if takes_slot en m then S n else n)).
Proof.
  intros (Hd & He & ->)%unregister_inv H us Hus. cbn in Hus.
  set (m' := mkManager _ _ _ _ _ _ _ _ _ _ _ _ _ _ _ _).
  assert (Hm : marked m = ((if se_unsolicited en then 1 else 0) + marked m')%nat).
  { unfold marked. rewrite <- (map_to_list_delete (m_sessions m) d l Hd), filter_cons.
    change (m_sessions m') with (delete d (m_sessions m)). cbn [snd].
    change (entry_marked m') with (entry_marked m).
    assert (Ee : entry_marked m l = se_unsolicited en) by (unfold entry_marked; by rewrite He).
    rewrite <- Ee. destruct (entry_marked m l) eqn:Eb.
    - by rewrite decide_True.
    - by rewrite decide_False. }
  unfold takes_slot. rewrite Hus, bool_decide_true by done. rewrite andb_true_r.
  destruct (H us Hus) as (p & Hp & Hc). exists p. split; [done|]. intros Hmax.
  destruct (Hc Hmax) as [Hr Hle]. split; [done|]. cbn in *. destruct (se_unsolicited en); lia.
Qed.

Lemma slots_reserve src ifn us us' m ds n :
  m_unsolicited m = Some us -> reserve src ifn us = (Ok tt, us') ->
  slots_ok (mkWorld m ds n) -> slots_ok (mkWorld (set_unsolicited (Some us') m) ds (S n)).
Proof.
  intros Hus Hr H us2 [= <-]. destruct (H us Hus) as (p & Hp & Hc).
  pose proof (reserve_cases src ifn us p (proj1 Hp)) as Hcs. rewrite Hr in Hcs.
  destruct Hcs as (_ & Hlt & ->). exists p. split; [done|]. intros Hmax.
  destruct (Hc Hmax) as [Hrg Hle]. specialize (Hlt ltac:(lia)). cbn -[Z.of_nat i32 marked] in *.
  change (marked (set_unsolicited _ m)) with (marked m).
  replace (i32 (us_sessionCount us + 1)) with (us_sessionCount us + 1) by width_lia. lia.
Qed.

Lemma slots_unreserve m ds n :
  slots_ok (mkWorld m ds (S n)) -> slots_ok (mkWorld (release_slot m) ds n).
Proof.
  intros H us2 Hus2. cbn in Hus2. apply fmap_Some in Hus2 as (us & Hus & ->).
  destruct (H us Hus) as (p & Hp & Hc). exists p.
  split; [destruct Hp; split; [unfold release; by case_match|done]|]. intros Hmax. destruct (Hc Hmax) as [Hrg Hle].
  cbn -[Z.of_nat i32 marked] in *. change (marked (release_slot m)) with (marked m).
  unfold release. destruct (us_sessionCount us =? 0) eqn:E; bools; [lia|]. cbn.
  replace (i32 (us_sessionCount us - 1)) with (us_sessionCount us - 1) by width_lia. lia.
Qed.

Lemma slots_mark d m ds n :
  maps_ok m -> slots_ok (mkWorld m ds (S n)) -> slots_ok (mkWorld (markSessionUnsolicited d m) ds n).
Proof.
  intros M. unfold markSessionUnsolicited. destruct (m_sessions m !! d) as [l|] eqn:Hl.
  2: { apply slots_ext; [done|lia]. }
  apply slots_ext; [done|]. enough (marked (upd_entry l entry_mark m) <= S (marked m))%nat by lia.
  set (m' := upd_entry l entry_mark m).
  assert (He : forall i, i <> l -> entry_marked m' i = entry_marked m i).
  { intros i Hi. unfold entry_marked, m'. cbn. by rewrite list_lookup_alter_ne. }
  assert (Hrest : marked {| m' with m_sessions := delete d (m_sessions m) |}
                  = marked {| m with m_sessions := delete d (m_sessions m) |}).
  { apply marked_ext; [done|]. cbn. intros d' i [Hne Hi]%lookup_delete_Some. apply He.
    intros ->. apply Hne. by eapply sessions_inj. }
  assert (Hm : forall mm, m_sessions mm = m_sessions m ->
    (marked {| mm with m_sessions := delete d (m_sessions m) |} <= marked mm
     <= S (marked {| mm with m_sessions := delete d (m_sessions m) |}))%nat).
  { intros mm E. unfold marked. cbn [m_sessions].
    rewrite E, <- (map_to_list_delete (m_sessions m) d l Hl), filter_cons.
    change (entry_marked {| mm with m_sessions := delete d (m_sessions m) |}) with (entry_marked mm).
    case_decide; cbn; lia. }
  pose proof (Hm m eq_refl). pose proof (Hm m' eq_refl). lia.
Qed.

(** ** Channels, groups and dispatch *)

(** What the dispatcher does not touch. *)
Record aside (m m' : Manager) : Prop := {
  as_entries : m_entries m' = m_entries m;
  as_sessions : m_sessions m' = m_sessions m;
  as_peers : m_sessionsByPeer m' = m_sessionsByPeer m;
  as_echoEntries : m_echoEntries m' = m_echoEntries m;
  as_echo : m_echoSessions m' = m_echoSessions m;
  as_discrs : m_discriminators m' = m_discriminators m;
  as_unsolicited : m_unsolicited m' = m_unsolicited m;
  as_subs : m_subscribers m' = m_subscribers m;
}.

Lemma aside_refl m : aside m m.
Proof. by constructor. Qed.

Lemma aside_trans m1 m2 m3 : aside m1 m2 -> aside m2 m3 -> aside m1 m3.
Proof. intros [] []. constructor; congruence. Qed.

(** A new content for an open channel. *)
Lemma channels_set ch q m :
  channels_ok m -> is_Some (m_channels m !! ch) ->
  channels_ok {| m with m_channels := <[ch := mkSubscription q false]> (m_channels m) |}.
Proof.
  intros [Ho Hg] [x Hx]. constructor; [|done]. cbn. intros c Hc. destruct (decide (c = ch)) as [->|Hne].
  - exists q. apply list_lookup_insert_eq. by apply lookup_lt_Some in Hx.
  - rewrite list_lookup_insert_ne by done. by apply Ho.
Qed.

Lemma offer_ok sc ch m :
  channels_ok m -> ch ∈ m_subscribers m ->
  exists m', offer sc ch m = Some m' /\ aside m m' /\ channels_ok m'.
Proof.
  intros C Hch. destruct (co_open _ C ch Hch) as [q Hq]. unfold offer. rewrite Hq. cbn.
  case_bool_decide; eexists; (split; [done|]); split; try done.
  apply channels_set; [done|]. by eexists.
Qed.

Lemma offer_all_ok sc chs m :
  channels_ok m -> (forall ch, ch ∈ chs -> ch ∈ m_subscribers m) ->
  exists m', offer_all sc chs m = Some m' /\ aside m m' /\ channels_ok m'.
Proof.
  revert m. induction chs as [|ch chs IH]; intros m C Hs; cbn; [by exists m|].
  destruct (offer_ok sc ch m C) as (m1 & -> & A1 & C1); [apply Hs; left|]. cbn.
  destruct (IH m1 C1) as (m2 & -> & A2 & C2).
  { intros c Hc. rewrite (as_subs _ _ A1). apply Hs. by right. }
  exists m2. split; [done|]. split; [by eapply aside_trans|done].
Qed.

Lemma group_update_ok k st d g min :
  group_ok min g -> group_ok min (UpdateMemberState k st d g).2.
Proof.
  intros G. destruct (micro_apply_refines min (OpUpdate k st d) g G) as (g' & E & _ & G').
  cbn [micro_apply] in E. by rewrite E.
Qed.

Lemma dispatch_groups_ok sc gs m :
  (forall name g, (name, g) ∈ gs -> exists min, group_ok min g) -> channels_ok m ->
  aside m (dispatch_groups sc gs m) /\ channels_ok (dispatch_groups sc gs m).
Proof.
  intros Hg C. induction gs as [|[name g] gs IH]; cbn; [done|].
  destruct (Hg name g ltac:(left)) as (min & G).
  pose proof (group_update_ok (sc_Interface sc) (sc_NewState sc) (sc_LocalDiscr sc) g min G) as G'.
  destruct (UpdateMemberState _ _ _ g) as [[ch|e|] g']; cbn in G';
    try (apply IH; intros; apply (Hg name0); by right).
  unfold handleMicroBFDActuator. cbn.
  assert (C' : channels_ok {| m with m_microGroups := <[name := g']> (m_microGroups m) |}).
  { destruct C as [Ho Hgr]. constructor; [done|]. cbn. intros nm g2.
    destruct (decide (nm = name)) as [->|Hne].
    - rewrite lookup_insert_eq. intros [= <-]. by exists min.
    - rewrite lookup_insert_ne by done. apply Hgr. }
  destruct (negb (m_hasMicroActuator m)); [done|]. split; [done|]. destruct C'. by constructor.
Qed.

Lemma dispatchMicroBFD_ok sc ord m :
  (forall l, ord l ≡ₚ l) -> channels_ok m ->
  aside m (dispatchMicroBFD sc ord m) /\ channels_ok (dispatchMicroBFD sc ord m).
Proof.
  intros Ho C. apply dispatch_groups_ok; [|done]. intros name g. rewrite Ho.
  intros Hg%elem_of_map_to_list. by apply (co_groups _ C name).
Qed.

Lemma schedule_ok t sc m :
  (forall us, m_unsolicited m = Some us -> is_Some (us_policy us)) -> channels_ok m ->
  exists m', scheduleUnsolicitedCleanup t sc m = Some m' /\ aside m m' /\ channels_ok m'.
Proof.
  intros Hp C. unfold scheduleUnsolicitedCleanup.
  destruct (m_unsolicited m) as [us|] eqn:Hus; [|by exists m].
  destruct (negb _); [by exists m|]. destruct (Hp us eq_refl) as [p ->]. cbn [mbind option_bind].
  eexists. split; [reflexivity|]. split; [by constructor|]. destruct C. by constructor.
Qed.

Lemma slots_policy m ds n us :
  slots_ok (mkWorld m ds n) -> m_unsolicited m = Some us -> is_Some (us_policy us).
Proof. intros H Hus. destruct (H us Hus) as (p & [Hp _] & _). by exists p. Qed.

(** The dispatcher never panics and leaves the sessions alone. *)
Lemma RunDispatch_turn_ok t ordg ords m :
  (forall l, ordg l ≡ₚ l) -> (forall l, ords l ≡ₚ l) ->
  (forall us, m_unsolicited m = Some us -> is_Some (us_policy us)) -> channels_ok m ->
  exists m', RunDispatch_turn t ordg ords m = Some m' /\ aside m m' /\ channels_ok m'.
Proof.
  intros Hog Hos Hp C. unfold RunDispatch_turn. destruct (m_rawNotifyCh m) as [|sc rest]; [by exists m|].
  set (m1 := {| m with m_rawNotifyCh := rest |}).
  assert (C1 : channels_ok m1) by (destruct C; by constructor).
  set (m2 := if _ : bool then dispatchMicroBFD sc ordg m1 else m1).
  assert (H2 : aside m1 m2 /\ channels_ok m2).
  { unfold m2. destruct (_ && _); [by apply dispatchMicroBFD_ok|done]. }
  destruct H2 as [A2 C2].
  assert (H3 : exists m3, (if sc_NewState sc =? StateDown then scheduleUnsolicitedCleanup t sc m2
                           else Some m2) = Some m3 /\ aside m2 m3 /\ channels_ok m3).
  { destruct (sc_NewState sc =? StateDown); [|by exists m2]. apply schedule_ok; [|done].
    rewrite (as_unsolicited _ _ A2). exact Hp. }
  destruct H3 as (m3 & -> & A3 & C3). cbn [mbind option_bind].
  destruct (offer_all_ok sc (ords (elements (m_subscribers m3))) m3 C3) as (m4 & E4 & A4 & C4).
  { intros ch. rewrite Hos. by rewrite elem_of_elements. }
  unfold broadcastStateChange. rewrite E4. cbn [mbind option_bind].
  eexists. split; [done|].
  assert (A : aside m m4).
  { eapply aside_trans; [|exact A4]. eapply aside_trans; [|exact A3].
    eapply aside_trans; [|exact A2]. by constructor. }
  case_bool_decide; [|done]. split; [by destruct A; constructor|by destruct C4; constructor].
Qed.

Lemma inv_aside m m' ds n :
  aside m m' -> channels_ok m' -> mgr_inv (mkWorld m ds n) -> mgr_inv (mkWorld m' ds n).
Proof.
  intros [] C [M D T S _]. constructor; cbn in *; [| | | |done].
  - by apply (maps_ok_ext m).
  - by apply (discrs_ok_ext m _ ds n).
  - by apply (threads_ok_ext m).
  - apply (slots_ext m _ ds _ n); [done| |done]. rewrite (marked_ext m m'); [done|done|].
    intros. unfold entry_marked. by rewrite as_entries0.
Qed.

(** ** Subscribing, unsubscribing and closing *)

Lemma subscribe_ok m :
  channels_ok m -> channels_ok (SubscribeStateChanges m).2.
Proof.
  intros [Ho Hg]. constructor; [|done]. cbn. intros ch [->%elem_of_singleton|Hc]%elem_of_union.
  - exists []. apply entries_lookup_new.
  - destruct (Ho ch Hc) as [q Hq]. exists q. by apply entries_lookup_app.
Qed.

(** Closing an open channel changes nothing else. *)
Lemma close_channel_ok ch m q :
  m_channels m !! ch = Some (mkSubscription q false) ->
  close_channel ch m =
  Some {| m with m_channels := <[ch := mkSubscription q true]> (m_channels m) |}.
Proof. intros H. unfold close_channel. by rewrite H. Qed.

Lemma unsubscribe_ok ch m :
  channels_ok m ->
  exists m', unsubscribe ch m = Some m' /\ channels_ok m' /\
    exists cs subs, m' = {| m with m_channels := cs; m_subscribers := subs |}.
Proof.
  intros C. pose proof C as [Ho Hg]. unfold unsubscribe. case_bool_decide as Hc.
  - destruct (Ho ch Hc) as [q Hq]. rewrite (close_channel_ok ch _ q) by exact Hq.
    eexists. split; [done|]. split; [|by eexists _, _]. constructor; [|done]. cbn.
    intros c [Hin Hne%not_elem_of_singleton]%elem_of_difference.
    rewrite list_lookup_insert_ne by done. by apply Ho.
  - exists m. split; [done|]. split; [done|].
    exists (m_channels m), (m_subscribers m). by destruct m.
Qed.

Lemma close_all_ok chs m :
  NoDup chs -> (forall ch, ch ∈ chs -> exists q, m_channels m !! ch = Some (mkSubscription q false)) ->
  exists cs, close_all chs m = Some {| m with m_channels := cs |} /\
    (forall ch, ch ∉ chs -> cs !! ch = m_channels m !! ch).
Proof.
  intros Hnd. induction Hnd as [|ch chs Hn Hnd IH]; intros Ho; cbn.
  - exists (m_channels m). by destruct m.
  - destruct IH as (cs & E & Hcs); [intros; apply Ho; by right|].
    unfold close_all in E. rewrite E. cbn [mbind option_bind].
    destruct (Ho ch ltac:(left)) as [q Hq].
    rewrite (close_channel_ok ch _ q) by (cbn; rewrite Hcs by done; done).
    eexists. split; [reflexivity|]. intros c Hc. rewrite not_elem_of_cons in Hc. destruct Hc as [H1 H2].
    rewrite list_lookup_insert_ne by done. by apply Hcs.
Qed.

(** Cancelling keeps entries as they are for the invariant. *)
Lemma entry_cancel_keeps en : keeps entry_cancel en.
Proof. done. Qed.

Lemma entry_cancel_ok en : entry_ok en -> entry_ok (entry_cancel en).
Proof. intros [Ht Hk]. by split. Qed.

Lemma threads_cancel l m : threads_ok m -> threads_ok (upd_entry l entry_cancel m).
Proof. apply threads_ok_upd_entry. intros en _. apply entry_cancel_ok. Qed.

(** What the two loops of [Close] do. *)
Definition close_session (m : Manager) (dl : Z * nat) : Manager :=
  let m := upd_entry dl.2 entry_cancel m in
  set_discriminators (Release dl.1 (m_discriminators m)) m.

Definition close_echo (m : Manager) (dl : Z * nat) : Manager :=
  let m := upd_echo_entry dl.2 cancel_echo m in
  set_discriminators (Release dl.1 (m_discriminators m)) m.

Record closing (L : list (Z * nat)) (m m' : Manager) : Prop := {
  cg_threads : threads_ok m -> threads_ok m';
  cg_discrs : m_discriminators m' = m_discriminators m ∖ list_to_set L.*1;
  cg_sessions : m_sessions m' = m_sessions m;
  cg_echo : m_echoSessions m' = m_echoSessions m;
  cg_unsolicited : m_unsolicited m' = m_unsolicited m;
  cg_channels : m_channels m' = m_channels m;
  cg_subscribers : m_subscribers m' = m_subscribers m;
}.

Lemma closing_step f L m :
  (forall m x, closing [x] m (f m x)) -> closing L m (fold_left f L m).
Proof.
  intros Hf. revert m. induction L as [|x L IH]; intros m; cbn.
  - constructor; try done. cbn. set_solver.
  - destruct (Hf m x) as [? E1 E2 E3 E4 E5 E6], (IH (f m x)) as [? F1 F2 F3 F4 F5 F6].
    constructor; [auto|..]; try congruence. rewrite F1, E1. cbn. set_solver.
Qed.

Lemma close_session_step m x : closing [x] m (close_session m x).
Proof.
  constructor; try done.
  - intros T. by apply (threads_ok_ext (upd_entry x.2 entry_cancel m)), threads_cancel.
  - cbn. unfold Release. set_solver.
Qed.

Lemma close_echo_step m x : closing [x] m (close_echo m x).
Proof.
  constructor; try done.
  - intros T. apply (threads_ok_ext (upd_echo_entry x.2 cancel_echo m)); [done|done|].
    by apply threads_ok_upd_echo.
  - cbn. unfold Release. set_solver.
Qed.

(** [Close] never panics; afterwards nothing is registered, and only the
    discriminators held by calls in progress are allocated. *)
Lemma Close_ok ords orde m ds n :
  (forall l, ords l ≡ₚ l) -> (forall l, orde l ≡ₚ l) -> mgr_inv (mkWorld m ds n) ->
  exists m', Close ords orde m = Some m' /\ mgr_inv (mkWorld m' ds n) /\
    m_sessions m' = ∅ /\ m_sessionsByPeer m' = ∅ /\ m_echoSessions m' = ∅ /\
    m_unsolicited m' = m_unsolicited m.
Proof.
  intros Hs He [M D T S C]. unfold Close. fold cancel_echo.
  change (fold_left _ (ords (map_to_list (m_sessions m))) m)
    with (fold_left close_session (ords (map_to_list (m_sessions m))) m).
  set (m1 := fold_left close_session _ m).
  change (fold_left _ (orde (map_to_list (m_echoSessions m1))) m1)
    with (fold_left close_echo (orde (map_to_list (m_echoSessions m1))) m1).
  set (m2 := fold_left close_echo _ m1).
  pose proof (closing_step close_session (ords (map_to_list (m_sessions m))) m close_session_step)
    as [T1 D1 S1 E1 U1 C1 B1]. fold m1 in T1, D1, S1, E1, U1, C1, B1.
  pose proof (closing_step close_echo (orde (map_to_list (m_echoSessions m1))) m1 close_echo_step)
    as [T2 D2 S2 E2 U2 C2 B2]. fold m2 in T2, D2, S2, E2, U2, C2, B2.
  set (m3 := mkManager _ _ _ _ _ _ _ _ _ _ _ _ _ _ _ _).
  destruct (close_all_ok (elements (m_subscribers m3)) m3) as (cs & -> & _).
  { apply NoDup_elements. }
  { intros ch. rewrite elem_of_elements. cbn. rewrite B2, B1, C2, C1. apply (co_open _ C). }
  cbn [mbind option_bind]. eexists. split; [reflexivity|].
  split; [|split_and!; [done|done|done|cbn; by rewrite U2, U1]].
  constructor; cbn -[m3].
  - by constructor.
  - constructor; cbn.
    + rewrite !map_to_list_empty. cbn.
      pose proof (owned_NoDup _ D) as Hnd. pose proof (fun d => owned_elem _ d D) as Hel.
      unfold owned in Hnd, Hel. cbn in Hnd, Hel.
      apply NoDup_app in Hnd as (_ & Hs1 & Hnd). apply NoDup_app in Hnd as (_ & Hs2 & Hnd).
      apply NoDup_Permutation; [done|apply NoDup_elements|]. intros d.
      rewrite elem_of_elements, D2, D1, E1, !elem_of_difference, !elem_of_list_to_set.
      rewrite (Hs (map_to_list (m_sessions m))), (He (map_to_list (m_echoSessions m))).
      rewrite <- Hel, !elem_of_app.
      assert (d ∈ ds -> d ∉ (map_to_list (m_sessions m)).*1).
      { intros Hd HA. apply (Hs1 d HA), elem_of_app. by right. }
      assert (d ∈ ds -> d ∉ (map_to_list (m_echoSessions m)).*1) by (intros Hd HB; by apply (Hs2 d HB)).
      tauto.
    + intros d. rewrite D2, D1. intros [[Hd _]%elem_of_difference _]%elem_of_difference.
      by apply (do_range _ D).
  - by apply (threads_ok_ext m2), T2, T1.
  - apply (slots_ext m _ ds _ n); [cbn; by rewrite U2, U1| |done].
    unfold marked. cbn. rewrite map_to_list_empty. cbn. lia.
  - constructor; cbn; [intros ch Hc; set_solver|intros name g Hg; by rewrite lookup_empty in Hg].
Qed.

(** ** Every step keeps the invariant *)

Lemma channels_ok_ext m m' :
  m_channels m' = m_channels m -> m_subscribers m' = m_subscribers m ->
  m_microGroups m' = m_microGroups m -> channels_ok m -> channels_ok m'.
Proof. intros E1 E2 E3 [H1 H2]. constructor; rewrite ?E1, ?E2, ?E3; done. Qed.

(** An update of one entry that keeps what the invariant sees. *)
Lemma inv_upd_entry l f m ds n :
  (forall en, m_entries m !! l = Some en -> keeps f en /\ (entry_ok en -> entry_ok (f en))) ->
  (forall en, se_unsolicited (f en) = se_unsolicited en) ->
  mgr_inv (mkWorld m ds n) -> mgr_inv (mkWorld (upd_entry l f m) ds n).
Proof.
  intros Hf Hu [M D T S C]. constructor; cbn in *.
  - apply maps_ok_upd_entry; [|done]. intros en He. by apply Hf.
  - by apply (discrs_ok_ext m _ ds n).
  - apply threads_ok_upd_entry; [|done]. intros en He. by apply Hf.
  - by apply slots_upd_entry.
  - by apply (channels_ok_ext m).
Qed.

Lemma inv_upd_echo l f m ds n :
  (forall en, m_echoEntries m !! l = Some en ->
     es_localDiscr (ee_session (f en)) = es_localDiscr (ee_session en) /\
     (echo_thread_ok (ee_thread en) -> echo_thread_ok (ee_thread (f en)))) ->
  mgr_inv (mkWorld m ds n) -> mgr_inv (mkWorld (upd_echo_entry l f m) ds n).
Proof.
  intros Hf [M D T S C]. constructor; cbn in *.
  - apply maps_ok_upd_echo; [|done]. intros en He. by apply Hf.
  - by apply (discrs_ok_ext m _ ds n).
  - apply threads_ok_upd_echo; [|done]. intros en He. by apply Hf.
  - by apply (slots_ext m _ ds _ n).
  - by apply (channels_ok_ext m).
Qed.

Lemma inv_raw raw m ds n :
  mgr_inv (mkWorld m ds n) -> mgr_inv (mkWorld {| m with m_rawNotifyCh := raw |} ds n).
Proof.
  intros I. apply (inv_aside m); [by constructor| |done].
  apply (channels_ok_ext m); [done..|]. apply (mi_channels _ I).
Qed.

Lemma inv_session_goroutine l m m' ds n :
  session_goroutine_step l m m' -> mgr_inv (mkWorld m ds n) -> mgr_inv (mkWorld m' ds n).
Proof.
  intros (en & t & raw & He & -> & Ht & Hi) I. apply inv_raw, inv_upd_entry; [|done|done].
  intros en' He'. assert (en' = en) as -> by congruence.
  destruct (to_entry _ (mi_threads _ I) l en He) as [Hok Hk].
  destruct (set_thread_step t en (Ht Hok) Hi). auto.
Qed.

Lemma inv_echo_goroutine l m m' ds n :
  echo_goroutine_step l m m' -> mgr_inv (mkWorld m ds n) -> mgr_inv (mkWorld m' ds n).
Proof.
  intros (en & t & raw & He & -> & Ht & Hi) I. apply inv_raw, inv_upd_echo; [|done].
  intros en' He'. assert (en' = en) as -> by congruence. done.
Qed.

Lemma inv_mark d m ds n :
  mgr_inv (mkWorld m ds (S n)) -> mgr_inv (mkWorld (markSessionUnsolicited d m) ds n).
Proof.
  intros [M D T S C]. pose proof (slots_mark d m ds n M S) as S'.
  unfold markSessionUnsolicited in *. destruct (m_sessions m !! d) as [l|].
  - constructor; cbn in *; [|by apply (discrs_ok_ext m _ ds (Datatypes.S n))| |done|by apply (channels_ok_ext m)].
    + by apply maps_ok_upd_entry.
    + apply threads_ok_upd_entry; [|done]. intros en _ [? ?]. by split.
  - constructor; [done| |done|done|done]. by apply (discrs_ok_ext m _ ds (Datatypes.S n)).
Qed.

Lemma groups_ok_create cfg m : channels_ok m -> channels_ok (CreateMicroBFDGroup cfg m).2.
Proof.
  intros C. unfold CreateMicroBFDGroup. destruct (m_microGroups m !! _); [done|].
  destruct (NewMicroBFDGroup cfg) as [g|e|] eqn:E; [|done..].
  apply NewMicroBFDGroup_ok in E as (_ & _ & G). destruct C as [Ho Hg]. constructor; [done|]. cbn.
  intros name g'. destruct (decide (name = mc_LAGInterface cfg)) as [->|Hne].
  - rewrite lookup_insert_eq. intros [= <-]. by eexists.
  - rewrite lookup_insert_ne by done. apply Hg.
Qed.

Lemma groups_ok_destroy lag m : channels_ok m -> channels_ok (DestroyMicroBFDGroup lag m).2.
Proof.
  intros C. unfold DestroyMicroBFDGroup. destruct (m_microGroups m !! lag); [|done].
  destruct C as [Ho Hg]. constructor; [done|]. cbn. intros name g [_ Hl]%lookup_delete_Some. by apply (Hg name).
Qed.

Ltac wcbn := cbn [w_m w_discrs w_slots] in *.

(** A step that changes only the accounts: the allocator, the counter and what the
    calls in progress hold. *)
Lemma inv_accounts m m' ds ds' n n' :
  m_entries m' = m_entries m -> m_sessions m' = m_sessions m ->
  m_sessionsByPeer m' = m_sessionsByPeer m -> m_echoEntries m' = m_echoEntries m ->
  m_echoSessions m' = m_echoSessions m -> m_microGroups m' = m_microGroups m ->
  m_channels m' = m_channels m -> m_subscribers m' = m_subscribers m ->
  mgr_inv (mkWorld m ds n) -> discrs_ok (mkWorld m' ds' n') -> slots_ok (mkWorld m' ds' n') ->
  mgr_inv (mkWorld m' ds' n').
Proof.
  intros E1 E2 E3 E4 E5 E6 E7 E8 [M D T S C] D' S'. constructor; wcbn.
  - by apply (maps_ok_ext m).
  - exact D'.
  - by apply (threads_ok_ext m).
  - exact S'.
  - by apply (channels_ok_ext m).
Qed.

Lemma inv_register cfg rnd d s m m' l ds ds' n :
  ds ≡ₚ d :: ds' -> cfg_ok cfg -> rnd_ok rnd -> NewSession cfg d true rnd = Ok s ->
  registerAndStart (key_of cfg) d s m = (Ok l, m') ->
  mgr_inv (mkWorld m ds n) -> mgr_inv (mkWorld m' ds' n).
Proof.
  intros Hp Hc Hr Hn Hreg [M D T S C]. wcbn.
  destruct (held_fresh_perm _ _ _ _ _ D Hp) as (Hf & _ & Hrg).
  pose proof (NewSession_ident _ _ _ _ _ Hn) as Hid. pose proof Hreg as Hinv.
  apply registerAndStart_inv in Hinv as (_ & -> & Em).
  assert (is_u32 d) by width_lia. constructor; wcbn.
  - eapply maps_register; [exact Hf| |exact Hreg|done]. by injection Hid.
  - apply (discrs_register d (length (m_entries m)) m ds ds' n _ Hp eq_refl D); by subst m'.
  - by eapply threads_register.
  - by eapply slots_register.
  - subst m'. by apply (channels_ok_ext m).
Qed.

Lemma inv_unregister d l en m m' ds n :
  unregister d m = (Ok (l, en), m') -> mgr_inv (mkWorld m ds n) ->
  mgr_inv (mkWorld m' (d :: ds) (if takes_slot en m then S n else n)).
Proof.
  intros Hu [M D T S C]. wcbn. pose proof Hu as Hinv.
  apply unregister_inv in Hinv as (Hd & He & Em). constructor; wcbn.
  - by eapply maps_unregister.
  - apply (discrs_unregister d l m ds n Hd D); by subst m'.
  - subst m'. by apply (threads_ok_ext m).
  - by eapply slots_unregister.
  - subst m'. by apply (channels_ok_ext m).
Qed.

Lemma inv_echo_register cfg d es m ds ds' n :
  ds ≡ₚ d :: ds' -> echo_cfg_ok cfg -> NewEchoSession cfg d true = Ok es ->
  mgr_inv (mkWorld m ds n) ->
  mgr_inv (mkWorld {| m with
    m_echoEntries := m_echoEntries m ++ [mkEchoSessionEntry (Pending es) false];
    m_echoSessions := <[d := length (m_echoEntries m)]> (m_echoSessions m) |} ds' n).
Proof.
  intros Hp Hc Hn [M D T S C]. wcbn.
  destruct (held_fresh_perm _ _ _ _ _ D Hp) as (_ & Hf & Hr). constructor; wcbn.
  - eapply maps_echo_register; [by eapply NewEchoSession_discr|done|done].
  - by eapply (discrs_echo_register d _ m ds ds' n Hp D).
  - eapply (threads_echo_register cfg d es m); [done|width_lia|done..].
  - by apply (slots_ext m _ ds _ n).
  - by apply (channels_ok_ext m).
Qed.

Lemma inv_echo_unregister d l m ds n :
  m_echoSessions m !! d = Some l -> mgr_inv (mkWorld m ds n) ->
  mgr_inv (mkWorld {| m with m_echoSessions := delete d (m_echoSessions m) |} (d :: ds) n).
Proof.
  intros Hl [M D T S C]. wcbn. constructor; wcbn.
  - by apply maps_echo_delete.
  - by eapply (discrs_echo_unregister d l m ds n Hl D).
  - by apply (threads_ok_ext m).
  - by apply (slots_ext m _ ds _ n).
  - by apply (channels_ok_ext m).
Qed.

Lemma inv_subscriptions cs subs m ds n :
  mgr_inv (mkWorld m ds n) -> channels_ok {| m with m_channels := cs; m_subscribers := subs |} ->
  mgr_inv (mkWorld {| m with m_channels := cs; m_subscribers := subs |} ds n).
Proof.
  intros [M D T S _] C. wcbn. constructor; wcbn.
  - by apply (maps_ok_ext m).
  - by apply (discrs_ok_ext m _ ds n).
  - by apply (threads_ok_ext m).
  - exact S.
  - exact C.
Qed.

Lemma mgr_step_inv w w' : mgr_step w w' -> mgr_inv w -> mgr_inv w'.
Proof.
  intros Hs I. destruct Hs.
  - apply (inv_accounts m _ ds _ n); [done..| |exact (mi_slots _ I)].
    eapply discrs_allocate; [done|done|]. apply (mi_discrs _ I).
  - apply (inv_accounts m _ ds _ n); [done..| |exact (mi_slots _ I)].
    apply (discrs_release d _ ds); [done|]. apply (mi_discrs _ I).
  - by eapply inv_register.
  - by eapply inv_unregister.
  - apply inv_upd_entry; [|done|done]. intros en _. split; [done|apply entry_cancel_ok].
  - apply (inv_accounts m _ ds _ n); [done..|by apply (discrs_ok_ext m _ ds n), (mi_discrs _ I)|].
    eapply slots_reserve; [done|done|]. apply (mi_slots _ I).
  - apply (inv_accounts m _ ds _ (S n)); [done..|by apply (discrs_ok_ext m _ ds (S n)), (mi_discrs _ I)|].
    apply slots_unreserve, (mi_slots _ I).
  - by apply inv_mark.
  - apply inv_upd_entry; [|done|done]. intros en _. split; [by apply entry_call_keeps|by apply entry_call_ok].
  - eapply inv_session_goroutine; [by eapply session_start_inv|done].
  - eapply inv_session_goroutine; [by eapply session_turn_inv|done].
  - eapply inv_session_goroutine; [by eapply session_stop_inv|done].
  - by eapply inv_echo_register.
  - by eapply inv_echo_unregister.
  - by apply inv_upd_echo.
  - apply inv_upd_echo; [|done]. intros en _. rewrite echo_call_session, RecvEcho_discr.
    split; [done|apply echo_call_ok].
  - eapply inv_echo_goroutine; [by eapply echo_start_inv|done].
  - eapply inv_echo_goroutine; [by eapply echo_mgr_turn_inv|done].
  - eapply inv_echo_goroutine; [by eapply echo_stop_inv|done].
  - apply (inv_aside m); [|apply groups_ok_create, (mi_channels _ I)|done].
    unfold CreateMicroBFDGroup. repeat case_match; done.
  - apply (inv_aside m); [|apply groups_ok_destroy, (mi_channels _ I)|done].
    unfold DestroyMicroBFDGroup. repeat case_match; done.
  - destruct (RunDispatch_turn_ok t ordg ords m H H0) as (m2 & E & A & C).
    { intros us. apply (slots_policy m ds n). apply (mi_slots _ I). }
    { apply (mi_channels _ I). }
    assert (m2 = m') as -> by congruence. by apply (inv_aside m).
  - apply (inv_aside m); [by constructor|by apply (channels_ok_ext m), (mi_channels _ I)|done].
  - apply inv_subscriptions; [done|]. apply (subscribe_ok m), (mi_channels _ I).
  - destruct (unsubscribe_ok ch m (mi_channels _ I)) as (m2 & E & C2 & cs & subs & ->).
    assert (m' = {| m with m_channels := cs; m_subscribers := subs |}) as -> by congruence.
    by apply inv_subscriptions.
  - apply (inv_aside m); [by constructor|by apply (channels_ok_ext m), (mi_channels _ I)|done].
  - apply (inv_aside m); [by constructor| |done]. destruct (mi_channels _ I) as [Ho Hg].
    constructor; [|done]. cbn. intros c Hc. destruct (Ho c Hc) as [q Hq].
    exists (if decide (c = ch) then tail q else q). rewrite (alter_lookup _ ch _ c _ Hq).
    by case_decide.
  - destruct (Close_ok ords orde m ds n H H0 I) as (m2 & E & I2 & _). congruence.
Qed.

Lemma mgr_inv_new policy hs ha :
  (forall p, policy = Some p -> policy_ok p) -> mgr_inv (mkWorld (NewManager policy hs ha) [] 0).
Proof.
  intros Hok. constructor; cbn.
  - constructor; cbn; intros ? ? H; by rewrite lookup_empty in H.
  - constructor; cbn; [|set_solver]. rewrite !map_to_list_empty. cbn.
    unfold NewDiscriminatorAllocator. by rewrite elements_empty.
  - constructor; cbn; intros ? ? H; by rewrite lookup_nil in H.
  - intros us Hus. cbn in Hus. destruct policy as [p|]; [|done].
    destruct (up_Enabled p); [|done]. injection Hus as <-. exists p. split; [by auto|]. intros Hm.
    unfold marked. cbn. rewrite map_to_list_empty. cbn. lia.
  - constructor; cbn; [set_solver|]. intros ? ? H. by rewrite lookup_empty in H.
Qed.

Lemma mgr_reachable_inv w : mgr_reachable w -> mgr_inv w.
Proof.
  intros (policy & hs & ha & Hok & Hr). pose proof (mgr_inv_new policy hs ha Hok) as I. revert I.
  induction Hr as [|w1 w2 w3 H12 _ IH]; [done|]. intros I. apply IH. by eapply mgr_step_inv.
Qed.
