(* ===== verification/ManagerOps.v ===== *)
(** * The manager's methods, case by case

    What [CreateSession], [DestroySession] and the demultiplexer return and how
    they change the manager, and that each is a sequence of the steps of
    [ManagerSteps]; so whatever holds of all worlds holds after any calls. *)

From S2P Require Import Prelude Packet Fsm Auth Netip Jitter Session SessionInv SessionSteps.
From S2P Require Import SessionProps SessionFrame Discriminator Micro Unsolicited Echo Manager.
From S2P Require Import ManagerSteps ManagerInv.
From stdpp Require Import relations.

Local Open Scope Z_scope.

(** The random inputs of a creation: bytes. *)
Definition input_ok (ci : CreateInput) : Prop := reads_ok (ci_reads ci) /\ rnd_ok (ci_rnd ci).

(** ** Creation *)

(** The manager with one more session. *)
Definition with_session (key : sessionKey) (d : Z) (s : Session) (m : Manager) : Manager :=
  let l := length (m_entries m) in
  {| m with m_entries := m_entries m ++ [mkSessionEntry (Pending s) false key false];
            m_sessions := <[d := l]> (m_sessions m);
            m_sessionsByPeer := <[key := l]> (m_sessionsByPeer m);
            m_discriminators := {[d]} ∪ m_discriminators m |}.

Lemma set_discriminators_id m : set_discriminators (m_discriminators m) m = m.
Proof. by destruct m. Qed.

(** A session was created, with discriminator [d] and initial state [s]. *)
Definition created (cfg : SessionConfig) (ci : CreateInput) (m : Manager) (d : Z) (s : Session) : Prop :=
  Addr_IsValid (cfg_PeerAddr cfg) = true /\ m_sessionsByPeer m !! key_of cfg = None /\
  (exists a, Allocate (ci_reads ci) (m_discriminators m) = (Ok d, a)) /\
  NewSession cfg d true (ci_rnd ci) = Ok s.

(** Why a creation fails. *)
Definition create_refused (cfg : SessionConfig) (ci : CreateInput) (m : Manager) (e : mgr_error) : Prop :=
  (e = ErrInvalidPeerAddr /\ Addr_IsValid (cfg_PeerAddr cfg) = false) \/
  (e = ErrDuplicateSession /\ is_Some (m_sessionsByPeer m !! key_of cfg)) \/
  (exists ea, e = ErrMgrAlloc ea /\ exists a, Allocate (ci_reads ci) (m_discriminators m) = (Err ea, a)) \/
  (exists es d, e = ErrMgrSession es /\ NewSession cfg d true (ci_rnd ci) = Err es /\
     exists a, Allocate (ci_reads ci) (m_discriminators m) = (Ok d, a)).

Lemma CreateSession_cases cfg ci m :
  cfg_ok cfg -> input_ok ci ->
  match CreateSession cfg ci m with
  | (Ok l, m') => exists d s, created cfg ci m d s /\ l = length (m_entries m) /\
                              m' = with_session (key_of cfg) d s m
  | (Err e, m') => m' = m /\ create_refused cfg ci m e
  | (Panic, _) => False
  end.
Proof.
  intros Hc [Hrd Hrnd]. unfold CreateSession, create_refused, created, checkDuplicate, allocateAndBuild.
  destruct (Addr_IsValid (cfg_PeerAddr cfg)); cbn [negb]; [|by auto].
  destruct (m_sessionsByPeer m !! key_of cfg) as [l0|] eqn:Hk; [by eauto 10|].
  destruct (Allocate (ci_reads ci) (m_discriminators m)) as [[d|e|] a] eqn:Ha.
  - apply Allocate_Ok in Ha as Hd. destruct Hd as (-> & Hz & Hn & Hu). specialize (Hu Hrd).
    pose proof (NewSession_cases cfg d true (ci_rnd ci) Hc Hrnd Hu) as Hcs.
    destruct (NewSession cfg d true (ci_rnd ci)) as [s|es|] eqn:Hs; [| |done].
    + unfold registerAndStart. cbn [set_discriminators m_sessionsByPeer]. rewrite Hk.
      exists d, s. split; [|done]. eauto.
    + change (m_discriminators (set_discriminators _ m)) with ({[d]} ∪ m_discriminators m).
      rewrite Release_fresh by done. split; [by destruct m|]. do 3 right. eauto 10.
  - apply Allocate_Err in Ha as Hd. subst a. rewrite set_discriminators_id. split; [done|]. eauto 10.
  - by apply Allocate_no_panic in Ha.
Qed.

Lemma CreateSession_steps cfg ci m l m' ds n :
  cfg_ok cfg -> input_ok ci -> CreateSession cfg ci m = (Ok l, m') ->
  rtc mgr_step (mkWorld m ds n) (mkWorld m' ds n).
Proof.
  intros Hc Hi H. pose proof (CreateSession_cases cfg ci m Hc Hi) as Hcs. rewrite H in Hcs.
  destruct Hi as [Hrd Hrnd]. destruct Hcs as (d & s & (_ & Hk & (a & Ha) & Hs) & -> & ->).
  apply Allocate_Ok in Ha as Hd. destruct Hd as (-> & _ & _ & _).
  eapply rtc_l; [by apply (ms_allocate (ci_reads ci) d)|].
  eapply rtc_l; [|apply rtc_refl].
  apply (ms_register cfg (ci_rnd ci) d s _ _ (length (m_entries m)) (d :: ds)); try done.
  unfold registerAndStart. cbn [set_discriminators m_sessionsByPeer]. by rewrite Hk.
Qed.

(** ** Destruction *)

(** The manager without the session of discriminator [d] and entry [l]. *)
Definition without_session (d : Z) (l : nat) (en : sessionEntry) (m : Manager) : Manager :=
  {| m with m_entries := alter entry_cancel l (m_entries m);
            m_sessions := delete d (m_sessions m);
            m_sessionsByPeer := delete (se_key en) (m_sessionsByPeer m);
            m_discriminators := Release d (m_discriminators m);
            m_unsolicited := if se_unsolicited en then release <$> m_unsolicited m else m_unsolicited m |}.

Lemma DestroySession_cases d m :
  maps_ok m ->
  match DestroySession d m with
  | (Ok _, m') => exists l en, m_sessions m !! d = Some l /\ m_entries m !! l = Some en /\
                               m' = without_session d l en m
  | (Err e, m') => e = ErrSessionNotFound /\ m' = m /\ m_sessions m !! d = None
  | (Panic, _) => False
  end.
Proof.
  intros M. unfold DestroySession, unregister. destruct (m_sessions m !! d) as [l|] eqn:Hl; [|done].
  destruct (mo_sessions _ M d l Hl) as (en & He & _). rewrite He.
  exists l, en. split; [done|]. split; [done|].
  unfold without_session, release_slot, upd_entry, set_discriminators, set_unsolicited. cbn.
  destruct (se_unsolicited en); cbn [andb]; [|done].
  by destruct (m_unsolicited m).
Qed.

Lemma DestroySession_steps d m m' ds n :
  DestroySession d m = (Ok tt, m') -> rtc mgr_step (mkWorld m ds n) (mkWorld m' ds n).
Proof.
  unfold DestroySession. destruct (unregister d m) as [[[l en]|e|] m1] eqn:Hu; try done.
  intros [= <-]. eapply rtc_l; [by eapply ms_unregister|].
  assert (E : m_unsolicited m1 = m_unsolicited m) by (apply unregister_inv in Hu as (_ & _ & ->); done).
  unfold takes_slot. rewrite <- E. destruct (se_unsolicited en && bool_decide _).
  - eapply rtc_l; [apply ms_unreserve|]. eapply rtc_l; [apply (ms_cancel l)|].
    eapply rtc_l; [|apply rtc_refl].
    by apply (ms_release d (upd_entry l entry_cancel (release_slot m1)) (d :: ds)).
  - eapply rtc_l; [apply (ms_cancel l)|]. eapply rtc_l; [|apply rtc_refl].
    by apply (ms_release d (upd_entry l entry_cancel m1) (d :: ds)).
Qed.

(** ** Demultiplexing *)

Definition packet_to (l : nat) (pkt : ControlPacket) (wire : list Z) (m : Manager) : Manager :=
  on_session l (RecvPacket pkt wire) m.

Lemma markSessionUnsolicited_new key d s m :
  s_localDiscr s = d ->
  markSessionUnsolicited d (with_session key d s m) =
  upd_entry (length (m_entries m)) entry_mark (with_session key d s m).
Proof.
  intros Hd. unfold markSessionUnsolicited. cbn [with_session m_sessions]. by rewrite lookup_insert_eq.
Qed.

Lemma with_session_entry key d s m :
  m_entries (with_session key d s m) !! length (m_entries m)
  = Some (mkSessionEntry (Pending s) false key false).
Proof. apply entries_lookup_new. Qed.

Lemma unsolicited_cfg_ok policy meta :
  policy_ok policy -> cfg_ok (unsolicited_cfg (up_SessionDefaults policy) meta).
Proof. intros H. split_and!; [done|cbn; unfold is_u16; lia|done]. Qed.

(** The session made for a packet of an unknown peer, marked and with the packet
    in its queue. *)
Definition with_unsolicited (us : unsolicitedState) (key : sessionKey) (d : Z) (s : Session)
    (pkt : ControlPacket) (wire : list Z) (m : Manager) : Manager :=
  let m := with_session key d s (set_unsolicited (Some us) m) in
  packet_to (pred (length (m_entries m))) pkt wire
    (upd_entry (pred (length (m_entries m))) entry_mark m).

Lemma tryCreateUnsolicited_cases us policy pkt meta wire ci m :
  us_policy us = Some policy -> policy_ok policy -> input_ok ci ->
  let cfg := unsolicited_cfg (up_SessionDefaults policy) meta in
  match reserve (pm_SrcAddr meta) (pm_IfName meta) us with
  | (Ok _, us') =>
      let m1 := set_unsolicited (Some us') m in
      if m_hasUnsolicitedSender m then
        match CreateSession cfg ci m1 with
        | (Ok _, _) => exists d s, created cfg ci m d s /\
            tryCreateUnsolicited us pkt meta wire ci m =
            (Ok tt, with_unsolicited us' (key_of cfg) d s pkt wire m)
        | (Err e, _) => create_refused cfg ci m e /\
            tryCreateUnsolicited us pkt meta wire ci m = (Err e, release_slot m1)
        | (Panic, _) => False
        end
      else tryCreateUnsolicited us pkt meta wire ci m
           = (Err (ErrMgrUnsolicited ErrUnsolicitedDisabled), m1)
  | (Err e, _) => tryCreateUnsolicited us pkt meta wire ci m
                  = (Err (ErrMgrUnsolicited e), set_unsolicited (Some us) m)
  | (Panic, _) => False
  end.
Proof.
  intros Hp Hok Hi. cbn zeta. unfold tryCreateUnsolicited.
  pose proof (reserve_cases (pm_SrcAddr meta) (pm_IfName meta) us policy Hp) as Hr.
  destruct (reserve _ _ us) as [[u|e|] us'] eqn:Er; [| |done].
  2: { destruct Hr as (-> & _). done. }
  destruct Hr as (_ & _ & Eus). assert (us_policy us' = Some policy) as -> by (by subst us').
  cbn [m_hasUnsolicitedSender set_unsolicited]. destruct (m_hasUnsolicitedSender m); [|done].
  cbn [negb]. set (m1 := set_unsolicited (Some us') m).
  set (cfg := unsolicited_cfg (up_SessionDefaults policy) meta).
  pose proof (CreateSession_cases cfg ci m1 (unsolicited_cfg_ok policy meta Hok) Hi) as Hc.
  destruct (CreateSession cfg ci m1) as [[l|e|] m2] eqn:Ec; [| |done].
  - destruct Hc as (d & s & Hcr & -> & ->). exists d, s. split; [exact Hcr|].
    rewrite with_session_entry. unfold se_session. cbn [se_thread thread_get].
    assert (Hd : s_localDiscr s = d).
    { destruct Hcr as (_ & _ & _ & Hn). apply NewSession_ident in Hn. by injection Hn. }
    rewrite Hd, (markSessionUnsolicited_new _ _ _ _ Hd). unfold with_unsolicited, packet_to.
    cbn [with_session m_entries set_unsolicited m1]. rewrite length_app. cbn [length].
    by rewrite Nat.add_1_r.
  - destruct Hc as (-> & Hcr). done.
Qed.

(** Every outcome of the demultiplexer is a sequence of steps; a refusal for want of
    a sender keeps the slot it reserved. *)
Lemma DemuxWithWire_steps pkt meta wire ci m r m' ds n :
  wf_packet pkt -> input_ok ci ->
  (forall us, m_unsolicited m = Some us -> exists policy, us_policy us = Some policy /\ policy_ok policy) ->
  DemuxWithWire pkt meta wire ci m = (r, m') ->
  r <> Panic /\ exists n', rtc mgr_step (mkWorld m ds n) (mkWorld m' ds n').
Proof.
  intros W Hi Hus. unfold DemuxWithWire, demuxByDiscr, demuxByPeer.
  assert (Hdeliver : forall l, mgr_step (mkWorld m ds n) (mkWorld (on_session l (RecvPacket pkt wire) m) ds n)).
  { intros l. apply ms_call. by constructor. }
  destruct (negb _).
  { destruct (LookupByDiscriminator _ m); intros [= <- <-]; (split; [done|]); exists n;
      [by apply rtc_once|apply rtc_refl]. }
  destruct (LookupByPeer _ m).
  { intros [= <- <-]. split; [done|]. exists n. by apply rtc_once. }
  destruct (m_unsolicited m) as [us|] eqn:Eu; [|intros [= <- <-]; split; [done|]; exists n; apply rtc_refl].
  destruct (Hus us eq_refl) as (policy & Hp & Hok). intros H.
  pose proof (tryCreateUnsolicited_cases us policy pkt meta wire ci m Hp Hok Hi) as Hc. cbn zeta in Hc.
  destruct (reserve _ _ us) as [[[]|e|] us'] eqn:Er; [| |done].
  2: { rewrite H in Hc. injection Hc as -> ->. split; [done|]. exists n.
       replace (set_unsolicited (Some us) m) with m; [apply rtc_refl|]. destruct m. cbn in *. by subst. }
  assert (Hres : mgr_step (mkWorld m ds n) (mkWorld (set_unsolicited (Some us') m) ds (S n)))
    by (by eapply ms_reserve).
  destruct (m_hasUnsolicitedSender m).
  2: { rewrite H in Hc. injection Hc as -> ->. split; [done|]. exists (S n). by apply rtc_once. }
  destruct (CreateSession _ ci _) as [[l|e|] m2] eqn:Ec; [| |done].
  - destruct Hc as (d & s & Hcr & E). rewrite H in E. injection E as -> ->. split; [done|]. exists n.
    eapply rtc_l; [exact Hres|].
    pose proof (CreateSession_cases _ ci (set_unsolicited (Some us') m) (unsolicited_cfg_ok policy meta Hok) Hi) as Hcs.
    rewrite Ec in Hcs. destruct Hcs as (d2 & s2 & Hcr2 & -> & ->).
    assert (d2 = d /\ s2 = s) as [-> ->].
    { destruct Hcr as (_ & _ & (? & E1) & E2), Hcr2 as (_ & _ & (? & E3) & E4).
      cbn in E3. rewrite E1 in E3. injection E3 as -> _. rewrite E2 in E4. by injection E4 as ->. }
    etransitivity; [eapply CreateSession_steps; [by apply unsolicited_cfg_ok|exact Hi|exact Ec]|].
    assert (Hd : s_localDiscr s = d).
    { destruct Hcr as (_ & _ & _ & Hn). apply NewSession_ident in Hn. by injection Hn. }
    eapply rtc_l; [apply (ms_mark d)|]. rewrite (markSessionUnsolicited_new _ _ _ _ Hd).
    eapply rtc_l; [|apply rtc_refl]. unfold with_unsolicited, packet_to.
    cbn [with_session m_entries set_unsolicited]. rewrite length_app. cbn [length].
    rewrite Nat.add_1_r. apply ms_call. by constructor.
  - destruct Hc as (_ & E). rewrite H in E. injection E as -> ->. split; [done|]. exists n.
    eapply rtc_l; [exact Hres|]. apply rtc_once. apply ms_unreserve.
Qed.
