(* ===== verification/ManagerProps.v ===== *)
(** * Properties of the session manager

    Uniqueness and coherence of the lookup maps, the limit on unsolicited
    sessions and freedom from panics hold in every world, that is after any
    interleaving of calls and goroutine turns; creation, destruction and
    demultiplexing are described exactly. *)

From S2P Require Import Prelude Packet Fsm Auth Netip Jitter Session SessionInv SessionSteps.
From S2P Require Import SessionProps SessionFrame Discriminator Micro Unsolicited Echo Manager.
From S2P Require Import ManagerSteps ManagerInv ManagerOps.
From stdpp Require Import relations.

Local Open Scope Z_scope.

(** The session of entry [l] is registered. *)
Definition registered (m : Manager) (l : nat) (en : sessionEntry) : Prop :=
  m_entries m !! l = Some en /\ m_sessions m !! s_localDiscr (se_session en) = Some l.

Lemma registered_peer m l en :
  maps_ok m -> registered m l en -> m_sessionsByPeer m !! se_key en = Some l.
Proof.
  intros M [He Hs]. destruct (mo_sessions _ M _ _ Hs) as (en' & He' & _ & Hp). by simplify_eq.
Qed.

Lemma reachable_policy w us :
  mgr_inv w -> m_unsolicited (w_m w) = Some us ->
  exists policy, us_policy us = Some policy /\ policy_ok policy.
Proof. intros I Hus. destruct (mi_slots _ I us Hus) as (p & Hp & _). by exists p. Qed.

(** ** Sample worlds *)

Definition sample_reads (d : Z) : reads := fun _ => Some (0, 0, 0, d).

Definition sample_input (d : Z) : CreateInput := mkCreateInput (sample_reads d) sample_rnd.

Lemma sample_input_ok d : is_byte d -> input_ok (sample_input d).
Proof.
  intros Hd. split; [|apply sample_rnd_ok]. intros k b0 b1 b2 b3 [= <- <- <- <-].
  unfold is_byte in *. lia.
Qed.

(** A manager with the policy of [Unsolicited] and one configured session. *)
Definition sample_empty : Manager := NewManager (Some sample_policy) true true.
Definition sample_manager : Manager := (CreateSession (sample_cfg 3) (sample_input 5) sample_empty).2.
Definition sample_world : World := mkWorld sample_manager [] 0.

Lemma sample_policy_ok p : Some sample_policy = Some p -> policy_ok p.
Proof. intros [= <-]. unfold policy_ok, is_u8. cbn. lia. Qed.

Lemma sample_empty_reachable : mgr_reachable (mkWorld sample_empty [] 0).
Proof. exists (Some sample_policy), true, true. split; [apply sample_policy_ok|apply rtc_refl]. Qed.

Lemma sample_world_reachable : mgr_reachable sample_world.
Proof.
  exists (Some sample_policy), true, true. split; [apply sample_policy_ok|].
  apply (CreateSession_steps (sample_cfg 3) (sample_input 5) _ 0).
  - apply sample_cfg_ok. unfold is_u8. lia.
  - apply sample_input_ok. unfold is_byte. lia.
  - vm_compute. reflexivity.
Qed.

(** ** Uniqueness and coherence *)

(** C8: whatever calls and goroutines are interleaved, two registered sessions
    have different nonzero discriminators, which no echo session has, and
    different peer keys; a registered session is found under its discriminator
    and under its own addresses and interface, and nothing else is found. *)
Theorem manager_sessions_are_unique (w : World) (R : mgr_reachable w) :
  let m := w_m w in
  (forall l en, registered m l en ->
     0 < s_localDiscr (se_session en) < 2 ^ 32 /\
     m_echoSessions m !! s_localDiscr (se_session en) = None /\
     LookupByDiscriminator (s_localDiscr (se_session en)) m = Some l /\
     LookupByPeer {| sk_peerAddr := s_peerAddr (se_session en);
                     sk_localAddr := s_localAddr (se_session en);
                     sk_ifName := s_ifName (se_session en) |} m = Some l) /\
  (forall l1 l2 en1 en2, registered m l1 en1 -> registered m l2 en2 -> l1 <> l2 ->
     s_localDiscr (se_session en1) <> s_localDiscr (se_session en2) /\ se_key en1 <> se_key en2) /\
  (forall d l, LookupByDiscriminator d m = Some l -> exists en, registered m l en) /\
  (forall k l, LookupByPeer k m = Some l -> exists en, registered m l en).
Proof.
  pose proof (mgr_reachable_inv w R) as [M D T _ _]. destruct w as [m ds n]. cbn in *.
  assert (Hreg : forall l en, registered m l en -> m_sessionsByPeer m !! se_key en = Some l)
    by (intros; by apply registered_peer).
  split_and!.
  - intros l en HR. pose proof HR as [He Hs].
    pose proof (owned_NoDup _ D) as Hnd. pose proof (owned_elem _ (s_localDiscr (se_session en)) D) as Hel.
    unfold owned in Hnd, Hel. cbn in Hnd, Hel. apply NoDup_app in Hnd as (_ & Hnd & _).
    assert (Hin : s_localDiscr (se_session en) ∈ (map_to_list (m_sessions m)).*1).
    { apply list_elem_of_fmap. eexists (_, l). split; [done|]. by apply elem_of_map_to_list. }
    split_and!.
    + apply (do_range _ D), Hel, elem_of_app. by left.
    + apply (do_range _ D), Hel, elem_of_app. by left.
    + destruct (m_echoSessions m !! _) as [k|] eqn:Ek; [|done]. exfalso. apply (Hnd _ Hin).
      apply elem_of_app. left. apply list_elem_of_fmap. eexists (_, k). split; [done|].
      by apply elem_of_map_to_list.
    + done.
    + destruct (to_entry _ T l en He) as [_ Hk]. unfold LookupByPeer. rewrite <- Hk. by apply Hreg.
  - intros l1 l2 en1 en2 H1 H2 Hne. pose proof (Hreg _ _ H1). pose proof (Hreg _ _ H2).
    destruct H1, H2. split; congruence.
  - intros d l Hl. destruct (mo_sessions _ M d l Hl) as (en & He & Hd & _). exists en. split; [done|]. by rewrite Hd.
  - intros k l Hl. destruct (mo_peers _ M k l Hl) as (en & He & _ & Hs). by exists en.
Qed.

Lemma manager_sessions_are_unique_witness :
  LookupByDiscriminator 5 sample_manager = Some 0%nat /\
  LookupByPeer (mkSessionKey (IPv4 167772162) (IPv4 167772161) "eth0") sample_manager = Some 0%nat /\
  m_echoSessions sample_manager !! 5 = None.
Proof.
  destruct (manager_sessions_are_unique sample_world sample_world_reachable) as (H & _).
  assert (HR : exists en, registered sample_manager 0 en /\ s_localDiscr (se_session en) = 5 /\
    s_peerAddr (se_session en) = IPv4 167772162 /\ s_localAddr (se_session en) = IPv4 167772161 /\
    s_ifName (se_session en) = "eth0"%string).
  { eexists. split; [split; [vm_compute; reflexivity|vm_compute; reflexivity]|].
    vm_compute. done. }
  destruct HR as (en & HR & E1 & E2 & E3 & E4). destruct (H 0%nat en HR) as (_ & H1 & H2 & H3).
  rewrite E1 in *. rewrite E2, E3, E4 in H3. split; [exact H2|]. split; [exact H3|exact H1].
Defined.

(** ** The limit on unsolicited sessions *)

(** C21: with a limit configured, the number of registered sessions that were
    created for unsolicited packets never exceeds it, whatever creations,
    destructions and clean-ups run concurrently. *)
Theorem unsolicited_limit_holds (w : World) (us : unsolicitedState) (policy : UnsolicitedPolicy)
    (R : mgr_reachable w) (Hus : m_unsolicited (w_m w) = Some us)
    (Hp : us_policy us = Some policy) (Hmax : 0 < up_MaxSessions policy < 2 ^ 31) :
  Z.of_nat (marked (w_m w)) <= up_MaxSessions policy /\
  Z.of_nat (marked (w_m w)) <= us_sessionCount us <= up_MaxSessions policy.
Proof.
  destruct (mi_slots _ (mgr_reachable_inv w R) us Hus) as (p & [Hp' _] & Hc).
  assert (p = policy) as -> by congruence. destruct (Hc Hmax). lia.
Qed.

(** Down packet of an unknown peer on the sample interface. *)
Definition sample_down (my : Z) : ControlPacket :=
  {| pkt_Version := 1; pkt_Diag := 0; pkt_State := StateDown; pkt_Poll := false; pkt_Final := false;
     pkt_ControlPlaneIndependent := false; pkt_AuthPresent := false; pkt_Demand := false;
     pkt_Multipoint := false; pkt_DetectMult := 3; pkt_Length := 24; pkt_MyDiscriminator := my;
     pkt_YourDiscriminator := 0; pkt_DesiredMinTxInterval := 1000000;
     pkt_RequiredMinRxInterval := 50000; pkt_RequiredMinEchoRxInterval := 0; pkt_Auth := None |}.

Lemma sample_down_wf my : 0 < my < 2 ^ 32 -> wf_packet (sample_down my).
Proof. intros H. constructor; cbn; unfold is_u32, StateDown; auto; lia. Qed.

Definition sample_meta (host : Z) : PacketMeta :=
  mkPacketMeta (IPv4 (0x0a000000 + host)) (IPv4 0x0a000001) 255 "eth0".

Definition sample_unsolicited : Manager :=
  (DemuxWithWire (sample_down 77) (sample_meta 9) [] (sample_input 8) sample_manager).2.

Lemma sample_unsolicited_reachable : exists n, mgr_reachable (mkWorld sample_unsolicited [] n).
Proof.
  destruct (DemuxWithWire (sample_down 77) (sample_meta 9) [] (sample_input 8) sample_manager)
    as [r m'] eqn:E.
  destruct (DemuxWithWire_steps (sample_down 77) (sample_meta 9) [] (sample_input 8) sample_manager
              r m' [] 0) as (_ & n & Hs); [apply sample_down_wf; lia| | |exact E|].
  - apply sample_input_ok. unfold is_byte. lia.
  - intros us. apply (reachable_policy sample_world us), mgr_reachable_inv, sample_world_reachable.
  - exists n. destruct sample_world_reachable as (p & hs & ha & Hok & Hr).
    exists p, hs, ha. split; [done|]. unfold sample_unsolicited. rewrite E. cbn [snd].
    etransitivity; [exact Hr|exact Hs].
Qed.

Lemma sample_unsolicited_state :
  m_unsolicited sample_unsolicited = Some (mkUnsolicitedState (Some sample_policy) 1).
Proof. vm_compute. reflexivity. Qed.

Lemma unsolicited_limit_holds_witness :
  marked sample_unsolicited = 1%nat /\ Z.of_nat (marked sample_unsolicited) <= 2.
Proof.
  split; [vm_compute; reflexivity|]. destruct sample_unsolicited_reachable as [n R].
  exact (proj1 (unsolicited_limit_holds _ _ sample_policy R sample_unsolicited_state eq_refl
                  ltac:(cbn; lia))).
Defined.

(** ** No panics *)

(** C22: no step of the manager panics in any world: no turn of a session or echo
    session, no dispatch (every send goes to an open channel), no closing of a
    subscription or of the manager, no creation, destruction or demultiplexing. *)
Theorem manager_never_panics (w : World) (R : mgr_reachable w) :
  let m := w_m w in
  (forall l c e, session_turn l c e m <> Some None) /\
  (forall l c ee, echo_turn l c ee m <> Some None) /\
  (forall t ordg ords, (forall l, ordg l ≡ₚ l) -> (forall l, ords l ≡ₚ l) ->
     RunDispatch_turn t ordg ords m <> None) /\
  (forall ch, unsubscribe ch m <> None) /\
  (forall ords orde, (forall l, ords l ≡ₚ l) -> (forall l, orde l ≡ₚ l) -> Close ords orde m <> None) /\
  (forall cfg ci, cfg_ok cfg -> input_ok ci -> (CreateSession cfg ci m).1 <> Panic) /\
  (forall d, (DestroySession d m).1 <> Panic) /\
  (forall pkt meta wire ci, wf_packet pkt -> input_ok ci ->
     (DemuxWithWire pkt meta wire ci m).1 <> Panic).
Proof.
  pose proof (mgr_reachable_inv w R) as I. destruct w as [m ds n]. cbn zeta. cbn [w_m].
  pose proof (mi_threads _ I) as T. cbn [w_m] in T. split_and!.
  - intros l c e H. unfold session_turn in H. apply bind_Some in H as (en & He & H).
    destruct (to_entry _ T l en He) as [Ht _]. destruct (se_thread en) as [s|y|y]; try done.
    apply bind_Some in H as (r & Hr & H). destruct r; [done|].
    destruct (turn_inv _ _ _ _ (reachable_inv _ Ht) Hr) as (? & ? & _). done.
  - intros l c ee H. unfold echo_turn in H. apply bind_Some in H as (en & He & H).
    pose proof (to_echo _ T l en He) as Ht. destruct (ee_thread en) as [s|y|y]; try done.
    apply bind_Some in H as (r & Hr & H). destruct r; [done|].
    by destruct (echo_turn_inv _ _ _ _ (echo_reachable_inv _ Ht) Hr) as (? & ? & _).
  - intros t ordg ords H1 H2 H. destruct (RunDispatch_turn_ok t ordg ords m H1 H2) as (m' & E & _); [| |congruence].
    + intros us Hus. destruct (reachable_policy _ us I Hus) as (p & ? & _). by exists p.
    + apply (mi_channels _ I).
  - intros ch H. destruct (unsubscribe_ok ch m (mi_channels _ I)) as (m' & E & _). congruence.
  - intros ords orde H1 H2 H. destruct (Close_ok ords orde m ds n H1 H2 I) as (m' & E & _). congruence.
  - intros cfg ci Hc Hi. pose proof (CreateSession_cases cfg ci m Hc Hi) as H.
    by destruct (CreateSession cfg ci m) as [[| |] ?].
  - intros d. pose proof (DestroySession_cases d m (mi_maps _ I)) as H.
    by destruct (DestroySession d m) as [[| |] ?].
  - intros pkt meta wire ci W Hi. destruct (DemuxWithWire pkt meta wire ci m) as [r m'] eqn:E.
    apply (DemuxWithWire_steps pkt meta wire ci m r m' ds n W Hi); [|done].
    intros us. apply (reachable_policy _ us I).
Qed.

Lemma manager_never_panics_witness :
  (DemuxWithWire (sample_down 77) (sample_meta 9) [] (sample_input 8) sample_manager).1 <> Panic /\
  Close id id sample_manager <> None.
Proof.
  destruct (manager_never_panics sample_world sample_world_reachable)
    as (_ & _ & _ & _ & H1 & _ & _ & H2). split.
  - apply H2; [apply sample_down_wf; lia|apply sample_input_ok; unfold is_byte; lia].
  - apply H1; reflexivity.
Defined.

(** ** Creation and destruction *)

Lemma created_ident cfg ci m d s : created cfg ci m d s -> s_localDiscr s = d.
Proof. intros (_ & _ & _ & Hn%NewSession_ident). by injection Hn. Qed.

(** A creation succeeds exactly when the peer address is valid, the peer key is
    free, a discriminator can be allocated and the configuration is accepted.  It
    then registers one unstarted session in state Down under a fresh nonzero
    discriminator and the key, and leaves every other session, echo session and
    subscription as it was; a failed creation leaves the whole manager as it was. *)
Theorem create_session_exact (cfg : SessionConfig) (ci : CreateInput) (m : Manager)
    (Hc : cfg_ok cfg) (Hi : input_ok ci) :
  match CreateSession cfg ci m with
  | (Ok l, m') => exists d s,
      created cfg ci m d s /\ s_state s = StateDown /\ d ∉ m_discriminators m /\ 0 < d < 2 ^ 32 /\
      m_entries m' = m_entries m ++ [mkSessionEntry (Pending s) false (key_of cfg) false] /\
      LookupByDiscriminator d m' = Some l /\ LookupByPeer (key_of cfg) m' = Some l /\
      (forall d', d' <> d -> LookupByDiscriminator d' m' = LookupByDiscriminator d' m) /\
      (forall k, k <> key_of cfg -> LookupByPeer k m' = LookupByPeer k m) /\
      m_discriminators m' = {[d]} ∪ m_discriminators m /\
      m_echoSessions m' = m_echoSessions m /\ m_subscribers m' = m_subscribers m
  | (Err e, m') => m' = m /\ (~ exists d s, created cfg ci m d s) /\ create_refused cfg ci m e
  | (Panic, _) => False
  end.
Proof.
  pose proof (CreateSession_cases cfg ci m Hc Hi) as H.
  destruct (CreateSession cfg ci m) as [[l|e|] m'] eqn:E; [| |done].
  - destruct H as (d & s & Hcr & -> & ->). exists d, s. split; [done|].
    pose proof Hcr as (_ & _ & (a & Ha) & Hn). apply Allocate_Ok in Ha as (_ & Hz & Hf & Hu).
    pose proof (NewSession_ok cfg d true (ci_rnd ci) s Hc (proj2 Hi) (Hu (proj1 Hi)) Hn) as Hfr.
    specialize (Hu (proj1 Hi)).
    split_and!; try done; [apply (fs_states _ _ _ Hfr)|width_lia|width_lia|..]; cbn.
    + apply lookup_insert_eq.
    + apply lookup_insert_eq.
    + intros d' Hne. by apply lookup_insert_ne.
    + intros k Hne. by apply lookup_insert_ne.
  - destruct H as [-> Hr]. split; [done|]. split; [|done].
    intros (d & s & Hv & Hk & (a & Ha) & Hn).
    destruct Hr as [[_ ?]|[[_ [? ?]]|[(ea & _ & a' & ?)|(es & d' & _ & Hn' & a' & ?)]]]; congruence.
Qed.

Lemma create_session_exact_witness :
  LookupByDiscriminator 5 sample_manager = Some 0%nat /\
  (CreateSession (sample_cfg 3) (sample_input 6) sample_manager).2 = sample_manager.
Proof.
  split.
  - pose proof (create_session_exact (sample_cfg 3) (sample_input 5) sample_empty
      (sample_cfg_ok 3 ltac:(unfold is_u8; lia)) (sample_input_ok 5 ltac:(unfold is_byte; lia))) as H.
    unfold sample_manager.
    destruct (CreateSession (sample_cfg 3) (sample_input 5) sample_empty) as [r m'] eqn:E.
    cbn [snd]. assert (Hr : r = Ok 0%nat) by (apply (f_equal fst) in E; vm_compute in E; by subst r).
    subst r. destruct H as (d & s & (_ & _ & (a & Ha) & _) & _ & _ & _ & _ & H & _).
    vm_compute in Ha. injection Ha as <- _. exact H.
  - pose proof (create_session_exact (sample_cfg 3) (sample_input 6) sample_manager
      (sample_cfg_ok 3 ltac:(unfold is_u8; lia)) (sample_input_ok 6 ltac:(unfold is_byte; lia))) as H.
    destruct (CreateSession (sample_cfg 3) (sample_input 6) sample_manager) as [r m'] eqn:E.
    cbn [snd]. assert (Hr : r = Err ErrDuplicateSession) by (apply (f_equal fst) in E; vm_compute in E; by subst r).
    subst r. apply H.
Defined.

Lemma destroy_created w cfg ci d s :
  mgr_inv w -> created cfg ci (w_m w) d s ->
  exists m'', DestroySession d (with_session (key_of cfg) d s (w_m w)) = (Ok tt, m'') /\
    m_sessions m'' = m_sessions (w_m w) /\ m_sessionsByPeer m'' = m_sessionsByPeer (w_m w) /\
    m_discriminators m'' = m_discriminators (w_m w) /\ m_unsolicited m'' = m_unsolicited (w_m w) /\
    m_entries m'' = m_entries (w_m w) ++ [mkSessionEntry (Pending s) true (key_of cfg) false] /\
    m_sessions (w_m w) !! d = None.
Proof.
  intros [_ D _ _ _] (_ & Hk & (a & Ha) & _). apply Allocate_Ok in Ha as (_ & _ & Hf & _).
  assert (Hs : m_sessions (w_m w) !! d = None).
  { destruct (m_sessions (w_m w) !! d) as [l0|] eqn:El; [|done]. destruct Hf.
    apply (owned_elem _ _ D). apply elem_of_app. left. apply list_elem_of_fmap.
    exists (d, l0). split; [done|]. by apply elem_of_map_to_list. }
  unfold DestroySession, unregister. cbn [with_session m_sessions].
  rewrite lookup_insert_eq, with_session_entry. cbn [andb se_unsolicited se_key]. eexists.
  split; [reflexivity|].
  split_and!; cbn; [by apply delete_insert_id|by apply delete_insert_id|by apply Release_fresh|done| |done].
  by rewrite alter_app_r_alt, Nat.sub_diag by done.
Qed.

(** Destroying the session just created restores the lookup maps, the
    discriminators and the unsolicited counter; only the cancelled entry remains
    with those who hold its pointer.  Destruction fails only for a discriminator
    that is not registered, and then changes nothing. *)
Theorem destroy_undoes_create (w : World) (cfg : SessionConfig) (ci : CreateInput) (m' : Manager)
    (l : nat) (R : mgr_reachable w) (Hc : cfg_ok cfg) (Hi : input_ok ci)
    (Hcr : CreateSession cfg ci (w_m w) = (Ok l, m')) :
  let m := w_m w in
  (exists d s m'', DestroySession d m' = (Ok tt, m'') /\
     m_sessions m'' = m_sessions m /\ m_sessionsByPeer m'' = m_sessionsByPeer m /\
     m_discriminators m'' = m_discriminators m /\ m_unsolicited m'' = m_unsolicited m /\
     m_entries m'' = m_entries m ++ [mkSessionEntry (Pending s) true (key_of cfg) false]) /\
  (forall d, m_sessions m !! d = None -> DestroySession d m = (Err ErrSessionNotFound, m)).
Proof.
  pose proof (mgr_reachable_inv w R) as I. cbn zeta. split.
  - pose proof (CreateSession_cases cfg ci (w_m w) Hc Hi) as H. rewrite Hcr in H.
    destruct H as (d & s & Hd & -> & ->).
    destruct (destroy_created w cfg ci d s I Hd) as (m'' & H1 & H2 & H3 & H4 & H5 & H6 & _).
    by exists d, s, m''.
  - intros d Hd. unfold DestroySession, unregister. by rewrite Hd.
Qed.

(** A second configured session, on another interface. *)
Definition second_cfg : SessionConfig := {| (sample_cfg 3) with cfg_Interface := "eth1"%string |}.

Lemma destroy_undoes_create_witness :
  exists d m'', DestroySession d (CreateSession second_cfg (sample_input 6) sample_manager).2 = (Ok tt, m'') /\
    m_sessions m'' = m_sessions sample_manager /\ m_discriminators m'' = m_discriminators sample_manager.
Proof.
  destruct (CreateSession second_cfg (sample_input 6) sample_manager) as [r m'] eqn:E. cbn [snd].
  assert (Hr : r = Ok 1%nat) by (apply (f_equal fst) in E; vm_compute in E; by subst r). subst r.
  destruct (destroy_undoes_create sample_world second_cfg (sample_input 6) m' 1 sample_world_reachable
    (sample_cfg_ok 3 ltac:(unfold is_u8; lia)) (sample_input_ok 6 ltac:(unfold is_byte; lia)) E)
    as [(d & s & m'' & H1 & H2 & _ & H3 & _) _].
  exists d, m''. split; [exact H1|]. split; [exact H2|exact H3].
Defined.

(** ** Demultiplexing *)

(** The session the packet is meant for: by its discriminator if the packet names
    one, by the addresses and the interface otherwise (RFC 5880 Section 6.3). *)
Definition addressed (pkt : ControlPacket) (meta : PacketMeta) (en : sessionEntry) : Prop :=
  if pkt_YourDiscriminator pkt =? 0 then se_key en = meta_key meta
  else s_localDiscr (se_session en) = pkt_YourDiscriminator pkt.

Lemma demux_lookup m pkt meta l en :
  maps_ok m -> registered m l en ->
  addressed pkt meta en <->
  (if negb (pkt_YourDiscriminator pkt =? 0) then LookupByDiscriminator (pkt_YourDiscriminator pkt) m
   else LookupByPeer (meta_key meta) m) = Some l.
Proof.
  intros M HR. pose proof (registered_peer m l en M HR) as Hp. destruct HR as [He Hs].
  unfold addressed, LookupByDiscriminator, LookupByPeer.
  destruct (pkt_YourDiscriminator pkt =? 0); cbn [negb]; split.
  - by intros <-.
  - intros (en' & He' & Hk & _)%(mo_peers _ M). congruence.
  - by intros <-.
  - intros (en' & He' & Hk & _)%(mo_sessions _ M). congruence.
Qed.

(** No session is addressed by a packet that the maps lead to none. *)
Lemma no_addressee m pkt meta : maps_ok m -> (forall l en, registered m l en -> ~ addressed pkt meta en) ->
  (if negb (pkt_YourDiscriminator pkt =? 0) then LookupByDiscriminator (pkt_YourDiscriminator pkt) m
   else LookupByPeer (meta_key meta) m) = None.
Proof.
  intros M Hno. destruct (if negb _ then _ else _) as [l|] eqn:El; [|done]. exfalso.
  assert (exists en, registered m l en) as [en HR].
  { destruct (negb _); [destruct (mo_sessions _ M _ _ El) as (en & He & Hd & _)
                       |destruct (mo_peers _ M _ _ El) as (en & He & _ & Hs)].
    - exists en. split; [done|]. by rewrite Hd.
    - by exists en. }
  apply (Hno l en HR), (demux_lookup _ pkt meta l en M HR). exact El.
Qed.

(** What a packet of an unknown peer can change: the slots of the policy, and one new
    passive session for that peer. *)
Lemma unsolicited_effect us policy pkt meta wire ci m :
  us_policy us = Some policy -> policy_ok policy -> input_ok ci ->
  match tryCreateUnsolicited us pkt meta wire ci m with
  | (Ok _, m') => exists d s, admitted policy (pm_SrcAddr meta) (pm_IfName meta) /\ d ∉ m_discriminators m /\
      s_role s = RolePassive /\
      m_entries m' = m_entries m ++ [mkSessionEntry (Pending (RecvPacket pkt wire s)) false (meta_key meta) true] /\
      m_sessions m' = <[d := length (m_entries m)]> (m_sessions m) /\
      m_sessionsByPeer m' = <[meta_key meta := length (m_entries m)]> (m_sessionsByPeer m)
  | (Err _, m') => m' = set_unsolicited (m_unsolicited m') m
  | (Panic, _) => False
  end.
Proof.
  intros Hp Hok Hi. pose proof (tryCreateUnsolicited_cases us policy pkt meta wire ci m Hp Hok Hi) as Hc. cbn zeta in Hc.
  pose proof (reserve_cases (pm_SrcAddr meta) (pm_IfName meta) us policy Hp) as Hr.
  destruct (reserve _ _ us) as [[u|e|] us']; [|by rewrite Hc|done].
  destruct (m_hasUnsolicitedSender m); [|by rewrite Hc]. destruct (CreateSession _ ci _) as [[l|e|] m2]; [| |done].
  - destruct Hc as (d & s & (_ & _ & (a & Ha) & Hn) & ->). exists d, s.
    apply Allocate_Ok in Ha as (_ & _ & Hd & Hu).
    pose proof (NewSession_ok _ d true (ci_rnd ci) s (unsolicited_cfg_ok policy meta Hok) (proj2 Hi) (Hu (proj1 Hi)) Hn) as Hfr.
    split; [apply Hr|]. split; [done|]. split; [by destruct (fs_params _ _ _ Hfr) as (_ & _ & _ & _ & _ & -> & _)|].
    unfold with_unsolicited, packet_to. cbn [with_session m_entries set_unsolicited]. rewrite length_app. cbn [length].
    rewrite Nat.add_1_r. cbn. split_and!; [|done|done].
    rewrite !alter_app_r_alt by (rewrite ?length_app; cbn; lia). by rewrite !Nat.sub_diag.
  - destruct Hc as [_ ->]. by destruct m.
Qed.

(** C9: a packet goes to the one session it is addressed to, which is the only one
    to change: the packet joins its queue (unless 16 packets already wait there).
    If no registered session is addressed, a packet naming a discriminator, or any
    packet while unsolicited sessions are not configured, is refused and nothing
    changes.  While they are, a packet without a discriminator that nobody is addressed
    by either makes exactly one new session, a passive one for its addresses and
    interface, with the packet in its queue, if the policy admits the sender; or it is
    refused and at most the count of taken slots changes.  The other sessions stay as
    they are. *)
Theorem demux_delivers_to_addressee (w : World) (pkt : ControlPacket) (meta : PacketMeta)
    (wire : list Z) (ci : CreateInput) (R : mgr_reachable w) :
  let m := w_m w in
  (forall l en, registered m l en -> addressed pkt meta en ->
     DemuxWithWire pkt meta wire ci m = (Ok tt, on_session l (RecvPacket pkt wire) m) /\
     se_session (entry_call (RecvPacket pkt wire) en) = RecvPacket pkt wire (se_session en) /\
     (forall l' en', registered m l' en' -> addressed pkt meta en' -> l' = l) /\
     (forall l', l' <> l ->
        m_entries (on_session l (RecvPacket pkt wire) m) !! l' = m_entries m !! l')) /\
  ((forall l en, registered m l en -> ~ addressed pkt meta en) ->
   (pkt_YourDiscriminator pkt <> 0 \/ m_unsolicited m = None ->
    DemuxWithWire pkt meta wire ci m = (Err ErrDemuxNoMatch, m)) /\
   (pkt_YourDiscriminator pkt = 0 -> input_ok ci -> forall us, m_unsolicited m = Some us ->
    match DemuxWithWire pkt meta wire ci m with
    | (Ok _, m') => exists policy d s, us_policy us = Some policy /\
        admitted policy (pm_SrcAddr meta) (pm_IfName meta) /\ d ∉ m_discriminators m /\ s_role s = RolePassive /\
        m_entries m' = m_entries m ++ [mkSessionEntry (Pending (RecvPacket pkt wire s)) false (meta_key meta) true] /\
        m_sessions m' = <[d := length (m_entries m)]> (m_sessions m) /\
        m_sessionsByPeer m' = <[meta_key meta := length (m_entries m)]> (m_sessionsByPeer m)
    | (Err _, m') => m' = set_unsolicited (m_unsolicited m') m
    | (Panic, _) => False
    end)).
Proof.
  destruct (mgr_reachable_inv w R) as [M _ _ _ _]. cbn zeta. split.
  - intros l en HR Ha. pose proof (proj1 (demux_lookup _ pkt meta l en M HR) Ha) as Hl.
    split_and!.
    + unfold DemuxWithWire, demuxByDiscr, demuxByPeer.
      destruct (negb _); by rewrite Hl.
    + apply entry_call_session.
    + intros l' en' HR' Ha'. pose proof (proj1 (demux_lookup _ pkt meta l' en' M HR') Ha'). congruence.
    + intros l' Hne. cbn. by rewrite list_lookup_alter_ne.
  - intros Hno. pose proof (no_addressee _ pkt meta M Hno) as Hl. unfold DemuxWithWire, demuxByDiscr, demuxByPeer.
    destruct (pkt_YourDiscriminator pkt =? 0) eqn:E; cbn [negb] in *; rewrite Hl; bools; split; try done.
    + intros [?| ->]; done.
    + intros _ Hi us Hus. rewrite Hus. destruct (reachable_policy w us (mgr_reachable_inv w R) Hus) as (policy & Hp & Hok).
      pose proof (unsolicited_effect us policy pkt meta wire ci (w_m w) Hp Hok Hi) as H.
      destruct (tryCreateUnsolicited _ _ _ _ _ _) as [[] m']; [|done..]. destruct H as (d & s & H). by exists policy, d, s.
Qed.

Lemma demux_delivers_to_addressee_witness :
  (DemuxWithWire sample_init (sample_meta 2) [] (sample_input 9) sample_manager).1 = Ok tt /\
  DemuxWithWire {| sample_init with pkt_YourDiscriminator := 6 |} (sample_meta 2) [] (sample_input 9)
    sample_manager = (Err ErrDemuxNoMatch, sample_manager).
Proof.
  split.
  - destruct (demux_delivers_to_addressee sample_world sample_init (sample_meta 2) []
      (sample_input 9) sample_world_reachable) as [H _].
    assert (HR : exists en, registered sample_manager 0 en /\ s_localDiscr (se_session en) = 5).
    { eexists. split; [split; vm_compute; reflexivity|vm_compute; reflexivity]. }
    destruct HR as (en & HR & E). exact (f_equal fst (proj1 (H 0%nat en HR E))).
  - apply (demux_delivers_to_addressee sample_world _ (sample_meta 2) []
      (sample_input 9) sample_world_reachable); [|left; discriminate].
    intros l en [He Hs] Ha. change (s_localDiscr (se_session en) = 6) in Ha. rewrite Ha in Hs.
    vm_compute in Hs. discriminate Hs.
Defined.

(** The first packet of an unknown peer that the policy admits, with a slot, a
    sender and a discriminator available and the policy's defaults accepted, makes
    one passive session for that peer, marked as unsolicited, with the packet in
    its queue; further packets of that peer without a discriminator go to it.  A
    packet the policy refuses leaves the manager as it was. *)
Theorem unsolicited_packet_makes_passive_session (w : World) (us : unsolicitedState)
    (policy : UnsolicitedPolicy) (pkt : ControlPacket) (meta : PacketMeta) (wire : list Z)
    (ci : CreateInput) (R : mgr_reachable w) (Hi : input_ok ci)
    (Hus : m_unsolicited (w_m w) = Some us) (Hp : us_policy us = Some policy)
    (Hd : pkt_YourDiscriminator pkt = 0)
    (Hno : LookupByPeer (meta_key meta) (w_m w) = None) :
  let m := w_m w in
  let cfg := unsolicited_cfg (up_SessionDefaults policy) meta in
  let '(r, m') := DemuxWithWire pkt meta wire ci m in
  (admitted policy (pm_SrcAddr meta) (pm_IfName meta) ->
   up_MaxSessions policy <= 0 \/ us_sessionCount us < up_MaxSessions policy ->
   m_hasUnsolicitedSender m = true ->
   forall d s, created cfg ci m d s ->
   r = Ok tt /\ s_role s = RolePassive /\
   registered m' (length (m_entries m))
     (mkSessionEntry (Pending (RecvPacket pkt wire s)) false (meta_key meta) true) /\
   LookupByPeer (meta_key meta) m' = Some (length (m_entries m))) /\
  (~ admitted policy (pm_SrcAddr meta) (pm_IfName meta) -> (exists e, r = Err e) /\ m' = m).
Proof.
  pose proof (mgr_reachable_inv w R) as I. cbn zeta.
  destruct (reachable_policy w us I Hus) as (p & Hp' & Hok). assert (p = policy) as -> by congruence.
  pose proof (tryCreateUnsolicited_cases us policy pkt meta wire ci (w_m w) Hp Hok Hi) as Hc.
  pose proof (reserve_cases (pm_SrcAddr meta) (pm_IfName meta) us policy Hp) as Hr.
  unfold DemuxWithWire, demuxByPeer. rewrite Hd, Hno, Hus. cbn [Z.eqb negb]. cbn zeta in Hc.
  destruct (reserve (pm_SrcAddr meta) (pm_IfName meta) us) as [[u|e|] us']; [| |done].
  - destruct Hr as (Hadm & _ & _). destruct (tryCreateUnsolicited us pkt meta wire ci (w_m w)) as [r m'].
    split; [|done]. intros _ _ Hs d s Hcr. rewrite Hs in Hc.
    pose proof (CreateSession_cases _ ci (set_unsolicited (Some us') (w_m w))
                  (unsolicited_cfg_ok policy meta Hok) Hi) as Hcs.
    destruct (CreateSession _ ci _) as [[l|e|] m2]; [| |done].
    + destruct Hc as (d2 & s2 & Hcr2 & [= -> ->]).
      assert (d2 = d /\ s2 = s) as [-> ->].
      { destruct Hcr as (_ & _ & (? & E1) & E2), Hcr2 as (_ & _ & (? & E3) & E4).
        rewrite E1 in E3. injection E3 as -> _. rewrite E2 in E4. by injection E4 as ->. }
      pose proof Hcr as (_ & _ & (a & Ha) & Hn). apply Allocate_Ok in Ha as (_ & _ & _ & Hu).
      pose proof (NewSession_ok _ d true (ci_rnd ci) s (unsolicited_cfg_ok policy meta Hok) (proj2 Hi)
                    (Hu (proj1 Hi)) Hn) as Hfr.
      split; [done|]. split; [by destruct (fs_params _ _ _ Hfr) as (_ & _ & _ & _ & _ & -> & _)|].
      assert (Hd' : s_localDiscr (RecvPacket pkt wire s) = d).
      { rewrite <- (created_ident _ _ _ _ _ Hcr). unfold RecvPacket. by case_bool_decide. }
      unfold with_unsolicited, packet_to. cbn [with_session m_entries set_unsolicited].
      rewrite length_app. cbn [length]. rewrite Nat.add_1_r. cbn [pred].
      split; [split|]; cbn.
      * rewrite !alter_app_r_alt by (rewrite ?length_app; cbn; lia).
        rewrite !Nat.sub_diag. apply entries_lookup_new.
      * unfold se_session. cbn [se_thread thread_get]. rewrite Hd'. apply lookup_insert_eq.
      * apply lookup_insert_eq.
    + exfalso. destruct Hcs as [_ Hcr2]. destruct Hcr as (Hv & Hk & (a & Ha) & Hn).
      destruct Hcr2 as [[_ ?]|[[_ [? ?]]|[(ea & _ & a' & ?)|(es & d' & _ & Hn' & a' & ?)]]];
        cbn in *; congruence.
  - destruct Hr as (-> & H1 & H2). rewrite Hc. split.
    + intros Hadm Hf. exfalso. destruct (decide (e = ErrUnsolicitedMaxSessions)) as [->|Hne].
      * destruct (proj1 H1 eq_refl). lia.
      * by apply H2 in Hne.
    + intros _. split; [by eexists|]. destruct (w_m w). cbn in *. by subst.
Qed.

Lemma unsolicited_packet_makes_passive_session_witness :
  exists en, registered sample_unsolicited 1 en /\ se_unsolicited en = true /\
    LookupByPeer (meta_key (sample_meta 9)) sample_unsolicited = Some 1%nat.
Proof.
  pose proof (unsolicited_packet_makes_passive_session sample_world
    (mkUnsolicitedState (Some sample_policy) 0) sample_policy (sample_down 77) (sample_meta 9) []
    (sample_input 8) sample_world_reachable (sample_input_ok 8 ltac:(unfold is_byte; lia))
    ltac:(vm_compute; reflexivity) eq_refl eq_refl ltac:(vm_compute; reflexivity)) as H.
  cbn zeta in H. unfold sample_unsolicited.
  change (w_m sample_world) with sample_manager in H.
  destruct (DemuxWithWire (sample_down 77) (sample_meta 9) [] (sample_input 8) sample_manager) as [r m'].
  cbn [snd]. destruct H as [H _].
  assert (Hc : exists d s, created (unsolicited_cfg (up_SessionDefaults sample_policy) (sample_meta 9))
    (sample_input 8) sample_manager d s).
  { eexists 8, _. split; [reflexivity|]. split; [vm_compute; reflexivity|].
    split; [eexists; vm_compute; reflexivity|]. vm_compute. reflexivity. }
  destruct Hc as (d & s & Hc). destruct (H ltac:(split; [reflexivity|eexists; split;
    [reflexivity|split; [reflexivity|right; eexists; split; [left|reflexivity]]]])
    ltac:(right; reflexivity) eq_refl d s Hc) as (_ & _ & H1 & H2).
  eexists. split; [exact H1|]. split; [reflexivity|exact H2].
Defined.
