(* ===== verification/ManagerReconcile.v ===== *)
(** * Reconciliation of the sessions with a new configuration

    [ReconcileSessions] makes the set of registered sessions equal to the desired
    one and leaves the sessions that stay untouched. *)

From stdpp Require Import relations.
From S2P Require Import Prelude Packet Fsm Auth Netip NetipParse Jitter Session SessionInv SessionSteps.
From S2P Require Import SessionProps SessionFrame Discriminator Micro Unsolicited Echo Manager.
From S2P Require Import ManagerSteps ManagerInv ManagerOps ManagerProps.

Local Open Scope Z_scope.

(** ** Maps built by a loop *)

Lemma fold_insert_lookup {A B} (f : A -> string) (g : A -> B) (L : list A) (m0 : gmap string B) k v :
  NoDup (f <$> L) ->
  fold_left (fun ks x => <[f x := g x]> ks) L m0 !! k = Some v <->
  (exists x, x ∈ L /\ f x = k /\ g x = v) \/ (k ∉ f <$> L /\ m0 !! k = Some v).
Proof.
  revert m0. induction L as [|x L IH]; intros m0 Hnd; cbn.
  - split; [intros H; right; split; [set_solver|done]|].
    intros [(x & ?%elem_of_nil & _)|[_ ?]]; done.
  - apply NoDup_cons in Hnd as [Hx Hnd]. rewrite (IH _ Hnd).
    destruct (decide (f x = k)) as [<-|Hne].
    + rewrite lookup_insert_eq. split.
      * intros [(y & Hy & E & _)|[_ [= <-]]]; [|left; exists x; split; [left|done]].
        exfalso. apply Hx. rewrite <- E. by apply list_elem_of_fmap_2.
      * intros [(y & [->|Hy]%elem_of_cons & E & <-)|[Hn _]]; [by right| |set_solver].
        exfalso. apply Hx. rewrite <- E. by apply list_elem_of_fmap_2.
    + rewrite lookup_insert_ne by done. split.
      * intros [(y & Hy & E & Ev)|[Hn Hv]]; [left; exists y; split; [by right|done]|right].
        split; [|done]. intros [E|Hi]%elem_of_cons; [by apply Hne|done].
      * intros [(y & [->|Hy]%elem_of_cons & E & Ev)|[Hn Hv]]; [done|left; by exists y|right].
        split; [|done]. intros Hi. apply Hn. by right.
Qed.

Lemma fold_insert_inv {A} (key : A -> string) (L : list A) (g : gmap string A) k rc :
  fold_left (fun ks x => <[key x := x]> ks) L g !! k = Some rc ->
  (rc ∈ L /\ key rc = k) \/ g !! k = Some rc.
Proof.
  revert g. induction L as [|x L IH]; intros g; cbn; [by right|].
  intros [[Hin Hk]|H]%IH; [left; split; [by right|done]|].
  destruct (decide (key x = k)) as [<-|Hne].
  - rewrite lookup_insert_eq in H. injection H as <-. left. split; [left|done].
  - rewrite lookup_insert_ne in H by done. by right.
Qed.

Lemma fold_insert_is_Some {A} (key : A -> string) (L : list A) (g : gmap string A) k :
  is_Some (fold_left (fun ks x => <[key x := x]> ks) L g !! k) <->
  (exists x, x ∈ L /\ key x = k) \/ is_Some (g !! k).
Proof.
  revert g. induction L as [|x L IH]; intros g; cbn.
  - split; [by right|]. intros [(x & ?%elem_of_nil & _)|?]; done.
  - rewrite IH. destruct (decide (key x = k)) as [<-|Hne].
    + rewrite lookup_insert_eq. split; [intros _; left; exists x; split; [left|done]|eauto].
    + rewrite lookup_insert_ne by done. split.
      * intros [(y & Hy & <-)|H]; [left; exists y; split; [by right|done]|by right].
      * intros [(y & [->|Hy]%elem_of_cons & E)|H]; [done|left; by exists y|by right].
Qed.

(** The last of several configurations with one key counts. *)
Lemma desired_map_lookup {A} (key : A -> string) (desired : list A) k rc :
  desired_map key desired !! k = Some rc -> rc ∈ desired /\ key rc = k.
Proof. intros [H|H]%fold_insert_inv; [done|]. by rewrite lookup_empty in H. Qed.

Lemma desired_map_is_Some {A} (key : A -> string) (desired : list A) k :
  has_key (desired_map key desired) k = true <-> exists rc, rc ∈ desired /\ key rc = k.
Proof.
  unfold has_key, desired_map. rewrite bool_decide_eq_true, fold_insert_is_Some, lookup_empty.
  split; [intros [?|[? ?]]; done|by left].
Qed.

(** ** The current sessions *)

(** Distinct live keys have distinct texts. *)
Definition keys_distinct (m : Manager) : Prop :=
  forall sk sk' l l', m_sessionsByPeer m !! sk = Some l -> m_sessionsByPeer m !! sk' = Some l' ->
    key_string sk = key_string sk' -> sk = sk'.

(** The addresses of the live keys have their width and no zone contains the
    separator of keys. *)
Definition plain_key (sk : sessionKey) : Prop :=
  plain_addr (sk_peerAddr sk) /\ plain_addr (sk_localAddr sk).

Definition plain_keys (m : Manager) : Prop :=
  forall sk l, m_sessionsByPeer m !! sk = Some l -> plain_key sk.

Lemma key_string_inj sk sk' :
  plain_key sk -> plain_key sk' -> key_string sk = key_string sk' -> sk = sk'.
Proof.
  destruct sk, sk'. unfold key_string, plain_key. cbn. intros [? ?] [? ?] E.
  apply bar_key_inj in E as [-> E]; [|done..]. by apply bar_key_inj in E as [-> ->].
Qed.

Lemma plain_keys_distinct m : plain_keys m -> keys_distinct m.
Proof. intros H sk sk' l l' Hl Hl'. apply key_string_inj; by eapply H. Qed.

Lemma sessionKeySet_lookup ord m ks d :
  maps_ok m -> keys_distinct m -> (forall l, ord l ≡ₚ l) ->
  sessionKeySet ord m !! ks = Some d <->
  exists sk l, m_sessionsByPeer m !! sk = Some l /\ m_sessions m !! d = Some l /\ key_string sk = ks.
Proof.
  intros M Hdist Ho. unfold sessionKeySet. set (L := ord (map_to_list (m_sessionsByPeer m))).
  assert (HL : forall sk l, (sk, l) ∈ L <-> m_sessionsByPeer m !! sk = Some l).
  { intros sk l. unfold L. rewrite Ho. by rewrite elem_of_map_to_list. }
  set (g := fun kl : sessionKey * nat =>
    match m_entries m !! kl.2 with Some en => s_localDiscr (se_session en) | None => 0 end).
  assert (Hg : forall sk l, (sk, l) ∈ L -> m_sessions m !! g (sk, l) = Some l).
  { intros sk l Hl%HL. destruct (mo_peers _ M sk l Hl) as (en & He & _ & Hs). unfold g. cbn. by rewrite He. }
  assert (E : fold_left (fun ks kl => match m_entries m !! kl.2 with
      | Some en => <[key_string kl.1 := s_localDiscr (se_session en)]> ks | None => ks end) L ∅
    = fold_left (fun ks kl => <[key_string kl.1 := g kl]> ks) L (∅ : gmap string Z)).
  { clear Hg. assert (Hall : forall kl, kl ∈ L -> is_Some (m_entries m !! kl.2)).
    { intros [sk l] Hl%HL. destruct (mo_peers _ M sk l Hl) as (en & He & _). by exists en. }
    clear HL. revert Hall. generalize (∅ : gmap string Z). induction L as [|kl L' IH]; intros acc Hall; [done|].
    cbn. destruct (Hall kl ltac:(left)) as [en He]. unfold g at 2. rewrite He.
    apply IH. intros; apply Hall. by right. }
  rewrite E, (fold_insert_lookup (fun kl => key_string kl.1) g).
  - split.
    + intros [([sk l] & Hin & Hk & <-)|[_ H]]; [|by rewrite lookup_empty in H].
      exists sk, l. split; [by apply HL|]. split; [by apply (Hg sk)|done].
    + intros (sk & l & Hl & Hs & Hk). left. exists (sk, l). split; [by apply HL|]. split; [done|].
      eapply sessions_inj; [done|apply (Hg sk); by apply HL|done].
  - apply NoDup_fmap_2_strong.
    + intros [sk l] [sk' l'] H1%HL H2%HL Hk. cbn in Hk.
      assert (sk = sk') as -> by (by eapply Hdist). congruence.
    + unfold L. rewrite Ho. apply NoDup_map_to_list.
Qed.

(** ** The two loops *)

(** The bindings a loop acts on. *)
Definition todo {A} (skip : string -> bool) (L : list (string * A)) : list (string * A) :=
  filter (fun ka => skip ka.1 = false) L.

Lemma todo_cons {A} skip k (a : A) L :
  todo skip ((k, a) :: L) = if skip k then todo skip L else (k, a) :: todo skip L.
Proof. unfold todo. rewrite filter_cons. cbn [fst]. destruct (skip k); by case_decide. Qed.

(** Entries that were not destroyed stay as they are. *)
Record destroyed_from (gone : nat -> Prop) (m m' : Manager) : Prop := {
  df_peers : forall k l, m_sessionsByPeer m' !! k = Some l <->
                         m_sessionsByPeer m !! k = Some l /\ ~ gone l;
  df_sessions : forall d l, m_sessions m' !! d = Some l <->
                            m_sessions m !! d = Some l /\ ~ gone l;
  df_entries : forall l, ~ gone l -> m_entries m' !! l = m_entries m !! l;
}.

Lemma destroy_one d l m ds n :
  mgr_inv (mkWorld m ds n) -> m_sessions m !! d = Some l ->
  exists m', DestroySession d m = (Ok tt, m') /\ mgr_inv (mkWorld m' ds n) /\
             destroyed_from (fun l' => l' = l) m m'.
Proof.
  intros I Hl. pose proof (mi_maps _ I) as M. cbn [w_m] in M.
  pose proof (DestroySession_cases d m M) as Hc.
  destruct (DestroySession d m) as [[[]|e|] m'] eqn:E; [| |done].
  2: { destruct Hc as (_ & _ & ?). congruence. }
  exists m'. split; [done|]. split.
  { pose proof (DestroySession_steps d m m' ds n E) as Hr. revert I. clear -Hr.
    induction Hr as [|w1 w2 w3 H12 _ IH]; [done|]. intros I. by apply IH, (mgr_step_inv w1). }
  destruct Hc as (l' & en & Hl' & He & ->). assert (l' = l) as -> by congruence.
  destruct (mo_sessions _ M d l Hl) as (en' & He' & Hd & Hp). assert (en' = en) as -> by congruence.
  constructor; cbn.
  - intros k l0. rewrite lookup_delete_Some. split.
    + intros [Hne Hk]. split; [done|]. intros ->. apply Hne.
      destruct (mo_peers _ M k l Hk) as (en0 & He0 & Hk0 & _). congruence.
    + intros [Hk Hne]. split; [|done]. intros E0. subst k. congruence.
  - intros d0 l0. rewrite lookup_delete_Some. split.
    + intros [Hne Hk]. split; [done|]. intros ->. apply Hne. by eapply sessions_inj.
    + intros [Hk Hne]. split; [|done]. intros ->. congruence.
  - intros l0 Hne. by rewrite list_lookup_alter_ne.
Qed.

Lemma destroy_loop skip L m ds n :
  mgr_inv (mkWorld m ds n) -> NoDup (L.*2) ->
  (forall ks d, (ks, d) ∈ L -> is_Some (m_sessions m !! d)) ->
  exists m', reconcile_loop skip (fun _ discr m => DestroySession discr m) L m
             = Some (zlen (todo skip L), [], m') /\
    mgr_inv (mkWorld m' ds n) /\
    destroyed_from (fun l => exists ks d, (ks, d) ∈ todo skip L /\ m_sessions m !! d = Some l) m m'.
Proof.
  revert m. induction L as [|[ks d] L IH]; intros m I Hnd Hs; cbn [reconcile_loop].
  { exists m. split; [done|]. split; [done|]. constructor; set_solver. }
  apply NoDup_cons in Hnd as [Hd Hnd]. rewrite todo_cons. destruct (skip ks).
  { apply IH; [done|done|]. intros ks' d' H. apply (Hs ks'). by right. }
  destruct (Hs ks d ltac:(left)) as [l Hl].
  destruct (destroy_one d l m ds n I Hl) as (m1 & -> & I1 & [P1 S1 E1]).
  destruct (IH m1 I1 Hnd) as (m2 & -> & I2 & [P2 S2 E2]).
  { intros ks' d' Hin. destruct (Hs ks' d' ltac:(by right)) as [l' Hl']. exists l'. apply S1.
    split; [done|]. intros ->. apply Hd. cbn.
    assert (d = d') as -> by (by eapply sessions_inj; [apply (mi_maps _ I)|..]).
    apply list_elem_of_fmap. by exists (ks', d'). }
  cbn [mbind option_bind]. exists m2. split.
  { do 3 f_equal. unfold zlen. cbn. lia. }
  split; [done|].
  assert (Hg : forall l', (exists ks' d', (ks', d') ∈ (ks, d) :: todo skip L /\ m_sessions m !! d' = Some l') <->
    l' = l \/ (exists ks' d', (ks', d') ∈ todo skip L /\ m_sessions m1 !! d' = Some l')).
  { intros l'. split.
    - intros (ks' & d' & [[= -> ->]|Hin]%elem_of_cons & H'); [left; congruence|].
      destruct (decide (l' = l)); [by left|right]. exists ks', d'. split; [done|]. by apply S1.
    - intros [->|(ks' & d' & Hin & H')]; [exists ks, d; split; [left|done]|].
      exists ks', d'. split; [by right|]. by apply S1 in H' as [? _]. }
  constructor.
  - intros k l'. rewrite P2, P1, Hg. tauto.
  - intros d' l'. rewrite S2, S1, Hg. tauto.
  - intros l' Hn. rewrite Hg in Hn. rewrite E2, E1; tauto.
Qed.

(** What creations keep and add. *)
Lemma create_one cfg ci m ds n :
  cfg_ok cfg -> input_ok ci -> mgr_inv (mkWorld m ds n) ->
  match CreateSession cfg ci m with
  | (Ok l, m') => mgr_inv (mkWorld m' ds n) /\
      m_sessionsByPeer m' = <[key_of cfg := l]> (m_sessionsByPeer m) /\
      m_sessionsByPeer m !! key_of cfg = None /\
      (forall l en, m_entries m !! l = Some en -> m_entries m' !! l = Some en) /\
      m_discriminators m ⊆ m_discriminators m'
  | (Err e, m') => m' = m /\ create_refused cfg ci m e
  | (Panic, _) => False
  end.
Proof.
  intros Hc Hi I. pose proof (CreateSession_cases cfg ci m Hc Hi) as H.
  destruct (CreateSession cfg ci m) as [[l|e|] m'] eqn:E; [|done|done].
  pose proof (CreateSession_steps cfg ci m l m' ds n Hc Hi E) as Hr.
  destruct H as (d & s & Hcr & -> & ->). split.
  { revert I. clear -Hr. induction Hr as [|w1 w2 w3 H12 _ IH]; [done|]. intros I. by apply IH, (mgr_step_inv w1). }
  split; [done|]. split; [apply Hcr|]. split; [intros l en He; by apply entries_lookup_app|].
  cbn. set_solver.
Qed.

(** The ways a creation can fail other than by a session of the same key: an invalid
    peer address, no discriminator beside those in [al], a configuration the session
    refuses. *)
Definition create_failed (cfg : SessionConfig) (ci : CreateInput) (al : DiscriminatorAllocator) : Prop :=
  Addr_IsValid (cfg_PeerAddr cfg) = false \/
  (exists e, Allocate (ci_reads ci) al = (Err e, al)) \/
  (exists d e, is_u32 d /\ d <> 0 /\ NewSession cfg d true (ci_rnd ci) = Err e).

Lemma refused_failed cfg ci m e al :
  input_ok ci -> create_refused cfg ci m e -> m_discriminators m ⊆ al ->
  is_Some (m_sessionsByPeer m !! key_of cfg) \/ create_failed cfg ci al.
Proof.
  intros [Hrd _] Hr Hal. destruct Hr as [[_ H]|[[_ H]|[(ea & _ & a & H)|(es & d & _ & Hs & a & H)]]]; [by right; left|by left|..].
  - right. right. left. exists ea. by eapply Allocate_Err_mono.
  - right. right. right. apply Allocate_Ok in H as (_ & Hd & _ & Hu). eauto 10.
Qed.

Section create_loop.
Context (inp : string -> CreateInput) (skip : string -> bool).
Hypothesis inp_ok : forall ks, input_ok (inp ks).

Let act (key : string) (rc : ReconcileConfig) (m : Manager) : go mgr_error unit * Manager :=
  let '(r, m) := CreateSession (rc_SessionConfig rc) (inp key) m in (go_void r, m).

Lemma create_loop L m ds n :
  mgr_inv (mkWorld m ds n) -> (forall ks rc, (ks, rc) ∈ L -> cfg_ok (rc_SessionConfig rc)) ->
  exists c errs m', reconcile_loop skip act L m = Some (c, errs, m') /\
    c + zlen errs = zlen (todo skip L) /\ mgr_inv (mkWorld m' ds n) /\
    (forall k l, m_sessionsByPeer m !! k = Some l ->
       m_sessionsByPeer m' !! k = Some l /\ m_entries m' !! l = m_entries m !! l) /\
    (forall k l, m_sessionsByPeer m' !! k = Some l -> m_sessionsByPeer m !! k = Some l \/
       exists ks rc, (ks, rc) ∈ todo skip L /\ k = key_of (rc_SessionConfig rc)) /\
    (errs = [] -> forall ks rc, (ks, rc) ∈ todo skip L ->
       is_Some (m_sessionsByPeer m' !! key_of (rc_SessionConfig rc))) /\
    (forall ks rc, (ks, rc) ∈ todo skip L ->
       is_Some (m_sessionsByPeer m' !! key_of (rc_SessionConfig rc)) \/
       create_failed (rc_SessionConfig rc) (inp ks) (m_discriminators m')) /\
    m_discriminators m ⊆ m_discriminators m'.
Proof.
  revert m. induction L as [|[ks rc] L IH]; intros m I Hok; cbn [reconcile_loop].
  { exists 0, [], m. split; [done|]. split; [done|]. split; [done|]. split; [done|].
    split; [auto|]. split; [intros _|split; [|done]]; intros ks rc H; by apply elem_of_nil in H. }
  assert (Hok' : forall ks rc, (ks, rc) ∈ L -> cfg_ok (rc_SessionConfig rc)).
  { intros ks' rc' H. apply (Hok ks'). by right. }
  rewrite todo_cons. destruct (skip ks); [by apply IH|].
  pose proof (create_one (rc_SessionConfig rc) (inp ks) m ds n (Hok ks rc ltac:(left)) (inp_ok ks) I) as Hc.
  unfold act at 1. destruct (CreateSession (rc_SessionConfig rc) (inp ks) m) as [[l|e|] m1]; [| |done].
  - destruct Hc as (I1 & P1 & Hk & E1 & D1). cbn [go_void mbind go_bind].
    destruct (IH m1 I1 Hok') as (c & errs & m2 & -> & Hn & I2 & K2 & A2 & F2 & G2 & D2). cbn [mbind option_bind].
    assert (K1 : forall k l', m_sessionsByPeer m !! k = Some l' -> m_sessionsByPeer m1 !! k = Some l').
    { intros k l' Hl. rewrite P1, lookup_insert_ne; [done|]. intros E. subst k. congruence. }
    exists (c + 1), errs, m2. split; [done|]. split; [unfold zlen in *; cbn; lia|]. split; [done|].
    assert (Hnew : is_Some (m_sessionsByPeer m2 !! key_of (rc_SessionConfig rc))).
    { exists l. apply K2. rewrite P1. apply lookup_insert_eq. }
    split; [|split; [|split; [|split]]].
    + intros k l' Hl. destruct (K2 k l' (K1 k l' Hl)) as [H1 H2]. split; [done|]. rewrite H2.
      destruct (mo_peers _ (mi_maps _ I) k l' Hl) as (en & He & _). cbn in He.
      by rewrite He, (E1 _ _ He).
    + intros k l' Hl. destruct (A2 k l' Hl) as [H|(ks' & rc' & Hin & ->)].
      * rewrite P1 in H. destruct (decide (key_of (rc_SessionConfig rc) = k)) as [<-|Hne].
        -- right. exists ks, rc. split; [left|done].
        -- rewrite lookup_insert_ne in H by done. by left.
      * right. exists ks', rc'. split; [by right|done].
    + intros He ks' rc' [[= -> ->]|Hin]%elem_of_cons; [done|by apply (F2 He ks')].
    + intros ks' rc' [[= -> ->]|Hin]%elem_of_cons; [by left|by apply G2].
    + set_solver.
  - destruct Hc as [-> Href]. cbn [go_void mbind go_bind].
    destruct (IH m I Hok') as (c & errs & m2 & -> & Hn & I2 & K2 & A2 & F2 & G2 & D2). cbn [mbind option_bind].
    exists c, (e :: errs), m2. split; [done|]. split; [unfold zlen in *; cbn; lia|]. split; [done|].
    split; [done|]. split; [|split; [done|split; [|done]]].
    + intros k l' Hl. destruct (A2 k l' Hl) as [H|(ks' & rc' & Hin & ->)]; [by left|right].
      exists ks', rc'. split; [by right|done].
    + intros ks' rc' [[= -> ->]|Hin]%elem_of_cons; [|by apply G2].
      destruct (refused_failed _ _ _ _ _ (inp_ok ks) Href D2) as [[l Hl]|]; [|by right].
      left. exists l. by apply K2.
Qed.
End create_loop.

(** ** Property *)

(** A desired configuration under the key the manager derives for it. *)
Definition rc_ok (rc : ReconcileConfig) : Prop :=
  cfg_ok (rc_SessionConfig rc) /\ key_string (key_of (rc_SessionConfig rc)) = rc_Key rc.

Definition wanted (desired : list ReconcileConfig) (sk : sessionKey) : Prop :=
  exists rc, rc ∈ desired /\ rc_Key rc = key_string sk.

Lemma todo_length {A} (skip : string -> bool) (o : order string A) (mm : gmap string A) :
  (forall l, o l ≡ₚ l) -> zlen (todo skip (o (map_to_list mm))) = zlen (todo skip (map_to_list mm)).
Proof. intros Ho. unfold zlen, todo. by rewrite (Ho (map_to_list mm)). Qed.

Section current.
Context (ordk : order sessionKey nat) (ordc : order string Z) (m : Manager).
Hypothesis M : maps_ok m.
Hypothesis Hdist : keys_distinct m.
Hypothesis Hok : forall l, ordk l ≡ₚ l.
Hypothesis Hoc : forall l, ordc l ≡ₚ l.

Let cur := sessionKeySet ordk m.

(** An entry has one key. *)
Lemma peers_inj sk sk' l :
  m_sessionsByPeer m !! sk = Some l -> m_sessionsByPeer m !! sk' = Some l -> sk = sk'.
Proof.
  intros (en & He & Hk & _)%(mo_peers _ M) (en' & He' & Hk' & _)%(mo_peers _ M). congruence.
Qed.

Lemma current_NoDup : NoDup (ordc (map_to_list cur)).*2.
Proof.
  rewrite Hoc. apply NoDup_fmap_2_strong; [|apply NoDup_map_to_list].
  intros [ks d] [ks' d'] H1%elem_of_map_to_list H2%elem_of_map_to_list Hd. cbn in Hd. subst d'.
  apply sessionKeySet_lookup in H1 as (sk & l & Hl & Hs & <-); [|done..].
  apply sessionKeySet_lookup in H2 as (sk' & l' & Hl' & Hs' & <-); [|done..].
  assert (l' = l) as -> by congruence. by rewrite (peers_inj sk sk' l).
Qed.

Lemma current_registered ks d :
  (ks, d) ∈ ordc (map_to_list cur) -> is_Some (m_sessions m !! d).
Proof.
  rewrite Hoc. intros H%elem_of_map_to_list.
  apply sessionKeySet_lookup in H as (sk & l & _ & Hs & _); [|done..]. by exists l.
Qed.

(** The first loop destroys exactly the sessions that are not desired. *)
Lemma gone_iff desired sk l :
  m_sessionsByPeer m !! sk = Some l ->
  (exists ks d, (ks, d) ∈ todo (has_key (desired_map rc_Key desired)) (ordc (map_to_list cur)) /\
                m_sessions m !! d = Some l)
  <-> ~ wanted desired sk.
Proof.
  intros Hl. setoid_rewrite list_elem_of_filter. setoid_rewrite Hoc.
  setoid_rewrite elem_of_map_to_list. cbn [fst]. unfold wanted.
  rewrite <- (desired_map_is_Some rc_Key desired (key_string sk)). split.
  - intros (ks & d & [Hsk H] & Hs') Hw.
    apply sessionKeySet_lookup in H as (sk' & l' & Hl' & Hs & <-); [|done..].
    assert (l' = l) as -> by congruence. rewrite (peers_inj sk sk' l) in Hw by done. congruence.
  - intros Hw. destruct (mo_peers _ M _ _ Hl) as (en & He & _ & Hs).
    exists (key_string sk), (s_localDiscr (se_session en)). split; [|done].
    split; [by apply not_true_is_false|]. apply sessionKeySet_lookup; [done..|]. by exists sk, l.
Qed.
End current.

(** Reconciliation, step by step. *)
Lemma reconcile_spec (w : World) (desired : list ReconcileConfig)
    (inp : string -> CreateInput) (ordk : order sessionKey nat) (ordc : order string Z)
    (ordd : order string ReconcileConfig) (R : mgr_reachable w)
    (Hdist : keys_distinct (w_m w)) (Hrc : Forall rc_ok desired) (Hinp : forall ks, input_ok (inp ks))
    (Hok : forall l, ordk l ≡ₚ l) (Hoc : forall l, ordc l ≡ₚ l) (Hod : forall l, ordd l ≡ₚ l) :
  let m := w_m w in
  exists created destroyed errs m',
    ReconcileSessions desired inp ordk ordc ordd m = Some (created, destroyed, errs, m') /\
    mgr_inv (mkWorld m' (w_discrs w) (w_slots w)) /\
    (forall sk l, LookupByPeer sk m = Some l -> wanted desired sk ->
       LookupByPeer sk m' = Some l /\ m_entries m' !! l = m_entries m !! l) /\
    (forall sk, is_Some (LookupByPeer sk m') -> wanted desired sk) /\
    (errs = [] -> forall rc, rc ∈ desired ->
       exists sk, is_Some (LookupByPeer sk m') /\ key_string sk = rc_Key rc) /\
    (forall key rc, desired_map rc_Key desired !! key = Some rc ->
       (exists sk, is_Some (LookupByPeer sk m') /\ key_string sk = key) \/
       create_failed (rc_SessionConfig rc) (inp key) (m_discriminators m')) /\
    destroyed = zlen (todo (has_key (desired_map rc_Key desired)) (map_to_list (sessionKeySet ordk m))) /\
    created + zlen errs = zlen (todo (has_key (sessionKeySet ordk m)) (map_to_list (desired_map rc_Key desired))) /\
    (forall sk, is_Some (LookupByPeer sk m') -> is_Some (LookupByPeer sk m) \/
       exists rc, rc ∈ desired /\ sk = key_of (rc_SessionConfig rc)).
Proof.
  pose proof (mgr_reachable_inv w R) as I. destruct w as [m ds n]. cbn [w_m w_discrs w_slots] in *.
  pose proof (mi_maps _ I) as M. cbn [w_m] in M. cbn zeta. rewrite Forall_forall in Hrc.
  pose proof (gone_iff ordk ordc m M Hdist Hok Hoc desired) as Hgone.
  pose proof (fun ks d => sessionKeySet_lookup ordk m ks d M Hdist Hok) as Hcur.
  destruct (destroy_loop (has_key (desired_map rc_Key desired)) (ordc (map_to_list (sessionKeySet ordk m)))
              m ds n I (current_NoDup ordk ordc m M Hdist Hok Hoc)
              (current_registered ordk ordc m M Hdist Hok Hoc)) as (m1 & E1 & I1 & [P1 S1 N1]).
  set (cur := sessionKeySet ordk m) in *. set (des := desired_map rc_Key desired) in *.
  destruct (create_loop inp (has_key cur) Hinp (ordd (map_to_list des)) m1 ds n I1)
    as (c & errs & m2 & E2 & Hn & I2 & K2 & A2 & F2 & G2 & _).
  { intros ks rc. rewrite Hod. intros H%elem_of_map_to_list.
    apply desired_map_lookup in H as [Hin _]. by apply Hrc. }
  unfold ReconcileSessions, reconcile. fold cur des. rewrite E1. cbn [mbind option_bind].
  rewrite E2. cbn [mbind option_bind]. eexists c, _, errs, m2. split; [reflexivity|]. split; [done|].
  unfold LookupByPeer. split_and!.
  - intros sk l Hl Hw. destruct (K2 sk l) as [H1 H2].
    + apply P1. rewrite (Hgone sk l Hl). tauto.
    + split; [done|]. rewrite H2. apply N1. rewrite (Hgone sk l Hl). tauto.
  - intros sk [l Hl]. destruct (A2 sk l Hl) as [H|(ks & rc & Hin & ->)].
    + apply P1 in H as [H Hn']. rewrite (Hgone sk l H) in Hn'.
      pose proof (desired_map_is_Some rc_Key desired (key_string sk)) as Hd. fold des in Hd.
      unfold wanted in *. destruct (has_key des (key_string sk)); [by apply Hd|].
      exfalso. apply Hn'. intros Hw. by apply Hd in Hw.
    + apply list_elem_of_filter in Hin as [_ Hin]. rewrite Hod in Hin.
      apply elem_of_map_to_list, desired_map_lookup in Hin as [Hin <-].
      exists rc. split; [done|]. symmetry. by apply Hrc.
  - intros -> rc Hin.
    assert (Hw : has_key des (rc_Key rc) = true) by (apply desired_map_is_Some; by exists rc).
    unfold has_key in Hw. apply bool_decide_eq_true in Hw as [rc' Hrc'].
    apply desired_map_lookup in Hrc' as Hd. destruct Hd as [Hin' Hk'].
    destruct (has_key cur (rc_Key rc)) eqn:Hc.
    + unfold has_key in Hc. apply bool_decide_eq_true in Hc as [d Hd].
      apply Hcur in Hd as (sk & l & Hl & _ & Hk). exists sk. split; [|done]. exists l.
      apply K2, P1. split; [done|]. rewrite (Hgone sk l Hl). intros Hnw. apply Hnw.
      exists rc. by rewrite Hk.
    + exists (key_of (rc_SessionConfig rc')). split; [|rewrite <- Hk'; by apply Hrc].
      apply (F2 eq_refl (rc_Key rc)). apply list_elem_of_filter. split; [done|]. rewrite Hod.
      by apply elem_of_map_to_list.
  - intros key rc Hkey. apply desired_map_lookup in Hkey as Hin. destruct Hin as [Hin <-].
    destruct (has_key cur (rc_Key rc)) eqn:Hc.
    + left. unfold has_key in Hc. apply bool_decide_eq_true in Hc as [d Hd].
      apply Hcur in Hd as (sk & l & Hl & _ & Hk). exists sk. split; [|done]. exists l.
      apply K2, P1. split; [done|]. rewrite (Hgone sk l Hl). intros Hnw. apply Hnw. exists rc. by rewrite Hk.
    + destruct (G2 (rc_Key rc) rc) as [H|H]; [|left|by right].
      * apply list_elem_of_filter. split; [done|]. rewrite Hod. by apply elem_of_map_to_list.
      * exists (key_of (rc_SessionConfig rc)). split; [done|]. by apply Hrc.
  - by apply todo_length.
  - rewrite Hn. by apply todo_length.
  - intros sk [l Hl]. destruct (A2 sk l Hl) as [H|(ks & rc & Hin & ->)].
    + left. exists l. by apply P1 in H as [H _].
    + right. exists rc. split; [|done]. apply list_elem_of_filter in Hin as [_ Hin]. rewrite Hod in Hin.
      by apply elem_of_map_to_list, desired_map_lookup in Hin as [Hin _].
Qed.


(** The sample session is replaced by one on another interface. *)
Definition sample_desired : list ReconcileConfig :=
  [mkReconcileConfig "10.0.0.2|10.0.0.1|eth1" second_cfg].

Lemma sample_plain_keys : plain_keys sample_manager.
Proof.
  intros sk l Hl. destruct (decide (sk = key_of (sample_cfg 3))) as [->|Hne]; [vm_compute; repeat split; done|].
  change (m_sessionsByPeer sample_manager)
    with (<[key_of (sample_cfg 3) := 0%nat]> (∅ : gmap sessionKey nat)) in Hl.
  by rewrite lookup_insert_ne, lookup_empty in Hl by done.
Qed.

