(* ===== verification/ManagerCalls.v ===== *)
(** * Calls on many sessions

    The manager's loops that call one entry point of several sessions: path down on
    an interface event, administrative down on a drain. *)

From stdpp Require Import relations.
From S2P Require Import Prelude Packet Fsm Auth Netip Jitter Session SessionInv SessionSteps SessionProps SessionFrame.
From S2P Require Import Discriminator Micro Unsolicited Echo Manager ManagerSteps ManagerInv ManagerOps ManagerProps.

Local Open Scope Z_scope.

Definition call_all (f : Session -> Session) (ls : list nat) (m : Manager) : Manager :=
  fold_left (fun m l => on_session l f m) ls m.

Lemma call_all_entries f ls m :
  call_all f ls m = {| m with m_entries := m_entries (call_all f ls m) |}.
Proof.
  revert m. induction ls as [|l ls IH]; intros m; [by destruct m|].
  cbn [call_all fold_left]. fold (call_all f ls (on_session l f m)). rewrite IH at 1. reflexivity.
Qed.

Lemma call_all_lookup f ls m l :
  NoDup ls ->
  m_entries (call_all f ls m) !! l =
  if bool_decide (l ∈ ls) then entry_call f <$> m_entries m !! l else m_entries m !! l.
Proof.
  revert m. induction ls as [|l' ls IH]; intros m Hnd; [done|]. apply NoDup_cons in Hnd as [Hni Hnd].
  cbn [call_all fold_left]. fold (call_all f ls (on_session l' f m)). rewrite IH by done.
  cbn [on_session upd_entry m_entries]. destruct (decide (l = l')) as [->|Hne].
  - rewrite bool_decide_false by done. rewrite bool_decide_true by set_solver. apply list_lookup_alter_eq.
  - rewrite list_lookup_alter_ne by done. destruct (decide (l ∈ ls)).
    + by rewrite !bool_decide_true by set_solver.
    + by rewrite !bool_decide_false by set_solver.
Qed.

Lemma call_all_steps f ls m ds n :
  session_call f -> rtc mgr_step (mkWorld m ds n) (mkWorld (call_all f ls m) ds n).
Proof.
  intros Hf. revert m. induction ls as [|l ls IH]; intros m; [done|].
  eapply rtc_l; [by apply ms_call|]. apply IH.
Qed.

Lemma path_down_all_calls ls m : (path_down_all ls m).2 = call_all (fun s => (SetPathDown s).2) ls m.
Proof.
  revert m. induction ls as [|l ls IH]; intros m; [done|]. cbn [path_down_all].
  change (call_all _ (l :: ls) m) with (call_all (fun s => (SetPathDown s).2) ls (on_session l (fun s => (SetPathDown s).2) m)).
  destruct (m_entries m !! l) as [en|] eqn:E; rewrite <- IH.
  - by destruct (path_down_all ls (on_session l _ m)).
  - f_equal. f_equal. unfold on_session, upd_entry. destruct m. cbn in *. f_equal.
    symmetry. apply list_eq. intros i. destruct (decide (i = l)) as [->|].
    + by rewrite list_lookup_alter_eq, E.
    + by rewrite list_lookup_alter_ne.
Qed.

(** The sessions of a reachable manager are all different. *)
Lemma sessions_nodup m (ord : order Z nat) :
  maps_ok m -> (forall l, ord l ≡ₚ l) -> NoDup (ord (map_to_list (m_sessions m))).*2.
Proof.
  intros M Ho. rewrite Ho. apply NoDup_fmap_2_strong; [|apply NoDup_map_to_list].
  intros [d l] [d' l'] H1%elem_of_map_to_list H2%elem_of_map_to_list; cbn. intros ->. f_equal. by eapply sessions_inj.
Qed.

(** The sessions bound to an interface. *)
Lemma bound_to_spec m ifName (ord : order Z nat) l :
  maps_ok m -> (forall l, ord l ≡ₚ l) ->
  l ∈ bound_to ifName ord m <-> exists en, registered m l en /\ sk_ifName (se_key en) = ifName.
Proof.
  intros M Ho. unfold bound_to. rewrite list_elem_of_fmap. split.
  - intros ([d l'] & -> & Hin). apply list_elem_of_In, filter_In in Hin as [Hin Hb]. cbn in *.
    apply list_elem_of_In in Hin. rewrite Ho in Hin. apply elem_of_map_to_list in Hin.
    destruct (mo_sessions _ M _ _ Hin) as (en & He & Hd & _). rewrite He in Hb. exists en.
    split; [split; [done|by rewrite Hd]|by apply bool_decide_eq_true in Hb].
  - intros (en & [He Hs] & Hi). exists (s_localDiscr (se_session en), l). split; [done|].
    apply list_elem_of_In, filter_In. cbn. rewrite He. split; [|by apply bool_decide_eq_true].
    apply list_elem_of_In. rewrite Ho. by apply elem_of_map_to_list.
Qed.

Lemma bound_to_nodup m ifName (ord : order Z nat) :
  maps_ok m -> (forall l, ord l ≡ₚ l) -> NoDup (bound_to ifName ord m).
Proof.
  intros M Ho. unfold bound_to. pose proof (sessions_nodup m ord M Ho) as Hnd. revert Hnd.
  generalize (ord (map_to_list (m_sessions m))). induction l as [|[d l'] ls IH]; cbn [List.filter fmap list_fmap]; [done|].
  intros [Hni Hnd]%NoDup_cons. case_match; [|by apply IH]. cbn [fmap list_fmap]. constructor; [|by apply IH].
  intros (x & Hx & Hin)%list_elem_of_fmap. apply Hni. apply list_elem_of_In, filter_In in Hin as [Hin _].
  apply list_elem_of_fmap. exists x. split; [done|by apply list_elem_of_In].
Qed.

(** The sample manager with its session running. *)
Definition started_manager : Manager := default sample_manager (session_start 0 (at_time 0) sample_manager).

Lemma started_reachable : mgr_reachable (mkWorld started_manager [] 0).
Proof.
  destruct sample_world_reachable as (p & s & a & Hp & Hr). exists p, s, a. split; [done|].
  eapply rtc_r; [exact Hr|]. eapply (ms_start 0 (at_time 0)). vm_compute. reflexivity.
Qed.
