(* ===== verification/Shutdown.v ===== *)
(** * Graceful shutdown ([cmd/gobfd/shutdown.go])

    Drain, wait, close: every session is told to go to AdminDown, the other
    goroutines run on for a while, then the manager is closed and the servers are
    shut down.  What happens during the wait is an argument, the outcomes of the
    servers' shutdown an input. *)

From stdpp Require Import relations.
From S2P Require Import Prelude Packet Fsm Auth Netip Jitter Session SessionInv SessionSteps SessionProps SessionFrame SessionDrain.
From S2P Require Import Discriminator Micro Unsolicited Echo Manager ManagerSteps ManagerInv ManagerOps ManagerProps ManagerCalls.

Local Open Scope Z_scope.

(** The errors of the servers that did not shut down, joined. *)
Definition shutdown_error : Type := list nat.

Fixpoint shutdown_servers (i : nat) (ok : list bool) : shutdown_error :=
  match ok with
  | [] => []
  | b :: ok => if b then shutdown_servers (S i) ok else i :: shutdown_servers (S i) ok
  end.

(** [sleep] is what the other goroutines do in the drain period; [None] is a panic. *)
Definition gracefulShutdown (ord ords orde : order Z nat) (sleep : Manager -> option Manager) (servers : list bool)
    (m : Manager) : option (go shutdown_error unit * Manager) :=
  let m := DrainAllSessions ord m in
  m ← sleep m;
  m ← Close ords orde m;
  let errs := shutdown_servers 0 servers in
  Some (if bool_decide (errs = []) then Ok tt else Err errs, m).

(** ** Sessions under the manager's steps *)

(** What can become of a session's goroutine. *)
Definition evolves (t t' : thread Session Sys) : Prop :=
  match t, t' with
  | Pending _, _ => True
  | Running y, (Running y' | Stopped y') | Stopped y, Stopped y' => rtc session_step y y'
  | _, _ => False
  end.

Lemma evolves_refl t : evolves t t.
Proof. destruct t; cbn; [done|apply rtc_refl..]. Qed.

Lemma evolves_trans t1 t2 t3 : evolves t1 t2 -> evolves t2 t3 -> evolves t1 t3.
Proof. destruct t1, t2, t3; cbn; try done; intros H1 H2; by etrans. Qed.

Definition entry_evolves (en en' : sessionEntry) : Prop :=
  evolves (se_thread en) (se_thread en') /\ se_key en' = se_key en /\
  ident (se_session en') = ident (se_session en).

Lemma entry_evolves_refl en : entry_evolves en en.
Proof. split_and!; [apply evolves_refl|done|done]. Qed.

Definition entries_evolve (m m' : Manager) : Prop :=
  forall l en, m_entries m !! l = Some en -> exists en', m_entries m' !! l = Some en' /\ entry_evolves en en'.

Lemma entries_evolve_refl m m' : m_entries m' = m_entries m -> entries_evolve m m'.
Proof. intros E l en H. exists en. rewrite E. split; [done|apply entry_evolves_refl]. Qed.

Lemma entries_evolve_trans m1 m2 m3 : entries_evolve m1 m2 -> entries_evolve m2 m3 -> entries_evolve m1 m3.
Proof.
  intros H1 H2 l en He. destruct (H1 l en He) as (en2 & He2 & E1 & K1 & J1). destruct (H2 l en2 He2) as (en3 & He3 & E2 & K2 & J2).
  exists en3. split; [done|]. split_and!; [by eapply evolves_trans|congruence|congruence].
Qed.

Lemma upd_entry_evolves l f m :
  (forall en, m_entries m !! l = Some en -> entry_evolves en (f en)) -> entries_evolve m (upd_entry l f m).
Proof.
  intros Hf i en He. cbn [upd_entry m_entries]. destruct (decide (i = l)) as [->|Hne].
  - exists (f en). rewrite list_lookup_alter_eq, He. split; [done|by apply Hf].
  - exists en. rewrite list_lookup_alter_ne by done. split; [done|apply entry_evolves_refl].
Qed.

Lemma call_evolves f en : session_call f -> entry_evolves en (entry_call f en).
Proof.
  intros Hf. unfold entry_evolves, entry_call, se_session. cbn [se_thread se_key].
  destruct (se_thread en) as [s|y|y]; cbn; (split_and!; [|done|apply entry_ident, session_call_entry, Hf]);
    [done|..]; apply rtc_once, step_entry, session_call_entry, Hf.
Qed.

Lemma cancel_evolves en : entry_evolves en (entry_cancel en).
Proof. split_and!; [apply evolves_refl|done|done]. Qed.

Lemma close_sessions_evolve ls m : entries_evolve m (fold_left close_session ls m).
Proof.
  revert m. induction ls as [|[d l] ls IH]; intros m; [by apply entries_evolve_refl|].
  cbn [fold_left]. eapply entries_evolve_trans; [|apply IH].
  eapply entries_evolve_trans; [apply (upd_entry_evolves l entry_cancel); intros en _; apply cancel_evolves|].
  by apply entries_evolve_refl.
Qed.

Lemma close_echos_entries ls m : m_entries (fold_left close_echo ls m) = m_entries m.
Proof. revert m. induction ls as [|[d l] ls IH]; intros m; [done|]. cbn [fold_left]. by rewrite IH. Qed.

Lemma close_all_entries chs m m' : close_all chs m = Some m' -> m_entries m' = m_entries m.
Proof.
  revert m'. induction chs as [|ch chs IH]; intros m'; cbn; [by intros [= <-]|].
  intros (m1 & H1%IH & H)%bind_Some. rewrite <- H1. unfold close_channel in H. repeat case_match; simplify_eq; done.
Qed.

Lemma Close_evolves ords orde m m' : Close ords orde m = Some m' -> entries_evolve m m'.
Proof.
  unfold Close. intros (m3 & H3%close_all_entries & [= <-])%bind_Some. cbn [m_entries] in H3.
  eapply entries_evolve_trans; [apply (close_sessions_evolve (ords (map_to_list (m_sessions m))))|].
  apply entries_evolve_refl. cbn [m_entries]. etrans; [exact H3|]. apply (close_echos_entries _ (fold_left close_session _ _)).
Qed.

Lemma mgr_step_evolves w w' : mgr_step w w' -> mgr_inv w -> entries_evolve (w_m w) (w_m w').
Proof.
  intros Hs I. destruct Hs; cbn [w_m]; try (by apply entries_evolve_refl).
  - apply registerAndStart_inv in H3 as (_ & _ & ->). intros i en He. exists en. cbn [m_entries].
    rewrite (entries_lookup_app _ _ _ _ He). split; [done|apply entry_evolves_refl].
  - apply unregister_inv in H as (_ & _ & ->). by apply entries_evolve_refl.
  - apply upd_entry_evolves. intros en _. apply cancel_evolves.
  - unfold markSessionUnsolicited. case_match; [|by apply entries_evolve_refl].
    apply upd_entry_evolves. intros en _. split_and!; [apply evolves_refl|done|done].
  - apply upd_entry_evolves. intros en _. by apply call_evolves.
  - unfold session_start in H. apply bind_Some in H as (en & He & H). destruct (se_thread en) as [s|y|y] eqn:Et; try done.
    injection H as <-. apply upd_entry_evolves. intros en' He'. rewrite He in He'. injection He' as <-. unfold entry_evolves, se_session. rewrite Et. cbn. split_and!; [done|done|apply Run_start_ident].
  - unfold session_turn in H. apply bind_Some in H as (en & He & H). destruct (se_thread en) as [s|y|y] eqn:Et; try done.
    apply bind_Some in H as (r & Hr & H). destruct r as [y'|]; [|done]. injection H as <-.
    eapply entries_evolve_trans; [|by apply entries_evolve_refl]. apply upd_entry_evolves.
    intros en' He'. rewrite He in He'. injection He' as <-. unfold entry_evolves, se_session. rewrite Et. cbn.
    split_and!; [apply rtc_once; by eapply step_turn|done|]. apply turn_frame in Hr. apply Hr.
  - unfold session_stop in H. apply bind_Some in H as (en & He & H). destruct (se_thread en) as [s|y|y] eqn:Et; try done.
    destruct (se_cancelled en); [|done]. injection H as <-. apply upd_entry_evolves.
    intros en' He'. rewrite He in He'. injection He' as <-. unfold entry_evolves, se_session. rewrite Et. cbn.
    split_and!; [apply rtc_refl|done|done].
  - unfold echo_start in H. apply bind_Some in H as (en & He & H). repeat case_match; simplify_eq. by apply entries_evolve_refl.
  - unfold echo_turn in H. apply bind_Some in H as (en & He & H). repeat case_match; simplify_eq.
    apply bind_Some in H as (r & _ & H). repeat case_match; simplify_eq. by apply entries_evolve_refl.
  - unfold echo_stop in H. apply bind_Some in H as (en & He & H). repeat case_match; simplify_eq; by apply entries_evolve_refl.
  - apply entries_evolve_refl. unfold CreateMicroBFDGroup. repeat case_match; done.
  - apply entries_evolve_refl. unfold DestroyMicroBFDGroup. repeat case_match; done.
  - destruct (RunDispatch_turn_ok t ordg ords m H H0) as (m2 & E & A & _).
    { intros us. apply (slots_policy m ds n). apply (mi_slots _ I). }
    { apply (mi_channels _ I). }
    assert (m2 = m') as -> by congruence. apply entries_evolve_refl, A.
  - destruct (unsubscribe_ok ch m (mi_channels _ I)) as (m2 & E & _ & cs & subs & ->).
    assert (m' = {| m with m_channels := cs; m_subscribers := subs |}) as -> by congruence. by apply entries_evolve_refl.
  - by eapply Close_evolves.
Qed.

Lemma mgr_steps_evolve w w' : mgr_inv w -> rtc mgr_step w w' -> entries_evolve (w_m w) (w_m w') /\ mgr_inv w'.
Proof.
  intros I Hr. induction Hr as [w|w1 w2 w3 H12 _ IH]; [split; [by apply entries_evolve_refl|done]|].
  destruct (IH (mgr_step_inv _ _ H12 I)) as [E I3]. split; [|done].
  eapply entries_evolve_trans; [by apply mgr_step_evolves|exact E].
Qed.

(** ** The drain *)

Lemma drain_calls ord m : DrainAllSessions ord m = call_all SetAdminDown (ord (map_to_list (m_sessions m))).*2 m.
Proof.
  unfold DrainAllSessions, call_all. generalize (ord (map_to_list (m_sessions m))). intros ls. revert m.
  induction ls as [|[d l] ls IH]; intros m; [done|]. cbn [fold_left fmap list_fmap snd]. apply IH.
Qed.

Lemma drain_registered ord m l en :
  maps_ok m -> (forall ls, ord ls ≡ₚ ls) -> registered m l en ->
  m_entries (DrainAllSessions ord m) !! l = Some (entry_call SetAdminDown en).
Proof.
  intros M Ho [He Hs]. rewrite drain_calls, call_all_lookup by (by apply sessions_nodup).
  rewrite bool_decide_true, He; [done|]. apply list_elem_of_fmap. exists (s_localDiscr (se_session en), l).
  split; [done|]. rewrite Ho. by apply elem_of_map_to_list.
Qed.

Lemma running_flag y : reachable y -> s_running (ses y) = true.
Proof.
  induction 1 as [cfg d h rnd s0 s e _ _ _ _ _|y y' R IH Hs].
  - unfold Run_start. set (s1 := mkSession _ _ _ _ _ _ _ _ _ _ _ _ _ _ _ _ _ _ _ _ _ _ _ _ _ _ _ _ _ _ _ _ _ _ _ _ _).
    by destruct (applyJitter_frame s1 (calcTxIntervalHot s1)) as (? & ? & ->).
  - by rewrite (dr_running _ _ (step_drain y y' R Hs)).
Qed.

Lemma set_admin_down_pending y :
  reachable y -> (length (s_ctrlCh (ses y)) < ctrlChSize)%nat -> admin_pending (upd SetAdminDown y).
Proof.
  intros R Hl. unfold admin_pending, upd, SetAdminDown. cbn [ses]. rewrite running_flag, bool_decide_true by done.
  cbn [andb s_ctrlCh]. set_solver.
Qed.

(** ** Closing *)

Lemma close_session_cancels ls m l en :
  m_entries m !! l = Some en -> l ∈ ls.*2 \/ se_cancelled en = true ->
  exists en', m_entries (fold_left close_session ls m) !! l = Some en' /\ se_cancelled en' = true.
Proof.
  revert m en. induction ls as [|[d l'] ls IH]; intros m en He Hl; cbn [fold_left].
  - exists en. split; [done|]. destruct Hl as [Hl|]; [by apply elem_of_nil in Hl|done].
  - destruct (decide (l = l')) as [->|Hne].
    + apply (IH _ (entry_cancel en)); [|by right]. cbn [close_session set_discriminators m_entries upd_entry snd].
      by rewrite list_lookup_alter_eq, He.
    + apply (IH _ en).
      * cbn [close_session set_discriminators m_entries upd_entry snd]. by rewrite list_lookup_alter_ne.
      * destruct Hl as [[Hl|Hl]%elem_of_cons|]; [done|by left|by right].
Qed.

Lemma Close_cancels ords orde m m' l en :
  maps_ok m -> (forall ls, ords ls ≡ₚ ls) -> Close ords orde m = Some m' -> registered m l en ->
  exists en', m_entries m' !! l = Some en' /\ se_cancelled en' = true.
Proof.
  intros M Ho Hc [He Hs]. unfold Close in Hc. apply bind_Some in Hc as (m3 & H3%close_all_entries & Heq).
  injection Heq as <-. cbn [m_entries] in *. rewrite H3.
  destruct (close_session_cancels (ords (map_to_list (m_sessions m))) m l en He) as (en' & He' & Hcan).
  { left. apply list_elem_of_fmap. exists (s_localDiscr (se_session en), l). split; [done|].
    rewrite Ho. by apply elem_of_map_to_list. }
  exists en'. split; [|done]. rewrite <- He'. f_equal. apply (close_echos_entries _ (fold_left close_session _ _)).
Qed.

Lemma shutdown_servers_ok i servers : shutdown_servers i servers = [] <-> Forall (fun ok : bool => ok = true) servers.
Proof.
  revert i. induction servers as [|[] servers IH]; intros i; cbn; [by rewrite Forall_nil|..]; rewrite Forall_cons.
  - rewrite IH. tauto.
  - split; [done|]. by intros [? _].
Qed.

Lemma gracefulShutdown_closes m m1 ds ds1 n n1 ord ords orde sleep servers :
  mgr_inv (mkWorld m ds n) -> (forall ls, ords ls ≡ₚ ls) -> (forall ls, orde ls ≡ₚ ls) ->
  sleep (DrainAllSessions ord m) = Some m1 ->
  rtc mgr_step (mkWorld (DrainAllSessions ord m) ds n) (mkWorld m1 ds1 n1) ->
  entries_evolve (DrainAllSessions ord m) m1 /\ mgr_inv (mkWorld m1 ds1 n1) /\
  exists r m2, gracefulShutdown ord ords orde sleep servers m = Some (r, m2) /\ Close ords orde m1 = Some m2 /\
    mgr_inv (mkWorld m2 ds1 n1) /\
    m_sessions m2 = ∅ /\ m_sessionsByPeer m2 = ∅ /\ m_echoSessions m2 = ∅ /\
    (r = Ok tt <-> Forall (fun ok : bool => ok = true) servers).
Proof.
  intros I Hos Hoe Hsleep Hsteps.
  assert (Hd : rtc mgr_step (mkWorld m ds n) (mkWorld (DrainAllSessions ord m) ds n))
    by (rewrite drain_calls; apply call_all_steps; constructor).
  destruct (mgr_steps_evolve _ _ I Hd) as [_ Id]. destruct (mgr_steps_evolve _ _ Id Hsteps) as [Ev I1]. cbn [w_m] in *.
  destruct (Close_ok ords orde m1 ds1 n1 Hos Hoe I1) as (m2 & Hc & I2 & H1 & H2 & H3 & _).
  split; [exact Ev|]. split; [exact I1|].
  eexists _, m2. split; [unfold gracefulShutdown; rewrite Hsleep; cbn [mbind option_bind]; rewrite Hc; reflexivity|].
  split_and!; [done..|]. rewrite <- (shutdown_servers_ok 0). by case_bool_decide.
Qed.

(** C14: graceful shutdown tells the peers.  Whatever the other goroutines do during
    the drain period, the shutdown of a reachable manager completes without panic and
    leaves no session registered.  Every session whose loop was running, with room in
    its control channel, either still has the command before it at the end, or is in
    AdminDown for good and, unless it was so before, has handed its peer a packet with
    state and diagnostic AdminDown since the drain began.  Every session registered
    at the end of the period is cancelled, and the result is an error exactly if a
    server failed to shut down. *)
Theorem shutdown_tells_peers (m m1 : Manager) (ds ds1 : list Z) (n n1 : nat) (ord ords orde : order Z nat)
    (sleep : Manager -> option Manager) (servers : list bool)
    (R : mgr_reachable (mkWorld m ds n)) (Ho : forall ls, ord ls ≡ₚ ls) (Hos : forall ls, ords ls ≡ₚ ls)
    (Hoe : forall ls, orde ls ≡ₚ ls) (Hsleep : sleep (DrainAllSessions ord m) = Some m1)
    (Hsteps : rtc mgr_step (mkWorld (DrainAllSessions ord m) ds n) (mkWorld m1 ds1 n1)) :
  exists r m2, gracefulShutdown ord ords orde sleep servers m = Some (r, m2) /\
    m_sessions m2 = ∅ /\ m_sessionsByPeer m2 = ∅ /\ m_echoSessions m2 = ∅ /\
    (r = Ok tt <-> Forall (fun ok : bool => ok = true) servers) /\
    (forall l en, registered m1 l en -> exists en2, m_entries m2 !! l = Some en2 /\ se_cancelled en2 = true) /\
    (forall l en y, registered m l en -> se_thread en = Running y -> (length (s_ctrlCh (ses y)) < ctrlChSize)%nat ->
       exists en2 y2, m_entries m2 !! l = Some en2 /\ (se_thread en2 = Running y2 \/ se_thread en2 = Stopped y2) /\
         (admin_pending y2 \/
          s_cachedState (ses y2) = StateAdminDown /\ (s_cachedState (ses y) = StateAdminDown \/ told_since y y2))).
Proof.
  pose proof (mgr_reachable_inv _ R) as I. pose proof I as [M _ [Hth _] _ _]. cbn [w_m] in *.
  destruct (gracefulShutdown_closes m m1 ds ds1 n n1 ord ords orde sleep servers I Hos Hoe Hsleep Hsteps)
    as (Ev & I1 & r & m2 & Hg & Hc & _ & H1 & H2 & H3 & Hres).
  exists r, m2. split_and!; [done|done|done|done|exact Hres|..].
  - intros l en HR. eapply Close_cancels; [apply (mi_maps _ I1)|exact Hos|exact Hc|exact HR].
  - intros l en y HR Ht Hl. pose proof (drain_registered ord m l en M Ho HR) as He.
    destruct (entries_evolve_trans _ _ _ Ev (Close_evolves _ _ _ _ Hc) l _ He) as (en2 & He2 & E2 & _).
    destruct HR as [Hen _]. destruct (Hth _ _ Hen) as [Ry _]. rewrite Ht in Ry. cbn in Ry.
    cbn [entry_call se_thread] in E2. rewrite Ht in E2. cbn [thread_map] in E2.
    assert (Rd : reachable (upd SetAdminDown y)) by (eapply reach_step; [exact Ry|]; apply step_entry; constructor).
    pose proof (set_admin_down_pending y Ry Hl) as Hp.
    assert (Hf : forall y2, rtc session_step (upd SetAdminDown y) y2 -> admin_pending y2 \/
      s_cachedState (ses y2) = StateAdminDown /\ (s_cachedState (ses y) = StateAdminDown \/ told_since y y2)).
    { intros y2 Hr. destruct (drained _ _ Rd Hp Hr) as [_ [?|[? [Hs|?]]]]; [by left|right..]; (split; [done|]); [left|by right].
      rewrite <- Hs. unfold upd, SetAdminDown. cbn [ses]. by destruct (_ && _). }
    exists en2. destruct (se_thread en2) as [s|y2|y2]; [done|..]; exists y2; (split; [done|]); auto.
Qed.

(** The drain period of the sample: the session's loop takes the command. *)
Definition sample_sleep (m : Manager) : option Manager := default None (session_turn 0 CaseCtrl (at_time 1) m).

Definition drained_manager : Manager := default started_manager (sample_sleep (DrainAllSessions id started_manager)).

Lemma shutdown_tells_peers_witness :
  exists r m2, gracefulShutdown id id id sample_sleep [true; false] started_manager = Some (r, m2) /\
    m_sessions m2 = ∅ /\ r <> Ok tt /\
    exists en y en2 y2, registered started_manager 0 en /\ se_thread en = Running y /\
      m_entries m2 !! 0%nat = Some en2 /\ (se_thread en2 = Running y2 \/ se_thread en2 = Stopped y2) /\
      (admin_pending y2 \/
       s_cachedState (ses y2) = StateAdminDown /\ (s_cachedState (ses y) = StateAdminDown \/ told_since y y2)).
Proof.
  assert (Hturn : session_turn 0 CaseCtrl (at_time 1) (DrainAllSessions id started_manager) = Some (Some drained_manager))
    by (vm_compute; reflexivity).
  destruct (shutdown_tells_peers started_manager drained_manager [] [] 0 0 id id id sample_sleep [true; false]
              started_reachable (fun l => reflexivity l) (fun l => reflexivity l) (fun l => reflexivity l)
              ltac:(unfold sample_sleep; rewrite Hturn; reflexivity)
              ltac:(apply rtc_once; eapply ms_turn; exact Hturn))
    as (r & m2 & Hg & H1 & _ & _ & Hr & _ & H2).
  exists r, m2. split; [exact Hg|]. split; [exact H1|]. split.
  - intros Hok. apply Hr in Hok. apply Forall_cons_1 in Hok as [_ Hok]. apply Forall_cons_1 in Hok as [Hok _]. discriminate.
  - assert (He : exists en y, registered started_manager 0 en /\ se_thread en = Running y /\ s_ctrlCh (ses y) = []).
    { eexists _, _. split; [split; vm_compute; reflexivity|]. split; vm_compute; reflexivity. }
    destruct He as (en & y & HR & Ht & Hq). destruct (H2 0%nat en y HR Ht) as (en2 & y2 & He2).
    { rewrite Hq. unfold ctrlChSize. cbn. lia. }
    exists en, y, en2, y2. split_and!; [exact HR|exact Ht|apply He2..].
Defined.
