(* ===== verification/Metrics.v ===== *)
(** * Metrics ([internal/metrics/collector.go], [internal/bfd/callback.go])

    The collector and the calls of the manager that keep the gauge of active sessions.
    The vectors of the metrics library are an interface: a vector has a value for every
    list of label values, zero at first. *)

From stdpp Require Import strings relations.
From S2P Require Import Prelude Packet Fsm Auth Netip Jitter Session SessionInv SessionSteps SessionProps SessionFrame.
From S2P Require Import Discriminator Micro Unsolicited Echo Manager ManagerSteps ManagerInv ManagerOps ManagerProps.
From S2P Require Import ManagerCalls Shutdown.

Local Open Scope Z_scope.

(** What the library's documentation says of a vector. *)
Class MetricVec := {
  vec : Type;
  vec_new : vec;
  vec_add : list string -> Z -> vec -> vec;
  vec_get : list string -> vec -> Z;
  vec_get_new : forall k, vec_get k vec_new = 0;
  vec_get_add : forall k k' z v, vec_get k (vec_add k' z v) = vec_get k v + (if decide (k = k') then z else 0);
}.

Section Metrics.
Context `{MV : MetricVec}.

Record Collector := mkCollector {
  co_Sessions : vec;
  co_PacketsSent : vec;
  co_PacketsReceived : vec;
  co_PacketsDropped : vec;
  co_StateTransitions : vec;
  co_AuthFailures : vec;
}.

Definition newMetrics : Collector := mkCollector vec_new vec_new vec_new vec_new vec_new vec_new.

(** Inc and Dec of the metric with the given labels. *)
Definition vec_inc (labels : list string) (v : vec) : vec := vec_add labels 1 v.
Definition vec_dec (labels : list string) (v : vec) : vec := vec_add labels (-1) v.

Definition RegisterSession (peer localAddr : Addr) (sessionType : string) (c : Collector) : Collector :=
  {| c with co_Sessions := vec_inc [Addr_String peer; Addr_String localAddr; sessionType] (co_Sessions c) |}.

Definition UnregisterSession (peer localAddr : Addr) (sessionType : string) (c : Collector) : Collector :=
  {| c with co_Sessions := vec_dec [Addr_String peer; Addr_String localAddr; sessionType] (co_Sessions c) |}.

Definition IncPacketsSent (peer localAddr : Addr) (c : Collector) : Collector :=
  {| c with co_PacketsSent := vec_inc [Addr_String peer; Addr_String localAddr] (co_PacketsSent c) |}.

Definition IncPacketsReceived (peer localAddr : Addr) (c : Collector) : Collector :=
  {| c with co_PacketsReceived := vec_inc [Addr_String peer; Addr_String localAddr] (co_PacketsReceived c) |}.

Definition IncPacketsDropped (peer localAddr : Addr) (c : Collector) : Collector :=
  {| c with co_PacketsDropped := vec_inc [Addr_String peer; Addr_String localAddr] (co_PacketsDropped c) |}.

Definition RecordStateTransition (peer localAddr : Addr) (from to : string) (c : Collector) : Collector :=
  {| c with co_StateTransitions :=
       vec_inc [Addr_String peer; Addr_String localAddr; from; to] (co_StateTransitions c) |}.

Definition IncAuthFailures (peer localAddr : Addr) (c : Collector) : Collector :=
  {| c with co_AuthFailures := vec_inc [Addr_String peer; Addr_String localAddr] (co_AuthFailures c) |}.

(** ** The manager with its collector *)

Definition CreateSession_metered (cfg : SessionConfig) (ci : CreateInput) (mc : Manager * Collector)
    : go mgr_error nat * (Manager * Collector) :=
  match CreateSession cfg ci mc.1 with
  | (Ok l, m) =>
      (Ok l, (m, RegisterSession (cfg_PeerAddr cfg) (cfg_LocalAddr cfg) (SessionType_String (cfg_Type cfg)) mc.2))
  | (r, m) => (r, (m, mc.2))
  end.

(** The session whose labels are taken is the one found at the start. *)
Definition DestroySession_metered (localDiscr : Z) (mc : Manager * Collector)
    : go mgr_error unit * (Manager * Collector) :=
  match DestroySession localDiscr mc.1, m_sessions mc.1 !! localDiscr ≫= (m_entries mc.1 !!.) with
  | (Ok u, m), Some entry =>
      let s := se_session entry in
      (Ok u, (m, UnregisterSession (s_peerAddr s) (s_localAddr s) (SessionType_String (s_sessionType s)) mc.2))
  | (r, m), _ => (r, (m, mc.2))
  end.

(** Operations of the manager, and steps of its goroutines that neither register nor
    remove a session. *)
Inductive metered_step : World * Collector -> World * Collector -> Prop :=
| mt_create cfg ci m ds n c r m' c' :
    cfg_ok cfg -> input_ok ci -> CreateSession_metered cfg ci (m, c) = (r, (m', c')) ->
    metered_step (mkWorld m ds n, c) (mkWorld m' ds n, c')
| mt_destroy d m ds n c r m' c' :
    DestroySession_metered d (m, c) = (r, (m', c')) ->
    metered_step (mkWorld m ds n, c) (mkWorld m' ds n, c')
| mt_other w w' c :
    mgr_step w w' -> m_sessions (w_m w') = m_sessions (w_m w) -> metered_step (w, c) (w', c).

(** ** The active sessions *)

Definition session_labels (s : Session) : list string :=
  [Addr_String (s_peerAddr s); Addr_String (s_localAddr s); SessionType_String (s_sessionType s)].

Definition active_labels (m : Manager) : list (list string) :=
  omap (fun dl : Z * nat => (fun en => session_labels (se_session en)) <$> m_entries m !! dl.2) (map_to_list (m_sessions m)).

Definition active (labels : list string) (m : Manager) : Z :=
  Z.of_nat (length (filter (fun l => l = labels) (active_labels m))).

Lemma ident_labels s s' : ident s = ident s' -> session_labels s = session_labels s'.
Proof. intros [= _ Hp Hl _ Ht _]. unfold session_labels. by rewrite Hp, Hl, Ht. Qed.

Lemma omap_ext_in {A B} (f g : A -> option B) (l : list A) : (forall x, x ∈ l -> f x = g x) -> omap f l = omap g l.
Proof.
  induction l as [|x l IH]; intros H; [done|]. cbn. rewrite (H x) by left. rewrite IH; [done|]. intros y Hy. apply H. by right.
Qed.

Lemma omap_cons {A B} (f : A -> option B) (x : A) (l : list A) :
  omap f (x :: l) = match f x with Some y => y :: omap f l | None => omap f l end.
Proof. done. Qed.

Lemma active_labels_evolve (m m' : Manager) (M : gmap Z nat) :
  entries_evolve m m' -> (forall d l, M !! d = Some l -> is_Some (m_entries m !! l)) ->
  omap (fun dl : Z * nat => (fun en => session_labels (se_session en)) <$> m_entries m' !! dl.2) (map_to_list M) =
  omap (fun dl : Z * nat => (fun en => session_labels (se_session en)) <$> m_entries m !! dl.2) (map_to_list M).
Proof.
  intros E H. apply omap_ext_in. intros [d l] Hin%elem_of_map_to_list. destruct (H d l Hin) as [en He]. cbn.
  destruct (E l en He) as (en' & He' & _ & _ & Hi). rewrite He, He'. cbn. f_equal. by apply ident_labels.
Qed.

Lemma registered_entry m d l : maps_ok m -> m_sessions m !! d = Some l -> is_Some (m_entries m !! l).
Proof. intros M Hl. destruct (mo_sessions _ M d l Hl) as (en & He & _). by exists en. Qed.

Lemma active_cons (labels labels' : list string) (l : list (list string)) :
  Z.of_nat (length (filter (fun x => x = labels) (labels' :: l))) =
  Z.of_nat (length (filter (fun x => x = labels) l)) + (if decide (labels = labels') then 1 else 0).
Proof.
  rewrite filter_cons. destruct (decide (labels' = labels)) as [->|Hn].
  - rewrite decide_True by done. cbn. lia.
  - rewrite decide_False by congruence. lia.
Qed.

Lemma active_created labels cfg ci w d s :
  mgr_inv w -> created cfg ci (w_m w) d s ->
  active labels (with_session (key_of cfg) d s (w_m w)) =
  active labels (w_m w) + (if decide (labels = session_labels s) then 1 else 0).
Proof.
  intros I Hc. destruct (destroy_created w cfg ci d s I Hc) as (m2 & _ & _ & _ & _ & _ & _ & Hn).
  assert (E : entries_evolve (w_m w) (with_session (key_of cfg) d s (w_m w))).
  { intros i en He. exists en. cbn [with_session m_entries]. rewrite (entries_lookup_app _ _ _ _ He).
    split; [done|apply entry_evolves_refl]. }
  unfold active, active_labels at 1. change (m_sessions (with_session _ d s (w_m w)))
    with (<[d := length (m_entries (w_m w))]> (m_sessions (w_m w))).
  rewrite map_to_list_insert by done. rewrite omap_cons. cbv beta.
  change ((d, length (m_entries (w_m w))).2) with (length (m_entries (w_m w))).
  rewrite with_session_entry. cbn [fmap option_fmap option_map]. unfold se_session at 1. cbn [se_thread thread_get].
  rewrite active_cons. do 4 f_equal. apply active_labels_evolve; [done|].
  intros d' l' Hl. eapply registered_entry; [apply (mi_maps _ I)|done].
Qed.

Lemma active_destroyed labels w d l en :
  mgr_inv w -> m_sessions (w_m w) !! d = Some l -> m_entries (w_m w) !! l = Some en ->
  active labels (without_session d l en (w_m w)) =
  active labels (w_m w) - (if decide (labels = session_labels (se_session en)) then 1 else 0).
Proof.
  intros I Hl He.
  assert (E : entries_evolve (w_m w) (without_session d l en (w_m w))).
  { eapply entries_evolve_trans; [apply (upd_entry_evolves l entry_cancel); intros; apply cancel_evolves|].
    by apply entries_evolve_refl. }
  assert (Hreg : forall d' l', delete d (m_sessions (w_m w)) !! d' = Some l' -> is_Some (m_entries (w_m w) !! l')).
  { intros d' l' [_ H]%lookup_delete_Some. eapply registered_entry; [apply (mi_maps _ I)|done]. }
  unfold active at 1, active_labels. cbn [without_session m_sessions]. rewrite (active_labels_evolve _ _ _ E Hreg).
  unfold active, active_labels. rewrite <- (map_to_list_delete (m_sessions (w_m w)) d l Hl). rewrite omap_cons. cbv beta.
  change ((d, l).2) with l. rewrite He. cbn [fmap option_fmap option_map]. rewrite active_cons. lia.
Qed.

Definition metered_ok (s : World * Collector) : Prop :=
  mgr_inv s.1 /\ forall labels, vec_get labels (co_Sessions s.2) = active labels (w_m s.1).

Lemma metered_step_ok s s' : metered_step s s' -> metered_ok s -> metered_ok s'.
Proof.
  intros [cfg ci m ds n c r m' c' Hc Hi E|d m ds n c r m' c' E|w w' c Hs Hm] [I G]; cbn [fst snd w_m] in *.
  - unfold CreateSession_metered in E. cbn [fst snd] in E. pose proof (CreateSession_cases cfg ci m Hc Hi) as H.
    pose proof (fun l => CreateSession_steps cfg ci m l m' ds n Hc Hi) as Hst.
    destruct (CreateSession cfg ci m) as [[l|e|] m1]; [| |done]; simplify_eq.
    + destruct H as (d & s0 & Hcr & -> & ->). split; cbn [fst snd w_m co_Sessions RegisterSession].
      * specialize (Hst _ eq_refl). eapply (mgr_steps_evolve (mkWorld m ds n)); [done|exact Hst].
      * intros labels. unfold vec_inc. rewrite vec_get_add, G. pose proof (active_created labels cfg ci (mkWorld m ds n) d s0 I Hcr) as Ha.
        cbn [w_m] in Ha. rewrite Ha. destruct Hcr as (_ & _ & _ & Hn). apply NewSession_ident in Hn. unfold session_labels.
        injection Hn as _ -> -> _ -> _. done.
    + destruct H as [-> _]. by split.
  - unfold DestroySession_metered in E. cbn [fst snd] in E. pose proof (DestroySession_cases d m (mi_maps _ I)) as H.
    pose proof (fun m' => DestroySession_steps d m m' ds n) as Hst.
    destruct (DestroySession d m) as [[[]|e|] m1]; [| |done].
    + destruct H as (l & en & Hl & He & ->). rewrite Hl in E. cbn in E. rewrite He in E. simplify_eq.
      split; cbn [fst snd w_m co_Sessions UnregisterSession].
      * eapply (mgr_steps_evolve (mkWorld m ds n)); [done|by apply Hst].
      * intros labels. unfold vec_dec. rewrite vec_get_add, G.
        pose proof (active_destroyed labels (mkWorld m ds n) d l en I Hl He) as Ha. cbn [w_m] in Ha. rewrite Ha. fold (session_labels (se_session en)). case_decide; lia.
    + destruct H as (_ & -> & _). simplify_eq. by split.
  - split; [by eapply mgr_step_inv|]. intros labels. cbn [fst snd] in *. rewrite G. unfold active, active_labels. rewrite Hm.
    do 3 f_equal. symmetry. apply active_labels_evolve; [by apply mgr_step_evolves|].
    intros d' l' Hl. eapply registered_entry; [apply (mi_maps _ I)|done].
Qed.

(** C35: the gauge of active sessions is exact.  From a new manager and a new
    collector on, after any sequence of creations and removals of sessions, successful
    or not, and of steps of the goroutines in between, the gauge shows for every peer,
    local address and session type the number of sessions registered. *)
Theorem sessions_gauge_exact (policy : option UnsolicitedPolicy) (hs ha : bool) (w : World) (c : Collector)
    (labels : list string) (Hp : forall p, policy = Some p -> policy_ok p)
    (Hr : rtc metered_step (mkWorld (NewManager policy hs ha) [] 0, newMetrics) (w, c)) :
  vec_get labels (co_Sessions c) = active labels (w_m w).
Proof.
  enough (H : metered_ok (w, c)) by apply H.
  assert (H0 : metered_ok (mkWorld (NewManager policy hs ha) [] 0, newMetrics)).
  { split; [by apply mgr_inv_new|]. intros l. cbn. rewrite vec_get_new. unfold active, active_labels. cbn.
    by rewrite map_to_list_empty. }
  revert H0. remember (w, c) as s' eqn:Es. clear Es. induction Hr as [|s1 s2 s3 H12 _ IH]; [done|].
  intros H1. by apply IH, (metered_step_ok s1).
Qed.

End Metrics.

(** ** An example

    A vector as a finite map. *)
Lemma map_get_add (k k' : list string) (z : Z) (v : gmap (list string) Z) :
  default 0 (<[k' := default 0 (v !! k') + z]> v !! k) = default 0 (v !! k) + (if decide (k = k') then z else 0).
Proof.
  destruct (decide (k = k')) as [->|Hn]; [by rewrite lookup_insert_eq|]. rewrite lookup_insert_ne by done. lia.
Qed.

#[local] Instance map_vec : MetricVec :=
  {| vec := gmap (list string) Z; vec_new := ∅;
     vec_add := fun k z v => <[k := default 0 (v !! k) + z]> v; vec_get := fun k v => default 0 (v !! k);
     vec_get_new := fun k => eq_refl; vec_get_add := map_get_add |}.

Definition metered_sample : Manager * Collector :=
  (CreateSession_metered (sample_cfg 3) (sample_input 5) (NewManager None false false, newMetrics)).2.

Definition metered_empty : Manager * Collector :=
  (DestroySession_metered (default 0 (head ((map_to_list (m_sessions metered_sample.1)).*1))) metered_sample).2.

(** The label of the sample session. *)
Definition sample_label : list string :=
  [Addr_String (cfg_PeerAddr (sample_cfg 3)); Addr_String (cfg_LocalAddr (sample_cfg 3));
   SessionType_String (cfg_Type (sample_cfg 3))].

Lemma sample_metered_steps :
  rtc metered_step (mkWorld (NewManager None false false) [] 0, newMetrics) (mkWorld metered_sample.1 [] 0, metered_sample.2).
Proof.
  apply rtc_once. apply (mt_create (sample_cfg 3) (sample_input 5) _ [] 0 _
    (CreateSession_metered (sample_cfg 3) (sample_input 5) (NewManager None false false, newMetrics)).1).
  - apply sample_cfg_ok. unfold is_u8. lia.
  - apply sample_input_ok. unfold is_byte. lia.
  - unfold metered_sample. by destruct (CreateSession_metered _ _ _) as [r [m c]].
Qed.

Lemma sessions_gauge_exact_witness :
  vec_get sample_label (co_Sessions metered_sample.2) = active sample_label metered_sample.1 /\
  active sample_label metered_sample.1 = 1 /\ active sample_label metered_empty.1 = 0 /\
  vec_get sample_label (co_Sessions metered_empty.2) = 0.
Proof.
  split; [|vm_compute; repeat split; reflexivity].
  apply (sessions_gauge_exact None false false (mkWorld metered_sample.1 [] 0) metered_sample.2 sample_label);
    [intros p Hp; discriminate Hp|exact sample_metered_steps].
Defined.

(** Closing the manager drops the sessions without a call of the collector: there is
    none in [Close]. *)
Example close_leaves_gauge :
  match Close id id metered_sample.1 with
  | Some m => active sample_label m = 0 /\ vec_get sample_label (co_Sessions metered_sample.2) = 1
  | None => False
  end.
Proof. vm_compute. split; reflexivity. Qed.
