(* ===== verification/SessionMetrics.v ===== *)
(** * What the metrics say of a session ([session.metrics], [callback.go])

    The calls a session and an echo session make of the metrics reporter: they agree
    with the session's own counters and with the packets it sent, and the state
    transitions reported lead from one state to the next. *)

From stdpp Require Import strings relations.
From S2P Require Import Prelude Packet Fsm Auth Netip Jitter Session SessionInv SessionSteps SessionProps SessionFrame.
From S2P Require Import Discriminator Micro Unsolicited Echo Manager ManagerSteps ManagerInv ManagerOps ManagerProps.
From S2P Require Import ManagerCalls Shutdown Metrics.

Local Open Scope Z_scope.

(** ** Counting calls *)

Definition counters : Type := Z * Z * Z.

Definition count_call (k : counters) (call : metric_call) : counters :=
  let '(sent, received, transitions) := k in
  match call with
  | MetricSent => (u64 (sent + 1), received, transitions)
  | MetricReceived => (sent, u64 (received + 1), transitions)
  | MetricTransition _ _ => (sent, received, u64 (transitions + 1))
  end.

Definition is_sent (call : metric_call) : bool := match call with MetricSent => true | _ => false end.
Definition is_received (call : metric_call) : bool := match call with MetricReceived => true | _ => false end.
Definition is_transition (call : metric_call) : bool := match call with MetricTransition _ _ => true | _ => false end.

Definition number (p : metric_call -> bool) (calls : list metric_call) : nat := length (filter (fun c => p c = true) calls).

Lemma number_app p l k : number p (l ++ k) = (number p l + number p k)%nat.
Proof. unfold number. by rewrite filter_app, length_app. Qed.

(** The transitions reported, as a walk from a state; each leads to another state. *)
Fixpoint walk (st : Z) (calls : list metric_call) : option Z :=
  match calls with
  | [] => Some st
  | MetricTransition from to :: calls => if (from =? st) && negb (to =? st) then walk to calls else None
  | _ :: calls => walk st calls
  end.

Lemma walk_app l k st : walk st (l ++ k) = st' ← walk st l; walk st' k.
Proof.
  revert st. induction l as [|c l IH]; intros st; cbn [app walk]; [done|].
  destruct c as [| |a b]; [apply IH..|]. destruct (_ && _); [apply IH|done].
Qed.

(** Transitions into and out of a state. *)
Definition into (st : Z) (c : metric_call) : bool := match c with MetricTransition _ to => to =? st | _ => false end.
Definition out_of (st : Z) (c : metric_call) : bool := match c with MetricTransition from _ => from =? st | _ => false end.

Lemma number_cons p c l : number p (c :: l) = ((if p c then 1 else 0) + number p l)%nat.
Proof. unfold number. rewrite filter_cons. destruct (p c); [by rewrite decide_True|by rewrite decide_False]. Qed.

Definition at_state (st cur : Z) : nat := if cur =? st then 1 else 0.

Lemma walk_balance st calls : forall cur cur', walk cur calls = Some cur' ->
  (number (into st) calls + at_state st cur = number (out_of st) calls + at_state st cur')%nat.
Proof.
  induction calls as [|c calls IH]; intros cur cur'; cbn [walk]; [by intros [= ->]|].
  rewrite !number_cons. destruct c as [| |a b]; cbn [into out_of]; [apply IH..|].
  destruct (Z.eqb_spec a cur) as [->|]; cbn [andb]; [|done]. destruct (negb (b =? cur)); [|done].
  intros H%IH. unfold at_state in *. destruct (b =? st), (cur =? st), (cur' =? st); lia.
Qed.

Lemma count_calls calls : forall sent received transitions,
  is_u64 sent -> is_u64 received -> is_u64 transitions ->
  fold_left count_call calls (sent, received, transitions) =
  (u64 (sent + Z.of_nat (number is_sent calls)), u64 (received + Z.of_nat (number is_received calls)),
   u64 (transitions + Z.of_nat (number is_transition calls))).
Proof.
  assert (Hs : forall x, is_u64 x -> u64 (x + Z.of_nat 0) = x) by (intros; rewrite Z.add_0_r; unfold u64, is_u64 in *; by apply Z.mod_small).
  assert (Hu : forall x n, u64 (u64 (x + 1) + Z.of_nat n) = u64 (x + Z.of_nat (1 + n))).
  { intros x n. unfold u64. rewrite Zplus_mod_idemp_l. f_equal. lia. }
  induction calls as [|c calls IH]; intros a b d Ha Hb Hd; cbn [fold_left].
  - cbn. by rewrite !Hs.
  - rewrite !number_cons. destruct c; cbn [count_call is_sent is_received is_transition].
    all: rewrite IH by (done || apply u64_range); rewrite Hu; done.
Qed.

(** ** Sessions *)

Definition tally (s : Session) : counters := (s_packetsSent s, s_packetsReceived s, s_stateTransitions s).
Definition ledger (s : Session) : counters * Z := (tally s, s_cachedState s).

Definition delivered (l : list (list Z * bool)) : nat := length (filter (fun p : list Z * bool => p.2 = true) l).

Lemma delivered_snoc l w ok : delivered (l ++ [(w, ok)]) = (delivered l + if ok then 1 else 0)%nat.
Proof. unfold delivered. rewrite filter_app, length_app. f_equal. by destruct ok. Qed.

Record accounts (y y' : Sys) (calls : list metric_call) : Prop := {
  ac_metered : metered y' = metered y ++ calls;
  ac_tally : tally (ses y') = fold_left count_call calls (tally (ses y));
  ac_sent : delivered (sent y') = (delivered (sent y) + number is_sent calls)%nat;
  ac_walk : walk (s_cachedState (ses y)) calls = Some (s_cachedState (ses y'));
}.

Definition accounted (y y' : Sys) : Prop := exists calls, accounts y y' calls.

Lemma accounted_quiet y y' :
  ledger (ses y') = ledger (ses y) -> delivered (sent y') = delivered (sent y) -> metered y' = metered y -> accounted y y'.
Proof. intros [= E1 E2 E3 E4] S M. exists []. split; [by rewrite M, app_nil_r|unfold tally; cbn; congruence|rewrite S; cbn; lia|cbn; congruence]. Qed.

Lemma accounted_refl y : accounted y y.
Proof. by apply accounted_quiet. Qed.

Lemma accounted_trans y1 y2 y3 : accounted y1 y2 -> accounted y2 y3 -> accounted y1 y3.
Proof.
  intros [c1 [M1 T1 S1 W1]] [c2 [M2 T2 S2 W2]]. exists (c1 ++ c2). split.
  - by rewrite M2, M1, app_assoc.
  - by rewrite T2, T1, fold_left_app.
  - rewrite S2, S1, number_app. lia.
  - rewrite walk_app, W1. exact W2.
Qed.

Lemma marshal_cached_ledger pkt s s' : marshal_cached pkt s = Some s' -> ledger s' = ledger s.
Proof. unfold marshal_cached. destruct (MarshalControlPacket _ _) as [[] ?]; by intros [= <-]. Qed.

Lemma rebuild_ledger s s' : rebuildCachedPacket s = Some s' -> ledger s' = ledger s.
Proof.
  unfold rebuildCachedPacket, buildControlPacket. destruct (s_auth _); [|by intros ->%marshal_cached_ledger].
  unfold signCachedPacket. cbn [s_authState s_authKeys]. destruct (s_authState s), (s_authKeys s); try done.
  destruct (Sign _ _ _ _ _) as [[[[] ?] ?] ?]; [|by intros [= <-]|done]. by intros ->%marshal_cached_ledger.
Qed.

Lemma resetTxTimer_accounted e y : accounted y (resetTxTimer e y).
Proof.
  unfold resetTxTimer, applyJitter. destruct (_ <=? 0); [by apply accounted_quiet|].
  destruct (applyJitterWithRand _ _ _ _). by apply accounted_quiet.
Qed.

Lemma sendControl_accounted e y y' : sendControl e y = Some y' -> accounted y y'.
Proof.
  unfold sendControl. intros (s & Hr%rebuild_ledger & H)%bind_Some. apply bind_Some in H as (n & _ & H).
  apply bind_Some in H as ([sl s2] & H2 & H).
  assert (Hi : ledger s2 = ledger (ses y)).
  { rewrite <- Hr. destruct (_ && _); [|by injection H2 as <- <-]. by apply bind_Some in H2 as (b & _ & [= <- <-]). }
  clear H2. destruct (zlen (s_cachedPacket s2) <? sl); [done|]. injection H as <-.
  injection Hi as E1 E2 E3 E4. destruct (send_ok e (length (sent y))) eqn:Ok.
  - exists [MetricSent]. split; cbn [ses sent metered]; [done|unfold tally; cbn; congruence|by rewrite delivered_snoc|cbn; congruence].
  - apply accounted_quiet; cbn [ses sent metered]; [unfold ledger, tally; congruence|by rewrite delivered_snoc, Nat.add_0_r|done].
Qed.

Lemma send_reset_accounted e y y' : (y ← sendControl e y; Some (resetTxTimer e y)) = Some y' -> accounted y y'.
Proof.
  intros (y1 & H & [= <-])%bind_Some. eapply accounted_trans; [by eapply sendControl_accounted|apply resetTxTimer_accounted].
Qed.

Lemma executeActions_accounted e acts y y' : executeActions e acts y = Some y' -> accounted y y'.
Proof.
  revert y. induction acts as [|a acts IH]; intros y; cbn [executeActions]; [intros [= <-]; apply accounted_refl|].
  intros (y1 & H1 & H2)%bind_Some. eapply accounted_trans; [clear H2|by apply IH]. unfold executeAction in H1.
  destruct (a =? ActionSendControl); [by eapply send_reset_accounted|].
  assert (Hres : forall y0, accounted y0 (resetDetectTimer e (resetTxTimer e y0))).
  { intros y0. eapply accounted_trans; [apply resetTxTimer_accounted|by apply accounted_quiet]. }
  destruct (a =? ActionNotifyUp); [injection H1 as <-; apply Hres|].
  destruct (a =? ActionNotifyDown).
  { injection H1 as <-. eapply accounted_trans; [|apply Hres]. by apply accounted_quiet. }
  do 3 (destruct (a =? _); [injection H1 as <-; by apply accounted_quiet|]). injection H1 as <-. apply accounted_refl.
Qed.

(** A result that starts in the session's state and, when it says so, changes it. *)
Lemma executeFSMActions_accounted e r y y' :
  OldState r = s_cachedState (ses y) -> (Changed r = true -> NewState r <> OldState r) ->
  executeFSMActions e r y = Some y' -> accounted y y'.
Proof.
  intros Ho Hn. unfold executeFSMActions. intros H%executeActions_accounted. eapply accounted_trans; [|exact H].
  destruct (Changed r); [|apply accounted_refl]. exists [MetricTransition (OldState r) (NewState r)].
  unfold logStateChange, emitNotification. cbn [ses upd].
  assert (W : walk (s_cachedState (ses y)) [MetricTransition (OldState r) (NewState r)] = Some (NewState r)).
  { cbn [walk]. rewrite Ho, Z.eqb_refl, (proj2 (Z.eqb_neq _ _)); [done|]. rewrite <- Ho. by apply Hn. }
  destruct (negb _); split; cbn [metered ses sent]; [done|done|symmetry; apply Nat.add_0_r|exact W|done|done|symmetry; apply Nat.add_0_r|exact W].
Qed.

Lemma apply_event_old st ev : OldState (apply_event st ev) = st.
Proof. unfold apply_event. by destruct (fsmTable !! _). Qed.

Lemma apply_event_changed st ev : Changed (apply_event st ev) = true -> NewState (apply_event st ev) <> OldState (apply_event st ev).
Proof. unfold apply_event. destruct (fsmTable !! _); cbn; [|done]. intros H%negb_true_iff%Z.eqb_neq. congruence. Qed.

Lemma applyFSMEvent_accounted e ev y y' : applyFSMEvent e ev y = Some y' -> accounted y y'.
Proof. apply executeFSMActions_accounted; [apply apply_event_old|apply apply_event_changed]. Qed.

Lemma verify_received_ledger s item go_on s' : verify_received s item = Some (go_on, s') -> ledger s' = ledger s.
Proof.
  unfold verify_received. destruct (s_auth s) as [a|]; [|by intros [= <- <-]].
  destruct (s_authState s) as [st|], (s_authKeys s) as [ks|]; try done.
  destruct (Verify _ _ _ _ _ _) as [[[] ?] ?]; try done; by intros [= <- <-].
Qed.

Lemma record_accounted e y s : ledger s = ledger (ses y) -> accounted y (recordValidReceivedPacket e {| y with ses := s |}).
Proof.
  intros [= E1 E2 E3 E4]. exists [MetricReceived]. split.
  - done.
  - unfold tally. cbn. congruence.
  - change (number is_sent [MetricReceived]) with 0%nat. cbn [recordValidReceivedPacket sent]. by rewrite Nat.add_0_r.
  - cbn. congruence.
Qed.

Lemma terminatePoll_ledger s s' : terminatePollSequence s = Some s' -> ledger s' = ledger s.
Proof.
  unfold terminatePollSequence, applyPendingParams. intros ->%rebuild_ledger. cbn. by repeat case_match.
Qed.

Lemma handleRecvPacket_accounted e item y y' : handleRecvPacket e item y = Some y' -> accounted y y'.
Proof.
  unfold handleRecvPacket. destruct (negb _); [intros [= <-]; apply accounted_refl|].
  intros ([go_on s] & Hv%verify_received_ledger & H)%bind_Some.
  destruct (negb go_on); [injection H as <-; by apply accounted_quiet|].
  pose proof (record_accounted e y s Hv) as H1. cbv zeta in H. apply bind_Some in H as (s2 & Hp & H).
  set (y1 := recordValidReceivedPacket e _) in *. clearbody y1. eapply accounted_trans; [exact H1|]. clear H1 Hv.
  assert (Hi : ledger s2 = ledger (ses y1)).
  { destruct (_ && _); [by apply terminatePoll_ledger in Hp as ->|by injection Hp as <-]. }
  apply bind_Some in H as (y2 & H2%applyFSMEvent_accounted & H).
  eapply accounted_trans; [|eapply accounted_trans; [exact H2|]].
  - apply accounted_quiet; [|done..]. cbn [ses resetDetectTimer]. rewrite <- Hi. by destruct (pkt_Poll _).
  - destruct (s_pendingFinal _); [by apply (send_reset_accounted e)|]. injection H as <-. apply accounted_refl.
Qed.

Lemma turn_accounted c e y y' : runLoop_turn c e y = Some (Some y') -> accounted y y'.
Proof.
  destruct c; cbn.
  - destruct (s_recvCh (ses y)); [done|]. intros [= H%handleRecvPacket_accounted]. eapply accounted_trans; [|exact H]. by apply accounted_quiet.
  - destruct (s_ctrlCh (ses y)) as [|cmd rest]; [done|]. intros [= H]. set (y1 := upd _ y) in H.
    eapply accounted_trans; [by apply (accounted_quiet y y1)|]. unfold handleControlCommand in H.
    destruct (_ =? controlPathDown); [|destruct (_ =? controlAdminDown); [|injection H as <-; apply accounted_refl]].
    + unfold handlePathDown in H. destruct (_ || _) eqn:Es; [injection H as <-; by apply accounted_quiet|].
      eapply (executeFSMActions_accounted _ _ (upd _ y1)) in H; [|done|].
      { eapply accounted_trans; [|exact H]. by apply accounted_quiet. }
      apply orb_false_iff in Es as [Es _]. apply Z.eqb_neq in Es. intros _ E. by apply Es.
    + unfold handleAdminDown in H. destruct (negb _); [injection H as <-; by apply accounted_quiet|].
      eapply executeFSMActions_accounted; [| |exact H]; cbn; [apply apply_event_old|apply apply_event_changed].
  - destruct (fired _ _); [|done]. intros [= (y1 & H & [= <-])%bind_Some].
    eapply accounted_trans; [|apply resetTxTimer_accounted]. eapply (accounted_trans _ {| y with txTimer := None |}); [by apply accounted_quiet|].
    unfold maybeSendControl in H. destruct (_ && _); [injection H as <-; apply accounted_refl|].
    destruct (_ =? _); [injection H as <-; apply accounted_refl|by eapply sendControl_accounted].
  - destruct (fired _ _); [|done]. intros [= H]. unfold handleDetectTimer in H. set (y1 := upd _ _) in H.
    assert (H1 : accounted y y1).
    { apply accounted_quiet; [|done..]. unfold y1, upd, maybeResetAuthSeqKnown. cbn [ses]. by repeat case_match. }
    eapply accounted_trans; [exact H1|]. destruct (_ && _); [injection H as <-; by apply accounted_quiet|by eapply applyFSMEvent_accounted].
Qed.

(** ** From the start on *)

Record kept (y : Sys) : Prop := {
  kp_tally : tally (ses y) = fold_left count_call (metered y) (0, 0, 0);
  kp_sent : delivered (sent y) = number is_sent (metered y);
  kp_walk : exists st, (st = StateDown \/ st = StateAdminDown) /\ walk st (metered y) = Some (s_cachedState (ses y));
}.

Lemma entry_tally s s' : session_entry s s' -> ledger s' = ledger s.
Proof. intros []; unfold RecvPacket, SetPathDown, SetAdminDown; by repeat case_match. Qed.

Lemma entry_state s s' : session_entry s s' -> s_state s' = s_state s \/ s_state s' = StateAdminDown.
Proof. intros []; unfold RecvPacket, SetPathDown, SetAdminDown; repeat case_match; auto. Qed.

Lemma NewSession_ledger cfg d h rnd s :
  cfg_ok cfg -> rnd_ok rnd -> is_u32 d -> NewSession cfg d h rnd = Ok s -> tally s = (0, 0, 0) /\ s_state s = StateDown.
Proof.
  intros Hc Hr Hd Hn. pose proof (NewSession_cases cfg d h rnd Hc Hr Hd) as H. rewrite Hn in H.
  by destruct H as (_ & buf & ost & -> & _).
Qed.

Lemma accounted_kept y y' : accounted y y' -> kept y -> kept y'.
Proof.
  intros [calls [M T S W]] [K1 K2 (st & K3 & K4)]. split.
  - by rewrite T, M, fold_left_app, K1.
  - by rewrite S, M, number_app, K2.
  - exists st. split; [done|]. by rewrite M, walk_app, K4.
Qed.

Lemma Run_start_kept e s : tally s = (0, 0, 0) -> s_state s = StateDown \/ s_state s = StateAdminDown -> kept (Run_start e s).
Proof.
  intros Ht Hs. unfold Run_start, applyJitter. destruct (_ <=? 0); [by split; [..|eauto]|].
  destruct (applyJitterWithRand _ _ _ _). by split; [..|eauto].
Qed.

Lemma reachable_kept y : reachable y -> kept y.
Proof.
  induction 1 as [cfg d h rnd s0 s e Hc Hr Hd Hn He|y y' _ IH Hs].
  - destruct (NewSession_ledger _ _ _ _ _ Hc Hr Hd Hn) as [Ht Hst]. clear Hn.
    enough (H : tally s = (0, 0, 0) /\ (s_state s = StateDown \/ s_state s = StateAdminDown)) by (destruct H; by apply Run_start_kept).
    assert (H0 : tally s0 = (0, 0, 0) /\ (s_state s0 = StateDown \/ s_state s0 = StateAdminDown)) by auto. clear Ht Hst.
    induction He as [|s1 s2 s3 He _ IH]; [done|]. apply IH. destruct H0 as [H1 H2].
    pose proof (entry_tally _ _ He) as [= E1 E2 E3 _]. split; [unfold tally in *; congruence|].
    destruct (entry_state _ _ He) as [->| ->]; auto.
  - destruct Hs as [c e y y' H|y s H]; [by eapply accounted_kept; [eapply turn_accounted|]|].
    eapply accounted_kept; [|done]. apply accounted_quiet; [|done..]. by apply entry_tally.
Qed.

(** ** The collector *)

Section Collector.
Context `{MV : MetricVec}.

(** A call with the labels of a peer and a local address. *)
Definition report_call (peer localAddr : Addr) (c : Collector) (call : metric_call) : Collector :=
  match call with
  | MetricSent => IncPacketsSent peer localAddr c
  | MetricReceived => IncPacketsReceived peer localAddr c
  | MetricTransition from to => RecordStateTransition peer localAddr (State_String from) (State_String to) c
  end.

Definition reported (peer localAddr : Addr) (calls : list metric_call) (c : Collector) : Collector :=
  fold_left (report_call peer localAddr) calls c.

Definition between (from to : string) (c : metric_call) : bool :=
  match c with MetricTransition a b => bool_decide (State_String a = from) && bool_decide (State_String b = to) | _ => false end.

Lemma reported_vectors peer localAddr calls : forall c,
  let c' := reported peer localAddr calls c in
  let labels := [Addr_String peer; Addr_String localAddr] in
  vec_get labels (co_PacketsSent c') = vec_get labels (co_PacketsSent c) + Z.of_nat (number is_sent calls) /\
  vec_get labels (co_PacketsReceived c') = vec_get labels (co_PacketsReceived c) + Z.of_nat (number is_received calls) /\
  (forall from to, vec_get (labels ++ [from; to]) (co_StateTransitions c') =
                   vec_get (labels ++ [from; to]) (co_StateTransitions c) + Z.of_nat (number (between from to) calls)) /\
  co_Sessions c' = co_Sessions c.
Proof.
  induction calls as [|call calls IH]; intros c; cbn zeta; [by cbn; rewrite !Z.add_0_r; split_and!; [..|intros; rewrite Z.add_0_r|]|].
  cbn [reported fold_left]. fold (reported peer localAddr calls (report_call peer localAddr c call)).
  specialize (IH (report_call peer localAddr c call)). cbn zeta in IH. destruct IH as (H1 & H2 & H3 & H4).
  rewrite H1, H2, H4, !number_cons. split_and!; [..|intros from to; rewrite H3, number_cons|].
  all: destruct call as [| |a b]; cbn [report_call IncPacketsSent IncPacketsReceived RecordStateTransition co_PacketsSent
    co_PacketsReceived co_StateTransitions co_Sessions is_sent is_received between app]; try done; try lia.
  1, 2: unfold vec_inc; rewrite vec_get_add, decide_True by done; lia.
  unfold vec_inc. rewrite vec_get_add. case_decide as Hd.
  - injection Hd as Ea Eb. rewrite !bool_decide_eq_true_2 by done. cbn. lia.
  - rewrite <- bool_decide_and, bool_decide_eq_false_2; [lia|]. intros [Ea Eb]. by rewrite Ea, Eb in Hd.
Qed.

(** The metrics of a session are exact.  In every state of a running session, the
    counters of its collector exceed those before its start by the number of packets
    handed to the network successfully, of packets accepted, and of the transitions
    made between any two states; the first two are the session's own counters, modulo
    their width; and for each state the transitions into it exceed those out of it by
    one exactly when the session is in that state and did not start there. *)
Theorem session_metrics_exact (y : Sys) (c : Collector) (R : reachable y) :
  let s := ses y in
  let c' := reported (s_peerAddr s) (s_localAddr s) (metered y) c in
  let labels := [Addr_String (s_peerAddr s); Addr_String (s_localAddr s)] in
  let grown (f : Collector -> vec) k := vec_get k (f c') - vec_get k (f c) in
  grown co_PacketsSent labels = Z.of_nat (delivered (sent y)) /\
  s_packetsSent s = u64 (grown co_PacketsSent labels) /\
  s_packetsReceived s = u64 (grown co_PacketsReceived labels) /\
  (forall from to, grown co_StateTransitions (labels ++ [from; to]) = Z.of_nat (number (between from to) (metered y))) /\
  s_stateTransitions s = u64 (Z.of_nat (number is_transition (metered y))) /\
  exists st, (st = StateDown \/ st = StateAdminDown) /\
    forall q, (number (into q) (metered y) + at_state q st = number (out_of q) (metered y) + at_state q (s_cachedState s))%nat.
Proof.
  destruct (reachable_kept y R) as [K1 K2 (st & K3 & K4)]. cbn zeta.
  destruct (reported_vectors (s_peerAddr (ses y)) (s_localAddr (ses y)) (metered y) c) as (H1 & H2 & H3 & _).
  rewrite count_calls in K1 by (unfold is_u64; lia). unfold tally in K1. injection K1 as T1 T2 T3.
  rewrite H1, H2, T1, T2, T3, K2. split_and!; try (f_equal; lia); [intros from to; rewrite H3; lia|].
  exists st. split; [done|]. intros q. by apply walk_balance.
Qed.

End Collector.

(** ** Echo sessions *)

Definition echo_ledger (es : EchoSession) : counters * Z :=
  (es_echosSent es, es_echosReceived es, es_stateTransitions es, es_state es).

Record echo_kept (y : EchoSys) : Prop := {
  ek_tally : (echo_ledger (e_ses y)).1 = fold_left count_call (e_metered y) (0, 0, 0);
  ek_sent : delivered (e_sent y) = number is_sent (e_metered y);
  ek_walk : walk StateDown (e_metered y) = Some (es_state (e_ses y));
}.

Lemma echo_kept_quiet y y' :
  echo_ledger (e_ses y') = echo_ledger (e_ses y) -> e_sent y' = e_sent y -> e_metered y' = e_metered y -> echo_kept y -> echo_kept y'.
Proof. intros E S M [K1 K2 K3]. split; rewrite ?S, ?M, ?E; [done..|]. injection E as _ _ _ E. congruence. Qed.

Lemma transitionTo_kept e st diag y : echo_kept y -> echo_kept (transitionTo e st diag y).
Proof.
  intros K. unfold transitionTo. destruct (Z.eqb_spec (es_state (e_ses y)) st) as [|Hn]; [done|].
  destruct K as [K1 K2 K3].
  assert (K' : echo_kept (let es := e_ses y in
    {| y with e_ses := {| es with es_state := st; es_localDiag := diag; es_stateTransitions := u64 (es_stateTransitions es + 1);
                                  es_lastStateChange := now e |};
              e_metered := e_metered y ++ [MetricTransition (es_state (e_ses y)) st] |})).
  { split; cbn [e_ses e_metered e_sent].
    - rewrite fold_left_app, <- K1. done.
    - rewrite number_app, K2. change (number is_sent [MetricTransition (es_state (e_ses y)) st]) with 0%nat. lia.
    - rewrite walk_app, K3. cbn [mbind option_bind walk es_state]. by rewrite Z.eqb_refl, (proj2 (Z.eqb_neq _ _)) by congruence. }
  unfold echo_emitNotification. destruct (negb _); [exact K'|]. by eapply echo_kept_quiet; [..|exact K'].
Qed.

Lemma handleEchoRecv_kept e y : echo_kept y -> echo_kept (handleEchoRecv e y).
Proof.
  intros [K1 K2 K3]. unfold handleEchoRecv. cbv zeta.
  match goal with |- context [transitionTo e StateUp DiagNone ?y2] => assert (K' : echo_kept y2) end.
  { split; cbn [e_ses e_metered e_sent].
    - by rewrite fold_left_app, <- K1.
    - rewrite number_app, K2. change (number is_sent [MetricReceived]) with 0%nat. lia.
    - by rewrite walk_app, K3. }
  destruct (_ =? StateDown); [by apply transitionTo_kept|exact K'].
Qed.

Lemma handleDetectTimeout_kept e y : echo_kept y -> echo_kept (handleDetectTimeout e y).
Proof.
  intros K. unfold handleDetectTimeout.
  assert (K' : echo_kept (if es_state (e_ses y) =? StateUp then transitionTo e StateDown DiagEchoFailed y else y)).
  { destruct (_ =? StateUp); [by apply transitionTo_kept|done]. }
  by eapply echo_kept_quiet; [..|exact K'].
Qed.

Lemma sendEcho_kept e y y' : sendEcho e y = Some y' -> echo_kept y -> echo_kept y'.
Proof.
  unfold sendEcho. intros (es & Hr & Hs)%bind_Some [K1 K2 K3]. apply bind_Some in Hs as (n & _ & Hs).
  destruct (zlen _ <? n); [done|]. injection Hs as <-.
  assert (E : echo_ledger es = echo_ledger (e_ses y)).
  { unfold echo_rebuildCachedPacket in Hr. by destruct (MarshalControlPacket _ _) as [[] ?]; simplify_eq. }
  injection E as E1 E2 E3 E4. destruct (send_ok _ _); split; cbn [e_ses e_metered e_sent].
  - rewrite fold_left_app, <- K1. unfold echo_ledger. cbn. congruence.
  - by rewrite delivered_snoc, number_app, K2.
  - rewrite walk_app, K3. cbn. congruence.
  - rewrite <- K1. unfold echo_ledger. cbn. congruence.
  - rewrite delivered_snoc, K2. lia.
  - rewrite K3. congruence.
Qed.

Lemma echo_turn_kept c ee y y' : echoRunLoop_turn c ee y = Some (Some y') -> echo_kept y -> echo_kept y'.
Proof.
  intros H K. destruct c; cbn [echoRunLoop_turn] in H.
  - destruct (es_recvCh (e_ses y)); [done|]. injection H as <-. apply handleEchoRecv_kept. by eapply echo_kept_quiet; [..|exact K].
  - destruct (fired _ _); [|done]. injection H as H. apply bind_Some in H as (y1 & Hs & [= <-]).
    apply sendEcho_kept in Hs; [|by eapply echo_kept_quiet; [..|exact K]]. by eapply echo_kept_quiet; [..|exact Hs].
  - destruct (fired _ _); [|done]. injection H as <-. apply handleDetectTimeout_kept. by eapply echo_kept_quiet; [..|exact K].
Qed.

Lemma RecvEcho_ledger es : echo_ledger (RecvEcho es) = echo_ledger es.
Proof. unfold RecvEcho. by case_bool_decide. Qed.

Lemma NewEchoSession_ledger cfg d h es : NewEchoSession cfg d h = Ok es -> echo_ledger es = (0, 0, 0, StateDown).
Proof.
  unfold NewEchoSession. intros (u & _ & H)%go_bind_Ok. unfold echo_rebuildCachedPacket in H.
  by destruct (MarshalControlPacket _ _) as [[] ?]; simplify_eq.
Qed.

Lemma echo_reachable_kept y : echo_reachable y -> echo_kept y.
Proof.
  induction 1 as [cfg d h es n ee Hc Hd Hn|y y' _ IH Hs].
  - assert (E : echo_ledger (Nat.iter n RecvEcho es) = (0, 0, 0, StateDown)).
    { apply NewEchoSession_ledger in Hn. induction n as [|n IH]; [done|]. change (echo_ledger (RecvEcho (Nat.iter n RecvEcho es)) = (0, 0, 0, StateDown)). by rewrite RecvEcho_ledger. }
    injection E as E1 E2 E3 E4. split; cbn; [unfold echo_ledger; cbn; congruence|done|congruence].
  - destruct Hs as [c ee y y' H|y]; [by eapply echo_turn_kept|]. eapply echo_kept_quiet; [apply RecvEcho_ledger|done..].
Qed.

(** The metrics of an echo session are exact as well. *)
Theorem echo_metrics_exact `{MV : MetricVec} (y : EchoSys) (c : Collector) (R : echo_reachable y) :
  let es := e_ses y in
  let c' := reported (es_peerAddr es) (es_localAddr es) (e_metered y) c in
  let labels := [Addr_String (es_peerAddr es); Addr_String (es_localAddr es)] in
  let grown (f : Collector -> vec) k := vec_get k (f c') - vec_get k (f c) in
  grown co_PacketsSent labels = Z.of_nat (delivered (e_sent y)) /\
  es_echosSent es = u64 (grown co_PacketsSent labels) /\
  es_echosReceived es = u64 (grown co_PacketsReceived labels) /\
  es_stateTransitions es = u64 (Z.of_nat (number is_transition (e_metered y))) /\
  forall q, (number (into q) (e_metered y) + at_state q StateDown = number (out_of q) (e_metered y) + at_state q (es_state es))%nat.
Proof.
  destruct (echo_reachable_kept y R) as [K1 K2 K3]. cbn zeta.
  destruct (reported_vectors (es_peerAddr (e_ses y)) (es_localAddr (e_ses y)) (e_metered y) c) as (H1 & H2 & _ & _).
  rewrite count_calls in K1 by (unfold is_u64; lia). injection K1 as T1 T2 T3.
  rewrite H1, H2, T1, T2, T3, K2. split_and!; try (f_equal; lia). intros q. by apply walk_balance.
Qed.
