(* ===== verification/ManagerFindings.v ===== *)
(** * Where the manager departs from its documentation

    Theorems and evaluated examples behind the findings about the session manager:
    the unsolicited slot kept when no sender is configured, the [Unsolicited] field
    of snapshots, the missing subnet check of unsolicited sessions, and what
    [Close] leaves behind. *)

From S2P Require Import Prelude Packet Fsm Auth Netip Session SessionProps Discriminator.
From S2P Require Import Unsolicited Manager ManagerOps ManagerProps.

Local Open Scope Z_scope.

(** Without a sender an admitted packet creates no session, and the slot reserved
    for it is not given back. *)
Theorem missing_sender_keeps_slot us pkt meta wire ci m us' :
  m_hasUnsolicitedSender m = false ->
  reserve (pm_SrcAddr meta) (pm_IfName meta) us = (Ok tt, us') -> us_policy us' <> None ->
  tryCreateUnsolicited us pkt meta wire ci m =
    (Err (ErrMgrUnsolicited ErrUnsolicitedDisabled), set_unsolicited (Some us') m).
Proof.
  intros Hs Hr Hp. unfold tryCreateUnsolicited. rewrite Hr. destruct (us_policy us'); [|done].
  cbn [set_unsolicited m_hasUnsolicitedSender]. by rewrite Hs.
Qed.

(** Two packets use up both slots of the sample policy although no session exists;
    the third is refused because of the limit. *)
Example slots_run_out_without_sessions :
  let recv h m := DemuxWithWire (sample_down h) (sample_meta h) [] (sample_input 8) m in
  let m := (recv 10 (recv 9 (NewManager (Some sample_policy) false true)).2).2 in
  m_entries m = [] /\ (recv 11 m).1 = Err (ErrMgrUnsolicited ErrUnsolicitedMaxSessions).
Proof. vm_compute. done. Qed.

(** No snapshot says that its session is unsolicited. *)
Theorem snapshots_never_unsolicited ord m :
  Forall (fun sn => ss_Unsolicited sn = false) (Sessions ord m).
Proof.
  unfold Sessions. apply Forall_forall. intros sn Hin. apply list_elem_of_omap in Hin as ([d l] & _ & Hf).
  apply fmap_Some in Hf as (en & _ & ->). done.
Qed.

(** On an interface without an access list every source address is admitted: no
    address of the interface is consulted. *)
Theorem open_interface_admits_every_source policy ifName ifCfg src :
  up_Enabled policy = true -> up_Interfaces policy !! ifName = Some ifCfg ->
  ui_Enabled ifCfg = true -> ui_AllowedPrefixes ifCfg = [] ->
  checkInterfacePolicy (newUnsolicitedState (Some policy)) src ifName = Ok tt.
Proof. intros He Hi Hc Ha. unfold checkInterfacePolicy. cbn. by rewrite He, Hi, Hc, Ha. Qed.

(** A closed manager creates sessions as before. *)
Example closed_manager_creates_sessions :
  exists m, Close id id sample_manager = Some m /\
    (CreateSession second_cfg (sample_input 6) m).1 = Ok 1%nat.
Proof. eexists. split; [vm_compute; reflexivity|]. vm_compute. done. Qed.

(** Closing drops the unsolicited sessions and keeps their slots. *)
Example close_keeps_unsolicited_count :
  exists m us, Close id id sample_unsolicited = Some m /\ m_sessions m = ∅ /\
    m_unsolicited m = Some us /\ us_sessionCount us = 1.
Proof.
  eexists _, _. split; [vm_compute; reflexivity|]. split; [reflexivity|].
  split; [vm_compute; reflexivity|]. reflexivity.
Qed.
