(* ===== verification/Bgp.v ===== *)
(** * BGP integration: flap dampening and the state change handler

    Models [internal/gobgp]: the shutdown communication of RFC 9384
    ([rfc9384.go]), flap dampening ([dampening.go]), the client's guard against use
    after close ([client.go]) and the handler that turns session state changes into
    calls of the BGP daemon ([handler.go]).  Penalties are IEEE 754 binary64
    numbers, computed by the operations of [SpecFloat]; the power function of the
    Go math package, whose last bits depend on the platform, is an argument.  The
    outcomes of remote calls are an input, the calls made are recorded. *)

From Corelib Require Import SpecFloat.
From S2P Require Import Prelude Packet Fsm Netip Session.

Local Open Scope Z_scope.

(** ** RFC 9384 communication *)

Definition CeaseSubcodeBFDDown : Z := 10.
Definition bfdDownPrefix : string := "BFD Down (RFC 9384 Cease/10)".

Definition FormatBFDDownCommunication (diag : Z) : string :=
  bfdDownPrefix +:+ ": diag=" +:+ Diag_String diag.

(** [strings.HasPrefix], with what follows the prefix. *)
Fixpoint cut_prefix (prefix s : string) : option string :=
  match prefix, s with
  | EmptyString, s => Some s
  | String a prefix, String b s => if Ascii.eqb a b then cut_prefix prefix s else None
  | String _ _, EmptyString => None
  end.

(** [None] is the result [("", false)]. *)
Definition ParseBFDDownCommunication (communication : string) : option string :=
  cut_prefix (bfdDownPrefix +:+ ": diag=") communication.

(** ** binary64 *)

Definition float64 : Type := spec_float.
Definition f_add : float64 -> float64 -> float64 := SFadd 53 1024.
Definition f_mul : float64 -> float64 -> float64 := SFmul 53 1024.
Definition f_div : float64 -> float64 -> float64 := SFdiv 53 1024.
Definition f_of_int (z : Z) : float64 := binary_normalize 53 1024 z 0 false.
Definition f_zero : float64 := S754_zero false.
Definition f_half : float64 := f_div (f_of_int 1) (f_of_int 2).
(** The constant [0.001]. *)
Definition f_milli : float64 := f_div (f_of_int 1) (f_of_int 1000).

(** ** Times

    A [time.Time] is its nanoseconds; [Sub] saturates at the range of a duration. *)

Definition time_Sub (t u : Z) : Z := Z.max (- 2 ^ 63) (Z.min (2 ^ 63 - 1) (t - u)).
(** The zero [time.Time], January 1 of year 1, relative to the Unix epoch. *)
Definition time_zero : Z := - 62135596800 * 1000000000.

(** ** Flap dampening *)

Record DampeningConfig := mkDampeningConfig {
  dc_Enabled : bool;
  dc_SuppressThreshold : float64;
  dc_ReuseThreshold : float64;
  dc_MaxSuppressTime : Z;
  dc_HalfLife : Z;
}.

Definition DefaultDampeningConfig : DampeningConfig :=
  {| dc_Enabled := false; dc_SuppressThreshold := f_of_int 3; dc_ReuseThreshold := f_of_int 2;
     dc_MaxSuppressTime := 60 * 1000000000; dc_HalfLife := 15 * 1000000000 |}.

Record peerPenalty := mkPeerPenalty {
  pp_penalty : float64;
  pp_lastUpdate : Z;
  pp_suppressed : bool;
  pp_suppressedSince : Z;
}.

Record Dampener := mkDampener {
  d_cfg : DampeningConfig;
  d_peers : gmap string peerPenalty;
}.

Definition NewDampener (cfg : DampeningConfig) : Dampener := {| d_cfg := cfg; d_peers := ∅ |}.

Definition new_peer (now : Z) : peerPenalty :=
  {| pp_penalty := f_zero; pp_lastUpdate := now; pp_suppressed := false;
     pp_suppressedSince := time_zero |}.

(** The peer's state; the code also stores a new one in the map, as its caller
    does here with the final state. *)
Definition getOrCreatePeer (peerAddr : string) (now : Z) (d : Dampener) : peerPenalty :=
  default (new_peer now) (d_peers d !! peerAddr).

Definition set_peer (peerAddr : string) (pp : peerPenalty) (d : Dampener) : Dampener :=
  {| d with d_peers := <[peerAddr := pp]> (d_peers d) |}.

Definition unsuppress (pp : peerPenalty) : peerPenalty :=
  {| pp with pp_suppressed := false; pp_suppressedSince := time_zero; pp_penalty := f_zero |}.

Section pow.
Variable Pow : float64 -> float64 -> float64.

Definition decayPenalty (cfg : DampeningConfig) (now : Z) (pp : peerPenalty) : peerPenalty :=
  if (dc_HalfLife cfg <=? 0) || SFeqb (pp_penalty pp) f_zero then pp else
  let elapsed := time_Sub now (pp_lastUpdate pp) in
  if elapsed <=? 0 then pp else
  let halfLives := f_div (f_of_int elapsed) (f_of_int (dc_HalfLife cfg)) in
  let decayFactor := Pow f_half halfLives in
  let penalty := f_mul (pp_penalty pp) decayFactor in
  {| pp with pp_lastUpdate := now;
             pp_penalty := if SFltb penalty f_milli then f_zero else penalty |}.

(** The maximum suppression time is over. *)
Definition expired (cfg : DampeningConfig) (now : Z) (pp : peerPenalty) : bool :=
  pp_suppressed pp && (dc_MaxSuppressTime cfg <=? time_Sub now (pp_suppressedSince pp)).

(** The state of a peer after a Down event, and whether the event is suppressed. *)
Definition record_down (cfg : DampeningConfig) (now : Z) (pp : peerPenalty) : bool * peerPenalty :=
  let pp := decayPenalty cfg now pp in
  let pp := {| pp with pp_penalty := f_add (pp_penalty pp) (f_of_int 1); pp_lastUpdate := now |} in
  if expired cfg now pp then (false, unsuppress pp) else
  let pp :=
    if negb (pp_suppressed pp) && SFleb (dc_SuppressThreshold cfg) (pp_penalty pp)
    then {| pp with pp_suppressed := true; pp_suppressedSince := now |} else pp in
  (pp_suppressed pp, pp).

Definition ShouldSuppress (peerAddr : string) (now : Z) (d : Dampener) : bool * Dampener :=
  if negb (dc_Enabled (d_cfg d)) then (false, d) else
  let '(r, pp) := record_down (d_cfg d) now (getOrCreatePeer peerAddr now d) in
  (r, set_peer peerAddr pp d).

Definition check_up (cfg : DampeningConfig) (now : Z) (pp : peerPenalty) : bool * peerPenalty :=
  let pp := decayPenalty cfg now pp in
  if expired cfg now pp then (false, unsuppress pp) else
  if pp_suppressed pp && SFltb (pp_penalty pp) (dc_ReuseThreshold cfg) then (false, unsuppress pp)
  else (pp_suppressed pp, pp).

Definition ShouldSuppressUp (peerAddr : string) (now : Z) (d : Dampener) : bool * Dampener :=
  if negb (dc_Enabled (d_cfg d)) then (false, d) else
  match d_peers d !! peerAddr with
  | None => (false, d)
  | Some pp =>
      let '(r, pp) := check_up (d_cfg d) now pp in
      (r, set_peer peerAddr pp d)
  end.
End pow.

Definition Reset_peer (peerAddr : string) (d : Dampener) : Dampener :=
  {| d with d_peers := delete peerAddr (d_peers d) |}.

(** ** Client and handler *)

Inductive bgp_error :=
| ErrInvalidStrategy | ErrUnsupportedStrategy | ErrDialFailed | ErrClientClosed | ErrNoRootCAPEM | ErrReadCAFile | ErrRPC.

(** A call that reached the BGP daemon's interface. *)
Inductive bgp_call :=
| CallDisablePeer (addr communication : string)
| CallEnablePeer (addr : string).

#[export] Instance bgp_call_eq_dec : EqDecision bgp_call.
Proof. solve_decision. Defined.

(** The client, with the calls made through it and their outcomes. *)
Record GRPCClientTLSConfig := mkGRPCClientTLSConfig {
  gt_Enabled : bool;
  gt_CAFile : string;
  gt_ServerName : string;
}.

Record GRPCClientConfig := mkGRPCClientConfig {
  gcc_Addr : string;
  gcc_TLS : GRPCClientTLSConfig;
}.

(** Plaintext, or TLS from version 1.2 with a server name and the file of the root
    certificates, [None] for those of the host. *)
Inductive TransportCredentials :=
| InsecureCredentials
| TLSCredentials (serverName : string) (rootCAs : option string).

(** The client: the target and how it is reached, and the calls made with their
    outcomes. *)
Record GRPCClient := mkGRPCClient {
  c_target : string;
  c_creds : TransportCredentials;
  c_closed : bool;
  c_calls : list (bgp_call * bool);
}.

(** The outcome of reading a file of root certificates. *)
Inductive ca_file := CaUnreadable | CaWithoutPEM | CaCertificates.

Definition loadRootCAs (files : string -> ca_file) (path : string) : go bgp_error string :=
  match files path with
  | CaUnreadable => Err ErrReadCAFile
  | CaWithoutPEM => Err ErrNoRootCAPEM
  | CaCertificates => Ok path
  end.

Definition buildTransportCredentials (files : string -> ca_file) (cfg : GRPCClientTLSConfig)
    : go bgp_error TransportCredentials :=
  if negb (gt_Enabled cfg) then Ok InsecureCredentials else
  if bool_decide (gt_CAFile cfg = "") then Ok (TLSCredentials (gt_ServerName cfg) None) else
  rootCAs ← loadRootCAs files (gt_CAFile cfg);
  Ok (TLSCredentials (gt_ServerName cfg) (Some rootCAs)).

(** [target] says which addresses the RPC library takes for a target. *)
Definition NewGRPCClient (files : string -> ca_file) (target : string -> bool) (cfg : GRPCClientConfig)
    : go bgp_error GRPCClient :=
  if bool_decide (gcc_Addr cfg = "") then Err ErrDialFailed else
  match buildTransportCredentials files (gcc_TLS cfg) with
  | Panic => Panic
  | Err _ => Err ErrDialFailed
  | Ok creds =>
      if negb (target (gcc_Addr cfg)) then Err ErrDialFailed else
      Ok {| c_target := gcc_Addr cfg; c_creds := creds; c_closed := false; c_calls := [] |}
  end.

(** The outcomes of remote calls, by the number of calls made before. *)
Definition rpc : Type := nat -> bool.

Definition client_call (ok : rpc) (call : bgp_call) (c : GRPCClient) : go bgp_error unit * GRPCClient :=
  if c_closed c then (Err ErrClientClosed, c) else
  let r := ok (length (c_calls c)) in
  (if r then Ok tt else Err ErrRPC, {| c with c_calls := c_calls c ++ [(call, r)] |}).

Definition DisablePeer (ok : rpc) (addr communication : string) (c : GRPCClient)
    : go bgp_error unit * GRPCClient :=
  client_call ok (CallDisablePeer addr communication) c.

Definition EnablePeer (ok : rpc) (addr : string) (c : GRPCClient) : go bgp_error unit * GRPCClient :=
  client_call ok (CallEnablePeer addr) c.

Definition Client_Close (c : GRPCClient) : GRPCClient := {| c with c_closed := true |}.

Definition StrategyDisablePeer : string := "disable-peer".
Definition StrategyWithdrawRoutes : string := "withdraw-routes".
Definition DefaultActionTimeout : Z := 5 * 1000000000.

Definition ValidStrategies (s : string) : bool :=
  bool_decide (s = StrategyDisablePeer \/ s = StrategyWithdrawRoutes).

Record Handler := mkHandler {
  h_client : GRPCClient;
  h_strategy : string;
  h_dampener : Dampener;
  h_timeout : Z;
}.

Record HandlerConfig := mkHandlerConfig {
  hc_Client : GRPCClient;
  hc_Strategy : string;
  hc_Dampening : DampeningConfig;
  hc_ActionTimeout : Z;
}.

Definition NewHandler (cfg : HandlerConfig) : go bgp_error Handler :=
  if negb (ValidStrategies (hc_Strategy cfg)) then Err ErrInvalidStrategy else
  if bool_decide (hc_Strategy cfg = StrategyWithdrawRoutes) then Err ErrUnsupportedStrategy else
  let timeout := if hc_ActionTimeout cfg <=? 0 then DefaultActionTimeout else hc_ActionTimeout cfg in
  Ok {| h_client := hc_Client cfg; h_strategy := hc_Strategy cfg;
        h_dampener := NewDampener (hc_Dampening cfg); h_timeout := timeout |}.

Definition isTransitionToDown (sc : StateChange) : bool :=
  (sc_NewState sc =? StateDown) && ((sc_OldState sc =? StateUp) || (sc_OldState sc =? StateInit)).

Definition isTransitionToUp (sc : StateChange) : bool :=
  (sc_NewState sc =? StateUp) && negb (sc_OldState sc =? StateUp).

(** Run one of the client's methods for the handler. *)
Definition with_client {A} (f : GRPCClient -> A * GRPCClient) (h : Handler) : A * Handler :=
  let '(r, c) := f (h_client h) in (r, {| h with h_client := c |}).

Definition applyDownAction (ok : rpc) (peerAddr : string) (sc : StateChange) (h : Handler)
    : go bgp_error unit * Handler :=
  if bool_decide (h_strategy h = StrategyDisablePeer)
  then with_client (DisablePeer ok peerAddr (FormatBFDDownCommunication (sc_Diag sc))) h
  else if bool_decide (h_strategy h = StrategyWithdrawRoutes) then (Err ErrUnsupportedStrategy, h)
  else (Err ErrInvalidStrategy, h).

Definition applyUpAction (ok : rpc) (peerAddr : string) (h : Handler) : go bgp_error unit * Handler :=
  if bool_decide (h_strategy h = StrategyDisablePeer)
  then with_client (EnablePeer ok peerAddr) h
  else if bool_decide (h_strategy h = StrategyWithdrawRoutes) then (Err ErrUnsupportedStrategy, h)
  else (Err ErrInvalidStrategy, h).

Section handler.
Variable Pow : float64 -> float64 -> float64.

(** Errors of the actions are logged only. *)
Definition handleDown (ok : rpc) (now : Z) (peerAddr : string) (sc : StateChange) (h : Handler)
    : Handler :=
  let '(suppress, d) := ShouldSuppress Pow peerAddr now (h_dampener h) in
  let h := {| h with h_dampener := d |} in
  if suppress then h else (applyDownAction ok peerAddr sc h).2.

Definition handleUp (ok : rpc) (now : Z) (peerAddr : string) (h : Handler) : Handler :=
  let '(suppress, d) := ShouldSuppressUp Pow peerAddr now (h_dampener h) in
  let h := {| h with h_dampener := d |} in
  if suppress then h else (applyUpAction ok peerAddr h).2.

Definition handleStateChange (ok : rpc) (now : Z) (sc : StateChange) (h : Handler) : Handler :=
  let peerAddr := Addr_String (sc_PeerAddr sc) in
  if isTransitionToDown sc then handleDown ok now peerAddr sc h
  else if isTransitionToUp sc then handleUp ok now peerAddr h
  else h.

(** [Run] until its channel is closed, on the state changes received from it, each
    with the time at which it is handled. *)
Definition Handler_Run (ok : rpc) (events : list (Z * StateChange)) (h : Handler) : Handler :=
  fold_left (fun h ev => handleStateChange ok ev.1 ev.2 h) events h.
End handler.

(** ** Lemmas *)

Lemma cut_prefix_spec p s r : cut_prefix p s = Some r <-> s = p +:+ r.
Proof.
  revert s. induction p as [|a p IH]; intros s; cbn.
  - split; [by intros [= ->]|by intros ->].
  - destruct s as [|b s]; cbn; [done|]. destruct (Ascii.eqb_spec a b) as [->|Hne].
    + rewrite IH. split; [by intros ->|by intros [= ->]].
    + split; [done|]. intros [= -> _]. done.
Qed.

(** The reason of a shutdown can be read back. *)
Lemma parse_format diag :
  ParseBFDDownCommunication (FormatBFDDownCommunication diag) = Some (Diag_String diag).
Proof. by apply cut_prefix_spec. Qed.

(** *** Dampening *)

(** An event asked about: its time, whether it is a Down event, and its peer. *)
Abbreviation flap := (Z * bool * string)%type.

Section dampening.
Variable Pow : float64 -> float64 -> float64.

Definition flap_peer (f : flap) : string := f.2.

Definition dampen (f : flap) (d : Dampener) : bool * Dampener :=
  let '(now, down, peer) := f in
  if down then ShouldSuppress Pow peer now d else ShouldSuppressUp Pow peer now d.

Definition dampen_all (fs : list flap) (d : Dampener) : Dampener :=
  fold_left (fun d f => (dampen f d).2) fs d.

Lemma dampen_all_snoc fs f d : dampen_all (fs ++ [f]) d = (dampen f (dampen_all fs d)).2.
Proof. apply fold_left_app. Qed.

Lemma dampen_cfg f d : d_cfg (dampen f d).2 = d_cfg d.
Proof.
  destruct f as [[t []] p]; cbn; unfold ShouldSuppress, ShouldSuppressUp; destruct (dc_Enabled _); cbn.
  - by destruct (record_down _ _ _ _).
  - done.
  - destruct (d_peers d !! p); [|done]. by destruct (check_up _ _ _ _).
  - done.
Qed.

Lemma dampen_all_cfg fs d : d_cfg (dampen_all fs d) = d_cfg d.
Proof. revert d. induction fs as [|f fs IH]; intros d; cbn; [done|]. by rewrite IH, dampen_cfg. Qed.

(** An event changes the state of its own peer only. *)
Lemma dampen_other f d a : flap_peer f <> a -> d_peers (dampen f d).2 !! a = d_peers d !! a.
Proof.
  intros Hne. destruct f as [[t []] p]; cbn in *; unfold ShouldSuppress, ShouldSuppressUp;
    destruct (dc_Enabled _); cbn; try done.
  - destruct (record_down _ _ _ _). cbn. by rewrite lookup_insert_ne.
  - destruct (d_peers d !! p); [|done]. destruct (check_up _ _ _ _). cbn. by rewrite lookup_insert_ne.
Qed.

(** The verdict and the new state of a peer depend on its own state only. *)
Lemma dampen_same f d1 d2 :
  d_cfg d1 = d_cfg d2 -> d_peers d1 !! flap_peer f = d_peers d2 !! flap_peer f ->
  (dampen f d1).1 = (dampen f d2).1 /\
  d_peers (dampen f d1).2 !! flap_peer f = d_peers (dampen f d2).2 !! flap_peer f.
Proof.
  destruct f as [[t []] p]; cbn; unfold ShouldSuppress, ShouldSuppressUp, getOrCreatePeer;
    intros -> Hp; rewrite Hp; destruct (dc_Enabled _); cbn; try done.
  - destruct (record_down _ _ _ _). cbn. by rewrite !lookup_insert_eq.
  - destruct (d_peers d2 !! p) eqn:E; [|cbn; by rewrite Hp, E]. destruct (check_up _ _ _ _). cbn.
    by rewrite !lookup_insert_eq.
Qed.

Lemma dampen_all_own a fs d :
  d_peers (dampen_all fs d) !! a = d_peers (dampen_all (filter (fun f => flap_peer f = a) fs) d) !! a.
Proof.
  induction fs as [|f fs IH] using rev_ind; [done|]. rewrite filter_app, dampen_all_snoc.
  destruct (decide (flap_peer f = a)) as [<-|Hne].
  - rewrite filter_cons_True, filter_nil, dampen_all_snoc by done.
    apply dampen_same; [by rewrite !dampen_all_cfg|done].
  - rewrite filter_cons_False, filter_nil, app_nil_r by done. by rewrite dampen_other.
Qed.

Lemma decay_suppression cfg t pp :
  pp_suppressed (decayPenalty Pow cfg t pp) = pp_suppressed pp /\
  pp_suppressedSince (decayPenalty Pow cfg t pp) = pp_suppressedSince pp.
Proof.
  unfold decayPenalty. destruct (_ || _); [done|]. by destruct (_ <=? 0).
Qed.

(** What a suppressed event says about its peer: the suppression starts with it, as
    the penalty of a Down event reaches the threshold, or it is not over yet. *)
Lemma dampen_verdict t down a d :
  (dampen (t, down, a) d).1 = true ->
  dc_Enabled (d_cfg d) = true /\
  exists pp', d_peers (dampen (t, down, a) d).2 !! a = Some pp' /\ pp_suppressed pp' = true /\
    ((down = true /\ pp_suppressedSince pp' = t /\
      SFleb (dc_SuppressThreshold (d_cfg d)) (pp_penalty pp') = true) \/
     exists pp, d_peers d !! a = Some pp /\ pp_suppressed pp = true /\
       pp_suppressedSince pp' = pp_suppressedSince pp /\
       time_Sub t (pp_suppressedSince pp) < dc_MaxSuppressTime (d_cfg d)).
Proof.
  destruct down; cbn; unfold ShouldSuppress, ShouldSuppressUp; destruct (dc_Enabled _); cbn; try done.
  - unfold record_down, getOrCreatePeer.
    set (pp0 := default _ _). destruct (decay_suppression (d_cfg d) t pp0) as [H1 H2].
    set (pp1 := decayPenalty _ _ _ _) in *. unfold expired. cbn. rewrite H1, H2.
    destruct (pp_suppressed pp0) eqn:Hs; cbn.
    + assert (Hd : d_peers d !! a = Some pp0).
      { subst pp0. destruct (d_peers d !! a); [done|]. cbn in Hs. done. }
      destruct (_ <=? _) eqn:Hm; cbn; [done|]. intros _. split; [done|]. eexists.
      split; [apply lookup_insert_eq|]. split; [done|]. right. exists pp0.
      apply Z.leb_gt in Hm. split_and!; [done..|lia].
    + destruct (SFleb _ _) eqn:Hl; cbn; [|by rewrite ?H1]. intros _. split; [done|]. eexists.
      split; [apply lookup_insert_eq|]. split; [done|]. by left.
  - destruct (d_peers d !! a) as [pp0|] eqn:Hd; [|done]. unfold check_up.
    destruct (decay_suppression (d_cfg d) t pp0) as [H1 H2].
    set (pp1 := decayPenalty _ _ _ _) in *. unfold expired. rewrite H1, H2.
    destruct (pp_suppressed pp0) eqn:Hs; cbn; [|by rewrite ?H1].
    destruct (_ <=? _) eqn:Hm; cbn; [done|]. destruct (SFltb _ _); [done|]. intros _. split; [done|].
    eexists. split; [apply lookup_insert_eq|]. split; [done|]. right. exists pp0.
    apply Z.leb_gt in Hm. split_and!; [done..|lia].
Qed.

(** A peer is left suppressed only by a suppressed event. *)
Lemma dampen_suppressed t down a d pp :
  dc_Enabled (d_cfg d) = true -> d_peers (dampen (t, down, a) d).2 !! a = Some pp ->
  pp_suppressed pp = true -> (dampen (t, down, a) d).1 = true.
Proof.
  intros He. destruct down; cbn; unfold ShouldSuppress, ShouldSuppressUp; rewrite He; cbn.
  - unfold record_down. destruct (expired _ _ _); cbn; rewrite lookup_insert_eq; by intros [= <-].
  - destruct (d_peers d !! a) as [pp0|] eqn:Hd; [|cbn; by rewrite Hd]. unfold check_up.
    destruct (expired _ _ _); cbn; [rewrite lookup_insert_eq; by intros [= <-]|].
    destruct (_ && _); cbn; rewrite lookup_insert_eq; by intros [= <-].
Qed.

(** In the history [fs] the suppression of [a] started with the Down event at time
    [s], whose penalty reached the threshold, and every event of [a] from there on
    was suppressed. *)
Definition started (cfg : DampeningConfig) (fs : list flap) (a : string) (s : Z) (post : list flap) : Prop :=
  let d0 := NewDampener cfg in
  let start := (s, true, a) in
  exists pre, fs = pre ++ start :: post /\
    (exists pp, d_peers (dampen_all (pre ++ [start]) d0) !! a = Some pp /\
                SFleb (dc_SuppressThreshold cfg) (pp_penalty pp) = true) /\
    (forall k f, (start :: post) !! k = Some f -> flap_peer f = a ->
       (dampen f (dampen_all (pre ++ take k (start :: post)) d0)).1 = true).

Lemma started_snoc cfg fs f a s post :
  started cfg fs a s post ->
  (flap_peer f = a -> (dampen f (dampen_all fs (NewDampener cfg))).1 = true) ->
  started cfg (fs ++ [f]) a s (post ++ [f]).
Proof.
  intros (pre & -> & Hr & Ha) Hf. exists pre. rewrite <- app_assoc. split; [done|]. split; [done|].
  intros k g Hk Hg. rewrite app_comm_cons in Hk |- *.
  destruct (decide (k < length ((s, true, a) :: post))%nat) as [Hlt|Hge].
  - rewrite lookup_app_l in Hk by done. rewrite take_app_le by lia. by apply Ha.
  - rewrite lookup_app_r in Hk by lia. apply list_lookup_singleton_Some in Hk as [Hk <-].
    rewrite take_app_length' by lia. by apply Hf.
Qed.

Lemma suppressed_started cfg fs a pp :
  dc_Enabled cfg = true -> d_peers (dampen_all fs (NewDampener cfg)) !! a = Some pp ->
  pp_suppressed pp = true -> exists post, started cfg fs a (pp_suppressedSince pp) post.
Proof.
  intros He. revert pp. induction fs as [|f fs IH] using rev_ind; intros pp; [done|].
  rewrite dampen_all_snoc. set (d := dampen_all fs _) in *. intros Hpp Hs.
  assert (Hc : d_cfg d = cfg) by apply dampen_all_cfg.
  destruct (decide (flap_peer f = a)) as [Hf|Hne].
  - destruct f as [[t down] b]. cbn in Hf. subst b.
    assert (Hv : (dampen (t, down, a) d).1 = true).
    { eapply dampen_suppressed; [by rewrite Hc|done|done]. }
    destruct (dampen_verdict t down a d Hv) as (_ & pp' & Hp' & _ & Hcase).
    assert (pp' = pp) as -> by congruence. rewrite Hc in Hcase.
    destruct Hcase as [(-> & <- & Hl)|(pp0 & H0 & Hs0 & -> & _)].
    + exists [], fs. split; [done|]. split.
      * exists pp. rewrite dampen_all_snoc. done.
      * intros k g Hk _. apply list_lookup_singleton_Some in Hk as [-> <-]. cbn [take].
        by rewrite app_nil_r.
    + destruct (IH pp0 H0 Hs0) as [post Hst]. exists (post ++ [(t, down, a)]).
      apply started_snoc; [exact Hst|]. done.
  - rewrite dampen_other in Hpp by done. destruct (IH pp Hpp Hs) as [post Hst].
    exists (post ++ [f]). apply started_snoc; [exact Hst|]. done.
Qed.
End dampening.

(** C32: an event is suppressed only with dampening enabled, and only by a
    suppression that started with a Down event of the same peer whose penalty
    reached the threshold, lasts less than the maximum suppression time and let
    no event of the peer through since.  Other peers have no influence. *)
Theorem suppression_window Pow (cfg : DampeningConfig) (fs : list flap) (t : Z) (down : bool)
    (a : string) (H : (dampen Pow (t, down, a) (dampen_all Pow fs (NewDampener cfg))).1 = true) :
  dc_Enabled cfg = true /\
  (exists s post, started Pow cfg (fs ++ [(t, down, a)]) a s post /\
     (post = [] /\ s = t \/ time_Sub t s < dc_MaxSuppressTime cfg)) /\
  (dampen Pow (t, down, a)
     (dampen_all Pow (filter (fun f => flap_peer f = a) fs) (NewDampener cfg))).1 = true.
Proof.
  destruct (dampen_verdict Pow t down a _ H) as (He & pp & Hpp & Hs & Hcase).
  rewrite dampen_all_cfg in *. cbn [d_cfg NewDampener] in *. split; [done|]. split.
  - destruct Hcase as [(-> & Ht & Hl)|(pp0 & H0 & Hs0 & _ & Hm)].
    + exists t, []. split; [|by left]. exists fs. split; [done|]. split.
      * exists pp. by rewrite dampen_all_snoc.
      * intros k f Hk _. apply list_lookup_singleton_Some in Hk as [-> <-]. cbn [take].
        by rewrite app_nil_r.
    + destruct (suppressed_started Pow cfg fs a pp0 He H0 Hs0) as [post Hst].
      exists (pp_suppressedSince pp0), (post ++ [(t, down, a)]). split; [|by right].
      apply started_snoc; [exact Hst|]. done.
  - rewrite <- H. symmetry. apply dampen_same; [by rewrite !dampen_all_cfg|].
    apply (dampen_all_own Pow a).
Qed.

(** The typical parameters, enabled. *)
Definition sample_dampening : DampeningConfig := {| DefaultDampeningConfig with dc_Enabled := true |}.
Definition sample_pow : float64 -> float64 -> float64 := fun _ _ => f_half.

(** Three Down events in a row: the third is suppressed, and the Up
    event that follows at once with it. *)
Lemma suppression_window_witness :
  let downs := replicate 3 (0, true, "10.0.0.2"%string) in
  dc_Enabled sample_dampening = true /\
  exists s post, started sample_pow sample_dampening
      (downs ++ [(0, false, "10.0.0.2"%string)]) "10.0.0.2" s post /\
    (post = [] /\ s = 0 \/ time_Sub 0 s < 60 * 1000000000).
Proof.
  destruct (suppression_window sample_pow sample_dampening (replicate 3 (0, true, "10.0.0.2"%string))
    0 false "10.0.0.2" ltac:(vm_compute; reflexivity)) as (H1 & H2 & _).
  split; [exact H1|exact H2].
Defined.

(** *** The handler *)

(** The administrative state the calls give a peer that is enabled at first. *)
Definition bgp_enabled (a : string) (calls : list (bgp_call * bool)) : bool :=
  fold_left (fun en call =>
    match call with
    | (CallDisablePeer b _, true) => if bool_decide (b = a) then false else en
    | (CallEnablePeer b, true) => if bool_decide (b = a) then true else en
    | (_, false) => en
    end) calls true.

(** The changes are consecutive transitions of one session's state machine. *)
Fixpoint fsm_chain (st : Z) (scs : list StateChange) : Prop :=
  match scs with
  | [] => True
  | sc :: scs => sc_OldState sc = st /\ (exists ev, NewState (apply_event st ev) = sc_NewState sc) /\
                 fsm_chain (sc_NewState sc) scs
  end.

Definition final_state (st : Z) (scs : list StateChange) : Z :=
  default st (sc_NewState <$> last scs).

Definition change_peer (sc : StateChange) : string := Addr_String (sc_PeerAddr sc).

(** What a state change makes of the administrative state of its peer. *)
Definition effect (sc : StateChange) (en : bool) : bool :=
  if isTransitionToDown sc then false else if isTransitionToUp sc then true else en.

(** The one call a state change leads to: a session lost from Up or Init disables its
    peer, one that comes Up enables it, and other changes lead to none. *)
Definition call_for (sc : StateChange) : option bgp_call :=
  if decide (sc_NewState sc = StateDown /\ (sc_OldState sc = StateUp \/ sc_OldState sc = StateInit))
  then Some (CallDisablePeer (change_peer sc) (FormatBFDDownCommunication (sc_Diag sc)))
  else if decide (sc_NewState sc = StateUp /\ sc_OldState sc <> StateUp) then Some (CallEnablePeer (change_peer sc)) else None.

Lemma call_for_code sc :
  call_for sc = if isTransitionToDown sc then Some (CallDisablePeer (change_peer sc) (FormatBFDDownCommunication (sc_Diag sc)))
                else if isTransitionToUp sc then Some (CallEnablePeer (change_peer sc)) else None.
Proof.
  unfold call_for, isTransitionToDown, isTransitionToUp.
  destruct (Z.eqb_spec (sc_NewState sc) StateDown), (Z.eqb_spec (sc_NewState sc) StateUp), (Z.eqb_spec (sc_OldState sc) StateUp),
    (Z.eqb_spec (sc_OldState sc) StateInit); cbn; repeat (destruct (decide _)); try done; tauto.
Qed.

(** The calls with their outcomes, the [k]-th of a client having the outcome [ok k]. *)
Definition outcomes (ok : rpc) (calls : list bgp_call) : list (bgp_call * bool) := imap (fun k call => (call, ok k)) calls.

Lemma outcomes_app ok xs ys :
  outcomes ok (xs ++ ys) = outcomes ok xs ++ outcomes (fun k => ok (length xs + k)%nat) ys.
Proof. unfold outcomes. by rewrite imap_app. Qed.

(** A handler with dampening off, whose client is open. *)
Record plain (h : Handler) : Prop := {
  pl_strategy : h_strategy h = StrategyDisablePeer;
  pl_off : dc_Enabled (d_cfg (h_dampener h)) = false;
  pl_open : c_closed (h_client h) = false;
}.

Section follows.
Variable Pow : float64 -> float64 -> float64.
Variable ok : rpc.

Lemma handle_plain t sc h :
  plain h -> let h' := handleStateChange Pow ok t sc h in
  plain h' /\ c_calls (h_client h') =
    c_calls (h_client h) ++ match call_for sc with Some call => [(call, ok (length (c_calls (h_client h))))] | None => [] end.
Proof.
  intros [Hs Hd Hc]. rewrite call_for_code. unfold handleStateChange, handleDown, handleUp, ShouldSuppress,
    ShouldSuppressUp, applyDownAction, applyUpAction, with_client, DisablePeer, EnablePeer, client_call.
  rewrite Hd. cbn [negb]. destruct (isTransitionToDown sc), (isTransitionToUp sc);
    cbn; rewrite ?Hs, ?Hc, ?app_nil_r; cbn; split; by try split.
Qed.

(** Exactly one call per transition, in their order, whatever the outcomes. *)
Lemma run_calls events h : plain h -> c_calls (h_client h) = [] ->
  let h' := Handler_Run Pow ok events h in
  plain h' /\ c_calls (h_client h') = outcomes ok (omap call_for events.*2).
Proof.
  intros Hp Hn. induction events as [|[t sc] events IH] using rev_ind; [by split|].
  cbn zeta in *. unfold Handler_Run in *. rewrite fold_left_app. cbn [fold_left fst snd].
  destruct IH as (IH1 & IH2). destruct (handle_plain t sc _ IH1) as (H1 & H2). split; [done|].
  rewrite H2, IH2, fmap_app, omap_app, outcomes_app. f_equal. cbn [fmap list_fmap omap list_omap snd].
  destruct (call_for sc); [|done]. unfold outcomes at 2. cbn. unfold outcomes. by rewrite length_imap, Nat.add_0_r.
Qed.
End follows.

Lemma bgp_enabled_snoc a calls call :
  bgp_enabled a (calls ++ [(call, true)]) =
    match call with
    | CallDisablePeer b _ => if bool_decide (b = a) then false else bgp_enabled a calls
    | CallEnablePeer b => if bool_decide (b = a) then true else bgp_enabled a calls
    end.
Proof. unfold bgp_enabled. rewrite fold_left_app. by destruct call. Qed.

(** What successful calls make of a peer. *)
Lemma outcomes_enabled ok a scs : (forall k, ok k = true) ->
  bgp_enabled a (outcomes ok (omap call_for scs)) =
    fold_left (fun en sc => effect sc en) (filter (fun sc => change_peer sc = a) scs) true.
Proof.
  intros Hok. induction scs as [|sc scs IH] using rev_ind; [done|].
  rewrite omap_app, filter_app, fold_left_app, <- IH, outcomes_app. set (calls := outcomes ok _).
  cbn [omap list_omap]. rewrite call_for_code, filter_cons, filter_nil. unfold outcomes.
  destruct (decide (change_peer sc = a)) as [Hb|Hb]; cbn; unfold effect;
    destruct (isTransitionToDown sc), (isTransitionToUp sc); cbn; rewrite ?Hok, ?bgp_enabled_snoc, ?app_nil_r;
    by rewrite ?(bool_decide_eq_true_2 _ Hb), ?(bool_decide_eq_false_2 _ Hb).
Qed.

(** Where the state machine can go from a state other than AdminDown. *)
Lemma fsm_next st ev :
  st = StateDown \/ st = StateInit \/ st = StateUp ->
  let st' := NewState (apply_event st ev) in
  st' = StateAdminDown \/ st' = StateDown \/ st' = StateUp \/ (st' = StateInit /\ st <> StateUp).
Proof.
  intros Hst. unfold apply_event. destruct (fsmTable !! mkSE st ev) as [tr|] eqn:E; cbn.
  - assert (H : map_Forall (fun k tr => tr_newState tr = StateAdminDown \/ tr_newState tr = StateDown \/
      tr_newState tr = StateUp \/ (tr_newState tr = StateInit /\ se_state k <> StateUp)) fsmTable)
      by (apply (bool_decide_unpack _); vm_compute; done).
    exact (H _ _ E).
  - unfold StateAdminDown, StateDown, StateInit, StateUp in *. lia.
Qed.

Lemma final_state_cons st sc scs : final_state st (sc :: scs) = final_state (sc_NewState sc) scs.
Proof.
  unfold final_state. destruct scs as [|sc' scs]; [done|]. rewrite last_cons_cons.
  destruct (last (sc' :: scs)) eqn:E; [done|]. by apply last_None in E.
Qed.

Lemma chain_up st scs en :
  fsm_chain st scs -> (st = StateUp -> en = true) -> final_state st scs = StateUp ->
  fold_left (fun en sc => effect sc en) scs en = true.
Proof.
  revert st en. induction scs as [|sc scs IH]; intros st en; cbn; [by intros _ ? ?; auto|].
  intros (Ho & _ & Hc) Hen. rewrite final_state_cons. apply IH; [done|].
  intros Hu. unfold effect, isTransitionToDown, isTransitionToUp. rewrite Hu, Ho. cbn.
  destruct (st =? StateUp) eqn:E; [|done]. bools. by apply Hen.
Qed.

Lemma chain_down st scs en :
  fsm_chain st scs -> Forall (fun sc => sc_NewState sc <> StateAdminDown) scs ->
  st = StateUp \/ ((st = StateDown \/ st = StateInit) /\ en = false) ->
  final_state st scs <> StateUp -> fold_left (fun en sc => effect sc en) scs en = false.
Proof.
  revert st en. induction scs as [|sc scs IH]; intros st en; cbn.
  - intros _ _ Hst Hf. unfold final_state in Hf. cbn in Hf. naive_solver.
  - intros (Ho & (ev & He) & Hc) [Hn Hns]%Forall_cons_1 Hst. rewrite final_state_cons.
    apply IH; [done|done|].
    destruct (fsm_next st ev ltac:(tauto)) as [H|[H|[H|[H Hne]]]]; rewrite He in H; [done|right|by left|right].
    + split; [by left|]. unfold effect, isTransitionToDown, isTransitionToUp. rewrite Ho, H.
      destruct Hst as [->|[[->| ->] ->]]; done.
    + split; [by right|]. unfold effect, isTransitionToDown, isTransitionToUp. rewrite Ho, H.
      destruct Hst as [->|[[->| ->] ->]]; done.
Qed.

Lemma fsm_chain_app st xs ys :
  fsm_chain st (xs ++ ys) -> fsm_chain (final_state st xs) ys.
Proof.
  revert st. induction xs as [|x xs IH]; intros st; [done|]. intros (_ & _ & H).
  rewrite final_state_cons. by apply IH.
Qed.

Lemma final_state_app st xs ys : final_state st (xs ++ ys) = final_state (final_state st xs) ys.
Proof.
  revert st. induction xs as [|x xs IH]; intros st; [done|].
  rewrite <- app_comm_cons, !final_state_cons. apply IH.
Qed.

Lemma new_client files target ccfg c : NewGRPCClient files target ccfg = Ok c -> c_closed c = false /\ c_calls c = [].
Proof.
  unfold NewGRPCClient. case_bool_decide; [done|]. destruct (buildTransportCredentials _ _); [|done..].
  destruct (target _); [|done]. by intros [= <-].
Qed.

(** C33: without dampening the handler makes exactly one call per transition, in the
    order of the events and whatever the calls return: for a session lost from Up or
    Init the call that disables its peer, with a reason that names the diagnostic of
    the change, for one that comes Up the call that enables it, and none for other
    changes.  When moreover the calls succeed and the events of a peer are the
    consecutive transitions of a session that starts Down, the peer is enabled whenever
    the session is Up; once the session was Up and is lost, it is disabled until the
    session is Up again, unless an operator shut the session down in between. *)
Theorem bgp_follows_bfd Pow (ok : rpc) (cfg : HandlerConfig) (h : Handler)
    (files : string -> ca_file) (target : string -> bool) (ccfg : GRPCClientConfig)
    (events : list (Z * StateChange)) (a : string)
    (Hh : NewHandler cfg = Ok h) (Hoff : dc_Enabled (hc_Dampening cfg) = false)
    (Hcl : NewGRPCClient files target ccfg = Ok (hc_Client cfg)) :
  let mine := filter (fun sc => change_peer sc = a) events.*2 in
  let calls := c_calls (h_client (Handler_Run Pow ok events h)) in
  calls = outcomes ok (omap call_for events.*2) /\
  (forall diag, ParseBFDDownCommunication (FormatBFDDownCommunication diag) = Some (Diag_String diag)) /\
  ((forall n, ok n = true) -> fsm_chain StateDown mine ->
   (final_state StateDown mine = StateUp -> bgp_enabled a calls = true) /\
   (forall before after, mine = before ++ after -> final_state StateDown before = StateUp ->
      Forall (fun sc => sc_NewState sc <> StateAdminDown) after ->
      final_state StateDown mine <> StateUp -> bgp_enabled a calls = false)).
Proof.
  assert (Hp : plain h /\ c_calls (h_client h) = []).
  { unfold NewHandler in Hh. destruct (negb _) eqn:Hv; [done|]. case_bool_decide as Hw; [done|].
    injection Hh as <-. destruct (new_client _ _ _ _ Hcl) as [Hc0 Hc1]. cbn. split; [|done]. split; [|done..]. cbn.
    unfold ValidStrategies in Hv. apply negb_false_iff, bool_decide_eq_true in Hv. tauto. }
  destruct (run_calls Pow ok events h (proj1 Hp) (proj2 Hp)) as [_ Hc]. cbn zeta in *.
  split_and!; [exact Hc|apply parse_format|]. intros Hok Hchain. rewrite Hc, outcomes_enabled by done. split.
  - intros Hf. by eapply chain_up.
  - intros xs ys Hm Hu Ha Hf. rewrite Hm in *. rewrite fold_left_app, final_state_app in *.
    apply fsm_chain_app in Hchain. rewrite Hu in *. eapply chain_down; [done|done|by left|done].
Qed.

(** A session with 10.0.0.2 comes up at time 2 and fails at time 3. *)
Definition sample_change (o n diag : Z) : StateChange :=
  mkStateChange 5 (IPv4 167772162) o n diag 0 0 "eth0".
Definition sample_changes : list (Z * StateChange) :=
  [(1, sample_change StateDown StateInit 0); (2, sample_change StateInit StateUp 0);
   (3, sample_change StateUp StateDown DiagControlTimeExpired)].
Definition sample_client : GRPCClient := mkGRPCClient "127.0.0.1:50052" InsecureCredentials false [].
Definition sample_client_cfg : GRPCClientConfig := mkGRPCClientConfig "127.0.0.1:50052" (mkGRPCClientTLSConfig false "" "").
Definition sample_handler_cfg (d : DampeningConfig) : HandlerConfig :=
  mkHandlerConfig sample_client StrategyDisablePeer d 0.
Definition sample_handler (d : DampeningConfig) : Handler :=
  mkHandler sample_client StrategyDisablePeer (NewDampener d) DefaultActionTimeout.

Lemma bgp_follows_bfd_witness :
  let run events := c_calls (h_client (Handler_Run sample_pow (fun _ => true) events (sample_handler DefaultDampeningConfig))) in
  run sample_changes = [(CallEnablePeer "10.0.0.2", true);
    (CallDisablePeer "10.0.0.2" "BFD Down (RFC 9384 Cease/10): diag=Control Detection Time Expired", true)] /\
  bgp_enabled "10.0.0.2" (run (take 2 sample_changes)) = true /\ bgp_enabled "10.0.0.2" (run sample_changes) = false.
Proof.
  intros run. pose proof (fun events => bgp_follows_bfd sample_pow (fun _ => true) (sample_handler_cfg DefaultDampeningConfig)
    (sample_handler DefaultDampeningConfig) (fun _ => CaUnreadable) (fun _ => true) sample_client_cfg
    events "10.0.0.2" ltac:(vm_compute; reflexivity) eq_refl eq_refl) as T. split_and!.
  - destruct (T sample_changes) as [-> _]. vm_compute. reflexivity.
  - apply (T (take 2 sample_changes)); [done| |vm_compute; reflexivity].
    vm_compute. split_and!; try done; [exists EventRecvDown; by vm_compute|exists EventRecvInit; by vm_compute].
  - assert (Hm : filter (fun sc => change_peer sc = "10.0.0.2"%string) sample_changes.*2 =
      take 2 sample_changes.*2 ++ drop 2 sample_changes.*2) by (vm_compute; reflexivity).
    destruct (T sample_changes) as (_ & _ & H). destruct H as [_ H]; [done| |].
    + rewrite Hm. cbn. split_and!; try done; [exists EventRecvDown|exists EventRecvInit|exists EventTimerExpired];
        by vm_compute.
    + apply (H _ _ Hm); [vm_compute; reflexivity|by repeat constructor|rewrite Hm; by vm_compute].
Defined.

(** ** Where the BGP integration departs from its documentation *)

(** The penalty that equals the threshold suppresses: with the typical threshold
    of 3 the third Down event in a row is already suppressed. *)
Example threshold_itself_suppresses :
  let downs := replicate 2 (1, true, "10.0.0.2"%string) in
  (dampen sample_pow (1, true, "10.0.0.2"%string)
     (dampen_all sample_pow downs (NewDampener sample_dampening))).1 = true.
Proof. vm_compute. reflexivity. Qed.

(** A peer that was disabled stays disabled although its session is Up: the session
    is lost and fails to come up twice more, which starts the suppression, and the
    Up event that follows is dropped for good. *)
Example suppressed_up_leaves_peer_disabled :
  let events := [(1, sample_change StateUp StateDown 1); (1, sample_change StateDown StateInit 0);
                 (1, sample_change StateInit StateDown 1); (1, sample_change StateDown StateInit 0);
                 (1, sample_change StateInit StateDown 1); (1, sample_change StateDown StateInit 0);
                 (1, sample_change StateInit StateUp 0)] in
  let h := Handler_Run sample_pow (fun _ => true) events (sample_handler sample_dampening) in
  fsm_chain StateUp events.*2 /\ final_state StateUp events.*2 = StateUp /\
  bgp_enabled "10.0.0.2" (c_calls (h_client h)) = false.
Proof.
  cbn zeta. split; [|split; vm_compute; reflexivity]. cbn.
  split_and!; try done; [exists EventTimerExpired|exists EventRecvDown|exists EventTimerExpired|
    exists EventRecvDown|exists EventTimerExpired|exists EventRecvDown|exists EventRecvInit]; by vm_compute.
Qed.
