(* ===== verification/Overlay.v ===== *)
(** * BFD over VXLAN and Geneve tunnels

    Models the codecs of [internal/netio]: the VXLAN header ([vxlan.go], RFC 7348
    and RFC 8971), the Geneve header ([geneve.go], RFC 8926 and RFC 9521), the inner
    Ethernet, IPv4 and UDP headers with the IPv4 checksum ([overlay_inner.go]), and
    the two tunnel connections built from them ([vxlan_conn.go], [geneve_conn.go],
    [overlay_backend.go]).  A datagram read from a socket and the success of a
    write are inputs; datagrams written are recorded.  [OverlayConn] is the
    interface the tunnel receiver uses; its laws are discharged here. *)

From S2P Require Import Prelude Netip.

Local Open Scope Z_scope.

(** ** Errors *)

Inductive overlay_error :=
| ErrVXLANHeaderTooShort | ErrVXLANInvalidFlags | ErrVXLANVNIOverflow
| ErrGeneveHeaderTooShort | ErrGeneveVNIOverflow | ErrGeneveInvalidVersion
| ErrGeneveOBitNotSet | ErrGeneveCBitSet | ErrGeneveUnexpectedProto
| ErrInnerPacketTooShort | ErrInnerBadEtherType | ErrInnerBadIPVersion | ErrInnerBadProtocol
| ErrInnerIPv4Only
| ErrOverlayVNIMismatch | ErrOverlayRecvClosed | ErrOverlayInvalidAddr
| ErrInvalidOverlayBackend | ErrUnsupportedOverlayBackend | ErrInvalidOverlayBackendInput
| ErrOverlaySocket.

#[export] Instance overlay_error_eq_dec : EqDecision overlay_error.
Proof. solve_decision. Defined.

(** ** VXLAN header *)

Definition VXLANHeaderSize : Z := 8.
Definition VXLANPort : Z := 4789.
Definition vxlanFlagVNI : Z := 0x08.

Record VXLANHeader := mkVXLANHeader { vh_VNI : Z }.

Definition MarshalVXLANHeader (vni : Z) : bufM overlay_error Z :=
  len ← b_len;
  if len <? VXLANHeaderSize then b_fail ErrVXLANHeaderTooShort else
  if 0x00FFFFFF <? vni then b_fail ErrVXLANVNIOverflow else
  _ ← b_put 0 vxlanFlagVNI;
  _ ← b_put 1 0;
  _ ← b_put 2 0;
  _ ← b_put 3 0;
  _ ← b_put32 4 (u32 (Z.shiftl vni 8));
  mret VXLANHeaderSize.

Definition UnmarshalVXLANHeader (buf : list Z) : go overlay_error VXLANHeader :=
  if zlen buf <? VXLANHeaderSize then Err ErrVXLANHeaderTooShort else
  b0 ← idx buf 0;
  if Z.land b0 vxlanFlagVNI =? 0 then Err ErrVXLANInvalidFlags else
  w ← get_uint32 buf 4;
  Ok {| vh_VNI := Z.shiftr w 8 |}.

(** ** Geneve header *)

Definition GeneveHeaderMinSize : Z := 8.
Definition GenevePort : Z := 6081.
Definition GeneveProtocolEthernet : Z := 0x6558.

Record GeneveHeader := mkGeneveHeader {
  gh_Version : Z;
  gh_OptLen : Z;
  gh_OBit : bool;
  gh_CBit : bool;
  gh_ProtocolType : Z;
  gh_VNI : Z;
}.

Definition TotalHeaderSize (h : GeneveHeader) : Z := GeneveHeaderMinSize + gh_OptLen h * 4.

Definition MarshalGeneveHeader (hdr : GeneveHeader) : bufM overlay_error Z :=
  len ← b_len;
  if len <? GeneveHeaderMinSize then b_fail ErrGeneveHeaderTooShort else
  if 0x00FFFFFF <? gh_VNI hdr then b_fail ErrGeneveVNIOverflow else
  _ ← b_put 0 (Z.lor (u8 (Z.shiftl (gh_Version hdr) 6)) (Z.land (gh_OptLen hdr) 0x3F));
  let b1 := 0 in
  let b1 := if gh_OBit hdr then Z.lor b1 0x80 else b1 in
  let b1 := if gh_CBit hdr then Z.lor b1 0x40 else b1 in
  _ ← b_put 1 b1;
  _ ← b_put16 2 (gh_ProtocolType hdr);
  _ ← b_put32 4 (u32 (Z.shiftl (gh_VNI hdr) 8));
  mret GeneveHeaderMinSize.

Definition UnmarshalGeneveHeader (buf : list Z) : go overlay_error GeneveHeader :=
  if zlen buf <? GeneveHeaderMinSize then Err ErrGeneveHeaderTooShort else
  b0 ← idx buf 0;
  let ver := Z.shiftr b0 6 in
  if negb (ver =? 0) then Err ErrGeneveInvalidVersion else
  let optLen := Z.land b0 0x3F in
  b1 ← idx buf 1;
  let oBit := negb (Z.land b1 0x80 =? 0) in
  let cBit := negb (Z.land b1 0x40 =? 0) in
  protoType ← get_uint16 buf 2;
  w ← get_uint32 buf 4;
  Ok {| gh_Version := ver; gh_OptLen := optLen; gh_OBit := oBit; gh_CBit := cBit;
        gh_ProtocolType := protoType; gh_VNI := Z.shiftr w 8 |}.

(** ** Inner packet *)

Definition InnerEthSize : Z := 14.
Definition InnerIPv4Size : Z := 20.
Definition InnerUDPSize : Z := 8.
Definition InnerOverheadIPv4 : Z := InnerEthSize + InnerIPv4Size + InnerUDPSize.
Definition innerEtherTypeIPv4 : Z := 0x0800.
Definition innerIPv4VersionIHL : Z := 0x45.
Definition innerIPv4Protocol : Z := 17.
Definition innerIPv4TTL : Z := 255.
Definition innerBFDDstPort : Z := 3784.
Definition innerDstMAC : list Z := [0x00; 0x52; 0x02; 0x00; 0x00; 0x00].
Definition innerSrcMAC : list Z := [0x02; 0x00; 0x00; 0x00; 0x00; 0x01].

(** The sum of the 16-bit words and, at an odd length, of the last byte as the high
    half of a word. *)
Fixpoint sum_words (sum : Z) (hdr : list Z) : Z :=
  match hdr with
  | b0 :: b1 :: rest => sum_words (u32 (sum + be16_val b0 b1)) rest
  | [b0] => u32 (sum + u32 (Z.shiftl b0 8))
  | [] => sum
  end.

(** At most [n] rounds of the folding loop; [fold_carry_done] shows that two rounds
    end it. *)
Fixpoint fold_carry (n : nat) (sum : Z) : Z :=
  match n with
  | O => sum
  | S n => if Z.shiftr sum 16 =? 0 then sum
           else fold_carry n (u32 (Z.land sum 0xFFFF + Z.shiftr sum 16))
  end.

Definition ipv4HeaderChecksum (hdr : list Z) : Z :=
  u16 (Z.lnot (u16 (fold_carry 2 (sum_words 0 hdr)))).

(** [slice] of the buffer being written. *)
Definition b_slice {E} (lo hi : nat) : bufM E (list Z) := fun buf => (slice buf lo hi, buf).

(** The writes of [BuildInnerPacket] into its new buffer. *)
Definition write_inner (bfdPayload : list Z) (srcIP dstIP : Addr) (srcPort : Z)
    : bufM overlay_error unit :=
  _ ← b_copy 0 innerDstMAC;
  _ ← b_copy 6 innerSrcMAC;
  _ ← b_put16 12 innerEtherTypeIPv4;
  let ipOff := 14%nat in
  let ipPayloadLen := InnerIPv4Size + InnerUDPSize + zlen bfdPayload in
  _ ← b_put ipOff innerIPv4VersionIHL;
  _ ← b_put (ipOff + 1) 0;
  _ ← b_put16 (ipOff + 2) (u16 ipPayloadLen);
  _ ← b_put16 (ipOff + 4) 0;
  _ ← b_put16 (ipOff + 6) 0x4000;
  _ ← b_put (ipOff + 8) innerIPv4TTL;
  _ ← b_put (ipOff + 9) innerIPv4Protocol;
  _ ← b_put (ipOff + 10) 0;
  _ ← b_put (ipOff + 11) 0;
  _ ← b_copy (ipOff + 12) (Addr_As4 srcIP);
  _ ← b_copy (ipOff + 16) (Addr_As4 dstIP);
  hdr ← b_slice ipOff (ipOff + 20);
  _ ← b_put16 (ipOff + 10) (ipv4HeaderChecksum hdr);
  let udpOff := 34%nat in
  let udpLen := InnerUDPSize + zlen bfdPayload in
  _ ← b_put16 udpOff srcPort;
  _ ← b_put16 (udpOff + 2) innerBFDDstPort;
  _ ← b_put16 (udpOff + 4) (u16 udpLen);
  _ ← b_put16 (udpOff + 6) 0;
  b_copy 42 bfdPayload.

(** A buffer of [n] zero bytes filled by [m]. *)
Definition filled {E A} (n : Z) (m : bufM E A) : go E (list Z) :=
  match m (replicate (Z.to_nat n) 0) with
  | (Ok _, buf) => Ok buf
  | (Err e, _) => Err e
  | (Panic, _) => Panic
  end.

Definition BuildInnerPacket (bfdPayload : list Z) (srcIP dstIP : Addr) (srcPort : Z)
    : go overlay_error (list Z) :=
  if negb (Addr_Is4 srcIP) || negb (Addr_Is4 dstIP) then Err ErrInnerIPv4Only else
  filled (InnerOverheadIPv4 + zlen bfdPayload) (write_inner bfdPayload srcIP dstIP srcPort).

Definition addr4_at (buf : list Z) (i : nat) : go overlay_error Addr :=
  w ← get_uint32 buf i; Ok (IPv4 w).

Definition StripInnerPacket (buf : list Z) : go overlay_error (list Z * Addr * Addr) :=
  if zlen buf <? InnerOverheadIPv4 then Err ErrInnerPacketTooShort else
  etherType ← get_uint16 buf 12;
  if negb (etherType =? innerEtherTypeIPv4) then Err ErrInnerBadEtherType else
  b ← idx buf 14;
  if negb (Z.shiftr b 4 =? 4) then Err ErrInnerBadIPVersion else
  ipProto ← idx buf 23;
  if negb (ipProto =? innerIPv4Protocol) then Err ErrInnerBadProtocol else
  src ← addr4_at buf 26;
  dst ← addr4_at buf 30;
  Ok (drop 42 buf, src, dst).

(** ** Whole packets *)

Definition BuildVXLANPacket (bfdPayload : list Z) (vni : Z) (srcIP dstIP : Addr) (srcPort : Z)
    : go overlay_error (list Z) :=
  innerPkt ← BuildInnerPacket bfdPayload srcIP dstIP srcPort;
  filled (VXLANHeaderSize + zlen innerPkt)
    (_ ← b_upto 8 (MarshalVXLANHeader vni); b_copy 8 innerPkt).

Definition ParseVXLANPacket (buf : list Z) : go overlay_error (list Z * Z * Addr * Addr) :=
  if zlen buf <? VXLANHeaderSize + InnerOverheadIPv4 then Err ErrInnerPacketTooShort else
  h ← slice buf 0 8;
  hdr ← UnmarshalVXLANHeader h;
  r ← StripInnerPacket (drop 8 buf);
  let '(bfdPayload, srcIP, dstIP) := r in
  Ok (bfdPayload, vh_VNI hdr, srcIP, dstIP).

Definition bfd_geneve_header (vni : Z) : GeneveHeader :=
  {| gh_Version := 0; gh_OptLen := 0; gh_OBit := true; gh_CBit := false;
     gh_ProtocolType := GeneveProtocolEthernet; gh_VNI := vni |}.

Definition BuildGenevePacket (bfdPayload : list Z) (vni : Z) (srcIP dstIP : Addr) (srcPort : Z)
    : go overlay_error (list Z) :=
  innerPkt ← BuildInnerPacket bfdPayload srcIP dstIP srcPort;
  filled (GeneveHeaderMinSize + zlen innerPkt)
    (_ ← b_upto 8 (MarshalGeneveHeader (bfd_geneve_header vni)); b_copy 8 innerPkt).

Definition ParseGenevePacket (buf : list Z)
    : go overlay_error (list Z * GeneveHeader * Addr * Addr) :=
  if zlen buf <? GeneveHeaderMinSize then Err ErrGeneveHeaderTooShort else
  h ← slice buf 0 8;
  hdr ← UnmarshalGeneveHeader h;
  let geneveTotal := TotalHeaderSize hdr in
  if zlen buf <? geneveTotal + InnerOverheadIPv4 then Err ErrInnerPacketTooShort else
  r ← StripInnerPacket (drop (Z.to_nat geneveTotal) buf);
  let '(bfdPayload, srcIP, dstIP) := r in
  Ok (bfdPayload, hdr, srcIP, dstIP).

(** ** Connections

    What a socket read yields: a datagram with the bytes of the sender's address,
    or an error.  Both connections read into a buffer of 9000 bytes. *)

Abbreviation udp_read := (option (list Z * list Z)).

Definition vxlanBufSize : nat := Z.to_nat 9000.
Definition geneveBufSize : nat := Z.to_nat 9000.

Record OverlayMeta := mkOverlayMeta {
  om_SrcAddr : Addr;
  om_DstAddr : Addr;
  om_VNI : Z;
}.

(** A datagram sent, with its destination address and port. *)
Record sent_datagram := mkSentDatagram { sd_data : list Z; sd_dst : Addr; sd_port : Z }.

Record VXLANConn := mkVXLANConn {
  vc_managementVNI : Z;
  vc_localAddr : Addr;
  vc_srcPort : Z;
  vc_closed : bool;
  vc_sent : list sent_datagram;
}.

Definition NewVXLANConn (localAddr : Addr) (managementVNI srcPort : Z) (bound : bool)
    : go overlay_error VXLANConn :=
  if negb bound then Err ErrOverlaySocket else
  Ok {| vc_managementVNI := managementVNI; vc_localAddr := localAddr; vc_srcPort := srcPort;
        vc_closed := false; vc_sent := [] |}.

(** The source writes the packet out as [BuildVXLANPacket] does. *)
Definition VXLAN_SendEncapsulated (written : bool) (bfdPayload : list Z) (dstAddr : Addr)
    (c : VXLANConn) : go overlay_error unit * VXLANConn :=
  if vc_closed c then (Err ErrOverlayRecvClosed, c) else
  match BuildVXLANPacket bfdPayload (vc_managementVNI c) (vc_localAddr c) dstAddr (vc_srcPort c) with
  | Err e => (Err e, c)
  | Panic => (Panic, c)
  | Ok buf =>
      if written
      then (Ok tt, {| c with vc_sent := vc_sent c ++ [mkSentDatagram buf dstAddr VXLANPort] |})
      else (Err ErrOverlaySocket, c)
  end.

Definition src_addr (remoteIP : list Z) : go overlay_error Addr :=
  match AddrFromSlice remoteIP with
  | Some a => Ok (Addr_Unmap a)
  | None => Err ErrOverlayInvalidAddr
  end.

Definition VXLAN_RecvDecapsulated (r : udp_read) (c : VXLANConn)
    : go overlay_error (list Z * OverlayMeta) :=
  match r with
  | None => if vc_closed c then Err ErrOverlayRecvClosed else Err ErrOverlaySocket
  | Some (datagram, remoteIP) =>
      let data := take vxlanBufSize datagram in
      let n := zlen data in
      let minSize := VXLANHeaderSize + InnerOverheadIPv4 in
      if n <? minSize then Err ErrInnerPacketTooShort else
      h ← slice data 0 8;
      vxlanHdr ← UnmarshalVXLANHeader h;
      if negb (vh_VNI vxlanHdr =? vc_managementVNI c) then Err ErrOverlayVNIMismatch else
      let innerData := drop 8 data in
      r ← StripInnerPacket innerData;
      let '(bfdPayload, _, _) := r in
      srcAddr ← src_addr remoteIP;
      Ok (bfdPayload, {| om_SrcAddr := srcAddr; om_DstAddr := vc_localAddr c;
                         om_VNI := vh_VNI vxlanHdr |})
  end.

Definition VXLAN_Close (c : VXLANConn) : VXLANConn := {| c with vc_closed := true |}.

Record GeneveConn := mkGeneveConn {
  gc_vni : Z;
  gc_localAddr : Addr;
  gc_srcPort : Z;
  gc_closed : bool;
  gc_sent : list sent_datagram;
}.

Definition NewGeneveConn (localAddr : Addr) (vni srcPort : Z) (bound : bool)
    : go overlay_error GeneveConn :=
  if negb bound then Err ErrOverlaySocket else
  Ok {| gc_vni := vni; gc_localAddr := localAddr; gc_srcPort := srcPort;
        gc_closed := false; gc_sent := [] |}.

Definition Geneve_SendEncapsulated (written : bool) (bfdPayload : list Z) (dstAddr : Addr)
    (c : GeneveConn) : go overlay_error unit * GeneveConn :=
  if gc_closed c then (Err ErrOverlayRecvClosed, c) else
  match BuildGenevePacket bfdPayload (gc_vni c) (gc_localAddr c) dstAddr (gc_srcPort c) with
  | Err e => (Err e, c)
  | Panic => (Panic, c)
  | Ok buf =>
      if written
      then (Ok tt, {| c with gc_sent := gc_sent c ++ [mkSentDatagram buf dstAddr GenevePort] |})
      else (Err ErrOverlaySocket, c)
  end.

Definition validateGeneveHeader (hdr : GeneveHeader) (pktLen geneveTotal : Z) (c : GeneveConn)
    : go overlay_error unit :=
  let minSize := geneveTotal + InnerOverheadIPv4 in
  if pktLen <? minSize then Err ErrInnerPacketTooShort else
  if negb (gh_OBit hdr) then Err ErrGeneveOBitNotSet else
  if gh_CBit hdr then Err ErrGeneveCBitSet else
  if negb (gh_ProtocolType hdr =? GeneveProtocolEthernet) then Err ErrGeneveUnexpectedProto else
  if negb (gh_VNI hdr =? gc_vni c) then Err ErrOverlayVNIMismatch else
  Ok tt.

Definition decapGenevePacket (data : list Z) (c : GeneveConn)
    : go overlay_error (list Z * GeneveHeader) :=
  if zlen data <? GeneveHeaderMinSize then Err ErrGeneveHeaderTooShort else
  h ← slice data 0 8;
  geneveHdr ← UnmarshalGeneveHeader h;
  let geneveTotal := TotalHeaderSize geneveHdr in
  _ ← validateGeneveHeader geneveHdr (zlen data) geneveTotal c;
  r ← StripInnerPacket (drop (Z.to_nat geneveTotal) data);
  let '(bfdPayload, _, _) := r in
  Ok (bfdPayload, geneveHdr).

Definition Geneve_RecvDecapsulated (r : udp_read) (c : GeneveConn)
    : go overlay_error (list Z * OverlayMeta) :=
  match r with
  | None => if gc_closed c then Err ErrOverlayRecvClosed else Err ErrOverlaySocket
  | Some (datagram, remoteIP) =>
      r ← decapGenevePacket (take geneveBufSize datagram) c;
      let '(bfdPayload, geneveHdr) := r in
      srcAddr ← src_addr remoteIP;
      Ok (bfdPayload, {| om_SrcAddr := srcAddr; om_DstAddr := gc_localAddr c;
                         om_VNI := gh_VNI geneveHdr |})
  end.

Definition Geneve_Close (c : GeneveConn) : GeneveConn := {| c with gc_closed := true |}.

(** ** Back ends *)

Definition OverlayBackendUserspaceUDP : string := "userspace-udp".
Definition OverlayBackends_reserved : list string :=
  ["kernel"; "ovs"; "ovn"; "cilium"; "calico"; "nsx"]%string.

Definition normalizeOverlayBackend (backend : string) : go overlay_error string :=
  if bool_decide (backend = ""%string) then Ok OverlayBackendUserspaceUDP else
  if bool_decide (backend ∈ OverlayBackendUserspaceUDP :: OverlayBackends_reserved)
  then Ok backend else Err ErrInvalidOverlayBackend.

(** The part common to both constructors: the checks before the socket is bound. *)
Definition check_backend (backend : string) (localAddr : Addr) : go overlay_error unit :=
  b ← normalizeOverlayBackend backend;
  if negb (Addr_IsValid localAddr) then Err ErrInvalidOverlayBackendInput else
  if bool_decide (b = OverlayBackendUserspaceUDP) then Ok tt else
  if bool_decide (b ∈ OverlayBackends_reserved) then Err ErrUnsupportedOverlayBackend
  else Err ErrInvalidOverlayBackend.

Definition NewVXLANOverlayBackend (backend : string) (localAddr : Addr) (managementVNI srcPort : Z)
    (bound : bool) : go overlay_error VXLANConn :=
  _ ← check_backend backend localAddr; NewVXLANConn localAddr managementVNI srcPort bound.

Definition NewGeneveOverlayBackend (backend : string) (localAddr : Addr) (vni srcPort : Z)
    (bound : bool) : go overlay_error GeneveConn :=
  _ ← check_backend backend localAddr; NewGeneveConn localAddr vni srcPort bound.

(** ** Refusals the receiver expects *)

Definition isExpectedOverlayDrop (err : overlay_error) : bool :=
  bool_decide (err ∈ [ErrOverlayVNIMismatch; ErrOverlayInvalidAddr; ErrInnerPacketTooShort;
    ErrInnerBadEtherType; ErrInnerBadIPVersion; ErrInnerBadProtocol; ErrVXLANHeaderTooShort;
    ErrVXLANInvalidFlags; ErrGeneveHeaderTooShort; ErrGeneveInvalidVersion; ErrGeneveOBitNotSet;
    ErrGeneveCBitSet; ErrGeneveUnexpectedProto]).

(** ** The interface of a tunnel *)

Class OverlayConn (C : Type) := {
  SendEncapsulated : bool -> list Z -> Addr -> C -> go overlay_error unit * C;
  RecvDecapsulated : udp_read -> C -> go overlay_error (list Z * OverlayMeta);
  conn_Close : C -> C;
  conn_vni : C -> Z;
  conn_localAddr : C -> Addr;
  conn_srcPort : C -> Z;
  conn_closed : C -> bool;
  conn_sent : C -> list sent_datagram;
}.

#[export] Instance VXLAN_OverlayConn : OverlayConn VXLANConn := {|
  SendEncapsulated := VXLAN_SendEncapsulated;
  RecvDecapsulated := VXLAN_RecvDecapsulated;
  conn_Close := VXLAN_Close;
  conn_vni := vc_managementVNI;
  conn_localAddr := vc_localAddr;
  conn_srcPort := vc_srcPort;
  conn_closed := vc_closed;
  conn_sent := vc_sent;
|}.

#[export] Instance Geneve_OverlayConn : OverlayConn GeneveConn := {|
  SendEncapsulated := Geneve_SendEncapsulated;
  RecvDecapsulated := Geneve_RecvDecapsulated;
  conn_Close := Geneve_Close;
  conn_vni := gc_vni;
  conn_localAddr := gc_localAddr;
  conn_srcPort := gc_srcPort;
  conn_closed := gc_closed;
  conn_sent := gc_sent;
|}.

(** What a tunnel promises to its users: a payload between IPv4 endpoints with the
    same identifier arrives unchanged, with the sender's address and the
    identifier; nothing else is sent; no input makes it panic. *)
Definition conn_ok {C} `{OverlayConn C} (c : C) : Prop :=
  0 <= conn_vni c < 2 ^ 24 /\ is_u16 (conn_srcPort c) /\ addr_ok (conn_localAddr c).

(** Two open ends of the same tunnel. *)
Definition conn_pair {C} `{OverlayConn C} (c c' : C) : Prop :=
  conn_ok c /\ conn_ok c' /\ conn_closed c = false /\ conn_vni c = conn_vni c' /\
  Addr_Is4 (conn_localAddr c) = true /\ Addr_Is4 (conn_localAddr c') = true.

Definition delivers {C} `{OverlayConn C} (c c' : C) (payload : list Z) : Prop :=
  exists d c2,
    SendEncapsulated true payload (conn_localAddr c') c = (Ok tt, c2) /\
    conn_sent c2 = conn_sent c ++ [d] /\ sd_dst d = conn_localAddr c' /\ bytes_ok (sd_data d) /\
    RecvDecapsulated (Some (sd_data d, Addr_As4 (conn_localAddr c))) c'
    = Ok (payload, {| om_SrcAddr := conn_localAddr c; om_DstAddr := conn_localAddr c';
                      om_VNI := conn_vni c' |}).

Class OverlayLaws (C : Type) `{OverlayConn C} := {
  send_recv : forall (c c' : C) payload,
    conn_pair c c' -> bytes_ok payload -> zlen payload <= 8950 -> delivers c c' payload;
  recv_no_panic : forall (c : C) r, RecvDecapsulated r c <> Panic;
  recv_refusal : forall (c : C) d ip e,
    RecvDecapsulated (Some (d, ip)) c = Err e -> isExpectedOverlayDrop e = true;
  recv_failed : forall c : C,
    RecvDecapsulated None c = Err (if conn_closed c then ErrOverlayRecvClosed else ErrOverlaySocket);
  close_closes : forall c : C, conn_closed (conn_Close c) = true;
  recv_payload : forall (c : C) d ip payload meta,
    bytes_ok d -> RecvDecapsulated (Some (d, ip)) c = Ok (payload, meta) ->
    bytes_ok payload /\ om_VNI meta = conn_vni c /\ om_DstAddr meta = conn_localAddr c;
}.

(** * The checksum *)

Fixpoint wsum (l : list Z) : Z :=
  match l with
  | b0 :: b1 :: rest => be16_val b0 b1 + wsum rest
  | [b0] => Z.shiftl b0 8
  | [] => 0
  end.

(** Induction on a list two elements at a time. *)
Lemma list_ind2 {A} (P : list A -> Prop) :
  P [] -> (forall x, P [x]) -> (forall x y l, P l -> P (x :: y :: l)) -> forall l, P l.
Proof.
  intros H0 H1 H2. fix IH 1. intros [|x [|y l]]; [done|apply H1|apply H2, IH].
Qed.

Lemma wsum_range l : bytes_ok l -> 0 <= wsum l <= 65535 * zlen l.
Proof.
  unfold zlen. induction l as [|x|x y l IH] using list_ind2; intros Hb; cbn [wsum length].
  - lia.
  - inversion_clear Hb as [|? ? Hx _]. rewrite Z.shiftl_mul_pow2 by lia. width_lia.
  - inversion_clear Hb as [|? ? Hx Hb']. inversion_clear Hb' as [|? ? Hy Hl].
    specialize (IH Hl). pose proof (be16_val_range x y Hx Hy). width_lia.
Qed.

Lemma wsum_app a b : Nat.even (length a) = true -> wsum (a ++ b) = wsum a + wsum b.
Proof.
  induction a as [|x|x y l IH] using list_ind2; intros He; [done|done|].
  cbn [wsum app]. rewrite IH by done. lia.
Qed.

(** Headers are too short for the 32-bit sum to wrap. *)
Lemma sum_words_wsum s l :
  bytes_ok l -> 0 <= s -> s + 65535 * zlen l < 2 ^ 32 -> sum_words s l = s + wsum l.
Proof.
  unfold zlen. revert s. induction l as [|x|x y l IH] using list_ind2; intros s Hb Hs Hlt;
    cbn [wsum sum_words length] in *.
  - lia.
  - inversion_clear Hb as [|? ? Hx _]. rewrite Z.shiftl_mul_pow2 by lia.
    change (2 ^ 8) with 256. width_lia.
  - inversion_clear Hb as [|? ? Hx Hb']. inversion_clear Hb' as [|? ? Hy Hl].
    pose proof (be16_val_range x y Hx Hy). rewrite u32_small by width_lia.
    rewrite IH by (done || width_lia). lia.
Qed.

(** One round keeps the residue modulo [0xFFFF]. *)
Lemma fold_round s :
  is_u32 s -> u32 (Z.land s 0xFFFF + Z.shiftr s 16) = s mod 65536 + s / 65536.
Proof.
  intros Hs. change 0xFFFF with (Z.ones 16). rewrite Z.land_ones, Z.shiftr_div_pow2 by lia.
  change (2 ^ 16) with 65536. apply u32_small. width_lia.
Qed.

Lemma shiftr16_0 s : 0 <= s -> (Z.shiftr s 16 =? 0) = true <-> s < 65536.
Proof.
  intros Hs. rewrite Z.eqb_eq, Z.shiftr_div_pow2 by lia. change (2 ^ 16) with 65536. width_lia.
Qed.

Lemma fold_carry_small n s : 0 <= s < 65536 -> fold_carry n s = s.
Proof.
  intros Hs. destruct n; [done|]. cbn [fold_carry]. by rewrite (proj2 (shiftr16_0 s ltac:(lia))) by lia.
Qed.

(** The loop ends after at most two rounds, with the sum reduced modulo [0xFFFF]. *)
Lemma fold_carry_done s :
  is_u32 s ->
  exists r, (forall n, (2 <= n)%nat -> fold_carry n s = r) /\ 0 <= r < 65536 /\
            (exists q, s = r + 65535 * q) /\ (0 < r <-> 0 < s).
Proof.
  intros Hs. destruct (Z.ltb_spec s 65536) as [Hlt|Hge].
  { exists s. split_and!; [|width_lia|width_lia|exists 0; lia|done].
    intros n _. apply fold_carry_small. width_lia. }
  set (s1 := s mod 65536 + s / 65536).
  assert (H1 : 0 < s1 <= 131070) by (subst s1; width_lia).
  assert (Hr : forall n, (1 <= n)%nat -> fold_carry n s = fold_carry (n - 1) s1).
  { intros [|n] Hn; [lia|]. cbn [fold_carry]. rewrite fold_round by done. rewrite Nat.sub_1_r. cbn [Nat.pred].
    destruct (Z.shiftr s 16 =? 0) eqn:E; [|done]. apply shiftr16_0 in E; width_lia. }
  assert (E1 : exists q, s = s1 + 65535 * q) by (exists (s / 65536); subst s1; width_lia).
  destruct (Z.ltb_spec s1 65536) as [Hlt1|Hge1].
  { exists s1. split_and!; [|lia|lia|done|width_lia].
    intros n Hn. rewrite Hr by lia. apply fold_carry_small. lia. }
  exists (s1 - 65535). split_and!; [|lia|lia| |width_lia].
  - intros n Hn. rewrite Hr by lia. destruct (n - 1)%nat as [|k] eqn:Ek; [lia|]. cbn [fold_carry].
    destruct (Z.shiftr s1 16 =? 0) eqn:E; [apply shiftr16_0 in E; lia|].
    rewrite fold_round by width_lia. rewrite fold_carry_small by width_lia. width_lia.
  - destruct E1 as [q Hq]. exists (q + 1). lia.
Qed.

Lemma ipv4HeaderChecksum_spec l :
  bytes_ok l -> zlen l <= 65535 ->
  exists r, ipv4HeaderChecksum l = 65535 - r /\ 0 <= r <= 65535 /\
            (exists q, wsum l = r + 65535 * q) /\ (0 < r <-> 0 < wsum l).
Proof.
  intros Hb Hl. pose proof (wsum_range l Hb) as Hw. assert (0 <= zlen l) by (unfold zlen; lia).
  destruct (fold_carry_done (wsum l)) as (r & Hf & Hr & Hq & Hp); [width_lia|].
  exists r. split_and!; [|lia|lia|done|done].
  unfold ipv4HeaderChecksum. rewrite sum_words_wsum by (try done; width_lia).
  rewrite Z.add_0_l, Hf by lia. unfold Z.lnot. width_lia.
Qed.

(** C40: the folding loop of the IPv4 checksum ends after at most two rounds, for
    every 32-bit sum, and a header with the computed checksum in its zeroed field
    passes verification (RFC 1071): the checksum over it is zero. *)
Theorem checksum_verifies :
  (forall sum n, is_u32 sum -> (2 <= n)%nat ->
     fold_carry n sum = fold_carry 2 sum /\ Z.shiftr (fold_carry 2 sum) 16 = 0) /\
  (forall a b, bytes_ok a -> bytes_ok b -> Nat.even (length a) = true -> zlen a + zlen b <= 65533 ->
     ipv4HeaderChecksum (a ++ be16_bytes (ipv4HeaderChecksum (a ++ [0; 0] ++ b)) ++ b) = 0).
Proof.
  split.
  - intros s n Hs Hn. destruct (fold_carry_done s Hs) as (r & Hf & Hr & _).
    rewrite !Hf by lia. split; [done|]. rewrite Z.shiftr_div_pow2 by lia. width_lia.
  - intros a b Ha Hb He Hl. unfold zlen in Hl.
    assert (Hs : forall l, bytes_ok l -> length l = 2%nat ->
              wsum (a ++ l ++ b) = wsum a + wsum l + wsum b /\ bytes_ok (a ++ l ++ b) /\
              zlen (a ++ l ++ b) <= 65535).
    { intros l Hl1 Hl2. unfold zlen. rewrite !wsum_app by (done || by rewrite Hl2). rewrite !length_app.
      split_and!; [lia|auto with bfd|lia]. }
    assert (Hz : bytes_ok [0; 0]) by (apply (bool_decide_unpack _); vm_compute; done).
    destruct (Hs [0; 0] Hz eq_refl) as (W0 & B0 & L0).
    destruct (ipv4HeaderChecksum_spec _ B0 L0) as (r & Hc & Hr & [q Hq] & Hp).
    rewrite Hc. destruct (Hs (be16_bytes (65535 - r)) (be16_bytes_ok _) eq_refl) as (W1 & B1 & L1).
    destruct (ipv4HeaderChecksum_spec _ B1 L1) as (r' & -> & Hr' & [q' Hq'] & Hp').
    assert (Ec : wsum (be16_bytes (65535 - r)) = 65535 - r).
    { unfold be16_bytes. cbn [wsum]. rewrite be16_round by width_lia. lia. }
    change (wsum [0; 0]) with 0 in W0. rewrite Ec in W1.
    pose proof (wsum_range a Ha). pose proof (wsum_range b Hb).
    enough (r' = 65535) by lia.
    assert (0 < r') by (apply Hp'; lia). lia.
Qed.

(** * Packet formats *)

(** The IPv4 header with a given checksum. *)
Definition wire_ip (len csum src dst : Z) : list Z :=
  [0x45; 0] ++ be16_bytes len ++ [0; 0; 0x40; 0; 255; 17] ++ be16_bytes csum
  ++ be32_bytes src ++ be32_bytes dst.

Definition wire_inner (payload : list Z) (src dst port : Z) : list Z :=
  let len := u16 (28 + zlen payload) in
  innerDstMAC ++ innerSrcMAC ++ [0x08; 0x00]
  ++ wire_ip len (ipv4HeaderChecksum (wire_ip len 0 src dst)) src dst
  ++ be16_bytes port ++ be16_bytes 3784 ++ be16_bytes (u16 (8 + zlen payload)) ++ [0; 0]
  ++ payload.

Lemma filled_ok {E A} n (m : bufM E A) a buf :
  m (replicate (Z.to_nat n) 0) = (Ok a, buf) -> filled n m = Ok buf.
Proof. unfold filled. by intros ->. Qed.

Lemma b_slice_ok {E} lo hi buf :
  (lo <= hi)%nat -> (hi <= length buf)%nat ->
  @b_slice E lo hi buf = (Ok (take (hi - lo) (drop lo buf)), buf).
Proof. intros. unfold b_slice. by rewrite slice_ok. Qed.

(** The next write into a buffer whose cells are spelt out. *)
Ltac w_step :=
  erewrite b_bind_ok by
    (first [apply b_put_ok | apply b_put16_ok | apply b_put32_ok | apply b_copy_ok | apply b_slice_ok];
     cbn [length app Nat.add be32_bytes innerDstMAC innerSrcMAC]; lia);
  cbn [insert list_insert take drop app length Nat.add Nat.sub be16_bytes be32_bytes innerDstMAC innerSrcMAC].

Lemma BuildInnerPacket_wire payload src dst port :
  BuildInnerPacket payload (IPv4 src) (IPv4 dst) port = Ok (wire_inner payload src dst port).
Proof.
  unfold BuildInnerPacket. cbn [Addr_Is4 negb orb]. eapply (filled_ok _ _ tt).
  replace (Z.to_nat (InnerOverheadIPv4 + zlen payload)) with (42 + length payload)%nat
    by (unfold InnerOverheadIPv4, InnerEthSize, InnerIPv4Size, InnerUDPSize, zlen; lia).
  unfold write_inner. cbn [Addr_As4]. rewrite replicate_add. set (z := replicate (length payload) 0).
  assert (Hz : length z = length payload) by apply length_replicate. clearbody z.
  cbn [replicate app]. do 15 w_step. set (c := ipv4HeaderChecksum _). do 5 w_step. rewrite drop_0.
  rewrite b_copy_ok by (cbn [length]; lia). f_equal.
  cbn [take app Nat.add drop]. rewrite (drop_ge z) by lia. rewrite app_nil_r. done.
Qed.

Lemma length_wire_inner payload src dst port : zlen (wire_inner payload src dst port) = 42 + zlen payload.
Proof. unfold zlen, wire_inner, wire_ip. cbn [app length innerDstMAC innerSrcMAC be16_bytes be32_bytes]. lia. Qed.

Lemma StripInnerPacket_wire payload src dst port :
  is_u32 src -> is_u32 dst ->
  StripInnerPacket (wire_inner payload src dst port) = Ok (payload, IPv4 src, IPv4 dst).
Proof.
  intros Hs Hd. unfold StripInnerPacket. rewrite length_wire_inner.
  rewrite (proj2 (Z.ltb_ge _ _)) by (unfold InnerOverheadIPv4, InnerEthSize, InnerIPv4Size, InnerUDPSize, zlen; lia).
  unfold wire_inner, wire_ip, addr4_at, get_uint16, get_uint32, idx.
  set (c := ipv4HeaderChecksum _). set (n := u16 (_ + _)). set (k := u16 (_ + _)).
  cbn [app innerDstMAC innerSrcMAC be16_bytes be32_bytes drop lookup list_lookup].
  change (be16_val 8 0 =? innerEtherTypeIPv4) with true. change (Z.shiftr 69 4 =? 4) with true.
  change (17 =? innerIPv4Protocol) with true. cbn [negb mbind go_bind].
  rewrite !be32_round by done. done.
Qed.

Lemma StripInnerPacket_no_panic buf : StripInnerPacket buf <> Panic.
Proof.
  unfold StripInnerPacket. destruct (zlen buf <? InnerOverheadIPv4) eqn:E; [done|].
  bools. unfold InnerOverheadIPv4, InnerEthSize, InnerIPv4Size, InnerUDPSize, zlen in E.
  destruct (list_split_length 42 buf) as (k & r & -> & Hk); [lia|].
  do 42 (destruct k as [|? k]; [discriminate Hk|]). destruct k; [|discriminate Hk].
  unfold addr4_at, get_uint16, get_uint32, idx.
  cbn [app drop lookup list_lookup mbind go_bind]. by repeat case_match.
Qed.

Lemma StripInnerPacket_payload buf payload src dst :
  StripInnerPacket buf = Ok (payload, src, dst) -> payload = drop 42 buf.
Proof. unfold StripInnerPacket. intros H. go_inv H. congruence. Qed.

(** ** Tunnel headers *)

Definition wire_vxlan (vni : Z) : list Z := [0x08; 0; 0; 0] ++ be32_bytes (u32 (Z.shiftl vni 8)).
Definition wire_geneve (vni : Z) : list Z :=
  [0x00; 0x80; 0x65; 0x58] ++ be32_bytes (u32 (Z.shiftl vni 8)).

Lemma shift_vni vni :
  0 <= vni < 2 ^ 24 -> is_u32 (u32 (Z.shiftl vni 8)) /\ Z.shiftr (u32 (Z.shiftl vni 8)) 8 = vni.
Proof.
  intros Hv. rewrite Z.shiftl_mul_pow2, Z.shiftr_div_pow2 by lia.
  change (2 ^ 24) with 16777216 in *. change (2 ^ 8) with 256. width_lia.
Qed.

(** A header of 8 bytes written before the inner packet. *)
Lemma filled_header (m : bufM overlay_error Z) hdr inner a :
  (forall z, length z = 8%nat -> m z = (Ok a, hdr)) -> length hdr = 8%nat ->
  filled (8 + zlen inner) (_ ← b_upto 8 m; b_copy 8 inner) = Ok (hdr ++ inner).
Proof.
  intros Hm Hh. eapply (filled_ok _ _ tt).
  replace (Z.to_nat (8 + zlen inner)) with (8 + length inner)%nat by (unfold zlen; lia).
  erewrite b_bind_ok.
  2:{ apply b_upto_ok; [rewrite length_replicate; lia|]. apply Hm. rewrite length_take, length_replicate. lia. }
  rewrite b_copy_ok by (rewrite length_app, length_drop, length_replicate; lia).
  rewrite take_app_length' by done. f_equal. f_equal. rewrite drop_ge, app_nil_r; [done|].
  rewrite length_app, length_drop, length_replicate. lia.
Qed.

Ltac cells8 z H :=
  do 8 (destruct z as [|? z]; [discriminate H|]); destruct z; [|discriminate H].

Lemma MarshalVXLANHeader_wire vni z :
  0 <= vni < 2 ^ 24 -> length z = 8%nat -> MarshalVXLANHeader vni z = (Ok 8, wire_vxlan vni).
Proof.
  intros Hv Hz. change (2 ^ 24) with 16777216 in Hv. unfold MarshalVXLANHeader. cells8 z Hz.
  erewrite b_bind_ok by done. change (zlen _ <? VXLANHeaderSize) with false. cbv iota.
  rewrite (proj2 (Z.ltb_ge _ _)) by lia. do 5 w_step. done.
Qed.

Lemma MarshalGeneveHeader_wire vni z :
  0 <= vni < 2 ^ 24 -> length z = 8%nat ->
  MarshalGeneveHeader (bfd_geneve_header vni) z = (Ok 8, wire_geneve vni).
Proof.
  intros Hv Hz. change (2 ^ 24) with 16777216 in Hv. unfold MarshalGeneveHeader. cells8 z Hz.
  erewrite b_bind_ok by done. change (zlen _ <? GeneveHeaderMinSize) with false. cbv iota.
  cbn [gh_VNI bfd_geneve_header]. rewrite (proj2 (Z.ltb_ge _ _)) by lia. do 4 w_step. done.
Qed.

Lemma UnmarshalVXLANHeader_wire vni :
  0 <= vni < 2 ^ 24 -> UnmarshalVXLANHeader (wire_vxlan vni) = Ok {| vh_VNI := vni |}.
Proof.
  intros Hv. destruct (shift_vni vni Hv) as [Hu Hs]. unfold UnmarshalVXLANHeader, wire_vxlan, idx, get_uint32.
  cbn [be32_bytes app drop lookup list_lookup mbind go_bind]. change (zlen _ <? VXLANHeaderSize) with false.
  change (Z.land 8 vxlanFlagVNI =? 0) with false. cbv iota. by rewrite be32_round, Hs.
Qed.

Lemma UnmarshalGeneveHeader_wire vni :
  0 <= vni < 2 ^ 24 -> UnmarshalGeneveHeader (wire_geneve vni) = Ok (bfd_geneve_header vni).
Proof.
  intros Hv. destruct (shift_vni vni Hv) as [Hu Hs]. unfold UnmarshalGeneveHeader, wire_geneve, idx, get_uint32, get_uint16.
  cbn [be32_bytes app drop lookup list_lookup mbind go_bind]. change (zlen _ <? GeneveHeaderMinSize) with false.
  change (Z.shiftr 0 6 =? 0) with true. cbn [negb]. cbv iota. by rewrite be32_round, Hs.
Qed.

Lemma BuildVXLANPacket_wire payload vni src dst port :
  0 <= vni < 2 ^ 24 ->
  BuildVXLANPacket payload vni (IPv4 src) (IPv4 dst) port
  = Ok (wire_vxlan vni ++ wire_inner payload src dst port).
Proof.
  intros Hv. unfold BuildVXLANPacket. rewrite BuildInnerPacket_wire. cbn [mbind go_bind].
  apply (filled_header _ _ _ 8); [|done]. intros z. by apply MarshalVXLANHeader_wire.
Qed.

Lemma BuildGenevePacket_wire payload vni src dst port :
  0 <= vni < 2 ^ 24 ->
  BuildGenevePacket payload vni (IPv4 src) (IPv4 dst) port
  = Ok (wire_geneve vni ++ wire_inner payload src dst port).
Proof.
  intros Hv. unfold BuildGenevePacket. rewrite BuildInnerPacket_wire. cbn [mbind go_bind].
  apply (filled_header _ _ _ 8); [|done]. intros z. by apply MarshalGeneveHeader_wire.
Qed.

Ltac inner_consts :=
  unfold VXLANHeaderSize, GeneveHeaderMinSize, InnerOverheadIPv4, InnerEthSize, InnerIPv4Size,
    InnerUDPSize in *.

(** The packet as the receiver sees it: 8 bytes of header, then the inner packet. *)
Lemma header_split (hdr inner : list Z) :
  length hdr = 8%nat ->
  @slice overlay_error (hdr ++ inner) 0 8 = Ok hdr /\ drop 8 (hdr ++ inner) = inner /\
  zlen (hdr ++ inner) = 8 + zlen inner.
Proof.
  intros Hh. split_and!.
  - rewrite slice_ok by (rewrite ?length_app; lia). by rewrite drop_0, take_app_length'.
  - by rewrite drop_app_length'.
  - unfold zlen. rewrite length_app. lia.
Qed.

Lemma parse_build_vxlan payload vni src dst port :
  0 <= vni < 2 ^ 24 -> is_u32 src -> is_u32 dst ->
  ParseVXLANPacket (wire_vxlan vni ++ wire_inner payload src dst port)
  = Ok (payload, vni, IPv4 src, IPv4 dst).
Proof.
  intros Hv Hs Hd. destruct (header_split (wire_vxlan vni) (wire_inner payload src dst port) eq_refl)
    as (Hh & Hi & Hl).
  unfold ParseVXLANPacket. rewrite Hl, Hh, Hi, length_wire_inner.
  rewrite (proj2 (Z.ltb_ge _ _)) by (inner_consts; unfold zlen; lia). cbn [mbind go_bind].
  by rewrite UnmarshalVXLANHeader_wire, StripInnerPacket_wire.
Qed.

Lemma parse_build_geneve payload vni src dst port :
  0 <= vni < 2 ^ 24 -> is_u32 src -> is_u32 dst ->
  ParseGenevePacket (wire_geneve vni ++ wire_inner payload src dst port)
  = Ok (payload, bfd_geneve_header vni, IPv4 src, IPv4 dst).
Proof.
  intros Hv Hs Hd. destruct (header_split (wire_geneve vni) (wire_inner payload src dst port) eq_refl)
    as (Hh & Hi & Hl).
  unfold ParseGenevePacket. rewrite Hl, Hh, length_wire_inner.
  rewrite (proj2 (Z.ltb_ge _ _)) by (inner_consts; unfold zlen; lia). cbn [mbind go_bind].
  rewrite UnmarshalGeneveHeader_wire by done. cbn [mbind go_bind]. cbv zeta.
  change (TotalHeaderSize (bfd_geneve_header vni)) with 8.
  rewrite (proj2 (Z.ltb_ge _ _)) by (inner_consts; unfold zlen; lia).
  change (Z.to_nat 8) with 8%nat. by rewrite Hi, StripInnerPacket_wire.
Qed.

(** ** The laws of the connections *)

Lemma wire_inner_ok payload src dst port : bytes_ok payload -> bytes_ok (wire_inner payload src dst port).
Proof.
  intros Hp. unfold wire_inner, wire_ip.
  assert (Hc : bytes_ok innerDstMAC /\ bytes_ok innerSrcMAC) by (split; apply (bool_decide_unpack _); done).
  destruct Hc. repeat apply bytes_ok_app; auto with bfd; apply (bool_decide_unpack _); done.
Qed.

Lemma wire_header_ok vni : bytes_ok (wire_vxlan vni) /\ bytes_ok (wire_geneve vni).
Proof. split; apply bytes_ok_app; auto with bfd; apply (bool_decide_unpack _); done. Qed.

Lemma src_addr_As4 x : is_u32 x -> src_addr (Addr_As4 (IPv4 x)) = Ok (IPv4 x).
Proof.
  intros Hx. unfold src_addr, AddrFromSlice. cbn [Addr_As4 be32_bytes]. unfold AddrFrom4.
  by rewrite be32_round.
Qed.

Lemma Is4_IPv4 a : Addr_Is4 a = true -> addr_ok a -> exists x, a = IPv4 x /\ is_u32 x.
Proof. destruct a as [|x|]; try done. intros _ H. exists x. split; [done|]. exact H. Qed.

Ltac conn_cbn :=
  cbn [SendEncapsulated RecvDecapsulated conn_vni conn_localAddr conn_srcPort conn_closed conn_sent
       VXLAN_OverlayConn Geneve_OverlayConn vc_managementVNI vc_localAddr vc_srcPort vc_closed vc_sent
       gc_vni gc_localAddr gc_srcPort gc_closed gc_sent mbind go_bind] in *.

Lemma VXLAN_send_recv (c c' : VXLANConn) payload :
  conn_pair c c' -> bytes_ok payload -> zlen payload <= 8950 -> delivers c c' payload.
Proof.
  destruct c as [vni la port cl sent], c' as [vni' la' port' cl' sent']. unfold conn_pair, conn_ok, delivers.
  conn_cbn. intros ((Hv & _ & Ha) & (_ & _ & Ha') & -> & <- & H4 & H4') Hb Hl.
  apply Is4_IPv4 in H4 as (x & -> & Hx), H4' as (x' & -> & Hx'); [|done..].
  unfold VXLAN_SendEncapsulated. conn_cbn. rewrite BuildVXLANPacket_wire by done.
  eexists _, _. split_and!; [done|done|done|apply bytes_ok_app; [apply wire_header_ok|by apply wire_inner_ok]|].
  cbn [sd_data]. destruct (header_split (wire_vxlan vni) (wire_inner payload x x' port) eq_refl) as (Hh & Hi & Hn).
  pose proof (length_wire_inner payload x x' port) as Hw.
  unfold VXLAN_RecvDecapsulated. rewrite take_ge by (unfold zlen, vxlanBufSize in *; lia).
  rewrite Hn, Hh, Hi, (proj2 (Z.ltb_ge _ _)) by (inner_consts; unfold zlen in *; lia). conn_cbn.
  rewrite UnmarshalVXLANHeader_wire by done. conn_cbn. cbn [vh_VNI]. rewrite Z.eqb_refl. cbn [negb].
  rewrite StripInnerPacket_wire by done. conn_cbn. by rewrite src_addr_As4.
Qed.

Lemma Geneve_send_recv (c c' : GeneveConn) payload :
  conn_pair c c' -> bytes_ok payload -> zlen payload <= 8950 -> delivers c c' payload.
Proof.
  destruct c as [vni la port cl sent], c' as [vni' la' port' cl' sent']. unfold conn_pair, conn_ok, delivers.
  conn_cbn. intros ((Hv & _ & Ha) & (_ & _ & Ha') & -> & <- & H4 & H4') Hb Hl.
  apply Is4_IPv4 in H4 as (x & -> & Hx), H4' as (x' & -> & Hx'); [|done..].
  unfold Geneve_SendEncapsulated. conn_cbn. rewrite BuildGenevePacket_wire by done.
  eexists _, _. split_and!; [done|done|done|apply bytes_ok_app; [apply wire_header_ok|by apply wire_inner_ok]|].
  cbn [sd_data]. destruct (header_split (wire_geneve vni) (wire_inner payload x x' port) eq_refl) as (Hh & Hi & Hn).
  pose proof (length_wire_inner payload x x' port) as Hw.
  unfold Geneve_RecvDecapsulated, decapGenevePacket. rewrite take_ge by (unfold zlen, geneveBufSize in *; lia).
  rewrite Hn, Hh, (proj2 (Z.ltb_ge _ _)) by (inner_consts; unfold zlen in *; lia). conn_cbn.
  rewrite UnmarshalGeneveHeader_wire by done. conn_cbn. cbv zeta.
  change (TotalHeaderSize (bfd_geneve_header vni)) with 8. unfold validateGeneveHeader. conn_cbn.
  rewrite (proj2 (Z.ltb_ge _ _)) by (inner_consts; unfold zlen in *; lia).
  cbn [gh_OBit gh_CBit gh_ProtocolType gh_VNI bfd_geneve_header negb]. rewrite !Z.eqb_refl. cbn [negb]. conn_cbn.
  change (Z.to_nat 8) with 8%nat. rewrite Hi, StripInnerPacket_wire by done. conn_cbn. by rewrite src_addr_As4.
Qed.

(** *** No input makes a connection panic *)

Lemma src_addr_no_panic ip : src_addr ip <> Panic.
Proof. unfold src_addr. by case_match. Qed.

Lemma idx_no_panic {E} buf i : (i < length buf)%nat -> @idx E buf i <> Panic.
Proof. intros H. destruct (@idx_ok E buf i H) as (b & -> & _). done. Qed.

Lemma get_uint32_no_panic {E} buf i : (i + 4 <= length buf)%nat -> @get_uint32 E buf i <> Panic.
Proof.
  intros H. unfold get_uint32. assert (4 <= length (drop i buf))%nat by (rewrite length_drop; lia).
  destruct (drop i buf) as [|? [|? [|? [|]]]]; cbn in *; (done || lia).
Qed.

Lemma get_uint16_no_panic {E} buf i : (i + 2 <= length buf)%nat -> @get_uint16 E buf i <> Panic.
Proof.
  intros H. unfold get_uint16. assert (2 <= length (drop i buf))%nat by (rewrite length_drop; lia).
  destruct (drop i buf) as [|? [|]]; cbn in *; (done || lia).
Qed.

Lemma UnmarshalVXLANHeader_no_panic h : UnmarshalVXLANHeader h <> Panic.
Proof.
  unfold UnmarshalVXLANHeader. destruct (zlen h <? VXLANHeaderSize) eqn:E; [done|].
  bools. inner_consts. unfold zlen in E. apply go_bind_Panic; [apply idx_no_panic; lia|]. intros b _.
  case_match; [done|]. apply go_bind_Panic; [apply get_uint32_no_panic; lia|done].
Qed.

Lemma UnmarshalGeneveHeader_no_panic h : UnmarshalGeneveHeader h <> Panic.
Proof.
  unfold UnmarshalGeneveHeader. destruct (zlen h <? GeneveHeaderMinSize) eqn:E; [done|].
  bools. inner_consts. unfold zlen in E. apply go_bind_Panic; [apply idx_no_panic; lia|]. intros b _.
  cbv zeta. case_match; [done|]. apply go_bind_Panic; [apply idx_no_panic; lia|]. intros b1 _.
  apply go_bind_Panic; [apply get_uint16_no_panic; lia|]. intros p _.
  apply go_bind_Panic; [apply get_uint32_no_panic; lia|done].
Qed.

Lemma VXLAN_recv_no_panic c r : VXLAN_RecvDecapsulated r c <> Panic.
Proof.
  unfold VXLAN_RecvDecapsulated. destruct r as [[d ip]|]; [|by case_match]. cbv zeta.
  destruct (zlen _ <? _) eqn:E; [done|]. bools. inner_consts. unfold zlen in E.
  rewrite slice_ok by lia. conn_cbn. apply go_bind_Panic; [apply UnmarshalVXLANHeader_no_panic|]. intros h _.
  case_match; [done|]. apply go_bind_Panic; [apply StripInnerPacket_no_panic|]. intros [[p s] t] _.
  apply go_bind_Panic; [apply src_addr_no_panic|done].
Qed.

Lemma decapGenevePacket_no_panic c d : decapGenevePacket d c <> Panic.
Proof.
  unfold decapGenevePacket. destruct (zlen d <? GeneveHeaderMinSize) eqn:E; [done|].
  bools. inner_consts. unfold zlen in E. rewrite slice_ok by lia. conn_cbn.
  apply go_bind_Panic; [apply UnmarshalGeneveHeader_no_panic|]. intros h _. cbv zeta.
  apply go_bind_Panic; [unfold validateGeneveHeader; by repeat case_match|]. intros _ _.
  apply go_bind_Panic; [apply StripInnerPacket_no_panic|]. by intros [[p s] t] _.
Qed.

Lemma Geneve_recv_no_panic c r : Geneve_RecvDecapsulated r c <> Panic.
Proof.
  unfold Geneve_RecvDecapsulated. destruct r as [[d ip]|]; [|by case_match].
  apply go_bind_Panic; [apply decapGenevePacket_no_panic|]. intros [p h] _.
  apply go_bind_Panic; [apply src_addr_no_panic|done].
Qed.

(** *** What a connection accepts *)

(** The checks on the inner packet, byte by byte. *)
Definition inner_accepted (l : list Z) : Prop :=
  42 <= zlen l /\ l !! 12%nat = Some 0x08 /\ l !! 13%nat = Some 0x00 /\
  (exists b, l !! 14%nat = Some b /\ b / 16 = 4) /\ l !! 23%nat = Some 17.

Lemma be16_val_eq b0 b1 hi lo :
  is_byte b0 -> is_byte b1 -> is_byte hi -> is_byte lo ->
  be16_val b0 b1 = hi * 256 + lo <-> b0 = hi /\ b1 = lo.
Proof. intros. rewrite be16_val_add by done. width_lia. Qed.

Lemma bytes_cells (n : nat) l :
  bytes_ok l -> (n <= length l)%nat -> exists k r, l = k ++ r /\ length k = n /\ bytes_ok k.
Proof.
  intros Hb Hn. destruct (list_split_length n l Hn) as (k & r & -> & Hk). exists k, r.
  split_and!; [done|done|]. by apply Forall_app in Hb as [? _].
Qed.

Lemma StripInnerPacket_accepts l payload :
  bytes_ok l ->
  (exists src dst, StripInnerPacket l = Ok (payload, src, dst)) <->
  inner_accepted l /\ payload = drop 42 l.
Proof.
  intros Hb. unfold StripInnerPacket, inner_accepted. inner_consts.
  destruct (zlen l <? _) eqn:E; bools; [split; [naive_solver|lia]|].
  destruct (bytes_cells 42 l Hb) as (k & r & -> & Hk & Hbk); [unfold zlen in E; lia|].
  do 42 (destruct k as [|? k]; [discriminate Hk|]). destruct k; [|discriminate Hk].
  unfold addr4_at, get_uint16, get_uint32, idx.
  cbn [app drop lookup list_lookup mbind go_bind] in *.
  repeat (inversion_clear Hbk as [|? ? ?B Hbk']; rename Hbk' into Hbk).
  pose proof (be16_val_eq z11 z12 0x08 0x00 ltac:(done) ltac:(done) ltac:(width_lia) ltac:(width_lia)) as Het.
  change (8 * 256 + 0) with innerEtherTypeIPv4 in Het. rewrite Z.shiftr_div_pow2 by lia.
  destruct (Z.eqb_spec (be16_val z11 z12) innerEtherTypeIPv4) as [E1|E1]; cbn [negb]; [|naive_solver].
  apply Het in E1 as [-> ->]. change (2 ^ 4) with 16.
  destruct (Z.eqb_spec (z13 / 16) 4) as [E2|E2]; cbn [negb]; [|naive_solver].
  destruct (Z.eqb_spec z22 innerIPv4Protocol) as [->|E3]; cbn [negb]; [|naive_solver].
  split.
  - intros (src & dst & [= <- _ _]). split_and!; naive_solver lia.
  - intros (_ & ->). eauto.
Qed.

(** The three bytes of a VNI followed by a reserved one. *)
Lemma vni_bytes b0 b1 b2 b3 :
  is_byte b0 -> is_byte b1 -> is_byte b2 -> is_byte b3 ->
  Z.shiftr (be32_val b0 b1 b2 b3) 8 = b0 * 65536 + b1 * 256 + b2.
Proof. intros. rewrite be32_val_add, Z.shiftr_div_pow2 by done. change (2 ^ 8) with 256. width_lia. Qed.

Lemma land_bit b (n : nat) : Z.land b (2 ^ Z.of_nat n) =? 0 = negb (Z.testbit b (Z.of_nat n)).
Proof.
  destruct (Z.testbit b (Z.of_nat n)) eqn:E; cbn.
  - apply Z.eqb_neq. intros H. apply (f_equal (fun z => Z.testbit z (Z.of_nat n))) in H.
    rewrite Z.land_spec, E, Z.pow2_bits_true, Z.bits_0 in H by lia. done.
  - apply Z.eqb_eq, Z.bits_inj'. intros i Hi. rewrite Z.land_spec, Z.bits_0.
    destruct (Z.eq_dec i (Z.of_nat n)) as [->|Hne]; [by rewrite E|].
    rewrite Z.pow2_bits_false by lia. apply andb_false_r.
Qed.

(** A list of at least [n] cells, as the cells followed by a rest. *)
Ltac split_cells n l Hb k r Hbk :=
  let Hk := fresh "Hk" in
  destruct (bytes_cells n%nat l Hb) as (k & r & -> & Hk & Hbk);
    [unfold zlen in *; lia|repeat (destruct k as [|? k]; [discriminate Hk|]); destruct k; [|discriminate Hk];
     repeat (let B := fresh "B" in let Hbk' := fresh in
             inversion_clear Hbk as [|? ? B Hbk']; rename Hbk' into Hbk)].

Definition vni_at (l : list Z) (vni : Z) : Prop :=
  exists b4 b5 b6, l !! 4%nat = Some b4 /\ l !! 5%nat = Some b5 /\ l !! 6%nat = Some b6 /\
                   vni = b4 * 65536 + b5 * 256 + b6.

(** RFC 8971: the I flag, the management VNI, then the inner packet. *)
Definition vxlan_accepted (vni : Z) (l : list Z) : Prop :=
  (exists b0, l !! 0%nat = Some b0 /\ Z.testbit b0 3 = true) /\ vni_at l vni /\
  inner_accepted (drop 8 l).

(** RFC 9521: version 0, any options, the O bit and not the C bit, Ethernet, the
    VNI, then the inner packet. *)
Definition geneve_accepted (vni : Z) (l : list Z) (optLen : Z) : Prop :=
  (exists b0, l !! 0%nat = Some b0 /\ b0 / 64 = 0 /\ optLen = b0 mod 64) /\
  (exists b1, l !! 1%nat = Some b1 /\ Z.testbit b1 7 = true /\ Z.testbit b1 6 = false) /\
  l !! 2%nat = Some 0x65 /\ l !! 3%nat = Some 0x58 /\ vni_at l vni /\
  inner_accepted (drop (Z.to_nat (8 + optLen * 4)) l).

Lemma UnmarshalVXLANHeader_inv h hdr :
  bytes_ok h -> length h = 8%nat ->
  UnmarshalVXLANHeader h = Ok hdr <->
  (exists b0, h !! 0%nat = Some b0 /\ Z.testbit b0 3 = true) /\ vni_at h (vh_VNI hdr).
Proof.
  intros Hb Hl. split_cells 8%nat h Hb k r Hbk. destruct r; [|cbn in Hl; lia].
  unfold UnmarshalVXLANHeader, vni_at, idx, get_uint32.
  cbn [app drop lookup list_lookup mbind go_bind]. change (zlen _ <? VXLANHeaderSize) with false. cbv iota.
  change vxlanFlagVNI with (2 ^ Z.of_nat 3). rewrite land_bit. cbn [Z.of_nat].
  change (Z.of_nat 3) with 3. rewrite vni_bytes by done. destruct hdr as [v]. cbn [vh_VNI].
  destruct (Z.testbit z 3) eqn:E; cbn [negb]; split; [|intros (_ & b4 & b5 & b6 & [= ->] & [= ->] & [= ->] & ->); done|done|].
  - intros [= <-]. split; [eauto|]. by repeat eexists.
  - intros ((b0 & [= ->] & H) & _). congruence.
Qed.

Lemma UnmarshalGeneveHeader_inv h hdr :
  bytes_ok h -> length h = 8%nat ->
  UnmarshalGeneveHeader h = Ok hdr <->
  exists b0 b1 b2 b3, h !! 0%nat = Some b0 /\ h !! 1%nat = Some b1 /\ h !! 2%nat = Some b2 /\
    h !! 3%nat = Some b3 /\ b0 / 64 = 0 /\ gh_Version hdr = 0 /\ gh_OptLen hdr = b0 mod 64 /\
    gh_OBit hdr = Z.testbit b1 7 /\ gh_CBit hdr = Z.testbit b1 6 /\
    gh_ProtocolType hdr = b2 * 256 + b3 /\ vni_at h (gh_VNI hdr).
Proof.
  intros Hb Hl. split_cells 8%nat h Hb k r Hbk. destruct r; [|cbn in Hl; lia].
  unfold UnmarshalGeneveHeader, vni_at, idx, get_uint32, get_uint16.
  cbn [app drop lookup list_lookup mbind go_bind]. change (zlen _ <? GeneveHeaderMinSize) with false. cbv iota zeta.
  change 0x80 with (2 ^ Z.of_nat 7). change 0x40 with (2 ^ Z.of_nat 6). change 0x3F with (Z.ones 6).
  rewrite !land_bit, Z.land_ones, Z.shiftr_div_pow2, be16_val_add, vni_bytes, !negb_involutive by done || lia.
  change (Z.of_nat 7) with 7. change (Z.of_nat 6) with 6. change (2 ^ 6) with 64.
  destruct hdr as [v o ob cb p n]. cbn [gh_Version gh_OptLen gh_OBit gh_CBit gh_ProtocolType gh_VNI].
  destruct (Z.eqb_spec (z / 64) 0) as [E|E]; cbn [negb]; [|naive_solver].
  rewrite E. split; [intros [= <- <- <- <- <- <-]; naive_solver lia|].
  intros (b0 & b1 & b2 & b3 & [= ->] & [= ->] & [= ->] & [= ->] & _ & -> & -> & -> & -> & -> & Hv).
  destruct Hv as (b4 & b5 & b6 & [= ->] & [= ->] & [= ->] & ->). do 2 f_equal. lia.
Qed.

(** A property of the first eight cells. *)
Lemma lookup_take8 (l : list Z) i : (i < 8)%nat -> take 8 l !! i = l !! i.
Proof. intros. by apply lookup_take_lt. Qed.

Lemma vni_at_take l vni : vni_at (take 8 l) vni <-> vni_at l vni.
Proof. unfold vni_at. by rewrite !lookup_take8 by lia. Qed.

Lemma VXLAN_accepts c d ip payload meta :
  bytes_ok d -> zlen d <= 9000 ->
  VXLAN_RecvDecapsulated (Some (d, ip)) c = Ok (payload, meta) <->
  vxlan_accepted (vc_managementVNI c) d /\ payload = drop 50 d /\
  exists a, AddrFromSlice ip = Some a /\
    meta = {| om_SrcAddr := Addr_Unmap a; om_DstAddr := vc_localAddr c; om_VNI := vc_managementVNI c |}.
Proof.
  intros Hb Hl. unfold VXLAN_RecvDecapsulated, vxlan_accepted. rewrite take_ge by (unfold zlen, vxlanBufSize in *; lia).
  cbv zeta. inner_consts. destruct (zlen d <? _) eqn:E; bools.
  { split; [done|]. intros ((_ & _ & Hi & _) & _). unfold zlen in *. rewrite length_drop in Hi. lia. }
  rewrite slice_ok by (unfold zlen in E; lia). conn_cbn. rewrite drop_0. change (8 - 0)%nat with 8%nat.
  assert (Hh : bytes_ok (take 8 d) /\ length (take 8 d) = 8%nat)
    by (split; [auto with bfd|rewrite length_take; unfold zlen in E; lia]).
  pose proof (fun h => UnmarshalVXLANHeader_inv (take 8 d) h (proj1 Hh) (proj2 Hh)) as Hinv.
  rewrite lookup_take8 in Hinv by lia. setoid_rewrite vni_at_take in Hinv.
  pose proof (StripInnerPacket_accepts (drop 8 d) payload ltac:(auto with bfd)) as Hs. rewrite drop_drop in Hs.
  rewrite !go_bind_Ok. split.
  - intros (h & Hu & H). apply Hinv in Hu as (Hf & Hv). destruct (vh_VNI h =? vc_managementVNI c) eqn:Ev; [|done].
    bools. cbn [negb] in H. apply go_bind_Ok in H as ([[p s] t] & Hst & H).
    apply go_bind_Ok in H as (a & Ha & [= <- <-]). rewrite Ev in *.
    destruct Hs as [Hs _]. destruct Hs as [Hs ->]; [eauto|]. split_and!; [done|done|done|done|].
    unfold src_addr in Ha. destruct (AddrFromSlice ip) as [x|]; [|done]. injection Ha as <-. eauto.
  - intros ((Hf & Hv & Hi) & -> & a & Ha & ->). exists {| vh_VNI := vc_managementVNI c |}. split.
    + apply Hinv. done.
    + cbn [vh_VNI]. rewrite Z.eqb_refl. cbn [negb]. destruct Hs as [_ Hs]. destruct Hs as (s & t & ->); [done|].
      conn_cbn. unfold src_addr. by rewrite Ha.
Qed.

Lemma validateGeneveHeader_ok hdr len total c :
  validateGeneveHeader hdr len total c = Ok tt <->
  total + 42 <= len /\ gh_OBit hdr = true /\ gh_CBit hdr = false /\
  gh_ProtocolType hdr = GeneveProtocolEthernet /\ gh_VNI hdr = gc_vni c.
Proof.
  unfold validateGeneveHeader. inner_consts. change (14 + 20 + 8) with 42. cbv zeta.
  destruct (Z.ltb_spec len (total + 42)); [naive_solver lia|].
  destruct (gh_OBit hdr), (gh_CBit hdr); cbn [negb]; try naive_solver.
  destruct (Z.eqb_spec (gh_ProtocolType hdr) GeneveProtocolEthernet); cbn [negb]; [|naive_solver].
  destruct (Z.eqb_spec (gh_VNI hdr) (gc_vni c)); cbn [negb]; naive_solver.
Qed.

(** The header checks, on the bytes of the packet. *)
Lemma geneve_header_accepts c d hdr :
  bytes_ok d -> 8 <= zlen d ->
  UnmarshalGeneveHeader (take 8 d) = Ok hdr /\
  validateGeneveHeader hdr (zlen d) (TotalHeaderSize hdr) c = Ok tt <->
  (exists b0, d !! 0%nat = Some b0 /\ b0 / 64 = 0 /\ gh_OptLen hdr = b0 mod 64) /\
  (exists b1, d !! 1%nat = Some b1 /\ Z.testbit b1 7 = true /\ Z.testbit b1 6 = false) /\
  d !! 2%nat = Some 0x65 /\ d !! 3%nat = Some 0x58 /\ vni_at d (gc_vni c) /\
  50 + gh_OptLen hdr * 4 <= zlen d /\
  hdr = {| gh_Version := 0; gh_OptLen := gh_OptLen hdr; gh_OBit := true; gh_CBit := false;
           gh_ProtocolType := GeneveProtocolEthernet; gh_VNI := gc_vni c |}.
Proof.
  intros Hb Hl.
  assert (Hh : bytes_ok (take 8 d) /\ length (take 8 d) = 8%nat)
    by (split; [auto with bfd|rewrite length_take; unfold zlen in Hl; lia]).
  rewrite (UnmarshalGeneveHeader_inv _ _ (proj1 Hh) (proj2 Hh)), validateGeneveHeader_ok.
  unfold TotalHeaderSize. inner_consts. setoid_rewrite vni_at_take. setoid_rewrite lookup_take8; [|lia..]. split.
  - intros ((b0 & b1 & b2 & b3 & H0 & H1 & H2 & H3 & Hv & E1 & E2 & E3 & E4 & E5 & E6) & Hsz & E3' & E4' & E5' & E6').
    assert (is_byte b2 /\ is_byte b3) as [] by (split; by eapply bytes_ok_lookup).
    rewrite E5 in E5'. assert (b2 = 0x65 /\ b3 = 0x58) as [-> ->]
      by (unfold GeneveProtocolEthernet, is_byte in *; lia).
    rewrite E3 in E3'. rewrite E4 in E4'. rewrite E6' in E6. split_and!; [eauto|eauto|done|done|done|lia|].
    destruct hdr; cbn in *. congruence.
  - intros ((b0 & H0 & Hv & Ho) & (b1 & H1 & HO & HC) & H2 & H3 & Hn & Hsz & ->). cbn in *.
    split; [|split_and!; done || lia]. exists b0, b1, 0x65, 0x58. split_and!; done.
Qed.

Lemma decapGenevePacket_accepts c d payload hdr :
  bytes_ok d ->
  decapGenevePacket d c = Ok (payload, hdr) <->
  geneve_accepted (gc_vni c) d (gh_OptLen hdr) /\
  payload = drop (Z.to_nat (50 + gh_OptLen hdr * 4)) d /\
  hdr = {| gh_Version := 0; gh_OptLen := gh_OptLen hdr; gh_OBit := true; gh_CBit := false;
           gh_ProtocolType := GeneveProtocolEthernet; gh_VNI := gc_vni c |}.
Proof.
  intros Hb. unfold decapGenevePacket, geneve_accepted.
  assert (Hopt : (exists b0, d !! 0%nat = Some b0 /\ b0 / 64 = 0 /\ gh_OptLen hdr = b0 mod 64) ->
                 0 <= gh_OptLen hdr) by (intros (b & _ & _ & ->); apply Z.mod_pos_bound; lia).
  inner_consts. destruct (zlen d <? 8) eqn:E; bools.
  { split; [done|]. intros ((H0 & _ & _ & _ & _ & Hi & _) & _). specialize (Hopt H0).
    unfold zlen in *. rewrite length_drop in Hi. lia. }
  rewrite slice_ok by (unfold zlen in E; lia). conn_cbn. rewrite drop_0. change (8 - 0)%nat with 8%nat.
  pose proof (StripInnerPacket_accepts (drop (Z.to_nat (8 + gh_OptLen hdr * 4)) d) payload ltac:(auto with bfd)) as Hs.
  rewrite drop_drop in Hs. rewrite go_bind_Ok. cbv zeta. setoid_rewrite go_bind_Ok. split.
  - intros (h & Hu & [] & Hva & H). apply go_bind_Ok in H as ([[p s] t] & Hst & [= -> ->]).
    destruct (proj1 (geneve_header_accepts c d hdr Hb E) (conj Hu Hva)) as (H0 & H1 & H2 & H3 & Hv & Hsz & Hh).
    destruct Hs as [Hs _]. destruct Hs as [Hi Hp]; [eauto|]. specialize (Hopt H0). split_and!; try done.
    rewrite Hp. f_equal. lia.
  - intros ((H0 & H1 & H2 & H3 & Hv & Hi) & Hp & Hh). specialize (Hopt H0).
    destruct (proj2 (geneve_header_accepts c d hdr Hb E)) as [Hu Hva].
    { split_and!; try done. destruct Hi as [Hi _]. unfold zlen in *. rewrite length_drop in Hi. lia. }
    exists hdr. split; [done|]. exists tt. split; [done|]. apply go_bind_Ok.
    destruct Hs as [_ Hs]. destruct Hs as (s & t & Hs).
    { split; [done|]. rewrite Hp. f_equal. lia. }
    eexists. split; [exact Hs|]. done.
Qed.

Lemma Geneve_accepts c d ip payload meta :
  bytes_ok d -> zlen d <= 9000 ->
  Geneve_RecvDecapsulated (Some (d, ip)) c = Ok (payload, meta) <->
  exists optLen, geneve_accepted (gc_vni c) d optLen /\ payload = drop (Z.to_nat (50 + optLen * 4)) d /\
  exists a, AddrFromSlice ip = Some a /\
    meta = {| om_SrcAddr := Addr_Unmap a; om_DstAddr := gc_localAddr c; om_VNI := gc_vni c |}.
Proof.
  intros Hb Hl. unfold Geneve_RecvDecapsulated. rewrite take_ge by (unfold zlen, geneveBufSize in *; lia).
  rewrite go_bind_Ok. split.
  - intros ([p h] & Hd & H). apply go_bind_Ok in H as (a & Ha & [= -> <-]).
    apply decapGenevePacket_accepts in Hd as (Hacc & -> & Hh); [|done].
    exists (gh_OptLen h). split_and!; [done|done|]. unfold src_addr in Ha.
    destruct (AddrFromSlice ip) as [x|]; [|done]. injection Ha as <-. exists x. rewrite Hh. done.
  - intros (o & Hacc & -> & a & Ha & ->).
    set (h := {| gh_Version := 0; gh_OptLen := o; gh_OBit := true; gh_CBit := false;
                 gh_ProtocolType := GeneveProtocolEthernet; gh_VNI := gc_vni c |}).
    exists (drop (Z.to_nat (50 + o * 4)) d, h). split; [by apply decapGenevePacket_accepts|].
    unfold src_addr. by rewrite Ha.
Qed.

(** *** Refusals *)

Lemma go_bind_Err {E A B} (m : go E A) (f : A -> go E B) e :
  m ≫= f = Err e -> m = Err e \/ exists a, m = Ok a /\ f a = Err e.
Proof. destruct m; cbn; intros H; [right; eauto|left; congruence|done]. Qed.

(** Follow a refusal to the check that made it. *)
Ltac refusal H :=
  repeat lazymatch type of H with
  | (_ ≫= _) = Err _ =>
      let a := fresh "a" in let Ha := fresh "Ha" in
      apply go_bind_Err in H as [H|(a & Ha & H)]
  | (let '_ := ?x in _) = Err _ => destruct x
  | (if ?b then _ else _) = Err _ => destruct b
  | (match ?x with _ => _ end) = Err _ => destruct x
  | Err _ = Err _ => injection H as <-
  | Ok _ = Err _ => discriminate H
  | Panic = Err _ => discriminate H
  end; try done.

Lemma idx_Err {E} buf i (e : E) : idx buf i = Err e -> False.
Proof. unfold idx. by case_match. Qed.
Lemma slice_Err {E} buf i j (e : E) : slice buf i j = Err e -> False.
Proof. unfold slice. by case_match. Qed.
Lemma get_uint16_Err {E} buf i (e : E) : get_uint16 buf i = Err e -> False.
Proof. unfold get_uint16. by repeat case_match. Qed.
Lemma get_uint32_Err {E} buf i (e : E) : get_uint32 buf i = Err e -> False.
Proof. unfold get_uint32. by repeat case_match. Qed.
#[local] Hint Resolve idx_Err slice_Err get_uint16_Err get_uint32_Err : bfd.

Lemma StripInnerPacket_refusal buf e :
  StripInnerPacket buf = Err e -> isExpectedOverlayDrop e = true.
Proof. unfold StripInnerPacket, addr4_at. intros H. refusal H; exfalso; eauto with bfd. Qed.

Lemma src_addr_refusal ip e : src_addr ip = Err e -> isExpectedOverlayDrop e = true.
Proof. unfold src_addr. intros H. by refusal H. Qed.

Lemma UnmarshalVXLANHeader_refusal h e :
  UnmarshalVXLANHeader h = Err e -> isExpectedOverlayDrop e = true.
Proof. unfold UnmarshalVXLANHeader. intros H. refusal H; exfalso; eauto with bfd. Qed.

Lemma UnmarshalGeneveHeader_refusal h e :
  UnmarshalGeneveHeader h = Err e -> isExpectedOverlayDrop e = true.
Proof. unfold UnmarshalGeneveHeader. intros H. refusal H; exfalso; eauto with bfd. Qed.

Lemma validateGeneveHeader_refusal h n t c e :
  validateGeneveHeader h n t c = Err e -> isExpectedOverlayDrop e = true.
Proof. unfold validateGeneveHeader. intros H. by refusal H. Qed.

#[local] Hint Resolve StripInnerPacket_refusal src_addr_refusal UnmarshalVXLANHeader_refusal
  UnmarshalGeneveHeader_refusal validateGeneveHeader_refusal : bfd.

Lemma VXLAN_refusal c d ip e :
  VXLAN_RecvDecapsulated (Some (d, ip)) c = Err e -> isExpectedOverlayDrop e = true.
Proof.
  unfold VXLAN_RecvDecapsulated. intros H. cbv zeta in H. refusal H; eauto with bfd; exfalso; eauto with bfd.
Qed.

Lemma Geneve_refusal c d ip e :
  Geneve_RecvDecapsulated (Some (d, ip)) c = Err e -> isExpectedOverlayDrop e = true.
Proof.
  unfold Geneve_RecvDecapsulated, decapGenevePacket. intros H. refusal H; eauto with bfd; exfalso; eauto with bfd.
Qed.

(** *** The laws *)

Lemma take_read (n : nat) (d : list Z) : take n (take n d) = take n d.
Proof. rewrite take_take. f_equal. lia. Qed.

Lemma VXLAN_payload c d ip payload meta :
  bytes_ok d -> VXLAN_RecvDecapsulated (Some (d, ip)) c = Ok (payload, meta) ->
  bytes_ok payload /\ om_VNI meta = vc_managementVNI c /\ om_DstAddr meta = vc_localAddr c.
Proof.
  intros Hb H.
  assert (H' : VXLAN_RecvDecapsulated (Some (take vxlanBufSize d, ip)) c = Ok (payload, meta))
    by (rewrite <- H; unfold VXLAN_RecvDecapsulated; by rewrite take_read).
  apply VXLAN_accepts in H' as (_ & -> & a & _ & ->); [auto with bfd|auto with bfd|].
  unfold zlen. rewrite length_take. unfold vxlanBufSize. lia.
Qed.

Lemma Geneve_payload c d ip payload meta :
  bytes_ok d -> Geneve_RecvDecapsulated (Some (d, ip)) c = Ok (payload, meta) ->
  bytes_ok payload /\ om_VNI meta = gc_vni c /\ om_DstAddr meta = gc_localAddr c.
Proof.
  intros Hb H.
  assert (H' : Geneve_RecvDecapsulated (Some (take geneveBufSize d, ip)) c = Ok (payload, meta))
    by (rewrite <- H; unfold Geneve_RecvDecapsulated; by rewrite take_read).
  apply Geneve_accepts in H' as (o & _ & -> & a & _ & ->); [auto with bfd|auto with bfd|].
  unfold zlen. rewrite length_take. unfold geneveBufSize. lia.
Qed.

Lemma VXLAN_failed c :
  VXLAN_RecvDecapsulated None c = Err (if vc_closed c then ErrOverlayRecvClosed else ErrOverlaySocket).
Proof. unfold VXLAN_RecvDecapsulated. by destruct (vc_closed c). Qed.

Lemma Geneve_failed c :
  Geneve_RecvDecapsulated None c = Err (if gc_closed c then ErrOverlayRecvClosed else ErrOverlaySocket).
Proof. unfold Geneve_RecvDecapsulated. by destruct (gc_closed c). Qed.

#[export] Instance VXLAN_laws : OverlayLaws VXLANConn := {|
  send_recv := VXLAN_send_recv;
  recv_no_panic := VXLAN_recv_no_panic;
  recv_refusal := VXLAN_refusal;
  recv_failed := VXLAN_failed;
  close_closes := fun c => eq_refl;
  recv_payload := VXLAN_payload;
|}.

#[export] Instance Geneve_laws : OverlayLaws GeneveConn := {|
  send_recv := Geneve_send_recv;
  recv_no_panic := Geneve_recv_no_panic;
  recv_refusal := Geneve_refusal;
  recv_failed := Geneve_failed;
  close_closes := fun c => eq_refl;
  recv_payload := Geneve_payload;
|}.

(** C30: a datagram of at most 9000 bytes is accepted by a VXLAN connection exactly
    when it has the I flag, the connection's VNI and inner Ethernet, IPv4 and UDP
    headers, and by a Geneve connection exactly when it has version 0, the O bit,
    not the C bit, the Ethernet protocol, the VNI and the inner headers after its
    options; the payload is what follows.  Every other datagram is refused with an
    error the receiver expects. *)
Theorem tunnels_accept_exactly (d ip : list Z) (a : Addr) (Hb : bytes_ok d) (Hl : zlen d <= 9000)
    (Hip : AddrFromSlice ip = Some a) :
  (forall c payload,
     (exists meta, VXLAN_RecvDecapsulated (Some (d, ip)) c = Ok (payload, meta)) <->
     vxlan_accepted (vc_managementVNI c) d /\ payload = drop 50 d) /\
  (forall c payload,
     (exists meta, Geneve_RecvDecapsulated (Some (d, ip)) c = Ok (payload, meta)) <->
     exists optLen, geneve_accepted (gc_vni c) d optLen /\
                    payload = drop (Z.to_nat (50 + optLen * 4)) d) /\
  (forall c, (exists p meta, VXLAN_RecvDecapsulated (Some (d, ip)) c = Ok (p, meta)) \/
             exists e, VXLAN_RecvDecapsulated (Some (d, ip)) c = Err e /\ isExpectedOverlayDrop e = true) /\
  (forall c, (exists p meta, Geneve_RecvDecapsulated (Some (d, ip)) c = Ok (p, meta)) \/
             exists e, Geneve_RecvDecapsulated (Some (d, ip)) c = Err e /\ isExpectedOverlayDrop e = true).
Proof.
  split_and!.
  - intros c payload. setoid_rewrite (fun m => VXLAN_accepts c d ip payload m Hb Hl). naive_solver.
  - intros c payload. setoid_rewrite (fun m => Geneve_accepts c d ip payload m Hb Hl). naive_solver.
  - intros c. destruct (VXLAN_RecvDecapsulated (Some (d, ip)) c) as [[p m]|e|] eqn:E; [eauto| |].
    + right. exists e. split; [done|by eapply VXLAN_refusal].
    + by apply VXLAN_recv_no_panic in E.
  - intros c. destruct (Geneve_RecvDecapsulated (Some (d, ip)) c) as [[p m]|e|] eqn:E; [eauto| |].
    + right. exists e. split; [done|by eapply Geneve_refusal].
    + by apply Geneve_recv_no_panic in E.
Qed.

Definition sample_vxlan : VXLANConn :=
  {| vc_managementVNI := 5000; vc_localAddr := IPv4 0x0a000001; vc_srcPort := 49152;
     vc_closed := false; vc_sent := [] |}.
Definition sample_geneve : GeneveConn :=
  {| gc_vni := 5000; gc_localAddr := IPv4 0x0a000001; gc_srcPort := 49152;
     gc_closed := false; gc_sent := [] |}.

(** A Geneve packet with four bytes of options. *)
Definition sample_datagram : list Z :=
  [0x01; 0x80; 0x65; 0x58] ++ be32_bytes (5000 * 256) ++ [1; 2; 3; 4]
  ++ wire_inner [7; 8; 9] 0x0a000002 0x0a000001 50000.

Lemma tunnels_accept_exactly_witness :
  (exists meta, Geneve_RecvDecapsulated (Some (sample_datagram, [10; 0; 0; 2])) sample_geneve
                = Ok ([7; 8; 9], meta)) /\
  geneve_accepted 5000 sample_datagram 1 /\
  VXLAN_RecvDecapsulated (Some (sample_datagram, [10; 0; 0; 2])) sample_vxlan = Err ErrVXLANInvalidFlags.
Proof.
  destruct (tunnels_accept_exactly sample_datagram [10; 0; 0; 2] (IPv4 0x0a000002)) as (_ & Hg & _).
  - apply (bool_decide_unpack _). vm_compute. done.
  - vm_compute. done.
  - vm_compute. done.
  - assert (H : exists meta, Geneve_RecvDecapsulated (Some (sample_datagram, [10; 0; 0; 2])) sample_geneve
                = Ok ([7; 8; 9], meta)) by (eexists; vm_compute; reflexivity).
    split_and!; [exact H| |vm_compute; reflexivity].
    destruct (proj1 (Hg sample_geneve [7; 8; 9]) H) as (o & Ha & _).
    replace 1 with o; [exact Ha|]. destruct Ha as ((b0 & H0 & _ & ->) & _). by injection H0 as <-.
Defined.
