(* ===== verification/Transport.v ===== *)
(** * Transport: ports, TTL checks and packet metadata

    Models [internal/netio/rawsock.go] and the platform-independent parts of
    [rawsock_linux.go] and [sender.go]: the GTSM rules, the metadata read from
    control messages, the source port allocator and the sender's bookkeeping.  The
    splitting of ancillary data into control messages belongs to
    golang.org/x/sys/unix and is an argument; so is the outcome of system calls. *)

From S2P Require Import Prelude Netip.

Local Open Scope Z_scope.

(** ** Constants *)

Definition PortSingleHop : Z := 3784.
Definition PortMultiHop : Z := 4784.
Definition PortEcho : Z := 3785.
Definition PortMicroBFD : Z := 6784.
Definition sourcePortMin : Z := 49152.
Definition sourcePortMax : Z := 65535.
Definition ttlRequired : Z := 255.
Definition ttlMultiHopMin : Z := 254.
Definition TTLEchoLoopback : Z := 254.

Inductive netio_error :=
| ErrTTLInvalid | ErrPortExhausted | ErrSocketClosed | ErrNetSocket | ErrRandom | ErrCancelled
| ErrNoListeners.

#[export] Instance netio_error_eq_dec : EqDecision netio_error.
Proof. solve_decision. Defined.

(** ** Metadata *)

(** [netio.PacketMeta]. *)
Record NetMeta := mkNetMeta {
  nm_SrcAddr : Addr;
  nm_DstAddr : Addr;
  nm_TTL : Z;
  nm_IfIndex : Z;
  nm_IfName : string;
}.

Definition NetMeta_zero : NetMeta :=
  {| nm_SrcAddr := InvalidAddr; nm_DstAddr := InvalidAddr; nm_TTL := 0; nm_IfIndex := 0;
     nm_IfName := "" |}.

Definition ValidateTTL (meta : NetMeta) (multiHop : bool) : go netio_error unit :=
  if multiHop then
    if nm_TTL meta <? ttlMultiHopMin then Err ErrTTLInvalid else Ok tt
  else if negb (nm_TTL meta =? ttlRequired) then Err ErrTTLInvalid else Ok tt.

Definition ValidateExpectedTTL (meta : NetMeta) (expected : Z) : go netio_error unit :=
  if negb (nm_TTL meta =? expected) then Err ErrTTLInvalid else Ok tt.

(** [unix.SocketControlMessage], with the numbers of the Linux interface. *)
Record SocketControlMessage := mkSocketControlMessage {
  scm_Level : Z;
  scm_Type : Z;
  scm_Data : list Z;
}.

Definition IPPROTO_IP : Z := 0.
Definition IP_TTL : Z := 2.
Definition IP_PKTINFO : Z := 8.
Definition IPPROTO_IPV6 : Z := 41.
Definition IPV6_HOPLIMIT : Z := 52.
Definition IPV6_PKTINFO : Z := 50.

Definition parseTTLMessage (data : list Z) (meta : NetMeta) : NetMeta :=
  match data with b :: _ => {| meta with nm_TTL := b |} | [] => meta end.

(** A 32-bit interface index, little-endian. *)
Definition le32_val (b0 b1 b2 b3 : Z) : Z :=
  Z.lor b0 (Z.lor (Z.shiftl b1 8) (Z.lor (Z.shiftl b2 16) (Z.shiftl b3 24))).

Definition parsePktInfoMessage (data : list Z) (meta : NetMeta) : NetMeta :=
  match data with
  | i0 :: i1 :: i2 :: i3 :: _ :: _ :: _ :: _ :: a0 :: a1 :: a2 :: a3 :: _ =>
      {| meta with nm_IfIndex := le32_val i0 i1 i2 i3; nm_DstAddr := AddrFrom4 a0 a1 a2 a3 |}
  | _ => meta
  end.

Definition parseHopLimitMessage (data : list Z) (meta : NetMeta) : NetMeta :=
  match data with b :: _ => {| meta with nm_TTL := b |} | [] => meta end.

Definition parsePktInfo6Message (data : list Z) (meta : NetMeta) : NetMeta :=
  match drop 16 data with
  | i0 :: i1 :: i2 :: i3 :: _ =>
      {| meta with nm_DstAddr := IPv6 (be_val (take 16 data)) ""; nm_IfIndex := le32_val i0 i1 i2 i3 |}
  | _ => meta
  end.

Definition parse_message (m : SocketControlMessage) (meta : NetMeta) : NetMeta :=
  if (scm_Level m =? IPPROTO_IP) && (scm_Type m =? IP_TTL) then parseTTLMessage (scm_Data m) meta
  else if (scm_Level m =? IPPROTO_IP) && (scm_Type m =? IP_PKTINFO)
  then parsePktInfoMessage (scm_Data m) meta
  else if (scm_Level m =? IPPROTO_IPV6) && (scm_Type m =? IPV6_HOPLIMIT)
  then parseHopLimitMessage (scm_Data m) meta
  else if (scm_Level m =? IPPROTO_IPV6) && (scm_Type m =? IPV6_PKTINFO)
  then parsePktInfo6Message (scm_Data m) meta
  else meta.

Definition parseControlMessages (msgs : list SocketControlMessage) (meta : NetMeta) : NetMeta :=
  fold_left (fun meta m => parse_message m meta) msgs meta.

(** ** Reading from a socket *)

(** What a read yields: an error, or a datagram with the bytes of the sender's
    address and the ancillary data. *)
Inductive conn_read :=
| ReadFailed
| Datagram (data : list Z) (src : option (list Z)) (oob : list Z).

(** ** Socket options *)

Inductive sockopt :=
| SO_REUSEADDR | SO_BINDTODEVICE (ifName : string)
| SO_IP_TTL (v : Z) | SO_IP_RECVTTL | SO_IP_PKTINFO | SO_IP_PMTUDISC_DO
| SO_IPV6_UNICAST_HOPS (v : Z) | SO_IPV6_RECVHOPLIMIT | SO_IPV6_RECVPKTINFO | SO_IPV6_DONTFRAG.

#[export] Instance sockopt_eq_dec : EqDecision sockopt.
Proof. solve_decision. Defined.

(** What the system does: whether an option can be set, whether the bind works. *)
Record System := mkSystem {
  sys_setsockopt : sockopt -> bool;
  sys_bind : bool;
}.

(** Set options one after the other up to the first failure. *)
Fixpoint set_options (sys : System) (opts : list sockopt) : go netio_error unit :=
  match opts with
  | [] => Ok tt
  | o :: opts => if sys_setsockopt sys o then set_options sys opts else Err ErrNetSocket
  end.

Definition applySockOptsCommon (ifName : string) (multiHop : bool) : list sockopt :=
  [SO_REUSEADDR]
  ++ (if negb multiHop && negb (bool_decide (ifName = ""%string)) then [SO_BINDTODEVICE ifName] else []).

Definition applySockOptsV4 (ifName : string) (multiHop : bool) : list sockopt :=
  applySockOptsCommon ifName multiHop ++ [SO_IP_TTL ttlRequired; SO_IP_RECVTTL; SO_IP_PKTINFO].

Definition applySockOptsV6 (ifName : string) (multiHop : bool) : list sockopt :=
  applySockOptsCommon ifName multiHop
  ++ [SO_IPV6_UNICAST_HOPS ttlRequired; SO_IPV6_RECVHOPLIMIT; SO_IPV6_RECVPKTINFO].

Definition setSocketOpts (ifName : string) (multiHop isIPv6 : bool) : list sockopt :=
  if isIPv6 then applySockOptsV6 ifName multiHop else applySockOptsV4 ifName multiHop.

Definition setSenderOptsIPv4 (dfBit : bool) : list sockopt :=
  [SO_IP_TTL ttlRequired] ++ (if dfBit then [SO_IP_PMTUDISC_DO] else []).

Definition setSenderOptsIPv6 (dfBit : bool) : list sockopt :=
  [SO_IPV6_UNICAST_HOPS ttlRequired] ++ (if dfBit then [SO_IPV6_DONTFRAG] else []).

Definition setSenderSockOpts (isIPv6 dfBit : bool) (bindDevice : string) : list sockopt :=
  [SO_REUSEADDR]
  ++ (if negb (bool_decide (bindDevice = ""%string)) then [SO_BINDTODEVICE bindDevice] else [])
  ++ (if isIPv6 then setSenderOptsIPv6 dfBit else setSenderOptsIPv4 dfBit).

Definition is_ipv6 (a : Addr) : bool := Addr_Is6 a && negb (Addr_Is4In6 a).

(** A bound socket, with the options set on it. *)
Definition open_socket (sys : System) (opts : list sockopt) : go netio_error (list sockopt) :=
  _ ← set_options sys opts;
  if sys_bind sys then Ok opts else Err ErrNetSocket.

Record LinuxPacketConn := mkLinuxPacketConn {
  pc_localAddr : Addr;
  pc_localPort : Z;
  pc_ifName : string;
  pc_multiHop : bool;
  pc_options : list sockopt;
  pc_closed : bool;
  pc_sent : list (list Z * Addr * Z);
}.

Definition listenUDP (sys : System) (addr : Addr) (ifName : string) (multiHop : bool)
    : go netio_error (list sockopt) :=
  open_socket sys (setSocketOpts ifName multiHop (is_ipv6 addr)).

Section read.
Variable ParseSocketControlMessage : list Z -> option (list SocketControlMessage).

Definition parseMeta (src : option (list Z)) (oob : list Z) : NetMeta :=
  let meta := NetMeta_zero in
  let meta :=
    match src with
    | Some ip =>
        match AddrFromSlice ip with
        | Some a => {| meta with nm_SrcAddr := Addr_Unmap a |}
        | None => meta
        end
    | None => meta
    end in
  match ParseSocketControlMessage oob with
  | None => meta
  | Some msgs => parseControlMessages msgs meta
  end.

(** A read into a buffer of [size] bytes; the rest of a longer datagram is lost. *)
Definition ReadPacket (size : nat) (r : conn_read) (c : LinuxPacketConn)
    : go netio_error (list Z * NetMeta) :=
  match r with
  | ReadFailed => Err ErrNetSocket
  | Datagram data src oob =>
      Ok (take size data, {| (parseMeta src oob) with nm_IfName := pc_ifName c |})
  end.
End read.

Definition NewSingleHopListener (sys : System) (addr : Addr) (ifName : string)
    : go netio_error LinuxPacketConn :=
  opts ← listenUDP sys addr ifName false;
  Ok {| pc_localAddr := addr; pc_localPort := PortSingleHop; pc_ifName := ifName;
        pc_multiHop := false; pc_options := opts; pc_closed := false;
        pc_sent := [] |}.

Definition NewMultiHopListener (sys : System) (addr : Addr) : go netio_error LinuxPacketConn :=
  opts ← listenUDP sys addr "" true;
  Ok {| pc_localAddr := addr; pc_localPort := PortMultiHop; pc_ifName := "";
        pc_multiHop := true; pc_options := opts; pc_closed := false;
        pc_sent := [] |}.

Definition NewGenericListener (sys : System) (addr : Addr) (ifName : string) (port : Z)
    : go netio_error LinuxPacketConn :=
  opts ← listenUDP sys addr ifName false;
  Ok {| pc_localAddr := addr; pc_localPort := port; pc_ifName := ifName;
        pc_multiHop := false; pc_options := opts; pc_closed := false;
        pc_sent := [] |}.

(** A write goes to the port of the socket's kind; [written] is its success. *)
Definition WritePacket (written : bool) (buf : list Z) (dst : Addr) (c : LinuxPacketConn)
    : go netio_error unit * LinuxPacketConn :=
  let port := if pc_multiHop c then PortMultiHop else PortSingleHop in
  if written && negb (pc_closed c)
  then (Ok tt, {| c with pc_sent := pc_sent c ++ [(buf, dst, port)] |})
  else (Err ErrNetSocket, c).

Definition PacketConn_Close (c : LinuxPacketConn) : LinuxPacketConn := {| c with pc_closed := true |}.

(** ** Senders *)

Record UDPSender := mkUDPSender {
  us_dstPort : Z;
  us_srcPort : Z;
  us_multiHop : bool;
  us_dfBit : bool;
  us_bindDevice : string;
  us_writeBufferSize : Z;
  us_options : list sockopt;
  us_closed : bool;
  us_sent : list (list Z * Addr * Z);
}.

Definition SenderOption : Type := UDPSender -> UDPSender.
Definition WithDFBit : SenderOption := fun s => {| s with us_dfBit := true |}.
Definition WithDstPort (port : Z) : SenderOption := fun s => {| s with us_dstPort := port |}.
Definition WithBindDevice (ifName : string) : SenderOption := fun s => {| s with us_bindDevice := ifName |}.
Definition WithWriteBuffer (bytes : Z) : SenderOption := fun s => {| s with us_writeBufferSize := bytes |}.

(** [buffer] tells whether the write buffer size can be set. *)
Definition NewUDPSender (sys : System) (buffer : bool) (localAddr : Addr) (srcPort : Z)
    (multiHop : bool) (opts : list SenderOption) : go netio_error UDPSender :=
  let dstPort := if multiHop then PortMultiHop else PortSingleHop in
  let s := {| us_dstPort := dstPort; us_srcPort := srcPort; us_multiHop := multiHop;
              us_dfBit := false; us_bindDevice := ""; us_writeBufferSize := 0;
              us_options := []; us_closed := false; us_sent := [] |} in
  let s := fold_left (fun s opt => opt s) opts s in
  options ← open_socket sys (setSenderSockOpts (is_ipv6 localAddr) (us_dfBit s) (us_bindDevice s));
  let s := {| s with us_options := options |} in
  if (0 <? us_writeBufferSize s) && negb buffer then Err ErrNetSocket else Ok s.

Definition UDP_SendPacket (written : bool) (buf : list Z) (addr : Addr) (s : UDPSender)
    : go netio_error unit * UDPSender :=
  if us_closed s then (Err ErrSocketClosed, s) else
  if written then (Ok tt, {| s with us_sent := us_sent s ++ [(buf, addr, us_dstPort s)] |})
  else (Err ErrNetSocket, s).

Definition UDP_Close (s : UDPSender) : UDPSender := {| s with us_closed := true |}.

(** ** Source ports *)

Record SourcePortAllocator := mkSourcePortAllocator {
  sp_inUse : gset Z;
  sp_portSpan : Z;
}.

Definition NewSourcePortAllocator : SourcePortAllocator :=
  {| sp_inUse := ∅; sp_portSpan := sourcePortMax - sourcePortMin + 1 |}.

Definition probed_port (offset i portSpan : Z) : Z :=
  u16 (sourcePortMin + u16 ((offset + i) mod portSpan)).

(** The probes [i], [i + 1], ..., [n] of them. *)
Fixpoint probe (n : nat) (i offset : Z) (a : SourcePortAllocator)
    : go netio_error Z * SourcePortAllocator :=
  match n with
  | O => (Err ErrPortExhausted, a)
  | S n =>
      let port := probed_port offset i (sp_portSpan a) in
      if decide (port ∈ sp_inUse a) then probe n (i + 1) offset a
      else (Ok port, {| a with sp_inUse := {[port]} ∪ sp_inUse a |})
  end.

(** [offset] is the random offset, [None] when the random source fails. *)
Definition AllocatePort (offset : option Z) (a : SourcePortAllocator)
    : go netio_error Z * SourcePortAllocator :=
  if sp_portSpan a <=? Z.of_nat (size (sp_inUse a)) then (Err ErrPortExhausted, a) else
  match offset with
  | None => (Err ErrRandom, a)
  | Some offset => probe (Z.to_nat (sp_portSpan a)) 0 offset a
  end.

Definition ReleasePort (port : Z) (a : SourcePortAllocator) : SourcePortAllocator :=
  {| a with sp_inUse := sp_inUse a ∖ {[port]} |}.

(** ** Lemmas *)

Lemma set_options_ok sys opts : set_options sys opts = Ok tt -> Forall (fun o => sys_setsockopt sys o = true) opts.
Proof.
  induction opts as [|o opts IH]; cbn; [done|]. destruct (sys_setsockopt sys o) eqn:E; [|done]. auto.
Qed.

Lemma open_socket_ok sys opts o : open_socket sys opts = Ok o -> o = opts.
Proof. unfold open_socket. intros H. go_inv H. done. Qed.

(** The ports of the RFC 5881 range. *)
Definition in_range (p : Z) : Prop := sourcePortMin <= p <= sourcePortMax.

Definition ports_ok (a : SourcePortAllocator) : Prop :=
  sp_portSpan a = 16384 /\ forall p, p ∈ sp_inUse a -> in_range p.

Lemma ports_new_ok : ports_ok NewSourcePortAllocator.
Proof. split; [done|]. cbn. set_solver. Qed.

Definition port_range : gset Z := list_to_set (seqZ sourcePortMin 16384).

Lemma elem_of_port_range p : p ∈ port_range <-> in_range p.
Proof.
  unfold port_range. rewrite elem_of_list_to_set, elem_of_seqZ.
  unfold in_range, sourcePortMin, sourcePortMax. lia.
Qed.

Lemma size_port_range : size port_range = Z.to_nat 16384.
Proof.
  unfold port_range. rewrite size_list_to_set by apply NoDup_seqZ. by rewrite length_seqZ.
Qed.

#[local] Opaque port_range.

(** Some port of the range is free unless all are taken. *)
Lemma free_port a :
  ports_ok a -> Z.of_nat (size (sp_inUse a)) < 16384 -> exists p, in_range p /\ p ∉ sp_inUse a.
Proof.
  intros [_ Hr] Hs.
  destruct (decide (port_range ⊆ sp_inUse a)) as [Hsub|Hsub].
  - apply subseteq_size in Hsub. rewrite size_port_range in Hsub. lia.
  - destruct (set_choose_or_empty (port_range ∖ sp_inUse a)) as [[p Hp]|He].
    + apply elem_of_difference in Hp as [Hp Hn]. exists p.
      apply elem_of_port_range in Hp. exact (conj Hp Hn).
    + destruct Hsub. apply empty_difference_subseteq. exact He.
Qed.

Lemma probed_port_value offset i :
  probed_port offset i 16384 = sourcePortMin + (offset + i) mod 16384.
Proof. unfold probed_port, sourcePortMin. pose proof (Z.mod_pos_bound (offset + i) 16384). width_lia. Qed.

(** The probes find the first free port, in cyclic order from the offset. *)
Lemma probe_spec n i offset a :
  sp_portSpan a = 16384 ->
  let port j := sourcePortMin + (offset + j) mod 16384 in
  (exists j, i <= j < i + Z.of_nat n /\ port j ∉ sp_inUse a /\
     (forall k, i <= k < j -> port k ∈ sp_inUse a) /\
     probe n i offset a = (Ok (port j), {| a with sp_inUse := {[port j]} ∪ sp_inUse a |})) \/
  ((forall j, i <= j < i + Z.of_nat n -> port j ∈ sp_inUse a) /\
   probe n i offset a = (Err ErrPortExhausted, a)).
Proof.
  intros Hs port. revert i. induction n as [|n IH]; intros i; cbn [probe].
  { right. split; [lia|done]. }
  assert (probed_port offset i (sp_portSpan a) = port i) as -> by (rewrite Hs; apply probed_port_value).
  destruct (decide (port i ∈ sp_inUse a)) as [Hin|Hout].
  - destruct (IH (i + 1)) as [(j & Hj & Hf & Hk & ->)|[Hall ->]].
    + left. exists j. split_and!; [lia|lia|done| |done]. intros k Hk'.
      destruct (Z.eq_dec k i) as [->|]; [done|]. apply Hk. lia.
    + right. split; [|done]. intros j Hj. destruct (Z.eq_dec j i) as [->|]; [done|]. apply Hall. lia.
  - left. exists i. split_and!; [lia|lia|done|lia|done].
Qed.

(** With a free port, allocation succeeds. *)
Lemma AllocatePort_free a offset :
  ports_ok a -> Z.of_nat (size (sp_inUse a)) < 16384 ->
  exists j, let port k := sourcePortMin + (offset + k) mod 16384 in
    0 <= j < 16384 /\ in_range (port j) /\ port j ∉ sp_inUse a /\
    (forall k, 0 <= k < j -> port k ∈ sp_inUse a) /\
    AllocatePort (Some offset) a = (Ok (port j), {| a with sp_inUse := {[port j]} ∪ sp_inUse a |}) /\
    ports_ok (AllocatePort (Some offset) a).2.
Proof.
  intros Ha Hlt. pose proof Ha as [Hs Hr]. unfold AllocatePort.
  destruct a as [u span]. cbn [sp_portSpan sp_inUse] in *. subst span.
  set (a := {| sp_inUse := u; sp_portSpan := 16384 |}) in *. assert (Hs : sp_portSpan a = 16384) by done.
  pose proof (probe_spec (Z.to_nat 16384) 0 offset a Hs) as Hp. cbv zeta in Hp. rewrite Z2Nat.id in Hp by lia.
  set (r := probe (Z.to_nat 16384) 0 offset a) in *. clearbody r.
  rewrite (proj2 (Z.leb_gt _ _)) by lia.
  destruct Hp as [(j & Hj & Hf & Hk & ->)|[Hall _]].
  - exists j. assert (Hin : in_range (sourcePortMin + (offset + j) mod 16384)).
    { pose proof (Z.mod_pos_bound (offset + j) 16384). unfold in_range, sourcePortMin, sourcePortMax. lia. }
    cbv zeta. split_and!; [lia|lia|done|done|done|done|].
    split; [done|]. cbn. intros q Hq. apply elem_of_union in Hq as [->%elem_of_singleton|Hq]; auto.
  - exfalso. destruct (free_port a Ha Hlt) as (p & Hpr & Hpn). apply Hpn.
    unfold in_range, sourcePortMin, sourcePortMax in Hpr.
    replace p with (sourcePortMin + (offset + (p - sourcePortMin - offset) mod 16384) mod 16384).
    + apply Hall. pose proof (Z.mod_pos_bound (p - sourcePortMin - offset) 16384). lia.
    + rewrite Z.add_mod_idemp_r by lia. unfold sourcePortMin. rewrite Z.mod_small; lia.
Qed.

(** C38: source ports.  With an offset of the random source, allocation returns the
    first port of the range 49152 to 65535 that is free in cyclic order from the
    offset and marks exactly it; it fails exactly when all 16384 ports are in use.
    The ports in use stay within the range, a port is never handed out twice
    before its release, and a release makes it available again. *)
Theorem port_allocation_exact (a : SourcePortAllocator) (offset : Z) (Ha : ports_ok a)
    (Ho : 0 <= offset < 16384) :
  (Z.of_nat (size (sp_inUse a)) < 16384 ->
   exists j, let port k := sourcePortMin + (offset + k) mod 16384 in
     0 <= j < 16384 /\ in_range (port j) /\ port j ∉ sp_inUse a /\
     (forall k, 0 <= k < j -> port k ∈ sp_inUse a) /\
     AllocatePort (Some offset) a = (Ok (port j), {| a with sp_inUse := {[port j]} ∪ sp_inUse a |}) /\
     ports_ok (AllocatePort (Some offset) a).2) /\
  (16384 <= Z.of_nat (size (sp_inUse a)) -> AllocatePort (Some offset) a = (Err ErrPortExhausted, a)) /\
  AllocatePort None a = (Err (if bool_decide (16384 <= Z.of_nat (size (sp_inUse a)))
                              then ErrPortExhausted else ErrRandom), a) /\
  (forall p, ports_ok (ReleasePort p a) /\ p ∉ sp_inUse (ReleasePort p a)) /\
  (forall p a', AllocatePort (Some offset) a = (Ok p, a') -> ReleasePort p a' = a).
Proof.
  split; [intros Hlt; by apply AllocatePort_free|].
  pose proof Ha as [Hs Hr]. unfold AllocatePort. destruct a as [u span]. cbn [sp_portSpan sp_inUse] in *. subst span.
  set (a := {| sp_inUse := u; sp_portSpan := 16384 |}) in *. assert (Hs : sp_portSpan a = 16384) by done.
  pose proof (probe_spec (Z.to_nat 16384) 0 offset a Hs) as Hp. cbv zeta in Hp.
  set (r := probe (Z.to_nat 16384) 0 offset a) in *. clearbody r.
  split_and!.
  - intros Hge. by rewrite (proj2 (Z.leb_le _ _)) by lia.
  - case_bool_decide as Hge; [by rewrite (proj2 (Z.leb_le _ _)) by lia|].
    by rewrite (proj2 (Z.leb_gt _ _)) by lia.
  - intros p. split; [split; [done|]|]; cbn; set_solver.
  - intros p a'. destruct (16384 <=? _); [done|].
    destruct Hp as [(j & _ & Hf & _ & ->)|[_ ->]]; [|done]. intros [= <- <-].
    unfold ReleasePort. cbn in *. f_equal. set_solver.
Qed.

Lemma port_allocation_exact_witness :
  AllocatePort (Some 5) {| NewSourcePortAllocator with sp_inUse := {[49157; 49158]} |}
  = (Ok 49159, {| NewSourcePortAllocator with sp_inUse := {[49157; 49158; 49159]} |}) /\
  exists j, 0 <= j < 16384 /\ in_range (sourcePortMin + (5 + j) mod 16384).
Proof.
  split; [vm_compute; reflexivity|].
  destruct (port_allocation_exact {| NewSourcePortAllocator with sp_inUse := {[49157; 49158]} |} 5)
    as [H _].
  - split; [done|]. cbn. unfold in_range, sourcePortMin, sourcePortMax. intros p Hp. set_solver by lia.
  - lia.
  - destruct H as (j & Hj & Hr & _); [vm_compute; reflexivity|]. exists j. split; [exact Hj|exact Hr].
Defined.
