(* ===== verification/Receive.v ===== *)
(** * From the network to the manager

    Models the receive paths of [internal/netio]: the listener with its TTL check
    ([listener.go]), the receiver of control packets ([receiver.go]), of tunnelled
    packets ([overlay.go]) and of returned echo packets ([echo_receiver.go]).  The
    receivers know the manager only through an interface, a class here, whose law
    the manager's theorems discharge.  A loop runs over a finite prefix of what
    happens on its socket. *)

From S2P Require Import Prelude Packet Fsm Auth Netip Jitter Session SessionInv SessionProps.
From S2P Require Import Unsolicited Manager ManagerSteps ManagerInv ManagerOps ManagerProps.
From S2P Require Import Overlay Transport.
From stdpp Require Import relations.

Local Open Scope Z_scope.

(** ** Listeners *)

Record ListenerConfig := mkListenerConfig {
  lc_Addr : Addr;
  lc_IfName : string;
  lc_Port : Z;
  lc_MultiHop : bool;
  lc_ReadBufferSize : Z;
  lc_ExpectedTTL : Z;
}.

Record Listener := mkListener {
  ln_conn : LinuxPacketConn;
  ln_multiHop : bool;
  ln_expectedTTL : Z;
}.

Definition createConn (sys : System) (cfg : ListenerConfig) : go netio_error LinuxPacketConn :=
  if lc_MultiHop cfg then NewMultiHopListener sys (lc_Addr cfg) else
  if negb (lc_Port cfg =? 0) && negb (lc_Port cfg =? PortSingleHop)
  then NewGenericListener sys (lc_Addr cfg) (lc_IfName cfg) (lc_Port cfg)
  else NewSingleHopListener sys (lc_Addr cfg) (lc_IfName cfg).

(** [buffer] tells whether the read buffer size can be set. *)
Definition NewListener (sys : System) (buffer : bool) (cfg : ListenerConfig)
    : go netio_error Listener :=
  conn ← createConn sys cfg;
  if (0 <? lc_ReadBufferSize cfg) && negb buffer then Err ErrNetSocket else
  Ok {| ln_conn := conn; ln_multiHop := lc_MultiHop cfg; ln_expectedTTL := lc_ExpectedTTL cfg |}.

Definition ln_validateTTL (meta : NetMeta) (l : Listener) : go netio_error unit :=
  if negb (ln_expectedTTL l =? 0) then ValidateExpectedTTL meta (ln_expectedTTL l)
  else ValidateTTL meta (ln_multiHop l).

(** ** What happens on a socket

    The context is cancelled, or a read returns; [I] is what handling the packet
    draws from the environment. *)
Inductive net_event (I : Type) :=
| Cancelled
| Arrived (r : conn_read) (i : I).
Arguments Cancelled {I}.
Arguments Arrived {I} r i.

Section listener.
Variable ParseSocketControlMessage : list Z -> option (list SocketControlMessage).

(** One read into a buffer of the packet pool. *)
Definition listener_recvOne (r : conn_read) (l : Listener) : go netio_error (list Z * NetMeta) :=
  ReadPacket ParseSocketControlMessage (Z.to_nat MaxPacketSize) r (ln_conn l).

(** [None]: the call is still waiting. *)
Fixpoint Listener_RecvPacket {I} (l : Listener) (evs : list (net_event I))
    : option (go netio_error (list Z * NetMeta * I) * list (net_event I)) :=
  match evs with
  | [] => None
  | Cancelled :: _ => Some (Err ErrCancelled, evs)
  | Arrived r i :: evs =>
      match listener_recvOne r l with
      | Err e => Some (Err e, evs)
      | Panic => Some (Panic, evs)
      | Ok (data, meta) =>
          match ln_validateTTL meta l with
          | Ok _ => Some (Ok (data, meta, i), evs)
          | _ => Listener_RecvPacket l evs
          end
      end
  end.
End listener.

(** ** Demultiplexers *)

(** [netio.Demuxer] and [netio.EchoDemuxer]. *)
Class Demuxer (I M : Type) :=
  demux : ControlPacket -> PacketMeta -> list Z -> I -> M -> go mgr_error unit * M.

Class EchoDemuxer (M : Type) := demux_echo : Z -> M -> go mgr_error unit * M.

#[export] Instance Manager_Demuxer : Demuxer CreateInput Manager := DemuxWithWire.
#[export] Instance Manager_EchoDemuxer : EchoDemuxer Manager := DemuxEcho.

(** What the receivers rely on: a legal packet does not make the demultiplexer
    panic and keeps its invariant. *)
Class DemuxerLaws {I M} (D : Demuxer I M) (ok : I -> Prop) (inv : M -> Prop) :=
  demux_safe : forall pkt meta wire i m, wf_packet pkt -> ok i -> inv m ->
    (demux pkt meta wire i m).1 <> Panic /\ inv (demux pkt meta wire i m).2.

Class EchoDemuxerLaws {M} (D : EchoDemuxer M) (inv : M -> Prop) :=
  demux_echo_safe : forall d m, inv m -> (demux_echo d m).1 <> Panic /\ inv (demux_echo d m).2.

(** ** Receivers *)

Definition convertMeta (nm : NetMeta) : PacketMeta :=
  {| pm_SrcAddr := nm_SrcAddr nm; pm_DstAddr := nm_DstAddr nm; pm_TTL := nm_TTL nm;
     pm_IfName := nm_IfName nm |}.

Section deliver.
Context {I M : Type} {D : Demuxer I M}.

(** Decode and demultiplex; an authenticated packet is decoded again from a copy of
    its bytes, which goes with it.  A refused packet is dropped without error. *)
Definition deliver (raw : list Z) (meta : PacketMeta) (i : I) (m : M) : go packet_error unit * M :=
  match UnmarshalControlPacket raw with
  | Err _ => (Ok tt, m)
  | Panic => (Panic, m)
  | Ok pkt =>
      match pkt_Auth pkt with
      | None => match demux pkt meta [] i m with (Panic, m) => (Panic, m) | (_, m) => (Ok tt, m) end
      | Some _ =>
          let wire := raw in
          match UnmarshalControlPacket wire with
          | Err e => (Err e, m)
          | Panic => (Panic, m)
          | Ok pkt =>
              match demux pkt meta wire i m with (Panic, m) => (Panic, m) | (_, m) => (Ok tt, m) end
          end
      end
  end.
End deliver.

(** How a loop is found: stopped by its context, waiting for input, crashed by a
    panic; [NoFuel] does not happen, see [recvLoop_safe]. *)
Inductive loop_end := Stopped | Waiting | Crashed | NoFuel.

#[export] Instance loop_end_eq_dec : EqDecision loop_end.
Proof. solve_decision. Defined.

Section receivers.
Variable ParseSocketControlMessage : list Z -> option (list SocketControlMessage).
Context {I M : Type} {D : Demuxer I M} {ED : EchoDemuxer M}.

(** One cycle of [Receiver]: whether it failed or panicked, the manager, and what
    is left on the socket. *)
Definition Receiver_recvOne (l : Listener) (evs : list (net_event I)) (m : M)
    : option (go unit unit * M * list (net_event I)) :=
  match Listener_RecvPacket ParseSocketControlMessage l evs with
  | None => None
  | Some (Err _, evs) => Some (Err tt, m, evs)
  | Some (Panic, evs) => Some (Panic, m, evs)
  | Some (Ok (raw, meta, i), evs) =>
      let '(r, m) := deliver raw (convertMeta meta) i m in
      Some (go_wrap (fun _ => tt) r, m, evs)
  end.

Definition EchoReceiver_recvOne (l : Listener) (evs : list (net_event I)) (m : M)
    : option (go unit unit * M * list (net_event I)) :=
  match Listener_RecvPacket ParseSocketControlMessage l evs with
  | None => None
  | Some (Err _, evs) => Some (Err tt, m, evs)
  | Some (Panic, evs) => Some (Panic, m, evs)
  | Some (Ok (raw, meta, i), evs) =>
      match UnmarshalControlPacket raw with
      | Err _ => Some (Ok tt, m, evs)
      | Panic => Some (Panic, m, evs)
      | Ok pkt =>
          if pkt_MyDiscriminator pkt =? 0 then Some (Ok tt, m, evs) else
          match demux_echo (pkt_MyDiscriminator pkt) m with
          | (Panic, m) => Some (Panic, m, evs)
          | (_, m) => Some (Ok tt, m, evs)
          end
      end
  end.

(** The loop both receivers have: until the context is cancelled. *)
Fixpoint recv_loop (recvOne : Listener -> list (net_event I) -> M -> option (go unit unit * M * list (net_event I)))
    (fuel : nat) (l : Listener) (evs : list (net_event I)) (m : M) : loop_end * M :=
  match fuel with
  | O => (NoFuel, m)
  | S fuel =>
      match evs with
      | Cancelled :: _ => (Stopped, m)
      | _ =>
          match recvOne l evs m with
          | None => (Waiting, m)
          | Some (Panic, m, _) => (Crashed, m)
          | Some (_, m, evs) => recv_loop recvOne fuel l evs m
          end
      end
  end.

(** Every cycle that does not end the loop consumes an event. *)
Definition Receiver_recvLoop (l : Listener) (evs : list (net_event I)) (m : M) : loop_end * M :=
  recv_loop Receiver_recvOne (S (length evs)) l evs m.

Definition EchoReceiver_recvLoop (l : Listener) (evs : list (net_event I)) (m : M) : loop_end * M :=
  recv_loop EchoReceiver_recvOne (S (length evs)) l evs m.

(** [Receiver.Run] refuses to run without listeners. *)
Definition Receiver_Run_check (listeners : list Listener) : go netio_error unit :=
  match listeners with [] => Err ErrNoListeners | _ => Ok tt end.
End receivers.

(** ** Tunnels *)

(** The context is cancelled, the connection is closed, or a read returns. *)
Inductive tunnel_event (I : Type) :=
| TunnelCancelled
| TunnelClosed
| TunnelRead (r : udp_read) (i : I).
Arguments TunnelCancelled {I}.
Arguments TunnelClosed {I}.
Arguments TunnelRead {I} r i.

(** The errors of one cycle: of the connection, or of the second decoding. *)
Inductive overlay_recv_error := RecvError (e : overlay_error) | ReparseError (e : packet_error).

Section overlay.
Context {I M C : Type} {D : Demuxer I M} {OC : OverlayConn C}.

(** [OverlaySender.SendPacket]. *)
Definition OverlaySender_SendPacket (written : bool) (buf : list Z) (addr : Addr) (c : C)
    : go overlay_error unit * C := SendEncapsulated written buf addr c.

Definition overlay_meta (ometa : OverlayMeta) : PacketMeta :=
  {| pm_SrcAddr := om_SrcAddr ometa; pm_DstAddr := om_DstAddr ometa; pm_TTL := 255; pm_IfName := "" |}.

Definition Overlay_recvOne (r : udp_read) (i : I) (c : C) (m : M) : go overlay_recv_error unit * M :=
  match RecvDecapsulated r c with
  | Err e => (Err (RecvError e), m)
  | Panic => (Panic, m)
  | Ok (bfdPayload, ometa) =>
      let '(r, m) := deliver bfdPayload (overlay_meta ometa) i m in
      (go_wrap ReparseError r, m)
  end.

(** Any error but that of a closed connection is logged. *)
Fixpoint Overlay_Run (evs : list (tunnel_event I)) (c : C) (m : M) : loop_end * M :=
  match evs with
  | [] => (Waiting, m)
  | TunnelCancelled :: _ => (Stopped, m)
  | TunnelClosed :: evs => Overlay_Run evs (conn_Close c) m
  | TunnelRead r i :: evs =>
      match Overlay_recvOne r i c m with
      | (Panic, m) => (Crashed, m)
      | (Err (RecvError ErrOverlayRecvClosed), m) => (Stopped, m)
      | (_, m) => Overlay_Run evs c m
      end
  end.
End overlay.

(** * The manager keeps what the receivers rely on *)

Definition manager_ok (m : Manager) : Prop := exists ds n, mgr_reachable (mkWorld m ds n).

#[export] Instance Manager_DemuxerLaws : DemuxerLaws Manager_Demuxer input_ok manager_ok.
Proof.
  intros pkt meta wire i m W Hi (ds & n & R). destruct (demux pkt meta wire i m) as [r m'] eqn:E.
  destruct (DemuxWithWire_steps pkt meta wire i m r m' ds n W Hi) as (Hr & n' & Hs); [|exact E|].
  - intros us. apply (reachable_policy _ us (mgr_reachable_inv _ R)).
  - split; [done|]. exists ds, n'. by eapply reachable_steps.
Qed.

#[export] Instance Manager_EchoDemuxerLaws : EchoDemuxerLaws Manager_EchoDemuxer manager_ok.
Proof.
  intros d m (ds & n & R). unfold demux_echo, Manager_EchoDemuxer, DemuxEcho.
  destruct (m_echoSessions m !! d) as [l|]; cbn [fst snd].
  - split; [done|]. exists ds, n. eapply reachable_steps; [exact R|]. apply rtc_once, ms_echo_call.
  - split; [done|]. by exists ds, n.
Qed.

(** * Safety of the receive paths *)

Section safety.
Context {I M : Type} {D : Demuxer I M} {ED : EchoDemuxer M} {ok : I -> Prop} {inv : M -> Prop}.
Context {L : DemuxerLaws D ok inv} {EL : EchoDemuxerLaws ED inv}.

Lemma deliver_safe raw meta i m :
  bytes_ok raw -> ok i -> inv m -> (deliver raw meta i m).1 <> Panic /\ inv (deliver raw meta i m).2.
Proof.
  intros Hb Hi Hm. unfold deliver. destruct (UnmarshalControlPacket raw) as [pkt|e|] eqn:E; [|done|].
  2:{ by apply unmarshal_no_panic in E. }
  pose proof (unmarshal_sound raw pkt Hb E) as (W & _).
  assert (Hd : forall wire, (match demux pkt meta wire i m with (Panic, m) => (Panic, m) | (_, m) => (Ok tt, m) end
                             : go packet_error unit * M).1 <> Panic /\
                            inv (match demux pkt meta wire i m with (Panic, m) => (Panic, m) | (_, m) => (Ok tt, m) end
                                 : go packet_error unit * M).2).
  { intros wire. destruct (demux_safe pkt meta wire i m W Hi Hm) as [Hp Hinv].
    destruct (demux pkt meta wire i m) as [[|e|] m']; done. }
  destruct (pkt_Auth pkt); apply Hd.
Qed.

(** Received bytes are bytes, and the environment's inputs are in range. *)
Definition event_ok (ev : net_event I) : Prop :=
  match ev with
  | Cancelled => True
  | Arrived ReadFailed i => ok i
  | Arrived (Datagram data _ _) i => bytes_ok data /\ ok i
  end.

Variable P : list Z -> option (list SocketControlMessage).

(** What the listener returns, and what it leaves. *)
Lemma RecvPacket_cases l evs :
  Forall event_ok evs ->
  match Listener_RecvPacket P l evs with
  | None => True
  | Some (Ok (data, meta, i), evs') =>
      bytes_ok data /\ ok i /\ (length evs' < length evs)%nat /\ Forall event_ok evs' /\
      ln_validateTTL meta l = Ok tt
  | Some (Err _, evs') =>
      ((exists evs2, evs' = Cancelled :: evs2) \/ (length evs' < length evs)%nat) /\ Forall event_ok evs' /\
      (length evs' <= length evs)%nat
  | Some (Panic, _) => False
  end.
Proof.
  induction evs as [|ev evs IH]; intros Hall; cbn [Listener_RecvPacket]; [done|].
  inversion_clear Hall as [|? ? Hev Hevs]. destruct ev as [|r i].
  { split_and!; [left; eauto|by constructor|done]. }
  unfold listener_recvOne, ReadPacket. destruct r as [|data src oob]; cbn [event_ok] in Hev.
  { split_and!; [right; cbn; lia|done|cbn; lia]. }
  destruct Hev as [Hb Hi]. destruct (ln_validateTTL _ l) as [[]|e|] eqn:E.
  - split_and!; [auto with bfd|done|cbn; lia|done|done].
  - specialize (IH Hevs). destruct (Listener_RecvPacket P l evs) as [[[[[d m] j]|e'|] evs']|]; [|cbn|done..].
    + destruct IH as (? & ? & ? & ? & ?). split_and!; try done. cbn. lia.
    + destruct IH as (H1 & ? & ?). split_and!; [destruct H1; [by left|right; lia]|done|lia].
  - exfalso. revert E. unfold ln_validateTTL, ValidateExpectedTTL, ValidateTTL. by repeat case_match.
Qed.

(** A cycle that keeps the invariant and consumes an event, unless the context is
    cancelled. *)
Definition cycle_ok (one : Listener -> list (net_event I) -> M -> option (go unit unit * M * list (net_event I))) : Prop :=
  forall l evs m, Forall event_ok evs -> inv m ->
  match one l evs m with
  | None => True
  | Some (r, m', evs') =>
      r <> Panic /\ inv m' /\ Forall event_ok evs' /\
      ((exists evs2, evs' = Cancelled :: evs2) \/ (length evs' < length evs)%nat) /\
      (length evs' <= length evs)%nat
  end.

Lemma Receiver_cycle_ok : cycle_ok (Receiver_recvOne P).
Proof.
  intros l evs m Hall Hm. unfold Receiver_recvOne. pose proof (RecvPacket_cases l evs Hall) as Hc.
  destruct (Listener_RecvPacket P l evs) as [[[[[raw meta] i]|e|] evs']|]; [| |done..].
  - destruct Hc as (Hb & Hi & Hlt & Hevs & _).
    destruct (deliver_safe raw (convertMeta meta) i m Hb Hi Hm) as [Hp Hinv].
    destruct (deliver raw (convertMeta meta) i m) as [r m']. cbn [fst snd] in *.
    split_and!; [by destruct r|done|done|by right|lia].
  - destruct Hc as (H1 & H2 & H3). done.
Qed.

Lemma EchoReceiver_cycle_ok : cycle_ok (EchoReceiver_recvOne P).
Proof.
  intros l evs m Hall Hm. unfold EchoReceiver_recvOne. pose proof (RecvPacket_cases l evs Hall) as Hc.
  destruct (Listener_RecvPacket P l evs) as [[[[[raw meta] i]|e|] evs']|]; [| |done..].
  - destruct Hc as (Hb & Hi & Hlt & Hevs & _).
    destruct (UnmarshalControlPacket raw) as [pkt|e|] eqn:E; [| |by apply unmarshal_no_panic in E].
    + destruct (_ =? 0); [split_and!; done || lia || by right|].
      destruct (demux_echo_safe (pkt_MyDiscriminator pkt) m Hm) as [Hp Hinv].
      destruct (demux_echo _ m) as [[|e|] m']; [split_and!; done || lia || by right..|done].
    + split_and!; done || lia || by right.
  - destruct Hc as (H1 & H2 & H3). done.
Qed.

(** The loop ends only by cancellation, never by a panic, and has fuel enough. *)
Lemma recv_loop_safe one fuel l evs m :
  cycle_ok one -> Forall event_ok evs -> inv m -> (length evs < fuel)%nat ->
  let '(e, m') := recv_loop one fuel l evs m in
  inv m' /\ (e = Stopped \/ e = Waiting).
Proof.
  intros Hone. revert evs m. induction fuel as [|fuel IH]; intros evs m Hall Hm Hf; [lia|]. cbn [recv_loop].
  pose proof (Hone l evs m Hall Hm) as Hc.
  destruct (one l evs m) as [[[r m'] evs']|].
  2:{ destruct evs as [|[|] ?]; auto. }
  destruct Hc as (Hr & Hinv & Hall' & Hlt & Hle).
  assert (Hnext : let '(e, m2) := recv_loop one fuel l evs' m' in inv m2 /\ (e = Stopped \/ e = Waiting)).
  { destruct Hlt as [[evs2 ->]|Hlt]; [|apply IH; [done|done|lia]].
    destruct fuel; [cbn in Hle; lia|]. cbn. auto. }
  destruct evs as [|[|] ?]; [destruct r; done| |destruct r; done]. auto.
Qed.

(** ** Tunnels *)

Context {C : Type} {OC : OverlayConn C} {OL : OverlayLaws C}.

Definition tunnel_event_ok (ev : tunnel_event I) : Prop :=
  match ev with
  | TunnelRead r i => ok i /\ match r with Some (d, _) => bytes_ok d | None => True end
  | _ => True
  end.

Lemma Overlay_recvOne_safe r i c m :
  tunnel_event_ok (TunnelRead r i) -> inv m ->
  (Overlay_recvOne r i c m).1 <> Panic /\ inv (Overlay_recvOne r i c m).2.
Proof.
  intros [Hi Hr] Hm. unfold Overlay_recvOne. destruct r as [[d ip]|]; [|by rewrite recv_failed].
  destruct (RecvDecapsulated _ c) as [[payload ometa]|e|] eqn:E; [|done|by apply recv_no_panic in E].
  destruct (recv_payload c d ip payload ometa Hr E) as (Hb & _).
  destruct (deliver_safe payload (overlay_meta ometa) i m Hb Hi Hm) as [Hp Hinv].
  destruct (deliver payload _ i m) as [r m']. cbn [fst snd] in *. split; [by destruct r|done].
Qed.

Lemma Overlay_Run_safe evs c m :
  Forall tunnel_event_ok evs -> inv m ->
  let '(e, m') := Overlay_Run evs c m in inv m' /\ (e = Stopped \/ e = Waiting).
Proof.
  revert c m. induction evs as [|ev evs IH]; intros c m Hall Hm; cbn [Overlay_Run]; [auto|].
  inversion_clear Hall as [|? ? Hev Hevs]. destruct ev as [| |r i]; [by auto|by apply IH|].
  destruct (Overlay_recvOne_safe r i c m Hev Hm) as [Hp Hinv].
  destruct (Overlay_recvOne r i c m) as [[|e|] m']; cbn [fst snd] in *; [by apply IH| |done].
  destruct e as [[]|]; try (by apply IH). auto.
Qed.
End safety.

(** C17: nothing that arrives from the network can crash the daemon.  From every
    reachable manager, with any bytes as datagrams, any sender addresses, any
    ancillary data and any failures of reads, the loops of the control receiver,
    the echo receiver and the tunnel receivers end only by cancellation (or the
    closing of the tunnel) and never by a panic, and leave a reachable manager. *)
Theorem network_input_is_safe (P : list Z -> option (list SocketControlMessage))
    (m : Manager) (R : manager_ok m) (l : Listener) (evs : list (net_event CreateInput))
    (tevs : list (tunnel_event CreateInput)) (vx : VXLANConn) (gn : GeneveConn)
    (He : Forall (event_ok (ok := input_ok)) evs) (Ht : Forall (tunnel_event_ok (ok := input_ok)) tevs) :
  (let '(e, m') := Receiver_recvLoop P l evs m in manager_ok m' /\ (e = Stopped \/ e = Waiting)) /\
  (let '(e, m') := EchoReceiver_recvLoop P l evs m in manager_ok m' /\ (e = Stopped \/ e = Waiting)) /\
  (let '(e, m') := Overlay_Run tevs vx m in manager_ok m' /\ (e = Stopped \/ e = Waiting)) /\
  (let '(e, m') := Overlay_Run tevs gn m in manager_ok m' /\ (e = Stopped \/ e = Waiting)).
Proof.
  split_and!.
  - apply (recv_loop_safe (ok := input_ok) (inv := manager_ok)); [apply Receiver_cycle_ok|done|done|lia].
  - apply (recv_loop_safe (ok := input_ok) (inv := manager_ok)); [apply EchoReceiver_cycle_ok|done|done|lia].
  - by apply (Overlay_Run_safe (ok := input_ok) (inv := manager_ok)).
  - by apply (Overlay_Run_safe (ok := input_ok) (inv := manager_ok)).
Qed.

(** The socket messages of a datagram received over IPv4 with a given TTL. *)
Definition sample_scm (oob : list Z) : option (list SocketControlMessage) :=
  match oob with
  | [ttl] => Some [mkSocketControlMessage IPPROTO_IP IP_TTL [ttl; 0; 0; 0];
                   mkSocketControlMessage IPPROTO_IP IP_PKTINFO [2; 0; 0; 0; 10; 0; 0; 1; 10; 0; 0; 1]]
  | _ => None
  end.

Definition sample_conn : LinuxPacketConn :=
  {| pc_localAddr := IPv4 0x0a000001; pc_localPort := PortSingleHop; pc_ifName := "eth0";
     pc_multiHop := false; pc_options := setSocketOpts "eth0" false false;
     pc_closed := false; pc_sent := [] |}.
Definition sample_listener : Listener :=
  {| ln_conn := sample_conn; ln_multiHop := false; ln_expectedTTL := 0 |}.

(** Garbage, a packet of an unknown peer from too far away, the same packet from a
    neighbour, a failed read, the end. *)
Definition sample_events : list (net_event CreateInput) :=
  [Arrived (Datagram [1; 2; 3] (Some [10; 0; 0; 9]) [255]) (sample_input 8);
   Arrived (Datagram (wire (sample_down 77)) (Some [10; 0; 0; 9]) [64]) (sample_input 8);
   Arrived (Datagram (wire (sample_down 77)) (Some [10; 0; 0; 9]) [255]) (sample_input 8);
   Arrived ReadFailed (sample_input 8); Cancelled].

Lemma sample_events_ok : Forall (event_ok (ok := input_ok)) sample_events.
Proof.
  assert (input_ok (sample_input 8)) by (apply sample_input_ok; unfold is_byte; lia).
  repeat (apply Forall_cons_2; [done || (split; [apply (bool_decide_unpack _); vm_compute; done|done])|]).
  apply Forall_nil_2.
Qed.

Lemma network_input_is_safe_witness :
  (Receiver_recvLoop sample_scm sample_listener sample_events sample_manager).1 = Stopped /\
  size (m_sessions (Receiver_recvLoop sample_scm sample_listener sample_events sample_manager).2) = 2%nat /\
  manager_ok (Receiver_recvLoop sample_scm sample_listener sample_events sample_manager).2.
Proof.
  split; [vm_compute; reflexivity|]. split; [vm_compute; reflexivity|].
  destruct (network_input_is_safe sample_scm sample_manager (ex_intro _ [] (ex_intro _ 0%nat sample_world_reachable))
              sample_listener sample_events [] sample_vxlan sample_geneve sample_events_ok (Forall_nil_2 _)) as [H _].
  destruct (Receiver_recvLoop sample_scm sample_listener sample_events sample_manager) as [e m']. apply H.
Defined.

(** * GTSM *)

Section gtsm.
Variable P : list Z -> option (list SocketControlMessage).
Context {I M : Type} {D : Demuxer I M} {ED : EchoDemuxer M}.

(** A datagram whose TTL the listener accepts, or no datagram. *)
Definition heard (l : Listener) (ev : net_event I) : bool :=
  match ev with
  | Arrived (Datagram data src oob) _ =>
      match ln_validateTTL {| (parseMeta P src oob) with nm_IfName := pc_ifName (ln_conn l) |} l with
      | Ok _ => true
      | _ => false
      end
  | _ => true
  end.

Abbreviation hears l := (filter (fun ev => heard l ev = true)).

Lemma RecvPacket_heard l (evs : list (net_event I)) :
  Listener_RecvPacket P l (hears l evs)
  = (fun re => (re.1, hears l re.2)) <$> Listener_RecvPacket P l evs.
Proof.
  induction evs as [|ev evs IH]; [done|]. rewrite filter_cons. cbn [Listener_RecvPacket].
  destruct (decide (heard l ev = true)) as [Hh|Hh].
  - destruct ev as [|r i]; cbn [Listener_RecvPacket].
    { change (Some (@Err _ (list Z * NetMeta * I) ErrCancelled, @Cancelled I :: hears l evs)
              = Some (Err ErrCancelled, hears l (Cancelled :: evs))).
      by rewrite filter_cons, decide_True. }
    unfold listener_recvOne, ReadPacket. destruct r as [|data src oob]; [done|].
    cbn [heard] in Hh. by destruct (ln_validateTTL _ l).
  - destruct ev as [|[|data src oob] i]; cbn [heard] in Hh; [done|done|].
    rewrite IH. unfold listener_recvOne, ReadPacket. by destruct (ln_validateTTL _ l).
Qed.

(** The cycles that use the socket only through the listener. *)
Record listener_cycle (one : Listener -> list (net_event I) -> M -> option (go unit unit * M * list (net_event I))) : Prop := {
  lc_heard : forall l evs m, one l (hears l evs) m = (fun x => (x.1, hears l x.2)) <$> one l evs m;
  lc_shrinks : forall l evs m r m' evs', one l evs m = Some (r, m', evs') ->
    (length evs' <= length evs)%nat /\
    ((exists evs2, evs' = Cancelled :: evs2) \/ (length evs' < length evs)%nat);
  lc_cancelled : forall l evs m, one l (Cancelled :: evs) m = Some (Err tt, m, Cancelled :: evs);
}.

Lemma RecvPacket_shrinks l (evs : list (net_event I)) r evs' :
  Listener_RecvPacket P l evs = Some (r, evs') ->
  (length evs' <= length evs)%nat /\
  ((exists evs2, evs' = Cancelled :: evs2) \/ (length evs' < length evs)%nat).
Proof.
  induction evs as [|ev evs IH]; cbn [Listener_RecvPacket]; [done|].
  destruct ev as [|r0 i]; [intros [= <- <-]; eauto|].
  unfold listener_recvOne, ReadPacket. destruct r0 as [|data src oob]; [intros [= <- <-]; cbn; lia|].
  destruct (ln_validateTTL _ l); [intros [= <- <-]; cbn; lia|..];
    (intros H; destruct (IH H) as [? [?|?]]; cbn; split; auto with lia).
Qed.

Lemma Receiver_listener_cycle : listener_cycle (Receiver_recvOne P).
Proof.
  split; unfold Receiver_recvOne; [intros l evs m|intros l evs m r m' evs' H|done].
  - rewrite RecvPacket_heard. destruct (Listener_RecvPacket P l evs) as [[[[[raw meta] i]|e|] evs']|]; cbn; try done.
    by destruct (deliver _ _ _ _).
  - pose proof (RecvPacket_shrinks l evs) as Hs. destruct (Listener_RecvPacket P l evs) as [[[[[raw meta] i]|e|] evs2]|];
      [destruct (deliver _ _ _ _)|..]; simplify_eq; by eapply Hs.
Qed.

Lemma EchoReceiver_listener_cycle : listener_cycle (EchoReceiver_recvOne P).
Proof.
  split; unfold EchoReceiver_recvOne; [intros l evs m|intros l evs m r m' evs' H|done].
  - rewrite RecvPacket_heard. destruct (Listener_RecvPacket P l evs) as [[[[[raw meta] i]|e|] evs']|]; cbn; try done.
    destruct (UnmarshalControlPacket raw); try done. destruct (_ =? 0); [done|].
    by destruct (demux_echo _ _) as [[| |] ?].
  - pose proof (RecvPacket_shrinks l evs) as Hs. destruct (Listener_RecvPacket P l evs) as [[[[[raw meta] i]|e|] evs2]|];
      [destruct (UnmarshalControlPacket raw); [destruct (_ =? 0); [|destruct (demux_echo _ _) as [[| |] ?]]|..]|..];
      simplify_eq; by eapply Hs.
Qed.

Lemma recv_loop_step one f l evs m :
  listener_cycle one -> (length evs < S f)%nat ->
  recv_loop one (S f) l evs m =
  match one l evs m with
  | None => (Waiting, m)
  | Some (Panic, m, _) => (Crashed, m)
  | Some (_, m, evs) => recv_loop one f l evs m
  end.
Proof.
  intros Hone Hf. destruct evs as [|[|r i] evs]; [done| |done].
  rewrite (lc_cancelled one Hone). destruct f; [cbn in Hf; lia|]. done.
Qed.

Lemma recv_loop_heard one l evs m f1 f2 :
  listener_cycle one -> (length evs < f1)%nat -> (length (hears l evs) < f2)%nat ->
  recv_loop one f1 l evs m = recv_loop one f2 l (hears l evs) m.
Proof.
  intros Hone. revert evs m f2. induction f1 as [|f1 IH]; intros evs m f2 H1 H2; [lia|].
  destruct f2 as [|f2]; [lia|]. rewrite !recv_loop_step by done. rewrite (lc_heard one Hone).
  destruct (one l evs m) as [[[r m'] evs']|] eqn:E; cbn; [|done].
  assert (recv_loop one f1 l evs' m' = recv_loop one f2 l (hears l evs') m') as ->; [|by destruct r].
  assert (E' : one l (hears l evs) m = Some (r, m', hears l evs')) by (by rewrite (lc_heard one Hone), E).
  destruct (lc_shrinks one Hone _ _ _ _ _ _ E) as [Hle [[evs2 ->]|Hlt]].
  { rewrite filter_cons, decide_True by done. apply (lc_shrinks one Hone) in E' as [Hle' _].
    rewrite filter_cons, decide_True in Hle' by done. cbn in Hle, Hle'.
    destruct f1, f2; [lia..|]. done. }
  destruct (lc_shrinks one Hone _ _ _ _ _ _ E') as [Hle' [[evs2 Hc]|Hlt']]; [|apply IH; lia].
  rewrite (IH evs' m' (S f2)) by lia. rewrite Hc in Hle' |- *. destruct f2; [cbn in Hle'; lia|]. done.
Qed.
End gtsm.

(** The TTL a listener of a configuration requires. *)
Definition ttl_accepted (cfg : ListenerConfig) (ttl : Z) : Prop :=
  if lc_ExpectedTTL cfg =? 0
  then if lc_MultiHop cfg then 254 <= ttl else ttl = 255
  else ttl = lc_ExpectedTTL cfg.

(** C19: the generalized TTL security mechanism.  On every listener the datagrams
    whose TTL is not the required one (255 on a single hop, at least 254 on
    several, the configured one for echo) have no effect at all: the receive loops
    end as they do when these datagrams are left out of what arrives.  Every
    sender's socket sends with TTL or hop limit 255. *)
Theorem gtsm_drops_strangers (P : list Z -> option (list SocketControlMessage)) (sys : System)
    (buffer : bool) (cfg : ListenerConfig) (l : Listener) (H : NewListener sys buffer cfg = Ok l)
    (evs : list (net_event CreateInput)) (m : Manager) :
  (forall data src oob (i : CreateInput),
     heard P l (Arrived (Datagram data src oob) i) = true <-> ttl_accepted cfg (nm_TTL (parseMeta P src oob))) /\
  Receiver_recvLoop P l evs m = Receiver_recvLoop P l (filter (fun ev => heard P l ev = true) evs) m /\
  EchoReceiver_recvLoop P l evs m = EchoReceiver_recvLoop P l (filter (fun ev => heard P l ev = true) evs) m /\
  (forall b a port mh opts s, NewUDPSender sys b a port mh opts = Ok s ->
     (if is_ipv6 a then SO_IPV6_UNICAST_HOPS 255 else SO_IP_TTL 255) ∈ us_options s).
Proof.
  split_and!.
  - intros data src oob i. unfold NewListener in H. apply go_bind_Ok in H as (c & _ & H).
    destruct (_ && _); [done|]. injection H as <-.
    unfold heard, ttl_accepted, ln_validateTTL, ValidateExpectedTTL, ValidateTTL, ttlMultiHopMin, ttlRequired.
    cbn [ln_expectedTTL ln_multiHop ln_conn nm_TTL].
    destruct (lc_ExpectedTTL cfg =? 0), (lc_MultiHop cfg); cbn [negb];
      repeat match goal with |- context [?x <? ?y] => destruct (Z.ltb_spec x y)
                           | |- context [?x =? ?y] => destruct (Z.eqb_spec x y) end; cbn [negb]; naive_solver lia.
  - apply recv_loop_heard; [apply Receiver_listener_cycle|lia..].
  - apply recv_loop_heard; [apply EchoReceiver_listener_cycle|lia..].
  - intros b a port mh opts s Hs. unfold NewUDPSender in Hs. cbv zeta in Hs.
    apply go_bind_Ok in Hs as (o & Ho & Hs). apply open_socket_ok in Ho as ->. destruct (_ && _); [done|].
    injection Hs as <-. cbn [us_options]. unfold setSenderSockOpts, setSenderOptsIPv6, setSenderOptsIPv4, ttlRequired.
    destruct (is_ipv6 a); set_solver.
Qed.

Definition sample_system : System := {| sys_setsockopt := fun _ => true; sys_bind := true |}.
Definition sample_listener_cfg : ListenerConfig :=
  {| lc_Addr := IPv4 0x0a000001; lc_IfName := "eth0"; lc_Port := PortSingleHop; lc_MultiHop := false;
     lc_ReadBufferSize := 0; lc_ExpectedTTL := 0 |}.

Lemma gtsm_drops_strangers_witness :
  length (filter (fun ev => heard sample_scm sample_listener ev = true) sample_events) = 4%nat /\
  Receiver_recvLoop sample_scm sample_listener sample_events sample_manager
  = Receiver_recvLoop sample_scm sample_listener
      (filter (fun ev => heard sample_scm sample_listener ev = true) sample_events) sample_manager.
Proof.
  split; [vm_compute; reflexivity|].
  destruct (gtsm_drops_strangers sample_scm sample_system true sample_listener_cfg sample_listener eq_refl
              sample_events sample_manager) as (_ & H & _). exact H.
Defined.

(** * Sessions over tunnels *)

(** The demultiplexer hands an addressed packet to its session. *)
Lemma demux_addressed m pkt meta wire ci l en :
  manager_ok m -> registered m l en -> addressed pkt meta en ->
  DemuxWithWire pkt meta wire ci m = (Ok tt, on_session l (RecvPacket pkt wire) m).
Proof.
  intros (ds & n & R) HR Ha. destruct (mgr_reachable_inv _ R) as [M _ _ _ _].
  pose proof (proj1 (demux_lookup m pkt meta l en M HR) Ha) as Hl.
  unfold DemuxWithWire, demuxByDiscr, demuxByPeer. destruct (negb _); by rewrite Hl.
Qed.

Lemma deliver_wire {I M} {D : Demuxer I M} pkt pad meta (i : I) (m : M) :
  wf_packet pkt ->
  let pkt' := {| pkt with pkt_Length := total_len pkt |} in
  let wire' := match pkt_Auth pkt with Some _ => wire pkt ++ pad | None => [] end in
  deliver (wire pkt ++ pad) meta i m =
  match demux pkt' meta wire' i m with (Panic, m) => (Panic, m) | (_, m) => (Ok tt, m) end.
Proof.
  intros W. cbv zeta. unfold deliver. rewrite UnmarshalControlPacket_wire by done.
  cbn [pkt_Auth]. by destruct (pkt_Auth pkt).
Qed.

(** C18: a legal control packet, padded or not, that a session sends through one end
    of a tunnel arrives at the other: the sender makes one datagram for the peer's
    endpoint, and when the receiver at the other end reads it, exactly the session
    addressed by the packet (by its discriminator, or by the two endpoints and no
    interface) gets it, decoded to what was sent and with its bytes if it is
    authenticated.  This holds for every tunnel with the laws of [OverlayLaws]. *)
Theorem tunnel_carries_packets (C : Type) (OC : OverlayConn C) (OL : OverlayLaws C) (c c' : C)
    (pkt : ControlPacket) (pad : list Z) (m : Manager) (ci : CreateInput) (l : nat) (en : sessionEntry)
    (Hc : conn_pair c c') (W : wf_packet pkt) (Hb : bytes_ok (wire pkt ++ pad))
    (Hl : zlen (wire pkt ++ pad) <= 8950) (R : manager_ok m) (HR : registered m l en)
    (Ha : addressed pkt {| pm_SrcAddr := conn_localAddr c; pm_DstAddr := conn_localAddr c';
                           pm_TTL := 255; pm_IfName := "" |} en) :
  exists d c2,
    OverlaySender_SendPacket true (wire pkt ++ pad) (conn_localAddr c') c = (Ok tt, c2) /\
    conn_sent c2 = conn_sent c ++ [d] /\ sd_dst d = conn_localAddr c' /\
    Overlay_recvOne (Some (sd_data d, Addr_As4 (conn_localAddr c))) ci c' m
    = (Ok tt, on_session l (RecvPacket {| pkt with pkt_Length := total_len pkt |}
                              (match pkt_Auth pkt with Some _ => wire pkt ++ pad | None => [] end)) m).
Proof.
  destruct (send_recv c c' (wire pkt ++ pad) Hc Hb Hl) as (d & c2 & Hs & Hsent & Hdst & _ & Hr).
  exists d, c2. split_and!; [exact Hs|done|done|]. unfold Overlay_recvOne. rewrite Hr.
  unfold overlay_meta. cbn [om_SrcAddr om_DstAddr]. rewrite deliver_wire by done.
  unfold demux, Manager_Demuxer. erewrite demux_addressed; [reflexivity|exact R|exact HR|exact Ha].
Qed.

(** Two VXLAN endpoints, the second with a session for the first. *)
Definition tunnel_a : VXLANConn :=
  {| vc_managementVNI := 5000; vc_localAddr := IPv4 0x0a000002; vc_srcPort := 49152;
     vc_closed := false; vc_sent := [] |}.

Definition tunnel_cfg : SessionConfig :=
  {| (sample_cfg 3) with cfg_PeerAddr := IPv4 0x0a000002; cfg_LocalAddr := IPv4 0x0a000001;
                         cfg_Interface := ""%string |}.
Definition tunnel_manager : Manager := (CreateSession tunnel_cfg (sample_input 5) sample_empty).2.

Lemma tunnel_manager_ok : manager_ok tunnel_manager.
Proof.
  exists [], 0%nat. eapply reachable_steps; [apply sample_empty_reachable|].
  apply (CreateSession_steps tunnel_cfg (sample_input 5) _ 0).
  - apply (sample_cfg_ok 3). unfold is_u8. lia.
  - apply sample_input_ok. unfold is_byte. lia.
  - vm_compute. reflexivity.
Qed.

Lemma tunnel_carries_packets_witness :
  exists d c2,
    OverlaySender_SendPacket true (wire (sample_down 77) ++ []) (IPv4 0x0a000001) tunnel_a = (Ok tt, c2) /\
    conn_sent c2 = [d] /\
    Overlay_recvOne (Some (sd_data d, [10; 0; 0; 2])) (sample_input 9) sample_vxlan tunnel_manager
    = (Ok tt, on_session 0 (RecvPacket (sample_down 77) []) tunnel_manager).
Proof.
  assert (HR : exists en, registered tunnel_manager 0 en /\
                 addressed (sample_down 77) {| pm_SrcAddr := IPv4 0x0a000002; pm_DstAddr := IPv4 0x0a000001;
                                               pm_TTL := 255; pm_IfName := "" |} en).
  { eexists. split; [split; vm_compute; reflexivity|]. vm_compute. reflexivity. }
  destruct HR as (en & HR & Ha).
  destruct (tunnel_carries_packets VXLANConn _ _ tunnel_a sample_vxlan (sample_down 77) [] tunnel_manager
              (sample_input 9) 0 en) as (d & c2 & Hs & Hsent & _ & Hr).
  - split_and!; try done; vm_compute; done.
  - apply sample_down_wf. lia.
  - apply (bool_decide_unpack _). vm_compute. done.
  - vm_compute. done.
  - apply tunnel_manager_ok.
  - exact HR.
  - exact Ha.
  - exists d, c2. split; [exact Hs|]. split; [exact Hsent|]. exact Hr.
Defined.

(** * Differences from the documentation *)

(** The zone of a sender's address is lost, so a session whose peer has one is not
    found by a packet that names no discriminator. *)
Lemma source_has_no_zone P src oob : Addr_hasZone (nm_SrcAddr (parseMeta P src oob)) = false.
Proof.
  assert (Hm : forall msgs meta, nm_SrcAddr (parseControlMessages msgs meta) = nm_SrcAddr meta).
  { induction msgs as [|x msgs IH]; intros meta; [done|]. cbn. rewrite IH.
    unfold parse_message, parseTTLMessage, parsePktInfoMessage, parseHopLimitMessage, parsePktInfo6Message.
    by repeat case_match. }
  assert (Hs : forall ip a, AddrFromSlice ip = Some a -> Addr_hasZone (Addr_Unmap a) = false).
  { intros ip a. unfold AddrFromSlice, AddrFrom4, Addr_Unmap. repeat case_match; intros; simplify_eq; done. }
  unfold parseMeta. destruct (P oob) as [msgs|]; [rewrite Hm|];
    (destruct src as [ip|]; [|done]; destruct (AddrFromSlice ip) as [a|] eqn:E; [by apply (Hs ip)|done]).
Qed.

Definition zoned_peer : Addr := IPv6 0xfe800000000000000000000000000002 "eth0".
Definition zoned_cfg : SessionConfig :=
  {| (sample_cfg 3) with cfg_PeerAddr := zoned_peer;
                         cfg_LocalAddr := IPv6 0xfe800000000000000000000000000001 "eth0" |}.

(** The messages of a datagram over IPv6, to [fe80::1] on interface 2. *)
Definition sample_scm6 (oob : list Z) : option (list SocketControlMessage) :=
  Some [mkSocketControlMessage IPPROTO_IPV6 IPV6_HOPLIMIT [255; 0; 0; 0];
        mkSocketControlMessage IPPROTO_IPV6 IPV6_PKTINFO
          ([0xfe; 0x80; 0; 0; 0; 0; 0; 0; 0; 0; 0; 0; 0; 0; 0; 1] ++ [2; 0; 0; 0])].

Definition queued (m : Manager) (l : nat) : option nat :=
  (fun en => length (s_recvCh (se_session en))) <$> m_entries m !! l.

Example link_local_peer_not_heard :
  let m := (CreateSession zoned_cfg (sample_input 5) (NewManager None false false)).2 in
  let r := Receiver_recvLoop sample_scm6 sample_listener
    [Arrived (Datagram (wire (sample_down 77))
                (Some [0xfe; 0x80; 0; 0; 0; 0; 0; 0; 0; 0; 0; 0; 0; 0; 0; 2]) []) (sample_input 6)] m in
  size (m_sessions m) = 1%nat /\ r.1 = Waiting /\ queued r.2 0 = Some 0%nat.
Proof. vm_compute. repeat split; reflexivity. Qed.

(** The TTL of the inner packet is not looked at: a tunnelled packet with inner
    TTL 1 reaches its session as one with TTL 255. *)
Example inner_ttl_not_checked :
  let d := <[30%nat := 1]> (wire_vxlan 5000 ++ wire_inner (wire (sample_down 77)) 0x0a000002 0x0a000001 49152) in
  let r := Overlay_recvOne (Some (d, [10; 0; 0; 2])) (sample_input 9) sample_vxlan tunnel_manager in
  r.1 = Ok tt /\ queued r.2 0 = Some 1%nat.
Proof. vm_compute. split; reflexivity. Qed.
