(* ===== verification/Peers.v ===== *)
(** * Two managers facing each other

    From the transmission timer of a session of one daemon to the state machine of its
    peer's session in the other: the turn of the sender's goroutine, the bytes it hands
    to the network, the receive path of the other daemon ([receiver.go]: decoding and
    demultiplexing), and the turn of the receiving goroutine. *)

From stdpp Require Import strings relations.
From S2P Require Import Prelude Packet Fsm Auth Netip Jitter Session SessionInv SessionSteps SessionProps SessionFrame.
From S2P Require Import Discriminator Micro Unsolicited Echo Manager ManagerSteps ManagerInv ManagerOps ManagerProps Overlay.
From S2P Require Import Transport Receive.

Local Open Scope Z_scope.

Definition running (m : Manager) (l : nat) : option Sys :=
  en ← m_entries m !! l; match se_thread en with Running y => Some y | _ => None end.

(** A datagram of session [la] of the first manager reaches session [lb] of the second
    with the metadata [meta]; the environments are those of the two turns. *)
Inductive hop (la lb : nat) (meta : PacketMeta) : World * World -> World * World -> Prop :=
| hop_carried ea eb ci ma ma' da na y bytes mb mb1 mb2 db nb :
    session_turn la CaseTx ea ma = Some (Some ma') ->
    running ma' la = Some y -> last (sent y) = Some (bytes, true) ->
    deliver bytes meta ci mb = (Ok tt, mb1) ->
    session_turn lb CaseRecv eb mb1 = Some (Some mb2) ->
    hop la lb meta (mkWorld ma da na, mkWorld mb db nb) (mkWorld ma' da na, mkWorld mb2 db nb).

(** A running session of a manager that talks, with no packet waiting: its key, its
    discriminators and its state. *)
Record party (w : World) (l : nat) (k : sessionKey) (d r st : Z) (y : Sys) : Prop := {
  pt_reach : mgr_reachable w;
  pt_entry : exists en, registered (w_m w) l en /\ se_thread en = Running y /\ se_key en = k;
  pt_talks : talker (ses y);
  pt_queue : s_recvCh (ses y) = [];
  pt_discr : s_localDiscr (ses y) = d;
  pt_remote : s_remoteDiscr (ses y) = r;
  pt_state : s_cachedState (ses y) = st;
}.

Lemma party_inv w l k d r st y : party w l k d r st y -> sys_inv y.
Proof.
  intros P. destruct (pt_entry _ _ _ _ _ _ _ P) as (en & [He _] & Ht & _).
  destruct (to_entry _ (mi_threads _ (mgr_reachable_inv _ (pt_reach _ _ _ _ _ _ _ P))) _ _ He) as [H _].
  rewrite Ht in H. by apply reachable_inv.
Qed.

Lemma party_running w l k d r st y : party w l k d r st y -> running (w_m w) l = Some y.
Proof.
  intros P. destruct (pt_entry _ _ _ _ _ _ _ P) as (en & [He _] & Ht & _). unfold running. rewrite He. cbn. by rewrite Ht.
Qed.

(** The registration of a session that took a turn. *)
Lemma turned_registered m l en y' q :
  registered m l en -> s_localDiscr (ses y') = s_localDiscr (se_session en) ->
  registered {| (upd_entry l (set_thread (Running y')) m) with m_rawNotifyCh := q |} l (set_thread (Running y') en).
Proof.
  intros [He Hs] Hd. split; cbn.
  - by rewrite list_lookup_alter_eq, He.
  - unfold se_session. cbn. by rewrite Hd.
Qed.

Lemma turn_step l c e m m' ds n : session_turn l c e m = Some (Some m') -> mgr_reachable (mkWorld m ds n) ->
  mgr_reachable (mkWorld m' ds n).
Proof. intros H R. eapply reachable_steps; [exact R|]. by eapply rtc_once, ms_turn. Qed.

(** The turn of the sender. *)
Lemma send_turn e m ds n l k d r st y :
  party (mkWorld m ds n) l k d r st y ->
  exists m' y' bytes, session_turn l CaseTx e m = (if fired (txTimer y) e then Some (Some m') else None) /\
    (fired (txTimer y) e = true ->
     party (mkWorld m' ds n) l k d r st y' /\ last (sent y') = Some (bytes, send_ok e (length (sent y))) /\ speaks (ses y) bytes).
Proof.
  intros P. pose proof (party_inv _ _ _ _ _ _ _ P) as Y. pose proof P as [R (en & Hr & Ht & Hk) T Q D Rm Hst].
  set (e' := raw_env e (notify_attempts y) m).
  destruct (speak e' y Y T) as (y' & w & Hh & Y' & T' & Hs & Hsp & C & Hrd & _).
  set (m' := {| (upd_entry l (set_thread (Running y')) m) with m_rawNotifyCh := m_rawNotifyCh m ++ drop (length (notified y)) (notified y') |}).
  exists m', y', w.
  assert (E : session_turn l CaseTx e m = if fired (txTimer y) e then Some (Some m') else None).
  { unfold session_turn. destruct Hr as [He _]. cbn [w_m] in He. rewrite He. cbn [mbind option_bind]. rewrite Ht.
    cbn [runLoop_turn]. fold e'. change (fired (txTimer y) e') with (fired (txTimer y) e). destruct (fired (txTimer y) e); [|done].
    cbn [mbind option_bind]. by rewrite Hh. }
  split; [exact E|]. intros F. rewrite F in E. split_and!; [|by rewrite Hs, last_snoc|done].
  pose proof (f_equal s_localDiscr C : s_localDiscr (ses y') = s_localDiscr (ses y)) as Cd.
  split; [by eapply turn_step|..]; [|done| |congruence|congruence|].
  - exists (set_thread (Running y') en). split_and!; [|done|done]. apply turned_registered; [done|].
    unfold se_session. rewrite Ht. exact Cd.
  - etrans; [exact (f_equal s_recvCh C)|exact Q].
  - etrans; [exact (f_equal s_cachedState C)|exact Hst].
Qed.

Lemma RecvPacket_discr pkt wire s : s_localDiscr (RecvPacket pkt wire s) = s_localDiscr s.
Proof. unfold RecvPacket. by case_bool_decide. Qed.

(** The receive path and the turn of the receiver. *)
Lemma receive_turn e ci meta bytes m ds n l k d r st y from :
  party (mkWorld m ds n) l k d r st y -> session_inv from -> talker from -> speaks from bytes ->
  meta_key meta = k -> s_remoteDiscr from = 0 \/ s_remoteDiscr from = d ->
  exists m1 m2 y2 r2, deliver bytes meta ci m = (Ok tt, m1) /\ session_turn l CaseRecv e m1 = Some (Some m2) /\
    party (mkWorld m2 ds n) l k d r2 (NewState (apply_event st (RecvStateToEvent (s_cachedState from)))) y2 /\
    (r2 = 0 \/ r2 = s_localDiscr from) /\ rtc mgr_step (mkWorld m ds n) (mkWorld m2 ds n).
Proof.
  intros P If Tf (pkt & Hu & W & Hc) Hm Hrd. pose proof (party_inv _ _ _ _ _ _ _ P) as Y.
  pose proof P as [R (en & Hr & Ht & Hk) T Q D Rm Hst]. pose proof Hr as [He Hs]. cbn [w_m] in He, Hs.
  pose proof Hc as (Cst & _ & _ & _ & _ & _ & Cmy & Cyour & _ & _ & _ & Cau).
  assert (Hse : se_session en = ses y) by (unfold se_session; by rewrite Ht).
  assert (Ha : addressed pkt meta en).
  { unfold addressed. destruct (Z.eqb_spec (pkt_YourDiscriminator pkt) 0) as [|Hn]; [congruence|].
    rewrite Hse, D. destruct Hrd; congruence. }
  pose proof (proj1 (demux_lookup _ pkt meta l en (mi_maps _ (mgr_reachable_inv _ R)) Hr) Ha) as Hl. cbn [w_m] in Hl.
  assert (Hau : pkt_Auth pkt = None).
  { destruct Tf as (Tf & _). rewrite Tf in Cau. pose proof (wf_auth_section _ W) as Hw.
    destruct (pkt_Auth pkt); [|done]. destruct Hw as [Hw _]. by rewrite Cau in Hw. }
  set (m1 := on_session l (RecvPacket pkt []) m).
  assert (Hdel : deliver bytes meta ci m = (Ok tt, m1)).
  { unfold deliver. rewrite Hu, Hau. unfold demux, Manager_Demuxer, DemuxWithWire, demuxByDiscr, demuxByPeer.
    destruct (negb _); by rewrite Hl. }
  set (y1 := upd (RecvPacket pkt []) y).
  assert (Hy1 : s_recvCh (ses y1) = [mkRecvItem pkt []]) by (unfold y1, upd, RecvPacket; cbn [ses]; by rewrite Q).
  assert (Hup : upd (fun s => {| s with s_recvCh := [] |}) y1 = y).
  { unfold y1, upd, RecvPacket. cbn [ses]. rewrite Q. cbn. clear - Q. destruct y as [s]. destruct s. cbn in *. by subst. }
  assert (He1 : m_entries m1 !! l = Some (entry_call (RecvPacket pkt []) en)) by (cbn; by rewrite list_lookup_alter_eq, He).
  set (e' := raw_env e (notify_attempts y1) m1).
  destruct (hear_spoken e' pkt [] from y If Tf Y T W Hc) as (y2 & Hh & P2 & T2).
  set (m2 := {| (upd_entry l (set_thread (Running y2)) m1) with m_rawNotifyCh := m_rawNotifyCh m1 ++ drop (length (notified y1)) (notified y2) |}).
  assert (Hturn : session_turn l CaseRecv e m1 = Some (Some m2)).
  { unfold session_turn. rewrite He1. cbn [mbind option_bind entry_call se_thread]. rewrite Ht.
    cbn [thread_map runLoop_turn]. fold y1. rewrite Hy1. fold e'. rewrite Hup, Hh. done. }
  exists m1, m2, y2, (s_remoteDiscr (ses y2)).
  split; [exact Hdel|]. split; [exact Hturn|]. split; [|split].
  2: { rewrite (rp_discr _ _ _ _ P2). clear - Cmy. case_bool_decide; [by left|right; exact Cmy]. }
  2: { eapply rtc_l; [apply (ms_call l (RecvPacket pkt [])); by constructor|]. by eapply rtc_once, ms_turn. }
  pose proof (handleRecvPacket_frame _ _ _ _ Hh) as [Hid _]. injection Hid as Hd2 _ _ _ _ _.
  split; [| |done| |congruence|done|].
  - eapply turn_step; [exact Hturn|]. eapply reachable_steps; [exact R|]. apply rtc_once, ms_call. by constructor.
  - exists (set_thread (Running y2) (entry_call (RecvPacket pkt []) en)). split_and!; [|done|done].
    apply turned_registered.
    + split; [exact He1|].
      by rewrite entry_call_session, Hse, RecvPacket_discr, <- Hse.
    + by rewrite entry_call_session, Hse, RecvPacket_discr.
  - rewrite (rp_queue _ _ _ _ P2). exact Q.
  - rewrite (rp_state _ _ _ _ P2), Hst, Cst. done.
Qed.

(** ** Facing each other *)

Section Facing.
Context (la lb : nat) (ka kb : sessionKey) (da db : Z).

(** The two sessions, each of which knows the other's discriminator or none, and
    their states. *)
Definition facing (sta stb : Z) (ws : World * World) : Prop :=
  exists ra rb ya yb, party ws.1 la ka da ra sta ya /\ party ws.2 lb kb db rb stb yb /\
    (ra = 0 \/ ra = db) /\ (rb = 0 \/ rb = da).

Lemma hop_faces meta sta stb ws ws' : meta_key meta = kb -> facing sta stb ws -> hop la lb meta ws ws' ->
  facing sta (NewState (apply_event stb (RecvStateToEvent sta))) ws' /\ rtc mgr_step ws.1 ws'.1 /\ rtc mgr_step ws.2 ws'.2.
Proof.
  intros Hm F Hh. destruct Hh as [ea eb ci ma ma' dsa na y bytes mb mb1 mb2 dsb nb E1 E2 E3 E4 E5].
  destruct F as (ra & rb & ya & yb & Pa & Pb & Ha & Hb). cbn [fst snd] in *.
  destruct (send_turn ea ma dsa na la ka da ra sta ya Pa) as (m' & y' & bytes' & Et & H).
  rewrite Et in E1. destruct (fired (txTimer ya) ea); [|done]. injection E1 as <-. destruct (H eq_refl) as (Pa' & Hl & Hsp).
  destruct (pt_entry _ _ _ _ _ _ _ Pa') as (en & [He _] & Hth & _). cbn [w_m] in He.
  assert (y = y') as ->. { unfold running in E2. rewrite He in E2. cbn in E2. rewrite Hth in E2. by injection E2. }
  assert (bytes' = bytes) as -> by congruence.
  pose proof (party_inv _ _ _ _ _ _ _ Pa) as Ya. pose proof Pa as [_ _ Ta _ Da Ra Sa].
  destruct (receive_turn eb ci meta bytes mb dsb nb lb kb db rb stb yb (ses ya) Pb) as (m1 & m2 & y2 & r2 & D1 & D2 & P2 & Hr2 & Hst);
    [apply Ya|done|done|done|by rewrite Ra|].
  assert (m1 = mb1) as -> by congruence. assert (m2 = mb2) as -> by congruence.
  rewrite Sa in P2. rewrite Da in Hr2. split_and!; [by exists ra, r2, y', y2| |exact Hst].
  by eapply rtc_once, ms_turn.
Qed.

Lemma hop_exists meta sta stb ws : meta_key meta = kb -> facing sta stb ws -> exists ws', hop la lb meta ws ws'.
Proof.
  intros Hm (ra & rb & ya & yb & Pa & Pb & Ha & Hb). destruct ws as [[ma dsa na] [mb dsb nb]]. cbn [fst snd] in *.
  pose proof (party_inv _ _ _ _ _ _ _ Pa) as Ya. pose proof Pa as [_ _ Ta _ Da Ra Sa].
  destruct (sy_tx _ Ya) as [t Ht]. set (e := at_time t).
  destruct (send_turn e ma dsa na la ka da ra sta ya Pa) as (m' & y' & bytes & Et & H).
  assert (F : fired (txTimer ya) e = true) by (rewrite Ht; apply Z.leb_refl). rewrite F in Et. destruct (H F) as (Pa' & Hl & Hsp).
  destruct (receive_turn e (sample_input 5) meta bytes mb dsb nb lb kb db rb stb yb (ses ya) Pb) as (m1 & m2 & y2 & r2 & D1 & D2 & _);
    [apply Ya|done|done|done|by rewrite Ra|].
  eexists. eapply hop_carried; [exact Et| |exact Hl|exact D1|exact D2].
  destruct (pt_entry _ _ _ _ _ _ _ Pa') as (en & [He _] & Hth & _). unfold running. cbn [w_m] in He. rewrite He. cbn. by rewrite Hth.
Qed.

End Facing.

Lemma facing_sym la lb ka kb da db sta stb wa wb :
  facing la lb ka kb da db sta stb (wa, wb) -> facing lb la kb ka db da stb sta (wb, wa).
Proof. intros (ra & rb & ya & yb & Pa & Pb & Ha & Hb). by exists rb, ra, yb, ya. Qed.

(** One packet each way. *)
Inductive round (la lb : nat) (metaa metab : PacketMeta) : World * World -> World * World -> Prop :=
| round_trip wa wb wa1 wb1 wa2 wb2 :
    hop la lb metab (wa, wb) (wa1, wb1) -> hop lb la metaa (wb1, wa1) (wb2, wa2) ->
    round la lb metaa metab (wa, wb) (wa2, wb2).

Section Rounds.
Context (la lb : nat) (ka kb : sessionKey) (da db : Z) (metaa metab : PacketMeta).
Context (Hma : meta_key metaa = ka) (Hmb : meta_key metab = kb).

Local Notation face := (facing la lb ka kb da db).

Lemma round_faces sta stb ws ws' : face sta stb ws -> round la lb metaa metab ws ws' ->
  (let '(sta', stb') := exchange (sta, stb) in face sta' stb' ws') /\ rtc mgr_step ws.1 ws'.1 /\ rtc mgr_step ws.2 ws'.2.
Proof.
  intros F H. destruct H as [wa wb wa1 wb1 wa2 wb2 H1 H2]. destruct (hop_faces _ _ _ _ _ _ _ _ _ _ _ Hmb F H1) as (F1 & A1 & B1).
  apply facing_sym in F1. destruct (hop_faces _ _ _ _ _ _ _ _ _ _ _ Hma F1 H2) as (F2 & B2 & A2).
  apply facing_sym in F2. cbn in *. split_and!; [exact F2|by etrans|by etrans].
Qed.

Lemma rounds_face n : forall sta stb ws ws', face sta stb ws -> nsteps (round la lb metaa metab) n ws ws' ->
  (let '(sta', stb') := Nat.iter n exchange (sta, stb) in face sta' stb' ws') /\ rtc mgr_step ws.1 ws'.1 /\ rtc mgr_step ws.2 ws'.2.
Proof.
  induction n as [|n IH]; intros sta stb ws ws' F H.
  { assert (ws' = ws) as -> by (by inversion H). split; [exact F|split; apply rtc_refl]. }
  assert (exists ws1, round la lb metaa metab ws ws1 /\ nsteps (round la lb metaa metab) n ws1 ws') as (ws1 & H1 & H2) by (inversion H; eauto).
  destruct (round_faces _ _ _ _ F H1) as (F1 & A1 & B1). rewrite Nat.iter_succ_r. destruct (exchange (sta, stb)) as [sta1 stb1].
  destruct (IH _ _ _ _ F1 H2) as (F2 & A2 & B2). split_and!; [exact F2|by etrans|by etrans].
Qed.

Lemma rounds_exist n : forall sta stb ws, face sta stb ws -> exists ws', nsteps (round la lb metaa metab) n ws ws'.
Proof.
  induction n as [|n IH]; intros sta stb ws F; [eexists; constructor|].
  assert (H : exists ws', round la lb metaa metab ws ws').
  { destruct ws as [wa wb]. destruct (hop_exists _ _ _ _ _ _ _ _ _ _ Hmb F) as [[wa1 wb1] H1].
    destruct (hop_faces _ _ _ _ _ _ _ _ _ _ _ Hmb F H1) as (F1 & _). apply facing_sym in F1.
    destruct (hop_exists _ _ _ _ _ _ _ _ _ _ Hma F1) as [[wb2 wa2] H2]. exists (wa2, wb2). by econstructor. }
  destruct H as [ws1 H1]. destruct (round_faces _ _ _ _ F H1) as (F1 & _). destruct (exchange (sta, stb)) as [sta1 stb1].
  destruct (IH _ _ _ F1) as [ws' H2]. exists ws'. by econstructor.
Qed.

End Rounds.

(** C3: two daemons whose sessions face each other come up.  From any reachable states
    of the two managers in which both sessions run with an active role, without
    authentication, Poll Sequence or waiting packets, with a receive interval of at least
    a microsecond and a peer that did not ask for silence, not administratively down and
    knowing the peer's discriminator or none, rounds in which each daemon's datagram,
    sent when its timer is due, travels through the other's receive path are always
    possible; and after three or more of them, whatever the clocks, both sessions are Up.
    All of it are steps of the managers, so that their invariants hold throughout. *)
Theorem daemons_come_up (la lb : nat) (ka kb : sessionKey) (da db ra rb sta stb : Z) (ya yb : Sys)
    (metaa metab : PacketMeta) (wa wb : World) (Hma : meta_key metaa = ka) (Hmb : meta_key metab = kb)
    (Pa : party wa la ka da ra sta ya) (Pb : party wb lb kb db rb stb yb)
    (Ha : ra = 0 \/ ra = db) (Hb : rb = 0 \/ rb = da) (Sa : sta <> StateAdminDown) (Sb : stb <> StateAdminDown) :
  (forall n, exists ws', nsteps (round la lb metaa metab) n (wa, wb) ws') /\
  forall n wa' wb', (3 <= n)%nat -> nsteps (round la lb metaa metab) n (wa, wb) (wa', wb') ->
    rtc mgr_step wa wa' /\ rtc mgr_step wb wb' /\
    exists ya' yb', running (w_m wa') la = Some ya' /\ running (w_m wb') lb = Some yb' /\
      s_cachedState (ses ya') = StateUp /\ s_cachedState (ses yb') = StateUp.
Proof.
  assert (F : facing la lb ka kb da db sta stb (wa, wb)) by (by exists ra, rb, ya, yb).
  split; [intros n; by eapply rounds_exist|]. intros n wa' wb' Hn H.
  assert (Hin : forall w l k d r st y, party w l k d r st y -> st <> StateAdminDown -> st ∈ [StateDown; StateInit; StateUp]).
  { intros w l k d r st y P Hne. pose proof (inv_state _ (good_inv _ (sy_good _ (party_inv _ _ _ _ _ _ _ P)))) as Hi.
    rewrite (pt_state _ _ _ _ _ _ _ P) in Hi. unfold StateAdminDown, StateDown, StateInit, StateUp in *. rewrite !elem_of_cons. lia. }
  destruct (rounds_face la lb ka kb da db metaa metab Hma Hmb n sta stb _ _ F H) as (F' & A & B).
  rewrite (converge_up _ _ n (Hin _ _ _ _ _ _ _ Pa Sa) (Hin _ _ _ _ _ _ _ Pb Sb) Hn) in F'.
  destruct F' as (ra' & rb' & ya' & yb' & Pa' & Pb' & _). split_and!; [exact A|exact B|].
  exists ya', yb'. cbn [fst snd] in *. split_and!; [by eapply party_running|by eapply party_running|apply Pa'|apply Pb'].
Qed.

(** ** An example: the sample session and its mirror image *)

Definition mirror_cfg : SessionConfig :=
  {| (sample_cfg 1) with cfg_PeerAddr := cfg_LocalAddr (sample_cfg 3); cfg_LocalAddr := cfg_PeerAddr (sample_cfg 3) |}.

Definition started_manager (cfg : SessionConfig) (d : Z) : Manager :=
  let m := (CreateSession cfg (sample_input d) (NewManager None false false)).2 in
  default m (session_start 0 (at_time 1000) m).

Lemma facing_reachable cfg d : cfg_ok cfg -> is_byte d ->
  (CreateSession cfg (sample_input d) (NewManager None false false)).1 = Ok 0%nat -> mgr_reachable (mkWorld (started_manager cfg d) [] 0).
Proof.
  intros Hc Hd Hok. assert (R : mgr_reachable (mkWorld (CreateSession cfg (sample_input d) (NewManager None false false)).2 [] 0)).
  { exists None, false, false. split; [done|]. apply (CreateSession_steps cfg (sample_input d) _ 0); [done|by apply sample_input_ok|].
    destruct (CreateSession _ _ _); cbn in *. by subst. }
  unfold started_manager. destruct (session_start _ _ _) as [m|] eqn:E; [|done]. eapply reachable_steps; [exact R|]. by eapply rtc_once, ms_start.
Qed.

Definition started_sys (m : Manager) : Sys := default (sample_sys 1 1) (running m 0).

Lemma started_party m k d : mgr_reachable (mkWorld m [] 0) -> talker (ses (started_sys m)) ->
  match m_entries m !! 0%nat with
  | Some en => exists y, se_thread en = Running y /\ se_key en = k /\ s_recvCh (ses y) = [] /\ s_localDiscr (ses y) = d /\
                 s_remoteDiscr (ses y) = 0 /\ s_cachedState (ses y) = StateDown /\ m_sessions m !! d = Some 0%nat
  | None => False
  end ->
  party (mkWorld m [] 0) 0 k d 0 StateDown (started_sys m).
Proof.
  intros R. unfold started_sys, running. destruct (m_entries m !! 0%nat) as [en|] eqn:He; [|done]. cbn [mbind option_bind].
  intros T (y & Ht & Hk & Q & D & Rm & St & Hs). rewrite Ht in *. cbn [default] in *. split; [done| |done..].
  exists en. split_and!; [|done|done]. split; [done|]. unfold se_session. rewrite Ht. cbn. by rewrite D.
Qed.

Definition meta_of (cfg : SessionConfig) : PacketMeta := mkPacketMeta (cfg_PeerAddr cfg) (cfg_LocalAddr cfg) 255 (cfg_Interface cfg).

Lemma mirror_cfg_ok : cfg_ok mirror_cfg.
Proof. vm_compute. intuition congruence. Qed.

Lemma daemons_come_up_witness :
  let wa := mkWorld (started_manager (sample_cfg 3) 5) [] 0 in
  let wb := mkWorld (started_manager mirror_cfg 9) [] 0 in
  exists wa' wb', nsteps (round 0 0 (meta_of (sample_cfg 3)) (meta_of mirror_cfg)) 3 (wa, wb) (wa', wb') /\
    exists ya yb, running (w_m wa') 0 = Some ya /\ running (w_m wb') 0 = Some yb /\
      s_cachedState (ses ya) = StateUp /\ s_cachedState (ses yb) = StateUp.
Proof.
  intros wa wb.
  assert (Pa : party wa 0 (key_of (sample_cfg 3)) 5 0 StateDown (started_sys (w_m wa))).
  { apply started_party; [apply facing_reachable; [by apply sample_cfg_ok|by vm_compute|by vm_compute]|vm_compute; intuition congruence|].
    vm_compute. eexists. split; [reflexivity|repeat split]. }
  assert (Pb : party wb 0 (key_of mirror_cfg) 9 0 StateDown (started_sys (w_m wb))).
  { apply started_party; [apply facing_reachable; [apply mirror_cfg_ok|by vm_compute|by vm_compute]|vm_compute; intuition congruence|].
    vm_compute. eexists. split; [reflexivity|repeat split]. }
  destruct (daemons_come_up 0 0 _ _ _ _ _ _ _ _ _ _ (meta_of (sample_cfg 3)) (meta_of mirror_cfg) _ _
    eq_refl eq_refl Pa Pb (or_introl eq_refl) (or_introl eq_refl) ltac:(done) ltac:(done)) as [Hex Hup].
  destruct (Hex 3%nat) as [[wa' wb'] H]. exists wa', wb'. split; [exact H|]. by destruct (Hup 3%nat wa' wb' ltac:(lia) H) as (_ & _ & ?).
Defined.
