(* ===== verification/Config.v ===== *)
(** * Configuration ([internal/config/config.go])

    The configuration tree, its defaults, the session keys and addresses of its
    entries, and [Validate].  Reading YAML and environment variables is the koanf
    library's; a loaded configuration is an argument. *)

From S2P Require Import Prelude Netip NetipParse.
From stdpp Require Import strings.
From Stdlib Require Import Ascii.
From Corelib Require Import SpecFloat.

Local Open Scope Z_scope.

(** ** Structures *)

Record SocketConfig := mkSocketConfig { sk_ReadBufferSize : Z; sk_WriteBufferSize : Z }.

Record BFDConfig := mkBFDConfig {
  bc_DefaultDesiredMinTx : Z;
  bc_DefaultRequiredMinRx : Z;
  bc_DefaultDetectMultiplier : Z;
  bc_AlignIntervals : bool;
  bc_DefaultPaddedPduSize : Z;
}.

Record UnsolicitedInterfaceConfig := mkUnsolicitedInterfaceConfig {
  uic_Enabled : bool;
  uic_AllowedPrefixes : list string;
}.

Record UnsolicitedSessionDefaultsConfig := mkUnsolicitedSessionDefaultsConfig {
  usd_DesiredMinTx : Z;
  usd_RequiredMinRx : Z;
  usd_DetectMult : Z;
}.

Record UnsolicitedConfig := mkUnsolicitedConfig {
  uc_Enabled : bool;
  uc_MaxSessions : Z;
  uc_CleanupTimeout : Z;
  uc_Interfaces : gmap string UnsolicitedInterfaceConfig;
  uc_SessionDefaults : UnsolicitedSessionDefaultsConfig;
}.

Record EchoPeerConfig := mkEchoPeerConfig {
  ep_Peer : string;
  ep_Local : string;
  ep_Interface : string;
  ep_TxInterval : Z;
  ep_DetectMult : Z;
}.

Record EchoConfig := mkEchoConfig {
  echo_Enabled : bool;
  echo_DefaultTxInterval : Z;
  echo_DefaultDetectMultiplier : Z;
  echo_Peers : list EchoPeerConfig;
}.

Record MicroBFDActuatorConfig := mkMicroBFDActuatorConfig {
  ma_Mode : string;
  ma_Backend : string;
  ma_OVSDBEndpoint : string;
  ma_OwnerPolicy : string;
  ma_DownAction : string;
  ma_UpAction : string;
}.

Record MicroBFDGroupConfig := mkMicroBFDGroupConfig {
  mg_LAGInterface : string;
  mg_MemberLinks : list string;
  mg_PeerAddr : string;
  mg_LocalAddr : string;
  mg_DesiredMinTx : Z;
  mg_RequiredMinRx : Z;
  mg_DetectMult : Z;
  mg_MinActiveLinks : Z;
}.

Record MicroBFDConfig := mkMicroBFDConfig {
  micro_Groups : list MicroBFDGroupConfig;
  micro_Actuator : MicroBFDActuatorConfig;
}.

Record VXLANPeerConfig := mkVXLANPeerConfig {
  vp_Peer : string;
  vp_Local : string;
  vp_DesiredMinTx : Z;
  vp_RequiredMinRx : Z;
  vp_DetectMult : Z;
}.

Record VXLANConfig := mkVXLANConfig {
  vx_Enabled : bool;
  vx_Backend : string;
  vx_ManagementVNI : Z;
  vx_DefaultDesiredMinTx : Z;
  vx_DefaultRequiredMinRx : Z;
  vx_DefaultDetectMultiplier : Z;
  vx_Peers : list VXLANPeerConfig;
}.

Record GenevePeerConfig := mkGenevePeerConfig {
  gp_Peer : string;
  gp_Local : string;
  gp_VNI : Z;
  gp_DesiredMinTx : Z;
  gp_RequiredMinRx : Z;
  gp_DetectMult : Z;
}.

Record GeneveConfig := mkGeneveConfig {
  ge_Enabled : bool;
  ge_Backend : string;
  ge_DefaultVNI : Z;
  ge_DefaultDesiredMinTx : Z;
  ge_DefaultRequiredMinRx : Z;
  ge_DefaultDetectMultiplier : Z;
  ge_Peers : list GenevePeerConfig;
}.

Record GoBGPTLSConfig := mkGoBGPTLSConfig {
  tls_Enabled : bool;
  tls_CAFile : string;
  tls_ServerName : string;
}.

Record GoBGPDampeningConfig := mkGoBGPDampeningConfig {
  gd_Enabled : bool;
  gd_SuppressThreshold : spec_float;
  gd_ReuseThreshold : spec_float;
  gd_MaxSuppressTime : Z;
  gd_HalfLife : Z;
}.

Record GoBGPConfig := mkGoBGPConfig {
  gb_Enabled : bool;
  gb_Addr : string;
  gb_Strategy : string;
  gb_ActionTimeout : Z;
  gb_TLS : GoBGPTLSConfig;
  gb_Dampening : GoBGPDampeningConfig;
}.

Record AuthConfig := mkAuthConfig { ac_Type : string; ac_KeyID : Z; ac_Secret : string }.

Record SessionConfig := mkSessionConfig {
  sess_Peer : string;
  sess_Local : string;
  sess_Interface : string;
  sess_Type : string;
  sess_DesiredMinTx : Z;
  sess_RequiredMinRx : Z;
  sess_DetectMult : Z;
  sess_PaddedPduSize : Z;
  sess_Auth : AuthConfig;
}.

(** The sections with only an address, a path or a level are their fields. *)
Record Config := mkConfig {
  c_GRPC_Addr : string;
  c_Metrics_Addr : string;
  c_Metrics_Path : string;
  c_Log_Level : string;
  c_Log_Format : string;
  c_BFD : BFDConfig;
  c_Socket : SocketConfig;
  c_Unsolicited : UnsolicitedConfig;
  c_Echo : EchoConfig;
  c_MicroBFD : MicroBFDConfig;
  c_VXLAN : VXLANConfig;
  c_Geneve : GeneveConfig;
  c_GoBGP : GoBGPConfig;
  c_Sessions : list SessionConfig;
}.

(** The sentinel errors; the texts wrapped around them are not kept. *)
Inductive config_error :=
| ErrEmptyGRPCAddr
| ErrInvalidDetectMultiplier
| ErrInvalidDesiredMinTx
| ErrInvalidRequiredMinRx
| ErrInvalidSessionPeer
| ErrInvalidSessionType
| ErrInvalidSessionDetectMult
| ErrDuplicateSessionKey
| ErrInvalidSessionAuthType
| ErrInvalidSessionAuthKeyID
| ErrInvalidSessionAuthSecret
| ErrEmptyGoBGPAddr
| ErrInvalidGoBGPStrategy
| ErrInvalidGoBGPActionTimeout
| ErrInvalidGoBGPTLS
| ErrInvalidDampeningThreshold
| ErrInvalidDampeningHalfLife
| ErrInvalidEchoPeer
| ErrInvalidEchoDetectMult
| ErrDuplicateEchoSessionKey
| ErrInvalidVXLANPeer
| ErrInvalidVXLANVNI
| ErrDuplicateVXLANSessionKey
| ErrInvalidGenevePeer
| ErrInvalidGeneveVNI
| ErrDuplicateGeneveSessionKey
| ErrInvalidOverlayBackend
| ErrUnsupportedOverlayBackend
| ErrInvalidMicroBFDActuatorMode
| ErrInvalidMicroBFDActuatorBackend
| ErrInvalidMicroBFDActuatorOwnerPolicy
| ErrInvalidMicroBFDActuatorAction
| ErrParseAddr.

(** ** Keys and addresses *)

Definition parse_addr (s : string) : go config_error Addr :=
  match ParseAddr s with Some a => Ok a | None => Err ErrParseAddr end.

(** [PeerAddr] of the four kinds of entries, which differ in the error for an empty
    string. *)
Definition peer_addr (empty : config_error) (s : string) : go config_error Addr :=
  if bool_decide (s = "") then Err empty else parse_addr s.

(** [LocalAddr]: an empty string is the zero address. *)
Definition local_addr (s : string) : go config_error Addr :=
  if bool_decide (s = "") then Ok InvalidAddr else parse_addr s.

Definition SessionKey (sc : SessionConfig) : string :=
  (sess_Peer sc +:+ "|" +:+ sess_Local sc +:+ "|" +:+ sess_Interface sc)%string.

Definition EchoSessionKey (ec : EchoPeerConfig) : string :=
  ("echo|" +:+ ep_Peer ec +:+ "|" +:+ ep_Local ec +:+ "|" +:+ ep_Interface ec)%string.

Definition VXLANSessionKey (vc : VXLANPeerConfig) : string :=
  ("vxlan|" +:+ vp_Peer vc +:+ "|" +:+ vp_Local vc)%string.

Definition GeneveSessionKey (gc : GenevePeerConfig) : string :=
  ("geneve|" +:+ gp_Peer gc +:+ "|" +:+ gp_Local gc)%string.

Definition SessionConfig_PeerAddr (sc : SessionConfig) := peer_addr ErrInvalidSessionPeer (sess_Peer sc).
Definition SessionConfig_LocalAddr (sc : SessionConfig) := local_addr (sess_Local sc).
Definition EchoPeerConfig_PeerAddr (ec : EchoPeerConfig) := peer_addr ErrInvalidEchoPeer (ep_Peer ec).
Definition EchoPeerConfig_LocalAddr (ec : EchoPeerConfig) := local_addr (ep_Local ec).
Definition VXLANPeerConfig_PeerAddr (vc : VXLANPeerConfig) := peer_addr ErrInvalidVXLANPeer (vp_Peer vc).
Definition VXLANPeerConfig_LocalAddr (vc : VXLANPeerConfig) := local_addr (vp_Local vc).
Definition GenevePeerConfig_PeerAddr (gc : GenevePeerConfig) := peer_addr ErrInvalidGenevePeer (gp_Peer gc).
Definition GenevePeerConfig_LocalAddr (gc : GenevePeerConfig) := local_addr (gp_Local gc).

(** ** [strings.TrimSpace]

    White space is given by its UTF-8 encodings, of one to three bytes. *)

Definition code (c : ascii) : Z := Z.of_N (Ascii.N_of_ascii c).

Definition space1 (a : ascii) : bool := ((9 <=? code a) && (code a <=? 13)) || (code a =? 32).

Definition space2 (a b : ascii) : bool := (code a =? 0xc2) && ((code b =? 0x85) || (code b =? 0xa0)).

Definition space3 (a b c : ascii) : bool :=
  ((code a =? 0xe1) && (code b =? 0x9a) && (code c =? 0x80)) ||
  ((code a =? 0xe2) && (code b =? 0x80) &&
   (((0x80 <=? code c) && (code c <=? 0x8a)) || (code c =? 0xa8) || (code c =? 0xa9) || (code c =? 0xaf))) ||
  ((code a =? 0xe2) && (code b =? 0x81) && (code c =? 0x9f)) ||
  ((code a =? 0xe3) && (code b =? 0x80) && (code c =? 0x80)).

(** Drop white space at the front; [rv] when the bytes come in reverse order. *)
Fixpoint trim_front (rv : bool) (s : chars) : chars :=
  match s with
  | [] => []
  | a :: s1 =>
      if space1 a then trim_front rv s1 else
      match s1 with
      | [] => s
      | b :: s2 =>
          if (if rv then space2 b a else space2 a b) then trim_front rv s2 else
          match s2 with
          | [] => s
          | c :: s3 => if (if rv then space3 c b a else space3 a b c) then trim_front rv s3 else s
          end
      end
  end.

Definition TrimSpace (s : string) : string :=
  String.string_of_list_ascii (reverse (trim_front true (reverse (trim_front false (chars_of s))))).

(** ** [strings.ToLower] and [strings.ReplaceAll]

    Small letters, as far as the result can be ASCII text: two letters outside ASCII
    have a small letter in it, U+0130 and U+212A; the others are left as they are. *)
Fixpoint to_lower (s : chars) : chars :=
  match s with
  | [] => []
  | a :: s1 =>
      if (65 <=? code a) && (code a <=? 90) then Ascii.ascii_of_N (Ascii.N_of_ascii a + 32) :: to_lower s1 else
      match s1 with
      | b :: s2 =>
          if (code a =? 0xc4) && (code b =? 0xb0) then Ascii.ascii_of_nat 105 :: to_lower s2 else
          match s2 with
          | c :: s3 =>
              if (code a =? 0xe2) && (code b =? 0x84) && (code c =? 0xaa) then Ascii.ascii_of_nat 107 :: to_lower s3
              else a :: to_lower s1
          | [] => a :: to_lower s1
          end
      | [] => a :: to_lower s1
      end
  end.

Definition ToLower (s : string) : string := String.string_of_list_ascii (to_lower (chars_of s)).

(** For texts of one character. *)
Definition replace_char (a b : ascii) (s : string) : string :=
  String.string_of_list_ascii ((fun c => if is_char c a then b else c) <$> chars_of s).

(** ** Log levels *)

Inductive log_level := LevelDebug | LevelInfo | LevelWarn | LevelError.

Definition ParseLogLevel (level : string) : log_level :=
  let l := ToLower level in
  if bool_decide (l = "debug"%string) then LevelDebug else
  if bool_decide (l = "info"%string) then LevelInfo else
  if bool_decide (l = "warn"%string) then LevelWarn else
  if bool_decide (l = "error"%string) then LevelError else LevelInfo.

(** ** Defaults *)

Definition second : Z := 1000000000.

Definition f_const (z : Z) : spec_float := binary_normalize 53 1024 z 0 false.

Definition DefaultConfig : Config :=
  {| c_GRPC_Addr := ":50051"; c_Metrics_Addr := ":9100"; c_Metrics_Path := "/metrics";
     c_Log_Level := "info"; c_Log_Format := "json";
     c_BFD := {| bc_DefaultDesiredMinTx := 1 * second; bc_DefaultRequiredMinRx := 1 * second;
                 bc_DefaultDetectMultiplier := 3; bc_AlignIntervals := false;
                 bc_DefaultPaddedPduSize := 0 |};
     c_Socket := {| sk_ReadBufferSize := 4 * 1024 * 1024; sk_WriteBufferSize := 4 * 1024 * 1024 |};
     c_Unsolicited := {| uc_Enabled := false; uc_MaxSessions := 0; uc_CleanupTimeout := 0;
                         uc_Interfaces := ∅;
                         uc_SessionDefaults := mkUnsolicitedSessionDefaultsConfig 0 0 0 |};
     c_Echo := {| echo_Enabled := false; echo_DefaultTxInterval := 0;
                  echo_DefaultDetectMultiplier := 0; echo_Peers := [] |};
     c_MicroBFD := {| micro_Groups := [];
                      micro_Actuator := {| ma_Mode := "disabled"; ma_Backend := "auto";
                        ma_OVSDBEndpoint := ""; ma_OwnerPolicy := "refuse-if-managed";
                        ma_DownAction := "remove-member"; ma_UpAction := "add-member" |} |};
     c_VXLAN := {| vx_Enabled := false; vx_Backend := "userspace-udp"; vx_ManagementVNI := 0;
                   vx_DefaultDesiredMinTx := 0; vx_DefaultRequiredMinRx := 0;
                   vx_DefaultDetectMultiplier := 0; vx_Peers := [] |};
     c_Geneve := {| ge_Enabled := false; ge_Backend := "userspace-udp"; ge_DefaultVNI := 0;
                    ge_DefaultDesiredMinTx := 0; ge_DefaultRequiredMinRx := 0;
                    ge_DefaultDetectMultiplier := 0; ge_Peers := [] |};
     c_GoBGP := {| gb_Enabled := false; gb_Addr := "127.0.0.1:50051"; gb_Strategy := "disable-peer";
                   gb_ActionTimeout := 5 * second; gb_TLS := mkGoBGPTLSConfig false "" "";
                   gb_Dampening := {| gd_Enabled := false; gd_SuppressThreshold := f_const 3;
                     gd_ReuseThreshold := f_const 2; gd_MaxSuppressTime := 60 * second;
                     gd_HalfLife := 15 * second |} |};
     c_Sessions := [] |}.

(** ** Validation *)

Definition one_of (s : string) (l : list string) : bool := bool_decide (s ∈ l).

Definition guard_err (e : config_error) (b : bool) : go config_error unit := if b then Err e else Ok tt.

Definition validateMicroBFDActuator (cfg : MicroBFDActuatorConfig) : go config_error unit :=
  let actions := ["none"; "remove-member"; "add-member"]%string in
  _ ← guard_err ErrInvalidMicroBFDActuatorMode
        (negb (one_of (ma_Mode cfg) ["disabled"; "dry-run"; "enforce"]%string));
  _ ← guard_err ErrInvalidMicroBFDActuatorBackend
        (negb (one_of (ma_Backend cfg) ["auto"; "kernel-bond"; "ovs"; "networkmanager"]%string));
  _ ← guard_err ErrInvalidMicroBFDActuatorOwnerPolicy
        (negb (one_of (ma_OwnerPolicy cfg)
                 ["refuse-if-managed"; "allow-external"; "networkmanager-dbus"]%string));
  _ ← guard_err ErrInvalidMicroBFDActuatorAction
        (negb (one_of (ma_DownAction cfg) actions));
  guard_err ErrInvalidMicroBFDActuatorAction (negb (one_of (ma_UpAction cfg) actions)).

Definition normalizeOverlayBackend (backend : string) : string :=
  let normalized := TrimSpace backend in
  if bool_decide (normalized = "") then "userspace-udp"%string else normalized.

Definition validateOverlayBackend (backend : string) : go config_error unit :=
  let normalized := normalizeOverlayBackend backend in
  _ ← guard_err ErrInvalidOverlayBackend
        (negb (one_of normalized
                 ["userspace-udp"; "kernel"; "ovs"; "ovn"; "cilium"; "calico"; "nsx"]%string));
  guard_err ErrUnsupportedOverlayBackend (negb (bool_decide (normalized = "userspace-udp"%string))).

Definition validateDampening (cfg : GoBGPDampeningConfig) : go config_error unit :=
  _ ← guard_err ErrInvalidDampeningThreshold (SFleb (gd_SuppressThreshold cfg) (gd_ReuseThreshold cfg));
  guard_err ErrInvalidDampeningHalfLife (gd_HalfLife cfg <=? 0).

Definition validateGoBGP (cfg : GoBGPConfig) : go config_error unit :=
  if negb (gb_Enabled cfg) then Ok tt else
  _ ← guard_err ErrEmptyGoBGPAddr (bool_decide (gb_Addr cfg = ""));
  _ ← guard_err ErrInvalidGoBGPStrategy
        (negb (one_of (gb_Strategy cfg) ["disable-peer"; "withdraw-routes"]%string));
  _ ← guard_err ErrInvalidGoBGPActionTimeout (gb_ActionTimeout cfg <=? 0);
  _ ← guard_err ErrInvalidGoBGPTLS
        (negb (tls_Enabled (gb_TLS cfg)) &&
         (negb (bool_decide (tls_CAFile (gb_TLS cfg) = "")) ||
          negb (bool_decide (tls_ServerName (gb_TLS cfg) = ""))));
  if gd_Enabled (gb_Dampening cfg) then validateDampening (gb_Dampening cfg) else Ok tt.

(** The loops over entries: each one is checked, then its key must be new. *)
Fixpoint check_entries {A} (check : A -> go config_error unit) (key : A -> string)
    (dup : config_error) (seen : gset string) (l : list A) : go config_error unit :=
  match l with
  | [] => Ok tt
  | x :: l =>
      _ ← check x;
      if bool_decide (key x ∈ seen) then Err dup else check_entries check key dup ({[ key x ]} ∪ seen) l
  end.

(** An error of [PeerAddr] is wrapped by the sentinel of the section. *)
Definition peer_ok (e : config_error) (r : go config_error Addr) : go config_error unit :=
  match r with Ok _ => Ok tt | Err _ => Err e | Panic => Panic end.

Definition validateSessionAuth (auth : AuthConfig) : go config_error unit :=
  let authType := TrimSpace (ac_Type auth) in
  if bool_decide (authType = "") || bool_decide (authType = "none"%string) then Ok tt else
  _ ← guard_err ErrInvalidSessionAuthType
        (negb (one_of authType
                 ["none"; "simple_password"; "keyed_md5"; "meticulous_keyed_md5"; "keyed_sha1";
                  "meticulous_keyed_sha1"]%string));
  _ ← guard_err ErrInvalidSessionAuthKeyID (255 <? ac_KeyID auth);
  let secretLen := Z.of_nat (String.length (ac_Secret auth)) in
  if one_of authType ["simple_password"; "keyed_md5"; "meticulous_keyed_md5"]%string
  then guard_err ErrInvalidSessionAuthSecret ((secretLen <? 1) || (16 <? secretLen))
  else if one_of authType ["keyed_sha1"; "meticulous_keyed_sha1"]%string
  then guard_err ErrInvalidSessionAuthSecret ((secretLen <? 1) || (20 <? secretLen))
  else Ok tt.

Definition validate_session (sc : SessionConfig) : go config_error unit :=
  _ ← peer_ok ErrInvalidSessionPeer (SessionConfig_PeerAddr sc);
  _ ← guard_err ErrInvalidSessionType
        (negb (bool_decide (sess_Type sc = "")) &&
         negb (one_of (sess_Type sc) ["single_hop"; "multi_hop"]%string));
  _ ← guard_err ErrInvalidSessionDetectMult (negb (sess_DetectMult sc =? 0) && (sess_DetectMult sc <? 1));
  validateSessionAuth (sess_Auth sc).

Definition validateSessions (sessions : list SessionConfig) : go config_error unit :=
  check_entries validate_session SessionKey ErrDuplicateSessionKey ∅ sessions.

Definition validateEchoPeers (cfg : EchoConfig) : go config_error unit :=
  if negb (echo_Enabled cfg) || bool_decide (echo_Peers cfg = []) then Ok tt else
  check_entries (fun ep : EchoPeerConfig =>
      _ ← peer_ok ErrInvalidEchoPeer (EchoPeerConfig_PeerAddr ep);
      guard_err ErrInvalidEchoDetectMult (negb (ep_DetectMult ep =? 0) && (ep_DetectMult ep <? 1)))
    EchoSessionKey ErrDuplicateEchoSessionKey ∅ (echo_Peers cfg).

Definition vniMax : Z := 0x00FFFFFF.

Definition validateVXLAN (cfg : VXLANConfig) : go config_error unit :=
  if negb (vx_Enabled cfg) || bool_decide (vx_Peers cfg = []) then Ok tt else
  _ ← validateOverlayBackend (vx_Backend cfg);
  _ ← guard_err ErrInvalidVXLANVNI (vniMax <? vx_ManagementVNI cfg);
  check_entries (fun peer : VXLANPeerConfig =>
      _ ← peer_ok ErrInvalidVXLANPeer (VXLANPeerConfig_PeerAddr peer);
      guard_err ErrInvalidSessionDetectMult (255 <? vp_DetectMult peer))
    VXLANSessionKey ErrDuplicateVXLANSessionKey ∅ (vx_Peers cfg).

Definition validateGeneve (cfg : GeneveConfig) : go config_error unit :=
  if negb (ge_Enabled cfg) || bool_decide (ge_Peers cfg = []) then Ok tt else
  _ ← validateOverlayBackend (ge_Backend cfg);
  _ ← guard_err ErrInvalidGeneveVNI (vniMax <? ge_DefaultVNI cfg);
  check_entries (fun peer : GenevePeerConfig =>
      _ ← peer_ok ErrInvalidGenevePeer (GenevePeerConfig_PeerAddr peer);
      _ ← guard_err ErrInvalidGeneveVNI (vniMax <? gp_VNI peer);
      guard_err ErrInvalidSessionDetectMult (255 <? gp_DetectMult peer))
    GeneveSessionKey ErrDuplicateGeneveSessionKey ∅ (ge_Peers cfg).

Definition Validate (cfg : Config) : go config_error unit :=
  _ ← guard_err ErrEmptyGRPCAddr (bool_decide (c_GRPC_Addr cfg = ""));
  _ ← guard_err ErrInvalidDetectMultiplier (bc_DefaultDetectMultiplier (c_BFD cfg) <? 1);
  _ ← guard_err ErrInvalidDesiredMinTx (bc_DefaultDesiredMinTx (c_BFD cfg) <=? 0);
  _ ← guard_err ErrInvalidRequiredMinRx (bc_DefaultRequiredMinRx (c_BFD cfg) <=? 0);
  _ ← validateGoBGP (c_GoBGP cfg);
  _ ← validateSessions (c_Sessions cfg);
  _ ← validateEchoPeers (c_Echo cfg);
  _ ← validateMicroBFDActuator (micro_Actuator (c_MicroBFD cfg));
  _ ← validateVXLAN (c_VXLAN cfg);
  validateGeneve (c_Geneve cfg).

(** ** What validation guarantees *)

Lemma guard_err_Ok e b : guard_err e b = Ok tt <-> b = false.
Proof. by destruct b. Qed.

Lemma check_entries_Ok {A} (check : A -> go config_error unit) key dup seen l :
  check_entries check key dup seen l = Ok tt <->
  (forall x, x ∈ l -> check x = Ok tt) /\ NoDup (key <$> l) /\ (forall x, x ∈ l -> key x ∉ seen).
Proof.
  revert seen. induction l as [|x l IH]; intros seen.
  { cbn. split; [intros _; split_and!; [set_solver|constructor|set_solver]|done]. }
  cbn [check_entries fmap list_fmap]. rewrite go_bind_Ok, NoDup_cons. split.
  - intros ([] & Hx & H). case_bool_decide as Hin; [done|]. apply IH in H as (H1 & H2 & H3).
    split_and!; [set_solver| |done|set_solver].
    intros (y & Hk & Hy)%list_elem_of_fmap. specialize (H3 y Hy). set_solver.
  - intros (H1 & [Hn H2] & H3). exists tt. split; [set_solver|].
    rewrite bool_decide_false by set_solver. apply IH. split_and!; [set_solver|done|].
    intros y Hy. apply not_elem_of_union. split; [|set_solver]. intros Hk%elem_of_singleton.
    apply Hn. rewrite <- Hk. by apply list_elem_of_fmap_2.
Qed.

Lemma guard_bind_Ok {B} e b (f : unit -> go config_error B) r :
  guard_err e b ≫= f = Ok r <-> b = false /\ f tt = Ok r.
Proof. destruct b; cbn; [|tauto]. split; [done|by intros [? _]]. Qed.

Lemma unit_bind_Ok {B} (m : go config_error unit) (f : unit -> go config_error B) r :
  m ≫= f = Ok r <-> m = Ok tt /\ f tt = Ok r.
Proof. destruct m as [[]| |]; cbn; naive_solver. Qed.

Lemma validateSessions_Ok l :
  validateSessions l = Ok tt <->
  (forall sc, sc ∈ l -> validate_session sc = Ok tt) /\ NoDup (SessionKey <$> l).
Proof. unfold validateSessions. rewrite check_entries_Ok. set_solver. Qed.

Example default_config_valid : Validate DefaultConfig = Ok tt.
Proof. vm_compute. reflexivity. Qed.

Example TrimSpace_examples :
  TrimSpace "  keyed_md5 " = "keyed_md5"%string /\ TrimSpace "" = ""%string /\ TrimSpace " " = ""%string /\
  TrimSpace "a b" = "a b"%string.
Proof. vm_compute. repeat split; reflexivity. Qed.
