(* ===== verification/Endpoint.v ===== *)
(** * The endpoint of the BGP daemon ([internal/config/config.go])

    Whether the integration talks to another host in plain text, which the daemon warns
    about: [net.SplitHostPort] of the standard library, [goBGPAddrHost] and
    [GoBGPPlaintextNonLoopback]. *)

From stdpp Require Import strings.
From Stdlib Require Import Ascii.
From S2P Require Import Prelude Netip NetipParse Config.

Local Open Scope Z_scope.

(** ** Addresses of the own host *)

Definition Addr_IsLoopback (a : Addr) : bool :=
  match (if Addr_Is4In6 a then Addr_Unmap a else a) with
  | IPv4 x => Z.shiftr x 24 =? 127
  | IPv6 x _ => x =? 1
  | InvalidAddr => false
  end.

(** ** Host and port *)

Definition has_char (d : ascii) (s : chars) : bool := existsb (fun c => is_char c d) s.

(** The text before the first [d] and the one behind it. *)
Fixpoint cut_first (d : ascii) (s : chars) : option (chars * chars) :=
  match s with
  | [] => None
  | c :: s =>
      if is_char c d then Some ([], s)
      else '(a, b) ← cut_first d s; Some (c :: a, b)
  end.

(** The text before the last [d] and the one behind it. *)
Fixpoint cut_last (d : ascii) (s : chars) : option (chars * chars) :=
  match s with
  | [] => None
  | c :: s =>
      match cut_last d s with
      | Some (a, b) => Some (c :: a, b)
      | None => if is_char c d then Some ([], s) else None
      end
  end.

(** [None] for its errors.  In brackets the host ends at the first closing one, which
    must be right before the last colon. *)
Definition SplitHostPort (hostport : chars) : option (chars * chars) :=
  '(before, port) ← cut_last ":" hostport;
  match hostport with
  | c :: rest =>
      if is_char c "[" then
        '(host, behind) ← cut_first "]" rest;
        match behind with
        | d :: behind' =>
            if is_char d ":" && negb (has_char ":" behind') then
              if has_char "[" rest || has_char "]" behind then None else Some (host, port)
            else None
        | [] => None
        end
      else if has_char ":" before || has_char "[" hostport || has_char "]" hostport then None
      else Some (before, port)
  | [] => None
  end.

(** [strings.Trim] with the two brackets. *)
Fixpoint trim_brackets_left (s : chars) : chars :=
  match s with
  | c :: s' => if is_char c "[" || is_char c "]" then trim_brackets_left s' else s
  | [] => []
  end.

Definition trim_brackets (s : chars) : chars := reverse (trim_brackets_left (reverse (trim_brackets_left s))).

Definition goBGPAddrHost (addr : string) : string :=
  let addr := chars_of (TrimSpace addr) in
  String.string_of_list_ascii
    match SplitHostPort addr with
    | Some (host, _) => trim_brackets host
    | None => trim_brackets addr
    end.

(** [strings.EqualFold] with a text of small ASCII letters: besides the capital letters
    two letters outside ASCII fold to one, U+017F and U+212A. *)
Fixpoint fold_case (s : chars) : chars :=
  match s with
  | [] => []
  | a :: s1 =>
      if (65 <=? code a) && (code a <=? 90) then ascii_of_N (N_of_ascii a + 32) :: fold_case s1 else
      match s1 with
      | b :: s2 =>
          if (code a =? 0xc5) && (code b =? 0xbf) then ascii_of_nat 115 :: fold_case s2 else
          match s2 with
          | c :: s3 =>
              if (code a =? 0xe2) && (code b =? 0x84) && (code c =? 0xaa) then ascii_of_nat 107 :: fold_case s3
              else a :: fold_case s1
          | [] => a :: fold_case s1
          end
      | [] => a :: fold_case s1
      end
  end.

Definition EqualFold_lower (s t : string) : bool := bool_decide (fold_case (chars_of s) = chars_of t).

Definition GoBGPPlaintextNonLoopback (cfg : GoBGPConfig) : bool :=
  if negb (gb_Enabled cfg) || tls_Enabled (gb_TLS cfg) then false else
  let host := goBGPAddrHost (gb_Addr cfg) in
  if bool_decide (host = "") then true else
  if EqualFold_lower host "localhost" then false else
  match ParseAddr host with
  | None => true
  | Some addr => negb (Addr_IsLoopback addr)
  end.

Example goBGPAddrHost_examples :
  goBGPAddrHost "127.0.0.1:50051" = "127.0.0.1"%string /\ goBGPAddrHost " [::1]:50051 " = "::1"%string /\
  goBGPAddrHost "LocalHost:1" = "LocalHost"%string /\ goBGPAddrHost "::1" = "::1"%string /\
  goBGPAddrHost "[::1]" = "::1"%string /\ goBGPAddrHost ":50051" = ""%string /\ goBGPAddrHost "bgp.example" = "bgp.example"%string.
Proof. vm_compute. repeat split; reflexivity. Qed.

(** ** Endpoints given by an address *)

Lemma cut_last_app d a b : has_char d b = false -> cut_last d (a ++ d :: b) = Some (a, b).
Proof.
  intros Hb. assert (Hn : cut_last d b = None).
  { induction b as [|c b IH]; [done|]. cbn in *. apply orb_false_iff in Hb as [H1 H2]. by rewrite (IH H2), H1. }
  induction a as [|c a IH]; cbn; [|by rewrite IH]. rewrite Hn. unfold is_char. by rewrite Ascii.eqb_refl.
Qed.

Lemma cut_first_app d a b : has_char d a = false -> cut_first d (a ++ d :: b) = Some (a, b).
Proof.
  induction a as [|c a IH]; cbn; [unfold is_char; by rewrite Ascii.eqb_refl|]. intros [H1 H2]%orb_false_iff.
  by rewrite H1, (IH H2).
Qed.

Lemma has_char_app d a b : has_char d (a ++ b) = has_char d a || has_char d b.
Proof. apply existsb_app. Qed.

Lemma has_char_none (P : ascii -> bool) d s : P d = false -> Forall (fun c => P c = true) s -> has_char d s = false.
Proof.
  intros Hd. induction 1 as [|c s Hc _ IH]; [done|].
  change (is_char c d || has_char d s = false). rewrite IH, orb_false_r. unfold is_char.
  destruct (Ascii.eqb_spec c d); [congruence|done].
Qed.

(** A character that no trimming touches. *)
Definition visible (c : ascii) : bool := (33 <=? code c) && (code c <=? 126).

Lemma trim_front_visible rv c s : visible c = true -> trim_front rv (c :: s) = c :: s.
Proof.
  unfold visible. intros [H1%Z.leb_le H2%Z.leb_le]%andb_true_iff. cbn [trim_front].
  assert (Hn : forall v, (v < 33 \/ 126 < v) -> (code c =? v) = false) by (intros; apply Z.eqb_neq; lia).
  unfold space1. rewrite Hn by lia. assert ((9 <=? code c) && (code c <=? 13) = false) as -> by lia. cbn [orb].
  destruct s as [|b s]; [done|]. unfold space2. assert (forall x, (code x =? 0x85) || (code x =? 0xa0) = true -> x <> c) by (intros x Hx ->; lia).
  destruct rv.
  - assert ((code b =? 0xc2) && ((code c =? 0x85) || (code c =? 0xa0)) = false) as -> by (rewrite !Hn by lia; by rewrite andb_false_r).
    destruct s as [|a s]; [done|]. unfold space3. rewrite !(Hn 0x80), !(Hn 0x9f), !(Hn 0xa8), !(Hn 0xa9), !(Hn 0xaf) by lia.
    assert ((0x80 <=? code c) = false) as -> by lia. cbn [andb orb]. by rewrite !andb_false_r.
  - rewrite Hn by lia. cbn [andb]. destruct s as [|a s]; [done|]. unfold space3. by rewrite !Hn by lia.
Qed.

Lemma TrimSpace_visible c s d : visible c = true -> visible d = true ->
  chars_of (TrimSpace (String.string_of_list_ascii (c :: s ++ [d]))) = c :: s ++ [d].
Proof.
  intros Hc Hd. unfold TrimSpace, chars_of. rewrite !String.list_ascii_of_string_of_list_ascii.
  assert (E : reverse (c :: s ++ [d]) = d :: reverse (c :: s)).
  { change (c :: s ++ [d]) with ((c :: s) ++ [d]). by rewrite reverse_app. }
  rewrite trim_front_visible, E, trim_front_visible, <- E by done. apply reverse_involutive.
Qed.

Lemma addr_char_visible c : addr_char c = true -> visible c = true.
Proof. destruct c as [[] [] [] [] [] [] [] []]; vm_compute; congruence. Qed.

Lemma addr_not_localhost s : Forall (fun c => addr_char c = true) s -> s <> [] -> fold_case s <> chars_of "localhost".
Proof.
  intros H Hs. destruct H as [|c s Hc _]; [done|].
  assert (Hcase : (65 <=? code c) && (code c <=? 90) = true /\ ascii_of_N (N_of_ascii c + 32) <> "l"%char \/
                  (65 <=? code c) && (code c <=? 90) = false /\ (code c =? 0xc5) = false /\ (code c =? 0xe2) = false /\ c <> "l"%char).
  { destruct c as [[] [] [] [] [] [] [] []]; vm_compute in Hc; try discriminate Hc; vm_compute; (left; split; congruence) || (right; repeat split; congruence). }
  cbn [fold_case]. destruct Hcase as [[-> Hn]|(-> & -> & -> & Hn)]; [intros [= H _]; done|]. cbn [andb].
  destruct s as [|b [|b' s]]; cbn; by intros [= H _].
Qed.

Definition digit (c : ascii) : bool := bool_decide (is_Some (digit_val c)).

(** An address and a port as they are written, IPv6 in brackets. *)
Definition endpoint (a : Addr) (port : chars) : chars :=
  if Addr_Is4 a then chars_of (Addr_String a) ++ ":"%char :: port
  else "["%char :: chars_of (Addr_String a) ++ "]"%char :: ":"%char :: port.

Definition bare_addr (a : Addr) : Prop := a <> InvalidAddr /\ addr_ok a /\ Addr_hasZone a = false.

Lemma bare_body a : bare_addr a -> Addr_String a = addr_body a.
Proof.
  intros (Hv & _ & Hz). destruct a as [|x|x z]; [done..|]. cbn in Hz.
  change (Addr_String (IPv6 x z)) with (addr_body (IPv6 x z) +:+ (if bool_decide (z = "") then "" else "%" +:+ z))%string.
  destruct (bool_decide (z = "")); [|done].
  apply chars_inj. by rewrite chars_app, app_nil_r.
Qed.

Lemma bare_chars a : bare_addr a -> Forall (fun c => addr_char c = true) (chars_of (Addr_String a)) /\ chars_of (Addr_String a) <> [].
Proof.
  intros H. split; [rewrite (bare_body a H); by apply addr_body_chars, H|]. intros E.
  pose proof (ParseAddr_String a (proj1 H) (proj1 (proj2 H))) as Hp. unfold ParseAddr in Hp. by rewrite E in Hp.
Qed.

Lemma string4_no_colon x : has_char ":" (chars_of (string4 x)) = false.
Proof.
  apply (has_char_none (fun c => bool_decide (is_Some (hex_val c)) || is_char c ".")); [done|].
  assert (Hd : forall y, 0 <= y < 256 -> Forall (fun c => bool_decide (is_Some (hex_val c)) || is_char c "." = true) (decs y)).
  { intros y Hy. eapply Forall_impl; [by apply decs_hex|]. intros c Hc. by rewrite bool_decide_true. }
  rewrite string4_dotted. unfold dotted.
  repeat (apply Forall_app; split; [apply Hd; div_lia|apply Forall_cons; split; [done|]]). apply Hd. div_lia.
Qed.

Lemma trim_brackets_addr s : Forall (fun c => addr_char c = true) s -> trim_brackets s = s.
Proof.
  assert (Hl : forall s, Forall (fun c => addr_char c = true) s -> trim_brackets_left s = s).
  { intros s' [|c l Hc _]; [done|]. cbn. by rewrite !(addr_char_not c) by done. }
  intros H. unfold trim_brackets. rewrite (Hl s H), Hl by (by apply Forall_reverse). apply reverse_involutive.
Qed.

Lemma digits_none port d : digit d = false -> Forall (fun c => digit c = true) port -> has_char d port = false.
Proof. apply has_char_none. Qed.

Lemma SplitHostPort_endpoint a port : bare_addr a -> Forall (fun c => digit c = true) port ->
  SplitHostPort (endpoint a port) = Some (chars_of (Addr_String a), port).
Proof.
  intros Ha Hp. destruct (bare_chars a Ha) as [Hc Hne]. unfold SplitHostPort, endpoint.
  assert (Hno : forall d, addr_char d = false -> has_char d (chars_of (Addr_String a)) = false) by (intros d Hd; by apply (has_char_none addr_char)).
  destruct (Addr_Is4 a) eqn:E4.
  - rewrite cut_last_app by (by apply digits_none). cbn [mbind option_bind].
    destruct a as [|x|x z]; try done. change (Addr_String (IPv4 x)) with (string4 x) in *.
    assert (Hb : forall d, addr_char d = false -> is_char ":" d = false -> digit d = false ->
      has_char d (chars_of (string4 x) ++ ":"%char :: port) = false).
    { intros d H1 H2 H3. rewrite has_char_app, Hno by done. change (is_char ":" d || has_char d port = false).
      by rewrite H2, digits_none. }
    rewrite string4_no_colon, !Hb by done. destruct (chars_of (string4 x)) as [|c s] eqn:Es; [done|]. cbn [app].
    rewrite (addr_char_not c) by (done || by inversion Hc). done.
  - set (h := chars_of (Addr_String a)) in *.
    assert (cut_last ":" ("["%char :: h ++ "]"%char :: ":"%char :: port) = Some ("["%char :: h ++ ["]"%char], port)) as ->.
    { rewrite <- (cut_last_app ":" ("["%char :: h ++ ["]"%char]) port) by (by apply digits_none).
      f_equal. cbn. by rewrite <- app_assoc. }
    cbn [mbind option_bind]. change (is_char "[" "[") with true. cbn iota.
    rewrite cut_first_app by (by apply Hno). cbn [mbind option_bind].
    change (is_char ":" ":") with true. rewrite (digits_none port ":") by done. cbn [negb andb].
    rewrite has_char_app, (Hno "["%char) by done.
    change (has_char "[" ("]"%char :: ":"%char :: port)) with (has_char "[" port).
    change (has_char "]" (":"%char :: port)) with (has_char "]" port). by rewrite !digits_none.
Qed.

Lemma endpoint_ends a port : bare_addr a -> Forall (fun c => digit c = true) port -> port <> [] ->
  exists c s d, endpoint a port = c :: s ++ [d] /\ visible c = true /\ visible d = true.
Proof.
  intros Ha Hp Hn. destruct (bare_chars a Ha) as [Hc Hne]. destruct (exists_last Hn) as (p & d & ->).
  assert (Hd : visible d = true).
  { apply Forall_app in Hp as [_ Hp]. inversion Hp as [|? ? Hd _]. revert Hd.
    destruct d as [[] [] [] [] [] [] [] []]; vm_compute; congruence. }
  unfold endpoint. destruct (Addr_Is4 a).
  - destruct (chars_of (Addr_String a)) as [|c s]; [done|]. inversion Hc. exists c, (s ++ ":"%char :: p), d.
    cbn. rewrite <- app_assoc. by split_and!; [..|apply addr_char_visible|].
  - exists "["%char, (chars_of (Addr_String a) ++ "]"%char :: ":"%char :: p), d. rewrite <- app_assoc. by split_and!.
Qed.

(** The daemon warns of an endpoint given by an address exactly if the address is not
    one of the own host. *)
Theorem plaintext_endpoint (cfg : GoBGPConfig) (a : Addr) (port : chars) (Ha : bare_addr a)
    (Hp : Forall (fun c => digit c = true) port) (Hn : port <> []) (He : gb_Enabled cfg = true) (Ht : tls_Enabled (gb_TLS cfg) = false)
    (Hc : gb_Addr cfg = String.string_of_list_ascii (endpoint a port)) :
  GoBGPPlaintextNonLoopback cfg = negb (Addr_IsLoopback a).
Proof.
  unfold GoBGPPlaintextNonLoopback. rewrite He, Ht, Hc. cbn [negb orb].
  destruct (endpoint_ends a port Ha Hp Hn) as (c & s & d & E & Vc & Vd). destruct (bare_chars a Ha) as [Hch Hne].
  assert (goBGPAddrHost (String.string_of_list_ascii (endpoint a port)) = Addr_String a) as ->.
  { unfold goBGPAddrHost. rewrite E, TrimSpace_visible, <- E, SplitHostPort_endpoint, trim_brackets_addr by done. apply string_chars. }
  rewrite bool_decide_false by (intros H; by rewrite H in Hne). unfold EqualFold_lower.
  rewrite bool_decide_false by (by apply addr_not_localhost). by rewrite ParseAddr_String by apply Ha.
Qed.
