(* ===== verification/Lag.v ===== *)
(** * Enforcement of Micro-BFD on a link aggregate ([internal/netio], lag_*.go)

    The actuator of [lag_actuator.go] turns member events of Micro-BFD groups into
    calls of a back end, which changes the members of a bond: through the bonding
    files of sysfs or ovs-vsctl ([lag_backend.go]), through the OVSDB protocol
    ([lag_ovsdb.go]) or through NetworkManager ([lag_networkmanager.go]).  The file
    system, the OVSDB library and the message bus are a record of operations on a
    world of unknown type. *)

From stdpp Require Import strings.
From Stdlib Require Import Ascii.
From S2P Require Import Prelude Packet Netip NetipParse Micro Config.

Local Open Scope Z_scope.

Inductive lag_error :=
| ErrInvalidLAGActuatorMode
| ErrInvalidLAGActuatorAction
| ErrInvalidLAGActuatorBackend
| ErrInvalidLAGOwnerPolicy
| ErrLAGActuatorBackendNil
| ErrUnsupportedLAGActuatorBackend
| ErrUnsupportedLAGOwnerPolicy
| ErrInvalidLAGInterfaceName
| ErrLAGActuatorBackendNotRequired
| ErrOVSDBPortNotFound
| ErrOVSDBInterfaceAmbiguity
| ErrOVSDBPortNotMutated
| ErrOVSDBRowMissingUUID
| ErrOVSDBRowInvalidUUID
| ErrNetworkManagerConnectionNotFound
| ErrExternal (msg : string).

(** A computation that can fail and changes a state. *)
Definition lagM (S A : Type) : Type := S -> go lag_error A * S.

#[export] Instance lagM_ret S : MRet (lagM S) := fun A a s => (Ok a, s).
#[export] Instance lagM_bind S : MBind (lagM S) := fun A B f m s =>
  match m s with
  | (Ok a, s) => f a s
  | (Err e, s) => (Err e, s)
  | (Panic, s) => (Panic, s)
  end.

(** A computation without effect. *)
Definition pure_go {S A} (r : go lag_error A) : lagM S A := fun s => (r, s).

(** ** Policy ([lag_actuator.go]) *)

Record LAGActuatorConfig := mkLAGActuatorConfig {
  lc_Mode : string;
  lc_Backend : string;
  lc_OVSDBEndpoint : string;
  lc_OwnerPolicy : string;
  lc_DownAction : string;
  lc_UpAction : string;
}.

(** The two interfaces, as records of operations on a state. *)
Record LAGActuatorBackend (S : Type) := mkLAGActuatorBackend {
  lb_RemoveMember : string -> string -> lagM S unit;
  lb_AddMember : string -> string -> lagM S unit;
}.
Arguments mkLAGActuatorBackend {S}.
Arguments lb_RemoveMember {S}.
Arguments lb_AddMember {S}.

Record BondLAGClient (S : Type) := mkBondLAGClient {
  RemoveBondInterface : string -> string -> lagM S unit;
  AddBondInterface : string -> string -> lagM S unit;
}.
Arguments mkBondLAGClient {S}.
Arguments RemoveBondInterface {S}.
Arguments AddBondInterface {S}.

Record LAGActuator (S : Type) := mkLAGActuator {
  la_cfg : LAGActuatorConfig;
  la_backend : option (LAGActuatorBackend S);
}.
Arguments mkLAGActuator {S}.
Arguments la_cfg {S}.
Arguments la_backend {S}.

Definition when_err (b : bool) (e : lag_error) : go lag_error unit := if b then Err e else Ok tt.

Definition validateLAGActuatorMode (mode : string) : go lag_error unit :=
  when_err (negb (one_of mode ["disabled"; "dry-run"; "enforce"]%string)) ErrInvalidLAGActuatorMode.

Definition validateLAGActuatorBackend (backend : string) : go lag_error unit :=
  when_err (negb (one_of backend ["auto"; "kernel-bond"; "ovs"; "networkmanager"]%string))
    ErrInvalidLAGActuatorBackend.

Definition validateLAGOwnerPolicy (policy : string) : go lag_error unit :=
  when_err (negb (one_of policy ["refuse-if-managed"; "allow-external"; "networkmanager-dbus"]%string))
    ErrInvalidLAGOwnerPolicy.

Definition validateLAGActuatorAction (action : string) : go lag_error unit :=
  when_err (negb (one_of action ["none"; "remove-member"; "add-member"]%string))
    ErrInvalidLAGActuatorAction.

(** A string or, when it is empty, its default. *)
Definition or_string (s d : string) : string := if bool_decide (s = "") then d else s.

Definition normalizeLAGActuatorConfig (cfg : LAGActuatorConfig) : go lag_error LAGActuatorConfig :=
  let cfg := {| lc_Mode := or_string (lc_Mode cfg) "disabled";
                lc_Backend := or_string (lc_Backend cfg) "auto";
                lc_OVSDBEndpoint := lc_OVSDBEndpoint cfg;
                lc_OwnerPolicy := or_string (lc_OwnerPolicy cfg) "refuse-if-managed";
                lc_DownAction := or_string (lc_DownAction cfg) "remove-member";
                lc_UpAction := or_string (lc_UpAction cfg) "add-member" |} in
  _ ← validateLAGActuatorMode (lc_Mode cfg);
  _ ← validateLAGActuatorBackend (lc_Backend cfg);
  _ ← validateLAGOwnerPolicy (lc_OwnerPolicy cfg);
  _ ← validateLAGActuatorAction (lc_DownAction cfg);
  _ ← validateLAGActuatorAction (lc_UpAction cfg);
  Ok cfg.

Definition NewLAGActuator {S} (cfg : LAGActuatorConfig) (backend : option (LAGActuatorBackend S))
    : go lag_error (LAGActuator S) :=
  normalized ← normalizeLAGActuatorConfig cfg;
  if bool_decide (lc_Mode normalized = "enforce"%string) && match backend with Some _ => false | None => true end
  then Err ErrLAGActuatorBackendNil else
  Ok (mkLAGActuator normalized backend).

Definition decision {S} (a : LAGActuator S) (ev : MicroBFDMemberEvent) : string :=
  if bool_decide (lc_Mode (la_cfg a) = "disabled"%string) then "none"%string else
  if ev_NewState ev =? StateUp then lc_UpAction (la_cfg a) else
  if (ev_OldState ev =? StateUp) && negb (ev_NewState ev =? StateUp) then lc_DownAction (la_cfg a) else
  "none"%string.

(** Calling a method of a nil back end panics. *)
Definition HandleMicroBFDMemberEvent {S} (a : LAGActuator S) (ev : MicroBFDMemberEvent) : lagM S unit :=
  let action := decision a ev in
  if bool_decide (action = "none"%string) then mret tt else
  if negb (bool_decide (lc_Mode (la_cfg a) = "enforce"%string)) then mret tt else
  if bool_decide (action = "remove-member"%string) then
    match la_backend a with
    | Some b => lb_RemoveMember b (ev_LAGInterface ev) (ev_MemberInterface ev)
    | None => pure_go Panic
    end
  else if bool_decide (action = "add-member"%string) then
    match la_backend a with
    | Some b => lb_AddMember b (ev_LAGInterface ev) (ev_MemberInterface ev)
    | None => pure_go Panic
    end
  else mret tt.

(** ** Names and paths

    [filepath.Join] and [filepath.Clean] of the standard library. *)

Fixpoint path_split (s : chars) : list chars :=
  match s with
  | [] => [[]]
  | c :: s =>
      if Ascii.eqb c "/"%char then [] :: path_split s else
      match path_split s with
      | e :: r => (c :: e) :: r
      | [] => [[c]]
      end
  end.

Fixpoint path_join (l : list chars) : chars :=
  match l with
  | [] => []
  | [e] => e
  | e :: l => e ++ "/"%char :: path_join l
  end.

(** [out] holds the elements of the result, the last first. *)
Fixpoint clean_elems (rooted : bool) (out l : list chars) : list chars :=
  match l with
  | [] => reverse out
  | e :: l =>
      if bool_decide (e = []) || bool_decide (e = ["."]%char) then clean_elems rooted out l else
      if bool_decide (e = ["."; "."]%char) then
        match out with
        | p :: out' =>
            if bool_decide (p = ["."; "."]%char) then clean_elems rooted (e :: out) l
            else clean_elems rooted out' l
        | [] => if rooted then clean_elems rooted [] l else clean_elems rooted [e] l
        end
      else clean_elems rooted (e :: out) l
  end.

Definition path_clean (s : chars) : chars :=
  let rooted := match s with c :: _ => Ascii.eqb c "/"%char | [] => false end in
  let body := path_join (clean_elems rooted [] (path_split s)) in
  if rooted then "/"%char :: body else if bool_decide (body = []) then ["."]%char else body.

Fixpoint filepath_Join (l : list string) : string :=
  match l with
  | [] => ""
  | e :: l' =>
      if bool_decide (e = "") then filepath_Join l' else
      String.string_of_list_ascii (path_clean (path_join (chars_of <$> l)))
  end.

Definition maxLinuxInterfaceNameLen : Z := 15.

Definition validateLAGInterfaceName (name : string) : go lag_error unit :=
  when_err
    (bool_decide (name = "") || bool_decide (name = "."%string) || bool_decide (name = ".."%string) ||
     (maxLinuxInterfaceNameLen <? Z.of_nat (String.length name)) ||
     existsb (fun c => Ascii.eqb c "/"%char || (code c =? 0)) (chars_of name))
    ErrInvalidLAGInterfaceName.

(** ** The world outside

    [OperationResult] and [Row] are what the code reads of the OVSDB library's
    types; a path of the message bus is a string. *)

Inductive ovsdb_value :=
| ValUUID (u : string)
| ValString (s : string)
| ValOther.

Record OperationResult := mkOperationResult {
  or_Count : Z;
  or_Rows : list (gmap string ovsdb_value);
}.

Record Operation := mkOperation {
  op_Op : string;
  op_Table : string;
  op_Columns : list string;
  op_Where : list (string * string * string);
  op_Mutations : list (string * string * list string);
  op_Row : list (string * string);
  op_UUIDName : string;
}.

(** What is opened, written and closed: the stage that failed, if any. *)
Inductive file_outcome := FileOk | OpenFailed | WriteFailed | CloseFailed.

(** Settings of a connection: sections of keys; a value that is no string is [None]. *)
Definition nm_settings : Type := gmap string (gmap string (option string)).

(** Results of external calls: an error message or a value. *)
Definition ext (W A : Type) : Type := W -> (string + A) * W.

Record LagEnv (W : Type) := mkLagEnv {
  le_ctx_err : W -> bool;
  le_write : string -> string -> W -> file_outcome * W;
  le_run : string -> list string -> ext W unit;
  le_ovsdb_connect : string -> ext W unit;
  le_Transact : list Operation -> ext W (list OperationResult);
  le_CheckOperationResults : list OperationResult -> list Operation -> option string;
  le_NewOvsSet : list string -> string + list string;
  le_nm_connect : ext W unit;
  le_DeviceByIPInterface : string -> ext W string;
  le_DeviceActiveConnection : string -> ext W string;
  le_DeviceAvailableConnections : string -> ext W (list string);
  le_ActiveConnectionConnection : string -> ext W string;
  le_DeactivateConnection : string -> ext W unit;
  le_ActivateConnection : string -> string -> ext W string;
  le_ConnectionSettings : string -> ext W nm_settings;
}.
Arguments le_ctx_err {W}.
Arguments le_write {W}.
Arguments le_run {W}.
Arguments le_ovsdb_connect {W}.
Arguments le_Transact {W}.
Arguments le_CheckOperationResults {W}.
Arguments le_NewOvsSet {W}.
Arguments le_nm_connect {W}.
Arguments le_DeviceByIPInterface {W}.
Arguments le_DeviceActiveConnection {W}.
Arguments le_DeviceAvailableConnections {W}.
Arguments le_ActiveConnectionConnection {W}.
Arguments le_DeactivateConnection {W}.
Arguments le_ActivateConnection {W}.
Arguments le_ConnectionSettings {W}.

(** The world and the connection cache of the NetworkManager client. *)
Record LagState (W : Type) := mkLagState {
  ls_world : W;
  ls_cache : gmap (string * string) string;
}.
Arguments mkLagState {W}.
Arguments ls_world {W}.
Arguments ls_cache {W}.

Section Backends.
Context {W : Type} (env : LagEnv W).

Definition external {A} (f : ext W A) : lagM (LagState W) A := fun s =>
  let '(r, w) := f (ls_world s) in
  (match r with inl msg => Err (ErrExternal msg) | inr a => Ok a end, mkLagState w (ls_cache s)).

Definition ctx_check : lagM (LagState W) unit := fun s =>
  (if le_ctx_err env (ls_world s) then Err (ErrExternal "context"%string) else Ok tt, s).

Definition names_check (lagInterface memberInterface : string) : go lag_error unit :=
  _ ← validateLAGInterfaceName lagInterface;
  validateLAGInterfaceName memberInterface.

(** ** Bonding files ([lag_backend.go]) *)

Definition writeSlaveCommand (sysfsRoot lagInterface memberInterface prefix : string)
    : lagM (LagState W) unit :=
  _ ← ctx_check;
  _ ← pure_go (names_check lagInterface memberInterface);
  let path := filepath_Join [sysfsRoot; lagInterface; "bonding"; "slaves"]%string in
  external (fun w =>
    let '(r, w) := le_write env path (prefix +:+ memberInterface +:+ String "010"%char "") w in
    (match r with
     | FileOk => inr tt
     | OpenFailed => inl "open"%string
     | WriteFailed => inl "write"%string
     | CloseFailed => inl "close"%string
     end, w)).

Definition NewKernelBondLAGBackend (sysfsRoot : string) : LAGActuatorBackend (LagState W) :=
  let root := or_string sysfsRoot "/sys/class/net" in
  {| lb_RemoveMember := fun lag member => writeSlaveCommand root lag member "-";
     lb_AddMember := fun lag member => writeSlaveCommand root lag member "+" |}.

Definition runBondIfaceCommand (command existenceFlag subcommand lagInterface memberInterface : string)
    : lagM (LagState W) unit :=
  _ ← ctx_check;
  _ ← pure_go (names_check lagInterface memberInterface);
  external (le_run env command [existenceFlag; subcommand; lagInterface; memberInterface]).

Definition NewOVSLAGBackend (command : string) : LAGActuatorBackend (LagState W) :=
  let command := or_string command "ovs-vsctl" in
  {| lb_RemoveMember := runBondIfaceCommand command "--if-exists" "del-bond-iface";
     lb_AddMember := runBondIfaceCommand command "--may-exist" "add-bond-iface" |}.

(** A back end of a client; both clients have the same. *)
Definition client_backend (client : BondLAGClient (LagState W)) : LAGActuatorBackend (LagState W) :=
  {| lb_RemoveMember := fun lag member =>
       _ ← pure_go (names_check lag member); RemoveBondInterface client lag member;
     lb_AddMember := fun lag member =>
       _ ← pure_go (names_check lag member); AddBondInterface client lag member |}.

(** ** OVSDB ([lag_ovsdb.go]) *)

Definition first_result (l : list OperationResult) : go lag_error OperationResult :=
  match l with r :: _ => Ok r | [] => Panic end.

Definition last_result (l : list OperationResult) : go lag_error OperationResult :=
  match last l with Some r => Ok r | None => Panic end.

Definition runCheckedOVSDBOperations (ops : list Operation) : lagM (LagState W) (list OperationResult) :=
  results ← external (le_Transact env ops);
  match le_CheckOperationResults env results ops with
  | Some msg => pure_go (Err (ErrExternal msg))
  | None => mret results
  end.

Definition select_uuid (table name : string) : Operation :=
  {| op_Op := "select"; op_Table := table; op_Columns := ["_uuid"%string];
     op_Where := [("name", "==", name)]%string; op_Mutations := []; op_Row := []; op_UUIDName := "" |}.

Definition requirePort (name : string) : lagM (LagState W) unit :=
  results ← runCheckedOVSDBOperations [select_uuid "Port" name];
  r ← pure_go (first_result results);
  match or_Rows r with
  | [] => pure_go (Err ErrOVSDBPortNotFound)
  | _ => mret tt
  end.

Definition rowUUID (row : gmap string ovsdb_value) : go lag_error string :=
  match row !! "_uuid"%string with
  | None => Err ErrOVSDBRowMissingUUID
  | Some (ValUUID u) => Ok u
  | Some (ValString u) => Ok u
  | Some ValOther => Err ErrOVSDBRowInvalidUUID
  end.

Definition interfaceUUID (name : string) : lagM (LagState W) (option string) :=
  results ← runCheckedOVSDBOperations [select_uuid "Interface" name];
  r ← pure_go (first_result results);
  match or_Rows r with
  | [] => mret None
  | [row] => uuid ← pure_go (rowUUID row); mret (Some uuid)
  | _ => pure_go (Err ErrOVSDBInterfaceAmbiguity)
  end.

Definition buildMutatePortInterfacesOp (bond mutator ifaceUUID : string) : go lag_error Operation :=
  match le_NewOvsSet env [ifaceUUID] with
  | inl msg => Err (ErrExternal msg)
  | inr ifaceSet =>
      Ok {| op_Op := "mutate"; op_Table := "Port"; op_Columns := [];
            op_Where := [("name", "==", bond)]%string;
            op_Mutations := [("interfaces"%string, mutator, ifaceSet)]; op_Row := []; op_UUIDName := "" |}
  end.

Definition buildInsertInterfaceAndMutatePortOps (bond iface : string) : go lag_error (list Operation) :=
  mutateOp ← buildMutatePortInterfacesOp bond "insert" "gobfd_member_interface";
  Ok [{| op_Op := "insert"; op_Table := "Interface"; op_Columns := []; op_Where := []; op_Mutations := [];
         op_Row := [("name"%string, iface)]; op_UUIDName := "gobfd_member_interface" |}; mutateOp].

Definition checkPortMutationCount (result : OperationResult) : go lag_error unit :=
  when_err (or_Count result =? 0) ErrOVSDBPortNotMutated.

Definition mutatePortInterfaces (bond mutator ifaceUUID : string) : lagM (LagState W) unit :=
  op ← pure_go (buildMutatePortInterfacesOp bond mutator ifaceUUID);
  results ← runCheckedOVSDBOperations [op];
  r ← pure_go (first_result results);
  pure_go (checkPortMutationCount r).

Definition OVSDB_RemoveBondInterface (endpoint bond iface : string) : lagM (LagState W) unit :=
  _ ← external (le_ovsdb_connect env endpoint);
  _ ← requirePort bond;
  found ← interfaceUUID iface;
  match found with
  | None => mret tt
  | Some ifaceUUID => mutatePortInterfaces bond "delete" ifaceUUID
  end.

Definition OVSDB_AddBondInterface (endpoint bond iface : string) : lagM (LagState W) unit :=
  _ ← external (le_ovsdb_connect env endpoint);
  _ ← requirePort bond;
  found ← interfaceUUID iface;
  match found with
  | Some ifaceUUID => mutatePortInterfaces bond "insert" ifaceUUID
  | None =>
      ops ← pure_go (buildInsertInterfaceAndMutatePortOps bond iface);
      results ← runCheckedOVSDBOperations ops;
      r ← pure_go (last_result results);
      pure_go (checkPortMutationCount r)
  end.

Definition newLibOVSDBLAGClient (endpoint : string) : BondLAGClient (LagState W) :=
  mkBondLAGClient (OVSDB_RemoveBondInterface endpoint) (OVSDB_AddBondInterface endpoint).

Definition NewOVSDBLAGBackend (endpoint : string) (client : option (BondLAGClient (LagState W)))
    : LAGActuatorBackend (LagState W) :=
  client_backend (match client with
                  | Some c => c
                  | None => newLibOVSDBLAGClient (or_string endpoint "unix:/var/run/openvswitch/db.sock")
                  end).

(** ** NetworkManager ([lag_networkmanager.go]) *)

Definition isNoObjectPath (path : string) : bool :=
  bool_decide (path = "") || bool_decide (path = "/"%string).

Definition rememberConnection (bond iface connection : string) : lagM (LagState W) unit := fun s =>
  (Ok tt, mkLagState (ls_world s) (<[(bond, iface) := connection]> (ls_cache s))).

Definition rememberedConnection (bond iface : string) : lagM (LagState W) (option string) := fun s =>
  (Ok (ls_cache s !! (bond, iface)), s).

Definition networkManagerSettingString (settings : gmap string (option string)) (key : string)
    : string * bool :=
  match settings !! key with
  | Some (Some str) => (str, true)
  | _ => ("", false)
  end.

Definition networkManagerSettingsMatchBondPort (settings : nm_settings) (bond iface : string) : bool :=
  match settings !! "connection"%string with
  | None => false
  | Some connection =>
      let '(interfaceName, ok) := networkManagerSettingString connection "interface-name" in
      if ok && negb (bool_decide (interfaceName = "")) && negb (bool_decide (interfaceName = iface))
      then false else
      let '(controller, ok) := networkManagerSettingString connection "controller" in
      let controller := if negb ok || bool_decide (controller = "")
                        then (networkManagerSettingString connection "master").1 else controller in
      if negb (bool_decide (controller = bond)) then false else
      let '(portType, ok) := networkManagerSettingString connection "port-type" in
      let portType := if negb ok || bool_decide (portType = "")
                      then (networkManagerSettingString connection "slave-type").1 else portType in
      bool_decide (portType = "") || bool_decide (portType = "bond"%string)
  end.

Fixpoint find_connection (available : list string) (bond iface : string) : lagM (LagState W) string :=
  match available with
  | [] => pure_go (Err ErrNetworkManagerConnectionNotFound)
  | connection :: rest =>
      settings ← external (le_ConnectionSettings env connection);
      if networkManagerSettingsMatchBondPort settings bond iface then
        _ ← rememberConnection bond iface connection; mret connection
      else find_connection rest bond iface
  end.

Definition findBondPortConnection (device bond iface : string) : lagM (LagState W) string :=
  available ← external (le_DeviceAvailableConnections env device);
  find_connection available bond iface.

Definition NM_RemoveBondInterface (bond iface : string) : lagM (LagState W) unit :=
  _ ← external (le_nm_connect env);
  device ← external (le_DeviceByIPInterface env iface);
  active ← external (le_DeviceActiveConnection env device);
  if isNoObjectPath active then mret tt else
  connection ← external (le_ActiveConnectionConnection env active);
  _ ← rememberConnection bond iface connection;
  external (le_DeactivateConnection env active).

Definition NM_AddBondInterface (bond iface : string) : lagM (LagState W) unit :=
  _ ← external (le_nm_connect env);
  device ← external (le_DeviceByIPInterface env iface);
  active ← external (le_DeviceActiveConnection env device);
  if negb (isNoObjectPath active) then mret tt else
  remembered ← rememberedConnection bond iface;
  connection ← match remembered with
               | Some connection => mret connection
               | None => findBondPortConnection device bond iface
               end;
  _ ← external (le_ActivateConnection env connection device);
  mret tt.

Definition newDBusNetworkManagerLAGClient : BondLAGClient (LagState W) :=
  mkBondLAGClient NM_RemoveBondInterface NM_AddBondInterface.

Definition NewNetworkManagerLAGBackend (client : option (BondLAGClient (LagState W)))
    : LAGActuatorBackend (LagState W) :=
  client_backend (default newDBusNetworkManagerLAGClient client).

(** ** Selection *)

Definition NewLAGActuatorBackend (cfg : LAGActuatorConfig)
    : go lag_error (LAGActuatorBackend (LagState W)) :=
  normalized ← normalizeLAGActuatorConfig cfg;
  if negb (bool_decide (lc_Mode normalized = "enforce"%string)) then Err ErrLAGActuatorBackendNotRequired else
  if bool_decide (lc_Backend normalized = "kernel-bond"%string) then
    _ ← when_err (negb (bool_decide (lc_OwnerPolicy normalized = "allow-external"%string)))
          ErrUnsupportedLAGOwnerPolicy;
    Ok (NewKernelBondLAGBackend "")
  else if bool_decide (lc_Backend normalized = "ovs"%string) then
    _ ← when_err (negb (bool_decide (lc_OwnerPolicy normalized = "allow-external"%string)))
          ErrUnsupportedLAGOwnerPolicy;
    Ok (NewOVSDBLAGBackend (lc_OVSDBEndpoint normalized) None)
  else if bool_decide (lc_Backend normalized = "networkmanager"%string) then
    _ ← when_err (negb (bool_decide (lc_OwnerPolicy normalized = "networkmanager-dbus"%string)))
          ErrUnsupportedLAGOwnerPolicy;
    Ok (NewNetworkManagerLAGBackend None)
  else if bool_decide (lc_Backend normalized = "auto"%string) then Err ErrUnsupportedLAGActuatorBackend
  else Err ErrInvalidLAGActuatorBackend.

End Backends.
