(* ===== verification/Load.v ===== *)
(** * Loading of the configuration ([internal/config/config.go], Loader)

    Defaults, a YAML file and environment variables are laid over each other in a store
    of the koanf library, from which the configuration is decoded and then validated.
    The library is an interface; its laws are what its documentation says of keys with
    a value. *)

From stdpp Require Import strings gmap pretty.
From Stdlib Require Import Ascii SpecFloat.
From S2P Require Import Prelude Netip NetipParse Strconv Bgp Config Lag.

Local Open Scope Z_scope.

(** ** Values and fields *)

Inductive cvalue :=
| VString (s : string)
| VBool (b : bool)
| VInt (z : Z)
| VFloat (f : spec_float)
| VOther.

Inductive field_kind := KString | KBool | KInt | KFloat | KDuration.

Definition zero_value (k : field_kind) : cvalue :=
  match k with
  | KString => VString ""
  | KBool => VBool false
  | KInt | KDuration => VInt 0
  | KFloat => VFloat (S754_zero false)
  end.

(** A scalar field of the configuration: its key, given by the struct tags, its type
    and its value. *)
Record field := mkField { fd_key : string; fd_kind : field_kind; fd_get : Config -> cvalue }.

Local Notation str_field key get := (mkField key KString (fun c => VString (get c))).
Local Notation bool_field key get := (mkField key KBool (fun c => VBool (get c))).
Local Notation int_field key get := (mkField key KInt (fun c => VInt (get c))).
Local Notation duration_field key get := (mkField key KDuration (fun c => VInt (get c))).
Local Notation float_field key get := (mkField key KFloat (fun c => VFloat (get c))).

Definition config_fields : list field := [
  str_field "grpc.addr" c_GRPC_Addr;
  str_field "metrics.addr" c_Metrics_Addr;
  str_field "metrics.path" c_Metrics_Path;
  str_field "log.level" c_Log_Level;
  str_field "log.format" c_Log_Format;
  duration_field "bfd.default_desired_min_tx" (bc_DefaultDesiredMinTx ∘ c_BFD);
  duration_field "bfd.default_required_min_rx" (bc_DefaultRequiredMinRx ∘ c_BFD);
  int_field "bfd.default_detect_multiplier" (bc_DefaultDetectMultiplier ∘ c_BFD);
  bool_field "bfd.align_intervals" (bc_AlignIntervals ∘ c_BFD);
  int_field "bfd.default_padded_pdu_size" (bc_DefaultPaddedPduSize ∘ c_BFD);
  int_field "socket.read_buffer_size" (sk_ReadBufferSize ∘ c_Socket);
  int_field "socket.write_buffer_size" (sk_WriteBufferSize ∘ c_Socket);
  bool_field "unsolicited.enabled" (uc_Enabled ∘ c_Unsolicited);
  int_field "unsolicited.max_sessions" (uc_MaxSessions ∘ c_Unsolicited);
  duration_field "unsolicited.cleanup_timeout" (uc_CleanupTimeout ∘ c_Unsolicited);
  duration_field "unsolicited.session_defaults.desired_min_tx" (usd_DesiredMinTx ∘ uc_SessionDefaults ∘ c_Unsolicited);
  duration_field "unsolicited.session_defaults.required_min_rx" (usd_RequiredMinRx ∘ uc_SessionDefaults ∘ c_Unsolicited);
  int_field "unsolicited.session_defaults.detect_mult" (usd_DetectMult ∘ uc_SessionDefaults ∘ c_Unsolicited);
  bool_field "echo.enabled" (echo_Enabled ∘ c_Echo);
  duration_field "echo.default_tx_interval" (echo_DefaultTxInterval ∘ c_Echo);
  int_field "echo.default_detect_multiplier" (echo_DefaultDetectMultiplier ∘ c_Echo);
  str_field "micro_bfd.actuator.mode" (ma_Mode ∘ micro_Actuator ∘ c_MicroBFD);
  str_field "micro_bfd.actuator.backend" (ma_Backend ∘ micro_Actuator ∘ c_MicroBFD);
  str_field "micro_bfd.actuator.ovsdb_endpoint" (ma_OVSDBEndpoint ∘ micro_Actuator ∘ c_MicroBFD);
  str_field "micro_bfd.actuator.owner_policy" (ma_OwnerPolicy ∘ micro_Actuator ∘ c_MicroBFD);
  str_field "micro_bfd.actuator.down_action" (ma_DownAction ∘ micro_Actuator ∘ c_MicroBFD);
  str_field "micro_bfd.actuator.up_action" (ma_UpAction ∘ micro_Actuator ∘ c_MicroBFD);
  bool_field "vxlan.enabled" (vx_Enabled ∘ c_VXLAN);
  str_field "vxlan.backend" (vx_Backend ∘ c_VXLAN);
  int_field "vxlan.management_vni" (vx_ManagementVNI ∘ c_VXLAN);
  duration_field "vxlan.default_desired_min_tx" (vx_DefaultDesiredMinTx ∘ c_VXLAN);
  duration_field "vxlan.default_required_min_rx" (vx_DefaultRequiredMinRx ∘ c_VXLAN);
  int_field "vxlan.default_detect_multiplier" (vx_DefaultDetectMultiplier ∘ c_VXLAN);
  bool_field "geneve.enabled" (ge_Enabled ∘ c_Geneve);
  str_field "geneve.backend" (ge_Backend ∘ c_Geneve);
  int_field "geneve.default_vni" (ge_DefaultVNI ∘ c_Geneve);
  duration_field "geneve.default_desired_min_tx" (ge_DefaultDesiredMinTx ∘ c_Geneve);
  duration_field "geneve.default_required_min_rx" (ge_DefaultRequiredMinRx ∘ c_Geneve);
  int_field "geneve.default_detect_multiplier" (ge_DefaultDetectMultiplier ∘ c_Geneve);
  bool_field "gobgp.enabled" (gb_Enabled ∘ c_GoBGP);
  str_field "gobgp.addr" (gb_Addr ∘ c_GoBGP);
  str_field "gobgp.strategy" (gb_Strategy ∘ c_GoBGP);
  duration_field "gobgp.action_timeout" (gb_ActionTimeout ∘ c_GoBGP);
  bool_field "gobgp.tls.enabled" (tls_Enabled ∘ gb_TLS ∘ c_GoBGP);
  str_field "gobgp.tls.ca_file" (tls_CAFile ∘ gb_TLS ∘ c_GoBGP);
  str_field "gobgp.tls.server_name" (tls_ServerName ∘ gb_TLS ∘ c_GoBGP);
  bool_field "gobgp.dampening.enabled" (gd_Enabled ∘ gb_Dampening ∘ c_GoBGP);
  float_field "gobgp.dampening.suppress_threshold" (gd_SuppressThreshold ∘ gb_Dampening ∘ c_GoBGP);
  float_field "gobgp.dampening.reuse_threshold" (gd_ReuseThreshold ∘ gb_Dampening ∘ c_GoBGP);
  duration_field "gobgp.dampening.max_suppress_time" (gd_MaxSuppressTime ∘ gb_Dampening ∘ c_GoBGP);
  duration_field "gobgp.dampening.half_life" (gd_HalfLife ∘ gb_Dampening ∘ c_GoBGP)
].

Definition config_keys : list string := fd_key <$> config_fields.

(** ** Environment variables *)

Definition envPrefix : string := "GOBFD_".

Definition envKeyMapper (s : string) : string :=
  replace_char "_" "." (ToLower (default s (cut_prefix envPrefix s))).

Example envKeyMapper_examples :
  envKeyMapper "GOBFD_GRPC_ADDR" = "grpc.addr"%string /\ envKeyMapper "GOBFD_LOG_LEVEL" = "log.level"%string /\
  envKeyMapper "GOBFD_MICRO_BFD_ACTUATOR_MODE" = "micro.bfd.actuator.mode"%string.
Proof. vm_compute. repeat split; reflexivity. Qed.

(** ** The defaults as a layer *)

Definition defaultMap (defaults : Config) : list (string * cvalue) := [
  ("grpc.addr", VString (c_GRPC_Addr defaults));
  ("metrics.addr", VString (c_Metrics_Addr defaults));
  ("metrics.path", VString (c_Metrics_Path defaults));
  ("log.level", VString (c_Log_Level defaults));
  ("log.format", VString (c_Log_Format defaults));
  ("bfd.default_desired_min_tx", VString (Duration_String (bc_DefaultDesiredMinTx (c_BFD defaults))));
  ("bfd.default_required_min_rx", VString (Duration_String (bc_DefaultRequiredMinRx (c_BFD defaults))));
  ("bfd.default_detect_multiplier", VInt (bc_DefaultDetectMultiplier (c_BFD defaults)));
  ("bfd.align_intervals", VBool (bc_AlignIntervals (c_BFD defaults)));
  ("micro_bfd.actuator.mode", VString (ma_Mode (micro_Actuator (c_MicroBFD defaults))));
  ("micro_bfd.actuator.backend", VString (ma_Backend (micro_Actuator (c_MicroBFD defaults))));
  ("micro_bfd.actuator.ovsdb_endpoint", VString (ma_OVSDBEndpoint (micro_Actuator (c_MicroBFD defaults))));
  ("micro_bfd.actuator.owner_policy", VString (ma_OwnerPolicy (micro_Actuator (c_MicroBFD defaults))));
  ("micro_bfd.actuator.down_action", VString (ma_DownAction (micro_Actuator (c_MicroBFD defaults))));
  ("micro_bfd.actuator.up_action", VString (ma_UpAction (micro_Actuator (c_MicroBFD defaults))));
  ("vxlan.backend", VString (vx_Backend (c_VXLAN defaults)));
  ("geneve.backend", VString (ge_Backend (c_Geneve defaults)));
  ("gobgp.enabled", VBool (gb_Enabled (c_GoBGP defaults)));
  ("gobgp.addr", VString (gb_Addr (c_GoBGP defaults)));
  ("gobgp.strategy", VString (gb_Strategy (c_GoBGP defaults)));
  ("gobgp.action_timeout", VString (Duration_String (gb_ActionTimeout (c_GoBGP defaults))));
  ("gobgp.tls.enabled", VBool (tls_Enabled (gb_TLS (c_GoBGP defaults))));
  ("gobgp.tls.ca_file", VString (tls_CAFile (gb_TLS (c_GoBGP defaults))));
  ("gobgp.tls.server_name", VString (tls_ServerName (gb_TLS (c_GoBGP defaults))));
  ("gobgp.dampening.enabled", VBool (gd_Enabled (gb_Dampening (c_GoBGP defaults))));
  ("gobgp.dampening.suppress_threshold", VFloat (gd_SuppressThreshold (gb_Dampening (c_GoBGP defaults))));
  ("gobgp.dampening.reuse_threshold", VFloat (gd_ReuseThreshold (gb_Dampening (c_GoBGP defaults))));
  ("gobgp.dampening.max_suppress_time", VString (Duration_String (gd_MaxSuppressTime (gb_Dampening (c_GoBGP defaults)))));
  ("gobgp.dampening.half_life", VString (Duration_String (gd_HalfLife (gb_Dampening (c_GoBGP defaults)))))
]%string.

(** ** The library *)

Class Koanf := {
  koanf : Type;
  koanf_New : koanf;
  koanf_Set : string -> cvalue -> koanf -> option koanf;
  (** the parsed file at a path on top *)
  koanf_Load_file : string -> koanf -> option koanf;
  (** the variables with a prefix on top, under the keys a function gives them *)
  koanf_Load_env : string -> (string -> string) -> list (string * string) -> koanf -> option koanf;
  koanf_Unmarshal : koanf -> option Config;
  koanf_Get : string -> koanf -> option cvalue;
  (** what the file at a path has under a key; whether it has a value above the key *)
  file_value : string -> string -> option cvalue;
  file_shadows : string -> string -> bool;
  (** the values a field of a kind may get from a value of the store *)
  decodes : field_kind -> cvalue -> cvalue -> Prop;
}.

(** One key lies below the other. *)
Definition nested (a b : string) : Prop :=
  (exists c, b = a +:+ "." +:+ c) \/ (exists c, a = b +:+ "." +:+ c).

(** The variables that the loader reads and that get the key [k]. *)
Definition sets_key (k : string) (var : string * string) : Prop :=
  is_Some (cut_prefix envPrefix var.1) /\ envKeyMapper var.1 = k.

Definition env_clear (k : string) (vars : list (string * string)) : Prop :=
  forall var k', var ∈ vars -> sets_key k' var -> ~ nested k' k.

Class KoanfLaws (K : Koanf) := {
  Get_New k : k ∈ config_keys -> koanf_Get k koanf_New = None;
  Get_Set k v s s' k' : k ∈ config_keys -> k' ∈ config_keys -> koanf_Set k v s = Some s' ->
    koanf_Get k' s' = if decide (k = k') then Some v else koanf_Get k' s;
  Get_file path s s' k : k ∈ config_keys -> koanf_Load_file path s = Some s' -> file_shadows path k = false ->
    koanf_Get k s' = match file_value path k with Some v => Some v | None => koanf_Get k s end;
  Get_env vars s s' k : k ∈ config_keys -> koanf_Load_env envPrefix envKeyMapper vars s = Some s' -> env_clear k vars ->
    (exists var, var ∈ vars /\ sets_key k var /\ koanf_Get k s' = Some (VString var.2)) \/
    (forall var, var ∈ vars -> ~ sets_key k var) /\ koanf_Get k s' = koanf_Get k s;
  Unmarshal_field s cfg f : koanf_Unmarshal s = Some cfg -> f ∈ config_fields ->
    match koanf_Get (fd_key f) s with
    | Some v => decodes (fd_kind f) v (fd_get f cfg)
    | None => fd_get f cfg = zero_value (fd_kind f)
    end;
  decodes_string s x : decodes KString (VString s) x -> x = VString s;
  decodes_bool b x : decodes KBool (VBool b) x -> x = VBool b;
  decodes_int z x : decodes KInt (VInt z) x -> x = VInt z;
  decodes_float z x : decodes KFloat (VFloat z) x -> x = VFloat z;
  decodes_duration s d x : decodes KDuration (VString s) x -> ParseDuration s = Some d -> x = VInt d;
}.

(** ** Paths ([filepath.Dir] and [filepath.Base]) *)

Fixpoint after_last_slash (cur s : chars) : chars :=
  match s with
  | [] => cur
  | c :: s' => if is_char c "/" then after_last_slash s' s' else after_last_slash cur s'
  end.

Fixpoint drop_slashes (s : chars) : chars :=
  match s with
  | c :: s' => if is_char c "/" then drop_slashes s' else s
  | [] => []
  end.

Definition filepath_Dir (path : string) : string :=
  let s := chars_of path in
  String.string_of_list_ascii (path_clean (take (length s - length (after_last_slash s s)) s)).

Definition filepath_Base (path : string) : string :=
  if bool_decide (path = "") then "." else
  let s := reverse (drop_slashes (reverse (chars_of path))) in
  let b := after_last_slash s s in
  if bool_decide (b = []) then "/" else String.string_of_list_ascii b.

Example filepath_examples :
  filepath_Dir "/etc/gobfd/gobfd.yml" = "/etc/gobfd"%string /\ filepath_Base "/etc/gobfd/gobfd.yml" = "gobfd.yml"%string /\
  filepath_Dir "gobfd.yml" = "."%string /\ filepath_Base "gobfd.yml" = "gobfd.yml"%string /\
  filepath_Dir "a/../b/" = "b"%string /\ filepath_Base "a/b//" = "b"%string /\ filepath_Dir "/x" = "/"%string /\
  filepath_Base "/" = "/"%string /\ filepath_Base "" = "."%string /\ filepath_Dir "" = "."%string.
Proof. vm_compute. repeat split; reflexivity. Qed.

(** ** The loader *)

Inductive load_error :=
| ErrOpenRoot
| ErrOpenFile
| ErrLoadDefaults
| ErrLoadFile
| ErrLoadEnv
| ErrUnmarshal
| ErrValidate (e : config_error).

(** The directory and the file that can be opened. *)
Record FileSystem := mkFileSystem { fs_OpenRoot : string -> bool; fs_Open : string -> string -> bool }.

Definition from_lib {A} (e : load_error) (o : option A) : go load_error A :=
  match o with Some a => Ok a | None => Err e end.

Section Loader.
Context `{K : Koanf}.

Fixpoint set_all (l : list (string * cvalue)) (k : koanf) : go load_error koanf :=
  match l with
  | [] => Ok k
  | (key, val) :: l => k ← from_lib ErrLoadDefaults (koanf_Set key val k); set_all l k
  end.

(** [ord]: the iteration of the map. *)
Definition loadDefaults (ord : list (string * cvalue) -> list (string * cvalue)) (k : koanf) (defaults : Config)
    : go load_error koanf :=
  set_all (ord (defaultMap defaults)) k.

Definition Load (ord : list (string * cvalue) -> list (string * cvalue)) (fs : FileSystem) (environ : list (string * string))
    (path : string) : go load_error Config :=
  let dir := filepath_Dir path in
  let base := filepath_Base path in
  if negb (fs_OpenRoot fs dir) then Err ErrOpenRoot else
  if negb (fs_Open fs dir base) then Err ErrOpenFile else
  k ← loadDefaults ord koanf_New DefaultConfig;
  k ← from_lib ErrLoadFile (koanf_Load_file path k);
  k ← from_lib ErrLoadEnv (koanf_Load_env envPrefix envKeyMapper environ k);
  cfg ← from_lib ErrUnmarshal (koanf_Unmarshal k);
  match Validate cfg with
  | Ok _ => Ok cfg
  | Err e => Err (ErrValidate e)
  | Panic => Panic
  end.

(** ** The layers *)

Context {KL : KoanfLaws K}.

Definition default_value (k : string) : option cvalue := (list_to_map (defaultMap DefaultConfig) : gmap string cvalue) !! k.

Lemma defaultMap_keys : NoDup (defaultMap DefaultConfig).*1 /\ (defaultMap DefaultConfig).*1 ⊆ config_keys.
Proof.
  split; [by apply (bool_decide_unpack _); vm_compute|]. unfold subseteq, list_subseteq. apply Forall_forall.
  by apply (bool_decide_unpack _); vm_compute.
Qed.

Lemma set_all_get l s s' k : NoDup l.*1 -> l.*1 ⊆ config_keys -> k ∈ config_keys -> set_all l s = Ok s' ->
  koanf_Get k s' = match (list_to_map l : gmap string cvalue) !! k with Some v => Some v | None => koanf_Get k s end.
Proof.
  intros Hnd Hin Hk. revert s. induction l as [|[key v] l IH]; intros s; cbn [set_all]; [by intros [= ->]|].
  cbn in Hnd, Hin. apply NoDup_cons in Hnd as [Hn Hnd].
  unfold from_lib. destruct (koanf_Set key v s) as [s1|] eqn:Es; cbn [mbind go_bind]; [|done]. intros E.
  assert (Hkey : key ∈ config_keys) by (apply Hin; left).
  rewrite (IH Hnd (fun x Hx => Hin x (list_elem_of_further _ _ _ Hx)) s1 E), (Get_Set key v s s1 k Hkey Hk Es). cbn [list_to_map foldr].
  destruct (decide (key = k)) as [->|Hne]; [|by rewrite lookup_insert_ne]. rewrite lookup_insert_eq.
  by rewrite (not_elem_of_list_to_map_1 _ _ Hn).
Qed.

Lemma loadDefaults_get ord s k : (forall l, ord l ≡ₚ l) -> k ∈ config_keys -> loadDefaults ord koanf_New DefaultConfig = Ok s ->
  koanf_Get k s = default_value k.
Proof.
  intros Ho Hk E. destruct defaultMap_keys as [Hnd Hin]. pose proof (Ho (defaultMap DefaultConfig)) as P.
  unfold loadDefaults in E. apply (set_all_get _ _ _ k) in E; [|by rewrite P|by rewrite P|done].
  rewrite E, (Get_New k Hk). clear E. unfold default_value.
  assert ((list_to_map (ord (defaultMap DefaultConfig)) : gmap string cvalue) = list_to_map (defaultMap DefaultConfig)) as ->.
  { apply list_to_map_proper; [by rewrite P|done]. }
  by destruct (list_to_map (M := gmap string cvalue) (defaultMap DefaultConfig) !! k).
Qed.

(** The value of a default, decoded into its field, is the default configuration's. *)
Lemma default_decodes f v x : f ∈ config_fields -> default_value (fd_key f) = Some v -> decodes (fd_kind f) v x ->
  x = fd_get f DefaultConfig.
Proof.
  enough (H : Forall (fun f => forall v x, default_value (fd_key f) = Some v -> decodes (fd_kind f) v x ->
                      x = fd_get f DefaultConfig) config_fields) by (intros Hf; exact (proj1 (Forall_forall _ _) H f Hf v x)).
  clear f v x.
  repeat constructor; intros v x E Hd; vm_compute in E; try discriminate E; apply (inj Some) in E; subst v.
  all: first [by apply decodes_string in Hd|by apply decodes_bool in Hd|by apply decodes_int in Hd|by apply decodes_float in Hd
             |by eapply decodes_duration in Hd; [|vm_compute; reflexivity]].
Qed.

(** The fields whose default is not in the layer. *)
Definition lost_defaults : list string := ["socket.read_buffer_size"; "socket.write_buffer_size"].

Lemma no_default_is_zero f : f ∈ config_fields -> default_value (fd_key f) = None ->
  zero_value (fd_kind f) = if decide (fd_key f ∈ lost_defaults) then VInt 0 else fd_get f DefaultConfig.
Proof.
  intros Hf. revert f Hf. refine (proj1 (Forall_forall _ _) _).
  repeat constructor; intros E; vm_compute in E; try discriminate E; reflexivity.
Qed.

(** No variable reaches a key with an underscore. *)
Lemma sets_key_plain k var : sets_key k var -> "_"%char ∉ chars_of k.
Proof.
  intros [_ <-]. unfold envKeyMapper, replace_char, chars_of at 1. rewrite String.list_ascii_of_string_of_list_ascii. intros (c & Hc & _)%list_elem_of_fmap.
  destruct (is_char c "_") eqn:E; [done|]. subst c. done.
Qed.

Lemma from_lib_Ok {A} e (o : option A) a : from_lib e o = Ok a -> o = Some a.
Proof. destruct o; [by intros [= ->]|done]. Qed.

(** The steps of a successful load. *)
Lemma Load_Ok ord fs environ path cfg : Load ord fs environ path = Ok cfg ->
  exists k0 k1 k2, loadDefaults ord koanf_New DefaultConfig = Ok k0 /\ koanf_Load_file path k0 = Some k1 /\
    koanf_Load_env envPrefix envKeyMapper environ k1 = Some k2 /\ koanf_Unmarshal k2 = Some cfg /\ Validate cfg = Ok tt.
Proof.
  unfold Load. destruct (negb _); [done|]. destruct (negb _); [done|].
  intros (k0 & E0 & H)%go_bind_Ok. apply go_bind_Ok in H as (k1 & E1%from_lib_Ok & H).
  apply go_bind_Ok in H as (k2 & E2%from_lib_Ok & H). apply go_bind_Ok in H as (cfg' & E3%from_lib_Ok & H).
  destruct (Validate cfg') as [[]|e|] eqn:Ev; [|done|done]. injection H as <-. by exists k0, k1, k2.
Qed.


End Loader.

(** ** A store of flat keys

    An implementation of the interface: a map from keys to values, files that have
    values for some keys. *)
Section Flat.
Context (yaml : string -> gmap string cvalue).

Definition decode (k : field_kind) (v : cvalue) : option cvalue :=
  match k, v with
  | KString, VString _ | KBool, VBool _ | KInt, VInt _ | KFloat, VFloat _ | KDuration, VInt _ => Some v
  | KInt, VString s => VInt <$> Atoi s
  | KDuration, VString s => VInt <$> ParseDuration s
  | _, _ => None
  end.

Local Notation flat := (gmap string cvalue).

Definition flat_value (m : flat) (k : field_kind) (key : string) : cvalue :=
  match m !! key with Some v => default (zero_value k) (decode k v) | None => zero_value k end.

Definition flat_str (m : flat) (key : string) : string := match flat_value m KString key with VString s => s | _ => "" end.
Definition flat_bool (m : flat) (key : string) : bool := match flat_value m KBool key with VBool b => b | _ => false end.
Definition flat_int (m : flat) (key : string) : Z := match flat_value m KInt key with VInt z => z | _ => 0 end.
Definition flat_duration (m : flat) (key : string) : Z := match flat_value m KDuration key with VInt z => z | _ => 0 end.
Definition flat_float (m : flat) (key : string) : spec_float :=
  match flat_value m KFloat key with VFloat f => f | _ => S754_zero false end.

Definition flat_config (m : flat) : Config :=
  let str := flat_str m in let bool := flat_bool m in let int := flat_int m in let dur := flat_duration m in
  {| c_GRPC_Addr := str "grpc.addr"; c_Metrics_Addr := str "metrics.addr"; c_Metrics_Path := str "metrics.path";
     c_Log_Level := str "log.level"; c_Log_Format := str "log.format";
     c_BFD := {| bc_DefaultDesiredMinTx := dur "bfd.default_desired_min_tx";
                 bc_DefaultRequiredMinRx := dur "bfd.default_required_min_rx";
                 bc_DefaultDetectMultiplier := int "bfd.default_detect_multiplier";
                 bc_AlignIntervals := bool "bfd.align_intervals";
                 bc_DefaultPaddedPduSize := int "bfd.default_padded_pdu_size" |};
     c_Socket := {| sk_ReadBufferSize := int "socket.read_buffer_size"; sk_WriteBufferSize := int "socket.write_buffer_size" |};
     c_Unsolicited := {| uc_Enabled := bool "unsolicited.enabled"; uc_MaxSessions := int "unsolicited.max_sessions";
                         uc_CleanupTimeout := dur "unsolicited.cleanup_timeout"; uc_Interfaces := ∅;
                         uc_SessionDefaults := mkUnsolicitedSessionDefaultsConfig
                           (dur "unsolicited.session_defaults.desired_min_tx")
                           (dur "unsolicited.session_defaults.required_min_rx")
                           (int "unsolicited.session_defaults.detect_mult") |};
     c_Echo := {| echo_Enabled := bool "echo.enabled"; echo_DefaultTxInterval := dur "echo.default_tx_interval";
                  echo_DefaultDetectMultiplier := int "echo.default_detect_multiplier"; echo_Peers := [] |};
     c_MicroBFD := {| micro_Groups := [];
                      micro_Actuator := {| ma_Mode := str "micro_bfd.actuator.mode"; ma_Backend := str "micro_bfd.actuator.backend";
                        ma_OVSDBEndpoint := str "micro_bfd.actuator.ovsdb_endpoint";
                        ma_OwnerPolicy := str "micro_bfd.actuator.owner_policy";
                        ma_DownAction := str "micro_bfd.actuator.down_action"; ma_UpAction := str "micro_bfd.actuator.up_action" |} |};
     c_VXLAN := {| vx_Enabled := bool "vxlan.enabled"; vx_Backend := str "vxlan.backend";
                   vx_ManagementVNI := int "vxlan.management_vni"; vx_DefaultDesiredMinTx := dur "vxlan.default_desired_min_tx";
                   vx_DefaultRequiredMinRx := dur "vxlan.default_required_min_rx";
                   vx_DefaultDetectMultiplier := int "vxlan.default_detect_multiplier"; vx_Peers := [] |};
     c_Geneve := {| ge_Enabled := bool "geneve.enabled"; ge_Backend := str "geneve.backend";
                    ge_DefaultVNI := int "geneve.default_vni"; ge_DefaultDesiredMinTx := dur "geneve.default_desired_min_tx";
                    ge_DefaultRequiredMinRx := dur "geneve.default_required_min_rx";
                    ge_DefaultDetectMultiplier := int "geneve.default_detect_multiplier"; ge_Peers := [] |};
     c_GoBGP := {| gb_Enabled := bool "gobgp.enabled"; gb_Addr := str "gobgp.addr"; gb_Strategy := str "gobgp.strategy";
                   gb_ActionTimeout := dur "gobgp.action_timeout";
                   gb_TLS := mkGoBGPTLSConfig (bool "gobgp.tls.enabled") (str "gobgp.tls.ca_file") (str "gobgp.tls.server_name");
                   gb_Dampening := {| gd_Enabled := bool "gobgp.dampening.enabled";
                     gd_SuppressThreshold := flat_float m "gobgp.dampening.suppress_threshold";
                     gd_ReuseThreshold := flat_float m "gobgp.dampening.reuse_threshold";
                     gd_MaxSuppressTime := dur "gobgp.dampening.max_suppress_time";
                     gd_HalfLife := dur "gobgp.dampening.half_life" |} |};
     c_Sessions := [] |}.

Definition decodable (m : flat) (f : field) : bool :=
  match m !! fd_key f with Some v => bool_decide (is_Some (decode (fd_kind f) v)) | None => true end.

Definition flat_env (prefix : string) (cb : string -> string) (vars : list (string * string)) (m : flat) : flat :=
  fold_left (fun m var => if cut_prefix prefix var.1 then <[cb var.1 := VString var.2]> m else m) vars m.

#[local] Instance flat_koanf : Koanf := {|
  koanf := flat;
  koanf_New := ∅;
  koanf_Set := fun k v m => Some (<[k := v]> m);
  koanf_Load_file := fun path m => Some (yaml path ∪ m);
  koanf_Load_env := fun prefix cb vars m => Some (flat_env prefix cb vars m);
  koanf_Unmarshal := fun m => if forallb (decodable m) config_fields then Some (flat_config m) else None;
  koanf_Get := fun k m => m !! k;
  file_value := fun path k => yaml path !! k;
  file_shadows := fun _ _ => false;
  decodes := fun k v x => decode k v = Some x;
|}.

Lemma flat_fields m f : f ∈ config_fields -> fd_get f (flat_config m) = flat_value m (fd_kind f) (fd_key f).
Proof.
  assert (Hd : forall k key, match flat_value m k key, k with
    | VString _, KString | VBool _, KBool | VInt _, KInt | VInt _, KDuration | VFloat _, KFloat => True
    | _, _ => False end).
  { intros k key. unfold flat_value. destruct (m !! key) as [v|]; [|by destruct k]. destruct k, v; cbn; try done.
    - by destruct (Atoi s).
    - by destruct (ParseDuration s). }
  revert f. refine (proj1 (Forall_forall _ _) _).
  repeat constructor; cbn; unfold flat_str, flat_bool, flat_int, flat_duration, flat_float.
  all: match goal with |- context [flat_value ?x ?k ?key] => specialize (Hd k key); by destruct (flat_value x k key) end.
Qed.

Lemma flat_env_get vars m k :
  (exists var, var ∈ vars /\ sets_key k var /\ flat_env envPrefix envKeyMapper vars m !! k = Some (VString var.2)) \/
  (forall var, var ∈ vars -> ~ sets_key k var) /\ flat_env envPrefix envKeyMapper vars m !! k = m !! k.
Proof.
  induction vars as [|var vars IH] using rev_ind; [right; split; [by intros ? ?%not_elem_of_nil|done]|].
  unfold flat_env. rewrite fold_left_app. cbn [fold_left]. fold (flat_env envPrefix envKeyMapper vars m).
  destruct (cut_prefix envPrefix var.1) eqn:Ep.
  2: { destruct IH as [(v & Hv & Hs & G)|[Hn G]]; [left; exists v; set_solver|right; split; [|done]].
       intros v [Hv| ->%list_elem_of_singleton]%elem_of_app; [by apply Hn|]. intros [[? E] _]. congruence. }
  destruct (decide (envKeyMapper var.1 = k)) as [<-|Hne].
  { left. exists var. rewrite lookup_insert_eq. split; [set_solver|]. split; [|done]. split; [by eexists|done]. }
  rewrite lookup_insert_ne by done. destruct IH as [(v & Hv & Hs & G)|[Hn G]]; [left; exists v; set_solver|right; split; [|done]].
  intros v [Hv| ->%list_elem_of_singleton]%elem_of_app; [by apply Hn|]. by intros [_ ?].
Qed.

Lemma flat_Unmarshal m cfg f : (if forallb (decodable m) config_fields then Some (flat_config m) else None) = Some cfg ->
  f ∈ config_fields ->
  match m !! fd_key f with
  | Some v => decode (fd_kind f) v = Some (fd_get f cfg)
  | None => fd_get f cfg = zero_value (fd_kind f)
  end.
Proof.
  destruct (forallb (decodable m) config_fields) eqn:Hall; [|done]. intros [= <-] Hf. rewrite flat_fields by done.
  rewrite forallb_forall in Hall. specialize (Hall f (proj1 (list_elem_of_In _ _) Hf)). unfold decodable, flat_value in *.
  destruct (m !! fd_key f) as [v|]; [|done]. apply bool_decide_eq_true in Hall as [x ->]. done.
Qed.

Lemma flat_laws : KoanfLaws flat_koanf.
Proof.
  split.
  - intros. apply lookup_empty.
  - intros k v s s' k' _ _ [= <-]. destruct (decide (k = k')) as [->|?]; [apply lookup_insert_eq|by apply lookup_insert_ne].
  - intros path s s' k _ [= <-] _. cbn. rewrite lookup_union.
    match goal with |- union ?a ?b = _ => by destruct a, b end.
  - intros vars s s' k _ [= <-] _. apply flat_env_get.
  - apply flat_Unmarshal.
  - by intros s x [= <-].
  - by intros s x [= <-].
  - by intros s x [= <-].
  - by intros s x [= <-].
  - intros s d x H E. cbn in H. rewrite E in H. by injection H as <-.
Qed.

End Flat.

(** A file with a log level and a metrics path, and three variables. *)
Definition sample_yaml (path : string) : gmap string cvalue :=
  {["log.level"%string := VString "debug"; "metrics.path"%string := VString "/stats"; "bfd.default_desired_min_tx"%string := VString "300ms"]}.

Definition sample_environ : list (string * string) :=
  [("GOBFD_LOG_LEVEL", "warn"); ("GOBFD_MICRO_BFD_ACTUATOR_MODE", "enforce"); ("HOME", "/root")]%string.

Definition any_files : FileSystem := mkFileSystem (fun _ => true) (fun _ _ => true).

Definition sample_loaded : go load_error Config :=
  @Load (flat_koanf sample_yaml) id any_files sample_environ "/etc/gobfd/gobfd.yml".

