(* ===== verification/LagProps.v ===== *)
(** * The members of a bond follow Micro-BFD

    What a back end promises, as an interface; that the actuator behind the manager
    keeps the members of the bonds equal to the members that are Up; and that the
    back ends keep the promise, each under the documented behaviour of what it
    calls. *)

From stdpp Require Import strings relations.
From Stdlib Require Import Ascii.
From S2P Require Import Prelude Packet Netip NetipParse Session Micro Config Manager ManagerInv Lag.

Local Open Scope Z_scope.

(** ** The promise of a back end

    [members s bond] are the interfaces in a bond; [pairs] are the members the back
    end is used for. *)

Record follows {S} (inv : S -> Prop) (members : S -> string -> gset string)
    (pairs : string -> string -> Prop) (b : LAGActuatorBackend S) : Prop := {
  fo_remove : forall s bond i r s', inv s -> pairs bond i -> lb_RemoveMember b bond i s = (r, s') ->
    inv s' /\ r <> Panic /\ (r = Ok tt -> i ∉ members s' bond) /\
    (forall bond' i', pairs bond' i' -> i' <> i -> i' ∈ members s' bond' <-> i' ∈ members s bond');
  fo_add : forall s bond i r s', inv s -> pairs bond i -> lb_AddMember b bond i s = (r, s') ->
    inv s' /\ r <> Panic /\ (r = Ok tt -> i ∈ members s' bond) /\
    (forall bond' i', pairs bond' i' -> i' <> i -> i' ∈ members s' bond' <-> i' ∈ members s bond');
}.

(** ** Dispatch *)

Definition member_state (m : Manager) (name i : string) : option Z :=
  g ← m_microGroups m !! name; e ← g_members g !! i; Some (me_state e).

(** What no dispatch changes: the bond and the member names of every group. *)
Definition shape (m : Manager) : gmap string (string * gset string) :=
  (fun g => (g_lagInterface g, dom (g_members g))) <$> m_microGroups m.

Lemma UpdateMemberState_spec k st d g e :
  g_members g !! k = Some e ->
  exists ch g' e', UpdateMemberState k st d g = (Ok ch, g') /\ g_lagInterface g' = g_lagInterface g /\
    g_members g' = <[k := e']> (g_members g) /\ me_state e' = st.
Proof.
  intros He. unfold UpdateMemberState. rewrite He.
  destruct (Z.eqb_spec (me_state e) st) as [<-|Hne].
  - exists false, g, e. split_and!; [done..| |done]. by rewrite insert_id.
  - unfold reevaluate. cbn. eexists _, _, _. split_and!; [reflexivity|..]; cbn;
      repeat case_match; reflexivity.
Qed.

(** The event a state change becomes, for the group of a bond. *)
Record event_of (sc : StateChange) (bond : string) (ev : MicroBFDMemberEvent) : Prop := {
  eo_bond : ev_LAGInterface ev = bond;
  eo_member : ev_MemberInterface ev = sc_Interface sc;
  eo_old : ev_OldState ev = sc_OldState sc;
  eo_new : ev_NewState ev = sc_NewState sc;
}.

Lemma dispatch_groups_spec sc gs m :
  m_hasMicroActuator m = true -> (forall n g, (n, g) ∈ gs -> m_microGroups m !! n = Some g) ->
  (dispatch_groups sc gs m = m /\ (forall n g, (n, g) ∈ gs -> g_members g !! sc_Interface sc = None)) \/
  (exists n g g' e' ev, m_microGroups m !! n = Some g /\ is_Some (g_members g !! sc_Interface sc) /\
     g_lagInterface g' = g_lagInterface g /\ g_members g' = <[sc_Interface sc := e']> (g_members g) /\
     me_state e' = sc_NewState sc /\ event_of sc (g_lagInterface g) ev /\
     dispatch_groups sc gs m =
       {| m with m_microGroups := <[n := g']> (m_microGroups m); m_actuated := m_actuated m ++ [ev] |}).
Proof.
  intros Ha. induction gs as [|[n g] gs IH]; intros Hgs; [left; split; [done|by intros ???%elem_of_nil]|].
  cbn [dispatch_groups]. destruct (g_members g !! sc_Interface sc) as [e|] eqn:He.
  - right. destruct (UpdateMemberState_spec _ (sc_NewState sc) (sc_LocalDiscr sc) g e He)
      as (ch & g' & e' & -> & Hl & Hm & Hs).
    exists n, g, g', e'. unfold handleMicroBFDActuator. cbn. rewrite Ha. cbn.
    eexists. split_and!; [apply Hgs; left|by rewrite He|done..| |reflexivity]. by split.
  - replace (UpdateMemberState _ _ _ g) with ((Err ErrMicroBFDMemberNotFound, g) : go micro_error bool * _)
      by (unfold UpdateMemberState; by rewrite He).
    destruct IH as [[E Hno]|IH]; [intros; apply Hgs; by right| |by right].
    left. split; [done|]. intros n' g' [[= -> ->]|Hin]%elem_of_cons; [done|by apply (Hno n')].
Qed.

Lemma shape_insert m n g g' :
  m_microGroups m !! n = Some g -> g_lagInterface g' = g_lagInterface g ->
  dom (g_members g') = dom (g_members g) ->
  (fun g => (g_lagInterface g, dom (g_members g))) <$> <[n := g']> (m_microGroups m) = shape m.
Proof.
  intros Hn Hl Hd. unfold shape. rewrite fmap_insert. apply insert_id. rewrite lookup_fmap, Hn. cbn. by rewrite Hl, Hd.
Qed.

(** One state change: the group with the member, if any, records the new state and
    the actuator gets one event; nothing else happens. *)
Lemma dispatch_spec sc ord m :
  (forall l, ord l ≡ₚ l) -> m_hasMicroActuator m = true ->
  let m' := dispatchMicroBFD sc ord m in
  m_hasMicroActuator m' = true /\ shape m' = shape m /\
  ((m' = m /\ forall n, member_state m n (sc_Interface sc) = None) \/
   (exists n g ev, m_microGroups m !! n = Some g /\ is_Some (g_members g !! sc_Interface sc) /\
      event_of sc (g_lagInterface g) ev /\ m_actuated m' = m_actuated m ++ [ev] /\
      forall n' i, member_state m' n' i =
        if decide (n' = n /\ i = sc_Interface sc) then Some (sc_NewState sc) else member_state m n' i)).
Proof.
  intros Ho Ha m'. unfold m', dispatchMicroBFD.
  destruct (dispatch_groups_spec sc (ord (map_to_list (m_microGroups m))) m Ha) as [[E Hno]|Hs].
  - intros n g. rewrite Ho. apply elem_of_map_to_list.
  - rewrite E. split_and!; [done..|]. left. split; [done|]. intros n. unfold member_state.
    destruct (m_microGroups m !! n) as [g|] eqn:Hg; [cbn|done].
    rewrite (Hno n g); [done|]. rewrite Ho. by apply elem_of_map_to_list.
  - destruct Hs as (n & g & g' & e' & ev & Hn & Hi & Hl & Hm & Hst & Hev & ->). cbn.
    split_and!; [done| |].
    + apply (shape_insert m n g g'); [done..|]. rewrite Hm, dom_insert_L.
      apply elem_of_dom in Hi. set_solver.
    + right. exists n, g, ev. split_and!; [done..|]. intros n' i. unfold member_state. cbn.
      destruct (decide (n' = n)) as [->|Hne].
      * rewrite lookup_insert_eq, Hn. cbn. rewrite Hm.
        destruct (decide (i = sc_Interface sc)) as [->|Hni].
        -- rewrite lookup_insert_eq. cbn. rewrite decide_True by done. by rewrite Hst.
        -- rewrite lookup_insert_ne by done. rewrite decide_False by naive_solver. done.
      * rewrite lookup_insert_ne by done. rewrite decide_False by naive_solver. done.
Qed.

(** ** The actuator behind the manager *)

(** The events handled one after another, with the outcome of each. *)
Fixpoint actuate {S} (a : LAGActuator S) (evs : list MicroBFDMemberEvent) (s : S)
    : list (MicroBFDMemberEvent * go lag_error unit) * S :=
  match evs with
  | [] => ([], s)
  | ev :: evs =>
      let '(r, s) := HandleMicroBFDMemberEvent a ev s in
      let '(log, s) := actuate a evs s in
      ((ev, r) :: log, s)
  end.

Lemma actuate_snoc {S} (a : LAGActuator S) evs ev s :
  actuate a (evs ++ [ev]) s =
    let '(log, s1) := actuate a evs s in
    let '(r, s2) := HandleMicroBFDMemberEvent a ev s1 in (log ++ [(ev, r)], s2).
Proof.
  revert s. induction evs as [|e evs IH]; intros s; cbn; [by destruct (HandleMicroBFDMemberEvent _ _ _)|].
  destruct (HandleMicroBFDMemberEvent a e s) as [r s1]. rewrite IH.
  destruct (actuate a evs s1) as [log s2]. by destruct (HandleMicroBFDMemberEvent _ _ s2).
Qed.

(** The state changes the manager dispatches, with the iteration orders. *)
Definition dispatch_run (l : list (StateChange * order string MicroBFDGroup)) (m : Manager) : Manager :=
  fold_left (fun m x => dispatchMicroBFD x.1 x.2 m) l m.

(** The state an interface is in after state changes that connect: each starts in
    the state the previous one of the interface ended in. *)
Fixpoint connected (i : string) (st : Z) (l : list StateChange) : option Z :=
  match l with
  | [] => Some st
  | sc :: l =>
      if bool_decide (sc_Interface sc = i)
      then if sc_OldState sc =? st then connected i (sc_NewState sc) l else None
      else connected i st l
  end.

Lemma connected_app i l l' : forall st,
  connected i st (l ++ l') = st' ← connected i st l; connected i st' l'.
Proof. induction l as [|sc l IH]; intros st; cbn; [done|]. repeat case_match; done. Qed.

Definition was_up (i : string) (l : list StateChange) : Prop :=
  exists sc, sc ∈ l /\ sc_Interface sc = i /\ sc_NewState sc = StateUp.

Lemma connected_up i l st : connected i StateDown l = Some st -> st = StateUp -> was_up i l.
Proof.
  induction l as [|sc l IH] using rev_ind; [by intros [= <-]|]. rewrite connected_app.
  destruct (connected i StateDown l) as [st1|] eqn:E; [cbn|done].
  case_bool_decide as Hi.
  - destruct (sc_OldState sc =? st1); [intros [= Hst] Hup|done]. exists sc. split; [set_solver|]. by rewrite Hst.
  - intros [= ->] Hup. destruct IH as (sc' & ? & ?); [done..|]. exists sc'. split; [set_solver|done].
Qed.

(** An actuator that acts: mode enforce with the default actions. *)
Record enforcing {S} (a : LAGActuator S) (b : LAGActuatorBackend S) : Prop := {
  en_mode : lc_Mode (la_cfg a) = "enforce"%string;
  en_down : lc_DownAction (la_cfg a) = "remove-member"%string;
  en_up : lc_UpAction (la_cfg a) = "add-member"%string;
  en_backend : la_backend a = Some b;
}.

Lemma handle_enforcing {S} (a : LAGActuator S) b ev : enforcing a b ->
  HandleMicroBFDMemberEvent a ev =
    if ev_NewState ev =? StateUp then lb_AddMember b (ev_LAGInterface ev) (ev_MemberInterface ev)
    else if ev_OldState ev =? StateUp then lb_RemoveMember b (ev_LAGInterface ev) (ev_MemberInterface ev)
    else mret tt.
Proof.
  intros [Hm Hd Hu Hb]. unfold HandleMicroBFDMemberEvent, decision. rewrite Hm, Hd, Hu, Hb.
  destruct (ev_NewState ev =? StateUp), (ev_OldState ev =? StateUp); reflexivity.
Qed.

Definition all_ok (bond i : string) (log : list (MicroBFDMemberEvent * go lag_error unit)) : Prop :=
  forall ev r, (ev, r) ∈ log -> ev_LAGInterface ev = bond -> ev_MemberInterface ev = i -> r = Ok tt.

Section Follow.
Context {S : Type} (inv : S -> Prop) (members : S -> string -> gset string) (pairs : string -> string -> Prop).
Context (b : LAGActuatorBackend S) (a : LAGActuator S) (F : follows inv members pairs b) (EN : enforcing a b).

(** One event: only the member it names changes. *)
Lemma handle_follows ev s r s' :
  inv s -> pairs (ev_LAGInterface ev) (ev_MemberInterface ev) -> HandleMicroBFDMemberEvent a ev s = (r, s') ->
  inv s' /\ r <> Panic /\
  (r = Ok tt -> ev_NewState ev = StateUp -> ev_MemberInterface ev ∈ members s' (ev_LAGInterface ev)) /\
  (r = Ok tt -> ev_NewState ev <> StateUp -> ev_OldState ev = StateUp ->
   ev_MemberInterface ev ∉ members s' (ev_LAGInterface ev)) /\
  (ev_NewState ev <> StateUp -> ev_OldState ev <> StateUp -> s' = s) /\
  (forall bond' i', pairs bond' i' -> i' <> ev_MemberInterface ev -> i' ∈ members s' bond' <-> i' ∈ members s bond').
Proof.
  intros I P. rewrite (handle_enforcing a b ev EN).
  destruct (Z.eqb_spec (ev_NewState ev) StateUp) as [Hn|Hn].
  - intros (I' & NP & Hok & Hot)%(fo_add _ _ _ _ F _ _ _ _ _ I P). split_and!; try done; intros; by apply Hok.
  - destruct (Z.eqb_spec (ev_OldState ev) StateUp) as [Hol|Hol].
    + intros (I' & NP & Hok & Hot)%(fo_remove _ _ _ _ F _ _ _ _ _ I P). split_and!; try done; intros; by apply Hok.
    + intros [= <- <-]. split_and!; done.
Qed.

Context (m : Manager) (s : S) (name bond i : string) (ms : gset string).
Context (HA : m_hasMicroActuator m = true) (HE : m_actuated m = []) (HI : inv s).
Context (HP : forall n bond' ms' i', shape m !! n = Some (bond', ms') -> i' ∈ ms' -> pairs bond' i').
Context (HN : shape m !! name = Some (bond, ms)) (Hi : i ∈ ms).
Context (HU : forall n bond' ms', shape m !! n = Some (bond', ms') -> i ∈ ms' -> n = name).
Context (HD : member_state m name i = Some StateDown).

Lemma shape_of m1 n g : m_microGroups m1 !! n = Some g -> shape m1 !! n = Some (g_lagInterface g, dom (g_members g)).
Proof. intros Hg. unfold shape. by rewrite lookup_fmap, Hg. Qed.

(** The state after a run. *)
Record followed (l : list (StateChange * order string MicroBFDGroup)) (st : Z) (m1 : Manager)
    (log : list (MicroBFDMemberEvent * go lag_error unit)) (s1 : S) : Prop := {
  fd_has : m_hasMicroActuator m1 = true;
  fd_shape : shape m1 = shape m;
  fd_state : member_state m1 name i = Some st;
  fd_inv : inv s1;
  fd_safe : forall ev r, (ev, r) ∈ log -> r <> Panic;
  fd_members : all_ok bond i log ->
    i ∈ members s1 bond <-> st = StateUp \/ (~ was_up i (l.*1) /\ i ∈ members s bond);
}.

Lemma was_up_snoc l sc : was_up i (l ++ [sc]) <-> was_up i l \/ (sc_Interface sc = i /\ sc_NewState sc = StateUp).
Proof.
  split.
  - intros (x & [Hx| ->%list_elem_of_singleton]%elem_of_app & H); [left; by exists x|by right].
  - intros [(x & Hx & H)|H]; [exists x|exists sc]; (split; [set_solver|done]).
Qed.

(** A state change that no group takes. *)
Lemma followed_skip l sc ord st m1 log s1 :
  followed l st m1 log s1 -> sc_Interface sc <> i -> followed (l ++ [(sc, ord)]) st m1 log s1.
Proof.
  intros [H1 H2 H3 H4 H5 H6] Hne. split; [done..|]. intros Hok. rewrite (H6 Hok), fmap_app. cbn [fmap list_fmap].
  rewrite was_up_snoc. naive_solver.
Qed.

(** A state change of another member. *)
Lemma followed_other l sc ord st m1 log s1 m2 bond' ev r s2 :
  followed l st m1 log s1 -> sc_Interface sc <> i -> m_hasMicroActuator m2 = true -> shape m2 = shape m ->
  member_state m2 name i = Some st -> event_of sc bond' ev -> pairs bond' (sc_Interface sc) ->
  HandleMicroBFDMemberEvent a ev s1 = (r, s2) -> followed (l ++ [(sc, ord)]) st m2 (log ++ [(ev, r)]) s2.
Proof.
  intros [H1 H2 H3 H4 H5 H6] Hne Ha Hs Hst [Eb Em Eo En] Hp Hh.
  rewrite <- Eb, <- Em in Hp. destruct (handle_follows ev s1 r s2 H4 Hp Hh) as (I' & NP & _ & _ & _ & Hot).
  split; [done..| |].
  - intros ev' r' [Hin|[= -> ->]%list_elem_of_singleton]%elem_of_app; [by apply (H5 ev')|done].
  - intros Hok. rewrite (Hot bond i); [|by apply (HP name bond ms)|by rewrite Em].
    rewrite H6 by (intros ev' r' ?; apply Hok; set_solver). rewrite fmap_app. cbn [fmap list_fmap].
    rewrite was_up_snoc. naive_solver.
Qed.

(** A state change of the member itself. *)
Lemma followed_own l sc ord st m1 log s1 m2 ev r s2 :
  followed l st m1 log s1 -> connected i StateDown (l.*1) = Some st -> sc_Interface sc = i -> sc_OldState sc = st ->
  m_hasMicroActuator m2 = true -> shape m2 = shape m -> member_state m2 name i = Some (sc_NewState sc) ->
  event_of sc bond ev ->
  HandleMicroBFDMemberEvent a ev s1 = (r, s2) ->
  followed (l ++ [(sc, ord)]) (sc_NewState sc) m2 (log ++ [(ev, r)]) s2.
Proof.
  intros [H1 H2 H3 H4 H5 H6] Hc Hsi Hso Ha Hs Hst [Eb Em Eo En] Hh.
  assert (Hp : pairs (ev_LAGInterface ev) (ev_MemberInterface ev)) by (rewrite Eb, Em, Hsi; by apply (HP name bond ms)).
  destruct (handle_follows ev s1 r s2 H4 Hp Hh) as (I' & NP & Hup & Hdn & Hsame & _).
  rewrite Eb, Em, Hsi, En in Hup, Hdn. rewrite Eo, Hso in Hdn, Hsame. rewrite En in Hsame.
  split; [done..| |].
  - intros ev' r' [Hin|[= -> ->]%list_elem_of_singleton]%elem_of_app; [by apply (H5 ev')|done].
  - intros Hok. assert (Hr : r = Ok tt) by (apply (Hok ev r); [set_solver|done|by rewrite Em]).
    assert (H6' := H6 ltac:(intros ev' r' ?; apply Hok; set_solver)). rewrite fmap_app. cbn [fmap list_fmap].
    rewrite was_up_snoc. pose proof (connected_up _ _ _ Hc) as Hwas.
    destruct (decide (sc_NewState sc = StateUp)) as [E|E]; [naive_solver|].
    destruct (decide (st = StateUp)) as [E'|E']; [naive_solver|]. rewrite (Hsame E E'). naive_solver.
Qed.

Lemma run_followed l st :
  (forall sc ord, (sc, ord) ∈ l -> forall x, ord x ≡ₚ x) -> connected i StateDown (l.*1) = Some st ->
  exists log s1, actuate a (m_actuated (dispatch_run l m)) s = (log, s1) /\ followed l st (dispatch_run l m) log s1.
Proof.
  revert st. induction l as [|[sc ord] l IH] using rev_ind; intros st Hord Hc.
  { cbn in Hc |- *. injection Hc as <-. rewrite HE. exists [], s. split; [done|]. split; [done..| |].
    - by intros ?? ?%elem_of_nil.
    - intros _. split; [|by intros [|[]]]. intros H. right. split; [|done]. by intros (? & ?%elem_of_nil & _). }
  rewrite fmap_app, connected_app in Hc. destruct (connected i StateDown (l.*1)) as [st1|] eqn:Hc1; [|done].
  destruct (IH st1) as (log & s1 & Ha & Fd); [intros sc' ord' Hin; apply (Hord sc'), elem_of_app; by left|done|].
  unfold dispatch_run. rewrite fold_left_app. fold (dispatch_run l m). cbn [fold_left fst snd].
  destruct (dispatch_spec sc ord (dispatch_run l m)) as (Ha2 & Hs2 & Hcase); [apply (Hord sc), elem_of_app; right; by apply list_elem_of_singleton|apply Fd|].
  rewrite (fd_shape _ _ _ _ _ Fd) in Hs2. cbn in Hc.
  destruct Hcase as [[E Hno]|(n & g & ev & Hn & Hg & Hev & Hact & Hst)].
  - rewrite E. exists log, s1. split; [done|].
    assert (Hne : sc_Interface sc <> i).
    { intros Heq. pose proof (Hno name) as Hno'. rewrite Heq, (fd_state _ _ _ _ _ Fd) in Hno'. done. }
    rewrite bool_decide_false in Hc by done. injection Hc as <-. by apply followed_skip.
  - rewrite Hact, actuate_snoc, Ha. destruct (HandleMicroBFDMemberEvent a ev s1) as [r s2] eqn:Hh.
    exists (log ++ [(ev, r)]), s2. split; [done|].
    pose proof (shape_of _ _ _ Hn) as Hsh. rewrite (fd_shape _ _ _ _ _ Fd) in Hsh.
    apply elem_of_dom in Hg.
    case_bool_decide as Hsi.
    + destruct (Z.eqb_spec (sc_OldState sc) st1) as [Ho|]; [|done]. injection Hc as Hc.
      rewrite <- Hc. assert (n = name) as -> by (eapply HU; [done|by rewrite <- Hsi]).
      assert (Eb : g_lagInterface g = bond) by congruence. rewrite Eb in Hev.
      eapply followed_own; try done. rewrite Hst. by rewrite decide_True by done.
    + injection Hc as <-. eapply followed_other; try done; [|by eapply HP].
      rewrite Hst, decide_False by naive_solver. apply Fd.
Qed.

End Follow.
