(* ===== verification/LagBackends.v ===== *)
(** * The back ends keep their promise

    The bonding files, the OVSDB client and the NetworkManager client implement the
    interface [follows], each under the documented behaviour of what it calls, which
    is stated as a record of laws; and so does every back end the configuration can
    select. *)

From stdpp Require Import strings.
From Stdlib Require Import Ascii.
From S2P Require Import Prelude Netip NetipParse Config Lag LagProps.

Local Open Scope Z_scope.

(** ** Bonding files

    A validated name cannot leave the directory of the network interfaces. *)

Lemma path_split_elem e s : "/"%char ∉ e -> path_split (e ++ "/"%char :: s) = e :: path_split s.
Proof.
  induction e as [|c e IH]; intros Hno; [done|]. apply not_elem_of_cons in Hno as [Hc He].
  cbn [app path_split]. rewrite (proj2 (Ascii.eqb_neq c "/"%char)) by congruence. by rewrite IH.
Qed.

Lemma path_split_last e : "/"%char ∉ e -> path_split e = [e].
Proof.
  induction e as [|c e IH]; intros Hno; [done|]. apply not_elem_of_cons in Hno as [Hc He].
  cbn [path_split]. rewrite (proj2 (Ascii.eqb_neq c "/"%char)) by congruence. by rewrite IH.
Qed.

Lemma valid_name_chars name : validateLAGInterfaceName name = Ok tt ->
  "/"%char ∉ chars_of name /\ chars_of name <> [] /\ chars_of name <> ["."]%char /\
  chars_of name <> ["."; "."]%char.
Proof.
  unfold validateLAGInterfaceName, when_err. destruct (_ || _) eqn:E; [done|intros _].
  bools. split_and!.
  - intros Hin%list_elem_of_In. destruct (existsb _ _) eqn:Ex; [done|].
    assert (Ht : existsb (fun c => Ascii.eqb c "/"%char || (code c =? 0)) (chars_of name) = true)
      by (apply existsb_exists; exists "/"%char; split; [done|reflexivity]). congruence.
  - intros Hn. assert (name = "") by (by apply chars_inj). done.
  - intros Hn. assert (name = "."%string) by (by apply chars_inj). done.
  - intros Hn. assert (name = ".."%string) by (by apply chars_inj). done.
Qed.

Definition slaves_path (bond : string) : string := "/sys/class/net/" +:+ bond +:+ "/bonding/slaves".

Lemma split_slaves e : "/"%char ∉ e ->
  path_split ("/"%char :: chars_of "sys/class/net/" ++ e ++ chars_of "/bonding/slaves") =
  [[]; chars_of "sys"; chars_of "class"; chars_of "net"; e; chars_of "bonding"; chars_of "slaves"].
Proof.
  intros He. cbn [chars_of String.list_ascii_of_string app path_split Ascii.eqb Bool.eqb].
  rewrite (path_split_elem e) by exact He. reflexivity.
Qed.

Lemma clean_plain rooted out e l : e <> [] -> e <> ["."]%char -> e <> ["."; "."]%char ->
  clean_elems rooted out (e :: l) = clean_elems rooted (e :: out) l.
Proof. intros H0 H1 H2. cbn [clean_elems]. by rewrite !bool_decide_false by done. Qed.

Lemma clean_slaves e : e <> [] -> e <> ["."]%char -> e <> ["."; "."]%char ->
  clean_elems true [] [[]; chars_of "sys"; chars_of "class"; chars_of "net"; e; chars_of "bonding"; chars_of "slaves"] =
  [chars_of "sys"; chars_of "class"; chars_of "net"; e; chars_of "bonding"; chars_of "slaves"].
Proof.
  intros H0 H1 H2.
  transitivity (clean_elems true [] [chars_of "sys"; chars_of "class"; chars_of "net"; e; chars_of "bonding"; chars_of "slaves"]);
    [reflexivity|].
  rewrite !clean_plain by first [assumption|discriminate]. reflexivity.
Qed.

Lemma sysfs_path_confined bond : validateLAGInterfaceName bond = Ok tt ->
  filepath_Join ["/sys/class/net"; bond; "bonding"; "slaves"]%string = slaves_path bond.
Proof.
  intros (Hs & H0 & H1 & H2)%valid_name_chars. cbn [filepath_Join]. rewrite bool_decide_false by done.
  apply chars_inj. unfold slaves_path. rewrite !chars_app. cbn [fmap list_fmap].
  unfold chars_of at 1. rewrite String.list_ascii_of_string_of_list_ascii.
  set (e := chars_of bond) in *. clearbody e.
  change (path_join _) with ("/"%char :: chars_of "sys/class/net/" ++ e ++ chars_of "/bonding/slaves").
  unfold path_clean. rewrite split_slaves by exact Hs. change (Ascii.eqb "/" "/") with true.
  cbv zeta. rewrite clean_slaves by done. reflexivity.
Qed.

Section Kernel.
Context {W : Type} (env : LagEnv W).

(** The bonding driver: writing +name or -name into the file of a bond changes the
    membership of that interface, when the write succeeds, and of no other. *)
Record bonding_laws (slaves : W -> string -> gset string) : Prop := {
  bl_add : forall w bond i r w', le_write env (slaves_path bond) ("+" +:+ i +:+ String "010"%char "") w = (r, w') ->
    (r = FileOk -> i ∈ slaves w' bond) /\
    (forall bond' i', i' <> i -> i' ∈ slaves w' bond' <-> i' ∈ slaves w bond');
  bl_remove : forall w bond i r w', le_write env (slaves_path bond) ("-" +:+ i +:+ String "010"%char "") w = (r, w') ->
    (r = FileOk -> i ∉ slaves w' bond) /\
    (forall bond' i', i' <> i -> i' ∈ slaves w' bond' <-> i' ∈ slaves w bond');
}.

Lemma names_check_Ok bond i : names_check bond i = Ok tt ->
  validateLAGInterfaceName bond = Ok tt /\ validateLAGInterfaceName i = Ok tt.
Proof. unfold names_check. destruct (validateLAGInterfaceName bond) as [[]| |]; done. Qed.

Lemma names_check_cases bond i :
  names_check bond i = Err ErrInvalidLAGInterfaceName \/ names_check bond i = Ok tt.
Proof. unfold names_check, validateLAGInterfaceName, when_err. repeat case_match; naive_solver. Qed.

Lemma kernel_write_cases bond i prefix s r s' :
  writeSlaveCommand env "/sys/class/net" bond i prefix s = (r, s') ->
  (s' = s /\ exists e, r = Err e) \/
  (exists o w, le_write env (slaves_path bond) (prefix +:+ i +:+ String "010"%char "") (ls_world s) = (o, w) /\
     s' = mkLagState w (ls_cache s) /\ r <> Panic /\ (r = Ok tt -> o = FileOk)).
Proof.
  unfold writeSlaveCommand, mbind, lagM_bind, ctx_check, pure_go.
  destruct (le_ctx_err env (ls_world s)); [intros [= <- <-]; left; eauto|].
  destruct (names_check_cases bond i) as [->|Hn]; [intros [= <- <-]; left; eauto|]. rewrite Hn.
  destruct (names_check_Ok _ _ Hn) as [Hb _]. rewrite (sysfs_path_confined bond Hb). unfold external.
  destruct (le_write _ _ _ _) as [o w] eqn:E. intros [= <- <-]. right. exists o, w.
  destruct o; naive_solver.
Qed.

Lemma kernel_follows slaves pairs : bonding_laws slaves ->
  follows (fun _ => True) (fun s => slaves (ls_world s)) pairs (NewKernelBondLAGBackend env "").
Proof.
  intros L. split; intros s bond i r s' _ _ H; cbn in H;
    destruct (kernel_write_cases _ _ _ _ _ _ H) as [[-> [e ->]]|(o & w & E & -> & NP & Ho)]; try done.
  - destruct (bl_remove _ L _ _ _ _ _ E) as [H1 H2]. split_and!; [done..|by intros Hr; apply H1, Ho|].
    intros; by apply H2.
  - destruct (bl_add _ L _ _ _ _ _ E) as [H1 H2]. split_and!; [done..|by intros Hr; apply H1, Ho|].
    intros; by apply H2.
Qed.

End Kernel.

(** ** Reasoning about a client

    [wp m Q s]: the computation [m], run in [s], ends with a result and a state that
    satisfy [Q]. *)

Definition wp {S A} (m : lagM S A) (Q : go lag_error A -> S -> Prop) (s : S) : Prop :=
  let '(r, s') := m s in Q r s'.

Lemma wp_bind {S A B} (m : lagM S A) (f : A -> lagM S B) Q s :
  wp m (fun r s1 => match r with Ok a => wp (f a) Q s1 | Err e => Q (Err e) s1 | Panic => Q Panic s1 end) s ->
  wp (m ≫= f) Q s.
Proof. unfold wp, mbind, lagM_bind. destruct (m s) as [[a|e|] s1]; done. Qed.

Lemma wp_mono {S A} (m : lagM S A) (Q Q' : go lag_error A -> S -> Prop) s :
  wp m Q s -> (forall r s', Q r s' -> Q' r s') -> wp m Q' s.
Proof. unfold wp. destruct (m s). auto. Qed.

Lemma wp_elim {S A} (m : lagM S A) Q s r s' : wp m Q s -> m s = (r, s') -> Q r s'.
Proof. unfold wp. by intros H E; rewrite E in H. Qed.

Lemma wp_external {W A} (f : ext W A) Q (s : LagState W) :
  (forall r w, f (ls_world s) = (r, w) ->
     Q (match r with inl msg => Err (ErrExternal msg) | inr a => Ok a end) (mkLagState w (ls_cache s))) ->
  wp (external f) Q s.
Proof. unfold wp, external. destruct (f (ls_world s)) as [r w]. auto. Qed.

(** The names are checked before the client is called. *)
Lemma client_follows {W} inv members pairs (c : BondLAGClient (LagState W)) :
  follows inv members pairs (mkLAGActuatorBackend (RemoveBondInterface c) (AddBondInterface c)) ->
  follows inv members pairs (client_backend c).
Proof.
  intros [HR HA]. split; intros s bond i r s' I P; cbn; unfold mbind, lagM_bind, pure_go;
    (destruct (names_check_cases bond i) as [E|E]; rewrite E; [intros [= <- <-]; split_and!; done|]).
  - apply HR; done.
  - apply HA; done.
Qed.

Section Ovsdb.
Context {W : Type} (env : LagEnv W).

Definition mutate_op (bond mutator u : string) : Operation :=
  {| op_Op := "mutate"; op_Table := "Port"; op_Columns := []; op_Where := [("name", "==", bond)]%string;
     op_Mutations := [("interfaces"%string, mutator, [u])]; op_Row := []; op_UUIDName := "" |}.

Definition insert_op (i : string) : Operation :=
  {| op_Op := "insert"; op_Table := "Interface"; op_Columns := []; op_Where := []; op_Mutations := [];
     op_Row := [("name"%string, i)]; op_UUIDName := "gobfd_member_interface" |}.

(** The database: the interfaces of every port, by identity, and the identity of
    every interface. *)
Context (ports : W -> gmap string (gset string)) (ifaces : W -> gmap string string).

Definition same (w w' : W) : Prop := ports w' = ports w /\ ifaces w' = ifaces w.

(** A transaction that changes the interfaces of one port; interfaces that no port
    refers to any more may be collected. *)
Definition mutated (bond : string) (f : gset string -> gset string) (w w' : W) : Prop :=
  exists set, ports w !! bond = Some set /\ ports w' = <[bond := f set]> (ports w) /\ ifaces w' ⊆ ifaces w /\
    (forall i u p set', ifaces w !! i = Some u -> ports w' !! p = Some set' -> u ∈ set' -> ifaces w' !! i = Some u).

(** A transaction that makes an interface and adds it to a port. *)
Definition inserted (bond i : string) (w w' : W) : Prop :=
  exists set u, ports w !! bond = Some set /\ (forall j, ifaces w !! j <> Some u) /\
    ports w' = <[bond := set ∪ {[u]}]> (ports w) /\ ifaces w' = <[i := u]> (ifaces w).

(** RFC 7047: a query returns the rows that match and changes nothing; a
    transaction happens or does not, and it has when its results are without error
    and count a row.  An interface has a name no other one has. *)
Record ovsdb_laws : Prop := {
  ol_connect : forall ep w r w', le_ovsdb_connect env ep w = (r, w') -> same w w';
  ol_port : forall n w r w', le_Transact env [select_uuid "Port" n] w = (r, w') -> same w w' /\
    forall rs, r = inr rs -> le_CheckOperationResults env rs [select_uuid "Port" n] = None ->
      exists res, rs = [res] /\ (or_Rows res = [] <-> ports w !! n = None);
  ol_iface : forall n w r w', le_Transact env [select_uuid "Interface" n] w = (r, w') -> same w w' /\
    forall rs, r = inr rs -> le_CheckOperationResults env rs [select_uuid "Interface" n] = None ->
      exists res, rs = [res] /\
        or_Rows res = match ifaces w !! n with Some u => [{["_uuid"%string := ValUUID u]}] | None => [] end;
  ol_set : forall u, le_NewOvsSet env [u] = inr [u];
  ol_delete : forall bond u w r w', le_Transact env [mutate_op bond "delete" u] w = (r, w') ->
    (same w w' \/ mutated bond (fun set => set ∖ {[u]}) w w') /\
    forall rs, r = inr rs -> le_CheckOperationResults env rs [mutate_op bond "delete" u] = None ->
      exists res, rs = [res] /\ (or_Count res <> 0 -> mutated bond (fun set => set ∖ {[u]}) w w');
  ol_insert : forall bond u w r w', le_Transact env [mutate_op bond "insert" u] w = (r, w') ->
    (same w w' \/ mutated bond (fun set => set ∪ {[u]}) w w') /\
    forall rs, r = inr rs -> le_CheckOperationResults env rs [mutate_op bond "insert" u] = None ->
      exists res, rs = [res] /\ (or_Count res <> 0 -> mutated bond (fun set => set ∪ {[u]}) w w');
  ol_new : forall bond i w r w',
    le_Transact env [insert_op i; mutate_op bond "insert" "gobfd_member_interface"] w = (r, w') ->
    (same w w' \/ inserted bond i w w') /\
    forall rs, r = inr rs ->
      le_CheckOperationResults env rs [insert_op i; mutate_op bond "insert" "gobfd_member_interface"] = None ->
      exists res0 res, rs = [res0; res] /\ (or_Count res <> 0 -> inserted bond i w w');
}.

Definition ovs_members (w : W) (bond : string) : gset string :=
  dom (filter (fun kv : string * string => kv.2 ∈ (default ∅ (ports w !! bond) : gset string)) (ifaces w)).

Definition names_unique (w : W) : Prop :=
  forall i i' u, ifaces w !! i = Some u -> ifaces w !! i' = Some u -> i = i'.

Lemma elem_of_ovs_members w bond i :
  i ∈ ovs_members w bond <-> exists u set, ifaces w !! i = Some u /\ ports w !! bond = Some set /\ u ∈ set.
Proof.
  unfold ovs_members. rewrite elem_of_dom. split.
  - intros [u [Hu Hin]%map_lookup_filter_Some]. cbn in Hin. exists u.
    destruct (ports w !! bond) as [set|]; cbn in Hin; [by exists set|set_solver].
  - intros (u & set & Hu & Hp & Hin). exists u. apply map_lookup_filter_Some. split; [done|]. cbn. by rewrite Hp.
Qed.

Lemma same_members w w' bond : same w w' -> ovs_members w' bond = ovs_members w bond.
Proof. intros [Hp Hi]. unfold ovs_members. by rewrite Hp, Hi. Qed.

Lemma same_unique w w' : same w w' -> names_unique w -> names_unique w'.
Proof. intros [_ Hi]. unfold names_unique. by rewrite Hi. Qed.

(** The other members are the same, and names stay unique. *)
Definition others (i : string) (w w' : W) : Prop :=
  names_unique w' /\ forall bond' i', i' <> i -> i' ∈ ovs_members w' bond' <-> i' ∈ ovs_members w bond'.

Lemma same_others i w w' : names_unique w -> same w w' -> others i w w'.
Proof. intros U H. split; [by apply (same_unique w)|]. intros. by rewrite (same_members w w'). Qed.

Lemma mutated_others bond f i u w w' :
  names_unique w -> ifaces w !! i = Some u -> (forall set u', u' <> u -> u' ∈ f set <-> u' ∈ set) ->
  mutated bond f w w' -> others i w w'.
Proof.
  intros U Hi Hf (set & Hs & Hp & Hsub & Hkeep). split.
  { intros i1 i2 v H1 H2. apply (U i1 i2 v); by eapply lookup_weaken. }
  intros bond' i' Hne. rewrite !elem_of_ovs_members. split.
  - intros (u' & set' & Hu' & Hp' & Hin). pose proof (lookup_weaken _ _ _ _ Hu' Hsub) as Hw.
    assert (Hnu : u' <> u) by (intros ->; by apply Hne, (U _ _ u)). exists u'.
    rewrite Hp in Hp'. destruct (decide (bond' = bond)) as [->|Hb].
    + rewrite lookup_insert_eq in Hp'. injection Hp' as <-. exists set. split_and!; [done..|]. by apply (Hf set).
    + rewrite lookup_insert_ne in Hp' by done. by exists set'.
  - intros (u' & set' & Hu' & Hp' & Hin).
    assert (Hnu : u' <> u) by (intros ->; by apply Hne, (U _ _ u)).
    destruct (decide (bond' = bond)) as [->|Hb].
    + rewrite Hs in Hp'. injection Hp' as <-.
      assert (Hl : ports w' !! bond = Some (f set)) by (rewrite Hp; apply lookup_insert_eq).
      assert (Hin' : u' ∈ f set) by (by apply Hf). exists u', (f set). split_and!; [by eapply Hkeep|done..].
    + assert (Hl : ports w' !! bond' = Some set') by (rewrite Hp; by rewrite lookup_insert_ne).
      exists u', set'. split_and!; [by eapply Hkeep|done..].
Qed.

Lemma mutated_delete bond i u w w' :
  ifaces w !! i = Some u -> mutated bond (fun set => set ∖ {[u]}) w w' -> i ∉ ovs_members w' bond.
Proof.
  intros Hi (set & Hs & Hp & Hsub & _) (u' & set' & Hu' & Hp' & Hin)%elem_of_ovs_members.
  pose proof (lookup_weaken _ _ _ _ Hu' Hsub) as Hw. rewrite Hp, lookup_insert_eq in Hp'. set_solver.
Qed.

Lemma mutated_insert bond i u w w' :
  ifaces w !! i = Some u -> mutated bond (fun set => set ∪ {[u]}) w w' -> i ∈ ovs_members w' bond.
Proof.
  intros Hi (set & Hs & Hp & Hsub & Hkeep). apply elem_of_ovs_members. exists u, (set ∪ {[u]}).
  assert (Hl : ports w' !! bond = Some (set ∪ {[u]})) by (rewrite Hp; apply lookup_insert_eq).
  split_and!; [eapply Hkeep; [done..|set_solver]|done|set_solver].
Qed.

Lemma inserted_member bond i w w' : inserted bond i w w' -> i ∈ ovs_members w' bond.
Proof.
  intros (set & u & Hs & Hf & Hp & Hi). apply elem_of_ovs_members. exists u, (set ∪ {[u]}).
  rewrite Hp, Hi, !lookup_insert_eq. set_solver.
Qed.

Lemma inserted_others bond i w w' : names_unique w -> inserted bond i w w' -> others i w w'.
Proof.
  intros U (set & u & Hs & Hf & Hp & Hi). split.
  { intros i1 i2 v. rewrite Hi.
    destruct (decide (i1 = i)) as [->|H1], (decide (i2 = i)) as [->|H2];
      rewrite ?lookup_insert_eq, ?lookup_insert_ne by done; [done| | |apply U]; intros; exfalso; naive_solver. }
  intros bond' i' Hne. rewrite !elem_of_ovs_members. rewrite Hi, lookup_insert_ne by done. split.
  - intros (u' & set' & Hu' & Hp' & Hin). exists u'. rewrite Hp in Hp'.
    destruct (decide (bond' = bond)) as [->|Hb].
    + rewrite lookup_insert_eq in Hp'. injection Hp' as <-. exists set. split_and!; [done..|].
      assert (u' <> u) by (intros ->; by apply (Hf i')). set_solver.
    + rewrite lookup_insert_ne in Hp' by done. by exists set'.
  - intros (u' & set' & Hu' & Hp' & Hin). exists u'. rewrite Hp.
    destruct (decide (bond' = bond)) as [->|Hb].
    + rewrite lookup_insert_eq. exists (set ∪ {[u]}). split_and!; [done..|].
      rewrite Hs in Hp'. injection Hp' as <-. set_solver.
    + rewrite lookup_insert_ne by done. by exists set'.
Qed.

Context (L : ovsdb_laws).

Lemma same_trans w1 w2 w3 : same w1 w2 -> same w2 w3 -> same w1 w3.
Proof. unfold same. intros [] []. split; congruence. Qed.

Lemma wp_checked ops Q (s : LagState W) :
  (forall r w, le_Transact env ops (ls_world s) = (r, w) ->
     (forall e, Q (Err e) (mkLagState w (ls_cache s))) /\
     (forall rs, r = inr rs -> le_CheckOperationResults env rs ops = None -> Q (Ok rs) (mkLagState w (ls_cache s)))) ->
  wp (runCheckedOVSDBOperations env ops) Q s.
Proof.
  intros H. apply wp_bind, wp_external. intros r w E. destruct (H r w E) as [H1 H2].
  destruct r as [msg|rs]; [apply H1|]. destruct (le_CheckOperationResults env rs ops) eqn:Ec; [apply H1|by apply H2].
Qed.

Lemma wp_requirePort n Q (s : LagState W) :
  (forall w, same (ls_world s) w ->
     (forall e, Q (Err e) (mkLagState w (ls_cache s))) /\ Q (Ok tt) (mkLagState w (ls_cache s))) ->
  wp (requirePort env n) Q s.
Proof.
  intros H. apply wp_bind, wp_checked. intros r w E. destruct (ol_port L _ _ _ _ E) as [Hs Hr].
  destruct (H w Hs) as [H1 H2]. split; [done|]. intros rs -> Hc. destruct (Hr rs eq_refl Hc) as (res & -> & _).
  apply wp_bind. unfold wp, pure_go, first_result. destruct (or_Rows res); [apply H1|done].
Qed.

Lemma wp_interfaceUUID n Q (s : LagState W) :
  (forall w, same (ls_world s) w ->
     (forall e, Q (Err e) (mkLagState w (ls_cache s))) /\
     Q (Ok (ifaces (ls_world s) !! n)) (mkLagState w (ls_cache s))) ->
  wp (interfaceUUID env n) Q s.
Proof.
  intros H. apply wp_bind, wp_checked. intros r w E. destruct (ol_iface L _ _ _ _ E) as [Hs Hr].
  destruct (H w Hs) as [H1 H2]. split; [done|]. intros rs -> Hc. destruct (Hr rs eq_refl Hc) as (res & -> & Hrow).
  apply wp_bind. unfold wp at 1, pure_go at 1, first_result. rewrite Hrow.
  destruct (ifaces (ls_world s) !! n) as [u|]; exact H2.
Qed.

Lemma mutate_op_built bond mutator u : buildMutatePortInterfacesOp env bond mutator u = Ok (mutate_op bond mutator u).
Proof. unfold buildMutatePortInterfacesOp. by rewrite (ol_set L). Qed.

(** Both clients begin alike: connect and query, which changes nothing. *)
Lemma wp_queried ep bond i (k : option string -> lagM (LagState W) unit) Q (s : LagState W) :
  (forall w e, same (ls_world s) w -> Q (Err e) (mkLagState w (ls_cache s))) ->
  (forall w, same (ls_world s) w -> wp (k (ifaces w !! i)) Q (mkLagState w (ls_cache s))) ->
  wp (_ ← external (le_ovsdb_connect env ep); _ ← requirePort env bond; found ← interfaceUUID env i; k found) Q s.
Proof.
  intros HE HK. apply wp_bind, wp_external. intros r w E. pose proof (ol_connect L _ _ _ _ E) as S1.
  destruct r as [msg|[]]; [by apply HE|].
  apply wp_bind, wp_requirePort. cbn. intros w2 S2. pose proof (same_trans _ _ _ S1 S2) as S12.
  split; [intros; by apply HE|]. apply wp_bind, wp_interfaceUUID. cbn. intros w3 S3.
  pose proof (same_trans _ _ _ S12 S3) as S13. split; [intros; by apply HE|].
  replace (ifaces w2) with (ifaces w3) by apply S3. by apply HK.
Qed.

Definition ovs_post (member : bool) (bond i : string) (w : W) (r : go lag_error unit) (s : LagState W) : Prop :=
  r <> Panic /\ others i w (ls_world s) /\ (r = Ok tt -> bool_decide (i ∈ ovs_members (ls_world s) bond) = member).

Lemma others_same_l i w w1 w2 : same w w1 -> others i w1 w2 -> others i w w2.
Proof. intros S [U H]. split; [done|]. intros bond' i' Hne. by rewrite H, (same_members w w1). Qed.

Lemma wp_mutatePort (member : bool) mutator f bond i u w (s : LagState W) :
  names_unique w -> same w (ls_world s) -> ifaces w !! i = Some u ->
  (forall set u', u' <> u -> u' ∈ f set <-> u' ∈ set) ->
  (forall w r w', le_Transact env [mutate_op bond mutator u] w = (r, w') ->
    (same w w' \/ mutated bond f w w') /\
    forall rs, r = inr rs -> le_CheckOperationResults env rs [mutate_op bond mutator u] = None ->
      exists res, rs = [res] /\ (or_Count res <> 0 -> mutated bond f w w')) ->
  (forall w w', ifaces w !! i = Some u -> mutated bond f w w' -> bool_decide (i ∈ ovs_members w' bond) = member) ->
  wp (mutatePortInterfaces env bond mutator u) (ovs_post member bond i w) s.
Proof.
  intros U Sw Hi Hf HL Hm. pose proof Hi as Hi'. rewrite <- (proj2 Sw) in Hi'.
  pose proof (same_unique _ _ Sw U) as U'.
  unfold mutatePortInterfaces. rewrite mutate_op_built. apply wp_bind. unfold wp at 1, pure_go at 1.
  apply wp_bind, wp_checked. intros r w1 E. destruct (HL _ _ _ E) as [Hany Hok].
  assert (O : others i w w1).
  { apply (others_same_l i w (ls_world s)); [done|]. destruct Hany as [Hs|Hs]; [by apply same_others|].
    by apply (mutated_others bond f i u). }
  split; [intros e; split_and!; done|]. intros rs -> Hc. destruct (Hok rs eq_refl Hc) as (res & -> & Hcount).
  apply wp_bind. unfold wp, pure_go, first_result, checkPortMutationCount, when_err.
  destruct (Z.eqb_spec (or_Count res) 0) as [_|Hne]; (split_and!; [done..|]); [done|].
  intros _. by apply (Hm (ls_world s)), Hcount.
Qed.

Lemma wp_ovs_remove ep bond i (s : LagState W) : names_unique (ls_world s) ->
  wp (OVSDB_RemoveBondInterface env ep bond i) (ovs_post false bond i (ls_world s)) s.
Proof.
  intros U. apply wp_queried.
  - intros w e Sw. split_and!; [done| |done]. by apply same_others.
  - intros w Sw. destruct (ifaces w !! i) as [u|] eqn:Hi.
    + rewrite (proj2 Sw) in Hi. apply (wp_mutatePort false "delete" (fun set => set ∖ {[u]}) bond i u); try done.
      * set_solver.
      * apply (ol_delete L).
      * intros w1 w2 Hi2 Hm. apply bool_decide_eq_false_2. by apply (mutated_delete bond i u w1).
    + split_and!; [done|by apply same_others|]. intros _. apply bool_decide_eq_false_2.
      intros (u & set & Hu & _)%elem_of_ovs_members. cbn in Hu. congruence.
Qed.

Lemma wp_ovs_add ep bond i (s : LagState W) : names_unique (ls_world s) ->
  wp (OVSDB_AddBondInterface env ep bond i) (ovs_post true bond i (ls_world s)) s.
Proof.
  intros U. apply wp_queried.
  - intros w e Sw. split_and!; [done| |done]. by apply same_others.
  - intros w Sw. destruct (ifaces w !! i) as [u|] eqn:Hi.
    + rewrite (proj2 Sw) in Hi. apply (wp_mutatePort true "insert" (fun set => set ∪ {[u]}) bond i u); try done.
      * set_solver.
      * apply (ol_insert L).
      * intros w1 w2 Hi2 Hm. apply bool_decide_eq_true_2. by apply (mutated_insert bond i u w1).
    + unfold buildInsertInterfaceAndMutatePortOps. rewrite mutate_op_built. apply wp_bind. unfold wp at 1, pure_go at 1.
      cbn [mbind go_bind]. apply wp_bind, wp_checked. cbn [ls_world ls_cache]. intros r w1 E.
      destruct (ol_new L _ _ _ _ _ E) as [Hany Hok].
      assert (O : others i (ls_world s) w1).
      { apply (others_same_l i _ w); [done|]. pose proof (same_unique _ _ Sw U) as U'.
        destruct Hany as [Hs|Hs]; [by apply same_others|by apply (inserted_others bond)]. }
      split; [intros e; split_and!; done|]. intros rs -> Hc. destruct (Hok rs eq_refl Hc) as (res0 & res & -> & Hcount).
      apply wp_bind. unfold wp, pure_go, last_result, checkPortMutationCount, when_err. cbn.
      destruct (Z.eqb_spec (or_Count res) 0) as [_|Hne]; (split_and!; [done..|]); [done|].
      intros _. apply bool_decide_eq_true_2. by apply (inserted_member bond i w), Hcount.
Qed.

Lemma ovsdb_follows ep pairs :
  follows (fun s => names_unique (ls_world s)) (fun s => ovs_members (ls_world s)) pairs (NewOVSDBLAGBackend env ep None).
Proof.
  apply client_follows. split; intros s bond i r s' U _ E.
  - destruct (wp_elim _ _ _ _ _ (wp_ovs_remove _ bond i s U) E) as (NP & [U' O] & Hok).
    split_and!; [done..| |intros; by apply O]. intros Hr. by apply (bool_decide_eq_false_1 _), Hok.
  - destruct (wp_elim _ _ _ _ _ (wp_ovs_add _ bond i s U) E) as (NP & [U' O] & Hok).
    split_and!; [done..| |intros; by apply O]. intros Hr. by apply (bool_decide_eq_true_1 _), Hok.
Qed.

End Ovsdb.

Section NetworkManager.
Context {W : Type} (env : LagEnv W).

(** The profile active on every interface; the device of an interface, the
    interface of an active connection and the settings of a profile. *)
Context (profiles : W -> gmap string string) (dev : string -> string) (owner : string -> option string)
        (settings : string -> nm_settings).

(** The NetworkManager interface: queries change nothing and tell the truth;
    deactivation and activation change one interface, or nothing when they fail. *)
Record nm_laws : Prop := {
  nl_connect : forall w r w', le_nm_connect env w = (r, w') -> profiles w' = profiles w;
  nl_device : forall i w r w', le_DeviceByIPInterface env i w = (r, w') ->
    profiles w' = profiles w /\ forall d, r = inr d -> d = dev i;
  nl_active : forall i w r w', le_DeviceActiveConnection env (dev i) w = (r, w') ->
    profiles w' = profiles w /\
    forall p, r = inr p -> if isNoObjectPath p then profiles w !! i = None
                           else owner p = Some i /\ is_Some (profiles w !! i);
  nl_connection : forall p i w r w', owner p = Some i -> le_ActiveConnectionConnection env p w = (r, w') ->
    profiles w' = profiles w /\ forall c, r = inr c -> profiles w !! i = Some c;
  nl_available : forall d w r w', le_DeviceAvailableConnections env d w = (r, w') -> profiles w' = profiles w;
  nl_settings : forall c w r w', le_ConnectionSettings env c w = (r, w') ->
    profiles w' = profiles w /\ forall st, r = inr st -> st = settings c;
  nl_deactivate : forall p i w r w', owner p = Some i -> le_DeactivateConnection env p w = (r, w') ->
    profiles w' = if r is inr _ then delete i (profiles w) else profiles w;
  nl_activate : forall c i w r w', le_ActivateConnection env c (dev i) w = (r, w') ->
    profiles w' = if r is inr _ then <[i := c]> (profiles w) else profiles w;
}.

Definition port_of (bond i c : string) : Prop := networkManagerSettingsMatchBondPort (settings c) bond i = true.

#[local] Instance port_of_dec bond i c : Decision (port_of bond i c).
Proof. unfold port_of. apply _. Defined.

Definition nm_members (w : W) (bond : string) : gset string :=
  dom (filter (fun kv : string * string => port_of bond kv.1 kv.2) (profiles w)).

Lemma elem_of_nm_members w bond i : i ∈ nm_members w bond <-> exists c, profiles w !! i = Some c /\ port_of bond i c.
Proof. unfold nm_members. rewrite elem_of_dom. unfold is_Some. by setoid_rewrite map_lookup_filter_Some. Qed.

(** Every interface the actuator is used for belongs to one bond, and the profiles
    active on it or remembered for it are ports of that bond. *)
Context (pairs : string -> string -> Prop) (PF : forall bond bond' i, pairs bond i -> pairs bond' i -> bond = bond').

Definition nm_inv (s : LagState W) : Prop :=
  (forall bond i c, pairs bond i -> profiles (ls_world s) !! i = Some c -> port_of bond i c) /\
  (forall bond i c, ls_cache s !! (bond, i) = Some c -> port_of bond i c).

Definition nm_post (member : bool) (bond i : string) (w : W) (r : go lag_error unit) (s : LagState W) : Prop :=
  nm_inv s /\ r <> Panic /\ (forall i', i' <> i -> profiles (ls_world s) !! i' = profiles w !! i') /\
  (r = Ok tt -> if member then is_Some (profiles (ls_world s) !! i) else profiles (ls_world s) !! i = None).

Lemma nm_inv_same w w' ca : profiles w' = profiles w -> nm_inv (mkLagState w ca) -> nm_inv (mkLagState w' ca).
Proof. unfold nm_inv. cbn. by intros ->. Qed.

Context (L : nm_laws).

(** Both operations begin alike: find the device and its active connection. *)
Lemma wp_nm_active i (k : string -> string -> lagM (LagState W) unit) Q (s : LagState W) :
  (forall w e, profiles w = profiles (ls_world s) -> Q (Err e) (mkLagState w (ls_cache s))) ->
  (forall w p, profiles w = profiles (ls_world s) ->
     (if isNoObjectPath p then profiles w !! i = None else owner p = Some i /\ is_Some (profiles w !! i)) ->
     wp (k (dev i) p) Q (mkLagState w (ls_cache s))) ->
  wp (_ ← external (le_nm_connect env); device ← external (le_DeviceByIPInterface env i);
      active ← external (le_DeviceActiveConnection env device); k device active) Q s.
Proof.
  intros HE HK. apply wp_bind, wp_external. intros r w E. pose proof (nl_connect L _ _ _ E) as S1.
  destruct r as [msg|[]]; [by apply HE|]. apply wp_bind, wp_external. cbn. intros r w2 E2.
  destruct (nl_device L _ _ _ _ E2) as [S2 Hd]. rewrite S1 in S2.
  destruct r as [msg|d]; [by apply HE|]. rewrite (Hd d eq_refl). apply wp_bind, wp_external. cbn. intros r w3 E3.
  destruct (nl_active L _ _ _ _ E3) as [S3 Hp]. rewrite S2 in S3.
  destruct r as [msg|p]; [by apply HE|]. apply HK; [done|]. specialize (Hp p eq_refl). by rewrite S2 in Hp; rewrite S3.
Qed.

Lemma nm_post_error member bond i w w' e ca :
  nm_inv (mkLagState w ca) -> profiles w' = profiles w -> nm_post member bond i w (Err e) (mkLagState w' ca).
Proof. intros I E. split_and!; [by apply (nm_inv_same w)|done| |done]. cbn. intros. by rewrite E. Qed.

Lemma wp_nm_remove bond i (s : LagState W) : pairs bond i -> nm_inv s ->
  wp (NM_RemoveBondInterface env bond i) (nm_post false bond i (ls_world s)) s.
Proof.
  intros P I. destruct s as [w0 ca]. cbn. apply wp_nm_active; cbn.
  { intros. by apply nm_post_error. }
  intros w p Sw Hp. destruct (isNoObjectPath p) eqn:Hno.
  { split_and!; [by apply (nm_inv_same w0)|done| |done]. cbn. intros. by rewrite Sw. }
  destruct Hp as [Ho _]. apply wp_bind, wp_external. cbn. intros r w1 E1.
  destruct (nl_connection L _ _ _ _ _ Ho E1) as [S1 Hc]. rewrite Sw in S1.
  destruct r as [msg|c]; [by apply nm_post_error|]. specialize (Hc c eq_refl). rewrite Sw in Hc.
  apply wp_bind. unfold wp at 1, rememberConnection. cbn. apply wp_external. cbn. intros r w2 E2.
  pose proof (nl_deactivate L _ _ _ _ _ Ho E2) as S2. rewrite S1 in S2. destruct I as [Ia Ic]. cbn in Ia, Ic.
  assert (Ic' : forall bond' i' c', <[(bond, i) := c]> ca !! (bond', i') = Some c' -> port_of bond' i' c').
  { intros bond' i' c' [[[= -> ->] ->]|[_ H]]%lookup_insert_Some; [by apply Ia|by apply Ic]. }
  destruct r as [msg|[]]; (split_and!; [split; cbn; [|done]; rewrite S2| | cbn; rewrite S2 | ]); try done.
  - intros bond' i' c' P' [_ H]%lookup_delete_Some. by apply Ia.
  - intros i' Hne. by rewrite lookup_delete_ne.
  - intros _. cbn. rewrite S2. apply lookup_delete_eq.
Qed.

(** The profile activated is one of the bond. *)
Lemma wp_find_connection l bond i w0 ca Q : 
  (forall w e, profiles w = profiles w0 -> Q (Err e) (mkLagState w ca)) ->
  (forall w c, profiles w = profiles w0 -> port_of bond i c -> Q (Ok c) (mkLagState w (<[(bond, i) := c]> ca))) ->
  forall w, profiles w = profiles w0 -> wp (find_connection env l bond i) Q (mkLagState w ca).
Proof.
  intros HE HK. induction l as [|c l IH]; intros w Sw; cbn [find_connection]; [by apply HE|].
  apply wp_bind, wp_external. cbn. intros r w1 E1. destruct (nl_settings L _ _ _ _ E1) as [S1 Hs]. rewrite Sw in S1.
  destruct r as [msg|st]; [by apply HE|]. rewrite (Hs st eq_refl).
  destruct (networkManagerSettingsMatchBondPort (settings c) bond i) eqn:Hm; [|by apply IH]. by apply HK.
Qed.

Lemma wp_nm_activate bond i c w0 w ca : nm_inv (mkLagState w0 ca) -> pairs bond i -> port_of bond i c ->
  profiles w = profiles w0 ->
  wp (_ ← external (le_ActivateConnection env c (dev i)); mret tt) (nm_post true bond i w0) (mkLagState w ca).
Proof.
  intros [Ia Ic] P Hc Sw. apply wp_bind, wp_external. cbn. intros r w1 E1.
  pose proof (nl_activate L _ _ _ _ _ E1) as S1. rewrite Sw in S1.
  destruct r as [msg|p]; (split_and!; [split; cbn; [|done]; rewrite S1| | cbn; rewrite S1 | ]); try done.
  - intros bond' i' c' P' [[<- <-]|[_ H]]%lookup_insert_Some; [|by apply Ia]. by rewrite (PF bond' bond i).
  - intros i' Hne. by rewrite lookup_insert_ne.
  - intros _. cbn. rewrite S1, lookup_insert_eq. done.
Qed.

Lemma nm_inv_cache w ca bond i c : port_of bond i c -> nm_inv (mkLagState w ca) ->
  nm_inv (mkLagState w (<[(bond, i) := c]> ca)).
Proof.
  intros Hc [Ia Ic]. split; [done|]. cbn.
  intros bond' i' c' [[[= -> ->] <-]|[_ H]]%lookup_insert_Some; [done|by apply Ic].
Qed.

Lemma wp_nm_add bond i (s : LagState W) : pairs bond i -> nm_inv s ->
  wp (NM_AddBondInterface env bond i) (nm_post true bond i (ls_world s)) s.
Proof.
  intros P I. destruct s as [w0 ca]. cbn. apply wp_nm_active; cbn.
  { intros. by apply nm_post_error. }
  intros w p Sw Hp. destruct (isNoObjectPath p) eqn:Hno; cbn [negb].
  2: { split_and!; [by apply (nm_inv_same w0)|done| |intros _; by apply Hp]. cbn. intros. by rewrite Sw. }
  apply wp_bind. unfold wp at 1, rememberedConnection. cbn. apply wp_bind. destruct (ca !! (bond, i)) as [c|] eqn:Hca.
  { apply wp_nm_activate; try done. apply (proj2 I _ _ _ Hca). }
  apply wp_bind, wp_external. cbn. intros r w1 E1. pose proof (nl_available L _ _ _ _ E1) as S1. rewrite Sw in S1.
  destruct r as [msg|l]; [by apply nm_post_error|]. apply (wp_find_connection l bond i w0).
  - intros. by apply nm_post_error.
  - intros w2 c S2 Hc. apply wp_nm_activate; try done. by apply nm_inv_cache.
  - done.
Qed.

Lemma nm_post_others member bond i w r s bond' i' : nm_post member bond i w r s -> i' <> i ->
  i' ∈ nm_members (ls_world s) bond' <-> i' ∈ nm_members w bond'.
Proof. intros (_ & _ & H & _) Hne. rewrite !elem_of_nm_members. by rewrite (H i' Hne). Qed.

Lemma nm_follows : follows nm_inv (fun s => nm_members (ls_world s)) pairs (NewNetworkManagerLAGBackend env None).
Proof.
  apply client_follows. split; intros s bond i r s' I P E.
  - pose proof (wp_elim _ _ _ _ _ (wp_nm_remove bond i s P I) E) as Hpost. pose proof Hpost as (I' & NP & _ & Hok).
    split_and!; [done..| |intros; by apply (nm_post_others false bond i _ r)].
    intros Hr (c & Hc & _)%elem_of_nm_members. rewrite (Hok Hr) in Hc. done.
  - pose proof (wp_elim _ _ _ _ _ (wp_nm_add bond i s P I) E) as Hpost. pose proof Hpost as (I' & NP & _ & Hok).
    split_and!; [done..| |intros; by apply (nm_post_others true bond i _ r)].
    intros Hr. destruct (Hok Hr) as [c Hc]. apply elem_of_nm_members. exists c. split; [done|]. by apply (proj1 I').
Qed.

End NetworkManager.
