(* ===== verification/NetworkManager.v ===== *)
(** * The NetworkManager service on the message bus
      ([internal/netio/lag_networkmanager.go], [dbusNetworkManager])

    The operations of the client in [Lag] as calls and properties of objects of the
    message bus: which object, interface and member each of them names, and what it
    does with the reply.  The bus is an interface; when the service behind it behaves
    as its API says, the operations obey the laws the back end relies on. *)

From stdpp Require Import strings gmap.
From S2P Require Import Prelude Lag LagBackends.

Local Open Scope Z_scope.
Local Open Scope string_scope.

Definition networkManagerBusName : string := "org.freedesktop.NetworkManager".
Definition networkManagerObjectPath : string := "/org/freedesktop/NetworkManager".
Definition networkManagerInterface : string := "org.freedesktop.NetworkManager".
Definition networkManagerDeviceInterface : string := "org.freedesktop.NetworkManager.Device".
Definition networkManagerActiveInterface : string := "org.freedesktop.NetworkManager.Connection.Active".
Definition networkManagerSettingsInterface : string := "org.freedesktop.NetworkManager.Settings.Connection".
Definition dbusNoObjectPath : string := "/".

(** Arguments of calls. *)
Inductive bus_arg := ArgString (s : string) | ArgPath (p : string).

Record bus_object := mkObject { ob_dest : string; ob_path : string }.

(** The bus library: connecting; a call whose reply is stored into an object path, into
    settings or dropped; a property stored into an object path or a list of them. *)
Record Bus (W : Type) := mkBus {
  bus_connect : ext W unit;
  bus_call_path : bus_object -> string -> list bus_arg -> ext W string;
  bus_call_settings : bus_object -> string -> list bus_arg -> ext W nm_settings;
  bus_call : bus_object -> string -> list bus_arg -> ext W unit;
  bus_property_path : bus_object -> string -> ext W string;
  bus_property_paths : bus_object -> string -> ext W (list string);
}.
Arguments bus_connect {W}.
Arguments bus_call_path {W}.
Arguments bus_call_settings {W}.
Arguments bus_call {W}.
Arguments bus_property_path {W}.
Arguments bus_property_paths {W}.

Definition object (path : string) : bus_object := mkObject networkManagerBusName path.
Definition managerObject : bus_object := object networkManagerObjectPath.

Section Operations.
Context {W : Type} (bus : Bus W).

Definition DeviceByIPInterface (iface : string) : ext W string :=
  bus_call_path bus managerObject (networkManagerInterface +:+ ".GetDeviceByIpIface") [ArgString iface].

Definition DeviceActiveConnection (device : string) : ext W string :=
  bus_property_path bus (object device) (networkManagerDeviceInterface +:+ ".ActiveConnection").

Definition DeviceAvailableConnections (device : string) : ext W (list string) :=
  bus_property_paths bus (object device) (networkManagerDeviceInterface +:+ ".AvailableConnections").

Definition ActiveConnectionConnection (active : string) : ext W string :=
  bus_property_path bus (object active) (networkManagerActiveInterface +:+ ".Connection").

Definition DeactivateConnection (active : string) : ext W unit :=
  bus_call bus managerObject (networkManagerInterface +:+ ".DeactivateConnection") [ArgPath active].

Definition ActivateConnection (connection device : string) : ext W string :=
  bus_call_path bus managerObject (networkManagerInterface +:+ ".ActivateConnection")
    [ArgPath connection; ArgPath device; ArgPath dbusNoObjectPath].

Definition ErrNetworkManagerSettingsInvalid : string := "NetworkManager connection settings are invalid".

Definition ConnectionSettings (connection : string) : ext W nm_settings := fun w =>
  match bus_call_settings bus (object connection) (networkManagerSettingsInterface +:+ ".GetSettings") [] w with
  | (inl err, w) => (inl err, w)
  | (inr settings, w) =>
      if settings !! "connection" is Some _ then (inr settings, w) else (inl ErrNetworkManagerSettingsInvalid, w)
  end.

(** The environment of the back ends with these operations. *)
Definition dbus_env (env : LagEnv W) : LagEnv W :=
  {| (env) with le_nm_connect := bus_connect bus; le_DeviceByIPInterface := DeviceByIPInterface;
       le_DeviceActiveConnection := DeviceActiveConnection;
       le_DeviceAvailableConnections := DeviceAvailableConnections;
       le_ActiveConnectionConnection := ActiveConnectionConnection;
       le_DeactivateConnection := DeactivateConnection; le_ActivateConnection := ActivateConnection;
       le_ConnectionSettings := ConnectionSettings |}.

End Operations.

(** ** The service behind the bus *)

Section Service.
Context {W : Type} (bus : Bus W).

Context (profiles : W -> gmap string string) (dev : string -> string) (owner : string -> option string)
        (settings : string -> nm_settings).

Local Notation service := (mkObject "org.freedesktop.NetworkManager").
Local Notation manager := (service "/org/freedesktop/NetworkManager").

(** The API of the service: reading a property and [GetDeviceByIpIface] and
    [GetSettings] change nothing and tell the truth; [DeactivateConnection] and
    [ActivateConnection] change one interface, or nothing when the reply is an error. *)
Record nm_api : Prop := {
  api_connect : forall w r w', bus_connect bus w = (r, w') -> profiles w' = profiles w;
  api_device : forall i w r w',
    bus_call_path bus manager "org.freedesktop.NetworkManager.GetDeviceByIpIface" [ArgString i] w = (r, w') ->
    profiles w' = profiles w /\ forall d, r = inr d -> d = dev i;
  api_active : forall i w r w',
    bus_property_path bus (service (dev i)) "org.freedesktop.NetworkManager.Device.ActiveConnection" w = (r, w') ->
    profiles w' = profiles w /\
    forall p, r = inr p -> if isNoObjectPath p then profiles w !! i = None
                           else owner p = Some i /\ is_Some (profiles w !! i);
  api_available : forall d w r w',
    bus_property_paths bus (service d) "org.freedesktop.NetworkManager.Device.AvailableConnections" w = (r, w') ->
    profiles w' = profiles w;
  api_connection : forall p i w r w', owner p = Some i ->
    bus_property_path bus (service p) "org.freedesktop.NetworkManager.Connection.Active.Connection" w = (r, w') ->
    profiles w' = profiles w /\ forall c, r = inr c -> profiles w !! i = Some c;
  api_settings : forall c w r w',
    bus_call_settings bus (service c) "org.freedesktop.NetworkManager.Settings.Connection.GetSettings" [] w = (r, w') ->
    profiles w' = profiles w /\ forall st, r = inr st -> st = settings c;
  api_deactivate : forall p i w r w', owner p = Some i ->
    bus_call bus manager "org.freedesktop.NetworkManager.DeactivateConnection" [ArgPath p] w = (r, w') ->
    profiles w' = if r is inr _ then delete i (profiles w) else profiles w;
  api_activate : forall c i w r w',
    bus_call_path bus manager "org.freedesktop.NetworkManager.ActivateConnection" [ArgPath c; ArgPath (dev i); ArgPath "/"] w = (r, w') ->
    profiles w' = if r is inr _ then <[i := c]> (profiles w) else profiles w;
}.

(** The operations obey the laws of the back end. *)
Lemma dbus_nm_laws env : nm_api -> nm_laws (dbus_env bus env) profiles dev owner settings.
Proof.
  intros A. split; cbn.
  - apply (api_connect A).
  - apply (api_device A).
  - apply (api_active A).
  - apply (api_connection A).
  - apply (api_available A).
  - intros c w r w'. unfold ConnectionSettings.
    destruct (bus_call_settings _ _ _ _ w) as [r1 w1] eqn:E. destruct (api_settings A _ _ _ _ E) as [Hw Hst].
    destruct r1 as [err|st]; [intros [= <- <-]; by split|].
    destruct (st !! "connection"); intros [= <- <-]; (split; [done|]); [|done]. intros st' [= <-]. by apply Hst.
  - apply (api_deactivate A).
  - apply (api_activate A).
Qed.

End Service.

(** Settings without a section for the connection end the search with an error, even
    if a later connection matches. *)
Lemma settings_without_connection {W} (bus : Bus W) env connection rest bond iface (s : LagState W) st w' :
  bus_call_settings bus (mkObject "org.freedesktop.NetworkManager" connection)
    "org.freedesktop.NetworkManager.Settings.Connection.GetSettings" [] (ls_world s) = (inr st, w') ->
  st !! "connection" = None ->
  find_connection (dbus_env bus env) (connection :: rest) bond iface s =
  (Err (ErrExternal ErrNetworkManagerSettingsInvalid), mkLagState w' (ls_cache s)).
Proof.
  intros E Hst.
  assert (Hc : ConnectionSettings bus connection (ls_world s) = (inl ErrNetworkManagerSettingsInvalid, w')).
  { unfold ConnectionSettings. change (object connection) with (mkObject "org.freedesktop.NetworkManager" connection).
    change (networkManagerSettingsInterface +:+ ".GetSettings") with "org.freedesktop.NetworkManager.Settings.Connection.GetSettings".
    by rewrite E, Hst. }
  cbn [find_connection]. unfold mbind, lagM_bind, external at 1. cbn [dbus_env le_ConnectionSettings]. by rewrite Hc.
Qed.
