(* ===== verification/Daemon.v ===== *)
(** * The daemon: configuration into sessions ([cmd/gobfd])

    The sender factory and the conversions of [factory.go], the reconciliation of
    [reload.go], [micro_bfd.go] and [overlay.go] that turns a configuration into
    calls of the manager at start and on SIGHUP.  The outcomes of socket calls and
    the random inputs of the manager are inputs. *)

From stdpp Require Import strings relations.
From S2P Require Import Prelude Config Packet Fsm Auth Netip NetipParse Jitter Session SessionInv SessionSteps.
From S2P Require Import SessionProps SessionFrame Intervals Discriminator Micro Unsolicited Echo Manager.
From S2P Require Import ManagerSteps ManagerInv ManagerOps ManagerProps ManagerReconcile Overlay Transport Lag.

Local Open Scope Z_scope.

Inductive daemon_error :=
| ErrDaemonConfig (e : config_error)
| ErrDaemonAuth (e : auth_error)
| ErrDaemonNet (e : netio_error)
| ErrDaemonOverlay (e : overlay_error)
| ErrDaemonLag (e : lag_error)
| ErrParsePrefix
| ErrOverlayLocal
| errDetectMultOverflow.

(** Wrapping of errors. *)
Definition wrap {E F A} (f : E -> F) (r : go E A) : go F A :=
  match r with Ok a => Ok a | Err e => Err (f e) | Panic => Panic end.

(** A value or, when it is zero, its default. *)
Definition or_default (v d : Z) : Z := if v =? 0 then d else v.

(** ** Senders ([factory.go]) *)

Record udpSenderFactory := mkUdpSenderFactory {
  sf_portAlloc : SourcePortAllocator;
  sf_senders : gmap Z UDPSender;
}.

Definition newUDPSenderFactory : udpSenderFactory :=
  {| sf_portAlloc := NewSourcePortAllocator; sf_senders := ∅ |}.

(** The random offset of the port search and the outcomes of the socket calls. *)
Record SenderEnv := mkSenderEnv { sv_offset : option Z; sv_sys : System; sv_buffer : bool }.

Definition createSenderForSession (env : SenderEnv) (localAddr : Addr) (multiHop : bool)
    (senderOpts : list SenderOption) (f : udpSenderFactory)
    : go daemon_error UDPSender * udpSenderFactory :=
  match AllocatePort (sv_offset env) (sf_portAlloc f) with
  | (Err e, a) => (Err (ErrDaemonNet e), {| f with sf_portAlloc := a |})
  | (Panic, a) => (Panic, {| f with sf_portAlloc := a |})
  | (Ok srcPort, a) =>
      match NewUDPSender (sv_sys env) (sv_buffer env) localAddr srcPort multiHop senderOpts with
      | Err e => (Err (ErrDaemonNet e), {| f with sf_portAlloc := ReleasePort srcPort a |})
      | Panic => (Panic, {| f with sf_portAlloc := a |})
      | Ok sender =>
          (Ok sender, {| sf_portAlloc := a; sf_senders := <[srcPort := sender]> (sf_senders f) |})
      end
  end.

(** The same without options, for the API; the port is returned too. *)
Definition CreateSender (env : SenderEnv) (localAddr : Addr) (multiHop : bool) (f : udpSenderFactory)
    : go daemon_error (UDPSender * Z) * udpSenderFactory :=
  let '(r, f) := createSenderForSession env localAddr multiHop [] f in
  (sender ← r; Ok (sender, us_srcPort sender), f).

(** Closing a sender does not fail in the model of sockets; the closed sender is the
    second result. *)
Definition CloseSender (srcPort : Z) (f : udpSenderFactory) : option UDPSender * udpSenderFactory :=
  match sf_senders f !! srcPort with
  | None => (None, f)
  | Some sender =>
      (Some (UDP_Close sender),
       {| sf_portAlloc := ReleasePort srcPort (sf_portAlloc f);
          sf_senders := delete srcPort (sf_senders f) |})
  end.

(** ** Conversions *)

Definition configSessionTypeToBFD (sessionType : string) : Z :=
  if bool_decide (sessionType = "multi_hop"%string) then SessionTypeMultiHop else SessionTypeSingleHop.

Definition configAuthTypeToBFD (authType : string) : go daemon_error Z :=
  if bool_decide (authType = "simple_password"%string) then Ok AuthTypeSimplePassword else
  if bool_decide (authType = "keyed_md5"%string) then Ok AuthTypeKeyedMD5 else
  if bool_decide (authType = "meticulous_keyed_md5"%string) then Ok AuthTypeMeticulousKeyedMD5 else
  if bool_decide (authType = "keyed_sha1"%string) then Ok AuthTypeKeyedSHA1 else
  if bool_decide (authType = "meticulous_keyed_sha1"%string) then Ok AuthTypeMeticulousKeyedSHA1 else
  Err (ErrDaemonConfig ErrInvalidSessionAuthType).

(** The bytes of a string. *)
Definition bytes_of (s : string) : list Z := code <$> chars_of s.

Definition configAuthToBFD (authCfg : AuthConfig)
    : go daemon_error (option Authenticator * option AuthKeyStore) :=
  let authTypeName := TrimSpace (ac_Type authCfg) in
  if bool_decide (authTypeName = "") || bool_decide (authTypeName = "none"%string)
  then Ok (None, None) else
  authType ← configAuthTypeToBFD authTypeName;
  if 255 <? ac_KeyID authCfg then Err (ErrDaemonConfig ErrInvalidSessionAuthKeyID) else
  auth ← wrap ErrDaemonAuth (NewAuthenticator authType);
  keys ← wrap ErrDaemonAuth (NewStaticAuthKeyStore
    {| key_ID := u8 (ac_KeyID authCfg); key_Type := authType; key_Secret := bytes_of (ac_Secret authCfg) |} []);
  Ok (Some auth, Some (static_key_store keys)).

Definition configSessionToBFD (sc : Config.SessionConfig) (defaults : BFDConfig)
    : go daemon_error SessionConfig :=
  peerAddr ← wrap ErrDaemonConfig (SessionConfig_PeerAddr sc);
  localAddr ← wrap ErrDaemonConfig (SessionConfig_LocalAddr sc);
  let sessType := configSessionTypeToBFD (sess_Type sc) in
  let desiredMinTx := or_default (sess_DesiredMinTx sc) (bc_DefaultDesiredMinTx defaults) in
  let requiredMinRx := or_default (sess_RequiredMinRx sc) (bc_DefaultRequiredMinRx defaults) in
  let detectMult := or_default (sess_DetectMult sc) (bc_DefaultDetectMultiplier defaults) in
  if 255 <? detectMult then Err errDetectMultOverflow else
  let align d := if bc_AlignIntervals defaults then AlignToCommonInterval d else d in
  let paddedPduSize := or_default (sess_PaddedPduSize sc) (bc_DefaultPaddedPduSize defaults) in
  '(auth, authKeys) ← configAuthToBFD (sess_Auth sc);
  Ok {| cfg_PeerAddr := peerAddr; cfg_LocalAddr := localAddr; cfg_Interface := sess_Interface sc;
        cfg_Type := sessType; cfg_Role := RoleActive;
        cfg_DesiredMinTxInterval := align desiredMinTx; cfg_RequiredMinRxInterval := align requiredMinRx;
        cfg_DetectMultiplier := u8 detectMult; cfg_Auth := auth; cfg_AuthKeys := authKeys;
        cfg_PaddedPduSize := paddedPduSize |}.

Definition configEchoToBFD (ep : EchoPeerConfig) (defaults : EchoConfig) : go daemon_error EchoSessionConfig :=
  peerAddr ← wrap ErrDaemonConfig (EchoPeerConfig_PeerAddr ep);
  localAddr ← wrap ErrDaemonConfig (EchoPeerConfig_LocalAddr ep);
  let txInterval := or_default (ep_TxInterval ep) (echo_DefaultTxInterval defaults) in
  let detectMult := or_default (ep_DetectMult ep) (echo_DefaultDetectMultiplier defaults) in
  if 255 <? detectMult then Err errDetectMultOverflow else
  Ok {| ec_PeerAddr := peerAddr; ec_LocalAddr := localAddr; ec_Interface := ep_Interface ep;
        ec_TxInterval := txInterval; ec_DetectMultiplier := u8 detectMult |}.

Definition configMicroBFDToBFD (gc : MicroBFDGroupConfig) : go daemon_error MicroBFDConfig :=
  peerAddr ← wrap ErrDaemonConfig (parse_addr (mg_PeerAddr gc));
  localAddr ← wrap ErrDaemonConfig (parse_addr (mg_LocalAddr gc));
  if 255 <? mg_DetectMult gc then Err errDetectMultOverflow else
  Ok {| mc_LAGInterface := mg_LAGInterface gc; mc_MemberLinks := mg_MemberLinks gc;
        mc_PeerAddr := peerAddr; mc_LocalAddr := localAddr;
        mc_DesiredMinTxInterval := mg_DesiredMinTx gc; mc_RequiredMinRxInterval := mg_RequiredMinRx gc;
        mc_DetectMultiplier := u8 (mg_DetectMult gc); mc_MinActiveLinks := mg_MinActiveLinks gc |}.

Record overlayTimerDefaults := mkOverlayTimerDefaults {
  od_desiredMinTx : Z;
  od_requiredMinRx : Z;
  od_detectMult : Z;
}.

Definition buildOverlaySessionConfig (peerStr localStr : string) (peerTx peerRx peerDetect : Z)
    (defaults : overlayTimerDefaults) (sessType : Z) : go daemon_error SessionConfig :=
  peerAddr ← wrap ErrDaemonConfig (parse_addr peerStr);
  localAddr ← wrap ErrDaemonConfig (local_addr localStr);
  let detectMult := or_default peerDetect (od_detectMult defaults) in
  if 255 <? detectMult then Err errDetectMultOverflow else
  Ok {| cfg_PeerAddr := peerAddr; cfg_LocalAddr := localAddr; cfg_Interface := "";
        cfg_Type := sessType; cfg_Role := RoleActive;
        cfg_DesiredMinTxInterval := or_default peerTx (od_desiredMinTx defaults);
        cfg_RequiredMinRxInterval := or_default peerRx (od_requiredMinRx defaults);
        cfg_DetectMultiplier := u8 detectMult; cfg_Auth := None; cfg_AuthKeys := None;
        cfg_PaddedPduSize := 0 |}.

Fixpoint parse_prefixes (l : list string) : go daemon_error (list Prefix) :=
  match l with
  | [] => Ok []
  | s :: l =>
      match ParsePrefix s with
      | None => Err ErrParsePrefix
      | Some p => ps ← parse_prefixes l; Ok (p :: ps)
      end
  end.

Fixpoint build_interfaces (l : list (string * Config.UnsolicitedInterfaceConfig))
    (interfaces : gmap string UnsolicitedInterfaceConfig)
    : go daemon_error (gmap string UnsolicitedInterfaceConfig) :=
  match l with
  | [] => Ok interfaces
  | (name, ifCfg) :: l =>
      prefixes ← parse_prefixes (uic_AllowedPrefixes ifCfg);
      build_interfaces l (<[name := {| ui_Enabled := uic_Enabled ifCfg; ui_AllowedPrefixes := prefixes |}]>
                            interfaces)
  end.

Definition buildUnsolicitedPolicy (ord : order string Config.UnsolicitedInterfaceConfig)
    (cfg : UnsolicitedConfig) : go daemon_error UnsolicitedPolicy :=
  interfaces ← build_interfaces (ord (map_to_list (uc_Interfaces cfg))) ∅;
  let detectMult := usd_DetectMult (uc_SessionDefaults cfg) in
  if 255 <? detectMult then Err errDetectMultOverflow else
  Ok {| up_Enabled := uc_Enabled cfg; up_Interfaces := interfaces; up_MaxSessions := uc_MaxSessions cfg;
        up_SessionDefaults :=
          {| ud_DesiredMinTxInterval := usd_DesiredMinTx (uc_SessionDefaults cfg);
             ud_RequiredMinRxInterval := usd_RequiredMinRx (uc_SessionDefaults cfg);
             ud_DetectMultiplier := u8 detectMult |};
        up_CleanupTimeout := uc_CleanupTimeout cfg |}.

(** ** The manager ([newManager]) *)

Definition configMicroBFDActuatorToNetio (cfg : MicroBFDActuatorConfig) : LAGActuatorConfig :=
  {| lc_Mode := ma_Mode cfg; lc_Backend := ma_Backend cfg; lc_OVSDBEndpoint := ma_OVSDBEndpoint cfg;
     lc_OwnerPolicy := ma_OwnerPolicy cfg; lc_DownAction := ma_DownAction cfg; lc_UpAction := ma_UpAction cfg |}.

(** [None]: no actuator. *)
Definition buildMicroBFDActuator {W} (env : LagEnv W) (cfg : MicroBFDActuatorConfig)
    : go daemon_error (option (LAGActuator (LagState W))) :=
  if bool_decide (ma_Mode cfg = "disabled"%string) then Ok None else
  let actuatorCfg := configMicroBFDActuatorToNetio cfg in
  backend ← (if bool_decide (lc_Mode actuatorCfg = "enforce"%string)
             then wrap ErrDaemonLag (b ← NewLAGActuatorBackend env actuatorCfg; Ok (Some b)) else Ok None);
  actuator ← wrap ErrDaemonLag (NewLAGActuator actuatorCfg backend);
  Ok (Some actuator).

(** The sender of unsolicited sessions comes from a factory of its own. *)
Definition newManager {W} (env : LagEnv W) (senv : SenderEnv)
    (ord : order string Config.UnsolicitedInterfaceConfig) (cfg : Config)
    : go daemon_error (Manager * option (LAGActuator (LagState W)) * option UDPSender) :=
  actuator ← buildMicroBFDActuator env (micro_Actuator (c_MicroBFD cfg));
  let hasActuator := match actuator with Some _ => true | None => false end in
  if uc_Enabled (c_Unsolicited cfg) then
    policy ← buildUnsolicitedPolicy ord (c_Unsolicited cfg);
    sender ← (createSenderForSession senv (IPv4 0) false [] newUDPSenderFactory).1;
    Ok (NewManager (Some policy) true hasActuator, actuator, Some sender)
  else Ok (NewManager None false hasActuator, actuator, None).

(** ** Reconciliation

    The daemon's state is the manager and the sender factory.  [None]: a panic. *)

Record DaemonState := mkDaemonState { d_mgr : Manager; d_sf : udpSenderFactory }.

(** A loop that builds a list and skips the entries that fail; the [i]-th entry gets
    the [i]-th inputs. *)
Fixpoint collect {A B} (f : nat -> A -> udpSenderFactory -> option (option B * udpSenderFactory))
    (i : nat) (l : list A) (sf : udpSenderFactory) : option (list B * udpSenderFactory) :=
  match l with
  | [] => Some ([], sf)
  | x :: l =>
      '(b, sf) ← f i x sf;
      '(bs, sf) ← collect f (S i) l sf;
      Some (match b with Some b => b :: bs | None => bs end, sf)
  end.

(** The sender of an entry: [Some None] when the entry is skipped. *)
Definition with_sender {B} (b : B) (r : go daemon_error UDPSender * udpSenderFactory)
    : option (option B * udpSenderFactory) :=
  match r with
  | (Ok _, sf) => Some (Some b, sf)
  | (Err _, sf) => Some (None, sf)
  | (Panic, _) => None
  end.

(** The inputs of one reconciliation of sessions. *)
Record SessionInput := mkSessionInput {
  si_sender : nat -> SenderEnv;
  si_create : string -> CreateInput;
  si_ordk : order sessionKey nat;
  si_ordc : order string Z;
  si_ordd : order string ReconcileConfig;
}.

Definition run_reconcile (desired : list ReconcileConfig) (inp : SessionInput) (m : Manager) : option Manager :=
  '(_, _, _, m) ← ReconcileSessions desired (si_create inp) (si_ordk inp) (si_ordc inp) (si_ordd inp) m;
  Some m.

Definition desired_session (bfd : BFDConfig) (env : SenderEnv) (sc : Config.SessionConfig)
    (sf : udpSenderFactory) : option (option ReconcileConfig * udpSenderFactory) :=
  match configSessionToBFD sc bfd with
  | Panic => None
  | Err _ => Some (None, sf)
  | Ok sessCfg =>
      let multiHop := cfg_Type sessCfg =? SessionTypeMultiHop in
      let senderOpts := if 0 <? cfg_PaddedPduSize sessCfg then [WithDFBit] else [] in
      with_sender (mkReconcileConfig (SessionKey sc) sessCfg)
        (createSenderForSession env (cfg_LocalAddr sessCfg) multiHop senderOpts sf)
  end.

Definition reconcileSessions (cfg : Config) (inp : SessionInput) (d : DaemonState) : option DaemonState :=
  if bool_decide (c_Sessions cfg = []) then Some d else
  '(desired, sf) ← collect (fun i => desired_session (c_BFD cfg) (si_sender inp i)) 0 (c_Sessions cfg) (d_sf d);
  m ← run_reconcile desired inp (d_mgr d);
  Some (mkDaemonState m sf).

Record EchoInput := mkEchoInput {
  ei_sender : nat -> SenderEnv;
  ei_reads : string -> reads;
  ei_ordk : order Z nat;
  ei_ordc : order string Z;
  ei_ordd : order string EchoReconcileConfig;
}.

Definition desired_echo (echo : EchoConfig) (env : SenderEnv) (ep : EchoPeerConfig)
    (sf : udpSenderFactory) : option (option EchoReconcileConfig * udpSenderFactory) :=
  match configEchoToBFD ep echo with
  | Panic => None
  | Err _ => Some (None, sf)
  | Ok echoCfg =>
      with_sender (mkEchoReconcileConfig (EchoSessionKey ep) echoCfg)
        (createSenderForSession env (ec_LocalAddr echoCfg) false [WithDstPort PortEcho] sf)
  end.

Definition reconcileEchoSessions (cfg : Config) (inp : EchoInput) (d : DaemonState) : option DaemonState :=
  if negb (echo_Enabled (c_Echo cfg)) || bool_decide (echo_Peers (c_Echo cfg) = []) then Some d else
  '(desired, sf) ← collect (fun i => desired_echo (c_Echo cfg) (ei_sender inp i)) 0
                     (echo_Peers (c_Echo cfg)) (d_sf d);
  '(_, _, _, m) ← ReconcileEchoSessions desired (ei_reads inp) (ei_ordk inp) (ei_ordc inp) (ei_ordd inp)
                    (d_mgr d);
  Some (mkDaemonState m sf).

(** *** Micro-BFD ([micro_bfd.go]) *)

Definition reconcileMicroBFDGroupState (cfg : Config) (ordc : order string unit)
    (ordd : order string MicroBFDReconcileConfig) (m : Manager) : option Manager :=
  let desired := omap (fun group =>
    match configMicroBFDToBFD group with
    | Ok microCfg => Some (mkMicroBFDReconcileConfig (mg_LAGInterface group) microCfg)
    | _ => None
    end) (micro_Groups (c_MicroBFD cfg)) in
  '(_, _, _, m) ← ReconcileMicroBFDGroups desired ordc ordd m;
  Some m.

Definition buildMemberReconcile (peerAddr localAddr : Addr) (member : string)
    (desiredMinTx requiredMinRx detectMult : Z) (env : SenderEnv) (sf : udpSenderFactory)
    : option (option ReconcileConfig * udpSenderFactory) :=
  let sessCfg :=
    {| cfg_PeerAddr := peerAddr; cfg_LocalAddr := localAddr; cfg_Interface := member;
       cfg_Type := SessionTypeMicroBFD; cfg_Role := RoleActive;
       cfg_DesiredMinTxInterval := desiredMinTx; cfg_RequiredMinRxInterval := requiredMinRx;
       cfg_DetectMultiplier := detectMult; cfg_Auth := None; cfg_AuthKeys := None;
       cfg_PaddedPduSize := 0 |} in
  let key := (Addr_String peerAddr +:+ "|" +:+ Addr_String localAddr +:+ "|" +:+ member)%string in
  with_sender (mkReconcileConfig key sessCfg)
    (createSenderForSession env localAddr false [WithDstPort PortMicroBFD; WithBindDevice member] sf).

(** The member links of a group share the group's inputs, by position. *)
Definition buildMemberSessions (bfd : BFDConfig) (env : nat -> SenderEnv) (group : MicroBFDGroupConfig)
    (sf : udpSenderFactory) : option (list ReconcileConfig * udpSenderFactory) :=
  match ParseAddr (mg_PeerAddr group), ParseAddr (mg_LocalAddr group) with
  | Some peerAddr, Some localAddr =>
      if 255 <? mg_DetectMult group then Some ([], sf) else
      let desiredMinTx := or_default (mg_DesiredMinTx group) (bc_DefaultDesiredMinTx bfd) in
      let requiredMinRx := or_default (mg_RequiredMinRx group) (bc_DefaultRequiredMinRx bfd) in
      let detectMult := or_default (mg_DetectMult group) (bc_DefaultDetectMultiplier bfd) in
      collect (fun i member => buildMemberReconcile peerAddr localAddr member desiredMinTx requiredMinRx
                                 (u8 detectMult) (env i)) 0 (mg_MemberLinks group) sf
  | _, _ => Some ([], sf)
  end.

(** [env g] are the inputs of the [g]-th group. *)
Fixpoint build_members (bfd : BFDConfig) (env : nat -> nat -> SenderEnv) (g : nat)
    (groups : list MicroBFDGroupConfig) (sf : udpSenderFactory)
    : option (list ReconcileConfig * udpSenderFactory) :=
  match groups with
  | [] => Some ([], sf)
  | group :: groups =>
      '(sessions, sf) ← buildMemberSessions bfd (env g) group sf;
      '(rest, sf) ← build_members bfd env (S g) groups sf;
      Some (sessions ++ rest, sf)
  end.

Definition reconcileMicroBFDMemberSessions (cfg : Config) (env : nat -> nat -> SenderEnv)
    (inp : SessionInput) (d : DaemonState) : option DaemonState :=
  '(desired, sf) ← build_members (c_BFD cfg) env 0 (micro_Groups (c_MicroBFD cfg)) (d_sf d);
  if bool_decide (desired = []) then Some (mkDaemonState (d_mgr d) sf) else
  m ← run_reconcile desired inp (d_mgr d);
  Some (mkDaemonState m sf).

Record MicroInput := mkMicroInput {
  mi_ordc : order string unit;
  mi_ordd : order string MicroBFDReconcileConfig;
  mi_sender : nat -> nat -> SenderEnv;
  mi_sessions : SessionInput;
}.

Definition reconcileMicroBFDGroups (cfg : Config) (inp : MicroInput) (d : DaemonState) : option DaemonState :=
  if bool_decide (micro_Groups (c_MicroBFD cfg) = []) then Some d else
  m ← reconcileMicroBFDGroupState cfg (mi_ordc inp) (mi_ordd inp) (d_mgr d);
  reconcileMicroBFDMemberSessions cfg (mi_sender inp) (mi_sessions inp) (mkDaemonState m (d_sf d)).

(** *** Overlay tunnels ([overlay.go]) *)

Record overlayRuntime := mkOverlayRuntime {
  or_vxlan : option VXLANConn;
  or_geneve : option GeneveConn;
}.

(** [offset] is the random offset of the port search, [bound] whether the socket can
    be bound. *)
Definition createVXLANConn (cfg : VXLANConfig) (offset : option Z) (bound : bool) (sf : udpSenderFactory)
    : go daemon_error VXLANConn * udpSenderFactory :=
  match vx_Peers cfg with
  | [] => (Panic, sf)
  | peer :: _ =>
      match VXLANPeerConfig_LocalAddr peer with
      | Panic => (Panic, sf)
      | Err e => (Err (ErrDaemonConfig e), sf)
      | Ok localAddr =>
          if negb (Addr_IsValid localAddr) then (Err ErrOverlayLocal, sf) else
          match AllocatePort offset (sf_portAlloc sf) with
          | (Panic, a) => (Panic, {| sf with sf_portAlloc := a |})
          | (Err e, a) => (Err (ErrDaemonNet e), {| sf with sf_portAlloc := a |})
          | (Ok srcPort, a) =>
              match NewVXLANOverlayBackend (vx_Backend cfg) localAddr (vx_ManagementVNI cfg) srcPort bound with
              | Ok conn => (Ok conn, {| sf with sf_portAlloc := a |})
              | Err e => (Err (ErrDaemonOverlay e), {| sf with sf_portAlloc := ReleasePort srcPort a |})
              | Panic => (Panic, {| sf with sf_portAlloc := a |})
              end
          end
      end
  end.

Definition createGeneveConn (cfg : GeneveConfig) (offset : option Z) (bound : bool) (sf : udpSenderFactory)
    : go daemon_error GeneveConn * udpSenderFactory :=
  match ge_Peers cfg with
  | [] => (Panic, sf)
  | peer :: _ =>
      match GenevePeerConfig_LocalAddr peer with
      | Panic => (Panic, sf)
      | Err e => (Err (ErrDaemonConfig e), sf)
      | Ok localAddr =>
          if negb (Addr_IsValid localAddr) then (Err ErrOverlayLocal, sf) else
          let vni := or_default (gp_VNI peer) (ge_DefaultVNI cfg) in
          match AllocatePort offset (sf_portAlloc sf) with
          | (Panic, a) => (Panic, {| sf with sf_portAlloc := a |})
          | (Err e, a) => (Err (ErrDaemonNet e), {| sf with sf_portAlloc := a |})
          | (Ok srcPort, a) =>
              match NewGeneveOverlayBackend (ge_Backend cfg) localAddr vni srcPort bound with
              | Ok conn => (Ok conn, {| sf with sf_portAlloc := a |})
              | Err e => (Err (ErrDaemonOverlay e), {| sf with sf_portAlloc := ReleasePort srcPort a |})
              | Panic => (Panic, {| sf with sf_portAlloc := a |})
              end
          end
      end
  end.

(** The connections that start; a failure is logged and leaves its tunnel out. *)
Definition startOverlayReceivers (cfg : Config) (offv offg : option Z) (boundv boundg : bool)
    (sf : udpSenderFactory) : option (overlayRuntime * udpSenderFactory) :=
  '(v, sf) ←
    (if vx_Enabled (c_VXLAN cfg) && negb (bool_decide (vx_Peers (c_VXLAN cfg) = [])) then
       match createVXLANConn (c_VXLAN cfg) offv boundv sf with
       | (Ok conn, sf) => Some (Some conn, sf)
       | (Err _, sf) => Some (None, sf)
       | (Panic, _) => None
       end
     else Some (None, sf));
  '(g, sf) ←
    (if ge_Enabled (c_Geneve cfg) && negb (bool_decide (ge_Peers (c_Geneve cfg) = [])) then
       match createGeneveConn (c_Geneve cfg) offg boundg sf with
       | (Ok conn, sf) => Some (Some conn, sf)
       | (Err _, sf) => Some (None, sf)
       | (Panic, _) => None
       end
     else Some (None, sf));
  Some (mkOverlayRuntime v g, sf).

Record overlayPeerEntry := mkOverlayPeerEntry {
  oe_key : string;
  oe_peerStr : string;
  oe_localStr : string;
  oe_peerTx : Z;
  oe_peerRx : Z;
  oe_peerDetect : Z;
}.

Record overlayTunnelParams := mkOverlayTunnelParams {
  tp_sessType : Z;
  tp_defaults : overlayTimerDefaults;
  tp_conn : option (VXLANConn + GeneveConn);
  tp_entries : list overlayPeerEntry;
}.

Definition buildOverlayTunnelParams (cfg : Config) (rt : overlayRuntime) : list overlayTunnelParams :=
  let vx := c_VXLAN cfg in
  let ge := c_Geneve cfg in
  (if vx_Enabled vx && negb (bool_decide (vx_Peers vx = [])) then
     [{| tp_sessType := SessionTypeVXLAN;
         tp_defaults := mkOverlayTimerDefaults (vx_DefaultDesiredMinTx vx) (vx_DefaultRequiredMinRx vx)
                          (vx_DefaultDetectMultiplier vx);
         tp_conn := inl <$> or_vxlan rt;
         tp_entries := (fun peer => mkOverlayPeerEntry (VXLANSessionKey peer) (vp_Peer peer) (vp_Local peer)
                          (vp_DesiredMinTx peer) (vp_RequiredMinRx peer) (vp_DetectMult peer)) <$> vx_Peers vx |}]
   else []) ++
  (if ge_Enabled ge && negb (bool_decide (ge_Peers ge = [])) then
     [{| tp_sessType := SessionTypeGeneve;
         tp_defaults := mkOverlayTimerDefaults (ge_DefaultDesiredMinTx ge) (ge_DefaultRequiredMinRx ge)
                          (ge_DefaultDetectMultiplier ge);
         tp_conn := inr <$> or_geneve rt;
         tp_entries := (fun peer => mkOverlayPeerEntry (GeneveSessionKey peer) (gp_Peer peer) (gp_Local peer)
                          (gp_DesiredMinTx peer) (gp_RequiredMinRx peer) (gp_DetectMult peer)) <$> ge_Peers ge |}]
   else []).

Definition reconcileOverlayTunnel (inp : SessionInput) (params : overlayTunnelParams) (m : Manager)
    : option Manager :=
  match tp_conn params with
  | None => Some m
  | Some _ =>
      let desired := omap (fun e =>
        match buildOverlaySessionConfig (oe_peerStr e) (oe_localStr e) (oe_peerTx e) (oe_peerRx e)
                (oe_peerDetect e) (tp_defaults params) (tp_sessType params) with
        | Ok sessCfg => Some (mkReconcileConfig (oe_key e) sessCfg)
        | _ => None
        end) (tp_entries params) in
      run_reconcile desired inp m
  end.

(** [inp] by the session type of the tunnel. *)
Definition reconcileOverlayTunnels (cfg : Config) (rt : overlayRuntime) (inp : Z -> SessionInput)
    (m : Manager) : option Manager :=
  fold_left (fun r tp => m ← r; reconcileOverlayTunnel (inp (tp_sessType tp)) tp m)
    (buildOverlayTunnelParams cfg rt) (Some m).

(** ** Start and reload *)

Record ReloadInput := mkReloadInput {
  ri_sessions : SessionInput;
  ri_echo : EchoInput;
  ri_micro : MicroInput;
  ri_overlay : Z -> SessionInput;
}.

Definition reconcileAllSessions (cfg : Config) (rt : overlayRuntime) (inp : ReloadInput) (d : DaemonState)
    : option DaemonState :=
  d ← reconcileSessions cfg (ri_sessions inp) d;
  d ← reconcileEchoSessions cfg (ri_echo inp) d;
  d ← reconcileMicroBFDGroups cfg (ri_micro inp) d;
  m ← reconcileOverlayTunnels cfg rt (ri_overlay inp) (d_mgr d);
  Some (mkDaemonState m (d_sf d)).

(** [loaded] is the configuration read, [None] when loading or validation failed. *)
Definition reloadConfig (loaded : option Config) (rt : overlayRuntime) (inp : ReloadInput) (d : DaemonState)
    : option DaemonState :=
  match loaded with
  | None => Some d
  | Some newCfg => reconcileAllSessions newCfg rt inp d
  end.
