(* ===== verification/Listeners.v ===== *)
(** * The daemon's listeners ([cmd/gobfd/listeners.go], [micro_bfd.go])

    The sockets the daemon opens for a configuration: one per local address and
    kind of session, per echo address and per member link.  Open sockets are a
    map from handles to listeners; the outcomes of the system calls that make the
    socket of a handle are an input. *)

From stdpp Require Import strings relations gmap.
From S2P Require Import Prelude Packet Fsm Auth Netip NetipParse Jitter Session SessionInv SessionProps.
From S2P Require Import Unsolicited Manager ManagerSteps ManagerInv ManagerOps ManagerProps.
From S2P Require Import Overlay Transport Receive Config.

Local Open Scope Z_scope.

(** ** Open sockets *)

Record Sockets := mkSockets {
  sk_open : gmap nat Listener;
  sk_next : nat;
}.

(** The system at the creation of the socket with a given handle, and whether its
    read buffer can be sized. *)
Definition SocketEnv : Type := nat -> System * bool.

Definition open_listener (env : SocketEnv) (lnCfg : ListenerConfig) (sk : Sockets)
    : go netio_error nat * Sockets :=
  let h := sk_next sk in
  match NewListener (env h).1 (env h).2 lnCfg with
  | Ok l => (Ok h, {| sk_open := <[h := l]> (sk_open sk); sk_next := S h |})
  | Err e => (Err e, sk)
  | Panic => (Panic, sk)
  end.

(** An error of a close is logged; the socket is gone either way. *)
Definition closeListeners (listeners : list nat) (sk : Sockets) : Sockets :=
  fold_left (fun sk h => {| sk with sk_open := delete h (sk_open sk) |}) listeners sk.

(** ** The three loops

    Each goes over the entries with a local address, skips a key seen before, and
    closes what it opened when a socket cannot be made. *)

Section loop.
Context {K : Type} `{Countable K}.
Variable env : SocketEnv.

Fixpoint open_each (entries : list (K * ListenerConfig)) (seen : gset K) (listeners : list nat) (sk : Sockets)
    : go netio_error (list nat) * Sockets :=
  match entries with
  | [] => (Ok listeners, sk)
  | (key, lnCfg) :: entries =>
      if bool_decide (key ∈ seen) then open_each entries seen listeners sk else
      match open_listener env lnCfg sk with
      | (Ok h, sk) => open_each entries ({[key]} ∪ seen) (listeners ++ [h]) sk
      | (Err e, sk) => (Err e, closeListeners listeners sk)
      | (Panic, sk) => (Panic, sk)
      end
  end.
End loop.

(** The local address of an entry, if it has a valid one. *)
Definition usable (r : go config_error Addr) : option Addr :=
  match r with Ok a => if Addr_IsValid a then Some a else None | _ => None end.

Definition control_entry (sc : SessionConfig) : option ((Addr * bool) * ListenerConfig) :=
  localAddr ← usable (SessionConfig_LocalAddr sc);
  let multiHop := bool_decide (sess_Type sc = "multi_hop"%string) in
  Some ((localAddr, multiHop),
        {| lc_Addr := localAddr; lc_IfName := sess_Interface sc;
           lc_Port := if multiHop then PortMultiHop else PortSingleHop;
           lc_MultiHop := multiHop; lc_ReadBufferSize := 0; lc_ExpectedTTL := 0 |}).

Definition createControlListeners (env : SocketEnv) (cfg : Config) (sk : Sockets)
    : go netio_error (list nat) * Sockets :=
  open_each env (omap control_entry (c_Sessions cfg)) ∅ [] sk.

Definition echo_entry (ep : EchoPeerConfig) : option (Addr * ListenerConfig) :=
  localAddr ← usable (EchoPeerConfig_LocalAddr ep);
  Some (localAddr,
        {| lc_Addr := localAddr; lc_IfName := ep_Interface ep; lc_Port := PortEcho;
           lc_MultiHop := false; lc_ReadBufferSize := 0; lc_ExpectedTTL := TTLEchoLoopback |}).

Definition createEchoListeners (env : SocketEnv) (cfg : Config) (sk : Sockets)
    : go netio_error (list nat) * Sockets :=
  open_each env (omap echo_entry (echo_Peers (c_Echo cfg))) ∅ [] sk.

Definition micro_entries (group : MicroBFDGroupConfig) : list ((Addr * string) * ListenerConfig) :=
  match ParseAddr (mg_LocalAddr group) with
  | None => []
  | Some localAddr =>
      if negb (Addr_IsValid localAddr) then [] else
      (fun member =>
         ((localAddr, member),
          {| lc_Addr := localAddr; lc_IfName := member; lc_Port := PortMicroBFD;
             lc_MultiHop := false; lc_ReadBufferSize := 0; lc_ExpectedTTL := 0 |})) <$> mg_MemberLinks group
  end.

Definition createMicroBFDListeners (env : SocketEnv) (cfg : Config) (sk : Sockets)
    : go netio_error (list nat) * Sockets :=
  open_each env (micro_Groups (c_MicroBFD cfg) ≫= micro_entries) ∅ [] sk.

(** ** All listeners and their receivers *)

Record listenersResult := mkListenersResult {
  lr_control : list nat;
  lr_echo : list nat;
  lr_microBFD : list nat;
}.

Definition createListeners (env : SocketEnv) (cfg : Config) (sk : Sockets)
    : go netio_error listenersResult * Sockets :=
  match createControlListeners env cfg sk with
  | (Ok control, sk) =>
      match (if echo_Enabled (c_Echo cfg) && negb (bool_decide (echo_Peers (c_Echo cfg) = []))
             then createEchoListeners env cfg sk else (Ok [], sk)) with
      | (Ok echo, sk) =>
          match (if negb (bool_decide (micro_Groups (c_MicroBFD cfg) = []))
                 then createMicroBFDListeners env cfg sk else (Ok [], sk)) with
          | (Ok microBFD, sk) => (Ok (mkListenersResult control echo microBFD), sk)
          | (Err e, sk) => (Err e, closeListeners echo (closeListeners control sk))
          | (Panic, sk) => (Panic, sk)
          end
      | (Err e, sk) => (Err e, closeListeners control sk)
      | (Panic, sk) => (Panic, sk)
      end
  | (Err e, sk) => (Err e, sk)
  | (Panic, sk) => (Panic, sk)
  end.

(** A receiver goroutine with the sockets it reads. *)
Inductive receiver := ControlReceiver (listeners : list nat) | EchoReceiver (listeners : list nat).

Definition startListenersAndReceivers (env : SocketEnv) (cfg : Config) (sk : Sockets)
    : go netio_error (list receiver * (Sockets -> Sockets)) * Sockets :=
  match createListeners env cfg sk with
  | (Ok lnResult, sk) =>
      let cleanup sk :=
        closeListeners (lr_microBFD lnResult) (closeListeners (lr_echo lnResult)
          (closeListeners (lr_control lnResult) sk)) in
      let start (mk : list nat -> receiver) ls := if negb (bool_decide (ls = [])) then [mk ls] else [] in
      (Ok (start ControlReceiver (lr_control lnResult) ++ start EchoReceiver (lr_echo lnResult)
           ++ start ControlReceiver (lr_microBFD lnResult), cleanup), sk)
  | (Err e, sk) => (Err e, sk)
  | (Panic, sk) => (Panic, sk)
  end.

(** ** What was opened *)

(** Handles are given out in order. *)
Definition sockets_ok (sk : Sockets) : Prop := forall h l, sk_open sk !! h = Some l -> (h < sk_next sk)%nat.

(** [sk'] is [sk] with one socket more for each of [lcs], under the handles [hs]. *)
Record opened (env : SocketEnv) (lcs : list ListenerConfig) (sk sk' : Sockets) (hs : list nat) : Prop := {
  op_handles : hs = seq (sk_next sk) (length lcs);
  op_next : sk_next sk' = (sk_next sk + length lcs)%nat;
  op_old : forall h, (h < sk_next sk)%nat -> sk_open sk' !! h = sk_open sk !! h;
  op_free : forall h, (sk_next sk' <= h)%nat -> sk_open sk' !! h = None;
  op_new : forall i lc, lcs !! i = Some lc -> exists l,
    sk_open sk' !! (sk_next sk + i)%nat = Some l /\
    NewListener (env (sk_next sk + i)%nat).1 (env (sk_next sk + i)%nat).2 lc = Ok l;
}.

Lemma opened_nil env sk : sockets_ok sk -> opened env [] sk sk [].
Proof.
  intros S. split; cbn; try done; try lia.
  intros h Hh. destruct (sk_open sk !! h) eqn:E; [|done]. apply S in E. lia.
Qed.

Lemma opened_ok env lcs sk sk' hs : opened env lcs sk sk' hs -> sockets_ok sk'.
Proof. intros O h l Hl. destruct (decide (h < sk_next sk')%nat); [done|]. rewrite (op_free _ _ _ _ _ O) in Hl by lia. done. Qed.

Lemma opened_app env l1 l2 sk1 sk2 sk3 h1 h2 :
  opened env l1 sk1 sk2 h1 -> opened env l2 sk2 sk3 h2 -> opened env (l1 ++ l2) sk1 sk3 (h1 ++ h2).
Proof.
  intros [E1 N1 O1 F1 W1] [E2 N2 O2 F2 W2]. split.
  - rewrite E1, E2, N1, length_app, seq_app. done.
  - rewrite length_app. lia.
  - intros h Hh. rewrite O2, O1 by lia. done.
  - done.
  - intros i lc [Hi|[Hle Hi]]%lookup_app_Some.
    + pose proof (lookup_lt_Some _ _ _ Hi). rewrite O2 by lia. by apply W1.
    + specialize (W2 _ _ Hi). rewrite N1 in W2.
      by replace (sk_next sk1 + length l1 + (i - length l1))%nat with (sk_next sk1 + i)%nat in W2 by lia.
Qed.

Lemma open_listener_cases env lc sk :
  sockets_ok sk ->
  match open_listener env lc sk with
  | (Ok h, sk') => opened env [lc] sk sk' [h]
  | (Err _, sk') => sk' = sk
  | (Panic, _) => False
  end.
Proof.
  intros S. unfold open_listener.
  destruct (NewListener _ _ _) as [l|e|] eqn:E; [|done|].
  - split; cbn [sk_open sk_next length seq]; [done|lia|..].
    + intros h Hh. by rewrite lookup_insert_ne by lia.
    + intros h Hh. rewrite lookup_insert_ne by lia. destruct (sk_open sk !! h) eqn:E'; [|done]. apply S in E'. lia.
    + intros [|i] lc' Hi; [|done]. injection Hi as <-. rewrite Nat.add_0_r. exists l. by rewrite lookup_insert_eq.
  - revert E. unfold NewListener, createConn, NewMultiHopListener, NewGenericListener, NewSingleHopListener, listenUDP, open_socket.
    assert (Hs : forall sys o, set_options sys o <> Panic) by (intros sys o; induction o; cbn; by try case_match).
    repeat (case_match || cbn [mbind go_bind]); try done; intros E;
      repeat match type of E with context [set_options ?s ?o] =>
        let H := fresh in pose proof (Hs s o) as H; destruct (set_options s o); cbn [mbind go_bind] in E end;
      repeat case_match; done.
Qed.

(** ** Closing *)

Lemma close_lookup hs sk h :
  sk_open (closeListeners hs sk) !! h = if decide (h ∈ hs) then None else sk_open sk !! h.
Proof.
  unfold closeListeners. revert sk. induction hs as [|h' hs IH]; intros sk; cbn [fold_left]; [done|].
  rewrite IH. cbn [sk_open]. destruct (decide (h ∈ hs)); [by rewrite decide_True by set_solver|].
  destruct (decide (h = h')) as [->|]; [rewrite decide_True by set_solver; apply lookup_delete_eq|].
  rewrite decide_False by set_solver. by apply lookup_delete_ne.
Qed.

Lemma close_opened env lcs sk sk' hs :
  sockets_ok sk -> opened env lcs sk sk' hs -> sk_open (closeListeners hs sk') = sk_open sk.
Proof.
  intros S [-> N O F _]. apply map_eq. intros h. rewrite close_lookup.
  destruct (decide _) as [Hin|Hin]; rewrite list_elem_of_In, in_seq in Hin.
  - destruct (sk_open sk !! h) eqn:E; [|done]. apply S in E. lia.
  - destruct (decide (h < sk_next sk)%nat); [by apply O|]. rewrite F by lia.
    destruct (sk_open sk !! h) eqn:E; [|done]. apply S in E. lia.
Qed.

Lemma close_cong hs sk sk' : sk_open sk = sk_open sk' -> sk_open (closeListeners hs sk) = sk_open (closeListeners hs sk').
Proof. intros E. apply map_eq. intros h. by rewrite !close_lookup, E. Qed.

(** ** The loop opens the first entry of each key *)

Section firsts.
Context {K : Type} `{Countable K}.

Fixpoint firsts (seen : gset K) (entries : list (K * ListenerConfig)) : list (K * ListenerConfig) :=
  match entries with
  | [] => []
  | (key, lc) :: entries =>
      if bool_decide (key ∈ seen) then firsts seen entries else (key, lc) :: firsts ({[key]} ∪ seen) entries
  end.

Lemma open_each_cases env entries seen acc lcs sk sk1 :
  sockets_ok sk -> opened env lcs sk sk1 acc ->
  match open_each env entries seen acc sk1 with
  | (Ok hs, sk') => opened env (lcs ++ (firsts seen entries).*2) sk sk' hs
  | (Err _, sk') => sk_open sk' = sk_open sk
  | (Panic, _) => False
  end.
Proof.
  intros S. revert seen acc lcs sk1. induction entries as [|[key lc] entries IH]; intros seen acc lcs sk1 O;
    cbn [open_each firsts].
  { by rewrite app_nil_r. }
  case_bool_decide; [by apply IH|]. cbn [fmap list_fmap].
  pose proof (open_listener_cases env lc sk1 (opened_ok _ _ _ _ _ O)) as Hl.
  destruct (open_listener env lc sk1) as [[h|e|] sk2]; [|subst sk2; by eapply close_opened|done].
  specialize (IH ({[key]} ∪ seen) _ _ _ (opened_app _ _ _ _ _ _ _ _ O Hl)).
  rewrite <- app_assoc in IH. exact IH.
Qed.

Lemma open_each_all env entries sk :
  sockets_ok sk ->
  match open_each env entries ∅ [] sk with
  | (Ok hs, sk') => opened env (firsts ∅ entries).*2 sk sk' hs
  | (Err _, sk') => sk_open sk' = sk_open sk
  | (Panic, _) => False
  end.
Proof. intros S. exact (open_each_cases env entries ∅ [] [] sk sk S (opened_nil env sk S)). Qed.

Lemma firsts_sub seen entries : firsts seen entries ⊆ entries.
Proof.
  revert seen. induction entries as [|[k lc] es IH]; intros seen; cbn [firsts]; [done|].
  case_bool_decide; intros x Hx; [right; by eapply IH|].
  apply elem_of_cons in Hx as [->|Hx]; [left|right; by eapply IH].
Qed.

Lemma firsts_fresh seen entries k : k ∈ (firsts seen entries).*1 -> k ∉ seen.
Proof.
  revert seen. induction entries as [|[k' lc] es IH]; intros seen; cbn [firsts]; [set_solver|].
  case_bool_decide; [apply IH|]. cbn. intros [->|Hk%IH]%elem_of_cons; set_solver.
Qed.

Lemma firsts_nodup seen entries : NoDup (firsts seen entries).*1.
Proof.
  revert seen. induction entries as [|[k lc] es IH]; intros seen; cbn [firsts]; [constructor|].
  case_bool_decide; [done|]. cbn. constructor; [|done]. intros Hk%firsts_fresh. set_solver.
Qed.

Lemma firsts_cover seen entries k lc :
  (k, lc) ∈ entries -> k ∉ seen -> exists lc', (k, lc') ∈ firsts seen entries.
Proof.
  revert seen. induction entries as [|[k' lc'] es IH]; intros seen; cbn [firsts]; [set_solver|].
  intros [Heq|Hin]%elem_of_cons Hk.
  - injection Heq as -> ->. rewrite bool_decide_false by done. exists lc'. left.
  - case_bool_decide; [by apply IH|]. destruct (decide (k = k')) as [->|Hne]; [exists lc'; left|].
    destruct (IH ({[k']} ∪ seen) Hin) as [lc2 H2]; [set_solver|]. exists lc2. by right.
Qed.
End firsts.

(** ** The listeners of a configuration *)

Definition control_configs (cfg : Config) : list ListenerConfig :=
  (firsts ∅ (omap control_entry (c_Sessions cfg))).*2.

Definition echo_configs (cfg : Config) : list ListenerConfig :=
  if echo_Enabled (c_Echo cfg) then (firsts ∅ (omap echo_entry (echo_Peers (c_Echo cfg)))).*2 else [].

Definition micro_configs (cfg : Config) : list ListenerConfig :=
  (firsts ∅ (micro_Groups (c_MicroBFD cfg) ≫= micro_entries)).*2.

Record created (env : SocketEnv) (cfg : Config) (sk sk' : Sockets) (r : listenersResult) : Prop := {
  cr_all : opened env (control_configs cfg ++ echo_configs cfg ++ micro_configs cfg) sk sk'
             (lr_control r ++ lr_echo r ++ lr_microBFD r);
  cr_control : length (lr_control r) = length (control_configs cfg);
  cr_echo : length (lr_echo r) = length (echo_configs cfg);
}.

Lemma opened_length env lcs sk sk' hs : opened env lcs sk sk' hs -> length hs = length lcs.
Proof. intros O. by rewrite (op_handles _ _ _ _ _ O), length_seq. Qed.

Lemma createListeners_cases env cfg sk :
  sockets_ok sk ->
  match createListeners env cfg sk with
  | (Ok r, sk') => created env cfg sk sk' r
  | (Err _, sk') => sk_open sk' = sk_open sk
  | (Panic, _) => False
  end.
Proof.
  intros S. unfold createListeners.
  pose proof (open_each_all env (omap control_entry (c_Sessions cfg)) sk S) as Hc. fold (control_configs cfg) in Hc.
  fold (createControlListeners env cfg sk) in Hc.
  destruct (createControlListeners env cfg sk) as [[control|e|] sk1]; [|done|done].
  pose proof (opened_ok _ _ _ _ _ Hc) as S1.
  set (oe := if _ : bool then createEchoListeners env cfg sk1 else _).
  assert (He : match oe with
               | (Ok echo, sk') => opened env (echo_configs cfg) sk1 sk' echo
               | (Err _, sk') => sk_open sk' = sk_open sk1
               | (Panic, _) => False end).
  { unfold oe, echo_configs. destruct (echo_Enabled (c_Echo cfg)); cbn [andb]; [|by apply opened_nil].
    case_bool_decide as Hp; cbn [negb]; [rewrite Hp; by apply opened_nil|]. by apply open_each_all. }
  destruct oe as [[echo|e|] sk2]; [|etrans; [by apply close_cong|by eapply close_opened]|done].
  pose proof (opened_ok _ _ _ _ _ He) as S2. pose proof (opened_app _ _ _ _ _ _ _ _ Hc He) as Hce.
  set (om := if _ : bool then createMicroBFDListeners env cfg sk2 else _).
  assert (Hm : match om with
               | (Ok micro, sk') => opened env (micro_configs cfg) sk2 sk' micro
               | (Err _, sk') => sk_open sk' = sk_open sk2
               | (Panic, _) => False end).
  { unfold om, micro_configs. case_bool_decide as Hp; cbn [negb]; [rewrite Hp; by apply opened_nil|].
    by apply open_each_all. }
  destruct om as [[micro|e|] sk3]; [| |done].
  - split; cbn [lr_control lr_echo lr_microBFD]; [rewrite !app_assoc; by eapply opened_app|by eapply opened_length..].
  - rewrite <- (close_opened _ _ _ _ _ S Hce). unfold closeListeners. rewrite fold_left_app. by do 2 apply close_cong.
Qed.

(** A receiver reads an open socket made for [lc]. *)
Definition serving (env : SocketEnv) (sk : Sockets) (r : receiver) (lc : ListenerConfig) : Prop :=
  exists h l, h ∈ (match r with ControlReceiver hs | EchoReceiver hs => hs end) /\
    sk_open sk !! h = Some l /\ NewListener (env h).1 (env h).2 lc = Ok l.

Definition handles (r : receiver) : list nat := match r with ControlReceiver hs | EchoReceiver hs => hs end.

Lemma opened_serving env lcs sk sk' hs l1 lc l2 :
  opened env lcs sk sk' hs -> lcs = l1 ++ lc :: l2 ->
  exists h, hs !! length l1 = Some h /\ exists l,
    sk_open sk' !! h = Some l /\ NewListener (env h).1 (env h).2 lc = Ok l.
Proof.
  intros O ->. exists (sk_next sk + length l1)%nat. rewrite (op_handles _ _ _ _ _ O). split.
  - apply lookup_seq. rewrite length_app. cbn. lia.
  - apply (op_new _ _ _ _ _ O). by rewrite list_lookup_middle.
Qed.

Lemma created_serving env cfg sk sk' r lc :
  created env cfg sk sk' r ->
  (lc ∈ control_configs cfg -> serving env sk' (ControlReceiver (lr_control r)) lc) /\
  (lc ∈ echo_configs cfg -> serving env sk' (EchoReceiver (lr_echo r)) lc) /\
  (lc ∈ micro_configs cfg -> serving env sk' (ControlReceiver (lr_microBFD r)) lc).
Proof.
  intros [O Hc He]. split_and!; intros (l1 & l2 & Hl)%list_elem_of_split.
  - destruct (opened_serving _ _ _ _ _ l1 lc (l2 ++ echo_configs cfg ++ micro_configs cfg) O) as (h & Hh & l & Hol).
    { by rewrite Hl, <- app_assoc. }
    exists h, l. split; [|done]. apply lookup_app_Some in Hh as [Hh|[Hle _]]; [by eapply list_elem_of_lookup_2|].
    rewrite Hc, Hl, length_app in Hle. cbn in Hle. lia.
  - destruct (opened_serving _ _ _ _ _ (control_configs cfg ++ l1) lc (l2 ++ micro_configs cfg) O) as (h & Hh & l & Hol).
    { by rewrite Hl, <- !app_assoc. }
    exists h, l. split; [|done]. rewrite length_app, <- Hc in Hh.
    rewrite lookup_app_r in Hh by lia. rewrite Nat.add_comm, Nat.add_sub in Hh.
    apply lookup_app_Some in Hh as [Hh|[Hle _]]; [by eapply list_elem_of_lookup_2|].
    rewrite He, Hl, length_app in Hle. cbn in Hle. lia.
  - destruct (opened_serving _ _ _ _ _ (control_configs cfg ++ echo_configs cfg ++ l1) lc l2 O) as (h & Hh & l & Hol).
    { by rewrite Hl, <- !app_assoc. }
    exists h, l. split; [|done]. rewrite !length_app, <- Hc, <- He, !lookup_app_r in Hh by lia.
    by eapply list_elem_of_lookup_2.
Qed.

Lemma serving_started env sk r lc (mk : list nat -> receiver) hs (Hmk : forall l, handles (mk l) = l) :
  r = mk hs -> serving env sk r lc -> r ∈ (if negb (bool_decide (hs = [])) then [mk hs] else []).
Proof.
  intros -> (h & l & Hh & _). change (h ∈ handles (mk hs)) in Hh. rewrite Hmk in Hh.
  rewrite bool_decide_false by (intros ->; set_solver). left.
Qed.

Lemma started_handles (mk : list nat -> receiver) hs (Hmk : forall l, handles (mk l) = l) :
  (if negb (bool_decide (hs = [])) then [mk hs] else []) ≫= handles = hs.
Proof. case_bool_decide as E; [by rewrite E|]. cbn. by rewrite Hmk, app_nil_r. Qed.

(** Every system call succeeds. *)
Definition willing (env : SocketEnv) : Prop :=
  forall h, (forall o, sys_setsockopt (env h).1 o = true) /\ sys_bind (env h).1 = true.

Lemma willing_opens env lc sk :
  willing env -> lc_ReadBufferSize lc = 0 -> exists h sk', open_listener env lc sk = (Ok h, sk').
Proof.
  intros W Hb. destruct (W (sk_next sk)) as [Ho Hbind].
  assert (Hs : forall o, set_options (env (sk_next sk)).1 o = Ok tt) by (induction o; cbn; by rewrite ?Ho).
  assert (Hl : forall a i m, exists o, listenUDP (env (sk_next sk)).1 a i m = Ok o).
  { intros a i m. unfold listenUDP, open_socket. rewrite Hs. cbn [mbind go_bind]. rewrite Hbind. eauto. }
  unfold open_listener, NewListener, createConn, NewMultiHopListener, NewGenericListener, NewSingleHopListener.
  destruct (Hl (lc_Addr lc) "" true) as [o1 H1], (Hl (lc_Addr lc) (lc_IfName lc) false) as [o2 H2].
  repeat case_match; rewrite ?H1, ?H2 in *; cbn [mbind go_bind] in *; rewrite Hb in *; simplify_eq/=; eauto.
Qed.

Lemma willing_opens_each {K} `{Countable K} env (entries : list (K * ListenerConfig)) seen acc sk :
  willing env -> Forall (fun e => lc_ReadBufferSize e.2 = 0) entries ->
  exists hs sk', open_each env entries seen acc sk = (Ok hs, sk').
Proof.
  intros W HF. revert seen acc sk. induction HF as [|[k lc] es Hb _ IH]; intros seen acc sk; cbn [open_each]; [eauto|].
  case_bool_decide; [done|]. destruct (willing_opens env lc sk W Hb) as (h & sk' & ->). apply IH.
Qed.

Lemma willing_creates env cfg sk : willing env -> exists r sk', createListeners env cfg sk = (Ok r, sk').
Proof.
  intros W. unfold createListeners, createControlListeners, createEchoListeners, createMicroBFDListeners.
  destruct (willing_opens_each env (omap control_entry (c_Sessions cfg)) ∅ [] sk W) as (c & sk1 & ->).
  { apply Forall_forall. intros e (sc & _ & Hs)%list_elem_of_omap. unfold control_entry in Hs.
    destruct (usable _); [|done]. by injection Hs as <-. }
  destruct (willing_opens_each env (omap echo_entry (echo_Peers (c_Echo cfg))) ∅ [] sk1 W) as (ec & sk2 & He).
  { apply Forall_forall. intros e (ep & _ & Hs)%list_elem_of_omap. unfold echo_entry in Hs.
    destruct (usable _); [|done]. by injection Hs as <-. }
  assert (Hm : forall sk2, exists hs sk3,
    open_each env (micro_Groups (c_MicroBFD cfg) ≫= micro_entries) ∅ [] sk2 = (Ok hs, sk3)).
  { intros sk2'. apply willing_opens_each; [done|]. apply Forall_forall.
    intros e (g & Hg & _)%list_elem_of_bind. unfold micro_entries in Hg.
    destruct (ParseAddr _); [|set_solver]. destruct (negb _); [set_solver|].
    by apply list_elem_of_fmap in Hg as (? & -> & _). }
  case_match eqn:Ee.
  all: destruct (_ && _) in Ee; rewrite ?He in Ee; simplify_eq;
    match goal with |- context [open_each _ _ _ _ ?s] => destruct (Hm s) as (hs & sk3 & ->) end;
    destruct (negb _); eauto.
Qed.

Lemma entry_config_opened {A K} `{Countable K} (f : A -> option (K * ListenerConfig)) (l : list A) x k lc :
  x ∈ l -> f x = Some (k, lc) ->
  exists y lc', y ∈ l /\ f y = Some (k, lc') /\ lc' ∈ (firsts ∅ (omap f l)).*2.
Proof.
  intros Hx Hf. destruct (firsts_cover ∅ (omap f l) k lc) as [lc' Hin]; [|set_solver|].
  { apply list_elem_of_omap. eauto. }
  pose proof (firsts_sub _ _ _ Hin) as (y & Hy & Hfy)%list_elem_of_omap.
  exists y, lc'. split_and!; [done|done|]. apply list_elem_of_fmap. by exists (k, lc').
Qed.

(** The configuration of the socket that serves sessions of a local address. *)
Definition control_config (a : Addr) (multiHop : bool) (ifName : string) : ListenerConfig :=
  {| lc_Addr := a; lc_IfName := ifName; lc_Port := if multiHop then PortMultiHop else PortSingleHop;
     lc_MultiHop := multiHop; lc_ReadBufferSize := 0; lc_ExpectedTTL := 0 |}.

Definition echo_config (a : Addr) (ifName : string) : ListenerConfig :=
  {| lc_Addr := a; lc_IfName := ifName; lc_Port := PortEcho; lc_MultiHop := false;
     lc_ReadBufferSize := 0; lc_ExpectedTTL := TTLEchoLoopback |}.

Definition micro_config (a : Addr) (member : string) : ListenerConfig :=
  {| lc_Addr := a; lc_IfName := member; lc_Port := PortMicroBFD; lc_MultiHop := false;
     lc_ReadBufferSize := 0; lc_ExpectedTTL := 0 |}.

(** Whether a session is multi-hop, which decides its port and TTL rule. *)
Definition is_multi (sc : SessionConfig) : bool := bool_decide (sess_Type sc = "multi_hop"%string).

Lemma control_covered cfg sc a :
  sc ∈ c_Sessions cfg -> usable (SessionConfig_LocalAddr sc) = Some a ->
  exists sc', sc' ∈ c_Sessions cfg /\ usable (SessionConfig_LocalAddr sc') = Some a /\ is_multi sc' = is_multi sc /\
    control_config a (is_multi sc) (sess_Interface sc') ∈ control_configs cfg.
Proof.
  intros Hin Ha. set (mh := is_multi sc).
  destruct (entry_config_opened control_entry (c_Sessions cfg) sc (a, mh) (control_config a mh (sess_Interface sc)))
    as (sc' & lc' & Hin' & He & Hlc); [done|unfold control_entry; by rewrite Ha|].
  exists sc'. unfold control_entry in He. destruct (usable (SessionConfig_LocalAddr sc')) as [a'|]; [|done].
  cbn [mbind option_bind] in He. injection He as -> Hm <-. split_and!; [done|done|exact Hm|]. unfold control_config. by rewrite <- Hm.
Qed.

Lemma echo_covered cfg ep a :
  echo_Enabled (c_Echo cfg) = true -> ep ∈ echo_Peers (c_Echo cfg) -> usable (EchoPeerConfig_LocalAddr ep) = Some a ->
  exists ep', ep' ∈ echo_Peers (c_Echo cfg) /\ usable (EchoPeerConfig_LocalAddr ep') = Some a /\
    echo_config a (ep_Interface ep') ∈ echo_configs cfg.
Proof.
  intros Hen Hin Ha. unfold echo_configs. rewrite Hen.
  destruct (entry_config_opened echo_entry (echo_Peers (c_Echo cfg)) ep a (echo_config a (ep_Interface ep)))
    as (ep' & lc' & Hin' & He & Hlc); [done|unfold echo_entry; by rewrite Ha|].
  exists ep'. unfold echo_entry in He. destruct (usable (EchoPeerConfig_LocalAddr ep')) as [a'|]; [|done].
  cbn [mbind option_bind] in He. by injection He as -> <-.
Qed.

Lemma micro_covered cfg g member a :
  g ∈ micro_Groups (c_MicroBFD cfg) -> member ∈ mg_MemberLinks g ->
  ParseAddr (mg_LocalAddr g) = Some a -> Addr_IsValid a = true -> micro_config a member ∈ micro_configs cfg.
Proof.
  intros Hg Hm Ha Hv. set (es := micro_Groups (c_MicroBFD cfg) ≫= micro_entries).
  assert (Hes : forall k lc, (k, lc) ∈ es -> lc = micro_config k.1 k.2).
  { intros k lc (g' & Hin & _)%list_elem_of_bind. unfold micro_entries in Hin.
    destruct (ParseAddr (mg_LocalAddr g')); [|by apply elem_of_nil in Hin].
    destruct (negb _); [by apply elem_of_nil in Hin|]. apply list_elem_of_fmap in Hin as (m' & Heq & _). by injection Heq as -> ->. }
  destruct (firsts_cover ∅ es (a, member) (micro_config a member)) as [lc' Hin]; [|apply not_elem_of_empty|].
  { apply list_elem_of_bind. exists g. split; [|done]. unfold micro_entries. rewrite Ha, Hv. cbn [negb].
    apply list_elem_of_fmap. by exists member. }
  pose proof (Hes _ _ (firsts_sub _ _ _ Hin)) as ->. apply list_elem_of_fmap. by exists (a, member, micro_config a member).
Qed.

Lemma created_handles env cfg sk sk' r :
  sockets_ok sk -> created env cfg sk sk' r ->
  let hs := lr_control r ++ lr_echo r ++ lr_microBFD r in
  NoDup hs /\ forall h, h ∈ hs <-> is_Some (sk_open sk' !! h) /\ sk_open sk !! h = None.
Proof.
  intros S [O _ _]. cbv zeta. rewrite (op_handles _ _ _ _ _ O). split; [apply NoDup_seq|].
  intros h. rewrite list_elem_of_In, in_seq. split.
  - intros Hh. split.
    + destruct (lookup_lt_is_Some_2 (control_configs cfg ++ echo_configs cfg ++ micro_configs cfg)
                  (h - sk_next sk)%nat) as [lc Hlc]; [lia|].
      destruct (op_new _ _ _ _ _ O _ _ Hlc) as (l & Hl & _).
      replace (sk_next sk + (h - sk_next sk))%nat with h in Hl by lia. eauto.
    + destruct (sk_open sk !! h) eqn:E; [apply S in E; lia|done].
  - intros [Hl Hn]. pose proof (op_next _ _ _ _ _ O).
    destruct (decide (h < sk_next sk)%nat) as [Hlt|]; [rewrite (op_old _ _ _ _ _ O _ Hlt), Hn in Hl; by destruct Hl|].
    destruct (decide (h < sk_next sk')%nat) as [|Hge]; [lia|]. rewrite (op_free _ _ _ _ _ O) in Hl by lia. by destruct Hl.
Qed.

(** What the receivers read is what was opened, and the cleanup closes it. *)
Lemma startListeners_clean env cfg sk :
  sockets_ok sk ->
  match startListenersAndReceivers env cfg sk with
  | (Ok (rs, cleanup), sk') =>
      NoDup (rs ≫= handles) /\ (forall h, h ∈ rs ≫= handles <-> is_Some (sk_open sk' !! h) /\ sk_open sk !! h = None) /\
      sk_open (cleanup sk') = sk_open sk
  | (Err _, sk') => sk_open sk' = sk_open sk
  | (Panic, _) => False
  end.
Proof.
  intros S. unfold startListenersAndReceivers. pose proof (createListeners_cases env cfg sk S) as HC.
  destruct (createListeners env cfg sk) as [[r|e|] sk']; [|done|done].
  destruct (created_handles _ _ _ _ _ S HC) as [Hnd Hh]. rewrite !bind_app, !started_handles by done.
  split_and!; [done|done|]. rewrite <- (close_opened _ _ _ _ _ S (cr_all _ _ _ _ _ HC)).
  unfold closeListeners. by rewrite !fold_left_app.
Qed.

(** C16: the sockets of the daemon.  When [startListenersAndReceivers] succeeds, every
    configured session with a local address has an open socket on that address with the
    port and TTL rule of its kind.  The socket is bound to the interface of a configured
    session of the same address and kind, so to its own if these sessions agree on the
    interface; if they do not, one of them is served on another's.  Likewise every echo
    peer has a socket on the echo port; every member link of a group has one of its own.
    The receivers read each new socket exactly once and no other, and the cleanup
    returned closes exactly these.  When it fails nothing stays open.  It never panics,
    and fails only if a system call does. *)
Theorem listeners_serve_config (env : SocketEnv) (cfg : Config) (sk : Sockets) (S : sockets_ok sk) :
  match startListenersAndReceivers env cfg sk with
  | (Ok (rs, cleanup), sk') =>
      (forall sc a, sc ∈ c_Sessions cfg -> usable (SessionConfig_LocalAddr sc) = Some a ->
         let alike sc' := sc' ∈ c_Sessions cfg /\ usable (SessionConfig_LocalAddr sc') = Some a /\ is_multi sc' = is_multi sc in
         exists r, r ∈ rs /\
           (exists sc', alike sc' /\ serving env sk' r (control_config a (is_multi sc) (sess_Interface sc'))) /\
           ((forall sc', alike sc' -> sess_Interface sc' = sess_Interface sc) ->
            serving env sk' r (control_config a (is_multi sc) (sess_Interface sc)))) /\
      (forall ep a, echo_Enabled (c_Echo cfg) = true -> ep ∈ echo_Peers (c_Echo cfg) ->
         usable (EchoPeerConfig_LocalAddr ep) = Some a ->
         exists hs ep', EchoReceiver hs ∈ rs /\ ep' ∈ echo_Peers (c_Echo cfg) /\
           usable (EchoPeerConfig_LocalAddr ep') = Some a /\
           serving env sk' (EchoReceiver hs) (echo_config a (ep_Interface ep'))) /\
      (forall g member a, g ∈ micro_Groups (c_MicroBFD cfg) -> member ∈ mg_MemberLinks g ->
         ParseAddr (mg_LocalAddr g) = Some a -> Addr_IsValid a = true ->
         exists r, r ∈ rs /\ serving env sk' r (micro_config a member)) /\
      NoDup (rs ≫= handles) /\
      (forall h, h ∈ rs ≫= handles <-> is_Some (sk_open sk' !! h) /\ sk_open sk !! h = None) /\
      sk_open (cleanup sk') = sk_open sk
  | (Err _, sk') => sk_open sk' = sk_open sk /\ (willing env -> False)
  | (Panic, _) => False
  end.
Proof.
  pose proof (startListeners_clean env cfg sk S) as Hcl. revert Hcl. unfold startListenersAndReceivers.
  pose proof (createListeners_cases env cfg sk S) as HC.
  destruct (createListeners env cfg sk) as [[r|e|] sk'] eqn:E; [|intros _; split; [done|]|done].
  2: { intros Hw. destruct (willing_creates env cfg sk Hw) as (? & ? & H). by rewrite H in E. }
  intros (Hnd & Hh & Hcl). pose proof (fun lc => created_serving _ _ _ _ _ lc HC) as Hs. split_and!; [| | |done|done|done].
  - intros sc a Hin Ha. destruct (control_covered cfg sc a Hin Ha) as (sc' & Hin' & Ha' & Hm & Hlc).
    apply Hs in Hlc. eexists. split_and!; [|exists sc'; split; [done|exact Hlc]|intros Hi; rewrite <- (Hi sc'); [exact Hlc|done]].
    rewrite !elem_of_app. left. by eapply (serving_started _ _ _ _ ControlReceiver).
  - intros ep a Hen Hin Ha. destruct (echo_covered cfg ep a Hen Hin Ha) as (ep' & Hin' & Ha' & Hlc).
    apply Hs in Hlc. eexists _, ep'. split_and!; [|done|done|exact Hlc].
    rewrite !elem_of_app. right; left. by eapply (serving_started _ _ _ _ EchoReceiver).
  - intros g member a Hg Hm Ha Hv. pose proof (micro_covered cfg g member a Hg Hm Ha Hv) as Hlc.
    apply Hs in Hlc. eexists. split; [|exact Hlc].
    rewrite !elem_of_app. right; right. by eapply (serving_started _ _ _ _ ControlReceiver).
Qed.

(** ** A configuration with all kinds *)

Definition sample_session (local ifName kind : string) : SessionConfig :=
  {| sess_Peer := "192.0.2.2"; sess_Local := local; sess_Interface := ifName; sess_Type := kind;
     sess_DesiredMinTx := 0; sess_RequiredMinRx := 0; sess_DetectMult := 0; sess_PaddedPduSize := 0;
     sess_Auth := mkAuthConfig "" 0 "" |}.

Definition sample_listeners_config : Config :=
  {| DefaultConfig with
     c_Sessions := [sample_session "192.0.2.1" "eth0" "single_hop"; sample_session "192.0.2.1" "" "multi_hop";
                    sample_session "" "eth1" "single_hop"];
     c_Echo := {| echo_Enabled := true; echo_DefaultTxInterval := second; echo_DefaultDetectMultiplier := 3;
                  echo_Peers := [mkEchoPeerConfig "192.0.2.2" "192.0.2.1" "eth0" 0 0] |};
     c_MicroBFD := {| micro_Groups := [{| mg_LAGInterface := "bond0"; mg_MemberLinks := ["eth2"; "eth3"];
                        mg_PeerAddr := "192.0.2.2"; mg_LocalAddr := "192.0.2.1"; mg_DesiredMinTx := second;
                        mg_RequiredMinRx := second; mg_DetectMult := 3; mg_MinActiveLinks := 1 |}];
                      micro_Actuator := micro_Actuator (c_MicroBFD DefaultConfig) |} |}.

Definition no_sockets : Sockets := {| sk_open := ∅; sk_next := 0 |}.

(** Sockets [n] on cannot be bound. *)
Definition env_up_to (n : nat) : SocketEnv := fun h => (mkSystem (fun _ => true) (bool_decide (h < n)%nat), true).

Definition open_ports (sk : Sockets) : list (Z * string) :=
  (fun hl => (pc_localPort (ln_conn hl.2), pc_ifName (ln_conn hl.2))) <$> map_to_list (sk_open sk).

Lemma no_sockets_ok : sockets_ok no_sockets.
Proof. intros h l H. cbn in H. by rewrite lookup_empty in H. Qed.

(** The receivers started and the open sockets. *)
Definition started (n : nat) (cfg : Config) : option (list receiver) * list (Z * string) :=
  match startListenersAndReceivers (env_up_to n) cfg no_sockets with
  | (Ok (rs, _), sk) => (Some rs, open_ports sk)
  | (_, sk) => (None, open_ports sk)
  end.

Lemma listeners_serve_config_witness :
  started 9 sample_listeners_config =
    (Some [ControlReceiver [0; 1]; EchoReceiver [2]; ControlReceiver [3; 4]]%nat,
     [(6784, "eth3"); (3785, "eth0"); (6784, "eth2"); (4784, ""); (3784, "eth0")]%string) /\
  started 4 sample_listeners_config = (None, []) /\
  match startListenersAndReceivers (env_up_to 9) sample_listeners_config no_sockets with
  | (Ok (_, cleanup), sk') => sk_open (cleanup sk') = ∅
  | _ => False
  end.
Proof.
  split; [vm_compute; reflexivity|]. split; [vm_compute; reflexivity|].
  pose proof (listeners_serve_config (env_up_to 9) sample_listeners_config no_sockets no_sockets_ok) as H.
  destruct (startListenersAndReceivers (env_up_to 9) sample_listeners_config no_sockets) as [[[rs cl]|e|] sk'] eqn:E.
  - destruct H as (_ & _ & _ & _ & _ & H). exact H.
  - apply (f_equal (fun x => match x.1 with Ok _ => true | _ => false end)) in E. vm_compute in E. discriminate.
  - exact H.
Defined.

(** ** Sessions that are not heard *)

(** Two sessions on one address and two interfaces, which validation accepts, share
    a socket; it is bound to the interface of the first, so that the packets of the
    second session's interface do not reach it. *)
Example second_interface_not_heard :
  let cfg := {| DefaultConfig with c_Sessions :=
                  [sample_session "192.0.2.1" "eth0" "single_hop"; sample_session "192.0.2.1" "eth1" "single_hop"] |} in
  Validate cfg = Ok tt /\ started 9 cfg = (Some [ControlReceiver [0]%nat], [(3784, "eth0"%string)]).
Proof. vm_compute. split; reflexivity. Qed.

(** A session without a local address has no socket at all. *)
Example session_without_local_not_heard :
  let cfg := {| DefaultConfig with c_Sessions := [sample_session "" "eth0" "single_hop"] |} in
  Validate cfg = Ok tt /\ started 9 cfg = (Some [], []).
Proof. vm_compute. split; reflexivity. Qed.

(** With unsolicited sessions enabled and none declared nothing listens, so no
    unsolicited session is ever made. *)
Example unsolicited_not_heard (u : UnsolicitedConfig) :
  started 9 {| DefaultConfig with c_Unsolicited := u |} = (Some [], []).
Proof. vm_compute. reflexivity. Qed.

(** The configured read buffer size reaches no listener. *)
Theorem read_buffer_never_set (cfg : Config) :
  Forall (fun lc => lc_ReadBufferSize lc = 0) (control_configs cfg ++ echo_configs cfg ++ micro_configs cfg).
Proof.
  rewrite !Forall_app. unfold control_configs, echo_configs, micro_configs. split_and!.
  2: destruct (echo_Enabled _); [|constructor].
  all: apply Forall_forall; intros lc ([k lc'] & -> & Hin%firsts_sub)%list_elem_of_fmap.
  - apply list_elem_of_omap in Hin as (sc & _ & Hs). unfold control_entry in Hs.
    destruct (usable _); [|done]. by injection Hs as _ <-.
  - apply list_elem_of_omap in Hin as (ep & _ & Hs). unfold echo_entry in Hs.
    destruct (usable _); [|done]. by injection Hs as _ <-.
  - apply list_elem_of_bind in Hin as (g & Hin & _). unfold micro_entries in Hin.
    destruct (ParseAddr _); [|by apply elem_of_nil in Hin]. destruct (negb _); [by apply elem_of_nil in Hin|].
    apply list_elem_of_fmap in Hin as (? & Heq & _). by injection Heq as _ ->.
Qed.
