(* ===== verification/Ifmon.v ===== *)
(** * Interface monitor ([ifmon.go], [ifmon_linux.go], [cmd/gobfd/handlers.go])

    From the bytes of a netlink socket to link events in a bounded channel, and from
    there to the manager.  Parsing of netlink messages and of their attributes is the
    Go standard library's ([syscall.ParseNetlinkMessage] and
    [syscall.ParseNetlinkRouteAttr]); multi-byte fields are little-endian, the native
    order of the daemon's platforms. *)

From stdpp Require Import strings pretty relations.
From S2P Require Import Prelude Hash Packet Fsm Auth Netip NetipParse Jitter Session SessionInv SessionSteps.
From S2P Require Import SessionProps SessionFrame Discriminator Unsolicited Manager ManagerSteps ManagerInv ManagerOps ManagerProps ManagerCalls.

Local Open Scope Z_scope.

Record InterfaceEvent := mkInterfaceEvent { ev_IfName : string; ev_IfIndex : Z; ev_Up : bool }.

Inductive ifmon_error := ErrNetlink | EINVAL | errShortIfInfoMsg | errIfIndexOverflow.

(** ** Netlink messages *)

Definition RTM_NEWLINK : Z := 16.
Definition RTM_DELLINK : Z := 17.
Definition IFLA_IFNAME : Z := 3.
Definition IFF_UP : Z := 0x1.
Definition IFF_RUNNING : Z := 0x40.
Definition NLMSG_HDRLEN : Z := 16.
Definition SizeofIfInfomsg : Z := 16.
Definition SizeofRtAttr : Z := 4.

Record NlMsghdr := mkNlMsghdr { nh_Len : Z; nh_Type : Z; nh_Flags : Z; nh_Seq : Z; nh_Pid : Z }.
Record NetlinkMessage := mkNetlinkMessage { nm_Header : NlMsghdr; nm_Data : list Z }.
Record NetlinkRouteAttr := mkNetlinkRouteAttr { ra_Type : Z; ra_Value : list Z }.

Definition le16_val (b0 b1 : Z) : Z := be16_val b1 b0.
Definition le16_bytes (v : Z) : list Z := [u8 v; u8 (Z.shiftr v 8)].

Definition get_le32 {E} (buf : list Z) (i : nat) : go E Z :=
  match drop i buf with b0 :: b1 :: b2 :: b3 :: _ => Ok (le32_val b0 b1 b2 b3) | _ => Panic end.

Definition get_le16 {E} (buf : list Z) (i : nat) : go E Z :=
  match drop i buf with b0 :: b1 :: _ => Ok (le16_val b0 b1) | _ => Panic end.

(** [nlmAlignOf] and [rtaAlignOf]. *)
Definition align4 (n : Z) : Z := Z.land (n + 3) (Z.lnot 3).

(** The slice from [n] on. *)
Definition from {E} (b : list Z) (n : Z) : go E (list Z) :=
  if (0 <=? n) && (n <=? zlen b) then Ok (drop (Z.to_nat n) b) else Panic.

Definition netlinkMessageHeaderAndData (b : list Z) : go ifmon_error (NlMsghdr * list Z * Z) :=
  len ← get_le32 b 0; type ← get_le16 b 4; flags ← get_le16 b 6; sq ← get_le32 b 8; pid ← get_le32 b 12;
  let l := align4 len in
  if (len <? NLMSG_HDRLEN) || (zlen b <? l) then Err EINVAL else
  dbuf ← from b NLMSG_HDRLEN;
  Ok (mkNlMsghdr len type flags sq pid, dbuf, l).

Fixpoint parse_messages (fuel : nat) (b : list Z) : go ifmon_error (list NetlinkMessage) :=
  if zlen b <? NLMSG_HDRLEN then Ok [] else
  match fuel with
  | O => Panic
  | S fuel =>
      '(h, dbuf, dlen) ← netlinkMessageHeaderAndData b;
      data ← slice dbuf 0 (Z.to_nat (nh_Len h - NLMSG_HDRLEN));
      b ← from b dlen;
      msgs ← parse_messages fuel b;
      Ok (mkNetlinkMessage h data :: msgs)
  end.

Definition ParseNetlinkMessage (b : list Z) : go ifmon_error (list NetlinkMessage) :=
  parse_messages (length b) b.

Definition netlinkRouteAttrAndValue (b : list Z) : go ifmon_error (Z * Z * list Z * Z) :=
  len ← get_le16 b 0; type ← get_le16 b 2;
  if (len <? SizeofRtAttr) || (zlen b <? len) then Err EINVAL else
  vbuf ← from b SizeofRtAttr;
  Ok (len, type, vbuf, align4 len).

Fixpoint parse_attrs (fuel : nat) (b : list Z) : go ifmon_error (list NetlinkRouteAttr) :=
  if zlen b <? SizeofRtAttr then Ok [] else
  match fuel with
  | O => Panic
  | S fuel =>
      '(len, type, vbuf, alen) ← netlinkRouteAttrAndValue b;
      value ← slice vbuf 0 (Z.to_nat (len - SizeofRtAttr));
      b ← from b alen;
      attrs ← parse_attrs fuel b;
      Ok (mkNetlinkRouteAttr type value :: attrs)
  end.

(** For link messages; the library refuses other types. *)
Definition ParseNetlinkRouteAttr (m : NetlinkMessage) : go ifmon_error (list NetlinkRouteAttr) :=
  if (nh_Type (nm_Header m) =? RTM_NEWLINK) || (nh_Type (nm_Header m) =? RTM_DELLINK) then
    b ← from (nm_Data m) SizeofIfInfomsg; parse_attrs (length b) b
  else Err EINVAL.

(** ** Link events *)

Record IfInfomsg := mkIfInfomsg { ii_Family : Z; ii_Type : Z; ii_Index : Z; ii_Flags : Z; ii_Change : Z }.

Definition parseIfInfomsg (buf : list Z) : go ifmon_error IfInfomsg :=
  idx4 ← get_le32 buf 4;
  if 2147483647 <? idx4 then Err errIfIndexOverflow else
  family ← idx buf 0; type ← get_le16 buf 2; flags ← get_le32 buf 8; change ← get_le32 buf 12;
  Ok {| ii_Family := family; ii_Type := type; ii_Index := i32 idx4; ii_Flags := flags; ii_Change := change |}.

Definition string_of_bytes (l : list Z) : string :=
  String.string_of_list_ascii ((fun b => Ascii.ascii_of_N (Z.to_N b)) <$> l).

(** [strings.TrimRight] with the zero byte. *)
Definition trim_zeros (l : list Z) : list Z :=
  reverse ((fix skip l := match l with 0 :: l => skip l | _ => l end) (reverse l)).

Fixpoint first_name (attrs : list NetlinkRouteAttr) : string :=
  match attrs with
  | [] => ""
  | attr :: attrs => if ra_Type attr =? IFLA_IFNAME then string_of_bytes (trim_zeros (ra_Value attr)) else first_name attrs
  end.

Definition linkNameFromAttrs (msg : NetlinkMessage) : go ifmon_error string :=
  attrs ← ParseNetlinkRouteAttr msg; Ok (first_name attrs).

(** [None]: not a link message. *)
Definition linkEventFromNetlinkMessage (msg : NetlinkMessage) : go ifmon_error (option InterfaceEvent) :=
  let type := nh_Type (nm_Header msg) in
  if negb ((type =? RTM_NEWLINK) || (type =? RTM_DELLINK)) then Ok None else
  if zlen (nm_Data msg) <? SizeofIfInfomsg then Err errShortIfInfoMsg else
  hd ← slice (nm_Data msg) 0 (Z.to_nat SizeofIfInfomsg);
  info ← parseIfInfomsg hd;
  ifName ← linkNameFromAttrs msg;
  let ifName := if bool_decide (ifName = ""%string) then ("if" +:+ pretty (ii_Index info))%string else ifName in
  let up := (type =? RTM_NEWLINK) && negb (Z.land (ii_Flags info) IFF_UP =? 0)
            && negb (Z.land (ii_Flags info) IFF_RUNNING =? 0) in
  Ok (Some {| ev_IfName := ifName; ev_IfIndex := ii_Index info; ev_Up := up |}).

(** ** The monitor *)

Definition ifmonChSize : nat := 64.

Record LinuxInterfaceMonitor := mkLinuxInterfaceMonitor {
  lm_events : list InterfaceEvent;
  lm_events_closed : bool;
  lm_closeOnce : bool;
  lm_fd_closes : nat;
}.

(** The outcomes of the system calls that make the socket. *)
Record NetlinkEnv := mkNetlinkEnv { ne_socket : bool; ne_timeout : bool; ne_bind : bool }.

(** With the number of descriptors left open. *)
Definition NewLinuxInterfaceMonitor (env : NetlinkEnv) : go ifmon_error LinuxInterfaceMonitor * nat :=
  if negb (ne_socket env) then (Err ErrNetlink, 0%nat) else
  if negb (ne_timeout env) then (Err ErrNetlink, 0%nat) else
  if negb (ne_bind env) then (Err ErrNetlink, 0%nat) else
  (Ok {| lm_events := []; lm_events_closed := false; lm_closeOnce := false; lm_fd_closes := 0 |}, 1%nat).

Definition ifmon_Close (m : LinuxInterfaceMonitor) : LinuxInterfaceMonitor :=
  if lm_closeOnce m then m else {| m with lm_closeOnce := true; lm_fd_closes := S (lm_fd_closes m) |}.

(** A full channel drops the event. *)
Definition send_event (ev : InterfaceEvent) (m : LinuxInterfaceMonitor) : option LinuxInterfaceMonitor :=
  if lm_events_closed m then None else
  if bool_decide (length (lm_events m) < ifmonChSize)%nat
  then Some {| m with lm_events := lm_events m ++ [ev] |} else Some m.

Fixpoint handle_messages (msgs : list NetlinkMessage) (m : LinuxInterfaceMonitor)
    : go ifmon_error unit * LinuxInterfaceMonitor :=
  match msgs with
  | [] => (Ok tt, m)
  | msg :: msgs =>
      match linkEventFromNetlinkMessage msg with
      | Err e => (Err e, m)
      | Panic => (Panic, m)
      | Ok None => handle_messages msgs m
      | Ok (Some ev) =>
          match send_event ev m with Some m => handle_messages msgs m | None => (Panic, m) end
      end
  end.

Definition handleNetlinkBuffer (buf : list Z) (m : LinuxInterfaceMonitor)
    : go ifmon_error unit * LinuxInterfaceMonitor :=
  match ParseNetlinkMessage buf with
  | Err e => (Err e, m)
  | Panic => (Panic, m)
  | Ok msgs => handle_messages msgs m
  end.

Inductive errno := EBADF | EINTR | EAGAIN | ENOBUFS | EOther.

(** A read of the socket; an error comes with whether the context is cancelled, and
    when it is, the socket may have been closed by then. *)
Inductive netlink_read :=
| NetlinkData (buf : list Z)
| NetlinkError (e : errno) (cancelled : bool).

Inductive run_end := RunStopped | RunFailed | RunWaiting | RunPanicked.

Definition close_events (m : LinuxInterfaceMonitor) : LinuxInterfaceMonitor := {| m with lm_events_closed := true |}.

(** The loop over a prefix of the reads.  A parse error is logged. *)
Fixpoint ifmon_Run (reads : list netlink_read) (m : LinuxInterfaceMonitor) : run_end * LinuxInterfaceMonitor :=
  match reads with
  | [] => (RunWaiting, m)
  | NetlinkError e cancelled :: reads =>
      let m := if cancelled then ifmon_Close m else m in
      match e with
      | EBADF => (RunStopped, close_events m)
      | EINTR | EAGAIN | ENOBUFS => if cancelled then (RunStopped, close_events m) else ifmon_Run reads m
      | EOther => if cancelled then (RunStopped, close_events m) else (RunFailed, close_events m)
      end
  | NetlinkData buf :: reads =>
      match handleNetlinkBuffer buf m with
      | (Panic, m) => (RunPanicked, m)
      | (_, m) => ifmon_Run reads m
      end
  end.

(** ** From the channel to the manager ([startInterfaceMonitor]) *)

(** One received event; [None]: nothing is waiting. *)
Definition interface_turn (ord : order Z nat) (mon : LinuxInterfaceMonitor) (m : Manager)
    : option (Z * LinuxInterfaceMonitor * Manager) :=
  match lm_events mon with
  | [] => None
  | ev :: rest =>
      let '(affected, m) := HandleInterfaceEvent (ev_IfName ev) (ev_Up ev) ord m in
      Some (affected, {| mon with lm_events := rest |}, m)
  end.

(** * What the kernel sends

    A link message as the kernel lays it out: header, [ifinfomsg] and attributes,
    each padded to four bytes. *)

Record link_message := mkLinkMessage {
  lk_type : Z;
  lk_hdr : Z * Z * Z;
  lk_family : Z;
  lk_devtype : Z;
  lk_index : Z;
  lk_flags : Z;
  lk_change : Z;
  lk_attrs : list (Z * list Z);
}.

Inductive netlink_message := LinkMessage (lk : link_message) | OtherMessage (type : Z) (hdr : Z * Z * Z) (data : list Z).

Definition pad4 (n : nat) : list Z := replicate (Z.to_nat (align4 (Z.of_nat n)) - n) 0.

Definition enc_attr (a : Z * list Z) : list Z :=
  le16_bytes (4 + zlen a.2) ++ le16_bytes a.1 ++ a.2 ++ pad4 (length a.2).

Definition enc_header (len type : Z) (hdr : Z * Z * Z) : list Z :=
  le32_bytes len ++ le16_bytes type ++ le16_bytes hdr.1.1 ++ le32_bytes hdr.1.2 ++ le32_bytes hdr.2.

Definition enc_body (lk : link_message) : list Z :=
  [lk_family lk; 0] ++ le16_bytes (lk_devtype lk) ++ le32_bytes (lk_index lk) ++ le32_bytes (lk_flags lk)
  ++ le32_bytes (lk_change lk) ++ (lk_attrs lk ≫= enc_attr).

Definition enc_message (nm : netlink_message) : list Z :=
  match nm with
  | LinkMessage lk => enc_header (16 + zlen (enc_body lk)) (lk_type lk) (lk_hdr lk) ++ enc_body lk
  | OtherMessage type hdr data => enc_header (16 + zlen data) type hdr ++ data ++ pad4 (length data)
  end.

(** The event a message stands for. *)
Definition link_name (lk : link_message) : string :=
  let name := first_name ((fun a => mkNetlinkRouteAttr a.1 a.2) <$> lk_attrs lk) in
  if bool_decide (name = ""%string) then ("if" +:+ pretty (lk_index lk))%string else name.

Definition link_event (nm : netlink_message) : option InterfaceEvent :=
  match nm with
  | LinkMessage lk =>
      Some {| ev_IfName := link_name lk; ev_IfIndex := lk_index lk;
              ev_Up := bool_decide (lk_type lk = RTM_NEWLINK) && Z.testbit (lk_flags lk) 0 && Z.testbit (lk_flags lk) 6 |}
  | OtherMessage _ _ _ => None
  end.

Definition attr_ok (a : Z * list Z) : Prop := is_u16 a.1 /\ 4 + zlen a.2 < 65536.

Definition hdr_ok (hdr : Z * Z * Z) : Prop := is_u16 hdr.1.1 /\ is_u32 hdr.1.2 /\ is_u32 hdr.2.

Definition message_ok (nm : netlink_message) : Prop :=
  match nm with
  | LinkMessage lk =>
      hdr_ok (lk_hdr lk) /\ (lk_type lk = RTM_NEWLINK \/ lk_type lk = RTM_DELLINK) /\ 0 <= lk_index lk < 2 ^ 31 /\
      is_u32 (lk_flags lk) /\ Forall attr_ok (lk_attrs lk) /\ zlen (enc_body lk) < 2 ^ 31
  | OtherMessage type hdr data =>
      hdr_ok hdr /\ is_u16 type /\ type <> RTM_NEWLINK /\ type <> RTM_DELLINK /\ zlen data < 2 ^ 31
  end.

(** ** Fields and padding *)

Lemma align4_eq n : 0 <= n -> align4 n = 4 * ((n + 3) / 4).
Proof.
  intros Hn. unfold align4. change (Z.lnot 3) with (Z.lnot (Z.ones 2)).
  rewrite <- Z.ldiff_land, Z.ldiff_ones_r, Z.shiftl_mul_pow2, Z.shiftr_div_pow2 by lia. change (2 ^ 2) with 4. lia.
Qed.

Lemma align4_bounds n : 0 <= n -> n <= align4 n < n + 4 /\ align4 n mod 4 = 0.
Proof.
  intros Hn. rewrite align4_eq by done. split; [Z.to_euclidean_division_equations; lia|].
  rewrite Z.mul_comm. apply Z.mod_mul. lia.
Qed.

Lemma align4_le n m : 0 <= n -> n <= m -> m mod 4 = 0 -> align4 n <= m.
Proof. intros Hn Hm Hd. rewrite align4_eq by done. Z.to_euclidean_division_equations; lia. Qed.

Lemma align4_add n : 0 <= n -> align4 (4 + n) = 4 + align4 n.
Proof. intros Hn. rewrite !align4_eq by lia. Z.to_euclidean_division_equations; lia. Qed.

Lemma align4_id n : 0 <= n -> n mod 4 = 0 -> align4 n = n.
Proof. intros Hn Hm. rewrite align4_eq by done. Z.to_euclidean_division_equations; lia. Qed.

Lemma pad4_length n : Z.of_nat n + zlen (pad4 n) = align4 (Z.of_nat n).
Proof.
  unfold pad4, zlen. rewrite length_replicate. pose proof (align4_bounds (Z.of_nat n)). lia.
Qed.

Lemma le32_round v : is_u32 v -> le32_val (u8 v) (u8 (Z.shiftr v 8)) (u8 (Z.shiftr v 16)) (u8 (Z.shiftr v 24)) = v.
Proof. apply be32_round. Qed.

Lemma le16_round v : is_u16 v -> le16_val (u8 v) (u8 (Z.shiftr v 8)) = v.
Proof. apply be16_round. Qed.

Lemma from_app {E} a b n : zlen a = n -> @from E (a ++ b) n = Ok b.
Proof.
  intros <-. unfold from, zlen. rewrite length_app, Nat2Z.inj_add.
  rewrite (proj2 (Z.leb_le 0 _)), (proj2 (Z.leb_le _ _)) by lia. cbn [andb]. by rewrite Nat2Z.id, drop_app_length.
Qed.

Lemma slice_app {E} a b n : zlen a = n -> @slice E (a ++ b) 0 (Z.to_nat n) = Ok a.
Proof.
  intros <-. unfold slice, zlen. rewrite Nat2Z.id, bool_decide_true by (rewrite length_app; lia).
  by rewrite drop_0, Nat.sub_0_r, take_app_length.
Qed.

Lemma zlen_app {A} (l k : list A) : zlen (l ++ k) = zlen l + zlen k.
Proof. unfold zlen. rewrite length_app. lia. Qed.

(** ** Parsing what was encoded *)

Lemma zlen_nonneg {A} (l : list A) : 0 <= zlen l.
Proof. unfold zlen. lia. Qed.

Lemma enc_attr_length a : zlen (enc_attr a) = align4 (4 + zlen a.2).
Proof.
  unfold enc_attr. rewrite !zlen_app. pose proof (pad4_length (length a.2)) as H. rewrite align4_add by apply zlen_nonneg.
  fold (zlen a.2) in H. assert (forall v, zlen (le16_bytes v) = 2) as Hb by done. rewrite !Hb. lia.
Qed.

Lemma attrs_length l : zlen (l ≫= enc_attr) mod 4 = 0.
Proof.
  induction l as [|a l IH]; [done|].
  change ((a :: l) ≫= enc_attr) with (enc_attr a ++ (l ≫= enc_attr)). rewrite zlen_app, enc_attr_length.
  pose proof (align4_bounds (4 + zlen a.2)). pose proof (zlen_nonneg a.2). Z.to_euclidean_division_equations; lia.
Qed.

Lemma attr_step a rest :
  attr_ok a ->
  netlinkRouteAttrAndValue (enc_attr a ++ rest)
  = Ok (4 + zlen a.2, a.1, a.2 ++ pad4 (length a.2) ++ rest, align4 (4 + zlen a.2)).
Proof.
  intros [Ht Hl]. pose proof (zlen_nonneg a.2). pose proof (zlen_nonneg rest).
  pose proof (enc_attr_length a) as Hea. pose proof (align4_bounds (4 + zlen a.2)).
  unfold netlinkRouteAttrAndValue.
  assert (Hz : zlen (enc_attr a ++ rest) = zlen (enc_attr a) + zlen rest) by apply zlen_app.
  assert (Hf : from (E := ifmon_error) (enc_attr a ++ rest) SizeofRtAttr = Ok (a.2 ++ pad4 (length a.2) ++ rest)).
  { unfold enc_attr. rewrite <- !app_assoc, (app_assoc (le16_bytes _)). by apply from_app. }
  rewrite Hz, Hea, Hf. unfold enc_attr, get_le16. cbn [le16_bytes app drop].
  rewrite !le16_round by (done || unfold is_u16; lia). cbn [mbind go_bind].
  rewrite (proj2 (Z.ltb_ge (4 + zlen a.2) _)) by (unfold SizeofRtAttr; lia).
  rewrite (proj2 (Z.ltb_ge _ (4 + zlen a.2))) by lia. done.
Qed.

Lemma parse_attrs_enc l fuel :
  Forall attr_ok l -> (length (l ≫= enc_attr) <= fuel)%nat ->
  parse_attrs fuel (l ≫= enc_attr) = Ok ((fun a => mkNetlinkRouteAttr a.1 a.2) <$> l).
Proof.
  intros HF. revert fuel. induction HF as [|a l Ha _ IH]; intros fuel Hf; [by destruct fuel|].
  pose proof (enc_attr_length a) as Hl. pose proof (align4_bounds (4 + zlen a.2)). pose proof (zlen_nonneg a.2).
  change ((a :: l) ≫= enc_attr) with (enc_attr a ++ (l ≫= enc_attr)) in *.
  rewrite length_app in Hf. destruct fuel as [|fuel]; [unfold zlen in *; lia|]. cbn [parse_attrs].
  rewrite (proj2 (Z.ltb_ge _ _)) by (rewrite zlen_app; pose proof (zlen_nonneg (l ≫= enc_attr)); unfold SizeofRtAttr; lia).
  rewrite attr_step by done. cbn [mbind go_bind].
  rewrite slice_app by (unfold SizeofRtAttr; lia). cbn [mbind go_bind]. rewrite from_app by done. cbn [mbind go_bind].
  rewrite IH by (unfold zlen in *; lia). done.
Qed.

Lemma header_step len type hdr data rest :
  is_u32 len -> is_u16 type -> is_u16 hdr.1.1 -> is_u32 hdr.1.2 -> is_u32 hdr.2 ->
  len = 16 + zlen data -> align4 len <= 16 + zlen data + zlen rest ->
  netlinkMessageHeaderAndData (enc_header len type hdr ++ data ++ rest)
  = Ok (mkNlMsghdr len type hdr.1.1 hdr.1.2 hdr.2, data ++ rest, align4 len).
Proof.
  intros Hlen Ht H1 H2 H3 Heq Hal. pose proof (zlen_nonneg data). unfold netlinkMessageHeaderAndData.
  assert (Hz : zlen (enc_header len type hdr ++ data ++ rest) = 16 + zlen data + zlen rest)
    by (rewrite !zlen_app; change (zlen (enc_header len type hdr)) with 16; lia).
  assert (Hf : from (E := ifmon_error) (enc_header len type hdr ++ data ++ rest) NLMSG_HDRLEN = Ok (data ++ rest))
    by (by apply from_app).
  rewrite Hz, Hf. unfold enc_header, get_le32, get_le16. cbn [le32_bytes le16_bytes app drop].
  rewrite !le32_round, !le16_round by done. cbn [mbind go_bind].
  rewrite (proj2 (Z.ltb_ge _ _)) by (unfold NLMSG_HDRLEN; lia). by rewrite (proj2 (Z.ltb_ge _ _)) by lia.
Qed.

Lemma land_pow2_eqb x n : 0 <= n -> negb (Z.land x (2 ^ n) =? 0) = Z.testbit x n.
Proof.
  intros Hn. destruct (Z.testbit x n) eqn:E.
  - apply negb_true_iff, Z.eqb_neq. intros H. apply (f_equal (fun z => Z.testbit z n)) in H.
    by rewrite Z.land_spec, Z.pow2_bits_true, E, Z.bits_0 in H.
  - apply negb_false_iff, Z.eqb_eq, Z.bits_inj_0. intros m. rewrite Z.land_spec, Z.pow2_bits_eqb by done.
    destruct (Z.eqb_spec n m) as [->|]; [by rewrite E|by rewrite andb_false_r].
Qed.

Definition info_bytes (lk : link_message) : list Z :=
  [lk_family lk; 0] ++ le16_bytes (lk_devtype lk) ++ le32_bytes (lk_index lk) ++ le32_bytes (lk_flags lk)
  ++ le32_bytes (lk_change lk).

Lemma enc_body_eq lk : enc_body lk = info_bytes lk ++ (lk_attrs lk ≫= enc_attr).
Proof. unfold enc_body, info_bytes. by rewrite <- !app_assoc. Qed.

Lemma parse_info lk :
  0 <= lk_index lk < 2 ^ 31 -> is_u32 (lk_flags lk) ->
  exists info, parseIfInfomsg (info_bytes lk) = Ok info /\ ii_Index info = lk_index lk /\ ii_Flags info = lk_flags lk.
Proof.
  intros Hi Hf. unfold parseIfInfomsg, info_bytes, get_le32, get_le16, idx. cbn [le32_bytes le16_bytes app drop].
  rewrite !(le32_round (lk_index lk)), !(le32_round (lk_flags lk)) by (done || unfold is_u32; lia).
  cbn [mbind go_bind lookup list_lookup]. rewrite (proj2 (Z.ltb_ge _ _)) by lia.
  eexists. split; [reflexivity|]. cbn [ii_Index ii_Flags]. split; [|done].
  unfold i32. rewrite Z.mod_small by lia. lia.
Qed.

Lemma link_event_enc lk h :
  message_ok (LinkMessage lk) -> nh_Type h = lk_type lk ->
  linkEventFromNetlinkMessage (mkNetlinkMessage h (enc_body lk)) = Ok (link_event (LinkMessage lk)).
Proof.
  intros (_ & Ht & Hi & Hf & Ha & _) Hh. unfold linkEventFromNetlinkMessage. cbn [nm_Header nm_Data]. rewrite Hh.
  assert (Hlink : (lk_type lk =? RTM_NEWLINK) || (lk_type lk =? RTM_DELLINK) = true)
    by (apply orb_true_iff; rewrite !Z.eqb_eq; done).
  rewrite Hlink. cbn [negb]. rewrite enc_body_eq.
  rewrite (proj2 (Z.ltb_ge _ _)) by (rewrite zlen_app; change (zlen (info_bytes lk)) with 16;
    pose proof (zlen_nonneg (lk_attrs lk ≫= enc_attr)); unfold SizeofIfInfomsg; lia).
  rewrite slice_app by done. cbn [mbind go_bind].
  destruct (parse_info lk Hi Hf) as (info & -> & Hidx & Hfl). cbn [mbind go_bind].
  unfold linkNameFromAttrs, ParseNetlinkRouteAttr. cbn [nm_Header nm_Data]. rewrite Hh, Hlink, from_app by done.
  cbn [mbind go_bind]. rewrite parse_attrs_enc by done. cbn [mbind go_bind].
  rewrite Hidx, Hfl.   change IFF_UP with (2 ^ 0). change IFF_RUNNING with (2 ^ 6). rewrite !land_pow2_eqb by lia.
  unfold link_event, link_name. do 4 f_equal. destruct (Z.eqb_spec (lk_type lk) RTM_NEWLINK); [by rewrite bool_decide_true|].
  by rewrite bool_decide_false.
Qed.

(** The data of a message without its padding. *)
Definition msg_data (nm : netlink_message) : list Z :=
  match nm with LinkMessage lk => enc_body lk | OtherMessage _ _ data => data end.

Definition msg_type (nm : netlink_message) : Z :=
  match nm with LinkMessage lk => lk_type lk | OtherMessage type _ _ => type end.

Definition msg_hdr (nm : netlink_message) : Z * Z * Z :=
  match nm with LinkMessage lk => lk_hdr lk | OtherMessage _ hdr _ => hdr end.

Definition parsed (nm : netlink_message) : NetlinkMessage :=
  mkNetlinkMessage
    (mkNlMsghdr (16 + zlen (msg_data nm)) (msg_type nm) (msg_hdr nm).1.1 (msg_hdr nm).1.2 (msg_hdr nm).2) (msg_data nm).

Lemma enc_message_eq nm :
  enc_message nm = enc_header (16 + zlen (msg_data nm)) (msg_type nm) (msg_hdr nm) ++ msg_data nm ++ pad4 (length (msg_data nm)).
Proof.
  destruct nm as [lk|]; [|done]. cbn [enc_message msg_data msg_type msg_hdr]. f_equal.
  assert (Hp : pad4 (length (enc_body lk)) = []); [|by rewrite Hp, app_nil_r].
  apply nil_length_inv. enough (zlen (pad4 (length (enc_body lk))) = 0) by (unfold zlen in *; lia).
  pose proof (pad4_length (length (enc_body lk))) as H. fold (zlen (enc_body lk)) in H.
  rewrite align4_id in H; [lia|apply zlen_nonneg|]. rewrite enc_body_eq, zlen_app.
  change (zlen (info_bytes lk)) with 16. pose proof (attrs_length (lk_attrs lk)).
  Z.to_euclidean_division_equations; lia.
Qed.

Lemma enc_message_length nm : zlen (enc_message nm) = align4 (16 + zlen (msg_data nm)).
Proof.
  rewrite enc_message_eq, !zlen_app. change (zlen (enc_header _ _ _)) with 16.
  pose proof (pad4_length (length (msg_data nm))) as H. fold (zlen (msg_data nm)) in H. pose proof (zlen_nonneg (msg_data nm)).
  replace (16 + zlen (msg_data nm)) with (4 + (4 + (4 + (4 + zlen (msg_data nm))))) by lia. rewrite !align4_add by lia. lia.
Qed.

Lemma message_header nm :
  message_ok nm -> is_u32 (16 + zlen (msg_data nm)) /\ is_u16 (msg_type nm) /\ hdr_ok (msg_hdr nm).
Proof.
  pose proof (zlen_nonneg (msg_data nm)). destruct nm as [lk|type hdr data]; cbn [msg_data msg_type msg_hdr] in *.
  - intros (? & [Ht|Ht] & _ & _ & _ & Hl); rewrite Ht; unfold is_u32, is_u16, RTM_NEWLINK, RTM_DELLINK; split_and!; (lia || apply H0).
  - intros (? & ? & _ & _ & Hl). unfold is_u32. split_and!; (lia || done || apply H0 || apply H1).
Qed.

Lemma parse_messages_enc msgs tail fuel :
  Forall message_ok msgs -> zlen tail < 16 -> (length ((msgs ≫= enc_message) ++ tail) <= fuel)%nat ->
  parse_messages fuel ((msgs ≫= enc_message) ++ tail) = Ok (parsed <$> msgs).
Proof.
  intros HF Ht. revert fuel. induction HF as [|nm msgs Hm _ IH]; intros fuel Hf.
  { change ([] ≫= enc_message) with (@nil Z). destruct fuel; cbn [parse_messages app];
      by rewrite (proj2 (Z.ltb_lt _ _)) by (unfold NLMSG_HDRLEN; lia). }
  change ((nm :: msgs) ≫= enc_message) with (enc_message nm ++ (msgs ≫= enc_message)) in *.
  rewrite <- app_assoc in *. set (rest := (msgs ≫= enc_message) ++ tail) in *.
  pose proof (enc_message_length nm) as Hl. pose proof (zlen_nonneg (msg_data nm)). pose proof (zlen_nonneg rest).
  pose proof (align4_bounds (16 + zlen (msg_data nm))) as Hb.
  destruct (message_header nm Hm) as (H1 & H2 & H3 & H4 & H5).
  rewrite length_app in Hf. destruct fuel as [|fuel]; [unfold zlen in *; lia|]. cbn [parse_messages].
  rewrite (proj2 (Z.ltb_ge _ _)) by (rewrite zlen_app; unfold NLMSG_HDRLEN; lia).
  rewrite (enc_message_eq nm) at 1. rewrite <- !app_assoc, header_step; try done.
  2: { rewrite zlen_app, <- Hl, enc_message_eq, !zlen_app. change (zlen (enc_header _ _ _)) with 16. lia. }
  cbn [mbind go_bind nh_Len]. rewrite slice_app by (unfold NLMSG_HDRLEN; lia). cbn [mbind go_bind].
  rewrite from_app by done. cbn [mbind go_bind]. rewrite IH by (unfold zlen in *; lia). done.
Qed.

(** ** The channel *)

(** Sends into the bounded channel keep its first events. *)
Lemma handle_messages_enc msgs m :
  Forall message_ok msgs -> lm_events_closed m = false -> (length (lm_events m) <= ifmonChSize)%nat ->
  handle_messages (parsed <$> msgs) m
  = (Ok tt, {| m with lm_events := take ifmonChSize (lm_events m ++ omap link_event msgs) |}).
Proof.
  intros HF Hc. revert m Hc. induction HF as [|nm msgs Hm _ IH]; intros m Hc Hl.
  { cbn [fmap list_fmap handle_messages omap list_omap]. rewrite app_nil_r, take_ge by done. by destruct m. }
  cbn [fmap list_fmap handle_messages]. destruct nm as [lk|type hdr data].
  - unfold parsed at 1. cbn [msg_data]. rewrite link_event_enc by done.
    cbn [link_event]. set (ev := mkInterfaceEvent _ _ _). unfold send_event. rewrite Hc.
    change (omap link_event (LinkMessage lk :: msgs)) with (ev :: omap link_event msgs).
    case_bool_decide as Hroom.
    + rewrite IH by (cbn [lm_events lm_events_closed]; rewrite ?length_app; cbn [length]; (done || lia)).
      cbn [lm_events]. by rewrite <- app_assoc.
    + rewrite IH by done. assert (Hge : (ifmonChSize <= length (lm_events m))%nat) by lia.
      by rewrite (take_app_le _ (omap _ _)), (take_app_le _ (ev :: _)), Hc by lia.
  - destruct Hm as (_ & _ & H1 & H2 & _). unfold linkEventFromNetlinkMessage.
    change (nh_Type (nm_Header (parsed (OtherMessage type hdr data)))) with type.
    rewrite (proj2 (Z.eqb_neq _ _) H1), (proj2 (Z.eqb_neq _ _) H2). cbn [orb negb]. by apply IH.
Qed.

(** What a read of well-formed messages puts into the channel: their events in order,
    up to its capacity; bytes too few for a header are ignored. *)
Lemma buffer_events msgs tail m :
  Forall message_ok msgs -> zlen tail < 16 -> lm_events_closed m = false -> (length (lm_events m) <= ifmonChSize)%nat ->
  handleNetlinkBuffer ((msgs ≫= enc_message) ++ tail) m
  = (Ok tt, {| m with lm_events := take ifmonChSize (lm_events m ++ omap link_event msgs) |}).
Proof.
  intros HF Ht Hc Hl. unfold handleNetlinkBuffer, ParseNetlinkMessage.
  rewrite parse_messages_enc by done. by apply handle_messages_enc.
Qed.

(** ** Arbitrary bytes *)

Lemma get_le32_some {E} b i : (i + 4 <= length b)%nat -> exists v, @get_le32 E b i = Ok v.
Proof.
  intros H. unfold get_le32. assert (Hd : (4 <= length (drop i b))%nat) by (rewrite length_drop; lia).
  destruct (drop i b) as [|? [|? [|? [|? ?]]]]; cbn in Hd; try lia. eauto.
Qed.

Lemma get_le16_some {E} b i : (i + 2 <= length b)%nat -> exists v, @get_le16 E b i = Ok v.
Proof.
  intros H. unfold get_le16. assert (Hd : (2 <= length (drop i b))%nat) by (rewrite length_drop; lia).
  destruct (drop i b) as [|? [|? ?]]; cbn in Hd; try lia. eauto.
Qed.

Lemma from_some {E} b n : 0 <= n <= zlen b -> @from E b n = Ok (drop (Z.to_nat n) b).
Proof. intros H. unfold from. by rewrite (proj2 (Z.leb_le 0 _)), (proj2 (Z.leb_le _ _)) by lia. Qed.

(** A step of either parser stays inside the buffer and makes progress. *)
Lemma header_safe b :
  16 <= zlen b ->
  match netlinkMessageHeaderAndData b with
  | Ok (h, dbuf, dlen) => 16 <= nh_Len h <= dlen /\ dlen <= zlen b /\ dbuf = drop 16 b
  | Err _ => True
  | Panic => False
  end.
Proof.
  intros Hb. unfold netlinkMessageHeaderAndData. unfold zlen in Hb.
  destruct (@get_le32_some ifmon_error b 0) as [len ->]; [lia|]. destruct (@get_le16_some ifmon_error b 4) as [ty ->]; [lia|].
  destruct (@get_le16_some ifmon_error b 6) as [fl ->]; [lia|]. destruct (@get_le32_some ifmon_error b 8) as [sq ->]; [lia|].
  destruct (@get_le32_some ifmon_error b 12) as [pid ->]; [lia|]. cbn [mbind go_bind].
  destruct (Z.ltb_spec len NLMSG_HDRLEN) as [|H1]; cbn [orb]; [done|]. destruct (Z.ltb_spec (zlen b) (align4 len)) as [|H2]; [done|].
  unfold NLMSG_HDRLEN in *. rewrite from_some by (unfold zlen in *; lia). cbn [mbind go_bind].
  pose proof (align4_bounds len). split_and!; cbn; (lia || done).
Qed.

Lemma slice_some {E} b n : 0 <= n <= zlen b -> @slice E b 0 (Z.to_nat n) = Ok (take (Z.to_nat n) b).
Proof.
  intros H. unfold slice, zlen in *. rewrite bool_decide_true by lia. by rewrite drop_0, Nat.sub_0_r.
Qed.

Lemma parse_messages_safe fuel b : (length b <= fuel)%nat -> parse_messages fuel b <> Panic.
Proof.
  revert b. induction fuel as [|fuel IH]; intros b Hf; cbn [parse_messages];
    destruct (Z.ltb_spec (zlen b) NLMSG_HDRLEN) as [|Hb]; try done; unfold NLMSG_HDRLEN in *; [unfold zlen in *; lia|].
  pose proof (header_safe b Hb) as Hh. destruct (netlinkMessageHeaderAndData b) as [[[h dbuf] dlen]|e|]; [|done|done].
  destruct Hh as (Hl & Hd & ->). cbn [mbind go_bind].
  rewrite slice_some by (unfold zlen in *; rewrite length_drop; lia). cbn [mbind go_bind].
  rewrite from_some by lia. cbn [mbind go_bind].
  specialize (IH (drop (Z.to_nat dlen) b)). destruct (parse_messages fuel _); [done|done|].
  apply IH. rewrite length_drop. lia.
Qed.

Lemma parse_attrs_safe fuel b : (length b <= fuel)%nat -> zlen b mod 4 = 0 -> parse_attrs fuel b <> Panic.
Proof.
  revert b. induction fuel as [|fuel IH]; intros b Hf Hm; cbn [parse_attrs];
    destruct (Z.ltb_spec (zlen b) SizeofRtAttr) as [|Hb]; try done; unfold SizeofRtAttr in *; [unfold zlen in *; lia|].
  unfold netlinkRouteAttrAndValue.
  destruct (@get_le16_some ifmon_error b 0) as [len ->]; [unfold zlen in *; lia|].
  destruct (@get_le16_some ifmon_error b 2) as [ty ->]; [unfold zlen in *; lia|]. cbn [mbind go_bind]. unfold SizeofRtAttr.
  destruct (Z.ltb_spec len 4) as [|H1]; cbn [orb]; [done|]. destruct (Z.ltb_spec (zlen b) len) as [|H2]; [done|].
  rewrite from_some by lia. cbn [mbind go_bind].
  pose proof (align4_le len (zlen b) ltac:(lia) H2 Hm). pose proof (align4_bounds len ltac:(lia)) as [Ha Ha4].
  rewrite slice_some by (unfold zlen in *; rewrite length_drop; lia). cbn [mbind go_bind].
  rewrite from_some by lia. cbn [mbind go_bind].
  specialize (IH (drop (Z.to_nat (align4 len)) b)). destruct (parse_attrs fuel _); [done|done|]. apply IH.
  - rewrite length_drop. lia.
  - unfold zlen in *. rewrite length_drop, Nat2Z.inj_sub, Z2Nat.id by lia. Z.to_euclidean_division_equations; lia.
Qed.

(** The length of a link message is a multiple of four, as the kernel makes it. *)
Definition msg_aligned (msg : NetlinkMessage) : bool :=
  negb ((nh_Type (nm_Header msg) =? RTM_NEWLINK) || (nh_Type (nm_Header msg) =? RTM_DELLINK))
  || (zlen (nm_Data msg) mod 4 =? 0).

Lemma link_event_safe msg : msg_aligned msg -> linkEventFromNetlinkMessage msg <> Panic.
Proof.
  intros Hm. unfold linkEventFromNetlinkMessage, msg_aligned in *.
  destruct ((nh_Type _ =? RTM_NEWLINK) || _) eqn:Ht; cbn [negb orb] in *; [|done]. apply Is_true_true, Z.eqb_eq in Hm.
  destruct (Z.ltb_spec (zlen (nm_Data msg)) SizeofIfInfomsg) as [|Hl]; [done|]. unfold SizeofIfInfomsg in *.
  rewrite slice_some by lia. cbn [mbind go_bind].
  assert (Hlen : length (take (Z.to_nat 16) (nm_Data msg)) = 16%nat) by (rewrite length_take; unfold zlen in *; lia).
  unfold parseIfInfomsg. set (hd := take _ _) in *.
  destruct (@get_le32_some ifmon_error hd 4) as [i ->]; [lia|]. cbn [mbind go_bind]. destruct (_ <? i); [done|].
  destruct (@idx_ok ifmon_error hd 0) as (f & -> & _); [lia|]. destruct (@get_le16_some ifmon_error hd 2) as [t ->]; [lia|].
  destruct (@get_le32_some ifmon_error hd 8) as [fl ->]; [lia|]. destruct (@get_le32_some ifmon_error hd 12) as [ch ->]; [lia|].
  cbn [mbind go_bind]. unfold linkNameFromAttrs, ParseNetlinkRouteAttr. rewrite Ht. unfold SizeofIfInfomsg.
  rewrite from_some by lia. cbn [mbind go_bind].
  assert (Hs : parse_attrs (length (drop (Z.to_nat 16) (nm_Data msg))) (drop (Z.to_nat 16) (nm_Data msg)) <> Panic).
  { apply parse_attrs_safe; [done|]. unfold zlen in *. rewrite length_drop, Nat2Z.inj_sub, Z2Nat.id by lia.
    Z.to_euclidean_division_equations; lia. }
  destruct (parse_attrs _ _); done.
Qed.

Definition aligned (buf : list Z) : Prop :=
  forall msgs, ParseNetlinkMessage buf = Ok msgs -> Forall msg_aligned msgs.

Record mon_ok (m : LinuxInterfaceMonitor) : Prop := {
  mk_bound : (length (lm_events m) <= ifmonChSize)%nat;
  mk_once : lm_fd_closes m = if lm_closeOnce m then 1%nat else 0%nat;
}.

Lemma ifmon_Close_ok m : mon_ok m -> mon_ok (ifmon_Close m).
Proof. intros [B O]. unfold ifmon_Close. destruct (lm_closeOnce m) eqn:E; split; cbn; rewrite ?E, ?O; try done; by rewrite E. Qed.

Lemma handle_messages_safe msgs m :
  Forall msg_aligned msgs -> mon_ok m -> lm_events_closed m = false ->
  match handle_messages msgs m with
  | (Panic, _) => False
  | (_, m') => mon_ok m' /\ lm_events_closed m' = false /\ lm_events m `prefix_of` lm_events m'
  end.
Proof.
  intros HF. revert m. induction HF as [|msg msgs Hm _ IH]; intros m M Hc; cbn [handle_messages]; [done|].
  pose proof (link_event_safe msg Hm). destruct (linkEventFromNetlinkMessage msg) as [[ev|]|e|]; [|by apply IH|done|done].
  unfold send_event. rewrite Hc. case_bool_decide as Hr; [|by apply IH].
  match goal with |- context [handle_messages msgs ?x] => set (m1 := x) end.
  assert (M1 : mon_ok m1) by (destruct M as [B O]; split; [cbn; rewrite length_app; cbn; lia|done]).
  specialize (IH m1 M1 eq_refl). destruct (handle_messages msgs m1) as [[[]|e|] m']; [| |done].
  all: destruct IH as (? & ? & Hp); split; [done|split; [done|]]; etrans; [|exact Hp]; by exists [ev].
Qed.

Lemma buffer_safe buf m :
  aligned buf -> mon_ok m -> lm_events_closed m = false ->
  match handleNetlinkBuffer buf m with
  | (Panic, _) => False
  | (_, m') => mon_ok m' /\ lm_events_closed m' = false /\ lm_events m `prefix_of` lm_events m'
  end.
Proof.
  intros Ha M Hc. unfold handleNetlinkBuffer. pose proof (parse_messages_safe (length buf) buf ltac:(lia)) as Hs.
  unfold aligned, ParseNetlinkMessage in *. destruct (parse_messages _ _) as [msgs|e|]; [|done|done].
  apply handle_messages_safe; [by apply Ha|done|done].
Qed.

Lemma ifmon_Run_safe reads m :
  (forall buf, NetlinkData buf ∈ reads -> aligned buf) -> mon_ok m -> lm_events_closed m = false ->
  let '(r, m') := ifmon_Run reads m in
  r <> RunPanicked /\ mon_ok m' /\ lm_events m `prefix_of` lm_events m' /\
  lm_events_closed m' = (match r with RunWaiting => false | _ => true end).
Proof.
  revert m. induction reads as [|[buf|e cancelled] reads IH]; intros m Ha M Hc; cbn [ifmon_Run]; [done|..].
  - pose proof (buffer_safe buf m (Ha buf ltac:(left)) M Hc) as Hb.
    destruct (handleNetlinkBuffer buf m) as [[[]|e|] m1]; [| |done];
      destruct Hb as (M1 & Hc1 & Hp); specialize (IH m1 (fun b Hb => Ha b (list_elem_of_further _ _ _ Hb)) M1 Hc1);
      destruct (ifmon_Run reads m1) as [r m']; destruct IH as (? & ? & Hp' & ?); split_and!; try done; by etrans.
  - set (m1 := if cancelled then ifmon_Close m else m).
    assert (H1 : mon_ok m1 /\ lm_events_closed m1 = false /\ lm_events m1 = lm_events m).
    { unfold m1. destruct cancelled; [|done]. split; [by apply ifmon_Close_ok|]. unfold ifmon_Close. by case_match. }
    destruct H1 as (M1 & Hc1 & Hev). specialize (IH m1 (fun b Hb => Ha b (list_elem_of_further _ _ _ Hb)) M1 Hc1).
    rewrite <- Hev. assert (Hstop : mon_ok (close_events m1)) by (by destruct M1).
    destruct e; cbn [ifmon_Run]; try destruct cancelled; try (by split_and!); exact IH.
Qed.

(** A read of link messages laid out as the kernel does, with other messages
    between them and anything shorter than a header behind, puts exactly their
    events into the channel, in order and up to its capacity: the name of the first
    name attribute or [if] and the index, and up exactly if the message announces a
    link with both flags set.  On any reads whose messages have aligned lengths the
    loop does not panic, never removes an event, closes the channel exactly when it
    ends and the socket at most once. *)
Theorem link_events_delivered (msgs : list netlink_message) (tail : list Z) (reads : list netlink_read)
    (m : LinuxInterfaceMonitor) (HF : Forall message_ok msgs) (Ht : zlen tail < 16)
    (Hc : lm_events_closed m = false) (M : mon_ok m) (Ha : forall buf, NetlinkData buf ∈ reads -> aligned buf) :
  handleNetlinkBuffer ((msgs ≫= enc_message) ++ tail) m
  = (Ok tt, {| m with lm_events := take ifmonChSize (lm_events m ++ omap link_event msgs) |}) /\
  let '(r, m') := ifmon_Run reads m in
  r <> RunPanicked /\ (lm_fd_closes m' <= 1)%nat /\ (length (lm_events m') <= ifmonChSize)%nat /\
  lm_events m `prefix_of` lm_events m' /\ lm_events_closed m' = (match r with RunWaiting => false | _ => true end).
Proof.
  split; [by apply buffer_events; try done; destruct M|].
  pose proof (ifmon_Run_safe reads m Ha M Hc) as H. destruct (ifmon_Run reads m) as [r m'].
  destruct H as (H1 & [Hb Ho] & H2 & H3). split_and!; try done. rewrite Ho. destruct (lm_closeOnce m'); lia.
Qed.

Definition new_monitor : LinuxInterfaceMonitor :=
  {| lm_events := []; lm_events_closed := false; lm_closeOnce := false; lm_fd_closes := 0 |}.

(** [eth0] going down. *)
Definition sample_down : link_message :=
  {| lk_type := RTM_NEWLINK; lk_hdr := (0, 7, 0); lk_family := 0; lk_devtype := 1; lk_index := 2;
     lk_flags := 0x1003; lk_change := 0; lk_attrs := [(17, [1]); (IFLA_IFNAME, [101; 116; 104; 48; 0])] |}.

Definition sample_messages : list netlink_message :=
  [OtherMessage 2 (0, 1, 0) [1; 2; 3]; LinkMessage sample_down;
   LinkMessage {| sample_down with lk_flags := 0x1043; lk_attrs := [] |}].

Lemma sample_messages_ok : Forall message_ok sample_messages.
Proof.
  assert (A : Forall attr_ok (lk_attrs sample_down)).
  { cbn [sample_down lk_attrs]. rewrite !Forall_cons, Forall_nil.
    split_and!; try done; unfold IFLA_IFNAME, is_u16; cbn; lia. }
  assert (L : forall flags attrs, is_u32 flags -> Forall attr_ok attrs ->
    zlen (enc_body {| sample_down with lk_flags := flags; lk_attrs := attrs |}) < 2 ^ 31 ->
    message_ok (LinkMessage {| sample_down with lk_flags := flags; lk_attrs := attrs |})).
  { intros flags attrs Hf Hat Hl. split_and!; cbn [lk_type lk_hdr lk_index lk_flags lk_attrs sample_down]; try done; by left. }
  unfold sample_messages. rewrite !Forall_cons, Forall_nil. split_and!; [..|done].
  - unfold message_ok, hdr_ok, is_u16, is_u32, RTM_NEWLINK, RTM_DELLINK. split_and!; try done; cbn; lia.
  - apply (L 0x1003 _); [unfold is_u32; lia|exact A|vm_compute; reflexivity].
  - apply (L 0x1043 []); [unfold is_u32; lia|constructor|vm_compute; reflexivity].
Qed.

Lemma link_events_delivered_witness :
  Forall message_ok sample_messages /\ mon_ok new_monitor /\
  lm_events (handleNetlinkBuffer ((sample_messages ≫= enc_message) ++ [0; 0]) new_monitor).2
  = [mkInterfaceEvent "eth0" 2 false; mkInterfaceEvent "if2" 2 true] /\
  (ifmon_Run [NetlinkData (sample_messages ≫= enc_message); NetlinkError EBADF true] new_monitor).1 <> RunPanicked.
Proof.
  assert (M : mon_ok new_monitor) by (split; [cbn; lia|done]).
  assert (Ha : forall buf, NetlinkData buf ∈ [NetlinkData (sample_messages ≫= enc_message); NetlinkError EBADF true] -> aligned buf).
  { intros buf [Hb|Hb]%elem_of_cons; [|apply list_elem_of_singleton in Hb; discriminate].
    injection Hb as ->. intros msgs H. vm_compute in H. injection H as <-. repeat constructor. }
  pose proof (link_events_delivered sample_messages [0; 0] _ new_monitor sample_messages_ok eq_refl eq_refl M Ha) as [H1 H2].
  split; [exact sample_messages_ok|]. split; [exact M|]. split; [rewrite H1; vm_compute; reflexivity|].
  destruct (ifmon_Run _ _) as [r m']. destruct H2 as [H2 _]. exact H2.
Defined.

(** ** Down to the sessions *)

Lemma link_name_nonempty lk : link_name lk <> ""%string.
Proof. unfold link_name. case_bool_decide; [done|done]. Qed.

(** A session whose loop takes a path-down command goes Down, or stays AdminDown, with
    the diagnostic. *)
Lemma path_down_turn l en y rest e m :
  m_entries m !! l = Some en -> se_thread en = Running y -> reachable y ->
  s_ctrlCh (ses y) = mkSessionControl controlPathDown :: rest ->
  exists m' en' y', session_turn l CaseCtrl e m = Some (Some m') /\ m_entries m' !! l = Some en' /\
    se_thread en' = Running y' /\ s_localDiag (ses y') = DiagPathDown /\
    s_cachedState (ses y') = (if s_cachedState (ses y) =? StateAdminDown then StateAdminDown else StateDown).
Proof.
  intros He Ht R Hq. unfold session_turn. rewrite He. cbn [mbind option_bind]. rewrite Ht.
  set (e' := raw_env e _ m). cbn [runLoop_turn]. rewrite Hq. cbn [mbind option_bind].
  unfold handleControlCommand. cbn [sc_kind]. rewrite Z.eqb_refl.
  destruct (handlePathDown_ok e' _ (with_ctrlCh_inv y rest (reachable_inv y R))) as (y' & -> & _ & _ & _ & Hd & Hs).
  eexists _, _, y'. split; [reflexivity|]. cbn [m_entries upd_entry]. split; [by rewrite list_lookup_alter_eq, He|].
  by split_and!.
Qed.

Lemma path_down_queued en :
  s_ctrlCh (se_session (entry_call (fun s => (SetPathDown s).2) en)) =
    s_ctrlCh (se_session en) ++
    (if decide (length (s_ctrlCh (se_session en)) < ctrlChSize)%nat then [mkSessionControl controlPathDown] else []).
Proof.
  rewrite entry_call_session. unfold SetPathDown. case_bool_decide; destruct (decide _); try done. by rewrite app_nil_r.
Qed.

(** C20: a link going down takes its sessions down.  The bytes of a link message that
    is not up, read into a monitor without waiting events, are one turn of the event
    loop later a path-down command at the end of the control channel of every
    registered session bound to that interface, unless four commands already wait
    there, and nothing else in the manager has changed.  Whenever afterwards the loop of
    a session takes a path-down command, whatever happened in between, the session is
    Down, or still AdminDown if it was, with the path-down diagnostic. *)
Theorem link_down_takes_sessions_down (lk : link_message) (mon : LinuxInterfaceMonitor) (m : Manager)
    (ds : list Z) (k : nat) (ord : order Z nat) (Hlk : message_ok (LinkMessage lk))
    (Hdown : lk_type lk = RTM_DELLINK \/ Z.testbit (lk_flags lk) 0 && Z.testbit (lk_flags lk) 6 = false)
    (Hidle : lm_events mon = []) (Hopen : lm_events_closed mon = false)
    (R : mgr_reachable (mkWorld m ds k)) (Ho : forall l, ord l ≡ₚ l) :
  exists mon1 affected m',
    handleNetlinkBuffer (enc_message (LinkMessage lk)) mon = (Ok tt, mon1) /\
    interface_turn ord mon1 m = Some (affected, mon, m') /\
    rtc mgr_step (mkWorld m ds k) (mkWorld m' ds k) /\
    m' = {| m with m_entries := m_entries m' |} /\
    (forall l, (forall en, registered m l en -> sk_ifName (se_key en) <> link_name lk) ->
       m_entries m' !! l = m_entries m !! l) /\
    (forall l en, registered m l en -> sk_ifName (se_key en) = link_name lk ->
       exists en', m_entries m' !! l = Some en' /\ en' = entry_call (fun s => (SetPathDown s).2) en /\
         s_ctrlCh (se_session en') = s_ctrlCh (se_session en) ++
           (if decide (length (s_ctrlCh (se_session en)) < 4)%nat then [mkSessionControl controlPathDown] else [])) /\
    (forall w l en y rest e, rtc mgr_step (mkWorld m' ds k) w -> m_entries (w_m w) !! l = Some en ->
       se_thread en = Running y -> s_ctrlCh (ses y) = mkSessionControl controlPathDown :: rest ->
       exists m2 en2 y2, session_turn l CaseCtrl e (w_m w) = Some (Some m2) /\ m_entries m2 !! l = Some en2 /\
         se_thread en2 = Running y2 /\ s_localDiag (ses y2) = DiagPathDown /\
         s_cachedState (ses y2) = (if s_cachedState (ses y) =? StateAdminDown then StateAdminDown else StateDown)).
Proof.
  destruct (mgr_reachable_inv _ R) as [Mp _ [Hth _] _ _]. cbn [w_m] in *.
  pose proof (bound_to_nodup m (link_name lk) ord Mp Ho) as Hnd.
  pose proof (buffer_events [LinkMessage lk] [] mon (proj2 (Forall_singleton _ _) Hlk) eq_refl Hopen ltac:(rewrite Hidle; cbn; lia)) as Hb.
  rewrite app_nil_r in Hb. change ([LinkMessage lk] ≫= enc_message) with (enc_message (LinkMessage lk) ++ []) in Hb.
  rewrite app_nil_r, Hidle in Hb. set (ls := bound_to (link_name lk) ord m) in *.
  set (m' := call_all (fun s => (SetPathDown s).2) ls m).
  eexists _, (path_down_all ls m).1, m'. split; [exact Hb|]. split_and!.
  - unfold interface_turn. cbn [lm_events omap list_omap link_event app take ifmonChSize].
    cbn [ev_IfName ev_Up]. unfold HandleInterfaceEvent. rewrite bool_decide_false by apply link_name_nonempty.
    replace (_ && _ && _) with false; cbn [orb].
    2: { destruct Hdown as [->|Hd]; [done|]. rewrite <- andb_assoc, Hd. by rewrite andb_false_r. }
    fold ls. unfold m'. rewrite <- path_down_all_calls. destruct (path_down_all ls m) as [n m2]. cbn [fst snd].
    do 3 f_equal. destruct mon. cbn in *. by subst.
  - apply call_all_steps. constructor.
  - apply call_all_entries.
  - intros l Hl. unfold m'. rewrite call_all_lookup by done. rewrite bool_decide_false; [done|].
    intros (en & HR & Hi)%(bound_to_spec m (link_name lk) ord l Mp Ho). by eapply Hl.
  - intros l en HR Hi. assert (Hl : m_entries m' !! l = Some (entry_call (fun s => (SetPathDown s).2) en)).
    { unfold m'. rewrite call_all_lookup by done. rewrite bool_decide_true; [|apply bound_to_spec; eauto].
      destruct HR as [-> _]. done. }
    eexists. split; [exact Hl|]. split; [done|]. apply path_down_queued.
  - intros w l en y rest e Hw He Ht Hq. eapply path_down_turn; [done..| |done].
    assert (Rw : mgr_reachable w).
    { eapply reachable_steps; [exact R|]. etrans; [|exact Hw]. apply call_all_steps. constructor. }
    destruct (to_entry _ (mi_threads _ (mgr_reachable_inv _ Rw)) _ _ He) as [Hok _]. by rewrite Ht in Hok.
Qed.

Lemma link_down_takes_sessions_down_witness :
  exists mon1 affected m',
    handleNetlinkBuffer (enc_message (LinkMessage sample_down)) new_monitor = (Ok tt, mon1) /\
    interface_turn id mon1 started_manager = Some (affected, new_monitor, m') /\
    (match m_entries m' !! 0%nat with Some en => length (s_ctrlCh (se_session en)) | None => 0%nat end) = 1%nat.
Proof.
  destruct (link_down_takes_sessions_down sample_down new_monitor started_manager [] 0 id
              (proj1 (proj1 (Forall_cons _ _ _) (proj2 (proj1 (Forall_cons _ _ _) sample_messages_ok))))
              (or_intror eq_refl) eq_refl eq_refl started_reachable (fun l => reflexivity l))
    as (mon1 & n & m' & H1 & H2 & _ & _ & _ & H3 & _).
  exists mon1, n, m'. split; [exact H1|]. split; [exact H2|].
  destruct (m_entries started_manager !! 0%nat) as [en|] eqn:E; [|vm_compute in E; discriminate].
  destruct (H3 0%nat en) as (en' & -> & -> & _).
  - split; [exact E|]. vm_compute in E. injection E as <-. vm_compute. reflexivity.
  - vm_compute in E. injection E as <-. vm_compute. reflexivity.
  - vm_compute in E. injection E as <-. vm_compute. reflexivity.
Defined.
