(* ===== verification/LagEnforce.v ===== *)
(** * Enforcement from configuration to bond

    The actuator the daemon builds from its configuration, behind the manager: the
    members of the bond follow the states of the Micro-BFD sessions, for every back
    end.  The laws the back ends rely on hold of concrete models of sysfs, OVSDB and
    NetworkManager. *)

From stdpp Require Import strings relations.
From Stdlib Require Import Ascii.
From S2P Require Import Prelude Packet Netip NetipParse Config Session Micro Manager Lag LagProps LagBackends Daemon.

Local Open Scope Z_scope.

(** The world a back end acts on: how its members are seen and what is assumed. *)
Inductive bond_world {W} (env : LagEnv W) (pairs : string -> string -> Prop)
    : string -> (LagState W -> Prop) -> (LagState W -> string -> gset string) -> Prop :=
| bw_kernel slaves : bonding_laws env slaves ->
    bond_world env pairs "kernel-bond" (fun _ => True) (fun s => slaves (ls_world s))
| bw_ovs ports ifaces : ovsdb_laws env ports ifaces ->
    bond_world env pairs "ovs" (fun s => names_unique ifaces (ls_world s))
      (fun s => ovs_members ports ifaces (ls_world s))
| bw_nm profiles dev owner settings :
    (forall bond bond' i, pairs bond i -> pairs bond' i -> bond = bond') ->
    nm_laws env profiles dev owner settings ->
    bond_world env pairs "networkmanager" (nm_inv profiles settings pairs)
      (fun s => nm_members profiles settings (ls_world s)).

(** The back end a configuration selects keeps its promise. *)
Lemma selected_follows {W} (env : LagEnv W) cfg b pairs inv members :
  bond_world env pairs (lc_Backend cfg) inv members -> NewLAGActuatorBackend env cfg = Ok b ->
  follows inv members pairs b.
Proof.
  intros Hw. unfold NewLAGActuatorBackend, normalizeLAGActuatorConfig.
  assert (Hb : or_string (lc_Backend cfg) "auto" = lc_Backend cfg) by (inversion Hw; reflexivity).
  rewrite Hb. cbn [lc_Mode lc_Backend lc_OwnerPolicy lc_OVSDBEndpoint lc_DownAction lc_UpAction].
  unfold validateLAGActuatorMode, validateLAGActuatorBackend, validateLAGOwnerPolicy, validateLAGActuatorAction, when_err.
  destruct (negb (one_of (or_string (lc_Mode cfg) "disabled") _)); [done|].
  destruct (negb (one_of (lc_Backend cfg) _)); [done|].
  destruct (negb (one_of (or_string (lc_OwnerPolicy cfg) _) _)); [done|].
  destruct (negb (one_of (or_string (lc_DownAction cfg) _) _)); [done|].
  destruct (negb (one_of (or_string (lc_UpAction cfg) _) _)); [done|].
  cbn [mbind go_bind]. cbn [lc_Mode lc_Backend lc_OwnerPolicy lc_OVSDBEndpoint].
  destruct (negb (bool_decide (or_string (lc_Mode cfg) "disabled" = "enforce"%string))); [done|].
  remember (lc_Backend cfg) as be eqn:Ebe. clear Ebe Hb.
  destruct Hw as [slaves HL|ports ifaces HL|profiles dev owner settings PF HL];
    repeat match goal with |- context [bool_decide (?x = ?y)] =>
      let r := eval vm_compute in (bool_decide (x = y)) in
      match r with true => idtac | false => idtac end; change (bool_decide (x = y)) with r; cbn match end;
    (destruct (negb _); [done|]); intros [= <-].
  - by apply kernel_follows.
  - by apply ovsdb_follows.
  - by apply (nm_follows env profiles dev owner settings pairs PF).
Qed.

(** The actuator the daemon builds acts on that back end. *)
Lemma build_enforcing {W} (env : LagEnv W) cfg a pairs inv members :
  ma_Mode cfg = "enforce"%string -> ma_DownAction cfg = "remove-member"%string ->
  ma_UpAction cfg = "add-member"%string -> bond_world env pairs (ma_Backend cfg) inv members ->
  buildMicroBFDActuator env cfg = Ok (Some a) ->
  exists b, enforcing a b /\ follows inv members pairs b.
Proof.
  intros Hm Hd Hu Hw. unfold buildMicroBFDActuator.
  assert (Hl : lc_Mode (configMicroBFDActuatorToNetio cfg) = "enforce"%string) by exact Hm. rewrite Hl, Hm.
  rewrite (bool_decide_false ("enforce"%string = "disabled"%string)) by done.
  rewrite (bool_decide_true ("enforce"%string = "enforce"%string)) by done.
  destruct (NewLAGActuatorBackend env _) as [b|e|] eqn:Eb; [|done..].
  unfold NewLAGActuator. destruct (normalizeLAGActuatorConfig _) as [n|e|] eqn:En; [|done..].
  intros Ha. exists b. split; [|by apply (selected_follows env (configMicroBFDActuatorToNetio cfg) b)].
  assert (Hn : lc_Mode n = "enforce"%string /\ lc_DownAction n = "remove-member"%string /\
               lc_UpAction n = "add-member"%string).
  { unfold normalizeLAGActuatorConfig in En. go_inv En. rewrite <- En. cbn. by rewrite Hm, Hd, Hu. }
  destruct Hn as (E1 & E2 & E3). cbn in Ha. rewrite andb_false_r in Ha. injection Ha as <-. by split.
Qed.

(** A manager before the first event: the member [i] of the group [name] is Down,
    and only that group, of the bond [bond], has it. *)
Record watched (m : Manager) (pairs : string -> string -> Prop) (name bond i : string) : Prop := {
  wa_actuator : m_hasMicroActuator m = true;
  wa_events : m_actuated m = [];
  wa_pairs : forall n bond' ms' i', shape m !! n = Some (bond', ms') -> i' ∈ ms' -> pairs bond' i';
  wa_group : exists ms, shape m !! name = Some (bond, ms) /\ i ∈ ms;
  wa_only : forall n bond' ms', shape m !! n = Some (bond', ms') -> i ∈ ms' -> n = name;
  wa_down : member_state m name i = Some StateDown;
}.

(** C28: with enforcement configured to remove members and add them again, and for each
    of the three back ends in a world that keeps its promise (for NetworkManager, one in
    which only the bond's profiles are active on the members), the bond's members follow
    Micro-BFD.  After any state changes the manager dispatches, in which those of the
    member connect, no call has panicked and the group has the state of the last one.  If
    no call for the member failed, a member that is Up is in the bond, one that was Up
    and is no longer is not, and one that never came Up is in the bond exactly if it was
    before: it is not taken out. *)
Theorem lag_members_follow_bfd {W} (env : LagEnv W) (cfg : MicroBFDActuatorConfig) (a : LAGActuator (LagState W))
    (pairs : string -> string -> Prop) inv members (m : Manager) (s : LagState W) (name bond i : string)
    (l : list (StateChange * order string MicroBFDGroup)) (st : Z)
    (Hmode : ma_Mode cfg = "enforce"%string) (Hdown : ma_DownAction cfg = "remove-member"%string)
    (Hup : ma_UpAction cfg = "add-member"%string) (HW : bond_world env pairs (ma_Backend cfg) inv members)
    (HB : buildMicroBFDActuator env cfg = Ok (Some a)) (HI : inv s) (HM : watched m pairs name bond i)
    (HO : forall sc ord, (sc, ord) ∈ l -> forall x, ord x ≡ₚ x)
    (HC : connected i StateDown (l.*1) = Some st) :
  let m' := dispatch_run l m in
  exists log s', actuate a (m_actuated m') s = (log, s') /\ (forall ev r, (ev, r) ∈ log -> r <> Panic) /\
    member_state m' name i = Some st /\
    (all_ok bond i log ->
     i ∈ members s' bond <-> st = StateUp \/ (~ was_up i (l.*1) /\ i ∈ members s bond)).
Proof.
  destruct (build_enforcing env cfg a pairs inv members Hmode Hdown Hup HW HB) as (b & EN & F).
  destruct HM as [H1 H2 H3 (ms & H4 & H5) H6 H7].
  destruct (run_followed inv members pairs b a F EN m s name bond i ms H1 H2 HI H3 H4 H5 H6 H7 l st HO HC)
    as (log & s' & Ha & Fd).
  exists log, s'. split_and!; [done|apply Fd..].
Qed.

(** ** A model of the bonding files *)

Local Notation files := (gmap string (gset string)).

(** The name between the sign and the line feed. *)
Definition command_name (c : string) : string :=
  String.string_of_list_ascii (removelast (drop 1 (chars_of c))).

Definition model_write (path c : string) (w : files) : file_outcome * files :=
  let old := default ∅ (w !! path) in
  match c with
  | String "+" _ => (FileOk, <[path := old ∪ {[command_name c]}]> w)
  | String "-" _ => (FileOk, <[path := old ∖ {[command_name c]}]> w)
  | _ => (WriteFailed, w)
  end.

Definition refused {A} : ext files A := fun w => (inl "refused"%string, w).

Definition kernel_env : LagEnv files :=
  {| le_ctx_err := fun _ => false; le_write := model_write; le_run := fun _ _ => refused;
     le_ovsdb_connect := fun _ => refused; le_Transact := fun _ => refused;
     le_CheckOperationResults := fun _ _ => None; le_NewOvsSet := inr; le_nm_connect := refused;
     le_DeviceByIPInterface := fun _ => refused; le_DeviceActiveConnection := fun _ => refused;
     le_DeviceAvailableConnections := fun _ => refused; le_ActiveConnectionConnection := fun _ => refused;
     le_DeactivateConnection := fun _ => refused; le_ActivateConnection := fun _ _ => refused;
     le_ConnectionSettings := fun _ => refused |}.

Definition file_slaves (w : files) (bond : string) : gset string := default ∅ (w !! slaves_path bond).

Lemma command_name_of prefix i : String.length prefix = 1%nat ->
  command_name (prefix +:+ i +:+ String "010"%char "") = i.
Proof.
  intros Hp. destruct prefix as [|c [|c' r]]; [done| |done]. unfold command_name. rewrite !chars_app.
  change (removelast _) with (removelast (chars_of i ++ ["010"%char])). rewrite removelast_last. apply string_chars.
Qed.

Lemma model_write_add p i w : model_write p ("+" +:+ i +:+ String "010"%char "") w =
  (FileOk, <[p := default ∅ (w !! p) ∪ {[i]}]> w).
Proof. unfold model_write. rewrite command_name_of by done. reflexivity. Qed.

Lemma model_write_remove p i w : model_write p ("-" +:+ i +:+ String "010"%char "") w =
  (FileOk, <[p := default ∅ (w !! p) ∖ {[i]}]> w).
Proof. unfold model_write. rewrite command_name_of by done. reflexivity. Qed.

Lemma kernel_env_laws : bonding_laws kernel_env file_slaves.
Proof.
  split; intros w bond i r w'; cbn [le_write kernel_env]; rewrite ?model_write_add, ?model_write_remove;
    unfold file_slaves; generalize (slaves_path bond); intros p [<- <-]%pair_equal_spec;
    (split; [rewrite lookup_insert_eq; set_solver|]);
    intros bond' i' Hne; rewrite lookup_insert; case_decide as Hb; try rewrite Hb; set_solver.
Qed.

(** ** An example *)

Definition sample_actuator : MicroBFDActuatorConfig :=
  {| ma_Mode := "enforce"; ma_Backend := "kernel-bond"; ma_OVSDBEndpoint := ""; ma_OwnerPolicy := "allow-external";
     ma_DownAction := "remove-member"; ma_UpAction := "add-member" |}.

Definition sample_lag_actuator : LAGActuator (LagState files) :=
  {| la_cfg := configMicroBFDActuatorToNetio sample_actuator;
     la_backend := Some (NewKernelBondLAGBackend kernel_env "") |}.

Definition sample_group : MicroBFDGroup :=
  {| g_lagInterface := "bond0";
     g_members := {[ "eth0"%string := new_member "eth0"; "eth1"%string := new_member "eth1" ]};
     g_minActive := 1; g_aggregateUp := false; g_upCount := 0; g_peerAddr := IPv4 1; g_localAddr := IPv4 2 |}.

Definition sample_lag_manager : Manager :=
  {| (NewManager None false true) with m_microGroups := {[ "bond0"%string := sample_group ]} |}.

Definition change (i : string) (old new : Z) : StateChange * order string MicroBFDGroup :=
  ({| sc_LocalDiscr := 7; sc_PeerAddr := IPv4 1; sc_Interface := i; sc_Type := SessionTypeMicroBFD;
      sc_OldState := old; sc_NewState := new; sc_Diag := 0; sc_Timestamp := 0 |}, id).

Definition sample_changes : list (StateChange * order string MicroBFDGroup) :=
  [change "eth0" StateDown StateUp; change "eth1" StateDown StateInit; change "eth0" StateUp StateDown].

Definition sample_files : files := {[ slaves_path "bond0" := {[ "eth0"; "eth1" ]} ]}.

Lemma sample_built : buildMicroBFDActuator kernel_env sample_actuator = Ok (Some sample_lag_actuator).
Proof. reflexivity. Qed.

Lemma sample_shape n bond ms : shape sample_lag_manager !! n = Some (bond, ms) ->
  n = "bond0"%string /\ bond = "bond0"%string /\ ms = {[ "eth0"%string; "eth1"%string ]}.
Proof.
  unfold shape. cbn [m_microGroups sample_lag_manager]. rewrite map_fmap_singleton.
  intros [<- [= <- <-]]%lookup_singleton_Some. done.
Qed.

Lemma sample_watched : watched sample_lag_manager (fun bond i => bond = "bond0"%string) "bond0" "bond0" "eth0".
Proof.
  split; [reflexivity..| | | |reflexivity].
  - by intros n bond ms i' (_ & -> & _)%sample_shape _.
  - exists {[ "eth0"%string; "eth1"%string ]}. split; [reflexivity|set_solver].
  - by intros n bond ms (-> & _ & _)%sample_shape _.
Qed.

Lemma sample_all_ok : all_ok "bond0" "eth0"
  (actuate sample_lag_actuator (m_actuated (dispatch_run sample_changes sample_lag_manager))
     (mkLagState sample_files ∅)).1.
Proof.
  intros ev r Hin _ _. vm_compute in Hin.
  repeat (apply elem_of_cons in Hin as [[= _ ->]|Hin]; [reflexivity|]). by apply elem_of_nil in Hin.
Qed.

(** The link that came Up and went Down is taken out of the bond. *)
Lemma lag_members_follow_bfd_witness :
  exists log s', actuate sample_lag_actuator (m_actuated (dispatch_run sample_changes sample_lag_manager))
                   (mkLagState sample_files ∅) = (log, s') /\
    "eth0"%string ∉ file_slaves (ls_world s') "bond0".
Proof.
  destruct (lag_members_follow_bfd kernel_env sample_actuator sample_lag_actuator
              (fun bond i => bond = "bond0"%string) (fun _ => True) (fun s => file_slaves (ls_world s))
              sample_lag_manager (mkLagState sample_files ∅) "bond0" "bond0" "eth0" sample_changes StateDown
              eq_refl eq_refl eq_refl (bw_kernel _ _ _ kernel_env_laws) sample_built I sample_watched)
    as (log & s' & Ha & _ & _ & Hm).
  - intros sc ord Hin x. repeat (apply elem_of_cons in Hin as [[= _ ->]|Hin]; [reflexivity|]). by apply elem_of_nil in Hin.
  - reflexivity.
  - exists log, s'. split; [exact Ha|]. pose proof sample_all_ok as Hok. rewrite Ha in Hok. rewrite (Hm Hok).
    intros [H|[H _]]; [discriminate H|]. apply H. exists (change "eth0" StateDown StateUp).1.
    split; [left|split; reflexivity].
Defined.
