(* ===== verification/LagModels.v ===== *)
(** * Models of the services behind the LAG back ends

    An OVSDB server and a NetworkManager, each a small executable model that meets
    the laws the back ends rely on; and what the NetworkManager client does when
    the profile active on an interface is not a port of the bond. *)

From stdpp Require Import strings relations.
From Stdlib Require Import Ascii.
From S2P Require Import Prelude Packet Netip NetipParse Config Session Micro Manager Lag LagProps LagBackends NetworkManager LagEnforce.

Local Open Scope Z_scope.

(** ** OVSDB: the interfaces of the ports and the identities of the interfaces *)

Local Notation database := (gmap string (gset string) * gmap string string)%type.

Definition db_select (table n : string) (w : database) : list (gmap string ovsdb_value) :=
  if bool_decide (table = "Port"%string)
  then match w.1 !! n with Some _ => [∅] | None => [] end
  else match w.2 !! n with Some u => [{["_uuid"%string := ValUUID u]}] | None => [] end.

Definition db_mutate (mutator n u : string) (w : database) : Z * database :=
  match w.1 !! n with
  | None => (0, w)
  | Some set =>
      (1, (<[n := if bool_decide (mutator = "delete"%string) then set ∖ {[u]} else set ∪ {[u]}]> w.1, w.2))
  end.

Definition db_transact (ops : list Operation) : ext database (list OperationResult) := fun w =>
  match ops with
  | [{| op_Op := o; op_Table := t; op_Where := [(_, _, n)]; op_Mutations := mu |}] =>
      match mu with
      | [(_, mutator, [u])] => let '(c, w') := db_mutate mutator n u w in (inr [mkOperationResult c []], w')
      | _ => (inr [mkOperationResult 0 (db_select t n w)], w)
      end
  | [{| op_Row := [(_, i)] |}; {| op_Where := [(_, _, n)] |}] =>
      match w.1 !! n with
      | None => (inr [mkOperationResult 1 []; mkOperationResult 0 []], w)
      | Some set =>
          let u := fresh (map_to_list w.2).*2 in
          (inr [mkOperationResult 1 []; mkOperationResult 1 []], (<[n := set ∪ {[u]}]> w.1, <[i := u]> w.2))
      end
  | _ => (inl "unknown"%string, w)
  end.

Definition nothing {W A} : ext W A := fun w => (inl "refused"%string, w).

Definition ovsdb_env : LagEnv database :=
  {| le_ctx_err := fun _ => false; le_write := fun _ _ w => (OpenFailed, w); le_run := fun _ _ => nothing;
     le_ovsdb_connect := fun _ w => (inr tt, w); le_Transact := db_transact;
     le_CheckOperationResults := fun _ _ => None; le_NewOvsSet := inr; le_nm_connect := nothing;
     le_DeviceByIPInterface := fun _ => nothing; le_DeviceActiveConnection := fun _ => nothing;
     le_DeviceAvailableConnections := fun _ => nothing; le_ActiveConnectionConnection := fun _ => nothing;
     le_DeactivateConnection := fun _ => nothing; le_ActivateConnection := fun _ _ => nothing;
     le_ConnectionSettings := fun _ => nothing |}.

Lemma db_mutate_cases mutator n u w c w' f :
  (forall set, f set = if bool_decide (mutator = "delete"%string) then set ∖ {[u]} else set ∪ {[u]}) ->
  db_mutate mutator n u w = (c, w') ->
  (same fst snd w w' \/ mutated fst snd n f w w') /\ (c <> 0 -> mutated fst snd n f w w').
Proof.
  intros Hf. unfold db_mutate. destruct w as [ps ids]. cbn. destruct (ps !! n) as [set|] eqn:Hn; intros [= <- <-].
  - assert (Hm : mutated fst snd n f (ps, ids)
      (<[n := if bool_decide (mutator = "delete"%string) then set ∖ {[u]} else set ∪ {[u]}]> ps, ids)).
    { exists set. cbn. rewrite Hf. by split_and!. }
    split; [by right|done].
  - split; [by left|done].
Qed.

Lemma fresh_identity (w : database) j : w.2 !! j <> Some (fresh (map_to_list w.2).*2).
Proof.
  intros Hj%elem_of_map_to_list. apply (infinite_is_fresh (map_to_list w.2).*2).
  apply list_elem_of_fmap. by exists (j, fresh (map_to_list w.2).*2).
Qed.

Lemma ovsdb_env_laws : ovsdb_laws ovsdb_env fst snd.
Proof.
  split.
  - by intros ep w r w' [= <- <-].
  - intros n w r w' [= <- <-]. split; [done|]. intros rs [= <-] _. eexists. split; [reflexivity|].
    unfold db_select. cbn. by destruct (w.1 !! n).
  - intros n w r w' [= <- <-]. split; [done|]. intros rs [= <-] _. eexists. split; [reflexivity|].
    unfold db_select. cbn. by destruct (w.2 !! n).
  - done.
  - intros bond u w r w'. cbn. destruct (db_mutate "delete" bond u w) as [c w1] eqn:E. intros [= <- <-].
    destruct (db_mutate_cases "delete" bond u w c w1 (fun set => set ∖ {[u]}) ltac:(intros; reflexivity) E) as [H1 H2].
    split; [done|]. intros rs [= <-] _. by eexists.
  - intros bond u w r w'. cbn. destruct (db_mutate "insert" bond u w) as [c w1] eqn:E. intros [= <- <-].
    destruct (db_mutate_cases "insert" bond u w c w1 (fun set => set ∪ {[u]}) ltac:(intros; reflexivity) E) as [H1 H2].
    split; [done|]. intros rs [= <-] _. by eexists.
  - intros bond i w r w'. cbn. destruct (w.1 !! bond) as [set|] eqn:Hb; intros [= <- <-].
    + assert (Hi : inserted fst snd bond i w
        (<[bond := set ∪ {[fresh (map_to_list w.2).*2]}]> w.1, <[i := fresh (map_to_list w.2).*2]> w.2)).
      { exists set, (fresh (map_to_list w.2).*2). split_and!; [done|apply fresh_identity|done..]. }
      split; [by right|]. intros rs [= <-] _. by eexists _, _.
    + split; [by left|]. intros rs [= <-] _. eexists _, _. by split.
Qed.

(** ** NetworkManager: the profile active on every interface

    A profile is named after the bond it is a port of; the active connection of an
    interface is the letter a and its name. *)

Local Notation network := (gmap string string).

Definition handle_interface (p : string) : option string :=
  match p with String "a"%char i => Some i | _ => None end.

Definition nm_profile (c : string) : nm_settings :=
  {["connection"%string := {["controller"%string := Some c]}]}.

(** The service by the names of objects and members; anything else is refused. *)
Definition nm_bus : Bus network :=
  let unknown {A} (w : network) : (string + A) * network := (inl "unknown object or member"%string, w) in
  {| bus_connect := fun w => (inr tt, w);
     bus_call_path := fun o m args w =>
       if negb (bool_decide (ob_path o = "/org/freedesktop/NetworkManager"%string)) then unknown w else
       match args with
       | [ArgString i] =>
           if bool_decide (m = "org.freedesktop.NetworkManager.GetDeviceByIpIface"%string) then (inr i, w) else unknown w
       | [ArgPath c; ArgPath d; ArgPath "/"%string] =>
           if bool_decide (m = "org.freedesktop.NetworkManager.ActivateConnection"%string)
           then (inr (String "a"%char d), <[d := c]> w) else unknown w
       | _ => unknown w
       end;
     bus_call_settings := fun o m args w =>
       if bool_decide (m = "org.freedesktop.NetworkManager.Settings.Connection.GetSettings"%string)
       then (inr (nm_profile (ob_path o)), w) else unknown w;
     bus_call := fun o m args w =>
       match args with
       | [ArgPath p] =>
           if bool_decide (m = "org.freedesktop.NetworkManager.DeactivateConnection"%string) then
             match handle_interface p with Some i => (inr tt, delete i w) | None => (inl "gone"%string, w) end
           else unknown w
       | _ => unknown w
       end;
     bus_property_path := fun o m w =>
       if bool_decide (m = "org.freedesktop.NetworkManager.Device.ActiveConnection"%string) then
         (inr match w !! ob_path o with Some _ => String "a"%char (ob_path o) | None => "/"%string end, w)
       else if bool_decide (m = "org.freedesktop.NetworkManager.Connection.Active.Connection"%string) then
         (match handle_interface (ob_path o) ≫= (w !!.) with Some c => inr c | None => inl "gone"%string end, w)
       else unknown w;
     bus_property_paths := fun o m w =>
       if bool_decide (m = "org.freedesktop.NetworkManager.Device.AvailableConnections"%string) then (inr [], w) else unknown w |}.

Definition nm_env : LagEnv network :=
  dbus_env nm_bus
    {| le_ctx_err := fun _ => false; le_write := fun _ _ w => (OpenFailed, w); le_run := fun _ _ => nothing;
       le_ovsdb_connect := fun _ => nothing; le_Transact := fun _ => nothing;
       le_CheckOperationResults := fun _ _ => None; le_NewOvsSet := inr; le_nm_connect := nothing;
       le_DeviceByIPInterface := fun _ => nothing; le_DeviceActiveConnection := fun _ => nothing;
       le_DeviceAvailableConnections := fun _ => nothing; le_ActiveConnectionConnection := fun _ => nothing;
       le_DeactivateConnection := fun _ => nothing; le_ActivateConnection := fun _ _ => nothing;
       le_ConnectionSettings := fun _ => nothing |}.

Lemma nm_bus_api : nm_api nm_bus id id handle_interface nm_profile.
Proof.
  split; cbn; unfold id.
  - by intros w r w' [= <- <-].
  - intros i w r w' [= <- <-]. split; [done|]. by intros d [= <-].
  - intros i w r w' [= <- <-]. split; [done|]. intros p [= <-]. destruct (w !! i) eqn:E; [|done].
    unfold isNoObjectPath. rewrite !bool_decide_false by done. by split.
  - by intros d w r w' [= <- <-].
  - intros p i w r w' Ho [= <- <-]. rewrite Ho. cbn. split; [done|]. intros c. destruct (w !! i); naive_solver.
  - intros c w r w' [= <- <-]. split; [done|]. by intros st [= <-].
  - intros p i w r w' Ho. rewrite Ho. by intros [= <- <-].
  - by intros c i w r w' [= <- <-].
Qed.

Lemma nm_env_laws : nm_laws nm_env id id handle_interface nm_profile.
Proof. apply dbus_nm_laws, nm_bus_api. Qed.

(** A profile that is not a port of the bond is deactivated too, and what is
    activated again when the link recovers is that profile: both calls succeed and
    the interface is not in the bond. *)
Example nm_foreign_profile :
  let s := mkLagState {["eth0"%string := "office"%string]} ∅ in
  let '(r1, s1) := lb_RemoveMember (NewNetworkManagerLAGBackend nm_env None) "bond0" "eth0" s in
  let '(r2, s2) := lb_AddMember (NewNetworkManagerLAGBackend nm_env None) "bond0" "eth0" s1 in
  r1 = Ok tt /\ map_to_list (ls_world s1) = [] /\ r2 = Ok tt /\
  map_to_list (ls_world s2) = map_to_list (ls_world s) /\
  elements (nm_members id nm_profile (ls_world s2) "bond0") = [].
Proof. vm_compute. repeat split; reflexivity. Qed.

(** When the notification of a failure is lost, the next one does not start in Up and
    the failed link stays in the bond, although its group knows that it is not Up. *)
Example lost_notification_keeps_member :
  let l := [change "eth0" StateDown StateUp; change "eth0" StateDown StateInit] in
  let m := dispatch_run l sample_lag_manager in
  let s := (actuate sample_lag_actuator (m_actuated m) (mkLagState sample_files ∅)).2 in
  member_state m "bond0" "eth0" = Some StateInit /\
  bool_decide ("eth0"%string ∈ file_slaves (ls_world s) "bond0") = true.
Proof. vm_compute. split; reflexivity. Qed.
