(* ===== verification/DaemonProps.v ===== *)
(** * Properties of start and reload

    Whatever the configuration says, a reload is a sequence of the manager's steps
    and keeps the ports of the senders in order; a validated configuration converts
    to sessions the engine accepts; for canonical addresses the sessions after a
    reload are the configured ones. *)

From stdpp Require Import strings relations.
From S2P Require Import Prelude Config Packet Fsm Auth Netip NetipParse Jitter Session SessionInv SessionSteps.
From S2P Require Import SessionProps SessionFrame Intervals Discriminator Micro Unsolicited Echo Manager.
From S2P Require Import ManagerSteps ManagerInv ManagerOps ManagerProps ManagerReconcile Overlay Transport Daemon.

Local Open Scope Z_scope.

(** ** Reconciliation as steps of the manager *)

Definition steps (ds : list Z) (n : nat) (m m' : Manager) : Prop :=
  rtc mgr_step (mkWorld m ds n) (mkWorld m' ds n).

Lemma steps_inv ds n m m' : steps ds n m m' -> mgr_inv (mkWorld m ds n) -> mgr_inv (mkWorld m' ds n).
Proof.
  unfold steps. intros Hr I. remember (mkWorld m ds n) as w1. remember (mkWorld m' ds n) as w2.
  clear Heqw1 Heqw2. induction Hr as [|w1 w2 w3 H12 _ IH]; [done|]. by apply IH, (mgr_step_inv w1).
Qed.

Lemma steps_trans ds n m1 m2 m3 : steps ds n m1 m2 -> steps ds n m2 m3 -> steps ds n m1 m3.
Proof. unfold steps. intros. by etrans. Qed.

(** A call that does not panic and is made of steps. *)
Definition call_ok (ds : list Z) (n : nat) (m : Manager) (r : go mgr_error unit * Manager) : Prop :=
  match r with (Panic, _) => False | (_, m') => steps ds n m m' end.

Lemma reconcile_loop_steps {A} skip (act : string -> A -> Manager -> go mgr_error unit * Manager) L m ds n :
  (forall k a m, (k, a) ∈ L -> mgr_inv (mkWorld m ds n) -> call_ok ds n m (act k a m)) ->
  mgr_inv (mkWorld m ds n) ->
  exists c errs m', reconcile_loop skip act L m = Some (c, errs, m') /\ steps ds n m m'.
Proof.
  revert m. induction L as [|[k a] L IH]; intros m Hact I; cbn [reconcile_loop].
  { exists 0, [], m. split; [done|apply rtc_refl]. }
  assert (Hrest : forall k a m, (k, a) ∈ L -> mgr_inv (mkWorld m ds n) -> call_ok ds n m (act k a m)).
  { intros k' a' m' Hin. apply Hact. by right. }
  destruct (skip k); [by apply IH|].
  pose proof (Hact k a m ltac:(left) I) as Hc. unfold call_ok in Hc.
  destruct (act k a m) as [[u|e|] m1]; [| |done];
    destruct (IH m1 Hrest (steps_inv _ _ _ _ Hc I)) as (c & errs & m2 & -> & Hs);
    cbn [mbind option_bind]; do 3 eexists; (split; [reflexivity|by eapply steps_trans]).
Qed.

Lemma reconcile_steps {A B} (cur : gmap string A) (des : gmap string B) ordc ordd destroy create m ds n :
  (forall l, ordd l ≡ₚ l) -> mgr_inv (mkWorld m ds n) ->
  (forall k a m, mgr_inv (mkWorld m ds n) -> call_ok ds n m (destroy k a m)) ->
  (forall k b m, des !! k = Some b -> mgr_inv (mkWorld m ds n) -> call_ok ds n m (create k b m)) ->
  exists c d errs m', reconcile cur des ordc ordd destroy create m = Some (c, d, errs, m') /\ steps ds n m m'.
Proof.
  intros Hod I Hd Hc. unfold reconcile.
  destruct (reconcile_loop_steps (has_key des) destroy (ordc (map_to_list cur)) m ds n)
    as (c1 & e1 & m1 & -> & H1); [by intros; apply Hd|done|]. cbn [mbind option_bind].
  destruct (reconcile_loop_steps (has_key cur) create (ordd (map_to_list des)) m1 ds n)
    as (c2 & e2 & m2 & -> & H2); [|by eapply steps_inv|].
  { intros k b m0 Hin. apply Hc. rewrite Hod in Hin. by apply elem_of_map_to_list in Hin. }
  cbn [mbind option_bind]. do 4 eexists. split; [reflexivity|by eapply steps_trans].
Qed.

Lemma DestroySession_call d m ds n : mgr_inv (mkWorld m ds n) -> call_ok ds n m (DestroySession d m).
Proof.
  intros I. pose proof (DestroySession_cases d m (mi_maps _ I)) as Hc. unfold call_ok.
  destruct (DestroySession d m) as [[[]|e|] m'] eqn:E; [by eapply DestroySession_steps| |done].
  destruct Hc as (_ & -> & _). apply rtc_refl.
Qed.

Lemma CreateSession_call cfg ci m ds n :
  cfg_ok cfg -> input_ok ci ->
  call_ok ds n m (let '(r, m) := CreateSession cfg ci m in (go_void r, m)).
Proof.
  intros Hc Hi. pose proof (CreateSession_cases cfg ci m Hc Hi) as H. unfold call_ok.
  destruct (CreateSession cfg ci m) as [[l|e|] m'] eqn:E; cbn; [by eapply CreateSession_steps| |done].
  destruct H as [-> _]. apply rtc_refl.
Qed.

Lemma DestroyEchoSession_call d m ds n : call_ok ds n m (DestroyEchoSession d m).
Proof.
  unfold call_ok, DestroyEchoSession. destruct (m_echoSessions m !! d) as [l|] eqn:Hl; [|apply rtc_refl].
  eapply rtc_l; [by eapply ms_echo_unregister|]. eapply rtc_l; [apply (ms_echo_cancel l)|].
  eapply rtc_l; [|apply rtc_refl]. by apply (ms_release d _ (d :: ds)).
Qed.

Lemma CreateEchoSession_call cfg rd m ds n :
  echo_cfg_ok cfg -> reads_ok rd ->
  call_ok ds n m (let '(r, m) := CreateEchoSession cfg rd m in (go_void r, m)).
Proof.
  intros Hc Hrd. unfold call_ok, CreateEchoSession.
  destruct (Addr_IsValid (ec_PeerAddr cfg)); cbn [negb]; [|apply rtc_refl].
  destruct (Allocate rd (m_discriminators m)) as [[d|e|] a] eqn:Ha; cbn.
  - apply Allocate_Ok in Ha as Hd. destruct Hd as (-> & _ & Hn & Hu). specialize (Hu Hrd).
    pose proof (NewEchoSession_cases cfg d true Hc Hu) as Hcs.
    destruct (NewEchoSession cfg d true) as [es|e|] eqn:He; [| |done]; unfold steps;
      (eapply rtc_l; [by apply (ms_allocate rd d)|]).
    + eapply rtc_l; [|apply rtc_refl].
      by apply (ms_echo_register cfg d es (set_discriminators _ m) (d :: ds)).
    + eapply rtc_l; [|apply rtc_refl]. by apply (ms_release d (set_discriminators _ m) (d :: ds)).
  - apply Allocate_Err in Ha as ->. rewrite set_discriminators_id. apply rtc_refl.
  - by apply Allocate_no_panic in Ha.
Qed.

Lemma NewMicroBFDGroup_no_panic cfg : NewMicroBFDGroup cfg <> Panic.
Proof.
  assert (Hl : forall l seen, check_links l seen <> Panic).
  { induction l as [|x l IH]; intros seen; cbn; repeat case_match; try done; apply IH. }
  unfold NewMicroBFDGroup, validateMicroBFDConfig. specialize (Hl (mc_MemberLinks cfg) ∅).
  case_match; [done|]. destruct (check_links _ _); cbn; [|done..]. by case_match.
Qed.

Lemma CreateMicroBFDGroup_call cfg m ds n : call_ok ds n m (CreateMicroBFDGroup cfg m).
Proof.
  assert (H : (CreateMicroBFDGroup cfg m).1 <> Panic).
  { unfold CreateMicroBFDGroup. pose proof (NewMicroBFDGroup_no_panic cfg). by repeat case_match. }
  pose proof (ms_micro_create cfg m ds n) as Hs. unfold call_ok.
  destruct (CreateMicroBFDGroup cfg m) as [[| |] m']; [..|done]; by apply rtc_once.
Qed.

Lemma DestroyMicroBFDGroup_call lag m ds n : call_ok ds n m (DestroyMicroBFDGroup lag m).
Proof.
  pose proof (ms_micro_destroy lag m ds n) as Hs. unfold call_ok. revert Hs. unfold DestroyMicroBFDGroup.
  case_match; apply rtc_once.
Qed.

(** ** The three reconciliations *)

Lemma ReconcileSessions_steps desired inp ordk ordc ordd m ds n :
  (forall l, ordd l ≡ₚ l) -> mgr_inv (mkWorld m ds n) -> (forall ks, input_ok (inp ks)) ->
  (forall rc, rc ∈ desired -> cfg_ok (rc_SessionConfig rc)) ->
  exists c d errs m', ReconcileSessions desired inp ordk ordc ordd m = Some (c, d, errs, m') /\ steps ds n m m'.
Proof.
  intros Hod I Hinp Hcfg. apply reconcile_steps; [done|done|by intros; apply DestroySession_call|].
  intros k rc m0 Hk _. apply CreateSession_call; [|done]. apply Hcfg. by apply desired_map_lookup in Hk as [? _].
Qed.

Lemma ReconcileEchoSessions_steps desired inp ordk ordc ordd m ds n :
  (forall l, ordd l ≡ₚ l) -> mgr_inv (mkWorld m ds n) -> (forall ks, reads_ok (inp ks)) ->
  (forall rc, rc ∈ desired -> echo_cfg_ok (erc_EchoSessionConfig rc)) ->
  exists c d errs m', ReconcileEchoSessions desired inp ordk ordc ordd m = Some (c, d, errs, m') /\ steps ds n m m'.
Proof.
  intros Hod I Hinp Hcfg. apply reconcile_steps; [done|done|by intros; apply DestroyEchoSession_call|].
  intros k rc m0 Hk _. apply CreateEchoSession_call; [|done]. apply Hcfg. by apply desired_map_lookup in Hk as [? _].
Qed.

Lemma ReconcileMicroBFDGroups_steps desired ordc ordd m ds n :
  (forall l, ordd l ≡ₚ l) -> mgr_inv (mkWorld m ds n) ->
  exists c d errs m', ReconcileMicroBFDGroups desired ordc ordd m = Some (c, d, errs, m') /\ steps ds n m m'.
Proof.
  intros Hod I. apply reconcile_steps; [done|done|by intros; apply DestroyMicroBFDGroup_call|].
  intros k rc m0 _ _. apply CreateMicroBFDGroup_call.
Qed.

(** ** Senders *)

Lemma AllocatePort_cases off a :
  ports_ok a ->
  match AllocatePort off a with
  | (Ok p, a') => p ∉ sp_inUse a /\ in_range p /\ a' = {| a with sp_inUse := {[p]} ∪ sp_inUse a |} /\ ports_ok a'
  | (Err _, a') => a' = a
  | (Panic, _) => False
  end.
Proof.
  intros [Hs Hr]. unfold AllocatePort. destruct (sp_portSpan a <=? _); [done|]. destruct off as [off|]; [|done].
  destruct (probe_spec (Z.to_nat (sp_portSpan a)) 0 off a Hs) as [(j & _ & Hf & _ & E)|[_ E]];
    rewrite E; [|done].
  assert (Hin : in_range (sourcePortMin + (off + j) mod 16384)).
  { pose proof (Z.mod_pos_bound (off + j) 16384). unfold in_range, sourcePortMin, sourcePortMax. lia. }
  split_and!; [done|done|done|]. split; [done|]. cbn.
  intros q [->%elem_of_singleton|Hq]%elem_of_union; auto.
Qed.

Lemma NewUDPSender_no_panic sys buffer localAddr srcPort multiHop opts :
  NewUDPSender sys buffer localAddr srcPort multiHop opts <> Panic.
Proof.
  assert (Hset : forall opts, set_options sys opts <> Panic).
  { induction opts0 as [|o l IH]; cbn; [done|]. by case_match. }
  unfold NewUDPSender, open_socket. set (s := fold_left _ _ _). clearbody s.
  specialize (Hset (setSenderSockOpts (is_ipv6 localAddr) (us_dfBit s) (us_bindDevice s))).
  destruct (set_options _ _); cbn; [|done..]. destruct (sys_bind sys); cbn; [|done]. by destruct (_ && _).
Qed.

(** Every port of the factory is in the range, and every sender has its port. *)
Definition factory_ok (f : udpSenderFactory) : Prop :=
  ports_ok (sf_portAlloc f) /\ forall p, is_Some (sf_senders f !! p) -> p ∈ sp_inUse (sf_portAlloc f).

Lemma ReleasePort_undo p a : p ∉ sp_inUse a -> ReleasePort p {| a with sp_inUse := {[p]} ∪ sp_inUse a |} = a.
Proof. destruct a as [u span]. unfold ReleasePort. cbn. intros. f_equal. set_solver. Qed.

(** A sender takes a port that no other sender has; on an error the factory is
    unchanged. *)
Lemma createSender_cases env localAddr multiHop opts f :
  factory_ok f ->
  match createSenderForSession env localAddr multiHop opts f with
  | (Ok s, f') => factory_ok f' /\ exists p, p ∉ sp_inUse (sf_portAlloc f) /\ in_range p /\
                    sf_senders f' = <[p := s]> (sf_senders f) /\
                    sp_inUse (sf_portAlloc f') = {[p]} ∪ sp_inUse (sf_portAlloc f)
  | (Err _, f') => f' = f
  | (Panic, _) => False
  end.
Proof.
  intros [Hp Hs]. unfold createSenderForSession.
  pose proof (AllocatePort_cases (sv_offset env) _ Hp) as Ha. destruct f as [al snd]. cbn [sf_portAlloc sf_senders] in *.
  destruct (AllocatePort _ al) as [[p|e|] a]; [|by subst|done].
  destruct Ha as (Hn & Hr & -> & Hok).
  pose proof (NewUDPSender_no_panic (sv_sys env) (sv_buffer env) localAddr p multiHop opts) as Hnp.
  destruct (NewUDPSender _ _ _ _ _ _) as [s|e|]; [| |done].
  - split; [|by exists p]. split; [done|]. cbn [sf_senders sf_portAlloc sp_inUse]. intros q Hq.
    apply elem_of_union. destruct (decide (q = p)) as [->|Hne]; [left; by apply elem_of_singleton|right].
    rewrite lookup_insert_ne in Hq by done. by apply Hs.
  - by rewrite ReleasePort_undo.
Qed.

(** What a loop over entries needs of its body. *)
Lemma collect_ok {A B} (P : B -> Prop) (f : nat -> A -> udpSenderFactory -> option (option B * udpSenderFactory))
    i l sf :
  (forall i x sf, x ∈ l -> factory_ok sf -> exists ob sf', f i x sf = Some (ob, sf') /\ factory_ok sf' /\
     (forall b, ob = Some b -> P b)) ->
  factory_ok sf ->
  exists bs sf', collect f i l sf = Some (bs, sf') /\ factory_ok sf' /\ Forall P bs.
Proof.
  revert i sf. induction l as [|x l IH]; intros i sf Hf Hsf; cbn [collect]; [by exists [], sf|].
  destruct (Hf i x sf ltac:(left) Hsf) as (ob & sf1 & -> & Hsf1 & Hb). cbn [mbind option_bind].
  destruct (IH (S i) sf1) as (bs & sf2 & -> & Hsf2 & Hbs); [|done|].
  { intros j y sf' Hy. apply Hf. by right. }
  cbn [mbind option_bind]. eexists _, sf2. split; [reflexivity|]. split; [done|].
  destruct ob; [|done]. constructor; auto.
Qed.

Lemma with_sender_ok {B} (P : B -> Prop) (b : B) env localAddr multiHop opts sf :
  factory_ok sf -> P b ->
  exists ob sf', with_sender b (createSenderForSession env localAddr multiHop opts sf) = Some (ob, sf') /\
    factory_ok sf' /\ (forall b', ob = Some b' -> P b').
Proof.
  intros Hsf Hb. pose proof (createSender_cases env localAddr multiHop opts sf Hsf) as H.
  destruct (createSenderForSession _ _ _ _ _) as [[s|e|] sf']; [| |done]; cbn; do 2 eexists;
    (split; [reflexivity|]).
  - split; [apply H|]. by intros ? [= <-].
  - subst. done.
Qed.

(** ** Conversions *)

Lemma wrap_Ok {E F A} (f : E -> F) (r : go E A) a : wrap f r = Ok a <-> r = Ok a.
Proof. destruct r; cbn; naive_solver. Qed.

Lemma wrap_Panic {E F A} (f : E -> F) (r : go E A) : wrap f r = Panic <-> r = Panic.
Proof. by destruct r. Qed.

(** An authentication setting the engine can work with. *)
Definition auth_ok (auth : option Authenticator) (keys : option AuthKeyStore) : Prop :=
  match auth, keys with
  | None, None => True
  | Some a, Some ks =>
      validateAuthKey (CurrentKey ks) = Ok tt /\ is_u8 (key_ID (CurrentKey ks)) /\
      key_Type (CurrentKey ks) = authenticatorType a /\ forall id, LookupKey ks id <> Panic
  | _, _ => False
  end.

Lemma bytes_of_length s : zlen (bytes_of s) = Z.of_nat (String.length s).
Proof.
  unfold zlen, bytes_of, chars_of. rewrite length_fmap. f_equal. induction s; cbn; [done|]. by f_equal.
Qed.

(** The five authentication types by name, with the bound of their secrets. *)
Definition auth_names : list (string * Z * Z) :=
  [("simple_password", AuthTypeSimplePassword, 16); ("keyed_md5", AuthTypeKeyedMD5, 16);
   ("meticulous_keyed_md5", AuthTypeMeticulousKeyedMD5, 16); ("keyed_sha1", AuthTypeKeyedSHA1, 20);
   ("meticulous_keyed_sha1", AuthTypeMeticulousKeyedSHA1, 20)]%string.

Lemma auth_name_cases name :
  (exists t n, (name, t, n) ∈ auth_names) \/
  (configAuthTypeToBFD name = Err (ErrDaemonConfig ErrInvalidSessionAuthType) /\
   forall t n, (name, t, n) ∉ auth_names).
Proof.
  unfold configAuthTypeToBFD, auth_names.
  repeat (case_bool_decide; [left; subst; do 2 eexists; apply list_elem_of_In; cbn; eauto 10|]).
  right. split; [done|]. set_solver.
Qed.

(** Evaluate the closed tests of a goal. *)
Ltac eval_closed :=
  repeat match goal with
  | |- context [bool_decide (?a = ?b)] =>
      let v := eval vm_compute in (bool_decide (a = b)) in
      match v with true => idtac | false => idtac end; change (bool_decide (a = b)) with v
  | |- context [one_of ?a ?l] =>
      let v := eval vm_compute in (one_of a l) in
      match v with true => idtac | false => idtac end; change (one_of a l) with v
  | |- context [configAuthTypeToBFD ?a] =>
      let v := eval vm_compute in (configAuthTypeToBFD a) in change (configAuthTypeToBFD a) with v
  | |- context [NewAuthenticator ?a] =>
      let v := eval vm_compute in (NewAuthenticator a) in change (NewAuthenticator a) with v
  end; cbn [orb negb mbind go_bind wrap guard_err].

(** The key of a converted authentication. *)
Lemma key_store_cases id t secret n :
  (exists name, (name, t, n) ∈ auth_names) ->
  match NewStaticAuthKeyStore (mkAuthKey id t secret) [] with
  | Ok ks => 1 <= zlen secret <= n /\ CurrentKey (static_key_store ks) = mkAuthKey id t secret /\
             validateAuthKey (mkAuthKey id t secret) = Ok tt /\
             forall i, LookupKey (static_key_store ks) i <> Panic
  | Err _ => ~ 1 <= zlen secret <= n
  | Panic => False
  end.
Proof.
  intros [name Hin]. apply list_elem_of_In in Hin. cbn in Hin. unfold NewStaticAuthKeyStore, validateAuthKey.
  assert (Hlk : forall ks i, StaticAuthKeyStore_LookupKey ks i <> Panic).
  { intros ks i. unfold StaticAuthKeyStore_LookupKey. by case_match. }
  repeat (destruct Hin as [[= <- <- <-]|Hin]); [..|done]; cbn -[zlen];
    (destruct (_ || _) eqn:E; cbn -[zlen];
     [apply orb_true_iff in E as [E|E]; bools; lia|apply orb_false_iff in E as [? ?]; bools; split_and!; done || lia]).
Qed.

(** Validation and conversion of the authentication agree. *)
Lemma auth_agree ac t n :
  0 <= ac_KeyID ac -> (TrimSpace (ac_Type ac), t, n) ∈ auth_names ->
  (validateSessionAuth ac = Ok tt <->
   ac_KeyID ac <= 255 /\ 1 <= Z.of_nat (String.length (ac_Secret ac)) <= n) /\
  match configAuthToBFD ac with
  | Ok (auth, keys) => auth_ok auth keys
  | Err _ => ~ (ac_KeyID ac <= 255 /\ 1 <= Z.of_nat (String.length (ac_Secret ac)) <= n)
  | Panic => False
  end.
Proof.
  intros Hid Hin.
  assert (Hv : validateSessionAuth ac = Ok tt <->
    ac_KeyID ac <= 255 /\ 1 <= Z.of_nat (String.length (ac_Secret ac)) <= n).
  { unfold validateSessionAuth. clear -Hin. revert Hin. generalize (TrimSpace (ac_Type ac)). intros name Hin.
    apply list_elem_of_In in Hin. cbn in Hin.
    repeat (destruct Hin as [[= <- <- <-]|Hin]); [..|done]; eval_closed;
      rewrite ?guard_bind_Ok, guard_err_Ok, orb_false_iff, ?Z.ltb_ge; lia. }
  split; [done|]. unfold configAuthToBFD.
  pose proof (key_store_cases (u8 (ac_KeyID ac)) t (bytes_of (ac_Secret ac)) n ltac:(by eexists)) as Hk.
  rewrite bytes_of_length in Hk. clear Hv. revert Hin Hk. generalize (TrimSpace (ac_Type ac)). intros name Hin Hk.
  apply list_elem_of_In in Hin. cbn in Hin.
  repeat (destruct Hin as [[= <- <- <-]|Hin]); [..|done]; eval_closed;
    (destruct (255 <? ac_KeyID ac) eqn:Ei; bools; [lia|]); eval_closed;
    (destruct (NewStaticAuthKeyStore _ _) as [ks|e|]; cbn [wrap mbind go_bind]; [|lia|done]);
    destruct Hk as (Hl & Hc & Hva & Hlk); cbn [auth_ok];
    rewrite Hc; split_and!; try done; lia || (unfold is_u8, u8; cbn [key_ID]; apply Z.mod_pos_bound; lia).
Qed.

Lemma configAuth_cases ac :
  0 <= ac_KeyID ac ->
  match configAuthToBFD ac with
  | Ok (auth, keys) => auth_ok auth keys
  | Err _ => validateSessionAuth ac <> Ok tt
  | Panic => False
  end.
Proof.
  intros Hid. destruct (auth_name_cases (TrimSpace (ac_Type ac))) as [(t & n & Hin)|[He Hn]].
  { destruct (auth_agree ac t n Hid Hin) as [Hv Hc]. destruct (configAuthToBFD ac) as [[]|e|]; [done| |done].
    by rewrite Hv. }
  unfold configAuthToBFD, validateSessionAuth.
  destruct (_ || _) eqn:E; [done|]. rewrite He. cbn [mbind go_bind].
  apply orb_false_iff in E as [E1 E2]. bools. rewrite guard_bind_Ok. intros [Ho _].
  apply negb_false_iff, bool_decide_eq_true in Ho. unfold auth_names in Hn.
  apply list_elem_of_In in Ho. cbn in Ho.
  repeat (destruct Ho as [Ho|Ho]; [try congruence; rewrite <- Ho in Hn; eapply Hn, list_elem_of_In; cbn; eauto 10|]).
  done.
Qed.

Lemma parse_addr_cases s :
  match parse_addr s with Ok a => ParseAddr s = Some a | Err _ => ParseAddr s = None | Panic => False end.
Proof. unfold parse_addr. by destruct (ParseAddr s). Qed.

Lemma local_addr_cases s :
  match local_addr s with
  | Ok a => s = ""%string /\ a = InvalidAddr \/ ParseAddr s = Some a
  | Err _ => s <> ""%string /\ ParseAddr s = None
  | Panic => False
  end.
Proof.
  unfold local_addr. case_bool_decide; [by left|].
  pose proof (parse_addr_cases s) as Hp. destruct (parse_addr s); [by right|done|done].
Qed.

Lemma peer_addr_cases e s :
  match peer_addr e s with
  | Ok a => ParseAddr s = Some a
  | Err _ => ParseAddr s = None
  | Panic => False
  end.
Proof.
  unfold peer_addr. case_bool_decide as Hs; [by subst|]. apply parse_addr_cases.
Qed.

(** The values an entry stands for. *)
Definition entry_tx (bfd : BFDConfig) (sc : Config.SessionConfig) : Z :=
  or_default (sess_DesiredMinTx sc) (bc_DefaultDesiredMinTx bfd).
Definition entry_rx (bfd : BFDConfig) (sc : Config.SessionConfig) : Z :=
  or_default (sess_RequiredMinRx sc) (bc_DefaultRequiredMinRx bfd).
Definition entry_mult (bfd : BFDConfig) (sc : Config.SessionConfig) : Z :=
  or_default (sess_DetectMult sc) (bc_DefaultDetectMultiplier bfd).
Definition entry_padding (bfd : BFDConfig) (sc : Config.SessionConfig) : Z :=
  or_default (sess_PaddedPduSize sc) (bc_DefaultPaddedPduSize bfd).
Definition entry_align (bfd : BFDConfig) (d : Z) : Z :=
  if bc_AlignIntervals bfd then AlignToCommonInterval d else d.

(** A session entry whose fields have the widths of their Go types. *)
Definition entry_widths (bfd : BFDConfig) (sc : Config.SessionConfig) : Prop :=
  is_u32 (ac_KeyID (sess_Auth sc)) /\ is_u32 (sess_DetectMult sc) /\ is_u32 (bc_DefaultDetectMultiplier bfd) /\
  is_u16 (sess_PaddedPduSize sc) /\ is_u16 (bc_DefaultPaddedPduSize bfd).

(** What the conversion makes of an entry. *)
Record converted (bfd : BFDConfig) (sc : Config.SessionConfig) (c : SessionConfig) : Prop := {
  cv_ok : cfg_ok c;
  cv_auth : auth_ok (cfg_Auth c) (cfg_AuthKeys c);
  cv_peer : ParseAddr (sess_Peer sc) = Some (cfg_PeerAddr c);
  cv_local : local_addr (sess_Local sc) = Ok (cfg_LocalAddr c);
  cv_interface : cfg_Interface c = sess_Interface sc;
  cv_type : cfg_Type c = configSessionTypeToBFD (sess_Type sc);
  cv_role : cfg_Role c = RoleActive;
  cv_tx : cfg_DesiredMinTxInterval c = entry_align bfd (entry_tx bfd sc);
  cv_rx : cfg_RequiredMinRxInterval c = entry_align bfd (entry_rx bfd sc);
  cv_mult : cfg_DetectMultiplier c = entry_mult bfd sc /\ entry_mult bfd sc <= 255;
  cv_padding : cfg_PaddedPduSize c = entry_padding bfd sc;
}.

Lemma or_default_u16 v d : is_u16 v -> is_u16 d -> is_u16 (or_default v d).
Proof. unfold or_default. by case_match. Qed.

Lemma configSession_cases bfd sc :
  entry_widths bfd sc ->
  match configSessionToBFD sc bfd with
  | Ok c => converted bfd sc c
  | Err _ => ParseAddr (sess_Peer sc) = None \/ (sess_Local sc <> ""%string /\ ParseAddr (sess_Local sc) = None) \/
             255 < entry_mult bfd sc \/ validateSessionAuth (sess_Auth sc) <> Ok tt
  | Panic => False
  end.
Proof.
  intros (Hid & Hm & Hdm & Hp & Hdp). unfold configSessionToBFD.
  pose proof (peer_addr_cases ErrInvalidSessionPeer (sess_Peer sc)) as Hpeer.
  pose proof (local_addr_cases (sess_Local sc)) as Hloc.
  unfold SessionConfig_PeerAddr, SessionConfig_LocalAddr.
  destruct (peer_addr _ _) as [peer|e|] eqn:Epeer; cbn [wrap mbind go_bind]; [|by left|done].
  destruct (local_addr _) as [loc|e|] eqn:Eloc; cbn [wrap mbind go_bind]; [|by right; left|done].
  fold (entry_mult bfd sc). destruct (255 <? entry_mult bfd sc) eqn:Em; bools; [by right; right; left|].
  pose proof (configAuth_cases (sess_Auth sc) ltac:(apply Hid)) as Ha.
  destruct (configAuthToBFD (sess_Auth sc)) as [[auth keys]|e|]; cbn [mbind go_bind]; [|by right; right; right|done].
  assert (Hmult : 0 <= entry_mult bfd sc) by (unfold entry_mult, or_default; case_match; [apply Hdm|apply Hm]).
  assert (Hu8 : u8 (entry_mult bfd sc) = entry_mult bfd sc) by (unfold u8; apply Z.mod_small; lia).
  rewrite Hu8. constructor; try done; cbn.
  split_and!; [unfold is_u8; cbn; lia|by apply or_default_u16|]. cbn.
  destruct auth, keys; try done. by destruct Ha as (? & ? & _ & ?).
Qed.

(** ** Validated configurations *)

Lemma Validate_session cfg sc :
  Validate cfg = Ok tt -> sc ∈ c_Sessions cfg ->
  is_Some (ParseAddr (sess_Peer sc)) /\ validateSessionAuth (sess_Auth sc) = Ok tt /\
  1 <= bc_DefaultDetectMultiplier (c_BFD cfg).
Proof.
  unfold Validate. rewrite !guard_bind_Ok, !unit_bind_Ok.
  intros (_ & Hm & _ & _ & _ & Hs & _) Hin. apply Z.ltb_ge in Hm.
  apply validateSessions_Ok in Hs as [Hs _]. specialize (Hs sc Hin). unfold validate_session in Hs.
  rewrite unit_bind_Ok, !guard_bind_Ok in Hs. destruct Hs as (Hp & _ & _ & Ha).
  split; [|done]. unfold SessionConfig_PeerAddr in Hp.
  pose proof (peer_addr_cases ErrInvalidSessionPeer (sess_Peer sc)) as Hc.
  destruct (peer_addr _ _); [by eexists|done|done].
Qed.

Lemma Validate_keys cfg : Validate cfg = Ok tt -> NoDup (SessionKey <$> c_Sessions cfg).
Proof.
  unfold Validate. rewrite !guard_bind_Ok, !unit_bind_Ok. intros (_ & _ & _ & _ & _ & Hs & _).
  by apply validateSessions_Ok in Hs as [_ Hs].
Qed.

Lemma align_in_range bfd d : 0 < entry_align bfd d <= MaxWireInterval <-> 0 < d <= MaxWireInterval.
Proof.
  unfold entry_align. destruct (bc_AlignIntervals bfd); [|done].
  destruct (align_is_least_common_interval d) as (H1 & H2 & _).
  destruct (decide (0 < d <= 1000000000)) as [Hd|Hd]; [|by rewrite H2].
  destruct (H1 Hd) as (_ & Hle & Hmin). specialize (Hmin 1000000000 eq_refl ltac:(lia)).
  unfold MaxWireInterval, Microsecond. lia.
Qed.

(** What an entry needs beyond validation. *)
Definition entry_bounds (bfd : BFDConfig) (sc : Config.SessionConfig) : Prop :=
  (sess_Local sc = ""%string \/ is_Some (ParseAddr (sess_Local sc))) /\
  0 < entry_tx bfd sc <= MaxWireInterval /\ 0 < entry_rx bfd sc <= MaxWireInterval /\
  entry_mult bfd sc <= 255 /\
  (entry_padding bfd sc = 0 \/ HeaderSize <= entry_padding bfd sc <= MaxPaddedPduSize).

Lemma validateSessionConfig_converted bfd sc c d :
  converted bfd sc c -> d <> 0 ->
  validateSessionConfig c d = Ok tt <->
  1 <= entry_mult bfd sc /\ 0 < entry_tx bfd sc <= MaxWireInterval /\ 0 < entry_rx bfd sc <= MaxWireInterval /\
  (entry_padding bfd sc = 0 \/ HeaderSize <= entry_padding bfd sc <= MaxPaddedPduSize).
Proof.
  intros [_ Ha _ _ _ Ht Hr Htx Hrx [Hm _] Hp] Hd. unfold validateSessionConfig, validateSessionAuthConfig.
  rewrite <- (align_in_range bfd (entry_tx bfd sc)), <- (align_in_range bfd (entry_rx bfd sc)).
  rewrite Htx, Hrx, Hm, Hp, Ht, Hr. unfold configSessionTypeToBFD.
  rewrite (proj2 (Z.eqb_neq d 0)) by done.
  replace (isValidSessionType _) with true by by case_bool_decide.
  cbn [negb andb RoleActive Z.eqb Pos.eqb].
  assert (Hauth : match cfg_Auth c with
    | Some a => match cfg_AuthKeys c with
        | Some keys => if negb (key_Type (CurrentKey keys) =? authenticatorType a)
                       then Err (ErrSessionAuth ErrAuthKeyTypeMismatch) else Ok tt
        | None => Err ErrMissingAuthKeyStore end
    | None => Ok tt end = Ok tt :> go session_error unit).
  { unfold auth_ok in Ha. destruct (cfg_Auth c), (cfg_AuthKeys c); try done.
    destruct Ha as (_ & _ & -> & _). by rewrite Z.eqb_refl. }
  rewrite Hauth. set (tx := entry_align _ _). set (rx := entry_align _ _). set (pad := entry_padding _ _).
  split.
  - destruct (_ <? 1) eqn:E1; [done|]. destruct (tx <=? 0) eqn:E2; [done|]. destruct (rx <=? 0) eqn:E3; [done|].
    destruct (_ <? tx) eqn:E4; [done|]. destruct (_ <? rx) eqn:E5; [done|].
    destruct (_ && _) eqn:E6; [done|]. intros _. apply andb_false_iff in E6 as [E6|E6]; bools; lia.
  - intros (H1 & H2 & H3 & H4).
    rewrite (proj2 (Z.ltb_ge _ 1)), (proj2 (Z.leb_gt tx 0)), (proj2 (Z.leb_gt rx 0)),
      (proj2 (Z.ltb_ge _ tx)), (proj2 (Z.ltb_ge _ rx)) by lia.
    destruct (pad =? 0) eqn:Ep; cbn [negb andb]; bools; [done|].
    by rewrite (proj2 (Z.ltb_ge pad _)), (proj2 (Z.ltb_ge _ pad)) by lia.
Qed.


(** ** Reload *)

(** A configuration whose fields have the widths of their Go types, with echo
    intervals below 2^55 nanoseconds, so that a detection time does not overflow. *)
Record config_ok (cfg : Config) : Prop := {
  cw_sessions : forall sc, sc ∈ c_Sessions cfg -> entry_widths (c_BFD cfg) sc;
  cw_echo : forall ep, ep ∈ echo_Peers (c_Echo cfg) ->
    or_default (ep_TxInterval ep) (echo_DefaultTxInterval (c_Echo cfg)) < 2 ^ 55;
}.

Definition session_input_ok (inp : SessionInput) : Prop :=
  (forall ks, input_ok (si_create inp ks)) /\ (forall l, si_ordk inp l ≡ₚ l) /\
  (forall l, si_ordc inp l ≡ₚ l) /\ (forall l, si_ordd inp l ≡ₚ l).

Definition reload_input_ok (inp : ReloadInput) : Prop :=
  session_input_ok (ri_sessions inp) /\
  ((forall ks, reads_ok (ei_reads (ri_echo inp) ks)) /\ forall l, ei_ordd (ri_echo inp) l ≡ₚ l) /\
  ((forall l, mi_ordd (ri_micro inp) l ≡ₚ l) /\ session_input_ok (mi_sessions (ri_micro inp))) /\
  (forall t, session_input_ok (ri_overlay inp t)).

(** A stage of the reload: it ends, by steps of the manager, with ports in order. *)
Definition stage_ok (ds : list Z) (n : nat) (d : DaemonState) (r : option DaemonState) : Prop :=
  exists d', r = Some d' /\ steps ds n (d_mgr d) (d_mgr d') /\ factory_ok (d_sf d').

Lemma run_reconcile_steps desired inp m ds n :
  session_input_ok inp -> mgr_inv (mkWorld m ds n) ->
  Forall (fun rc => cfg_ok (rc_SessionConfig rc)) desired ->
  exists m', run_reconcile desired inp m = Some m' /\ steps ds n m m'.
Proof.
  intros (Hi & _ & _ & Hod) I Hd. rewrite Forall_forall in Hd. unfold run_reconcile.
  destruct (ReconcileSessions_steps desired (si_create inp) (si_ordk inp) (si_ordc inp) (si_ordd inp) m ds n
    Hod I Hi Hd) as (c & d & errs & m' & -> & Hs). by exists m'.
Qed.

Lemma desired_session_ok bfd env sc sf :
  entry_widths bfd sc -> factory_ok sf ->
  exists ob sf', desired_session bfd env sc sf = Some (ob, sf') /\ factory_ok sf' /\
    (forall rc, ob = Some rc -> cfg_ok (rc_SessionConfig rc)).
Proof.
  intros Hw Hsf. unfold desired_session. pose proof (configSession_cases bfd sc Hw) as Hc.
  destruct (configSessionToBFD sc bfd) as [c|e|]; [|by exists None, sf|done].
  apply (with_sender_ok (fun rc => cfg_ok (rc_SessionConfig rc))); [done|]. apply Hc.
Qed.

Lemma reconcileSessions_ok cfg inp d ds n :
  config_ok cfg -> session_input_ok inp -> mgr_inv (mkWorld (d_mgr d) ds n) -> factory_ok (d_sf d) ->
  stage_ok ds n d (reconcileSessions cfg inp d).
Proof.
  intros Hcfg Hinp I Hsf. unfold reconcileSessions, stage_ok.
  case_bool_decide; [exists d; split_and!; [done|apply rtc_refl|done..]|].
  destruct (collect_ok (fun rc => cfg_ok (rc_SessionConfig rc))
    (fun i => desired_session (c_BFD cfg) (si_sender inp i)) 0 (c_Sessions cfg) (d_sf d))
    as (desired & sf & -> & Hsf' & Hd); [|done|].
  { intros i sc sf Hin. apply desired_session_ok. by apply (cw_sessions _ Hcfg). }
  cbn [mbind option_bind]. destruct (run_reconcile_steps desired inp (d_mgr d) ds n Hinp I Hd) as (m' & -> & Hs).
  by exists (mkDaemonState m' sf).
Qed.

Lemma configEcho_cases ep echo :
  or_default (ep_TxInterval ep) (echo_DefaultTxInterval echo) < 2 ^ 55 ->
  match configEchoToBFD ep echo with Ok c => echo_cfg_ok c | Err _ => True | Panic => False end.
Proof.
  intros Ht. unfold configEchoToBFD, EchoPeerConfig_PeerAddr, EchoPeerConfig_LocalAddr.
  pose proof (peer_addr_cases ErrInvalidEchoPeer (ep_Peer ep)) as Hp.
  pose proof (local_addr_cases (ep_Local ep)) as Hl.
  destruct (peer_addr _ _); [|done|done]. cbn [wrap mbind go_bind].
  destruct (local_addr _); [|done|done]. cbn [wrap mbind go_bind].
  destruct (255 <? _); [done|]. unfold echo_cfg_ok, u8. cbn [ec_DetectMultiplier ec_TxInterval].
  set (mult := or_default (ep_DetectMult ep) _). pose proof (Z.mod_pos_bound mult (2 ^ 8) ltac:(lia)).
  change (2 ^ 8) with 256 in *. change (2 ^ 55) with 36028797018963968 in *.
  change (2 ^ 63) with 9223372036854775808. nia.
Qed.

Lemma reconcileEchoSessions_ok cfg inp d ds n :
  config_ok cfg -> (forall ks, reads_ok (ei_reads inp ks)) -> (forall l, ei_ordd inp l ≡ₚ l) ->
  mgr_inv (mkWorld (d_mgr d) ds n) -> factory_ok (d_sf d) ->
  stage_ok ds n d (reconcileEchoSessions cfg inp d).
Proof.
  intros Hcfg Hrd Hod I Hsf. unfold reconcileEchoSessions, stage_ok.
  destruct (_ || _); [exists d; split_and!; [done|apply rtc_refl|done..]|].
  destruct (collect_ok (fun rc => echo_cfg_ok (erc_EchoSessionConfig rc))
    (fun i => desired_echo (c_Echo cfg) (ei_sender inp i)) 0 (echo_Peers (c_Echo cfg)) (d_sf d))
    as (desired & sf & -> & Hsf' & Hd); [|done|].
  { intros i ep sf Hin Hok. unfold desired_echo.
    pose proof (configEcho_cases ep (c_Echo cfg) (cw_echo _ Hcfg ep Hin)) as Hc.
    destruct (configEchoToBFD ep (c_Echo cfg)) as [c|e|]; [|by exists None, sf|done].
    by apply (with_sender_ok (fun rc => echo_cfg_ok (erc_EchoSessionConfig rc))). }
  cbn [mbind option_bind]. rewrite Forall_forall in Hd.
  destruct (ReconcileEchoSessions_steps desired (ei_reads inp) (ei_ordk inp) (ei_ordc inp) (ei_ordd inp)
    (d_mgr d) ds n Hod I Hrd Hd) as (c & e & errs & m' & -> & Hs). by exists (mkDaemonState m' sf).
Qed.

(** A session configuration without authentication and padding. *)
Lemma plain_cfg_ok peer loc ifn ty role tx rx mult :
  cfg_ok (mkSessionConfig peer loc ifn ty role tx rx (u8 mult) None None 0).
Proof.
  split_and!; cbn; [|unfold is_u16; lia|done]. unfold is_u8, u8.
  apply Z.mod_pos_bound. lia.
Qed.

Lemma build_members_ok bfd env g groups sf :
  factory_ok sf ->
  exists rcs sf', build_members bfd env g groups sf = Some (rcs, sf') /\ factory_ok sf' /\
    Forall (fun rc => cfg_ok (rc_SessionConfig rc)) rcs.
Proof.
  revert g sf. induction groups as [|group groups IH]; intros g sf Hsf; cbn [build_members]; [by exists [], sf|].
  assert (Hg : exists rcs sf', buildMemberSessions bfd (env g) group sf = Some (rcs, sf') /\ factory_ok sf' /\
    Forall (fun rc => cfg_ok (rc_SessionConfig rc)) rcs).
  { unfold buildMemberSessions. destruct (ParseAddr (mg_PeerAddr group)); [|by exists [], sf].
    destruct (ParseAddr (mg_LocalAddr group)); [|by exists [], sf]. destruct (255 <? _); [by exists [], sf|].
    apply collect_ok; [|done]. intros i member sf' _ Hok.
    apply (with_sender_ok (fun rc => cfg_ok (rc_SessionConfig rc))); [done|apply plain_cfg_ok]. }
  destruct Hg as (rcs & sf1 & -> & Hsf1 & Hr). cbn [mbind option_bind].
  destruct (IH (S g) sf1 Hsf1) as (rcs' & sf2 & -> & Hsf2 & Hr'). cbn [mbind option_bind].
  exists (rcs ++ rcs'), sf2. split; [done|]. split; [done|]. by apply Forall_app.
Qed.

Lemma reconcileMicroBFDGroups_ok cfg inp d ds n :
  (forall l, mi_ordd inp l ≡ₚ l) -> session_input_ok (mi_sessions inp) ->
  mgr_inv (mkWorld (d_mgr d) ds n) -> factory_ok (d_sf d) ->
  stage_ok ds n d (reconcileMicroBFDGroups cfg inp d).
Proof.
  intros Hod Hinp I Hsf. unfold reconcileMicroBFDGroups, stage_ok.
  case_bool_decide; [exists d; split_and!; [done|apply rtc_refl|done..]|].
  unfold reconcileMicroBFDGroupState. set (desired := omap _ _).
  destruct (ReconcileMicroBFDGroups_steps desired (mi_ordc inp) (mi_ordd inp) (d_mgr d) ds n Hod I)
    as (c & e & errs & m1 & -> & Hs). cbn [mbind option_bind].
  unfold reconcileMicroBFDMemberSessions. cbn [d_sf d_mgr].
  destruct (build_members_ok (c_BFD cfg) (mi_sender inp) 0 (micro_Groups (c_MicroBFD cfg)) (d_sf d) Hsf)
    as (rcs & sf & -> & Hsf' & Hr). cbn [mbind option_bind].
  case_bool_decide; [by exists (mkDaemonState m1 sf)|].
  destruct (run_reconcile_steps rcs (mi_sessions inp) m1 ds n Hinp (steps_inv _ _ _ _ Hs I) Hr)
    as (m2 & -> & Hs2). exists (mkDaemonState m2 sf). split; [done|]. split; [by eapply steps_trans|done].
Qed.

Lemma reconcileOverlayTunnel_ok inp tp m ds n :
  session_input_ok inp -> mgr_inv (mkWorld m ds n) ->
  exists m', reconcileOverlayTunnel inp tp m = Some m' /\ steps ds n m m'.
Proof.
  intros Hinp I. unfold reconcileOverlayTunnel. destruct (tp_conn tp); [|exists m; split; [done|apply rtc_refl]].
  apply run_reconcile_steps; [done|done|]. apply Forall_forall. intros rc (e & _ & He)%list_elem_of_omap.
  destruct (buildOverlaySessionConfig _ _ _ _ _ _ _) as [c| |] eqn:Hb; [|done|done]. injection He as <-.
  unfold buildOverlaySessionConfig in Hb.
  apply go_bind_Ok in Hb as (peer & _ & Hb). apply go_bind_Ok in Hb as (loc & _ & Hb).
  destruct (255 <? _); [done|]. injection Hb as <-. apply plain_cfg_ok.
Qed.

Lemma reconcileOverlayTunnels_ok cfg rt inp m ds n :
  (forall t, session_input_ok (inp t)) -> mgr_inv (mkWorld m ds n) ->
  exists m', reconcileOverlayTunnels cfg rt inp m = Some m' /\ steps ds n m m'.
Proof.
  intros Hinp. unfold reconcileOverlayTunnels. generalize (buildOverlayTunnelParams cfg rt). intros tps.
  revert m. induction tps as [|tp tps IH]; intros m I; cbn [fold_left]; [exists m; split; [done|apply rtc_refl]|].
  destruct (reconcileOverlayTunnel_ok (inp (tp_sessType tp)) tp m ds n (Hinp _) I) as (m1 & E & Hs).
  cbn [mbind option_bind]. rewrite E. destruct (IH m1 (steps_inv _ _ _ _ Hs I)) as (m2 & -> & Hs2).
  exists m2. split; [done|by eapply steps_trans].
Qed.

Lemma reloadConfig_ok loaded rt inp d ds n :
  mgr_inv (mkWorld (d_mgr d) ds n) -> factory_ok (d_sf d) -> (forall cfg, loaded = Some cfg -> config_ok cfg) ->
  reload_input_ok inp -> stage_ok ds n d (reloadConfig loaded rt inp d).
Proof.
  intros I Hsf Hcfg Hinp. destruct loaded as [cfg|]; cbn [reloadConfig].
  2: { exists d. split_and!; [done|apply rtc_refl|apply Hsf..]. }
  destruct Hinp as (Hi1 & [Hrd Hed] & [Hmd Hi2] & Hi3). specialize (Hcfg cfg eq_refl). unfold reconcileAllSessions.
  destruct (reconcileSessions_ok cfg (ri_sessions inp) d ds n Hcfg Hi1 I Hsf) as (d1 & -> & S1 & F1).
  pose proof (steps_inv _ _ _ _ S1 I) as I1. cbn [mbind option_bind].
  destruct (reconcileEchoSessions_ok cfg (ri_echo inp) d1 ds n Hcfg Hrd Hed I1 F1) as (d2 & -> & S2 & F2).
  pose proof (steps_inv _ _ _ _ S2 I1) as I2. cbn [mbind option_bind].
  destruct (reconcileMicroBFDGroups_ok cfg (ri_micro inp) d2 ds n Hmd Hi2 I2 F2) as (d3 & -> & S3 & F3).
  pose proof (steps_inv _ _ _ _ S3 I2) as I3. cbn [mbind option_bind].
  destruct (reconcileOverlayTunnels_ok cfg rt (ri_overlay inp) (d_mgr d3) ds n Hi3 I3) as (m4 & -> & S4).
  cbn [mbind option_bind]. eexists. split; [reflexivity|]. cbn [d_mgr d_sf].
  split; [|exact F3]. eauto using steps_trans.
Qed.

Lemma steps_reachable m m' ds n :
  mgr_reachable (mkWorld m ds n) -> steps ds n m m' -> mgr_reachable (mkWorld m' ds n).
Proof. intros (p & hs & ha & Hok & Hr) Hs. exists p, hs, ha. split; [done|]. etransitivity; [exact Hr|exact Hs]. Qed.

(** Start and reload never panic.  From every reachable state, with any
    configuration, valid or not, the reconciliation of sessions, echo sessions,
    Micro-BFD groups and tunnels ends and is a sequence of steps of the manager, so
    that every invariant and property of its reachable states holds afterwards; the
    source ports of all senders stay reserved and within the RFC 5881 range.  A
    configuration that does not load changes nothing. *)
Theorem reload_is_safe (loaded : option Config) (rt : overlayRuntime) (inp : ReloadInput) (d : DaemonState)
    (ds : list Z) (n : nat) (R : mgr_reachable (mkWorld (d_mgr d) ds n)) (Hsf : factory_ok (d_sf d))
    (Hcfg : forall cfg, loaded = Some cfg -> config_ok cfg) (Hinp : reload_input_ok inp) :
  exists d', reloadConfig loaded rt inp d = Some d' /\
    mgr_reachable (mkWorld (d_mgr d') ds n) /\ factory_ok (d_sf d') /\
    rtc mgr_step (mkWorld (d_mgr d) ds n) (mkWorld (d_mgr d') ds n) /\
    (loaded = None -> d' = d).
Proof.
  destruct (reloadConfig_ok loaded rt inp d ds n (mgr_reachable_inv _ R) Hsf Hcfg Hinp) as (d' & E & S & F).
  exists d'. split_and!; [done|by eapply steps_reachable|exact F|exact S|].
  intros ->. cbn in E. congruence.
Qed.

(** ** What a reload arrives at *)

Lemma ParseAddr_valid s a : ParseAddr s = Some a -> a <> InvalidAddr.
Proof.
  assert (H : forall s w, parse_scan s w = Some a -> a <> InvalidAddr).
  { intros l w. induction l as [|c l IH]; cbn; [done|]. unfold parseIPv4, parseIPv6.
    repeat case_match; try done; try (by intros [= <-]); auto.
    all: destruct (body6 _); cbn; [by intros [= <-]|done]. }
  apply H.
Qed.

(** Socket calls that work, and a random source that works. *)
Definition env_works (env : SenderEnv) : Prop :=
  is_Some (sv_offset env) /\ (forall o, sys_setsockopt (sv_sys env) o = true) /\
  sys_bind (sv_sys env) = true /\ sv_buffer env = true.

Lemma NewUDPSender_works env localAddr srcPort multiHop opts :
  env_works env -> exists s, NewUDPSender (sv_sys env) (sv_buffer env) localAddr srcPort multiHop opts = Ok s.
Proof.
  intros (_ & Hset & Hbind & Hbuf). unfold NewUDPSender, open_socket. rewrite Hbind, Hbuf.
  assert (Hs : forall l, set_options (sv_sys env) l = Ok tt).
  { induction l as [|o l IH]; cbn; [done|]. by rewrite Hset. }
  rewrite Hs. cbn [mbind go_bind negb]. rewrite andb_false_r. eauto.
Qed.

Lemma createSender_works env localAddr multiHop opts f :
  env_works env -> factory_ok f -> Z.of_nat (size (sp_inUse (sf_portAlloc f))) < 16384 ->
  exists s f', createSenderForSession env localAddr multiHop opts f = (Ok s, f') /\ factory_ok f' /\
    size (sp_inUse (sf_portAlloc f')) = S (size (sp_inUse (sf_portAlloc f))).
Proof.
  intros Hw Hf Hroom. pose proof (createSender_cases env localAddr multiHop opts f Hf) as Hc.
  destruct (createSenderForSession env localAddr multiHop opts f) as [[s|e|] f'] eqn:E; [| |done].
  - destruct Hc as (Hf' & p & Hp & _ & _ & Hu). exists s, f'. split; [done|]. split; [done|].
    rewrite Hu, size_union, size_singleton by set_solver. done.
  - exfalso. unfold createSenderForSession in E. destruct Hw as ([off Hoff] & Hw). rewrite Hoff in E.
    destruct (AllocatePort_free (sf_portAlloc f) off ltac:(apply Hf) Hroom) as (j & _ & _ & _ & _ & Ha & _).
    rewrite Ha in E.
    destruct (NewUDPSender_works env localAddr (sourcePortMin + (off + j) mod 16384) multiHop opts)
      as [s Hs]; [split; [by eexists|done]|]. by rewrite Hs in E.
Qed.

(** The desired entry of a configured session. *)
Definition entry_rc (bfd : BFDConfig) (sc : Config.SessionConfig) : option ReconcileConfig :=
  match configSessionToBFD sc bfd with Ok c => Some (mkReconcileConfig (SessionKey sc) c) | _ => None end.

Lemma desired_session_works bfd env sc sf :
  entry_widths bfd sc -> env_works env -> factory_ok sf ->
  Z.of_nat (size (sp_inUse (sf_portAlloc sf))) < 16384 ->
  exists sf', desired_session bfd env sc sf = Some (entry_rc bfd sc, sf') /\ factory_ok sf' /\
    size (sp_inUse (sf_portAlloc sf')) =
      (size (sp_inUse (sf_portAlloc sf)) + length (omap (entry_rc bfd) [sc]))%nat.
Proof.
  intros Hw Henv Hsf Hroom. cbn [omap list_omap]. unfold desired_session, entry_rc.
  pose proof (configSession_cases bfd sc Hw) as Hc.
  destruct (configSessionToBFD sc bfd) as [c|e|]; [| |done]; cbv zeta.
  - destruct (createSender_works env (cfg_LocalAddr c) (cfg_Type c =? SessionTypeMultiHop)
      (if 0 <? cfg_PaddedPduSize c then [WithDFBit] else []) sf Henv Hsf Hroom) as (s & f' & -> & Hf' & Hsz).
    exists f'. split; [done|]. split; [done|]. cbn [length]. lia.
  - exists sf. split; [done|]. split; [done|]. cbn [length]. lia.
Qed.

Lemma collect_sessions bfd env i l sf :
  (forall sc, sc ∈ l -> entry_widths bfd sc) -> (forall j, env_works (env j)) -> factory_ok sf ->
  Z.of_nat (size (sp_inUse (sf_portAlloc sf)) + length l) <= 16384 ->
  exists sf', collect (fun i => desired_session bfd (env i)) i l sf = Some (omap (entry_rc bfd) l, sf') /\
    factory_ok sf' /\
    size (sp_inUse (sf_portAlloc sf')) = (size (sp_inUse (sf_portAlloc sf)) + length (omap (entry_rc bfd) l))%nat.
Proof.
  intros Hw Henv. revert i sf. induction l as [|sc l IH]; intros i sf Hsf Hroom.
  { exists sf. split; [done|]. split; [done|]. cbn. lia. }
  assert (Hw' : forall sc, sc ∈ l -> entry_widths bfd sc) by (intros; apply Hw; by right).
  specialize (IH Hw'). cbn [length] in Hroom. cbn [collect].
  destruct (desired_session_works bfd (env i) sc sf (Hw sc ltac:(left)) (Henv i) Hsf ltac:(lia))
    as (sf1 & -> & Hf1 & Hsz1). cbn [mbind option_bind].
  assert (Hone : (length (omap (entry_rc bfd) [sc]) <= 1)%nat) by (cbn; case_match; cbn; lia).
  destruct (IH (S i) sf1 Hf1 ltac:(lia)) as (sf2 & -> & Hf2 & Hsz2). cbn [mbind option_bind].
  exists sf2. change (sc :: l) with ([sc] ++ l). rewrite omap_app, length_app.
  split; [|split; [done|lia]]. cbn. by destruct (entry_rc bfd sc).
Qed.

(** The echo calls leave the sessions alone. *)
Definition same_sessions (m m' : Manager) : Prop :=
  m_sessionsByPeer m' = m_sessionsByPeer m /\ m_entries m' = m_entries m.

Lemma reconcile_loop_frame {A} skip (act : string -> A -> Manager -> go mgr_error unit * Manager) L m c errs m' :
  (forall k a m, same_sessions m (act k a m).2) ->
  reconcile_loop skip act L m = Some (c, errs, m') -> same_sessions m m'.
Proof.
  intros Hact. revert m c errs. induction L as [|[k a] L IH]; intros m c errs; cbn [reconcile_loop].
  { by intros [= <- <- <-]. }
  destruct (skip k); [apply IH|]. pose proof (Hact k a m) as Ha.
  destruct (act k a m) as [[u|e|] m1]; [| |done]; cbn [snd] in Ha;
    intros ([[c' errs'] m2] & Hl & [= <- <- <-])%bind_Some; apply IH in Hl; destruct Ha, Hl; split; congruence.
Qed.

Lemma reconcile_echo_frame desired inp ordk ordc ordd m c e errs m' :
  ReconcileEchoSessions desired inp ordk ordc ordd m = Some (c, e, errs, m') -> same_sessions m m'.
Proof.
  unfold ReconcileEchoSessions, reconcile.
  intros ([[c1 e1] m1] & H1 & ([[c2 e2] m2] & H2 & [= <- <- <- <-])%bind_Some)%bind_Some.
  apply reconcile_loop_frame in H1; [apply reconcile_loop_frame in H2|].
  - destruct H1, H2. split; congruence.
  - intros k a m0. unfold CreateEchoSession. by repeat case_match; simplify_eq/=.
  - intros k a m0. unfold DestroyEchoSession. by case_match.
Qed.

Lemma reconcileEcho_frame cfg inp d d' :
  reconcileEchoSessions cfg inp d = Some d' -> same_sessions (d_mgr d) (d_mgr d').
Proof.
  unfold reconcileEchoSessions. destruct (_ || _); [by intros [= <-]|].
  intros ([desired sf] & _ & ([[[c e] errs] m'] & H & [= <-])%bind_Some)%bind_Some.
  by apply reconcile_echo_frame in H.
Qed.

(** The key under which the manager has the session of an entry. *)
Definition entry_key (sc : Config.SessionConfig) : sessionKey :=
  {| sk_peerAddr := default InvalidAddr (ParseAddr (sess_Peer sc));
     sk_localAddr := default InvalidAddr (ParseAddr (sess_Local sc));
     sk_ifName := sess_Interface sc |}.

(** An entry whose addresses are given, and written as the library prints them. *)
Definition canonical_entry (sc : Config.SessionConfig) : Prop :=
  exists p l, sess_Peer sc = Addr_String p /\ sess_Local sc = Addr_String l /\
    p <> InvalidAddr /\ l <> InvalidAddr /\ plain_addr p /\ plain_addr l.

Lemma canonical_key sc :
  canonical_entry sc -> key_string (entry_key sc) = SessionKey sc /\ plain_key (entry_key sc).
Proof.
  intros (p & l & Hp & Hl & Hpv & Hlv & Hpp & Hlp). unfold entry_key, key_string, SessionKey, plain_key.
  rewrite Hp, Hl, !ParseAddr_String by (done || apply Hpp || apply Hlp). done.
Qed.

Lemma converted_key bfd sc c : converted bfd sc c -> key_of c = entry_key sc.
Proof.
  intros Hc. unfold key_of, entry_key. rewrite (cv_peer _ _ _ Hc), (cv_interface _ _ _ Hc).
  pose proof (local_addr_cases (sess_Local sc)) as Hl. rewrite (cv_local _ _ _ Hc) in Hl.
  destruct Hl as [[-> ->]| ->]; done.
Qed.

(** The outside reasons for a missing session: no draw gives a discriminator beside
    those in [al], or there is no random initial sequence number for its
    authentication. *)
Definition bad_luck (ci : CreateInput) (al : DiscriminatorAllocator) : Prop :=
  (exists e, Allocate (ci_reads ci) al = (Err e, al)) \/ rnd_seq (ci_rnd ci) = None.

Lemma create_failed_luck bfd sc c ci al :
  converted bfd sc c -> entry_bounds bfd sc -> 1 <= entry_mult bfd sc -> input_ok ci ->
  create_failed c ci al -> bad_luck ci al.
Proof.
  intros Hc (_ & Htx & Hrx & _ & Hp) Hm [_ Hrnd] [Hv|[Ha|(d & e & Hu & Hd & Hn)]]; [|by left|right].
  - exfalso. pose proof (ParseAddr_valid _ _ (cv_peer _ _ _ Hc)). by destruct (cfg_PeerAddr c).
  - pose proof (NewSession_cases c d true (ci_rnd ci) (cv_ok _ _ _ Hc) Hrnd Hu) as Hs. rewrite Hn in Hs.
    destruct Hs as [Hs|(_ & _ & Hs)]; [|done].
    assert (Hval : validateSessionConfig c d = Ok tt); [|congruence].
    by apply (validateSessionConfig_converted bfd sc c d Hc Hd).
Qed.

Lemma entry_rc_elem bfd (l : list Config.SessionConfig) rc :
  (forall sc, sc ∈ l -> entry_widths bfd sc) -> rc ∈ omap (entry_rc bfd) l ->
  exists sc, sc ∈ l /\ rc_Key rc = SessionKey sc /\ converted bfd sc (rc_SessionConfig rc).
Proof.
  intros Hw (sc & Hin & Hrc)%list_elem_of_omap. exists sc. split; [done|]. unfold entry_rc in Hrc.
  pose proof (configSession_cases bfd sc (Hw sc Hin)) as Hc.
  destruct (configSessionToBFD sc bfd); [|done|done]. by injection Hrc as <-.
Qed.

(** With distinct keys, every desired entry is the one of its key. *)
Lemma desired_map_NoDup (desired : list ReconcileConfig) rc :
  NoDup (rc_Key <$> desired) -> rc ∈ desired -> desired_map rc_Key desired !! rc_Key rc = Some rc.
Proof.
  intros Hnd Hin.
  assert (Hs : has_key (desired_map rc_Key desired) (rc_Key rc) = true)
    by (apply desired_map_is_Some; by exists rc).
  unfold has_key in Hs. apply bool_decide_eq_true in Hs as [rc' Hrc']. rewrite Hrc'. f_equal.
  apply desired_map_lookup in Hrc' as [Hin' Hk].
  apply list_elem_of_lookup in Hin as [i Hi], Hin' as [j Hj].
  assert (i = j); [|congruence].
  eapply NoDup_lookup; [exact Hnd|rewrite list_lookup_fmap, Hi; done|rewrite list_lookup_fmap, Hj; cbn; by rewrite Hk].
Qed.

Lemma omap_keys_NoDup bfd (l : list Config.SessionConfig) :
  (forall sc, sc ∈ l -> entry_widths bfd sc) -> NoDup (SessionKey <$> l) ->
  NoDup (rc_Key <$> omap (entry_rc bfd) l).
Proof.
  induction l as [|sc l IH]; intros Hw Hnd; [constructor|].
  apply NoDup_cons in Hnd as [Hn Hnd].
  assert (Hw' : forall sc, sc ∈ l -> entry_widths bfd sc) by (intros; apply Hw; by right).
  cbn [omap list_omap]. destruct (entry_rc bfd sc) as [rc|] eqn:E; [|by apply IH].
  cbn [fmap list_fmap]. constructor; [|by apply IH].
  assert (rc_Key rc = SessionKey sc) as ->.
  { unfold entry_rc in E. destruct (configSessionToBFD sc bfd); [|done|done]. by injection E as <-. }
  intros (rc' & Hk & (sc' & Hin & Hkk & _)%entry_rc_elem)%list_elem_of_fmap; [|done].
  apply Hn. rewrite Hk, Hkk. by apply list_elem_of_fmap_2.
Qed.

(** The sessions after the reconciliation of the declarative ones. *)
Record reached (cfg : Config) (inp : SessionInput) (m m' : Manager) : Prop := {
  re_plain : plain_keys m';
  re_only : forall sk, is_Some (LookupByPeer sk m') -> exists sc, sc ∈ c_Sessions cfg /\ entry_key sc = sk;
  re_kept : forall sc l, sc ∈ c_Sessions cfg -> entry_bounds (c_BFD cfg) sc ->
    LookupByPeer (entry_key sc) m = Some l ->
    LookupByPeer (entry_key sc) m' = Some l /\ m_entries m' !! l = m_entries m !! l;
  re_there : forall sc, sc ∈ c_Sessions cfg -> entry_bounds (c_BFD cfg) sc ->
    is_Some (LookupByPeer (entry_key sc) m') \/
    bad_luck (si_create inp (SessionKey sc)) (m_discriminators m');
}.

Lemma reconcile_reached cfg inp m ds n :
  mgr_reachable (mkWorld m ds n) -> plain_keys m -> config_ok cfg -> Validate cfg = Ok tt ->
  (forall sc, sc ∈ c_Sessions cfg -> canonical_entry sc) -> session_input_ok inp ->
  exists m', run_reconcile (omap (entry_rc (c_BFD cfg)) (c_Sessions cfg)) inp m = Some m' /\ reached cfg inp m m'.
Proof.
  intros R Hplain Hcfg Hval Hcan (Hin & Hok & Hoc & Hod). set (desired := omap _ _).
  pose proof (cw_sessions _ Hcfg) as Hw.
  assert (Hel : forall rc, rc ∈ desired -> exists sc, sc ∈ c_Sessions cfg /\ rc_Key rc = SessionKey sc /\
    converted (c_BFD cfg) sc (rc_SessionConfig rc)) by (intros; by apply entry_rc_elem).
  assert (Hrc : Forall rc_ok desired).
  { apply Forall_forall. intros rc (sc & Hs & Hk & Hc)%Hel. split; [apply Hc|].
    rewrite (converted_key _ _ _ Hc), Hk. by apply canonical_key, Hcan. }
  destruct (reconcile_spec (mkWorld m ds n) desired (si_create inp) (si_ordk inp) (si_ordc inp) (si_ordd inp)
    R (plain_keys_distinct _ Hplain) Hrc Hin Hok Hoc Hod)
    as (c & e & errs & m' & E & _ & Hkeep & Honly & _ & Hthere & _ & _ & Hnew). cbn [w_m] in *.
  exists m'. unfold run_reconcile. rewrite E. split; [done|].
  assert (Hpl : forall sk, is_Some (LookupByPeer sk m') -> plain_key sk).
  { intros sk Hsk. destruct (Hnew sk Hsk) as [[l Hl]|(rc & (sc & Hs & _ & Hc)%Hel & ->)]; [by eapply Hplain|].
    rewrite (converted_key _ _ _ Hc). by apply canonical_key, Hcan. }
  assert (Hb : forall sc, sc ∈ c_Sessions cfg -> entry_bounds (c_BFD cfg) sc ->
    exists c, converted (c_BFD cfg) sc c /\ mkReconcileConfig (SessionKey sc) c ∈ desired).
  { intros sc Hs (Hl & _ & _ & Hm & _). destruct (Validate_session cfg sc Hval Hs) as ([p Hp] & Ha & _).
    pose proof (configSession_cases (c_BFD cfg) sc (Hw sc Hs)) as Hc.
    destruct (configSessionToBFD sc (c_BFD cfg)) as [c0|e0|] eqn:Ec; [| |done].
    - exists c0. split; [done|]. apply list_elem_of_omap. exists sc. split; [done|]. unfold entry_rc. by rewrite Ec.
    - exfalso. destruct Hl as [Hl|[? Hl]]; naive_solver lia. }
  constructor.
  - intros sk l Hl. apply Hpl. by exists l.
  - intros sk Hsk. destruct (Honly sk Hsk) as (rc & (sc & Hs & Hk & Hc)%Hel & Hks). exists sc. split; [done|].
    destruct (canonical_key sc (Hcan sc Hs)) as [Hcs Hcp].
    apply key_string_inj; [done|by apply Hpl|]. congruence.
  - intros sc l Hs Hbd Hl. apply Hkeep; [done|]. destruct (Hb sc Hs Hbd) as (c0 & _ & Hd).
    exists (mkReconcileConfig (SessionKey sc) c0). split; [done|]. symmetry. by apply canonical_key, Hcan.
  - intros sc Hs Hbd. destruct (Hb sc Hs Hbd) as (c0 & Hc & Hd).
    pose proof (desired_map_NoDup desired _ (omap_keys_NoDup _ _ Hw (Validate_keys _ Hval)) Hd) as Hmap.
    cbn [rc_Key] in Hmap. destruct (Hthere _ _ Hmap) as [(sk & Hsk & Hks)|Hf].
    + left. destruct (canonical_key sc (Hcan sc Hs)) as [Hcs Hcp].
      replace (entry_key sc) with sk; [done|]. apply key_string_inj; [by apply Hpl|done|congruence].
    + right. eapply create_failed_luck; [exact Hc|exact Hbd| |apply Hin|exact Hf].
      destruct (Validate_session cfg sc Hval Hs) as (_ & _ & Hdm). destruct (Hw sc Hs) as (_ & [? _] & _).
      unfold entry_mult, or_default. case_match; bools; lia.
Qed.

(** C11: reload arrives at the configuration.  Take a validated configuration with
    declarative sessions, whose addresses are written canonically, no Micro-BFD
    groups and no tunnels, running sessions without the separator of keys in a zone, and
    working sockets with free source ports for all configured sessions.  After the
    reload every registered session is a configured one; a configured session within
    the engine's bounds that was running is the same, untouched session; and every
    configured session within the bounds is registered, unless its random source gave no
    free discriminator or no sequence number. *)
Theorem reload_reaches_config (cfg : Config) (rt : overlayRuntime) (inp : ReloadInput) (d : DaemonState)
    (ds : list Z) (n : nat) (R : mgr_reachable (mkWorld (d_mgr d) ds n)) (Hplain : plain_keys (d_mgr d))
    (Hsf : factory_ok (d_sf d)) (Hcfg : config_ok cfg) (Hval : Validate cfg = Ok tt)
    (Hne : c_Sessions cfg <> []) (Hmicro : micro_Groups (c_MicroBFD cfg) = [])
    (Hover : buildOverlayTunnelParams cfg rt = [])
    (Hcan : forall sc, sc ∈ c_Sessions cfg -> canonical_entry sc)
    (Hroom : Z.of_nat (size (sp_inUse (sf_portAlloc (d_sf d))) + length (c_Sessions cfg)) <= 16384)
    (Henv : forall i, env_works (si_sender (ri_sessions inp) i)) (Hinp : reload_input_ok inp) :
  exists d1 d', reconcileSessions cfg (ri_sessions inp) d = Some d1 /\
    reloadConfig (Some cfg) rt inp d = Some d' /\ plain_keys (d_mgr d') /\
    (forall sk, is_Some (LookupByPeer sk (d_mgr d')) -> exists sc, sc ∈ c_Sessions cfg /\ entry_key sc = sk) /\
    (forall sc l, sc ∈ c_Sessions cfg -> entry_bounds (c_BFD cfg) sc ->
       LookupByPeer (entry_key sc) (d_mgr d) = Some l ->
       LookupByPeer (entry_key sc) (d_mgr d') = Some l /\ m_entries (d_mgr d') !! l = m_entries (d_mgr d) !! l) /\
    (forall sc, sc ∈ c_Sessions cfg -> entry_bounds (c_BFD cfg) sc ->
       is_Some (LookupByPeer (entry_key sc) (d_mgr d')) \/
       bad_luck (si_create (ri_sessions inp) (SessionKey sc)) (m_discriminators (d_mgr d1))).
Proof.
  destruct Hinp as (Hi1 & [Hrd Hed] & _ & _). pose proof (mgr_reachable_inv _ R) as I.
  cbn [reloadConfig]. unfold reconcileAllSessions.
  assert (Hrs : exists sf1 m1, reconcileSessions cfg (ri_sessions inp) d = Some (mkDaemonState m1 sf1) /\
    factory_ok sf1 /\ reached cfg (ri_sessions inp) (d_mgr d) m1 /\ steps ds n (d_mgr d) m1).
  { unfold reconcileSessions. rewrite bool_decide_false by done.
    destruct (collect_sessions (c_BFD cfg) (si_sender (ri_sessions inp)) 0 (c_Sessions cfg) (d_sf d)
      (cw_sessions _ Hcfg) Henv Hsf Hroom) as (sf1 & -> & Hsf1 & _). cbn [mbind option_bind].
    destruct (reconcile_reached cfg (ri_sessions inp) (d_mgr d) ds n R Hplain Hcfg Hval Hcan Hi1) as (m1 & E1 & Hr).
    destruct (run_reconcile_steps (omap (entry_rc (c_BFD cfg)) (c_Sessions cfg)) (ri_sessions inp) (d_mgr d) ds n)
      as (m1' & E1' & Hs); [done|done| |].
    { apply Forall_forall. intros rc (sc & _ & _ & Hc)%entry_rc_elem; [apply Hc|apply (cw_sessions _ Hcfg)]. }
    assert (m1' = m1) as -> by congruence. rewrite E1. by exists sf1, m1. }
  destruct Hrs as (sf1 & m1 & E1 & Hsf1 & Hr & Hs1). rewrite E1. cbn [mbind option_bind].
  destruct (reconcileEchoSessions_ok cfg (ri_echo inp) (mkDaemonState m1 sf1) ds n Hcfg Hrd Hed
    (steps_inv _ _ _ _ Hs1 I) Hsf1) as (d2 & E2 & _ & _). rewrite E2. cbn [mbind option_bind].
  apply reconcileEcho_frame in E2. cbn [d_mgr] in E2.
  unfold reconcileMicroBFDGroups. rewrite bool_decide_true by done. cbn [mbind option_bind].
  unfold reconcileOverlayTunnels. rewrite Hover. cbn [fold_left mbind option_bind].
  eexists _, _. split; [reflexivity|]. split; [reflexivity|]. cbn [d_mgr].
  destruct E2 as [E2 E3], Hr. unfold plain_keys, LookupByPeer in *. by rewrite E2, E3.
Qed.

(** ** Examples *)

(** The declarative form of the sample session, with authentication. *)
Definition sample_entry : Config.SessionConfig :=
  {| sess_Peer := "10.0.0.2"; sess_Local := "10.0.0.1"; sess_Interface := "eth1"; sess_Type := "single_hop";
     sess_DesiredMinTx := 300000000; sess_RequiredMinRx := 0; sess_DetectMult := 5; sess_PaddedPduSize := 0;
     sess_Auth := {| ac_Type := "keyed_sha1"; ac_KeyID := 7; ac_Secret := "secret" |} |}.

Definition sample_config : Config := {| DefaultConfig with c_Sessions := [sample_entry] |}.

Definition sample_env : SenderEnv := mkSenderEnv (Some 5) (mkSystem (fun _ => true) true) true.

(** Draws that change: 6, 7, 8 and so on. *)
Definition sample_draws : CreateInput :=
  mkCreateInput (fun k => Some (0, 0, 0, (6 + Z.of_nat k) mod 256)) sample_rnd.

Definition sample_session_input : SessionInput :=
  mkSessionInput (fun _ => sample_env) (fun _ => sample_draws) id id id.

Definition sample_reload_input : ReloadInput :=
  {| ri_sessions := sample_session_input;
     ri_echo := mkEchoInput (fun _ => sample_env) (fun _ => ci_reads sample_draws) id id id;
     ri_micro := mkMicroInput id id (fun _ _ => sample_env) sample_session_input;
     ri_overlay := fun _ => sample_session_input |}.

Definition sample_runtime : overlayRuntime := mkOverlayRuntime None None.

Definition sample_daemon : DaemonState := mkDaemonState sample_manager newUDPSenderFactory.

Lemma sample_draws_ok : input_ok sample_draws.
Proof.
  split; [|apply (sample_input_ok 6); unfold is_byte; lia].
  intros k b0 b1 b2 b3 [= <- <- <- <-]. unfold is_byte.
  pose proof (Z.mod_pos_bound (6 + Z.of_nat k) 256). lia.
Qed.

Lemma sample_session_input_ok : session_input_ok sample_session_input.
Proof. split; [|done]. intros ks. exact sample_draws_ok. Qed.

Lemma sample_reload_input_ok : reload_input_ok sample_reload_input.
Proof.
  assert (H : reads_ok (ci_reads sample_draws)) by apply sample_draws_ok.
  split_and!; try done; try apply sample_session_input_ok.
Qed.

Lemma sample_only sc : sc ∈ c_Sessions sample_config -> sc = sample_entry.
Proof. intros [->|H]%elem_of_cons; [done|by apply elem_of_nil in H]. Qed.

Lemma sample_config_ok : config_ok sample_config.
Proof.
  constructor; [|intros ep; cbn; set_solver].
  intros sc ->%sample_only. vm_compute. repeat split; done.
Qed.

Lemma sample_factory_ok : factory_ok newUDPSenderFactory.
Proof. split; [apply ports_new_ok|]. cbn. intros p [? H]. by rewrite lookup_empty in H. Qed.

Lemma sample_canonical sc : sc ∈ c_Sessions sample_config -> canonical_entry sc.
Proof.
  intros ->%sample_only. exists (IPv4 0x0a000002), (IPv4 0x0a000001). repeat split; done.
Qed.

Lemma sample_bounds : entry_bounds (c_BFD sample_config) sample_entry.
Proof. vm_compute. split; [right; eexists; reflexivity|]. repeat split; try done. by left. Qed.


Lemma reload_is_safe_witness :
  exists d', reloadConfig (Some sample_config) sample_runtime sample_reload_input sample_daemon = Some d' /\
    factory_ok (d_sf d').
Proof.
  destruct (reload_is_safe (Some sample_config) sample_runtime sample_reload_input sample_daemon [] 0)
    as (d' & H1 & _ & H2 & _).
  - exact sample_world_reachable.
  - exact sample_factory_ok.
  - intros cfg [= <-]. exact sample_config_ok.
  - exact sample_reload_input_ok.
  - exists d'. exact (conj H1 H2).
Defined.

Lemma reload_reaches_config_witness :
  exists d', reloadConfig (Some sample_config) sample_runtime sample_reload_input sample_daemon = Some d' /\
    is_Some (LookupByPeer (entry_key sample_entry) (d_mgr d')) /\
    (forall sk, is_Some (LookupByPeer sk (d_mgr d')) -> sk = entry_key sample_entry).
Proof.
  destruct (reload_reaches_config sample_config sample_runtime sample_reload_input sample_daemon [] 0)
    as (d1 & d' & E1 & E & _ & Honly & _ & Hthere).
  - exact sample_world_reachable.
  - exact sample_plain_keys.
  - exact sample_factory_ok.
  - exact sample_config_ok.
  - vm_compute. reflexivity.
  - done.
  - reflexivity.
  - reflexivity.
  - exact sample_canonical.
  - vm_compute. done.
  - intros i. split; [by eexists|done].
  - exact sample_reload_input_ok.
  - exists d'. split; [exact E|]. split.
    + destruct (Hthere sample_entry ltac:(left) sample_bounds) as [H|[[e Hf]|Hf]]; [exact H|exfalso..].
      * assert (Hd : (fun d => m_discriminators (d_mgr d)) <$>
          reconcileSessions sample_config (ri_sessions sample_reload_input) sample_daemon = Some {[6]})
          by (vm_compute; reflexivity).
        rewrite E1 in Hd. injection Hd as Hd. rewrite Hd in Hf. vm_compute in Hf. discriminate Hf.
      * discriminate Hf.
    + intros sk Hsk. destruct (Honly sk Hsk) as (sc & ->%sample_only & <-). reflexivity.
Defined.
