(* ===== verification/DaemonFindings.v ===== *)
(** * Where start and reload differ from what they are meant to do

    Consequences of the model of [cmd/gobfd], each shown on a configuration that
    passes validation or in general. *)

From stdpp Require Import strings relations.
From S2P Require Import Prelude Config Packet Fsm Auth Netip NetipParse Jitter Session SessionInv SessionSteps.
From S2P Require Import SessionProps SessionFrame Intervals Discriminator Micro Unsolicited Echo Manager.
From S2P Require Import ManagerSteps ManagerInv ManagerOps ManagerProps ManagerReconcile Bgp Overlay Transport.
From S2P Require Import Daemon DaemonProps.

Local Open Scope Z_scope.

(** The entry registered under a key after a reload. *)
Definition after (cfg : Config) (rt : overlayRuntime) (d : DaemonState) (sk : sessionKey) : option nat :=
  d' ← reloadConfig (Some cfg) rt sample_reload_input d; LookupByPeer sk (d_mgr d').

(** The same after two reloads. *)
Definition after_two (cfg : Config) (rt : overlayRuntime) (d : DaemonState) (sk : sessionKey) : option nat :=
  d1 ← reloadConfig (Some cfg) rt sample_reload_input d; after cfg rt d1 sk.

Definition empty_daemon : DaemonState := mkDaemonState sample_empty newUDPSenderFactory.

(** ** Tunnels evict the other sessions *)

Definition sample_vxlan_config : VXLANConfig :=
  {| vx_Enabled := true; vx_Backend := "userspace-udp"; vx_ManagementVNI := 7;
     vx_DefaultDesiredMinTx := second; vx_DefaultRequiredMinRx := second; vx_DefaultDetectMultiplier := 3;
     vx_Peers := [{| vp_Peer := "192.0.2.2"; vp_Local := "192.0.2.1"; vp_DesiredMinTx := 0;
                     vp_RequiredMinRx := 0; vp_DetectMult := 0 |}] |}.

Definition tunnel_config : Config := {| sample_config with c_VXLAN := sample_vxlan_config |}.

Definition tunnel_runtime : overlayRuntime := mkOverlayRuntime (Some sample_vxlan) None.

Definition tunnel_key : sessionKey := mkSessionKey (IPv4 0xc0000202) (IPv4 0xc0000201) "".

(** A declarative session next to a tunnel is gone once the tunnel's sessions are
    reconciled, at start already; and the tunnel's session is another one after each
    reload, because its key is never that of a running session. *)
Example tunnel_evicts_sessions :
  Validate tunnel_config = Ok tt /\
  after tunnel_config tunnel_runtime empty_daemon (entry_key sample_entry) = None /\
  after tunnel_config tunnel_runtime empty_daemon tunnel_key = Some 1%nat /\
  after_two tunnel_config tunnel_runtime empty_daemon tunnel_key = Some 3%nat.
Proof. vm_compute. repeat split; reflexivity. Qed.

(** ** Keys that do not match *)

(** Without a local address the configured key is not the manager's: the session is
    replaced on every reload. *)
Example empty_local_flaps :
  let sc := {| sample_entry with sess_Local := "" |} in
  let cfg := {| DefaultConfig with c_Sessions := [sc] |} in
  Validate cfg = Ok tt /\
  after cfg sample_runtime empty_daemon (entry_key sc) = Some 0%nat /\
  after_two cfg sample_runtime empty_daemon (entry_key sc) = Some 1%nat.
Proof. vm_compute. repeat split; reflexivity. Qed.

(** Nor is it for an address that is not written canonically. *)
Example spelling_flaps :
  let sc := {| sample_entry with sess_Peer := "2001:DB8::2"; sess_Local := "2001:db8::1" |} in
  let cfg := {| DefaultConfig with c_Sessions := [sc] |} in
  Validate cfg = Ok tt /\
  after cfg sample_runtime empty_daemon (entry_key sc) = Some 0%nat /\
  after_two cfg sample_runtime empty_daemon (entry_key sc) = Some 1%nat.
Proof. vm_compute. repeat split; reflexivity. Qed.

(** Removing the last declarative session removes no session. *)
Example last_session_stays :
  Validate DefaultConfig = Ok tt /\
  after DefaultConfig sample_runtime sample_daemon (key_of (sample_cfg 3)) = Some 0%nat.
Proof. vm_compute. repeat split; reflexivity. Qed.

(** ** Ports *)

(** A reload of the same configuration takes another port for each session. *)
Example reload_takes_ports :
  (fun d => size (sp_inUse (sf_portAlloc (d_sf d)))) <$>
    (d ← reloadConfig (Some sample_config) sample_runtime sample_reload_input empty_daemon;
     reloadConfig (Some sample_config) sample_runtime sample_reload_input d) = Some 2%nat.
Proof. vm_compute. reflexivity. Qed.

Lemma AllocatePort_full off a : 16384 <= Z.of_nat (size (sp_inUse a)) -> ports_ok a ->
  AllocatePort off a = (Err ErrPortExhausted, a).
Proof. intros Hfull [Hs _]. unfold AllocatePort. by rewrite Hs, (proj2 (Z.leb_le _ _)). Qed.

Lemma collect_full bfd env i l sf :
  (forall sc, sc ∈ l -> entry_widths bfd sc) -> factory_ok sf ->
  16384 <= Z.of_nat (size (sp_inUse (sf_portAlloc sf))) ->
  collect (fun i => desired_session bfd (env i)) i l sf = Some ([], sf).
Proof.
  intros Hw Hsf Hfull. revert i. induction l as [|sc l IH]; intros i; cbn [collect]; [done|].
  assert (E : desired_session bfd (env i) sc sf = Some (None, sf)).
  { unfold desired_session. pose proof (configSession_cases bfd sc (Hw sc ltac:(left))) as Hc.
    destruct (configSessionToBFD sc bfd); [|done|done]. unfold createSenderForSession.
    rewrite AllocatePort_full by (done || apply Hsf). by destruct sf. }
  rewrite E. cbn [mbind option_bind]. rewrite IH; [done|]. intros; apply Hw; by right.
Qed.

(** Once the ports are used up, a reload destroys every session: the sender of a
    session is opened anew although the session is running, and without it the
    session does not count as configured. *)
Lemma exhausted_ports_end_sessions cfg inp d ds n :
  mgr_reachable (mkWorld (d_mgr d) ds n) -> plain_keys (d_mgr d) -> factory_ok (d_sf d) -> config_ok cfg ->
  c_Sessions cfg <> [] -> session_input_ok inp ->
  16384 <= Z.of_nat (size (sp_inUse (sf_portAlloc (d_sf d)))) ->
  exists d', reconcileSessions cfg inp d = Some d' /\ forall sk, LookupByPeer sk (d_mgr d') = None.
Proof.
  intros R Hplain Hsf Hcfg Hne (Hi & Hok & Hoc & Hod) Hfull. unfold reconcileSessions.
  rewrite bool_decide_false by done.
  rewrite collect_full by (done || apply (cw_sessions _ Hcfg)). cbn [mbind option_bind].
  destruct (reconcile_spec _ [] (si_create inp) (si_ordk inp) (si_ordc inp) (si_ordd inp) R
    (plain_keys_distinct _ Hplain) ltac:(constructor) Hi Hok Hoc Hod) as (c & e & errs & m' & E & _ & _ & Honly & _).
  cbn [w_m] in *. unfold run_reconcile. rewrite E. cbn [mbind option_bind]. eexists. split; [done|].
  intros sk. cbn [d_mgr]. destruct (LookupByPeer sk m') eqn:Hl; [|done].
  destruct (Honly sk ltac:(by eexists)) as (rc & Hin & _). by apply elem_of_nil in Hin.
Qed.

(** ** Values that pass validation *)

(** The default multiplier is not checked against the eight bits of the member
    sessions of a Micro-BFD group: 259 becomes 3. *)
Example default_multiplier_wraps :
  let bfd := {| (c_BFD DefaultConfig) with bc_DefaultDetectMultiplier := 259 |} in
  let group := {| mg_LAGInterface := "bond0"; mg_MemberLinks := ["eth0"%string]; mg_PeerAddr := "10.0.0.2";
                  mg_LocalAddr := "10.0.0.1"; mg_DesiredMinTx := 0; mg_RequiredMinRx := 0;
                  mg_DetectMult := 0; mg_MinActiveLinks := 1 |} in
  Validate {| DefaultConfig with c_BFD := bfd; c_MicroBFD := Config.mkMicroBFDConfig [group]
                (micro_Actuator (c_MicroBFD DefaultConfig)) |} = Ok tt /\
  match buildMemberSessions bfd (fun _ => sample_env) group newUDPSenderFactory with
  | Some ([rc], _) => cfg_DetectMultiplier (rc_SessionConfig rc) = 3
  | _ => False
  end.
Proof. vm_compute. repeat split; reflexivity. Qed.

(** A strategy that validation accepts and the handler refuses. *)
Example withdraw_routes_refused :
  validateGoBGP {| (c_GoBGP DefaultConfig) with gb_Enabled := true; gb_Strategy := "withdraw-routes" |} = Ok tt /\
  forall client dampening timeout,
    NewHandler (mkHandlerConfig client "withdraw-routes" dampening timeout) = Err ErrUnsupportedStrategy.
Proof. split; [vm_compute; reflexivity|]. done. Qed.

(** A back end name with a space, accepted by validation and refused by the tunnel. *)
Example backend_not_trimmed :
  validateOverlayBackend " userspace-udp" = Ok tt /\
  createVXLANConn {| sample_vxlan_config with vx_Backend := " userspace-udp" |} (Some 0) true newUDPSenderFactory
  = (Err (ErrDaemonOverlay ErrInvalidOverlayBackend), newUDPSenderFactory).
Proof. vm_compute. repeat split; reflexivity. Qed.

(** The identifier of a Geneve peer other than the first is not used. *)
Example geneve_vni_of_first_peer :
  let peer a vni := {| gp_Peer := a; gp_Local := "192.0.2.1"; gp_VNI := vni; gp_DesiredMinTx := 0;
                       gp_RequiredMinRx := 0; gp_DetectMult := 0 |} in
  let cfg := {| ge_Enabled := true; ge_Backend := "userspace-udp"; ge_DefaultVNI := 1;
                ge_DefaultDesiredMinTx := second; ge_DefaultRequiredMinRx := second;
                ge_DefaultDetectMultiplier := 3;
                ge_Peers := [peer "192.0.2.2" 100; peer "192.0.2.3" 200]%string |} in
  validateGeneve cfg = Ok tt /\
  match createGeneveConn cfg (Some 0) true newUDPSenderFactory with
  | (Ok conn, _) => gc_vni conn = 100
  | _ => False
  end.
Proof. vm_compute. repeat split; reflexivity. Qed.

(** The policy has no defaults for zero values: with the documented defaults left
    out, every session of an unknown peer is refused by the engine. *)
Example unsolicited_without_defaults :
  let cfg := {| uc_Enabled := true; uc_MaxSessions := 0; uc_CleanupTimeout := 0;
                uc_Interfaces := {["eth0"%string := Config.mkUnsolicitedInterfaceConfig true []]};
                uc_SessionDefaults := mkUnsolicitedSessionDefaultsConfig 0 0 0 |} in
  Validate {| DefaultConfig with c_Unsolicited := cfg |} = Ok tt /\
  match buildUnsolicitedPolicy id cfg with
  | Ok policy => (DemuxWithWire (sample_down 77) (sample_meta 9) [] (sample_input 8)
                    (NewManager (Some policy) true false)).1 <> Ok tt
  | _ => False
  end.
Proof. vm_compute. split; [reflexivity|discriminate]. Qed.
