(* ===== verification/Server.v ===== *)
(** * The RPC server ([internal/server])

    The handlers of the three services: they convert a request, call the manager
    and the sender factory, and convert the result; [server.go] for sessions,
    [echo.go] for echo sessions, [micro.go] for Micro-BFD groups.  The messages are
    those of the generated code; the duration and timestamp types of the protocol
    buffer library are an interface.  A handler is one step here: between a call of
    the manager and the next, other goroutines may run. *)

From stdpp Require Import strings relations.
From S2P Require Import Prelude Config Packet Auth Netip NetipParse Session Discriminator Micro Unsolicited Echo.
From S2P Require Import Manager Transport Daemon.

Local Open Scope Z_scope.

(** What the code uses of the protocol buffer library's times: a duration holds any
    value of Go's type. *)
Class ProtoTime := {
  Duration : Type;
  Timestamp : Type;
  AsDuration : Duration -> Z;
  NewDuration : Z -> Duration;
  NewTimestamp : Z -> Timestamp;
  AsDuration_New : forall d, is_i64 d -> AsDuration (NewDuration d) = d;
  AsDuration_range : forall d, is_i64 (AsDuration d);
}.

Inductive connect_code := CodeInvalidArgument | CodeNotFound | CodeAlreadyExists | CodeInternal.

Inductive server_error :=
| ErrMissingIdentifier
| ErrServerSessionType
| ErrDedicatedTransportRequired
| ErrDetectMultZero
| ErrDetectMultOverflow
| ErrAPIAuthKeyMaterialMissing
| ErrAPIAuthKeyMaterialUnexpected
| ErrAPIAuthKeyIDOverflow
| ErrEchoTxIntervalRequired
| ErrEchoDetectMultZero
| ErrMicroLAGRequired
| ErrMicroMembersRequired
| ErrMicroMinActiveRange
| ErrMicroDetectMultZero
| ErrServerParseAddr
| ErrServerAuth (e : auth_error)
| ErrServerManager (e : mgr_error)
| ErrServerSender (e : daemon_error)
| ErrPanicRecovered (procedure : string).

Record connect_error := mkConnectError { ce_code : connect_code; ce_err : server_error }.

(** The enumerations of the messages. *)
Definition SESSION_STATE_UNSPECIFIED : Z := 0.
Definition SESSION_STATE_ADMIN_DOWN : Z := 1.
Definition SESSION_STATE_DOWN : Z := 2.
Definition SESSION_STATE_INIT : Z := 3.
Definition SESSION_STATE_UP : Z := 4.
Definition AUTHENTICATION_TYPE_UNSPECIFIED : Z := 0.
Definition AUTHENTICATION_TYPE_NONE : Z := 1.
Definition AUTHENTICATION_TYPE_SIMPLE_PASSWORD : Z := 2.
Definition AUTHENTICATION_TYPE_KEYED_MD5 : Z := 3.
Definition AUTHENTICATION_TYPE_METICULOUS_KEYED_MD5 : Z := 4.
Definition AUTHENTICATION_TYPE_KEYED_SHA1 : Z := 5.
Definition AUTHENTICATION_TYPE_METICULOUS_KEYED_SHA1 : Z := 6.
Definition SESSION_TYPE_UNSPECIFIED : Z := 0.
Definition SESSION_TYPE_SINGLE_HOP : Z := 1.
Definition SESSION_TYPE_MULTI_HOP : Z := 2.
Definition SESSION_TYPE_ECHO : Z := 3.
Definition SESSION_TYPE_MICRO_BFD : Z := 4.
Definition SESSION_TYPE_VXLAN : Z := 5.
Definition SESSION_TYPE_GENEVE : Z := 6.

Section Messages.
Context `{PT : ProtoTime}.

Record SessionCountersPb := mkSessionCountersPb {
  cp_PacketsSent : Z;
  cp_PacketsReceived : Z;
  cp_PacketsDropped : Z;
  cp_StateTransitions : Z;
  cp_AuthFailures : Z;
}.

Record BfdSession := mkBfdSession {
  pb_PeerAddress : string;
  pb_LocalAddress : string;
  pb_InterfaceName : string;
  pb_Type : Z;
  pb_LocalState : Z;
  pb_RemoteState : Z;
  pb_LocalDiagnostic : Z;
  pb_LocalDiscriminator : Z;
  pb_RemoteDiscriminator : Z;
  pb_DesiredMinTxInterval : option Duration;
  pb_RequiredMinRxInterval : option Duration;
  pb_RemoteMinRxInterval : option Duration;
  pb_DetectMultiplier : Z;
  pb_NegotiatedTxInterval : option Duration;
  pb_DetectionTime : option Duration;
  pb_AuthType : Z;
  pb_LastStateChange : option Timestamp;
  pb_LastPacketReceived : option Timestamp;
  pb_Counters : option SessionCountersPb;
}.

Record AddSessionRequest := mkAddSessionRequest {
  rq_PeerAddress : string;
  rq_LocalAddress : string;
  rq_InterfaceName : string;
  rq_Type : Z;
  rq_DesiredMinTxInterval : option Duration;
  rq_RequiredMinRxInterval : option Duration;
  rq_DetectMultiplier : Z;
  rq_AuthType : Z;
  rq_AuthKeyId : Z;
  rq_AuthSecret : list Z;
}.

Inductive session_identifier :=
| IdMissing
| IdLocalDiscriminator (discr : Z)
| IdPeerAddress (addr : string).

Inductive event_type :=
| EVENT_TYPE_UNSPECIFIED | EVENT_TYPE_STATE_CHANGE | EVENT_TYPE_SESSION_ADDED | EVENT_TYPE_SESSION_DELETED.

Record WatchSessionEventsResponse := mkWatchSessionEventsResponse {
  we_Type : event_type;
  we_Session : BfdSession;
  we_PreviousState : Z;
  we_Timestamp : Timestamp;
}.

Record AddEchoSessionRequest := mkAddEchoSessionRequest {
  erq_PeerAddress : string;
  erq_LocalAddress : string;
  erq_InterfaceName : string;
  erq_TxInterval : option Duration;
  erq_DetectMultiplier : Z;
}.

Record EchoSessionPb := mkEchoSessionPb {
  ep_PeerAddress : string;
  ep_LocalAddress : string;
  ep_InterfaceName : string;
  ep_PbTxInterval : option Duration;
  ep_DetectMultiplier : Z;
  ep_LocalDiscriminator : Z;
  ep_LocalState : Z;
  ep_LocalDiagnostic : Z;
  ep_PacketsSent : Z;
  ep_PacketsReceived : Z;
  ep_LastStateChange : option Timestamp;
}.

Record AddMicroBFDGroupRequest := mkAddMicroBFDGroupRequest {
  mrq_LagInterface : string;
  mrq_MemberLinks : list string;
  mrq_PeerAddress : string;
  mrq_LocalAddress : string;
  mrq_DesiredMinTxInterval : option Duration;
  mrq_RequiredMinRxInterval : option Duration;
  mrq_DetectMultiplier : Z;
  mrq_MinActiveLinks : Z;
}.

Record MicroBFDGroupPb := mkMicroBFDGroupPb {
  mp_LagInterface : string;
  mp_MemberLinks : list string;
  mp_PeerAddress : string;
  mp_LocalAddress : string;
  mp_DesiredMinTxInterval : option Duration;
  mp_RequiredMinRxInterval : option Duration;
  mp_DetectMultiplier : Z;
  mp_MinActiveLinks : Z;
  mp_AggregateUp : bool;
  mp_UpMemberCount : Z;
}.

End Messages.

(** ** Conversions *)

Definition stateToProto (s : Z) : Z :=
  if s =? StateAdminDown then SESSION_STATE_ADMIN_DOWN else
  if s =? StateDown then SESSION_STATE_DOWN else
  if s =? StateInit then SESSION_STATE_INIT else
  if s =? StateUp then SESSION_STATE_UP else SESSION_STATE_UNSPECIFIED.

(** The codes of the messages are those of the protocol plus one. *)
Definition diagToProto (d : Z) : Z :=
  if d =? DiagNone then 1 else
  if d =? DiagControlTimeExpired then 2 else
  if d =? DiagEchoFailed then 3 else
  if d =? DiagNeighborDown then 4 else
  if d =? DiagForwardingPlaneReset then 5 else
  if d =? DiagPathDown then 6 else
  if d =? DiagConcatPathDown then 7 else
  if d =? DiagAdminDown then 8 else
  if d =? DiagReverseConcatPathDown then 9 else 0.

Definition sessionTypeFromProto (pt : Z) : go server_error Z :=
  if pt =? SESSION_TYPE_SINGLE_HOP then Ok SessionTypeSingleHop else
  if pt =? SESSION_TYPE_MULTI_HOP then Ok SessionTypeMultiHop else
  if pt =? SESSION_TYPE_ECHO then Ok SessionTypeEcho else
  if pt =? SESSION_TYPE_MICRO_BFD then Ok SessionTypeMicroBFD else
  if pt =? SESSION_TYPE_VXLAN then Ok SessionTypeVXLAN else
  if pt =? SESSION_TYPE_GENEVE then Ok SessionTypeGeneve else Err ErrServerSessionType.

Definition sessionTypeToProto (st : Z) : Z :=
  if st =? SessionTypeSingleHop then SESSION_TYPE_SINGLE_HOP else
  if st =? SessionTypeMultiHop then SESSION_TYPE_MULTI_HOP else
  if st =? SessionTypeEcho then SESSION_TYPE_ECHO else
  if st =? SessionTypeMicroBFD then SESSION_TYPE_MICRO_BFD else
  if st =? SessionTypeVXLAN then SESSION_TYPE_VXLAN else
  if st =? SessionTypeGeneve then SESSION_TYPE_GENEVE else SESSION_TYPE_UNSPECIFIED.

Definition authTypeFromProto (authType : Z) : go server_error Z :=
  if (authType =? AUTHENTICATION_TYPE_UNSPECIFIED) || (authType =? AUTHENTICATION_TYPE_NONE)
  then Ok AuthTypeNone else
  if authType =? AUTHENTICATION_TYPE_SIMPLE_PASSWORD then Ok AuthTypeSimplePassword else
  if authType =? AUTHENTICATION_TYPE_KEYED_MD5 then Ok AuthTypeKeyedMD5 else
  if authType =? AUTHENTICATION_TYPE_METICULOUS_KEYED_MD5 then Ok AuthTypeMeticulousKeyedMD5 else
  if authType =? AUTHENTICATION_TYPE_KEYED_SHA1 then Ok AuthTypeKeyedSHA1 else
  if authType =? AUTHENTICATION_TYPE_METICULOUS_KEYED_SHA1 then Ok AuthTypeMeticulousKeyedSHA1 else
  Err (ErrServerAuth ErrAuthTypeMismatch).

Definition authTypeToProto (authType : Z) : Z :=
  if authType =? AuthTypeNone then AUTHENTICATION_TYPE_NONE else
  if authType =? AuthTypeSimplePassword then AUTHENTICATION_TYPE_SIMPLE_PASSWORD else
  if authType =? AuthTypeKeyedMD5 then AUTHENTICATION_TYPE_KEYED_MD5 else
  if authType =? AuthTypeMeticulousKeyedMD5 then AUTHENTICATION_TYPE_METICULOUS_KEYED_MD5 else
  if authType =? AuthTypeKeyedSHA1 then AUTHENTICATION_TYPE_KEYED_SHA1 else
  if authType =? AuthTypeMeticulousKeyedSHA1 then AUTHENTICATION_TYPE_METICULOUS_KEYED_SHA1 else
  AUTHENTICATION_TYPE_UNSPECIFIED.

Definition isGenericAddSessionType (st : Z) : bool :=
  (st =? SessionTypeSingleHop) || (st =? SessionTypeMultiHop).

(** [errors.Is] looks through the wrapping. *)
Definition mapManagerError (err : server_error) : connect_error :=
  let code :=
    match err with
    | ErrServerManager ErrDuplicateSession => CodeAlreadyExists
    | ErrServerManager ErrSessionNotFound => CodeNotFound
    | ErrServerManager ErrInvalidPeerAddr
    | ErrServerManager (ErrMgrSession ErrInvalidDetectMult)
    | ErrServerManager (ErrMgrEcho ErrEchoInvalidDetectMult)
    | ErrServerManager (ErrMgrSession ErrInvalidTxInterval)
    | ErrServerManager (ErrMgrSession ErrInvalidSessionType)
    | ErrServerManager (ErrMgrSession ErrInvalidSessionRole) => CodeInvalidArgument
    | _ => CodeInternal
    end in
  mkConnectError code err.

Definition invalid (e : server_error) : connect_error := mkConnectError CodeInvalidArgument e.

(** An address, or the zero address for an empty string. *)
Definition parse_required (s : string) : go server_error Addr :=
  match ParseAddr s with Some a => Ok a | None => Err ErrServerParseAddr end.

Definition parse_optional (s : string) : go server_error Addr :=
  if bool_decide (s = "") then Ok InvalidAddr else parse_required s.

Section Handlers.
Context `{PT : ProtoTime}.

Definition durationFromProto (d : option Duration) : Z :=
  match d with None => second | Some d => AsDuration d end.

Definition authConfigFromProto (req : AddSessionRequest)
    : go server_error (option Authenticator * option AuthKeyStore) :=
  authType ← authTypeFromProto (rq_AuthType req);
  if authType =? AuthTypeNone then
    if negb (rq_AuthKeyId req =? 0) || negb (bool_decide (rq_AuthSecret req = []))
    then Err ErrAPIAuthKeyMaterialUnexpected else Ok (None, None)
  else
  if bool_decide (rq_AuthSecret req = []) then Err ErrAPIAuthKeyMaterialMissing else
  if 255 <? rq_AuthKeyId req then Err ErrAPIAuthKeyIDOverflow else
  auth ← wrap ErrServerAuth (NewAuthenticator authType);
  keys ← wrap ErrServerAuth (NewStaticAuthKeyStore
    {| key_ID := u8 (rq_AuthKeyId req); key_Type := authType; key_Secret := rq_AuthSecret req |} []);
  Ok (Some auth, Some (static_key_store keys)).

Definition sessionConfigFromProto (req : AddSessionRequest) : go server_error SessionConfig :=
  peerAddr ← parse_required (rq_PeerAddress req);
  localAddr ← parse_optional (rq_LocalAddress req);
  sessType ← sessionTypeFromProto (rq_Type req);
  if negb (isGenericAddSessionType sessType) then Err ErrDedicatedTransportRequired else
  '(auth, authKeys) ← authConfigFromProto req;
  let desiredMinTx := durationFromProto (rq_DesiredMinTxInterval req) in
  let requiredMinRx := durationFromProto (rq_RequiredMinRxInterval req) in
  let detectMult := rq_DetectMultiplier req in
  if detectMult =? 0 then Err ErrDetectMultZero else
  if 255 <? detectMult then Err ErrDetectMultOverflow else
  Ok {| cfg_PeerAddr := peerAddr; cfg_LocalAddr := localAddr; cfg_Interface := rq_InterfaceName req;
        cfg_Type := sessType; cfg_Role := RoleActive; cfg_DesiredMinTxInterval := desiredMinTx;
        cfg_RequiredMinRxInterval := requiredMinRx; cfg_DetectMultiplier := u8 detectMult;
        cfg_Auth := auth; cfg_AuthKeys := authKeys; cfg_PaddedPduSize := 0 |}.

Definition snapshotFromSession (sess : Session) (cfg : SessionConfig) : SessionSnapshot :=
  {| (session_snapshot sess) with
     ss_Type := cfg_Type cfg; ss_DesiredMinTx := cfg_DesiredMinTxInterval cfg;
     ss_RequiredMinRx := cfg_RequiredMinRxInterval cfg; ss_DetectMultiplier := cfg_DetectMultiplier cfg;
     ss_PaddedPduSize := 0 |}.

Definition snapshotToProto (snap : SessionSnapshot) : BfdSession :=
  {| pb_PeerAddress := Addr_String (ss_PeerAddr snap); pb_LocalAddress := Addr_String (ss_LocalAddr snap);
     pb_InterfaceName := ss_Interface snap; pb_Type := sessionTypeToProto (ss_Type snap);
     pb_LocalState := stateToProto (ss_State snap); pb_RemoteState := stateToProto (ss_RemoteState snap);
     pb_LocalDiagnostic := diagToProto (ss_LocalDiag snap);
     pb_LocalDiscriminator := ss_LocalDiscr snap; pb_RemoteDiscriminator := ss_RemoteDiscr snap;
     pb_DesiredMinTxInterval := Some (NewDuration (ss_DesiredMinTx snap));
     pb_RequiredMinRxInterval := Some (NewDuration (ss_RequiredMinRx snap));
     pb_RemoteMinRxInterval := None;
     pb_DetectMultiplier := ss_DetectMultiplier snap;
     pb_NegotiatedTxInterval := Some (NewDuration (ss_NegotiatedTxInterval snap));
     pb_DetectionTime := Some (NewDuration (ss_DetectionTime snap));
     pb_AuthType := authTypeToProto (ss_AuthType snap);
     pb_LastStateChange := NewTimestamp <$> ss_LastStateChange snap;
     pb_LastPacketReceived := NewTimestamp <$> ss_LastPacketReceived snap;
     pb_Counters := Some {| cp_PacketsSent := ct_PacketsSent (ss_Counters snap);
                            cp_PacketsReceived := ct_PacketsReceived (ss_Counters snap);
                            cp_PacketsDropped := 0;
                            cp_StateTransitions := ct_StateTransitions (ss_Counters snap);
                            cp_AuthFailures := 0 |} |}.

(** The fields that are not set have their zero values. *)
Definition stateChangeToProto (sc : StateChange) : WatchSessionEventsResponse :=
  {| we_Type := EVENT_TYPE_STATE_CHANGE;
     we_Session :=
       {| pb_PeerAddress := Addr_String (sc_PeerAddr sc); pb_LocalAddress := ""; pb_InterfaceName := "";
          pb_Type := 0; pb_LocalState := stateToProto (sc_NewState sc); pb_RemoteState := 0;
          pb_LocalDiagnostic := diagToProto (sc_Diag sc); pb_LocalDiscriminator := sc_LocalDiscr sc;
          pb_RemoteDiscriminator := 0; pb_DesiredMinTxInterval := None; pb_RequiredMinRxInterval := None;
          pb_RemoteMinRxInterval := None; pb_DetectMultiplier := 0; pb_NegotiatedTxInterval := None;
          pb_DetectionTime := None; pb_AuthType := 0; pb_LastStateChange := None;
          pb_LastPacketReceived := None; pb_Counters := None |};
     we_PreviousState := stateToProto (sc_OldState sc);
     we_Timestamp := NewTimestamp (sc_Timestamp sc) |}.

(** ** Sessions ([server.go]) *)

Record BFDServer := mkBFDServer {
  sv_manager : Manager;
  sv_senderFactory : udpSenderFactory;
  sv_senderPorts : gmap Z Z;
}.

(** The session is returned by its pointer. *)
Definition createSessionWithSender (env : SenderEnv) (ci : CreateInput) (cfg : SessionConfig) (srv : BFDServer)
    : go connect_error (Z * nat) * BFDServer :=
  let multiHop := cfg_Type cfg =? SessionTypeMultiHop in
  match CreateSender env (cfg_LocalAddr cfg) multiHop (sv_senderFactory srv) with
  | (Err e, f) => (Err (mapManagerError (ErrServerSender e)), {| srv with sv_senderFactory := f |})
  | (Panic, f) => (Panic, {| srv with sv_senderFactory := f |})
  | (Ok (_, srcPort), f) =>
      match CreateSession cfg ci (sv_manager srv) with
      | (Err e, m) =>
          (Err (mapManagerError (ErrServerManager e)),
           {| srv with sv_manager := m; sv_senderFactory := (CloseSender srcPort f).2 |})
      | (Panic, m) => (Panic, {| srv with sv_manager := m; sv_senderFactory := f |})
      | (Ok l, m) => (Ok (srcPort, l), {| srv with sv_manager := m; sv_senderFactory := f |})
      end
  end.

Definition trackSenderPort (discr srcPort : Z) (srv : BFDServer) : BFDServer :=
  {| srv with sv_senderPorts := <[discr := srcPort]> (sv_senderPorts srv) |}.

Definition AddSession (env : SenderEnv) (ci : CreateInput) (req : AddSessionRequest) (srv : BFDServer)
    : go connect_error BfdSession * BFDServer :=
  match sessionConfigFromProto req with
  | Err e => (Err (invalid e), srv)
  | Panic => (Panic, srv)
  | Ok cfg =>
      match createSessionWithSender env ci cfg srv with
      | (Err e, srv) => (Err e, srv)
      | (Panic, srv) => (Panic, srv)
      | (Ok (srcPort, l), srv) =>
          match m_entries (sv_manager srv) !! l with
          | None => (Panic, srv)
          | Some en =>
              let sess := se_session en in
              (Ok (snapshotToProto (snapshotFromSession sess cfg)), trackSenderPort (s_localDiscr sess) srcPort srv)
          end
      end
  end.

Definition cleanupSender (discr : Z) (srv : BFDServer) : BFDServer :=
  match sv_senderPorts srv !! discr with
  | None => srv
  | Some srcPort =>
      {| srv with sv_senderPorts := delete discr (sv_senderPorts srv);
                  sv_senderFactory := (CloseSender srcPort (sv_senderFactory srv)).2 |}
  end.

Definition DeleteSession (discr : Z) (srv : BFDServer) : go connect_error unit * BFDServer :=
  match DestroySession discr (sv_manager srv) with
  | (Err e, m) => (Err (mapManagerError (ErrServerManager e)), {| srv with sv_manager := m |})
  | (Panic, m) => (Panic, {| srv with sv_manager := m |})
  | (Ok _, m) => (Ok tt, cleanupSender discr {| srv with sv_manager := m |})
  end.

Definition ListSessions (ord : order Z nat) (srv : BFDServer) : list BfdSession :=
  snapshotToProto <$> Sessions ord (sv_manager srv).

(** The snapshot leaves out the authentication type and the padding, which keep
    their zero values. *)
Definition getSessionByDiscriminator (discr : Z) (srv : BFDServer) : go connect_error BfdSession :=
  match LookupByDiscriminator discr (sv_manager srv) with
  | None => Err (mkConnectError CodeNotFound (ErrServerManager ErrSessionNotFound))
  | Some l =>
      match m_entries (sv_manager srv) !! l with
      | None => Panic
      | Some en => Ok (snapshotToProto {| (session_snapshot (se_session en)) with
                                          ss_AuthType := AuthTypeNone; ss_PaddedPduSize := 0 |})
      end
  end.

Definition getSessionByPeerAddress (ord : order Z nat) (peerAddrStr : string) (srv : BFDServer)
    : go connect_error BfdSession :=
  match ParseAddr peerAddrStr with
  | None => Err (invalid ErrServerParseAddr)
  | Some addr =>
      match List.find (fun snap => bool_decide (ss_PeerAddr snap = addr)) (Sessions ord (sv_manager srv)) with
      | Some snap => Ok (snapshotToProto snap)
      | None => Err (mkConnectError CodeNotFound (ErrServerManager ErrSessionNotFound))
      end
  end.

Definition GetSession (ord : order Z nat) (id : session_identifier) (srv : BFDServer)
    : go connect_error BfdSession :=
  match id with
  | IdLocalDiscriminator discr => getSessionByDiscriminator discr srv
  | IdPeerAddress addr => getSessionByPeerAddress ord addr srv
  | IdMissing => Err (invalid ErrMissingIdentifier)
  end.

(** The stream of events: what is sent before the subscription, and what is sent
    for a state change received from it. *)
Definition WatchSessionEvents_current (includeCurrent : bool) (now : Z) (ord : order Z nat) (srv : BFDServer)
    : list WatchSessionEventsResponse :=
  if includeCurrent then
    (fun snap => {| we_Type := EVENT_TYPE_SESSION_ADDED; we_Session := snapshotToProto snap;
                    we_PreviousState := 0; we_Timestamp := NewTimestamp now |}) <$> Sessions ord (sv_manager srv)
  else [].

Definition WatchSessionEvents_subscribe (srv : BFDServer) : nat * BFDServer :=
  let '(ch, m) := SubscribeStateChanges (sv_manager srv) in (ch, {| srv with sv_manager := m |}).

(** One received state change; [None]: nothing is waiting, or the channel is closed. *)
Definition WatchSessionEvents_turn (ch : nat) (srv : BFDServer) : option (WatchSessionEventsResponse * BFDServer) :=
  match m_channels (sv_manager srv) !! ch with
  | Some {| sub_queue := sc :: rest; sub_closed := c |} =>
      Some (stateChangeToProto sc,
            {| srv with sv_manager := {| (sv_manager srv) with
                 m_channels := <[ch := mkSubscription rest c]> (m_channels (sv_manager srv)) |} |})
  | _ => None
  end.

(** ** Echo sessions ([echo.go]) *)

Definition echoSessionConfigFromProto (req : AddEchoSessionRequest) : go server_error EchoSessionConfig :=
  peerAddr ← parse_required (erq_PeerAddress req);
  localAddr ← parse_optional (erq_LocalAddress req);
  match erq_TxInterval req with
  | None => Err ErrEchoTxIntervalRequired
  | Some d =>
      let tx := AsDuration d in
      if tx <=? 0 then Err ErrEchoTxIntervalRequired else
      let mult := erq_DetectMultiplier req in
      if mult =? 0 then Err ErrEchoDetectMultZero else
      if 255 <? mult then Err ErrDetectMultOverflow else
      Ok {| ec_PeerAddr := peerAddr; ec_LocalAddr := localAddr; ec_Interface := erq_InterfaceName req;
            ec_TxInterval := tx; ec_DetectMultiplier := u8 mult |}
  end.

Definition echoSnapshotToProto (snap : EchoSessionSnapshot) : EchoSessionPb :=
  {| ep_PeerAddress := Addr_String (ess_PeerAddr snap); ep_LocalAddress := Addr_String (ess_LocalAddr snap);
     ep_InterfaceName := ess_Interface snap; ep_PbTxInterval := Some (NewDuration (ess_TxInterval snap));
     ep_DetectMultiplier := ess_DetectMultiplier snap; ep_LocalDiscriminator := ess_LocalDiscr snap;
     ep_LocalState := stateToProto (ess_State snap); ep_LocalDiagnostic := diagToProto (ess_LocalDiag snap);
     ep_PacketsSent := ess_EchosSent snap; ep_PacketsReceived := ess_EchosReceived snap;
     ep_LastStateChange := NewTimestamp <$> ess_LastStateChange snap |}.

(** The server has no table of ports: the sender is not closed again. *)
Definition AddEchoSession (env : SenderEnv) (rd : reads) (ord : order Z nat) (req : AddEchoSessionRequest)
    (srv : BFDServer) : go connect_error EchoSessionPb * BFDServer :=
  match echoSessionConfigFromProto req with
  | Err e => (Err (invalid e), srv)
  | Panic => (Panic, srv)
  | Ok cfg =>
      match CreateSender env (ec_LocalAddr cfg) false (sv_senderFactory srv) with
      | (Err e, f) => (Err (mapManagerError (ErrServerSender e)), {| srv with sv_senderFactory := f |})
      | (Panic, f) => (Panic, {| srv with sv_senderFactory := f |})
      | (Ok _, f) =>
          let srv := {| srv with sv_senderFactory := f |} in
          match CreateEchoSession cfg rd (sv_manager srv) with
          | (Err e, m) => (Err (mapManagerError (ErrServerManager e)), {| srv with sv_manager := m |})
          | (Panic, m) => (Panic, {| srv with sv_manager := m |})
          | (Ok discr, m) =>
              (match List.find (fun snap => ess_LocalDiscr snap =? discr) (EchoSessions ord m) with
               | Some snap => Ok (echoSnapshotToProto snap)
               | None => Err (mkConnectError CodeInternal (ErrServerManager ErrEchoSessionNotFound))
               end, {| srv with sv_manager := m |})
          end
      end
  end.

Definition DeleteEchoSession (discr : Z) (srv : BFDServer) : go connect_error unit * BFDServer :=
  match DestroyEchoSession discr (sv_manager srv) with
  | (Err e, m) => (Err (mapManagerError (ErrServerManager e)), {| srv with sv_manager := m |})
  | (Panic, m) => (Panic, {| srv with sv_manager := m |})
  | (Ok _, m) => (Ok tt, {| srv with sv_manager := m |})
  end.

Definition ListEchoSessions (ord : order Z nat) (srv : BFDServer) : list EchoSessionPb :=
  echoSnapshotToProto <$> EchoSessions ord (sv_manager srv).

(** ** Micro-BFD groups ([micro.go]) *)

Definition microBFDConfigFromProto (req : AddMicroBFDGroupRequest) : go server_error MicroBFDConfig :=
  if bool_decide (mrq_LagInterface req = "") then Err ErrMicroLAGRequired else
  if bool_decide (mrq_MemberLinks req = []) then Err ErrMicroMembersRequired else
  peerAddr ← parse_required (mrq_PeerAddress req);
  localAddr ← parse_optional (mrq_LocalAddress req);
  let mult := mrq_DetectMultiplier req in
  if mult =? 0 then Err ErrMicroDetectMultZero else
  if 255 <? mult then Err ErrDetectMultOverflow else
  let minActive := mrq_MinActiveLinks req in
  if (minActive <? 1) || (Z.of_nat (length (mrq_MemberLinks req)) <? minActive) then Err ErrMicroMinActiveRange else
  Ok {| mc_LAGInterface := mrq_LagInterface req; mc_MemberLinks := mrq_MemberLinks req;
        mc_PeerAddr := peerAddr; mc_LocalAddr := localAddr;
        mc_DesiredMinTxInterval := durationFromProto (mrq_DesiredMinTxInterval req);
        mc_RequiredMinRxInterval := durationFromProto (mrq_RequiredMinRxInterval req);
        mc_DetectMultiplier := u8 mult; mc_MinActiveLinks := minActive |}.

(** [cfg]: the configuration when the group was just made, nothing in a list. *)
Definition microGroupSnapshotToProto (snap : MicroBFDGroupSnapshot) (cfg : option MicroBFDConfig)
    : MicroBFDGroupPb :=
  let count n := if 0 <=? n then u32 n else 0 in
  {| mp_LagInterface := ms_LAGInterface snap;
     mp_MemberLinks := match cfg with Some c => mc_MemberLinks c | None => ml_Interface <$> ms_Members snap end;
     mp_PeerAddress := Addr_String (ms_PeerAddr snap); mp_LocalAddress := Addr_String (ms_LocalAddr snap);
     mp_DesiredMinTxInterval := (fun c => NewDuration (mc_DesiredMinTxInterval c)) <$> cfg;
     mp_RequiredMinRxInterval := (fun c => NewDuration (mc_RequiredMinRxInterval c)) <$> cfg;
     mp_DetectMultiplier := match cfg with Some c => mc_DetectMultiplier c | None => 0 end;
     mp_MinActiveLinks := count (ms_MinActiveLinks snap); mp_AggregateUp := ms_AggregateUp snap;
     mp_UpMemberCount := count (ms_UpCount snap) |}.

Definition AddMicroBFDGroup (ord : order string MicroBFDGroup) (ordm : order string memberEntry)
    (req : AddMicroBFDGroupRequest) (srv : BFDServer) : go connect_error MicroBFDGroupPb * BFDServer :=
  match microBFDConfigFromProto req with
  | Err e => (Err (invalid e), srv)
  | Panic => (Panic, srv)
  | Ok cfg =>
      match CreateMicroBFDGroup cfg (sv_manager srv) with
      | (Err e, m) => (Err (mapManagerError (ErrServerManager e)), {| srv with sv_manager := m |})
      | (Panic, m) => (Panic, {| srv with sv_manager := m |})
      | (Ok _, m) =>
          (match List.find (fun snap => bool_decide (ms_LAGInterface snap = mc_LAGInterface cfg))
                   (MicroBFDGroups ord ordm m) with
           | Some snap => Ok (microGroupSnapshotToProto snap (Some cfg))
           | None => Err (mkConnectError CodeInternal (ErrServerManager ErrMicroBFDGroupNotFound))
           end, {| srv with sv_manager := m |})
      end
  end.

Definition DeleteMicroBFDGroup (lagInterface : string) (srv : BFDServer) : go connect_error unit * BFDServer :=
  if bool_decide (lagInterface = "") then (Err (invalid ErrMicroLAGRequired), srv) else
  match DestroyMicroBFDGroup lagInterface (sv_manager srv) with
  | (Err e, m) => (Err (mapManagerError (ErrServerManager e)), {| srv with sv_manager := m |})
  | (Panic, m) => (Panic, {| srv with sv_manager := m |})
  | (Ok _, m) => (Ok tt, {| srv with sv_manager := m |})
  end.

Definition ListMicroBFDGroups (ord : order string MicroBFDGroup) (ordm : order string memberEntry)
    (srv : BFDServer) : list MicroBFDGroupPb :=
  (fun snap => microGroupSnapshotToProto snap None) <$> MicroBFDGroups ord ordm (sv_manager srv).

End Handlers.
