(* ===== verification/ServerProps.v ===== *)
(** * Properties of the RPC server

    What a client of the API sees: a session that was added is reported as it was
    asked for, can be read back and deleted again, and neither a failure nor the
    deletion leaves anything behind. *)

From stdpp Require Import strings relations.
From S2P Require Import Prelude Config Packet Fsm Auth Netip NetipParse Jitter Session SessionInv SessionSteps.
From S2P Require Import SessionProps SessionFrame Discriminator Micro Unsolicited Echo Manager ManagerSteps ManagerInv.
From S2P Require Import ManagerOps ManagerProps Transport Daemon DaemonProps Server.

Local Open Scope Z_scope.

Section Api.
Context `{PT : ProtoTime}.

(** A request whose fields have the widths of their types. *)
Definition request_ok (req : AddSessionRequest) : Prop :=
  is_u32 (rq_DetectMultiplier req) /\ is_u32 (rq_AuthKeyId req).

(** ** Conversion of requests *)

Lemma authType_roundtrip t a :
  authTypeFromProto t = Ok a ->
  authTypeToProto a = (if t =? AUTHENTICATION_TYPE_UNSPECIFIED then AUTHENTICATION_TYPE_NONE else t) /\
  (a = AuthTypeNone \/ exists name n auth, (name, a, n) ∈ auth_names /\ NewAuthenticator a = Ok auth /\
     authenticatorType auth = a).
Proof.
  unfold authTypeFromProto. intros H.
  repeat match type of H with
  | (if ?b then _ else _) = _ => destruct b eqn:?
  end; try discriminate; injection H as <-.
  { apply orb_true_iff in Heqb as [->%Z.eqb_eq| ->%Z.eqb_eq]; (split; [reflexivity|by left]). }
  all: match goal with E : (_ =? _) = true |- _ => apply Z.eqb_eq in E as -> end;
    (split; [reflexivity|right]); eexists _, _, _; (split; [apply list_elem_of_In; cbn; eauto 10|split; reflexivity]).
Qed.

Lemma sessionType_roundtrip t s :
  sessionTypeFromProto t = Ok s -> sessionTypeToProto s = t.
Proof.
  unfold sessionTypeFromProto. intros H.
  repeat match type of H with
  | (if ?b then _ else _) = _ => destruct b eqn:?
  end; try discriminate; injection H as <-;
  match goal with E : (_ =? _) = true |- _ => apply Z.eqb_eq in E as -> end; reflexivity.
Qed.

(** The authentication of a converted request. *)
Lemma authConfig_cases req :
  request_ok req ->
  match authConfigFromProto req with
  | Ok (auth, keys) => DaemonProps.auth_ok auth keys /\
      authTypeToProto (match auth with Some a => authenticatorType a | None => AuthTypeNone end) =
      (if rq_AuthType req =? AUTHENTICATION_TYPE_UNSPECIFIED then AUTHENTICATION_TYPE_NONE else rq_AuthType req)
  | Err _ => True
  | Panic => False
  end.
Proof.
  intros [_ Hid]. unfold authConfigFromProto.
  destruct (authTypeFromProto (rq_AuthType req)) as [t|e|] eqn:Et; [|done|].
  2: { unfold authTypeFromProto in Et. by repeat case_match. }
  cbn [mbind go_bind]. destruct (authType_roundtrip _ _ Et) as [Hrt Hcase].
  destruct (Z.eqb_spec t AuthTypeNone) as [->|Hne].
  { destruct (_ || _); [done|]. by split. }
  destruct Hcase as [->|(name & n & auth & Hin & Ha & Hat)]; [done|].
  case_bool_decide; [done|]. destruct (255 <? rq_AuthKeyId req) eqn:E; [done|]. rewrite Ha. cbn [wrap mbind go_bind].
  pose proof (key_store_cases (u8 (rq_AuthKeyId req)) t (rq_AuthSecret req) n ltac:(by eexists)) as Hk.
  destruct (NewStaticAuthKeyStore _ _) as [ks|e|]; cbn [wrap mbind go_bind]; [|done|done].
  destruct Hk as (Hl & Hc & Hva & Hlk). rewrite Hat. split; [|done].
  cbn [DaemonProps.auth_ok]. rewrite Hc, Hat. split_and!; [done|apply Z.mod_pos_bound; lia|done|done].
Qed.

(** What a converted request asks for. *)
Record requested (req : AddSessionRequest) (cfg : SessionConfig) : Prop := {
  rd_ok : cfg_ok cfg;
  rd_peer : ParseAddr (rq_PeerAddress req) = Some (cfg_PeerAddr cfg);
  rd_local : parse_optional (rq_LocalAddress req) = Ok (cfg_LocalAddr cfg);
  rd_interface : cfg_Interface cfg = rq_InterfaceName req;
  rd_type : sessionTypeToProto (cfg_Type cfg) = rq_Type req;
  rd_tx : cfg_DesiredMinTxInterval cfg = durationFromProto (rq_DesiredMinTxInterval req);
  rd_rx : cfg_RequiredMinRxInterval cfg = durationFromProto (rq_RequiredMinRxInterval req);
  rd_mult : cfg_DetectMultiplier cfg = rq_DetectMultiplier req;
  rd_auth : DaemonProps.auth_ok (cfg_Auth cfg) (cfg_AuthKeys cfg);
  rd_auth_type : authTypeToProto (match cfg_Auth cfg with Some a => authenticatorType a | None => AuthTypeNone end) =
    (if rq_AuthType req =? AUTHENTICATION_TYPE_UNSPECIFIED then AUTHENTICATION_TYPE_NONE else rq_AuthType req);
  rd_padding : cfg_PaddedPduSize cfg = 0;
}.

Lemma sessionConfig_cases req :
  request_ok req ->
  match sessionConfigFromProto req with
  | Ok cfg => requested req cfg
  | Err _ => True
  | Panic => False
  end.
Proof.
  intros Hr. unfold sessionConfigFromProto, parse_required.
  destruct (ParseAddr (rq_PeerAddress req)) as [peer|] eqn:Hp; [|done]. cbn [mbind go_bind].
  destruct (parse_optional (rq_LocalAddress req)) as [loc|e|] eqn:Hl; [|done|].
  2: { unfold parse_optional, parse_required in Hl. by repeat case_match. }
  cbn [mbind go_bind]. destruct (sessionTypeFromProto (rq_Type req)) as [st|e|] eqn:Ht; [|done|].
  2: { unfold sessionTypeFromProto in Ht. by repeat case_match. }
  cbn [mbind go_bind]. destruct (negb _); [done|].
  pose proof (authConfig_cases req Hr) as Ha. destruct (authConfigFromProto req) as [[auth keys]|e|]; [|done|done].
  cbn [mbind go_bind]. destruct (Z.eqb_spec (rq_DetectMultiplier req) 0) as [|Hm0]; [done|].
  destruct (Z.ltb_spec 255 (rq_DetectMultiplier req)) as [|Hm]; [done|]. destruct Ha as [Ha Hat], Hr as [Hm1 _].
  assert (Hu8 : u8 (rq_DetectMultiplier req) = rq_DetectMultiplier req)
    by (unfold u8, is_u32 in *; apply Z.mod_small; lia).
  rewrite Hu8. constructor; try done; cbn; [|by apply sessionType_roundtrip].
  split_and!; cbn; [unfold is_u8, is_u32 in *; lia|unfold is_u16; lia|].
  destruct auth, keys; try done. by destruct Ha as (? & ? & _ & ?).
Qed.

(** ** The new session *)

Lemma Sign_type a st keys pkt buf r st' pkt' buf' :
  Sign a st keys pkt buf = (r, st', pkt', buf') -> as_Type st' = as_Type st.
Proof.
  unfold Sign. destruct (hash_params a) as [p|]; [|by intros [= _ <- _ _]].
  unfold signHash. repeat case_match; intros; simplify_eq; done.
Qed.

Lemma rebuild_type s s' :
  rebuildCachedPacket s = Some s' -> as_Type <$> s_authState s' = as_Type <$> s_authState s.
Proof.
  unfold rebuildCachedPacket, buildControlPacket. cbn [s_auth].
  assert (Hm : forall pkt s1 s2, marshal_cached pkt s1 = Some s2 -> s_authState s2 = s_authState s1).
  { intros pkt s1 s2. unfold marshal_cached. repeat case_match; intros; simplify_eq; done. }
  destruct (s_auth s) as [a|]; [|by intros ->%Hm].
  unfold signCachedPacket. cbn [s_authState s_authKeys s_cachedPacket].
  destruct (s_authState s) as [st|]; [|done]. destruct (s_authKeys s) as [keys|]; [|done].
  destruct (Sign _ _ _ _ _) as [[[r st'] pkt'] buf'] eqn:E. apply Sign_type in E.
  destruct r; [intros ->%Hm|intros [= <-]|done]; cbn; by rewrite E.
Qed.

Lemma new_session_auth cfg d h rnd s :
  NewSession cfg d h rnd = Ok s ->
  Session_AuthType s = match cfg_Auth cfg with Some a => authenticatorType a | None => AuthTypeNone end.
Proof.
  unfold NewSession. destruct (validateSessionConfig cfg d); [|done..]. cbn [mbind go_bind].
  intros H. apply go_bind_Ok in H as (s1 & Hi & H). destruct (rebuildCachedPacket s1) as [s2|] eqn:Hr; [|done].
  injection H as <-. apply rebuild_type in Hr. unfold Session_AuthType.
  assert (Ht : as_Type <$> s_authState s1 = authenticatorType <$> cfg_Auth cfg).
  { unfold initAuth in Hi. destruct (cfg_Auth cfg) as [au|]; [|by injection Hi as <-].
    unfold NewAuthState in Hi. destruct (rnd_seq rnd) as [[[[? ?] ?] ?]|]; [|done]. by injection Hi as <-. }
  rewrite Ht in Hr. by destruct (s_authState s2), (cfg_Auth cfg); cbn in Hr; simplify_eq.
Qed.

Lemma new_session_padding cfg d h rnd s :
  cfg_ok cfg -> rnd_ok rnd -> is_u32 d -> NewSession cfg d h rnd = Ok s -> s_paddedPduSize s = cfg_PaddedPduSize cfg.
Proof.
  intros Hc Hr Hd Hn. pose proof (NewSession_cases cfg d h rnd Hc Hr Hd) as H. rewrite Hn in H.
  by destruct H as (_ & buf & ost & -> & _).
Qed.

(** ** Senders *)

Lemma NewUDPSender_srcPort sys buffer localAddr srcPort multiHop s :
  NewUDPSender sys buffer localAddr srcPort multiHop [] = Ok s -> us_srcPort s = srcPort.
Proof.
  unfold NewUDPSender. cbn [fold_left]. intros H. apply go_bind_Ok in H as (o & _ & H).
  destruct (_ && _); [done|]. by injection H as <-.
Qed.

(** Closing a sender just created gives the factory back as it was. *)
Lemma close_created env localAddr multiHop f s f' :
  factory_ok f -> createSenderForSession env localAddr multiHop [] f = (Ok s, f') ->
  factory_ok f' /\ (CloseSender (us_srcPort s) f').2 = f.
Proof.
  intros F E. pose proof (createSender_cases env localAddr multiHop [] f F) as Hc. rewrite E in Hc.
  destruct Hc as [F' _]. split; [done|]. destruct F as [Hp Hs]. unfold createSenderForSession in E.
  pose proof (AllocatePort_cases (sv_offset env) _ Hp) as Ha.
  destruct (AllocatePort (sv_offset env) (sf_portAlloc f)) as [[p|e|] a]; [|done..].
  destruct Ha as (Hn & _ & -> & _).
  destruct (NewUDPSender _ _ _ _ _ _) as [s1|e|] eqn:En; [|done..]. injection E as -> <-.
  rewrite (NewUDPSender_srcPort _ _ _ _ _ _ En). unfold CloseSender. cbn [sf_senders]. rewrite lookup_insert_eq. cbn.
  rewrite ReleasePort_undo by done. destruct f as [al snd]. f_equal. apply delete_insert_id.
  destruct (snd !! p) eqn:Ep; [|done]. destruct Hn. apply Hs. by eexists.
Qed.

(** ** The life of a session

    What the message of a new session says. *)
Record describes (req : AddSessionRequest) (pb : BfdSession) : Prop := {
  de_peer : pb_PeerAddress pb = default "" (Addr_String <$> ParseAddr (rq_PeerAddress req));
  de_local : exists a, parse_optional (rq_LocalAddress req) = Ok a /\ pb_LocalAddress pb = Addr_String a;
  de_interface : pb_InterfaceName pb = rq_InterfaceName req;
  de_type : pb_Type pb = rq_Type req;
  de_state : pb_LocalState pb = SESSION_STATE_DOWN /\ pb_RemoteState pb = SESSION_STATE_DOWN;
  de_tx : AsDuration <$> pb_DesiredMinTxInterval pb = Some (durationFromProto (rq_DesiredMinTxInterval req));
  de_rx : AsDuration <$> pb_RequiredMinRxInterval pb = Some (durationFromProto (rq_RequiredMinRxInterval req));
  de_mult : pb_DetectMultiplier pb = rq_DetectMultiplier req;
  de_auth : pb_AuthType pb =
    if rq_AuthType req =? AUTHENTICATION_TYPE_UNSPECIFIED then AUTHENTICATION_TYPE_NONE else rq_AuthType req;
}.

Lemma snapshot_same cfg s :
  cfg_PaddedPduSize cfg = 0 -> s_sessionType s = cfg_Type cfg -> s_desiredMinTxInterval s = cfg_DesiredMinTxInterval cfg ->
  s_requiredMinRxInterval s = cfg_RequiredMinRxInterval cfg -> s_detectMult s = cfg_DetectMultiplier cfg ->
  s_paddedPduSize s = cfg_PaddedPduSize cfg -> snapshotFromSession s cfg = session_snapshot s.
Proof. intros Hp H1 H2 H3 H4 H5. unfold snapshotFromSession, session_snapshot. cbn. by rewrite H1, H2, H3, H4, H5, Hp. Qed.

Lemma durationFromProto_range d : is_i64 (durationFromProto d).
Proof. destruct d; cbn; [apply AsDuration_range|unfold is_i64, second; lia]. Qed.

Lemma new_session_described req cfg ci m d s :
  requested req cfg -> input_ok ci -> created cfg ci m d s ->
  snapshotFromSession s cfg = session_snapshot s /\ describes req (snapshotToProto (session_snapshot s)) /\
  s_localDiscr s = d /\ 0 < d < 2 ^ 32.
Proof.
  intros Q [Hrd Hrnd] Hcr. pose proof (created_ident _ _ _ _ _ Hcr) as Hd.
  destruct Hcr as (_ & _ & (a & Ha) & Hn). apply Allocate_Ok in Ha as (_ & Hz & _ & Hu). specialize (Hu Hrd).
  pose proof (NewSession_ident _ _ _ _ _ Hn) as Hid. injection Hid as _ Hpeer Hloc Hif Hty _.
  pose proof (NewSession_ok cfg d true (ci_rnd ci) s (rd_ok _ _ Q) Hrnd Hu Hn) as F.
  pose proof (new_session_padding cfg d true (ci_rnd ci) s (rd_ok _ _ Q) Hrnd Hu Hn) as Hpad.
  pose proof (new_session_auth _ _ _ _ _ Hn) as Hat.
  destruct (fs_params _ _ _ F) as (Htx & Hrx & Hmu & _). destruct (fs_states _ _ _ F) as (Hst & _ & Hrst).
  split_and!; [by apply snapshot_same; [apply Q|..]| |done|width_lia..].
  constructor; cbn.
  - rewrite Hpeer, (rd_peer _ _ Q). done.
  - exists (cfg_LocalAddr cfg). split; [apply Q|by rewrite Hloc].
  - rewrite Hif. apply Q.
  - rewrite Hty. apply Q.
  - by rewrite Hst, Hrst.
  - rewrite Htx, (rd_tx _ _ Q), AsDuration_New; [done|apply durationFromProto_range].
  - rewrite Hrx, (rd_rx _ _ Q), AsDuration_New; [done|apply durationFromProto_range].
  - rewrite Hmu. apply Q.
  - rewrite Hat. apply Q.
Qed.

(** What a successful [AddSession] did. *)
Record added (ci : CreateInput) (req : AddSessionRequest) (srv : BFDServer) (pb : BfdSession) (srv' : BFDServer)
    (cfg : SessionConfig) (s : Session) (snd : UDPSender) (env : SenderEnv) : Prop := {
  ad_requested : requested req cfg;
  ad_created : created cfg ci (sv_manager srv) (s_localDiscr s) s;
  ad_message : pb = snapshotToProto (session_snapshot s);
  ad_manager : sv_manager srv' = with_session (key_of cfg) (s_localDiscr s) s (sv_manager srv);
  ad_sender : exists multiHop, createSenderForSession env (cfg_LocalAddr cfg) multiHop [] (sv_senderFactory srv) =
                (Ok snd, sv_senderFactory srv');
  ad_ports : sv_senderPorts srv' = <[s_localDiscr s := us_srcPort snd]> (sv_senderPorts srv);
}.

Lemma AddSession_cases env ci req srv :
  request_ok req -> input_ok ci -> factory_ok (sv_senderFactory srv) ->
  match AddSession env ci req srv with
  | (Ok pb, srv') => exists cfg s snd, added ci req srv pb srv' cfg s snd env
  | (Err _, srv') => srv' = srv
  | (Panic, _) => False
  end.
Proof.
  intros Hr Hi F. unfold AddSession. pose proof (sessionConfig_cases req Hr) as Q.
  destruct (sessionConfigFromProto req) as [cfg|e|]; [|done|done].
  unfold createSessionWithSender, CreateSender. set (mh := cfg_Type cfg =? SessionTypeMultiHop).
  destruct srv as [m f ports]. cbn [sv_manager sv_senderFactory sv_senderPorts] in *.
  pose proof (createSender_cases env (cfg_LocalAddr cfg) mh [] f F) as Hc.
  destruct (createSenderForSession _ _ _ _ f) as [[snd|e|] f'] eqn:Es; cbn [mbind go_bind]; [|by subst|done].
  destruct (close_created _ _ _ _ _ _ F Es) as [F' Hclose].
  pose proof (CreateSession_cases cfg ci m (rd_ok _ _ Q) Hi) as Hm.
  destruct (CreateSession cfg ci m) as [[l|e|] m'] eqn:Em; cbn [sv_manager sv_senderFactory]; [| |done].
  - destruct Hm as (d & s & Hcr & -> & ->). rewrite with_session_entry. unfold se_session. cbn [se_thread thread_get].
    destruct (new_session_described req cfg ci m d s Q Hi Hcr) as (Hsnap & _ & <- & _). rewrite Hsnap.
    exists cfg, s, snd. constructor; try done. by exists mh.
  - destruct Hm as [-> _]. by rewrite Hclose.
Qed.

(** The session that was added is found under its discriminator. *)
Lemma added_get ci req srv pb srv' cfg s sd env ord :
  added ci req srv pb srv' cfg s sd env ->
  GetSession ord (IdLocalDiscriminator (s_localDiscr s)) srv' = Ok {| pb with pb_AuthType := AUTHENTICATION_TYPE_NONE |}.
Proof.
  intros [_ _ -> Hm _ _]. unfold GetSession, getSessionByDiscriminator, LookupByDiscriminator. rewrite Hm.
  cbn [with_session m_sessions]. rewrite lookup_insert_eq, with_session_entry. reflexivity.
Qed.

(** Deleting it undoes the addition. *)
Lemma added_delete w ci req srv pb srv' cfg s sd env :
  added ci req srv pb srv' cfg s sd env -> mgr_reachable w -> sv_manager srv = w_m w ->
  factory_ok (sv_senderFactory srv) ->
  exists srv'', DeleteSession (s_localDiscr s) srv' = (Ok tt, srv'') /\
    m_sessions (sv_manager srv'') = m_sessions (sv_manager srv) /\
    m_sessionsByPeer (sv_manager srv'') = m_sessionsByPeer (sv_manager srv) /\
    m_discriminators (sv_manager srv'') = m_discriminators (sv_manager srv) /\
    sv_senderFactory srv'' = sv_senderFactory srv /\ sv_senderPorts srv'' = delete (s_localDiscr s) (sv_senderPorts srv).
Proof.
  intros [_ Hcr _ Hm (mh & Hs) Hp] R Hsrv F. destruct (close_created _ _ _ _ _ _ F Hs) as [_ Hclose].
  rewrite Hsrv in Hcr, Hm.
  destruct (destroy_created w cfg ci _ s (mgr_reachable_inv w R) Hcr) as (m'' & D1 & D2 & D3 & D4 & _ & _ & D5).
  unfold DeleteSession. rewrite Hm, D1. unfold cleanupSender. cbn [sv_senderPorts sv_senderFactory].
  rewrite Hp, lookup_insert_eq. eexists. split; [reflexivity|]. cbn. rewrite Hsrv, Hclose.
  split_and!; try done. by rewrite delete_insert_eq.
Qed.

(** C26: a session added through the API is reported exactly as it was requested,
    under a new discriminator, in state Down, and it is in the list so; read back by its
    discriminator it is the same but for the authentication type, which is reported as
    none whatever was requested; deleting it restores the sessions, the discriminators,
    the source ports and the senders.  A request to add that is refused, for whatever
    reason, leaves the server as it was: no session, no sender and no port.  Adding,
    reading and deleting it do not panic. *)
Theorem api_session_lifecycle (w : World) (srv : BFDServer) (env : SenderEnv) (ci : CreateInput)
    (ord : order Z nat) (req : AddSessionRequest)
    (R : mgr_reachable w) (Hsrv : sv_manager srv = w_m w) (F : factory_ok (sv_senderFactory srv))
    (Hi : input_ok ci) (Hr : request_ok req) (Ho : forall l, ord l ≡ₚ l) :
  match AddSession env ci req srv with
  | (Ok pb, srv') =>
      let d := pb_LocalDiscriminator pb in
      describes req pb /\ 0 < d < 2 ^ 32 /\ m_sessions (sv_manager srv) !! d = None /\
      GetSession ord (IdLocalDiscriminator d) srv' = Ok {| pb with pb_AuthType := AUTHENTICATION_TYPE_NONE |} /\
      pb ∈ ListSessions ord srv' /\ factory_ok (sv_senderFactory srv') /\
      exists srv'', DeleteSession d srv' = (Ok tt, srv'') /\
        m_sessions (sv_manager srv'') = m_sessions (sv_manager srv) /\
        m_sessionsByPeer (sv_manager srv'') = m_sessionsByPeer (sv_manager srv) /\
        m_discriminators (sv_manager srv'') = m_discriminators (sv_manager srv) /\
        sv_senderFactory srv'' = sv_senderFactory srv /\ sv_senderPorts srv'' = delete d (sv_senderPorts srv)
  | (Err _, srv') => srv' = srv
  | (Panic, _) => False
  end.
Proof.
  pose proof (AddSession_cases env ci req srv Hr Hi F) as H.
  destruct (AddSession env ci req srv) as [[pb|e|] srv']; [|done|done].
  destruct H as (cfg & s & sd & A). pose proof (added_get _ _ _ _ _ _ _ _ _ ord A) as Hget.
  pose proof (added_delete w _ _ _ _ _ _ _ _ _ A R Hsrv F) as Hdel. destruct A as [Q Hcr -> Hm (mh & Hs) _]. cbn zeta.
  cbn [pb_LocalDiscriminator snapshotToProto ss_LocalDiscr session_snapshot].
  destruct (new_session_described req cfg ci _ _ s Q Hi Hcr) as (_ & Hde & _ & Hd).
  destruct (close_created _ _ _ _ _ _ F Hs) as [F' _]. rewrite Hsrv in Hcr, Hm.
  destruct (destroy_created w cfg ci _ s (mgr_reachable_inv w R) Hcr) as (m2 & _ & _ & _ & _ & _ & _ & D2).
  split_and!; [done|lia|lia|by rewrite Hsrv|exact Hget| |exact F'|exact Hdel].
  unfold ListSessions. apply list_elem_of_fmap. exists (session_snapshot s). split; [done|].
  unfold Sessions. apply list_elem_of_omap. exists (s_localDiscr s, length (m_entries (w_m w))).
  split; [rewrite Ho; apply elem_of_map_to_list; rewrite Hm; apply lookup_insert_eq|].
  rewrite Hm. cbv beta. change (s_localDiscr s, length (m_entries (w_m w))).2 with (length (m_entries (w_m w))). by rewrite with_session_entry.
Qed.

End Api.

(** ** An example

    Durations as the library's messages hold them: seconds and nanoseconds. *)

Definition clamp (d : Z) : Z :=
  Z.max (- 9223372036854775808) (Z.min 9223372036854775807 d).

Lemma duration_roundtrip d : is_i64 d -> clamp (Z.quot d second * second + Z.rem d second) = d.
Proof.
  intros Hd. pose proof (Z.quot_rem' d second) as H. unfold is_i64, clamp in *. lia.
Qed.

Lemma clamp_range d : is_i64 (clamp d).
Proof. unfold is_i64, clamp. lia. Qed.

#[local] Instance sample_times : ProtoTime :=
  {| Duration := Z * Z; Timestamp := Z * Z;
     AsDuration := fun d => clamp (d.1 * second + d.2);
     NewDuration := fun d => (Z.quot d second, Z.rem d second);
     NewTimestamp := fun t => (t / second, t mod second);
     AsDuration_New := duration_roundtrip; AsDuration_range := fun d => clamp_range _ |}.

Definition sample_request : AddSessionRequest :=
  {| rq_PeerAddress := "192.0.2.7"; rq_LocalAddress := "192.0.2.1"; rq_InterfaceName := "eth2";
     rq_Type := SESSION_TYPE_SINGLE_HOP; rq_DesiredMinTxInterval := Some (0, 300000000);
     rq_RequiredMinRxInterval := None; rq_DetectMultiplier := 3;
     rq_AuthType := AUTHENTICATION_TYPE_KEYED_SHA1; rq_AuthKeyId := 9; rq_AuthSecret := [1; 2; 3] |}.

Definition sample_server : BFDServer := mkBFDServer sample_manager newUDPSenderFactory ∅.

Lemma sample_added :
  match AddSession sample_env (sample_input 6) sample_request sample_server with (Ok _, _) => true | _ => false end = true.
Proof. vm_compute. reflexivity. Qed.

Lemma api_session_lifecycle_witness :
  exists pb srv', AddSession sample_env (sample_input 6) sample_request sample_server = (Ok pb, srv') /\
    pb_PeerAddress pb = "192.0.2.7"%string /\ pb_DetectMultiplier pb = 3 /\
    exists srv'', DeleteSession (pb_LocalDiscriminator pb) srv' = (Ok tt, srv'') /\
      sv_senderFactory srv'' = newUDPSenderFactory.
Proof.
  pose proof (api_session_lifecycle sample_world sample_server sample_env (sample_input 6) id sample_request
    sample_world_reachable eq_refl sample_factory_ok (sample_input_ok 6 ltac:(unfold is_byte; lia))
    ltac:(split; unfold is_u32; cbn; lia) (fun l => reflexivity l)) as H.
  pose proof sample_added as Ha.
  destruct (AddSession sample_env (sample_input 6) sample_request sample_server) as [[pb|e|] srv'];
    [clear Ha|discriminate Ha|discriminate Ha].
  destruct H as (D & _ & _ & _ & _ & _ & srv'' & H1 & _ & _ & _ & H2 & _).
  assert (Hp : default "" (Addr_String <$> ParseAddr (rq_PeerAddress sample_request)) = "192.0.2.7"%string)
    by (vm_compute; reflexivity).
  exists pb, srv'. split; [reflexivity|]. split; [rewrite (de_peer _ _ D); exact Hp|].
  split; [exact (de_mult _ _ D)|]. exists srv''. split; [exact H1|exact H2].
Defined.
