(* ===== verification/ServerFindings.v ===== *)
(** * Where the API does not do what it says

    Executable instances: the authentication of a session is lost when it is read
    by discriminator, the sender of an echo session made through the API, the race
    at the start of an event stream, and error codes. *)

From stdpp Require Import strings relations.
From S2P Require Import Prelude Config Packet Auth Netip NetipParse Session Discriminator Micro Unsolicited Echo.
From S2P Require Import Manager ManagerProps Transport Daemon DaemonProps Server ServerProps.

Local Open Scope Z_scope.

#[local] Existing Instance sample_times.

(** Reading a session by discriminator reports no authentication; the list, and
    reading it by address, report it. *)
Example authentication_forgotten :
  let srv := (AddSession sample_env (sample_input 6) sample_request sample_server).2 in
  let auth r := match r with Ok pb => pb_AuthType pb | _ => 0 end in
  auth (GetSession id (IdLocalDiscriminator 6) srv) = AUTHENTICATION_TYPE_NONE /\
  auth (GetSession id (IdPeerAddress "192.0.2.7") srv) = AUTHENTICATION_TYPE_KEYED_SHA1.
Proof. vm_compute. split; reflexivity. Qed.

Definition echo_request : AddEchoSessionRequest :=
  {| erq_PeerAddress := "192.0.2.7"; erq_LocalAddress := "192.0.2.1"; erq_InterfaceName := "eth2";
     erq_TxInterval := Some (0, 300000000); erq_DetectMultiplier := 3 |}.

Definition echo_server : BFDServer :=
  (AddEchoSession sample_env (sample_input 6).(ci_reads) id echo_request sample_server).2.

(** The sender of an echo session made through the API sends to the port of
    control packets; one made from the configuration sends to the echo port. *)
Example echo_to_control_port :
  ((fun s => us_dstPort s.2) <$> map_to_list (sf_senders (sv_senderFactory echo_server))) = [PortSingleHop] /\
  PortSingleHop <> PortEcho.
Proof. split; [vm_compute; reflexivity|discriminate]. Qed.

(** Its source port stays taken when the session is deleted. *)
Example echo_port_not_released :
  match DeleteEchoSession 6 echo_server with
  | (Ok _, srv) => (map_to_list (m_echoSessions (sv_manager srv)), elements (sp_inUse (sf_portAlloc (sv_senderFactory srv))))
  | _ => ([], [])
  end = ([], [49157]).
Proof. vm_compute. reflexivity. Qed.

(** A session that is not there is reported as not found, an echo session or a group
    that is not there as an internal error. *)
Example codes_of_missing :
  let code r := match r with (Err e, _) => Some (ce_code e) | _ => None end in
  code (DeleteSession 99 sample_server) = Some CodeNotFound /\
  code (DeleteEchoSession 99 sample_server) = Some CodeInternal /\
  code (DeleteMicroBFDGroup "bond9" sample_server) = Some CodeInternal.
Proof. vm_compute. repeat split; reflexivity. Qed.

(** A state change between the current sessions and the subscription is in
    neither: it is not sent to the subscription that follows, whatever it is. *)
Lemma watch_misses_change `{PT : ProtoTime} (srv : BFDServer) (sc : StateChange) m :
  m_subscribers (sv_manager srv) = ∅ ->
  broadcastStateChange sc id (sv_manager srv) = Some m ->
  let '(ch, srv') := WatchSessionEvents_subscribe {| srv with sv_manager := m |} in
  WatchSessionEvents_turn ch srv' = None.
Proof.
  intros Hs. unfold broadcastStateChange. rewrite Hs. intros [= <-].
  unfold WatchSessionEvents_subscribe, SubscribeStateChanges, WatchSessionEvents_turn. cbn.
  by rewrite lookup_app_r, Nat.sub_diag by done.
Qed.
