(* ===== verification/Http.v ===== *)
(** * The HTTP servers ([cmd/gobfd/shutdown.go])

    The set-up of the metrics server and the goroutine that serves.  [ServeMux.Handle]
    of the standard library panics on a pattern it cannot parse and on one that
    conflicts with a registered pattern. *)

From stdpp Require Import strings.
From Stdlib Require Import Ascii.
From S2P Require Import Prelude Netip NetipParse.

Local Open Scope Z_scope.

(** ** Patterns

    A pattern without methods, wildcards and escapes is a host and a path: it is
    accepted exactly if it has a slash, and conflicts with another one exactly if they
    are equal.  What the library says about the other patterns is an input. *)

Record MuxLib := mkMuxLib {
  mx_parses : string -> bool;
  mx_conflict : string -> string -> bool;
}.

Definition plain_pattern (s : string) : bool :=
  forallb (fun c => negb (is_char c " "%char || is_char c (Ascii.ascii_of_nat 9) || is_char c "{"%char
                         || is_char c "%"%char)) (chars_of s).

Definition has_slash (s : string) : bool := existsb (fun c => is_char c "/"%char) (chars_of s).

Definition pattern_ok (lib : MuxLib) (s : string) : bool :=
  if plain_pattern s then has_slash s else mx_parses lib s.

Definition conflictsWith (lib : MuxLib) (p q : string) : bool :=
  if plain_pattern p && plain_pattern q then bool_decide (p = q) else mx_conflict lib p q.

(** The registered patterns with their handlers. *)
Inductive http_handler := PrometheusHandler | FlightRecorderHandler.

Definition ServeMux : Type := list (string * http_handler).

Definition mux_Handle {E} (lib : MuxLib) (pattern : string) (h : http_handler) (mux : ServeMux) : go E ServeMux :=
  if pattern_ok lib pattern && forallb (fun e => negb (conflictsWith lib pattern e.1)) mux
  then Ok (mux ++ [(pattern, h)]) else Panic.

(** ** The metrics server *)

Definition flightRecorderPath : string := "/debug/flightrecorder".

(** [fr]: the flight recorder is running. *)
Definition newMetricsServer {E} (lib : MuxLib) (path : string) (fr : bool) : go E ServeMux :=
  mux ← mux_Handle lib path PrometheusHandler [];
  if fr then mux_Handle lib flightRecorderPath FlightRecorderHandler mux else Ok mux.

(** ** Serving *)

Inductive serve_end := ErrServerClosed | ErrServe.

Inductive http_error := ErrListen | ErrServeOn.

(** [listen] and [serve]: what the system and the server answer. *)
Definition listenAndServe (listen : bool) (serve : option serve_end) : go http_error unit :=
  if negb listen then Err ErrListen else
  match serve with
  | Some ErrServe => Err ErrServeOn
  | _ => Ok tt
  end.

(** ** Lemmas *)

Lemma newMetricsServer_cases {E} lib path fr :
  (newMetricsServer lib path fr : go E ServeMux) = Panic \/
  (newMetricsServer lib path fr : go E ServeMux)
  = Ok ((path, PrometheusHandler) :: if fr then [(flightRecorderPath, FlightRecorderHandler)] else []).
Proof.
  unfold newMetricsServer, mux_Handle. destruct (pattern_ok lib path && _); [|by left]. cbn [go_bind mbind app].
  destruct fr; [|by right]. destruct (pattern_ok lib flightRecorderPath && _); [by right|by left].
Qed.

(** On a plain path the server is set up exactly if the path has a slash and is not
    the one of the flight recorder. *)
Lemma newMetricsServer_plain {E} lib path fr : plain_pattern path = true ->
  (newMetricsServer lib path fr : go E ServeMux) = Panic <->
  has_slash path = false \/ (fr = true /\ path = flightRecorderPath).
Proof.
  intros Hp. unfold newMetricsServer, mux_Handle, pattern_ok. rewrite Hp. cbn [forallb]. rewrite andb_true_r.
  destruct (has_slash path) eqn:Hs; cbn [mbind go_bind app]; [|split; [by left|done]].
  destruct fr; [|split; [done|intros [?|[? _]]; done]].
  change (plain_pattern flightRecorderPath) with true. change (has_slash flightRecorderPath) with true.
  cbn [andb forallb fst]. unfold conflictsWith. change (plain_pattern flightRecorderPath) with true. rewrite Hp. cbn [andb].
  destruct (bool_decide_reflect (flightRecorderPath = path)) as [<-|Hne]; cbn; [naive_solver|].
  split; [done|]. intros [?|[_ ->]]; done.
Qed.
