(* ===== verification/Rpc.v ===== *)
(** * The RPC endpoint ([internal/server/interceptors.go], [newGRPCServer])

    The unary procedures of the three services behind one endpoint, each wrapped in
    the logging and the recovery interceptor, as the daemon serves them.
    [newGRPCServer_handled] is what the endpoint promises to the daemon. *)

From stdpp Require Import strings relations.
From S2P Require Import Prelude Config Packet Fsm Auth Netip NetipParse Jitter Session SessionInv SessionSteps.
From S2P Require Import SessionProps SessionFrame Discriminator Micro Unsolicited Echo Manager ManagerSteps ManagerInv.
From S2P Require Import ManagerOps ManagerProps Transport Daemon DaemonProps Server ServerProps.

Local Open Scope Z_scope.

Section Endpoint.
Context `{PT : ProtoTime}.

(** ** The procedures *)

Inductive rpc_request :=
| ReqAddSession (req : AddSessionRequest)
| ReqDeleteSession (discr : Z)
| ReqListSessions
| ReqGetSession (id : session_identifier)
| ReqAddEchoSession (req : AddEchoSessionRequest)
| ReqDeleteEchoSession (discr : Z)
| ReqListEchoSessions
| ReqAddMicroBFDGroup (req : AddMicroBFDGroupRequest)
| ReqDeleteMicroBFDGroup (lagInterface : string)
| ReqListMicroBFDGroups.

Inductive rpc_response :=
| RespEmpty
| RespSession (s : BfdSession)
| RespSessions (l : list BfdSession)
| RespEchoSession (s : EchoSessionPb)
| RespEchoSessions (l : list EchoSessionPb)
| RespMicroBFDGroup (g : MicroBFDGroupPb)
| RespMicroBFDGroups (l : list MicroBFDGroupPb).

Definition Procedure (req : rpc_request) : string :=
  match req with
  | ReqAddSession _ => "/bfd.v1.BfdService/AddSession"
  | ReqDeleteSession _ => "/bfd.v1.BfdService/DeleteSession"
  | ReqListSessions => "/bfd.v1.BfdService/ListSessions"
  | ReqGetSession _ => "/bfd.v1.BfdService/GetSession"
  | ReqAddEchoSession _ => "/bfd.v1.EchoService/AddEchoSession"
  | ReqDeleteEchoSession _ => "/bfd.v1.EchoService/DeleteEchoSession"
  | ReqListEchoSessions => "/bfd.v1.EchoService/ListEchoSessions"
  | ReqAddMicroBFDGroup _ => "/bfd.v1.MicroBFDService/AddMicroBFDGroup"
  | ReqDeleteMicroBFDGroup _ => "/bfd.v1.MicroBFDService/DeleteMicroBFDGroup"
  | ReqListMicroBFDGroups => "/bfd.v1.MicroBFDService/ListMicroBFDGroups"
  end.

(** The inputs of a call: system calls, random bytes, map orders and the clock. *)
Record RpcInput := mkRpcInput {
  ri_env : SenderEnv;
  ri_create : CreateInput;
  ri_reads : reads;
  ri_ord : order Z nat;
  ri_ordg : order string MicroBFDGroup;
  ri_ordm : order string memberEntry;
  ri_duration : Z;
}.

Record log_line := mkLogLine {
  lg_level : log_level;
  lg_procedure : string;
  lg_duration : option Z;
  lg_error : option connect_error;
}.

(** A handler: its answer, the server after it and the lines it logged. *)
Definition UnaryFunc : Type :=
  RpcInput -> rpc_request -> BFDServer -> go connect_error rpc_response * BFDServer * list log_line.

Definition respond {A} (f : A -> rpc_response) (r : go connect_error A * BFDServer)
    : go connect_error rpc_response * BFDServer * list log_line :=
  (match r.1 with Ok a => Ok (f a) | Err e => Err e | Panic => Panic end, r.2, []).

(** The handlers that the three services register. *)
Definition service_handler : UnaryFunc := fun inp req srv =>
  match req with
  | ReqAddSession req => respond RespSession (AddSession (ri_env inp) (ri_create inp) req srv)
  | ReqDeleteSession discr => respond (fun _ => RespEmpty) (DeleteSession discr srv)
  | ReqListSessions => respond RespSessions (Ok (ListSessions (ri_ord inp) srv), srv)
  | ReqGetSession id => respond RespSession (GetSession (ri_ord inp) id srv, srv)
  | ReqAddEchoSession req =>
      respond RespEchoSession (AddEchoSession (ri_env inp) (ri_reads inp) (ri_ord inp) req srv)
  | ReqDeleteEchoSession discr => respond (fun _ => RespEmpty) (DeleteEchoSession discr srv)
  | ReqListEchoSessions => respond RespEchoSessions (Ok (ListEchoSessions (ri_ord inp) srv), srv)
  | ReqAddMicroBFDGroup req => respond RespMicroBFDGroup (AddMicroBFDGroup (ri_ordg inp) (ri_ordm inp) req srv)
  | ReqDeleteMicroBFDGroup lag => respond (fun _ => RespEmpty) (DeleteMicroBFDGroup lag srv)
  | ReqListMicroBFDGroups =>
      respond RespMicroBFDGroups (Ok (ListMicroBFDGroups (ri_ordg inp) (ri_ordm inp) srv), srv)
  end.

(** ** Interceptors *)

Definition LoggingInterceptor (next : UnaryFunc) : UnaryFunc := fun inp req srv =>
  match next inp req srv with
  | (Ok resp, srv, log) =>
      (Ok resp, srv, log ++ [mkLogLine LevelInfo (Procedure req) (Some (ri_duration inp)) None])
  | (Err e, srv, log) =>
      (Err e, srv, log ++ [mkLogLine LevelWarn (Procedure req) (Some (ri_duration inp)) (Some e)])
  | (Panic, srv, log) => (Panic, srv, log)
  end.

Definition RecoveryInterceptor (next : UnaryFunc) : UnaryFunc := fun inp req srv =>
  match next inp req srv with
  | (Panic, srv, log) =>
      (Err (mkConnectError CodeInternal (ErrPanicRecovered (Procedure req))), srv,
       log ++ [mkLogLine LevelError (Procedure req) None None])
  | r => r
  end.

(** The first interceptor of the options is the outermost. *)
Definition newGRPCServer : UnaryFunc := LoggingInterceptor (RecoveryInterceptor service_handler).

(** ** Requests

    Fields of the widths of their types; the interval of an echo session below
    2 ^ 55 nanoseconds (417 days), so that its detection time fits. *)
Definition rpc_request_ok (req : rpc_request) : Prop :=
  match req with
  | ReqAddSession req => request_ok req
  | ReqAddEchoSession req =>
      is_u32 (erq_DetectMultiplier req) /\ forall d, erq_TxInterval req = Some d -> AsDuration d < 2 ^ 55
  | _ => True
  end.

Definition rpc_input_ok (inp : RpcInput) : Prop :=
  input_ok (ri_create inp) /\ reads_ok (ri_reads inp).

(** What a handler does: it answers, the manager makes steps, the senders keep their
    ports. *)
Definition handled {A} (ds : list Z) (n : nat) (srv : BFDServer) (r : go connect_error A * BFDServer) : Prop :=
  r.1 <> Panic /\ steps ds n (sv_manager srv) (sv_manager r.2) /\ factory_ok (sv_senderFactory r.2).

Lemma handled_same {A} ds n srv (r : go connect_error A) :
  r <> Panic -> factory_ok (sv_senderFactory srv) -> handled ds n srv (r, srv).
Proof. intros Hr F. split_and!; [done|apply rtc_refl|done]. Qed.

Lemma CloseSender_factory_ok p f : factory_ok f -> factory_ok (CloseSender p f).2.
Proof.
  intros [Hp Hs]. unfold CloseSender. destruct (sf_senders f !! p) eqn:E; [|by split]. cbn [snd].
  split; cbn [sf_portAlloc sf_senders].
  - destruct Hp as [Hsp Hr]. split; [done|]. unfold ReleasePort. cbn. intros q Hq. apply Hr. set_solver.
  - intros q Hq. destruct (decide (q = p)) as [->|Hne]; [rewrite lookup_delete_eq in Hq; by destruct Hq|].
    rewrite lookup_delete_ne in Hq by done. specialize (Hs q Hq). unfold ReleasePort. cbn. set_solver.
Qed.

Lemma cleanupSender_factory_ok d srv :
  factory_ok (sv_senderFactory srv) ->
  factory_ok (sv_senderFactory (cleanupSender d srv)) /\ sv_manager (cleanupSender d srv) = sv_manager srv.
Proof.
  intros F. unfold cleanupSender. destruct (sv_senderPorts srv !! d); [|done].
  split; [by apply CloseSender_factory_ok|done].
Qed.

(** ** The handlers *)

Lemma created_CreateSession cfg ci m d s :
  cfg_ok cfg -> input_ok ci -> created cfg ci m d s ->
  CreateSession cfg ci m = (Ok (length (m_entries m)), with_session (key_of cfg) d s m).
Proof.
  intros Hc Hi (Hv & Hk & (a & Ha) & Hn). pose proof (CreateSession_cases cfg ci m Hc Hi) as H.
  destruct (CreateSession cfg ci m) as [[l|e|] m']; [| |done].
  - destruct H as (d' & s' & (_ & _ & (a' & Ha') & Hn') & -> & ->). congruence.
  - destruct H as [_ [[_ H]|[[_ H]|[(ea & _ & a' & H)|(es & d' & _ & H & a' & Ha')]]]];
      [congruence|rewrite Hk in H; by destruct H|congruence..].
Qed.

Lemma AddSession_handled env ci req srv ds n :
  request_ok req -> input_ok ci -> factory_ok (sv_senderFactory srv) -> handled ds n srv (AddSession env ci req srv).
Proof.
  intros Hr Hi F. pose proof (AddSession_cases env ci req srv Hr Hi F) as H.
  destruct (AddSession env ci req srv) as [[pb|e|] srv']; [|subst; by apply handled_same|done].
  destruct H as (cfg & s & sd & [Q Hcr _ Hm (mh & Hs) _]).
  destruct (close_created _ _ _ _ _ _ F Hs) as [F' _]. split_and!; [done| |done]. cbn [snd]. rewrite Hm.
  pose proof (CreateSession_call cfg ci (sv_manager srv) ds n (rd_ok _ _ Q) Hi) as Hc.
  by rewrite (created_CreateSession _ _ _ _ _ (rd_ok _ _ Q) Hi Hcr) in Hc.
Qed.

Lemma DeleteSession_handled d srv ds n :
  mgr_inv (mkWorld (sv_manager srv) ds n) -> factory_ok (sv_senderFactory srv) ->
  handled ds n srv (DeleteSession d srv).
Proof.
  intros I F. unfold DeleteSession. pose proof (DestroySession_call d _ _ _ I) as H. unfold call_ok in H.
  destruct (DestroySession d (sv_manager srv)) as [[u|e|] m']; [|by split|done].
  destruct (cleanupSender_factory_ok d {| srv with sv_manager := m' |} F) as [F' Hm].
  split_and!; [done| |done]. cbn [snd]. by rewrite Hm.
Qed.

Lemma echoConfig_cases req :
  rpc_request_ok (ReqAddEchoSession req) ->
  match echoSessionConfigFromProto req with Ok cfg => echo_cfg_ok cfg | Err _ => True | Panic => False end.
Proof.
  intros [Hm Ht]. unfold echoSessionConfigFromProto, parse_required, parse_optional, parse_required.
  destruct (ParseAddr (erq_PeerAddress req)); [|done]. cbn [mbind go_bind].
  assert (Hrest : forall peer loc, match
    match erq_TxInterval req with
    | None => Err ErrEchoTxIntervalRequired
    | Some d =>
        if AsDuration d <=? 0 then Err ErrEchoTxIntervalRequired else
        if erq_DetectMultiplier req =? 0 then Err ErrEchoDetectMultZero else
        if 255 <? erq_DetectMultiplier req then Err ErrDetectMultOverflow else
        Ok {| ec_PeerAddr := peer; ec_LocalAddr := loc; ec_Interface := erq_InterfaceName req;
              ec_TxInterval := AsDuration d; ec_DetectMultiplier := u8 (erq_DetectMultiplier req) |}
    end with Ok cfg => echo_cfg_ok cfg | Err _ => True | Panic => False end).
  { intros peer loc. destruct (erq_TxInterval req) as [d|]; [|done]. specialize (Ht d eq_refl).
    destruct (_ <=? 0); [done|]. destruct (_ =? 0); [done|]. destruct (255 <? _); [done|].
    unfold echo_cfg_ok, u8. cbn [ec_DetectMultiplier ec_TxInterval].
    pose proof (Z.mod_pos_bound (erq_DetectMultiplier req) (2 ^ 8) ltac:(lia)).
    change (2 ^ 8) with 256 in *. change (2 ^ 55) with 36028797018963968 in *.
    change (2 ^ 63) with 9223372036854775808. nia. }
  case_bool_decide; [apply Hrest|]. destruct (ParseAddr _); [apply Hrest|done].
Qed.

Lemma AddEchoSession_handled env rd ord req srv ds n :
  rpc_request_ok (ReqAddEchoSession req) -> reads_ok rd -> factory_ok (sv_senderFactory srv) ->
  handled ds n srv (AddEchoSession env rd ord req srv).
Proof.
  intros Hr Hrd F. unfold AddEchoSession. pose proof (echoConfig_cases req Hr) as Hc.
  destruct (echoSessionConfigFromProto req) as [cfg|e|]; [|by apply handled_same|done].
  unfold CreateSender. pose proof (createSender_cases env (ec_LocalAddr cfg) false [] _ F) as Hs.
  destruct (createSenderForSession _ _ _ _ _) as [[sd|e|] f']; cbn [mbind go_bind]; [| |done].
  - destruct Hs as [F' _]. pose proof (CreateEchoSession_call cfg rd (sv_manager srv) ds n Hc Hrd) as H.
    cbn [sv_manager]. destruct (CreateEchoSession cfg rd (sv_manager srv)) as [[d|e|] m']; [|by split|done].
    split_and!; [by destruct (List.find _ _)|exact H|exact F'].
  - subst f'. split_and!; [done|apply rtc_refl|exact F].
Qed.

Lemma AddMicroBFDGroup_handled ord ordm req srv ds n :
  factory_ok (sv_senderFactory srv) -> handled ds n srv (AddMicroBFDGroup ord ordm req srv).
Proof.
  intros F. unfold AddMicroBFDGroup. destruct (microBFDConfigFromProto req) as [cfg|e|] eqn:E; [|by apply handled_same|].
  - pose proof (CreateMicroBFDGroup_call cfg (sv_manager srv) ds n) as H. unfold call_ok in H.
    destruct (CreateMicroBFDGroup cfg (sv_manager srv)) as [[u|e|] m']; [|by split|done].
    split_and!; [by destruct (List.find _ _)|done|done].
  - unfold microBFDConfigFromProto, parse_required, parse_optional, parse_required in E.
    repeat case_match; cbn in *; simplify_eq.
Qed.

Lemma GetSession_no_panic ord id srv ds n :
  mgr_inv (mkWorld (sv_manager srv) ds n) -> GetSession ord id srv <> Panic.
Proof.
  intros I. unfold GetSession, getSessionByPeerAddress, getSessionByDiscriminator, LookupByDiscriminator.
  destruct id as [|d|addr]; [done| |by repeat case_match].
  destruct (m_sessions (sv_manager srv) !! d) as [l|] eqn:Hl; [|done].
  destruct (m_entries (sv_manager srv) !! l) as [en|] eqn:He; [done|].
  destruct (mo_sessions _ (mi_maps _ I) d l Hl) as (en & He' & _). cbn in He'. congruence.
Qed.

(** ** The endpoint *)

Lemma respond_handled {A} ds n srv (f : A -> rpc_response) r :
  handled ds n srv r -> handled ds n srv (respond f r).1.
Proof. destruct r as [[a|e|] srv']; intros (H & ? & ?); [by split_and!..|done]. Qed.

Lemma service_handled inp req srv ds n :
  rpc_request_ok req -> rpc_input_ok inp -> mgr_inv (mkWorld (sv_manager srv) ds n) ->
  factory_ok (sv_senderFactory srv) ->
  handled ds n srv (service_handler inp req srv).1 /\ (service_handler inp req srv).2 = [].
Proof.
  intros Hr [Hi Hrd] I F. destruct req; (split; [|done]); apply respond_handled; try by apply handled_same.
  - by apply AddSession_handled.
  - by apply DeleteSession_handled.
  - apply handled_same; [by eapply GetSession_no_panic|done].
  - by apply AddEchoSession_handled.
  - unfold DeleteEchoSession. pose proof (DestroyEchoSession_call discr (sv_manager srv) ds n) as H. unfold call_ok in H.
    destruct (DestroyEchoSession _ _) as [[u|e|] m']; [by split|by split|done].
  - by apply AddMicroBFDGroup_handled.
  - unfold DeleteMicroBFDGroup. case_bool_decide; [by apply handled_same|].
    pose proof (DestroyMicroBFDGroup_call lagInterface (sv_manager srv) ds n) as Hc. unfold call_ok in Hc.
    destruct (DestroyMicroBFDGroup _ _) as [[u|e|] m']; [by split|by split|done].
Qed.

(** The line the endpoint logs for an answer. *)
Definition answer_line (inp : RpcInput) (req : rpc_request) (r : go connect_error rpc_response) : log_line :=
  match r with
  | Err e => mkLogLine LevelWarn (Procedure req) (Some (ri_duration inp)) (Some e)
  | _ => mkLogLine LevelInfo (Procedure req) (Some (ri_duration inp)) None
  end.

(** The interceptors around any handler: its answer passes unchanged with one line in
    the log; a panic becomes an internal error, with the panic logged before it. *)
Lemma interceptors_spec (next : UnaryFunc) inp req srv :
  let '(r, srv', log) := next inp req srv in
  let recovered := Err (mkConnectError CodeInternal (ErrPanicRecovered (Procedure req))) in
  LoggingInterceptor (RecoveryInterceptor next) inp req srv =
    match r with
    | Panic => (recovered, srv',
                (log ++ [mkLogLine LevelError (Procedure req) None None]) ++ [answer_line inp req recovered])
    | _ => (r, srv', log ++ [answer_line inp req r])
    end.
Proof. unfold LoggingInterceptor, RecoveryInterceptor. by destruct (next inp req srv) as [[[a|e|] srv'] log]. Qed.

Lemma newGRPCServer_handled inp req srv ds n :
  rpc_request_ok req -> rpc_input_ok inp -> mgr_inv (mkWorld (sv_manager srv) ds n) ->
  factory_ok (sv_senderFactory srv) ->
  exists r srv', newGRPCServer inp req srv = (r, srv', [answer_line inp req r]) /\ handled ds n srv (r, srv').
Proof.
  intros Hr Hi I F. destruct (service_handled inp req srv ds n Hr Hi I F) as [H Hl].
  pose proof (interceptors_spec service_handler inp req srv) as E. unfold newGRPCServer.
  destruct (service_handler inp req srv) as [[r srv'] log]. cbn in H, Hl, E. subst log.
  exists r, srv'. split; [|done]. rewrite E. destruct r; [done|done|by destruct H].
Qed.

End Endpoint.
