(* ===== verification/Start.v ===== *)
(** * Start and run of the daemon ([cmd/gobfd/main.go], [handlers.go])

    From the configuration to the running daemon and back to the end of the process:
    [startServers] is the part of [runServers] before the daemon is ready, [stopServers]
    what happens once it is told to stop, [daemon_step] what it does in between: calls
    of the API, reloads, and the steps of the manager's goroutines. *)

From stdpp Require Import strings relations gmap.
From S2P Require Import Prelude Config Packet Fsm Auth Netip NetipParse Jitter Session SessionInv SessionSteps.
From S2P Require Import SessionProps SessionFrame Discriminator Micro Unsolicited Echo Manager ManagerSteps ManagerInv.
From S2P Require Import ManagerOps ManagerProps ManagerCalls Shutdown Bgp Overlay Transport Lag Daemon Listeners.
From S2P Require Import LagEnforce DaemonProps Server ServerProps Strconv Sdnotify Http Rpc.

Local Open Scope Z_scope.

Inductive start_error :=
| ErrLoadConfig
| ErrNewManager (e : daemon_error)
| ErrCreateListeners (e : netio_error)
| ErrStartGoBGP (e : bgp_error).

(** [load] reads and validates a file. *)
Definition loadConfig (load : string -> option Config) (path : string) : go start_error Config :=
  if negb (bool_decide (path = "")) then
    match load path with Some cfg => Ok cfg | None => Err ErrLoadConfig end
  else Ok DefaultConfig.

(** [None]: the integration is disabled. *)
Definition startGoBGPHandler (files : string -> ca_file) (target : string -> bool) (cfg : GoBGPConfig)
    : go bgp_error (option Handler) :=
  if negb (gb_Enabled cfg) then Ok None else
  client ← NewGRPCClient files target
    {| gcc_Addr := gb_Addr cfg;
       gcc_TLS := {| gt_Enabled := tls_Enabled (gb_TLS cfg); gt_CAFile := tls_CAFile (gb_TLS cfg);
                     gt_ServerName := tls_ServerName (gb_TLS cfg) |} |};
  handler ← NewHandler
    {| hc_Client := client; hc_Strategy := gb_Strategy cfg;
       hc_Dampening := {| dc_Enabled := gd_Enabled (gb_Dampening cfg);
                          dc_SuppressThreshold := gd_SuppressThreshold (gb_Dampening cfg);
                          dc_ReuseThreshold := gd_ReuseThreshold (gb_Dampening cfg);
                          dc_MaxSuppressTime := gd_MaxSuppressTime (gb_Dampening cfg);
                          dc_HalfLife := gd_HalfLife (gb_Dampening cfg) |};
       hc_ActionTimeout := gb_ActionTimeout cfg |};
  Ok (Some handler).

Definition closeGoBGPClient (handler : option Handler) : option Handler :=
  (fun h => {| h with h_client := Client_Close (h_client h) |}) <$> handler.

(** The messages to the service manager; errors are logged. *)
Definition notifyReady (env : ProcessEnv) (sys : NotifySys) : list (string * string) := option_list (Notify env sys Ready).2.
Definition notifyStopping (env : ProcessEnv) (sys : NotifySys) : list (string * string) := option_list (Notify env sys Stopping).2.

(** The inputs of the start: the HTTP library, whether the flight recorder starts, the
    process environment, the host's link aggregation, system calls, random numbers and
    map orders. *)
Record StartInput (W : Type) := mkStartInput {
  st_mux : MuxLib;
  st_recorder : bool;
  st_env : ProcessEnv;
  st_notify : NotifySys;
  st_lag : LagEnv W;
  st_unsolicited : SenderEnv;
  st_interfaces : order string Config.UnsolicitedInterfaceConfig;
  st_sockets : SocketEnv;
  st_files : string -> ca_file;
  st_target : string -> bool;
  st_vxlan : option Z * bool;
  st_geneve : option Z * bool;
  st_sessions : ReloadInput;
}.
Arguments mkStartInput {W}.
Arguments st_mux {W}.
Arguments st_recorder {W}.
Arguments st_env {W}.
Arguments st_notify {W}.
Arguments st_lag {W}.
Arguments st_unsolicited {W}.
Arguments st_interfaces {W}.
Arguments st_sockets {W}.
Arguments st_files {W}.
Arguments st_target {W}.
Arguments st_vxlan {W}.
Arguments st_geneve {W}.
Arguments st_sessions {W}.

Section Start.
Context `{PT : ProtoTime} {W : Type}.

(** The running daemon: the server's manager and sender factory are the daemon's. *)
Record Running := mkRunning {
  rn_server : BFDServer;
  rn_receivers : list receiver;
  rn_lnCleanup : Sockets -> Sockets;
  rn_overlay : overlayRuntime;
  rn_bgp : option Handler;
  rn_metrics : ServeMux;
  rn_notified : list (string * string);
}.

(** The second result are the sockets; on an error the deferred cleanup has run.  The
    watchdog's goroutine ends the process when it panics, which it does, if at all,
    before its first tick. *)
Definition startServers (inp : StartInput W) (cfg : Config) (mgr : Manager) (sk : Sockets)
    : go start_error Running * Sockets :=
  match newMetricsServer (st_mux inp) (c_Metrics_Path cfg) (st_recorder inp) with
  | Panic => (Panic, sk)
  | Err e => (Err e, sk)
  | Ok metricsSrv =>
      match startListenersAndReceivers (st_sockets inp) cfg sk with
      | (Panic, sk) => (Panic, sk)
      | (Err e, sk) => (Err (ErrCreateListeners e), sk)
      | (Ok (receivers, lnCleanup), sk) =>
          match startGoBGPHandler (st_files inp) (st_target inp) (c_GoBGP cfg) with
          | Panic => (Panic, sk)
          | Err e => (Err (ErrStartGoBGP e), lnCleanup sk)
          | Ok bgp =>
              match startOverlayReceivers cfg (st_vxlan inp).1 (st_geneve inp).1 (st_vxlan inp).2 (st_geneve inp).2
                      newUDPSenderFactory, runWatchdog (st_env inp) 0 [] with
              | None, _ | _, Panic => (Panic, sk)
              | Some (overlay, sf), _ =>
                  match reconcileAllSessions cfg overlay (st_sessions inp) (mkDaemonState mgr sf) with
                  | None => (Panic, sk)
                  | Some d =>
                      (Ok {| rn_server := mkBFDServer (d_mgr d) (d_sf d) ∅; rn_receivers := receivers;
                             rn_lnCleanup := lnCleanup; rn_overlay := overlay; rn_bgp := bgp;
                             rn_metrics := metricsSrv; rn_notified := notifyReady (st_env inp) (st_notify inp) |}, sk)
                  end
              end
          end
      end
  end.

(** The part of [run] up to the running servers. *)
Definition run_start (inp : StartInput W) (load : string -> option Config) (path : string) (sk : Sockets)
    : go start_error Running * Sockets :=
  match loadConfig load path with
  | Panic => (Panic, sk)
  | Err e => (Err e, sk)
  | Ok cfg =>
      match newManager (st_lag inp) (st_unsolicited inp) (st_interfaces inp) cfg with
      | Panic => (Panic, sk)
      | Err e => (Err (ErrNewManager e), sk)
      | Ok (mgr, _, _) => startServers inp cfg mgr sk
      end
  end.

Definition overlayCleanup (rt : overlayRuntime) : overlayRuntime :=
  mkOverlayRuntime (VXLAN_Close <$> or_vxlan rt) (Geneve_Close <$> or_geneve rt).

(** The shutdown goroutine, and, once every goroutine has ended, the deferred calls of
    [runServers] and [run].  [failed]: some goroutine returned an error; the first
    result is the exit code. *)
Definition stopServers (env : ProcessEnv) (sys : NotifySys) (ord ords orde : order Z nat) (sleep : Manager -> option Manager) (servers : list bool)
    (failed : bool) (rn : Running) (sk : Sockets) : option (Z * Running * Sockets) :=
  '(r, m) ← gracefulShutdown ord ords orde sleep servers (sv_manager (rn_server rn));
  let overlay := overlayCleanup (rn_overlay rn) in
  let bgp := closeGoBGPClient (rn_bgp rn) in
  let sk := rn_lnCleanup rn sk in
  m ← Close ords orde m;
  let code := if failed then 1 else match r with Ok _ => 0 | _ => 1 end in
  Some (code, {| rn_server := {| (rn_server rn) with sv_manager := m |}; rn_receivers := rn_receivers rn;
                 rn_lnCleanup := rn_lnCleanup rn; rn_overlay := overlay; rn_bgp := bgp; rn_metrics := rn_metrics rn;
                 rn_notified := rn_notified rn ++ notifyStopping env sys |}, sk).

(** ** The daemon at work

    The manager with the calls in progress, and the server. *)

Definition in_world (w : World) (m : Manager) : World := mkWorld m (w_discrs w) (w_slots w).

Definition reload (loaded : option Config) (rt : overlayRuntime) (inp : ReloadInput) (srv : BFDServer)
    : option BFDServer :=
  d ← reloadConfig loaded rt inp (mkDaemonState (sv_manager srv) (sv_senderFactory srv));
  Some {| srv with sv_manager := d_mgr d; sv_senderFactory := d_sf d |}.

Inductive daemon_step (rt : overlayRuntime) : World * BFDServer -> World * BFDServer -> Prop :=
| dm_call inp req w srv r srv' log :
    rpc_request_ok req -> rpc_input_ok inp -> newGRPCServer inp req srv = (r, srv', log) ->
    daemon_step rt (w, srv) (in_world w (sv_manager srv'), srv')
| dm_reload loaded inp w srv srv' :
    (forall cfg, loaded = Some cfg -> config_ok cfg) -> reload_input_ok inp -> reload loaded rt inp srv = Some srv' ->
    daemon_step rt (w, srv) (in_world w (sv_manager srv'), srv')
| dm_other w w' srv :
    mgr_step w w' -> daemon_step rt (w, srv) (w', {| srv with sv_manager := w_m w' |}).

(** What holds in every state of the daemon. *)
Definition daemon_ok (s : World * BFDServer) : Prop :=
  mgr_reachable s.1 /\ sv_manager s.2 = w_m s.1 /\ factory_ok (sv_senderFactory s.2).

Lemma world_eta w srv : sv_manager srv = w_m w -> in_world w (sv_manager srv) = w.
Proof. intros ->. by destruct w. Qed.

Lemma daemon_inv w srv :
  daemon_ok (w, srv) -> mgr_inv (mkWorld (sv_manager srv) (w_discrs w) (w_slots w)).
Proof. intros (R & E & _). apply mgr_reachable_inv. cbn in *. change (mgr_reachable (in_world w (sv_manager srv))). by rewrite world_eta. Qed.

Lemma daemon_moves w srv srv' :
  daemon_ok (w, srv) -> steps (w_discrs w) (w_slots w) (sv_manager srv) (sv_manager srv') ->
  factory_ok (sv_senderFactory srv') -> daemon_ok (in_world w (sv_manager srv'), srv').
Proof.
  intros (R & E & _) S F. cbn in *. split_and!; [|done|apply F..]. eapply steps_reachable; [|exact S].
  change (mgr_reachable (in_world w (sv_manager srv))). by rewrite world_eta.
Qed.

Lemma reload_ok loaded rt inp w srv :
  daemon_ok (w, srv) -> (forall cfg, loaded = Some cfg -> config_ok cfg) -> reload_input_ok inp ->
  exists srv', reload loaded rt inp srv = Some srv' /\ daemon_ok (in_world w (sv_manager srv'), srv').
Proof.
  intros D Hc Hi. pose proof (daemon_inv _ _ D) as I. pose proof D as (_ & _ & F). unfold reload.
  destruct (reloadConfig_ok loaded rt inp (mkDaemonState (sv_manager srv) (sv_senderFactory srv))
    (w_discrs w) (w_slots w) I F Hc Hi) as (d & -> & S & F'). cbn [mbind option_bind].
  eexists. split; [reflexivity|]. by apply daemon_moves with (srv := srv).
Qed.

Lemma daemon_step_ok rt s s' : daemon_step rt s s' -> daemon_ok s -> daemon_ok s'.
Proof.
  intros [inp req w srv r srv' log Hr Hi E|loaded inp w srv srv' Hc Hi E|w w' srv Hs] D.
  - destruct (newGRPCServer_handled inp req srv _ _ Hr Hi (daemon_inv _ _ D) (proj2 (proj2 D))) as (r' & srv'' & E' & _ & S & F).
    assert (srv'' = srv') as -> by congruence. by apply daemon_moves with (srv := srv).
  - destruct (reload_ok loaded rt inp w srv D Hc Hi) as (srv'' & E' & D'). by assert (srv'' = srv') as -> by congruence.
  - destruct D as ((p & hs & ha & Hok & Hr) & E & F). split_and!; [|done|apply F..]. exists p, hs, ha. split; [done|].
    by eapply rtc_r.
Qed.

Lemma daemon_steps_ok rt s s' : rtc (daemon_step rt) s s' -> daemon_ok s -> daemon_ok s'.
Proof. induction 1 as [|s1 s2 s3 H _ IH]; [done|]. intros D. by apply IH, (daemon_step_ok rt s1). Qed.

(** ** The start *)

Lemma go_bind_no_panic {E A B} (r : go E A) (f : A -> go E B) :
  r <> Panic -> (forall a, r = Ok a -> f a <> Panic) -> (a ← r; f a) <> Panic.
Proof. destruct r; cbn; [|done..]. intros _ H. by apply H. Qed.

Lemma wrap_no_panic {E F A} (f : E -> F) (r : go E A) : r <> Panic -> wrap f r <> Panic.
Proof. by destruct r. Qed.

Lemma normalizeLAG_no_panic cfg : normalizeLAGActuatorConfig cfg <> Panic.
Proof.
  unfold normalizeLAGActuatorConfig, validateLAGActuatorMode, validateLAGActuatorBackend, validateLAGOwnerPolicy,
    validateLAGActuatorAction, when_err.
  repeat (apply go_bind_no_panic; [by case_match|intros ? _]). done.
Qed.

Lemma buildActuator_no_panic (env : LagEnv W) cfg : buildMicroBFDActuator env cfg <> Panic.
Proof.
  unfold buildMicroBFDActuator. case_bool_decide; [done|]. cbv zeta. apply go_bind_no_panic; [|intros b _; apply go_bind_no_panic; [|done]].
  - case_bool_decide; [|done]. apply wrap_no_panic, go_bind_no_panic; [|done]. unfold NewLAGActuatorBackend.
    apply go_bind_no_panic; [apply normalizeLAG_no_panic|]. intros n _. unfold when_err. by repeat (case_match || cbn).
  - apply wrap_no_panic. unfold NewLAGActuator. apply go_bind_no_panic; [apply normalizeLAG_no_panic|]. intros n _. by case_match.
Qed.

Lemma buildPolicy_cases ord cfg :
  match buildUnsolicitedPolicy ord cfg with Ok p => policy_ok p | Err _ => True | Panic => False end.
Proof.
  unfold buildUnsolicitedPolicy.
  assert (Hp : forall l, parse_prefixes l <> Panic).
  { induction l as [|s l IH]; cbn; [done|]. case_match; [|done]. by apply go_bind_no_panic. }
  assert (Hb : forall l acc, build_interfaces l acc <> Panic).
  { induction l as [|[name c] l IH]; intros acc; cbn; [done|]. apply go_bind_no_panic; [done|]. intros; apply IH. }
  specialize (Hb (ord (map_to_list (uc_Interfaces cfg))) ∅). destruct (build_interfaces _ _); cbn; [|done..].
  destruct (255 <? _); [done|]. unfold policy_ok, is_u8, u8. cbn. apply Z.mod_pos_bound. lia.
Qed.

Lemma new_factory_ok : factory_ok newUDPSenderFactory.
Proof. split; [apply ports_new_ok|]. cbn. intros p Hp. rewrite lookup_empty in Hp. by destruct Hp. Qed.

Lemma newManager_cases (env : LagEnv W) senv ord cfg :
  match newManager env senv ord cfg with
  | Ok (m, _, _) => mgr_reachable (mkWorld m [] 0)
  | Err _ => True
  | Panic => False
  end.
Proof.
  unfold newManager. pose proof (buildActuator_no_panic env (micro_Actuator (c_MicroBFD cfg))) as Ha.
  destruct (buildMicroBFDActuator _ _) as [act|e|]; cbn [mbind go_bind]; [|done|done].
  destruct (uc_Enabled (c_Unsolicited cfg)).
  - pose proof (buildPolicy_cases ord (c_Unsolicited cfg)) as Hp.
    destruct (buildUnsolicitedPolicy _ _) as [p|e|]; cbn [mbind go_bind]; [|done|done].
    pose proof (createSender_cases senv (IPv4 0) false [] _ new_factory_ok) as Hs.
    destruct (createSenderForSession _ _ _ _ _) as [[s|e|] f]; cbn; [|done|done].
    eexists (Some p), true, _. split; [by intros ? [= <-]|apply rtc_refl].
  - eexists None, false, _. split; [done|apply rtc_refl].
Qed.

Lemma allocated_factory_ok p f :
  in_range p -> factory_ok f ->
  factory_ok {| f with sf_portAlloc := {| (sf_portAlloc f) with sp_inUse := {[p]} ∪ sp_inUse (sf_portAlloc f) |} |}.
Proof.
  intros Hp [[Hs Hr] H]. split; cbn; [split; cbn; [done|]|].
  - intros q [->%elem_of_singleton|Hq]%elem_of_union; [done|by apply Hr].
  - intros q Hq. apply elem_of_union_r. by apply H.
Qed.

Lemma check_backend_no_panic backend localAddr : check_backend backend localAddr <> Panic.
Proof.
  unfold check_backend, normalizeOverlayBackend. apply go_bind_no_panic; [|intros b _]; by repeat case_match.
Qed.

Lemma createVXLANConn_ok cfg off bound sf :
  factory_ok sf -> vx_Peers cfg <> [] ->
  (createVXLANConn cfg off bound sf).1 <> Panic /\ factory_ok (createVXLANConn cfg off bound sf).2.
Proof.
  intros F Hne. unfold createVXLANConn, VXLANPeerConfig_LocalAddr. destruct (vx_Peers cfg) as [|peer l]; [done|].
  pose proof (local_addr_cases (vp_Local peer)) as Hl. destruct (local_addr _) as [a|e|]; [|done|done].
  destruct (negb _); [done|]. pose proof (AllocatePort_cases off _ (proj1 F)) as Ha.
  destruct (AllocatePort _ _) as [[p|e|] al]; [| |done].
  - destruct Ha as (Hn & Hr & -> & _). unfold NewVXLANOverlayBackend.
    pose proof (check_backend_no_panic (vx_Backend cfg) a). destruct (check_backend _ _); cbn; [| |done].
    + unfold NewVXLANConn. destruct bound; cbn; (split; [done|]); [by apply allocated_factory_ok|].
      rewrite ReleasePort_undo by done. by destruct sf.
    + split; [done|]. rewrite ReleasePort_undo by done. by destruct sf.
  - subst. split; [done|]. by destruct sf.
Qed.

Lemma createGeneveConn_ok cfg off bound sf :
  factory_ok sf -> ge_Peers cfg <> [] ->
  (createGeneveConn cfg off bound sf).1 <> Panic /\ factory_ok (createGeneveConn cfg off bound sf).2.
Proof.
  intros F Hne. unfold createGeneveConn, GenevePeerConfig_LocalAddr. destruct (ge_Peers cfg) as [|peer l]; [done|].
  pose proof (local_addr_cases (gp_Local peer)) as Hl. destruct (local_addr _) as [a|e|]; [|done|done].
  destruct (negb _); [done|]. pose proof (AllocatePort_cases off _ (proj1 F)) as Ha.
  destruct (AllocatePort _ _) as [[p|e|] al]; [| |done].
  - destruct Ha as (Hn & Hr & -> & _). unfold NewGeneveOverlayBackend.
    pose proof (check_backend_no_panic (ge_Backend cfg) a). destruct (check_backend _ _); cbn; [| |done].
    + unfold NewGeneveConn. destruct bound; cbn; (split; [done|]); [by apply allocated_factory_ok|].
      rewrite ReleasePort_undo by done. by destruct sf.
    + split; [done|]. rewrite ReleasePort_undo by done. by destruct sf.
  - subst. split; [done|]. by destruct sf.
Qed.

Lemma startOverlay_ok cfg offv offg boundv boundg sf :
  factory_ok sf -> exists rt sf', startOverlayReceivers cfg offv offg boundv boundg sf = Some (rt, sf') /\ factory_ok sf'.
Proof.
  intros F. unfold startOverlayReceivers.
  assert (Hv : exists v sf1, (if vx_Enabled (c_VXLAN cfg) && negb (bool_decide (vx_Peers (c_VXLAN cfg) = [])) then
       match createVXLANConn (c_VXLAN cfg) offv boundv sf with
       | (Ok conn, sf) => Some (Some conn, sf)
       | (Err _, sf) => Some (None, sf)
       | (Panic, _) => None
       end
     else Some (None, sf)) = Some (v, sf1) /\ factory_ok sf1).
  { destruct (_ && _) eqn:E; [|by eauto]. apply andb_true_iff in E as [_ E%negb_true_iff%bool_decide_eq_false].
    destruct (createVXLANConn_ok (c_VXLAN cfg) offv boundv sf F E) as [Hn F1].
    destruct (createVXLANConn _ _ _ _) as [[c|e|] sf1]; cbn in *; [eauto..|done]. }
  destruct Hv as (v & sf1 & -> & F1). cbn [mbind option_bind].
  destruct (_ && _) eqn:E; [|by eexists _, _]. apply andb_true_iff in E as [_ E%negb_true_iff%bool_decide_eq_false].
  destruct (createGeneveConn_ok (c_Geneve cfg) offg boundg sf1 F1 E) as [Hn F2].
  destruct (createGeneveConn _ _ _ _) as [[c|e|] sf2]; cbn in *; [by eexists _, _..|done].
Qed.

(** How the BGP daemon is reached: in plain text only when TLS is switched off. *)
Definition transport_of (cfg : GoBGPTLSConfig) : TransportCredentials :=
  if tls_Enabled cfg then TLSCredentials (tls_ServerName cfg) (if bool_decide (tls_CAFile cfg = "") then None else Some (tls_CAFile cfg))
  else InsecureCredentials.

Lemma startGoBGP_cases files target cfg :
  match startGoBGPHandler files target cfg with
  | Ok None => gb_Enabled cfg = false
  | Ok (Some h) => gb_Enabled cfg = true /\ c_target (h_client h) = gb_Addr cfg /\
                   c_creds (h_client h) = transport_of (gb_TLS cfg) /\ c_closed (h_client h) = false
  | Err _ => gb_Enabled cfg = true
  | Panic => False
  end.
Proof.
  unfold startGoBGPHandler, NewGRPCClient, buildTransportCredentials, transport_of.
  destruct (gb_Enabled cfg); cbn [negb]; [|done]. cbn [gcc_Addr gcc_TLS gt_Enabled gt_CAFile gt_ServerName].
  case_bool_decide; [done|].
  assert (Hh : forall c, match NewHandler c with Ok h => h_client h = hc_Client c | Err _ => True | Panic => False end).
  { intros c. unfold NewHandler. destruct (negb _); [done|]. by case_bool_decide. }
  assert (Hfin : forall creds, match (client ← (if negb (target (gb_Addr cfg)) then Err ErrDialFailed else
      Ok {| c_target := gb_Addr cfg; c_creds := creds; c_closed := false; c_calls := [] |});
      handler ← NewHandler {| hc_Client := client; hc_Strategy := gb_Strategy cfg;
       hc_Dampening := {| dc_Enabled := gd_Enabled (gb_Dampening cfg);
                          dc_SuppressThreshold := gd_SuppressThreshold (gb_Dampening cfg);
                          dc_ReuseThreshold := gd_ReuseThreshold (gb_Dampening cfg);
                          dc_MaxSuppressTime := gd_MaxSuppressTime (gb_Dampening cfg);
                          dc_HalfLife := gd_HalfLife (gb_Dampening cfg) |};
       hc_ActionTimeout := gb_ActionTimeout cfg |}; Ok (Some handler)) with
    | Ok None => true = false
    | Ok (Some h) => true = true /\ c_target (h_client h) = gb_Addr cfg /\ c_creds (h_client h) = creds /\ c_closed (h_client h) = false
    | Err _ => true = true
    | Panic => False
    end).
  { intros creds. destruct (negb _); cbn [mbind go_bind]; [done|]. set (hc := mkHandlerConfig _ _ _ _). specialize (Hh hc).
    destruct (NewHandler hc) as [h|e|]; cbn [mbind go_bind]; [|done|done]. by rewrite Hh. }
  destruct (tls_Enabled (gb_TLS cfg)); cbn [negb]; [|apply Hfin]. unfold loadRootCAs.
  case_bool_decide; [apply Hfin|]. destruct (files _); cbn [mbind go_bind]; [done|done|apply Hfin].
Qed.

(** The two inputs that end the start in a panic: a metrics path that the HTTP library
    refuses and a watchdog interval that is not positive. *)
Definition refused (inp : StartInput W) (cfg : Config) : Prop :=
  (newMetricsServer (st_mux inp) (c_Metrics_Path cfg) (st_recorder inp) : go start_error ServeMux) = Panic \/
  runWatchdog (st_env inp) 0 [] = Panic.

Definition metrics_routes (inp : StartInput W) (cfg : Config) : ServeMux :=
  (c_Metrics_Path cfg, PrometheusHandler) :: if st_recorder inp then [(flightRecorderPath, FlightRecorderHandler)] else [].

Lemma startServers_cases inp cfg m sk :
  sockets_ok sk -> config_ok cfg -> reload_input_ok (st_sessions inp) -> mgr_reachable (mkWorld m [] 0) ->
  match startServers inp cfg m sk with
  | (Ok rn, sk') => daemon_ok (mkWorld (sv_manager (rn_server rn)) [] 0, rn_server rn) /\
                    sk_open (rn_lnCleanup rn sk') = sk_open sk /\
                    rn_metrics rn = metrics_routes inp cfg /\ rn_notified rn = notifyReady (st_env inp) (st_notify inp)
  | (Err _, sk') => sk_open sk' = sk_open sk
  | (Panic, _) => refused inp cfg
  end.
Proof.
  intros S Hc Hi R. unfold startServers, refused.
  destruct (@newMetricsServer_cases start_error (st_mux inp) (c_Metrics_Path cfg) (st_recorder inp)) as [->| ->]; [by left|].
  pose proof (startListeners_clean (st_sockets inp) cfg sk S) as Hl.
  destruct (startListenersAndReceivers _ _ _) as [[[rs cleanup]|e|] sk']; [|done|done]. destruct Hl as (_ & _ & Hl).
  pose proof (startGoBGP_cases (st_files inp) (st_target inp) (c_GoBGP cfg)) as Hb.
  destruct (startGoBGPHandler _ _ _) as [bgp|e|]; [|done|done].
  destruct (startOverlay_ok cfg (st_vxlan inp).1 (st_geneve inp).1 (st_vxlan inp).2 (st_geneve inp).2
    newUDPSenderFactory new_factory_ok) as (rt & sf & -> & F).
  destruct (runWatchdog _ _ _) as [l|e|] eqn:Ew; [| |by right].
  all: destruct (reloadConfig_ok (Some cfg) rt (st_sessions inp) (mkDaemonState m sf) [] 0 (mgr_reachable_inv _ R) F
    ltac:(by intros ? [= <-]) Hi) as (d & E & Sd & Fd); cbn [reloadConfig] in E; rewrite E.
  all: split; [|done]; split_and!; [by eapply steps_reachable|done|apply Fd..].
Qed.

Lemma DefaultConfig_ok : config_ok DefaultConfig.
Proof. constructor; intros x Hx; by apply not_elem_of_nil in Hx. Qed.

Lemma run_start_cases inp load path sk :
  sockets_ok sk -> (forall p cfg, load p = Some cfg -> config_ok cfg) -> reload_input_ok (st_sessions inp) ->
  match run_start inp load path sk with
  | (Ok rn, sk') => daemon_ok (mkWorld (sv_manager (rn_server rn)) [] 0, rn_server rn) /\
                    sk_open (rn_lnCleanup rn sk') = sk_open sk /\
                    exists cfg, loadConfig load path = Ok cfg /\ rn_metrics rn = metrics_routes inp cfg /\
                                rn_notified rn = notifyReady (st_env inp) (st_notify inp)
  | (Err _, sk') => sk_open sk' = sk_open sk
  | (Panic, _) => exists cfg, loadConfig load path = Ok cfg /\ refused inp cfg
  end.
Proof.
  intros S Hl Hi. unfold run_start.
  assert (Hc : match loadConfig load path with Ok cfg => config_ok cfg | Err _ => True | Panic => False end).
  { unfold loadConfig. destruct (negb _); [|apply DefaultConfig_ok]. destruct (load path) eqn:E; [by eapply Hl|done]. }
  destruct (loadConfig load path) as [cfg|e|]; [|done|done].
  assert (Hs : forall m, mgr_reachable (mkWorld m [] 0) -> _) by exact (fun m => startServers_cases inp cfg m sk S Hc Hi).
  pose proof (newManager_cases (st_lag inp) (st_unsolicited inp) (st_interfaces inp) cfg) as Hm.
  destruct (newManager _ _ _ _) as [[[m a] u]|e|]; [|done|done]. specialize (Hs m Hm).
  destruct (startServers inp cfg m sk) as [[rn|e|] sk']; [|done|by exists cfg].
  destruct Hs as (? & ? & ? & ?). split_and!; [done..|]. by exists cfg.
Qed.

(** ** From start to end *)

Lemma closed_client bgp h : closeGoBGPClient bgp = Some h -> c_closed (h_client h) = true.
Proof. destruct bgp; cbn; [|done]. by intros [= <-]. Qed.

Lemma stopServers_ok env sys ord ords orde sleep servers failed rn sk w m1 ds1 n1 :
  daemon_ok (w, rn_server rn) -> (forall l, ords l ≡ₚ l) -> (forall l, orde l ≡ₚ l) ->
  sleep (DrainAllSessions ord (w_m w)) = Some m1 ->
  rtc mgr_step (in_world w (DrainAllSessions ord (w_m w))) (mkWorld m1 ds1 n1) ->
  exists code rn' sk', stopServers env sys ord ords orde sleep servers failed rn sk = Some (code, rn', sk') /\
    rn_notified rn' = rn_notified rn ++ notifyStopping env sys /\
    m_sessions (sv_manager (rn_server rn')) = ∅ /\ m_echoSessions (sv_manager (rn_server rn')) = ∅ /\
    sk' = rn_lnCleanup rn sk /\ (forall h, rn_bgp rn' = Some h -> c_closed (h_client h) = true) /\
    (code = 0 <-> failed = false /\ Forall (fun ok : bool => ok = true) servers).
Proof.
  intros D Hs He Hsl Hst. pose proof (daemon_inv _ _ D) as I. destruct D as (_ & Hm & _). cbn in Hm. rewrite Hm in I.
  destruct (gracefulShutdown_closes (w_m w) m1 _ ds1 _ n1 ord ords orde sleep servers I Hs He Hsl Hst)
    as (_ & _ & r & m2 & Hg & _ & I2 & _ & _ & _ & Hr).
  destruct (Close_ok ords orde m2 ds1 n1 Hs He I2) as (m3 & Hc & _ & H1 & _ & H3 & _).
  unfold stopServers. rewrite Hm, Hg. cbn [mbind option_bind]. rewrite Hc. cbn [mbind option_bind].
  do 3 eexists. split; [reflexivity|]. cbn. split_and!; [done|done|done|done|by apply closed_client|].
  destruct failed; [split; [done|by intros []]|].
  destruct r as [[]|e|]; split; [intros _; split; [done|by apply Hr]|done|done|intros [_ H]; by apply Hr in H|done|].
  intros [_ H]. by apply Hr in H.
Qed.


End Start.

(** ** An example

    A daemon with the sample session, sockets that can be opened and servers that
    shut down. *)
Local Notation files := (gmap string (gset string)).

Definition sample_start : StartInput files :=
  {| st_mux := mkMuxLib (fun _ => true) (fun _ _ => false); st_recorder := true;
     st_env := mkProcessEnv (fun v => if bool_decide (v = "NOTIFY_SOCKET"%string) then "@gobfd"%string else ""%string) 1;
     st_notify := mkNotifySys (fun _ => true) true; st_lag := kernel_env; st_unsolicited := sample_env; st_interfaces := id; st_sockets := env_up_to 9;
     st_files := fun _ => CaUnreadable; st_target := fun _ => true; st_vxlan := (None, false);
     st_geneve := (None, false); st_sessions := sample_reload_input |}.

Definition sample_load (path : string) : option Config := Some sample_config.

Lemma sample_load_ok p cfg : sample_load p = Some cfg -> config_ok cfg.
Proof. intros [= <-]. apply sample_config_ok. Qed.

Definition sample_run : go start_error Running * Sockets :=
  run_start sample_start sample_load "gobfd.yml" no_sockets.


(** A metrics path without a slash passes validation, and the start panics. *)
Example metrics_path_panics :
  let cfg := {| sample_config with c_Metrics_Path := "metrics" |} in
  Validate cfg = Ok tt /\
  (run_start sample_start (fun _ => Some cfg) "gobfd.yml" no_sockets).1 = Panic.
Proof. vm_compute. split; reflexivity. Qed.

(** ** Waiting for the goroutines

    [runServers] ends when every goroutine of the group has: the loops of the receivers
    among them, each of which looks at the context only between two reads of its
    socket.  The sockets are closed by the deferred cleanup, after the wait. *)

Inductive loop_state := Reading | Ended.

Record Exit := mkExit {
  ex_cancelled : bool;
  ex_loops : gmap nat loop_state;
  ex_closed : bool;
}.

Inductive exit_event := ExCancel | ExDatagram (h : nat) | ExReadError (h : nat) | ExWaitReturns.

(** A read of socket [h] has returned. *)
Definition read_returned (h : nat) (e : Exit) : Exit :=
  {| e with ex_loops := <[h := if ex_cancelled e then Ended else Reading]> (ex_loops e) |}.

Inductive exit_step : exit_event -> Exit -> Exit -> Prop :=
| ex_cancel e : exit_step ExCancel e {| e with ex_cancelled := true |}
| ex_datagram h e : ex_loops e !! h = Some Reading -> exit_step (ExDatagram h) e (read_returned h e)
| ex_read_error h e :
    ex_closed e = true -> ex_loops e !! h = Some Reading -> exit_step (ExReadError h) e (read_returned h e)
| ex_wait e :
    ex_cancelled e = true -> (forall h st, ex_loops e !! h = Some st -> st = Ended) ->
    exit_step ExWaitReturns e {| e with ex_closed := true |}.

(** The events so far, the last one first. *)
Inductive exit_run (e0 : Exit) : list exit_event -> Exit -> Prop :=
| exit_start : exit_run e0 [] e0
| exit_next evs ev e e' : exit_run e0 evs e -> exit_step ev e e' -> exit_run e0 (ev :: evs) e'.

Definition receiving (rs : list receiver) : Exit :=
  mkExit false (list_to_map ((fun h => (h, Reading)) <$> (rs ≫= handles))) false.

(** A datagram on [h] after the cancellation. *)
Definition datagram_since_cancel (h : nat) (evs : list exit_event) : Prop :=
  exists later earlier, evs = later ++ earlier /\ ExDatagram h ∈ later /\ ExCancel ∈ earlier.

Lemma exit_run_inv rs evs e :
  exit_run (receiving rs) evs e -> ExWaitReturns ∉ evs ->
  ex_closed e = false /\ (ex_cancelled e = true -> ExCancel ∈ evs) /\
  (forall h, h ∈ rs ≫= handles -> exists st, ex_loops e !! h = Some st /\ (st = Ended -> datagram_since_cancel h evs)).
Proof.
  assert (Hmore : forall h ev evs, datagram_since_cancel h evs -> datagram_since_cancel h (ev :: evs)).
  { intros h ev l (a & b & -> & Ha & Hb). exists (ev :: a), b. split; [done|]. split; [by right|done]. }
  induction 1 as [|evs ev e e' _ IH Hs]; intros Hw.
  - split_and!; [done|done|]. intros h Hh. exists Reading. split; [|done]. unfold receiving. cbn.
    apply elem_of_list_to_map_1'.
    + intros y Hy. apply list_elem_of_fmap in Hy as (? & [= ? ->] & _). done.
    + apply list_elem_of_fmap. by exists h.
  - apply not_elem_of_cons in Hw as [Hne Hw]. destruct (IH Hw) as (Hcl & Hca & Hl). clear IH.
    destruct Hs as [e|h e Hh|h e Hc Hh|e Hc Hall]; [|..|done].
    + split_and!; [done|by left|]. intros h Hh. destruct (Hl h Hh) as (st & ? & ?). exists st. split; [done|]. auto.
    + split_and!; [done|intros; right; by apply Hca|]. intros h' Hh'. cbn. destruct (decide (h' = h)) as [->|Hn].
      * rewrite lookup_insert_eq. eexists. split; [reflexivity|]. destruct (ex_cancelled e); [|done]. intros _.
        exists [ExDatagram h], evs. split; [done|]. split; [by left|by apply Hca].
      * rewrite lookup_insert_ne by done. destruct (Hl h' Hh') as (st & ? & ?). exists st. split; [done|]. auto.
    + congruence.
Qed.

(** The process ends only after one more datagram has arrived on every socket: with a
    silent peer it does not end. *)
Theorem exit_needs_datagrams rs evs e :
  exit_run (receiving rs) (ExWaitReturns :: evs) e -> ExWaitReturns ∉ evs ->
  forall h, h ∈ rs ≫= handles -> datagram_since_cancel h evs.
Proof.
  intros Hr Hw h Hh. inversion Hr as [|evs' ev e1 e' Hr1 Hs]; subst. inversion Hs as [| | |e2 Hc Hall]; subst.
  destruct (exit_run_inv rs evs e1 Hr1 Hw) as (_ & _ & Hl). destruct (Hl h Hh) as (st & Hst & Hd).
  apply Hd. by apply (Hall h).
Qed.
