(* ===== verification/DaemonMain.v ===== *)
(** * The daemon as a process ([run] of [cmd/gobfd/main.go], [reload.go])

    The command line, the logger with its level, and the goroutine that reloads the
    configuration on SIGHUP, around the start and the end in [Start]. *)

From stdpp Require Import strings relations gmap.
From S2P Require Import Prelude Config Packet Fsm Auth Netip NetipParse Jitter Session SessionInv SessionSteps.
From S2P Require Import SessionProps SessionFrame Discriminator Micro Unsolicited Echo Manager ManagerSteps ManagerInv.
From S2P Require Import ManagerOps ManagerProps ManagerCalls Shutdown Bgp Overlay Transport Lag Daemon Listeners.
From S2P Require Import LagEnforce DaemonProps Server ServerProps Strconv Sdnotify Flag Load Http Rpc Start.

Local Open Scope Z_scope.

(** [config.Load] for the daemon: the error is only logged. *)
Definition load_file `{K : Koanf} (ord : list (string * cvalue) -> list (string * cvalue)) (fs : FileSystem)
    (environ : list (string * string)) (path : string) : option Config :=
  match Load ord fs environ path with Ok cfg => Some cfg | _ => None end.

Definition gobfd_flags : gmap string flag_value := {["config"%string := FString ""; "version"%string := FBool false]}.

(** The path; [inl]: the process ends with this code and this text on its output. *)
Definition daemon_args (info : BuildInfo) (args : list string) : (Z * string) + string :=
  match flag_Parse gobfd_flags args with
  | Ok (f, _) => if flag_bool f "version" then inl (0, Full info "gobfd") else inr (flag_string f "config")
  | Err e => inl (parse_exit e, ""%string)
  | Panic => inl (2, ""%string)
  end.

Inductive log_handler := TextHandler | JSONHandler.

(** The level is shared with the reload. *)
Definition newLoggerWithLevel (format : string) : log_handler :=
  if bool_decide (format = "text"%string) then TextHandler else JSONHandler.

Section Process.
Context `{PT : ProtoTime} {W : Type}.

Record Process := mkProcess {
  pr_running : Running;
  pr_path : string;
  pr_logger : log_handler;
  pr_level : log_level;
}.

Inductive start_result := Exited (code : Z) (out : string) | Started (p : Process) | Crashed.

(** [run] until the servers run. *)
Definition run_main (info : BuildInfo) (inp : StartInput W) (load : string -> option Config) (args : list string) (sk : Sockets)
    : start_result * Sockets :=
  match daemon_args info args with
  | inl (code, out) => (Exited code out, sk)
  | inr configPath =>
      match loadConfig load configPath with
      | Ok cfg =>
          match run_start inp load configPath sk with
          | (Ok rn, sk) => (Started (mkProcess rn configPath (newLoggerWithLevel (c_Log_Format cfg)) (ParseLogLevel (c_Log_Level cfg))), sk)
          | (Err _, sk) => (Exited 1 "", sk)
          | (Panic, sk) => (Crashed, sk)
          end
      | Err _ => (Exited 1 "", sk)
      | Panic => (Crashed, sk)
      end
  end.

(** One SIGHUP; [load] is what loading finds at that time. *)
Definition on_sighup (load : string -> option Config) (inp : ReloadInput) (p : Process) : option Process :=
  match loadConfig load (pr_path p) with
  | Ok newCfg =>
      let newLevel := ParseLogLevel (c_Log_Level newCfg) in
      srv ← reload (Some newCfg) (rn_overlay (pr_running p)) inp (rn_server (pr_running p));
      Some {| p with pr_level := newLevel; pr_running := {| (pr_running p) with rn_server := srv |} |}
  | _ => Some p
  end.

(** What happens to the running process. *)
Inductive process_step : World * Process -> World * Process -> Prop :=
| pr_sighup load inp w p p' :
    (forall path cfg, load path = Some cfg -> config_ok cfg) -> reload_input_ok inp -> on_sighup load inp p = Some p' ->
    process_step (w, p) (in_world w (sv_manager (rn_server (pr_running p'))), p')
| pr_call inp req w p r srv' log :
    rpc_request_ok req -> rpc_input_ok inp -> newGRPCServer inp req (rn_server (pr_running p)) = (r, srv', log) ->
    process_step (w, p) (in_world w (sv_manager srv'), {| p with pr_running := {| (pr_running p) with rn_server := srv' |} |})
| pr_other w w' p :
    mgr_step w w' ->
    process_step (w, p)
      (w', {| p with pr_running := {| (pr_running p) with rn_server := {| (rn_server (pr_running p)) with sv_manager := w_m w' |} |} |}).

(** [handleSIGHUP]: the signals in order, each with what loading finds then. *)
Definition handleSIGHUP (hups : list ((string -> option Config) * ReloadInput)) (p : Process) : option Process :=
  fold_left (fun r hup => p ← r; on_sighup hup.1 hup.2 p) hups (Some p).

(** ** The process refines the daemon *)

Definition daemon_view (s : World * Process) : World * BFDServer := (s.1, rn_server (pr_running s.2)).

(** What loading finds, as the reload sees it. *)
Definition found (load : string -> option Config) (p : Process) : option Config :=
  match loadConfig load (pr_path p) with Ok cfg => Some cfg | _ => None end.

Lemma found_ok load p : (forall path cfg, load path = Some cfg -> config_ok cfg) -> forall cfg, found load p = Some cfg -> config_ok cfg.
Proof.
  intros H cfg. unfold found, loadConfig. case_bool_decide; cbn; [intros [= <-]; apply DefaultConfig_ok|].
  destruct (load (pr_path p)) eqn:E; [|done]. intros [= <-]. by eapply H.
Qed.

Lemma on_sighup_spec load inp p :
  on_sighup load inp p =
  srv ← reload (found load p) (rn_overlay (pr_running p)) inp (rn_server (pr_running p));
  Some {| p with pr_level := match found load p with Some cfg => ParseLogLevel (c_Log_Level cfg) | None => pr_level p end;
                 pr_running := {| (pr_running p) with rn_server := srv |} |}.
Proof.
  unfold on_sighup, found. destruct (loadConfig load (pr_path p)); [done|..].
  all: unfold reload, reloadConfig; cbn [mbind option_bind d_mgr d_sf]; by destruct p as [[[]] ? ? ?].
Qed.

Lemma process_step_view s s' : process_step s s' ->
  daemon_step (rn_overlay (pr_running s.2)) (daemon_view s) (daemon_view s') /\
  rn_overlay (pr_running s'.2) = rn_overlay (pr_running s.2) /\ pr_path s'.2 = pr_path s.2.
Proof.
  intros [load inp w p p' Hl Hi E|inp req w p r srv' log Hr Hi E|w w' p Hs]; unfold daemon_view; cbn.
  - rewrite on_sighup_spec in E. apply bind_Some in E as (srv & E & [= <-]). cbn. split; [|done].
    eapply dm_reload; [by apply found_ok|done|done].
  - split; [|done]. by eapply dm_call.
  - split; [|done]. by apply dm_other.
Qed.

(** Every run of the process is one of the daemon with the same tunnels. *)
Theorem process_refines_daemon s s' : rtc process_step s s' ->
  rtc (daemon_step (rn_overlay (pr_running s.2))) (daemon_view s) (daemon_view s') /\ pr_path s'.2 = pr_path s.2.
Proof.
  induction 1 as [s|s1 s2 s3 H _ [IH Hp]]; [by split; [apply rtc_refl|]|].
  destruct (process_step_view _ _ H) as (Hs & Ho & Hp'). rewrite Ho in IH. split; [by eapply rtc_l|congruence].
Qed.

(** ** The log level *)

Lemma handleSIGHUP_from (r : option Process) hups : r = None ->
  fold_left (fun r (hup : (string -> option Config) * ReloadInput) => p ← r; on_sighup hup.1 hup.2 p) hups r = None.
Proof. intros ->. by induction hups. Qed.

(** After any number of signals the level is that of the last configuration that
    loaded, and that of the start if none did. *)
Theorem level_follows_reloads hups : forall p p', handleSIGHUP hups p = Some p' ->
  pr_path p' = pr_path p /\
  pr_level p' = default (pr_level p)
    (last ((fun cfg => ParseLogLevel (c_Log_Level cfg)) <$> omap (fun hup => found hup.1 p) hups)).
Proof.
  unfold handleSIGHUP. induction hups as [|hup hups IH]; intros p p' E; cbn [fold_left] in E; [by injection E as <-|].
  cbn [mbind option_bind] in E. destruct (on_sighup hup.1 hup.2 p) as [p1|] eqn:E1; [|by rewrite handleSIGHUP_from in E].
  rewrite on_sighup_spec in E1. apply bind_Some in E1 as (srv & _ & [= <-]). destruct (IH _ _ E) as [Hp Hl]. cbn in Hp, Hl.
  split; [done|]. rewrite Hl. unfold found at 1 3. cbn [pr_path]. fold (found hup.1 p). cbn [omap list_omap].
  assert (Hf : forall l : list ((string -> option Config) * ReloadInput),
    omap (fun hup => match loadConfig hup.1 (pr_path p) with Ok cfg => Some cfg | _ => None end) l = omap (fun hup => found hup.1 p) l) by done.
  rewrite Hf. destruct (found hup.1 p) as [cfg|]; [|done]. cbn [fmap list_fmap]. rewrite last_cons.
  by destruct (last _).
Qed.

End Process.

(** ** From the command line *)

(** The version is printed and nothing is opened; a process that ends before it runs
    leaves no socket open; one that runs has the level and the format of its
    configuration. *)
Theorem run_main_cases `{PT : ProtoTime} {W} info (inp : StartInput W) load args sk :
  sockets_ok sk -> (forall p cfg, load p = Some cfg -> config_ok cfg) -> reload_input_ok (st_sessions inp) ->
  match run_main info inp load args sk with
  | (Exited _ out, sk') => sk_open sk' = sk_open sk /\ (out <> ""%string -> out = Full info "gobfd")
  | (Started p, sk') =>
      daemon_args info args = inr (pr_path p) /\ daemon_ok (mkWorld (sv_manager (rn_server (pr_running p))) [] 0, rn_server (pr_running p)) /\
      sk_open (rn_lnCleanup (pr_running p) sk') = sk_open sk /\
      exists cfg, loadConfig load (pr_path p) = Ok cfg /\ pr_level p = ParseLogLevel (c_Log_Level cfg) /\
                  (pr_logger p = TextHandler <-> c_Log_Format cfg = "text"%string)
  | (Crashed, _) => exists path cfg, daemon_args info args = inr path /\ loadConfig load path = Ok cfg /\ refused inp cfg
  end.
Proof.
  intros S Hl Hi. unfold run_main.
  assert (Ho : forall code out, daemon_args info args = inl (code, out) -> out <> ""%string -> out = Full info "gobfd").
  { intros code out. unfold daemon_args. destruct (flag_Parse _ _) as [[f rest]|e|]; [|by intros [= _ <-]..].
    destruct (flag_bool f "version"); [by intros [= _ <-]|done]. }
  destruct (daemon_args info args) as [[code out]|path]; [by eauto|].
  pose proof (run_start_cases inp load path sk S Hl Hi) as Hr.
  destruct (loadConfig load path) as [cfg|e|] eqn:Ec; [|done|].
  2: { unfold loadConfig in Ec. destruct (negb _); [by destruct (load path)|done]. }
  destruct (run_start inp load path sk) as [[rn|e|] sk']; [|done|].
  - destruct Hr as (D & Hcl & _). split_and!; [done|done|done|]. exists cfg. split_and!; [done|done|]. cbn.
    unfold newLoggerWithLevel. case_bool_decide; naive_solver.
  - destruct Hr as (cfg' & Hc & Hr). exists path, cfg. split_and!; [done..|]. by assert (cfg' = cfg) as -> by congruence.
Qed.

(** The sample daemon: the version, a missing argument, and a start whose level follows
    three signals, the second of which finds a file that does not load. *)
Example sample_process :
  let level l := fun _ : string => Some {| sample_config with c_Log_Level := l |} in
  let main args := (run_main dev_build sample_start (level "WARN"%string) args no_sockets).1 in
  match main ["-version"%string], main ["-config"%string], main ["-config=gobfd.yml"%string] with
  | Exited v out, Exited c _, Started p =>
      v = 0 /\ out = Full dev_build "gobfd" /\ c = 2 /\ pr_level p = LevelWarn /\
      pr_level <$> handleSIGHUP [(level "debug"%string, sample_reload_input); (fun _ => None, sample_reload_input)] p = Some LevelDebug
  | _, _, _ => False
  end.
Proof. vm_compute. repeat split; reflexivity. Qed.
