(* ===== verification/Agents.v ===== *)
(** * Consumers of the event stream ([cmd/gobfd-haproxy-agent], [cmd/gobfd-exabgp-bridge])

    Two programs that watch session events over the API: the agent answers the
    health checks of a load balancer, the bridge prints route commands for a BGP
    speaker.  The stream they receive, the connections and the clock are inputs; a
    message is its session, which may be absent. *)

From stdpp Require Import strings relations gmap.
From S2P Require Import Prelude Config Packet Fsm Auth Netip NetipParse Jitter Session SessionInv SessionSteps.
From S2P Require Import SessionProps SessionFrame Discriminator Micro Unsolicited Echo Manager ManagerSteps ManagerInv.
From S2P Require Import ManagerOps ManagerProps Transport Daemon DaemonProps Server.

Local Open Scope Z_scope.

(** How a stream ends: [stream.Err] after the last message. *)
Inductive stream_end := EndNil | EndEOF | EndCanceled | EndOther.

Definition newline : string := String (Ascii.ascii_of_nat 10) EmptyString.

Notation stateMap := (gmap string Z).

Section Consumers.
Context `{PT : ProtoTime}.

(** The messages received, and how the stream ended; [None]: it could not be opened. *)
Definition event_stream : Type := option (list (option BfdSession) * stream_end).

(** ** HAProxy agent *)

Inductive agent_error := ErrWatchOpen | ErrWatchStream.

(** The state of a peer that was never set is zero, which is unspecified. *)
Definition stateMap_set (peer : string) (state : Z) (s : stateMap) : stateMap := <[peer := state]> s.
Definition stateMap_get (peer : string) (s : stateMap) : Z := default SESSION_STATE_UNSPECIFIED (s !! peer).

Definition watch_message (msg : option BfdSession) (states : stateMap) : stateMap :=
  match msg with
  | None => states
  | Some s => stateMap_set (pb_PeerAddress s) (pb_LocalState s) states
  end.

Definition watch_result (e : stream_end) : go agent_error unit :=
  match e with EndOther => Err ErrWatchStream | _ => Ok tt end.

Definition watchEvents (stream : event_stream) (states : stateMap) : go agent_error unit * stateMap :=
  match stream with
  | None => (Err ErrWatchOpen, states)
  | Some (msgs, e) => (watch_result e, fold_left (fun st msg => watch_message msg st) msgs states)
  end.

(** The response written before the connection is closed; errors of the connection
    are logged. *)
Definition handleAgentCheck (peer : string) (states : stateMap) : string :=
  if stateMap_get peer states =? SESSION_STATE_UP then ("up ready" +:+ newline)%string else ("down" +:+ newline)%string.

Definition agentCheckMaxConcurrent : nat := 64.

(** One backend with its semaphore, the states, and whether the watch ended. *)
Record Agent := mkAgent {
  ag_states : stateMap;
  ag_watch : option (go agent_error unit);
  ag_sem : nat;
  ag_refused : nat;
  ag_served : list string;
}.

Definition new_agent : Agent :=
  {| ag_states := ∅; ag_watch := None; ag_sem := 0; ag_refused := 0; ag_served := [] |}.

(** What happens around a backend: the watch receives a message or ends; a
    connection is accepted or the accept fails; a started handler runs. *)
Inductive agent_event :=
| WatchReceived (msg : option BfdSession)
| WatchEnded (e : stream_end)
| Accepted
| AcceptFailed
| HandlerRan.

(** [None]: the event cannot happen. *)
Definition agent_step (peer : string) (ev : agent_event) (a : Agent) : option Agent :=
  match ev with
  | WatchReceived msg =>
      if ag_watch a then None else Some {| a with ag_states := watch_message msg (ag_states a) |}
  | WatchEnded e => if ag_watch a then None else Some {| a with ag_watch := Some (watch_result e) |}
  | Accepted =>
      if bool_decide (ag_sem a < agentCheckMaxConcurrent)%nat
      then Some {| a with ag_sem := S (ag_sem a) |}
      else Some {| a with ag_refused := S (ag_refused a) |}
  | AcceptFailed => Some a
  | HandlerRan =>
      match ag_sem a with
      | O => None
      | S n => Some {| a with ag_sem := n; ag_served := ag_served a ++ [handleAgentCheck peer (ag_states a)] |}
      end
  end.

Fixpoint agent_run (peer : string) (evs : list agent_event) (a : Agent) : option Agent :=
  match evs with
  | [] => Some a
  | ev :: evs => a ← agent_step peer ev a; agent_run peer evs a
  end.

(** ** ExaBGP bridge *)

Inductive bridge_error := ErrBridgeCanceled | ErrBridgeOpen | ErrBridgeStream.

Definition announce (prefix : string) : string := ("announce route " +:+ prefix +:+ " next-hop self" +:+ newline)%string.
Definition withdraw (prefix : string) : string := ("withdraw route " +:+ prefix +:+ " next-hop self" +:+ newline)%string.

(** With the lines written to standard output. *)
Definition handleStateChange (state : Z) (announced : bool) (prefix : string) : bool * list string :=
  if state =? SESSION_STATE_UP then
    if negb announced then (true, [announce prefix]) else (announced, [])
  else if (state =? SESSION_STATE_DOWN) || (state =? SESSION_STATE_ADMIN_DOWN) then
    if announced then (false, [withdraw prefix]) else (announced, [])
  else (announced, []).

Fixpoint stream_messages (peer prefix : string) (msgs : list (option BfdSession)) (announced : bool) : bool * list string :=
  match msgs with
  | [] => (announced, [])
  | None :: msgs => stream_messages peer prefix msgs announced
  | Some s :: msgs =>
      if negb (bool_decide (pb_PeerAddress s = peer)) then stream_messages peer prefix msgs announced else
      let '(announced, out) := handleStateChange (pb_LocalState s) announced prefix in
      let '(announced, out') := stream_messages peer prefix msgs announced in
      (announced, out ++ out')
  end.

Definition streamEvents (peer prefix : string) (stream : event_stream) : go bridge_error unit * list string :=
  match stream with
  | None => (Err ErrBridgeOpen, [])
  | Some (msgs, e) =>
      let '(_, out) := stream_messages peer prefix msgs false in
      (match e with EndNil | EndEOF => Ok tt | EndCanceled => Err ErrBridgeCanceled | EndOther => Err ErrBridgeStream end, out)
  end.

Definition maxBackoff : Z := 30 * second.

(** Each attempt is a stream and whether the context is cancelled in the wait after
    it.  Returned are the result, unless the attempts of the prefix are used up, the
    lines written and the waits made. *)
Fixpoint watch_loop (peer prefix : string) (attempts : list (event_stream * bool)) (backoff : Z)
    : option (go bridge_error unit) * list string * list Z :=
  match attempts with
  | [] => (None, [], [])
  | (stream, cancelled) :: attempts =>
      match streamEvents peer prefix stream with
      | (Ok tt, out) => (Some (Ok tt), out, [])
      | (Err ErrBridgeCanceled, out) => (Some (Err ErrBridgeCanceled), out, [])
      | (Panic, out) => (Some Panic, out, [])
      | (Err _, out) =>
          if cancelled then (Some (Err ErrBridgeCanceled), out, [backoff]) else
          let backoff' := i64 (backoff * 2) in
          let backoff' := if maxBackoff <? backoff' then maxBackoff else backoff' in
          let '(r, out', waits) := watch_loop peer prefix attempts backoff' in
          (r, out ++ out', backoff :: waits)
      end
  end.

Definition watchAndAnnounce (peer prefix : string) (attempts : list (event_stream * bool)) :=
  watch_loop peer prefix attempts second.

(** The exit code; [None]: still running. *)
Definition bridge_run (peer prefix : string) (attempts : list (event_stream * bool)) : option Z :=
  if bool_decide (peer = "") || bool_decide (prefix = "") then Some 1 else
  match (watchAndAnnounce peer prefix attempts).1.1 with
  | None => None
  | Some (Ok _) | Some (Err ErrBridgeCanceled) => Some 0
  | Some _ => Some 1
  end.
End Consumers.
