(* ===== verification/AgentsProps.v ===== *)
(** * Properties of the consumers

    The agent's answers and the bridge's commands as functions of the stream, and of
    the sessions of the daemon the stream comes from. *)

From stdpp Require Import strings relations gmap.
From S2P Require Import Prelude Config Packet Fsm Auth Netip NetipParse Jitter Session SessionInv SessionSteps.
From S2P Require Import SessionProps SessionFrame Discriminator Micro Unsolicited Echo Manager ManagerSteps ManagerInv.
From S2P Require Import ManagerOps ManagerProps Transport Daemon DaemonProps Server ServerProps Agents.

Local Open Scope Z_scope.

Section Props.
Context `{PT : ProtoTime}.

(** The states a stream reports for a peer, in order. *)
Definition report (peer : string) (msg : option BfdSession) : option Z :=
  s ← msg; if bool_decide (pb_PeerAddress s = peer) then Some (pb_LocalState s) else None.

Definition reports (peer : string) (msgs : list (option BfdSession)) : list Z := omap (report peer) msgs.

Lemma reports_app peer l1 l2 : reports peer (l1 ++ l2) = reports peer l1 ++ reports peer l2.
Proof. apply omap_app. Qed.

(** ** Agent *)

Definition answer (up : bool) : string := (if up then "up ready" +:+ newline else "down" +:+ newline)%string.

Definition last_up (states : list Z) : bool := bool_decide (last states = Some SESSION_STATE_UP).

(** The reference: the messages so far decide every answer. *)
Fixpoint answers (peer : string) (seen : list (option BfdSession)) (evs : list agent_event) : list string :=
  match evs with
  | [] => []
  | WatchReceived msg :: evs => answers peer (seen ++ [msg]) evs
  | HandlerRan :: evs => answer (last_up (reports peer seen)) :: answers peer seen evs
  | _ :: evs => answers peer seen evs
  end.

Definition tracks (peer : string) (seen : list (option BfdSession)) (states : stateMap) : Prop :=
  states !! peer = last (reports peer seen).

Lemma tracks_message peer seen msg states :
  tracks peer seen states -> tracks peer (seen ++ [msg]) (watch_message msg states).
Proof.
  unfold tracks. intros Ht. rewrite reports_app. destruct msg as [s|].
  2: { cbn. by rewrite app_nil_r. }
  cbn [watch_message]. unfold stateMap_set. unfold reports at 2. cbn [omap list_omap report mbind option_bind].
  case_bool_decide as Hp.
  - subst peer. by rewrite lookup_insert_eq, last_snoc.
  - by rewrite lookup_insert_ne, app_nil_r.
Qed.

Lemma tracks_answer peer seen states :
  tracks peer seen states -> handleAgentCheck peer states = answer (last_up (reports peer seen)).
Proof.
  unfold tracks, handleAgentCheck, stateMap_get, last_up. intros ->. unfold answer.
  destruct (last _) as [st|]; cbn [from_option id]; [|by rewrite bool_decide_false].
  destruct (Z.eqb_spec st SESSION_STATE_UP) as [->|Hne]; [by rewrite bool_decide_true|].
  rewrite bool_decide_false by congruence. done.
Qed.

Definition accepted (ev : agent_event) : nat := match ev with Accepted => 1 | _ => 0 end.

Lemma sum_list_app l k : sum_list (l ++ k) = (sum_list l + sum_list k)%nat.
Proof. induction l; cbn; lia. Qed.

Definition connections (a : Agent) : nat := (length (ag_served a) + ag_sem a + ag_refused a)%nat.

(** Connections are answered, refused or in progress, at most 64 at a time. *)
Lemma agent_run_spec peer evs seen a a' :
  tracks peer seen (ag_states a) -> (ag_sem a <= agentCheckMaxConcurrent)%nat -> agent_run peer evs a = Some a' ->
  ag_served a' = ag_served a ++ answers peer seen evs /\ (ag_sem a' <= agentCheckMaxConcurrent)%nat /\
  connections a' = (connections a + sum_list (accepted <$> evs))%nat.
Proof.
  revert seen a. induction evs as [|ev evs IH]; intros seen a Ht Hs; cbn [agent_run].
  { intros [= <-]. cbn. rewrite app_nil_r. split_and!; [done|done|lia]. }
  intros (a1 & Ha & Hr)%bind_Some. unfold agent_step in Ha. destruct ev as [msg|e| | |].
  - destruct (ag_watch a); [done|]. injection Ha as <-.
    apply (IH (seen ++ [msg])) in Hr; [exact Hr|by apply tracks_message|done].
  - destruct (ag_watch a); [done|]. injection Ha as <-. by apply (IH seen) in Hr.
  - case_bool_decide; injection Ha as <-; apply (IH seen) in Hr as (H1 & H2 & H3); cbn in *; try done;
      split_and!; try done; unfold connections in *; cbn in *; lia.
  - injection Ha as <-. by apply (IH seen) in Hr.
  - destruct (ag_sem a) as [|n] eqn:En; [done|]. injection Ha as <-.
    apply (IH seen) in Hr as (H1 & H2 & H3); cbn [ag_states ag_sem] in *; [|done|lia].
    cbn [answers]. rewrite (tracks_answer _ seen) in H1 by done. cbn [ag_served] in H1. rewrite <- app_assoc in H1.
    split_and!; [exact H1|done|]. unfold connections in *. rewrite H3. cbn. rewrite En, length_app. cbn. lia.
Qed.

(** ** Bridge *)

(** What a state says about the route; the transient states say nothing. *)
Definition verdict (state : Z) : option bool :=
  if state =? SESSION_STATE_UP then Some true else
  if (state =? SESSION_STATE_DOWN) || (state =? SESSION_STATE_ADMIN_DOWN) then Some false else None.

Definition last_verdict (init : bool) (states : list Z) : bool := default init (last (omap verdict states)).

(** The route at the BGP speaker after the commands. *)
Definition apply_line (prefix : string) (route : bool) (line : string) : bool :=
  if bool_decide (line = announce prefix) then true else if bool_decide (line = withdraw prefix) then false else route.

Definition routed (prefix : string) (route : bool) (out : list string) : bool := fold_left (apply_line prefix) out route.

(** The lines alternate. *)
Fixpoint alternating (prefix : string) (announced : bool) (out : list string) : Prop :=
  match out with
  | [] => True
  | line :: out => line = (if announced then withdraw prefix else announce prefix) /\ alternating prefix (negb announced) out
  end.

Lemma announce_not_withdraw prefix : announce prefix <> withdraw prefix.
Proof. unfold announce, withdraw. cbn. discriminate. Qed.

Lemma apply_announce prefix r : apply_line prefix r (announce prefix) = true.
Proof. unfold apply_line. by rewrite bool_decide_true. Qed.

Lemma apply_withdraw prefix r : apply_line prefix r (withdraw prefix) = false.
Proof.
  unfold apply_line. rewrite bool_decide_false by (apply not_eq_sym, announce_not_withdraw). by rewrite bool_decide_true.
Qed.

Lemma last_cons_default {A} (x : A) l d : default d (last (x :: l)) = default x (last l).
Proof. revert x d. induction l as [|y l IH]; intros x d; [done|]. change (last (x :: y :: l)) with (last (y :: l)). by rewrite !IH. Qed.

Lemma last_verdict_cons b st l : last_verdict b (st :: l) = last_verdict (default b (verdict st)) l.
Proof.
  unfold last_verdict. cbn [omap list_omap]. destruct (verdict st) as [v|]; [apply last_cons_default|done].
Qed.

Lemma handleStateChange_spec state announced prefix :
  handleStateChange state announced prefix =
  (default announced (verdict state),
   if bool_decide (default announced (verdict state) = announced) then []
   else [if announced then withdraw prefix else announce prefix]).
Proof.
  unfold handleStateChange, verdict. destruct (state =? SESSION_STATE_UP); [by destruct announced|].
  destruct (_ || _); by destruct announced.
Qed.

(** A stream that starts with [announced]. *)
Lemma stream_messages_spec peer prefix msgs announced :
  let '(final, out) := stream_messages peer prefix msgs announced in
  final = last_verdict announced (reports peer msgs) /\ alternating prefix announced out /\
  routed prefix announced out = final /\
  (forall route, out <> [] -> routed prefix route out = final).
Proof.
  revert announced. induction msgs as [|[s|] msgs IH]; intros announced; cbn [stream_messages]; [done| |apply IH].
  unfold reports. cbn [omap list_omap report mbind option_bind]. case_bool_decide as Hp; cbn [negb]; [|apply IH].
  fold (reports peer msgs). rewrite handleStateChange_spec, last_verdict_cons. set (a1 := default announced _).
  specialize (IH a1). destruct (stream_messages peer prefix msgs a1) as [final out].
  destruct IH as (-> & Ha & Hr & Hr'). split; [done|].
  case_bool_decide as Heq; [rewrite Heq in *; by cbn [app]|].
  assert (Hn : a1 = negb announced) by (by destruct a1, announced).
  assert (Hline : forall r, apply_line prefix r (if announced then withdraw prefix else announce prefix) = a1).
  { intros r. rewrite Hn. destruct announced; [apply apply_withdraw|apply apply_announce]. }
  cbn [app alternating]. rewrite <- Hn. split_and!; [done|done|..].
  - unfold routed in *. cbn [fold_left]. by rewrite Hline.
  - intros route _. unfold routed in *. cbn [fold_left]. by rewrite Hline.
Qed.

(** Lines are written exactly if the peer was reported up. *)
Lemma stream_messages_silent peer prefix msgs :
  (stream_messages peer prefix msgs false).2 = [] <-> SESSION_STATE_UP ∉ reports peer msgs.
Proof.
  induction msgs as [|[s|] msgs IH]; cbn [stream_messages]; [set_solver| |exact IH].
  unfold reports. cbn [omap list_omap report mbind option_bind]. case_bool_decide as Hp; cbn [negb]; [|exact IH].
  fold (reports peer msgs). rewrite handleStateChange_spec, elem_of_cons. unfold verdict.
  destruct (Z.eqb_spec (pb_LocalState s) SESSION_STATE_UP) as [Hu|Hu]; cbn [from_option id].
  - rewrite bool_decide_false by done. destruct (stream_messages peer prefix msgs true). cbn [snd app]. rewrite Hu. split; [intros Hx; discriminate Hx|tauto].
  - assert (Hd : forall b : bool, default false (if b then Some false else None) = false) by (by intros []).
    rewrite Hd, bool_decide_true by done. destruct (stream_messages peer prefix msgs false). cbn [snd app] in *.
    rewrite IH. split; [|tauto]. intros Hn [?|?]; [congruence|done].
Qed.

(** The route after one more stream: decided by the stream if it reported the peer
    up at all, and otherwise as it was. *)
Definition stream_route (peer : string) (route : bool) (stream : event_stream) : bool :=
  match stream with
  | None => route
  | Some (msgs, _) =>
      if bool_decide (SESSION_STATE_UP ∈ reports peer msgs) then last_verdict false (reports peer msgs) else route
  end.

Lemma streamEvents_route peer prefix route stream :
  routed prefix route (streamEvents peer prefix stream).2 = stream_route peer route stream.
Proof.
  destruct stream as [[msgs e]|]; [|done]. unfold streamEvents, stream_route.
  pose proof (stream_messages_spec peer prefix msgs false) as Hs.
  pose proof (stream_messages_silent peer prefix msgs) as Hq.
  destruct (stream_messages peer prefix msgs false) as [final out]. destruct Hs as (-> & _ & _ & Hr). cbn [snd] in *.
  case_bool_decide as Hu.
  - apply Hr. rewrite Hq. tauto.
  - apply Hq in Hu as ->. done.
Qed.

(** The streams of a run that were tried. *)
Fixpoint tried (peer prefix : string) (attempts : list (event_stream * bool)) : list event_stream :=
  match attempts with
  | [] => []
  | (stream, cancelled) :: attempts =>
      stream :: match (streamEvents peer prefix stream).1 with
                | Ok _ | Err ErrBridgeCanceled | Panic => []
                | Err _ => if cancelled then [] else tried peer prefix attempts
                end
  end.

Definition nth_wait (n : nat) : Z := Z.min (2 ^ Z.of_nat n) 30 * second.

Lemma backoff_step k :
  (if maxBackoff <? i64 (nth_wait k * 2) then maxBackoff else i64 (nth_wait k * 2)) = nth_wait (S k).
Proof.
  unfold nth_wait, maxBackoff. rewrite Nat2Z.inj_succ, Z.pow_succ_r by lia. change second with 1000000000.
  pose proof (Z.pow_pos_nonneg 2 (Z.of_nat k)). set (x := 2 ^ Z.of_nat k) in *.
  rewrite i64_small by (unfold is_i64; lia). destruct (Z.ltb_spec (30 * 1000000000) (Z.min x 30 * 1000000000 * 2)); lia.
Qed.

Lemma watch_loop_spec peer prefix attempts k route :
  let '(r, out, waits) := watch_loop peer prefix attempts (nth_wait k) in
  routed prefix route out = fold_left (stream_route peer) (tried peer prefix attempts) route /\
  waits = nth_wait <$> seq k (length waits) /\ r <> Some Panic.
Proof.
  revert k route. induction attempts as [|[stream cancelled] attempts IH]; intros k route; cbn [watch_loop tried]; [done|].
  pose proof (streamEvents_route peer prefix route stream) as Hr.
  assert (Hnp : (streamEvents peer prefix stream).1 <> Panic).
  { destruct stream as [[msgs e]|]; cbn; [|done]. destruct (stream_messages _ _ _ _). by destruct e. }
  destruct (streamEvents peer prefix stream) as [[[]|e|] out]; cbn [fst snd fold_left] in *; [by rewrite Hr| |done].
  assert (Hgo : let '(r, out', waits) := watch_loop peer prefix attempts (nth_wait (S k)) in
    routed prefix route (out ++ out') = fold_left (stream_route peer) (tried peer prefix attempts) (stream_route peer route stream) /\
    nth_wait k :: waits = nth_wait <$> seq k (length (nth_wait k :: waits)) /\ r <> Some Panic).
  { specialize (IH (S k) (stream_route peer route stream)).
    destruct (watch_loop peer prefix attempts (nth_wait (S k))) as [[r out'] waits]. destruct IH as (H1 & H2 & H3).
    unfold routed in *. rewrite fold_left_app, Hr. split_and!; [done| |done]. cbn. by rewrite <- H2. }
  destruct e; [by rewrite Hr|..]; (destruct cancelled; [by rewrite Hr|]); rewrite backoff_step;
    destruct (watch_loop peer prefix attempts (nth_wait (S k))) as [[r out'] waits]; exact Hgo.
Qed.

(** ** From the daemon *)

(** The messages a client receives that watches with the current sessions, when the
    state changes [scs] follow. *)
Definition watched (now : Z) (ord : order Z nat) (srv : BFDServer) (scs : list StateChange) : list (option BfdSession) :=
  (fun r => Some (we_Session r)) <$> (WatchSessionEvents_current true now ord srv ++ (stateChangeToProto <$> scs)).

(** The states of the sessions with a peer and their changes. *)
Definition peer_states (a : Addr) (snaps : list SessionSnapshot) (scs : list StateChange) : list Z :=
  omap (fun snap => if bool_decide (ss_PeerAddr snap = a) then Some (ss_State snap) else None) snaps ++
  omap (fun sc => if bool_decide (sc_PeerAddr sc = a) then Some (sc_NewState sc) else None) scs.

Lemma omap_fmap_report {A} (f : A -> BfdSession) (addr : A -> Addr) (st : A -> Z) a l :
  addr_ok a -> (forall x, pb_PeerAddress (f x) = Addr_String (addr x) /\ pb_LocalState (f x) = stateToProto (st x)) ->
  Forall (fun x => addr_ok (addr x)) l ->
  reports (Addr_String a) ((fun x => Some (f x)) <$> l)
  = stateToProto <$> omap (fun x => if bool_decide (addr x = a) then Some (st x) else None) l.
Proof.
  intros Ha Hf HF. induction HF as [|x l Hx _ IH]; [done|].
  unfold reports in *. cbn [fmap list_fmap omap list_omap report mbind option_bind]. destruct (Hf x) as [-> ->].
  destruct (decide (addr x = a)) as [->|Hne].
  - rewrite !bool_decide_true by done. cbn [fmap list_fmap]. by f_equal.
  - rewrite !bool_decide_false; [done|done|]. intros E. by apply Hne, Addr_String_inj.
Qed.

Lemma reports_watched a now ord srv scs :
  addr_ok a -> Forall (fun snap => addr_ok (ss_PeerAddr snap)) (Sessions ord (sv_manager srv)) ->
  Forall (fun sc => addr_ok (sc_PeerAddr sc)) scs ->
  reports (Addr_String a) (watched now ord srv scs)
  = stateToProto <$> peer_states a (Sessions ord (sv_manager srv)) scs.
Proof.
  intros Ha H1 H2. unfold watched, peer_states. rewrite !fmap_app, reports_app. f_equal.
  - unfold WatchSessionEvents_current. rewrite <- list_fmap_compose. by apply (omap_fmap_report snapshotToProto ss_PeerAddr ss_State).
  - rewrite <- list_fmap_compose.
    by apply (omap_fmap_report (fun sc => we_Session (stateChangeToProto sc)) sc_PeerAddr sc_NewState).
Qed.

Lemma stateToProto_up s : stateToProto s = SESSION_STATE_UP <-> s = StateUp.
Proof.
  unfold stateToProto, SESSION_STATE_UP, SESSION_STATE_ADMIN_DOWN, SESSION_STATE_DOWN, SESSION_STATE_INIT, SESSION_STATE_UNSPECIFIED,
    StateAdminDown, StateDown, StateInit, StateUp.
  repeat match goal with |- context [?x =? ?y] => destruct (Z.eqb_spec x y) end; lia.
Qed.

Lemma last_up_proto l : last_up (stateToProto <$> l) = bool_decide (last l = Some StateUp).
Proof.
  unfold last_up. rewrite fmap_last. apply bool_decide_ext. destruct (last l) as [s|]; cbn; [|done].
  rewrite !(inj_iff Some). apply stateToProto_up.
Qed.

(** What a state of the protocol says about the route. *)
Definition state_verdict (s : Z) : option bool :=
  if s =? StateUp then Some true else if (s =? StateDown) || (s =? StateAdminDown) then Some false else None.

Lemma verdict_proto s : verdict (stateToProto s) = state_verdict s.
Proof.
  unfold verdict, state_verdict, stateToProto, SESSION_STATE_UP, SESSION_STATE_ADMIN_DOWN, SESSION_STATE_DOWN,
    SESSION_STATE_INIT, SESSION_STATE_UNSPECIFIED, StateAdminDown, StateDown, StateInit, StateUp.
  destruct (Z.eqb_spec s 0) as [->|]; [done|]. destruct (Z.eqb_spec s 1) as [->|]; [done|].
  destruct (Z.eqb_spec s 2) as [->|]; [done|]. by destruct (Z.eqb_spec s 3) as [->|].
Qed.

(** The messages among the events of an agent. *)
Definition received (evs : list agent_event) : list (option BfdSession) :=
  omap (fun ev => match ev with WatchReceived msg => Some msg | _ => None end) evs.

Lemma answers_last peer seen evs :
  answers peer seen (evs ++ [HandlerRan])
  = answers peer seen evs ++ [answer (last_up (reports peer (seen ++ received evs)))].
Proof.
  revert seen. induction evs as [|ev evs IH]; intros seen; cbn [app answers].
  { by rewrite app_nil_r. }
  destruct ev as [msg|e| | |]; cbn [answers]; rewrite IH; try done.
  unfold received. cbn [omap list_omap]. by rewrite <- app_assoc.
Qed.

(** The load balancer is told the state of the session.  An agent for a peer
    that has received what the daemon sends to a watching client, the current
    sessions and then state changes, in any interleaving with health checks,
    answers the next one with up exactly if the last of the peer's sessions listed or
    of their changes is Up.  Every answer before is the one for the messages until
    then, at most 64 checks are in progress, and every connection is answered, in
    progress or refused. *)
Theorem agent_follows_sessions (a : Addr) (now : Z) (ord : order Z nat) (srv : BFDServer) (scs : list StateChange)
    (evs : list agent_event) (ag : Agent) (Ha : addr_ok a)
    (Hsnaps : Forall (fun snap => addr_ok (ss_PeerAddr snap)) (Sessions ord (sv_manager srv)))
    (Hscs : Forall (fun sc => addr_ok (sc_PeerAddr sc)) scs)
    (Hrecv : received evs = watched now ord srv scs)
    (Hrun : agent_run (Addr_String a) (evs ++ [HandlerRan]) new_agent = Some ag) :
  ag_served ag = answers (Addr_String a) [] evs ++
    [answer (bool_decide (last (peer_states a (Sessions ord (sv_manager srv)) scs) = Some StateUp))] /\
  (ag_sem ag <= agentCheckMaxConcurrent)%nat /\ connections ag = sum_list (accepted <$> evs).
Proof.
  apply (agent_run_spec _ _ []) in Hrun as (Hs & Hsem & Hc); [|by unfold tracks|cbn; lia].
  cbn [ag_served new_agent app] in Hs. rewrite answers_last, Hrecv in Hs. cbn [app] in Hs.
  rewrite reports_watched, last_up_proto in Hs by done. split_and!; [exact Hs|done|].
  rewrite Hc. unfold connections. cbn [ag_served ag_sem ag_refused new_agent length]. rewrite fmap_app, sum_list_app. cbn. lia.
Qed.

(** The BGP speaker is told the state of the session.  From the messages the
    daemon sends to a watching client the bridge prints alternating commands,
    announce first, and leaves the route announced exactly if the last decisive
    state (Up, Down or AdminDown) of the peer's sessions is Up.  Over a run with
    reconnections each stream that reports the peer up decides the route, the others
    leave it as it is; the waits are 1, 2, 4, 8, 16 and then always 30 seconds. *)
Theorem bridge_follows_sessions (a : Addr) (now : Z) (ord : order Z nat) (srv : BFDServer) (scs : list StateChange)
    (prefix : string) (e : stream_end) (attempts : list (event_stream * bool)) (Ha : addr_ok a)
    (Hsnaps : Forall (fun snap => addr_ok (ss_PeerAddr snap)) (Sessions ord (sv_manager srv)))
    (Hscs : Forall (fun sc => addr_ok (sc_PeerAddr sc)) scs) :
  let out := (streamEvents (Addr_String a) prefix (Some (watched now ord srv scs, e))).2 in
  alternating prefix false out /\
  routed prefix false out
  = default false (last (omap state_verdict (peer_states a (Sessions ord (sv_manager srv)) scs))) /\
  let '(r, out, waits) := watchAndAnnounce (Addr_String a) prefix attempts in
  routed prefix false out = fold_left (stream_route (Addr_String a)) (tried (Addr_String a) prefix attempts) false /\
  waits = nth_wait <$> seq 0 (length waits) /\ r <> Some Panic.
Proof.
  cbv zeta. pose proof (stream_messages_spec (Addr_String a) prefix (watched now ord srv scs) false) as Hs.
  cbn [streamEvents]. destruct (stream_messages _ _ _ _) as [final out]. destruct Hs as (-> & Halt & Hr & _). cbn [snd].
  split; [done|]. split; [|apply (watch_loop_spec _ _ _ 0)].
  rewrite Hr, reports_watched by done. unfold last_verdict. do 2 f_equal.
  generalize (peer_states a (Sessions ord (sv_manager srv)) scs). intros l.
  induction l as [|s l IH]; [done|]. cbn [fmap list_fmap omap list_omap]. rewrite verdict_proto, IH. done.
Qed.
End Props.

(** ** Samples *)

#[local] Existing Instance sample_times.

Definition sample_peer : Addr := IPv4 167772162.

Definition sample_change (state : Z) : StateChange :=
  {| sc_LocalDiscr := 5; sc_PeerAddr := sample_peer; sc_OldState := StateDown; sc_NewState := state; sc_Diag := DiagNone;
     sc_Timestamp := 0; sc_Type := SessionTypeSingleHop; sc_Interface := "eth0" |}.

Definition sample_watched (states : list Z) : list (option BfdSession) :=
  watched 0 id sample_server (sample_change <$> states).

Lemma sample_peer_ok : addr_ok sample_peer.
Proof. vm_compute. split; [discriminate|reflexivity]. Qed.

Lemma sample_snaps_ok : Forall (fun snap => addr_ok (ss_PeerAddr snap)) (Sessions id (sv_manager sample_server)).
Proof. vm_compute. repeat constructor. discriminate. Qed.

Lemma sample_changes_ok states : Forall (fun sc => addr_ok (sc_PeerAddr sc)) (sample_change <$> states).
Proof. apply Forall_fmap, Forall_true. intros s. exact sample_peer_ok. Qed.

Definition sample_agent_events (states : list Z) : list agent_event :=
  Accepted :: (WatchReceived <$> sample_watched states) ++ [HandlerRan; Accepted].

Lemma agent_follows_sessions_witness :
  exists ag, agent_run "10.0.0.2" (sample_agent_events [StateInit; StateUp] ++ [HandlerRan]) new_agent = Some ag /\
    last (ag_served ag) = Some (answer true) /\ connections ag = 2%nat.
Proof.
  destruct (agent_run "10.0.0.2" (sample_agent_events [StateInit; StateUp] ++ [HandlerRan]) new_agent) as [ag|] eqn:E.
  2: { apply (f_equal (fun o : option Agent => if o then true else false)) in E. vm_compute in E. discriminate. }
  exists ag. split; [reflexivity|].
  destruct (agent_follows_sessions sample_peer 0 id sample_server (sample_change <$> [StateInit; StateUp])
              (sample_agent_events [StateInit; StateUp]) ag sample_peer_ok sample_snaps_ok (sample_changes_ok _)
              eq_refl E) as (H1 & _ & H2).
  rewrite H1, last_snoc, H2. split; reflexivity.
Defined.

Lemma bridge_follows_sessions_witness :
  routed "192.0.2.0/24" false
    (streamEvents "10.0.0.2" "192.0.2.0/24" (Some (sample_watched [StateInit; StateUp], EndOther))).2 = true.
Proof.
  destruct (bridge_follows_sessions sample_peer 0 id sample_server (sample_change <$> [StateInit; StateUp])
              "192.0.2.0/24" EndOther [] sample_peer_ok sample_snaps_ok (sample_changes_ok _)) as (_ & H & _).
  change (streamEvents "10.0.0.2") with (streamEvents (Addr_String sample_peer)). unfold sample_watched. rewrite H. reflexivity.
Defined.

(** ** Where the consumers keep an old state *)

(** The peer goes down while the bridge is disconnected: the next stream reports it
    down, nothing is withdrawn, and the route stays. *)
Example route_stays_after_reconnect :
  (watchAndAnnounce "10.0.0.2" "192.0.2.0/24"
     [(Some (sample_watched [StateUp], EndOther), false); (Some (sample_watched [StateDown], EndOther), false)]).1.2
  = [announce "192.0.2.0/24"].
Proof. vm_compute. reflexivity. Qed.

(** When the stream ends without an error, as it does when the daemon closes its
    subscriptions, the agent goes on answering from the states it has. *)
Theorem agent_answers_after_stream_end (peer : string) (evs : list agent_event) (a a' : Agent) :
  ag_watch a = Some (Ok tt) -> agent_run peer evs a = Some a' ->
  ag_watch a' = Some (Ok tt) /\ handleAgentCheck peer (ag_states a') = handleAgentCheck peer (ag_states a).
Proof.
  revert a. induction evs as [|ev evs IH]; intros a Hw; cbn [agent_run]; [by intros [= <-]|].
  intros (a1 & Ha & Hr)%bind_Some. apply IH in Hr as [H1 H2].
  - rewrite H2. split; [done|]. destruct ev; cbn [agent_step] in Ha; rewrite ?Hw in Ha; repeat case_match; by simplify_eq.
  - destruct ev; cbn [agent_step] in Ha; rewrite ?Hw in Ha; repeat case_match; by simplify_eq.
Qed.

(** Deleting a session queues no state change, so that a client keeps its last
    state. *)
Theorem deletion_is_not_reported (discr : Z) (srv : BFDServer) :
  let m := sv_manager srv in let m' := sv_manager (DeleteSession discr srv).2 in
  m_rawNotifyCh m' = m_rawNotifyCh m /\ m_channels m' = m_channels m.
Proof.
  cbv zeta. unfold DeleteSession, cleanupSender, DestroySession, unregister, release_slot.
  destruct (m_sessions (sv_manager srv) !! discr) as [l|]; [|done].
  destruct (m_entries (sv_manager srv) !! l) as [en|]; [|done]. cbn [sv_senderPorts].
  destruct (sv_senderPorts srv !! discr); by destruct (_ && _).
Qed.
