(* ===== verification/AgentMain.v ===== *)
(** * The HAProxy agent as a program ([cmd/gobfd-haproxy-agent/main.go])

    Flags, environment and configuration file, then one goroutine that watches the
    events and one listener per backend, which share the states; the group is
    cancelled by a signal or by the first goroutine that fails. *)

From stdpp Require Import strings relations gmap.
From S2P Require Import Prelude Config Packet Fsm Auth Netip NetipParse Jitter Session SessionInv SessionSteps.
From S2P Require Import SessionProps SessionFrame Discriminator Micro Unsolicited Echo Manager ManagerSteps ManagerInv.
From S2P Require Import ManagerOps ManagerProps Transport Daemon DaemonProps Server ServerProps Bgp Lag Load Flag Agents AgentsProps.

Local Open Scope Z_scope.

(** ** Configuration *)

Record backendConfig := mkBackendConfig { bk_Peer : string; bk_AgentPort : Z }.
Record agentConfig := mkAgentConfig { agc_GoBFDAddr : string; agc_Backends : list backendConfig }.

Definition envOrDefault (getenv : string -> string) (key defaultVal : string) : string :=
  let v := getenv key in if bool_decide (v = "") then defaultVal else v.

(** Reading of a file that could be opened; parsing of YAML, by a third-party library. *)
Record AgentFiles := mkAgentFiles {
  af_fs : FileSystem;
  af_read : string -> string -> option string;
  af_yaml : string -> option agentConfig;
}.

Inductive config_load_error := ErrConfigRoot | ErrConfigOpen | ErrConfigRead | ErrConfigParse.

Definition agent_loadConfig (files : AgentFiles) (path : string) : go config_load_error agentConfig :=
  let dir := filepath_Dir path in
  let base := filepath_Base path in
  if negb (fs_OpenRoot (af_fs files) dir) then Err ErrConfigRoot else
  if negb (fs_Open (af_fs files) dir base) then Err ErrConfigOpen else
  match af_read files dir base with
  | None => Err ErrConfigRead
  | Some data => match af_yaml files data with None => Err ErrConfigParse | Some cfg => Ok cfg end
  end.

Definition agent_flags (getenv : string -> string) : gmap string flag_value :=
  {["gobfd-addr"%string := FString (envOrDefault getenv "GOBFD_ADDR" "http://127.0.0.1:50052");
    "config"%string := FString ""; "version"%string := FBool false]}.

(** The address and the path; [inl]: the process ends with this code. *)
Definition parseFlags (getenv : string -> string) (args : list string) : Z + (string * string) :=
  match flag_Parse (agent_flags getenv) args with
  | Ok (f, _) => if flag_bool f "version" then inl 0 else inr (flag_string f "gobfd-addr", flag_string f "config")
  | Err e => inl (parse_exit e)
  | Panic => inl 2
  end.

(** [run] up to the start of the goroutines. *)
Definition agent_setup (getenv : string -> string) (files : AgentFiles) (args : list string)
    : Z + (string * list backendConfig) :=
  match parseFlags getenv args with
  | inl code => inl code
  | inr (gobfdAddr, configPath) =>
      let checked (r : string * list backendConfig) := if bool_decide (r.2 = []) then inl 1 else inr r in
      if bool_decide (configPath = "") then checked (gobfdAddr, []) else
      match agent_loadConfig files configPath with
      | Ok cfg => checked (if bool_decide (agc_GoBFDAddr cfg = "") then gobfdAddr else agc_GoBFDAddr cfg, agc_Backends cfg)
      | _ => inl 1
      end
  end.

(** ** The running program *)

Section Program.
Context `{PT : ProtoTime}.

Inductive serve_state := Starting | Serving | Returned.

Record Backend := mkBackend {
  be_peer : string;
  be_state : serve_state;
  be_sem : nat;
  be_refused : nat;
  be_served : list string;
}.

Inductive program_error := ErrWatch (e : agent_error) (canceled : bool) | ErrListen (i : nat).

Record Program := mkProgram {
  pg_states : gmap string Z;
  pg_watching : bool;
  pg_backends : list Backend;
  pg_cancelled : bool;
  pg_err : option program_error;
}.

Definition start_program (backends : list backendConfig) : Program :=
  {| pg_states := ∅; pg_watching := true;
     pg_backends := (fun b => mkBackend (bk_Peer b) Starting 0 0 []) <$> backends; pg_cancelled := false; pg_err := None |}.

(** What happens: the watch receives a message or ends, or its stream cannot be opened;
    the listener of a backend is opened or not, accepts or fails to; a started handler
    runs; a signal arrives. *)
Inductive program_event :=
| PgWatch (msg : option BfdSession)
| PgWatchEnded (e : stream_end)
| PgWatchFailed (canceled : bool)
| PgListening (i : nat)
| PgListenFailed (i : nat)
| PgAccepted (i : nat)
| PgAcceptFailed (i : nat)
| PgHandlerRan (i : nat)
| PgSignal.

(** A goroutine of the group has returned an error. *)
Definition group_fails (e : program_error) (p : Program) : Program :=
  {| p with pg_cancelled := true; pg_err := match pg_err p with None => Some e | old => old end |}.

Definition with_backend (i : nat) (f : Backend -> option Backend) (p : Program) : option Program :=
  b ← pg_backends p !! i; b ← f b; Some {| p with pg_backends := <[i := b]> (pg_backends p) |}.

Definition program_step (ev : program_event) (p : Program) : option Program :=
  match ev with
  | PgWatch msg => if pg_watching p then Some {| p with pg_states := watch_message msg (pg_states p) |} else None
  | PgWatchEnded e =>
      if pg_watching p then
        let p := {| p with pg_watching := false |} in
        match watch_result e with Err e => Some (group_fails (ErrWatch e false) p) | _ => Some p end
      else None
  | PgWatchFailed canceled =>
      if pg_watching p then Some (group_fails (ErrWatch ErrWatchOpen canceled) {| p with pg_watching := false |}) else None
  | PgListening i =>
      with_backend i (fun b => match be_state b with Starting => Some {| b with be_state := Serving |} | _ => None end) p
  | PgListenFailed i =>
      p ← with_backend i (fun b => match be_state b with Starting => Some {| b with be_state := Returned |} | _ => None end) p;
      Some (group_fails (ErrListen i) p)
  | PgAccepted i =>
      with_backend i (fun b =>
        match be_state b with
        | Serving =>
            if bool_decide (be_sem b < agentCheckMaxConcurrent)%nat
            then Some {| b with be_sem := S (be_sem b) |}
            else Some {| b with be_refused := S (be_refused b) |}
        | _ => None
        end) p
  | PgAcceptFailed i =>
      with_backend i (fun b =>
        match be_state b with
        | Serving => Some (if pg_cancelled p then {| b with be_state := Returned |} else b)
        | _ => None
        end) p
  | PgHandlerRan i =>
      with_backend i (fun b =>
        match be_sem b with
        | O => None
        | S n => Some {| b with be_sem := n; be_served := be_served b ++ [handleAgentCheck (be_peer b) (pg_states p)] |}
        end) p
  | PgSignal => Some {| p with pg_cancelled := true |}
  end.

Fixpoint program_run (evs : list program_event) (p : Program) : option Program :=
  match evs with
  | [] => Some p
  | ev :: evs => p ← program_step ev p; program_run evs p
  end.

(** The exit code once all goroutines have returned. *)
Definition program_exit (p : Program) : option Z :=
  if pg_watching p || existsb (fun b => match be_state b with Returned => false | _ => true end) (pg_backends p) then None
  else Some (match pg_err p with
             | None | Some (ErrWatch _ true) => 0
             | Some _ => 1
             end).

(** ** One backend of the program is an agent *)

(** The part of an event that concerns backend [i]. *)
Definition project (i : nat) (ev : program_event) : option agent_event :=
  match ev with
  | PgWatch msg => Some (WatchReceived msg)
  | PgWatchEnded e => Some (WatchEnded e)
  | PgAccepted j => if bool_decide (j = i) then Some Accepted else None
  | PgAcceptFailed j => if bool_decide (j = i) then Some AcceptFailed else None
  | PgHandlerRan j => if bool_decide (j = i) then Some HandlerRan else None
  | _ => None
  end.

Record sim (i : nat) (peer : string) (p : Program) (a : Agent) : Prop := {
  sim_states : ag_states a = pg_states p;
  sim_watch : pg_watching p = true -> ag_watch a = None;
  sim_backend : exists b, pg_backends p !! i = Some b /\ be_peer b = peer /\ be_sem b = ag_sem a /\
                          be_refused b = ag_refused a /\ be_served b = ag_served a;
}.

(** A step of another backend. *)
Lemma sim_other i j peer f p p' a : with_backend j f p = Some p' -> j <> i -> sim i peer p a -> sim i peer p' a.
Proof.
  intros (b & Hb & (b' & Hf & [= <-])%bind_Some)%bind_Some Hne [H1 H2 (b0 & H3)]. split; cbn; [done..|].
  exists b0. by rewrite list_lookup_insert_ne by done.
Qed.

(** A step of the backend itself. *)
Lemma sim_own i peer f p p' a a' : with_backend i f p = Some p' -> sim i peer p a ->
  ag_states a' = ag_states a -> ag_watch a' = ag_watch a ->
  (forall b b', f b = Some b' -> be_peer b = peer -> be_sem b = ag_sem a -> be_refused b = ag_refused a -> be_served b = ag_served a ->
     be_peer b' = peer /\ be_sem b' = ag_sem a' /\ be_refused b' = ag_refused a' /\ be_served b' = ag_served a') ->
  sim i peer p' a'.
Proof.
  intros (b & Hb & (b' & Hf & [= <-])%bind_Some)%bind_Some [H1 H2 (b0 & H3 & E1 & E2 & E3 & E4)] Hs Hw H. split; cbn; [congruence|by rewrite Hw|].
  exists b'. rewrite list_lookup_insert_eq by (by eapply lookup_lt_Some). split; [done|]. assert (b0 = b) as -> by congruence. by apply (H b b').
Qed.

Lemma sim_fails i peer e p a : sim i peer p a -> sim i peer (group_fails e p) a.
Proof. by intros [? ? ?]. Qed.

Lemma sim_step i peer ev p p' a : program_step ev p = Some p' -> sim i peer p a ->
  exists a', match project i ev with Some ev => agent_step peer ev a | None => Some a end = Some a' /\ sim i peer p' a'.
Proof.
  intros E Hsim. destruct ev as [msg|e|c|j|j|j|j|j|]; cbn [program_step project] in *.
  - destruct (pg_watching p) eqn:W; [|done]. injection E as <-. destruct Hsim as [H1 H2 H3]. cbn. rewrite (H2 W). eexists. split; [done|].
    split; cbn; [by rewrite H1|done|done].
  - destruct (pg_watching p) eqn:W; [|done]. destruct Hsim as [H1 H2 H3]. cbn. rewrite (H2 W). eexists. split; [done|].
    assert (S' : sim i peer {| p with pg_watching := false |} {| a with ag_watch := Some (watch_result e) |}) by (split; cbn; done).
    destruct (watch_result e); injection E as <-; [done|by apply sim_fails|done].
  - destruct (pg_watching p) eqn:W; [|done]. injection E as <-. exists a. split; [done|]. apply sim_fails. destruct Hsim as [H1 H2 H3].
    split; cbn; done.
  - exists a. split; [done|]. destruct (decide (j = i)) as [->|]; [|by eapply sim_other].
    eapply sim_own; [done..|]. intros b b'. cbn beta. destruct (be_state b); [|done..]. by intros [= <-].
  - apply bind_Some in E as (p1 & E & [= <-]). exists a. split; [done|]. apply sim_fails.
    destruct (decide (j = i)) as [->|]; [|by eapply sim_other].
    eapply sim_own; [done..|]. intros b b'. cbn beta. destruct (be_state b); [|done..]. by intros [= <-].
  - case_bool_decide as Hj; [subst j|by eauto using sim_other]. cbn [agent_step].
    assert (Hs : exists a', (if bool_decide (ag_sem a < agentCheckMaxConcurrent)%nat then Some {| a with ag_sem := S (ag_sem a) |}
                             else Some {| a with ag_refused := S (ag_refused a) |}) = Some a') by (case_bool_decide; eauto).
    destruct Hs as [a' Hs]. exists a'. split; [done|]. eapply sim_own; [done..| | |].
    1, 2: case_bool_decide; by injection Hs as <-.
    intros b b' Hb ? Hsem ? ?. cbn beta in Hb. destruct (be_state b); [done| |done]. rewrite Hsem in Hb.
    case_bool_decide; simplify_eq; by split_and!; cbn; congruence.
  - case_bool_decide as Hj; [subst j|by eauto using sim_other]. exists a. split; [done|]. eapply sim_own; [done..|].
    intros b b' Hb ? ? ? ?. cbn beta in Hb. destruct (be_state b); [done| |done]. destruct (pg_cancelled p); by simplify_eq.
  - case_bool_decide as Hj; [subst j|by eauto using sim_other]. cbn [agent_step].
    pose proof Hsim as [H1 _ (b0 & Hb0 & Hp0 & Hs0 & _ & _)].
    destruct (ag_sem a) as [|n] eqn:En.
    { apply bind_Some in E as (b & Hb & (b' & Hf & _)%bind_Some). assert (b0 = b) as -> by congruence. cbn beta in Hf. by rewrite Hs0 in Hf. }
    eexists. split; [done|]. eapply sim_own; [done..|]. intros b b' Hb Hp Hsem ? Hserved. cbn beta in Hb. rewrite Hsem, En in Hb.
    injection Hb as <-. cbn. rewrite Hserved, Hp, H1. by split_and!.
  - injection E as <-. exists a. split; [done|]. destruct Hsim as [H1 H2 H3]. by split.
Qed.

Lemma sim_run i peer evs : forall p p' a, program_run evs p = Some p' -> sim i peer p a ->
  exists a', agent_run peer (omap (project i) evs) a = Some a' /\ sim i peer p' a'.
Proof.
  induction evs as [|ev evs IH]; intros p p' a; cbn [program_run]; [intros [= <-]; by exists a|].
  intros (p1 & E & Er)%bind_Some S. destruct (sim_step i peer ev p p1 a E S) as (a1 & Ea & S1).
  destruct (IH p1 p' a1 Er S1) as (a' & Ea' & S'). exists a'. split; [|done]. cbn [omap list_omap].
  destruct (project i ev); [by cbn; rewrite Ea|by injection Ea as <-].
Qed.

(** ** How the program ends *)

(** The error of the group: that of the first goroutine that failed. *)
Definition failure (ev : program_event) : option program_error :=
  match ev with
  | PgWatchEnded EndOther => Some (ErrWatch ErrWatchStream false)
  | PgWatchFailed c => Some (ErrWatch ErrWatchOpen c)
  | PgListenFailed i => Some (ErrListen i)
  | _ => None
  end.

Lemma with_backend_err i f p p' : with_backend i f p = Some p' -> pg_err p' = pg_err p.
Proof. by intros (b & _ & (b' & _ & [= <-])%bind_Some)%bind_Some. Qed.

Lemma program_step_err ev p p' : program_step ev p = Some p' ->
  pg_err p' = match pg_err p with None => failure ev | old => old end.
Proof.
  destruct ev as [msg|e|c|j|j|j|j|j|]; cbn [program_step failure].
  4, 6, 7, 8: intros ->%with_backend_err; by destruct (pg_err p).
  1-3: destruct (pg_watching p); [|done].
  - intros [= <-]. cbn. by destruct (pg_err p).
  - destruct e; intros [= <-]; cbn; by destruct (pg_err p).
  - intros [= <-]. done.
  - intros (p1 & E%with_backend_err & [= <-])%bind_Some. cbn. by rewrite E.
  - intros [= <-]. cbn. by destruct (pg_err p).
Qed.

Lemma program_run_err evs : forall p p', program_run evs p = Some p' ->
  pg_err p' = match pg_err p with None => head (omap failure evs) | old => old end.
Proof.
  induction evs as [|ev evs IH]; intros p p'; cbn [program_run]; [intros [= <-]; by destruct (pg_err p)|].
  intros (p1 & E & Er)%bind_Some. rewrite (IH _ _ Er), (program_step_err _ _ _ E). cbn [omap list_omap].
  destruct (pg_err p); [done|]. by destruct (failure ev).
Qed.

End Program.

(** ** The program follows the sessions *)

Section Follows.
Context `{PT : ProtoTime}.

Lemma sim_start i b backends : backends !! i = Some b -> sim i (bk_Peer b) (start_program backends) new_agent.
Proof.
  intros Hb. split; [done|done|]. exists (mkBackend (bk_Peer b) Starting 0 0 []). cbn. by rewrite list_lookup_fmap, Hb.
Qed.

(** C34: the program tells the load balancer the state of the sessions of every
    backend of its configuration file.  Whatever the goroutines do in which order, a
    backend whose peer is the address [a] answers the next check with up exactly if
    the last state the daemon reported for that peer is Up, when the watch has
    received what the daemon sends to a watching client; every earlier answer is the
    one for the messages until then, at most 64 checks of a backend are in progress,
    and every connection is answered, in progress or refused.  When all goroutines
    have returned, the exit code is 1 exactly if the first failure is a listener that
    could not be opened or a watch that failed other than by the cancellation. *)
Theorem haproxy_follows_sessions (getenv : string -> string) (files : AgentFiles) (args : list string)
    (gobfdAddr : string) (backends : list backendConfig) (i : nat) (a : Addr) (port : Z)
    (now : Z) (ord : order Z nat) (srv : BFDServer) (scs : list StateChange)
    (evs : list program_event) (p : Program) (Ha : addr_ok a)
    (Hsetup : agent_setup getenv files args = inr (gobfdAddr, backends))
    (Hi : backends !! i = Some (mkBackendConfig (Addr_String a) port))
    (Hsnaps : Forall (fun snap => addr_ok (ss_PeerAddr snap)) (Sessions ord (sv_manager srv)))
    (Hscs : Forall (fun sc => addr_ok (sc_PeerAddr sc)) scs)
    (Hrecv : received (omap (project i) evs) = watched now ord srv scs)
    (Hrun : program_run (evs ++ [PgHandlerRan i]) (start_program backends) = Some p) :
  (exists configPath cfg, parseFlags getenv args = inr (configPath.1, configPath.2) /\
     agent_loadConfig files configPath.2 = Ok cfg /\ agc_Backends cfg = backends) /\
  (exists b, pg_backends p !! i = Some b /\
     be_served b = answers (Addr_String a) [] (omap (project i) evs) ++
       [answer (bool_decide (last (peer_states a (Sessions ord (sv_manager srv)) scs) = Some StateUp))] /\
     (be_sem b <= agentCheckMaxConcurrent)%nat /\
     (length (be_served b) + be_sem b + be_refused b)%nat = sum_list (accepted <$> omap (project i) evs)) /\
  (forall code, program_exit p = Some code ->
     code = match head (omap failure evs) with None | Some (ErrWatch _ true) => 0 | Some _ => 1 end).
Proof.
  destruct (sim_run i _ _ _ _ _ Hrun (sim_start i _ _ Hi)) as (ag & Har & [_ _ (b & Hb & _ & Hsem & Href & Hserved)]).
  rewrite omap_app in Har. cbn [omap list_omap project] in Har. rewrite bool_decide_eq_true_2 in Har by done.
  destruct (agent_follows_sessions a now ord srv scs _ ag Ha Hsnaps Hscs Hrecv Har) as (H1 & H2 & H3).
  split_and!.
  - unfold agent_setup in Hsetup. destruct (parseFlags getenv args) as [|[addr path]]; [done|]. cbn in Hsetup. destruct (bool_decide (path = "")); [done|].
    destruct (agent_loadConfig files path) as [cfg| |] eqn:Hl; [|done..]. exists (addr, path), cfg.
    destruct (bool_decide (agc_Backends cfg = [])); [done|]. by injection Hsetup.
  - exists b. rewrite Hserved, Hsem, Href. by split_and!.
  - intros code. unfold program_exit. destruct (_ || _); [done|]. intros [= <-].
    rewrite (program_run_err _ _ _ Hrun). cbn [pg_err start_program]. by rewrite omap_app, app_nil_r.
Qed.

End Follows.

(** ** The ExaBGP bridge as a program ([cmd/gobfd-exabgp-bridge/main.go]) *)

Definition asks_version (args : list string) : bool :=
  match args with
  | arg :: _ => bool_decide (arg = "--version"%string) || bool_decide (arg = "-version"%string)
  | [] => false
  end.

(** The exit code, [None] while it runs, and what it has written. *)
Definition bridge_main `{PT : ProtoTime} (info : BuildInfo) (getenv : string -> string) (args : list string)
    (attempts : list (event_stream * bool)) : option Z * list string :=
  if asks_version args then (Some 0, [Full info "gobfd-exabgp-bridge"]) else
  let peer := getenv "GOBFD_PEER"%string in
  let prefix := getenv "ANYCAST_PREFIX"%string in
  (bridge_run peer prefix attempts,
   if bool_decide (peer = "") || bool_decide (prefix = "") then [] else (watchAndAnnounce peer prefix attempts).1.2).

(** The bridge ends with 1 exactly if it is not configured; whatever the streams do it
    runs on or ends with 0. *)
Lemma bridge_main_exit `{PT : ProtoTime} info getenv args attempts :
  (bridge_main info getenv args attempts).1 = Some 1 <->
  asks_version args = false /\ (getenv "GOBFD_PEER"%string = "" \/ getenv "ANYCAST_PREFIX"%string = "").
Proof.
  unfold bridge_main, bridge_run. destruct (asks_version args); cbn [fst]; [naive_solver|].
  destruct (bool_decide_reflect (getenv "GOBFD_PEER"%string = "")); cbn [orb]; [naive_solver|].
  destruct (bool_decide_reflect (getenv "ANYCAST_PREFIX"%string = "")); [naive_solver|].
  split; [|naive_solver]. unfold watchAndAnnounce. generalize second. induction attempts as [|[stream c] l IH]; intros b; [done|].
  cbn [watch_loop]. destruct (streamEvents _ _ stream) as [[[]|[]|] out] eqn:E; try done.
  3: { unfold streamEvents in E. destruct stream as [[msgs []]|]; [..|done]; by destruct (stream_messages _ _ _ _). }
  all: destruct c; [done|]; specialize (IH (if maxBackoff <? i64 (b * 2) then maxBackoff else i64 (b * 2))); cbv zeta;
    by destruct (watch_loop _ _ _ _) as [[r out'] waits].
Qed.

(** ** A run *)

Definition sample_files : AgentFiles :=
  {| af_fs := {| fs_OpenRoot := fun dir => bool_decide (dir = "/etc/gobfd"%string);
                 fs_Open := fun _ base => bool_decide (base = "agent.yml"%string) |};
     af_read := fun _ _ => Some "backends"%string;
     af_yaml := fun _ => Some {| agc_GoBFDAddr := ""; agc_Backends := [mkBackendConfig "10.0.0.3" 5556; mkBackendConfig "10.0.0.2" 5555] |} |}.

Definition sample_args : list string := ["--config"%string; "/etc/gobfd/agent.yml"%string].

Definition sample_program_events : list program_event :=
  [PgListening 1; PgAccepted 1; PgListening 0] ++ (PgWatch <$> sample_watched [StateInit; StateUp]) ++
  [PgAccepted 0; PgHandlerRan 1; PgAcceptFailed 0; PgSignal; PgHandlerRan 0; PgAcceptFailed 0; PgWatchEnded EndCanceled; PgAccepted 1; PgAcceptFailed 1].

Lemma haproxy_follows_sessions_witness :
  exists p b, program_run (sample_program_events ++ [PgHandlerRan 1])
                (start_program [mkBackendConfig "10.0.0.3" 5556; mkBackendConfig "10.0.0.2" 5555]) = Some p /\
    pg_backends p !! 1%nat = Some b /\ last (be_served b) = Some (answer true) /\ program_exit p = Some 0.
Proof.
  destruct (program_run (sample_program_events ++ [PgHandlerRan 1])
              (start_program [mkBackendConfig "10.0.0.3" 5556; mkBackendConfig "10.0.0.2" 5555])) as [p|] eqn:E.
  2: { apply (f_equal (fun o : option Program => if o then true else false)) in E. vm_compute in E. discriminate. }
  destruct (haproxy_follows_sessions (fun _ => ""%string) sample_files sample_args "http://127.0.0.1:50052" _ 1 sample_peer 5555
              0 id sample_server (sample_change <$> [StateInit; StateUp]) sample_program_events p sample_peer_ok
              eq_refl eq_refl sample_snaps_ok (sample_changes_ok _) eq_refl E) as (_ & (b & Hb & Hs & _) & Hexit).
  exists p, b. split; [reflexivity|]. split; [exact Hb|]. split; [rewrite Hs, last_snoc; reflexivity|].
  destruct (program_exit p) as [code|] eqn:Ex.
  - rewrite (Hexit code eq_refl). reflexivity.
  - apply (f_equal (option_map program_exit)) in E. cbn [option_map] in E. rewrite Ex in E. vm_compute in E. discriminate.
Defined.
