(* ===== verification/Ctl.v ===== *)
(** * The command line client ([cmd/gobfdctl/commands])

    The commands of [gobfdctl]: the checks on their options, the requests they build,
    the calls of the endpoint, and what they print.  The options come parsed from the
    argument library.  A result is printed as a table, given here as rows of cells, or
    as JSON or YAML of a view; the writers that turn rows and views into text are an
    interface. *)

From stdpp Require Import strings pretty relations.
From Stdlib Require Import Ascii.
From S2P Require Import Prelude Config Packet Fsm Auth Netip NetipParse Strconv Jitter Session Discriminator Micro.
From S2P Require Import Unsolicited Echo Manager Transport Daemon Server ServerProps Rpc Agents.

Local Open Scope Z_scope.

Inductive ctl_error :=
| errPeerRequired
| errUnknownSessionType
| errUnknownAuthType
| errAuthSecretRequired
| errAuthKeyMaterialWithoutType
| errEchoPeerRequired
| errEchoTxIntervalNonPos
| errEchoDetectMultRequired
| errMicroLagRequired
| errMicroMembersRequired
| errMicroPeerRequired
| errMicroDetectMultZero
| errMicroMinActiveOutRange
| errParseDiscriminator
| errUnsupportedFormat
| errMarshal
| errCall (e : connect_error)
| errStream.

(** ** Names ([format.go]) *)

Definition shortState (s : Z) : string :=
  if s =? SESSION_STATE_ADMIN_DOWN then "AdminDown" else
  if s =? SESSION_STATE_DOWN then "Down" else
  if s =? SESSION_STATE_INIT then "Init" else
  if s =? SESSION_STATE_UP then "Up" else "Unknown".

Definition shortSessionType (t : Z) : string :=
  if t =? SESSION_TYPE_SINGLE_HOP then "single-hop" else
  if t =? SESSION_TYPE_MULTI_HOP then "multi-hop" else
  if t =? SESSION_TYPE_ECHO then "echo" else
  if t =? SESSION_TYPE_MICRO_BFD then "micro-bfd" else
  if t =? SESSION_TYPE_VXLAN then "vxlan" else
  if t =? SESSION_TYPE_GENEVE then "geneve" else "unknown".

Definition shortDiag (d : Z) : string :=
  if d =? 1 then "None" else
  if d =? 2 then "ControlTimeExpired" else
  if d =? 3 then "EchoFailed" else
  if d =? 4 then "NeighborDown" else
  if d =? 5 then "ForwardingReset" else
  if d =? 6 then "PathDown" else
  if d =? 7 then "ConcatPathDown" else
  if d =? 8 then "AdminDown" else
  if d =? 9 then "ReverseConcatPathDown" else "Unknown".

Definition shortAuthType (a : Z) : string :=
  if a =? AUTHENTICATION_TYPE_NONE then "None" else
  if a =? AUTHENTICATION_TYPE_SIMPLE_PASSWORD then "SimplePassword" else
  if a =? AUTHENTICATION_TYPE_KEYED_MD5 then "KeyedMD5" else
  if a =? AUTHENTICATION_TYPE_METICULOUS_KEYED_MD5 then "MeticulousKeyedMD5" else
  if a =? AUTHENTICATION_TYPE_KEYED_SHA1 then "KeyedSHA1" else
  if a =? AUTHENTICATION_TYPE_METICULOUS_KEYED_SHA1 then "MeticulousKeyedSHA1" else "Unknown".

Definition shortEventType (t : event_type) : string :=
  match t with
  | EVENT_TYPE_STATE_CHANGE => "StateChange"
  | EVENT_TYPE_SESSION_ADDED => "SessionAdded"
  | EVENT_TYPE_SESSION_DELETED => "SessionDeleted"
  | EVENT_TYPE_UNSPECIFIED => "Unknown"
  end.

(** ** Flag values ([session.go]) *)

Definition parseSessionType (s : string) : go ctl_error Z :=
  if bool_decide (s = "single-hop"%string) then Ok SESSION_TYPE_SINGLE_HOP else
  if bool_decide (s = "multi-hop"%string) then Ok SESSION_TYPE_MULTI_HOP else Err errUnknownSessionType.

Definition normalizeFlagValue (s : string) : string := replace_char "_" "-" (ToLower (TrimSpace s)).

Definition parseAuthType (s : string) : go ctl_error Z :=
  let v := normalizeFlagValue s in
  if bool_decide (v = ""%string \/ v = "none"%string) then Ok AUTHENTICATION_TYPE_NONE else
  if bool_decide (v = "simple-password"%string) then Ok AUTHENTICATION_TYPE_SIMPLE_PASSWORD else
  if bool_decide (v = "keyed-md5"%string) then Ok AUTHENTICATION_TYPE_KEYED_MD5 else
  if bool_decide (v = "meticulous-keyed-md5"%string) then Ok AUTHENTICATION_TYPE_METICULOUS_KEYED_MD5 else
  if bool_decide (v = "keyed-sha1"%string) then Ok AUTHENTICATION_TYPE_KEYED_SHA1 else
  if bool_decide (v = "meticulous-keyed-sha1"%string) then Ok AUTHENTICATION_TYPE_METICULOUS_KEYED_SHA1 else
  Err errUnknownAuthType.

Example parseAuthType_examples :
  parseAuthType " Keyed_MD5 " = Ok AUTHENTICATION_TYPE_KEYED_MD5 /\ parseAuthType "" = Ok AUTHENTICATION_TYPE_NONE /\
  parseAuthType "None" = Ok AUTHENTICATION_TYPE_NONE /\ parseAuthType "md5" = Err errUnknownAuthType /\
  parseAuthType "METICULOUS-keyed_sha1" = Ok AUTHENTICATION_TYPE_METICULOUS_KEYED_SHA1.
Proof. vm_compute. repeat split; reflexivity. Qed.

(** ** Options and requests *)

Record addSessionOptions := mkAddSessionOptions {
  ao_peer : string;
  ao_local : string;
  ao_iface : string;
  ao_sessType : string;
  ao_txInterval : Z;
  ao_rxInterval : Z;
  ao_detectMult : Z;
  ao_authType : string;
  ao_authKeyID : Z;
  ao_authSecret : string;
}.

(** The defaults of the flags. *)
Definition default_addSessionOptions : addSessionOptions :=
  {| ao_peer := ""; ao_local := ""; ao_iface := ""; ao_sessType := "single-hop"; ao_txInterval := second;
     ao_rxInterval := second; ao_detectMult := 3; ao_authType := "none"; ao_authKeyID := 0; ao_authSecret := "" |}.

Record addEchoOptions := mkAddEchoOptions {
  eo_peer : string;
  eo_local : string;
  eo_iface : string;
  eo_txInterval : Z;
  eo_detectMult : Z;
}.

Record addMicroOptions := mkAddMicroOptions {
  mco_lag : string;
  mco_members : list string;
  mco_peer : string;
  mco_local : string;
  mco_txInterval : Z;
  mco_rxInterval : Z;
  mco_detectMult : Z;
  mco_minActive : Z;
}.

Section Requests.
Context `{PT : ProtoTime}.

Definition buildAddSessionRequest (opts : addSessionOptions) : go ctl_error AddSessionRequest :=
  if bool_decide (ao_peer opts = "") then Err errPeerRequired else
  st ← parseSessionType (ao_sessType opts);
  authType ← parseAuthType (ao_authType opts);
  _ ← (if authType =? AUTHENTICATION_TYPE_NONE then
         if negb (ao_authKeyID opts =? 0) || negb (bool_decide (ao_authSecret opts = ""))
         then Err errAuthKeyMaterialWithoutType else Ok tt
       else if bool_decide (ao_authSecret opts = "") then Err errAuthSecretRequired else Ok tt);
  Ok {| rq_PeerAddress := ao_peer opts; rq_LocalAddress := ao_local opts; rq_InterfaceName := ao_iface opts;
        rq_Type := st; rq_DesiredMinTxInterval := Some (NewDuration (ao_txInterval opts));
        rq_RequiredMinRxInterval := Some (NewDuration (ao_rxInterval opts));
        rq_DetectMultiplier := ao_detectMult opts; rq_AuthType := authType; rq_AuthKeyId := ao_authKeyID opts;
        rq_AuthSecret := bytes_of (ao_authSecret opts) |}.

Definition buildGetSessionRequest (identifier : string) : session_identifier :=
  match ParseUint 32 identifier with
  | Some discr => IdLocalDiscriminator discr
  | None => IdPeerAddress identifier
  end.

Definition buildAddEchoSessionRequest (opts : addEchoOptions) : go ctl_error AddEchoSessionRequest :=
  if bool_decide (eo_peer opts = "") then Err errEchoPeerRequired else
  if eo_txInterval opts <=? 0 then Err errEchoTxIntervalNonPos else
  if eo_detectMult opts =? 0 then Err errEchoDetectMultRequired else
  Ok {| erq_PeerAddress := eo_peer opts; erq_LocalAddress := eo_local opts; erq_InterfaceName := eo_iface opts;
        erq_TxInterval := Some (NewDuration (eo_txInterval opts)); erq_DetectMultiplier := eo_detectMult opts |}.

Definition buildAddMicroBFDGroupRequest (opts : addMicroOptions) : go ctl_error AddMicroBFDGroupRequest :=
  if bool_decide (mco_lag opts = "") then Err errMicroLagRequired else
  if bool_decide (mco_members opts = []) then Err errMicroMembersRequired else
  if bool_decide (mco_peer opts = "") then Err errMicroPeerRequired else
  if mco_detectMult opts =? 0 then Err errMicroDetectMultZero else
  if (mco_minActive opts <? 1) || (Z.of_nat (length (mco_members opts)) <? mco_minActive opts)
  then Err errMicroMinActiveOutRange else
  Ok {| mrq_LagInterface := mco_lag opts; mrq_MemberLinks := mco_members opts; mrq_PeerAddress := mco_peer opts;
        mrq_LocalAddress := mco_local opts; mrq_DesiredMinTxInterval := Some (NewDuration (mco_txInterval opts));
        mrq_RequiredMinRxInterval := Some (NewDuration (mco_rxInterval opts));
        mrq_DetectMultiplier := mco_detectMult opts; mrq_MinActiveLinks := mco_minActive opts |}.

End Requests.

(** ** Views and tables ([format.go], [format_advanced.go]) *)

Record sessionView := mkSessionView {
  sv_PeerAddress : string;
  sv_LocalAddress : string;
  sv_InterfaceName : string;
  sv_Type : string;
  sv_LocalState : string;
  sv_RemoteState : string;
  sv_LocalDiagnostic : string;
  sv_LocalDiscriminator : Z;
  sv_RemoteDiscriminator : Z;
  sv_DetectMultiplier : Z;
  sv_DesiredMinTx : string;
  sv_RequiredMinRx : string;
  sv_RemoteMinRx : string;
  sv_NegotiatedTx : string;
  sv_DetectionTime : string;
  sv_AuthType : string;
  sv_LastStateChange : string;
  sv_LastPacketReceived : string;
}.

Record eventView := mkEventView {
  ev_Timestamp : string;
  ev_EventType : string;
  ev_PreviousState : string;
  ev_Session : option sessionView;
}.

Record echoSessionView := mkEchoSessionView {
  esv_Discriminator : Z;
  esv_PeerAddress : string;
  esv_LocalAddress : string;
  esv_Interface : string;
  esv_State : string;
  esv_Diagnostic : string;
  esv_TxInterval : string;
  esv_DetectMult : Z;
  esv_PacketsSent : Z;
  esv_PacketsReceived : Z;
}.

Record microBFDGroupView := mkMicroBFDGroupView {
  mgv_LagInterface : string;
  mgv_PeerAddress : string;
  mgv_LocalAddress : string;
  mgv_MemberLinks : list string;
  mgv_DetectMult : Z;
  mgv_MinActiveLinks : Z;
  mgv_UpMemberCount : Z;
  mgv_AggregateUp : bool;
}.

Inductive view :=
| ViewSession (v : sessionView)
| ViewSessions (l : list sessionView)
| ViewEvent (v : eventView)
| ViewEchoSessions (l : list echoSessionView)
| ViewMicroBFDGroups (l : list microBFDGroupView).

(** The writers: JSON and YAML, which may fail, aligned columns, and the time of a
    timestamp message in RFC 3339 form. *)
Class Writers `{PT : ProtoTime} := {
  marshalJSON : view -> option string;
  marshalYAML : view -> option string;
  tabwriter : list (list string) -> string;
  format_time : Timestamp -> string;
}.

Section Format.
Context `{WR : Writers}.

Definition formatOutput (v : view) (format : string) (tableFn : string) : go ctl_error string :=
  if bool_decide (format = "json"%string) then match marshalJSON v with Some s => Ok s | None => Err errMarshal end else
  if bool_decide (format = "table"%string) then Ok tableFn else
  if bool_decide (format = "yaml"%string) then match marshalYAML v with Some s => Ok s | None => Err errMarshal end else
  Err errUnsupportedFormat.

Definition duration_text (d : option Duration) : string :=
  match d with Some d => Duration_String (AsDuration d) | None => "" end.

Definition time_text (t : option Timestamp) : string :=
  match t with Some t => format_time t | None => "" end.

Definition sessionToView (s : BfdSession) : sessionView :=
  {| sv_PeerAddress := pb_PeerAddress s; sv_LocalAddress := pb_LocalAddress s;
     sv_InterfaceName := pb_InterfaceName s; sv_Type := shortSessionType (pb_Type s);
     sv_LocalState := shortState (pb_LocalState s); sv_RemoteState := shortState (pb_RemoteState s);
     sv_LocalDiagnostic := shortDiag (pb_LocalDiagnostic s);
     sv_LocalDiscriminator := pb_LocalDiscriminator s; sv_RemoteDiscriminator := pb_RemoteDiscriminator s;
     sv_DetectMultiplier := pb_DetectMultiplier s; sv_DesiredMinTx := duration_text (pb_DesiredMinTxInterval s);
     sv_RequiredMinRx := duration_text (pb_RequiredMinRxInterval s);
     sv_RemoteMinRx := duration_text (pb_RemoteMinRxInterval s);
     sv_NegotiatedTx := duration_text (pb_NegotiatedTxInterval s);
     sv_DetectionTime := duration_text (pb_DetectionTime s); sv_AuthType := shortAuthType (pb_AuthType s);
     sv_LastStateChange := time_text (pb_LastStateChange s);
     sv_LastPacketReceived := time_text (pb_LastPacketReceived s) |}.

Definition sessionsToView (sessions : list BfdSession) : list sessionView := sessionToView <$> sessions.

Definition eventToView (event : WatchSessionEventsResponse) : eventView :=
  {| ev_Timestamp := format_time (we_Timestamp event); ev_EventType := shortEventType (we_Type event);
     ev_PreviousState := shortState (we_PreviousState event);
     ev_Session := Some (sessionToView (we_Session event)) |}.

Definition formatSessionsTable (sessions : list BfdSession) : list (list string) :=
  ["DISCRIMINATOR"; "PEER"; "LOCAL"; "TYPE"; "STATE"; "REMOTE-STATE"; "DIAG"]%string ::
  ((fun s => [pretty (pb_LocalDiscriminator s); pb_PeerAddress s; pb_LocalAddress s; shortSessionType (pb_Type s);
              shortState (pb_LocalState s); shortState (pb_RemoteState s); shortDiag (pb_LocalDiagnostic s)])
   <$> sessions).

(** A line of the detail view that is there only when its field is set. *)
Definition optional_row {A} (label : string) (text : A -> string) (o : option A) : list (list string) :=
  match o with Some a => [[label; text a]] | None => [] end.

Definition formatSessionDetail (s : BfdSession) : list (list string) :=
  let dur d := Duration_String (AsDuration d) in
  [["Peer Address:"; pb_PeerAddress s]; ["Local Address:"; pb_LocalAddress s];
   ["Interface:"; pb_InterfaceName s]; ["Type:"; shortSessionType (pb_Type s)];
   ["Local State:"; shortState (pb_LocalState s)]; ["Remote State:"; shortState (pb_RemoteState s)];
   ["Local Diagnostic:"; shortDiag (pb_LocalDiagnostic s)];
   ["Local Discriminator:"; pretty (pb_LocalDiscriminator s)];
   ["Remote Discriminator:"; pretty (pb_RemoteDiscriminator s)];
   ["Detect Multiplier:"; pretty (pb_DetectMultiplier s)]]%string ++
  optional_row "Desired Min TX:" dur (pb_DesiredMinTxInterval s) ++
  optional_row "Required Min RX:" dur (pb_RequiredMinRxInterval s) ++
  optional_row "Remote Min RX:" dur (pb_RemoteMinRxInterval s) ++
  optional_row "Negotiated TX:" dur (pb_NegotiatedTxInterval s) ++
  optional_row "Detection Time:" dur (pb_DetectionTime s) ++
  [["Auth Type:"; shortAuthType (pb_AuthType s)]]%string ++
  optional_row "Last State Change:" format_time (pb_LastStateChange s) ++
  optional_row "Last Packet Received:" format_time (pb_LastPacketReceived s) ++
  match pb_Counters s with
  | None => []
  | Some c =>
      [["Packets Sent:"; pretty (cp_PacketsSent c)]; ["Packets Received:"; pretty (cp_PacketsReceived c)];
       ["Packets Dropped:"; pretty (cp_PacketsDropped c)]; ["State Transitions:"; pretty (cp_StateTransitions c)];
       ["Auth Failures:"; pretty (cp_AuthFailures c)]]%string
  end.

Definition formatEventTable (event : WatchSessionEventsResponse) : string :=
  let sess := we_Session event in
  "[" +:+ format_time (we_Timestamp event) +:+ "] " +:+ shortEventType (we_Type event) +:+
  "  peer=" +:+ pb_PeerAddress sess +:+ "  state=" +:+ shortState (pb_LocalState sess) +:+
  "  prev=" +:+ shortState (we_PreviousState event) +:+ "  discr=" +:+ pretty (pb_LocalDiscriminator sess).

Definition formatSessions (sessions : list BfdSession) (format : string) : go ctl_error string :=
  formatOutput (ViewSessions (sessionsToView sessions)) format (tabwriter (formatSessionsTable sessions)).

Definition formatSession (session : BfdSession) (format : string) : go ctl_error string :=
  formatOutput (ViewSession (sessionToView session)) format (tabwriter (formatSessionDetail session)).

Definition formatEvent (event : WatchSessionEventsResponse) (format : string) : go ctl_error string :=
  formatOutput (ViewEvent (eventToView event)) format (formatEventTable event).

Definition formatEchoSessionsTable (sessions : list EchoSessionPb) : list (list string) :=
  ["DISCRIMINATOR"; "PEER"; "LOCAL"; "INTERFACE"; "STATE"; "TX-INTERVAL"; "DETECT-MULT"; "SENT"; "RCVD"]%string ::
  ((fun s => [pretty (ep_LocalDiscriminator s); ep_PeerAddress s; ep_LocalAddress s; ep_InterfaceName s;
              shortState (ep_LocalState s); duration_text (ep_PbTxInterval s); pretty (ep_DetectMultiplier s);
              pretty (ep_PacketsSent s); pretty (ep_PacketsReceived s)]) <$> sessions).

Definition echoSessionsToView (sessions : list EchoSessionPb) : list echoSessionView :=
  (fun s => {| esv_Discriminator := ep_LocalDiscriminator s; esv_PeerAddress := ep_PeerAddress s;
               esv_LocalAddress := ep_LocalAddress s; esv_Interface := ep_InterfaceName s;
               esv_State := shortState (ep_LocalState s); esv_Diagnostic := shortDiag (ep_LocalDiagnostic s);
               esv_TxInterval := duration_text (ep_PbTxInterval s); esv_DetectMult := ep_DetectMultiplier s;
               esv_PacketsSent := ep_PacketsSent s; esv_PacketsReceived := ep_PacketsReceived s |}) <$> sessions.

Definition formatEchoSessions (sessions : list EchoSessionPb) (format : string) : go ctl_error string :=
  formatOutput (ViewEchoSessions (echoSessionsToView sessions)) format (tabwriter (formatEchoSessionsTable sessions)).

Definition join (l : list string) : string := String.concat "," l.

Definition formatMicroBFDGroupsTable (groups : list MicroBFDGroupPb) : list (list string) :=
  ["LAG"; "PEER"; "LOCAL"; "MEMBERS"; "UP"; "MIN-ACTIVE"; "AGGREGATE"]%string ::
  ((fun g => [mp_LagInterface g; mp_PeerAddress g; mp_LocalAddress g; join (mp_MemberLinks g);
              pretty (mp_UpMemberCount g); pretty (mp_MinActiveLinks g);
              (if mp_AggregateUp g then "Up" else "Down")%string]) <$> groups).

Definition microBFDGroupsToView (groups : list MicroBFDGroupPb) : list microBFDGroupView :=
  (fun g => {| mgv_LagInterface := mp_LagInterface g; mgv_PeerAddress := mp_PeerAddress g;
               mgv_LocalAddress := mp_LocalAddress g; mgv_MemberLinks := mp_MemberLinks g;
               mgv_DetectMult := mp_DetectMultiplier g; mgv_MinActiveLinks := mp_MinActiveLinks g;
               mgv_UpMemberCount := mp_UpMemberCount g; mgv_AggregateUp := mp_AggregateUp g |}) <$> groups.

Definition formatMicroBFDGroups (groups : list MicroBFDGroupPb) (format : string) : go ctl_error string :=
  formatOutput (ViewMicroBFDGroups (microBFDGroupsToView groups)) format (tabwriter (formatMicroBFDGroupsTable groups)).

End Format.

(** ** Commands

    A command calls the endpoint and returns what it prints; [inp] are the inputs of
    the server's handler. *)

Section Commands.
Context `{WR : Writers}.

Definition call {A} (sel : rpc_response -> option A) (inp : RpcInput) (req : rpc_request) (srv : BFDServer)
    : go ctl_error A * BFDServer :=
  match newGRPCServer inp req srv with
  | (Ok resp, srv, _) => (match sel resp with Some a => Ok a | None => Panic end, srv)
  | (Err e, srv, _) => (Err (errCall e), srv)
  | (Panic, srv, _) => (Panic, srv)
  end.

Definition printed {A} (print : A -> go ctl_error string) (r : go ctl_error A * BFDServer)
    : go ctl_error string * BFDServer :=
  (a ← r.1; print a, r.2).

Definition sessionListCmd (inp : RpcInput) (format : string) (srv : BFDServer) : go ctl_error string * BFDServer :=
  printed (fun l => formatSessions l format)
    (call (fun r => match r with RespSessions l => Some l | _ => None end) inp ReqListSessions srv).

Definition session_of (r : rpc_response) : option BfdSession := match r with RespSession s => Some s | _ => None end.

Definition sessionShowCmd (inp : RpcInput) (format arg : string) (srv : BFDServer)
    : go ctl_error string * BFDServer :=
  printed (fun s => formatSession s format) (call session_of inp (ReqGetSession (buildGetSessionRequest arg)) srv).

Definition sessionAddCmd (inp : RpcInput) (format : string) (opts : addSessionOptions) (srv : BFDServer)
    : go ctl_error string * BFDServer :=
  match buildAddSessionRequest opts with
  | Err e => (Err e, srv)
  | Panic => (Panic, srv)
  | Ok req => printed (fun s => formatSession s format) (call session_of inp (ReqAddSession req) srv)
  end.

Definition empty_of (r : rpc_response) : option unit := match r with RespEmpty => Some tt | _ => None end.

Definition sessionDeleteCmd (inp : RpcInput) (arg : string) (srv : BFDServer) : go ctl_error string * BFDServer :=
  match ParseUint 32 arg with
  | None => (Err errParseDiscriminator, srv)
  | Some discr =>
      printed (fun _ => Ok ("Session " +:+ pretty discr +:+ " deleted." +:+ newline))
        (call empty_of inp (ReqDeleteSession discr) srv)
  end.

Definition echoListCmd (inp : RpcInput) (format : string) (srv : BFDServer) : go ctl_error string * BFDServer :=
  printed (fun l => formatEchoSessions l format)
    (call (fun r => match r with RespEchoSessions l => Some l | _ => None end) inp ReqListEchoSessions srv).

Definition echoAddCmd (inp : RpcInput) (opts : addEchoOptions) (srv : BFDServer) : go ctl_error string * BFDServer :=
  match buildAddEchoSessionRequest opts with
  | Err e => (Err e, srv)
  | Panic => (Panic, srv)
  | Ok req =>
      printed (fun s => Ok ("Echo session created: discriminator=" +:+ pretty (ep_LocalDiscriminator s) +:+
                            " state=" +:+ shortState (ep_LocalState s) +:+ newline))
        (call (fun r => match r with RespEchoSession s => Some s | _ => None end) inp (ReqAddEchoSession req) srv)
  end.

Definition echoDeleteCmd (inp : RpcInput) (arg : string) (srv : BFDServer) : go ctl_error string * BFDServer :=
  match ParseUint 32 arg with
  | None => (Err errParseDiscriminator, srv)
  | Some discr =>
      printed (fun _ => Ok ("Echo session " +:+ pretty discr +:+ " deleted." +:+ newline))
        (call empty_of inp (ReqDeleteEchoSession discr) srv)
  end.

Definition microListCmd (inp : RpcInput) (format : string) (srv : BFDServer) : go ctl_error string * BFDServer :=
  printed (fun l => formatMicroBFDGroups l format)
    (call (fun r => match r with RespMicroBFDGroups l => Some l | _ => None end) inp ReqListMicroBFDGroups srv).

Definition microAddCmd (inp : RpcInput) (opts : addMicroOptions) (srv : BFDServer) : go ctl_error string * BFDServer :=
  match buildAddMicroBFDGroupRequest opts with
  | Err e => (Err e, srv)
  | Panic => (Panic, srv)
  | Ok req =>
      printed (fun g => Ok ("Micro-BFD group created: lag=" +:+ mp_LagInterface g +:+ " members=" +:+
                            pretty (Z.of_nat (length (mp_MemberLinks g))) +:+ " min_active=" +:+
                            pretty (mp_MinActiveLinks g) +:+ newline))
        (call (fun r => match r with RespMicroBFDGroup g => Some g | _ => None end) inp (ReqAddMicroBFDGroup req) srv)
  end.

(** [quote] is the %q verb. *)
Definition microDeleteCmd (quote : string -> string) (inp : RpcInput) (lag : string) (srv : BFDServer)
    : go ctl_error string * BFDServer :=
  printed (fun _ => Ok ("Micro-BFD group " +:+ quote lag +:+ " deleted." +:+ newline))
    (call empty_of inp (ReqDeleteMicroBFDGroup lag) srv).

(** The lines printed until the stream ends or an event cannot be formatted. *)
Fixpoint monitor_events (format : string) (events : list WatchSessionEventsResponse) : list string * go ctl_error unit :=
  match events with
  | [] => ([], Ok tt)
  | event :: events =>
      match formatEvent event format with
      | Err e => ([], Err e)
      | Panic => ([], Panic)
      | Ok out => let '(lines, r) := monitor_events format events in ((out +:+ newline)%string :: lines, r)
      end
  end.

Definition monitorCmd (format : string) (stream : option (list WatchSessionEventsResponse * stream_end))
    : list string * go ctl_error unit :=
  match stream with
  | None => ([], Err errStream)
  | Some (events, e) =>
      let '(lines, r) := monitor_events format events in
      (lines, match r with
              | Ok _ => match e with EndNil | EndCanceled => Ok tt | _ => Err errStream end
              | _ => r
              end)
  end.

End Commands.
