(* ===== verification/CtlProps.v ===== *)
(** * Properties of the command line client

    The commands against the running endpoint: what an operator typed is what is
    created and shown, and a discriminator that was printed can be typed again. *)

From stdpp Require Import strings pretty relations.
From S2P Require Import Prelude Config Packet Fsm Auth Netip NetipParse Strconv Jitter Session SessionInv SessionSteps.
From S2P Require Import SessionProps SessionFrame Discriminator Micro Unsolicited Echo Manager ManagerSteps ManagerInv.
From S2P Require Import ManagerOps ManagerProps Transport Daemon DaemonProps Server ServerProps Rpc Agents Ctl.

Local Open Scope Z_scope.

Section Client.
Context `{WR : Writers}.

(** Options of the widths of their types. *)
Definition options_ok (opts : addSessionOptions) : Prop :=
  is_i64 (ao_txInterval opts) /\ is_i64 (ao_rxInterval opts) /\ is_u32 (ao_detectMult opts) /\
  is_u32 (ao_authKeyID opts).

(** ** Names *)

Lemma parseSessionType_name s t :
  parseSessionType s = Ok t -> shortSessionType t = s /\ (t = SESSION_TYPE_SINGLE_HOP \/ t = SESSION_TYPE_MULTI_HOP).
Proof. unfold parseSessionType. repeat case_bool_decide; intros [= <-]; split; subst; auto. Qed.

Lemma parseAuthType_known s t : parseAuthType s = Ok t -> t <> AUTHENTICATION_TYPE_UNSPECIFIED.
Proof. unfold parseAuthType. repeat case_bool_decide; by intros [= <-]. Qed.

(** ** Calls *)

Lemma call_of {A} (sel : rpc_response -> option A) inp req srv r srv' :
  service_handler inp req srv = (r, srv', []) -> r <> Panic ->
  call sel inp req srv =
    (match r with Ok resp => match sel resp with Some a => Ok a | None => Panic end | Err e => Err (errCall e) | Panic => Panic end,
     srv').
Proof.
  intros E Hn. unfold call, newGRPCServer. pose proof (interceptors_spec service_handler inp req srv) as H.
  rewrite E in H. cbn in H. rewrite H. by destruct r.
Qed.

Lemma call_add inp req srv r srv' :
  AddSession (ri_env inp) (ri_create inp) req srv = (r, srv') -> r <> Panic ->
  call session_of inp (ReqAddSession req) srv = (match r with Ok s => Ok s | Err e => Err (errCall e) | Panic => Panic end, srv').
Proof.
  intros E Hn. erewrite call_of; [|cbn [service_handler]; rewrite E; reflexivity|by destruct r]. by destruct r.
Qed.

Lemma call_get inp id srv r :
  GetSession (ri_ord inp) id srv = r -> r <> Panic ->
  call session_of inp (ReqGetSession id) srv = (match r with Ok s => Ok s | Err e => Err (errCall e) | Panic => Panic end, srv).
Proof.
  intros E Hn. erewrite call_of; [|cbn [service_handler]; rewrite E; reflexivity|by destruct r]. by destruct r.
Qed.

Lemma call_delete inp d srv srv' :
  DeleteSession d srv = (Ok tt, srv') -> call empty_of inp (ReqDeleteSession d) srv = (Ok tt, srv').
Proof. intros E. erewrite call_of; [|cbn [service_handler]; rewrite E; reflexivity|done]. done. Qed.

(** ** What is shown

    The view of a session next to the options it was asked for with. *)
Record shown (opts : addSessionOptions) (v : sessionView) : Prop := {
  sh_peer : exists a, ParseAddr (ao_peer opts) = Some a /\ sv_PeerAddress v = Addr_String a;
  sh_interface : sv_InterfaceName v = ao_iface opts;
  sh_type : sv_Type v = ao_sessType opts;
  sh_state : sv_LocalState v = "Down"%string /\ sv_RemoteState v = "Down"%string;
  sh_tx : sv_DesiredMinTx v = Duration_String (ao_txInterval opts);
  sh_rx : sv_RequiredMinRx v = Duration_String (ao_rxInterval opts);
  sh_mult : sv_DetectMultiplier v = ao_detectMult opts;
  sh_auth : exists t, parseAuthType (ao_authType opts) = Ok t /\ sv_AuthType v = shortAuthType t;
}.

Lemma buildAdd_cases opts :
  match buildAddSessionRequest opts with
  | Ok req => (options_ok opts -> request_ok req) /\
      rq_PeerAddress req = ao_peer opts /\ rq_InterfaceName req = ao_iface opts /\
      parseSessionType (ao_sessType opts) = Ok (rq_Type req) /\ parseAuthType (ao_authType opts) = Ok (rq_AuthType req) /\
      rq_DesiredMinTxInterval req = Some (NewDuration (ao_txInterval opts)) /\
      rq_RequiredMinRxInterval req = Some (NewDuration (ao_rxInterval opts)) /\
      rq_DetectMultiplier req = ao_detectMult opts
  | Err _ => True
  | Panic => False
  end.
Proof.
  unfold buildAddSessionRequest. case_bool_decide; [done|].
  destruct (parseSessionType _) as [t|e|] eqn:Et; cbn [mbind go_bind]; [|done|].
  2: { unfold parseSessionType in Et. by repeat case_match. }
  destruct (parseAuthType _) as [a|e|] eqn:Ea; cbn [mbind go_bind]; [|done|].
  2: { unfold parseAuthType in Ea. by repeat case_match. }
  match goal with |- context [if ?b then _ else _] => destruct b end;
    match goal with |- context [if ?b then _ else _] => destruct b end; cbn [mbind go_bind]; try done;
    (split; [intros (_ & _ & Hm & Hk); by split|done]).
Qed.

Lemma described_shown opts req pb :
  options_ok opts -> buildAddSessionRequest opts = Ok req -> is_Some (ParseAddr (rq_PeerAddress req)) ->
  describes req pb -> shown opts (sessionToView pb).
Proof.
  intros (Htx & Hrx & _ & _) Hb [a Ha] D. pose proof (buildAdd_cases opts) as H. rewrite Hb in H.
  destruct H as (_ & Hp & Hif & Ht & Hau & Hdtx & Hdrx & Hm). constructor; cbn [sessionToView sv_PeerAddress sv_InterfaceName
    sv_Type sv_LocalState sv_RemoteState sv_DesiredMinTx sv_RequiredMinRx sv_DetectMultiplier sv_AuthType].
  - exists a. rewrite <- Hp, (de_peer _ _ D), Ha. done.
  - by rewrite (de_interface _ _ D).
  - rewrite (de_type _ _ D). by apply parseSessionType_name in Ht as [? _].
  - destruct (de_state _ _ D) as [-> ->]. done.
  - pose proof (de_tx _ _ D) as E. rewrite Hdtx in E. cbn in E. rewrite AsDuration_New in E by done.
    destruct (pb_DesiredMinTxInterval pb) as [d|]; [|done]. injection E as E. cbn. by rewrite E.
  - pose proof (de_rx _ _ D) as E. rewrite Hdrx in E. cbn in E. rewrite AsDuration_New in E by done.
    destruct (pb_RequiredMinRxInterval pb) as [d|]; [|done]. injection E as E. cbn. by rewrite E.
  - by rewrite (de_mult _ _ D).
  - exists (rq_AuthType req). split; [done|]. rewrite (de_auth _ _ D).
    by rewrite (proj2 (Z.eqb_neq _ _)) by (by apply parseAuthType_known in Hau).
Qed.

(** What is printed of a session, by format. *)
Lemma formatSession_cases pb format :
  formatSession pb format <> Panic /\
  (format = "table"%string -> formatSession pb format = Ok (tabwriter (formatSessionDetail pb))) /\
  (format ∉ ["json"; "table"; "yaml"]%string -> formatSession pb format = Err errUnsupportedFormat).
Proof.
  unfold formatSession, formatOutput. split_and!.
  - repeat case_bool_decide; by repeat case_match.
  - intros ->. by rewrite bool_decide_false, bool_decide_true.
  - rewrite !not_elem_of_cons. intros (? & ? & ? & _). by rewrite !bool_decide_false.
Qed.


End Client.

(** ** Examples *)

#[local] Existing Instance sample_times.

(** Writers that join the cells; the views are not rendered. *)
#[local] Instance sample_writers : @Writers sample_times :=
  @Build_Writers sample_times (fun _ => None) (fun _ => None)
    (fun rows => String.concat newline (String.concat " " <$> rows)) (fun t => pretty t.1).

Definition sample_rpc_input : RpcInput :=
  {| ri_env := sample_env; ri_create := sample_input 6; ri_reads := ci_reads (sample_input 6); ri_ord := id;
     ri_ordg := id; ri_ordm := id; ri_duration := 0 |}.

Definition sample_options : addSessionOptions :=
  {| default_addSessionOptions with ao_peer := "192.0.2.7"; ao_local := "192.0.2.1"; ao_txInterval := 300000000;
       ao_authType := "Keyed_SHA1"; ao_authKeyID := 9; ao_authSecret := "secret" |}.

Lemma sample_options_added :
  match sessionAddCmd sample_rpc_input "table" sample_options sample_server with (Ok _, _) => true | _ => false end = true.
Proof. vm_compute. reflexivity. Qed.


(** An output format that does not exist is noticed only after the session was made. *)
Example unsupported_format_still_adds :
  let '(r, srv') := sessionAddCmd sample_rpc_input "xml" sample_options sample_server in
  r = Err errUnsupportedFormat /\ size (m_sessions (sv_manager sample_server)) = 1%nat /\
  size (m_sessions (sv_manager srv')) = 2%nat.
Proof. vm_compute. repeat split; reflexivity. Qed.
