(* ===== verification/Shell.v ===== *)
(** * The command tree and the interactive shell of [gobfdctl]
      ([commands/root.go], [shell.go], [version.go])

    A command line comes parsed from the argument library as one of the commands
    below; [rootCmd] and [makeShellCommands] are the trees it is looked up in.  In the
    shell every line is a command of the shell's tree, run with the client and the
    output format of the process. *)

From stdpp Require Import strings pretty relations.
From Stdlib Require Import Ascii.
From S2P Require Import Prelude Config Packet Fsm Auth Netip NetipParse Strconv Flag Jitter Session SessionInv SessionSteps.
From S2P Require Import SessionProps SessionFrame Discriminator Micro Unsolicited Echo Manager ManagerSteps ManagerInv.
From S2P Require Import ManagerOps ManagerProps Transport Daemon DaemonProps Server ServerProps Rpc Agents Ctl CtlProps.

Local Open Scope Z_scope.

Section Shell.
Context `{WR : Writers} (info : BuildInfo) (quote : string -> string).

Inductive ctl_command :=
| SessionListC
| SessionShowC (arg : string)
| SessionAddC (opts : addSessionOptions)
| SessionDeleteC (arg : string)
| EchoListC
| EchoAddC (opts : addEchoOptions)
| EchoDeleteC (arg : string)
| MicroListC
| MicroAddC (opts : addMicroOptions)
| MicroDeleteC (lag : string)
| MonitorC (stream : option (list WatchSessionEventsResponse * stream_end))
| VersionC
| ShellC
| HelpC
| ExitC.

(** The child of the root a command lies under. *)
Definition parent (c : ctl_command) : string :=
  match c with
  | SessionListC | SessionShowC _ | SessionAddC _ | SessionDeleteC _ => "session"
  | EchoListC | EchoAddC _ | EchoDeleteC _ => "echo"
  | MicroListC | MicroAddC _ | MicroDeleteC _ => "micro"
  | MonitorC _ => "monitor"
  | VersionC => "version"
  | ShellC => "shell"
  | HelpC => "help"
  | ExitC => "exit"
  end.

(** The children of the two roots; the argument library adds its own help to the first. *)
Definition rootCmd : list string := ["session"; "echo"; "micro"; "monitor"; "version"; "shell"].
Definition makeShellCommands : list string := ["session"; "monitor"; "version"; "help"; "exit"].

Definition shellCommands : list (string * string) :=
  [("session list", "List all BFD sessions");
   ("session show <id>", "Show details of a BFD session");
   ("session add --peer <ip>", "Create a new BFD session");
   ("session delete <discr>", "Delete a BFD session");
   ("monitor [--current]", "Stream BFD session events");
   ("version", "Print build information");
   ("help", "Show this help message");
   ("exit / quit", "Leave the interactive shell")]%string.

Definition println (s : string) : string := (s +:+ newline)%string.

(** [%-30s]: padded with blanks on the right. *)
Definition pad30 (s : string) : string :=
  (s +:+ String.string_of_list_ascii (replicate (30 - String.length s) " "%char))%string.

Definition printShellHelp : string :=
  (println "Available commands:" +:+ println "" +:+
   String.concat "" ((fun cmd : string * string => println ("  " +:+ pad30 cmd.1 +:+ " " +:+ cmd.2)) <$> shellCommands) +:+
   println "")%string.

Definition printShellBanner : string :=
  (println "GoBFD interactive shell. Type 'help' for available commands, 'exit' to quit." +:+
   println "Press Tab for autocomplete suggestions." +:+ println "")%string.

Inductive run_error := ErrUnknownCommand | ErrCommand (e : ctl_error).

Definition plain (r : go ctl_error string * BFDServer) : go run_error string * BFDServer :=
  (match r.1 with Ok out => Ok out | Err e => Err (ErrCommand e) | Panic => Panic end, r.2).

(** A command that is found in a tree; what it prints.  The shell and the exit are not
    run here. *)
Definition run_command (inp : RpcInput) (format : string) (c : ctl_command) (srv : BFDServer)
    : go run_error string * BFDServer :=
  match c with
  | SessionListC => plain (sessionListCmd inp format srv)
  | SessionShowC arg => plain (sessionShowCmd inp format arg srv)
  | SessionAddC opts => plain (sessionAddCmd inp format opts srv)
  | SessionDeleteC arg => plain (sessionDeleteCmd inp arg srv)
  | EchoListC => plain (echoListCmd inp format srv)
  | EchoAddC opts => plain (echoAddCmd inp opts srv)
  | EchoDeleteC arg => plain (echoDeleteCmd inp arg srv)
  | MicroListC => plain (microListCmd inp format srv)
  | MicroAddC opts => plain (microAddCmd inp opts srv)
  | MicroDeleteC lag => plain (microDeleteCmd quote inp lag srv)
  | MonitorC stream =>
      let '(lines, r) := monitorCmd format stream in
      (match r with Ok _ => Ok (String.concat "" lines) | Err e => Err (ErrCommand e) | Panic => Panic end, srv)
  | VersionC => (Ok (println (Full info "gobfdctl")), srv)
  | HelpC => (Ok printShellHelp, srv)
  | ShellC | ExitC => (Ok "", srv)
  end.

Definition dispatch (tree : list string) (inp : RpcInput) (format : string) (c : ctl_command) (srv : BFDServer)
    : go run_error string * BFDServer :=
  if bool_decide (parent c ∈ tree) then run_command inp format c srv else (Err ErrUnknownCommand, srv).

(** [runShell]: the lines until the end of the input, each with the inputs of its
    call; what each printed, and whether the shell was left by [exit]. *)
Fixpoint shell_lines (format : string) (lines : list (RpcInput * ctl_command)) (srv : BFDServer)
    : list (go run_error string) * BFDServer :=
  match lines with
  | [] => ([], srv)
  | (inp, c) :: lines =>
      match c with
      | ExitC => ([], srv)
      | _ =>
          let '(r, srv) := dispatch makeShellCommands inp format c srv in
          let '(rs, srv) := shell_lines format lines srv in
          (r :: rs, srv)
      end
  end.

(** [Execute] of any other command: the exit code. *)
Definition Execute (inp : RpcInput) (format : string) (c : ctl_command) (srv : BFDServer)
    : Z * go run_error string * BFDServer :=
  let '(r, srv) := dispatch rootCmd inp format c srv in
  (match r with Ok _ => 0 | Err _ => 1 | Panic => 2 end, r, srv).

(** The commands a shell session runs: those before the first [exit]. *)
Fixpoint until_exit (lines : list (RpcInput * ctl_command)) : list (RpcInput * ctl_command) :=
  match lines with
  | [] => []
  | (_, ExitC) :: _ => []
  | l :: lines => l :: until_exit lines
  end.

(** The same commands, one process for each. *)
Fixpoint processes (format : string) (lines : list (RpcInput * ctl_command)) (srv : BFDServer)
    : list (go run_error string) * BFDServer :=
  match lines with
  | [] => ([], srv)
  | (inp, c) :: lines =>
      let '(_, r, srv) := Execute inp format c srv in
      let '(rs, srv) := processes format lines srv in
      (r :: rs, srv)
  end.

(** The commands both trees have. *)
Definition shared (c : ctl_command) : Prop := parent c ∈ ["session"; "monitor"; "version"]%string.

(** A shell session of commands of both trees does what the commands do one by one:
    the same answers, and the daemon is left in the same state. *)
Theorem shell_is_processes format lines srv :
  Forall (fun l : RpcInput * ctl_command => shared l.2) (until_exit lines) ->
  shell_lines format lines srv = processes format (until_exit lines) srv.
Proof.
  revert srv. induction lines as [|[inp c] lines IH]; intros srv; [done|].
  destruct (decide (parent c = "exit"%string)) as [E|E]; [by destruct c|].
  assert (Hu : until_exit ((inp, c) :: lines) = (inp, c) :: until_exit lines) by (by destruct c). rewrite Hu.
  intros [Hc H]%Forall_cons. cbn [snd] in Hc. cbn [processes]. unfold Execute.
  assert (Hd : dispatch rootCmd inp format c srv = dispatch makeShellCommands inp format c srv).
  { unfold dispatch. rewrite !bool_decide_eq_true_2; [done|..]; unfold shared, rootCmd, makeShellCommands in *; set_solver. }
  rewrite Hd. destruct (dispatch makeShellCommands inp format c srv) as [r srv'] eqn:Er.
  rewrite <- IH by done. cbn [shell_lines]. rewrite Er. by destruct c.
Qed.

(** Commands for echo sessions and Micro-BFD groups are unknown to the shell. *)
Theorem shell_has_no_echo_and_micro format inp c srv :
  parent c = "echo"%string \/ parent c = "micro"%string ->
  dispatch makeShellCommands inp format c srv = (Err ErrUnknownCommand, srv) /\
  dispatch rootCmd inp format c srv = run_command inp format c srv.
Proof.
  intros H. unfold dispatch. rewrite bool_decide_eq_false_2, bool_decide_eq_true_2; [done|..];
    unfold rootCmd, makeShellCommands; destruct H as [-> | ->]; set_solver.
Qed.

End Shell.

(** What the help shows. *)
Example shell_help_line :
  String.substring 21 62 printShellHelp = "  session list                   List all BFD sessions"%string +:+ newline +:+ "  sessi".
Proof. vm_compute. reflexivity. Qed.
